(* ===== verification/_CoqProject ===== *)
-Q . S2P
Prelude.v
PyStr.v
PyFloat.v
PyDict.v
PyJson.v
PyTime.v
Sql.v
PyRegex.v
AlertConfig.v
AlertModels.v
Fingerprint.v
AlertDb.v
AlertStore.v
AlertIntegrity.v
AlertStoreOps.v
AlertStoreFacts.v
AlertQueueFacts.v
Suppression.v
AlertPipeline.v
RansomwareRisk.v
AdaptiveDetector.v
Containment.v
ContainmentPolicy.v
ContainmentFacts.v
Correlation.v
Ipc.v
Scheduler.v
HealthModels.v
HealthEval.v
HealthReport.v
HealthRecovery.v
HealthFacts.v
TypoScoring.v
ShellTokenizer.v
PyRepr.v
JsonCanon.v
ActionQueue.v
ActionHandler.v
ActionQueueFacts.v
HealthRegistry.v
HealthStore.v
FaultInjection.v
HealthManager.v
HealthManagerFacts.v
License.v
LicenseManager.v
LicenseFacts.v
TextRegex.v
Utf8.v
ShellConfig.v
ShellScanner.v
ShellScannerFacts.v
SafeShell.v
SafeShellFacts.v
ShellAdapter.v
ShellJournal.v
ClickFixEvidence.v
ClickFixService.v
NativeJournal.v
ClickFixFacts.v
ClickFixClassifier.v
ClickFixDoctor.v
TelemetryModels.v
TelemetryNormalizer.v
TelemetryStore.v
TelemetryAggregator.v
TelemetryAggregatorFacts.v
TelemetryBaseline.v
TelemetryAnomaly.v
TelemetryCorrelation.v
TelemetryManager.v
TelemetryManagerFacts.v
TelemetryTraining.v
TelemetryHistory.v
PostureAssurance.v
PostureAssuranceFacts.v
DeviceTrust.v
DeviceTrustFacts.v
ZeroTrustPosture.v
AttestationPolicy.v
