(* ===== verification/Prelude.v ===== *)
(** * Verification library of the macOS Security Audit Agent (MSAA)

    MSAA watches a Mac: detectors hand it events, it stores and announces them, it
    judges whether a process behaves like ransomware and may contain it, it watches
    the health of its own sensors, and it looks at commands and names for tricks. This
    library models the decision core of the Python package [src/mac_audit_agent] as
    executable functions and proves what that core promises. File names below are
    relative to that directory.

    ** The parts, and how they meet

    - Alerting ([alerts/]). [ResilientAlertPipeline] is the boundary in front of
      [ResilientEventStore]: it checks the clock, counts bursts per source, asks
      [SuppressionPolicy] for a matching rule, hands the event to the store and keeps a
      bounded fallback journal for when the store fails. The store appends to SQLite
      tables in one transaction: events in a hash chain, one aggregate per
      fingerprint, a bounded notification queue, metrics, and an audit chain.
      Users answer alerts with actions, kept in a queue of requests until a handler,
      perhaps in another process, deals with them.
    - Ransomware ([anti_ransomware/]). File events and signals become a risk
      ([risk_engine], [behavior_engine], [adaptive_detector]), correlated over windows
      and process trees; a decision to contain goes through a lease and the native
      boundary, leaves a chain of custody, and is asked for over an authenticated IPC.
    - Sensor health ([health/]). A coordinator samples the provider of every sensor of a
      manifest, lets faults be injected in development, passes failures on to the
      sensors that depend on them, evaluates each sample into a state, smooths it by
      hysteresis, recovers within a budget, and persists a report with its transitions.
    - Performance ([performance/]). Background work is scheduled under limits that
      depend on a persisted resource profile.
    - Licensing ([licensing/]). A signed document is verified on the installation it is
      stored on; whether it counts decides which operator actions are unlocked, and
      every decision of note goes to a hash-chained audit log.
    - ClickFix protection ([clickfix/]). [safe_shell.py] stands between the terminal and
      the user's shell: it collects each paste, has it scanned under the loaded policy,
      and forwards, holds or drops it; [adapter_cli.py] judges a line for shells with
      hooks. The scanner splits a command into words, decodes literals and applies its
      rules. The guard's service ([service.py]) watches the native event-tap sensor,
      keeps a hash-chained evidence database ([evidence.py]) and takes over the journal
      the native sensor writes ([native_journal.py]), alerting once per incident;
      [doctor] tells how much of the protection is proven to run.
    - Behavioural telemetry ([telemetry/]). Events become counts without names
      ([normalizer.py], [privacy.py]), counted in buckets by window, user and context
      ([aggregator.py]); robust baselines ([baseline.py]) say what is usual, deviations
      become anomalies ([anomaly.py]), anomalies incidents, and some of these alerts
      ([correlation.py]). A manager ([manager.py]) feeds them from a bounded queue.
    - Posture and zero trust ([continuous_security_assurance.py], [zero_trust/]). Evidence
      of the other detectors becomes weighted signals, scores and a snapshot with a
      digest; two snapshots become changes and alerts; a snapshot and a device profile
      become an attestation with a trust state. A second, smaller posture counts what the
      collectors proved, resolvers and connections being judged against a policy.
    - Name analysis. [anti_typosquatting/scoring.py] rates lookalike names.

    ** The files

    Foundations: this prelude (exceptions as [res], stateful code as [M], triples,
    lists, tactics); PyStr, PyFloat, PyDict, PyJson, PyTime, PyRepr, PyRegex (what the
    program uses of Python: text, IEEE floats executed on the standard library's
    [spec_float], ordered dicts, JSON, datetimes, [repr], [int] and [float] of a value,
    JSON columns, regular expressions); JsonCanon (canonical JSON texts and the
    equivalence of the values they stand for); Sql
    (a connection with committed and working tables, each statement of which may
    fail).

    Alerting: AlertConfig ([alerts/configuration.py]), AlertModels
    ([resilient_models.py]), Fingerprint ([fingerprint.py]), AlertDb, AlertStore,
    AlertIntegrity and AlertStoreOps ([resilient_store.py]), Suppression
    ([suppression.py]), AlertPipeline ([resilient_pipeline.py]), ActionQueue
    ([action_model.py], [action_queue.py], [action_trace.py]), ActionHandler
    ([action_handler.py], [ui/routes.py], [ui/pending_routes.py],
    [ui/gui_context.py]). Their theorems are in AlertStoreFacts, AlertQueueFacts
    and ActionQueueFacts, and at the end of the files that have no Facts file.

    Ransomware: RansomwareRisk ([models.py], [risk_engine.py], [behavior_engine.py],
    [behavior_windows.py], [sabotage.py]), AdaptiveDetector ([adaptive_detector.py]),
    Containment ([leases.py], [containment_orchestrator.py], [evidence.py]),
    ContainmentPolicy ([containment.py], [containment_policy.py], [rules.py],
    [containment_production.py], [compatibility_profile.py], [enhanced_detection.py]),
    Correlation ([multi_window.py], [process_tree.py]), Ipc ([ipc_protocol.py]), with
    ContainmentFacts.

    Health and performance: HealthModels ([health/models.py], [policies.py]),
    HealthEval and HealthReport ([evaluator.py]), HealthRecovery ([recovery.py]),
    HealthRegistry ([registry.py]), HealthStore ([persistence.py]), FaultInjection
    ([fault_injection.py]), HealthManager ([manager.py]), Scheduler
    ([performance/resource_budget.py], [work_scheduler.py]), with HealthFacts and
    HealthManagerFacts.

    Licensing: License ([licensing/models.py], [policy.py], [verifier.py]) and
    LicenseManager ([storage.py], [manager.py], [registration.py]) with LicenseFacts.

    ClickFix: ShellTokenizer ([clickfix/shell_tokenizer.py]), TextRegex and Utf8 (Python's
    [re] over code points, patterns being the source's own text, and UTF-8), ShellConfig
    ([shell_config.py]), ShellScanner ([shell_scanner.py]), SafeShell ([safe_shell.py],
    [shell_events.py]), ShellAdapter ([adapter_cli.py]), ShellJournal
    ([shell_journal.py]), with ShellScannerFacts and SafeShellFacts; ClickFixEvidence
    ([evidence.py], [models.py]), ClickFixService ([service.py], [policy.py]), NativeJournal
    ([native_journal.py] and its caller in [cli.py]), ClickFixClassifier ([classifier.py]),
    ClickFixDoctor ([health.py]), with ClickFixFacts.

    Telemetry: TelemetryModels ([telemetry/policies.py], [models.py],
    [workstation_profiles.py], [false_positive_filter.py]), TelemetryNormalizer
    ([privacy.py], [normalizer.py]), TelemetryStore ([storage.py]), TelemetryAggregator
    ([aggregator.py]), TelemetryBaseline ([baseline.py]), TelemetryAnomaly
    ([anomaly.py]), TelemetryCorrelation ([correlation.py]), TelemetryManager
    ([manager.py]), with TelemetryAggregatorFacts, TelemetryManagerFacts,
    TelemetryTraining and TelemetryHistory.

    Posture: PostureAssurance ([continuous_security_assurance.py]), DeviceTrust
    ([zero_trust/device_identity.py]), ZeroTrustPosture ([posture.py]), AttestationPolicy
    ([attestation_policy.py], [automatic_validation.py], and what they use of Python's
    [ipaddress]), with PostureAssuranceFacts and DeviceTrustFacts.

    Names: TypoScoring.

    ** How the state corresponds

    A dataclass or an object with attributes is a Record, its fields under the
    source's names with a short prefix; a dict is an association list in insertion
    order (PyDict), a [deque] a list, a set a [gset]; a table is the list of its rows in
    rowid order; a method is a function from the state to a result and the state,
    an exception leaving the state it was raised in. Threads are sequences of the
    atomic sections of the code: the scheduler's operations hold its lock, and the
    workers' steps come between them in any order; a call of the telemetry manager, which
    mostly holds no lock, is a program of sections ([prog]), one for each access to the
    metrics, the queue or the policy and for each operation of an engine on the
    repository, and a pool of threads runs such programs one section at a time
    ([pool_step]). A text whose size the code measures in bytes is measured so
    ([utf8_size]). Time, file sizes, identifiers,
    digests and statement failures are the environment, a class whose functions are
    asked at a counter of interactions; theorems hold for every environment, and
    witnesses run in a concrete one.

    ** What the theorems show

    - C2 and C3: redacted attributes are bounded and free of secrets, a validated event is
      well-formed.
    - C5 to C8 and C18: ingestion is atomic and counted, both hash chains verify and
      changing a row is evident or a collision; a failing store leaves a receipt. C33: the
      action queue refines a finite map.
    - C17: every event of the telemetry is accounted for under any interleaving of the
      sections of any calls, and a drop shows in the health for good. C11: an event is
      counted once. C1 and C20, of a batch that is processed undisturbed: a grave severity
      has its history whatever the threads did before, and a serious deviation is not
      trained on. C13: an incident is announced once, for a reason.
    - C14, C22 and C28: a posture evaluation reports exactly the differences both snapshots
      prove, a trusted device has no known concern and proven coverage, and an
      attestation is read back as it was saved.
    - C25 to C27: containment signals the exact process of its lease and records every
      transition; the reconciliation of an expired pause ends its lease, resuming the process
      if that is the rollback action.
    - C4, C10, C15, C19, C21 and C37: the tokenizer inverts shell quoting, decoding is
      bounded. Of the shell proxy: every write to the shell, in any session, is explained by
      the state the session was in (text outside a paste, a paste the policy lets through, a
      held paste whose challenge was typed in time, or a read passed unscanned while the
      shell is not in the foreground); in the foreground a read is filtered paste by paste,
      nothing is lost in audit mode, and otherwise a pasted download into an interpreter
      is not sent.
    - C12, C23 and C29: a native incident whose paste shortcut was seen is on record
      before the paste passes, the native journal is taken over once, and a refused record
      blocks it.
    - C16 and C30: operator actions need a licence that verifies here and now, the
      licensing log verifies after any run whose records were written whole and in ASCII (a
      line separator in a record, a short write or an unreadable log break the chain).
    - C31: the edit distance is the least number of edits, and a single typing error is one
      edit away. C34 and C35: a nonce buys one
      message, an action request carries the authority of its role.
    - C24, C36 and C38 to C40: a sensor is called healthy exactly when every one of its
      conditions is met, reports never overclaim health, recovery stays in budget, the
      scheduler keeps its limits. C9: a cycle reports every expected
      sensor, and one that proved nothing as unhealthy.
      C32: sensors are repaired after those they depend on.

    ** Bounds and fuel

    Recursion follows the data wherever it can. The rest: the drain of the scheduler
    gets the length of its heap (each turn removes an entry or stops); eviction from
    an ordered dict gets its length; the climb to a process root gets one more than the
    number of registered processes and returns in every state ([root_always_found]);
    the order of repair gets one more than the number of sensors to repair, each level
    of its recursion being on another of them ([repairs_in_dependency_order]);
    regular-expression search gets one more than the length of its text, a star any fuel
    from that length on ([run_complete_fuel]); taking a batch from the telemetry queue gets
    1,000 turns, more than any shipped policy lets a batch hold ([shipped_batches]);
    the loop over a read of the shell proxy
    gets one more than its length, each turn going past a marker; a numeral gets
    [log2 n + 1] digits.

    ** Not modelled

    The desktop interface ([ui/], but for routes and the process check), the monitor and
    its collectors, the core SQLite layer ([storage.py]), reports, feeds, installers and
    the native sensor: presentation, I/O around macOS tools and marshalling, with little
    state of their own to reason about. Of the modelled parts, left out are schema
    creation and migration, [to_dict] renderings nothing else reads, and the
    reading of configuration files. Parameters stand for what is not in the
    repository's Python code: digests, signatures, the activation service, the text of floats, Unicode tables, the native
    process boundary, code-signing probes, random identifiers, the evidence snapshot service
    the action handler imports, JSON texts inside telemetry metadata, HMAC digests, the local time
    zone, monotonic clocks, and the core database that the telemetry reads and alerts.
    Settings reconciliation, the candidate generator of the lookalike engine, the timestamps
    and commands kept with automatic evidence, the pacing of evidence and the
    texts that route a user to a control are left out too: tables and
    presentation around what is modelled. *)

From stdpp Require Export base tactics option list strings gmap sets sorting.
From Stdlib Require Export ZArith Lia.

#[global] Open Scope string_scope.
#[global] Open Scope list_scope.
#[global] Open Scope Z_scope.

(** ** Exceptions and fallible code

    A Python exception is a value carrying its class and its message; code that
    may raise returns a [res]. *)

Inductive exn :=
| ValueError (msg : string)
| PermissionError (msg : string)
| KeyError (msg : string)
| LookupError (msg : string)
| TypeError (msg : string)
| EventValidationError (msg : string)
| OperationalError (msg : string)
| IntegrityError (msg : string)
| OSError (msg : string)
| AttributeError (msg : string)
| ZlibError (msg : string)
| RuntimeError (msg : string)
| OverflowError (msg : string)
| ZeroDivisionError (msg : string)
| LicenseVerificationError (code msg : string).

#[export] Instance exn_eq_dec : EqDecision exn.
Proof. solve_decision. Defined.

(** The text [str(exc)] of the exceptions the code looks into. *)
Definition exn_text (e : exn) : string :=
  match e with
  | ValueError m | PermissionError m | KeyError m | LookupError m | TypeError m | EventValidationError m
  | OperationalError m | IntegrityError m | OSError m | AttributeError m | ZlibError m
  | RuntimeError m | OverflowError m | ZeroDivisionError m
  | LicenseVerificationError _ m => m
  end.

Inductive res (A : Type) :=
| Ok (a : A)
| Raise (e : exn).
Arguments Ok {A} a.
Arguments Raise {A} e.

#[export] Instance res_ret : MRet res := fun A a => Ok a.
#[export] Instance res_bind : MBind res := fun A B k m =>
  match m with Ok a => k a | Raise e => Raise e end.

(** [if cond: raise e] *)
Definition raise_if (c : bool) (e : exn) : res unit :=
  if c then Raise e else Ok tt.

Definition is_ok {A} (r : res A) : bool :=
  match r with Ok _ => true | Raise _ => false end.

Lemma raise_if_ok (c : bool) (e : exn) : raise_if c e = Ok tt <-> c = false.
Proof. destruct c; simpl; split; congruence. Qed.

Lemma res_bind_ok {A B} (m : res A) (k : A -> res B) (b : B) :
  (m ≫= k) = Ok b <-> exists a, m = Ok a /\ k a = Ok b.
Proof.
  destruct m as [a|e]; cbn; split.
  - intros H. by exists a.
  - by intros (a' & [= ->] & H).
  - done.
  - by intros (a' & ? & _).
Qed.

Lemma res_bind_unit_ok {B} (m : res unit) (k : unit -> res B) (b : B) :
  (m ≫= k) = Ok b <-> m = Ok tt /\ k tt = Ok b.
Proof.
  rewrite res_bind_ok. split.
  - intros ([] & H1 & H2). by split.
  - intros [H1 H2]. by exists tt.
Qed.

(** ** Stateful code that may raise

    A Python method that mutates an object and may raise: the state survives
    the exception, as attribute assignments do. *)

Definition M (S A : Type) : Type := S -> res A * S.

#[export] Instance M_ret {S} : MRet (M S) := fun A a s => (Ok a, s).
#[export] Instance M_bind {S} : MBind (M S) := fun A B k m s =>
  match m s with
  | (Ok a, s') => k a s'
  | (Raise e, s') => (Raise e, s')
  end.

Section StateMonad.
Context {S : Type}.

Definition get_st : M S S := fun s => (Ok s, s).
Definition put_st (s : S) : M S unit := fun _ => (Ok tt, s).
Definition modify_st (f : S -> S) : M S unit := fun s => (Ok tt, f s).
Definition raise_st {A} (e : exn) : M S A := fun s => (Raise e, s).
Definition lift_res {A} (r : res A) : M S A := fun s => (r, s).
Definition gets {A} (f : S -> A) : M S A := fun s => (Ok (f s), s).

(** [try: m except Exception as e: h e] *)
Definition try_except {A} (m : M S A) (h : exn -> M S A) : M S A := fun s =>
  match m s with
  | (Ok a, s') => (Ok a, s')
  | (Raise e, s') => h e s'
  end.

Definition when_st (c : bool) (m : M S unit) : M S unit :=
  if c then m else mret tt.

Lemma bind_ok {A B} (m : M S A) (k : A -> M S B) s b s' :
  (m ≫= k) s = (Ok b, s') <-> exists a s1, m s = (Ok a, s1) /\ k a s1 = (Ok b, s').
Proof.
  unfold mbind, M_bind. destruct (m s) as [[a|e] s1]; split.
  - intros H. by exists a, s1.
  - by intros (a' & s1' & [= -> ->] & H).
  - done.
  - by intros (a' & s1' & ? & _).
Qed.

(** A Hoare-style triple: started in [P], [m] ends in [Q v] when it returns
    [v] and in [E e] when it raises [e]. *)
Definition triple {A} (P : S -> Prop) (m : M S A)
    (Q : A -> S -> Prop) (E : exn -> S -> Prop) : Prop :=
  forall s, P s ->
    match m s with
    | (Ok a, s') => Q a s'
    | (Raise e, s') => E e s'
    end.

Lemma triple_ret {A} (a : A) P Q E :
  (forall s, P s -> Q a s) -> triple P (mret a) Q E.
Proof. intros H s Hs. by apply H. Qed.

Lemma triple_bind {A B} (m : M S A) (k : A -> M S B) P R Q E :
  triple P m R E -> (forall a, triple (R a) (k a) Q E) -> triple P (m ≫= k) Q E.
Proof.
  intros Hm Hk s Hs. specialize (Hm s Hs). unfold mbind, M_bind.
  destruct (m s) as [[a|e] s1]; [by apply Hk | done].
Qed.

Lemma triple_weaken {A} (m : M S A) (P P' : S -> Prop) (Q Q' : A -> S -> Prop)
    (E E' : exn -> S -> Prop) :
  triple P m Q E -> (forall s, P' s -> P s) -> (forall a s, Q a s -> Q' a s) ->
  (forall e s, E e s -> E' e s) -> triple P' m Q' E'.
Proof.
  intros Hm HP HQ HE s Hs. specialize (Hm s (HP s Hs)).
  destruct (m s) as [[a|e] s1]; auto.
Qed.

(** A computation that keeps [I] whether it returns or raises. *)
Definition preserves {A} (I : S -> Prop) (m : M S A) : Prop :=
  triple I m (fun _ => I) (fun _ => I).

Lemma preserves_ret {A} (I : S -> Prop) (a : A) : preserves I (mret a).
Proof. by intros s Hs. Qed.

Lemma preserves_bind {A B} (I : S -> Prop) (m : M S A) (k : A -> M S B) :
  preserves I m -> (forall a, preserves I (k a)) -> preserves I (m ≫= k).
Proof. intros Hm Hk. by apply triple_bind with (R := fun _ => I). Qed.

Lemma preserves_get (I : S -> Prop) : preserves I get_st.
Proof. by intros s Hs. Qed.

Lemma preserves_gets {A} (I : S -> Prop) (f : S -> A) : preserves I (gets f).
Proof. by intros s Hs. Qed.

Lemma preserves_raise {A} (I : S -> Prop) e : preserves I (raise_st (A := A) e).
Proof. by intros s Hs. Qed.

Lemma preserves_lift {A} (I : S -> Prop) (r : res A) : preserves I (lift_res r).
Proof. intros s Hs. unfold lift_res. by destruct r. Qed.

Lemma preserves_modify (I : S -> Prop) f :
  (forall s, I s -> I (f s)) -> preserves I (modify_st f).
Proof. intros H s Hs. by apply H. Qed.

Lemma preserves_when (I : S -> Prop) c m : preserves I m -> preserves I (when_st c m).
Proof. intros H. destruct c; [done | apply preserves_ret]. Qed.

Lemma preserves_try {A} (I : S -> Prop) (m : M S A) h :
  preserves I m -> (forall e, preserves I (h e)) -> preserves I (try_except m h).
Proof.
  intros Hm Hh s Hs. specialize (Hm s Hs). unfold try_except.
  destruct (m s) as [[a|e] s1]; [done | by apply Hh].
Qed.
End StateMonad.

Create HintDb msaa discriminated.
#[export] Hint Resolve preserves_ret preserves_bind preserves_get preserves_gets
  preserves_raise preserves_lift preserves_when preserves_try : msaa.

(** ** Lists *)

(** What follows the last element of a list, one element in. *)
Lemma default_last_cons {A B} (f : A -> B) (p : B) (x : A) (l : list A) :
  default p (f <$> last (x :: l)) = default (f x) (f <$> last l).
Proof. rewrite last_cons. by destruct (last l). Qed.

Section Lists.
Context {A : Type}.

(** [len(l)] *)
Definition zlen (l : list A) : Z := Z.of_nat (length l).

(** [l[-n:]] for a positive [n] *)
Definition last_n (n : nat) (l : list A) : list A := drop (length l - n) l.

(** [while q and p(q[0]): q.popleft()] *)
Fixpoint drop_while (p : A -> bool) (q : list A) : list A :=
  match q with
  | [] => []
  | x :: q' => if p x then drop_while p q' else q
  end.

Lemma zlen_nonneg (l : list A) : 0 <= zlen l.
Proof. unfold zlen. lia. Qed.

Lemma zlen_app (l k : list A) : zlen (l ++ k) = zlen l + zlen k.
Proof. unfold zlen. rewrite length_app. lia. Qed.

Lemma zlen_cons x (l : list A) : zlen (x :: l) = zlen l + 1.
Proof. unfold zlen. simpl. lia. Qed.

Lemma length_last_n n (l : list A) : (length (last_n n l) <= n)%nat.
Proof. unfold last_n. rewrite length_drop. lia. Qed.

Lemma drop_while_suffix p (q : list A) : exists pre, q = pre ++ drop_while p q /\ Forall (fun x => p x = true) pre.
Proof.
  induction q as [|x q IH]; simpl.
  - by exists [].
  - destruct (p x) eqn:Hp.
    + destruct IH as (pre & Hq & HF). exists (x :: pre). split; [by rewrite Hq at 1|].
      by constructor.
    + by exists [].
Qed.

Lemma drop_while_length p (q : list A) : (length (drop_while p q) <= length q)%nat.
Proof.
  induction q as [|x q IH]; simpl; [lia|]. destruct (p x); simpl; lia.
Qed.

Lemma drop_while_head p (q : list A) x q' : drop_while p q = x :: q' -> p x = false.
Proof.
  induction q as [|y q IH]; simpl; [done|]. destruct (p y) eqn:Hp; [done|].
  by intros [= -> ->].
Qed.

Lemma drop_while_subset p (q : list A) x : x ∈ drop_while p q -> x ∈ q.
Proof.
  destruct (drop_while_suffix p q) as (pre & Hq & _). intros Hx.
  rewrite Hq. apply elem_of_app. by right.
Qed.

(** [while len(q) > cap: q.popleft(); n += 1] *)
Fixpoint trim_front (cap : Z) (q : list A) (n : Z) : list A * Z :=
  match q with
  | [] => ([], n)
  | x :: q' => if cap <? zlen q then trim_front cap q' (n + 1) else (q, n)
  end.

Lemma trim_front_bound cap (q : list A) n : 0 <= cap -> zlen (trim_front cap q n).1 <= cap.
Proof.
  intros Hc. revert n. induction q as [|x q IH]; intros n; simpl; [unfold zlen; simpl; lia|].
  destruct (Z.ltb_spec cap (zlen (x :: q))) as [|Hle]; [apply IH|exact Hle].
Qed.

Lemma trim_front_suffix cap (q : list A) n : exists pre, q = pre ++ (trim_front cap q n).1.
Proof.
  revert n. induction q as [|x q IH]; intros n; simpl; [by exists []|].
  destruct (cap <? _); [|by exists []]. destruct (IH (n + 1)) as [pre Hq]. exists (x :: pre).
  simpl. by rewrite <- Hq.
Qed.

(** What is dropped is counted. *)
Lemma trim_front_count cap (q : list A) n : (trim_front cap q n).2 = n + zlen q - zlen (trim_front cap q n).1.
Proof.
  revert n. induction q as [|x q IH]; intros n; simpl; [unfold zlen; simpl; lia|].
  destruct (cap <? _); [|simpl; lia]. rewrite IH, zlen_cons. lia.
Qed.

Lemma trim_front_id cap (q : list A) n : zlen q <= cap -> trim_front cap q n = (q, n).
Proof. intros Hq. destruct q as [|x q]; [done|]. simpl. by rewrite (proj2 (Z.ltb_ge _ _)). Qed.

(** The first element satisfying [p], in order. *)
Fixpoint find_first (p : A -> bool) (l : list A) : option A :=
  match l with
  | [] => None
  | x :: l' => if p x then Some x else find_first p l'
  end.

Lemma find_first_Some p (l : list A) x :
  find_first p l = Some x -> x ∈ l /\ p x = true.
Proof.
  induction l as [|y l IH]; simpl; [done|]. destruct (p y) eqn:Hy.
  - intros [= ->]. split; [constructor | done].
  - intros H. destruct (IH H) as [? ?]. split; [by constructor | done].
Qed.

Lemma find_first_None p (l : list A) :
  find_first p l = None <-> Forall (fun x => p x = false) l.
Proof.
  induction l as [|y l IH]; simpl; [done|]. rewrite Forall_cons.
  destruct (p y) eqn:Hy; [naive_solver | rewrite IH; naive_solver].
Qed.

Lemma find_first_ext p q (l : list A) :
  (forall x, x ∈ l -> p x = q x) -> find_first p l = find_first q l.
Proof.
  induction l as [|y l IH]; simpl; intros H; [done|].
  rewrite (H y); [|constructor]. rewrite IH; [done|]. intros x Hx. apply H. by constructor.
Qed.
End Lists.

(** [sum(f(x) for x in l)] *)
Definition zsum {A} (f : A -> Z) (l : list A) : Z := foldr (fun x acc => f x + acc) 0 l.

Lemma zsum_app {A} (f : A -> Z) l k : zsum f (l ++ k) = zsum f l + zsum f k.
Proof. induction l as [|x l IH]; simpl; [done|]. unfold zsum in *. simpl. lia. Qed.

Lemma zsum_nonneg {A} (f : A -> Z) l : Forall (fun x => 0 <= f x) l -> 0 <= zsum f l.
Proof. induction 1; unfold zsum in *; simpl; lia. Qed.

(** [sum(bool(p(x)) for x in l)] *)
Definition zcount {A} (p : A -> bool) (l : list A) : Z := zlen (filter (fun x => p x = true) l).

Lemma existsb_none {A} (p : A -> bool) (l : list A) : existsb p l = false <-> Forall (fun x => p x = false) l.
Proof.
  induction l as [|x l IH]; cbn; [by split|]. by rewrite Forall_cons, orb_false_iff, IH.
Qed.

Lemma zcount_cons {A} (p : A -> bool) x l : zcount p (x :: l) = (if p x then 1 else 0) + zcount p l.
Proof.
  unfold zcount. rewrite filter_cons. destruct (p x); [rewrite decide_True by done; rewrite zlen_cons; lia|by rewrite decide_False].
Qed.

(** The set of the images of a list, its size as a Python [len]. *)
Definition distinct {A} (f : A -> string) (l : list A) : gset string := list_to_set (f <$> l).

Lemma elem_of_distinct {A} (f : A -> string) (l : list A) k :
  k ∈ distinct f l <-> exists x, x ∈ l /\ f x = k.
Proof.
  unfold distinct. rewrite elem_of_list_to_set, list_elem_of_fmap. naive_solver.
Qed.

Lemma distinct_mono {A} (f : A -> string) l k :
  (forall x, x ∈ l -> x ∈ k) -> distinct f l ⊆ distinct f k.
Proof. intros H x. rewrite !elem_of_distinct. naive_solver. Qed.

(** Marking one more element of [K] as seen leaves fewer unseen ones. *)
Lemma size_unseen (K seen : gset string) k :
  k ∈ K -> k ∉ seen -> (size (K ∖ ({[k]} ∪ seen)) < size (K ∖ seen))%nat.
Proof.
  intros HK Hs. assert (Hk : k ∈ K ∖ seen) by by apply elem_of_difference.
  assert (Hsub : K ∖ ({[k]} ∪ seen) ⊆ (K ∖ seen) ∖ {[k]}) by set_solver.
  apply subseteq_size in Hsub. rewrite (size_difference (K ∖ seen) {[k]}) in Hsub by by apply singleton_subseteq_l.
  rewrite size_singleton in Hsub. assert (size (K ∖ seen) <> 0)%nat; [|lia].
  intros H0. apply size_empty_inv in H0. set_solver.
Qed.

(** ** Automation *)

(** Split on every boolean test left in the goal or the context. *)
Ltac case_bool :=
  repeat match goal with
  | H : context [if ?b then _ else _] |- _ => destruct b eqn:?
  | |- context [if ?b then _ else _] => destruct b eqn:?
  end.

(** Turn boolean tests on integers into propositions. *)
Ltac b2p :=
  repeat match goal with
  | H : (_ && _) = true |- _ => apply andb_true_iff in H; destruct H
  | H : (_ || _) = false |- _ => apply orb_false_iff in H; destruct H
  | H : negb _ = true |- _ => apply negb_true_iff in H
  | H : negb _ = false |- _ => apply negb_false_iff in H
  | H : (_ <? _) = true |- _ => apply Z.ltb_lt in H
  | H : (_ <? _) = false |- _ => apply Z.ltb_ge in H
  | H : (_ <=? _) = true |- _ => apply Z.leb_le in H
  | H : (_ <=? _) = false |- _ => apply Z.leb_gt in H
  | H : (_ =? _) = true |- _ => apply Z.eqb_eq in H
  | H : (_ =? _) = false |- _ => apply Z.eqb_neq in H
  | H : bool_decide _ = true |- _ => apply bool_decide_eq_true in H
  | H : bool_decide _ = false |- _ => apply bool_decide_eq_false in H
  end.
