(* ===== verification/PyStr.v ===== *)
(** Python strings as the program uses them.

    A [str] is a Rocq [string] whose characters are code points; the program's
    identifiers, field names and messages are ASCII, and the case and
    whitespace functions below are the ASCII ones. *)

From S2P Require Import Prelude.
From Stdlib Require Import Ascii.

(** ** Characters *)

Definition code (c : ascii) : Z := Z.of_N (N_of_ascii c).

Definition in_range (lo hi : Z) (c : ascii) : bool := (lo <=? code c) && (code c <=? hi).

Definition is_upper : ascii -> bool := in_range 65 90.
Definition is_lower : ascii -> bool := in_range 97 122.
Definition is_digit : ascii -> bool := in_range 48 57.
Definition is_alpha (c : ascii) : bool := is_upper c || is_lower c.
Definition is_alnum (c : ascii) : bool := is_alpha c || is_digit c.

(** [c.isspace()]: tab, newline, vertical tab, form feed, return, the four
    separators 0x1c to 0x1f, and the space. *)
Definition is_space (c : ascii) : bool :=
  in_range 9 13 c || in_range 28 31 c || (code c =? 32).

Definition lower_char (c : ascii) : ascii :=
  if is_upper c then ascii_of_N (Z.to_N (code c + 32)) else c.
Definition upper_char (c : ascii) : ascii :=
  if is_lower c then ascii_of_N (Z.to_N (code c - 32)) else c.

(** ** Whole strings *)

Fixpoint map_chars (f : ascii -> ascii) (s : string) : string :=
  match s with
  | EmptyString => EmptyString
  | String c s' => String (f c) (map_chars f s')
  end.

Fixpoint all_chars (p : ascii -> bool) (s : string) : bool :=
  match s with
  | EmptyString => true
  | String c s' => p c && all_chars p s'
  end.

Definition lower : string -> string := map_chars lower_char.
Definition upper : string -> string := map_chars upper_char.

(** [s.replace(a, b)] for single characters *)
Definition replace_char (a b : ascii) : string -> string :=
  map_chars (fun c => if Ascii.eqb c a then b else c).

(** [len(s)] *)
Definition slen (s : string) : Z := Z.of_nat (String.length s).

Fixpoint stake (n : nat) (s : string) : string :=
  match n, s with
  | S n', String c s' => String c (stake n' s')
  | _, _ => EmptyString
  end.

(** [s[:n]], a negative [n] counted from the end *)
Definition sprefix (n : Z) (s : string) : string :=
  stake (Z.to_nat (if n <? 0 then Z.of_nat (String.length s) + n else n)) s.

Fixpoint lstrip (s : string) : string :=
  match s with
  | EmptyString => EmptyString
  | String c s' => if is_space c then lstrip s' else s
  end.

Fixpoint rstrip (s : string) : string :=
  match s with
  | EmptyString => EmptyString
  | String c s' =>
      match rstrip s' with
      | EmptyString => if is_space c then EmptyString else String c EmptyString
      | r => String c r
      end
  end.

(** [s.strip()] *)
Definition strip (s : string) : string := rstrip (lstrip s).

(** [not s.strip()] *)
Definition blank (s : string) : bool := String.eqb (strip s) "".

(** [bool(s)] *)
Definition truthy (s : string) : bool := negb (String.eqb s "").

(** [a or b] on strings *)
Definition str_or (a b : string) : string := if truthy a then a else b.

(** [s.startswith(p)] *)
Fixpoint startswith (p s : string) : bool :=
  match p, s with
  | EmptyString, _ => true
  | String a p', String b s' => Ascii.eqb a b && startswith p' s'
  | _, EmptyString => false
  end.

(** [sub in s] *)
Fixpoint contains (sub s : string) : bool :=
  startswith sub s ||
  match s with
  | EmptyString => false
  | String _ s' => contains sub s'
  end.

(** [s in {...}] for a literal collection *)
Definition one_of (s : string) (l : list string) : bool := existsb (String.eqb s) l.

Lemma one_of_spec s l : one_of s l = true <-> s ∈ l.
Proof.
  unfold one_of. rewrite existsb_exists. split.
  - intros (x & Hx & Heq). apply String.eqb_eq in Heq as ->. by apply list_elem_of_In.
  - intros H. exists s. split; [by apply list_elem_of_In | apply String.eqb_refl].
Qed.

Lemma eqb_string_spec (a b : string) : String.eqb a b = bool_decide (a = b).
Proof.
  destruct (String.eqb_spec a b) as [->|Hne].
  - by rewrite bool_decide_eq_true_2.
  - by rewrite bool_decide_eq_false_2.
Qed.

Lemma all_chars_app p s t : all_chars p (s +:+ t) = all_chars p s && all_chars p t.
Proof. induction s as [|c s IH]; simpl; [done|]. by rewrite IH, andb_assoc. Qed.

Lemma length_map_chars f s : String.length (map_chars f s) = String.length s.
Proof. induction s as [|c s IH]; simpl; [done|]. by rewrite IH. Qed.

Lemma length_stake_le n s : (String.length (stake n s) <= n)%nat.
Proof.
  revert s. induction n as [|n IH]; intros [|c s]; simpl; try lia.
  specialize (IH s). lia.
Qed.

Lemma stake_all s n : (String.length s <= n)%nat -> stake n s = s.
Proof.
  revert n. induction s as [|c s IH]; intros [|n] H; simpl in *; try done; try lia.
  f_equal. apply IH. lia.
Qed.

Lemma slen_sprefix n s : 0 <= n -> slen (sprefix n s) <= n.
Proof.
  intros Hn. unfold slen, sprefix. destruct (Z.ltb_spec n 0); [lia|].
  pose proof (length_stake_le (Z.to_nat n) s). lia.
Qed.

Lemma sprefix_id n s : slen s <= n -> sprefix n s = s.
Proof.
  intros H. unfold slen in H. unfold sprefix. destruct (Z.ltb_spec n 0); [lia|].
  apply stake_all. lia.
Qed.

Lemma slen_nonneg s : 0 <= slen s.
Proof. unfold slen. lia. Qed.

Lemma length_string_app s t : String.length (s +:+ t) = (String.length s + String.length t)%nat.
Proof. induction s as [|c s IH]; simpl; [done|]. by rewrite IH. Qed.

Lemma slen_app s t : slen (s +:+ t) = slen s + slen t.
Proof. unfold slen. rewrite length_string_app. lia. Qed.

(** ** UTF-8, of the characters below 256 *)

(** [s.encode("utf-8")] *)
Fixpoint utf8 (s : string) : string :=
  match s with
  | EmptyString => EmptyString
  | String c s' =>
      if code c <? 128 then String c (utf8 s')
      else String (ascii_of_N (Z.to_N (192 + code c / 64)))
             (String (ascii_of_N (Z.to_N (128 + code c mod 64))) (utf8 s'))
  end.

(** [len(s.encode("utf-8"))] *)
Definition utf8_size (s : string) : Z := slen (utf8 s).

(** [b.decode("utf-8")], [None] when it raises [UnicodeDecodeError] *)
Fixpoint utf8_text (b : string) : option string :=
  match b with
  | EmptyString => Some EmptyString
  | String c b' =>
      if code c <? 128 then String c <$> utf8_text b'
      else match b' with
           | String d b'' =>
               if ((code c =? 194) || (code c =? 195)) && (128 <=? code d) && (code d <? 192)
               then String (ascii_of_N (Z.to_N ((code c - 192) * 64 + (code d - 128)))) <$> utf8_text b''
               else None
           | EmptyString => None
           end
  end.

Example utf8_ex :
  let s := String (ascii_of_N 233) (String (ascii_of_N 133) "a") in
  utf8_size s = 5 /\ utf8_text (utf8 s) = Some s /\ utf8_text (String (ascii_of_N 169) "a") = None.
Proof. by vm_compute. Qed.

Lemma slen_utf8_size s : slen s <= utf8_size s.
Proof. unfold utf8_size, slen. induction s as [|c s IH]; cbn [utf8]; [done|]. destruct (code c <? 128); cbn [String.length]; lia. Qed.

Lemma utf8_ascii s : all_chars (fun c => code c <? 128) s = true -> utf8 s = s.
Proof. induction s as [|c s IH]; [done|]. cbn. intros [-> Hs]%andb_true_iff. by rewrite (IH Hs). Qed.

Lemma utf8_text_ascii s : all_chars (fun c => code c <? 128) s = true -> utf8_text s = Some s.
Proof. induction s as [|c s IH]; [done|]. cbn. intros [-> Hs]%andb_true_iff. by rewrite (IH Hs). Qed.

(** ** Lines *)

(** A line end of [str.splitlines]. *)
Definition line_end (c : ascii) : bool :=
  let n := code c in ((10 <=? n) && (n <=? 13)) || ((28 <=? n) && (n <=? 30)) || (n =? 133).

(** [s.splitlines()]: [line] is what was read of the current line, backwards *)
Fixpoint splitlines_from (line : list ascii) (after_cr : bool) (s : string) : list string :=
  match s with
  | EmptyString => match line with [] => [] | _ => [String.string_of_list_ascii (rev line)] end
  | String c s' =>
      if after_cr && (code c =? 10) then splitlines_from [] false s'
      else if line_end c then String.string_of_list_ascii (rev line) :: splitlines_from [] (code c =? 13) s'
      else splitlines_from (c :: line) false s'
  end.
Definition splitlines (s : string) : list string := splitlines_from [] false s.

Lemma string_of_list_app l k :
  String.string_of_list_ascii (l ++ k) = String.string_of_list_ascii l +:+ String.string_of_list_ascii k.
Proof. induction l as [|c l IH]; [done|]. cbn. by rewrite IH. Qed.

Lemma string_app_empty_r s : s +:+ "" = s.
Proof. induction s as [|c s IH]; [done|]. by change (String c s +:+ "") with (String c (s +:+ "")); rewrite IH. Qed.

Lemma string_app_assoc s t u : (s +:+ t) +:+ u = s +:+ (t +:+ u).
Proof.
  induction s as [|c s IH]; [done|].
  change ((String c s +:+ t) +:+ u) with (String c ((s +:+ t) +:+ u)). by rewrite IH.
Qed.

(** After a newline a new line begins. *)
Lemma splitlines_newline s t : exists ls, splitlines (s +:+ String (ascii_of_N 10) t) = ls ++ splitlines t.
Proof.
  unfold splitlines. generalize (@nil ascii) at 1 as line, false at 1 as cr. induction s as [|c s IH]; intros line cr.
  - change ("" +:+ ?x) with x. cbn [splitlines_from]. change (code (ascii_of_N 10) =? 10) with true.
    change (line_end (ascii_of_N 10)) with true. change (code (ascii_of_N 10) =? 13) with false.
    destruct cr; cbn [andb]; [by exists []|]. by eexists [_].
  - change (String c s +:+ String (ascii_of_N 10) t) with (String c (s +:+ String (ascii_of_N 10) t)).
    cbn [splitlines_from]. destruct (cr && (code c =? 10)); [apply IH|]. destruct (line_end c); [|apply IH].
    destruct (IH [] (code c =? 13)) as [ls ->]. by eexists (_ :: ls).
Qed.

Lemma splitlines_line s : all_chars (fun c => negb (line_end c)) s = true ->
  splitlines (s +:+ String (ascii_of_N 10) "") = [s].
Proof.
  intros Hs. unfold splitlines.
  assert (forall line, splitlines_from line false (s +:+ String (ascii_of_N 10) "")
    = [String.string_of_list_ascii (rev line) +:+ s]) as ->; [|done].
  induction s as [|c s IH]; intros line.
  - change ("" +:+ ?x) with x. cbn [splitlines_from andb]. change (line_end (ascii_of_N 10)) with true.
    change (code (ascii_of_N 10) =? 13) with false. cbn [splitlines_from]. by rewrite string_app_empty_r.
  - cbn [all_chars] in Hs. apply andb_true_iff in Hs as [Hc Hs]. change (String c s +:+ ?x) with (String c (s +:+ x)).
    cbn [splitlines_from andb]. rewrite (proj1 (negb_true_iff _) Hc), (IH Hs). cbn [rev]. by rewrite string_of_list_app, string_app_assoc.
Qed.

(** ** Ordering

    [sorted] on strings: the lexicographic order on code points. *)

Definition str_le (a b : string) : bool := String.leb a b.

Fixpoint insert_by {A} (le : A -> A -> bool) (x : A) (l : list A) : list A :=
  match l with
  | [] => [x]
  | y :: l' => if le x y then x :: l else y :: insert_by le x l'
  end.

(** A stable insertion sort, the result of [sorted(l)] under the order [le]. *)
Definition sort_by {A} (le : A -> A -> bool) (l : list A) : list A :=
  foldr (insert_by le) [] l.

Lemma insert_by_perm {A} le (x : A) l : Permutation (insert_by le x l) (x :: l).
Proof.
  induction l as [|y l IH]; simpl; [done|]. destruct (le x y); [done|].
  rewrite IH. apply Permutation_swap.
Qed.

Lemma sort_by_perm {A} le (l : list A) : Permutation (sort_by le l) l.
Proof. induction l as [|x l IH]; simpl; [done|]. by rewrite insert_by_perm, IH. Qed.

Section SortSorted.
Context {A : Type} (le : A -> A -> bool).
Context (le_total : forall a b, le a b = false -> le b a = true).

Lemma insert_by_sorted x l :
  Sorted (fun a b => le a b = true) l -> Sorted (fun a b => le a b = true) (insert_by le x l).
Proof.
  induction 1 as [|y l Hs IH Hd]; simpl; [by repeat constructor|].
  destruct (le x y) eqn:Hxy.
  - by repeat constructor.
  - constructor; [done|]. destruct Hd as [|z l' Hyz]; simpl in *.
    + constructor. by apply le_total.
    + destruct (le x z); constructor; [by apply le_total | done].
Qed.

Lemma sort_by_sorted l : Sorted (fun a b => le a b = true) (sort_by le l).
Proof. induction l as [|x l IH]; simpl; [constructor|]. by apply insert_by_sorted. Qed.
End SortSorted.

(** Sorting with an order that relates nothing back leaves a sorted list alone. *)
Lemma sort_by_id {A} (le : A -> A -> bool) l :
  Sorted (fun a b => le a b = true) l -> sort_by le l = l.
Proof.
  induction 1 as [|y l Hs IH Hd]; simpl; [done|]. rewrite IH.
  destruct Hd as [|z l' Hyz]; simpl; [done|]. by rewrite Hyz.
Qed.

(** ** Decimal numerals: [str(n)] *)

Definition digit_char (d : Z) : ascii := ascii_of_N (Z.to_N (48 + d)).

Fixpoint digits_aux (fuel : nat) (n : Z) (acc : string) : string :=
  match fuel with
  | O => acc
  | S f => let acc' := String (digit_char (n mod 10)) acc in
           if n <? 10 then acc' else digits_aux f (n / 10) acc'
  end.

(** [str(n)] of an int; a numeral has at most [log2 n + 1] digits. *)
Definition str_of_Z (n : Z) : string :=
  if n <? 0 then String "-" (digits_aux (S (Z.to_nat (Z.log2 (- n)))) (- n) "")
  else digits_aux (S (Z.to_nat (Z.log2 n))) n "".

Example str_of_Z_ex : str_of_Z 1048576 = "1048576" /\ str_of_Z (-30) = "-30" /\ str_of_Z 0 = "0".
Proof. by vm_compute. Qed.

Lemma digits_aux_acc fuel n acc : digits_aux fuel n acc = digits_aux fuel n "" +:+ acc.
Proof.
  revert n acc. induction fuel as [|fuel IH]; intros n acc; simpl; [done|].
  destruct (n <? 10); [done|]. rewrite IH, (IH _ (String _ "")). clear.
  induction (digits_aux fuel (n / 10) "") as [|c s IHs]; [done|].
  change (String c (s +:+ String (digit_char (n mod 10)) acc)
    = String c ((s +:+ String (digit_char (n mod 10)) "") +:+ acc)). by f_equal.
Qed.

Lemma digits_aux_fuel f g n acc : 0 <= n -> (Z.to_nat (Z.log2 n) < f)%nat -> (Z.to_nat (Z.log2 n) < g)%nat ->
  digits_aux f n acc = digits_aux g n acc.
Proof.
  revert g n acc. induction f as [|f IH]; intros g n acc Hn Hf Hg; [lia|]. destruct g as [|g]; [lia|]. simpl.
  destruct (Z.ltb_spec n 10) as [|Hge]; [done|].
  assert (Hlog : Z.log2 (n / 10) < Z.log2 n).
  { apply Z.log2_lt_pow2; [apply Z.div_str_pos; lia|].
    pose proof (Z.log2_spec n ltac:(lia)) as [_ Hu]. rewrite Z.pow_succ_r in Hu by apply Z.log2_nonneg.
    apply Z.div_lt_upper_bound; lia. }
  pose proof (Z.log2_nonneg (n / 10)). apply IH; [apply Z.div_pos; lia|lia|lia].
Qed.

(** The numeral of a number of two digits or more ends in its last digit. *)
Lemma str_of_Z_step n : 10 <= n -> str_of_Z n = str_of_Z (n / 10) +:+ String (digit_char (n mod 10)) "".
Proof.
  intros Hn. assert (Hd : 1 <= n / 10) by (apply Z.div_le_lower_bound; lia).
  unfold str_of_Z. rewrite (proj2 (Z.ltb_ge n 0)), (proj2 (Z.ltb_ge (n / 10) 0)) by lia.
  assert (Hlog : Z.log2 (n / 10) < Z.log2 n).
  { apply Z.log2_lt_pow2; [lia|].
    pose proof (Z.log2_spec n ltac:(lia)) as [_ Hu]. rewrite Z.pow_succ_r in Hu by apply Z.log2_nonneg.
    apply Z.div_lt_upper_bound; lia. }
  pose proof (Z.log2_nonneg (n / 10)).
  change (digits_aux (S (Z.to_nat (Z.log2 n))) n "") with
    (if n <? 10 then String (digit_char (n mod 10)) "" else
     digits_aux (Z.to_nat (Z.log2 n)) (n / 10) (String (digit_char (n mod 10)) "")).
  rewrite (proj2 (Z.ltb_ge n 10)) by lia. rewrite digits_aux_acc. f_equal.
  apply digits_aux_fuel; lia.
Qed.

Lemma str_of_Z_digit n : 0 <= n < 10 -> str_of_Z n = String (digit_char n) "".
Proof.
  intros Hn. unfold str_of_Z. rewrite (proj2 (Z.ltb_ge n 0)) by lia. simpl.
  rewrite (proj2 (Z.ltb_lt n 10)), Z.mod_small by lia. done.
Qed.

Lemma code_digit d : 0 <= d < 10 -> code (digit_char d) = 48 + d.
Proof.
  intros Hd. unfold code, digit_char. rewrite N_ascii_embedding; lia.
Qed.

Lemma digit_char_inj d e : 0 <= d < 10 -> 0 <= e < 10 -> digit_char d = digit_char e -> d = e.
Proof. intros Hd He Heq. apply (f_equal code) in Heq. rewrite !code_digit in Heq; lia. Qed.
