(* ===== verification/PyFloat.v ===== *)
(** Python floats: IEEE 754 binary64, executed on the standard library's
    [spec_float].

    Arithmetic is correctly rounded ([SFadd], [SFsub], [SFmul] and [SFdiv] at
    53 bits and exponent 1024). Comparisons are exact on the values, as
    Python's are, also between an int and a float. *)

From S2P Require Import Prelude.
From Stdlib Require Import Floats.SpecFloat QArith.

#[global] Open Scope Z_scope.

Definition float : Type := spec_float.

#[export] Instance float_eq_dec : EqDecision float.
Proof. solve_decision. Defined.

Definition fadd : float -> float -> float := SFadd 53 1024.
Definition fsub : float -> float -> float := SFsub 53 1024.
Definition fmul : float -> float -> float := SFmul 53 1024.

(** [a / b] for floats and exact integers; Python raises on a zero divisor. *)
Definition fdiv : float -> float -> float := SFdiv 53 1024.

(** An int with its exact value: for comparisons, and as a dividend. *)
Definition fexact (z : Z) : float :=
  match z with
  | Z0 => S754_zero false
  | Zpos p => S754_finite false p 0
  | Zneg p => S754_finite true p 0
  end.

(** [float(z)], rounded to nearest even *)
Definition float_of_Z (z : Z) : float := binary_normalize 53 1024 z 0 false.

(** The decimal literal [n / d] *)
Definition flit (n d : Z) : float := fdiv (fexact n) (fexact d).

(** [a / b] on ints, correctly rounded *)
Definition int_div (a b : Z) : float := fdiv (fexact a) (fexact b).

Definition fzero : float := S754_zero false.
Definition fone : float := float_of_Z 1.

Definition fneg : float -> float := SFopp.

(** ** Exact comparison *)

Definition fQ (x : float) : Q :=
  match x with
  | S754_finite s m e =>
      let z := if s then Zneg m else Zpos m in
      if 0 <=? e then inject_Z (z * 2 ^ e) else Qmake z (Z.to_pos (2 ^ (- e)))
  | _ => inject_Z 0
  end.

Definition fcmp (x y : float) : option comparison :=
  match x, y with
  | S754_nan, _ | _, S754_nan => None
  | S754_infinity s, S754_infinity t =>
      Some (if Bool.eqb s t then Eq else if s then Lt else Gt)
  | S754_infinity s, _ => Some (if s then Lt else Gt)
  | _, S754_infinity t => Some (if t then Gt else Lt)
  | _, _ => Some (Qcompare (fQ x) (fQ y))
  end.

Definition fltb (x y : float) : bool := match fcmp x y with Some Lt => true | _ => false end.
Definition fleb (x y : float) : bool :=
  match fcmp x y with Some Lt | Some Eq => true | _ => false end.
Definition fgtb (x y : float) : bool := fltb y x.
Definition fgeb (x y : float) : bool := fleb y x.

(** [x == y]: the two zeros are equal, nan is not equal to itself. *)
Definition feqb (x y : float) : bool := match fcmp x y with Some Eq => true | _ => false end.

Definition fnan (x : float) : bool := match x with S754_nan => true | _ => false end.

(** [math.isfinite(x)] *)
Definition is_finite (x : float) : bool :=
  match x with S754_zero _ | S754_finite _ _ _ => true | _ => false end.

(** [max(a, b)]: the first argument unless the second is greater *)
Definition fmax (a b : float) : float := if fltb a b then b else a.
(** [min(a, b)]: the first argument unless the second is smaller *)
Definition fmin (a b : float) : float := if fltb b a then b else a.

(** ** Rounding to an integer, ties to even: [round(x)] *)

Definition Qround_even (q : Q) : Z :=
  let n := Qnum q in
  let d := Zpos (Qden q) in
  let f := n / d in
  match 2 * (n - f * d) ?= d with
  | Lt => f
  | Gt => f + 1
  | Eq => if Z.even f then f else f + 1
  end.

(** [round(x)] of a finite float *)
Definition fround (x : float) : Z := Qround_even (fQ x).

(** [round(x, n)]: the decimal with [n] places nearest to the exact value of
    [x], as a float *)
Definition fround_digits (n : Z) (x : float) : float :=
  if is_finite x
  then fdiv (fexact (Qround_even (fQ x * inject_Z (10 ^ n)))) (fexact (10 ^ n))
  else x.

(** ** The order *)

Lemma fcmp_nan x y : fcmp x y = None <-> fnan x = true \/ fnan y = true.
Proof. destruct x, y; cbn; naive_solver. Qed.

(** Values ordered as extended rationals. *)
Inductive ext_le : float -> float -> Prop :=
| ext_le_ninf y : fnan y = false -> ext_le (S754_infinity true) y
| ext_le_pinf x : fnan x = false -> ext_le x (S754_infinity false)
| ext_le_fin x y : is_finite x = true -> is_finite y = true -> (fQ x <= fQ y)%Q -> ext_le x y.

Lemma fcmp_finite x y :
  is_finite x = true -> is_finite y = true -> fcmp x y = Some (Qcompare (fQ x) (fQ y)).
Proof. by destruct x, y. Qed.

Lemma fleb_finite x y :
  is_finite x = true -> is_finite y = true -> fleb x y = true <-> (fQ x <= fQ y)%Q.
Proof.
  intros Hx Hy. unfold fleb. rewrite fcmp_finite by done. rewrite Qle_alt.
  destruct (Qcompare (fQ x) (fQ y)); naive_solver.
Qed.

Lemma fltb_finite x y :
  is_finite x = true -> is_finite y = true -> fltb x y = true <-> (fQ x < fQ y)%Q.
Proof.
  intros Hx Hy. unfold fltb. rewrite fcmp_finite by done. rewrite Qlt_alt.
  destruct (Qcompare (fQ x) (fQ y)); naive_solver.
Qed.

Lemma fleb_ext x y : fleb x y = true <-> ext_le x y.
Proof.
  split.
  - intros H. destruct (is_finite x && is_finite y) eqn:Hf.
    + b2p. apply ext_le_fin; [done..|]. by apply fleb_finite.
    + destruct x as [?|[]| |], y as [?|[]| |]; try discriminate; by constructor.
  - destruct 1 as [y Hy|x Hx|x y Hx Hy H].
    + by destruct y as [?|[]| |].
    + by destruct x as [?|[]| |].
    + by apply fleb_finite.
Qed.

Lemma ext_le_trans x y z : ext_le x y -> ext_le y z -> ext_le x z.
Proof.
  intros Hxy Hyz.
  destruct Hxy as [y Hy|x Hx|x y Hx Hy H]; inversion Hyz; subst; try done;
    try (constructor; by (done || destruct z || destruct x)).
  apply ext_le_fin; [done..|]. by eapply Qle_trans.
Qed.

Lemma fleb_trans x y z : fleb x y = true -> fleb y z = true -> fleb x z = true.
Proof. rewrite !fleb_ext. apply ext_le_trans. Qed.

Lemma fleb_refl x : fnan x = false -> fleb x x = true.
Proof.
  intros Hx. apply fleb_ext. destruct x as [s|s| |s m e]; try done.
  - apply ext_le_fin; [done..|apply Qle_refl].
  - destruct s; by constructor.
  - apply ext_le_fin; [done..|apply Qle_refl].
Qed.

Lemma fltb_fleb x y : fltb x y = true -> fleb x y = true.
Proof. unfold fltb, fleb. by destruct (fcmp x y) as [[]|]. Qed.

Lemma fcmp_sym x y : fcmp y x = CompOpp <$> fcmp x y.
Proof.
  destruct x as [s|s| |s m e], y as [t|t| |t n f]; try done.
  all: try (by destruct s, t).
  all: cbn -[fQ Qcompare]; by rewrite <- Qcompare_antisym.
Qed.

(** Without NaN, [not (x < y)] is [y <= x]. *)
Lemma fltb_false_fleb x y :
  fnan x = false -> fnan y = false -> fltb x y = false -> fleb y x = true.
Proof.
  intros Hx Hy H. unfold fltb in H. unfold fleb. rewrite fcmp_sym.
  destruct (fcmp x y) as [[]|] eqn:Hc; try done.
  apply fcmp_nan in Hc. destruct Hc; congruence.
Qed.

Lemma fltb_irrefl x : fltb x x = false.
Proof.
  unfold fltb. destruct (fcmp x x) as [[]|] eqn:H; try done.
  pose proof (fcmp_sym x x) as Hs. rewrite H in Hs. done.
Qed.

Lemma fltb_not_fleb x y : fltb x y = true -> fleb y x = false.
Proof.
  unfold fltb, fleb. rewrite (fcmp_sym x y). by destruct (fcmp x y) as [[]|].
Qed.

Lemma fexact_finite z : is_finite (fexact z) = true.
Proof. by destruct z. Qed.

Lemma fQ_fexact z : fQ (fexact z) = inject_Z z.
Proof. destruct z; cbn; try done; f_equal; lia. Qed.

Example flit_tenth : flit 1 10 = S754_finite false 7205759403792794 (-56).
Proof. by vm_compute. Qed.

Example round_half : fround (flit 25 10) = 2 /\ fround (flit 35 10) = 4 /\ fround (flit (-25) 10) = -2.
Proof. by vm_compute. Qed.

(** [round(2.675, 2)] is 2.67: the literal lies just below the tie. *)
Example round_digits_ex : fround_digits 2 (flit 2675 1000) = flit 267 100.
Proof. by vm_compute. Qed.
