(* ===== verification/PyDict.v ===== *)
(** Python dicts and [OrderedDict]s: association lists in insertion order, at
    most one entry per key. *)

From S2P Require Import Prelude PyStr.

Section Dict.
Context {K V : Type} `{EqDecision K}.

Fixpoint dget (k : K) (d : list (K * V)) : option V :=
  match d with
  | [] => None
  | (k', v) :: d' => if decide (k = k') then Some v else dget k d'
  end.

(** [d[k] = v]: in place for a present key, at the end for a new one. *)
Fixpoint dset (k : K) (v : V) (d : list (K * V)) : list (K * V) :=
  match d with
  | [] => [(k, v)]
  | (k', v') :: d' => if decide (k = k') then (k, v) :: d' else (k', v') :: dset k v d'
  end.

(** [d.pop(k, None)], the dict afterwards *)
Fixpoint ddel (k : K) (d : list (K * V)) : list (K * V) :=
  match d with
  | [] => []
  | (k', v') :: d' => if decide (k = k') then ddel k d' else (k', v') :: ddel k d'
  end.

Definition dmem (k : K) (d : list (K * V)) : bool :=
  match dget k d with Some _ => true | None => false end.

(** [d.get(k, default)] *)
Definition dget_default (dflt : V) (k : K) (d : list (K * V)) : V :=
  match dget k d with Some v => v | None => dflt end.

(** [d.setdefault(k, v)], the dict afterwards *)
Definition dsetdefault (k : K) (v : V) (d : list (K * V)) : list (K * V) :=
  match dget k d with Some _ => d | None => dset k v d end.

(** [d.move_to_end(k)] of a present key *)
Definition move_to_end (k : K) (d : list (K * V)) : list (K * V) :=
  match dget k d with
  | Some v => ddel k d ++ [(k, v)]
  | None => d
  end.

(** [while len(d) > cap: d.popitem(last=False); evicted += 1] *)
Fixpoint evict_oldest (fuel : nat) (cap : Z) (d : list (K * V)) (evicted : Z)
  : list (K * V) * Z :=
  match fuel with
  | O => (d, evicted)
  | S f =>
      if cap <? zlen d
      then evict_oldest f cap (tail d) (evicted + 1)
      else (d, evicted)
  end.

Definition keys (d : list (K * V)) : list K := fst <$> d.

Definition dwf (d : list (K * V)) : Prop := NoDup (keys d).

(** *** Lookups *)

Lemma dget_dset_eq k v d : dget k (dset k v d) = Some v.
Proof.
  induction d as [|[k' v'] d IH]; simpl; [by rewrite decide_True|].
  destruct (decide (k = k')); simpl; [by rewrite decide_True | by rewrite decide_False].
Qed.

Lemma dget_dset_ne k k' v d : k <> k' -> dget k (dset k' v d) = dget k d.
Proof.
  intros Hne. induction d as [|[k1 v1] d IH]; simpl; [by rewrite decide_False|].
  destruct (decide (k' = k1)) as [->|]; simpl.
  - by rewrite decide_False, decide_False by done.
  - by destruct (decide (k = k1)).
Qed.

Lemma dget_ddel_eq k d : dget k (ddel k d) = None.
Proof.
  induction d as [|[k' v'] d IH]; simpl; [done|].
  destruct (decide (k = k')); simpl; [done | by rewrite decide_False].
Qed.

Lemma dget_ddel_ne k k' d : k <> k' -> dget k (ddel k' d) = dget k d.
Proof.
  intros Hne. induction d as [|[k1 v1] d IH]; simpl; [done|].
  destruct (decide (k' = k1)) as [->|]; simpl.
  - by rewrite decide_False.
  - by destruct (decide (k = k1)).
Qed.

Lemma dget_app k d1 d2 :
  dget k (d1 ++ d2) = match dget k d1 with Some v => Some v | None => dget k d2 end.
Proof.
  induction d1 as [|[k' v'] d1 IH]; simpl; [done|]. by destruct (decide (k = k')).
Qed.

Lemma dget_elem k v d : dget k d = Some v -> (k, v) ∈ d.
Proof.
  induction d as [|[k' v'] d IH]; simpl; [done|].
  destruct (decide (k = k')) as [->|]; [intros [= ->]; constructor|].
  intros H. constructor. by apply IH.
Qed.

Lemma dget_None k d : dget k d = None <-> k ∉ keys d.
Proof.
  induction d as [|[k' v'] d IH]; simpl.
  - split; [intros _; apply not_elem_of_nil | done].
  - rewrite not_elem_of_cons. destruct (decide (k = k')) as [->|]; [naive_solver|].
    rewrite IH. naive_solver.
Qed.

Lemma dget_Some_keys k v d : dget k d = Some v -> k ∈ keys d.
Proof.
  intros H. destruct (decide (k ∈ keys d)) as [|Hn]; [done|].
  apply dget_None in Hn. congruence.
Qed.

Lemma elem_dget k v d : dwf d -> (k, v) ∈ d -> dget k d = Some v.
Proof.
  unfold dwf. induction d as [|[k' v'] d IH]; simpl; [by intros _ ?%elem_of_nil|].
  rewrite NoDup_cons. intros [Hn Hd] [[= -> ->]|Hin]%elem_of_cons.
  - by rewrite decide_True.
  - destruct (decide (k = k')) as [->|]; [|by apply IH].
    destruct Hn. apply list_elem_of_fmap. by exists (k', v).
Qed.

Lemma dmem_keys k d : dmem k d = true <-> k ∈ keys d.
Proof.
  unfold dmem. destruct (dget k d) eqn:H.
  - split; [intros _; by eapply dget_Some_keys | done].
  - apply dget_None in H. naive_solver.
Qed.

(** *** Keys and sizes *)

Lemma keys_dset_in k v d : k ∈ keys d -> keys (dset k v d) = keys d.
Proof.
  induction d as [|[k' v'] d IH]; simpl; [by intros ?%elem_of_nil|].
  rewrite elem_of_cons. destruct (decide (k = k')) as [->|Hne]; simpl; [done|].
  intros [->|Hin]; [done|]. by rewrite IH.
Qed.

Lemma dset_new k v d : k ∉ keys d -> dset k v d = d ++ [(k, v)].
Proof.
  induction d as [|[k' v'] d IH]; simpl; [done|].
  rewrite not_elem_of_cons. intros [Hne Hn]. rewrite decide_False by done.
  by rewrite IH.
Qed.

Lemma ddel_absent k d : k ∉ keys d -> ddel k d = d.
Proof.
  induction d as [|[k' v'] d IH]; simpl; [done|].
  rewrite not_elem_of_cons. intros [Hne Hn]. rewrite decide_False by done. by rewrite IH.
Qed.

Lemma keys_ddel_subset k k' d : k' ∈ keys (ddel k d) -> k' ∈ keys d /\ k' <> k.
Proof.
  induction d as [|[k1 v1] d IH]; simpl; [by intros ?%elem_of_nil|].
  destruct (decide (k = k1)) as [->|Hne]; simpl; rewrite ?elem_of_cons; naive_solver.
Qed.

Lemma dwf_dset k v d : dwf d -> dwf (dset k v d).
Proof.
  unfold dwf. intros Hd. destruct (decide (k ∈ keys d)) as [Hin|Hn].
  - by rewrite keys_dset_in.
  - rewrite dset_new by done. unfold keys in *. rewrite fmap_app. apply NoDup_app.
    split; [done|]. split; [|apply NoDup_singleton].
    intros x Hx ->%list_elem_of_singleton. done.
Qed.

Lemma dwf_ddel k d : dwf d -> dwf (ddel k d).
Proof.
  unfold dwf. induction d as [|[k1 v1] d IH]; simpl; [done|].
  rewrite NoDup_cons. intros [Hn Hd]. destruct (decide (k = k1)) as [->|Hne]; [by apply IH|].
  simpl. rewrite NoDup_cons. split; [|by apply IH].
  by intros [? _]%keys_ddel_subset.
Qed.

Lemma dwf_move_to_end k d : dwf d -> dwf (move_to_end k d).
Proof.
  intros Hd. unfold move_to_end. destruct (dget k d) as [v|]; [|done].
  rewrite <- (dset_new k v (ddel k d)); [by apply dwf_dset, dwf_ddel|].
  by intros [_ ?]%keys_ddel_subset.
Qed.

Lemma dwf_tail d : dwf d -> dwf (tail d).
Proof. unfold dwf. destruct d as [|[k v] d]; [done|]. simpl. rewrite NoDup_cons. naive_solver. Qed.

Lemma zlen_dset k v d :
  zlen (dset k v d) = if decide (k ∈ keys d) then zlen d else zlen d + 1.
Proof.
  destruct (decide (k ∈ keys d)) as [Hin|Hn].
  - pose proof (keys_dset_in k v d Hin) as H. apply (f_equal length) in H.
    unfold keys in H. rewrite !length_fmap in H. unfold zlen. lia.
  - rewrite dset_new by done. rewrite zlen_app. done.
Qed.

Lemma ddel_in_length k d : dwf d -> k ∈ keys d -> S (length (ddel k d)) = length d.
Proof.
  unfold dwf. induction d as [|[k1 v1] d IH]; simpl; [by intros _ ?%elem_of_nil|].
  rewrite NoDup_cons, elem_of_cons. intros [Hn Hd] Hk.
  destruct (decide (k = k1)) as [->|Hne].
  - by rewrite ddel_absent.
  - destruct Hk as [->|Hk]; [done|]. simpl. by rewrite IH.
Qed.

Lemma zlen_move_to_end k d : dwf d -> zlen (move_to_end k d) = zlen d.
Proof.
  intros Hd. unfold move_to_end. destruct (dget k d) as [v|] eqn:Hk; [|done].
  apply dget_Some_keys in Hk. rewrite zlen_app. pose proof (ddel_in_length k d Hd Hk).
  unfold zlen. simpl. lia.
Qed.

(** *** Eviction *)

Lemma evict_oldest_spec fuel cap d n :
  (length d <= fuel)%nat -> 0 <= cap ->
  evict_oldest fuel cap d n =
    (drop (length d - Z.to_nat cap) d, n + Z.of_nat (length d - Z.to_nat cap)).
Proof.
  revert d n. induction fuel as [|fuel IH]; intros d n Hf Hc; simpl.
  - destruct d; simpl in *; [|lia]. f_equal. lia.
  - destruct (cap <? zlen d) eqn:Hlt; b2p; unfold zlen in Hlt.
    + destruct d as [|p d]; simpl in *; [lia|]. rewrite IH by lia.
      replace (S (length d) - Z.to_nat cap)%nat with (S (length d - Z.to_nat cap)) by lia.
      simpl. f_equal. lia.
    + replace (length d - Z.to_nat cap)%nat with O by lia. simpl. f_equal. lia.
Qed.

Lemma evict_oldest_bound fuel cap d n :
  (length d <= fuel)%nat -> 0 <= cap -> zlen (evict_oldest fuel cap d n).1 <= cap.
Proof.
  intros Hf Hc. rewrite evict_oldest_spec by done. simpl. unfold zlen. rewrite length_drop. lia.
Qed.

Lemma evict_oldest_dwf fuel cap d n : dwf d -> dwf (evict_oldest fuel cap d n).1.
Proof.
  revert d n. induction fuel as [|fuel IH]; intros d n Hd; simpl; [done|].
  destruct (cap <? zlen d); [|done]. by apply IH, dwf_tail.
Qed.

(** The last [cap] entries, the most recently inserted ones, survive. *)
Lemma evict_oldest_last fuel cap d n k v :
  (length d <= fuel)%nat -> 1 <= cap -> dwf d -> last d = Some (k, v) ->
  dget k (evict_oldest fuel cap d n).1 = Some v.
Proof.
  intros Hf Hc Hd Hl. pose proof (evict_oldest_dwf fuel cap d n Hd) as Hdrop.
  rewrite evict_oldest_spec in * by lia. simpl in *. apply elem_dget; [done|].
  rewrite last_lookup in Hl. apply list_elem_of_lookup.
  assert (Hlen : (0 < length d)%nat) by (apply lookup_lt_Some in Hl; lia).
  exists (pred (length d) - (length d - Z.to_nat cap))%nat. rewrite lookup_drop.
  rewrite <- Hl. f_equal. lia.
Qed.

Lemma forallb_dset (p : K * V -> bool) k v d :
  forallb p d = true -> p (k, v) = true -> forallb p (dset k v d) = true.
Proof.
  intros Hd Hp. induction d as [|[k' v'] d IH]; simpl in *; [by rewrite Hp|].
  apply andb_true_iff in Hd as [H1 H2]. destruct (decide (k = k')); simpl.
  - by rewrite Hp, H2.
  - by rewrite H1, IH.
Qed.

Lemma Forall_dset_item (P : K * V -> Prop) k v d : P (k, v) -> Forall P d -> Forall P (dset k v d).
Proof.
  intros Hp. induction 1 as [|[k' v'] d Hx Hd IH]; cbn; [by repeat constructor|].
  destruct (decide (k = k')) as [->|]; by constructor.
Qed.

Lemma zlen_dset_le k v d : zlen (dset k v d) <= zlen d + 1.
Proof. rewrite zlen_dset. destruct (decide _); lia. Qed.

Lemma last_move_to_end k v d : dget k d = Some v -> last (move_to_end k d) = Some (k, v).
Proof. intros H. unfold move_to_end. rewrite H. by rewrite last_snoc. Qed.

(** A property of every stored value. *)
Lemma Forall_dset (P : V -> Prop) k v d :
  P v -> Forall (fun kv => P kv.2) d -> Forall (fun kv => P kv.2) (dset k v d).
Proof.
  intros Hv. induction 1 as [|[k' v'] d Hx HF IH]; simpl; [by repeat constructor|].
  destruct (decide _); by constructor.
Qed.

Lemma Forall_ddel (P : V -> Prop) k d :
  Forall (fun kv => P kv.2) d -> Forall (fun kv => P kv.2) (ddel k d).
Proof. induction 1 as [|[k' v'] d Hx HF IH]; simpl; [done|]. destruct (decide _); [done|by constructor]. Qed.

Lemma Forall_move_to_end (P : V -> Prop) k d :
  Forall (fun kv => P kv.2) d -> Forall (fun kv => P kv.2) (move_to_end k d).
Proof.
  intros HF. unfold move_to_end. destruct (dget k d) as [v|] eqn:Hk; [|done].
  apply Forall_app. split; [by apply Forall_ddel|]. constructor; [|done].
  apply dget_elem in Hk. rewrite Forall_forall in HF. by apply (HF (k, v)).
Qed.

Lemma Forall_dsetdefault (P : V -> Prop) k v d :
  P v -> Forall (fun kv => P kv.2) d -> Forall (fun kv => P kv.2) (dsetdefault k v d).
Proof. intros Hv HF. unfold dsetdefault. destruct (dget k d); [done|by apply Forall_dset]. Qed.

Lemma dwf_dsetdefault k v d : dwf d -> dwf (dsetdefault k v d).
Proof. intros Hd. unfold dsetdefault. destruct (dget k d); [done|by apply dwf_dset]. Qed.
End Dict.

#[export] Hint Resolve dwf_dset dwf_ddel dwf_move_to_end dwf_tail evict_oldest_dwf : msaa.

(** A bounded [OrderedDict] used as a least-recently-used cache: store the
    entry, make it the newest, evict from the oldest end. *)
Section Lru.
Context {K V : Type} `{EqDecision K}.

Definition lru_put (cap : Z) (k : K) (v : V) (d : list (K * V)) : list (K * V) :=
  let d' := move_to_end k (dset k v d) in
  (evict_oldest (length d') cap d' 0).1.

Lemma lru_put_bound cap k v (d : list (K * V)) : 0 <= cap -> zlen (lru_put cap k v d) <= cap.
Proof. intros. unfold lru_put. by apply evict_oldest_bound. Qed.

Lemma lru_put_dwf cap k v (d : list (K * V)) : dwf d -> dwf (lru_put cap k v d).
Proof. intros. unfold lru_put. by apply evict_oldest_dwf, dwf_move_to_end, dwf_dset. Qed.

(** The entry just stored is never the one evicted. *)
Lemma lru_put_get cap k v (d : list (K * V)) :
  1 <= cap -> dwf d -> dget k (lru_put cap k v d) = Some v.
Proof.
  intros Hc Hd. unfold lru_put. apply evict_oldest_last; [done|done| |].
  - by apply dwf_move_to_end, dwf_dset.
  - apply last_move_to_end, dget_dset_eq.
Qed.
End Lru.
