(* ===== verification/PyJson.v ===== *)
(** Dynamically typed values, their truth value, and [json.dumps].

    Digests and the shortest decimal form of a float are the interface
    [PlatformEnv]: the theorems hold for every choice of them, and a theorem
    about tampering ends in a collision rather than assuming there is none. *)

From S2P Require Import Prelude PyStr PyFloat PyDict.
From Stdlib Require Import Ascii Floats.SpecFloat.

Inductive pyval :=
| VNone
| VBool (b : bool)
| VInt (z : Z)
| VFloat (f : float)
| VStr (s : string)
| VBytes (s : string)
| VList (l : list pyval)
| VTuple (l : list pyval)
| VDict (d : list (string * pyval))
| VObj (text : string). (** any other object, known by its [str()] *)

(** Structural induction that reaches the members of lists and dicts. *)
Section PyvalInd.
Context (P : pyval -> Prop).
Context (HNone : P VNone) (HBool : forall b, P (VBool b)) (HInt : forall z, P (VInt z))
  (HFloat : forall f, P (VFloat f)) (HStr : forall s, P (VStr s)) (HBytes : forall s, P (VBytes s))
  (HList : forall l, Forall P l -> P (VList l)) (HTuple : forall l, Forall P l -> P (VTuple l))
  (HDict : forall d, Forall (fun kv => P kv.2) d -> P (VDict d)) (HObj : forall t, P (VObj t)).

Fixpoint pyval_ind' (v : pyval) : P v :=
  match v with
  | VNone => HNone
  | VBool b => HBool b
  | VInt z => HInt z
  | VFloat f => HFloat f
  | VStr s => HStr s
  | VBytes s => HBytes s
  | VList l => HList l ((fix go l := match l return Forall P l with
      | [] => Forall_nil_2 P | x :: l' => Forall_cons_2 P x l' (pyval_ind' x) (go l') end) l)
  | VTuple l => HTuple l ((fix go l := match l return Forall P l with
      | [] => Forall_nil_2 P | x :: l' => Forall_cons_2 P x l' (pyval_ind' x) (go l') end) l)
  | VDict d => HDict d ((fix go d := match d return Forall (fun kv => P kv.2) d with
      | [] => Forall_nil_2 _
      | kv :: d' => Forall_cons_2 (fun kv => P kv.2) kv d' (pyval_ind' kv.2) (go d') end) d)
  | VObj t => HObj t
  end.
End PyvalInd.

(** [bool(v)] *)
Definition truthy_val (v : pyval) : bool :=
  match v with
  | VNone => false
  | VBool b => b
  | VInt z => negb (z =? 0)
  | VFloat f => negb (feqb f fzero)
  | VStr s | VBytes s => truthy s
  | VList l | VTuple l => negb (zlen l =? 0)
  | VDict d => negb (zlen d =? 0)
  | VObj _ => true
  end.

(** [v in (None, "", [], {})] *)
Definition is_empty_val (v : pyval) : bool :=
  match v with
  | VNone | VStr "" | VList [] | VDict [] => true
  | _ => false
  end.

(** [v or {}] when [v] may be missing: the items of a dict *)
Definition as_dict (v : option pyval) : list (string * pyval) :=
  match v with Some (VDict d) => d | _ => [] end.

(** [d.get(k)] with the missing key as [None] *)
Definition vget (k : string) (d : list (string * pyval)) : pyval := dget_default VNone k d.

(** ** Digests and float text *)

Class PlatformEnv := {
  float_repr : float -> string;      (** [float.__repr__] of a finite float *)
  sha256 : string -> string;         (** [hashlib.sha256(s.encode()).hexdigest()] *)
  hmac_sha256 : string -> string -> string (** [hmac.new(key, msg, sha256).hexdigest()] *)
}.

(** Two different messages with one digest under the same key. *)
Definition hmac_collision `{PlatformEnv} (key : string) : Prop :=
  exists m1 m2, m1 <> m2 /\ hmac_sha256 key m1 = hmac_sha256 key m2.

Definition sha256_collision `{PlatformEnv} : Prop :=
  exists m1 m2, m1 <> m2 /\ sha256 m1 = sha256 m2.

(** ** [json.dumps] *)

Record json_style := {
  sort_keys : bool;
  item_sep : string;
  key_sep : string;
  ensure_ascii : bool
}.

(** [separators=(",", ":")], [sort_keys=True] *)
Definition compact_style : json_style :=
  {| sort_keys := true; item_sep := ","; key_sep := ":"; ensure_ascii := true |}.
Definition compact_utf8_style : json_style :=
  {| sort_keys := true; item_sep := ","; key_sep := ":"; ensure_ascii := false |}.
(** [sort_keys=True] alone *)
Definition sorted_style : json_style :=
  {| sort_keys := true; item_sep := ", "; key_sep := ": "; ensure_ascii := true |}.

Definition hex_digit (n : Z) : ascii :=
  ascii_of_N (Z.to_N (if n <? 10 then 48 + n else 87 + n)).

Definition dquote : ascii := ascii_of_nat 34.
Definition backslash : ascii := ascii_of_nat 92.

Definition escape_char (ensure : bool) (c : ascii) : string :=
  let n := code c in
  if n =? 34 then String backslash (String dquote "")
  else if n =? 92 then String backslash (String backslash "")
  else if n =? 10 then String backslash "n"
  else if n =? 13 then String backslash "r"
  else if n =? 9 then String backslash "t"
  else if n =? 8 then String backslash "b"
  else if n =? 12 then String backslash "f"
  else if (n <? 32) || (ensure && (126 <? n))
  then String backslash (String "u" (String "0" (String "0"
         (String (hex_digit (n / 16)) (String (hex_digit (n mod 16)) "")))))
  else String c "".

Fixpoint escape (ensure : bool) (s : string) : string :=
  match s with
  | EmptyString => EmptyString
  | String c s' => escape_char ensure c +:+ escape ensure s'
  end.

Definition json_string (ensure : bool) (s : string) : string :=
  String dquote (escape ensure s) +:+ String dquote "".

Fixpoint join (sep : string) (l : list string) : string :=
  match l with
  | [] => ""
  | [x] => x
  | x :: l' => x +:+ sep +:+ join sep l'
  end.

Fixpoint res_map {A B} (f : A -> res B) (l : list A) : res (list B) :=
  match l with
  | [] => Ok []
  | x :: l' => y ← f x; ys ← res_map f l'; Ok (y :: ys)
  end.

Definition key_le {A} (a b : string * A) : bool := str_le a.1 b.1.

Section Dumps.
Context `{PlatformEnv} (st : json_style).

Definition json_float (f : float) : string :=
  match f with
  | S754_nan => "NaN"
  | S754_infinity false => "Infinity"
  | S754_infinity true => "-Infinity"
  | _ => float_repr f
  end.

Definition order_items {A} (d : list (string * A)) : list (string * A) :=
  if sort_keys st then sort_by key_le d else d.

Fixpoint json_dumps (v : pyval) : res string :=
  match v with
  | VNone => Ok "null"
  | VBool b => Ok (if b then "true" else "false")
  | VInt z => Ok (str_of_Z z)
  | VFloat f => Ok (json_float f)
  | VStr s => Ok (json_string (ensure_ascii st) s)
  | VList l | VTuple l =>
      ys ← res_map json_dumps l;
      Ok ("[" +:+ join (item_sep st) ys +:+ "]")
  | VDict d =>
      kvs ← res_map (fun kv => y ← json_dumps kv.2; Ok (kv.1, y)) d;
      Ok ("{" +:+ join (item_sep st)
            ((fun kv => json_string (ensure_ascii st) kv.1 +:+ key_sep st +:+ kv.2) <$> order_items kvs)
          +:+ "}")
  | VBytes _ | VObj _ => Raise (TypeError "Object is not JSON serializable")
  end.
End Dumps.

(** Values [json.dumps] accepts. *)
Fixpoint serializable (v : pyval) : bool :=
  match v with
  | VBytes _ | VObj _ => false
  | VList l | VTuple l => forallb serializable l
  | VDict d => forallb (fun kv => serializable kv.2) d
  | _ => true
  end.

Lemma res_map_ok {A B} (f : A -> res B) l :
  Forall (fun x => is_ok (f x) = true) l -> is_ok (res_map f l) = true.
Proof.
  induction 1 as [|x l Hx Hl IH]; simpl; [done|].
  destruct (f x); [|done]. cbn. by destruct (res_map f l).
Qed.

Lemma json_dumps_ok `{PlatformEnv} st v : serializable v = true -> is_ok (json_dumps st v) = true.
Proof.
  induction v as [| | | | | |l IH|l IH|d IH|] using pyval_ind'; simpl; try done.
  - intros Hs. assert (Hl : is_ok (res_map (json_dumps st) l) = true).
    { apply res_map_ok. rewrite forallb_forall in Hs. apply Forall_forall. intros x Hx.
      rewrite Forall_forall in IH. apply IH; [done|]. apply Hs. by apply list_elem_of_In. }
    by destruct (res_map _ l).
  - intros Hs. assert (Hl : is_ok (res_map (json_dumps st) l) = true).
    { apply res_map_ok. rewrite forallb_forall in Hs. apply Forall_forall. intros x Hx.
      rewrite Forall_forall in IH. apply IH; [done|]. apply Hs. by apply list_elem_of_In. }
    by destruct (res_map _ l).
  - intros Hs.
    assert (Hl : is_ok (res_map (fun kv => y ← json_dumps st kv.2; Ok (kv.1, y)) d) = true).
    { apply res_map_ok. rewrite forallb_forall in Hs. apply Forall_forall. intros x Hx.
      rewrite Forall_forall in IH. specialize (IH x Hx).
      assert (Hsx : serializable x.2 = true) by (apply Hs; by apply list_elem_of_In).
      specialize (IH Hsx). by destruct (json_dumps st x.2). }
    by destruct (res_map _ d).
Qed.

(** A concrete platform for evaluating definitions on examples: the digest of a
    text is the text itself, a keyed digest prepends the key. *)
Definition plain_env : PlatformEnv := {|
  float_repr := fun _ => "0.5";
  sha256 := fun s => "h" +:+ s;
  hmac_sha256 := fun key m => key +:+ "|" +:+ m
|}.
