(* ===== verification/PyTime.v ===== *)
(** [datetime] values: ISO 8601 text, instants and their differences.

    The text grammar is the one [datetime.fromisoformat] accepts on Python
    3.10, the oldest supported interpreter: [YYYY-MM-DD], then a separator and
    [HH[:MM[:SS[.fff[fff]]]]], then an optional offset [+HH:MM[:SS[.ffffff]]]. *)

From S2P Require Import Prelude PyStr PyFloat.
From Stdlib Require Import Ascii.

(** A datetime: local time in microseconds since 1970-01-01T00:00:00, and its
    UTC offset in microseconds when it is timezone-aware. *)
Record datetime := { local_us : Z; utc_off : option Z }.

#[export] Instance datetime_eq_dec : EqDecision datetime.
Proof. solve_decision. Defined.

Definition aware (d : datetime) : bool := match utc_off d with Some _ => true | None => false end.

(** The instant of an aware datetime, in microseconds of UTC. *)
Definition instant (d : datetime) : Z := local_us d - default 0 (utc_off d).

(** ** The proleptic Gregorian calendar *)

Definition is_leap (y : Z) : bool :=
  (y mod 4 =? 0) && (negb (y mod 100 =? 0) || (y mod 400 =? 0)).

Definition days_in_month (y m : Z) : Z :=
  if m =? 2 then (if is_leap y then 29 else 28)
  else if one_of (str_of_Z m) ["4"; "6"; "9"; "11"] then 30 else 31.

(** Days from 1970-01-01 to a civil date. *)
Definition days_from_civil (y m d : Z) : Z :=
  let y' := if m <=? 2 then y - 1 else y in
  let era := y' / 400 in
  let yoe := y' - era * 400 in
  let mp := (m + 9) mod 12 in
  let doy := (153 * mp + 2) / 5 + d - 1 in
  let doe := yoe * 365 + yoe / 4 - yoe / 100 + doy in
  era * 146097 + doe - 719468.

(** The civil date of a day number. *)
Definition civil_from_days (z : Z) : Z * Z * Z :=
  let z' := z + 719468 in
  let era := z' / 146097 in
  let doe := z' - era * 146097 in
  let yoe := (doe - doe / 1460 + doe / 36524 - doe / 146096) / 365 in
  let doy := doe - (365 * yoe + yoe / 4 - yoe / 100) in
  let mp := (5 * doy + 2) / 153 in
  let d := doy - (153 * mp + 2) / 5 + 1 in
  let m := if mp <? 10 then mp + 3 else mp - 9 in
  let y := yoe + era * 400 + (if m <=? 2 then 1 else 0) in
  (y, m, d).

(** ** Parsing *)

(** Exactly [n] decimal digits, and the rest. *)
Fixpoint take_num (n : nat) (acc : Z) (s : string) : option (Z * string) :=
  match n with
  | O => Some (acc, s)
  | S n' =>
      match s with
      | String c s' => if is_digit c then take_num n' (acc * 10 + (code c - 48)) s' else None
      | EmptyString => None
      end
  end.

Definition take_char (ok : ascii -> bool) (s : string) : option string :=
  match s with
  | String c s' => if ok c then Some s' else None
  | EmptyString => None
  end.

Definition is_char (a : ascii) (c : ascii) : bool := Ascii.eqb c a.

(** [HH[:MM[:SS[.fff[fff]]]]] read to the end, in microseconds. *)
Definition parse_hms (s : string) : option Z :=
  '(h, s) ← take_num 2 0 s;
  if negb (h <? 24) then None else
  let us := h * 3600000000 in
  if String.eqb s "" then Some us else
  s ← take_char (is_char ":") s;
  '(m, s) ← take_num 2 0 s;
  if negb (m <? 60) then None else
  let us := us + m * 60000000 in
  if String.eqb s "" then Some us else
  s ← take_char (is_char ":") s;
  '(sec, s) ← take_num 2 0 s;
  if negb (sec <? 60) then None else
  let us := us + sec * 1000000 in
  if String.eqb s "" then Some us else
  s ← take_char (is_char ".") s;
  if slen s =? 3 then '(f, _) ← take_num 3 0 s; Some (us + f * 1000)
  else if slen s =? 6 then '(f, _) ← take_num 6 0 s; Some (us + f)
  else None.

(** Split at the first [+] or [-]: the time, the sign, the offset text. *)
Fixpoint split_offset (s : string) : string * option (bool * string) :=
  match s with
  | EmptyString => (EmptyString, None)
  | String c s' =>
      if is_char "+" c then (EmptyString, Some (false, s'))
      else if is_char "-" c then (EmptyString, Some (true, s'))
      else let '(t, o) := split_offset s' in (String c t, o)
  end.

Definition parse_time (s : string) : option (Z * option Z) :=
  let '(t, o) := split_offset s in
  us ← parse_hms t;
  match o with
  | None => Some (us, None)
  | Some (neg, ot) =>
      if (slen ot =? 5) || (slen ot =? 8) || (slen ot =? 15)
      then off ← parse_hms ot; Some (us, Some (if neg : bool then - off else off))
      else None
  end.

(** [datetime.fromisoformat(s)]; [None] is its [ValueError]. *)
Definition fromisoformat (s : string) : option datetime :=
  '(y, s) ← take_num 4 0 s;
  s ← take_char (is_char "-") s;
  '(m, s) ← take_num 2 0 s;
  s ← take_char (is_char "-") s;
  '(d, s) ← take_num 2 0 s;
  if negb ((1 <=? y) && (1 <=? m) && (m <=? 12) && (1 <=? d) && (d <=? days_in_month y m)) then None else
  let day := days_from_civil y m d * 86400000000 in
  if String.eqb s "" then Some {| local_us := day; utc_off := None |} else
  s ← take_char (fun _ => true) s;
  '(us, off) ← parse_time s;
  Some {| local_us := day + us; utc_off := off |}.

(** Instants a [datetime] can hold. *)
Definition MAXIMUM_INSTANT : Z := 253402300799999999.
Definition MINIMUM_INSTANT : Z := -62135596800000000.

Definition instant_in_range (us : Z) : res Z :=
  if (MINIMUM_INSTANT <=? us) && (us <=? MAXIMUM_INSTANT) then Ok us else Raise (OverflowError "date value out of range").

(** [s.replace("Z", "+00:00")] *)
Fixpoint replace_zulu (s : string) : string :=
  match s with
  | EmptyString => ""
  | String c s' => if Ascii.eqb c "Z" then "+00:00" +:+ replace_zulu s' else String c (replace_zulu s')
  end.

(** ** Printing *)

Fixpoint pad_num (n : nat) (z : Z) (acc : string) : string :=
  match n with
  | O => acc
  | S n' => pad_num n' (z / 10) (String (digit_char (z mod 10)) acc)
  end.

(** [datetime.fromtimestamp(t, timezone.utc).isoformat()] *)
Definition isoformat_utc (us : Z) : string :=
  let '(y, m, d) := civil_from_days (us / 86400000000) in
  let r := us mod 86400000000 in
  let f := r mod 1000000 in
  pad_num 4 y "" +:+ "-" +:+ pad_num 2 m "" +:+ "-" +:+ pad_num 2 d "" +:+ "T"
  +:+ pad_num 2 (r / 3600000000) "" +:+ ":" +:+ pad_num 2 (r / 60000000 mod 60) ""
  +:+ ":" +:+ pad_num 2 (r / 1000000 mod 60) ""
  +:+ (if f =? 0 then "" else "." +:+ pad_num 6 f "") +:+ "+00:00".

(** [(a - b).total_seconds()] of two instants in microseconds *)
Definition total_seconds (us : Z) : float := int_div us 1000000.

Example fromisoformat_ex :
  fromisoformat "2026-07-18T09:30:05.250000-08:00"
    = Some {| local_us := 1784367005250000; utc_off := Some (-28800000000) |}.
Proof. by vm_compute. Qed.

Example isoformat_ex :
  isoformat_utc 1784367005250000 = "2026-07-18T09:30:05.250000+00:00"
  /\ fromisoformat (isoformat_utc 951782400000000)
     = Some {| local_us := 951782400000000; utc_off := Some 0 |}
  /\ isoformat_utc 951782400000000 = "2000-02-29T00:00:00+00:00".
Proof. by vm_compute. Qed.

Example fromisoformat_bad :
  fromisoformat "2026-02-29T00:00:00+00:00" = None /\ fromisoformat "2026-07-18T24:00" = None
  /\ fromisoformat "tomorrow" = None.
Proof. by vm_compute. Qed.
