(* ===== verification/Sql.v ===== *)
(** Database connections.

    A connection keeps the committed tables beside the working ones, as SQLite
    does for an open transaction: a write opens one, [commit] publishes it,
    [rollback] drops it. Every statement may fail, as decided by the environment's
    [stmt_ok]. What the tables are is up to the database. *)

From S2P Require Import Prelude PyStr PyFloat PyDict PyJson PyTime.

(** ** The connection *)

Record Conn (T : Type) := {
  committed : T;
  working : T;
  in_tx : bool;
  ticks : nat      (** interactions with the environment so far *)
}.
Arguments committed {T} _.
Arguments working {T} _.
Arguments in_tx {T} _.
Arguments ticks {T} _.

(** What the process meets outside: the wall clock, statement failures, the size
    of the database files, the audit key. *)
Class StoreEnv := {
  #[global] store_platform :: PlatformEnv;
  utc_clock : nat -> Z;            (** microseconds of UTC at the n-th interaction *)
  stmt_ok : nat -> bool;
  database_bytes : nat -> Z;
  integrity_key : string
}.

Definition tick {T} (w : Conn T) : Conn T :=
  {| committed := committed w; working := working w; in_tx := in_tx w; ticks := S (ticks w) |}.

Section Connection.
Context {T : Type} `{StoreEnv}.

Definition sql_error : exn := OperationalError "database statement failed".

(** A statement that only reads. *)
Definition sql_read {A} (f : T -> A) : M (Conn T) A := fun w =>
  if stmt_ok (ticks w) then (Ok (f (working w)), tick w) else (Raise sql_error, tick w).

(** A statement that writes opens a transaction when none is open; one that
    violates a constraint of the schema raises and writes nothing. *)
Definition sql_write_checked (f : T -> res T) : M (Conn T) unit := fun w =>
  if stmt_ok (ticks w) then
    match f (working w) with
    | Ok t => (Ok tt, {| committed := committed w; working := t; in_tx := true; ticks := S (ticks w) |})
    | Raise e => (Raise e, {| committed := committed w; working := working w; in_tx := true; ticks := S (ticks w) |})
    end
  else (Raise sql_error, tick w).

Definition sql_write (f : T -> T) : M (Conn T) unit := sql_write_checked (fun t => Ok (f t)).

(** A write whose effect is reported back: [rowcount], [changes()]. *)
Definition sql_update {A} (f : T -> T * A) : M (Conn T) A := fun w =>
  if stmt_ok (ticks w) then
    let (t, a) := f (working w) in
    (Ok a, {| committed := committed w; working := t; in_tx := true; ticks := S (ticks w) |})
  else (Raise sql_error, tick w).

(** [BEGIN IMMEDIATE] *)
Definition begin_immediate : M (Conn T) unit := fun w =>
  if in_tx w then (Raise (OperationalError "cannot start a transaction within a transaction"), tick w)
  else if stmt_ok (ticks w)
  then (Ok tt, {| committed := committed w; working := working w; in_tx := true; ticks := S (ticks w) |})
  else (Raise sql_error, tick w).

Definition commit : M (Conn T) unit := fun w =>
  if stmt_ok (ticks w)
  then (Ok tt, {| committed := working w; working := working w; in_tx := false; ticks := S (ticks w) |})
  else (Raise sql_error, tick w).

Definition rollback : M (Conn T) unit := fun w =>
  (Ok tt, {| committed := committed w; working := committed w; in_tx := false; ticks := S (ticks w) |}).

(** [with connection: m] commits what [m] wrote; an exception, of [m] or of the
    commit, rolls it back. *)
Definition with_connection {A} (m : M (Conn T) A) : M (Conn T) A :=
  try_except (a ← m; commit;; mret a) (fun e => rollback;; raise_st e).

(** [utc_now_iso()] *)
Definition utc_now : M (Conn T) string := fun w => (Ok (isoformat_utc (utc_clock (ticks w))), tick w).

(** The current instant, for comparisons of datetimes. *)
Definition utc_instant : M (Conn T) Z := fun w => (Ok (utc_clock (ticks w)), tick w).

Definition read_database_bytes : M (Conn T) Z := fun w => (Ok (database_bytes (ticks w)), tick w).
End Connection.

(** No transaction is open and nothing is uncommitted. *)
Definition quiescent {T} (w : Conn T) : Prop := in_tx w = false /\ working w = committed w.

(** A predicate on the committed and the working tables: what no clock tick or
    transaction flag can change. *)
Definition tables_st {T} (P : T -> T -> Prop) (w : Conn T) : Prop := P (committed w) (working w).

Section ConnectionLemmas.
Context {T : Type} `{StoreEnv}.

Lemma preserves_read {A} (P : T -> T -> Prop) (f : T -> A) : preserves (tables_st P) (sql_read f).
Proof. intros w Hw. unfold sql_read. by destruct (stmt_ok _). Qed.

(** After a read the result is the one of the current tables. *)
Lemma triple_read {A} (P : T -> T -> Prop) (f : T -> A) :
  triple (tables_st P) (sql_read f) (fun a => tables_st (fun c t => P c t /\ a = f t)) (fun _ => tables_st P).
Proof. intros w Hw. unfold sql_read. by destruct (stmt_ok _). Qed.

Lemma triple_write_checked (P : T -> T -> Prop) (Q : T -> T -> Prop) f :
  (forall c t t', P c t -> f t = Ok t' -> Q c t') ->
  triple (tables_st P) (sql_write_checked f) (fun _ => tables_st Q) (fun _ => tables_st P).
Proof.
  intros HQ w Hw. unfold sql_write_checked. destruct (stmt_ok _); [|done].
  destruct (f _) eqn:Hf; [|done]. by eapply HQ.
Qed.

Lemma triple_write (P Q : T -> T -> Prop) f :
  (forall c t, P c t -> Q c (f t)) ->
  triple (tables_st P) (sql_write f) (fun _ => tables_st Q) (fun _ => tables_st P).
Proof. intros HQ. apply triple_write_checked. intros c t t' HP [= <-]. by apply HQ. Qed.

Lemma preserves_write (P : T -> T -> Prop) f :
  (forall c t, P c t -> P c (f t)) -> preserves (tables_st P) (sql_write f).
Proof. apply triple_write. Qed.

Lemma triple_update {A} (P : T -> T -> Prop) (Q : A -> T -> T -> Prop) f :
  (forall c t, P c t -> Q (f t).2 c (f t).1) ->
  triple (tables_st P) (sql_update f) (fun a => tables_st (Q a)) (fun _ => tables_st P).
Proof.
  intros HQ w Hw. unfold sql_update. destruct (stmt_ok _); [|done].
  specialize (HQ (committed w) (working w) Hw). by destruct (f (working w)).
Qed.

Lemma preserves_begin (P : T -> T -> Prop) : preserves (tables_st P) begin_immediate.
Proof. intros w Hw. unfold begin_immediate. destruct (in_tx w); [done|]. by destruct (stmt_ok _). Qed.

Lemma preserves_now (P : T -> T -> Prop) : preserves (tables_st P) utc_now.
Proof. by intros w Hw. Qed.

Lemma preserves_instant (P : T -> T -> Prop) : preserves (tables_st P) utc_instant.
Proof. by intros w Hw. Qed.

Lemma preserves_bytes (P : T -> T -> Prop) : preserves (tables_st P) read_database_bytes.
Proof. by intros w Hw. Qed.

(** A commit publishes the working tables. *)
Lemma triple_commit (P : T -> T -> Prop) :
  triple (tables_st P) commit
    (fun _ w => quiescent w /\ exists c, P c (committed w)) (fun _ => tables_st P).
Proof.
  intros w Hw. unfold commit. destruct (stmt_ok _); [|done].
  split; [done|]. by exists (committed w).
Qed.

(** Whatever becomes of it, a commit leaves the working tables alone. *)
Lemma preserves_commit_working (P : T -> Prop) : preserves (tables_st (fun _ => P)) commit.
Proof. intros w Hw. unfold commit. by destruct (stmt_ok _). Qed.

Lemma triple_commit_working (P : T -> Prop) :
  triple (tables_st (fun _ => P)) commit (fun _ w => working w = committed w /\ P (working w))
    (fun _ => tables_st (fun _ => P)).
Proof. intros w Hw. unfold commit. by destruct (stmt_ok _). Qed.

(** What holds of the committed and of the working tables alike survives
    commits and rollbacks too. *)
Definition both (P : T -> Prop) : T -> T -> Prop := fun c t => P c /\ P t.

Lemma preserves_commit (P : T -> Prop) : preserves (tables_st (both P)) commit.
Proof. intros w [H1 H2]. unfold commit. by destruct (stmt_ok _). Qed.

Lemma preserves_rollback (P : T -> Prop) : preserves (tables_st (both P)) rollback.
Proof. by intros w [H1 H2]. Qed.

(** Going on after a step that keeps the invariant. *)
Lemma triple_seq {A B} (I : (Conn T) -> Prop) (m : M (Conn T) A) (k : A -> M (Conn T) B) Q :
  preserves I m -> (forall a, triple I (k a) Q (fun _ => I)) -> triple I (m ≫= k) Q (fun _ => I).
Proof. intros Hm Hk. by apply triple_bind with (R := fun _ => I). Qed.

(** The same, with a weaker invariant for failures. *)
Lemma triple_seq_weak {A B} (I E : (Conn T) -> Prop) (m : M (Conn T) A) (k : A -> M (Conn T) B) Q :
  preserves I m -> (forall w, I w -> E w) -> (forall a, triple I (k a) Q (fun _ => E)) ->
  triple I (m ≫= k) Q (fun _ => E).
Proof.
  intros Hm HE Hk. apply triple_bind with (R := fun _ => I); [|done].
  eapply triple_weaken; [exact Hm|done|done|]. intros e w Hw. by apply HE.
Qed.

(** *** Transactions

    Inside a transaction the committed tables stay; what a body that returns does is
    told by the working ones. *)

Definition keeps_committed {A} (m : M (Conn T) A) : Prop := forall w, committed (m w).2 = committed w.

Lemma keeps_ret {A} (a : A) : keeps_committed (mret a : M (Conn T) A).
Proof. done. Qed.
Lemma keeps_raise {A} e : keeps_committed (raise_st (A := A) e).
Proof. done. Qed.
Lemma keeps_lift {A} (r : res A) : keeps_committed (lift_res r).
Proof. done. Qed.
Lemma keeps_read {A} (f : T -> A) : keeps_committed (sql_read f).
Proof. intros w. unfold sql_read. by destruct (stmt_ok _). Qed.
Lemma keeps_checked f : keeps_committed (sql_write_checked f).
Proof. intros w. unfold sql_write_checked. destruct (stmt_ok _); [by destruct (f _)|done]. Qed.
Lemma keeps_write f : keeps_committed (sql_write f).
Proof. apply keeps_checked. Qed.
Lemma keeps_now : keeps_committed (utc_now : M (Conn T) string).
Proof. done. Qed.
Lemma keeps_instant : keeps_committed (utc_instant : M (Conn T) Z).
Proof. done. Qed.
Lemma keeps_bind {A B} (m : M (Conn T) A) (k : A -> M (Conn T) B) :
  keeps_committed m -> (forall a, keeps_committed (k a)) -> keeps_committed (m ≫= k).
Proof.
  intros Hm Hk w. specialize (Hm w). unfold mbind, M_bind. destruct (m w) as [[a|e] w1]; [|done].
  by rewrite Hk.
Qed.

(** A transaction does all of [m] or nothing, and leaves nothing open. *)
Lemma with_connection_run {A} (m : M (Conn T) A) w : keeps_committed m -> quiescent w ->
  match with_connection m w with
  | (Ok a, w') => quiescent w' /\ exists w1, m w = (Ok a, w1) /\ committed w' = working w1
  | (Raise _, w') => quiescent w' /\ committed w' = committed w
  end.
Proof.
  intros Hm _. specialize (Hm w). unfold with_connection, try_except, mbind, M_bind. destruct (m w) as [[a|e] w1]; [|done].
  unfold commit. destruct (stmt_ok _); [|done]. split; [done|]. by exists w1.
Qed.

Lemma read_ok {A} (f : T -> A) (w : Conn T) a (w1 : Conn T) : sql_read f w = (Ok a, w1) -> a = f (working w) /\ working w1 = working w.
Proof. unfold sql_read. destruct (stmt_ok _); [by intros [= <- <-]|done]. Qed.
Lemma checked_ok (f : T -> res T) (w w1 : Conn T) : sql_write_checked f w = (Ok tt, w1) -> f (working w) = Ok (working w1).
Proof. unfold sql_write_checked. destruct (stmt_ok _); [|done]. destruct (f _); [by intros [= <-]|done]. Qed.
Lemma write_ok (f : T -> T) (w w1 : Conn T) : sql_write f w = (Ok tt, w1) -> working w1 = f (working w).
Proof. intros H1%checked_ok. by injection H1. Qed.
Lemma now_ok (w : Conn T) a (w1 : Conn T) : utc_now w = (Ok a, w1) -> working w1 = working w.
Proof. by intros [= _ <-]. Qed.
Lemma instant_ok (w : Conn T) a (w1 : Conn T) : utc_instant w = (Ok a, w1) -> working w1 = working w.
Proof. by intros [= _ <-]. Qed.
Lemma lift_ok {S A} (r : res A) (w : S) a w1 : lift_res r w = (Ok a, w1) -> r = Ok a /\ w1 = w.
Proof. by intros [= -> <-]. Qed.

(** A body that, when it returns, keeps [I] of the working tables. *)
Definition advances {A} (I : T -> Prop) (m : M (Conn T) A) : Prop :=
  forall w a w1, m w = (Ok a, w1) -> I (working w) -> I (working w1).

Lemma advances_ret {A} (I : T -> Prop) (a : A) : advances I (mret a).
Proof. by intros w b w1 [= <- <-]. Qed.
Lemma advances_raise {A} (I : T -> Prop) e : advances I (raise_st (A := A) e).
Proof. by intros w b w1 ?. Qed.
Lemma advances_lift {A} (I : T -> Prop) (r : res A) : advances I (lift_res r).
Proof. by intros w b w1 [_ ->]%lift_ok. Qed.
Lemma advances_read {A} (I : T -> Prop) (f : T -> A) : advances I (sql_read f).
Proof. by intros w b w1 [_ ->]%read_ok. Qed.
Lemma advances_now (I : T -> Prop) : advances I (utc_now : M (Conn T) string).
Proof. by intros w b w1 ->%now_ok. Qed.
Lemma advances_instant (I : T -> Prop) : advances I (utc_instant : M (Conn T) Z).
Proof. by intros w b w1 ->%instant_ok. Qed.
Lemma advances_checked (I : T -> Prop) f : (forall t t', f t = Ok t' -> I t -> I t') -> advances I (sql_write_checked f).
Proof. intros Hf w [] w1 H1%checked_ok. by apply Hf. Qed.
Lemma advances_write (I : T -> Prop) f : (forall t, I t -> I (f t)) -> advances I (sql_write f).
Proof. intros Hf. apply advances_checked. intros t t' [= <-]. apply Hf. Qed.
Lemma advances_bind {A B} (I : T -> Prop) (m : M (Conn T) A) (k : A -> M (Conn T) B) :
  advances I m -> (forall a, advances I (k a)) -> advances I (m ≫= k).
Proof. intros Hm Hk w b w2 (a & w1 & H1 & H2)%bind_ok HI. eapply Hk; [exact H2|]. by eapply Hm. Qed.

(** What every transaction keeps of the committed tables. *)
Definition settled (I : T -> Prop) (w : Conn T) : Prop := quiescent w /\ I (committed w).

Lemma with_connection_settled {A} (I : T -> Prop) (m : M (Conn T) A) :
  keeps_committed m -> advances I m -> preserves (settled I) (with_connection m).
Proof.
  intros Hc Hm w [Hq HI]. pose proof (with_connection_run m w Hc Hq) as Hr.
  destruct (with_connection m w) as [[a|e] w'].
  - destruct Hr as (Hq' & w1 & H1 & Hw). split; [done|]. rewrite Hw. eapply Hm; [exact H1|]. by rewrite (proj2 Hq).
  - destruct Hr as [Hq' Hw]. split; [done|]. by rewrite Hw.
Qed.

Lemma settled_read {A} (I : T -> Prop) (f : T -> A) : preserves (settled I) (sql_read f).
Proof. intros w Hw. unfold sql_read. by destruct (stmt_ok _). Qed.

Lemma settled_now (I : T -> Prop) : preserves (settled I) utc_now.
Proof. by intros w Hw. Qed.

Lemma settled_instant (I : T -> Prop) : preserves (settled I) utc_instant.
Proof. by intros w Hw. Qed.
End ConnectionLemmas.

#[export] Hint Resolve keeps_ret keeps_raise keeps_lift keeps_read keeps_checked keeps_write keeps_now keeps_instant
  keeps_bind advances_ret advances_raise advances_lift advances_read advances_now advances_instant advances_bind
  with_connection_settled settled_read settled_now settled_instant preserves_read preserves_begin preserves_now preserves_instant preserves_bytes
  preserves_commit preserves_commit_working preserves_rollback : msaa.
