(* ===== verification/PyRegex.v ===== *)
(** The part of Python's [re] the program uses: a backtracking matcher over
    character classes, concatenation, ordered alternatives, greedy repetition,
    groups and word boundaries, with [search], [fullmatch] and [sub]. *)

From S2P Require Import Prelude PyStr.
From Stdlib Require Import Ascii.

Inductive regex :=
| RClass (p : ascii -> bool)
| REps
| RCat (a b : regex)
| RAlt (a b : regex)      (** [a|b], [a] tried first *)
| RStar (a : regex)       (** [a*], greedy *)
| RWordB                  (** [\b] *)
| RGroup (n : nat) (a : regex).

Record mstate := {
  m_prev : option ascii;             (** the character before the position *)
  m_rest : string;                   (** the text from the position on *)
  m_pos : nat;
  m_groups : list (nat * (nat * nat)) (** latest first *)
}.

Definition advance (c : ascii) (s' : string) (st : mstate) : mstate :=
  {| m_prev := Some c; m_rest := s'; m_pos := S (m_pos st); m_groups := m_groups st |}.

Definition set_group (n start : nat) (st : mstate) : mstate :=
  {| m_prev := m_prev st; m_rest := m_rest st; m_pos := m_pos st;
     m_groups := (n, (start, m_pos st)) :: m_groups st |}.

Definition is_word (c : ascii) : bool := is_alnum c || (code c =? 95).

Definition at_boundary (st : mstate) : bool :=
  let before := match m_prev st with Some c => is_word c | None => false end in
  let after := match m_rest st with String c _ => is_word c | EmptyString => false end in
  xorb before after.

(** [run r k st]: the first way, in Python's order, to match [r] at [st] such
    that the continuation [k] accepts what follows. An iteration of a star that
    consumes nothing is not repeated. *)
Fixpoint run {A} (r : regex) (k : mstate -> option A) (st : mstate) {struct r} : option A :=
  match r with
  | REps => k st
  | RClass p =>
      match m_rest st with
      | String c s' => if p c then k (advance c s' st) else None
      | EmptyString => None
      end
  | RCat a b => run a (run b k) st
  | RAlt a b => match run a k st with Some v => Some v | None => run b k st end
  | RWordB => if at_boundary st then k st else None
  | RGroup n a => run a (fun st' => k (set_group n (m_pos st) st')) st
  | RStar a =>
      (fix loop (n : nat) (st : mstate) : option A :=
         match n with
         | O => k st
         | S n' =>
             match run a (fun st' => if Nat.eqb (m_pos st') (m_pos st) then None else loop n' st') st with
             | Some v => Some v
             | None => k st
             end
         end) (String.length (m_rest st)) st
  end.

Definition start_state (prev : option ascii) (s : string) (pos : nat) : mstate :=
  {| m_prev := prev; m_rest := s; m_pos := pos; m_groups := [] |}.

(** [bool(re.fullmatch(r, s))] *)
Definition fullmatch (r : regex) (s : string) : bool :=
  match run r (fun st => if String.eqb (m_rest st) "" then Some tt else None) (start_state None s 0) with
  | Some _ => true
  | None => false
  end.

(** The leftmost match, as its start and its final state. *)
Fixpoint search_from (r : regex) (prev : option ascii) (s : string) (pos : nat) : option (nat * mstate) :=
  match run r Some (start_state prev s pos) with
  | Some st => Some (pos, st)
  | None =>
      match s with
      | EmptyString => None
      | String c s' => search_from r (Some c) s' (S pos)
      end
  end.

(** [bool(re.search(r, s))] *)
Definition search (r : regex) (s : string) : bool :=
  match search_from r None s 0 with Some _ => true | None => false end.

Fixpoint sdrop (n : nat) (s : string) : string :=
  match n, s with
  | S n', String _ s' => sdrop n' s'
  | _, _ => s
  end.

Definition slice (a b : nat) (s : string) : string := stake (b - a) (sdrop a s).

(** [match.group(n)] in the searched text *)
Definition group_text (s : string) (st : mstate) (n : nat) : string :=
  match find_first (fun g => Nat.eqb g.1 n) (m_groups st) with
  | Some (_, (a, b)) => slice a b s
  | None => ""
  end.

(** [re.sub(r, f, s)] from a position on; [whole] is the searched text. *)
Fixpoint sub_from (fuel : nat) (r : regex) (f : mstate -> string) (whole : string)
    (prev : option ascii) (s : string) (pos : nat) : string :=
  match fuel with
  | O => s
  | S fuel' =>
      match search_from r prev s pos with
      | None => s
      | Some (start, st) =>
          if Nat.eqb (m_pos st) start
          then match m_rest st with
               | EmptyString => slice pos start whole +:+ f st
               | String c s' =>
                   slice pos start whole +:+ f st
                   +:+ String c (sub_from fuel' r f whole (Some c) s' (S start))
               end
          else slice pos start whole +:+ f st
               +:+ sub_from fuel' r f whole (m_prev st) (m_rest st) (m_pos st)
      end
  end.

Definition sub (r : regex) (f : mstate -> string) (s : string) : string :=
  sub_from (S (String.length s)) r f s None s 0.

(** ** Building patterns *)

Definition rchar (c : ascii) : regex := RClass (Ascii.eqb c).
(** A literal under [(?i)] *)
Definition rchar_ci (c : ascii) : regex := RClass (fun d => Ascii.eqb (lower_char c) (lower_char d)).

Fixpoint rstr_ci (s : string) : regex :=
  match s with
  | EmptyString => REps
  | String c s' => RCat (rchar_ci c) (rstr_ci s')
  end.

Definition ropt (r : regex) : regex := RAlt r REps.
Definition rplus (r : regex) : regex := RCat r (RStar r).

Fixpoint ralts (l : list regex) : regex :=
  match l with
  | [] => RClass (fun _ => false)
  | [r] => r
  | r :: l' => RAlt r (ralts l')
  end.

(** [r{0,n}], greedy *)
Fixpoint rupto (n : nat) (r : regex) : regex :=
  match n with
  | O => REps
  | S n' => RAlt (RCat r (rupto n' r)) REps
  end.

Fixpoint rtimes (n : nat) (r : regex) : regex :=
  match n with
  | O => REps
  | S n' => RCat r (rtimes n' r)
  end.

(** [r{lo,hi}] *)
Definition rrange (lo hi : nat) (r : regex) : regex := RCat (rtimes lo r) (rupto (hi - lo) r).

(** Characters of a class written out *)
Fixpoint chars (s : string) (c : ascii) : bool :=
  match s with
  | EmptyString => false
  | String d s' => Ascii.eqb d c || chars s' c
  end.

(** ** Bounded repetition of one class

    [fullmatch] of [p{lo,hi}] accepts exactly the strings of [lo] to [hi]
    characters that all satisfy [p]. *)

Section ClassRange.
Context (p : ascii -> bool).

Let k : mstate -> option unit := fun st => if String.eqb (m_rest st) "" then Some tt else None.

Lemma option_unit_ext (a b : option unit) : (a = Some tt <-> b = Some tt) -> a = b.
Proof. destruct a as [[]|], b as [[]|]; naive_solver. Qed.

Lemma run_upto n st :
  run (rupto n (RClass p)) k st = Some tt <->
  all_chars p (m_rest st) = true /\ (String.length (m_rest st) <= n)%nat.
Proof.
  revert st. induction n as [|n IH]; intros st; simpl; unfold k.
  - destruct (m_rest st) as [|c s]; simpl; split; try done. intros [_ ?]. lia.
  - destruct (m_rest st) as [|c s] eqn:Hs; simpl; [split; [intros _; split; [done|lia] | done]|].
    destruct (p c) eqn:Hp; simpl; [|split; [done | by intros [? _]]].
    specialize (IH (advance c s st)). simpl in IH. unfold k in IH.
    destruct (run _ _ _) as [[]|]; split; try done.
    + intros _. destruct (proj1 IH eq_refl). split; [done|lia].
    + intros [H1 H2]. apply IH. split; [done|lia].
Qed.

Lemma run_times n (kk : mstate -> option unit) st :
  (forall st1 st2, m_rest st1 = m_rest st2 -> kk st1 = kk st2) ->
  run (rtimes n (RClass p)) kk st = Some tt <->
  exists s1 s2, m_rest st = s1 +:+ s2 /\ String.length s1 = n /\ all_chars p s1 = true
    /\ kk (start_state None s2 0) = Some tt.
Proof.
  intros Hkk. revert st. induction n as [|n IH]; intros st; simpl.
  - split.
    + intros H. exists "", (m_rest st). rewrite <- H. split_and!; try done. by apply Hkk.
    + intros (s1 & s2 & Hr & Hl & _ & Hk). destruct s1; [|done]. simpl in Hr.
      rewrite <- Hk. by apply Hkk.
  - destruct (m_rest st) as [|c s] eqn:Hs.
    + split; [done|]. by intros ([|] & s2 & ? & ? & _).
    + destruct (p c) eqn:Hp.
      * rewrite IH. simpl. split.
        -- intros (s1 & s2 & -> & <- & Ha & Hk). exists (String c s1), s2. simpl. by rewrite Hp, Ha.
        -- intros ([|c' s1] & s2 & Hr & Hl & Ha & Hk); [done|]. simpl in *.
           injection Hr as -> ->. injection Hl as <-. rewrite Hp in Ha. by exists s1, s2.
      * split; [done|]. intros ([|c' s1] & s2 & Hr & Hl & Ha & Hk); [done|]. simpl in *.
        injection Hr as -> ->. by rewrite Hp in Ha.
Qed.

Lemma fullmatch_range lo hi s : (lo <= hi)%nat ->
  fullmatch (rrange lo hi (RClass p)) s = true <->
  all_chars p s = true /\ (lo <= String.length s <= hi)%nat.
Proof.
  intros Hlh. unfold fullmatch, rrange. simpl. fold k.
  assert (Hiff : run (rtimes lo (RClass p)) (run (rupto (hi - lo) (RClass p)) k) (start_state None s 0) = Some tt
    <-> all_chars p s = true /\ (lo <= String.length s <= hi)%nat).
  { rewrite run_times.
    - simpl. setoid_rewrite run_upto. simpl. split.
      + intros (s1 & s2 & -> & Hl & Ha & Hb & Hc). rewrite all_chars_app, Ha, Hb, length_string_app.
        split; [done|lia].
      + intros [Ha Hl]. exists (stake lo s), (sdrop lo s).
        assert (Hcut : s = stake lo s +:+ sdrop lo s /\ String.length (stake lo s) = lo).
        { clear Ha Hlh. destruct Hl as [Hl _]. revert lo Hl.
          induction s as [|c s IH]; intros [|lo] Hl; simpl in *; try done; [lia|].
          destruct (IH lo) as [H1 H2]; [lia|]. split; [|by rewrite H2].
          change (String c s = String c (stake lo s +:+ sdrop lo s)). by rewrite <- H1. }
        destruct Hcut as [Hcut Hlen]. rewrite Hcut, all_chars_app in Ha.
        apply andb_true_iff in Ha as [Ha1 Ha2]. split_and!; try done.
        apply (f_equal String.length) in Hcut. rewrite length_string_app in Hcut. lia.
    - intros st1 st2 Heq. apply option_unit_ext. by rewrite !run_upto, Heq. }
  destruct (run _ _ _) as [[]|]; [naive_solver|]. split; [done|]. intros H%Hiff. done.
Qed.
End ClassRange.
