(* ===== verification/AlertConfig.v ===== *)
(** The alerting limits: [alerts/configuration.py].

    [AlertingConfig] is the frozen dataclass, [default_config] its field
    defaults, [config_validate] its [validate] method. *)

From S2P Require Import Prelude PyStr.

Record AlertingConfig := {
  schema_version : Z;
  dedup_window_seconds : Z;
  summary_interval_seconds : Z;
  resolve_after_seconds : Z;
  summary_thresholds : list Z;
  ingestion_capacity : Z;
  notification_capacity : Z;
  protected_capacity : Z;
  maximum_active_fingerprints : Z;
  state_ttl_seconds : Z;
  maximum_size_mb : Z;
  emergency_reserved_size_mb : Z;
  individual_duplicate_retention_limit : Z;
  maximum_event_size_bytes : Z;
  maximum_string_length : Z;
  desktop_notifications_per_minute : Z;
  flood_events_per_window : Z;
  source_rate_per_second : Z;
  maximum_source_windows : Z;
  emergency_buffer_capacity : Z;
  fallback_audit_maximum_bytes : Z;
  maximum_suppression_duration_seconds : Z;
  maximum_nesting_depth : Z;
  maximum_collection_items : Z;
  event_integrity_chain_enabled : bool;
  source_authentication_enabled : bool
}.

Definition default_config : AlertingConfig := {|
  schema_version := 1;
  dedup_window_seconds := 60;
  summary_interval_seconds := 300;
  resolve_after_seconds := 900;
  summary_thresholds := [10; 100; 1000];
  ingestion_capacity := 10000;
  notification_capacity := 2000;
  protected_capacity := 500;
  maximum_active_fingerprints := 50000;
  state_ttl_seconds := 86400;
  maximum_size_mb := 2048;
  emergency_reserved_size_mb := 256;
  individual_duplicate_retention_limit := 1000;
  maximum_event_size_bytes := 262144;
  maximum_string_length := 16384;
  desktop_notifications_per_minute := 6;
  flood_events_per_window := 1000;
  source_rate_per_second := 2000;
  maximum_source_windows := 4096;
  emergency_buffer_capacity := 512;
  fallback_audit_maximum_bytes := 1048576;
  maximum_suppression_duration_seconds := 86400;
  maximum_nesting_depth := 8;
  maximum_collection_items := 128;
  event_integrity_chain_enabled := true;
  source_authentication_enabled := true
|}.

(** [sorted(set(l))] *)
Definition sorted_set (l : list Z) : list Z := sort_by Z.leb (remove_dups l).

Definition config_validate (c : AlertingConfig) : res unit :=
  raise_if (negb (schema_version c =? 1)) (ValueError "unsupported alerting configuration schema");;
  let positive := [dedup_window_seconds c; summary_interval_seconds c; resolve_after_seconds c;
    ingestion_capacity c; notification_capacity c; protected_capacity c;
    maximum_active_fingerprints c; maximum_event_size_bytes c; maximum_source_windows c;
    emergency_buffer_capacity c; fallback_audit_maximum_bytes c;
    maximum_suppression_duration_seconds c; maximum_nesting_depth c; maximum_collection_items c] in
  raise_if (existsb (fun v => v <=? 0) positive) (ValueError "alerting limits must be positive");;
  raise_if (ingestion_capacity c <=? protected_capacity c)
    (ValueError "protected capacity must be smaller than ingestion capacity");;
  raise_if (negb (bool_decide (sorted_set (summary_thresholds c) = summary_thresholds c))
            || existsb (fun v => v <=? 1) (summary_thresholds c))
    (ValueError "summary thresholds must be unique, increasing, and greater than one");;
  raise_if (maximum_size_mb c <=? emergency_reserved_size_mb c)
    (ValueError "emergency reserve must be smaller than the storage quota").

(** ** The validated configurations *)

Definition strictly_increasing : list Z -> Prop := Sorted Z.lt.

Lemma strictly_increasing_NoDup l : strictly_increasing l -> NoDup l.
Proof.
  intros Hs. apply Sorted_StronglySorted in Hs; [|intros x y z; apply Z.lt_trans].
  induction Hs as [|x l Hs IH Hx]; constructor; [|done].
  intros Hin. rewrite Forall_forall in Hx. specialize (Hx x Hin). lia.
Qed.

Lemma remove_dups_id (l : list Z) : NoDup l -> remove_dups l = l.
Proof.
  induction 1 as [|x l Hx Hn IH]; cbn; [done|]. destruct (decide_rel _ _ _); [done|]. by rewrite IH.
Qed.

Lemma sorted_set_fixed l : sorted_set l = l <-> strictly_increasing l.
Proof.
  unfold sorted_set. split.
  - intros Heq.
    assert (Hs : Sorted (fun a b => (a <=? b) = true) l).
    { rewrite <- Heq. apply sort_by_sorted. intros a b H. b2p. apply Z.leb_le. lia. }
    assert (Hn : NoDup l).
    { rewrite <- Heq. rewrite sort_by_perm. apply NoDup_remove_dups. }
    clear Heq. induction Hs as [|x l Hs IH Hd]; [constructor|].
    apply NoDup_cons in Hn as [Hx Hn]. constructor; [by apply IH|].
    destruct Hd as [|y l Hle]; constructor. b2p.
    assert (x <> y) by (intros ->; apply Hx; constructor). lia.
  - intros Hs. rewrite remove_dups_id by by apply strictly_increasing_NoDup. apply sort_by_id.
    induction Hs as [|x l Hs IH Hd]; constructor; [done|].
    destruct Hd; constructor. apply Z.leb_le. lia.
Qed.

Lemma existsb_false_Forall {A} (p : A -> bool) (l : list A) :
  existsb p l = false <-> Forall (fun x => p x = false) l.
Proof.
  induction l as [|x l IH]; simpl; [done|]. rewrite Forall_cons, <- IH. apply orb_false_iff.
Qed.

(** What a usable configuration promises to the store and the pipeline. *)
Record config_ok (c : AlertingConfig) : Prop := {
  ok_schema : schema_version c = 1;
  ok_positive : Forall (fun v => 0 < v) [dedup_window_seconds c; summary_interval_seconds c;
    resolve_after_seconds c; ingestion_capacity c; notification_capacity c; protected_capacity c;
    maximum_active_fingerprints c; maximum_event_size_bytes c; maximum_source_windows c;
    emergency_buffer_capacity c; fallback_audit_maximum_bytes c;
    maximum_suppression_duration_seconds c; maximum_nesting_depth c; maximum_collection_items c];
  ok_reserve : protected_capacity c < ingestion_capacity c;
  ok_thresholds : strictly_increasing (summary_thresholds c);
  ok_thresholds_gt1 : Forall (fun v => 1 < v) (summary_thresholds c);
  ok_quota : emergency_reserved_size_mb c < maximum_size_mb c
}.

Lemma Forall_leb_lt (k : Z) l : Forall (fun v => (v <=? k) = false) l <-> Forall (fun v => k < v) l.
Proof. split; intros H; eapply Forall_impl; try done; intros x Hx; simpl in *; [by b2p | by apply Z.leb_gt]. Qed.

(** [AlertingConfig.validate] returns exactly on the configurations whose
    schema is version 1, whose limits are positive, whose protected reserve is
    smaller than the ingestion capacity, whose summary thresholds are strictly
    increasing and above one, and whose emergency reserve is below the quota. *)
Theorem config_validate_spec (c : AlertingConfig) : config_validate c = Ok tt <-> config_ok c.
Proof.
  unfold config_validate. cbv zeta. rewrite !res_bind_unit_ok, !raise_if_ok.
  rewrite orb_false_iff, !existsb_false_Forall, !negb_false_iff, bool_decide_eq_true, sorted_set_fixed.
  rewrite !Forall_leb_lt, Z.eqb_eq, !Z.leb_gt. split.
  - intros (H1 & H2 & H3 & (H4 & H5) & H6). by constructor.
  - intros []. done.
Qed.

Lemma default_config_ok : config_ok default_config.
Proof. apply config_validate_spec. by vm_compute. Qed.
