(* ===== verification/AlertModels.v ===== *)
(** Security events: [alerts/resilient_models.py].

    Priorities, the protected event types, bounded redaction of untrusted
    attributes, the event record with its validation, and its canonical JSON. *)

From S2P Require Import Prelude PyStr PyFloat PyDict PyJson PyRegex.
From Stdlib Require Import Ascii.

(** ** Priorities and severities *)

Inductive Priority := P0 | P1 | P2 | P3 | P4.

Definition priority_value (p : Priority) : Z :=
  match p with P0 => 0 | P1 => 1 | P2 => 2 | P3 => 3 | P4 => 4 end.

#[export] Instance Priority_eq_dec : EqDecision Priority.
Proof. solve_decision. Defined.

Definition SEVERITY_RANK : list (string * Z) :=
  [("info", 0); ("informational", 0); ("low", 1); ("medium", 2); ("high", 3); ("critical", 4)].

(** [SEVERITY_RANK.get(s, 0)] *)
Definition severity_rank (s : string) : Z := dget_default 0 s SEVERITY_RANK.

Definition PROTECTED_TYPES : list string := [
  "agent_tampering"; "logging_failure"; "audit_log_integrity_failure"; "event_store_corruption";
  "queue_overflow"; "reserved_storage_exhaustion"; "policy_modification"; "suppression_rule_modification";
  "unauthorized_disable_attempt"; "emergency_protection_disable_attempt"; "security_control_failure";
  "privileged_helper_failure"; "signature_verification_failure"; "event_source_authentication_failure";
  "configuration_integrity_failure"; "system_time_rollback"; "critical_severity_escalation";
  "alert_flood_detected"; "log_storage_pressure"; "cardinality_pressure"].

(** ** Redaction *)

Definition rword_sep : regex := ropt (RClass (chars "_-")).

(** [(?i)(password|passwd|api[_-]?key|bearer|cookie|session|authorization|private[_-]?key|access[_-]?token|refresh[_-]?token)] *)
Definition SENSITIVE_KEY : regex := RGroup 1 (ralts [
  rstr_ci "password"; rstr_ci "passwd"; RCat (rstr_ci "api") (RCat rword_sep (rstr_ci "key"));
  rstr_ci "bearer"; rstr_ci "cookie"; rstr_ci "session"; rstr_ci "authorization";
  RCat (rstr_ci "private") (RCat rword_sep (rstr_ci "key"));
  RCat (rstr_ci "access") (RCat rword_sep (rstr_ci "token"));
  RCat (rstr_ci "refresh") (RCat rword_sep (rstr_ci "token"))]).

Definition rspaces : regex := RStar (RClass is_space).

(** The case-insensitive [_SECRET_TEXT]: at a word boundary, as group 1 a bearer
    keyword with its spaces, or an API-key or password keyword with its
    separator, then as group 2 the secret up to a space, comma or semicolon. *)
Definition SECRET_TEXT : regex :=
  RCat RWordB (RCat
    (RGroup 1 (ralts [
      RCat (rstr_ci "bearer") (rplus (RClass is_space));
      RCat (rstr_ci "api") (RCat rword_sep (RCat (rstr_ci "key")
        (RCat rspaces (RCat (RClass (chars "=:")) rspaces))));
      RCat (rstr_ci "password") (RCat rspaces (RCat (RClass (chars "=:")) rspaces))]))
    (RGroup 2 (rplus (RClass (fun c => negb (is_space c || chars ",;" c)))))).

(** [_SECRET_TEXT.sub(lambda match: match.group(1) + "[REDACTED]", s)] *)
Definition redact_text (s : string) : string :=
  sub SECRET_TEXT (fun st => group_text s st 1 +:+ "[REDACTED]") s.

Definition sensitive_key (name : string) : bool := search SENSITIVE_KEY name.

Section Redact.
Context (max_depth max_items max_string : Z).

(** The slice [value[:max_items]] keeps the whole list: longer ones were
    rejected just before. *)
Fixpoint redact (depth : Z) (value : pyval) {struct value} : res pyval :=
  if max_depth <? depth then Raise (EventValidationError "maximum nesting depth exceeded") else
  match value with
  | VDict d =>
      if max_items <? zlen d then Raise (EventValidationError "maximum map size exceeded") else
      out ← (fix items (d : list (string * pyval)) (output : list (string * pyval)) :=
               match d with
               | [] => Ok output
               | kv :: d' =>
                   let name := sprefix 256 kv.1 in
                   v ← (if sensitive_key name then Ok (VStr "[REDACTED]") else redact (depth + 1) kv.2);
                   items d' (dset name v output)
               end) d [];
      Ok (VDict out)
  | VList l | VTuple l =>
      if max_items <? zlen l then Raise (EventValidationError "maximum array size exceeded") else
      out ← res_map (redact (depth + 1)) l;
      Ok (VList out)
  | VBytes _ => Raise (EventValidationError "binary event fields are not accepted")
  | VStr s => Ok (VStr (redact_text (sprefix max_string s)))
  | VNone | VBool _ | VInt _ | VFloat _ => Ok value
  | VObj text => Ok (VStr (sprefix max_string text))
  end.
End Redact.

(** ** The event record *)

Record SecurityEvent := {
  ev_event_id : string;
  ev_event_type : string;
  ev_rule_id : string;
  ev_severity : string;
  ev_confidence : string;
  ev_timestamp_utc : string;
  ev_monotonic_timestamp : float;
  ev_ingestion_timestamp_utc : string;
  ev_source_id : string;
  ev_source_type : string;
  ev_schema_version : Z;
  ev_rule_version : string;
  ev_sequence_number : Z;
  ev_source_process : string;
  ev_source_pid : option Z;
  ev_host_id : string;
  ev_hostname : string;
  ev_user_uid : option Z;
  ev_user_name : string;
  ev_process_path : string;
  ev_process_signing_identifier : string;
  ev_process_team_identifier : string;
  ev_process_hash : string;
  ev_parent_process : string;
  ev_remote_address : string;
  ev_remote_port : option Z;
  ev_object_path : string;
  ev_action : string;
  ev_outcome : string;
  ev_attributes : list (string * pyval);
  ev_mitre_attack : list string;
  ev_cve_ids : list string;
  ev_threat_tags : list string;
  ev_correlation_id : string;
  ev_incident_id : string;
  ev_fingerprint : string;
  ev_material_digest : string;
  ev_notification_disposition : string;
  ev_suppression_rule_id : string;
  ev_suppression_reason : string;
  ev_previous_integrity_hash : string;
  ev_event_integrity_hash : string
}.

(** The event built from its nine required fields, every other one at its
    dataclass default. *)
Definition new_event (event_id event_type rule_id severity confidence timestamp_utc : string)
    (monotonic_timestamp : float) (ingestion_timestamp_utc source_id : string) : SecurityEvent := {|
  ev_event_id := event_id; ev_event_type := event_type; ev_rule_id := rule_id;
  ev_severity := severity; ev_confidence := confidence; ev_timestamp_utc := timestamp_utc;
  ev_monotonic_timestamp := monotonic_timestamp;
  ev_ingestion_timestamp_utc := ingestion_timestamp_utc; ev_source_id := source_id;
  ev_source_type := "local_detector"; ev_schema_version := 1; ev_rule_version := "1";
  ev_sequence_number := 0; ev_source_process := ""; ev_source_pid := None; ev_host_id := "";
  ev_hostname := ""; ev_user_uid := None; ev_user_name := ""; ev_process_path := "";
  ev_process_signing_identifier := ""; ev_process_team_identifier := ""; ev_process_hash := "";
  ev_parent_process := ""; ev_remote_address := ""; ev_remote_port := None; ev_object_path := "";
  ev_action := ""; ev_outcome := ""; ev_attributes := []; ev_mitre_attack := []; ev_cve_ids := [];
  ev_threat_tags := []; ev_correlation_id := ""; ev_incident_id := ""; ev_fingerprint := "";
  ev_material_digest := ""; ev_notification_disposition := "pending"; ev_suppression_rule_id := "";
  ev_suppression_reason := ""; ev_previous_integrity_hash := ""; ev_event_integrity_hash := "" |}.

Definition set_attributes (a : list (string * pyval)) (e : SecurityEvent) : SecurityEvent := {|
  ev_event_id := ev_event_id e; ev_event_type := ev_event_type e; ev_rule_id := ev_rule_id e;
  ev_severity := ev_severity e; ev_confidence := ev_confidence e; ev_timestamp_utc := ev_timestamp_utc e;
  ev_monotonic_timestamp := ev_monotonic_timestamp e;
  ev_ingestion_timestamp_utc := ev_ingestion_timestamp_utc e; ev_source_id := ev_source_id e;
  ev_source_type := ev_source_type e; ev_schema_version := ev_schema_version e;
  ev_rule_version := ev_rule_version e; ev_sequence_number := ev_sequence_number e;
  ev_source_process := ev_source_process e; ev_source_pid := ev_source_pid e; ev_host_id := ev_host_id e;
  ev_hostname := ev_hostname e; ev_user_uid := ev_user_uid e; ev_user_name := ev_user_name e;
  ev_process_path := ev_process_path e; ev_process_signing_identifier := ev_process_signing_identifier e;
  ev_process_team_identifier := ev_process_team_identifier e; ev_process_hash := ev_process_hash e;
  ev_parent_process := ev_parent_process e; ev_remote_address := ev_remote_address e;
  ev_remote_port := ev_remote_port e; ev_object_path := ev_object_path e; ev_action := ev_action e;
  ev_outcome := ev_outcome e; ev_attributes := a; ev_mitre_attack := ev_mitre_attack e;
  ev_cve_ids := ev_cve_ids e; ev_threat_tags := ev_threat_tags e; ev_correlation_id := ev_correlation_id e;
  ev_incident_id := ev_incident_id e; ev_fingerprint := ev_fingerprint e;
  ev_material_digest := ev_material_digest e;
  ev_notification_disposition := ev_notification_disposition e;
  ev_suppression_rule_id := ev_suppression_rule_id e; ev_suppression_reason := ev_suppression_reason e;
  ev_previous_integrity_hash := ev_previous_integrity_hash e;
  ev_event_integrity_hash := ev_event_integrity_hash e |}.

Definition VOpt (z : option Z) : pyval := match z with Some z => VInt z | None => VNone end.
Definition VStrs (l : list string) : pyval := VList (VStr <$> l).

(** [asdict(event)] *)
Definition event_dict (e : SecurityEvent) : list (string * pyval) := [
  ("event_id", VStr (ev_event_id e)); ("event_type", VStr (ev_event_type e));
  ("rule_id", VStr (ev_rule_id e)); ("severity", VStr (ev_severity e));
  ("confidence", VStr (ev_confidence e)); ("timestamp_utc", VStr (ev_timestamp_utc e));
  ("monotonic_timestamp", VFloat (ev_monotonic_timestamp e));
  ("ingestion_timestamp_utc", VStr (ev_ingestion_timestamp_utc e)); ("source_id", VStr (ev_source_id e));
  ("source_type", VStr (ev_source_type e)); ("schema_version", VInt (ev_schema_version e));
  ("rule_version", VStr (ev_rule_version e)); ("sequence_number", VInt (ev_sequence_number e));
  ("source_process", VStr (ev_source_process e)); ("source_pid", VOpt (ev_source_pid e));
  ("host_id", VStr (ev_host_id e)); ("hostname", VStr (ev_hostname e)); ("user_uid", VOpt (ev_user_uid e));
  ("user_name", VStr (ev_user_name e)); ("process_path", VStr (ev_process_path e));
  ("process_signing_identifier", VStr (ev_process_signing_identifier e));
  ("process_team_identifier", VStr (ev_process_team_identifier e));
  ("process_hash", VStr (ev_process_hash e)); ("parent_process", VStr (ev_parent_process e));
  ("remote_address", VStr (ev_remote_address e)); ("remote_port", VOpt (ev_remote_port e));
  ("object_path", VStr (ev_object_path e)); ("action", VStr (ev_action e)); ("outcome", VStr (ev_outcome e));
  ("attributes", VDict (ev_attributes e)); ("mitre_attack", VStrs (ev_mitre_attack e));
  ("cve_ids", VStrs (ev_cve_ids e)); ("threat_tags", VStrs (ev_threat_tags e));
  ("correlation_id", VStr (ev_correlation_id e)); ("incident_id", VStr (ev_incident_id e));
  ("fingerprint", VStr (ev_fingerprint e)); ("material_digest", VStr (ev_material_digest e));
  ("notification_disposition", VStr (ev_notification_disposition e));
  ("suppression_rule_id", VStr (ev_suppression_rule_id e));
  ("suppression_reason", VStr (ev_suppression_reason e));
  ("previous_integrity_hash", VStr (ev_previous_integrity_hash e));
  ("event_integrity_hash", VStr (ev_event_integrity_hash e))].

(** [getattr(event, name, None)] on a field *)
Definition event_field (e : SecurityEvent) (name : string) : pyval := vget name (event_dict e).

(** [str(v)] for the field types of an event *)
Definition str_of_val (v : pyval) : string :=
  match v with
  | VStr s => s
  | VInt z => str_of_Z z
  | VNone => "None"
  | VBool b => if b then "True" else "False"
  | VObj t => t
  | _ => ""
  end.

(** [str(getattr(event, name, ""))] *)
Definition event_text (e : SecurityEvent) (name : string) : string := str_of_val (event_field e name).

Definition canonical_json `{PlatformEnv} (e : SecurityEvent) : res string :=
  json_dumps compact_utf8_style (VDict (event_dict e)).

Definition protected (e : SecurityEvent) : bool :=
  let normalized := replace_char "-" "_" (lower (ev_event_type e)) in
  one_of normalized PROTECTED_TYPES
  || (String.eqb (lower (ev_severity e)) "critical" && contains "escalat" normalized).

Definition priority (e : SecurityEvent) : Priority :=
  if protected e then P0
  else dget_default P4 (lower (ev_severity e)) [("critical", P1); ("high", P2); ("medium", P3)].

Definition required_fields : list string :=
  ["event_id"; "event_type"; "rule_id"; "severity"; "timestamp_utc"; "source_id"].

Definition bounded_fields : list (string * Z) := [
  ("event_id", 256); ("event_type", 256); ("rule_id", 256); ("rule_version", 64);
  ("severity", 32); ("confidence", 64); ("timestamp_utc", 64);
  ("ingestion_timestamp_utc", 64); ("source_id", 256); ("source_type", 128);
  ("source_process", 1024); ("host_id", 256); ("hostname", 256);
  ("user_name", 256); ("process_path", 4096); ("process_signing_identifier", 512);
  ("process_team_identifier", 128); ("process_hash", 256); ("parent_process", 4096);
  ("remote_address", 512); ("object_path", 4096); ("action", 512); ("outcome", 256);
  ("correlation_id", 256); ("incident_id", 256)].

(** [for x in l: if bad(x): raise err(x)] *)
Fixpoint raise_first {A} (bad : A -> bool) (err : A -> exn) (l : list A) : res unit :=
  match l with
  | [] => Ok tt
  | x :: l' => if bad x then Raise (err x) else raise_first bad err l'
  end.

Definition bad_tags (l : list string) : bool := (64 <? zlen l) || existsb (fun s => 256 <? slen s) l.

(** [event.validate(...)]: the event with its attributes redacted. *)
Definition event_validate `{PlatformEnv} (maximum_event_size maximum_string_length
    maximum_nesting_depth maximum_collection_items : Z) (e : SecurityEvent) : res SecurityEvent :=
  raise_if (negb (ev_schema_version e =? 1)) (EventValidationError "unsupported schema version");;
  raise_first (fun name => blank (event_text e name))
    (fun name => EventValidationError ("missing required field: " +:+ name)) required_fields;;
  raise_if (negb (dmem (lower (ev_severity e)) SEVERITY_RANK)) (EventValidationError "invalid severity");;
  raise_first (fun nl => nl.2 <? slen (event_text e nl.1))
    (fun nl => EventValidationError ("field exceeds maximum length: " +:+ nl.1)) bounded_fields;;
  raise_if (match ev_source_pid e with Some p => p <? 0 | None => false end)
    (EventValidationError "source_pid must be a non-negative integer");;
  raise_if (match ev_remote_port e with Some p => negb ((0 <=? p) && (p <=? 65535)) | None => false end)
    (EventValidationError "remote_port is invalid");;
  raise_if (match ev_user_uid e with Some u => u <? 0 | None => false end)
    (EventValidationError "user_uid must be a non-negative integer");;
  raise_first (fun nl => bad_tags nl.2)
    (fun nl => EventValidationError (nl.1 +:+ " must contain at most 64 bounded strings"))
    [("mitre_attack", ev_mitre_attack e); ("cve_ids", ev_cve_ids e); ("threat_tags", ev_threat_tags e)];;
  attributes ← redact maximum_nesting_depth maximum_collection_items maximum_string_length 0
                 (VDict (ev_attributes e));
  let e' := set_attributes (as_dict (Some attributes)) e in
  encoded ← canonical_json e';
  raise_if (maximum_event_size <? utf8_size encoded) (EventValidationError "event exceeds the size limit");;
  Ok e'.

Example redact_text_ex :
  redact_text "login password = hunter2; api-key:abc Bearer  xyz, ok"
  = "login password = [REDACTED]; api-key:[REDACTED] Bearer  [REDACTED], ok".
Proof. by vm_compute. Qed.

Example sensitive_key_ex :
  sensitive_key "X-API_Key" = true /\ sensitive_key "monkey" = false /\ sensitive_key "user_PassWord" = true.
Proof. by vm_compute. Qed.

(** ** What redaction guarantees *)

(** A redacted value: within the depth and size limits, no bytes and no foreign
    object in it, every key at most 256 characters, and under a sensitive key
    nothing but the marker. *)
Fixpoint clean (max_depth max_items depth : Z) (v : pyval) {struct v} : bool :=
  (depth <=? max_depth) &&
  match v with
  | VDict d =>
      (zlen d <=? max_items) &&
      forallb (fun kv =>
        (slen kv.1 <=? 256) &&
        (if sensitive_key kv.1
         then match kv.2 with VStr "[REDACTED]" => true | _ => false end
         else clean max_depth max_items (depth + 1) kv.2)) d
  | VList l => (zlen l <=? max_items) && forallb (clean max_depth max_items (depth + 1)) l
  | VTuple _ | VBytes _ | VObj _ => false
  | _ => true
  end.

Definition clean_item (md mi depth : Z) (kv : string * pyval) : bool :=
  (slen kv.1 <=? 256) &&
  (if sensitive_key kv.1
   then match kv.2 with VStr "[REDACTED]" => true | _ => false end
   else clean md mi (depth + 1) kv.2).

Lemma res_map_forallb {A B} (f : A -> res B) (p : B -> bool) l ys :
  Forall (fun x => forall y, f x = Ok y -> p y = true) l ->
  res_map f l = Ok ys -> forallb p ys = true /\ zlen ys = zlen l.
Proof.
  intros HF. revert ys. induction HF as [|x l Hx HF IH]; simpl; intros ys; [by intros [= <-]|].
  intros (y & Hy & (ys' & Hys & [= <-])%res_bind_ok)%res_bind_ok.
  destruct (IH _ Hys) as [H1 H2]. simpl. rewrite (Hx _ Hy), H1, !zlen_cons, H2. done.
Qed.

Lemma redact_items_clean md mi ms depth d acc out :
  Forall (fun kv => forall depth w, redact md mi ms depth kv.2 = Ok w -> clean md mi depth w = true) d ->
  forallb (clean_item md mi depth) acc = true ->
  (fix items (d : list (string * pyval)) (output : list (string * pyval)) :=
     match d with
     | [] => Ok output
     | kv :: d' =>
         let name := sprefix 256 kv.1 in
         v ← (if sensitive_key name then Ok (VStr "[REDACTED]") else redact md mi ms (depth + 1) kv.2);
         items d' (dset name v output)
     end) d acc = Ok out ->
  forallb (clean_item md mi depth) out = true /\ zlen out <= zlen acc + zlen d.
Proof.
  intros HF. revert acc. induction HF as [|[k v] d Hv HF IH]; intros acc Hacc; simpl.
  - intros [= <-]. split; [done|]. unfold zlen. simpl. lia.
  - intros (w & Hw & Hout)%res_bind_ok.
    assert (Hname : slen (sprefix 256 k) <= 256) by by apply slen_sprefix.
    destruct (IH (dset (sprefix 256 k) w acc)) as [H1 H2]; [|done|].
    + apply forallb_dset; [done|]. unfold clean_item. cbn [fst snd].
      rewrite (proj2 (Z.leb_le _ _) Hname). simpl.
      destruct (sensitive_key (sprefix 256 k)); [by injection Hw as <-|]. by apply Hv in Hw.
    + split; [done|]. pose proof (zlen_dset_le (sprefix 256 k) w acc). rewrite zlen_cons. lia.
Qed.

Lemma redact_clean_at md mi ms v depth w :
  redact md mi ms depth v = Ok w -> clean md mi depth w = true.
Proof.
  revert depth w. induction v as [|b|z|f|s|s|l IH|l IH|d IH|t] using pyval_ind'; intros depth w; simpl;
    destruct (Z.ltb_spec md depth) as [|Hd]; try done; rewrite <- Z.leb_le in Hd.
  all: try (intros [= <-]; simpl; by rewrite Hd).
  1,2: destruct (Z.ltb_spec mi (zlen l)) as [|Hl]; [done|].
  1,2: intros (ys & Hys & [= <-])%res_bind_ok; simpl; rewrite Hd; simpl.
  1,2: apply res_map_forallb with (p := clean md mi (depth + 1)) in Hys as [Hc Hlen];
    [rewrite Hc, Hlen, (proj2 (Z.leb_le _ _) Hl); done | by eapply Forall_impl; [done|naive_solver]].
  destruct (Z.ltb_spec mi (zlen d)) as [|Hl]; [done|].
  intros (out & Hout & [= <-])%res_bind_ok.
  apply redact_items_clean in Hout as [Hc Hlen]; [|done|done].
  simpl. rewrite Hd. simpl. apply andb_true_iff. split; [|exact Hc].
  apply Z.leb_le. unfold zlen in *. simpl in *. lia.
Qed.

Lemma clean_serializable md mi v depth : clean md mi depth v = true -> serializable v = true.
Proof.
  revert depth. induction v as [|b|z|f|s|s|l IH|l IH|d IH|t] using pyval_ind'; intros depth; simpl; try done;
    intros H; b2p; try done.
  - match goal with H : forallb _ _ = true |- _ => rewrite forallb_forall in H; rename H into Hf end.
    apply forallb_forall. intros x Hx. rewrite Forall_forall in IH.
    eapply IH; [by apply list_elem_of_In | by apply Hf].
  - match goal with H : forallb _ _ = true |- _ => rewrite forallb_forall in H; rename H into Hf end.
    apply forallb_forall. intros x Hx. rewrite Forall_forall in IH. specialize (Hf x Hx). b2p.
    destruct (sensitive_key x.1).
    + by destruct x.2.
    + eapply IH; [by apply list_elem_of_In | done].
Qed.

(** C2. Redaction of an untrusted attribute tree either raises or returns a tree
    within the configured depth and size limits, with no bytes or foreign objects
    left, and with every value under a sensitive key replaced by the marker; the
    result can always be serialised as canonical JSON. *)
Theorem redact_clean `{PlatformEnv} (max_depth max_items max_string depth : Z) (v w : pyval) :
  redact max_depth max_items max_string depth v = Ok w ->
  clean max_depth max_items depth w = true /\ is_ok (json_dumps compact_utf8_style w) = true.
Proof.
  intros Hr. apply redact_clean_at in Hr. split; [done|].
  by eapply json_dumps_ok, clean_serializable.
Qed.

Example redact_input : pyval := VDict [
  ("note", VStr "password=hunter2 done"); ("Api-Key", VInt 7);
  ("nested", VTuple [VObj "object at 0x1"; VDict [("session_id", VList []); ("n", VNone)]])].

Example redact_output : pyval := VDict [
  ("note", VStr "password=[REDACTED] done"); ("Api-Key", VStr "[REDACTED]");
  ("nested", VList [VStr "object at 0x1"; VDict [("session_id", VStr "[REDACTED]"); ("n", VNone)]])].

Lemma redact_clean_witness :
  clean 8 128 0 redact_output = true /\
  is_ok (json_dumps (H := plain_env) compact_utf8_style redact_output) = true.
Proof. apply (@redact_clean plain_env 8 128 16384 0 redact_input). by vm_compute. Defined.

(** ** What validation guarantees *)

Lemma raise_first_ok {A} (bad : A -> bool) err (l : list A) :
  raise_first bad err l = Ok tt <-> Forall (fun x => bad x = false) l.
Proof.
  induction l as [|x l IH]; simpl; [done|]. rewrite Forall_cons.
  destruct (bad x); [naive_solver | rewrite IH; naive_solver].
Qed.

(** The conditions an event must meet before its attributes are looked at. *)
Record event_fields_ok (e : SecurityEvent) : Prop := {
  fields_schema : ev_schema_version e = 1;
  fields_required : Forall (fun name => blank (event_text e name) = false) required_fields;
  fields_severity : dmem (lower (ev_severity e)) SEVERITY_RANK = true;
  fields_bounded : Forall (fun nl => slen (event_text e nl.1) <= nl.2) bounded_fields;
  fields_pid : forall p, ev_source_pid e = Some p -> 0 <= p;
  fields_port : forall p, ev_remote_port e = Some p -> 0 <= p <= 65535;
  fields_uid : forall u, ev_user_uid e = Some u -> 0 <= u;
  fields_tags : Forall (fun l => zlen l <= 64 /\ Forall (fun s => slen s <= 256) l)
    [ev_mitre_attack e; ev_cve_ids e; ev_threat_tags e]
}.

Lemma bad_tags_false l : bad_tags l = false <-> zlen l <= 64 /\ Forall (fun s => slen s <= 256) l.
Proof.
  unfold bad_tags. rewrite orb_false_iff, Z.ltb_ge. apply and_iff_compat_l.
  induction l as [|s l IH]; simpl; [done|]. rewrite Forall_cons, orb_false_iff, Z.ltb_ge, IH. done.
Qed.

Lemma opt_check {A} (o : option A) (bad : A -> bool) :
  match o with Some x => bad x | None => false end = false <-> forall x, o = Some x -> bad x = false.
Proof. destruct o; naive_solver. Qed.

Lemma event_fields_ok_checks e : event_fields_ok e <->
  (ev_schema_version e =? 1) = true
  /\ Forall (fun name => blank (event_text e name) = false) required_fields
  /\ dmem (lower (ev_severity e)) SEVERITY_RANK = true
  /\ Forall (fun nl => (nl.2 <? slen (event_text e nl.1)) = false) bounded_fields
  /\ (forall p, ev_source_pid e = Some p -> (p <? 0) = false)
  /\ (forall p, ev_remote_port e = Some p -> negb ((0 <=? p) && (p <=? 65535)) = false)
  /\ (forall u, ev_user_uid e = Some u -> (u <? 0) = false)
  /\ Forall (fun nl => bad_tags nl.2 = false)
       [("mitre_attack", ev_mitre_attack e); ("cve_ids", ev_cve_ids e); ("threat_tags", ev_threat_tags e)].
Proof.
  assert (Hb : Forall (fun nl => (nl.2 <? slen (event_text e nl.1)) = false) bounded_fields
    <-> Forall (fun nl => slen (event_text e nl.1) <= nl.2) bounded_fields).
  { apply Forall_iff. intros [n l]. apply Z.ltb_ge. }
  rewrite Hb. setoid_rewrite Z.ltb_ge. setoid_rewrite negb_false_iff. setoid_rewrite andb_true_iff.
  setoid_rewrite Z.leb_le. rewrite Z.eqb_eq, !Forall_cons, Forall_nil. simpl. rewrite !bad_tags_false.
  split.
  - intros [H1 H2 H3 H4 H5 H6 H7 H8]. rewrite !Forall_cons, Forall_nil in H8. done.
  - intros (? & ? & ? & ? & ? & ? & ? & ?). constructor; try done. by rewrite !Forall_cons, Forall_nil.
Qed.

Lemma event_validate_cases `{PlatformEnv} mes msl mnd mci e e' :
  event_validate mes msl mnd mci e = Ok e' <->
  event_fields_ok e /\ exists attributes encoded,
    redact mnd mci msl 0 (VDict (ev_attributes e)) = Ok (VDict attributes)
    /\ e' = set_attributes attributes e /\ canonical_json e' = Ok encoded /\ utf8_size encoded <= mes.
Proof.
  unfold event_validate. rewrite !res_bind_unit_ok, !raise_if_ok, !raise_first_ok, negb_false_iff,
    negb_false_iff, !opt_check, event_fields_ok_checks, res_bind_ok.
  split.
  - intros (H1 & H2 & H3 & H4 & H5 & H6 & H7 & H8 & (attrs & Hr & Hrest)).
    split; [done|]. assert (Hd : exists d, attrs = VDict d).
    { simpl in Hr. destruct (_ <? 0); [done|]. destruct (_ <? _); [done|].
      apply res_bind_ok in Hr as (out & _ & [= <-]). by exists out. }
    destruct Hd as [d ->]. cbn zeta in Hrest.
    apply res_bind_ok in Hrest as (enc & Henc & Hrest). apply res_bind_unit_ok in Hrest as [Hl [= <-]].
    apply raise_if_ok, Z.ltb_ge in Hl. exists d, enc. done.
  - intros [(H1 & H2 & H3 & H4 & H5 & H6 & H7 & H8) (d & enc & Hr & -> & Henc & Hl)].
    do 8 (split; [done|]). exists (VDict d). split; [done|]. cbn zeta.
    apply res_bind_ok. exists enc. split; [done|]. apply res_bind_unit_ok. split; [|done].
    by apply raise_if_ok, Z.ltb_ge.
Qed.

(** Replacing the attributes changes no field the checks read. *)
Lemma event_dict_set_attributes a e :
  event_dict (set_attributes a e) = dset "attributes" (VDict a) (event_dict e).
Proof. reflexivity. Qed.

Lemma event_text_set_attributes a e name :
  name <> "attributes" -> event_text (set_attributes a e) name = event_text e name.
Proof.
  intros Hne. unfold event_text, event_field, vget, dget_default.
  by rewrite event_dict_set_attributes, dget_dset_ne.
Qed.

Lemma event_fields_ok_set_attributes a e : event_fields_ok e -> event_fields_ok (set_attributes a e).
Proof.
  assert (Hreq : Forall (fun name => name <> "attributes") required_fields)
    by (apply (bool_decide_unpack _); by vm_compute).
  assert (Hbnd : Forall (fun nl : string * Z => nl.1 <> "attributes") bounded_fields)
    by (apply (bool_decide_unpack _); by vm_compute).
  intros [H1 H2 H3 H4 H5 H6 H7 H8].
  constructor; [exact H1| |exact H3| |exact H5|exact H6|exact H7|exact H8].
  - rewrite Forall_forall in H2, Hreq |- *. intros name Hn.
    rewrite event_text_set_attributes by exact (Hreq name Hn). exact (H2 name Hn).
  - rewrite Forall_forall in H4, Hbnd |- *. intros nl Hn.
    rewrite event_text_set_attributes by exact (Hbnd nl Hn). exact (H4 nl Hn).
Qed.

(** C3. An event that passes validation has every bounded field in its bounds,
    differs from the submitted one only in its attributes, those attributes are
    redacted and bounded, and the UTF-8 bytes of its canonical JSON fit the
    configured size. *)
Theorem event_validate_ok `{PlatformEnv} (max_size max_string max_depth max_items : Z) (e e' : SecurityEvent) :
  event_validate max_size max_string max_depth max_items e = Ok e' ->
  event_fields_ok e' /\ e' = set_attributes (ev_attributes e') e
  /\ clean max_depth max_items 0 (VDict (ev_attributes e')) = true
  /\ exists encoded, canonical_json e' = Ok encoded /\ utf8_size encoded <= max_size.
Proof.
  intros (Hf & d & enc & Hr & -> & Henc & Hl)%event_validate_cases. split; [|split; [done|split]].
  - by apply event_fields_ok_set_attributes.
  - by apply redact_clean_at in Hr.
  - by exists enc.
Qed.

Definition sample_event (id kind sev : string) (attrs : list (string * pyval)) : SecurityEvent :=
  set_attributes attrs
    (new_event id kind "RULE-1" sev "medium" "2026-07-18T09:30:05+00:00" fzero "2026-07-18T09:30:06+00:00" "detector").

Lemma event_validate_ok_witness :
  let e := sample_event "event-1" "fixture" "low" [("password", VStr "x")] in
  let e' := sample_event "event-1" "fixture" "low" [("password", VStr "[REDACTED]")] in
  event_fields_ok e' /\ e' = set_attributes (ev_attributes e') e
  /\ clean 8 128 0 (VDict (ev_attributes e')) = true
  /\ exists encoded, canonical_json (H := plain_env) e' = Ok encoded /\ utf8_size encoded <= 262144.
Proof. intros e e'. apply (@event_validate_ok plain_env 262144 16384 8 128 e e'). by vm_compute. Defined.
