(* ===== verification/Fingerprint.v ===== *)
(** Detector contracts and fingerprints: [alerts/fingerprint.py]. *)

From S2P Require Import Prelude PyStr PyFloat PyDict PyJson AlertModels.

Record DetectorContract := {
  dc_rule_id : string;
  dc_rule_version : string;
  dc_identity_fields : list string;
  dc_material_fields : list string;
  dc_protected : bool
}.

Definition default_identity_fields : list string :=
  ["process_signing_identifier"; "process_hash"; "process_path"; "user_uid"; "remote_address";
   "remote_port"; "object_path"; "action"].

Definition default_material_fields : list string :=
  ["severity"; "confidence"; "outcome"; "process_hash"; "user_uid"; "remote_address"; "object_path"].

Definition default_contract (rule_id rule_version : string) : DetectorContract := {|
  dc_rule_id := rule_id; dc_rule_version := rule_version;
  dc_identity_fields := default_identity_fields; dc_material_fields := default_material_fields;
  dc_protected := false |}.

(** [DetectorRegistry]: contracts by rule id. *)
Definition registry : Type := list (string * DetectorContract).

Definition register (contract : DetectorContract) (r : registry) : res registry :=
  raise_if (blank (dc_rule_id contract)) (ValueError "detector rule_id is required");;
  Ok (dset (dc_rule_id contract) contract r).

Definition contract_for (r : registry) (event : SecurityEvent) : DetectorContract :=
  dget_default (default_contract (ev_rule_id event) (ev_rule_version event)) (ev_rule_id event) r.

(** [_get]: an [attributes.] name is looked up, whole, among the attributes. *)
Definition get_named (event : SecurityEvent) (name : string) : pyval :=
  if startswith "attributes." name then vget name (ev_attributes event) else event_field event name.

Section Digests.
Context `{PlatformEnv}.

Definition digest (payload : list (string * pyval)) : res string :=
  raw ← json_dumps compact_utf8_style (VDict payload);
  Ok (sha256 raw).

(** The named fields that carry a value, as the dict comprehension builds it. *)
Definition named_fields (event : SecurityEvent) (names : list string) : list (string * pyval) :=
  foldl (fun d name =>
    let v := get_named event name in
    if is_empty_val v then d else dset name v d) [] names.

Definition identity_payload (event : SecurityEvent) (contract : DetectorContract) : list (string * pyval) :=
  [("rule_id", VStr (ev_rule_id event)); ("rule_version", VStr (dc_rule_version contract));
   ("host_id", VStr (ev_host_id event)); ("identity", VDict (named_fields event (dc_identity_fields contract)))].

Definition calculate_fingerprints (event : SecurityEvent) (contract : DetectorContract) : res (string * string) :=
  fingerprint ← digest (identity_payload event contract);
  material ← digest [("fingerprint", VStr fingerprint);
                     ("material", VDict (named_fields event (dc_material_fields contract)))];
  Ok (fingerprint, material).
End Digests.

(** ** What a fingerprint depends on *)

Lemma named_fields_ext e1 e2 names :
  Forall (fun n => get_named e1 n = get_named e2 n) names -> named_fields e1 names = named_fields e2 names.
Proof.
  intros H. unfold named_fields. generalize (@nil (string * pyval)).
  induction H as [|n names Hn H IH]; intros d; simpl; [done|]. rewrite Hn. apply IH.
Qed.

(** Two events of one rule, rule version and host that agree on the
    contract's identity fields get the same fingerprint, whatever else differs:
    severity, time, event id or free text never split an alert identity. *)
Theorem fingerprint_identity `{PlatformEnv} (c : DetectorContract) (e1 e2 : SecurityEvent)
    (f1 f2 m1 m2 : string) :
  ev_rule_id e1 = ev_rule_id e2 -> ev_host_id e1 = ev_host_id e2 ->
  Forall (fun n => get_named e1 n = get_named e2 n) (dc_identity_fields c) ->
  calculate_fingerprints e1 c = Ok (f1, m1) -> calculate_fingerprints e2 c = Ok (f2, m2) ->
  f1 = f2.
Proof.
  intros Hr Hh Hi. unfold calculate_fingerprints, identity_payload.
  rewrite Hr, Hh, (named_fields_ext _ _ _ Hi).
  intros (x & Hx & (y & _ & [= -> _])%res_bind_ok)%res_bind_ok.
  rewrite Hx. cbn. intros (z & _ & [= -> _])%res_bind_ok. done.
Qed.

Lemma fingerprint_identity_witness :
  let e1 := sample_event "event-1" "fixture" "low" [] in
  let e2 := sample_event "event-2" "other_type" "critical" [("n", VInt 3)] in
  let c := contract_for [] e1 in
  exists f m1 m2, calculate_fingerprints (H := plain_env) e1 c = Ok (f, m1)
    /\ calculate_fingerprints (H := plain_env) e2 c = Ok (f, m2) /\ m1 <> m2.
Proof.
  intros e1 e2 c.
  destruct (calculate_fingerprints (H := plain_env) e1 c) as [[f1 m1]|] eqn:H1;
    [|exfalso; vm_compute in H1; congruence].
  destruct (calculate_fingerprints (H := plain_env) e2 c) as [[f2 m2]|] eqn:H2;
    [|exfalso; vm_compute in H2; congruence].
  assert (Hf : f1 = f2).
  { eapply (@fingerprint_identity plain_env c e1 e2 f1 f2 m1 m2); [reflexivity|reflexivity| |exact H1|exact H2].
    repeat constructor. }
  exists f1, m1, m2. split; [done|]. rewrite Hf. split; [done|].
  vm_compute in H1, H2. injection H1 as <- <-. injection H2 as <- <-. discriminate.
Defined.
