(* ===== verification/AlertDb.v ===== *)
(** The alert database: the tables of [alerts/resilient_store.py].

    A table is the list of its rows in rowid order. *)

From S2P Require Import Prelude PyStr PyFloat PyDict PyJson PyTime AlertConfig AlertModels.
From S2P Require Export Sql.

(** ** Rows *)

(** [resilient_security_events] *)
Record event_row := {
  er_sequence_number : Z;
  er_event_id : string;
  er_schema_version : Z;
  er_received_at : string;
  er_monotonic_timestamp : float;
  er_priority : Z;
  er_protected : bool;
  er_event_type : string;
  er_rule_id : string;
  er_severity : string;
  er_confidence : string;
  er_source_id : string;
  er_fingerprint : string;
  er_material_digest : string;
  er_disposition : string;
  er_raw_retained : bool;
  er_canonical_json : string;
  er_event_digest : string;
  er_previous_integrity_hash : string;
  er_integrity_hash : string
}.

(** [resilient_alert_aggregates]; a JSON column holds the value it encodes. *)
Record aggregate_row := {
  ag_fingerprint : string;
  ag_alert_id : string;
  ag_rule_id : string;
  ag_lifecycle : string;
  ag_first_seen : string;
  ag_last_seen : string;
  ag_occurrence_count : Z;
  ag_current_severity : string;
  ag_highest_severity : string;
  ag_current_confidence : string;
  ag_material_digest : string;
  ag_latest_event_id : string;
  ag_last_notification_count : Z;
  ag_last_notification_at : string;
  ag_unique_users : list pyval;
  ag_unique_processes : list pyval;
  ag_unique_hashes : list pyval;
  ag_unique_destinations : list pyval;
  ag_unique_objects : list pyval;
  ag_source_distribution : list (string * Z);
  ag_rolling_digest : string;
  ag_compacted_count : Z;
  ag_fidelity_reduced : bool
}.

(** [resilient_notification_queue], unique on (event_id, reason) *)
Record queue_row := {
  nq_queue_id : Z;
  nq_event_id : string;
  nq_fingerprint : string;
  nq_priority : Z;
  nq_reason : string;
  nq_state : string;
  nq_created_at : string;
  nq_attempts : Z
}.

(** [resilient_pipeline_audit] *)
Record audit_row := {
  au_sequence : Z;
  au_timestamp_utc : string;
  au_action : string;
  au_actor : string;
  au_reason : string;
  au_object_id : string;
  au_details_json : string;
  au_previous_hash : string;
  au_record_hash : string
}.

(** [resilient_suppressions] *)
Record suppression_row := {
  su_rule_id : string;
  su_scope : string;
  su_conditions : list (string * string);
  su_owner : string;
  su_created_at : string;
  su_expires_at : string;
  su_reason : string;
  su_ticket_id : string;
  su_authorizing_identity : string;
  su_approval_identity : string;
  su_policy_version : string;
  su_revoked_at : string
}.

(** [resilient_compactions] *)
Record compaction_row := {
  co_compaction_id : Z;
  co_fingerprint : string;
  co_started_at : string;
  co_ended_at : string;
  co_compacted_count : Z;
  co_policy_version : string;
  co_reason : string;
  co_digest : string;
  co_fidelity_reduced : bool
}.

Record Tables := {
  t_events : list event_row;
  t_aggregates : list (string * aggregate_row);
  t_queue : list queue_row;
  t_queue_ids : Z;       (** the AUTOINCREMENT counter of the queue *)
  t_audit : list audit_row;
  t_suppressions : list suppression_row;
  t_compactions : list compaction_row;
  t_compaction_ids : Z;
  t_metrics : list (string * (Z * string))
}.

Definition empty_tables : Tables := {|
  t_events := []; t_aggregates := []; t_queue := []; t_queue_ids := 0; t_audit := [];
  t_suppressions := []; t_compactions := []; t_compaction_ids := 0; t_metrics := [] |}.

Definition set_events x t := {| t_events := x; t_aggregates := t_aggregates t; t_queue := t_queue t;
  t_queue_ids := t_queue_ids t; t_audit := t_audit t; t_suppressions := t_suppressions t;
  t_compactions := t_compactions t; t_compaction_ids := t_compaction_ids t; t_metrics := t_metrics t |}.
Definition set_aggregates x t := {| t_events := t_events t; t_aggregates := x; t_queue := t_queue t;
  t_queue_ids := t_queue_ids t; t_audit := t_audit t; t_suppressions := t_suppressions t;
  t_compactions := t_compactions t; t_compaction_ids := t_compaction_ids t; t_metrics := t_metrics t |}.
Definition set_queue x n t := {| t_events := t_events t; t_aggregates := t_aggregates t; t_queue := x;
  t_queue_ids := n; t_audit := t_audit t; t_suppressions := t_suppressions t;
  t_compactions := t_compactions t; t_compaction_ids := t_compaction_ids t; t_metrics := t_metrics t |}.
Definition set_audit x t := {| t_events := t_events t; t_aggregates := t_aggregates t; t_queue := t_queue t;
  t_queue_ids := t_queue_ids t; t_audit := x; t_suppressions := t_suppressions t;
  t_compactions := t_compactions t; t_compaction_ids := t_compaction_ids t; t_metrics := t_metrics t |}.
Definition set_suppressions x t := {| t_events := t_events t; t_aggregates := t_aggregates t; t_queue := t_queue t;
  t_queue_ids := t_queue_ids t; t_audit := t_audit t; t_suppressions := x;
  t_compactions := t_compactions t; t_compaction_ids := t_compaction_ids t; t_metrics := t_metrics t |}.
Definition set_compactions x n t := {| t_events := t_events t; t_aggregates := t_aggregates t; t_queue := t_queue t;
  t_queue_ids := t_queue_ids t; t_audit := t_audit t; t_suppressions := t_suppressions t;
  t_compactions := x; t_compaction_ids := n; t_metrics := t_metrics t |}.
Definition set_metrics x t := {| t_events := t_events t; t_aggregates := t_aggregates t; t_queue := t_queue t;
  t_queue_ids := t_queue_ids t; t_audit := t_audit t; t_suppressions := t_suppressions t;
  t_compactions := t_compactions t; t_compaction_ids := t_compaction_ids t; t_metrics := x |}.

(** The store's connection. *)
Definition World : Type := Conn Tables.
