(* ===== verification/AlertStore.v ===== *)
(** The durable event store: [ResilientEventStore] of
    [alerts/resilient_store.py]. *)

From S2P Require Import Prelude PyStr PyFloat PyDict PyJson PyTime AlertConfig AlertModels AlertDb.
From Stdlib Require Import Ascii.

Record IngestDecision := {
  accepted : bool;
  fingerprint : string;
  disposition : string;
  lifecycle : string;
  occurrence_count : Z;
  notify : bool;
  summary : bool;
  material_change : bool;
  severity_escalation : bool;
  overflowed : bool
}.

(** [IngestDecision(accepted, fingerprint, disposition, lifecycle, count, notify)] *)
Definition short_decision (acc : bool) (fp disp life : string) (count : Z) (ntf : bool) : IngestDecision := {|
  accepted := acc; fingerprint := fp; disposition := disp; lifecycle := life; occurrence_count := count;
  notify := ntf; summary := false; material_change := false; severity_escalation := false; overflowed := false |}.

Definition allowed_metrics : list string := [
  "events_received"; "events_rejected"; "events_persisted"; "events_compacted";
  "duplicate_occurrences"; "notifications_delivered"; "notifications_consolidated";
  "notification_failures"; "notification_queue_saturation"; "cardinality_pressure";
  "suppression_matches"; "protected_events"; "storage_pressure"; "store_failures";
  "time_integrity_events"; "flood_detections"].

(** The upsert of [_metric]: [value = value + excluded.value]. *)
Definition bump_metric (name : string) (amount : Z) (now : string) (t : Tables) : Tables :=
  let old := match dget name (t_metrics t) with Some (v, _) => v | None => 0 end in
  set_metrics (dset name (old + amount, now) (t_metrics t)) t.

(** [str(count).startswith("1") and set(str(count)[1:]) == {"0"}] *)
Definition one_then_zeros (s : string) : bool :=
  match s with
  | String c rest => Ascii.eqb c "1" && truthy rest && all_chars (Ascii.eqb "0") rest
  | EmptyString => false
  end.

Definition is_summary_count (config : AlertingConfig) (count : Z) : bool :=
  existsb (Z.eqb count) (summary_thresholds config)
  || ((1000 <? count) && one_then_zeros (str_of_Z count)).

(** The notification policy of one occurrence, from the aggregate it joins. *)
Record verdict := {
  v_count : Z;
  v_escalation : bool;
  v_material_change : bool;
  v_reopened : bool;
  v_threshold : bool;
  v_suppressed : bool;
  v_notify : bool;
  v_reason : string
}.

Definition is_none {A} (o : option A) : bool := match o with None => true | Some _ => false end.

Definition judge (config : AlertingConfig) (event : SecurityEvent) (aggregate : option aggregate_row) : verdict :=
  let count := match aggregate with Some a => ag_occurrence_count a | None => 0 end + 1 in
  let escalation := match aggregate with
    | Some a => severity_rank (ag_current_severity a) <? severity_rank (ev_severity event) | None => false end in
  let material := match aggregate with
    | Some a => negb (String.eqb (ev_material_digest event) (ag_material_digest a)) | None => false end in
  let reopened := match aggregate with
    | Some a => String.eqb (ag_lifecycle a) "RESOLVED" | None => false end in
  let threshold := is_summary_count config count in
  let suppressed := truthy (ev_suppression_rule_id event) && negb (protected event) in
  let ntf := (is_none aggregate || escalation || material || reopened || threshold) && negb suppressed in
  let reason :=
    if is_none aggregate then "first_occurrence"
    else if escalation then "severity_escalation"
    else if material then "material_change"
    else if reopened then "reopened"
    else if threshold then "threshold_summary"
    else "exact_duplicate_consolidated" in
  {| v_count := count; v_escalation := escalation; v_material_change := material; v_reopened := reopened;
     v_threshold := threshold; v_suppressed := suppressed; v_notify := ntf;
     v_reason := if suppressed then "notification_suppressed_evidence_retained" else reason |}.

Definition live_lifecycles : list string := ["NEW"; "ACTIVE"; "QUIET"; "REOPENED"].

Definition count_active (t : Tables) : Z :=
  zcount (fun kv => one_of (ag_lifecycle kv.2) live_lifecycles) (t_aggregates t).

Definition pending_rows (t : Tables) : list queue_row :=
  filter (fun r => nq_state r = "pending") (t_queue t).

Definition pending_count (t : Tables) : Z := zlen (pending_rows t).

Definition compactable_exempt : list string :=
  ["first_occurrence"; "threshold_summary"; "severity_escalation"; "material_change"; "reopened"].

(** The newest raw duplicate past the first [limit] receipts of a fingerprint. *)
Definition previous_raw (fp : string) (limit : Z) (t : Tables) : option event_row :=
  let same := filter (fun r => er_fingerprint r = fp) (t_events t) in
  match same !! Z.to_nat (Z.max 0 (limit - 1)) with
  | None => None
  | Some floor =>
      last (filter (fun r => er_raw_retained r = true
                    /\ one_of (er_disposition r) compactable_exempt = false
                    /\ er_sequence_number floor < er_sequence_number r) same)
  end.

Definition clear_raw (r : event_row) : event_row := {|
  er_sequence_number := er_sequence_number r; er_event_id := er_event_id r;
  er_schema_version := er_schema_version r; er_received_at := er_received_at r;
  er_monotonic_timestamp := er_monotonic_timestamp r; er_priority := er_priority r;
  er_protected := er_protected r; er_event_type := er_event_type r; er_rule_id := er_rule_id r;
  er_severity := er_severity r; er_confidence := er_confidence r; er_source_id := er_source_id r;
  er_fingerprint := er_fingerprint r; er_material_digest := er_material_digest r;
  er_disposition := er_disposition r; er_raw_retained := false; er_canonical_json := "";
  er_event_digest := er_event_digest r; er_previous_integrity_hash := er_previous_integrity_hash r;
  er_integrity_hash := er_integrity_hash r |}.

(** [UPDATE resilient_security_events SET raw_retained=0,canonical_json='' WHERE sequence_number=?] *)
Definition compact_raw (seq : Z) (t : Tables) : Tables :=
  set_events ((fun r => if er_sequence_number r =? seq then clear_raw r else r) <$> t_events t) t.

(** [SELECT COALESCE(MAX(n),0)+1] *)
Definition next_number {A} (f : A -> Z) (l : list A) : Z := foldr (fun r m => Z.max (f r) m) 0 l + 1.

(** Insert a receipt; [event_id] is unique. *)
Definition insert_event (r : event_row) (t : Tables) : res Tables :=
  if existsb (fun r' => String.eqb (er_event_id r') (er_event_id r)) (t_events t)
  then Raise (IntegrityError "UNIQUE constraint failed: resilient_security_events.event_id")
  else Ok (set_events (t_events t ++ [r]) t).

(** [INSERT OR IGNORE INTO resilient_notification_queue]: the table, and whether
    a row was added. *)
Definition enqueue (event_id fp : string) (prio : Z) (reason created : string) (t : Tables) : Tables * bool :=
  if existsb (fun r => String.eqb (nq_event_id r) event_id && String.eqb (nq_reason r) reason) (t_queue t)
  then (t, false)
  else (set_queue (t_queue t ++ [{| nq_queue_id := t_queue_ids t + 1; nq_event_id := event_id;
          nq_fingerprint := fp; nq_priority := prio; nq_reason := reason; nq_state := "pending";
          nq_created_at := created; nq_attempts := 0 |}]) (t_queue_ids t + 1) t, true).

(** [sorted(values, key=str)] of the set with one more member, at most [limit] *)
Definition pyval_is (v w : pyval) : bool :=
  match v, w with
  | VStr a, VStr b => String.eqb a b
  | VInt a, VInt b => a =? b
  | _, _ => false
  end.

Definition bounded_set (values : list pyval) (value : pyval) : list pyval :=
  let values' :=
    match value with
    | VNone | VStr "" => values
    | _ => if (zlen values <? 128) && negb (existsb (pyval_is value) values) then values ++ [value] else values
    end in
  sort_by (fun a b => str_le (str_of_val a) (str_of_val b)) values'.

(** At most 128 sources are counted separately. *)
Definition count_source (source_id : string) (sources : list (string * Z)) : list (string * Z) :=
  if (zlen sources <? 128) || dmem source_id sources
  then dset source_id (dget_default 0 source_id sources + 1) sources
  else sources.

Definition opt_list {A B} (f : A -> list B) (o : option A) : list B :=
  match o with Some a => f a | None => [] end.

Section Store.
Context `{StoreEnv} (config : AlertingConfig).

Definition metric (name : string) (amount : Z) : M World unit :=
  if one_of name allowed_metrics
  then now ← utc_now; sql_write (bump_metric name amount now)
  else raise_st (ValueError "unregistered bounded metric name").

Definition last_hash (table column : string) : M World string :=
  if String.eqb table "resilient_pipeline_audit" && String.eqb column "record_hash"
  then sql_read (fun t => default "" (au_record_hash <$> last (t_audit t)))
  else if String.eqb table "resilient_security_events" && String.eqb column "integrity_hash"
  then sql_read (fun t => default "" (er_integrity_hash <$> last (t_events t)))
  else raise_st (ValueError "unregistered integrity-chain table or column").

(** The database is under pressure; the quota is exhausted for this event. *)
Definition storage_pressure (event : SecurityEvent) : M World (bool * bool) :=
  used ← read_database_bytes;
  let maximum := maximum_size_mb config * 1024 * 1024 in
  let reserve := emergency_reserved_size_mb config * 1024 * 1024 in
  mret (maximum - reserve <=? used, (maximum <=? used) && (1 <? priority_value (priority event))).

Definition chain (previous : string) (sequence : Z) (canonical : string) : string :=
  hmac_sha256 integrity_key (previous +:+ str_of_Z sequence +:+ canonical).

Definition audit_canonical (sequence : Z) (timestamp action actor reason object_id details : string) : res string :=
  json_dumps sorted_style (VDict [("sequence", VInt sequence); ("timestamp", VStr timestamp);
    ("action", VStr action); ("actor", VStr actor); ("reason", VStr reason);
    ("object_id", VStr object_id); ("details", VStr details)]).

Definition audit (action actor reason object_id : string) (details : list (string * pyval)) : M World unit :=
  previous ← last_hash "resilient_pipeline_audit" "record_hash";
  sequence ← sql_read (fun t => next_number au_sequence (t_audit t));
  timestamp ← utc_now;
  safe_details ← lift_res (json_dumps compact_style (VDict details));
  canonical ← lift_res (audit_canonical sequence timestamp action actor reason object_id safe_details);
  let digest := chain previous sequence canonical in
  sql_write (fun t => set_audit (t_audit t ++ [{| au_sequence := sequence; au_timestamp_utc := timestamp;
    au_action := action; au_actor := actor; au_reason := reason; au_object_id := object_id;
    au_details_json := safe_details; au_previous_hash := previous; au_record_hash := digest |}]) t).

(** The aggregate after one more occurrence: the insert, or the update of the
    conflicting row, which keeps its alert id, rule and first sighting. *)
Definition upsert_aggregate (event : SecurityEvent) (fp : string) (old : option aggregate_row)
    (v : verdict) (event_digest : string) (compacted over : bool) : aggregate_row :=
  let life := if v_reopened v then "REOPENED" else if is_none old then "NEW" else "ACTIVE" in
  let highest := match old with
    | Some a => if severity_rank (ag_highest_severity a) <=? severity_rank (ev_severity event)
                then ev_severity event else ag_highest_severity a
    | None => ev_severity event end in
  let destination := if truthy (ev_remote_address event)
    then ev_remote_address event +:+ ":" +:+ str_of_val (VOpt (ev_remote_port event)) else "" in
  {| ag_fingerprint := fp;
     ag_alert_id := match old with Some a => ag_alert_id a | None => "alert-" +:+ ev_event_id event end;
     ag_rule_id := match old with Some a => ag_rule_id a | None => ev_rule_id event end;
     ag_lifecycle := life;
     ag_first_seen := match old with Some a => ag_first_seen a | None => ev_timestamp_utc event end;
     ag_last_seen := ev_timestamp_utc event;
     ag_occurrence_count := v_count v;
     ag_current_severity := ev_severity event;
     ag_highest_severity := highest;
     ag_current_confidence := ev_confidence event;
     ag_material_digest := ev_material_digest event;
     ag_latest_event_id := ev_event_id event;
     ag_last_notification_count := if v_notify v then v_count v
       else match old with Some a => ag_last_notification_count a | None => 0 end;
     ag_last_notification_at := if v_notify v then ev_timestamp_utc event
       else match old with Some a => ag_last_notification_at a | None => "" end;
     ag_unique_users := bounded_set (opt_list ag_unique_users old) (VOpt (ev_user_uid event));
     ag_unique_processes := bounded_set (opt_list ag_unique_processes old)
       (VStr (str_or (ev_process_path event) (ev_source_process event)));
     ag_unique_hashes := bounded_set (opt_list ag_unique_hashes old) (VStr (ev_process_hash event));
     ag_unique_destinations := bounded_set (opt_list ag_unique_destinations old) (VStr destination);
     ag_unique_objects := bounded_set (opt_list ag_unique_objects old) (VStr (ev_object_path event));
     ag_source_distribution := count_source (ev_source_id event) (opt_list ag_source_distribution old);
     ag_rolling_digest := sha256 (match old with Some a => ag_rolling_digest a | None => "" end +:+ event_digest);
     ag_compacted_count := match old with Some a => ag_compacted_count a | None => 0 end
       + (if compacted then 1 else 0);
     ag_fidelity_reduced := match old with Some a => ag_fidelity_reduced a | None => false end || over |}.

Definition lookup_aggregate (fp : string) : M World (option aggregate_row) :=
  sql_read (fun t => dget fp (t_aggregates t)).

(** The compaction record of a fingerprint, extended by one digest. *)
Definition record_compaction (fp created compacted_digest : string) : M World unit :=
  row ← sql_read (fun t => last (filter (fun r => co_fingerprint r = fp) (t_compactions t)));
  match row with
  | Some r =>
      sql_write (fun t => set_compactions
        ((fun r' => if co_compaction_id r' =? co_compaction_id r
           then {| co_compaction_id := co_compaction_id r'; co_fingerprint := co_fingerprint r';
                   co_started_at := co_started_at r'; co_ended_at := created;
                   co_compacted_count := co_compacted_count r + 1;
                   co_policy_version := co_policy_version r'; co_reason := co_reason r';
                   co_digest := sha256 (co_digest r +:+ compacted_digest); co_fidelity_reduced := true |}
           else r') <$> t_compactions t) (t_compaction_ids t) t)
  | None =>
      sql_write (fun t => set_compactions
        (t_compactions t ++ [{| co_compaction_id := t_compaction_ids t + 1; co_fingerprint := fp;
           co_started_at := created; co_ended_at := created; co_compacted_count := 1;
           co_policy_version := "1"; co_reason := "exact duplicate retention limit or storage pressure";
           co_digest := compacted_digest; co_fidelity_reduced := true |}]) (t_compaction_ids t + 1) t)
  end.

(** Queue the notification of an accepted event, within the capacity of its
    class; the reason of the decision afterwards. *)
Definition queue_notification (event : SecurityEvent) (fp reason : string) : M World string :=
  pending ← sql_read pending_count;
  let prio := priority_value (priority event) in
  let low_capacity := notification_capacity config - protected_capacity config in
  let accepted_queue := (prio <=? 1) || (pending <? low_capacity) in
  if accepted_queue && (pending <? notification_capacity config) then
    sql_write (fun t => (enqueue (ev_event_id event) fp prio reason (ev_ingestion_timestamp_utc event) t).1);;
    mret reason
  else
    metric "notification_queue_saturation" 1;;
    audit "notification_queue_overflow" "pipeline" "bounded notification queue" (ev_event_id event)
      [("priority", VInt prio); ("reserved_capacity_preserved", VBool true)];;
    mret "notification_queue_pressure_log_only".

(** Compact the previous raw duplicate of the fingerprint: its digest, or "". *)
Definition compact_previous (fp : string) (pressure : bool) : M World string :=
  row ← sql_read (previous_raw fp (individual_duplicate_retention_limit config));
  digest ← match row with
           | Some r => sql_write (compact_raw (er_sequence_number r));; mret (er_event_digest r)
           | None => mret ""
           end;
  when_st pressure (metric "storage_pressure" 1);;
  mret digest.

(** The overflow bucket an excess low-priority identity is accounted in. *)
Definition overflow_bucket (event : SecurityEvent) : string :=
  sha256 ("overflow:" +:+ ev_rule_id event +:+ ":" +:+ ev_source_id event +:+ ":"
          +:+ str_of_Z (priority_value (priority event))).

(** The aggregate an event joins: whether it overflowed, the fingerprint it is
    stored under, the aggregate of that fingerprint. *)
Definition resolve_aggregate (event : SecurityEvent) : M World (bool * string * option aggregate_row) :=
  aggregate ← lookup_aggregate (ev_fingerprint event);
  active_count ← sql_read count_active;
  let over := is_none aggregate && (maximum_active_fingerprints config <=? active_count)
              && (3 <=? priority_value (priority event)) in
  if over then
    let fp := overflow_bucket event in
    aggregate ← lookup_aggregate fp;
    metric "cardinality_pressure" 1;;
    audit "cardinality_overflow" "pipeline" "bounded active fingerprint capacity" (ev_event_id event)
      [("original_fingerprint_digest", VStr (ev_fingerprint event)); ("overflow_bucket", VStr fp);
       ("fidelity_reduced", VBool true)];;
    mret (true, fp, aggregate)
  else mret (false, ev_fingerprint event, aggregate).

(** Append the receipt to the chain. *)
Definition store_receipt (event : SecurityEvent) (canonical event_digest fp reason : string) : M World unit :=
  previous ← last_hash "resilient_security_events" "integrity_hash";
  next_sequence ← sql_read (fun t => next_number er_sequence_number (t_events t));
  let integrity_hash := chain previous next_sequence event_digest in
  sql_write_checked (insert_event {|
    er_sequence_number := next_sequence; er_event_id := ev_event_id event;
    er_schema_version := ev_schema_version event; er_received_at := ev_ingestion_timestamp_utc event;
    er_monotonic_timestamp := ev_monotonic_timestamp event;
    er_priority := priority_value (priority event); er_protected := protected event;
    er_event_type := ev_event_type event; er_rule_id := ev_rule_id event;
    er_severity := ev_severity event; er_confidence := ev_confidence event;
    er_source_id := ev_source_id event; er_fingerprint := fp;
    er_material_digest := ev_material_digest event; er_disposition := reason; er_raw_retained := true;
    er_canonical_json := canonical; er_event_digest := event_digest;
    er_previous_integrity_hash := previous; er_integrity_hash := integrity_hash |}).

(** The counters of a stored event, the compaction record among them. *)
Definition count_event (event : SecurityEvent) (fp : string) (known : bool) (v : verdict)
    (compacted_digest : string) : M World unit :=
  let compacted := truthy compacted_digest in
  when_st (v_suppressed v) (metric "suppression_matches" 1);;
  metric "events_received" 1;;
  metric "events_persisted" 1;;
  metric "protected_events" (if protected event then 1 else 0);;
  when_st known (metric "duplicate_occurrences" 1);;
  when_st compacted (metric "events_compacted" 1;;
                     record_compaction fp (ev_ingestion_timestamp_utc event) compacted_digest);;
  when_st (negb (v_notify v)) (metric "notifications_consolidated" 1).

Definition audit_decision (event : SecurityEvent) (fp reason : string) (v : verdict)
    (compacted over pressure : bool) : M World unit :=
  audit "event_aggregation_decision" "pipeline" reason (ev_event_id event)
    [("fingerprint", VStr fp); ("occurrence_count", VInt (v_count v)); ("raw_retained", VBool true);
     ("previous_raw_compacted", VBool compacted); ("material_change", VBool (v_material_change v));
     ("severity_escalation", VBool (v_escalation v)); ("overflowed", VBool over);
     ("suppression_rule_id", VStr (ev_suppression_rule_id event)); ("storage_pressure", VBool pressure)].

(** A known event id: audited, nothing else. *)
Definition refuse_duplicate (event : SecurityEvent) (row : event_row) : M World IngestDecision :=
  audit "duplicate_event_id_rejected" (ev_source_id event) "event IDs are idempotent" (ev_event_id event)
    [("fingerprint", VStr (ev_fingerprint event))];;
  commit;;
  mret (short_decision false (er_fingerprint row) "duplicate_event_id" "ACTIVE" 0 false).

Definition accept_event (event : SecurityEvent) (canonical event_digest : string) : M World IngestDecision :=
  '(over, fp, aggregate) ← resolve_aggregate event;
  let v := judge config event aggregate in
  '(pressure, exhausted) ← storage_pressure event;
  compacted_digest ←
    (if negb (is_none aggregate) && negb (v_notify v) && negb (protected event)
        && ((individual_duplicate_retention_limit config <? v_count v) || pressure)
     then compact_previous fp pressure else mret "");
  let reason := if exhausted && negb (is_none aggregate)
                then "storage_quota_degraded_latest_preserved" else v_reason v in
  store_receipt event canonical event_digest fp reason;;
  let compacted := truthy compacted_digest in
  let row := upsert_aggregate event fp aggregate v event_digest compacted over in
  sql_write (fun t => set_aggregates (dset fp row (t_aggregates t)) t);;
  reason ← (if v_notify v then queue_notification event fp reason else mret reason);
  count_event event fp (negb (is_none aggregate)) v compacted_digest;;
  audit_decision event fp reason v compacted over pressure;;
  commit;;
  mret {| accepted := true; fingerprint := fp; disposition := reason; lifecycle := ag_lifecycle row;
          occurrence_count := v_count v; notify := v_notify v; summary := v_threshold v;
          material_change := v_material_change v; severity_escalation := v_escalation v;
          overflowed := over |}.

(** The statements between [BEGIN IMMEDIATE] and the end of the [try] block. *)
Definition ingest_body (event : SecurityEvent) (canonical event_digest : string) : M World IngestDecision :=
  existing ← sql_read (fun t => find_first (fun r => String.eqb (er_event_id r) (ev_event_id event)) (t_events t));
  match existing with
  | Some row => refuse_duplicate event row
  | None => accept_event event canonical event_digest
  end.

Definition validate_for_store (event : SecurityEvent) : res SecurityEvent :=
  event_validate (maximum_event_size_bytes config) (maximum_string_length config)
    (maximum_nesting_depth config) (maximum_collection_items config) event.

Definition ingest (event : SecurityEvent) : M World IngestDecision :=
  event ← lift_res (validate_for_store event);
  canonical ← lift_res (canonical_json event);
  let event_digest := sha256 canonical in
  begin_immediate;;
  try_except (ingest_body event canonical event_digest)
    (fun e => rollback;; raise_st e).
End Store.
