(* ===== verification/AlertIntegrity.v ===== *)
(** The tamper evidence of the event store: [verify_integrity] of
    [alerts/resilient_store.py], and what its two hash chains detect. *)

From S2P Require Import Prelude PyStr PyFloat PyDict PyJson PyTime AlertConfig AlertModels AlertDb AlertStore.
From Stdlib Require Import Ascii.

(** [str.isascii()] *)
Definition is_ascii (s : string) : bool := all_chars (in_range 0 127) s.

(** [hmac.compare_digest(a, b)] on strings: only ASCII ones are accepted. *)
Definition compare_digest (a b : string) : res bool :=
  if is_ascii a && is_ascii b then Ok (String.eqb a b)
  else Raise (TypeError "comparing strings with non-ASCII characters is not supported").

Record integrity_report := {
  ir_ok : bool;
  ir_records_checked : Z;
  ir_failed_sequences : list Z;
  ir_audit_failed_sequences : list Z
}.

(** What [hexdigest()] documents: 64 ASCII characters. *)
Class DigestLaws `{PlatformEnv} := {
  hmac_length : forall key m, String.length (hmac_sha256 key m) = 64%nat;
  hmac_ascii : forall key m, is_ascii (hmac_sha256 key m) = true;
  sha256_nonempty : forall m, truthy (sha256 m) = true
}.

(** A failing record is reported by its number. *)
Definition report (good : bool) (number : Z) : list Z := if good then [] else [number].

Section Integrity.
Context `{StoreEnv}.

Definition event_row_ok (previous : string) (r : event_row) : bool :=
  if truthy (er_canonical_json r) then
    String.eqb (sha256 (er_canonical_json r)) (er_event_digest r)
    && String.eqb (chain previous (er_sequence_number r) (er_event_digest r)) (er_integrity_hash r)
    && String.eqb (er_previous_integrity_hash r) previous
  else String.eqb (chain previous (er_sequence_number r) (er_event_digest r)) (er_integrity_hash r).

Fixpoint event_failures (previous : string) (rows : list event_row) : list Z :=
  match rows with
  | [] => []
  | r :: rows' =>
      report (event_row_ok previous r) (er_sequence_number r)
      ++ event_failures (er_integrity_hash r) rows'
  end.

Definition audit_row_ok (previous : string) (r : audit_row) : res bool :=
  canonical ← audit_canonical (au_sequence r) (au_timestamp_utc r) (au_action r) (au_actor r)
                (au_reason r) (au_object_id r) (au_details_json r);
  let expected := chain previous (au_sequence r) canonical in
  if negb (String.eqb (au_previous_hash r) previous) then Ok false
  else compare_digest (au_record_hash r) expected.

Fixpoint audit_failures (previous : string) (rows : list audit_row) : res (list Z) :=
  match rows with
  | [] => Ok []
  | r :: rows' =>
      good ← audit_row_ok previous r;
      rest ← audit_failures (au_record_hash r) rows';
      Ok (report good (au_sequence r) ++ rest)
  end.

Definition integrity_of (t : Tables) : res integrity_report :=
  let failures := event_failures "" (t_events t) in
  audit ← audit_failures "" (t_audit t);
  Ok {| ir_ok := bool_decide (failures = []) && bool_decide (audit = []);
          ir_records_checked := zlen (t_events t);
          ir_failed_sequences := take 100 failures;
          ir_audit_failed_sequences := take 100 audit |}.

Definition verify_integrity : M World integrity_report :=
  r ← sql_read integrity_of; lift_res r.

(** ** The chains *)

Fixpoint events_chained (previous : string) (rows : list event_row) : Prop :=
  match rows with
  | [] => True
  | r :: rows' => event_row_ok previous r = true /\ events_chained (er_integrity_hash r) rows'
  end.

Fixpoint audit_chained (previous : string) (rows : list audit_row) : Prop :=
  match rows with
  | [] => True
  | r :: rows' => audit_row_ok previous r = Ok true /\ audit_chained (au_record_hash r) rows'
  end.

Definition intact (t : Tables) : Prop := events_chained "" (t_events t) /\ audit_chained "" (t_audit t).

Lemma event_failures_nil previous rows : event_failures previous rows = [] <-> events_chained previous rows.
Proof.
  revert previous. induction rows as [|r rows IH]; intros previous; simpl; [done|].
  rewrite <- IH. destruct (event_row_ok previous r); simpl; naive_solver.
Qed.

Lemma audit_failures_nil previous rows : audit_failures previous rows = Ok [] <-> audit_chained previous rows.
Proof.
  revert previous. induction rows as [|r rows IH]; intros previous; simpl; [done|].
  rewrite <- IH. destruct (audit_row_ok previous r) as [good|e]; cbn; [|naive_solver].
  destruct (audit_failures (au_record_hash r) rows) as [l|e]; cbn; [|naive_solver].
  destruct good; simpl; naive_solver.
Qed.

Lemma integrity_of_ok t : (exists r, integrity_of t = Ok r /\ ir_ok r = true) <-> intact t.
Proof.
  unfold integrity_of, intact. rewrite <- event_failures_nil, <- audit_failures_nil. split.
  - intros (r & (l & Hl & [= <-])%res_bind_ok & Hok). simpl in Hok. b2p. by subst.
  - intros [H1 H2]. rewrite H2. cbn. eexists. split; [done|]. simpl. by rewrite H1.
Qed.

Definition last_event_hash (l : list event_row) : string := default "" (er_integrity_hash <$> last l).
Definition last_audit_hash (l : list audit_row) : string := default "" (au_record_hash <$> last l).

Lemma events_chained_snoc previous l r :
  events_chained previous (l ++ [r]) <->
  events_chained previous l /\ event_row_ok (default previous (er_integrity_hash <$> last l)) r = true.
Proof.
  revert previous. induction l as [|x l IH]; intros previous; simpl; [tauto|].
  rewrite IH, default_last_cons. tauto.
Qed.

Lemma audit_chained_snoc previous l r :
  audit_chained previous (l ++ [r]) <->
  audit_chained previous l /\ audit_row_ok (default previous (au_record_hash <$> last l)) r = Ok true.
Proof.
  revert previous. induction l as [|x l IH]; intros previous; simpl; [tauto|].
  rewrite IH, default_last_cons. tauto.
Qed.

Lemma event_row_ok_hash previous r :
  event_row_ok previous r = true ->
  er_integrity_hash r = chain previous (er_sequence_number r) (er_event_digest r).
Proof.
  unfold event_row_ok. destruct (truthy _); intros Hr; b2p;
    match goal with Hc : String.eqb (chain _ _ _) _ = true |- _ => by apply String.eqb_eq in Hc end.
Qed.

Lemma event_row_ok_digest previous r :
  event_row_ok previous r = true -> er_canonical_json r <> "" ->
  er_event_digest r = sha256 (er_canonical_json r).
Proof.
  unfold event_row_ok, truthy. intros Hr Hne. destruct (String.eqb_spec (er_canonical_json r) ""); [done|].
  simpl in Hr. b2p. match goal with Hc : String.eqb (sha256 _) _ = true |- _ => by apply String.eqb_eq in Hc end.
Qed.
End Integrity.

(** ** Tampering *)

Lemma string_app_inj_length (a b c d : string) :
  String.length a = String.length b -> a +:+ c = b +:+ d -> a = b /\ c = d.
Proof.
  revert b. induction a as [|x a IH]; intros [|y b]; try done.
  intros [= Hl] Heq. change (String x (a +:+ c) = String y (b +:+ d)) in Heq.
  injection Heq as -> Heq. destruct (IH _ Hl Heq) as [-> ->]. done.
Qed.

Section Tampering.
Context `{StoreEnv} `{!DigestLaws}.

(** What two receipts of one chain position must agree on. *)
Definition same_evidence (r1 r2 : event_row) : Prop :=
  er_event_digest r1 = er_event_digest r2
  /\ (er_canonical_json r1 <> "" -> er_canonical_json r2 <> "" -> er_canonical_json r1 = er_canonical_json r2).

Lemma chained_hash_length l : events_chained "" l -> l <> [] ->
  String.length (last_event_hash l) = 64%nat.
Proof.
  destruct l as [|r l _] using rev_ind; [done|]. intros [_ Hr]%events_chained_snoc _.
  unfold last_event_hash. rewrite last_snoc. simpl.
  rewrite (event_row_ok_hash _ _ Hr). apply hmac_length.
Qed.

Lemma same_evidence_rows p1 p2 r1 r2 :
  event_row_ok p1 r1 = true -> event_row_ok p2 r2 = true ->
  er_event_digest r1 = er_event_digest r2 -> same_evidence r1 r2 \/ sha256_collision.
Proof.
  intros H1 H2 Hd. destruct (decide (er_canonical_json r1 = er_canonical_json r2)) as [He|Hne].
  { left. by split. }
  destruct (decide (er_canonical_json r1 = "")) as [E1|E1]; [left; by split|].
  destruct (decide (er_canonical_json r2 = "")) as [E2|E2]; [left; by split|].
  right. exists (er_canonical_json r1), (er_canonical_json r2). split; [done|].
  by rewrite <- (event_row_ok_digest _ _ H1 E1), <- (event_row_ok_digest _ _ H2 E2).
Qed.

Lemma chains_agree l1 l2 :
  events_chained "" l1 -> events_chained "" l2 ->
  er_sequence_number <$> l1 = er_sequence_number <$> l2 ->
  last_event_hash l1 = last_event_hash l2 ->
  Forall2 same_evidence l1 l2 \/ hmac_collision integrity_key \/ sha256_collision.
Proof.
  revert l2. induction l1 as [|r1 l1 IH] using rev_ind; intros l2 H1 H2 Hseq Hlast.
  { symmetry in Hseq. apply fmap_nil_inv in Hseq as ->. by left. }
  destruct l2 as [|r2 l2 _] using rev_ind; [by apply fmap_nil_inv, app_nil in Hseq as [_ ?]|].
  rewrite !fmap_app in Hseq. simpl in Hseq. apply app_inj_tail in Hseq as [Hseq Hs].
  apply events_chained_snoc in H1 as [H1 R1], H2 as [H2 R2].
  fold (last_event_hash l1) in R1. fold (last_event_hash l2) in R2.
  unfold last_event_hash in Hlast at 1 2. rewrite !last_snoc in Hlast. simpl in Hlast.
  rewrite (event_row_ok_hash _ _ R1), (event_row_ok_hash _ _ R2), Hs in Hlast. unfold chain in Hlast.
  destruct (decide (last_event_hash l1 +:+ str_of_Z (er_sequence_number r2) +:+ er_event_digest r1
    = last_event_hash l2 +:+ str_of_Z (er_sequence_number r2) +:+ er_event_digest r2)) as [Hm|Hm];
    [|right; left; by eexists _, _].
  assert (Hlen : String.length (last_event_hash l1) = String.length (last_event_hash l2)).
  { destruct l1 as [|x1 l1'].
    - symmetry in Hseq. by apply fmap_nil_inv in Hseq as ->.
    - destruct l2 as [|x2 l2']; [done|]. by rewrite !chained_hash_length. }
  apply string_app_inj_length in Hm as [Hprev Hm]; [|done].
  apply string_app_inj_length in Hm as [_ Hd]; [|done].
  destruct (IH l2 H1 H2 Hseq Hprev) as [HF|?]; [|by right].
  destruct (same_evidence_rows _ _ _ _ R1 R2 Hd); [|by right; right].
  left. by apply Forall2_app; [|constructor].
Qed.
End Tampering.
