(* ===== verification/AlertStoreOps.v ===== *)
(** The other operations of [alerts/resilient_store.py]: health, the
    notification queue's readers and markers, periodic summaries, and the ageing
    of alerts. *)

From S2P Require Import Prelude PyStr PyFloat PyDict PyJson PyTime AlertConfig AlertModels AlertDb AlertStore.
From S2P Require Import AlertIntegrity.

Record store_health := {
  sh_status : string;
  sh_pending_notifications : Z;
  sh_notification_capacity : Z;
  sh_active_fingerprints : Z;
  sh_maximum_active_fingerprints : Z;
  sh_storage_bytes : Z;
  sh_storage_limit_bytes : Z;
  sh_storage_pressure : bool;
  sh_integrity_ok : bool;
  sh_metrics : list (string * Z)
}.

Definition queue_before (a b : queue_row) : bool :=
  (nq_priority a <? nq_priority b) || ((nq_priority a =? nq_priority b) && (nq_queue_id a <=? nq_queue_id b)).

Definition set_state (state : string) (attempts : Z) (r : queue_row) : queue_row := {|
  nq_queue_id := nq_queue_id r; nq_event_id := nq_event_id r; nq_fingerprint := nq_fingerprint r;
  nq_priority := nq_priority r; nq_reason := nq_reason r; nq_state := state;
  nq_created_at := nq_created_at r; nq_attempts := attempts |}.

(** [UPDATE resilient_notification_queue SET state=?, attempts=attempts+1 WHERE queue_id=?] *)
Definition mark_queue (queue_id : Z) (state : string) (t : Tables) : Tables :=
  set_queue ((fun r => if nq_queue_id r =? queue_id then set_state state (nq_attempts r + 1) r else r)
               <$> t_queue t) (t_queue_ids t) t.

Definition with_notification (count : Z) (at_ : string) (a : aggregate_row) : aggregate_row := {|
  ag_fingerprint := ag_fingerprint a; ag_alert_id := ag_alert_id a; ag_rule_id := ag_rule_id a;
  ag_lifecycle := ag_lifecycle a; ag_first_seen := ag_first_seen a; ag_last_seen := ag_last_seen a;
  ag_occurrence_count := ag_occurrence_count a; ag_current_severity := ag_current_severity a;
  ag_highest_severity := ag_highest_severity a; ag_current_confidence := ag_current_confidence a;
  ag_material_digest := ag_material_digest a; ag_latest_event_id := ag_latest_event_id a;
  ag_last_notification_count := count; ag_last_notification_at := at_;
  ag_unique_users := ag_unique_users a; ag_unique_processes := ag_unique_processes a;
  ag_unique_hashes := ag_unique_hashes a; ag_unique_destinations := ag_unique_destinations a;
  ag_unique_objects := ag_unique_objects a; ag_source_distribution := ag_source_distribution a;
  ag_rolling_digest := ag_rolling_digest a; ag_compacted_count := ag_compacted_count a;
  ag_fidelity_reduced := ag_fidelity_reduced a |}.

Definition with_lifecycle (life : string) (a : aggregate_row) : aggregate_row := {|
  ag_fingerprint := ag_fingerprint a; ag_alert_id := ag_alert_id a; ag_rule_id := ag_rule_id a;
  ag_lifecycle := life; ag_first_seen := ag_first_seen a; ag_last_seen := ag_last_seen a;
  ag_occurrence_count := ag_occurrence_count a; ag_current_severity := ag_current_severity a;
  ag_highest_severity := ag_highest_severity a; ag_current_confidence := ag_current_confidence a;
  ag_material_digest := ag_material_digest a; ag_latest_event_id := ag_latest_event_id a;
  ag_last_notification_count := ag_last_notification_count a;
  ag_last_notification_at := ag_last_notification_at a;
  ag_unique_users := ag_unique_users a; ag_unique_processes := ag_unique_processes a;
  ag_unique_hashes := ag_unique_hashes a; ag_unique_destinations := ag_unique_destinations a;
  ag_unique_objects := ag_unique_objects a; ag_source_distribution := ag_source_distribution a;
  ag_rolling_digest := ag_rolling_digest a; ag_compacted_count := ag_compacted_count a;
  ag_fidelity_reduced := ag_fidelity_reduced a |}.

(** [UPDATE resilient_alert_aggregates SET ... WHERE fingerprint=?] *)
Definition update_aggregate (fp : string) (f : aggregate_row -> aggregate_row) (t : Tables) : Tables :=
  match dget fp (t_aggregates t) with
  | Some a => set_aggregates (dset fp (f a) (t_aggregates t)) t
  | None => t
  end.

(** [a - b] of two datetimes, in microseconds *)
Definition datetime_sub (a b : datetime) : res Z :=
  match utc_off a, utc_off b with
  | None, None => Ok (local_us a - local_us b)
  | Some _, Some _ => Ok (instant a - instant b)
  | _, _ => Raise (TypeError "can't subtract offset-naive and offset-aware datetimes")
  end.

Section StoreOps.
Context `{StoreEnv} (config : AlertingConfig).

Definition health : M World store_health :=
  metrics ← sql_read (fun t => (fun kv : string * (Z * string) => (kv.1, kv.2.1)) <$> t_metrics t);
  pending ← sql_read pending_count;
  active ← sql_read (fun t => zcount (fun kv => negb (String.eqb (ag_lifecycle kv.2) "RESOLVED")) (t_aggregates t));
  storage_bytes ← read_database_bytes;
  let storage_limit := maximum_size_mb config * 1024 * 1024 in
  let degraded := existsb (fun name => negb (dget_default 0 name metrics =? 0))
    ["notification_queue_saturation"; "storage_pressure"; "store_failures"] in
  integrity ← verify_integrity;
  mret {| sh_status := if degraded || negb (ir_ok integrity) then "degraded" else "healthy";
          sh_pending_notifications := pending; sh_notification_capacity := notification_capacity config;
          sh_active_fingerprints := active;
          sh_maximum_active_fingerprints := maximum_active_fingerprints config;
          sh_storage_bytes := storage_bytes; sh_storage_limit_bytes := storage_limit;
          sh_storage_pressure :=
            storage_limit - emergency_reserved_size_mb config * 1024 * 1024 <=? storage_bytes;
          sh_integrity_ok := ir_ok integrity; sh_metrics := metrics |}.

Definition pending_in_order (limit : Z) (t : Tables) : list queue_row :=
  let bounded := Z.max 1 (Z.min limit (notification_capacity config)) in
  take (Z.to_nat bounded) (sort_by queue_before (pending_rows t)).

Definition pending_notifications (limit : Z) : M World (list queue_row) :=
  sql_read (pending_in_order limit).

Definition queue_periodic_summary (event : SecurityEvent) (fp : string) : M World bool :=
  pending ← sql_read pending_count;
  if notification_capacity config <=? pending then
    metric "notification_queue_saturation" 1;;
    audit "notification_queue_overflow" "pipeline" "periodic summary queue full" (ev_event_id event)
      [("priority", VInt (priority_value (priority event)))];;
    commit;;
    mret false
  else
    inserted ← sql_update (enqueue (ev_event_id event) fp (priority_value (priority event))
      "periodic_summary" (ev_ingestion_timestamp_utc event));
    changed ← sql_read (fun _ => inserted);
    when_st changed (
      sql_write (update_aggregate fp (fun a => with_notification (ag_occurrence_count a) (ag_last_seen a) a));;
      audit "periodic_summary_queued" "pipeline" "active storm summary interval" (ev_event_id event)
        [("fingerprint", VStr fp)]);;
    commit;;
    mret changed.

Definition mark_notification (queue_id : Z) (delivered : bool) (error : string) : M World unit :=
  let state := if delivered then "delivered" else "failed" in
  sql_write (mark_queue queue_id state);;
  audit "notification_delivery" "user_notifier" state (str_of_Z queue_id)
    [("error_digest", VStr (if truthy error then sha256 error else ""))];;
  metric (if delivered then "notifications_delivered" else "notification_failures") 1;;
  commit.

(** The state an alert of this age moves to, "" for none. *)
Definition lifecycle_target (age : float) : string :=
  if fgeb age (fexact (resolve_after_seconds config)) then "RESOLVED"
  else if fgeb age (fexact (dedup_window_seconds config)) then "QUIET" else "".

(** One alert of the loop: what it adds to the counts of quiet and resolved. *)
Definition age_alert (now : datetime) (a : aggregate_row) : M World (Z * Z) :=
  match fromisoformat (ag_last_seen a) with
  | None => mret (0, 0)
  | Some seen =>
      us ← lift_res (datetime_sub now seen);
      let target := lifecycle_target (total_seconds us) in
      if truthy target && negb (String.eqb target (ag_lifecycle a)) then
        sql_write (update_aggregate (ag_fingerprint a) (with_lifecycle target));;
        audit "alert_lifecycle_changed" "pipeline" ("inactivity interval reached: " +:+ lower target)
          (ag_fingerprint a)
          [("previous", VStr (ag_lifecycle a)); ("current", VStr target);
           ("age_seconds", VFloat (total_seconds us))];;
        mret (if String.eqb target "QUIET" then 1 else 0, if String.eqb target "RESOLVED" then 1 else 0)
      else mret (0, 0)
  end.

Fixpoint age_alerts (now : datetime) (rows : list aggregate_row) (quiet resolved : Z) : M World (Z * Z) :=
  match rows with
  | [] => mret (quiet, resolved)
  | a :: rows' =>
      '(q, r) ← age_alert now a;
      age_alerts now rows' (quiet + q) (resolved + r)
  end.

(** The loop updates only the row it stands on, which the cursor has passed. *)
Definition advance_lifecycle (now_utc : string) : M World (Z * Z) :=
  match fromisoformat now_utc with
  | None => raise_st (ValueError "Invalid isoformat string")
  | Some now =>
      rows ← sql_read (fun t => filter (fun a => ag_lifecycle a <> "RESOLVED") (snd <$> t_aggregates t));
      counts ← age_alerts now rows 0 0;
      commit;;
      mret counts
  end.
End StoreOps.
