(* ===== verification/AlertStoreFacts.v ===== *)
(** What the event store guarantees: atomic and idempotent ingestion, one count
    per receipt, bounded queues, chains that stay verifiable and reveal tampering. *)

From S2P Require Import Prelude PyStr PyFloat PyDict PyJson PyTime AlertConfig AlertModels AlertDb AlertStore.
From S2P Require Import AlertIntegrity AlertStoreOps.
From Stdlib Require Import Ascii.

(** ** Frame rules of the store's helpers *)

Section Frames.
Context `{StoreEnv} (config : AlertingConfig).
Context (P : Tables -> Tables -> Prop).

Lemma preserves_metric name amount :
  (forall c t x, P c t -> P c (set_metrics x t)) -> preserves (tables_st P) (metric name amount).
Proof.
  intros HP. unfold metric. destruct (one_of _ _); auto with msaa.
  apply preserves_bind; [auto with msaa|]. intros now. apply preserves_write. intros c t. apply HP.
Qed.

Lemma preserves_last_hash table column : preserves (tables_st P) (last_hash table column).
Proof. unfold last_hash. case_bool; auto with msaa. Qed.

Lemma preserves_storage_pressure event : preserves (tables_st P) (storage_pressure config event).
Proof. unfold storage_pressure. auto with msaa. Qed.

Lemma audit_row_good previous sequence timestamp action actor reason object_id details canonical :
  audit_canonical sequence timestamp action actor reason object_id details = Ok canonical ->
  DigestLaws ->
  audit_row_ok previous {| au_sequence := sequence; au_timestamp_utc := timestamp; au_action := action;
    au_actor := actor; au_reason := reason; au_object_id := object_id; au_details_json := details;
    au_previous_hash := previous; au_record_hash := chain previous sequence canonical |} = Ok true.
Proof.
  intros Hcan Hlaws. unfold audit_row_ok.
  cbn [au_sequence au_timestamp_utc au_action au_actor au_reason au_object_id au_details_json
       au_previous_hash au_record_hash].
  rewrite Hcan. cbn -[chain compare_digest]. rewrite String.eqb_refl. simpl.
  unfold compare_digest, chain. rewrite !hmac_ascii. simpl. by rewrite String.eqb_refl.
Qed.

(** An audit appends one record that extends the chain. *)
Lemma preserves_audit action actor reason object_id details :
  (forall c t row, P c t ->
    (DigestLaws -> audit_row_ok (last_audit_hash (t_audit t)) row = Ok true) ->
    P c (set_audit (t_audit t ++ [row]) t)) ->
  preserves (tables_st P) (audit action actor reason object_id details).
Proof.
  intros HP. unfold audit.
  apply triple_bind with (R := fun previous => tables_st (fun c t => P c t /\ previous = last_audit_hash (t_audit t))).
  { unfold last_hash. simpl. apply triple_read. }
  intros previous.
  apply triple_bind with (R := fun _ => tables_st (fun c t => P c t /\ previous = last_audit_hash (t_audit t))).
  { eapply triple_weaken; [apply preserves_read|done|done|]. by intros e s [? ?]. }
  intros sequence.
  apply triple_bind with (R := fun _ => tables_st (fun c t => P c t /\ previous = last_audit_hash (t_audit t))).
  { by intros w Hw. }
  intros timestamp w [Hw Hprev]. unfold lift_res, mbind, M_bind.
  destruct (json_dumps _ _) as [details_json|]; [|done].
  destruct (audit_canonical _ _ _ _ _ _ _) as [canonical|] eqn:Hcan; [|done].
  cbn -[sql_write]. unfold sql_write, sql_write_checked.
  destruct (stmt_ok _); [|done]. unfold tables_st. cbn -[audit_row_ok last_audit_hash]. apply HP; [exact Hw|].
  intros Hlaws. rewrite Hprev. by apply audit_row_good.
Qed.
End Frames.

(** A predicate no bookkeeping write can break: metrics, audit records that
    extend the chain, compaction records. *)
Record framed `{StoreEnv} (P : Tables -> Tables -> Prop) : Prop := {
  framed_metrics : forall c t x, P c t -> P c (set_metrics x t);
  framed_audit : forall c t row, P c t ->
    (DigestLaws -> audit_row_ok (last_audit_hash (t_audit t)) row = Ok true) ->
    P c (set_audit (t_audit t ++ [row]) t);
  framed_compactions : forall c t x n, P c t -> P c (set_compactions x n t)
}.

Section FramedPieces.
Context `{StoreEnv} (config : AlertingConfig).
Context (P : Tables -> Tables -> Prop) (HP : framed P).

Lemma framed_metric name amount : preserves (tables_st P) (metric name amount).
Proof. apply preserves_metric, framed_metrics, HP. Qed.

Lemma framed_audit_step action actor reason object_id details :
  preserves (tables_st P) (audit action actor reason object_id details).
Proof. apply preserves_audit, framed_audit, HP. Qed.

Hint Resolve framed_metric framed_audit_step : msaa.

Lemma framed_record_compaction fp created digest :
  preserves (tables_st P) (record_compaction fp created digest).
Proof.
  unfold record_compaction. apply preserves_bind; [auto with msaa|].
  intros [r|]; apply preserves_write; intros c t; apply framed_compactions, HP.
Qed.
Hint Resolve framed_record_compaction : msaa.

Lemma framed_count_event event fp known v digest :
  preserves (tables_st P) (count_event event fp known v digest).
Proof. unfold count_event. auto 20 with msaa. Qed.

Lemma framed_audit_decision event fp reason v compacted over pressure :
  preserves (tables_st P) (audit_decision event fp reason v compacted over pressure).
Proof. unfold audit_decision. auto with msaa. Qed.

Lemma framed_compact_previous fp pressure :
  (forall c t s, P c t -> P c (compact_raw s t)) ->
  preserves (tables_st P) (compact_previous config fp pressure).
Proof.
  intros HR. unfold compact_previous. apply preserves_bind; [auto with msaa|].
  intros row. apply preserves_bind; [|auto with msaa].
  destruct row; [|auto with msaa]. apply preserves_bind; [|auto with msaa].
  apply preserves_write. intros c t. apply HR.
Qed.

Lemma framed_queue_notification event fp reason :
  (forall c t x n, P c t -> P c (set_queue x n t)) ->
  preserves (tables_st P) (queue_notification config event fp reason).
Proof.
  intros HQ. unfold queue_notification. apply preserves_bind; [auto with msaa|].
  intros pending. destruct (_ && _); [|auto with msaa].
  apply preserves_bind; [|auto with msaa]. apply preserves_write. intros c t Ht.
  unfold enqueue. case_bool; [done|]. by apply HQ.
Qed.

Lemma framed_refuse_duplicate event row :
  triple (tables_st P) (refuse_duplicate event row)
    (fun d w => accepted d = false /\ quiescent w /\ exists c, P c (committed w)) (fun _ => tables_st P).
Proof.
  unfold refuse_duplicate. apply triple_seq; [auto with msaa|]. intros _.
  eapply triple_bind; [apply triple_commit|]. intros _ w Hw. by split.
Qed.
End FramedPieces.

Section FramedResolve.
Context `{StoreEnv} (config : AlertingConfig).
Context (P : Tables -> Tables -> Prop) (HP : framed P).

Lemma framed_with_aggregate fp agg :
  framed (fun c t => P c t /\ agg = dget fp (t_aggregates t)).
Proof.
  destruct HP as [H1 H2 H3]. split; intros c t.
  - intros x [Ht ?]. split; [by apply H1|done].
  - intros row [Ht ?] Hrow. split; [by apply H2|done].
  - intros x n [Ht ?]. split; [by apply H3|done].
Qed.

Lemma framed_resolve_aggregate event :
  triple (tables_st P) (resolve_aggregate config event)
    (fun r => tables_st (fun c t => P c t /\ r.2 = dget r.1.2 (t_aggregates t))) (fun _ => tables_st P).
Proof.
  unfold resolve_aggregate, lookup_aggregate.
  eapply triple_bind; [apply triple_read|]. intros agg.
  apply triple_seq_weak; [apply preserves_read|by intros w [? ?]|]. intros active.
  destruct (_ && _); [|by intros w Hw].
  eapply triple_bind with (R := fun agg => tables_st (fun c t => P c t /\ agg = dget (overflow_bucket event) (t_aggregates t))).
  { eapply triple_weaken; [apply (triple_read P)| |done|done]. by intros w [Hw _]. }
  intros agg'. pose proof (framed_with_aggregate (overflow_bucket event) agg') as HF.
  apply triple_seq_weak; [by apply framed_metric, HF|by intros w [? ?]|]. intros _.
  apply triple_seq_weak; [by apply framed_audit_step, HF|by intros w [? ?]|]. intros _.
  by intros w Hw.
Qed.
End FramedResolve.

(** How any property of the tables travels through the acceptance of an event:
    from [P] before, through [Pm] once the receipt is stored, to [Q] once the
    aggregate is; [E] is what holds wherever it fails. *)
Section AcceptTriple.
Context `{StoreEnv} (config : AlertingConfig) (event : SecurityEvent) (canonical event_digest : string).
Context (E P Pm : Tables -> Tables -> Prop) (Q : string -> option aggregate_row -> Tables -> Tables -> Prop).
Context (HP : framed P) (HPE : forall c t, P c t -> E c t) (HmE : forall c t, Pm c t -> E c t).
Context (HQ : forall fp agg, framed (Q fp agg)) (HQE : forall fp agg c t, Q fp agg c t -> E c t).
Context (Hcompact : forall c t s, P c t -> P c (compact_raw s t)).
Context (Hreceipt : forall fp reason agg,
  triple (tables_st (fun c t => P c t /\ agg = dget fp (t_aggregates t)))
    (store_receipt event canonical event_digest fp reason)
    (fun _ => tables_st (fun c t => Pm c t /\ agg = dget fp (t_aggregates t))) (fun _ => tables_st E)).
Context (Haggregate : forall fp agg compacted over c t, Pm c t -> agg = dget fp (t_aggregates t) ->
  Q fp agg c (set_aggregates (dset fp (upsert_aggregate event fp agg (judge config event agg)
    event_digest compacted over) (t_aggregates t)) t)).
Context (Hqueue : forall fp agg reason,
  preserves (tables_st (Q fp agg)) (queue_notification config event fp reason)).

Lemma accept_event_triple :
  triple (tables_st P) (accept_event config event canonical event_digest)
    (fun d w => accepted d = true /\ quiescent w /\
       exists agg c, Q (fingerprint d) agg c (committed w)
         /\ occurrence_count d = v_count (judge config event agg)
         /\ notify d = v_notify (judge config event agg))
    (fun _ => tables_st E).
Proof.
  unfold accept_event. eapply triple_bind.
  { eapply triple_weaken; [by apply framed_resolve_aggregate|done|done|]. intros e w. apply HPE. }
  intros [[over fp] agg]. cbn [fst snd]. cbn zeta.
  pose proof (framed_with_aggregate P HP fp agg) as HF.
  assert (HE : forall w, tables_st (fun c t => P c t /\ agg = dget fp (t_aggregates t)) w -> tables_st E w)
    by (intros w [Hw _]; by apply HPE).
  apply triple_seq_weak; [apply preserves_storage_pressure|done|]. intros [pressure exhausted].
  apply triple_seq_weak; [|done|].
  { destruct (_ && _); [|auto with msaa]. apply framed_compact_previous; [done|].
    intros c t s [Ht Ha]. split; [by apply Hcompact|done]. }
  intros digest. eapply triple_bind; [apply Hreceipt|]. intros [].
  eapply triple_bind with (R := fun _ => tables_st (Q fp agg)).
  { eapply triple_weaken; [apply triple_write with (Q := Q fp agg)|done|done|].
    - intros c t [Ht Ha]. by apply Haggregate.
    - intros e w [Hw _]. by apply HmE. }
  intros []. assert (HQE' : forall w, tables_st (Q fp agg) w -> tables_st E w) by (intros w; apply HQE).
  apply triple_seq_weak; [destruct (v_notify _); auto with msaa|done|]. intros reason.
  apply triple_seq_weak; [by apply framed_count_event|done|]. intros [].
  apply triple_seq_weak; [by apply framed_audit_decision|done|]. intros [].
  eapply triple_bind.
  { eapply triple_weaken; [apply (triple_commit (Q fp agg))|done|done|]. intros e w. exact (HQE' w). }
  intros [] w [Hw [c Hc]]. split; [done|]. split; [done|]. by exists agg, c.
Qed.
End AcceptTriple.

(** Storing the receipt: what the insert needs of the predicates around it. *)
Lemma store_receipt_triple `{StoreEnv} (E P Pm : Tables -> Tables -> Prop) event canonical event_digest fp reason :
  (forall c t, P c t -> E c t) ->
  (forall c t t' row, P c t -> er_event_id row = ev_event_id event -> er_canonical_json row = canonical ->
    er_event_digest row = event_digest -> er_previous_integrity_hash row = last_event_hash (t_events t) ->
    er_integrity_hash row = chain (last_event_hash (t_events t)) (er_sequence_number row) event_digest ->
    insert_event row t = Ok t' -> Pm c t') ->
  triple (tables_st P) (store_receipt event canonical event_digest fp reason)
    (fun _ => tables_st Pm) (fun _ => tables_st E).
Proof.
  intros HPE HPm. unfold store_receipt, last_hash. simpl.
  apply triple_bind with (R := fun previous => tables_st (fun c t => P c t /\ previous = last_event_hash (t_events t))).
  { eapply triple_weaken; [apply (triple_read P)|done|done|]. intros e w. apply HPE. }
  intros previous. apply triple_seq_weak; [apply preserves_read|by intros w [Hw _]; apply HPE|].
  intros n. eapply triple_weaken; [apply (triple_write_checked (fun c t => P c t /\ previous = last_event_hash (t_events t)) Pm)|done|done|].
  - intros c t t' [Ht ->] Hins. eapply HPm; [exact Ht| | | | | |exact Hins]; reflexivity.
  - intros e w [Hw _]. by apply HPE.
Qed.

Lemma insert_event_ok r t t' : insert_event r t = Ok t' ->
  t' = set_events (t_events t ++ [r]) t /\ er_event_id r ∉ er_event_id <$> t_events t.
Proof.
  unfold insert_event. destruct (existsb _ _) eqn:He; [done|]. intros [= <-]. split; [done|].
  intros (x & Hx & Hin)%list_elem_of_fmap. apply not_true_iff_false in He. apply He.
  apply existsb_exists. exists x. rewrite <- list_elem_of_In. split; [done|]. by apply String.eqb_eq.
Qed.

(** ** Ingestion *)

Section Ingest.
Context `{StoreEnv} (config : AlertingConfig).

Lemma ingest_body_split (event : SecurityEvent) canonical event_digest w d w' :
  ingest_body config event canonical event_digest w = (Ok d, w') ->
  (exists row, row ∈ t_events (working w) /\ er_event_id row = ev_event_id event
     /\ refuse_duplicate event row (tick w) = (Ok d, w'))
  \/ (ev_event_id event ∉ er_event_id <$> t_events (working w)
      /\ accept_event config event canonical event_digest (tick w) = (Ok d, w')).
Proof.
  unfold ingest_body. intros (existing & w1 & Hread & Hrest)%bind_ok.
  unfold sql_read in Hread. destruct (stmt_ok _); [|done]. injection Hread as Hex <-.
  destruct existing as [row|].
  - left. exists row. apply find_first_Some in Hex as [Hin Heq]. by apply String.eqb_eq in Heq.
  - right. split; [|done]. apply find_first_None in Hex. intros (x & Hx & Hin)%list_elem_of_fmap.
    rewrite Forall_forall in Hex. specialize (Hex x Hin). apply String.eqb_neq in Hex. by symmetry in Hx.
Qed.

Lemma framed_committed t0 : framed (fun c _ => c = t0).
Proof. by split. Qed.

Lemma ingest_body_keeps_committed t0 event canonical event_digest :
  triple (fun w => committed w = t0) (ingest_body config event canonical event_digest)
    (fun _ => quiescent) (fun _ w => committed w = t0).
Proof.
  unfold ingest_body. pose proof (framed_committed t0) as HF.
  change (fun w => committed w = t0) with (tables_st (fun c _ => c = t0)).
  apply triple_seq; [apply preserves_read|]. intros [row|].
  - eapply triple_weaken; [by apply (framed_refuse_duplicate _ HF)|done| |done]. by intros d w (_ & Hq & _).
  - eapply triple_weaken; [apply (accept_event_triple config event canonical event_digest
      (fun c _ => c = t0) (fun c _ => c = t0) (fun c _ => c = t0) (fun _ _ c _ => c = t0))|done| |done]; try done.
    + intros fp reason agg. apply store_receipt_triple; [by intros c t [? _]|].
      intros c t t' row [-> Hagg] _ _ _ _ _ [-> _]%insert_event_ok. done.
    + intros fp agg reason. by apply framed_queue_notification.
    + by intros d w (_ & Hq & _).
Qed.

(** Either ingestion fails and leaves the committed tables as they were, or
    its body ran to the end on the validated event. *)
Lemma ingest_run event w r w' :
  quiescent w -> ingest config event w = (r, w') ->
  quiescent w' /\
  ((exists e, r = Raise e /\ committed w' = committed w)
   \/ (exists event' canonical w1 d, r = Ok d /\ validate_for_store config event = Ok event'
         /\ canonical_json event' = Ok canonical /\ working w1 = committed w /\ committed w1 = committed w
         /\ ingest_body config event' canonical (sha256 canonical) w1 = (Ok d, w'))).
Proof.
  intros Hq. assert (Hsame : forall e, (Raise e, w) = (r, w') -> quiescent w' /\
    ((exists e, r = Raise e /\ committed w' = committed w) \/ False)).
  { intros e [= <- <-]. split; [done|]. left. by exists e. }
  unfold ingest, lift_res, mbind, M_bind.
  destruct (validate_for_store config event) as [event'|e]; [|by intros [? [?|[]]]%Hsame; auto].
  destruct (canonical_json event') as [canonical|e] eqn:Hcan; [|by intros [? [?|[]]]%Hsame; auto].
  destruct Hq as [Htx Hw]. unfold begin_immediate. rewrite Htx. destruct (stmt_ok (ticks w)).
  - set (w1 := {| committed := committed w; working := working w; in_tx := true; ticks := S (ticks w) |}).
    unfold try_except. pose proof (ingest_body_keeps_committed (committed w) event' canonical (sha256 canonical) w1 eq_refl) as Hb.
    destruct (ingest_body config event' canonical (sha256 canonical) w1) as [[d|e] w2] eqn:Hbody; intros [= <- <-].
    + split; [done|]. right. by exists event', canonical, w1, d.
    + simpl. split; [done|]. left. by exists e.
  - intros [= <- <-]. split; [done|]. left. by eexists.
Qed.
End Ingest.

(** C5. Ingestion is atomic under any pattern of database failures: started with no
    open transaction it always ends with none, and when it raises the committed
    tables are exactly those it started from. *)
Theorem ingest_atomic `{StoreEnv} (config : AlertingConfig) (event : SecurityEvent) (w w' : World) r :
  quiescent w -> ingest config event w = (r, w') ->
  quiescent w' /\ (is_ok r = false -> committed w' = committed w).
Proof.
  intros Hq Hrun. destruct (ingest_run config event w r w' Hq Hrun) as [Hq' Hcases]. split; [done|].
  intros Hr. destruct Hcases as [(e & -> & Hc)|(e' & c & w1 & d & -> & _)]; done.
Qed.

(** A concrete environment for examples: digests are the texts themselves, a
    keyed digest the first 64 characters of key and message. *)
Definition ascii_of_any (c : ascii) : ascii := if in_range 0 127 c then c else "?"%char.
Definition zeros : string := "0000000000000000000000000000000000000000000000000000000000000000".

Definition digest_env : PlatformEnv := {|
  float_repr := fun _ => "0.5";
  sha256 := fun s => "h" +:+ s;
  hmac_sha256 := fun key m => stake 64 (map_chars ascii_of_any (key +:+ m) +:+ zeros)
|}.

Definition demo_env (faults : nat -> bool) : StoreEnv := {|
  store_platform := digest_env;
  utc_clock := fun n => 1784367000000000 + Z.of_nat n;
  stmt_ok := faults;
  database_bytes := fun _ => 0;
  integrity_key := "key"
|}.

Definition fresh_world : World := {| committed := empty_tables; working := empty_tables; in_tx := false; ticks := 0 |}.

Lemma length_stake_min n s : String.length (stake n s) = Nat.min n (String.length s).
Proof. revert s. induction n as [|n IH]; intros [|c s]; simpl; auto. Qed.

Lemma all_chars_stake p n s : all_chars p s = true -> all_chars p (stake n s) = true.
Proof.
  revert s. induction n as [|n IH]; intros [|c s]; simpl; auto. intros [-> Hs]%andb_true_iff. by apply IH.
Qed.

#[export] Instance digest_env_laws : @DigestLaws digest_env.
Proof.
  split.
  - intros key m. cbn [hmac_sha256 digest_env]. rewrite length_stake_min, length_string_app.
    change (String.length zeros) with 64%nat. lia.
  - intros key m. cbn [hmac_sha256 digest_env]. apply all_chars_stake. rewrite all_chars_app, andb_true_iff. split; [|done].
    generalize (key +:+ m). intros s. induction s as [|c s IH]; simpl; [done|]. rewrite IH, andb_true_r.
    unfold ascii_of_any. by destruct (in_range 0 127 c) eqn:Hc.
  - done.
Qed.

Example storm_event (id : string) : SecurityEvent := sample_event id "login_failure" "high" [].

(** The tenth statement fails. *)
Example faulty_run : res IngestDecision * World :=
  ingest (H := demo_env (fun n => negb (Nat.eqb n 10))) default_config (storm_event "event-1") fresh_world.

Lemma ingest_atomic_witness :
  quiescent faulty_run.2 /\ (is_ok faulty_run.1 = false -> committed faulty_run.2 = empty_tables).
Proof.
  apply (@ingest_atomic (demo_env (fun n => negb (Nat.eqb n 10))) default_config (storm_event "event-1")
    fresh_world faulty_run.2 faulty_run.1); [by split | exact (surjective_pairing faulty_run)].
Defined.

Example faulty_run_fails : is_ok faulty_run.1 = false.
Proof. by vm_compute. Qed.

Definition event_ids (t : Tables) : list string := er_event_id <$> t_events t.

Definition occurrences (fp : string) (t : Tables) : Z :=
  match dget fp (t_aggregates t) with Some a => ag_occurrence_count a | None => 0 end.

(** What one accepted event does to the receipts and the aggregates. *)
Definition accounted (event : SecurityEvent) (d : IngestDecision) (before after : Tables) : Prop :=
  ev_event_id event ∉ event_ids before
  /\ event_ids after = event_ids before ++ [ev_event_id event]
  /\ occurrence_count d = occurrences (fingerprint d) before + 1
  /\ occurrences (fingerprint d) after = occurrence_count d
  /\ (forall fp, fp <> fingerprint d -> dget fp (t_aggregates after) = dget fp (t_aggregates before)).

Section Accounting.
Context `{StoreEnv} (config : AlertingConfig).

Lemma event_ids_compact s t : event_ids (compact_raw s t) = event_ids t.
Proof.
  unfold event_ids, compact_raw. simpl. rewrite <- list_fmap_compose. apply list_fmap_ext.
  intros i r _. unfold compose. by case_bool.
Qed.

Lemma refuse_duplicate_unchanged t0 event row d w w' :
  committed w = t0 -> working w = t0 -> refuse_duplicate event row w = (Ok d, w') ->
  accepted d = false /\ set_audit [] (committed w') = set_audit [] t0.
Proof.
  intros Hc Hw Hrun.
  unfold refuse_duplicate in Hrun. apply bind_ok in Hrun as ([] & w1 & Haudit & Hrun).
  assert (H1 : tables_st (fun _ t => set_audit [] t = set_audit [] t0) w1).
  { pose proof (preserves_audit (fun _ t => set_audit [] t = set_audit [] t0) "duplicate_event_id_rejected"
      (ev_source_id event) "event IDs are idempotent" (ev_event_id event)
      [("fingerprint", VStr (ev_fingerprint event))]) as Ht.
    assert (Hw' : tables_st (fun _ t => set_audit [] t = set_audit [] t0) w) by by rewrite <- Hw.
    specialize (Ht ltac:(intros c t row' E _; exact E) w Hw'). by rewrite Haudit in Ht. }
  apply bind_ok in Hrun as ([] & w2 & Hcommit & [= <- <-]).
  unfold commit in Hcommit. destruct (stmt_ok _); [|done]. injection Hcommit as <-. done.
Qed.

Lemma accept_event_accounts t0 event canonical event_digest d w w' :
  tables_st (fun c t => c = t0 /\ event_ids t = event_ids t0 /\ t_aggregates t = t_aggregates t0) w ->
  ev_event_id event ∉ event_ids t0 ->
  accept_event config event canonical event_digest w = (Ok d, w') ->
  accepted d = true /\ accounted event d t0 (committed w').
Proof.
  intros Hw Hnew Hrun.
  pose proof (accept_event_triple config event canonical event_digest (fun c _ => c = t0)
    (fun c t => c = t0 /\ event_ids t = event_ids t0 /\ t_aggregates t = t_aggregates t0)
    (fun c t => c = t0 /\ event_ids t = event_ids t0 ++ [ev_event_id event] /\ t_aggregates t = t_aggregates t0)
    (fun fp agg c t => c = t0 /\ event_ids t = event_ids t0 ++ [ev_event_id event]
       /\ agg = dget fp (t_aggregates t0)
       /\ exists row, t_aggregates t = dset fp row (t_aggregates t0)
            /\ ag_occurrence_count row = v_count (judge config event agg))) as HT.
  unfold triple in HT. specialize (fun a b c d e f g h i => HT a b c d e f g h i w Hw). rewrite Hrun in HT.
  destruct HT as (Hacc & _ & agg & c & (-> & Hids & Hagg & row & Hrows & Hcount) & Hocc & _).
  - by split.
  - by intros c t [? _].
  - by intros c t [? _].
  - by split.
  - by intros fp agg c t [? _].
  - intros c t s [? [? ?]]. by rewrite event_ids_compact.
  - intros fp reason agg. apply store_receipt_triple; [by intros c t [[? _] _]|].
    intros c t t' row [(-> & Hids & Haggs) Hagg] Hid _ _ _ _ [-> _]%insert_event_ok.
    split; [|by rewrite Hagg]. split; [done|]. split; [|done].
    unfold event_ids in *. simpl. by rewrite fmap_app, Hids, <- Hid.
  - intros fp agg compacted over c t (-> & Hids & Haggs) Hagg. split; [done|]. split; [done|].
    rewrite Haggs in Hagg. split; [done|]. eexists. split; [simpl; by rewrite Haggs|done].
  - intros fp agg reason. by apply framed_queue_notification.
  - split; [done|]. split; [done|]. split; [done|]. unfold occurrences. rewrite Hrows, dget_dset_eq, <- Hagg.
    split; [|split].
    + rewrite Hocc. done.
    + by rewrite Hcount, Hocc.
    + intros fp Hfp. by rewrite dget_dset_ne.
Qed.
End Accounting.

Lemma validated_event `{StoreEnv} (config : AlertingConfig) (event event' : SecurityEvent) :
  validate_for_store config event = Ok event' -> event' = set_attributes (ev_attributes event') event.
Proof.
  intros Hval. pose proof (proj1 (event_validate_cases _ _ _ _ _ _) Hval) as (_ & attrs & enc & _ & Hev & _).
  rewrite Hev. reflexivity.
Qed.

Lemma validated_event_id `{StoreEnv} (config : AlertingConfig) (event event' : SecurityEvent) :
  validate_for_store config event = Ok event' -> ev_event_id event' = ev_event_id event.
Proof. intros Hval. rewrite (validated_event config event event' Hval). reflexivity. Qed.

(** C6. A successful ingestion either refuses an already stored event id and changes
    nothing but the audit trail, or appends exactly one receipt under a new id,
    adds one to the occurrences of the one aggregate named by the decision, and
    leaves every other aggregate alone. *)
Theorem ingest_accounting `{StoreEnv} (config : AlertingConfig) (event : SecurityEvent) (w w' : World) d :
  quiescent w -> ingest config event w = (Ok d, w') ->
  (accepted d = false /\ ev_event_id event ∈ event_ids (committed w)
     /\ set_audit [] (committed w') = set_audit [] (committed w))
  \/ (accepted d = true /\ accounted event d (committed w) (committed w')).
Proof.
  intros Hq Hrun. destruct (ingest_run config event w _ w' Hq Hrun) as [_ [(e & ? & _)|Hcases]]; [done|].
  destruct Hcases as (event' & canonical & w1 & d' & [= <-] & Hval & _ & Hw1 & Hc1 & Hbody).
  pose proof (validated_event_id config event event' Hval) as Hid.
  apply ingest_body_split in Hbody as [(row & Hrow & Hrid & Hdup)|[Hnew Hacc]].
  - left. apply (refuse_duplicate_unchanged (committed w)) in Hdup as [Hd Haud]; [|done..].
    split; [done|]. split; [|done]. rewrite <- Hid, <- Hrid, <- Hw1. by apply list_elem_of_fmap_2.
  - right. rewrite Hw1 in Hnew.
    apply (accept_event_accounts config (committed w)) in Hacc as [Hd Hacc]; [| |done].
    + split; [done|]. unfold accounted in *. by rewrite Hid in Hacc.
    + unfold tables_st. simpl. by rewrite Hw1, Hc1.
Qed.

Definition no_faults : nat -> bool := fun _ => true.

Definition run_ingest (id : string) (w : World) : res IngestDecision * World :=
  ingest (H := demo_env no_faults) default_config (storm_event id) w.

Definition first_run : World := (run_ingest "event-1" fresh_world).2.

Lemma ingest_accounting_witness :
  let d := short_decision false "" "duplicate_event_id" "ACTIVE" 0 false in
  (accepted d = false /\ ev_event_id (storm_event "event-1") ∈ event_ids (committed first_run)
     /\ set_audit [] (committed (run_ingest "event-1" first_run).2) = set_audit [] (committed first_run))
  \/ (accepted d = true
      /\ accounted (storm_event "event-1") d (committed first_run) (committed (run_ingest "event-1" first_run).2)).
Proof.
  intros d. apply (@ingest_accounting (demo_env no_faults) default_config (storm_event "event-1") first_run
    (run_ingest "event-1" first_run).2 d); vm_compute; done.
Defined.

Example second_event_counts :
  (fun d => (accepted d, occurrence_count d, notify d)) <$>
    match (run_ingest "event-2" first_run).1 with Ok d => Some d | Raise _ => None end = Some (true, 2, false).
Proof. by vm_compute. Qed.

(** ** The chains survive ingestion *)

Section Chains.
Context `{StoreEnv} `{!DigestLaws} (config : AlertingConfig).

Lemma events_chained_compact s previous l :
  events_chained previous l ->
  events_chained previous ((fun r => if er_sequence_number r =? s then clear_raw r else r) <$> l).
Proof.
  revert previous. induction l as [|r l IH]; intros previous; [done|]. intros [Hr Hl]. cbn [fmap list_fmap].
  split.
  - destruct (_ =? _); [|done]. unfold event_row_ok. simpl.
    rewrite (event_row_ok_hash _ _ Hr). by apply String.eqb_refl.
  - destruct (_ =? _); by apply IH.
Qed.

Lemma framed_intact : framed (fun _ t => intact t).
Proof.
  split; [done| |done]. intros c t row [He Ha] Hrow. split; [done|].
  simpl. apply audit_chained_snoc. split; [done|]. by apply Hrow.
Qed.

Lemma intact_insert t t' row canonical :
  intact t -> er_canonical_json row = canonical -> er_event_digest row = sha256 canonical ->
  er_previous_integrity_hash row = last_event_hash (t_events t) ->
  er_integrity_hash row = chain (last_event_hash (t_events t)) (er_sequence_number row) (sha256 canonical) ->
  insert_event row t = Ok t' -> intact t'.
Proof.
  intros [He Ha] Hc Hd Hp Hi [-> _]%insert_event_ok. split; [|done]. simpl.
  apply events_chained_snoc. split; [done|]. fold (last_event_hash (t_events t)).
  unfold event_row_ok. rewrite Hc, Hd, Hp, Hi, !String.eqb_refl. by destruct (truthy canonical).
Qed.

Lemma ingest_body_intact event canonical :
  triple (tables_st (fun _ t => intact t)) (ingest_body config event canonical (sha256 canonical))
    (fun _ w => intact (committed w)) (fun _ _ => True).
Proof.
  pose proof framed_intact as HF. unfold ingest_body.
  apply triple_seq_weak; [apply preserves_read|done|]. intros [row|].
  - eapply triple_weaken; [by apply (framed_refuse_duplicate _ HF)|done| |done]. by intros d w (_ & _ & _ & Hw).
  - eapply triple_weaken; [apply (accept_event_triple config event canonical (sha256 canonical)
      (fun _ _ => True) (fun _ t => intact t) (fun _ t => intact t) (fun _ _ _ t => intact t))|done| |done]; try done.
    + intros c t s [He Ha]. split; [by apply events_chained_compact|done].
    + intros fp reason agg. apply store_receipt_triple; [done|].
      intros c t t' row [Ht Hagg] _ Hc Hd Hp Hi Hins. split; [by eapply intact_insert|].
      by apply insert_event_ok in Hins as [-> _].
    + intros fp agg reason. by apply framed_queue_notification.
    + by intros d w (_ & _ & agg & c & Hw & _).
Qed.
End Chains.

(** C7. The integrity report stays clean under ingestion: if the committed tables
    verify before, they verify after, whether the event was stored, refused as a
    duplicate, compacted an older one, or failed half way. *)
Theorem ingest_keeps_integrity `{StoreEnv} `{!DigestLaws} (config : AlertingConfig) (event : SecurityEvent)
    (w w' : World) r :
  quiescent w -> ingest config event w = (r, w') ->
  (exists report, integrity_of (committed w) = Ok report /\ ir_ok report = true) ->
  exists report, integrity_of (committed w') = Ok report /\ ir_ok report = true.
Proof.
  intros Hq Hrun Hok%integrity_of_ok. apply integrity_of_ok.
  destruct (ingest_run config event w r w' Hq Hrun) as [_ [(e & _ & ->)|Hcases]]; [done|].
  destruct Hcases as (event' & canonical & w1 & d & _ & _ & _ & Hw1 & _ & Hbody).
  pose proof (ingest_body_intact config event' canonical w1) as Ht. unfold tables_st in Ht.
  rewrite Hw1, Hbody in Ht. by apply Ht.
Qed.

(** C8. Tampering is evident: two receipt tables that both verify under the key, with
    the same sequence numbers and the same head of the chain, agree on every event
    digest and on every retained canonical text, unless two different messages
    with one HMAC or one SHA-256 digest have been found. *)
Theorem tampering_is_evident `{StoreEnv} `{!DigestLaws} (t1 t2 : Tables) :
  (exists report, integrity_of t1 = Ok report /\ ir_ok report = true) ->
  (exists report, integrity_of t2 = Ok report /\ ir_ok report = true) ->
  er_sequence_number <$> t_events t1 = er_sequence_number <$> t_events t2 ->
  last_event_hash (t_events t1) = last_event_hash (t_events t2) ->
  Forall2 same_evidence (t_events t1) (t_events t2) \/ hmac_collision integrity_key \/ sha256_collision.
Proof.
  intros [H1 _]%integrity_of_ok [H2 _]%integrity_of_ok. by apply chains_agree.
Qed.

Definition clean_report (n : Z) : integrity_report :=
  {| ir_ok := true; ir_records_checked := n; ir_failed_sequences := []; ir_audit_failed_sequences := [] |}.

#[local] Instance demo_laws faults : @DigestLaws (@store_platform (demo_env faults)) := digest_env_laws.

Lemma ingest_keeps_integrity_witness :
  exists report, integrity_of (H := demo_env no_faults) (committed (run_ingest "event-2" first_run).2) = Ok report
    /\ ir_ok report = true.
Proof.
  apply (@ingest_keeps_integrity (demo_env no_faults) _ default_config (storm_event "event-2") first_run
    (run_ingest "event-2" first_run).2 (run_ingest "event-2" first_run).1).
  - by vm_compute.
  - by vm_compute.
  - exists (clean_report 1). split; [by vm_compute|done].
Defined.

(** The same receipts, the first one edited and its digest recomputed. *)
Definition forged_tables : Tables :=
  set_events ((fun r => clear_raw r) <$> t_events (committed first_run)) (committed first_run).

Lemma tampering_is_evident_witness :
  Forall2 same_evidence (t_events (committed first_run)) (t_events forged_tables)
  \/ hmac_collision (H := digest_env) "key" \/ sha256_collision (H := digest_env).
Proof.
  apply (@tampering_is_evident (demo_env no_faults) _ (committed first_run) forged_tables).
  - exists (clean_report 1). split; [by vm_compute|done].
  - exists (clean_report 1). split; [by vm_compute|done].
  - by vm_compute.
  - by vm_compute.
Defined.
