(* ===== verification/AlertQueueFacts.v ===== *)
(** The notification policy and queue of the event store: when an occurrence is
    announced, the reserved capacity, the order of delivery, the ageing of alerts. *)

From S2P Require Import Prelude PyStr PyFloat PyDict PyJson PyTime AlertConfig AlertModels AlertDb AlertStore.
From S2P Require Import AlertIntegrity AlertStoreOps AlertStoreFacts.
From Stdlib Require Import Ascii.

(** ** Summary counts *)

Lemma one_then_zeros_snoc s c :
  one_then_zeros (s +:+ String c "") = true <->
  c = "0"%char /\ (s = "1" \/ one_then_zeros s = true).
Proof.
  destruct s as [|a s]; simpl.
  { rewrite andb_false_r. split; [done|]. intros (_ & [?|?]); done. }
  change ((Ascii.eqb a "1" && truthy (s +:+ String c "") && all_chars (Ascii.eqb "0") (s +:+ String c "")) = true
    <-> c = "0"%char /\ (String a s = "1" \/ Ascii.eqb a "1" && truthy s && all_chars (Ascii.eqb "0") s = true)).
  rewrite all_chars_app. cbn [all_chars]. rewrite andb_true_r.
  assert (Ht : truthy (s +:+ String c "") = true) by by destruct s.
  rewrite Ht, andb_true_r, !andb_true_iff, !Ascii.eqb_eq. split.
  - intros (-> & Hs & <-). split; [done|]. destruct s; [by left|by right].
  - intros (-> & [[= -> ->]|[[-> ?] ?]]); done.
Qed.

Lemma digit_char_is d e : 0 <= d < 10 -> 0 <= e < 10 -> digit_char d = digit_char e <-> d = e.
Proof. intros Hd He. split; [by apply digit_char_inj|by intros ->]. Qed.

Lemma str_of_Z_one n : 0 <= n -> str_of_Z n = "1" <-> n = 1.
Proof.
  intros Hn. split; [|by intros ->]. destruct (decide (n < 10)) as [Hlt|Hge].
  - rewrite str_of_Z_digit by lia. intros [= Heq]. apply digit_char_inj; [lia|lia|exact Heq].
  - rewrite str_of_Z_step by lia. intros Heq. apply (f_equal String.length) in Heq.
    rewrite length_string_app in Heq. simpl in Heq.
    destruct (str_of_Z (n / 10)) eqn:E; [|simpl in Heq; lia].
    destruct (decide (n / 10 < 10)).
    + by rewrite str_of_Z_digit in E by (split; [apply Z.div_pos; lia|lia]).
    + rewrite str_of_Z_step in E by lia. apply (f_equal String.length) in E.
      rewrite length_string_app in E. simpl in E. lia.
Qed.

(** A numeral is a one followed by zeros exactly for the powers of ten from 10 on. *)
Lemma one_then_zeros_power n : 0 <= n -> one_then_zeros (str_of_Z n) = true <-> exists k, 1 <= k /\ n = 10 ^ k.
Proof.
  intros Hn. revert n Hn. apply Zlt_0_ind. intros n IH Hn. destruct (decide (n < 10)) as [Hlt|Hge].
  - rewrite str_of_Z_digit by lia. unfold one_then_zeros. rewrite andb_false_r. split; [done|].
    intros (k & Hk & ->). pose proof (Z.pow_le_mono_r 10 1 k). lia.
  - rewrite str_of_Z_step, one_then_zeros_snoc by lia.
    change ("0"%char) with (digit_char 0).
    rewrite digit_char_is by (try apply Z.mod_pos_bound; lia).
    assert (H10 : 0 <= n / 10) by (apply Z.div_pos; lia).
    rewrite str_of_Z_one by done. rewrite IH by (try split; try done; apply Z.div_lt; lia).
    pose proof (Z.div_mod n 10 ltac:(lia)) as Hdm. split.
    + intros (Hmod & [H1|(k & Hk & Heq)]).
      * exists 1. lia.
      * exists (k + 1). rewrite Z.pow_add_r by lia. lia.
    + intros (k & Hk & ->). assert (Hp : 10 ^ k = 10 ^ (k - 1) * 10).
      { rewrite Z.mul_comm, <- Z.pow_succ_r by lia. f_equal. lia. }
      rewrite Hp, Z.mod_mul, Z.div_mul by lia. split; [done|].
      destruct (decide (k = 1)) as [->|]; [by left|]. right. exists (k - 1). lia.
Qed.

(** Summaries go out at the configured counts and, whatever the configuration, at
    every power of ten above a thousand; at no other count. *)
Theorem summary_counts (config : AlertingConfig) (count : Z) :
  0 <= count ->
  is_summary_count config count = true <->
  count ∈ summary_thresholds config \/ exists k, 4 <= k /\ count = 10 ^ k.
Proof.
  intros Hc. unfold is_summary_count. rewrite orb_true_iff, andb_true_iff, Z.ltb_lt, one_then_zeros_power by done.
  rewrite existsb_exists. split.
  - intros [(x & Hx & Heq)|(Hlt & k & Hk & ->)].
    + left. apply list_elem_of_In. apply Z.eqb_eq in Heq. by subst.
    + right. exists k. split; [|done]. destruct (decide (k <= 3)); [|lia].
      pose proof (Z.pow_le_mono_r 10 k 3). change (10 ^ 3) with 1000 in *. lia.
  - intros [Hin|(k & Hk & ->)].
    + left. exists count. rewrite <- list_elem_of_In. by rewrite Z.eqb_refl.
    + right. split; [|exists k; lia]. pose proof (Z.pow_le_mono_r 10 4 k). change (10 ^ 4) with 10000 in *. lia.
Qed.

Lemma summary_counts_witness :
  is_summary_count default_config 100000 = true <->
  100000 ∈ summary_thresholds default_config \/ exists k, 4 <= k /\ 100000 = 10 ^ k.
Proof. apply (summary_counts default_config 100000). lia. Defined.

(** ** Who is announced *)

(** What an occurrence that is not announced looks like: a rule suppressed it, or
    it repeats a live alert without escalation, new material or a summary count. *)
Definition quiet_repeat (config : AlertingConfig) (event : SecurityEvent) (aggregate : option aggregate_row) : Prop :=
  exists a, aggregate = Some a
    /\ severity_rank (ev_severity event) <= severity_rank (ag_current_severity a)
    /\ ev_material_digest event = ag_material_digest a
    /\ ag_lifecycle a <> "RESOLVED"
    /\ is_summary_count config (ag_occurrence_count a + 1) = false.

(** Nothing new goes unannounced: an occurrence is consolidated only when an
    unprotected event is covered by a suppression rule or when it repeats a live
    alert at no higher severity, with the same material and at no summary count;
    a protected event is never suppressed. *)
Theorem unannounced_only_when_quiet (config : AlertingConfig) (event : SecurityEvent) (aggregate : option aggregate_row) :
  let v := judge config event aggregate in
  v_notify v = negb (v_suppressed v) && negb (bool_decide (v_reason v = "exact_duplicate_consolidated"))
  /\ (v_notify v = false <->
       (ev_suppression_rule_id event <> "" /\ protected event = false) \/ quiet_repeat config event aggregate)
  /\ (protected event = true -> v_suppressed v = false).
Proof.
  cbn zeta. unfold judge, quiet_repeat. cbn [v_notify v_suppressed v_reason].
  assert (Htr : truthy (ev_suppression_rule_id event) = true <-> ev_suppression_rule_id event <> "").
  { unfold truthy. by rewrite negb_true_iff, String.eqb_neq. }
  split; [|split].
  - destruct (truthy _ && negb _); [by rewrite andb_false_r|]. rewrite andb_true_r. simpl.
    destruct aggregate as [a|]; [|done]. simpl.
    destruct (_ <? _); [done|]. destruct (negb _); [done|]. destruct (String.eqb _ _); [done|].
    by destruct (is_summary_count _ _).
  - rewrite andb_false_iff, negb_false_iff, andb_true_iff, negb_true_iff, Htr.
    rewrite (or_comm (_ = false)). apply or_iff_compat_l.
    destruct aggregate as [a|]; simpl; [|naive_solver].
    rewrite !orb_false_iff, Z.ltb_ge, negb_false_iff, String.eqb_eq, String.eqb_neq. naive_solver.
  - intros ->. by rewrite andb_false_r.
Qed.

(** ** The bounded queue *)

Definition low_pending (t : Tables) : list queue_row :=
  filter (fun r => 1 < nq_priority r) (pending_rows t).

(** At most the capacity is pending, and of it at most the unreserved part is below
    high priority. *)
Definition queue_within (config : AlertingConfig) (t : Tables) : Prop :=
  pending_count t <= notification_capacity config
  /\ zlen (low_pending t) <= notification_capacity config - protected_capacity config.

Section Queue.
Context `{StoreEnv} (config : AlertingConfig).

Lemma low_pending_le t : zlen (low_pending t) <= pending_count t.
Proof. unfold low_pending, pending_count, zlen. apply inj_le. apply length_filter. Qed.

Lemma pending_rows_enqueue event_id fp prio reason created t :
  exists added, pending_rows (enqueue event_id fp prio reason created t).1 = pending_rows t ++ added
    /\ Forall (fun r => nq_priority r = prio) added /\ zlen added <= 1.
Proof.
  unfold enqueue. case_bool; [exists []; by rewrite app_nil_r|].
  eexists. unfold pending_rows. simpl. rewrite filter_app. split; [done|]. rewrite filter_cons_True by done.
  split; [by repeat constructor|done].
Qed.

Lemma enqueue_within event_id fp prio reason created t :
  queue_within config t -> pending_count t < notification_capacity config ->
  (prio <= 1 \/ pending_count t < notification_capacity config - protected_capacity config) ->
  queue_within config (enqueue event_id fp prio reason created t).1.
Proof.
  intros [H1 H2] Hcap Hlow. pose proof (low_pending_le t) as Hle.
  destruct (pending_rows_enqueue event_id fp prio reason created t) as (added & Hrows & Hprio & Hlen).
  unfold queue_within, low_pending, pending_count in *. rewrite Hrows, filter_app, !zlen_app. split; [lia|].
  destruct Hlow as [Hlow|Hlow].
  - assert (Hnil : filter (fun r => 1 < nq_priority r) added = []).
    { clear -Hprio Hlow. induction Hprio as [|r l Hr _ IH]; [done|]. rewrite filter_cons_False; [done|lia]. }
    rewrite Hnil. unfold zlen at 2. simpl. lia.
  - assert (zlen (filter (fun r => 1 < nq_priority r) added) <= zlen added)
      by (unfold zlen; apply inj_le, length_filter). lia.
Qed.

Lemma queue_notification_within event fp reason :
  preserves (tables_st (fun _ t => queue_within config t)) (queue_notification config event fp reason).
Proof.
  unfold queue_notification.
  assert (HF : framed (fun _ t => queue_within config t)) by by split.
  eapply triple_bind; [apply triple_read|]. intros pending. cbn zeta.
  destruct (_ && _) eqn:Hacc.
  - apply andb_true_iff in Hacc as [Hacc Hcap]. apply Z.ltb_lt in Hcap.
    apply orb_true_iff in Hacc. rewrite Z.leb_le, Z.ltb_lt in Hacc.
    eapply triple_bind with (R := fun _ => tables_st (fun _ t => queue_within config t)).
    + eapply triple_weaken; [apply (triple_write (fun _ t => queue_within config t /\ pending = pending_count t)
        (fun _ t => queue_within config t))|done|done|].
      * intros c t [Ht ->]. by apply enqueue_within.
      * by intros e w [Hw _].
    + intros []. by intros w Hw.
  - eapply triple_weaken; [|by intros w [Hw _]; exact Hw|by intros a w Hw; exact Hw|by intros e w Hw; exact Hw].
    apply (preserves_bind (tables_st (fun _ t => queue_within config t))); [by apply framed_metric|]. intros [].
    apply preserves_bind; [by apply framed_audit_step|]. auto with msaa.
Qed.
End Queue.

(** The notification queue stays within its capacity under ingestion, and the
    slots reserved for critical and protected events are never taken by others. *)
Theorem ingest_queue_within `{StoreEnv} (config : AlertingConfig) (event : SecurityEvent) (w w' : World) r :
  quiescent w -> queue_within config (committed w) -> ingest config event w = (r, w') ->
  queue_within config (committed w').
Proof.
  intros Hq Hwithin Hrun.
  destruct (ingest_run config event w r w' Hq Hrun) as [_ [(e & _ & ->)|Hcases]]; [done|].
  destruct Hcases as (event' & canonical & w1 & d & _ & _ & _ & Hw1 & Hc1 & Hbody).
  assert (HF : framed (fun _ t => queue_within config t)) by by split.
  apply ingest_body_split in Hbody as [(row & _ & _ & Hdup)|[_ Hacc]].
  - pose proof (framed_refuse_duplicate _ HF event' row (tick w1)) as Ht.
    unfold tables_st in Ht. simpl in Ht. rewrite Hw1, Hdup in Ht. by destruct (Ht Hwithin) as (_ & _ & _ & ?).
  - assert (Ht : triple (tables_st (fun _ t => queue_within config t))
      (accept_event config event' canonical (sha256 canonical))
      (fun _ w => queue_within config (committed w)) (fun _ _ => True)).
    { eapply triple_weaken; [apply (accept_event_triple config event' canonical (sha256 canonical)
        (fun _ _ => True) (fun _ t => queue_within config t) (fun _ t => queue_within config t)
        (fun _ _ _ t => queue_within config t))|done| |done]; try done.
      - intros fp reason agg. apply store_receipt_triple; [done|].
        intros c t t' row [Ht Hagg] _ _ _ _ _ [-> _]%insert_event_ok. done.
      - intros fp agg reason. by apply queue_notification_within.
      - by intros d' w2 (_ & _ & agg & c & Hw & _). }
    specialize (Ht (tick w1)). unfold tables_st in Ht. simpl in Ht. rewrite Hw1, Hacc in Ht. by apply Ht.
Qed.

Lemma ingest_queue_within_witness :
  queue_within default_config (committed (run_ingest "event-1" fresh_world).2).
Proof.
  apply (@ingest_queue_within (demo_env no_faults) default_config (storm_event "event-1") fresh_world
    (run_ingest "event-1" fresh_world).2 (run_ingest "event-1" fresh_world).1).
  - by split.
  - by split.
  - by vm_compute.
Defined.

(** A valid configuration with room for two notifications, one of them reserved. *)
Definition tight_config : AlertingConfig := {|
  schema_version := 1; dedup_window_seconds := 60; summary_interval_seconds := 300;
  resolve_after_seconds := 900; summary_thresholds := [10; 100; 1000]; ingestion_capacity := 10000;
  notification_capacity := 2; protected_capacity := 1; maximum_active_fingerprints := 50000;
  state_ttl_seconds := 86400; maximum_size_mb := 2048; emergency_reserved_size_mb := 256;
  individual_duplicate_retention_limit := 1000; maximum_event_size_bytes := 262144;
  maximum_string_length := 16384; desktop_notifications_per_minute := 6; flood_events_per_window := 1000;
  source_rate_per_second := 2000; maximum_source_windows := 4096; emergency_buffer_capacity := 512;
  fallback_audit_maximum_bytes := 1048576; maximum_suppression_duration_seconds := 86400;
  maximum_nesting_depth := 8; maximum_collection_items := 128; event_integrity_chain_enabled := true;
  source_authentication_enabled := true |}.

(** Periodic summaries do not respect the reserve: under a valid configuration a
    summary of a medium event fills the last, reserved slot of the queue, and the
    notification of a critical event is then dropped to the log. *)
Theorem periodic_summary_takes_reserve :
  let env := demo_env no_faults in
  let medium := sample_event "event-1" "login_failure" "medium" [] in
  let critical := sample_event "event-2" "login_failure" "critical" [] in
  let w1 := (ingest (H := env) tight_config medium fresh_world).2 in
  let w2 := (queue_periodic_summary (H := env) tight_config medium "" w1).2 in
  let last_decision := (ingest (H := env) tight_config critical w2).1 in
  config_validate tight_config = Ok tt
  /\ queue_within tight_config (committed w1) /\ ~ queue_within tight_config (committed w2)
  /\ match last_decision with
     | Ok d => notify d = true /\ disposition d = "notification_queue_pressure_log_only"
     | Raise _ => False
     end.
Proof.
  cbn zeta. split; [by vm_compute|]. split; [by vm_compute|]. split.
  - intros [_ Hlow]. vm_compute in Hlow. by apply Hlow.
  - by vm_compute.
Qed.

(** ** Delivery order *)

Definition no_later (a b : queue_row) : Prop :=
  nq_priority a < nq_priority b \/ (nq_priority a = nq_priority b /\ nq_queue_id a <= nq_queue_id b).

Lemma queue_before_spec a b : queue_before a b = true <-> no_later a b.
Proof.
  unfold queue_before, no_later. by rewrite orb_true_iff, andb_true_iff, Z.ltb_lt, Z.eqb_eq, Z.leb_le.
Qed.

Lemma sorted_weaken {A} (R S : A -> A -> Prop) l : (forall a b, R a b -> S a b) -> Sorted R l -> Sorted S l.
Proof. intros HRS. induction 1 as [|x l Hl IH Hd]; constructor; [done|]. destruct Hd; constructor. by apply HRS. Qed.

Lemma queue_before_total a b : queue_before a b = false -> queue_before b a = true.
Proof. intros H. apply not_true_iff_false in H. rewrite queue_before_spec in *. unfold no_later in *. lia. Qed.

(** Pending notifications are handed out by priority, and first come first served
    within one: a batch is never empty-handed nor above the capacity, is ordered,
    holds only pending rows, and no pending row left out precedes one handed out. *)
Theorem pending_in_priority_order (config : AlertingConfig) (limit : Z) (t : Tables) :
  let batch := pending_in_order config limit t in
  zlen batch <= Z.max 1 (notification_capacity config)
  /\ (pending_rows t <> [] -> batch <> [])
  /\ Sorted no_later batch
  /\ exists rest, Permutation (batch ++ rest) (pending_rows t)
       /\ Forall (fun a => Forall (no_later a) rest) batch.
Proof.
  cbn zeta. unfold pending_in_order. set (n := Z.to_nat _).
  set (l := sort_by queue_before (pending_rows t)).
  assert (Hs : StronglySorted no_later l).
  { apply Sorted_StronglySorted; [intros a b c; unfold no_later; lia|].
    apply sorted_weaken with (R := fun a b => queue_before a b = true); [intros a b; apply queue_before_spec|].
    apply sort_by_sorted. intros a b. apply queue_before_total. }
  assert (Hp : Permutation l (pending_rows t)) by apply sort_by_perm.
  rewrite <- (take_drop n l) in Hs. apply StronglySorted_app in Hs as (Hcross & Htake & _).
  split; [|split; [|split]].
  - unfold zlen. rewrite length_take. subst n. lia.
  - intros Hne Hnil. apply Hne. apply Permutation_nil_r. rewrite <- Hp.
    destruct l as [|x l']; [done|]. destruct n as [|n'] eqn:Hn; [|done]. subst n. lia.
  - by apply StronglySorted_Sorted.
  - exists (drop n l). rewrite take_drop. split; [done|].
    apply Forall_forall. intros a Ha. apply Forall_forall. intros b Hb. by apply Hcross.
Qed.
