(* ===== verification/Suppression.v ===== *)
(** Alert suppression rules: [alerts/suppression.py]. *)

From S2P Require Import Prelude PyStr PyFloat PyDict PyJson PyTime AlertConfig AlertModels AlertDb AlertStore.
From S2P Require Import AlertIntegrity AlertStoreFacts.

Record SuppressionRequest := {
  rq_scope : string;
  rq_conditions : list (string * string);
  rq_owner : string;
  rq_created_at : string;
  rq_expires_at : string;
  rq_reason : string;
  rq_ticket_id : string;
  rq_authorizing_identity : string;
  rq_policy_version : string;
  rq_approval_identity : string;
  rq_rule_id : string
}.

Definition SAFE_FIELDS : list string :=
  ["rule_id"; "event_type"; "source_id"; "process_signing_identifier"; "user_uid"; "host_id"].

Definition wildcards : list string := [""; "*"; ".*"].

(** The checks on the text of a request, before the clock is read. *)
Definition check_request (request : SuppressionRequest) : res unit :=
  raise_if (blank (rq_reason request) || blank (rq_ticket_id request) || blank (rq_authorizing_identity request))
    (ValueError "reason, ticket identifier, and authorizing identity are required");;
  raise_if (bool_decide (rq_conditions request = [])
            || existsb (fun kv => negb (one_of kv.1 SAFE_FIELDS)) (rq_conditions request))
    (ValueError "suppression conditions must use supported exact-match fields");;
  raise_if (existsb (fun kv => one_of kv.2 wildcards) (rq_conditions request))
    (ValueError "global or wildcard suppression is prohibited").

(** The instant an expiry names; it must be timezone-aware. *)
Definition parse_expiry (text : string) : res Z :=
  match fromisoformat text with
  | Some d => if aware d then Ok (instant d)
              else Raise (ValueError "expiration must be an explicit timezone-aware ISO timestamp")
  | None => Raise (ValueError "expiration must be an explicit timezone-aware ISO timestamp")
  end.

Definition check_window (config : AlertingConfig) (request : SuppressionRequest) (protected_scope : bool)
    (now : Z) : res unit :=
  expires ← parse_expiry (rq_expires_at request);
  raise_if (expires <=? now) (ValueError "suppression expiration must be in the future");;
  raise_if (fgtb (total_seconds (expires - now)) (fexact (maximum_suppression_duration_seconds config)))
    (ValueError "suppression duration exceeds the configured maximum");;
  raise_if (protected_scope && (negb (truthy (rq_approval_identity request))
      || String.eqb (rq_approval_identity request) (rq_authorizing_identity request)))
    (PermissionError "protected-event suppression requires a distinct approval identity").

Definition suppression_of (request : SuppressionRequest) (rule_id : string) : suppression_row := {|
  su_rule_id := rule_id; su_scope := rq_scope request; su_conditions := rq_conditions request;
  su_owner := rq_owner request; su_created_at := rq_created_at request; su_expires_at := rq_expires_at request;
  su_reason := rq_reason request; su_ticket_id := rq_ticket_id request;
  su_authorizing_identity := rq_authorizing_identity request;
  su_approval_identity := rq_approval_identity request; su_policy_version := rq_policy_version request;
  su_revoked_at := "" |}.

Definition insert_suppression (row : suppression_row) (t : Tables) : res Tables :=
  if existsb (fun r => String.eqb (su_rule_id r) (su_rule_id row)) (t_suppressions t)
  then Raise (IntegrityError "UNIQUE constraint failed: resilient_suppressions.rule_id")
  else Ok (set_suppressions (t_suppressions t ++ [row]) t).

Definition set_revoked (at_ : string) (r : suppression_row) : suppression_row := {|
  su_rule_id := su_rule_id r; su_scope := su_scope r; su_conditions := su_conditions r; su_owner := su_owner r;
  su_created_at := su_created_at r; su_expires_at := su_expires_at r; su_reason := su_reason r;
  su_ticket_id := su_ticket_id r; su_authorizing_identity := su_authorizing_identity r;
  su_approval_identity := su_approval_identity r; su_policy_version := su_policy_version r;
  su_revoked_at := at_ |}.

Definition live (r : suppression_row) : bool := String.eqb (su_revoked_at r) "".

(** The [UPDATE ... WHERE rule_id=? AND revoked_at='']: the table and its rowcount. *)
Definition revoke_rows (rule_id at_ : string) (t : Tables) : Tables * Z :=
  let hit r := String.eqb (su_rule_id r) rule_id && live r in
  (set_suppressions ((fun r => if hit r then set_revoked at_ r else r) <$> t_suppressions t) t,
   zcount hit (t_suppressions t)).

Definition text_lt (a b : string) : bool := str_le a b && negb (String.eqb a b).

(** [WHERE revoked_at='' AND expires_at>? ORDER BY created_at] *)
Definition active_rules (now : string) (t : Tables) : list suppression_row :=
  sort_by (fun a b => str_le (su_created_at a) (su_created_at b))
    (filter (fun r => live r = true /\ text_lt now (su_expires_at r) = true) (t_suppressions t)).

Definition conditions_hold (event : SecurityEvent) (r : suppression_row) : bool :=
  forallb (fun kv => String.eqb (event_text event kv.1) kv.2) (su_conditions r).

Definition match_rules (event : SecurityEvent) (rules : list suppression_row) : string :=
  match find_first (fun r => negb (protected event) && conditions_hold event r) rules with
  | Some r => su_rule_id r
  | None => ""
  end.

Section Policy.
Context `{StoreEnv} (config : AlertingConfig).

(** [fresh_id] is the [uuid4] drawn when the request names no rule. *)
Definition create (fresh_id : string) (request : SuppressionRequest) (protected_scope : bool) : M World string :=
  lift_res (check_request request);;
  now ← utc_instant;
  lift_res (check_window config request protected_scope now);;
  let rule_id := str_or (rq_rule_id request) ("suppression-" +:+ fresh_id) in
  sql_write_checked (insert_suppression (suppression_of request rule_id));;
  audit "suppression_created" (rq_authorizing_identity request) (rq_reason request) rule_id
    [("scope", VStr (rq_scope request));
     ("conditions", VDict ((fun kv => (kv.1, VStr kv.2)) <$> rq_conditions request));
     ("expires_at", VStr (rq_expires_at request)); ("ticket_id", VStr (rq_ticket_id request));
     ("protected_scope", VBool protected_scope)];;
  commit;;
  mret rule_id.

Definition revoke (rule_id actor reason : string) : M World bool :=
  if blank actor || blank reason then raise_st (ValueError "actor and reason are required")
  else
    now ← utc_now;
    rowcount ← sql_update (revoke_rows rule_id now);
    if rowcount =? 0 then mret false
    else
      audit "suppression_revoked" actor reason rule_id [];;
      commit;;
      mret true.

Definition matching_rule (event : SecurityEvent) : M World string :=
  now ← utc_now;
  rules ← sql_read (active_rules now);
  mret (match_rules event rules).

(** [list(include_expired=...)], newest first *)
Definition list_rules (include_expired : bool) : M World (list suppression_row) :=
  let newest_first := sort_by (fun a b => str_le (su_created_at b) (su_created_at a)) in
  if include_expired then sql_read (fun t => newest_first (t_suppressions t))
  else
    now ← utc_now;
    sql_read (fun t => newest_first
      (filter (fun r => live r = true /\ text_lt now (su_expires_at r) = true) (t_suppressions t))).
End Policy.

(** ** What a created rule satisfies *)

Record request_sound (config : AlertingConfig) (request : SuppressionRequest) (protected_scope : bool)
    (now : Z) : Prop := {
  sound_reason : blank (rq_reason request) = false;
  sound_ticket : blank (rq_ticket_id request) = false;
  sound_authority : blank (rq_authorizing_identity request) = false;
  sound_conditions : rq_conditions request <> []
    /\ Forall (fun kv => kv.1 ∈ SAFE_FIELDS /\ kv.2 ∉ wildcards) (rq_conditions request);
  sound_expiry : exists d, fromisoformat (rq_expires_at request) = Some d /\ aware d = true
    /\ now < instant d
    /\ fgtb (total_seconds (instant d - now)) (fexact (maximum_suppression_duration_seconds config)) = false;
  sound_approval : protected_scope = true -> rq_approval_identity request <> ""
    /\ rq_approval_identity request <> rq_authorizing_identity request
}.

Lemma existsb_false {A} (p : A -> bool) l : existsb p l = false <-> Forall (fun x => p x = false) l.
Proof. induction l as [|x l IH]; simpl; [done|]. by rewrite Forall_cons, orb_false_iff, IH. Qed.

Lemma one_of_false s l : one_of s l = false <-> s ∉ l.
Proof. rewrite <- one_of_spec. by rewrite not_true_iff_false. Qed.


Lemma parse_expiry_ok text z :
  parse_expiry text = Ok z <-> exists d, fromisoformat text = Some d /\ aware d = true /\ z = instant d.
Proof.
  unfold parse_expiry. destruct (fromisoformat text) as [d|]; [|split; [done|by intros (? & ? & _)]].
  destruct (aware d) eqn:Ha; split; [intros [= <-]; by exists d|intros (d' & [= <-] & _ & ->); done|done|intros (d' & [= <-] & ? & _); congruence].
Qed.

Lemma checks_sound config request protected_scope now :
  check_request request = Ok tt -> check_window config request protected_scope now = Ok tt ->
  request_sound config request protected_scope now.
Proof.
  unfold check_request, check_window. rewrite !res_bind_unit_ok, !raise_if_ok. intros (Htxt & Hcond & Hwild) Hwin.
  apply res_bind_ok in Hwin as (z & (d & Hd & Haw & ->)%parse_expiry_ok & Hwin).
  rewrite !res_bind_unit_ok, !raise_if_ok in Hwin. destruct Hwin as (Hfut & Hmax & Happ).
  apply orb_false_iff in Htxt as [[H1 H2]%orb_false_iff H3]. apply orb_false_iff in Hcond as [Hne Hsafe].
  apply existsb_false in Hsafe, Hwild. constructor; try done.
  - split; [by apply bool_decide_eq_false in Hne|]. rewrite Forall_forall in Hsafe, Hwild |- *.
    intros kv Hkv. split.
    + specialize (Hsafe kv Hkv). apply negb_false_iff in Hsafe. by apply one_of_spec.
    + apply one_of_false. by apply Hwild.
  - exists d. apply Z.leb_gt in Hfut. done.
  - intros ->. simpl in Happ. apply orb_false_iff in Happ as [Happ1 Happ2].
    apply negb_false_iff, negb_true_iff, String.eqb_neq in Happ1. by apply String.eqb_neq in Happ2.
Qed.

Section PolicyFacts.
Context `{StoreEnv} (config : AlertingConfig).

Lemma framed_suppressions (f : list suppression_row -> Prop) : framed (fun _ t => f (t_suppressions t)).
Proof. by split. Qed.

Lemma create_body_triple (rule_id : string) request protected_scope rows :
  triple (tables_st (fun _ t => t_suppressions t = rows))
    (sql_write_checked (insert_suppression (suppression_of request rule_id));;
     audit "suppression_created" (rq_authorizing_identity request) (rq_reason request) rule_id
       [("scope", VStr (rq_scope request));
        ("conditions", VDict ((fun kv => (kv.1, VStr kv.2)) <$> rq_conditions request));
        ("expires_at", VStr (rq_expires_at request)); ("ticket_id", VStr (rq_ticket_id request));
        ("protected_scope", VBool protected_scope)];;
     commit;; mret rule_id)
    (fun id w => id = rule_id /\ rule_id ∉ su_rule_id <$> rows
       /\ t_suppressions (committed w) = rows ++ [suppression_of request rule_id])
    (fun _ _ => True).
Proof.
  set (Q := fun l => rule_id ∉ su_rule_id <$> rows /\ l = rows ++ [suppression_of request rule_id]).
  apply triple_bind with (R := fun _ => tables_st (fun _ t => Q (t_suppressions t))).
  { eapply triple_weaken; [apply (triple_write_checked (fun _ t => t_suppressions t = rows) (fun _ t => Q (t_suppressions t)))|done|done|done].
    intros c t t' Hrows. unfold insert_suppression. destruct (existsb _ _) eqn:He; [done|]. intros [= <-].
    unfold Q. simpl. rewrite Hrows in *. split; [|done]. intros (r & Hr & Hin)%list_elem_of_fmap.
    apply existsb_false in He. rewrite Forall_forall in He. specialize (He r Hin).
    by apply String.eqb_neq in He. }
  intros []. apply triple_seq_weak; [apply framed_audit_step, framed_suppressions|done|]. intros [].
  eapply triple_bind; [eapply triple_weaken; [apply (triple_commit (fun _ t => Q (t_suppressions t)))|done|done|done]|].
  intros [] w (_ & _ & [HQ1 HQ2]). done.
Qed.
End PolicyFacts.

(** A rule is created only from a sound request: with a reason, a ticket and an
    authority, exact-match conditions on supported fields and no wildcard, an
    aware expiry in the future within the configured maximum, and for a protected
    scope an approval by someone else. It is then committed as one new row. *)
Theorem create_sound `{StoreEnv} (config : AlertingConfig) fresh_id request protected_scope (w w' : World) rule_id :
  create config fresh_id request protected_scope w = (Ok rule_id, w') ->
  request_sound config request protected_scope (utc_clock (ticks w))
  /\ rule_id ∉ su_rule_id <$> t_suppressions (working w)
  /\ t_suppressions (committed w') = t_suppressions (working w) ++ [suppression_of request rule_id].
Proof.
  unfold create. intros (u & w1 & Hreq & Hrun)%bind_ok. injection Hreq as Hreq <-.
  apply bind_ok in Hrun as (now & w2 & Hnow & Hrun). injection Hnow as <- <-.
  apply bind_ok in Hrun as (u' & w3 & Hwin & Hrun). injection Hwin as Hwin <-. destruct u, u'.
  split; [by apply checks_sound|].
  pose proof (create_body_triple (str_or (rq_rule_id request) ("suppression-" +:+ fresh_id)) request protected_scope
    (t_suppressions (working w)) (tick w) eq_refl) as Ht.
  rewrite Hrun in Ht. destruct Ht as (-> & Hnew & Hrows). done.
Qed.

(** A rule that matches is live, not past its expiry text, and every one of its
    conditions holds of the event; protected events are never matched. *)
Theorem matching_rule_sound `{StoreEnv} (event : SecurityEvent) (w w' : World) rule_id :
  matching_rule event w = (Ok rule_id, w') -> rule_id <> "" ->
  protected event = false /\ exists r, r ∈ t_suppressions (working w) /\ su_rule_id r = rule_id
    /\ su_revoked_at r = "" /\ text_lt (isoformat_utc (utc_clock (ticks w))) (su_expires_at r) = true
    /\ Forall (fun kv => event_text event kv.1 = kv.2) (su_conditions r).
Proof.
  unfold matching_rule. intros (now & w1 & Hnow & Hrun)%bind_ok Hne. injection Hnow as <- <-.
  apply bind_ok in Hrun as (rules & w2 & Hread & [= Hm _]).
  unfold sql_read in Hread. destruct (stmt_ok _); [|done]. injection Hread as <- _.
  unfold match_rules in Hm. destruct (find_first _ _) as [r|] eqn:Hf; [|by subst].
  apply find_first_Some in Hf as [Hin Hp]. apply andb_true_iff in Hp as [Hprot Hcond].
  apply negb_true_iff in Hprot. split; [done|]. exists r.
  unfold active_rules in Hin. rewrite sort_by_perm, list_elem_of_filter in Hin. destruct Hin as [[Hlive Hexp] Hin].
  split; [done|]. split; [done|]. split; [by apply String.eqb_eq in Hlive|]. split; [done|].
  unfold conditions_hold in Hcond. rewrite forallb_forall in Hcond. apply Forall_forall.
  intros kv Hkv. apply String.eqb_eq, Hcond. by apply list_elem_of_In.
Qed.

(** ** Expiry is compared as text *)

Example ten_hours_ahead : SuppressionRequest := {|
  rq_scope := "login"; rq_conditions := [("rule_id", "RULE-1")]; rq_owner := "soc";
  rq_created_at := "2026-07-18T09:00:00+00:00"; rq_expires_at := "2026-07-18T20:00:00+10:00";
  rq_reason := "maintenance"; rq_ticket_id := "T-1"; rq_authorizing_identity := "alice";
  rq_policy_version := "1"; rq_approval_identity := ""; rq_rule_id := "rule-1" |}.

(** A clock that starts at 09:30 UTC and stands at 12:00 UTC from the tenth
    interaction on. *)
Example late_env : StoreEnv := {|
  store_platform := digest_env;
  utc_clock := fun n => if (n <? 10)%nat then 1784367000000000 else 1784376000000000;
  stmt_ok := fun _ => true;
  database_bytes := fun _ => 0;
  integrity_key := "key"
|}.

Definition at_noon (w : World) : World :=
  {| committed := committed w; working := working w; in_tx := in_tx w; ticks := 10 |}.

(** A rule can outlive its authorised expiry: created at 09:30 UTC to end at 20:00
    +10:00, which is 10:00 UTC, it still matches at 12:00 UTC, because the expiry is
    compared with the clock as text. *)
Theorem suppression_outlives_expiry :
  let created := create (H := late_env) default_config "" ten_hours_ahead false fresh_world in
  let noon := at_noon created.2 in
  created.1 = Ok "rule-1"
  /\ parse_expiry (rq_expires_at ten_hours_ahead) = Ok 1784368800000000
  /\ @utc_clock late_env (ticks noon) = 1784376000000000
  /\ (matching_rule (H := late_env) (sample_event "event-1" "login_failure" "high" []) noon).1 = Ok "rule-1".
Proof. cbn zeta. split; [|split; [|split]]; by vm_compute. Qed.

Lemma create_sound_witness :
  let w' := (create (H := late_env) default_config "" ten_hours_ahead false fresh_world).2 in
  request_sound default_config ten_hours_ahead false 1784367000000000
  /\ "rule-1" ∉ su_rule_id <$> t_suppressions empty_tables
  /\ t_suppressions (committed w') = t_suppressions empty_tables ++ [suppression_of ten_hours_ahead "rule-1"].
Proof.
  intros w'. apply (@create_sound late_env default_config "" ten_hours_ahead false fresh_world w' "rule-1").
  by vm_compute.
Defined.

Lemma matching_rule_sound_witness :
  let w := at_noon (create (H := late_env) default_config "" ten_hours_ahead false fresh_world).2 in
  let event := sample_event "event-1" "login_failure" "high" [] in
  protected event = false /\ exists r, r ∈ t_suppressions (working w) /\ su_rule_id r = "rule-1"
    /\ su_revoked_at r = ""
    /\ text_lt (isoformat_utc (@utc_clock late_env (ticks w))) (su_expires_at r) = true
    /\ Forall (fun kv => event_text event kv.1 = kv.2) (su_conditions r).
Proof.
  intros w event. apply (@matching_rule_sound late_env event w (matching_rule (H := late_env) event w).2 "rule-1").
  - by vm_compute.
  - done.
Defined.
