(* ===== verification/AlertPipeline.v ===== *)
(** The boundary in front of the event store: [ResilientAlertPipeline] of
    [alerts/resilient_pipeline.py], from the built event on: clock rollback, source
    floods, suppression, periodic summaries, the bounded fallback. *)

From S2P Require Import Prelude PyStr PyFloat PyDict PyJson PyTime AlertConfig AlertModels Fingerprint AlertDb.
From S2P Require Import AlertStore AlertIntegrity AlertStoreOps AlertStoreFacts Suppression.

(** What the pipeline meets besides the database: the clocks of [time], the host
    name, and whether the fallback file can be written. *)
Class PipelineEnv := {
  #[global] pipeline_store :: StoreEnv;
  wall_time : nat -> float;
  mono_time : nat -> float;
  hostname : string;
  fallback_io_ok : nat -> bool
}.

Definition receipt : Type := list (string * pyval).

Record Pipeline := {
  p_world : World;
  p_last_wall : float;
  p_last_mono : float;
  p_source_windows : list (string * (float * Z * bool));
  p_last_summary_mono : list (string * float);
  p_emergency_buffer : list receipt;
  p_store_failed : bool;
  p_fallback : option string       (** content of the fallback file, if it exists *)
}.

Definition set_world w p := {| p_world := w; p_last_wall := p_last_wall p; p_last_mono := p_last_mono p;
  p_source_windows := p_source_windows p; p_last_summary_mono := p_last_summary_mono p;
  p_emergency_buffer := p_emergency_buffer p; p_store_failed := p_store_failed p; p_fallback := p_fallback p |}.
Definition set_clocks wall mono p := {| p_world := p_world p; p_last_wall := wall; p_last_mono := mono;
  p_source_windows := p_source_windows p; p_last_summary_mono := p_last_summary_mono p;
  p_emergency_buffer := p_emergency_buffer p; p_store_failed := p_store_failed p; p_fallback := p_fallback p |}.
Definition set_windows x p := {| p_world := p_world p; p_last_wall := p_last_wall p; p_last_mono := p_last_mono p;
  p_source_windows := x; p_last_summary_mono := p_last_summary_mono p;
  p_emergency_buffer := p_emergency_buffer p; p_store_failed := p_store_failed p; p_fallback := p_fallback p |}.
Definition set_summaries x p := {| p_world := p_world p; p_last_wall := p_last_wall p; p_last_mono := p_last_mono p;
  p_source_windows := p_source_windows p; p_last_summary_mono := x;
  p_emergency_buffer := p_emergency_buffer p; p_store_failed := p_store_failed p; p_fallback := p_fallback p |}.
Definition set_fallback buffer failed file p := {| p_world := p_world p; p_last_wall := p_last_wall p;
  p_last_mono := p_last_mono p; p_source_windows := p_source_windows p;
  p_last_summary_mono := p_last_summary_mono p;
  p_emergency_buffer := buffer; p_store_failed := failed; p_fallback := file |}.

(** A deque with [maxlen]: the newest entries stay. *)
Definition deque_append {A} (maxlen : Z) (x : A) (q : list A) : list A := last_n (Z.to_nat maxlen) (q ++ [x]).

(** [type(e).__name__] *)
Definition exn_name (e : exn) : string :=
  match e with
  | ValueError _ => "ValueError" | PermissionError _ => "PermissionError" | KeyError _ => "KeyError"
  | LookupError _ => "LookupError"
  | TypeError _ => "TypeError" | EventValidationError _ => "EventValidationError"
  | OperationalError _ => "OperationalError" | IntegrityError _ => "IntegrityError"
  | OSError _ => "OSError" | AttributeError _ => "AttributeError" | ZlibError _ => "error"
  | RuntimeError _ => "RuntimeError" | OverflowError _ => "OverflowError"
  | ZeroDivisionError _ => "ZeroDivisionError"
  | LicenseVerificationError _ _ => "LicenseVerificationError"
  end.

(** [except (sqlite3.Error, OSError)] *)
Definition is_store_error (e : exn) : bool :=
  match e with OperationalError _ | IntegrityError _ | PermissionError _ | OSError _ => true | _ => false end.

(** The event with the fields the pipeline itself writes. *)
Definition rebuild (source_type host_id hostname : string) (attributes : list (string * pyval))
    (fp material disposition rule_id reason : string) (e : SecurityEvent) : SecurityEvent := {|
  ev_event_id := ev_event_id e; ev_event_type := ev_event_type e; ev_rule_id := ev_rule_id e;
  ev_severity := ev_severity e; ev_confidence := ev_confidence e; ev_timestamp_utc := ev_timestamp_utc e;
  ev_monotonic_timestamp := ev_monotonic_timestamp e;
  ev_ingestion_timestamp_utc := ev_ingestion_timestamp_utc e; ev_source_id := ev_source_id e;
  ev_source_type := source_type; ev_schema_version := ev_schema_version e;
  ev_rule_version := ev_rule_version e; ev_sequence_number := ev_sequence_number e;
  ev_source_process := ev_source_process e; ev_source_pid := ev_source_pid e; ev_host_id := host_id;
  ev_hostname := hostname; ev_user_uid := ev_user_uid e; ev_user_name := ev_user_name e;
  ev_process_path := ev_process_path e; ev_process_signing_identifier := ev_process_signing_identifier e;
  ev_process_team_identifier := ev_process_team_identifier e; ev_process_hash := ev_process_hash e;
  ev_parent_process := ev_parent_process e; ev_remote_address := ev_remote_address e;
  ev_remote_port := ev_remote_port e; ev_object_path := ev_object_path e; ev_action := ev_action e;
  ev_outcome := ev_outcome e; ev_attributes := attributes; ev_mitre_attack := ev_mitre_attack e;
  ev_cve_ids := ev_cve_ids e; ev_threat_tags := ev_threat_tags e; ev_correlation_id := ev_correlation_id e;
  ev_incident_id := ev_incident_id e; ev_fingerprint := fp; ev_material_digest := material;
  ev_notification_disposition := disposition; ev_suppression_rule_id := rule_id;
  ev_suppression_reason := reason; ev_previous_integrity_hash := ev_previous_integrity_hash e;
  ev_event_integrity_hash := ev_event_integrity_hash e |}.

Definition set_fingerprints (fp material : string) (e : SecurityEvent) : SecurityEvent :=
  rebuild (ev_source_type e) (ev_host_id e) (ev_hostname e) (ev_attributes e) fp material
    (ev_notification_disposition e) (ev_suppression_rule_id e) (ev_suppression_reason e) e.

(** The matching rule is recorded, and what follows when there is one. *)
Definition set_suppression (rule_id : string) (e : SecurityEvent) : SecurityEvent :=
  rebuild (ev_source_type e) (ev_host_id e) (ev_hostname e) (ev_attributes e) (ev_fingerprint e)
    (ev_material_digest e)
    (if truthy rule_id then "suppressed" else ev_notification_disposition e) rule_id
    (if truthy rule_id then "authorized exact-match suppression; evidence retained" else ev_suppression_reason e) e.

Section PipelineDef.
Context `{PipelineEnv} (config : AlertingConfig) (contracts : registry).

(** [ResilientAlertPipeline.__init__] on an opened database *)
Definition new_pipeline (w : World) : Pipeline := {|
  p_world := w; p_last_wall := wall_time (ticks w); p_last_mono := mono_time (ticks w);
  p_source_windows := []; p_last_summary_mono := []; p_emergency_buffer := []; p_store_failed := false;
  p_fallback := None |}.

(** A call of the store: its effect survives when it raises. *)
Definition in_store {A} (m : M World A) : M Pipeline A := fun p =>
  let (r, w) := m (p_world p) in (r, set_world w p).

Definition read_env {A} (f : nat -> A) : M Pipeline A := in_store (fun w => (Ok (f (ticks w)), tick w)).

Definition remember_summary (fp : string) (now_mono : float) : M Pipeline unit :=
  modify_st (fun p => set_summaries (lru_put (maximum_active_fingerprints config) fp now_mono (p_last_summary_mono p)) p).

(** The file after one more receipt. *)
Definition append_fallback (encoded : string) (file : option string) : option string :=
  match file with
  | Some content =>
      if fallback_audit_maximum_bytes config <? utf8_size content + utf8_size encoded
      then Some encoded else Some (content +:+ encoded)
  | None => Some encoded
  end.

(** [event] is the event as the store's validation left it. *)
Definition fallback_failure (event : SecurityEvent) (error : exn) : M Pipeline IngestDecision :=
  modify_st (fun p => set_fallback (p_emergency_buffer p) true (p_fallback p) p);;
  canonical ← lift_res (canonical_json event);
  recorded_at ← in_store utc_now;
  let receipt : receipt := [
    ("event_id_digest", VStr (sha256 (ev_event_id event)));
    ("event_type", VStr (sprefix 128 (ev_event_type event)));
    ("priority", VInt (priority_value (priority event)));
    ("event_digest", VStr (sha256 canonical)); ("error_type", VStr (exn_name error));
    ("recorded_at", VStr recorded_at)] in
  modify_st (fun p => set_fallback (deque_append (emergency_buffer_capacity config) receipt (p_emergency_buffer p))
    (p_store_failed p) (p_fallback p) p);;
  encoded ← lift_res (json_dumps compact_style (VDict receipt));
  io_ok ← read_env fallback_io_ok;
  modify_st (fun p => if (io_ok : bool)
    then set_fallback (p_emergency_buffer p) (p_store_failed p)
           (append_fallback (encoded +:+ String (Ascii.ascii_of_nat 10) "") (p_fallback p)) p
    else p);;
  mret (short_decision false (ev_fingerprint event) "logging_failure_emergency_buffer" "ACTIVE" 1 (protected event)).

(** [except (sqlite3.Error, OSError) as exc: return self._fallback_failure(...)];
    the store's validation has replaced the attributes in place by then. *)
Definition validated_or_same (event : SecurityEvent) : SecurityEvent :=
  match validate_for_store config event with Ok event' => event' | Raise _ => event end.

Definition fallback_on_store_error {A} (event : SecurityEvent) (k : IngestDecision -> A) (e : exn) : M Pipeline A :=
  if is_store_error e then d ← fallback_failure (validated_or_same event) e; mret (k d) else raise_st e.

Definition persist_meta_event (event_type trigger_id severity : string) (attributes : list (string * pyval))
    : M Pipeline unit :=
  timestamp ← in_store utc_now;
  mono ← read_env mono_time;
  ingestion ← in_store utc_now;
  let base := new_event ("meta-" +:+ event_type +:+ "-" +:+ trigger_id) event_type ("MSAA-" +:+ upper event_type)
    severity "high" timestamp mono ingestion "msaa-alert-pipeline" in
  let meta := rebuild "internal_health" hostname hostname attributes "" "" "pending" "" "" base in
  '(fp, material) ← lift_res (calculate_fingerprints meta (contract_for contracts meta));
  let meta := set_fingerprints fp material meta in
  try_except (in_store (ingest config meta);; mret tt) (fallback_on_store_error meta (fun _ => tt)).

(** The window of a source after one more event: its start, count, report flag. *)
Definition next_window (entry : option (float * Z * bool)) (now_mono : float) : float * Z * bool :=
  let '(started, count, reported) := default (now_mono, 0, false) entry in
  if fgeb (fsub now_mono started) fone then (now_mono, 1, false) else (started, count + 1, reported).

Definition track_source_pressure (event : SecurityEvent) (now_mono : float) : M Pipeline unit :=
  windows ← gets p_source_windows;
  let '(started, count, reported) := next_window (dget (ev_source_id event) windows) now_mono in
  let windows' := ddel (ev_source_id event) windows ++ [(ev_source_id event, (started, count, reported))] in
  modify_st (set_windows (evict_oldest (length windows') (maximum_source_windows config) windows' 0).1);;
  if (source_rate_per_second config <? count) && negb reported
     && negb (String.eqb (ev_event_type event) "alert_flood_detected") then
    modify_st (fun p => set_windows (dset (ev_source_id event) (started, count, true) (p_source_windows p)) p);;
    persist_meta_event "alert_flood_detected" (ev_event_id event) "critical"
      [("source_digest", VStr (sha256 (ev_source_id event))); ("window_count", VInt count);
       ("window_seconds", VInt 1)];;
    in_store (metric "flood_detections" 1);;
    in_store commit
  else mret tt.

Definition as_periodic_summary (d : IngestDecision) : IngestDecision := {|
  accepted := accepted d; fingerprint := fingerprint d; disposition := "periodic_summary";
  lifecycle := lifecycle d; occurrence_count := occurrence_count d; notify := true; summary := true;
  material_change := material_change d; severity_escalation := severity_escalation d;
  overflowed := overflowed d |}.

(** The body of the [try] statement. *)
Definition ingest_and_summarise (event : SecurityEvent) (now_mono : float) : M Pipeline IngestDecision :=
  decision ← in_store (ingest config event);
  failed ← gets p_store_failed;
  buffered ← gets (fun p => zlen (p_emergency_buffer p));
  when_st failed (
    in_store (audit "event_store_recovered" "pipeline" "durable writes resumed" (ev_event_id event)
      [("buffered_receipts", VInt buffered)]);;
    in_store commit;;
    modify_st (fun p => set_fallback (p_emergency_buffer p) false (p_fallback p) p));;
  last_summary ← gets (fun p => dget_default now_mono (fingerprint decision) (p_last_summary_mono p));
  if accepted decision && negb (notify decision)
     && fgeb (fsub now_mono last_summary) (fexact (summary_interval_seconds config)) then
    queued ← in_store (queue_periodic_summary config event (fingerprint decision));
    remember_summary (fingerprint decision) now_mono;;
    mret (if (queued : bool) then as_periodic_summary decision else decision)
  else
    when_st (notify decision) (remember_summary (fingerprint decision) now_mono);;
    mret decision.

(** The [try] statement with its handlers. *)
Definition guarded_ingest (security_event : SecurityEvent) (now_mono : float) : M Pipeline IngestDecision :=
  try_except (ingest_and_summarise security_event now_mono)
    (fun e => match e with
      | EventValidationError _ =>
          in_store (metric "events_rejected" 1);;
          in_store (audit "event_rejected" "pipeline" "schema or size validation failed"
            (sha256 (ev_event_id security_event))
            [("source_digest", VStr (sha256 (ev_source_id security_event)))]);;
          in_store commit;;
          raise_st e
      | _ => fallback_on_store_error security_event id e
      end).

(** [security_event] is the event [from_background_event] built. *)
Definition ingest_background_event (security_event : SecurityEvent) : M Pipeline IngestDecision :=
  now_wall ← read_env wall_time;
  now_mono ← read_env mono_time;
  last_wall ← gets p_last_wall;
  last_mono ← gets p_last_mono;
  let wall_delta := fsub now_wall last_wall in
  let mono_delta := fsub now_mono last_mono in
  modify_st (set_clocks now_wall now_mono);;
  when_st (fltb (fsub wall_delta mono_delta) (fexact (-300)))
    (persist_meta_event "system_time_rollback" (ev_event_id security_event) "critical"
      [("wall_delta_seconds", VFloat wall_delta); ("monotonic_delta_seconds", VFloat mono_delta)]);;
  track_source_pressure security_event now_mono;;
  rule_id ← in_store (matching_rule security_event);
  guarded_ingest (set_suppression rule_id security_event) now_mono.

(** [degraded_status]: failed, buffered receipts, their capacity. *)
Definition degraded_status (p : Pipeline) : bool * Z * Z :=
  (p_store_failed p, zlen (p_emergency_buffer p), emergency_buffer_capacity config).
End PipelineDef.

(** What the alert pipeline guarantees: bounded state whatever fails, and no event
    lost without a receipt once the store has been asked to keep it. *)

(** ** Bounds *)

Record pipeline_bounded (config : AlertingConfig) (p : Pipeline) : Prop := {
  bounded_windows : zlen (p_source_windows p) <= maximum_source_windows config /\ dwf (p_source_windows p);
  bounded_summaries : zlen (p_last_summary_mono p) <= maximum_active_fingerprints config
    /\ dwf (p_last_summary_mono p);
  bounded_buffer : zlen (p_emergency_buffer p) <= emergency_buffer_capacity config
}.

Section Bounds.
Context `{PipelineEnv} (config : AlertingConfig) (contracts : registry).
Context (Hconfig : config_ok config).
Notation bounded := (pipeline_bounded config).

Lemma deque_append_bound {A} n (x : A) q : 0 <= n -> zlen (deque_append n x q) <= n.
Proof. intros Hn. unfold deque_append, zlen. pose proof (length_last_n (Z.to_nat n) (q ++ [x])). lia. Qed.

Lemma config_positive :
  1 <= maximum_source_windows config /\ 1 <= maximum_active_fingerprints config
  /\ 1 <= emergency_buffer_capacity config.
Proof. destruct Hconfig as [_ Hpos _ _ _ _]. rewrite !Forall_cons in Hpos. repeat split; lia. Qed.

Lemma preserves_in_store {A} (m : M World A) (I : Pipeline -> Prop) :
  (forall w p, I p -> I (set_world w p)) -> preserves I (in_store m).
Proof. intros HI p Hp. unfold in_store. destruct (m (p_world p)) as [[a|e] w]; by apply HI. Qed.

Lemma bounded_in_store {A} (m : M World A) : preserves bounded (in_store m).
Proof. apply preserves_in_store. by intros w p [? ? ?]. Qed.

Lemma bounded_read_env {A} (f : nat -> A) : preserves bounded (read_env f).
Proof. apply bounded_in_store. Qed.

Hint Resolve bounded_in_store bounded_read_env : msaa.

Lemma bounded_remember fp now_mono : preserves bounded (remember_summary config fp now_mono).
Proof.
  apply preserves_modify. intros p [Hw [_ Hs] Hb]. split; [exact Hw| |exact Hb]. simpl.
  destruct config_positive as (_ & ? & _). split; [apply lru_put_bound; lia|by apply lru_put_dwf].
Qed.

Lemma bounded_modify_fallback f file :
  preserves bounded (modify_st (fun p => set_fallback (p_emergency_buffer p) (f p) (file p) p)).
Proof. apply preserves_modify. by intros p [? ? ?]. Qed.

Lemma bounded_fallback_failure event e : preserves bounded (fallback_failure config event e).
Proof.
  unfold fallback_failure. apply preserves_bind; [apply preserves_modify; by intros p [? ? ?]|]. intros _.
  apply preserves_bind; [auto with msaa|]. intros canonical.
  apply preserves_bind; [auto with msaa|]. intros at_. cbn zeta.
  apply preserves_bind.
  { apply preserves_modify. intros p [Hw Hs _]. split; [exact Hw|exact Hs|]. simpl.
    apply deque_append_bound. destruct config_positive; lia. }
  intros _. apply preserves_bind; [auto with msaa|]. intros encoded.
  apply preserves_bind; [auto with msaa|]. intros ok. apply preserves_bind; [|auto with msaa].
  apply preserves_modify. intros p [? ? ?]. by destruct ok.
Qed.
Hint Resolve bounded_remember bounded_fallback_failure : msaa.

Lemma bounded_on_store_error {A} event (k : IngestDecision -> A) e :
  preserves bounded (fallback_on_store_error config event k e).
Proof. unfold fallback_on_store_error. case_bool; auto with msaa. Qed.
Hint Resolve bounded_on_store_error : msaa.

Lemma bounded_meta event_type trigger severity attributes :
  preserves bounded (persist_meta_event config contracts event_type trigger severity attributes).
Proof.
  unfold persist_meta_event. do 3 (apply preserves_bind; [auto with msaa|]; intros ?).
  apply preserves_bind; [auto with msaa|]. intros [fp material]. auto with msaa.
Qed.
Hint Resolve bounded_meta : msaa.

(** The window just stored is the newest one, so eviction keeps it. *)
Lemma evict_keeps_newest {V} (k : string) (v : V) d : dwf d ->
  let d' := ddel k d ++ [(k, v)] in
  dwf (evict_oldest (length d') (maximum_source_windows config) d' 0).1
  /\ zlen (evict_oldest (length d') (maximum_source_windows config) d' 0).1 <= maximum_source_windows config
  /\ k ∈ keys (evict_oldest (length d') (maximum_source_windows config) d' 0).1.
Proof.
  intros Hd d'. destruct config_positive as (Hpos & _ & _).
  assert (Hd' : dwf d').
  { subst d'. rewrite <- dset_new; [by apply dwf_dset, dwf_ddel|].
    intros Hin. by apply keys_ddel_subset in Hin as [_ ?]. }
  split; [by apply evict_oldest_dwf|]. split; [apply evict_oldest_bound; [done|lia]|].
  eapply dget_Some_keys, evict_oldest_last; [done|done|done|]. subst d'. by rewrite last_snoc.
Qed.

Lemma bounded_track event now_mono : preserves bounded (track_source_pressure config contracts event now_mono).
Proof.
  unfold track_source_pressure. intros p Hp.
  change ((gets p_source_windows ≫= ?k) p) with (k (p_source_windows p) p).
  cbn -[next_window evict_oldest persist_meta_event in_store]. unfold mbind at 1, M_bind at 1, gets.
  destruct (next_window _ _) as [[started count] reported].
  destruct Hp as [[Hw Hwf] Hs Hb].
  destruct (evict_keeps_newest (ev_source_id event) (started, count, reported) (p_source_windows p) Hwf)
    as (H1 & H2 & H3).
  set (d' := (evict_oldest _ _ _ _).1) in *.
  assert (Hp' : bounded (set_windows d' p)) by by split.
  unfold mbind at 1, M_bind at 1, modify_st at 1. destruct (_ && _); [|exact Hp'].
  assert (Hp'' : bounded (set_windows (dset (ev_source_id event) (started, count, true) d') p)).
  { split; [|done|done]. simpl. split; [|by apply dwf_dset].
    rewrite zlen_dset. destruct (decide _); [lia|done]. }
  unfold mbind at 1, M_bind at 1, modify_st at 1.
  apply preserves_bind; [auto with msaa|intros _; auto with msaa|exact Hp''].
Qed.
Hint Resolve bounded_track : msaa.

Lemma bounded_ingest_and_summarise event now_mono :
  preserves bounded (ingest_and_summarise config event now_mono).
Proof.
  unfold ingest_and_summarise. do 3 (apply preserves_bind; [auto with msaa|]; intros ?).
  apply preserves_bind.
  { apply preserves_when. do 2 (apply preserves_bind; [auto with msaa|]; intros ?).
    apply preserves_modify. by intros p [? ? ?]. }
  intros _. apply preserves_bind; [auto with msaa|]. intros last.
  destruct (_ && _); auto with msaa.
Qed.
End Bounds.

(** The pipeline's memory is bounded under a validated configuration: whatever is
    ingested and whatever fails, the source windows, the summary times and the
    emergency buffer stay within their configured sizes. *)
Theorem pipeline_stays_bounded `{PipelineEnv} (config : AlertingConfig) (contracts : registry)
    (event : SecurityEvent) (p : Pipeline) :
  config_ok config -> pipeline_bounded config p ->
  pipeline_bounded config (ingest_background_event config contracts event p).2.
Proof.
  intros Hconfig Hp.
  assert (Hpres : preserves (pipeline_bounded config) (ingest_background_event config contracts event)).
  { unfold ingest_background_event.
    do 4 (apply preserves_bind; [auto using bounded_read_env with msaa|]; intros ?). cbn zeta.
    apply preserves_bind; [apply preserves_modify; by intros q [? ? ?]|]. intros _.
    apply preserves_bind; [by apply preserves_when, bounded_meta|]. intros _.
    apply preserves_bind; [by apply bounded_track|]. intros _.
    apply preserves_bind; [apply bounded_in_store|]. intros rule_id. unfold guarded_ingest.
    apply preserves_try; [by apply bounded_ingest_and_summarise|]. intros e.
    destruct e; try by apply bounded_on_store_error.
    do 3 (apply preserves_bind; [apply bounded_in_store|]; intros _). auto with msaa. }
  specialize (Hpres p Hp). by destruct (ingest_background_event _ _ _ _) as [[d|e] p'].
Qed.

(** A concrete pipeline: the host's clocks stand still, statements as [faults]. *)
Definition pipe_env (faults : nat -> bool) : PipelineEnv := {|
  pipeline_store := demo_env faults;
  wall_time := fun _ => float_of_Z 1000;
  mono_time := fun _ => float_of_Z 50;
  hostname := "host";
  fallback_io_ok := fun _ => true
|}.

Definition new_demo_pipeline (faults : nat -> bool) : Pipeline := new_pipeline (H := pipe_env faults) fresh_world.

Lemma pipeline_stays_bounded_witness :
  pipeline_bounded default_config
    (ingest_background_event (H := pipe_env no_faults) default_config [] (storm_event "event-1")
       (new_demo_pipeline no_faults)).2.
Proof.
  apply (@pipeline_stays_bounded (pipe_env no_faults) default_config [] (storm_event "event-1")
    (new_demo_pipeline no_faults)).
  - exact default_config_ok.
  - split; [split|split|]; first [by vm_compute | by apply NoDup_nil_2].
Defined.

(** ** No event lost in a store failure *)

(** Code that never raises what the fallback is there for. *)
Definition pure_errors {A} (r : res A) : Prop := forall e, r = Raise e -> is_store_error e = false.

Lemma pure_ok {A} (a : A) : pure_errors (Ok a).
Proof. by intros e. Qed.

Lemma pure_raise {A} e : is_store_error e = false -> pure_errors (Raise (A := A) e).
Proof. by intros He e' [= <-]. Qed.

Lemma pure_bind {A B} (m : res A) (k : A -> res B) :
  pure_errors m -> (forall a, pure_errors (k a)) -> pure_errors (m ≫= k).
Proof. intros Hm Hk. destruct m as [a|e]; cbn; [apply Hk|]. intros e' [= <-]. by apply Hm. Qed.

Lemma pure_raise_if c e : is_store_error e = false -> pure_errors (raise_if c e).
Proof. intros He. destruct c; [by apply pure_raise|apply pure_ok]. Qed.

Lemma pure_raise_first {A} (bad : A -> bool) err (l : list A) :
  (forall x, is_store_error (err x) = false) -> pure_errors (raise_first bad err l).
Proof.
  intros He. induction l as [|x l IH]; simpl; [apply pure_ok|]. destruct (bad x); [by apply pure_raise|done].
Qed.

Lemma pure_res_map {A B} (f : A -> res B) l : Forall (fun x => pure_errors (f x)) l -> pure_errors (res_map f l).
Proof.
  induction 1 as [|x l Hx HF IH]; simpl; [apply pure_ok|].
  apply pure_bind; [done|]. intros y. apply pure_bind; [done|]. intros ys. apply pure_ok.
Qed.

Lemma redact_pure md mi ms depth v : pure_errors (redact md mi ms depth v).
Proof.
  revert depth. induction v as [|b|z|f|s|s|l IH|l IH|d IH|t] using pyval_ind'; intros depth; simpl;
    destruct (_ <? _); try (by apply pure_raise); try apply pure_ok.
  1,2: destruct (_ <? _); [by apply pure_raise|]; apply pure_bind; [|intros ys; apply pure_ok];
       apply pure_res_map; eapply Forall_impl; [exact IH|auto].
  destruct (_ <? _); [by apply pure_raise|]. apply pure_bind; [|intros ys; apply pure_ok].
  generalize (@nil (string * pyval)). induction IH as [|kv d Hv _ IHd]; intros acc; [apply pure_ok|].
  simpl. apply pure_bind; [|intros v; apply IHd]. destruct (sensitive_key _); [apply pure_ok|apply Hv].
Qed.

Lemma json_dumps_pure `{PlatformEnv} st v : pure_errors (json_dumps st v).
Proof.
  induction v as [|b|z|f|s|s|l IH|l IH|d IH|t] using pyval_ind'; simpl; try apply pure_ok; try by apply pure_raise.
  1,2: apply pure_bind; [by apply pure_res_map|intros ys; apply pure_ok].
  apply pure_bind; [|intros ys; apply pure_ok]. apply pure_res_map. eapply Forall_impl; [exact IH|].
  intros kv Hkv. apply pure_bind; [exact Hkv|]. intros y. apply pure_ok.
Qed.

Lemma validate_pure `{StoreEnv} config event : pure_errors (validate_for_store config event).
Proof.
  unfold validate_for_store, event_validate.
  repeat (apply pure_bind; [first [by apply pure_raise_if | apply pure_raise_first; by intros ?]|]; intros ?).
  apply pure_bind; [apply redact_pure|]. intros attributes. cbn zeta.
  apply pure_bind; [apply json_dumps_pure|]. intros encoded.
  apply pure_bind; [by apply pure_raise_if|]. intros ?. apply pure_ok.
Qed.

Lemma validated_canonical `{StoreEnv} config event event' :
  validate_for_store config event = Ok event' -> exists canonical, canonical_json event' = Ok canonical.
Proof.
  intros Hval. pose proof (proj1 (event_validate_cases _ _ _ _ _ _) Hval) as (_ & attrs & enc & _ & _ & Hc & _).
  by exists enc.
Qed.

(** The receipt of an event in a pipeline that lost its store. *)
Definition receipt_left `{PipelineEnv} (event : SecurityEvent) (p : Pipeline) : Prop :=
  p_store_failed p = true
  /\ exists r, last (p_emergency_buffer p) = Some r
       /\ dget "event_id_digest" r = Some (VStr (sha256 (ev_event_id event))).

Lemma last_deque_append {A} n (x : A) q : 1 <= n -> last (deque_append n x q) = Some x.
Proof.
  intros Hn. unfold deque_append, last_n. rewrite drop_app_le; [by rewrite last_snoc|].
  rewrite length_app. simpl. lia.
Qed.

Lemma store_error_validated `{PipelineEnv} config event now_mono p e p1 :
  ingest_and_summarise config event now_mono p = (Raise e, p1) -> is_store_error e = true ->
  exists event', validate_for_store config event = Ok event'.
Proof.
  intros Hrun He. destruct (validate_for_store config event) as [event'|e'] eqn:Hval; [by exists event'|].
  exfalso. unfold ingest_and_summarise, mbind at 1, M_bind at 1, in_store at 1, ingest in Hrun.
  unfold mbind at 1, M_bind at 1, lift_res at 1 in Hrun. rewrite Hval in Hrun. injection Hrun as <- _.
  apply validate_pure in Hval. congruence.
Qed.

Lemma fallback_failure_receipt `{PipelineEnv} config event canonical e p :
  1 <= emergency_buffer_capacity config -> canonical_json event = Ok canonical ->
  exists p', fallback_failure config event e p =
    (Ok (short_decision false (ev_fingerprint event) "logging_failure_emergency_buffer" "ACTIVE" 1 (protected event)), p')
    /\ receipt_left event p'.
Proof.
  intros Hcap Hcan. unfold fallback_failure. unfold mbind, M_bind, modify_st, lift_res, in_store, read_env, utc_now.
  rewrite Hcan. cbn -[json_dumps deque_append short_decision dget].
  destruct (json_dumps compact_style _) as [encoded|e'] eqn:Hj.
  - cbn -[deque_append short_decision dget]. eexists. split; [done|].
    destruct (fallback_io_ok _); (split; [done|]); eexists; split; [by apply last_deque_append|done|by apply last_deque_append|done].
  - pose proof (json_dumps_ok compact_style (VDict [
      ("event_id_digest", VStr (sha256 (ev_event_id event)));
      ("event_type", VStr (sprefix 128 (ev_event_type event)));
      ("priority", VInt (priority_value (priority event))); ("event_digest", VStr (sha256 canonical));
      ("error_type", VStr (exn_name e));
      ("recorded_at", VStr (isoformat_utc (utc_clock (ticks (p_world p)))))]) eq_refl) as Hok.
    cbn -[json_dumps] in Hok. by rewrite Hj in Hok.
Qed.

(** C18. Once the store has been asked to keep an event, a database failure loses
    nothing silently: the caller gets a degraded decision that still asks to notify
    for protected events, and the emergency buffer ends with the event's receipt. *)
Theorem store_failure_leaves_receipt `{PipelineEnv} (config : AlertingConfig) (event : SecurityEvent)
    (now_mono : float) (p p1 : Pipeline) (e : exn) :
  config_ok config ->
  ingest_and_summarise config event now_mono p = (Raise e, p1) -> is_store_error e = true ->
  exists d p', guarded_ingest config event now_mono p = (Ok d, p')
    /\ accepted d = false /\ notify d = protected event /\ receipt_left event p'.
Proof.
  intros Hconfig Hrun He. destruct (store_error_validated config event now_mono p e p1 Hrun He) as [event' Hval].
  destruct (validated_canonical config event event' Hval) as [canonical Hcan].
  destruct (config_positive config Hconfig) as (_ & _ & Hcap).
  destruct (fallback_failure_receipt config event' canonical e p1 Hcap Hcan) as (p' & Hfall & Hleft).
  pose proof (validated_event config event event' Hval) as Hev.
  exists (short_decision false (ev_fingerprint event') "logging_failure_emergency_buffer" "ACTIVE" 1 (protected event')), p'.
  split; [|split; [done|split]].
  - unfold guarded_ingest, try_except. rewrite Hrun.
    assert (Hcase : fallback_on_store_error config event id e p1 =
      (Ok (short_decision false (ev_fingerprint event') "logging_failure_emergency_buffer" "ACTIVE" 1 (protected event')), p')).
    { unfold fallback_on_store_error, validated_or_same. rewrite He, Hval. unfold mbind, M_bind. by rewrite Hfall. }
    destruct e; try done; exact Hcase.
  - rewrite Hev. reflexivity.
  - rewrite Hev in Hleft. exact Hleft.
Qed.

Definition all_faults : nat -> bool := fun _ => false.

Lemma store_failure_leaves_receipt_witness :
  let env := pipe_env all_faults in
  let p := new_demo_pipeline all_faults in
  let event := storm_event "event-1" in
  exists d p', guarded_ingest (H := env) default_config event (float_of_Z 50) p = (Ok d, p')
    /\ accepted d = false /\ notify d = protected event /\ receipt_left (H := env) event p'.
Proof.
  intros env p event.
  apply (@store_failure_leaves_receipt env default_config event (float_of_Z 50) p
    (ingest_and_summarise (H := env) default_config event (float_of_Z 50) p).2 (OperationalError "database statement failed")).
  - exact default_config_ok.
  - by vm_compute.
  - done.
Defined.

(** The lookup of suppression rules is outside that guard: when the database
    cannot be read, the event is refused by an exception, and neither the
    emergency buffer nor the fallback file keeps a receipt of it. *)
Theorem failed_rule_lookup_loses_event :
  let p := new_demo_pipeline all_faults in
  let run := ingest_background_event (H := pipe_env all_faults) default_config [] (storm_event "event-1") p in
  run.1 = Raise (OperationalError "database statement failed")
  /\ p_emergency_buffer run.2 = [] /\ p_fallback run.2 = None /\ p_store_failed run.2 = false.
Proof. cbn zeta. split; [|split; [|split]]; by vm_compute. Qed.
