(* ===== verification/RansomwareRisk.v ===== *)
(** Ransomware risk: the data model, the score decision and the behaviour engine
    of [anti_ransomware/models.py], [risk_engine.py], [behavior_engine.py],
    [behavior_windows.py], [sabotage.py]. *)

From S2P Require Import Prelude PyStr PyFloat PyDict PyJson.
From Stdlib Require Import Ascii.

(** ** Data *)

Inductive ProtectionMode := OBSERVE | BALANCED | HIGH_ASSURANCE | ADAPTIVE | COMPATIBILITY.

(** [ENDPOINT_SECURITY] is an alias of [ENDPOINT_SECURITY_AUTH_AND_NOTIFY]. *)
Inductive SensorMode :=
| NO_SENSOR | SAFE_SIMULATION_ONLY | DEGRADED_OBSERVATION_ONLY | EXTERNAL_TELEMETRY_OBSERVATION
| ENDPOINT_SECURITY_NOTIFY_ONLY | ENDPOINT_SECURITY_AUTH_AND_NOTIFY.

Inductive HealthState :=
| HEALTHY | DEGRADED | UNAVAILABLE | STALE | MISCONFIGURED | TAMPERED | CRASH_LOOP
| EVENT_LOSS_DETECTED | PERMISSION_REQUIRED | NOT_APPLICABLE_NO_GUI_SESSION | NOT_VERIFIED.

Record ProcessIdentity := {
  pi_pid : Z;
  pi_pid_version : Z;
  pi_executable_path : string;
  pi_executable_sha256 : string;
  pi_effective_uid : Z;
  pi_boot_session_id : string;
  pi_parent_pid : option Z;
  pi_responsible_pid : option Z;
  pi_signing_id : string;
  pi_team_id : string;
  pi_script_path : string;
  pi_script_sha256 : string;
  pi_platform_binary : bool;
  pi_notarized : option bool;
  pi_audit_token_hash : string;
  pi_executable_file_id : string;
  pi_cdhash : string;
  pi_process_start_time_ns : Z
}.

Definition stable_key (p : ProcessIdentity) : string :=
  pi_boot_session_id p +:+ ":" +:+ str_of_Z (pi_pid p) +:+ ":" +:+ str_of_Z (pi_pid_version p) +:+ ":"
  +:+ str_of_Z (pi_effective_uid p) +:+ ":" +:+ pi_executable_sha256 p +:+ ":" +:+ pi_script_sha256 p.

(** The fields of [required], compared one by one. *)
Definition matches_exact (p q : ProcessIdentity) : bool :=
  (pi_pid p =? pi_pid q) && (pi_pid_version p =? pi_pid_version q)
  && (pi_effective_uid p =? pi_effective_uid q)
  && String.eqb (pi_boot_session_id p) (pi_boot_session_id q)
  && String.eqb (pi_executable_path p) (pi_executable_path q)
  && String.eqb (pi_executable_sha256 p) (pi_executable_sha256 q)
  && String.eqb (pi_script_path p) (pi_script_path q)
  && String.eqb (pi_script_sha256 p) (pi_script_sha256 q)
  && String.eqb (pi_audit_token_hash p) (pi_audit_token_hash q)
  && String.eqb (pi_executable_file_id p) (pi_executable_file_id q)
  && String.eqb (pi_cdhash p) (pi_cdhash q)
  && (pi_process_start_time_ns p =? pi_process_start_time_ns q).

Record FileStatistics := {
  fs_size : Z;
  fs_entropy : float;
  fs_chi_square : float;
  fs_monte_carlo_pi_error : float;
  fs_base64_ratio : float;
  fs_recognized_image : bool;
  fs_gzip_header : bool;
  fs_bytes_sampled : Z
}.

Record FileMutation := {
  fm_event_id : string;
  fm_timestamp : float;
  fm_process : ProcessIdentity;
  fm_path_token : string;
  fm_operation : string;
  fm_statistics : FileStatistics
}.

Record DetectionSignal := {
  signal_id : string;
  weight : Z;
  rationale : string;
  evidence : list (string * pyval)
}.

Record DetectionDecision := {
  decision_id : string;
  score : Z;
  confidence : string;
  severity : string;
  recommended_response : string;
  automatic_response_eligible : bool;
  signals : list DetectionSignal;
  policy_version : string;
  ruleset_version : string
}.

(** ** [risk_engine.decide] *)

(** [fresh_id] is the [uuid4().hex] drawn for the decision. *)
Definition decide_risk (fresh_id : string) (sigs : list DetectionSignal) (critical_continuity : bool) : DetectionDecision :=
  let score := Z.max 0 (Z.min 100 (zsum weight sigs)) in
  let automatic := (85 <=? score) && negb critical_continuity in
  {| decision_id := "ar-decision-" +:+ fresh_id;
     score := score;
     confidence := if 80 <=? score then "high" else if 50 <=? score then "medium" else "low";
     severity := if 90 <=? score then "critical" else if 70 <=? score then "high"
                 else if 40 <=? score then "medium" else "low";
     recommended_response := if automatic then "pause_exact_process"
                             else if 50 <=? score then "manual_review" else "observe";
     automatic_response_eligible := automatic;
     signals := sigs; policy_version := "1.0"; ruleset_version := "1.0" |}.

(** ** [behavior_engine] *)

Inductive RiskState :=
| NORMAL | SUSPICIOUS | ELEVATED | PROBABLE | CONFIRMED_POLICY | CONTAINED | OBSERVATION_ONLY | DEGRADED_SENSOR.

#[export] Instance RiskState_eq_dec : EqDecision RiskState.
Proof. solve_decision. Defined.

Record BehaviorSignal := {
  bs_signal_id : string;
  bs_confidence : float;
  bs_weight : Z;
  bs_explanation : string;
  bs_evidence : list (string * pyval);
  bs_high_confidence : bool
}.

Record BehaviorAssessment := {
  ba_risk_state : RiskState;
  ba_score : Z;
  ba_confidence : float;
  ba_signals : list BehaviorSignal;
  ba_explanation : list string;
  ba_limitations : list string
}.

(** The ["threat_state"] of [to_dict]. *)
Definition threat_state (s : RiskState) : string :=
  match s with
  | NORMAL => "NORMAL" | SUSPICIOUS => "SUSPICIOUS" | ELEVATED => "ELEVATED" | PROBABLE => "PROBABLE"
  | CONFIRMED_POLICY => "CONFIRMED" | CONTAINED => "CONTAINED" | OBSERVATION_ONLY | DEGRADED_SENSOR => "UNKNOWN"
  end.

(** [s.split(":", 1)[0]] *)
Fixpoint family (s : string) : string :=
  match s with
  | EmptyString => EmptyString
  | String c s' => if Ascii.eqb c ":" then EmptyString else String c (family s')
  end.

Definition behavior_score (observed : list BehaviorSignal) : Z :=
  Z.min 100 (zsum (fun i => Z.max 0 (bs_weight i)) observed).

Definition is_strong (i : BehaviorSignal) : bool := bs_high_confidence i || fgeb (bs_confidence i) (flit 8 10).

Definition strong_count (observed : list BehaviorSignal) : Z := zcount is_strong observed.

Definition independent_count (observed : list BehaviorSignal) : Z :=
  Z.of_nat (size (distinct (fun i => family (bs_signal_id i)) observed)).

Definition mean_confidence (observed : list BehaviorSignal) : float :=
  match observed with
  | [] => fzero
  | _ => fround_digits 3 (fdiv (foldl (fun acc i => fadd acc (bs_confidence i)) fzero observed)
                               (fexact (zlen observed)))
  end.

Definition base_state (sensor_available permissions_available : bool) (observed : list BehaviorSignal)
    : RiskState * list string :=
  let score := behavior_score observed in
  let strong := strong_count observed in
  let independent := independent_count observed in
  if negb sensor_available then (DEGRADED_SENSOR, ["Primary sensor unavailable; conclusions are limited."])
  else if negb permissions_available then (OBSERVATION_ONLY, ["Required macOS permissions are unavailable."])
  else if (90 <=? score) && (3 <=? strong) && (3 <=? independent) then (CONFIRMED_POLICY, [])
  else if (70 <=? score) && (2 <=? strong) && (2 <=? independent) then (PROBABLE, [])
  else if (45 <=? score) && (2 <=? independent) then (ELEVATED, [])
  else if (20 <=? score) || (0 <? zlen observed) then (SUSPICIOUS, [])
  else (NORMAL, []).

Definition contain (containment_applied : bool) (s : RiskState) : RiskState :=
  if containment_applied && (bool_decide (s = PROBABLE) || bool_decide (s = CONFIRMED_POLICY)) then CONTAINED else s.

Definition evaluate (observed : list BehaviorSignal) (sensor_available permissions_available containment_applied : bool)
    : BehaviorAssessment :=
  let '(state, limits) := base_state sensor_available permissions_available observed in
  {| ba_risk_state := contain containment_applied state; ba_score := behavior_score observed;
     ba_confidence := mean_confidence observed; ba_signals := observed;
     ba_explanation := bs_explanation <$> observed; ba_limitations := limits |}.

(** ** [CompatibilityBurstWindow] *)

Record WindowResult := {
  triggered : bool;
  qualifying_count : Z;
  window_seconds : float;
  process_key : string
}.

Definition burst_windows : Type := list (string * list float).

Definition record_burst (threshold : Z) (seconds : float) (mutation : FileMutation) (qualifies : bool)
    (windows : burst_windows) : WindowResult * burst_windows :=
  let key := stable_key (fm_process mutation) in
  let cutoff := fsub (fm_timestamp mutation) seconds in
  let events := drop_while (fun t => fltb t cutoff) (dget_default [] key windows) in
  let events := if qualifies then events ++ [fm_timestamp mutation] else events in
  ({| triggered := threshold <=? zlen events; qualifying_count := zlen events;
      window_seconds := seconds; process_key := key |},
   dset key events windows).

(** ** [sabotage_signals] *)

Record CommandObservation := {
  executable : string;
  arguments : list string;
  target : string;
  approved_maintenance : bool
}.

Definition SNAPSHOT_DELETE : list (string * string) :=
  [("tmutil", "deletelocalsnapshots"); ("diskutil", "apfs"); ("mount_apfs", "-s")].
Definition SERVICE_IMPAIR : list string := ["bootout"; "unload"; "disable"; "remove"].

(** [path.rsplit("/", 1)[-1]] *)
Fixpoint basename_aux (s acc : string) : string :=
  match s with
  | EmptyString => acc
  | String c s' => if Ascii.eqb c "/" then basename_aux s' s' else basename_aux s' acc
  end.
Definition basename (s : string) : string := basename_aux s s.

Definition lower_risk (s : DetectionSignal) : DetectionSignal := {|
  signal_id := signal_id s; weight := Z.max 0 (weight s - 25);
  rationale := rationale s +:+ "; approved maintenance lowers but does not erase risk";
  evidence := evidence s |}.

Definition signal_if (c : bool) (id : string) (w : Z) (why : string) (ev : list (string * pyval)) : list DetectionSignal :=
  if c then [{| signal_id := id; weight := w; rationale := why; evidence := ev |}] else [].

Definition sabotage_signals (o : CommandObservation) : list DetectionSignal :=
  let joined := lower (join " " (arguments o)) in
  let name := lower (basename (executable o)) in
  let first := match arguments o with a :: _ => lower a | [] => "" end in
  let sigs :=
    signal_if (existsb (fun p => String.eqb name p.1 && String.eqb first p.2) SNAPSHOT_DELETE
               || (String.eqb name "tmutil" && contains "delete" joined))
      "snapshot_deletion_attempt" 45 "command intent may delete backup or filesystem snapshots" []
    ++ signal_if (String.eqb name "launchctl" && existsb (fun a => one_of a SERVICE_IMPAIR) (arguments o)
                  && contains "macauditagent" joined)
      "protection_service_impairment" 60 "command targets an MSAA launchd service" []
    ++ signal_if (existsb (fun t => contains t joined) ["integrity_manifest"; "anti_ransomware"; "evidence"]
                  && existsb (fun t => contains t joined) ["rm "; "unlink"; "chmod 777"; "chown"])
      "protection_or_evidence_tamper" 50
      "command intent targets protected policy, binary, or evidence state" [] in
  if approved_maintenance o then lower_risk <$> sigs else sigs.

(** ** Corroboration *)

Lemma matches_exact_refl p : matches_exact p p = true.
Proof. unfold matches_exact. by rewrite !Z.eqb_refl, !String.eqb_refl. Qed.

(** Exact matches agree on all twelve identifying fields. *)
Lemma matches_exact_fields p q : matches_exact p q = true ->
  stable_key p = stable_key q /\ pi_pid p = pi_pid q /\ pi_audit_token_hash p = pi_audit_token_hash q
  /\ pi_cdhash p = pi_cdhash q /\ pi_process_start_time_ns p = pi_process_start_time_ns q
  /\ pi_executable_path p = pi_executable_path q.
Proof.
  unfold matches_exact, stable_key. intros H. b2p.
  repeat match goal with H : String.eqb _ _ = true |- _ => apply String.eqb_eq in H end.
  repeat split; congruence.
Qed.

(** One source of evidence is never enough: signals that all belong to one family
    leave the risk at most suspicious, whatever their weights and confidence. *)
Theorem single_family_never_probable (observed : list BehaviorSignal) sensor permissions contained fam :
  (forall i, i ∈ observed -> family (bs_signal_id i) = fam) ->
  ba_risk_state (evaluate observed sensor permissions contained)
    ∈ [NORMAL; SUSPICIOUS; OBSERVATION_ONLY; DEGRADED_SENSOR].
Proof.
  intros Hfam. assert (Hind : independent_count observed <= 1).
  { unfold independent_count. assert (Hsub : distinct (fun i => family (bs_signal_id i)) observed ⊆ {[fam]}).
    { intros k (i & Hi & <-)%elem_of_distinct. rewrite (Hfam i Hi). set_solver. }
    apply subseteq_size in Hsub. rewrite size_singleton in Hsub. lia. }
  unfold evaluate, base_state.
  destruct (negb sensor); [unfold contain; simpl; rewrite andb_false_r; set_solver|].
  destruct (negb permissions); [unfold contain; simpl; rewrite andb_false_r; set_solver|].
  rewrite (proj2 (Z.leb_gt 3 (independent_count observed))), (proj2 (Z.leb_gt 2 (independent_count observed))), !andb_false_r by lia.
  destruct (_ || _); unfold contain; simpl; rewrite andb_false_r; set_solver.
Qed.

Definition strong_signal (id : string) (w : Z) : BehaviorSignal := {|
  bs_signal_id := id; bs_confidence := fone; bs_weight := w; bs_explanation := "observed"; bs_evidence := [];
  bs_high_confidence := true |}.

Lemma single_family_never_probable_witness :
  ba_risk_state (evaluate [strong_signal "entropy:a" 90; strong_signal "entropy:b" 90; strong_signal "entropy:c" 90]
    true true false) ∈ [NORMAL; SUSPICIOUS; OBSERVATION_ONLY; DEGRADED_SENSOR].
Proof.
  apply (single_family_never_probable _ true true false "entropy").
  intros i Hi. rewrite !elem_of_cons in Hi.
  destruct Hi as [->|[->|[->|Hi]]]; [by vm_compute..|by apply not_elem_of_nil in Hi].
Defined.

(** The order of alarm among the states of an available sensor. *)
Definition alarm (s : RiskState) : Z :=
  match s with
  | NORMAL => 0 | SUSPICIOUS => 1 | ELEVATED => 2 | PROBABLE => 3 | CONFIRMED_POLICY => 4 | CONTAINED => 3
  | OBSERVATION_ONLY | DEGRADED_SENSOR => 0
  end.

Lemma behavior_score_mono l k : behavior_score l <= behavior_score (l ++ k).
Proof.
  unfold behavior_score. rewrite zsum_app. apply Z.min_le_compat_l.
  assert (0 <= zsum (fun i => Z.max 0 (bs_weight i)) k); [|lia].
  apply zsum_nonneg. apply Forall_forall. intros i _. lia.
Qed.

Lemma strong_count_mono l k : strong_count l <= strong_count (l ++ k).
Proof. unfold strong_count, zcount. rewrite filter_app, zlen_app. pose proof (zlen_nonneg (filter (fun x => is_strong x = true) k)). lia. Qed.

Lemma independent_count_mono l k : independent_count l <= independent_count (l ++ k).
Proof.
  unfold independent_count. apply inj_le, subseteq_size, distinct_mono. intros x Hx. apply elem_of_app. by left.
Qed.

(** More evidence never calms the engine: adding signals never lowers the level
    of alarm, and never lowers the score. *)
Theorem more_evidence_never_calms (observed more : list BehaviorSignal) sensor permissions contained :
  alarm (ba_risk_state (evaluate observed sensor permissions contained))
    <= alarm (ba_risk_state (evaluate (observed ++ more) sensor permissions contained))
  /\ ba_score (evaluate observed sensor permissions contained)
    <= ba_score (evaluate (observed ++ more) sensor permissions contained).
Proof.
  pose proof (behavior_score_mono observed more) as Hs. pose proof (strong_count_mono observed more) as Hst.
  pose proof (independent_count_mono observed more) as Hi.
  assert (Hl : zlen observed <= zlen (observed ++ more)) by (rewrite zlen_app; pose proof (zlen_nonneg more); lia).
  unfold evaluate, base_state. destruct (negb sensor); [simpl; lia|]. destruct (negb permissions); [simpl; lia|].
  assert (Hand : forall a b a' b', (a = true -> a' = true) -> (b = true -> b' = true) ->
    a && b = true -> a' && b' = true) by (intros [] [] [] []; naive_solver).
  assert (Hle : forall k x y, x <= y -> (k <=? x) = true -> (k <=? y) = true)
    by (intros k x y Hxy Hk; b2p; apply Z.leb_le; lia).
  assert (Hsusp : (20 <=? behavior_score observed) || (0 <? zlen observed) = true ->
    (20 <=? behavior_score (observed ++ more)) || (0 <? zlen (observed ++ more)) = true).
  { rewrite !orb_true_iff, !Z.leb_le, !Z.ltb_lt. lia. }
  assert (H4 := Hand _ _ _ _ (Hand _ _ _ _ (Hle 90 _ _ Hs) (Hle 3 _ _ Hst)) (Hle 3 _ _ Hi)).
  assert (H3 := Hand _ _ _ _ (Hand _ _ _ _ (Hle 70 _ _ Hs) (Hle 2 _ _ Hst)) (Hle 2 _ _ Hi)).
  assert (H2 := Hand _ _ _ _ (Hle 45 _ _ Hs) (Hle 2 _ _ Hi)).
  clear Hand Hle. revert H4 H3 H2 Hsusp.
  generalize ((90 <=? behavior_score observed) && (3 <=? strong_count observed) && (3 <=? independent_count observed)) as a4.
  generalize ((90 <=? behavior_score (observed ++ more)) && (3 <=? strong_count (observed ++ more))
    && (3 <=? independent_count (observed ++ more))) as b4.
  generalize ((70 <=? behavior_score observed) && (2 <=? strong_count observed) && (2 <=? independent_count observed)) as a3.
  generalize ((70 <=? behavior_score (observed ++ more)) && (2 <=? strong_count (observed ++ more))
    && (2 <=? independent_count (observed ++ more))) as b3.
  generalize ((45 <=? behavior_score observed) && (2 <=? independent_count observed)) as a2.
  generalize ((45 <=? behavior_score (observed ++ more)) && (2 <=? independent_count (observed ++ more))) as b2.
  generalize ((20 <=? behavior_score observed) || (0 <? zlen observed)) as a1.
  generalize ((20 <=? behavior_score (observed ++ more)) || (0 <? zlen (observed ++ more))) as b1.
  intros b1 a1 b2 a2 b3 a3 b4 a4 H4 H3 H2 H1.
  destruct a4; [rewrite H4 by done|destruct a3; [rewrite H3 by done|destruct a2; [rewrite H2 by done|
    destruct a1; [rewrite H1 by done|]]]]; clear H4 H3 H2 H1;
    destruct b4; try destruct b3; try destruct b2; try destruct b1; destruct contained; simpl; lia.
Qed.
