(* ===== verification/AdaptiveDetector.v ===== *)
(** The adaptive ransomware detector: [anti_ransomware/adaptive_detector.py].

    Mutation events are kept per process tree in a bounded rolling window, and
    each one yields an assessment of its tree. *)

From S2P Require Import Prelude PyStr PyFloat PyDict PyJson RansomwareRisk.

Definition MODEL_VERSION : string := "msaa-adaptive-ransomware-1.0".

Record AdaptiveDetectionPolicy := {
  short_window_seconds : float;
  correlation_window_seconds : float;
  maximum_process_trees : Z;
  maximum_events_per_tree : Z;
  entropy_file_threshold : Z;
  rename_threshold : Z;
  deletion_threshold : Z;
  directory_spread_threshold : Z;
  distinct_file_threshold : Z;
  volume_spread_threshold : Z;
  minimum_rate_multiplier : float;
  write_volume_threshold : Z
}.

Definition default_policy : AdaptiveDetectionPolicy := {|
  short_window_seconds := float_of_Z 5; correlation_window_seconds := float_of_Z 30;
  maximum_process_trees := 2048; maximum_events_per_tree := 4096; entropy_file_threshold := 5;
  rename_threshold := 5; deletion_threshold := 5; directory_spread_threshold := 3;
  distinct_file_threshold := 8; volume_spread_threshold := 2; minimum_rate_multiplier := float_of_Z 4;
  write_volume_threshold := 32 * 1024 * 1024 |}.

Definition policy_validated (p : AdaptiveDetectionPolicy) : res AdaptiveDetectionPolicy :=
  raise_if (negb ((1 <=? maximum_process_trees p) && (maximum_process_trees p <=? 100000)))
    (ValueError "maximum_process_trees must be between 1 and 100000");;
  raise_if (negb ((8 <=? maximum_events_per_tree p) && (maximum_events_per_tree p <=? 100000)))
    (ValueError "maximum_events_per_tree must be between 8 and 100000");;
  raise_if (negb (fleb (fexact 1) (short_window_seconds p)
                  && fleb (short_window_seconds p) (correlation_window_seconds p)
                  && fleb (correlation_window_seconds p) (fexact 600)))
    (ValueError "correlation windows must be ordered and no longer than 600 seconds");;
  raise_if (fltb (minimum_rate_multiplier p) (fexact 1))
    (ValueError "minimum_rate_multiplier must be at least 1");;
  Ok p.

Record ProcessTrustContext := {
  signing_state : string;
  platform_binary : bool;
  notarized : option bool;
  first_seen : bool;
  executable_location : string;
  interpreter : bool;
  script_signed : option bool
}.

Definition unknown_trust : ProcessTrustContext := {|
  signing_state := "UNKNOWN"; platform_binary := false; notarized := None; first_seen := false;
  executable_location := "OTHER"; interpreter := false; script_signed := None |}.

Record AdaptiveMutationEvent := {
  am_event_id : string;
  am_monotonic_time : float;
  am_process_key : string;
  am_tree_key : string;
  am_path_token : string;
  am_directory_token : string;
  am_volume_token : string;
  am_operation : string;
  am_bytes_changed : Z;
  am_entropy_transition : bool;
  am_extension_changed : bool;
  am_renamed_over_original : bool;
  am_original_deleted : bool;
  am_canary_modified : bool;
  am_ransom_note_pattern : bool;
  am_telemetry_complete : bool;
  am_expected_events_per_30s : option float;
  am_trust : ProcessTrustContext
}.

Definition event_validated (e : AdaptiveMutationEvent) : res AdaptiveMutationEvent :=
  let bounded := [am_event_id e; am_process_key e; am_tree_key e; am_path_token e; am_directory_token e;
                  am_volume_token e; am_operation e] in
  raise_if (existsb (fun v => negb (truthy v) || (256 <? slen v)) bounded)
    (ValueError "adaptive event identifiers must be non-empty and at most 256 characters");;
  raise_if (fltb (am_monotonic_time e) (fexact 0) || (am_bytes_changed e <? 0))
    (ValueError "adaptive event numeric values must be non-negative");;
  raise_if (match am_expected_events_per_30s e with Some r => fltb r (fexact 0) | None => false end)
    (ValueError "expected event rate must be non-negative");;
  Ok e.

Record AdaptiveAssessment := {
  model_version : string;
  process_tree_key : string;
  decision : DetectionDecision;
  reason_codes : list string;
  window_evidence : list (string * pyval);
  telemetry_coverage : string;
  event_accepted : bool;
  automatic_containment_performed : bool
}.

Record Detector := {
  d_events : list (string * list AdaptiveMutationEvent);
  d_seen_event_ids : list (string * unit);
  d_evicted_trees : Z;
  d_evicted_events : Z;
  d_duplicate_events : Z
}.

Definition new_detector : Detector := {|
  d_events := []; d_seen_event_ids := []; d_evicted_trees := 0; d_evicted_events := 0; d_duplicate_events := 0 |}.

(** [replace(decision, automatic_response_eligible=False, recommended_response="manual_review")] *)
Definition manual_review (d : DetectionDecision) : DetectionDecision := {|
  decision_id := decision_id d; score := score d; confidence := confidence d; severity := severity d;
  recommended_response := "manual_review"; automatic_response_eligible := false; signals := signals d;
  policy_version := policy_version d; ruleset_version := ruleset_version d |}.

Definition destructive_ids : list string := [
  "AR_ADAPTIVE_ENTROPY_WAVE"; "AR_ADAPTIVE_RENAME_FANOUT"; "AR_ADAPTIVE_DELETION_FANOUT";
  "AR_ADAPTIVE_CANARY"; "AR_ADAPTIVE_NOTE_SEQUENCE"].

(** [max(values)] of a list of floats that is not empty *)
Definition fmax_list (l : list float) : option float :=
  match l with [] => None | x :: l' => Some (foldl fmax x l') end.

Section Detection.
Context (policy : AdaptiveDetectionPolicy).

Notation Ev := AdaptiveMutationEvent.

Definition in_window (now : float) (e : Ev) : bool :=
  let age := fsub now (am_monotonic_time e) in
  fleb (fexact 0) age && fleb age (correlation_window_seconds policy).

Definition tree_window (d : Detector) (tree_key : string) (now : float) : list Ev :=
  filter (fun e => in_window now e = true) (dget_default [] tree_key (d_events d)).

Definition count_of (f : Ev -> string) (l : list Ev) : Z := Z.of_nat (size (distinct f l)).
Definition paths_where (p : Ev -> bool) (l : list Ev) : Z :=
  count_of am_path_token (filter (fun e => p e = true) l).

Definition entropy_paths (l : list Ev) : Z := paths_where am_entropy_transition l.
Definition rename_paths (l : list Ev) : Z :=
  paths_where (fun e => am_extension_changed e || am_renamed_over_original e) l.
Definition deletion_paths (l : list Ev) : Z :=
  paths_where (fun e => am_original_deleted e || String.eqb (lower (am_operation e)) "delete") l.
Definition total_bytes (l : list Ev) : Z := zsum am_bytes_changed l.

Definition expected_rate (l : list Ev) : option float := fmax_list (omap am_expected_events_per_30s l).

(** The rate signal, from the local baseline. *)
Definition rate_signal (l : list Ev) : list DetectionSignal :=
  match expected_rate l with
  | Some expected =>
      if distinct_file_threshold policy <=? zlen l then
        let multiplier := fdiv (fexact (zlen l)) (fmax fone expected) in
        signal_if (fgeb multiplier (minimum_rate_multiplier policy)) "AR_ADAPTIVE_RATE_DEVIATION" 20
          "process-tree file activity materially exceeded its local baseline"
          [("observed", VInt (zlen l)); ("expected", VFloat expected);
           ("multiplier", VFloat (fround_digits 2 multiplier))]
      else []
  | None => []
  end.

(** The signals of the mutations themselves, in the order they are added. *)
Definition behavior_signals (l : list Ev) : list DetectionSignal :=
  let paths := count_of am_path_token l in
  let directories := count_of am_directory_token l in
  let volumes := count_of am_volume_token l in
  signal_if (entropy_file_threshold policy <=? entropy_paths l) "AR_ADAPTIVE_ENTROPY_WAVE" 45
    "multiple distinct files transitioned toward encrypted-looking content"
    [("distinct_files", VInt (entropy_paths l)); ("window_seconds", VFloat (correlation_window_seconds policy))]
  ++ signal_if (rename_threshold policy <=? rename_paths l) "AR_ADAPTIVE_RENAME_FANOUT" 20
    "one process tree renamed or changed extensions across multiple files"
    [("distinct_files", VInt (rename_paths l))]
  ++ signal_if (deletion_threshold policy <=? deletion_paths l) "AR_ADAPTIVE_DELETION_FANOUT" 25
    "one process tree removed originals across multiple files" [("distinct_files", VInt (deletion_paths l))]
  ++ signal_if ((distinct_file_threshold policy <=? paths) && (directory_spread_threshold policy <=? directories))
    "AR_ADAPTIVE_DIRECTORY_SPREAD" 15 "file mutations spread across several directories"
    [("distinct_files", VInt paths); ("directories", VInt directories)]
  ++ signal_if ((volume_spread_threshold policy <=? volumes) && (distinct_file_threshold policy <=? paths))
    "AR_ADAPTIVE_VOLUME_SPREAD" 15 "one process tree modified files across multiple volumes"
    [("volumes", VInt volumes); ("distinct_files", VInt paths)]
  ++ signal_if ((write_volume_threshold policy <=? total_bytes l) && (entropy_file_threshold policy <=? paths))
    "AR_ADAPTIVE_WRITE_VOLUME" 15 "bounded metadata indicates an unusually large write volume"
    [("bytes_changed", VInt (total_bytes l)); ("distinct_files", VInt paths)]
  ++ rate_signal l
  ++ signal_if (existsb am_canary_modified l) "AR_ADAPTIVE_CANARY" 60 "an approved protected canary changed"
    [("count", VInt (zcount am_canary_modified l))]
  ++ signal_if (existsb am_ransom_note_pattern l
                && ((0 <? entropy_paths l) || (0 <? deletion_paths l) || (0 <? rename_paths l)))
    "AR_ADAPTIVE_NOTE_SEQUENCE" 30 "a ransom-note pattern followed correlated mutation behavior"
    [("note_events", VInt (zcount am_ransom_note_pattern l))].

Definition trust_of (l : list Ev) : ProcessTrustContext :=
  match last l with Some e => am_trust e | None => unknown_trust end.

Definition is_false (o : option bool) : bool := match o with Some false => true | _ => false end.

(** The context of the process only adds to behaviour that is there. *)
Definition context_signals (l : list Ev) (behavior_present : bool) : list DetectionSignal :=
  let trust := trust_of l in
  let signing := upper (signing_state trust) in
  let location := upper (executable_location trust) in
  signal_if (behavior_present && one_of signing ["UNSIGNED"; "AD_HOC"; "INVALID"; "MODIFIED_AFTER_SIGNING"])
    "AR_ADAPTIVE_UNTRUSTED_PROCESS_CONTEXT" 10
    "suspicious behavior originated from a process without a valid trusted signature"
    [("signing_state", VStr signing)]
  ++ signal_if (behavior_present && first_seen trust && one_of location ["DOWNLOADS"; "TEMPORARY"; "CACHE"])
    "AR_ADAPTIVE_FIRST_SEEN_LOCATION" 15
    "a first-seen process executed from a higher-risk transient location" [("location_class", VStr location)]
  ++ signal_if (behavior_present && interpreter trust && is_false (script_signed trust))
    "AR_ADAPTIVE_INTERPRETER_SCRIPT" 10 "an interpreter attributed the behavior to an untrusted script" [].

Definition coverage_complete (l : list Ev) : bool :=
  negb (bool_decide (l = [])) && forallb am_telemetry_complete l.

Definition all_signals (l : list Ev) : list DetectionSignal :=
  let behavior := behavior_signals l in
  behavior ++ context_signals l (existsb (fun s => 15 <=? weight s) behavior)
  ++ signal_if (negb (coverage_complete l)) "AR_ADAPTIVE_PARTIAL_COVERAGE" 0
       "sensor coverage was incomplete; confidence and automated response are reduced" [].

Definition destructive_families (sigs : list DetectionSignal) : gset string :=
  distinct signal_id (filter (fun s => one_of (signal_id s) destructive_ids = true) sigs).

Definition adaptive_decision (fresh_id : string) (l : list Ev) : DetectionDecision :=
  let sigs := all_signals l in
  let d := decide_risk fresh_id sigs false in
  let d := if automatic_response_eligible d && (Z.of_nat (size (destructive_families sigs)) <? 2)
           then manual_review d else d in
  if negb (coverage_complete l) && automatic_response_eligible d then manual_review d else d.

Definition assessment (fresh_id : string) (d : Detector) (tree_key : string) (now : float) (accepted : bool)
    : AdaptiveAssessment :=
  let l := tree_window d tree_key now in
  let short := filter (fun e => fleb (fsub now (am_monotonic_time e)) (short_window_seconds policy) = true) l in
  {| model_version := MODEL_VERSION; process_tree_key := tree_key;
     decision := adaptive_decision fresh_id l; reason_codes := signal_id <$> all_signals l;
     window_evidence := [
       ("window_seconds", VFloat (correlation_window_seconds policy));
       ("short_window_seconds", VFloat (short_window_seconds policy)); ("event_count", VInt (zlen l));
       ("short_window_event_count", VInt (zlen short)); ("distinct_files", VInt (count_of am_path_token l));
       ("distinct_directories", VInt (count_of am_directory_token l));
       ("distinct_volumes", VInt (count_of am_volume_token l));
       ("entropy_transition_files", VInt (entropy_paths l)); ("renamed_files", VInt (rename_paths l));
       ("deleted_files", VInt (deletion_paths l)); ("bytes_changed", VInt (total_bytes l));
       ("raw_paths_retained", VBool false)];
     telemetry_coverage := if coverage_complete l then "COMPLETE" else "PARTIAL";
     event_accepted := accepted; automatic_containment_performed := false |}.

(** The queue of a tree after one more event, and what its bound evicted. *)
Definition push_event (e : Ev) (queue : list Ev) : list Ev * Z :=
  let (queue, evicted) := trim_front (maximum_events_per_tree policy) (queue ++ [e]) 0 in
  let cutoff := fsub (am_monotonic_time e) (correlation_window_seconds policy) in
  (drop_while (fun x => fltb (am_monotonic_time x) cutoff) queue, evicted).

Definition remember_event (e : Ev) (d : Detector) : Detector :=
  let seen := move_to_end (am_event_id e) (dset (am_event_id e) tt (d_seen_event_ids d)) in
  let (seen, _) := evict_oldest (length seen) (maximum_process_trees policy * 4) seen 0 in
  let events := move_to_end (am_tree_key e) (dsetdefault (am_tree_key e) [] (d_events d)) in
  let (queue, dropped) := push_event e (dget_default [] (am_tree_key e) events) in
  let events := dset (am_tree_key e) queue events in
  let (events, trees) := evict_oldest (length events) (maximum_process_trees policy) events 0 in
  {| d_events := events; d_seen_event_ids := seen; d_evicted_trees := d_evicted_trees d + trees;
     d_evicted_events := d_evicted_events d + dropped; d_duplicate_events := d_duplicate_events d |}.

Definition count_duplicate (d : Detector) : Detector := {|
  d_events := d_events d; d_seen_event_ids := d_seen_event_ids d; d_evicted_trees := d_evicted_trees d;
  d_evicted_events := d_evicted_events d; d_duplicate_events := d_duplicate_events d + 1 |}.

Definition ingest (fresh_id : string) (event : Ev) : M Detector AdaptiveAssessment :=
  current ← lift_res (event_validated event);
  d ← get_st;
  if dmem (am_event_id current) (d_seen_event_ids d) then
    modify_st count_duplicate;;
    gets (fun d => assessment fresh_id d (am_tree_key current) (am_monotonic_time current) false)
  else
    modify_st (remember_event current);;
    gets (fun d => assessment fresh_id d (am_tree_key current) (am_monotonic_time current) true).

Definition retained_event_count (d : Detector) : Z := zsum (fun kv => zlen kv.2) (d_events d).
End Detection.

(** The adaptive detector's guarantees and its deterministic demonstration,
    [run_adaptive_detector_demo]. *)

(** ** The demonstration *)

Definition unsigned_trust : ProcessTrustContext := {|
  signing_state := "UNSIGNED"; platform_binary := false; notarized := None; first_seen := true;
  executable_location := "TEMPORARY"; interpreter := false; script_signed := None |}.

Definition signed_trust : ProcessTrustContext := {|
  signing_state := "DEVELOPER_ID"; platform_binary := false; notarized := Some true; first_seen := false;
  executable_location := "OTHER"; interpreter := false; script_signed := None |}.

(** The inner [event] with the fields its callers change. *)
Definition demo_event (number : Z) (bytes : Z) (entropy extension deleted note : bool) (volume : string)
    : AdaptiveMutationEvent := {|
  am_event_id := "demo-" +:+ str_of_Z number; am_monotonic_time := fadd (float_of_Z 100) (float_of_Z number);
  am_process_key := "demo-process"; am_tree_key := "demo-tree"; am_path_token := "path-" +:+ str_of_Z number;
  am_directory_token := "directory-" +:+ str_of_Z (number mod 3); am_volume_token := volume;
  am_operation := "modified"; am_bytes_changed := bytes; am_entropy_transition := entropy;
  am_extension_changed := extension; am_renamed_over_original := false; am_original_deleted := deleted;
  am_canary_modified := false; am_ransom_note_pattern := note; am_telemetry_complete := true;
  am_expected_events_per_30s := Some (float_of_Z 1); am_trust := unsigned_trust |}.

Definition retag (id : string) (trust : ProcessTrustContext) (complete : bool) (e : AdaptiveMutationEvent)
    : AdaptiveMutationEvent := {|
  am_event_id := id; am_monotonic_time := am_monotonic_time e; am_process_key := am_process_key e;
  am_tree_key := am_tree_key e; am_path_token := am_path_token e; am_directory_token := am_directory_token e;
  am_volume_token := am_volume_token e; am_operation := am_operation e; am_bytes_changed := am_bytes_changed e;
  am_entropy_transition := am_entropy_transition e; am_extension_changed := am_extension_changed e;
  am_renamed_over_original := am_renamed_over_original e; am_original_deleted := am_original_deleted e;
  am_canary_modified := am_canary_modified e; am_ransom_note_pattern := am_ransom_note_pattern e;
  am_telemetry_complete := complete; am_expected_events_per_30s := am_expected_events_per_30s e;
  am_trust := trust |}.

Definition eight_mb : Z := 8 * 1024 * 1024.

Definition composite : list AdaptiveMutationEvent :=
  (fun n => demo_event n eight_mb true true true (n =? 10) ("volume-" +:+ str_of_Z (n mod 2))) <$> seqZ 1 10.

Record scenario := {
  sc_id : string;
  sc_events : list AdaptiveMutationEvent;
  sc_required : list string;
  sc_automatic_expected : bool
}.

Definition scenarios : list scenario := [
  {| sc_id := "AR-ADAPT-01"; sc_events := [demo_event 1 1 false false false false "volume-1"];
     sc_required := []; sc_automatic_expected := false |};
  {| sc_id := "AR-ADAPT-02";
     sc_events := (fun n => demo_event n eight_mb true false false false "volume-1") <$> seqZ 1 5;
     sc_required := ["AR_ADAPTIVE_ENTROPY_WAVE"; "AR_ADAPTIVE_UNTRUSTED_PROCESS_CONTEXT"];
     sc_automatic_expected := false |};
  {| sc_id := "AR-ADAPT-03"; sc_events := composite;
     sc_required := ["AR_ADAPTIVE_ENTROPY_WAVE"; "AR_ADAPTIVE_RENAME_FANOUT"; "AR_ADAPTIVE_DELETION_FANOUT"];
     sc_automatic_expected := true |};
  {| sc_id := "AR-ADAPT-04";
     sc_events := imap (fun i e => retag ("signed-" +:+ str_of_Z (Z.of_nat i + 1)) signed_trust true e) composite;
     sc_required := ["AR_ADAPTIVE_ENTROPY_WAVE"; "AR_ADAPTIVE_DELETION_FANOUT"];
     sc_automatic_expected := true |};
  {| sc_id := "AR-ADAPT-05";
     sc_events := imap (fun i e => retag ("partial-" +:+ str_of_Z (Z.of_nat i + 1)) unsigned_trust false e) composite;
     sc_required := ["AR_ADAPTIVE_PARTIAL_COVERAGE"]; sc_automatic_expected := false |};
  {| sc_id := "AR-ADAPT-06";
     sc_events := (fun n => demo_event n 1 false false false false "volume-1") <$> seqZ 1 8;
     sc_required := ["AR_ADAPTIVE_RATE_DEVIATION"; "AR_ADAPTIVE_DIRECTORY_SPREAD"];
     sc_automatic_expected := false |}].

(** Feed a list of observations to a fresh detector: the last assessment. *)
Fixpoint feed (policy : AdaptiveDetectionPolicy) (events : list AdaptiveMutationEvent) (d : Detector)
    (result : option AdaptiveAssessment) : res (option AdaptiveAssessment) :=
  match events with
  | [] => Ok result
  | e :: events' =>
      match ingest policy "" e d with
      | (Ok a, d') => feed policy events' d' (Some a)
      | (Raise err, _) => Raise err
      end
  end.

Definition execute (s : scenario) : res bool :=
  result ← feed default_policy (sc_events s) new_detector None;
  Ok match result with
     | Some a => forallb (fun id => one_of id (reason_codes a)) (sc_required s)
                 && Bool.eqb (automatic_response_eligible (decision a)) (sc_automatic_expected s)
     | None => false
     end.

Example demo_all_passed : Forall (fun s => execute s = Ok true) scenarios.
Proof. repeat constructor; by vm_compute. Qed.

(** ** When a response may be automatic *)

Definition destructive_evidence (policy : AdaptiveDetectionPolicy) (l : list AdaptiveMutationEvent) : gset string :=
  destructive_families (all_signals policy l).

(** The detector never proposes an automatic pause on thin evidence: an eligible
    decision has a score of 85 or more, at least two destructive families among its
    signals, and complete telemetry on a non-empty window; otherwise a human reviews. *)
Theorem automatic_needs_corroboration (policy : AdaptiveDetectionPolicy) fresh_id (l : list AdaptiveMutationEvent) :
  automatic_response_eligible (adaptive_decision policy fresh_id l) = true <->
  85 <= zsum weight (all_signals policy l) /\ (2 <= size (destructive_evidence policy l))%nat
  /\ l <> [] /\ Forall (fun e => am_telemetry_complete e = true) l.
Proof.
  unfold adaptive_decision, destructive_evidence. cbn zeta. set (sigs := all_signals policy l).
  assert (Hcov : coverage_complete l = true <-> l <> [] /\ Forall (fun e => am_telemetry_complete e = true) l).
  { unfold coverage_complete. rewrite andb_true_iff, negb_true_iff, bool_decide_eq_false, forallb_forall, Forall_forall.
    apply and_iff_compat_l. by setoid_rewrite list_elem_of_In. }
  rewrite <- Hcov. set (d := decide_risk fresh_id sigs false).
  assert (Hd : automatic_response_eligible d = true <-> 85 <= zsum weight sigs).
  { subst d. simpl. rewrite andb_true_r, Z.leb_le. lia. }
  rewrite <- Hd. clearbody d. destruct (automatic_response_eligible d) eqn:Ha.
  - destruct (Z.ltb_spec (Z.of_nat (size (destructive_families sigs))) 2); simpl.
    + rewrite andb_false_r. simpl. split; [done|lia].
    + rewrite Ha, andb_true_r. destruct (coverage_complete l); simpl; [rewrite Ha|]; split; naive_solver lia.
  - simpl. rewrite Ha, andb_false_r, Ha. naive_solver.
Qed.

(** ** Bounds and duplicates *)

Record detector_bounded (policy : AdaptiveDetectionPolicy) (d : Detector) : Prop := {
  trees_bounded : zlen (d_events d) <= maximum_process_trees policy;
  queues_bounded : Forall (fun kv => zlen kv.2 <= maximum_events_per_tree policy) (d_events d);
  seen_bounded : zlen (d_seen_event_ids d) <= maximum_process_trees policy * 4;
  trees_wf : dwf (d_events d);
  seen_wf : dwf (d_seen_event_ids d)
}.

Section Bounds.
Context (policy : AdaptiveDetectionPolicy) (Hpolicy : policy_validated policy = Ok policy).

Lemma policy_limits : 1 <= maximum_process_trees policy /\ 8 <= maximum_events_per_tree policy.
Proof.
  unfold policy_validated in Hpolicy. rewrite !res_bind_unit_ok, !raise_if_ok, !negb_false_iff in Hpolicy.
  destruct Hpolicy as (H1 & H2 & _). b2p. lia.
Qed.

Lemma push_event_bound e queue : zlen (push_event policy e queue).1 <= maximum_events_per_tree policy.
Proof.
  unfold push_event. pose proof (trim_front_bound (maximum_events_per_tree policy) (queue ++ [e]) 0) as Hb.
  destruct (trim_front _ _ _) as [q n]. simpl in *. destruct policy_limits.
  pose proof (drop_while_length (fun x => fltb (am_monotonic_time x)
    (fsub (am_monotonic_time e) (correlation_window_seconds policy))) q). unfold zlen in *. lia.
Qed.

Lemma remember_bounded e d : detector_bounded policy d -> detector_bounded policy (remember_event policy e d).
Proof.
  intros [Ht Hq Hs Hwt Hws]. destruct policy_limits as [Hl1 Hl2]. unfold remember_event.
  set (seen := move_to_end _ (dset _ _ _)). set (events := move_to_end _ (dsetdefault _ _ _)).
  assert (Hseen : dwf seen) by by apply dwf_move_to_end, dwf_dset.
  assert (Hev : dwf events /\ Forall (fun kv => zlen kv.2 <= maximum_events_per_tree policy) events).
  { subst events. unfold dsetdefault. split.
    - apply dwf_move_to_end. case_match; [done|by apply dwf_dset].
    - apply (Forall_move_to_end (fun l => zlen l <= maximum_events_per_tree policy)). case_match; [done|].
      apply (Forall_dset (fun l => zlen l <= maximum_events_per_tree policy)); [unfold zlen; simpl; lia|done]. }
  destruct Hev as [Hwe Hqe].
  pose proof (push_event_bound e (dget_default [] (am_tree_key e) events)) as Hpush.
  destruct (push_event policy e _) as [queue dropped]. simpl in Hpush.
  set (events' := dset (am_tree_key e) queue events).
  assert (Hw' : dwf events') by by apply dwf_dset.
  assert (Hq' : Forall (fun kv => zlen kv.2 <= maximum_events_per_tree policy) events') 
    by by apply (Forall_dset (fun l => zlen l <= maximum_events_per_tree policy)).
  pose proof (evict_oldest_bound (length seen) (maximum_process_trees policy * 4) seen 0 ltac:(lia) ltac:(lia)) as B1.
  pose proof (evict_oldest_dwf (length seen) (maximum_process_trees policy * 4) seen 0 Hseen) as W1.
  pose proof (evict_oldest_bound (length events') (maximum_process_trees policy) events' 0 ltac:(lia) ltac:(lia)) as B2.
  pose proof (evict_oldest_dwf (length events') (maximum_process_trees policy) events' 0 Hw') as W2.
  pose proof (evict_oldest_spec (length events') (maximum_process_trees policy) events' 0 ltac:(lia) ltac:(lia)) as S2.
  destruct (evict_oldest (length seen) _ _ _) as [seen' n1].
  destruct (evict_oldest (length events') _ _ _) as [events'' n2]. injection S2 as -> _.
  split; try done. by apply Forall_drop.
Qed.
End Bounds.

(** The detector's memory is bounded under a validated policy: whatever it is fed
    it keeps at most the configured trees, events per tree and four event ids per
    tree, and never changes on an event that fails validation. *)
Theorem detector_stays_bounded (policy : AdaptiveDetectionPolicy) fresh_id (event : AdaptiveMutationEvent) (d d' : Detector) r :
  policy_validated policy = Ok policy -> detector_bounded policy d ->
  ingest policy fresh_id event d = (r, d') ->
  detector_bounded policy d' /\ (is_ok r = false -> d' = d).
Proof.
  intros Hpolicy Hd. unfold ingest, mbind, M_bind, lift_res, get_st, modify_st, gets.
  destruct (event_validated event) as [current|e] eqn:Hval; [|by intros [= <- <-]].
  destruct (dmem _ _); intros [= <- <-]; (split; [|done]).
  - by destruct Hd.
  - by apply remember_bounded.
Qed.

Lemma detector_stays_bounded_witness :
  let run := ingest default_policy "" (demo_event 1 1 false false false false "volume-1") new_detector in
  detector_bounded default_policy run.2 /\ (is_ok run.1 = false -> run.2 = new_detector).
Proof.
  intros run. apply (detector_stays_bounded default_policy "" (demo_event 1 1 false false false false "volume-1")
    new_detector run.2 run.1).
  - by vm_compute.
  - split; first [by vm_compute | by constructor].
  - subst run. by destruct (ingest _ _ _ _).
Defined.

(** Replays are idempotent: an event id the detector remembers is counted as a
    duplicate, and leaves every window and the remembered ids as they were. *)
Theorem duplicate_event_ignored (policy : AdaptiveDetectionPolicy) fresh_id (event : AdaptiveMutationEvent) (d : Detector) :
  event_validated event = Ok event -> am_event_id event ∈ keys (d_seen_event_ids d) ->
  exists a, ingest policy fresh_id event d = (Ok a, count_duplicate d) /\ event_accepted a = false
    /\ decision a = adaptive_decision policy fresh_id (tree_window policy d (am_tree_key event) (am_monotonic_time event)).
Proof.
  intros Hval Hseen%dmem_keys. unfold ingest, mbind, M_bind, lift_res, get_st, modify_st, gets.
  rewrite Hval, Hseen. by eexists.
Qed.

Lemma duplicate_event_ignored_witness :
  let e := demo_event 1 1 false false false false "volume-1" in
  let d := (ingest default_policy "" e new_detector).2 in
  exists a, ingest default_policy "" e d = (Ok a, count_duplicate d) /\ event_accepted a = false
    /\ decision a = adaptive_decision default_policy "" (tree_window default_policy d (am_tree_key e) (am_monotonic_time e)).
Proof.
  intros e d. apply (duplicate_event_ignored default_policy "" e d).
  - by vm_compute.
  - by apply list_elem_of_singleton.
Defined.
