(* ===== verification/Containment.v ===== *)
(** Containment of a process: leases and their state machine
    ([anti_ransomware/leases.py]), the coordinator that signals processes through the
    native boundary ([containment_orchestrator.py]) and the chain of custody
    ([evidence.py]). *)

From S2P Require Import Prelude PyStr PyFloat PyDict PyJson PyTime RansomwareRisk.

(** ** Leases *)

Inductive LeaseState :=
| REQUESTED | VALIDATING | REJECTED_IDENTITY_MISMATCH | REJECTED_POLICY | REJECTED_CRITICAL_PROCESS
| EVIDENCE_PRESERVED | PAUSE_REQUESTED | PAUSED | PAUSE_FAILED | USER_OR_ADMIN_DECISION_PENDING
| RESUME_REQUESTED | RESUMED | TERMINATE_REQUESTED | TERMINATED | TERMINATE_FAILED | PROCESS_EXITED
| LEASE_EXPIRED | ROLLBACK_REQUESTED | ROLLED_BACK | FAILED | CLOSED.

#[export] Instance LeaseState_eq_dec : EqDecision LeaseState.
Proof. solve_decision. Defined.

Definition lease_state_value (s : LeaseState) : string :=
  match s with
  | REQUESTED => "REQUESTED" | VALIDATING => "VALIDATING"
  | REJECTED_IDENTITY_MISMATCH => "REJECTED_IDENTITY_MISMATCH" | REJECTED_POLICY => "REJECTED_POLICY"
  | REJECTED_CRITICAL_PROCESS => "REJECTED_CRITICAL_PROCESS" | EVIDENCE_PRESERVED => "EVIDENCE_PRESERVED"
  | PAUSE_REQUESTED => "PAUSE_REQUESTED" | PAUSED => "PAUSED" | PAUSE_FAILED => "PAUSE_FAILED"
  | USER_OR_ADMIN_DECISION_PENDING => "USER_OR_ADMIN_DECISION_PENDING"
  | RESUME_REQUESTED => "RESUME_REQUESTED" | RESUMED => "RESUMED" | TERMINATE_REQUESTED => "TERMINATE_REQUESTED"
  | TERMINATED => "TERMINATED" | TERMINATE_FAILED => "TERMINATE_FAILED" | PROCESS_EXITED => "PROCESS_EXITED"
  | LEASE_EXPIRED => "LEASE_EXPIRED" | ROLLBACK_REQUESTED => "ROLLBACK_REQUESTED"
  | ROLLED_BACK => "ROLLED_BACK" | FAILED => "FAILED" | CLOSED => "CLOSED"
  end.

(** [ALLOWED_TRANSITIONS.get(state, set())] *)
Definition allowed_transitions (s : LeaseState) : list LeaseState :=
  match s with
  | REQUESTED => [VALIDATING]
  | VALIDATING => [REJECTED_IDENTITY_MISMATCH; REJECTED_POLICY; REJECTED_CRITICAL_PROCESS; EVIDENCE_PRESERVED]
  | EVIDENCE_PRESERVED => [PAUSE_REQUESTED]
  | PAUSE_REQUESTED => [PAUSED; PAUSE_FAILED; PROCESS_EXITED]
  | PAUSED => [USER_OR_ADMIN_DECISION_PENDING; RESUME_REQUESTED; TERMINATE_REQUESTED; LEASE_EXPIRED; PROCESS_EXITED]
  | USER_OR_ADMIN_DECISION_PENDING => [RESUME_REQUESTED; TERMINATE_REQUESTED; LEASE_EXPIRED; PROCESS_EXITED]
  | RESUME_REQUESTED => [RESUMED; FAILED; PROCESS_EXITED]
  | TERMINATE_REQUESTED => [TERMINATED; TERMINATE_FAILED; PROCESS_EXITED]
  | LEASE_EXPIRED => [ROLLBACK_REQUESTED]
  | ROLLBACK_REQUESTED => [ROLLED_BACK; FAILED; PROCESS_EXITED]
  | RESUMED | TERMINATED | ROLLED_BACK | PROCESS_EXITED => [CLOSED]
  | _ => []
  end.

Record ContainmentLease := {
  le_lease_id : string;
  le_incident_id : string;
  le_process : ProcessIdentity;
  le_state : LeaseState;
  le_started_at : datetime;
  le_expires_at : datetime;
  le_policy : string;
  le_owner : string;
  le_rollback_action : string;
  le_renewal_count : Z;
  le_maximum_renewal : Z;
  le_no_user_policy : string;
  le_criticality : string;
  le_evidence_state : string
}.

Definition set_lease_state (s : LeaseState) (l : ContainmentLease) : ContainmentLease := {|
  le_lease_id := le_lease_id l; le_incident_id := le_incident_id l; le_process := le_process l; le_state := s;
  le_started_at := le_started_at l; le_expires_at := le_expires_at l; le_policy := le_policy l;
  le_owner := le_owner l; le_rollback_action := le_rollback_action l; le_renewal_count := le_renewal_count l;
  le_maximum_renewal := le_maximum_renewal l; le_no_user_policy := le_no_user_policy l;
  le_criticality := le_criticality l; le_evidence_state := le_evidence_state l |}.

Definition lease_transition (l : ContainmentLease) (s : LeaseState) : res ContainmentLease :=
  if decide (s ∈ allowed_transitions (le_state l)) then Ok (set_lease_state s l)
  else Raise (ValueError ("[AR030] Invalid containment transition " +:+ lease_state_value (le_state l)
                          +:+ "->" +:+ lease_state_value s)).

(** [now] is an aware instant. *)
Definition lease_expired (l : ContainmentLease) (now : Z) : bool :=
  negb (aware (le_expires_at l)) || (instant (le_expires_at l) <=? now).

(** ** The chain of custody *)

Record custody_row := {
  cu_incident_id : string;
  cu_created_at : string;
  cu_actor : string;
  cu_action : string;
  cu_object_id : string;
  cu_previous_hash : string;
  cu_entry_hash : string;
  cu_details_json : string
}.

Definition genesis : string := "0000000000000000000000000000000000000000000000000000000000000000".

Section Custody.
Context `{PlatformEnv}.

Definition custody_material (previous incident_id created_at actor action object_id details_json : string) : string :=
  join "|" [previous; incident_id; created_at; actor; action; object_id; details_json].

Definition custody_entry (previous incident_id created_at actor action object_id details_json : string) : custody_row := {|
  cu_incident_id := incident_id; cu_created_at := created_at; cu_actor := actor; cu_action := action;
  cu_object_id := object_id; cu_previous_hash := previous;
  cu_entry_hash := sha256 (custody_material previous incident_id created_at actor action object_id details_json);
  cu_details_json := details_json |}.

Definition last_custody_hash (chain : list custody_row) : string := default genesis (cu_entry_hash <$> last chain).

(** [verify_chain] from the hash reached so far *)
Fixpoint verify_custody (previous : string) (rows : list custody_row) : bool :=
  match rows with
  | [] => true
  | r :: rows' =>
      if negb (String.eqb (cu_previous_hash r) previous)
         || negb (String.eqb (sha256 (custody_material previous (cu_incident_id r) (cu_created_at r) (cu_actor r)
                                        (cu_action r) (cu_object_id r) (cu_details_json r))) (cu_entry_hash r))
      then false else verify_custody (cu_entry_hash r) rows'
  end.
End Custody.

(** [asdict(identity)] *)
Definition identity_dict (p : ProcessIdentity) : list (string * pyval) :=
  let opt_int o := match o with Some z => VInt z | None => VNone end in
  [("pid", VInt (pi_pid p)); ("pid_version", VInt (pi_pid_version p));
   ("executable_path", VStr (pi_executable_path p)); ("executable_sha256", VStr (pi_executable_sha256 p));
   ("effective_uid", VInt (pi_effective_uid p)); ("boot_session_id", VStr (pi_boot_session_id p));
   ("parent_pid", opt_int (pi_parent_pid p)); ("responsible_pid", opt_int (pi_responsible_pid p));
   ("signing_id", VStr (pi_signing_id p)); ("team_id", VStr (pi_team_id p));
   ("script_path", VStr (pi_script_path p)); ("script_sha256", VStr (pi_script_sha256 p));
   ("platform_binary", VBool (pi_platform_binary p));
   ("notarized", match pi_notarized p with Some b => VBool b | None => VNone end);
   ("audit_token_hash", VStr (pi_audit_token_hash p)); ("executable_file_id", VStr (pi_executable_file_id p));
   ("cdhash", VStr (pi_cdhash p)); ("process_start_time_ns", VInt (pi_process_start_time_ns p))].

Definition identity_json `{PlatformEnv} (p : ProcessIdentity) : res string :=
  json_dumps compact_style (VDict (identity_dict p)).

(** ** The coordinator *)

(** The native boundary, a protocol implemented outside Python, with the clock and
    the evidence database the coordinator works with. *)
Class ContainmentEnv := {
  #[global] containment_platform :: PlatformEnv;
  native : Type;
  live_identity : Z -> native -> option ProcessIdentity;
  pause_exact : ProcessIdentity -> native -> bool * native;
  resume_exact : ProcessIdentity -> native -> bool * native;
  terminate_exact : ProcessIdentity -> native -> bool * native;
  is_paused : ProcessIdentity -> native -> bool;
  containment_clock : nat -> Z;
  evidence_ok : nat -> bool
}.

Inductive request := PauseRequest | ResumeRequest | TerminateRequest.

Record action_row := {
  ac_action_id : string;
  ac_lease_id : string;
  ac_previous_state : LeaseState;
  ac_new_state : LeaseState;
  ac_actor : string;
  ac_reason : string;
  ac_created_at : string
}.

(** The evidence tables, the native state, and the requests sent to it in order. *)
Record Coordinator `{ContainmentEnv} := {
  c_native : native;
  c_requests : list (request * ProcessIdentity);
  c_leases : list (string * ContainmentLease);
  c_actions : list action_row;
  c_chain : list custody_row;
  c_ticks : nat
}.

Section Coordination.
Context `{ContainmentEnv}.

Definition look_up (pid : Z) : M Coordinator (option ProcessIdentity) :=
  gets (fun c => live_identity pid (c_native c)).

Definition paused_now (p : ProcessIdentity) : M Coordinator bool :=
  gets (fun c => is_paused p (c_native c)).

Definition send (kind : request) (p : ProcessIdentity) : M Coordinator bool := fun c =>
  let act := match kind with
    | PauseRequest => pause_exact | ResumeRequest => resume_exact | TerminateRequest => terminate_exact end in
  let (ok, n) := act p (c_native c) in
  (Ok ok, {| c_native := n; c_requests := c_requests c ++ [(kind, p)]; c_leases := c_leases c;
             c_actions := c_actions c; c_chain := c_chain c; c_ticks := c_ticks c |}).

Definition clock_now : M Coordinator Z := fun c =>
  (Ok (containment_clock (c_ticks c)),
   {| c_native := c_native c; c_requests := c_requests c; c_leases := c_leases c; c_actions := c_actions c;
      c_chain := c_chain c; c_ticks := S (c_ticks c) |}).

(** The two statements of one [with connection] block: both or neither. *)
Definition store_transition (lease : ContainmentLease) (row : action_row) : M Coordinator unit := fun c =>
  let c' := {| c_native := c_native c; c_requests := c_requests c; c_leases := c_leases c;
               c_actions := c_actions c; c_chain := c_chain c; c_ticks := S (c_ticks c) |} in
  if negb (evidence_ok (c_ticks c)) then (Raise (OperationalError "evidence store unavailable"), c')
  else if existsb (fun r => String.eqb (ac_action_id r) (ac_action_id row)) (c_actions c)
  then (Raise (IntegrityError "UNIQUE constraint failed: anti_ransomware_containment_actions.action_id"), c')
  else (Ok tt, {| c_native := c_native c; c_requests := c_requests c;
                  c_leases := dset (le_lease_id lease) lease (c_leases c); c_actions := c_actions c ++ [row];
                  c_chain := c_chain c; c_ticks := S (c_ticks c) |}).

Definition append_row (incident_id created_at actor action object_id details_json : string) : M Coordinator unit := fun c =>
  let with_chain rows := {| c_native := c_native c; c_requests := c_requests c; c_leases := c_leases c;
                            c_actions := c_actions c; c_chain := rows; c_ticks := S (c_ticks c) |} in
  if evidence_ok (c_ticks c)
  then (Ok tt, with_chain (c_chain c ++ [custody_entry (last_custody_hash (c_chain c)) incident_id created_at actor
                                           action object_id details_json]))
  else (Raise (OperationalError "evidence store unavailable"), with_chain (c_chain c)).

Definition append_chain_entry (incident_id created_at actor action object_id : string)
    (details : list (string * pyval)) : M Coordinator unit :=
  details_json ← lift_res (json_dumps compact_style (VDict details));
  append_row incident_id created_at actor action object_id details_json.

(** [_transition] *)
Definition record_transition (lease : ContainmentLease) (state : LeaseState) (reason : string)
    : M Coordinator ContainmentLease :=
  updated ← lift_res (lease_transition lease state);
  instant_now ← clock_now;
  let now := isoformat_utc instant_now in
  process_json ← lift_res (identity_json (le_process updated));
  store_transition updated {|
    ac_action_id := le_lease_id updated +:+ ":" +:+ lease_state_value state +:+ ":" +:+ now;
    ac_lease_id := le_lease_id updated; ac_previous_state := le_state lease; ac_new_state := state;
    ac_actor := le_owner updated; ac_reason := reason; ac_created_at := now |};;
  append_chain_entry (le_incident_id updated) now (le_owner updated) "containment_transition" (le_lease_id updated)
    [("from", VStr (lease_state_value (le_state lease))); ("to", VStr (lease_state_value state));
     ("reason", VStr reason); ("process_identity_sha256", VStr (pi_executable_sha256 (le_process updated)));
     ("process_identity", VStr process_json)];;
  mret updated.

(** [a(live) and b(live)], the second only when the first holds *)
Definition send_verified (kind : request) (live : ProcessIdentity) (want_paused : bool) : M Coordinator bool :=
  ok ← send kind live;
  if (ok : bool) then paused ← paused_now live; mret (Bool.eqb paused want_paused) else mret false.

Definition exact_match (lease : ContainmentLease) (live : option ProcessIdentity) : option ProcessIdentity :=
  match live with
  | Some p => if matches_exact (le_process lease) p then Some p else None
  | None => None
  end.

Definition pause (lease : ContainmentLease) : M Coordinator ContainmentLease :=
  lease ← record_transition lease VALIDATING "validation_started";
  live ← look_up (pi_pid (le_process lease));
  match exact_match lease live with
  | None => record_transition lease REJECTED_IDENTITY_MISMATCH "exact_identity_mismatch"
  | Some live =>
      if negb (String.eqb (le_criticality lease) "noncritical")
      then record_transition lease REJECTED_CRITICAL_PROCESS "critical_continuity_exclusion"
      else if negb (String.eqb (le_evidence_state lease) "preserved")
      then record_transition lease REJECTED_POLICY "evidence_not_preserved"
      else
        lease ← record_transition lease EVIDENCE_PRESERVED "evidence_verified";
        lease ← record_transition lease PAUSE_REQUESTED "pause_requested";
        verified ← send_verified PauseRequest live true;
        if (verified : bool) then record_transition lease PAUSED "pause_verified"
        else record_transition lease PAUSE_FAILED "pause_not_verified"
  end.

Definition resume (lease : ContainmentLease) (reason : string) : M Coordinator ContainmentLease :=
  lease ← record_transition lease RESUME_REQUESTED reason;
  live ← look_up (pi_pid (le_process lease));
  match live with
  | None => record_transition lease PROCESS_EXITED "process_exited_before_resume"
  | Some live =>
      if negb (matches_exact (le_process lease) live)
      then record_transition lease FAILED "identity_changed_before_resume"
      else
        verified ← send_verified ResumeRequest live false;
        if (verified : bool) then record_transition lease RESUMED "resume_verified"
        else record_transition lease FAILED "resume_not_verified"
  end.

Definition terminate (lease : ContainmentLease) (reason : string) : M Coordinator ContainmentLease :=
  lease ← record_transition lease TERMINATE_REQUESTED reason;
  live ← look_up (pi_pid (le_process lease));
  match live with
  | None => record_transition lease PROCESS_EXITED "process_exited_before_termination"
  | Some live =>
      if negb (matches_exact (le_process lease) live)
      then record_transition lease TERMINATE_FAILED "identity_changed_before_termination"
      else
        ok ← send TerminateRequest live;
        if (ok : bool) then record_transition lease TERMINATED "termination_verified"
        else record_transition lease TERMINATE_FAILED "termination_failed"
  end.

Definition reconciled_states : list LeaseState :=
  [PAUSED; USER_OR_ADMIN_DECISION_PENDING; LEASE_EXPIRED; ROLLBACK_REQUESTED].

(** Nobody holds the pid any more that the lease names exactly. *)
Definition reconcile_mismatch (lease : ContainmentLease) : M Coordinator ContainmentLease :=
  if decide (le_state lease = ROLLBACK_REQUESTED)
  then record_transition lease FAILED "restart_reconcile_identity_changed"
  else if decide (le_state lease = LEASE_EXPIRED)
  then lease ← record_transition lease ROLLBACK_REQUESTED "restart_rollback_requested";
       record_transition lease FAILED "restart_reconcile_identity_changed"
  else mret lease.

Definition rollback_to (lease : ContainmentLease) (live : ProcessIdentity) : M Coordinator ContainmentLease :=
  verified ← (if String.eqb (le_rollback_action lease) "resume" then send_verified ResumeRequest live false
              else mret false);
  if (verified : bool) then record_transition lease ROLLED_BACK "rollback_verified"
  else record_transition lease FAILED "rollback_failed".

Definition reconcile (lease : ContainmentLease) : M Coordinator ContainmentLease :=
  if negb (bool_decide (le_state lease ∈ reconciled_states)) then mret lease
  else
    live ← look_up (pi_pid (le_process lease));
    match live with
    | None => record_transition lease PROCESS_EXITED "restart_reconcile_process_exited"
    | Some live =>
        if negb (matches_exact (le_process lease) live) then reconcile_mismatch lease
        else
          now ← clock_now;
          lease ← (if lease_expired lease now
                      && bool_decide (le_state lease ∈ [PAUSED; USER_OR_ADMIN_DECISION_PENDING])
                   then record_transition lease LEASE_EXPIRED "lease_expired" else mret lease);
          lease ← (if decide (le_state lease = LEASE_EXPIRED)
                   then record_transition lease ROLLBACK_REQUESTED "bounded_rollback_requested" else mret lease);
          if decide (le_state lease = ROLLBACK_REQUESTED) then rollback_to lease live else mret lease
    end.
End Coordination.
