(* ===== verification/ContainmentPolicy.v ===== *)
(** Decisions around containment: one-shot authorization
    ([anti_ransomware/containment.py]), policy ([containment_policy.py]), managed
    rules ([rules.py]), the sensor's identity registry and the native lease journal
    ([containment_production.py]), file classification
    ([compatibility_profile.py], [enhanced_detection.py]). *)

From S2P Require Import Prelude PyStr PyFloat PyDict PyJson PyTime RansomwareRisk Containment.

(** ** [containment_policy] *)

Inductive ContainmentMode := MODE_OBSERVE | MODE_WARN | MODE_CONFIRM | MODE_STRICT.

Record ContainmentPolicy := {
  cp_mode : ContainmentMode;
  cp_allow_process_suspend : bool;
  cp_allow_process_terminate : bool;
  cp_allow_quarantine : bool;
  cp_delete_files : bool;
  cp_require_local_confirmation : bool
}.

(** [__post_init__] *)
Definition make_policy (p : ContainmentPolicy) : res ContainmentPolicy :=
  raise_if (cp_delete_files p) (ValueError "MSAA does not permit automatic file deletion");; Ok p.

(** ** [authorize_containment] *)

Inductive ContainmentAction := OBSERVE_ONLY | PAUSE_EXACT_PROCESS | TERMINATE_EXACT_PROCESS.

#[export] Instance ContainmentAction_eq_dec : EqDecision ContainmentAction.
Proof. solve_decision. Defined.

Record ContainmentRequest := {
  cr_incident_id : string;
  cr_expected_identity : ProcessIdentity;
  cr_action : ContainmentAction;
  cr_expires_at : datetime;
  cr_approver : string;
  cr_rollback : string;
  cr_evidence_id : string;
  cr_critical_continuity : bool
}.

Record ContainmentResult := {
  re_status : string;
  re_error_code : string;
  re_message : string;
  re_action_performed : bool
}.

Definition result (status code message : string) (performed : bool) : ContainmentResult :=
  {| re_status := status; re_error_code := code; re_message := message; re_action_performed := performed |}.

(** [perform] is the helper, if there is one; the second component lists what it was
    asked to do. *)
Definition authorize_containment (request : ContainmentRequest) (live : ProcessIdentity) (now : Z)
    (perform : option (ContainmentAction -> ProcessIdentity -> bool))
    : ContainmentResult * list (ContainmentAction * ProcessIdentity) :=
  if negb (aware (cr_expires_at request)) || (instant (cr_expires_at request) <=? now)
  then (result "blocked" "AR034" "Response authorization expired; no process action performed." false, [])
  else if negb (matches_exact (cr_expected_identity request) live)
  then (result "blocked" "AR030" "Process identity changed or PID was reused; unsafe response blocked." false, [])
  else if negb (truthy (cr_evidence_id request))
  then (result "blocked" "AR030" "Evidence must be preserved before containment." false, [])
  else if cr_critical_continuity request && negb (bool_decide (cr_action request = OBSERVE_ONLY))
  then (result "blocked" "AR033" "Critical continuity exclusion applied; administrator escalation required." false, [])
  else if decide (cr_action request = OBSERVE_ONLY)
  then (result "observed" "" "Observe-only policy performed no process action." false, [])
  else match perform with
  | None => (result "not_verified" "AR016" "Containment helper is unavailable; no signal was sent." false, [])
  | Some f =>
      let ok := f (cr_action request) live in
      (result (if ok then "contained" else "failed") (if ok then "" else "AR017")
         (if ok then "Exact process action verified." else "Containment action could not be verified.") ok,
       [(cr_action request, live)])
  end.

(** ** [rules] *)

Inductive RuleAction :=
| ALLOW_ONCE | ALLOW_IDENTITY | ALLOW_BEHAVIOR_WITH_LIMITS | BLOCK_ONCE | BLOCK_IDENTITY | MONITOR_ONLY.

#[export] Instance RuleAction_eq_dec : EqDecision RuleAction.
Proof. solve_decision. Defined.

Record RansomwareRule := {
  ru_rule_id : string;
  ru_action : RuleAction;
  ru_executable_sha256 : string;
  ru_script_sha256 : string;
  ru_team_id : string;
  ru_signing_id : string;
  ru_canonical_path : string;
  ru_expires_at : option datetime;
  ru_approver : string;
  ru_rationale : string;
  ru_maximum_file_rate : option Z
}.

(** An expiry compares with the aware clock only when it is aware itself. *)
Definition expiry_passed (expires : option datetime) (now : Z) : res bool :=
  match expires with
  | None => Ok false
  | Some d => if aware d then Ok (instant d <=? now)
              else Raise (TypeError "can't compare offset-naive and offset-aware datetimes")
  end.

Definition rule_matches (rule : RansomwareRule) (identity : ProcessIdentity) (now : Z) : res bool :=
  expired ← expiry_passed (ru_expires_at rule) now;
  if (expired : bool) then Ok false
  else if negb (truthy (ru_executable_sha256 rule))
          || negb (String.eqb (ru_executable_sha256 rule) (pi_executable_sha256 identity)) then Ok false
  else Ok (forallb (fun p : string * string => negb (truthy p.1) || String.eqb p.1 p.2)
    [(ru_script_sha256 rule, pi_script_sha256 identity); (ru_team_id rule, pi_team_id identity);
     (ru_signing_id rule, pi_signing_id identity); (ru_canonical_path rule, pi_executable_path identity)]).

Definition validate_managed_rule (rule : RansomwareRule) (identity : ProcessIdentity) (managed actor_is_admin : bool)
    (second_approver : string) : res unit :=
  raise_if (bool_decide (ru_action rule ∈ [ALLOW_IDENTITY; BLOCK_IDENTITY]) && blank (ru_rationale rule))
    (ValueError "[AR018] Permanent identity rules require a rationale.");;
  raise_if (managed && ((pi_effective_uid identity =? 0) || pi_platform_binary identity) && negb actor_is_admin)
    (PermissionError "[AR031] Administrator approval is required for a managed root or platform-process rule.");;
  raise_if (managed && bool_decide (ru_action rule = ALLOW_IDENTITY) && negb (truthy second_approver))
    (PermissionError "[AR031] Managed permanent trust requires the configured second approver.").

(** ** [SensorIdentityRegistry] *)

Record SensorTargetRecord := {
  st_incident_id : string;
  st_event_id : string;
  st_identity : ProcessIdentity;
  st_source_sensor_version : string;
  st_source_boot_session : string;
  st_created_monotonic : float;
  st_expires_monotonic : float;
  st_identity_strength : string
}.

Definition target_key (r : SensorTargetRecord) : string := st_incident_id r +:+ ":" +:+ st_event_id r.

Definition identity_hash `{PlatformEnv} (r : SensorTargetRecord) : res string :=
  text ← identity_json (st_identity r); Ok (sha256 text).

Definition registry : Type := list (string * SensorTargetRecord).

Definition register_from_sensor (capacity : Z) (record : SensorTargetRecord) (authenticated_sensor : bool)
    (items : registry) : res registry :=
  raise_if (negb authenticated_sensor) (PermissionError "AR-CNT-007");;
  raise_if (negb (String.eqb (pi_boot_session_id (st_identity record)) (st_source_boot_session record))
            || fleb (st_expires_monotonic record) (st_created_monotonic record)) (ValueError "AR-CNT-007");;
  Ok (lru_put capacity (target_key record) record items).

Definition resolve (incident_id event_id : string) (now_monotonic : float) (boot_session : string) (items : registry)
    : res SensorTargetRecord :=
  match dget (incident_id +:+ ":" +:+ event_id) items with
  | None => Raise (LookupError "AR-CNT-007")
  | Some record =>
      raise_if (fgeb now_monotonic (st_expires_monotonic record)) (LookupError "AR-CNT-007");;
      raise_if (negb (String.eqb (st_source_boot_session record) boot_session)) (PermissionError "AR-CNT-016");;
      Ok record
  end.

(** ** [NativeLeaseJournal]

    A transaction state is the text the journal stores. *)

Record lease_row := {
  lr_lease_id : string;
  lr_incident_id : string;
  lr_event_id : string;
  lr_identity_hash : string;
  lr_identity_json : string;
  lr_boot_session : string;
  lr_state : string;
  lr_prepared_monotonic : float;
  lr_expires_monotonic : float;
  lr_helper_generation : string;
  lr_prepared_token_hash : string
}.

Record transition_row := {
  tr_sequence : Z;
  tr_lease_id : string;
  tr_wall_time : string;
  tr_monotonic_time : float;
  tr_prior_state : string;
  tr_new_state : string;
  tr_actor : string;
  tr_reason : string;
  tr_identity_hash : string
}.

Record Journal := { j_leases : list lease_row; j_transitions : list transition_row; j_sequence : Z }.

Definition with_state (s : string) (r : lease_row) : lease_row := {|
  lr_lease_id := lr_lease_id r; lr_incident_id := lr_incident_id r; lr_event_id := lr_event_id r;
  lr_identity_hash := lr_identity_hash r; lr_identity_json := lr_identity_json r;
  lr_boot_session := lr_boot_session r; lr_state := s; lr_prepared_monotonic := lr_prepared_monotonic r;
  lr_expires_monotonic := lr_expires_monotonic r; lr_helper_generation := lr_helper_generation r;
  lr_prepared_token_hash := lr_prepared_token_hash r |}.

Definition log_transition (lease_id prior new actor reason identity_hash wall : string) (monotonic : float)
    (j : Journal) : Journal := {|
  j_leases := j_leases j;
  j_transitions := j_transitions j ++ [{| tr_sequence := j_sequence j + 1; tr_lease_id := lease_id;
    tr_wall_time := wall; tr_monotonic_time := monotonic; tr_prior_state := prior; tr_new_state := new;
    tr_actor := actor; tr_reason := reason; tr_identity_hash := identity_hash |}];
  j_sequence := j_sequence j + 1 |}.

Section JournalOps.
Context `{PlatformEnv}.

Definition prepare (lease_id : string) (target : SensorTargetRecord) (now_monotonic expires_monotonic : float)
    (helper_generation token wall : string) (j : Journal) : res Journal :=
  raise_if (fleb expires_monotonic now_monotonic || fgtb expires_monotonic (st_expires_monotonic target))
    (ValueError "invalid lease deadline");;
  hash ← identity_hash target;
  text ← identity_json (st_identity target);
  let token_hash := sha256 token in
  if existsb (fun r => String.eqb (lr_lease_id r) lease_id || String.eqb (lr_prepared_token_hash r) token_hash)
       (j_leases j)
  then Raise (IntegrityError "UNIQUE constraint failed: leases")
  else Ok (log_transition lease_id "" "PREPARED" "helper" "durable_prepare" hash wall now_monotonic {|
    j_leases := j_leases j ++ [{| lr_lease_id := lease_id; lr_incident_id := st_incident_id target;
      lr_event_id := st_event_id target; lr_identity_hash := hash; lr_identity_json := text;
      lr_boot_session := st_source_boot_session target; lr_state := "PREPARED";
      lr_prepared_monotonic := now_monotonic; lr_expires_monotonic := expires_monotonic;
      lr_helper_generation := helper_generation; lr_prepared_token_hash := token_hash |}];
    j_transitions := j_transitions j; j_sequence := j_sequence j |}).

Definition set_journal_state (lease_id s : string) (j : Journal) : Journal := {|
  j_leases := (fun r => if String.eqb (lr_lease_id r) lease_id then with_state s r else r) <$> j_leases j;
  j_transitions := j_transitions j; j_sequence := j_sequence j |}.

Definition journal_transition (lease_id expected new actor reason wall : string) (monotonic : float) (j : Journal)
    : res Journal :=
  match find_first (fun r => String.eqb (lr_lease_id r) lease_id) (j_leases j) with
  | Some r =>
      if String.eqb (lr_state r) expected
      then Ok (log_transition lease_id expected new actor reason (lr_identity_hash r) wall monotonic
                 (set_journal_state lease_id new j))
      else Raise (ValueError "stale lease transition")
  | None => Raise (ValueError "stale lease transition")
  end.

Definition stale_lease (boot_session : string) (r : lease_row) : bool :=
  negb (one_of (lr_state r) ["CLOSED"; "RECONCILED_AFTER_REBOOT"])
  && negb (String.eqb (lr_boot_session r) boot_session).

(** Leases of another boot are closed without any signal. *)
Definition reconcile_boot (boot_session wall : string) (monotonic : float) (j : Journal) : Journal * Z :=
  let rows := filter (fun r => stale_lease boot_session r = true) (j_leases j) in
  (foldl (fun j r => log_transition (lr_lease_id r) (lr_state r) "RECONCILED_AFTER_REBOOT" "helper"
            "boot_session_changed_no_signal" (lr_identity_hash r) wall monotonic
            (set_journal_state (lr_lease_id r) "RECONCILED_AFTER_REBOOT" j)) j rows,
   zlen rows).

Definition active_count (j : Journal) : Z :=
  zcount (fun r => negb (one_of (lr_state r)
    ["CLOSED"; "RECONCILED_AFTER_REBOOT"; "RESUMED_VERIFIED"; "TERMINATED_VERIFIED"])) (j_leases j).
End JournalOps.

(** ** File classification *)

Record CompatibilityClassification := { cl_qualifies : bool; cl_reason : string }.

Definition classify_compatibility (s : FileStatistics) : CompatibilityClassification :=
  let no reason := {| cl_qualifies := false; cl_reason := reason |} in
  let yes reason := {| cl_qualifies := true; cl_reason := reason |} in
  if fs_size s <? 1024 then no "below_compatibility_minimum"
  else if 50 * 1024 * 1024 <? fs_size s then no "above_compatibility_maximum"
  else if fs_recognized_image s then no "recognized_image_header"
  else if fs_gzip_header s then no "gzip_header"
  else
    let base64_branch := fgtb (fs_base64_ratio s) (flit 95 100)
      && fleb (flit 59 10) (fs_entropy s) && fleb (fs_entropy s) (flit 61 10) in
    let random_branch := fgeb (fs_entropy s) (flit 795 100)
      && fleb (fs_monte_carlo_pi_error s) (flit 15 10)
      && (fleb (fs_monte_carlo_pi_error s) (flit 5 10) || fleb (fs_chi_square s) (float_of_Z 400)) in
    if base64_branch then yes "base64_encrypted_looking"
    else if random_branch then yes "high_entropy_encrypted_looking"
    else no "statistics_below_threshold".

Record FileTransition := {
  ft_before : option FileStatistics;
  ft_after : FileStatistics;
  ft_operation : string;
  ft_extension_changed : bool;
  ft_original_deleted : bool;
  ft_rename_over_original : bool;
  ft_canary : bool;
  ft_ransom_note : bool
}.

Definition transition_signals (t : FileTransition) : list DetectionSignal :=
  let after := ft_after t in
  let rose := match ft_before t with
    | None => true | Some b => fgeb (fsub (fs_entropy after) (fs_entropy b)) (float_of_Z 1) end in
  signal_if (fgeb (fs_entropy after) (flit 78 10) && rose) "high_entropy_transition" 35
    "recognizable/lower-entropy content became high entropy"
    [("before_entropy", match ft_before t with Some b => VFloat (fs_entropy b) | None => VNone end);
     ("after_entropy", VFloat (fs_entropy after))]
  ++ signal_if (ft_extension_changed t) "extension_changed" 10 "file extension changed during replacement" []
  ++ signal_if (ft_original_deleted t) "original_deleted" 15
       "original was deleted after a replacement was produced" []
  ++ signal_if (ft_rename_over_original t) "rename_over_original" 20
       "temporary or replacement file was renamed over the original" []
  ++ signal_if (ft_canary t) "protected_canary_modified" 60 "an approved synthetic canary changed" []
  ++ signal_if (ft_ransom_note t) "ransom_note_pattern" 30
       "a synthetic or observed filename matched the configured ransom-note policy" []
  ++ signal_if ((50 * 1024 * 1024 <? fs_size after) && (fs_bytes_sampled after <? fs_size after))
       "large_file_sampled" 5 "large file was analyzed with bounded samples"
       [("size", VInt (fs_size after)); ("sampled", VInt (fs_bytes_sampled after))].
