(* ===== verification/ContainmentFacts.v ===== *)
(** What containment guarantees: only the exact process of a lease is ever
    signalled, every step is an allowed and recorded transition, an expired pause is
    rolled back, and the chain of custody verifies. *)

From S2P Require Import Prelude PyStr PyFloat PyDict PyJson PyTime RansomwareRisk Containment.
From S2P Require Import ContainmentPolicy.

(** ** Coordinator operations *)

Inductive operation := OpPause | OpResume (reason : string) | OpTerminate (reason : string) | OpReconcile.

(** The recorded actions lead from one state to another, each step allowed. *)
Inductive recorded_path : LeaseState -> list action_row -> LeaseState -> Prop :=
| path_nil s : recorded_path s [] s
| path_snoc s acts s' r : recorded_path s acts s' -> ac_previous_state r = s' ->
    ac_new_state r ∈ allowed_transitions s' -> recorded_path s (acts ++ [r]) (ac_new_state r).

(** An action of the lease, under the identifier its step has. *)
Definition action_id (lease : ContainmentLease) (s : LeaseState) (now : string) : string :=
  le_lease_id lease +:+ ":" +:+ lease_state_value s +:+ ":" +:+ now.

Definition action_of (lease : ContainmentLease) (r : action_row) : Prop :=
  ac_action_id r = action_id lease (ac_new_state r) (ac_created_at r).

(** A request the lease entitles the coordinator to send. *)
Definition entitled (lease : ContainmentLease) (q : request * ProcessIdentity) : Prop :=
  matches_exact (le_process lease) q.2 = true
  /\ (q.1 = PauseRequest -> le_criticality lease = "noncritical" /\ le_evidence_state lease = "preserved").

Section CoordinatorFacts.
Context `{ContainmentEnv}.

Definition run_op (op : operation) (lease : ContainmentLease) : M Coordinator ContainmentLease :=
  match op with
  | OpPause => pause lease
  | OpResume reason => resume lease reason
  | OpTerminate reason => terminate lease reason
  | OpReconcile => reconcile lease
  end.

Context (lease : ContainmentLease) (c0 : Coordinator).

(** The lease has got to [l]: recorded step by step, with entitled requests only. *)
Definition reached (l : ContainmentLease) (c : Coordinator) : Prop :=
  l = set_lease_state (le_state l) lease
  /\ (exists acts, c_actions c = c_actions c0 ++ acts /\ recorded_path (le_state lease) acts (le_state l)
        /\ Forall (action_of lease) acts)
  /\ (exists sent, c_requests c = c_requests c0 ++ sent /\ Forall (entitled lease) sent).

Definition stopped (c : Coordinator) : Prop := exists l, reached l c.

Lemma reached_ticks l c c' :
  c_actions c' = c_actions c -> c_requests c' = c_requests c -> reached l c -> reached l c'.
Proof. unfold reached. by intros -> ->. Qed.

Lemma record_reached l s reason :
  triple (reached l) (record_transition l s reason)
    (fun l' c => l' = set_lease_state s l /\ reached l' c) (fun _ => stopped).
Proof.
  intros c Hc. assert (Hstop : forall c', c_actions c' = c_actions c -> c_requests c' = c_requests c -> stopped c').
  { intros c' Ha Hr. exists l. by apply reached_ticks with c. }
  unfold record_transition, mbind, M_bind, lift_res, clock_now, lease_transition.
  destruct (decide _) as [Hallowed|]; [|by apply Hstop].
  destruct (identity_json _) as [text|]; [|by apply Hstop].
  unfold store_transition. cbn -[append_chain_entry isoformat_utc]. destruct (evidence_ok _); [|by apply Hstop].
  cbn -[append_chain_entry isoformat_utc]. destruct (existsb _ _); [by apply Hstop|].
  assert (Hnew : forall c', c_actions c' = c_actions c ++ [{|
      ac_action_id := le_lease_id l +:+ ":" +:+ lease_state_value s +:+ ":" +:+ isoformat_utc (containment_clock (c_ticks c));
      ac_lease_id := le_lease_id l; ac_previous_state := le_state l; ac_new_state := s; ac_actor := le_owner l;
      ac_reason := reason; ac_created_at := isoformat_utc (containment_clock (c_ticks c)) |}] ->
    c_requests c' = c_requests c -> reached (set_lease_state s l) c').
  { intros c' Ha Hr. destruct Hc as (Hl & (acts & Hacts & Hpath & Hnamed) & Hsent). split; [by rewrite Hl|]. split.
    - eexists. split; [by rewrite Ha, Hacts, <- app_assoc|]. split; [by eapply path_snoc|].
      apply Forall_app. split; [done|]. constructor; [|done]. unfold action_of. cbn -[isoformat_utc]. by rewrite Hl.
    - by rewrite Hr. }
  unfold append_chain_entry, mbind, M_bind, lift_res.
  destruct (json_dumps _ _) as [details|]; [|by eexists; apply Hnew].
  unfold append_row. cbn -[isoformat_utc].
  destruct (evidence_ok _); cbn -[isoformat_utc]; [|by eexists; apply Hnew]. split; [done|]. by apply Hnew.
Qed.

Lemma send_reached l kind p :
  entitled lease (kind, p) -> triple (reached l) (send kind p) (fun _ => reached l) (fun _ => stopped).
Proof.
  intros Hent c (Hl & Hacts & sent & Hsent & HF).
  assert (Hafter : forall c', c_actions c' = c_actions c -> c_requests c' = c_requests c ++ [(kind, p)] -> reached l c').
  { intros c' Ha Hr. split; [done|]. split; [by rewrite Ha|]. exists (sent ++ [(kind, p)]).
    split; [by rewrite Hr, Hsent, <- app_assoc|]. apply Forall_app. split; [done|by constructor]. }
  unfold send. cbn zeta. destruct ((match kind with PauseRequest => pause_exact | ResumeRequest => resume_exact
    | TerminateRequest => terminate_exact end) p (c_native c)) as [ok n]. by apply Hafter.
Qed.

Lemma send_verified_reached l kind p want :
  entitled lease (kind, p) -> triple (reached l) (send_verified kind p want) (fun _ => reached l) (fun _ => stopped).
Proof.
  intros Hent. unfold send_verified. eapply triple_bind; [by apply send_reached|].
  intros [|] c Hc; exact Hc.
Qed.

Lemma look_up_reached l pid : triple (reached l) (look_up pid) (fun _ => reached l) (fun _ => stopped).
Proof. by intros c Hc. Qed.

Lemma clock_reached l : triple (reached l) clock_now (fun _ => reached l) (fun _ => stopped).
Proof. intros c Hc. by apply reached_ticks with c. Qed.

Lemma ret_reached l : triple (reached l) (mret l) (fun l' c => reached l' c) (fun _ => stopped).
Proof. by intros c Hc. Qed.

Lemma last_record l s reason :
  triple (reached l) (record_transition l s reason) (fun l' c => reached l' c) (fun _ => stopped).
Proof. eapply triple_weaken; [apply record_reached|done| |done]. by intros l' c [_ ?]. Qed.

(** A recorded step, then the rest on the lease in its new state. *)
Lemma then_record {A} l s reason (k : ContainmentLease -> M Coordinator A) Q :
  triple (reached (set_lease_state s l)) (k (set_lease_state s l)) Q (fun _ => stopped) ->
  triple (reached l) (record_transition l s reason ≫= k) Q (fun _ => stopped).
Proof. intros Hk. eapply triple_bind; [apply record_reached|]. intros l' c [-> Hc]. by apply Hk. Qed.

(** A verified request decides between two last steps. *)
Lemma verified_then_record l kind p want s1 r1 s2 r2 :
  entitled lease (kind, p) ->
  triple (reached l) (verified ← send_verified kind p want;
                      if (verified : bool) then record_transition l s1 r1 else record_transition l s2 r2)
    (fun l' c => reached l' c) (fun _ => stopped).
Proof.
  intros Hent. eapply triple_bind; [by apply send_verified_reached|]. intros [|]; apply last_record.
Qed.

Lemma not_pause_entitled kind p : kind <> PauseRequest -> matches_exact (le_process lease) p = true ->
  entitled lease (kind, p).
Proof. intros Hk Hp. split; [done|]. intros E. by destruct Hk. Qed.

Lemma pause_reached : triple (reached lease) (pause lease) (fun l' c => reached l' c) (fun _ => stopped).
Proof.
  unfold pause. apply then_record. eapply triple_bind; [apply look_up_reached|]. intros live.
  unfold exact_match. destruct live as [p|]; [|apply last_record].
  destruct (matches_exact _ p) eqn:Hp; [|apply last_record]. simpl.
  destruct (String.eqb_spec (le_criticality lease) "noncritical"); [|apply last_record].
  destruct (String.eqb_spec (le_evidence_state lease) "preserved"); [|apply last_record].
  apply then_record, then_record. by apply verified_then_record.
Qed.

Lemma resume_reached reason : triple (reached lease) (resume lease reason) (fun l' c => reached l' c) (fun _ => stopped).
Proof.
  unfold resume. apply then_record. eapply triple_bind; [apply look_up_reached|]. intros [p|]; [|apply last_record].
  simpl. destruct (matches_exact (le_process lease) p) eqn:Hp; [|apply last_record].
  by apply verified_then_record, not_pause_entitled.
Qed.

Lemma terminate_reached reason :
  triple (reached lease) (terminate lease reason) (fun l' c => reached l' c) (fun _ => stopped).
Proof.
  unfold terminate. apply then_record. eapply triple_bind; [apply look_up_reached|]. intros [p|]; [|apply last_record].
  simpl. destruct (matches_exact (le_process lease) p) eqn:Hp; [|apply last_record].
  eapply triple_bind; [by apply send_reached, not_pause_entitled|]. intros [|]; apply last_record.
Qed.

Lemma rollback_reached l p : matches_exact (le_process lease) p = true ->
  triple (reached l) (rollback_to l p) (fun l' c => reached l' c) (fun _ => stopped).
Proof.
  intros Hp. unfold rollback_to. destruct (String.eqb _ _).
  - by apply verified_then_record, not_pause_entitled.
  - eapply triple_bind with (R := fun _ => reached l); [by intros c Hc|]. intros [|]; apply last_record.
Qed.

Lemma maybe_record (b : bool) l s reason :
  triple (reached l) (if b then record_transition l s reason else mret l) (fun l' c => reached l' c) (fun _ => stopped).
Proof. destruct b; [apply last_record|apply ret_reached]. Qed.

Lemma reconcile_reached : triple (reached lease) (reconcile lease) (fun l' c => reached l' c) (fun _ => stopped).
Proof.
  unfold reconcile. destruct (negb _); [apply ret_reached|].
  eapply triple_bind; [apply look_up_reached|]. intros [p|]; [|apply last_record].
  destruct (matches_exact (le_process lease) p) eqn:Hp; simpl.
  - eapply triple_bind; [apply clock_reached|]. intros now.
    eapply triple_bind; [apply maybe_record|]. intros l1. eapply triple_bind.
    { destruct (decide _); [apply last_record|apply ret_reached]. }
    intros l2. destruct (decide _); [by apply rollback_reached|apply ret_reached].
  - unfold reconcile_mismatch. destruct (decide _); [apply last_record|]. destruct (decide _); [|apply ret_reached].
    apply then_record, last_record.
Qed.

Lemma run_op_reached op : triple (reached lease) (run_op op lease) (fun l' c => reached l' c) (fun _ => stopped).
Proof.
  destruct op; [apply pause_reached|apply resume_reached|apply terminate_reached|apply reconcile_reached].
Qed.

Lemma reached_start : reached lease c0.
Proof.
  split; [by destruct lease|]. split.
  - exists []. rewrite app_nil_r. split; [done|]. by split; constructor.
  - exists []. by rewrite app_nil_r.
Qed.
End CoordinatorFacts.

(** C25. Only the exact process of the lease is ever signalled: whatever the native
    boundary reports, every request an operation sends names a process that matches
    the lease on all its identity fields, and a pause is only requested for a
    non-critical process whose evidence is preserved. A reused pid is never touched. *)
Theorem only_exact_process_signalled `{ContainmentEnv} (op : operation) (lease : ContainmentLease) (c c' : Coordinator) r :
  run_op op lease c = (r, c') ->
  exists sent, c_requests c' = c_requests c ++ sent /\ Forall (entitled lease) sent.
Proof.
  intros Hrun. pose proof (run_op_reached lease c op c (reached_start lease c)) as Ht. rewrite Hrun in Ht.
  destruct r as [l'|e]; [by destruct Ht as (_ & _ & Hsent)|by destruct Ht as (l & _ & _ & Hsent)].
Qed.

(** C26. Every operation walks the lease state machine and records each step: the
    actions appended to the journal form a path of allowed transitions from the
    lease's state to that of the returned lease, which differs in nothing else;
    also when an operation fails half way, what is recorded is such a path. *)
Theorem transitions_recorded `{ContainmentEnv} (op : operation) (lease : ContainmentLease) (c c' : Coordinator) r :
  run_op op lease c = (r, c') ->
  exists acts s, c_actions c' = c_actions c ++ acts /\ recorded_path (le_state lease) acts s
    /\ match r with Ok l' => l' = set_lease_state s lease | Raise _ => True end.
Proof.
  intros Hrun. pose proof (run_op_reached lease c op c (reached_start lease c)) as Ht. rewrite Hrun in Ht.
  destruct r as [l'|e].
  - destruct Ht as (Hl & (acts & Hacts & Hpath & _) & _). by exists acts, (le_state l').
  - destruct Ht as (l & _ & (acts & Hacts & Hpath & _) & _). by exists acts, (le_state l).
Qed.

(** A concrete host: one process table entry that can be paused and resumed. *)
Definition demo_process : ProcessIdentity := {|
  pi_pid := 42; pi_pid_version := 1; pi_executable_path := "/tmp/x"; pi_executable_sha256 := "aa";
  pi_effective_uid := 501; pi_boot_session_id := "boot"; pi_parent_pid := None; pi_responsible_pid := None;
  pi_signing_id := ""; pi_team_id := ""; pi_script_path := ""; pi_script_sha256 := ""; pi_platform_binary := false;
  pi_notarized := None; pi_audit_token_hash := "tok"; pi_executable_file_id := "1:2"; pi_cdhash := "cd";
  pi_process_start_time_ns := 7 |}.

Definition host_env : ContainmentEnv := {|
  containment_platform := plain_env;
  native := bool;
  live_identity := fun pid _ => if pid =? 42 then Some demo_process else None;
  pause_exact := fun _ _ => (true, true);
  resume_exact := fun _ _ => (true, false);
  terminate_exact := fun _ n => (true, n);
  is_paused := fun _ n => n;
  containment_clock := fun n => 1784376000000000 + Z.of_nat n;
  evidence_ok := fun _ => true
|}.

Definition demo_lease (s : LeaseState) : ContainmentLease := {|
  le_lease_id := "lease-1"; le_incident_id := "incident-1"; le_process := demo_process; le_state := s;
  le_started_at := {| local_us := 1784367000000000; utc_off := Some 0 |};
  le_expires_at := {| local_us := 1784368800000000; utc_off := Some 0 |};
  le_policy := "default"; le_owner := "engine"; le_rollback_action := "resume"; le_renewal_count := 0;
  le_maximum_renewal := 0; le_no_user_policy := "PAUSE_BOUNDED_THEN_RESUME"; le_criticality := "noncritical";
  le_evidence_state := "preserved" |}.

Definition host_coordinator (paused : bool) : Coordinator (H := host_env) :=
  {| c_native := paused : @native host_env; c_requests := []; c_leases := []; c_actions := []; c_chain := []; c_ticks := 0 |}.

Definition paused_run := run_op (H := host_env) OpPause (demo_lease REQUESTED) (host_coordinator false).

Example pause_reaches_paused : le_state <$> match paused_run.1 with Ok l => Some l | Raise _ => None end = Some PAUSED.
Proof. by vm_compute. Qed.

Lemma only_exact_process_signalled_witness :
  exists sent, c_requests paused_run.2 = [] ++ sent /\ Forall (entitled (demo_lease REQUESTED)) sent.
Proof.
  apply (@only_exact_process_signalled host_env OpPause (demo_lease REQUESTED) (host_coordinator false)
    paused_run.2 paused_run.1). unfold paused_run. by destruct (run_op _ _ _).
Defined.

Lemma transitions_recorded_witness :
  exists acts s, c_actions paused_run.2 = [] ++ acts /\ recorded_path REQUESTED acts s
    /\ match paused_run.1 with Ok l' => l' = set_lease_state s (demo_lease REQUESTED) | Raise _ => True end.
Proof.
  apply (@transitions_recorded host_env OpPause (demo_lease REQUESTED) (host_coordinator false)
    paused_run.2 paused_run.1). unfold paused_run. by destruct (run_op _ _ _).
Defined.

(** ** A bounded pause ends *)

Lemma eqb_app_l (a b c : string) : String.eqb (a +:+ b) (a +:+ c) = String.eqb b c.
Proof.
  induction a as [|x a IH]; [done|].
  change (String.eqb (String x (a +:+ b)) (String x (a +:+ c)) = String.eqb b c).
  simpl. by rewrite Ascii.eqb_refl.
Qed.

Section Rollback.
Context `{ContainmentEnv}.
Context (Hstore : forall n, evidence_ok n = true).

Definition action_fresh (lease : ContainmentLease) (s : LeaseState) (c : Coordinator) : Prop :=
  forall now, existsb (fun r => String.eqb (ac_action_id r) (action_id lease s now)) (c_actions c) = false.

(** With a working evidence store an allowed, fresh step is always taken. *)
Lemma record_step lease s reason c :
  s ∈ allowed_transitions (le_state lease) -> action_fresh lease s c ->
  exists c', record_transition lease s reason c = (Ok (set_lease_state s lease), c')
    /\ c_native c' = c_native c /\ c_requests c' = c_requests c
    /\ exists now, c_actions c' = c_actions c ++ [{|
         ac_action_id := le_lease_id lease +:+ ":" +:+ lease_state_value s +:+ ":" +:+ now;
         ac_lease_id := le_lease_id lease; ac_previous_state := le_state lease; ac_new_state := s;
         ac_actor := le_owner lease; ac_reason := reason; ac_created_at := now |}].
Proof.
  intros Hs Hfresh. unfold action_fresh, action_id in Hfresh. unfold record_transition, mbind, M_bind, lift_res, clock_now, lease_transition.
  rewrite decide_True by done. cbn -[identity_json store_transition append_chain_entry isoformat_utc].
  assert (Hjson : exists text, identity_json (le_process lease) = Ok text).
  { unfold identity_json. assert (Hok : is_ok (json_dumps compact_style (VDict (identity_dict (le_process lease)))) = true).
    { apply json_dumps_ok. simpl. by destruct (pi_parent_pid _), (pi_responsible_pid _), (pi_notarized _). }
    destruct (json_dumps _ _) as [text|]; [by exists text|done]. }
  destruct Hjson as [text Htext]. rewrite Htext. unfold store_transition.
  cbn -[append_chain_entry isoformat_utc]. rewrite Hstore. cbn -[append_chain_entry isoformat_utc].
  rewrite Hfresh. unfold append_chain_entry, mbind, M_bind, lift_res.
  match goal with |- context [json_dumps compact_style ?v] =>
    assert (Hok : is_ok (json_dumps compact_style v) = true) by by apply json_dumps_ok;
    destruct (json_dumps compact_style v) as [details|]; [|done] end.
  unfold append_row. cbn -[isoformat_utc]. rewrite Hstore. eexists. split; [done|].
  cbn -[isoformat_utc]. split; [done|]. split; [done|]. by eexists.
Qed.

Definition rollback_states : list LeaseState := [LEASE_EXPIRED; ROLLBACK_REQUESTED; ROLLED_BACK; FAILED].

Lemma ids_apart lease s s' a b : s <> s' -> s' ∈ rollback_states ->
  String.eqb (action_id lease s a) (action_id lease s' b) = false.
Proof.
  intros Hne Hs'. unfold action_id. rewrite eqb_app_l, (eqb_app_l ":").
  repeat (apply elem_of_cons in Hs' as [->|Hs']); [..|inversion Hs']; by destruct s.
Qed.

Lemma fresh_after lease s s' c c' now reason : s <> s' -> s' ∈ rollback_states -> action_fresh lease s' c ->
  c_actions c' = c_actions c ++ [{|
    ac_action_id := le_lease_id lease +:+ ":" +:+ lease_state_value s +:+ ":" +:+ now;
    ac_lease_id := le_lease_id lease; ac_previous_state := le_state lease; ac_new_state := s;
    ac_actor := le_owner lease; ac_reason := reason; ac_created_at := now |}] ->
  action_fresh (set_lease_state s lease) s' c'.
Proof.
  intros Hne Hs' Hfresh Ha now'. change (action_id (set_lease_state s lease) s' now') with (action_id lease s' now').
  rewrite Ha, existsb_app, Hfresh. cbn [existsb ac_action_id orb].
  change (le_lease_id lease +:+ _) with (action_id lease s now). by rewrite ids_apart.
Qed.

(** The rows say nothing of the lease. *)
Definition unmentioned (lease : ContainmentLease) (rows : list action_row) : Prop :=
  Forall (fun r => ~ exists x, ac_action_id r = le_lease_id lease +:+ ":" +:+ x) rows.

Lemma unmentioned_fresh lease s now rows : unmentioned lease rows ->
  existsb (fun r => String.eqb (ac_action_id r) (action_id lease s now)) rows = false.
Proof.
  intros Hr. apply not_true_iff_false. intros (r & Hin & Heq%String.eqb_eq)%existsb_exists.
  unfold unmentioned in Hr. rewrite Forall_forall in Hr. apply (Hr r); [by apply list_elem_of_In|]. by eexists.
Qed.

(** A path that ends in a pause never was past it. *)
Definition pausing_states : list LeaseState := [REQUESTED; VALIDATING; EVIDENCE_PRESERVED; PAUSE_REQUESTED; PAUSED].

Lemma paused_path s acts s' : recorded_path s acts s' -> s' ∈ pausing_states ->
  Forall (fun r => ac_new_state r ∈ pausing_states) acts.
Proof.
  induction 1 as [|s acts s' r Hpath IH Hprev Hallowed]; [constructor|]. intros Hr. apply Forall_app. split; [|by constructor].
  apply IH. pose proof (bool_decide_eq_true_2 _ Hallowed) as Ha. pose proof (bool_decide_eq_true_2 _ Hr) as Hn.
  apply (bool_decide_eq_true_1 _). destruct (ac_new_state r); try done; by destruct s'.
Qed.

(** A pause leaves the steps of the rollback to be recorded. *)
Lemma pause_fresh lease paused c0 c1 c others s : unmentioned lease (c_actions c0) ->
  pause lease c0 = (Ok paused, c1) -> le_state paused = PAUSED -> c_actions c = c_actions c1 ++ others ->
  unmentioned lease others -> s ∈ rollback_states -> action_fresh lease s c.
Proof.
  intros H0 Hrun Hp Hc Hothers Hs now.
  pose proof (pause_reached lease c0 c0 (reached_start lease c0)) as Ht. rewrite Hrun in Ht.
  destruct Ht as (_ & (acts & Hacts & Hpath & Hnamed) & _). rewrite Hp in Hpath.
  rewrite Hc, Hacts, !existsb_app, (unmentioned_fresh lease s now _ H0), (unmentioned_fresh lease s now _ Hothers), orb_false_r.
  cbn [orb]. assert (Forall (fun r => ac_new_state r ∈ pausing_states) acts) as Hbefore
    by (apply (paused_path _ _ _ Hpath), (bool_decide_unpack _); by vm_compute).
  apply not_true_iff_false. intros (r & Hin%list_elem_of_In & Heq)%existsb_exists.
  rewrite Forall_forall in Hnamed, Hbefore. rewrite (Hnamed r Hin), ids_apart in Heq; [done| |done].
  intros Hr. pose proof (bool_decide_eq_true_2 _ (Hbefore r Hin)) as Hb. pose proof (bool_decide_eq_true_2 _ Hs) as Hr'.
  rewrite Hr in Hb. by destruct s.
Qed.

(** The bounded rollback of a fresh lease: two recorded steps, at most one request, and the
    verdict of the boundary. *)
Definition resumed (live : ProcessIdentity) (c : Coordinator) : bool :=
  (resume_exact live (c_native c)).1 && negb (is_paused live (resume_exact live (c_native c)).2).

Lemma rollback_request lease live c : le_rollback_action lease = "resume" ->
  exists c', send_verified ResumeRequest live false c = (Ok (resumed live c), c')
    /\ c_requests c' = c_requests c ++ [(ResumeRequest, live)] /\ c_actions c' = c_actions c.
Proof.
  intros _. unfold send_verified, send, resumed, mbind, M_bind. destruct (resume_exact live (c_native c)) as [[|] n];
    unfold paused_now, gets, mret, M_ret; cbn; [destruct (is_paused live n)|]; eexists; (split; [reflexivity|by split]).
Qed.

Lemma rollback_runs lease live c : le_state lease = ROLLBACK_REQUESTED ->
  action_fresh lease ROLLED_BACK c -> action_fresh lease FAILED c ->
  let back := String.eqb (le_rollback_action lease) "resume" && resumed live c in
  exists c', rollback_to lease live c = (Ok (set_lease_state (if back then ROLLED_BACK else FAILED) lease), c')
    /\ c_requests c' = c_requests c ++ (if String.eqb (le_rollback_action lease) "resume" then [(ResumeRequest, live)] else []).
Proof.
  intros Hst Hr Hf back. unfold rollback_to.
  assert (exists c1, (if String.eqb (le_rollback_action lease) "resume" then send_verified ResumeRequest live false
      else mret false) c = (Ok back, c1) /\ c_actions c1 = c_actions c
      /\ c_requests c1 = c_requests c ++ (if String.eqb (le_rollback_action lease) "resume" then [(ResumeRequest, live)] else []))
    as (c1 & Hrun & Ha & Hq).
  { unfold back. destruct (String.eqb_spec (le_rollback_action lease) "resume") as [He|He].
    - destruct (rollback_request lease live c He) as (c1 & H1 & H2 & H3). by exists c1.
    - exists c. by rewrite app_nil_r. }
  unfold mbind at 1, M_bind at 1. rewrite Hrun. cbv beta iota.
  set (final := if back then ROLLED_BACK else FAILED).
  assert (final ∈ allowed_transitions (le_state lease)) as Hal by (rewrite Hst; unfold final; destruct back; cbn; set_solver).
  assert (action_fresh lease final c1) as Hfresh by (intros now; rewrite Ha; unfold final; destruct back; [apply Hr|apply Hf]).
  destruct (record_step lease final (if back then "rollback_verified" else "rollback_failed") c1 Hal Hfresh) as (c2 & Hrec & _ & Hq2 & _).
  exists c2. split; [|by rewrite Hq2]. rewrite <- Hrec. unfold final. by destruct back.
Qed.

(** Reconciliation of an expired pause. *)
Lemma expired_reconciled lease live c : le_state lease = PAUSED -> (forall s, s ∈ rollback_states -> action_fresh lease s c) ->
  live_identity (pi_pid (le_process lease)) (c_native c) = Some live -> matches_exact (le_process lease) live = true ->
  lease_expired lease (containment_clock (c_ticks c)) = true ->
  let action := String.eqb (le_rollback_action lease) "resume" in
  exists c', reconcile lease c = (Ok (set_lease_state (if action && resumed live c then ROLLED_BACK else FAILED) lease), c')
    /\ c_requests c' = c_requests c ++ (if action then [(ResumeRequest, live)] else []).
Proof.
  intros Hstate Hfresh Hlive Hmatch Hexp action.
  unfold reconcile. rewrite bool_decide_true by (rewrite Hstate; unfold reconciled_states; set_solver). cbn [negb].
  cbv iota. unfold look_up, mbind at 1, M_bind at 1, gets at 1. cbv beta iota. rewrite Hlive, Hmatch. cbn [negb]. cbv iota.
  unfold mbind at 1, M_bind at 1, clock_now at 1. cbv beta iota.
  rewrite Hexp, bool_decide_true by (rewrite Hstate; set_solver). cbn [andb]. cbv iota.
  set (c1 := {| c_native := c_native c; c_requests := c_requests c; c_leases := c_leases c; c_actions := c_actions c;
                c_chain := c_chain c; c_ticks := S (c_ticks c) |}).
  destruct (record_step lease LEASE_EXPIRED "lease_expired" c1) as (c2 & Hrun2 & Hn2 & Hr2 & now2 & Ha2).
  { rewrite Hstate. simpl. set_solver. }
  { apply Hfresh. unfold rollback_states. set_solver. }
  unfold mbind at 1, M_bind at 1. rewrite Hrun2. cbv beta iota. set (l2 := set_lease_state LEASE_EXPIRED lease) in *.
  rewrite decide_True by done.
  assert (forall s, s ∈ rollback_states -> s <> LEASE_EXPIRED -> action_fresh l2 s c2) as Hf2.
  { intros s Hs Hne. apply (fresh_after lease LEASE_EXPIRED s c1 c2 now2 "lease_expired"); [congruence|done|by apply Hfresh|exact Ha2]. }
  destruct (record_step l2 ROLLBACK_REQUESTED "bounded_rollback_requested" c2) as (c3 & Hrun3 & Hn3 & Hr3 & now3 & Ha3).
  { simpl. set_solver. }
  { apply Hf2; [unfold rollback_states; set_solver|done]. }
  unfold mbind at 1, M_bind at 1. rewrite Hrun3. cbv beta iota. set (l3 := set_lease_state ROLLBACK_REQUESTED l2) in *.
  rewrite decide_True by done.
  assert (forall s, s ∈ [ROLLED_BACK; FAILED] -> action_fresh l3 s c3) as Hf3.
  { intros s Hs. apply (fresh_after l2 ROLLBACK_REQUESTED s c2 c3 now3 "bounded_rollback_requested");
      [set_solver|unfold rollback_states; set_solver|apply Hf2; [unfold rollback_states|]; set_solver|exact Ha3]. }
  destruct (rollback_runs l3 live c3 eq_refl (Hf3 ROLLED_BACK ltac:(set_solver)) (Hf3 FAILED ltac:(set_solver)))
    as (c4 & Hrun4 & Hr4).
  exists c4. rewrite Hr4, Hr3, Hr2, Hrun4. unfold resumed. by rewrite Hn3, Hn2.
Qed.
End Rollback.

(** C27. A bounded pause ends: when a process was paused under a lease, and later, whatever
    else the coordinator recorded for other leases, the lease is expired and the process it
    names exactly still exists, reconciliation ends the lease. It sends the one request to
    resume that very process exactly when the rollback action of the lease is to resume; the
    lease is rolled back when the boundary reports the process resumed and no longer paused,
    and failed otherwise. The evidence store is taken to work. *)
Theorem expired_pause_rolled_back `{ContainmentEnv} (lease paused : ContainmentLease) (live : ProcessIdentity)
    (c0 c1 c : Coordinator) (others : list action_row) :
  (forall n, evidence_ok n = true) -> unmentioned lease (c_actions c0) ->
  pause lease c0 = (Ok paused, c1) -> le_state paused = PAUSED ->
  c_actions c = c_actions c1 ++ others -> unmentioned lease others ->
  live_identity (pi_pid (le_process lease)) (c_native c) = Some live -> matches_exact (le_process lease) live = true ->
  lease_expired lease (containment_clock (c_ticks c)) = true ->
  let action := String.eqb (le_rollback_action lease) "resume" in
  exists c', reconcile paused c = (Ok (set_lease_state (if action && resumed live c then ROLLED_BACK else FAILED) lease), c')
    /\ c_requests c' = c_requests c ++ (if action then [(ResumeRequest, live)] else []).
Proof.
  intros Hstore H0 Hrun Hp Hc Hothers Hlive Hmatch Hexp action.
  pose proof (pause_reached lease c0 c0 (reached_start lease c0)) as Ht. rewrite Hrun in Ht. destruct Ht as [Hl _].
  rewrite Hp in Hl. subst paused.
  apply (expired_reconciled Hstore (set_lease_state PAUSED lease) live c); try done.
  intros s Hs. exact (pause_fresh lease _ c0 c1 c others s H0 Hrun Hp Hc Hothers Hs).
Qed.

(** The host after the pause, at a time when the lease is over. *)
Abbreviation pause_result := (pause (H := host_env) (demo_lease REQUESTED) (host_coordinator false)).
Abbreviation paused_host := (snd pause_result).

Lemma pair_of {A B} (p : A * B) a : p.1 = a -> p = (a, p.2).
Proof. destruct p as [x y]. by intros <-. Qed.

Lemma paused_run_eq : pause_result = (Ok (demo_lease PAUSED), paused_host).
Proof. apply pair_of. vm_compute. reflexivity. Qed.

Lemma expired_pause_rolled_back_witness : zlen (c_actions paused_host) = 4 /\
  exists c', reconcile (H := host_env) (demo_lease PAUSED) paused_host
      = (Ok (set_lease_state ROLLED_BACK (demo_lease REQUESTED)), c')
    /\ c_requests c' = c_requests paused_host ++ [(ResumeRequest, demo_process)].
Proof.
  split; [vm_compute; reflexivity|].
  apply (@expired_pause_rolled_back host_env (demo_lease REQUESTED) (demo_lease PAUSED) demo_process (host_coordinator false)
    paused_host paused_host []); [done|constructor|exact paused_run_eq|done|by rewrite app_nil_r|constructor|..]; vm_compute; reflexivity.
Defined.

(** Reconciliation leaves some paused processes behind: a lease caught by a crash
    while a pause, resume or termination was being carried out, or whose
    termination failed, is returned as it is, expired or not, and nothing is sent
    to the process. *)
Theorem interrupted_lease_not_reconciled `{ContainmentEnv} (lease : ContainmentLease) (c : Coordinator) :
  le_state lease ∈ [PAUSE_REQUESTED; PAUSE_FAILED; RESUME_REQUESTED; TERMINATE_REQUESTED; TERMINATE_FAILED; FAILED] ->
  reconcile lease c = (Ok lease, c).
Proof.
  intros Hstate. unfold reconcile. rewrite bool_decide_false; [done|]. unfold reconciled_states.
  intros Hin. assert (Hs := bool_decide_eq_true_2 _ Hstate). assert (Hi := bool_decide_eq_true_2 _ Hin).
  by destruct (le_state lease).
Qed.

Lemma interrupted_lease_not_reconciled_witness :
  lease_expired (demo_lease TERMINATE_FAILED) (containment_clock (ContainmentEnv := host_env) 0) = true /\
  reconcile (H := host_env) (demo_lease TERMINATE_FAILED) (host_coordinator true)
    = (Ok (demo_lease TERMINATE_FAILED), host_coordinator true).
Proof.
  split; [by vm_compute|].
  apply (@interrupted_lease_not_reconciled host_env (demo_lease TERMINATE_FAILED) (host_coordinator true)).
  by apply (bool_decide_unpack _).
Defined.

(** ** The chain of custody *)

Section CustodyFacts.
Context `{PlatformEnv}.

Lemma verify_custody_snoc previous l r :
  verify_custody previous (l ++ [r]) = verify_custody previous l
    && verify_custody (default previous (cu_entry_hash <$> last l)) [r].
Proof.
  revert previous. induction l as [|x l IH]; intros previous; [done|].
  simpl app. cbn [verify_custody]. destruct (_ || _); [done|]. rewrite IH.
  rewrite last_cons. by destruct (last l).
Qed.

Lemma custody_entry_verifies previous incident_id created_at actor action object_id details_json :
  verify_custody previous [custody_entry previous incident_id created_at actor action object_id details_json] = true.
Proof. unfold verify_custody, custody_entry. cbn -[custody_material]. by rewrite !String.eqb_refl. Qed.
End CustodyFacts.

(** The chain of custody stays verifiable: appending an entry to a chain that
    verifies gives one that does; and if a chain still verifies after an entry was
    removed from its middle, the removed entry's hash was that of the entry before. *)
Theorem custody_chain_sound `{PlatformEnv} (chain before after : list custody_row) (r : custody_row)
    incident_id created_at actor action object_id details_json :
  verify_custody genesis chain = true ->
  verify_custody genesis (chain ++ [custody_entry (last_custody_hash chain) incident_id created_at actor action
                                      object_id details_json]) = true
  /\ (chain = before ++ r :: after -> after <> [] -> verify_custody genesis (before ++ after) = true ->
      cu_entry_hash r = last_custody_hash before).
Proof.
  intros Hchain. split.
  - rewrite verify_custody_snoc, Hchain. fold (last_custody_hash chain). apply custody_entry_verifies.
  - intros -> Hafter Hcut. destruct after as [|x after]; [done|].
    assert (Hprev : forall p l k y, verify_custody p (l ++ y :: k) = true ->
      cu_previous_hash y = default p (cu_entry_hash <$> last l)).
    { intros p l. revert p. induction l as [|z l IH]; intros p k y Hv.
      - simpl in Hv. destruct (String.eqb_spec (cu_previous_hash y) p); [done|done].
      - simpl app in Hv. cbn [verify_custody] in Hv. destruct (_ || _); [done|]. apply IH in Hv.
        rewrite Hv, last_cons. by destruct (last l). }
    pose proof (Hprev _ _ _ _ Hcut) as H1.
    change (before ++ r :: x :: after) with (before ++ [r] ++ x :: after) in Hchain.
    rewrite app_assoc in Hchain. pose proof (Hprev _ _ _ _ Hchain) as H2. rewrite last_snoc in H2. simpl in H2.
    rewrite <- H2, H1. done.
Qed.

Definition demo_chain : list custody_row :=
  [custody_entry (H := plain_env) genesis "i" "t1" "engine" "a" "o" "{}"].

Definition demo_row (n : string) : custody_row := custody_entry (H := plain_env) genesis "i" n "engine" "a" "o" "{}".

Lemma custody_chain_sound_witness :
  verify_custody (H := plain_env) genesis (demo_chain ++ [custody_entry (H := plain_env)
    (last_custody_hash demo_chain) "i" "t2" "engine" "b" "o" "{}"]) = true
  /\ (demo_chain = [demo_row "t1"] ++ demo_row "t2" :: [] -> ([] : list custody_row) <> [] ->
      verify_custody (H := plain_env) genesis ([demo_row "t1"] ++ []) = true ->
      cu_entry_hash (demo_row "t2") = last_custody_hash [demo_row "t1"]).
Proof.
  apply (@custody_chain_sound plain_env demo_chain [demo_row "t1"] [] (demo_row "t2")). by vm_compute.
Defined.

(** The chain of custody does not tie its fields down: the hashed text joins them
    with a bar that may occur inside them, so part of an actor's name can be moved
    into the action (or back) without changing the entry's hash, and the edited
    chain still verifies. *)
Theorem custody_fields_not_bound `{PlatformEnv} previous incident_id created_at actor moved action object_id details :
  let original := custody_entry previous incident_id created_at (actor +:+ "|" +:+ moved) action object_id details in
  let edited := {| cu_incident_id := incident_id; cu_created_at := created_at; cu_actor := actor;
    cu_action := moved +:+ "|" +:+ action; cu_object_id := object_id; cu_previous_hash := previous;
    cu_entry_hash := cu_entry_hash original; cu_details_json := details |} in
  original <> edited /\ verify_custody previous [original] = true /\ verify_custody previous [edited] = true.
Proof.
  cbn zeta. assert (Hmat : custody_material previous incident_id created_at actor (moved +:+ "|" +:+ action) object_id details
    = custody_material previous incident_id created_at (actor +:+ "|" +:+ moved) action object_id details).
  { unfold custody_material, join. by rewrite !string_app_assoc. }
  split; [|split].
  - intros Heq. apply (f_equal cu_action) in Heq. simpl in Heq. apply (f_equal String.length) in Heq.
    rewrite !length_string_app in Heq. simpl in Heq. lia.
  - apply custody_entry_verifies.
  - unfold verify_custody, custody_entry. cbn -[custody_material String.append]. rewrite Hmat. by rewrite !String.eqb_refl.
Qed.

(** ** One-shot authorization *)

(** Every blocked request looks alike: nothing asked, nothing performed. *)
Ltac refuse := split; [split; [intros [? _]; done|intros (? & ? & ? & ? & ? & ?); first [done|lia|congruence]]
  |split; [by left|done]].

(** A helper is asked to act exactly when the request is aware and unexpired, names
    the live process on every identity field, comes with preserved evidence, asks for
    an action, and is not held back by critical continuity; it is asked once, for
    that action on that process, and only its success is reported as performed. *)
Theorem authorized_exactly (request : ContainmentRequest) (live : ProcessIdentity) (now : Z) perform :
  let outcome := authorize_containment request live now (Some perform) in
  (outcome.2 = [(cr_action request, live)] /\ re_action_performed outcome.1 = perform (cr_action request) live
   <-> aware (cr_expires_at request) = true /\ now < instant (cr_expires_at request)
       /\ matches_exact (cr_expected_identity request) live = true /\ cr_evidence_id request <> ""
       /\ cr_action request <> OBSERVE_ONLY /\ cr_critical_continuity request = false)
  /\ (outcome.2 = [] \/ outcome.2 = [(cr_action request, live)])
  /\ (outcome.2 = [] -> re_action_performed outcome.1 = false)
  /\ (authorize_containment request live now None).2 = [].
Proof.
  cbn zeta. unfold authorize_containment, truthy.
  destruct (aware (cr_expires_at request)); cbn [negb orb]; [|by refuse].
  destruct (Z.leb_spec (instant (cr_expires_at request)) now); [by refuse|].
  destruct (matches_exact _ _); cbn [negb]; [|by refuse].
  destruct (String.eqb_spec (cr_evidence_id request) ""); cbn [negb]; [by refuse|].
  destruct (decide (cr_action request = OBSERVE_ONLY)) as [He|Hne].
  - rewrite bool_decide_true, andb_false_r by done. by refuse.
  - rewrite bool_decide_false by done. destruct (cr_critical_continuity request); cbn [negb andb]; [by refuse|].
    split; [by split|]. split; [by right|]. done.
Qed.
