(* ===== verification/Correlation.v ===== *)
(** Correlation of ransomware evidence: rolling windows per process tree
    ([anti_ransomware/multi_window.py]) and process ancestry
    ([anti_ransomware/process_tree.py]). *)

From S2P Require Import Prelude PyStr PyFloat PyDict PyJson RansomwareRisk.

(** ** [MultiWindowCorrelator] *)

Record CorrelationEvent := {
  ce_monotonic_time : float;
  ce_process_key : string;
  ce_tree_key : string;
  ce_responsible_key : string;
  ce_directory_token : string;
  ce_volume_token : string;
  ce_signal_ids : list string
}.

Record WindowSummary := {
  ws_seconds : float;
  ws_event_count : Z;
  ws_process_count : Z;
  ws_directory_count : Z;
  ws_volume_count : Z;
  ws_signal_ids : list string;
  ws_visibility_complete : bool
}.

Record Correlator := {
  mw_windows : list float;
  mw_max_keys : Z;
  mw_max_events_per_key : Z;
  mw_events : list (string * list CorrelationEvent);
  mw_incomplete_since : option float;
  mw_evicted_keys : Z;
  mw_evicted_events : Z
}.

Definition DEFAULT_WINDOWS : list float := float_of_Z <$> [5; 30; 300; 1800; 86400].

(** The members of [set(l)], each once. *)
Fixpoint float_set (l : list float) : list float :=
  match l with
  | [] => []
  | x :: l' => let s := float_set l' in if existsb (feqb x) s then s else x :: s
  end.

Definition new_correlator (windows : list float) (max_keys max_events_per_key : Z) : res Correlator :=
  raise_if (bool_decide (windows = []) || existsb (fun v => fleb v (fexact 0)) windows)
    (ValueError "windows must contain positive durations");;
  Ok {| mw_windows := sort_by fleb (float_set windows); mw_max_keys := Z.max 1 max_keys;
        mw_max_events_per_key := Z.max 1 max_events_per_key; mw_events := []; mw_incomplete_since := None;
        mw_evicted_keys := 0; mw_evicted_events := 0 |}.

Definition with_events (events : list (string * list CorrelationEvent)) (keys_out events_out : Z) (c : Correlator)
    : Correlator := {|
  mw_windows := mw_windows c; mw_max_keys := mw_max_keys c; mw_max_events_per_key := mw_max_events_per_key c;
  mw_events := events; mw_incomplete_since := mw_incomplete_since c;
  mw_evicted_keys := mw_evicted_keys c + keys_out; mw_evicted_events := mw_evicted_events c + events_out |}.

(** The longest window, [self.windows[-1]]. *)
Definition longest_window (c : Correlator) : float := default fzero (last (mw_windows c)).

Definition add (event : CorrelationEvent) (c : Correlator) : Correlator :=
  let events := move_to_end (ce_tree_key event) (dsetdefault (ce_tree_key event) [] (mw_events c)) in
  let queue := dget_default [] (ce_tree_key event) events ++ [event] in
  let (queue, dropped) := trim_front (mw_max_events_per_key c) queue 0 in
  let cutoff := fsub (ce_monotonic_time event) (longest_window c) in
  let queue := drop_while (fun e => fltb (ce_monotonic_time e) cutoff) queue in
  let events := dset (ce_tree_key event) queue events in
  let (events, evicted) := evict_oldest (length events) (mw_max_keys c) events 0 in
  with_events events evicted dropped c.

Definition set_incomplete (since : option float) (c : Correlator) : Correlator := {|
  mw_windows := mw_windows c; mw_max_keys := mw_max_keys c; mw_max_events_per_key := mw_max_events_per_key c;
  mw_events := mw_events c; mw_incomplete_since := since; mw_evicted_keys := mw_evicted_keys c;
  mw_evicted_events := mw_evicted_events c |}.

Definition mark_sequence_gap (observed_monotonic : float) : Correlator -> Correlator :=
  set_incomplete (Some observed_monotonic).
Definition mark_resynchronized : Correlator -> Correlator := set_incomplete None.

Definition selected (now seconds : float) (events : list CorrelationEvent) : list CorrelationEvent :=
  filter (fun e => fleb (fsub now (ce_monotonic_time e)) seconds = true) events.

(** [len({f(event) for event in events})] *)
Definition count_distinct (f : CorrelationEvent -> string) (events : list CorrelationEvent) : Z :=
  Z.of_nat (size (distinct f events)).

Definition summary_of (c : Correlator) (events : list CorrelationEvent) (now seconds : float) : WindowSummary :=
  let l := selected now seconds events in
  {| ws_seconds := seconds; ws_event_count := zlen l; ws_process_count := count_distinct ce_process_key l;
     ws_directory_count := count_distinct ce_directory_token l;
     ws_volume_count := count_distinct ce_volume_token l;
     ws_signal_ids := sort_by str_le (remove_dups (concat (ce_signal_ids <$> l)));
     ws_visibility_complete := match mw_incomplete_since c with
       | None => true | Some since => fgtb (fsub now seconds) since end |}.

Definition summaries (tree_key : string) (now : float) (c : Correlator) : list WindowSummary :=
  let events := dget_default [] tree_key (mw_events c) in
  (fun seconds => summary_of c events now seconds) <$> mw_windows c.

Definition retained_event_count (c : Correlator) : Z := zsum (fun kv => zlen kv.2) (mw_events c).

(** ** [ProcessTreeCorrelator] *)

Record TreeActivity := {
  ta_root_key : string;
  ta_process_count : Z;
  ta_qualifying_mutations : Z;
  ta_triggered : bool
}.

Record TreeCorrelator := {
  tc_threshold : Z;
  tc_seconds : float;
  tc_parents : list (string * string);
  tc_events : list (string * list (float * string))
}.

Definition register (process : ProcessIdentity) (parent : option ProcessIdentity) (c : TreeCorrelator) : TreeCorrelator := {|
  tc_threshold := tc_threshold c; tc_seconds := tc_seconds c;
  tc_parents := dset (stable_key process)
    (match parent with Some p => stable_key p | None => stable_key process end) (tc_parents c);
  tc_events := tc_events c |}.

(** The climb to the root; [None] when the fuel runs out. *)
Fixpoint climb (fuel : nat) (parents : list (string * string)) (seen : gset string) (start key : string) : option string :=
  match fuel with
  | O => None
  | S fuel =>
      if decide (key ∈ seen) then Some start
      else
        let parent := dget_default key key parents in
        if String.eqb parent key then Some key
        else climb fuel parents ({[key]} ∪ seen) start parent
  end.

(** Every step up enters another registered key, so their number is fuel enough. *)
Definition root_for (process : ProcessIdentity) (c : TreeCorrelator) : string :=
  default (stable_key process)
    (climb (S (size (list_to_set (keys (tc_parents c)) : gset string))) (tc_parents c) ∅
       (stable_key process) (stable_key process)).

Definition record (process : ProcessIdentity) (timestamp : float) (qualifies : bool) (c : TreeCorrelator)
    : TreeActivity * TreeCorrelator :=
  let root := root_for process c in
  let cutoff := fsub timestamp (tc_seconds c) in
  let events := drop_while (fun e => fltb e.1 cutoff) (dget_default [] root (tc_events c)) in
  let events := if qualifies then events ++ [(timestamp, stable_key process)] else events in
  ({| ta_root_key := root; ta_process_count := Z.of_nat (size (distinct snd events));
      ta_qualifying_mutations := zlen events; ta_triggered := tc_threshold c <=? zlen events |},
   {| tc_threshold := tc_threshold c; tc_seconds := tc_seconds c; tc_parents := tc_parents c;
      tc_events := dset root events (tc_events c) |}).

(** ** The climb terminates *)

Lemma climb_enough parents start :
  let K : gset string := list_to_set (keys parents) in
  forall fuel seen key, (size (K ∖ seen) < fuel)%nat -> exists r, climb fuel parents seen start key = Some r.
Proof.
  intros K fuel. induction fuel as [|fuel IH]; intros seen key Hfuel; [lia|]. simpl.
  destruct (decide (key ∈ seen)) as [|Hseen]; [by eexists|].
  unfold dget_default. destruct (dget key parents) as [parent|] eqn:Hp; [|rewrite String.eqb_refl; by eexists].
  destruct (String.eqb parent key); [by eexists|]. apply IH.
  eapply Nat.lt_le_trans; [apply size_unseen; [|done]|lia]. apply elem_of_list_to_set. by eapply dget_Some_keys.
Qed.

(** A key with no other parent registered. *)
Definition is_root (parents : list (string * string)) (key : string) : Prop :=
  dget_default key key parents = key.

Lemma climb_result parents start fuel seen key r :
  climb fuel parents seen start key = Some r -> r = start \/ is_root parents r.
Proof.
  revert seen key. induction fuel as [|fuel IH]; intros seen key; simpl; [done|].
  destruct (decide (key ∈ seen)); [intros [= <-]; by left|].
  destruct (String.eqb_spec (dget_default key key parents) key) as [Heq|]; [|by apply IH].
  intros [= <-]. by right.
Qed.

(** The climb to the root of a process tree always ends, even when the
    registered parents form a cycle, and ends at a root or, in a cycle, at the
    process itself. *)
Theorem root_always_found (process : ProcessIdentity) (c : TreeCorrelator) :
  climb (S (size (list_to_set (keys (tc_parents c)) : gset string))) (tc_parents c) ∅
    (stable_key process) (stable_key process) = Some (root_for process c)
  /\ (root_for process c = stable_key process \/ is_root (tc_parents c) (root_for process c)).
Proof.
  destruct (climb_enough (tc_parents c) (stable_key process)
    (S (size (list_to_set (keys (tc_parents c)) : gset string))) ∅ (stable_key process)) as [r Hr].
  { rewrite difference_empty_L. lia. }
  unfold root_for. rewrite Hr. simpl. split; [done|]. by eapply climb_result.
Qed.

(** ** Bounds and nesting of the windows *)

Record correlator_bounded (c : Correlator) : Prop := {
  keys_within : zlen (mw_events c) <= mw_max_keys c;
  queues_within : Forall (fun kv => zlen kv.2 <= mw_max_events_per_key c) (mw_events c);
  limits_positive : 1 <= mw_max_keys c /\ 1 <= mw_max_events_per_key c;
  events_wf : dwf (mw_events c)
}.

(** The memory of the correlator stays within its limits. *)
Lemma add_bounded event c : correlator_bounded c -> correlator_bounded (add event c).
Proof.
  intros [Hk Hq [Hl1 Hl2] Hw]. unfold add.
  set (P := fun l : list CorrelationEvent => zlen l <= mw_max_events_per_key c) in *.
  set (events := move_to_end _ (dsetdefault _ _ _)).
  assert (Hwe : dwf events) by by apply dwf_move_to_end, dwf_dsetdefault.
  assert (Hqe : Forall (fun kv => P kv.2) events).
  { apply Forall_move_to_end, Forall_dsetdefault; [|done]. unfold P, zlen. simpl. lia. }
  pose proof (trim_front_bound (mw_max_events_per_key c)
    (dget_default [] (ce_tree_key event) events ++ [event]) 0 ltac:(lia)) as Hb.
  destruct (trim_front _ _ _) as [queue dropped]. simpl in Hb.
  set (queue' := drop_while _ queue).
  assert (Hq' : P queue').
  { pose proof (drop_while_length (fun e => fltb (ce_monotonic_time e)
      (fsub (ce_monotonic_time event) (longest_window c))) queue). unfold P, zlen, queue' in *. lia. }
  set (events' := dset (ce_tree_key event) queue' events).
  assert (Hw' : dwf events') by by apply dwf_dset.
  assert (Hqe' : Forall (fun kv => P kv.2) events') by by apply Forall_dset.
  pose proof (evict_oldest_spec (length events') (mw_max_keys c) events' 0 ltac:(lia) ltac:(lia)) as Hs.
  pose proof (evict_oldest_bound (length events') (mw_max_keys c) events' 0 ltac:(lia) ltac:(lia)) as Hbd.
  pose proof (evict_oldest_dwf (length events') (mw_max_keys c) events' 0 Hw') as Hwd.
  destruct (evict_oldest _ _ _ _) as [events'' n]. injection Hs as -> _.
  split; simpl in *; try done. by apply Forall_drop.
Qed.

Lemma filter_length_le {A} (p q : A -> bool) l :
  (forall x, p x = true -> q x = true) ->
  (length (filter (fun x => p x = true) l) <= length (filter (fun x => q x = true) l))%nat.
Proof.
  intros Hpq. induction l as [|x l IH]; [done|]. rewrite !filter_cons.
  destruct (decide (p x = true)), (decide (q x = true)); simpl; try lia. exfalso. naive_solver.
Qed.

Lemma size_list_to_set_le (l : list string) : (size (list_to_set l : gset string) <= length l)%nat.
Proof.
  induction l as [|x l IH]; [done|]. cbn [list_to_set length].
  pose proof (size_union_alt ({[x]} : gset string) (list_to_set l)) as Hu.
  assert (size (list_to_set l ∖ {[x]} : gset string) <= size (list_to_set l : gset string))%nat
    by (apply subseteq_size; set_solver).
  rewrite size_singleton in Hu. lia.
Qed.

Lemma selected_mono now s t events : fleb s t = true ->
  (length (selected now s events) <= length (selected now t events))%nat
  /\ forall f, count_distinct f (selected now s events) <= count_distinct f (selected now t events).
Proof.
  intros Hst. assert (Himp : forall e, fleb (fsub now (ce_monotonic_time e)) s = true ->
    fleb (fsub now (ce_monotonic_time e)) t = true) by (intros e He; by eapply fleb_trans).
  split; [by apply filter_length_le|]. intros f. unfold count_distinct. apply inj_le, subseteq_size, distinct_mono.
  intros e. unfold selected. rewrite !list_elem_of_filter. naive_solver.
Qed.

(** A longer window sees at least what a shorter one sees: the counts of events,
    processes, directories and volumes only grow with the window; and each count of
    distinct keys is at most the number of events. *)
Theorem windows_are_nested (c : Correlator) (events : list CorrelationEvent) (now s t : float) :
  fleb s t = true ->
  let a := summary_of c events now s in
  let b := summary_of c events now t in
  ws_event_count a <= ws_event_count b /\ ws_process_count a <= ws_process_count b
  /\ ws_directory_count a <= ws_directory_count b /\ ws_volume_count a <= ws_volume_count b
  /\ ws_process_count b <= ws_event_count b.
Proof.
  intros Hst a b. destruct (selected_mono now s t events Hst) as [Hlen Hcount].
  repeat split; try apply Hcount.
  - simpl. unfold zlen. lia.
  - simpl. unfold count_distinct, zlen, distinct. apply inj_le.
    etrans; [apply size_list_to_set_le|]. by rewrite length_fmap.
Qed.

Definition demo_correlation (t : Z) (p : string) : CorrelationEvent := {|
  ce_monotonic_time := float_of_Z t; ce_process_key := p; ce_tree_key := "tree"; ce_responsible_key := p;
  ce_directory_token := "d"; ce_volume_token := "v"; ce_signal_ids := ["s"] |}.

Lemma windows_are_nested_witness :
  let events := [demo_correlation 1 "a"; demo_correlation 20 "b"; demo_correlation 28 "b"] in
  match new_correlator DEFAULT_WINDOWS 10 10 with
  | Ok c => let a := summary_of c events (float_of_Z 30) (float_of_Z 5) in
      let b := summary_of c events (float_of_Z 30) (float_of_Z 30) in
      ws_event_count a <= ws_event_count b /\ ws_process_count a <= ws_process_count b
      /\ ws_directory_count a <= ws_directory_count b /\ ws_volume_count a <= ws_volume_count b
      /\ ws_process_count b <= ws_event_count b
  | Raise _ => False
  end.
Proof.
  intros events. destruct (new_correlator DEFAULT_WINDOWS 10 10) as [c|e] eqn:Hc; [|by vm_compute in Hc].
  apply (windows_are_nested c events (float_of_Z 30) (float_of_Z 5) (float_of_Z 30)). by vm_compute.
Defined.
