(* ===== verification/Ipc.v ===== *)
(** The privileged IPC protocol: [anti_ransomware/ipc_protocol.py].

    Envelopes are JSON objects; parsing the text is a parameter, everything the
    protocol demands of the parsed value is modelled. *)

From S2P Require Import Prelude PyStr PyFloat PyDict PyJson PyTime PyRegex.
From Stdlib Require Import Ascii.

Definition PROTOCOL_VERSION : string := "1.0".
Definition SCHEMA_VERSION : string := "1.0".
Definition MAX_MESSAGE_BYTES : Z := 65536.
Definition MAX_STRING : Z := 4096.
Definition MAX_CLOCK_SKEW_SECONDS : Z := 30.
Definition MAX_MESSAGE_AGE_SECONDS : Z := 300.

Definition identifier_char (c : ascii) : bool := is_alnum c || chars "._:-" c.
Definition nonce_char (c : ascii) : bool := is_alnum c || chars "_-" c.
Definition hex_char (c : ascii) : bool := is_digit c || in_range 97 102 c.

(** [^[A-Za-z0-9._:-]{1,128}$], [^[A-Za-z0-9_-]{16,128}$], [[0-9a-f]{64}] *)
Definition IDENTIFIER_PATTERN : regex := rrange 1 128 (RClass identifier_char).
Definition NONCE_PATTERN : regex := rrange 16 128 (RClass nonce_char).
Definition DIGEST_PATTERN : regex := rrange 64 64 (RClass hex_char).

Definition message_types : list string :=
  ["SENSOR_EVENT"; "HEALTH_QUERY"; "HEALTH_RESPONSE"; "NOTIFICATION"; "ACKNOWLEDGEMENT"; "ACTION_REQUEST";
   "ACTION_RESPONSE"].

Inductive SenderRole := NATIVE_SENSOR | SYSTEM_ENGINE | USER_NOTIFIER | ADMIN_CLIENT | DIAGNOSTIC_CLIENT.

#[export] Instance SenderRole_eq_dec : EqDecision SenderRole.
Proof. solve_decision. Defined.

(** [SenderRole(text)] *)
Definition sender_role_of (text : string) : option SenderRole :=
  dget text [("NATIVE_SENSOR", NATIVE_SENSOR); ("SYSTEM_ENGINE", SYSTEM_ENGINE); ("USER_NOTIFIER", USER_NOTIFIER);
             ("ADMIN_CLIENT", ADMIN_CLIENT); ("DIAGNOSTIC_CLIENT", DIAGNOSTIC_CLIENT)].

Definition ALLOWED_FIELDS : list string := [
  "protocol_version"; "schema_version"; "message_type"; "message_id"; "correlation_id"; "incident_id"; "event_id";
  "boot_session_id"; "sender_role"; "sender_build_id"; "created_at"; "expires_at"; "nonce"; "payload_length";
  "payload"].
Definition REQUIRED_FIELDS : list string :=
  filter (fun f => f <> "incident_id" /\ f <> "event_id") ALLOWED_FIELDS.

Record AuthenticatedPeer := {
  ap_audit_token_hash : string;
  ap_team_id : string;
  ap_signing_id : string;
  ap_designated_requirement : string;
  ap_ad_hoc : bool;
  ap_role : SenderRole
}.

(** [PRIVILEGED_ACTIONS.get(role, frozenset())] *)
Definition privileged_actions (role : SenderRole) : list string :=
  match role with
  | USER_NOTIFIER => ["ACKNOWLEDGE"; "ALLOW_ONCE"; "KEEP_PAUSED"; "REQUEST_ADMIN_REVIEW"]
  | ADMIN_CLIENT => ["ACKNOWLEDGE"; "ALLOW_ONCE"; "KEEP_PAUSED"; "RESUME_EXACT_PROCESS"; "TERMINATE_EXACT_PROCESS";
                     "BLOCK_EXACT_IDENTITY"; "TRUST_EXACT_IDENTITY"]
  | SYSTEM_ENGINE => ["PAUSE_EXACT_PROCESS"; "INCREASE_TELEMETRY"; "EXPIRE_CONTAINMENT"; "ROLLBACK_CONTAINMENT"]
  | _ => []
  end.

Definition ACTION_REQUIRED_IDENTITY : list string := [
  "ALLOW_ONCE"; "KEEP_PAUSED"; "RESUME_EXACT_PROCESS"; "TERMINATE_EXACT_PROCESS"; "BLOCK_EXACT_IDENTITY";
  "TRUST_EXACT_IDENTITY"; "PAUSE_EXACT_PROCESS"; "EXPIRE_CONTAINMENT"; "ROLLBACK_CONTAINMENT"].

Definition PROCESS_IDENTITY_FIELDS : list string :=
  ["pid"; "pid_version"; "boot_session_id"; "executable_sha256"; "effective_uid"].

(** ** [ReplayCache] *)

Definition replay_cache : Type := list (string * unit).

Definition replay_key (connection_id nonce : string) : string := connection_id +:+ ":" +:+ nonce.

Definition accept_nonce (capacity : Z) (connection_id nonce : string) (items : replay_cache) : bool * replay_cache :=
  let key := replay_key connection_id nonce in
  if dmem key items then (false, items) else (true, lru_put capacity key tt items).

(** ** Authentication *)

Definition denied (msg : string) : exn := PermissionError ("[AR014] " +:+ msg).
Definition malformed (msg : string) : exn := ValueError ("[AR014] " +:+ msg).

Definition authenticate_peer (peer : AuthenticatedPeer) (production : bool) (expected_team_id : string)
    (allowed_signing_ids : list string) (expected_role : SenderRole) : res unit :=
  raise_if (negb (truthy (ap_audit_token_hash peer)) || (slen (ap_audit_token_hash peer) <? 32))
    (denied "IPC audit-token identity is missing or malformed.");;
  raise_if (negb (bool_decide (ap_role peer = expected_role)))
    (denied "IPC caller role is not authorized for this channel.");;
  raise_if (production && ap_ad_hoc peer)
    (denied "Ad-hoc or unsigned IPC clients are rejected in managed production mode.");;
  raise_if (production && (negb (String.eqb (ap_team_id peer) expected_team_id)
                           || negb (one_of (ap_signing_id peer) allowed_signing_ids)
                           || negb (truthy (ap_designated_requirement peer))))
    (denied "IPC code-signing requirement did not match the managed policy.").

(** ** Values *)

Definition is_str (v : pyval) : bool := match v with VStr _ => true | _ => false end.
Definition str_is (v : pyval) (s : string) : bool := match v with VStr t => String.eqb t s | _ => false end.
Definition identifier_ok (v : pyval) : bool := match v with VStr s => fullmatch IDENTIFIER_PATTERN s | _ => false end.

(** [isinstance(v, int)]; a bool is an int. *)
Definition int_of (v : pyval) : option Z :=
  match v with VInt z => Some z | VBool b => Some (if b then 1 else 0) | _ => None end.

(** [str(v)] of a JSON value as far as the formats it is matched against go: the
    text of a container or a float never is a timestamp or a nonce. *)
Definition text_of (v : pyval) : string :=
  match v with
  | VStr s => s | VInt z => str_of_Z z | VNone => "None"
  | VBool b => if b then "True" else "False" | _ => "" end.

(** [s.replace("Z", "+00:00")] *)
Fixpoint replace_Z (s : string) : string :=
  match s with
  | EmptyString => EmptyString
  | String c s' => if Ascii.eqb c "Z" then "+00:00" +:+ replace_Z s' else String c (replace_Z s')
  end.

(** [_validate_value] *)
Fixpoint validate_value (depth : nat) (value : pyval) {struct value} : res unit :=
  if (6 <? depth)%nat then Raise (malformed "IPC object nesting exceeds the protocol limit.") else
  match value with
  | VStr s => raise_if (MAX_STRING <? slen s) (malformed "IPC string exceeds the protocol limit.")
  | VList l =>
      raise_if (256 <? zlen l) (malformed "IPC list exceeds the protocol limit.");;
      (fix go l := match l with [] => Ok tt | v :: l' => validate_value (S depth) v;; go l' end) l
  | VDict d =>
      raise_if (64 <? zlen d) (malformed "IPC object exceeds the field limit.");;
      (fix go d := match d with
         | [] => Ok tt
         | kv :: d' =>
             raise_if (128 <? slen kv.1) (malformed "IPC field name is invalid.");;
             validate_value (S depth) kv.2;; go d'
         end) d
  | VFloat f => raise_if (negb (is_finite f)) (malformed "IPC non-finite numbers are prohibited.")
  | VNone | VInt _ | VBool _ => Ok tt
  | _ => Raise (malformed "IPC value type is not permitted.")
  end.

Definition envelope : Type := list (string * pyval).

(** [authorize_action] *)
Definition authorize_identity (env : envelope) (identity : pyval) : res unit :=
  match identity with
  | VDict d =>
      raise_if (negb (bool_decide (list_to_set (keys d) = (list_to_set PROCESS_IDENTITY_FIELDS : gset string))))
        (denied "Privileged action requires an exact bounded process identity.");;
      raise_if (match int_of (vget "pid" d), int_of (vget "pid_version" d) with
                | Some pid, Some version => (pid <=? 0) || (version <? 0)
                | _, _ => true end)
        (denied "Process generation identity is invalid.");;
      raise_if (match vget "boot_session_id" env with
                | VStr s => negb (str_is (vget "boot_session_id" d) s)
                | _ => true end)
        (denied "Process identity belongs to another boot session.");;
      raise_if (match vget "executable_sha256" d with VStr s => negb (fullmatch DIGEST_PATTERN s) | _ => true end)
        (denied "Exact executable identity hash is invalid.")
  | _ => Raise (denied "Privileged action requires an exact bounded process identity.")
  end.

(** [action in frozenset]: a container cannot be hashed. *)
Definition hashable_in (v : pyval) (l : list string) : res bool :=
  match v with
  | VStr s => Ok (one_of s l)
  | VList _ | VDict _ => Raise (TypeError "unhashable type")
  | _ => Ok false
  end.

Definition authorize_action (env : envelope) (role : SenderRole) : res unit :=
  match vget "payload" env with
  | VDict p =>
      raise_if (existsb (fun k => negb (one_of k ["action"; "process_identity"; "idempotency_key"; "rationale"])) (keys p))
        (denied "Privileged action payload has unknown fields.");;
      allowed ← hashable_in (vget "action" p) (privileged_actions role);
      raise_if (negb allowed) (denied "Requested action is outside the authenticated caller role.");;
      raise_if (negb (truthy_val (vget "incident_id" env)) || negb (truthy_val (vget "event_id" env)))
        (denied "Privileged action must bind incident and event identifiers.");;
      raise_if (negb (identifier_ok (vget "idempotency_key" p)))
        (denied "Privileged action idempotency key is missing or malformed.");;
      needs_identity ← hashable_in (vget "action" p) ACTION_REQUIRED_IDENTITY;
      if (needs_identity : bool) then authorize_identity env (vget "process_identity" p) else Ok tt
  | _ => Raise (denied "Privileged action payload has unknown fields.")
  end.

(** ** Envelopes *)

Definition aware_instant (text : string) : option (option Z) :=
  match fromisoformat text with
  | Some d => Some (if aware d then Some (instant d) else None)
  | None => None
  end.

(** The timestamps against the clock. *)
Definition check_times (env : envelope) (now : Z) : res unit :=
  match aware_instant (replace_Z (text_of (vget "created_at" env))),
        aware_instant (replace_Z (text_of (vget "expires_at" env))) with
  | Some created, Some expires =>
      match created, expires with
      | Some c, Some x =>
          raise_if ((x <=? now) || (x <=? c)) (denied "IPC request is expired.");;
          raise_if (fgtb (total_seconds (c - now)) (fexact MAX_CLOCK_SKEW_SECONDS)
                    || fgtb (total_seconds (now - c)) (fexact MAX_MESSAGE_AGE_SECONDS))
            (denied "IPC request creation time is outside the permitted window.")
      | _, _ => Raise (denied "IPC request is expired.")
      end
  | _, _ => Raise (malformed "IPC timestamps are malformed.")
  end.

(** The fields of the envelope, before the clock and the nonce. *)
Definition check_fields (env : envelope) (expected_boot_session : string) (allowed_role : SenderRole) : res unit :=
  raise_if (existsb (fun k => negb (one_of k ALLOWED_FIELDS)) (keys env)
            || existsb (fun f => negb (dmem f env)) REQUIRED_FIELDS)
    (malformed "IPC envelope has missing or unknown fields.");;
  raise_if (negb (str_is (vget "protocol_version" env) PROTOCOL_VERSION)
            || negb (str_is (vget "schema_version" env) SCHEMA_VERSION))
    (ValueError "[AR024] Native protocol version mismatch or downgrade request.");;
  raise_if (negb (existsb (str_is (vget "message_type" env)) message_types)) (ValueError "not a valid MessageType");;
  raise_if (existsb (fun f => negb (identifier_ok (vget f env)))
              ["message_id"; "correlation_id"; "boot_session_id"; "sender_build_id"])
    (malformed "IPC field is malformed.");;
  raise_if (existsb (fun f => dmem f env && negb (identifier_ok (vget f env))) ["incident_id"; "event_id"])
    (malformed "IPC field is malformed.");;
  role ← match vget "sender_role" env with
         | VStr s => match sender_role_of s with
                     | Some r => Ok r | None => Raise (ValueError "not a valid SenderRole") end
         | _ => Raise (ValueError "not a valid SenderRole")
         end;
  raise_if (negb (bool_decide (role = allowed_role))) (denied "Sender role is not valid for this IPC channel.");;
  raise_if (negb (str_is (vget "boot_session_id" env) expected_boot_session))
    (denied "IPC request belongs to a different boot session.").

Section Receive.
Context `{PlatformEnv} (json_loads : string -> option pyval).

(** The payload, after the nonce has been spent. *)
Definition check_payload (env : envelope) : res unit :=
  encoded ← json_dumps compact_style (vget "payload" env);
  raise_if (match vget "payload_length" env with VInt n => negb (n =? slen encoded) | _ => true end)
    (malformed "IPC payload length does not match the envelope.");;
  validate_value 0 (vget "payload" env).

Definition spend_nonce (capacity : Z) (connection_id : string) (env : envelope) : M replay_cache unit :=
  let nonce := text_of (vget "nonce" env) in
  if negb (fullmatch NONCE_PATTERN nonce)
  then raise_st (denied "IPC nonce is malformed or has already been used.")
  else fun items =>
    let (fresh, items') := accept_nonce capacity connection_id nonce items in
    (if fresh then Ok tt else Raise (denied "IPC nonce is malformed or has already been used."), items').

Definition decode (raw : string) : res envelope :=
  raise_if (MAX_MESSAGE_BYTES <? slen raw) (malformed "IPC message exceeds 65,536 bytes.");;
  match json_loads raw with
  | None => Raise (malformed "IPC message is not valid UTF-8 JSON")
  | Some (VDict env) => Ok env
  | Some _ => Raise (malformed "IPC envelope has missing or unknown fields.")
  end.

Definition parse_envelope (capacity : Z) (connection_id expected_boot_session : string) (allowed_role : SenderRole)
    (now : Z) (raw : string) : M replay_cache envelope :=
  env ← lift_res (decode raw);
  lift_res (check_fields env expected_boot_session allowed_role);;
  lift_res (check_times env now);;
  spend_nonce capacity connection_id env;;
  lift_res (check_payload env);;
  mret env.

(** ** [AuthorizedConnection] *)

Record Connection := {
  cn_connection_id : string;
  cn_peer : AuthenticatedPeer;
  cn_expected_boot_session : string;
  cn_capacity : Z;
  cn_replay : replay_cache;
  cn_closed : bool
}.

Definition connect (connection_id : string) (peer : AuthenticatedPeer) (production : bool) (expected_team_id : string)
    (allowed_signing_ids : list string) (expected_role : SenderRole) (expected_boot_session : string)
    (replay_capacity : Z) : res Connection :=
  raise_if (negb (fullmatch IDENTIFIER_PATTERN connection_id)) (denied "IPC connection identifier is malformed.");;
  authenticate_peer peer production expected_team_id allowed_signing_ids expected_role;;
  Ok {| cn_connection_id := connection_id; cn_peer := peer; cn_expected_boot_session := expected_boot_session;
        cn_capacity := replay_capacity; cn_replay := []; cn_closed := false |}.

Definition with_replay (items : replay_cache) (closed : bool) (c : Connection) : Connection := {|
  cn_connection_id := cn_connection_id c; cn_peer := cn_peer c;
  cn_expected_boot_session := cn_expected_boot_session c; cn_capacity := cn_capacity c; cn_replay := items;
  cn_closed := closed |}.

Definition close (c : Connection) : Connection := with_replay (cn_replay c) true c.

Definition in_replay {A} (m : M replay_cache A) : M Connection A := fun c =>
  let (r, items) := m (cn_replay c) in (r, with_replay items (cn_closed c) c).

Definition receive (now : Z) (raw : string) (expected_incident_id : option string) : M Connection envelope :=
  c ← get_st;
  when_st (cn_closed c) (raise_st (denied "IPC connection authentication is no longer valid."));;
  env ← in_replay (parse_envelope (cn_capacity c) (cn_connection_id c) (cn_expected_boot_session c)
                     (ap_role (cn_peer c)) now raw);
  when_st (match expected_incident_id with Some i => negb (str_is (vget "incident_id" env) i) | None => false end)
    (raise_st (denied "IPC action is bound to a different incident."));;
  when_st (str_is (vget "message_type" env) "ACTION_REQUEST")
    (lift_res (authorize_action env (ap_role (cn_peer c))));;
  mret env.

(** The connection after a run of messages, whatever became of each. *)
Definition receive_all (messages : list (Z * string * option string)) (c : Connection) : Connection :=
  foldl (fun c '(now, raw, incident) => (receive now raw incident c).2) c messages.
End Receive.

(** What the IPC protocol guarantees: a nonce buys one message, and a privileged
    action reaches the caller only with the authority of its role. *)

(** ** The replay window *)

Section Window.
Implicit Types items : replay_cache.

(** The key is among the last [n + 1] entries. *)
Definition recent (n : Z) (k : string) items : Prop :=
  exists pre post, items = pre ++ (k, tt) :: post /\ zlen post <= n.

Lemma recent_mem n k items : recent n k items -> dmem k items = true.
Proof.
  intros (pre & post & -> & _). apply dmem_keys. unfold keys. rewrite fmap_app, elem_of_app. right.
  constructor.
Qed.

Lemma recent_weaken n m k items : n <= m -> recent n k items -> recent m k items.
Proof. intros Hm (pre & post & -> & Hp). exists pre, post. split; [done|lia]. Qed.

Lemma ddel_snoc k v items : k ∉ keys items -> ddel k (items ++ [(k, v)]) = items.
Proof.
  induction items as [|[k' v'] items IH]; simpl; intros Hk.
  - by rewrite decide_True.
  - apply not_elem_of_cons in Hk as [Hne Hk]. rewrite decide_False by done. by rewrite IH.
Qed.

Lemma lru_put_new cap k items : 0 <= cap -> k ∉ keys items ->
  lru_put cap k tt items = drop (S (length items) - Z.to_nat cap) (items ++ [(k, tt)]).
Proof.
  intros Hc Hk. unfold lru_put, move_to_end. rewrite dget_dset_eq, dset_new, ddel_snoc by done.
  rewrite evict_oldest_spec by done. simpl. by rewrite length_app, Nat.add_comm.
Qed.

Lemma recent_drop n k m items : recent n k items -> (m <= length items - S (Z.to_nat n))%nat -> 0 <= n ->
  recent n k (drop m items).
Proof.
  intros (pre & post & -> & Hp) Hm Hn. exists (drop m pre), post. split; [|done].
  rewrite drop_app_le; [done|]. rewrite length_app in Hm. simpl in Hm. unfold zlen in Hp.
  unfold zlen in *. lia.
Qed.

Context (cap : Z) (conn : string).

(** A spent nonce stays remembered while fewer than [cap] messages follow. *)
Lemma accept_keeps n k nonce items : 0 <= n -> n + 1 < cap -> recent n k items ->
  recent (n + 1) k (accept_nonce cap conn nonce items).2.
Proof.
  intros Hn Hcap Hr. unfold accept_nonce. destruct (dmem _ items) eqn:Hmem; simpl.
  { by apply (recent_weaken n); [lia|]. }
  rewrite lru_put_new; [|lia|].
  - apply recent_drop; [|rewrite length_app; simpl; lia|lia].
    destruct Hr as (pre & post & -> & Hp). exists pre, (post ++ [(replay_key conn nonce, tt)]).
    rewrite zlen_app, <- app_assoc. split; [done|]. unfold zlen at 2. simpl. lia.
  - intros Hk%dmem_keys. congruence.
Qed.

Lemma accept_records nonce items : 1 <= cap -> (accept_nonce cap conn nonce items).1 = true ->
  recent 0 (replay_key conn nonce) (accept_nonce cap conn nonce items).2.
Proof.
  intros Hcap. unfold accept_nonce. destruct (dmem _ items) eqn:Hmem; simpl; [done|]. intros _.
  rewrite lru_put_new; [|lia|intros Hk%dmem_keys; congruence].
  apply recent_drop; [|rewrite length_app; simpl; lia|lia]. exists items, []. by split.
Qed.
End Window.

(** ** One message *)

Section Messages.
Context `{PlatformEnv} (json_loads : string -> option pyval).

Notation parse := (parse_envelope json_loads).
Notation receive := (receive json_loads).

(** The nonce is the only state of [parse_envelope], and an accepted message
    has spent it. *)
Lemma parse_envelope_inv cap conn boot role now raw items :
  let r := parse cap conn boot role now raw items in
  (r.2 = items \/ exists nonce, r.2 = (accept_nonce cap conn nonce items).2)
  /\ forall env, r.1 = Ok env ->
       decode json_loads raw = Ok env /\ check_fields env boot role = Ok tt /\ check_times env now = Ok tt
       /\ check_payload env = Ok tt
       /\ (accept_nonce cap conn (text_of (vget "nonce" env)) items).1 = true
       /\ r.2 = (accept_nonce cap conn (text_of (vget "nonce" env)) items).2.
Proof.
  unfold parse_envelope, spend_nonce, lift_res, raise_st, mbind, M_bind. simpl.
  destruct (decode _ raw) as [env|e]; [|split; [by left|done]].
  destruct (check_fields _ _ _) as [[]|e] eqn:Hf; [|split; [by left|done]].
  destruct (check_times _ _) as [[]|e] eqn:Ht; [|split; [by left|done]].
  destruct (negb _); [split; [by left|done]|].
  destruct (accept_nonce _ _ _ _) as [[] items'] eqn:Ha; simpl.
  - destruct (check_payload env) as [[]|e] eqn:Hp; simpl.
    + split; [right; eexists; by rewrite Ha|]. intros env' [= <-]. by rewrite Ha.
    + split; [right; eexists; by rewrite Ha|done].
  - split; [right; eexists; by rewrite Ha|done].
Qed.

(** A message whose nonce is remembered is refused. *)
Lemma parse_envelope_replayed n cap conn boot role now raw items env :
  decode json_loads raw = Ok env -> recent n (replay_key conn (text_of (vget "nonce" env))) items ->
  exists e, (parse cap conn boot role now raw items).1 = Raise e.
Proof.
  intros Hd Hr. destruct (parse _ _ _ _ _ _ items).1 as [env'|e] eqn:Hp; [|by exists e].
  destruct (parse_envelope_inv cap conn boot role now raw items) as [_ Hok].
  destruct (Hok env' Hp) as (Hd' & _ & _ & _ & Ha & _). rewrite Hd in Hd'. injection Hd' as <-.
  unfold accept_nonce in Ha. rewrite (recent_mem _ _ _ Hr) in Ha. done.
Qed.

Lemma receive_inv now raw incident c :
  let r := receive now raw incident c in
  let p := parse (cn_capacity c) (cn_connection_id c) (cn_expected_boot_session c) (ap_role (cn_peer c)) now raw
             (cn_replay c) in
  (r.2 = c \/ r.2 = with_replay p.2 (cn_closed c) c)
  /\ forall env, r.1 = Ok env ->
       cn_closed c = false /\ p.1 = Ok env /\ r.2 = with_replay p.2 (cn_closed c) c
       /\ (forall i, incident = Some i -> str_is (vget "incident_id" env) i = true)
       /\ (str_is (vget "message_type" env) "ACTION_REQUEST" = true ->
           authorize_action env (ap_role (cn_peer c)) = Ok tt).
Proof.
  unfold Ipc.receive, get_st, in_replay, mbind, M_bind. cbn.
  destruct (cn_closed c) eqn:Hc; cbn; [split; [by left|done]|].
  destruct (parse _ _ _ _ _ _ _) as [[env|e] items'] eqn:Hp; cbn; rewrite ?Hc; [|by (split; [right|])].
  unfold when_st, raise_st, lift_res.
  destruct incident as [i|]; [destruct (str_is (vget "incident_id" env) i) eqn:Hi|]; cbn;
    try (by (split; [right|]));
    destruct (str_is (vget "message_type" env) "ACTION_REQUEST") eqn:Hm; cbn;
    try (destruct (authorize_action env _) as [[]|e] eqn:Ha; cbn); (split; [by right|]); try done;
    intros env' [= <-]; split_and!; try done; try (intros i' [= <-]; done); try congruence.
Qed.

(** No message changes who the connection belongs to. *)
Lemma receive_fixed now raw incident c :
  let c' := (receive now raw incident c).2 in
  cn_connection_id c' = cn_connection_id c /\ cn_peer c' = cn_peer c
  /\ cn_expected_boot_session c' = cn_expected_boot_session c /\ cn_capacity c' = cn_capacity c
  /\ cn_closed c' = cn_closed c.
Proof.
  destruct (receive_inv now raw incident c) as [[-> | ->] _]; [|unfold with_replay; simpl]; by split_and!.
Qed.

Lemma receive_all_fixed messages c :
  let c' := receive_all json_loads messages c in
  cn_connection_id c' = cn_connection_id c /\ cn_peer c' = cn_peer c
  /\ cn_expected_boot_session c' = cn_expected_boot_session c /\ cn_capacity c' = cn_capacity c
  /\ cn_closed c' = cn_closed c.
Proof.
  revert c. induction messages as [|[[now raw] incident] messages IH]; intros c; [by split_and!|].
  unfold receive_all in *. simpl. destruct (receive_fixed now raw incident c) as (H1 & H2 & H3 & H4 & H5).
  destruct (IH (receive now raw incident c).2) as (G1 & G2 & G3 & G4 & G5).
  rewrite G1, G2, G3, G4, G5. by split_and!.
Qed.

Lemma receive_keeps n k now raw incident c : 0 <= n -> n + 1 < cn_capacity c -> recent n k (cn_replay c) ->
  recent (n + 1) k (cn_replay (receive now raw incident c).2).
Proof.
  intros Hn Hcap Hr. assert (Hw : recent (n + 1) k (cn_replay c)) by (by apply (recent_weaken n); [lia|]).
  destruct (receive_inv now raw incident c) as [[-> | ->] _]; [done|]. unfold with_replay; simpl.
  destruct (parse_envelope_inv (cn_capacity c) (cn_connection_id c) (cn_expected_boot_session c)
              (ap_role (cn_peer c)) now raw (cn_replay c)) as [[-> | [nonce ->]] _]; [done|].
  by apply accept_keeps.
Qed.

Lemma receive_all_keeps n k messages c : 0 <= n -> n + zlen messages < cn_capacity c -> recent n k (cn_replay c) ->
  recent (n + zlen messages) k (cn_replay (receive_all json_loads messages c)).
Proof.
  revert n c. induction messages as [|[[now raw] incident] messages IH]; intros n c Hn Hcap Hr.
  - unfold receive_all. simpl. apply (recent_weaken n); [|done]. unfold zlen. simpl. lia.
  - rewrite zlen_cons in *. pose proof (zlen_nonneg messages).
    replace (n + (zlen messages + 1)) with ((n + 1) + zlen messages) by lia.
    apply (IH (n + 1) (receive now raw incident c).2); [lia| |by apply receive_keeps; [|lia|]].
    destruct (receive_fixed now raw incident c) as (_ & _ & _ & -> & _). lia.
Qed.

End Messages.

(** C34. A message is honoured once: after a connection has accepted it, the same
    bytes are refused, whatever the clock says and whatever incident they are
    offered for, as long as fewer messages than the replay capacity came in
    between - accepted or refused, from an honest client or not. *)
Theorem message_honoured_once `{PlatformEnv} (json_loads : string -> option pyval)
    (now later : Z) (raw : string) (incident incident' : option string) (messages : list (Z * string * option string))
    (c c' : Connection) (env : envelope) :
  receive json_loads now raw incident c = (Ok env, c') ->
  zlen messages < cn_capacity c ->
  exists e, (receive json_loads later raw incident' (receive_all json_loads messages c')).1 = Raise e.
Proof.
  intros Hok Hcap. pose proof (zlen_nonneg messages).
  destruct (receive_inv json_loads now raw incident c) as [_ Hinv]. rewrite Hok in Hinv.
  destruct (Hinv env eq_refl) as (_ & Hp & Hc' & _). simpl in Hc'.
  destruct (parse_envelope_inv json_loads (cn_capacity c) (cn_connection_id c) (cn_expected_boot_session c)
              (ap_role (cn_peer c)) now raw (cn_replay c)) as [_ Henv].
  destruct (Henv env Hp) as (Hd & _ & _ & _ & Ha & Hitems).
  set (c2 := receive_all json_loads messages c').
  assert (Hr : recent (0 + zlen messages) (replay_key (cn_connection_id c) (text_of (vget "nonce" env))) (cn_replay c2)).
  { apply receive_all_keeps; [lia|subst c'; simpl; lia|]. subst c'. simpl. rewrite Hitems.
    by apply accept_records; [lia|]. }
  destruct (receive_all_fixed json_loads messages c') as (Hid & _).
  assert (Hid2 : cn_connection_id c2 = cn_connection_id c) by (unfold c2; rewrite Hid; by subst c').
  destruct (receive json_loads later raw incident' c2).1 as [env'|e] eqn:Hagain; [|by exists e].
  destruct (receive_inv json_loads later raw incident' c2) as [_ Hinv2].
  destruct (Hinv2 env' Hagain) as (_ & Hp2 & _).
  destruct (parse_envelope_replayed json_loads (0 + zlen messages) (cn_capacity c2) (cn_connection_id c2)
              (cn_expected_boot_session c2) (ap_role (cn_peer c2)) later raw (cn_replay c2) env Hd) as [e He].
  { by rewrite Hid2. }
  congruence.
Qed.

(** ** Authority *)

Lemma authorize_identity_ok env identity : authorize_identity env identity = Ok tt ->
  exists d pid, identity = VDict d /\ (forall f, f ∈ keys d <-> f ∈ PROCESS_IDENTITY_FIELDS)
    /\ int_of (vget "pid" d) = Some pid /\ 0 < pid
    /\ (exists boot, vget "boot_session_id" env = VStr boot /\ vget "boot_session_id" d = VStr boot).
Proof.
  destruct identity as [| | | | | | | |d|]; simpl; try done. rewrite !res_bind_unit_ok, !raise_if_ok.
  intros (Hk & Hpid & Hboot & _). b2p. exists d.
  destruct (int_of (vget "pid" d)) as [pid|]; [|done].
  destruct (int_of (vget "pid_version" d)); [|done]. b2p. exists pid. split_and!; try done.
  - intros f. rewrite set_eq in Hk. specialize (Hk f). rewrite elem_of_list_to_set in Hk.
    rewrite <- (elem_of_list_to_set (C := gset string) f PROCESS_IDENTITY_FIELDS). exact Hk.
  - destruct (vget "boot_session_id" env); try done. exists s. b2p.
    destruct (vget "boot_session_id" d); try done. simpl in Hboot. apply String.eqb_eq in Hboot. by subst.
Qed.

Lemma authorize_action_ok env role : authorize_action env role = Ok tt ->
  exists p action, vget "payload" env = VDict p /\ vget "action" p = VStr action
    /\ action ∈ privileged_actions role
    /\ (action ∈ ACTION_REQUIRED_IDENTITY -> authorize_identity env (vget "process_identity" p) = Ok tt).
Proof.
  unfold authorize_action. destruct (vget "payload" env) as [| | | | | | | |p|] eqn:Hp; try done.
  rewrite res_bind_unit_ok, res_bind_ok. intros (_ & allowed & Hal & Hrest).
  rewrite !res_bind_unit_ok, res_bind_ok, !raise_if_ok in Hrest.
  destruct Hrest as (Hallowed & _ & _ & needs & Hneeds & Hid). b2p. subst allowed.
  destruct (vget "action" p) as [| | | |action| | | | |] eqn:Hact; try done. cbn [hashable_in] in Hal, Hneeds.
  injection Hal as Hal. apply one_of_spec in Hal. exists p, action. split_and!; try done.
  intros Hin%one_of_spec. rewrite Hin in Hneeds. injection Hneeds as <-. done.
Qed.

Lemma check_fields_boot env boot role : check_fields env boot role = Ok tt ->
  vget "boot_session_id" env = VStr boot
  /\ exists s, vget "sender_role" env = VStr s /\ sender_role_of s = Some role.
Proof.
  unfold check_fields. rewrite !res_bind_unit_ok, res_bind_ok.
  intros (_ & _ & _ & _ & _ & role' & Hrole & Hrest). rewrite res_bind_unit_ok, !raise_if_ok in Hrest.
  destruct Hrest as [Hr Hb]. b2p. subst role'. split.
  - destruct (vget "boot_session_id" env); try done. simpl in Hb. apply String.eqb_eq in Hb. by subst.
  - destruct (vget "sender_role" env) as [| | | |s| | | | |]; try done. exists s. split; [done|].
    destruct (sender_role_of s); [by injection Hrole as ->|done].
Qed.

Lemma authenticate_peer_ok peer production team signing role :
  authenticate_peer peer production team signing role = Ok tt <->
  32 <= slen (ap_audit_token_hash peer) /\ ap_role peer = role
  /\ (production = true -> ap_ad_hoc peer = false /\ ap_team_id peer = team
      /\ ap_signing_id peer ∈ signing /\ ap_designated_requirement peer <> "").
Proof.
  unfold authenticate_peer. rewrite !res_bind_unit_ok, !raise_if_ok. unfold truthy.
  destruct production; simpl; rewrite ?orb_false_iff, ?negb_false_iff, ?negb_true_iff, ?String.eqb_eq, ?one_of_spec.
  - split.
    + intros ((_ & Hl) & Hr & Ha & (Ht & Hs) & Hd). b2p. apply String.eqb_neq in Hd. by split_and!.
    + intros (Hl & Hr & Hp). destruct (Hp eq_refl) as (? & ? & ? & Hd%String.eqb_neq). split_and!; try done.
      * apply String.eqb_neq. intros He. rewrite He in Hl. unfold slen in Hl. simpl in Hl. lia.
      * by apply Z.ltb_ge.
      * by apply bool_decide_eq_true.
  - split.
    + intros ((_ & Hl) & Hr & _). b2p. by split_and!.
    + intros (Hl & Hr & _). split_and!; try done.
      * apply String.eqb_neq. intros He. rewrite He in Hl. unfold slen in Hl. simpl in Hl. lia.
      * by apply Z.ltb_ge.
      * by apply bool_decide_eq_true.
Qed.

(** C35. A privileged action reaches the caller only with authority: whenever a connection
    opened by [connect] hands out an ACTION_REQUEST, after any run of other messages, the
    peer was authenticated for the role the channel expects (in production: not ad hoc,
    right team, an allowed signing identity), the envelope names that role and this boot
    session, the action is one that role may ask for, and an action on a process carries
    exactly the five identity fields, with a positive process identifier and the boot
    session of the channel. Whether such a process exists is not checked here. *)
Theorem action_requests_are_authorized `{PlatformEnv} (json_loads : string -> option pyval)
    (id : string) (peer : AuthenticatedPeer) (production : bool) (team : string) (signing : list string)
    (role : SenderRole) (boot : string) (capacity now : Z) (raw : string) (incident : option string)
    (messages : list (Z * string * option string)) (c c' : Connection) (env : envelope) :
  connect id peer production team signing role boot capacity = Ok c ->
  receive json_loads now raw incident (receive_all json_loads messages c) = (Ok env, c') ->
  vget "message_type" env = VStr "ACTION_REQUEST" ->
  (production = true -> ap_ad_hoc peer = false /\ ap_team_id peer = team /\ ap_signing_id peer ∈ signing)
  /\ (exists s, vget "sender_role" env = VStr s /\ sender_role_of s = Some role)
  /\ vget "boot_session_id" env = VStr boot
  /\ exists p action, vget "payload" env = VDict p /\ vget "action" p = VStr action
     /\ action ∈ privileged_actions role
     /\ (action ∈ ACTION_REQUIRED_IDENTITY -> exists d pid,
           vget "process_identity" p = VDict d /\ (forall f, f ∈ keys d <-> f ∈ PROCESS_IDENTITY_FIELDS)
           /\ int_of (vget "pid" d) = Some pid /\ 0 < pid /\ vget "boot_session_id" d = VStr boot).
Proof.
  unfold connect. rewrite !res_bind_unit_ok, raise_if_ok. intros (_ & Hpeer & [= <-]) Hrecv Htype.
  apply authenticate_peer_ok in Hpeer as (_ & Hrole & Hprod).
  match type of Hrecv with receive _ _ _ _ (receive_all _ _ ?c0) = _ => set (c := c0) in Hrecv end.
  destruct (receive_all_fixed json_loads messages c) as (_ & Hp & Hb & _).
  destruct (receive_inv json_loads now raw incident (receive_all json_loads messages c)) as [_ Hinv].
  rewrite Hrecv, Hp, Hb in Hinv. destruct (Hinv env eq_refl) as (_ & Hparse & _ & _ & Hauth). simpl in Hauth.
  apply parse_envelope_inv in Hparse as (_ & Hf & _). change (cn_peer c) with peer in Hf, Hauth.
  change (cn_expected_boot_session c) with boot in Hf.
  rewrite Hrole in Hf, Hauth.
  apply check_fields_boot in Hf as [Hboot Hs].
  destruct (authorize_action_ok env role) as (p & action & Hpay & Hact & Hin & Hid).
  { apply Hauth. by rewrite Htype. }
  split_and!; try done.
  { intros Hpr. by destruct (Hprod Hpr) as (? & ? & ? & _). }
  exists p, action. split_and!; try done. intros Hneeds.
  destruct (authorize_identity_ok env _ (Hid Hneeds)) as (d & pid & Hd & Hk & Hpid & Hpos & b & Hb1 & Hb2).
  exists d, pid. split_and!; try done; try apply Hk. congruence.
Qed.

(** *** A message on a channel *)

Definition sample_payload : pyval := VDict [
  ("action", VStr "ALLOW_ONCE"); ("idempotency_key", VStr "once-1");
  ("process_identity", VDict [("pid", VInt 501); ("pid_version", VInt 7); ("boot_session_id", VStr "boot-1");
     ("executable_sha256", VStr "aaaaaaaaaaaaaaaaaaaaaaaaaaaaaaaaaaaaaaaaaaaaaaaaaaaaaaaaaaaaaaaa");
     ("effective_uid", VInt 501)])].

Definition sample_envelope : envelope := [
  ("protocol_version", VStr "1.0"); ("schema_version", VStr "1.0"); ("message_type", VStr "ACTION_REQUEST");
  ("message_id", VStr "m1"); ("correlation_id", VStr "c1"); ("incident_id", VStr "i1"); ("event_id", VStr "e1");
  ("boot_session_id", VStr "boot-1"); ("sender_role", VStr "USER_NOTIFIER"); ("sender_build_id", VStr "b1");
  ("created_at", VStr "2026-01-01T00:00:00+00:00"); ("expires_at", VStr "2026-01-01T00:02:00+00:00");
  ("nonce", VStr "nonce-0000000001"); ("payload_length", VInt 231); ("payload", sample_payload)].

Definition sample_peer : AuthenticatedPeer := {|
  ap_audit_token_hash := "0123456789abcdef0123456789abcdef"; ap_team_id := "TEAM"; ap_signing_id := "notifier";
  ap_designated_requirement := "anchor apple"; ap_ad_hoc := false; ap_role := USER_NOTIFIER |}.

Definition sample_loads (raw : string) : option pyval := Some (VDict sample_envelope).
Definition sample_now : Z := 1767225610 * 1000000.
Definition sample_connection : Connection := {|
  cn_connection_id := "conn"; cn_peer := sample_peer; cn_expected_boot_session := "boot-1"; cn_capacity := 2;
  cn_replay := []; cn_closed := false |}.

Lemma message_honoured_once_witness :
  let recv := @receive plain_env sample_loads sample_now "m" (Some "i1") sample_connection in
  recv = (Ok sample_envelope, recv.2)
  /\ exists e, (@receive plain_env sample_loads sample_now "m" None
                 (@receive_all plain_env sample_loads [(sample_now, "m", None)] recv.2)).1 = Raise e.
Proof.
  split; [by vm_compute|].
  apply (@message_honoured_once plain_env sample_loads sample_now sample_now "m" (Some "i1") None
           [(sample_now, "m", None)] sample_connection
           (@receive plain_env sample_loads sample_now "m" (Some "i1") sample_connection).2 sample_envelope);
    [by vm_compute | done].
Defined.

Lemma action_requests_are_authorized_witness :
  connect "conn" sample_peer true "TEAM" ["notifier"] USER_NOTIFIER "boot-1" 2 = Ok sample_connection
  /\ (@receive plain_env sample_loads sample_now "m" (Some "i1") sample_connection).1 = Ok sample_envelope
  /\ exists p action, vget "payload" sample_envelope = VDict p /\ vget "action" p = VStr action
       /\ action ∈ privileged_actions USER_NOTIFIER
       /\ (action ∈ ACTION_REQUIRED_IDENTITY -> exists d pid,
             vget "process_identity" p = VDict d /\ (forall f, f ∈ keys d <-> f ∈ PROCESS_IDENTITY_FIELDS)
             /\ int_of (vget "pid" d) = Some pid /\ 0 < pid /\ vget "boot_session_id" d = VStr "boot-1").
Proof.
  split; [by vm_compute|]. split; [by vm_compute|].
  apply (@action_requests_are_authorized plain_env sample_loads "conn" sample_peer true "TEAM" ["notifier"]
           USER_NOTIFIER "boot-1" 2 sample_now "m" (Some "i1") [] sample_connection
           (@receive plain_env sample_loads sample_now "m" (Some "i1") sample_connection).2 sample_envelope);
    by vm_compute.
Defined.
