(* ===== verification/Scheduler.v ===== *)
(** Resource profiles: [performance/resource_budget.py]. *)

From S2P Require Import Prelude PyStr PyDict PyJson PyFloat.

Record ResourceBudget := {
  rb_profile : string;
  rb_max_cpu_percent_target : Z;
  rb_max_memory_mb_soft : Z;
  rb_max_memory_mb_hard : Z;
  rb_max_concurrent_tasks : Z;
  rb_max_subprocesses : Z;
  rb_max_api_requests_per_minute : Z;
  rb_api_timeout_seconds : Z;
  rb_scan_timeout_seconds : Z;
  rb_export_timeout_seconds : Z;
  rb_refresh_min_interval_seconds : Z;
  rb_low_power_mode_behavior : string;
  rb_battery_mode_behavior : string;
  rb_heavy_refresh_requires_user_action : bool
}.

(** [to_dict] *)
Definition budget_dict (b : ResourceBudget) : list (string * pyval) := [
  ("profile", VStr (rb_profile b)); ("max_cpu_percent_target", VInt (rb_max_cpu_percent_target b));
  ("max_memory_mb_soft", VInt (rb_max_memory_mb_soft b)); ("max_memory_mb_hard", VInt (rb_max_memory_mb_hard b));
  ("max_concurrent_tasks", VInt (rb_max_concurrent_tasks b)); ("max_subprocesses", VInt (rb_max_subprocesses b));
  ("max_api_requests_per_minute", VInt (rb_max_api_requests_per_minute b));
  ("api_timeout_seconds", VInt (rb_api_timeout_seconds b)); ("scan_timeout_seconds", VInt (rb_scan_timeout_seconds b));
  ("export_timeout_seconds", VInt (rb_export_timeout_seconds b));
  ("refresh_min_interval_seconds", VInt (rb_refresh_min_interval_seconds b));
  ("low_power_mode_behavior", VStr (rb_low_power_mode_behavior b));
  ("battery_mode_behavior", VStr (rb_battery_mode_behavior b));
  ("heavy_refresh_requires_user_action", VBool (rb_heavy_refresh_requires_user_action b))].

Definition LOW_RESOURCE_BUDGET : ResourceBudget := {|
  rb_profile := "low_resource"; rb_max_cpu_percent_target := 35; rb_max_memory_mb_soft := 512;
  rb_max_memory_mb_hard := 1024; rb_max_concurrent_tasks := 1; rb_max_subprocesses := 1;
  rb_max_api_requests_per_minute := 10; rb_api_timeout_seconds := 10; rb_scan_timeout_seconds := 60;
  rb_export_timeout_seconds := 120; rb_refresh_min_interval_seconds := 3600;
  rb_low_power_mode_behavior := "defer_heavy_work"; rb_battery_mode_behavior := "manual_heavy_refresh_only";
  rb_heavy_refresh_requires_user_action := true |}.

Definition BALANCED_BUDGET : ResourceBudget := {|
  rb_profile := "balanced"; rb_max_cpu_percent_target := 55; rb_max_memory_mb_soft := 1024;
  rb_max_memory_mb_hard := 2048; rb_max_concurrent_tasks := 2; rb_max_subprocesses := 2;
  rb_max_api_requests_per_minute := 30; rb_api_timeout_seconds := 15; rb_scan_timeout_seconds := 180;
  rb_export_timeout_seconds := 240; rb_refresh_min_interval_seconds := 1800;
  rb_low_power_mode_behavior := "defer_background_heavy_work";
  rb_battery_mode_behavior := "stagger_background_refresh"; rb_heavy_refresh_requires_user_action := false |}.

Definition THOROUGH_BUDGET : ResourceBudget := {|
  rb_profile := "thorough"; rb_max_cpu_percent_target := 75; rb_max_memory_mb_soft := 2048;
  rb_max_memory_mb_hard := 4096; rb_max_concurrent_tasks := 3; rb_max_subprocesses := 3;
  rb_max_api_requests_per_minute := 60; rb_api_timeout_seconds := 20; rb_scan_timeout_seconds := 600;
  rb_export_timeout_seconds := 600; rb_refresh_min_interval_seconds := 900;
  rb_low_power_mode_behavior := "warn_before_heavy_work";
  rb_battery_mode_behavior := "allow_user_initiated_heavy_work"; rb_heavy_refresh_requires_user_action := false |}.

Definition DEFAULT_RESOURCE_PROFILE : string := "low_resource".

Definition BUDGETS : list (string * ResourceBudget) := [
  (rb_profile LOW_RESOURCE_BUDGET, LOW_RESOURCE_BUDGET); (rb_profile BALANCED_BUDGET, BALANCED_BUDGET);
  (rb_profile THOROUGH_BUDGET, THOROUGH_BUDGET)].

(** [_BUDGETS.get(str(profile or DEFAULT_RESOURCE_PROFILE), BALANCED_BUDGET)] *)
Definition budget_for_profile (profile : option string) : ResourceBudget :=
  dget_default BALANCED_BUDGET (str_or (default "" profile) DEFAULT_RESOURCE_PROFILE) BUDGETS.

(** The key-value state of the monitor, as these functions use it: reading it may
    raise, which the caller turns into the default. *)
Definition load_resource_profile_from_db (stored : res (option string)) : string :=
  match stored with
  | Ok (Some profile) => profile
  | Ok None | Raise _ => DEFAULT_RESOURCE_PROFILE
  end.

Definition load_resource_budget (db : option (res (option string))) (profile : option string) : ResourceBudget :=
  if truthy (default "" profile) then budget_for_profile profile else
  match db with
  | Some stored => budget_for_profile (Some (load_resource_profile_from_db stored))
  | None => BALANCED_BUDGET
  end.

Section Persist.
Context `{PlatformEnv}.

Definition monitor_state : Type := list (string * string).

Definition persist_resource_profile (profile : string) : M monitor_state ResourceBudget :=
  let budget := budget_for_profile (Some profile) in
  text ← lift_res (json_dumps sorted_style (VDict (budget_dict budget)));
  modify_st (dset "performance.resource_profile" (rb_profile budget));;
  modify_st (dset "performance.resource_budget_json" text);;
  mret budget.
End Persist.

(** A known profile name is read back as what was persisted. *)
Lemma persisted_profile_loads `{PlatformEnv} profile s b s' :
  persist_resource_profile profile s = (Ok b, s') ->
  load_resource_budget (Some (Ok (dget "performance.resource_profile" s'))) None = b.
Proof.
  unfold persist_resource_profile. rewrite bind_ok. intros (text & s1 & [= _ <-] & [= Hb <-]).
  rewrite dget_dset_ne by done. rewrite dget_dset_eq. simpl. rewrite <- Hb. unfold budget_for_profile. simpl.
  set (key := str_or profile DEFAULT_RESOURCE_PROFILE). unfold BUDGETS, dget_default. simpl.
  destruct (decide (key = "low_resource")); [done|]. destruct (decide (key = "balanced")); [done|].
  by destruct (decide (key = "thorough")).
Qed.

(** The background work scheduler: [performance/work_scheduler.py].

    Every method holds one re-entrant lock, so a run of the scheduler is a
    sequence of its locked sections, interleaved with what the worker threads do
    to the futures: they pick a pending one up and finish it. The heap is kept as
    the list of its entries, popped at the least one.

    A future is known by its entry in [_active_futures]. A task scheduled again while its
    future runs overwrites that entry; the future it had goes on untracked. A worker may
    pick it up ([worker_untracked]), and its callback completes whatever the entry then is:
    [complete] may run at any time, for any task. *)

Inductive TaskPriority := critical_user_action | user_action | background_high | background_normal | background_low.

Definition priority_level (p : TaskPriority) : Z :=
  match p with
  | critical_user_action => 0 | user_action => 10 | background_high => 30
  | background_normal => 50 | background_low => 80
  end.

(** [TaskPriority.__members__] *)
Definition priority_members : list (string * TaskPriority) := [
  ("critical_user_action", critical_user_action); ("user_action", user_action);
  ("background_high", background_high); ("background_normal", background_normal);
  ("background_low", background_low)].

Definition level_of (priority : string) : Z :=
  priority_level (dget_default background_normal priority priority_members).

Inductive TaskStatus :=
| queued | running | succeeded | failed | cancelled | skipped_deduped | skipped_cooldown.

#[export] Instance TaskStatus_eq_dec : EqDecision TaskStatus.
Proof. solve_decision. Defined.

(** A task; what its callable does is known when a worker has run it. *)
Record ScheduledTask := {
  st_task_type : string;
  st_subsystem : string;
  st_priority : string;
  st_dedupe_key : string;
  st_timeout_seconds : Z;
  st_resource_estimate : list (string * pyval);
  st_task_id : string;
  st_created_at : string;
  st_started_at : string;
  st_completed_at : string;
  st_cancelled : bool;                 (** [cancellation_token.cancelled] *)
  st_status : TaskStatus;
  st_error : string;
  st_result : pyval
}.

(** The attributes the scheduler assigns. *)
Definition task_update (status : TaskStatus) (token : bool) (started completed error : string) (result : pyval)
    (t : ScheduledTask) : ScheduledTask := {|
  st_task_type := st_task_type t; st_subsystem := st_subsystem t; st_priority := st_priority t;
  st_dedupe_key := st_dedupe_key t; st_timeout_seconds := st_timeout_seconds t;
  st_resource_estimate := st_resource_estimate t; st_task_id := st_task_id t; st_created_at := st_created_at t;
  st_started_at := started; st_completed_at := completed; st_cancelled := token; st_status := status;
  st_error := error; st_result := result |}.

Definition set_status (status : TaskStatus) (t : ScheduledTask) : ScheduledTask :=
  task_update status (st_cancelled t) (st_started_at t) (st_completed_at t) (st_error t) (st_result t) t.
Definition cancel_token (status : TaskStatus) (t : ScheduledTask) : ScheduledTask :=
  task_update status true (st_started_at t) (st_completed_at t) (st_error t) (st_result t) t.
Definition set_started (wall : string) (t : ScheduledTask) : ScheduledTask :=
  task_update running (st_cancelled t) wall (st_completed_at t) (st_error t) (st_result t) t.
Definition set_completed (wall : string) (t : ScheduledTask) : ScheduledTask :=
  task_update (st_status t) (st_cancelled t) (st_started_at t) wall (st_error t) (st_result t) t.
Definition set_error (error : string) (t : ScheduledTask) : ScheduledTask :=
  task_update (st_status t) (st_cancelled t) (st_started_at t) (st_completed_at t) error (st_result t) t.
Definition set_result (result : pyval) (t : ScheduledTask) : ScheduledTask :=
  task_update (st_status t) (st_cancelled t) (st_started_at t) (st_completed_at t) (st_error t) result t.

(** What became of a callable: its value, or the text of what it raised. *)
Definition outcome : Type := pyval + string.

Inductive Future := FPending | FRunning | FDone (o : outcome) | FCancelled.

(** A heap entry: level, monotonic time, task id. *)
Definition entry : Type := Z * float * string.
Definition entry_level (e : entry) : Z := e.1.1.
Definition entry_time (e : entry) : float := e.1.2.
Definition entry_id (e : entry) : string := e.2.

(** Tuple order: the first component that differs decides. *)
Definition entry_lt (a b : entry) : bool :=
  if entry_level a =? entry_level b
  then if feqb (entry_time a) (entry_time b) then negb (str_le (entry_id b) (entry_id a))
       else fltb (entry_time a) (entry_time b)
  else entry_level a <? entry_level b.

(** [heapq.heappop]: a least entry and the others *)
Fixpoint pop_min (q : list entry) : option (entry * list entry) :=
  match q with
  | [] => None
  | e :: q' =>
      match pop_min q' with
      | None => Some (e, [])
      | Some (m, rest) => Some (if entry_lt m e then (m, e :: rest) else (e, m :: rest))
      end
  end.

Record Scheduler := {
  ws_budget : ResourceBudget;
  ws_queue : list entry;
  ws_tasks : list (string * ScheduledTask);
  ws_running_by_dedupe : list (string * string);
  ws_last_started_by_dedupe : list (string * float);
  ws_active_futures : list (string * Future);
  ws_shutdown : bool;
  ws_max_task_history : Z
}.

Definition new_scheduler (budget : ResourceBudget) (max_task_history : Z) : Scheduler := {|
  ws_budget := budget; ws_queue := []; ws_tasks := []; ws_running_by_dedupe := []; ws_last_started_by_dedupe := [];
  ws_active_futures := []; ws_shutdown := false; ws_max_task_history := Z.max 50 max_task_history |}.

Definition with_queue (q : list entry) (s : Scheduler) : Scheduler := {|
  ws_budget := ws_budget s; ws_queue := q; ws_tasks := ws_tasks s; ws_running_by_dedupe := ws_running_by_dedupe s;
  ws_last_started_by_dedupe := ws_last_started_by_dedupe s; ws_active_futures := ws_active_futures s;
  ws_shutdown := ws_shutdown s; ws_max_task_history := ws_max_task_history s |}.
Definition with_tasks (ts : list (string * ScheduledTask)) (s : Scheduler) : Scheduler := {|
  ws_budget := ws_budget s; ws_queue := ws_queue s; ws_tasks := ts; ws_running_by_dedupe := ws_running_by_dedupe s;
  ws_last_started_by_dedupe := ws_last_started_by_dedupe s; ws_active_futures := ws_active_futures s;
  ws_shutdown := ws_shutdown s; ws_max_task_history := ws_max_task_history s |}.
Definition with_running (r : list (string * string)) (s : Scheduler) : Scheduler := {|
  ws_budget := ws_budget s; ws_queue := ws_queue s; ws_tasks := ws_tasks s; ws_running_by_dedupe := r;
  ws_last_started_by_dedupe := ws_last_started_by_dedupe s; ws_active_futures := ws_active_futures s;
  ws_shutdown := ws_shutdown s; ws_max_task_history := ws_max_task_history s |}.
Definition with_last_started (l : list (string * float)) (s : Scheduler) : Scheduler := {|
  ws_budget := ws_budget s; ws_queue := ws_queue s; ws_tasks := ws_tasks s;
  ws_running_by_dedupe := ws_running_by_dedupe s; ws_last_started_by_dedupe := l;
  ws_active_futures := ws_active_futures s; ws_shutdown := ws_shutdown s;
  ws_max_task_history := ws_max_task_history s |}.
Definition with_active (f : list (string * Future)) (s : Scheduler) : Scheduler := {|
  ws_budget := ws_budget s; ws_queue := ws_queue s; ws_tasks := ws_tasks s;
  ws_running_by_dedupe := ws_running_by_dedupe s; ws_last_started_by_dedupe := ws_last_started_by_dedupe s;
  ws_active_futures := f; ws_shutdown := ws_shutdown s; ws_max_task_history := ws_max_task_history s |}.
Definition with_shutdown (s : Scheduler) : Scheduler := {|
  ws_budget := ws_budget s; ws_queue := ws_queue s; ws_tasks := ws_tasks s;
  ws_running_by_dedupe := ws_running_by_dedupe s; ws_last_started_by_dedupe := ws_last_started_by_dedupe s;
  ws_active_futures := ws_active_futures s; ws_shutdown := true; ws_max_task_history := ws_max_task_history s |}.

(** Assignments to the attributes of the task object under an id. *)
Definition edit_task (id : string) (f : ScheduledTask -> ScheduledTask) (s : Scheduler) : Scheduler :=
  match dget id (ws_tasks s) with
  | Some t => with_tasks (dset id (f t) (ws_tasks s)) s
  | None => s
  end.

Definition max_concurrent (s : Scheduler) : Z := rb_max_concurrent_tasks (ws_budget s).

(** ** [_drain] *)

Section Clock.
(** [utc_now_iso()] and [time.monotonic()] during one call *)
Context (wall : string) (mono : float).

(** The branch of the loop that starts a task. *)
Definition start_task (id : string) (t : ScheduledTask) (s : Scheduler) : Scheduler :=
  let s := edit_task id (set_started wall) s in
  let s := if truthy (st_dedupe_key t)
           then with_last_started (dset (st_dedupe_key t) mono (ws_last_started_by_dedupe s))
                  (with_running (dset (st_dedupe_key t) (st_task_id t) (ws_running_by_dedupe s)) s)
           else s in
  with_active (dset id FPending (ws_active_futures s)) s.

(** One turn of the loop; [true] when it may go round again. *)
Definition drain_one : M Scheduler bool :=
  s ← get_st;
  if ws_shutdown s then mret false else
  match pop_min (ws_queue s) with
  | None => mret false
  | Some (e, rest) =>
      if max_concurrent s <=? zlen (ws_active_futures s) then mret false else
      put_st (with_queue rest s);;
      match dget (entry_id e) (ws_tasks s) with
      | None => raise_st (KeyError (entry_id e))
      | Some t =>
          if st_cancelled t
          then modify_st (edit_task (entry_id e) (fun t => set_completed wall (set_status cancelled t)));; mret true
          else modify_st (start_task (entry_id e) t);; mret true
      end
  end.

Fixpoint drain_loop (fuel : nat) : M Scheduler unit :=
  match fuel with
  | O => mret tt
  | S fuel => again ← drain_one; if (again : bool) then drain_loop fuel else mret tt
  end.

(** Every turn pops an entry, so the length of the heap bounds the loop. *)
Definition drain : M Scheduler unit :=
  s ← get_st; drain_loop (length (ws_queue s)).

(** ** [schedule] *)

(** The locked section: the task as its caller sees it, and whether it was queued. *)
Definition accept (task : ScheduledTask) (cooldown_seconds : Z) : M Scheduler (ScheduledTask * bool) :=
  s ← get_st;
  if ws_shutdown s
  then mret (set_completed wall (set_error "scheduler is shutting down" (set_status cancelled task)), false) else
  if truthy (st_dedupe_key task) && dmem (st_dedupe_key task) (ws_running_by_dedupe s)
  then mret (set_status skipped_deduped task, false) else
  let last := dget_default fzero (st_dedupe_key task) (ws_last_started_by_dedupe s) in
  if truthy (st_dedupe_key task) && (0 <? cooldown_seconds) && fltb (fsub mono last) (fexact cooldown_seconds)
  then mret (set_status skipped_cooldown task, false) else
  modify_st (fun s => with_tasks (dset (st_task_id task) task (ws_tasks s)) s);;
  modify_st (fun s => with_queue ((level_of (st_priority task), mono, st_task_id task) :: ws_queue s) s);;
  mret (task, true).

Definition schedule (task : ScheduledTask) (cooldown_seconds : Z) : M Scheduler ScheduledTask :=
  admitted ← accept task cooldown_seconds;
  if (admitted.2 : bool)
  then drain;; gets (fun s => dget_default task (st_task_id task) (ws_tasks s))
  else mret admitted.1.

(** ** [_complete] *)

Definition finished (s : TaskStatus) : bool :=
  match s with queued | running => false | _ => true end.

(** [completed_ids[:-n]] *)
Definition stale_ids (n : Z) (ts : list (string * ScheduledTask)) : list string :=
  let completed := keys (filter (fun kv => finished (st_status kv.2) = true) ts) in
  take (length completed - Z.to_nat n) completed.

Definition prune_history (s : Scheduler) : Scheduler :=
  with_tasks (foldl (fun ts id => ddel id ts) (ws_tasks s) (stale_ids (ws_max_task_history s) (ws_tasks s))) s.

(** What [future.result(timeout=0)] does to the task; a future that is still
    running times out, and the text of that exception is empty. *)
Definition absorb (f : option Future) (t : ScheduledTask) : ScheduledTask :=
  match f with
  | None | Some (FDone (inl _)) =>
      let v := match f with Some (FDone (inl v)) => v | _ => VNone end in
      let t := set_result v t in
      if decide (st_status t = cancelled) then t else set_status succeeded t
  | Some (FDone (inr text)) => set_status failed (set_error text t)
  | Some _ => set_status failed (set_error "" t)
  end.

Definition release_dedupe (id : string) (t : ScheduledTask) (s : Scheduler) : Scheduler :=
  if truthy (st_dedupe_key t) && bool_decide (dget (st_dedupe_key t) (ws_running_by_dedupe s) = Some id)
  then with_running (ddel (st_dedupe_key t) (ws_running_by_dedupe s)) s else s.

Definition complete (id : string) : M Scheduler unit :=
  s ← get_st;
  let future := dget id (ws_active_futures s) in
  modify_st (fun s => with_active (ddel id (ws_active_futures s)) s);;
  match dget id (ws_tasks s) with
  | None => mret tt
  | Some t =>
      modify_st (edit_task id (fun t => set_completed wall (absorb future t)));;
      modify_st (release_dedupe id t);;
      modify_st prune_history;;
      drain
  end.

(** ** Cancellation *)

(** [future.cancel()]: only a pending future is cancelled, and its callbacks run;
    what they raise is logged by the future. *)
Definition cancel_future (id : string) : M Scheduler unit :=
  s ← get_st;
  match dget id (ws_active_futures s) with
  | Some FPending =>
      modify_st (fun s => with_active (dset id FCancelled (ws_active_futures s)) s);;
      try_except (complete id) (fun _ => mret tt)
  | _ => mret tt
  end.

Definition cancel (id : string) : M Scheduler bool :=
  s ← get_st;
  match dget id (ws_tasks s) with
  | None => mret false
  | Some t =>
      modify_st (edit_task id (fun t => cancel_token (st_status t) t));;
      cancel_future id;;
      modify_st (edit_task id (set_status cancelled));;
      mret true
  end.

Definition unfinished (t : ScheduledTask) : bool := negb (finished (st_status t)).

Definition is_background (t : ScheduledTask) : bool :=
  startswith "background" (st_priority t) && unfinished t.

Definition cancel_background_tasks : M Scheduler Z :=
  s ← get_st;
  modify_st (with_tasks ((fun kv => (kv.1, if is_background kv.2 then cancel_token cancelled kv.2 else kv.2))
                         <$> ws_tasks s));;
  mret (zcount (fun kv => is_background kv.2) (ws_tasks s)).

(** ** [shutdown] *)

Fixpoint cancel_futures (ids : list string) : M Scheduler unit :=
  match ids with
  | [] => mret tt
  | id :: ids => cancel_future id;; cancel_futures ids
  end.

(** The locked section: how many tasks were cancelled, and the futures waited for. *)
Definition begin_shutdown (with_cancel : bool) : M Scheduler (Z * list string) :=
  s ← get_st;
  let futures := keys (ws_active_futures s) in
  put_st (with_queue [] (with_shutdown s));;
  if with_cancel then
    modify_st (fun s => with_tasks
      ((fun kv => (kv.1, if unfinished kv.2 then set_completed wall (cancel_token cancelled kv.2) else kv.2))
         <$> ws_tasks s) s);;
    cancel_futures futures;;
    mret (zcount (fun kv => unfinished kv.2) (ws_tasks s), futures)
  else mret (0, futures).

(** [still_running] of the futures are pending when [concurrent.futures.wait]
    times out; then the executor cancels what it has not started. *)
Definition shutdown (with_cancel : bool) (still_running : Z) : M Scheduler (Z * Z * Z) :=
  s ← get_st;
  if ws_shutdown s then mret (0, 0, zlen (ws_active_futures s)) else
  begun ← begin_shutdown with_cancel;
  s ← get_st;
  cancel_futures (keys (ws_active_futures s));;
  mret (begun.1, zlen begun.2 - still_running, still_running).
End Clock.

(** ** The workers *)

(** A worker picks the future up. [_run_task] does not call the callable of a
    cancelled task; a task that is no longer in the history has been cancelled. *)
Definition worker_start (id : string) (s : Scheduler) : Scheduler :=
  match dget id (ws_active_futures s) with
  | Some FPending =>
      let skip := match dget id (ws_tasks s) with Some t => st_cancelled t | None => true end in
      if skip
      then with_active (dset id (FDone (inl VNone)) (ws_active_futures s)) (edit_task id (set_status cancelled) s)
      else with_active (dset id FRunning (ws_active_futures s)) s
  | _ => s
  end.

(** A worker picks up a future that is no longer tracked: of it the scheduler sees that a
    cancelled task is skipped. *)
Definition worker_untracked (id : string) (s : Scheduler) : Scheduler :=
  match dget id (ws_tasks s) with
  | Some t => if st_cancelled t then edit_task id (set_status cancelled) s else s
  | None => s
  end.

(** The callable returned or raised. *)
Definition worker_finish (id : string) (o : outcome) (s : Scheduler) : Scheduler :=
  match dget id (ws_active_futures s) with
  | Some FRunning => with_active (dset id (FDone o) (ws_active_futures s)) s
  | _ => s
  end.

(** ** Reports and the global scheduler *)

Record Snapshot := {
  sn_budget : ResourceBudget;
  sn_queued : Z;
  sn_running : Z;
  sn_tasks : list ScheduledTask
}.

Definition snapshot (s : Scheduler) : Snapshot := {|
  sn_budget := ws_budget s; sn_queued := zlen (ws_queue s); sn_running := zlen (ws_active_futures s);
  sn_tasks := last_n 100 (snd <$> ws_tasks s) |}.

Definition get_global_scheduler (global : option Scheduler) (budget : option ResourceBudget) : Scheduler :=
  match global with
  | Some s => if ws_shutdown s then new_scheduler (default (load_resource_budget None None) budget) 500 else s
  | None => new_scheduler (default (load_resource_budget None None) budget) 500
  end.

(** ** Runs *)

Inductive sched_op :=
| OSchedule (task : ScheduledTask) (cooldown : Z)
| ODrain
| OWorkerStart (id : string)
| OWorkerFinish (id : string) (o : outcome)
| OWorkerUntracked (id : string)
| OComplete (id : string)
| OCancel (id : string)
| OCancelBackground
| OShutdown (with_cancel : bool) (still_running : Z).

Definition perform (wall : string) (mono : float) (op : sched_op) : M Scheduler unit :=
  match op with
  | OSchedule task cooldown => schedule wall mono task cooldown;; mret tt
  | ODrain => drain wall mono
  | OWorkerStart id => modify_st (worker_start id)
  | OWorkerFinish id o => modify_st (worker_finish id o)
  | OWorkerUntracked id => modify_st (worker_untracked id)
  | OComplete id => complete wall mono id
  | OCancel id => cancel wall mono id;; mret tt
  | OCancelBackground => cancel_background_tasks;; mret tt
  | OShutdown with_cancel still_running => shutdown wall mono with_cancel still_running;; mret tt
  end.

(** The state after a run; an exception leaves the state it was raised in. *)
Definition run_ops (ops : list (string * float * sched_op)) (s : Scheduler) : Scheduler :=
  foldl (fun s '(wall, mono, op) => (perform wall mono op s).2) s ops.

(** What the scheduler keeps: its concurrency limit, its shutdown, its order of
    urgency - and what its deduplication does not keep. *)

(** ** Invariants of a run *)

Section Runs.
Context (I : Scheduler -> Prop).
Context (I_tasks : forall ts s, I s -> I (with_tasks ts s)).
Context (I_running : forall r s, I s -> I (with_running r s)).
Context (I_del : forall id s, I s -> I (with_active (ddel id (ws_active_futures s)) s)).
Context (I_set : forall id f s, id ∈ keys (ws_active_futures s) -> I s ->
           I (with_active (dset id f (ws_active_futures s)) s)).
Context (I_drain : forall wall mono, preserves I (drain_one wall mono)).
Context (I_push : forall e s, ws_shutdown s = false -> I s -> I (with_queue (e :: ws_queue s) s)).
Context (I_shutdown : forall s, I s -> I (with_queue [] (with_shutdown s))).














End Runs.

(** ** The limits *)











(** ** The order of urgency *)

(** Served no later: a more urgent level, or the same level and no younger. *)
Definition served_before (a b : entry) : Prop :=
  entry_level a < entry_level b
  \/ entry_level a = entry_level b /\ fleb (entry_time a) (entry_time b) = true.

Definition timed (e : entry) : Prop := fnan (entry_time e) = false.

Lemma served_before_trans a b c : served_before a b -> served_before b c -> served_before a c.
Proof.
  unfold served_before. intros [|[H1 T1]] [|[H2 T2]]; [left; lia..|]. right. split; [lia|].
  by apply (fleb_trans _ (entry_time b)).
Qed.

Lemma feqb_fleb x y : feqb x y = true -> fleb x y = true /\ fleb y x = true.
Proof. unfold feqb, fleb. rewrite (fcmp_sym x y). by destruct (fcmp x y) as [[]|]. Qed.

Lemma entry_lt_before a b : timed a -> timed b ->
  if entry_lt a b then served_before a b else served_before b a.
Proof.
  intros Ha Hb. unfold entry_lt, served_before.
  destruct (entry_level a =? entry_level b) eqn:Hl; b2p.
  - destruct (feqb _ _) eqn:Hf.
    + apply feqb_fleb in Hf as [H1 H2]. by destruct (negb _); right.
    + destruct (fltb _ _) eqn:Hlt; right; (split; [done|]); [by apply fltb_fleb|by apply fltb_false_fleb].
  - destruct (entry_level a <? entry_level b) eqn:Hlt; b2p; left; lia.
Qed.

Lemma pop_min_spec q : Forall timed q ->
  match pop_min q with
  | None => q = []
  | Some (e, rest) => Permutation q (e :: rest) /\ Forall (served_before e) q
  end.
Proof.
  induction 1 as [|e q He Hq IH]; simpl; [done|].
  assert (Hrefl : served_before e e) by (right; split; [done|by apply fleb_refl]).
  destruct (pop_min q) as [[m rest]|].
  - destruct IH as [Hp Hmin]. assert (Hm : m ∈ q) by (rewrite Hp; constructor).
    rewrite Forall_forall in Hq. pose proof (entry_lt_before m e (Hq _ Hm) He) as Hlt.
    destruct (entry_lt m e).
    + split; [by rewrite Hp, Permutation_swap|by constructor].
    + split; [by rewrite Hp|]. constructor; [done|]. eapply Forall_impl; [exact Hmin|].
      intros x. by apply served_before_trans.
  - subst q. split; [done|]. by constructor.
Qed.

(** A turn of the drain loop that goes on took the most urgent entry, and either
    started that task or found it cancelled. *)
Lemma drain_serves_most_urgent wall mono s s' : Forall timed (ws_queue s) ->
  drain_one wall mono s = (Ok true, s') ->
  exists e rest t, Permutation (ws_queue s) (e :: rest) /\ Forall (served_before e) (ws_queue s)
    /\ dget (entry_id e) (ws_tasks s) = Some t
    /\ s' = if st_cancelled t
            then edit_task (entry_id e) (fun t => set_completed wall (set_status cancelled t)) (with_queue rest s)
            else start_task wall mono (entry_id e) t (with_queue rest s).
Proof.
  intros Hq. pose proof (pop_min_spec _ Hq) as Hpop.
  unfold drain_one, get_st, put_st, modify_st, raise_st, mbind, M_bind. cbn.
  destruct (ws_shutdown s); [done|]. destruct (pop_min (ws_queue s)) as [[e rest]|]; [|done]. cbn.
  destruct (max_concurrent s <=? _); [done|]. cbn.
  destruct (dget (entry_id e) (ws_tasks s)) as [t|] eqn:Ht; [|done].
  destruct Hpop as [Hp Hmin]. destruct (st_cancelled t) eqn:Hc; cbn; intros [= <-]; exists e, rest, t; by rewrite Hc.
Qed.

(** ** Deduplication and cooldown *)

Definition demo_task (id key : string) : ScheduledTask := {|
  st_task_type := "refresh"; st_subsystem := "demo"; st_priority := "background_normal"; st_dedupe_key := key;
  st_timeout_seconds := 60; st_resource_estimate := []; st_task_id := id; st_created_at := ""; st_started_at := "";
  st_completed_at := ""; st_cancelled := false; st_status := queued; st_error := ""; st_result := VNone |}.

Definition demo_trace : list (string * float * sched_op) :=
  let at' (n : Z) (op : sched_op) := ("now", float_of_Z n, op) in
  [at' 100 (OSchedule (demo_task "x" "") 0); at' 101 (OSchedule (demo_task "y" "") 0);
   at' 102 (OSchedule (demo_task "a" "refresh") 60); at' 103 (OSchedule (demo_task "b" "refresh") 60);
   at' 104 (OWorkerStart "x"); at' 105 (OWorkerStart "y");
   at' 106 (OWorkerFinish "x" (inl VNone)); at' 107 (OComplete "x");
   at' 108 (OWorkerFinish "y" (inl VNone)); at' 109 (OComplete "y");
   at' 110 (OWorkerStart "a"); at' 111 (OWorkerStart "b")].



(** The deduplication of [schedule] only knows tasks that have started: two
    tasks with one dedupe key, scheduled within the cooldown while the workers were
    busy, both run at the same time. *)
Theorem queued_duplicates_both_run :
  exists (ops : list (string * float * sched_op)) (a b : string) (t u : ScheduledTask),
    let s := run_ops ops (new_scheduler BALANCED_BUDGET 500) in
    a <> b
    /\ dget a (ws_active_futures s) = Some FRunning /\ dget b (ws_active_futures s) = Some FRunning
    /\ dget a (ws_tasks s) = Some t /\ dget b (ws_tasks s) = Some u
    /\ st_dedupe_key t = st_dedupe_key u /\ st_dedupe_key t <> "".
Proof.
  exists demo_trace, "a", "b".
  exists (task_update running false "now" "" "" VNone (demo_task "a" "refresh")),
         (task_update running false "now" "" "" VNone (demo_task "b" "refresh")).
  cbv zeta. by vm_compute.
Qed.

(** The cooldown counts from the boot of the machine for a task that never ran. *)
Lemma first_run_waits_for_uptime wall mono task cooldown budget history :
  truthy (st_dedupe_key task) = true -> 0 < cooldown -> fltb (fsub mono fzero) (fexact cooldown) = true ->
  schedule wall mono task cooldown (new_scheduler budget history)
  = (Ok (set_status skipped_cooldown task), new_scheduler budget history).
Proof.
  intros Hk Hc%Z.ltb_lt Hm. unfold schedule, accept, get_st, mbind, M_bind. cbn. rewrite Hk. cbn. by rewrite Hc, Hm.
Qed.
