(* ===== verification/HealthModels.v ===== *)
(** The typed contracts of functional sensor health ([health/models.py]) and the
    reliability policy of a sensor ([health/policies.py]). *)

From S2P Require Import Prelude PyStr PyFloat PyDict PyJson PyTime.

Inductive SensorState := | S_UNKNOWN | S_INITIALIZING | S_HEALTHY | S_HEALTHY_IDLE | S_HEALTHY_WITH_WARNINGS
  | S_DEGRADED | S_IMPAIRED | S_RECOVERING | S_STABILIZING | S_STALE | S_FAILED | S_DISABLED | S_UNAVAILABLE
  | S_UNSUPPORTED | S_PERMISSION_BLOCKED | S_CONFIGURATION_ERROR | S_DEPENDENCY_FAILED | S_RATE_LIMITED
  | S_BACKPRESSURED | S_HIGH_LOAD | S_MAINTENANCE.

#[export] Instance SensorState_eq_dec : EqDecision SensorState.
Proof. solve_decision. Defined.

Definition sensor_state_value (s : SensorState) : string :=
  match s with
  | S_UNKNOWN => "UNKNOWN" | S_INITIALIZING => "INITIALIZING" | S_HEALTHY => "HEALTHY"
  | S_HEALTHY_IDLE => "HEALTHY_IDLE" | S_HEALTHY_WITH_WARNINGS => "HEALTHY_WITH_WARNINGS"
  | S_DEGRADED => "DEGRADED" | S_IMPAIRED => "IMPAIRED" | S_RECOVERING => "RECOVERING"
  | S_STABILIZING => "STABILIZING" | S_STALE => "STALE" | S_FAILED => "FAILED" | S_DISABLED => "DISABLED"
  | S_UNAVAILABLE => "UNAVAILABLE" | S_UNSUPPORTED => "UNSUPPORTED" | S_PERMISSION_BLOCKED => "PERMISSION_BLOCKED"
  | S_CONFIGURATION_ERROR => "CONFIGURATION_ERROR" | S_DEPENDENCY_FAILED => "DEPENDENCY_FAILED"
  | S_RATE_LIMITED => "RATE_LIMITED" | S_BACKPRESSURED => "BACKPRESSURED" | S_HIGH_LOAD => "HIGH_LOAD"
  | S_MAINTENANCE => "MAINTENANCE" end.

Inductive PlatformState := | P_HEALTHY | P_HEALTHY_WITH_WARNINGS | P_DEGRADED | P_SEVERELY_DEGRADED | P_FAILED
  | P_MAINTENANCE | P_UNKNOWN.

#[export] Instance PlatformState_eq_dec : EqDecision PlatformState.
Proof. solve_decision. Defined.

Inductive Criticality := | C_CRITICAL | C_HIGH | C_MEDIUM | C_LOW | C_INFORMATIONAL.

#[export] Instance Criticality_eq_dec : EqDecision Criticality.
Proof. solve_decision. Defined.

Definition weight (c : Criticality) : Z :=
  match c with C_CRITICAL => 5 | C_HIGH => 4 | C_MEDIUM => 3 | C_LOW => 2 | C_INFORMATIONAL => 1 end.

Inductive CoverageLevel := | L_FULL | L_PARTIAL | L_LIMITED | L_NONE | L_UNKNOWN.

#[export] Instance CoverageLevel_eq_dec : EqDecision CoverageLevel.
Proof. solve_decision. Defined.

Inductive DependencyState := | D_HEALTHY | D_DEGRADED | D_FAILED | D_UNAVAILABLE | D_UNKNOWN | D_NOT_APPLICABLE.

#[export] Instance DependencyState_eq_dec : EqDecision DependencyState.
Proof. solve_decision. Defined.

Inductive PermissionState := | M_GRANTED | M_DENIED | M_REVOKED | M_UNKNOWN | M_UNSUPPORTED | M_PENDING
  | M_USER_ACTION_REQUIRED.

#[export] Instance PermissionState_eq_dec : EqDecision PermissionState.
Proof. solve_decision. Defined.

Inductive CircuitState := | B_CLOSED | B_OPEN | B_HALF_OPEN.

#[export] Instance CircuitState_eq_dec : EqDecision CircuitState.
Proof. solve_decision. Defined.

Inductive ReasonCode := | R_NONE | R_INITIALIZING | R_PROCESS_NOT_RUNNING | R_HEARTBEAT_STALE
  | R_EVENT_STREAM_STALE | R_NO_EVENTS_EXPECTED | R_TELEMETRY_SOURCE_UNAVAILABLE | R_QUEUE_BACKPRESSURE
  | R_QUEUE_OVERFLOW | R_EVENT_LOSS | R_PROCESSING_STALL | R_DELIVERY_STALL | R_PERSISTENCE_STALL
  | R_DATABASE_UNAVAILABLE | R_DATABASE_LATENCY | R_IPC_DISCONNECTED | R_HELPER_UNAVAILABLE | R_PERMISSION_REVOKED
  | R_PERMISSION_REQUIRED | R_ENTITLEMENT_MISSING | R_SIGNATURE_INVALID | R_RULE_LOAD_FAILURE | R_CONFIG_INVALID
  | R_CONFIG_UNEXPECTED_CHANGE | R_CONFIG_ROLLBACK_DETECTED | R_RESOURCE_EXHAUSTION | R_MEMORY_PRESSURE
  | R_MEMORY_GROWTH | R_DESCRIPTOR_PRESSURE | R_DISK_PRESSURE | R_SELF_TEST_FAILED | R_SELF_TEST_TIMEOUT
  | R_DEPENDENCY_FAILURE | R_DEPENDENCY_TIMEOUT | R_RESTART_LOOP | R_DUPLICATE_INSTANCE
  | R_PROCESSING_EVENT_FAILURE | R_HEALTH_PROVIDER_TIMEOUT | R_HEALTH_PROVIDER_INVALID | R_FALLBACK_MODE_ACTIVE
  | R_RECOVERY_IN_PROGRESS | R_RECOVERY_VALIDATION_FAILED | R_MAINTENANCE_ACTIVE | R_CLOCK_DISCONTINUITY
  | R_UNKNOWN_DEGRADATION.

#[export] Instance ReasonCode_eq_dec : EqDecision ReasonCode.
Proof. solve_decision. Defined.

Inductive RecoveryLevel := | A_OBSERVE | A_RETRY | A_RECONNECT | A_REINITIALIZE | A_RESTART_WORKER
  | A_RESTART_SENSOR | A_REQUEST_WATCHDOG | A_OPERATOR_REQUIRED.

#[export] Instance RecoveryLevel_eq_dec : EqDecision RecoveryLevel.
Proof. solve_decision. Defined.

Record SensorDependency := {
  sd_dependency_id : string;
  sd_required : bool;
  sd_state : DependencyState;
  sd_reason : string;
  sd_latency_ms : option float;
  sd_last_checked : option datetime;
  sd_affected_capabilities : list string
}.

Record CapabilityHealth := {
  ch_capability_id : string;
  ch_coverage : CoverageLevel;
  ch_reason : string;
  ch_fallback : string;
  ch_confidence : string
}.

Record RuleHealth := {
  rh_expected : Z;
  rh_loaded : Z;
  rh_failed : Z;
  rh_disabled : Z;
  rh_expired : Z;
  rh_invalid : Z;
  rh_version : string;
  rh_ruleset_hash : string;
  rh_last_reload : option datetime
}.

Record ResourceMetrics := {
  rm_cpu_percent : option float;
  rm_rss_bytes : option Z;
  rm_rss_growth_bytes : option Z;
  rm_thread_count : option Z;
  rm_open_descriptors : option Z;
  rm_descriptor_limit : option Z;
  rm_free_disk_bytes : option Z;
  rm_free_disk_percent : option float;
  rm_database_latency_ms : option float;
  rm_ipc_latency_ms : option float
}.

Record SelfTestResult := {
  sr_passed : bool;
  sr_test_id : string;
  sr_reason : string;
  sr_latency_ms : option float;
  sr_canary_id : string;
  sr_stages : list string;
  sr_completed_at : datetime
}.

Record RecoveryReason := {
  rr_reason_code : ReasonCode;
  rr_detail : string;
  rr_requested_level : RecoveryLevel
}.

Record RecoveryResult := {
  rx_attempted : bool;
  rx_succeeded : bool;
  rx_action : RecoveryLevel;
  rx_detail : string;
  rx_requires_operator : bool;
  rx_verification_required : bool
}.

Record SensorDescriptor := {
  ds_sensor_id : string;
  ds_display_name : string;
  ds_criticality : Criticality;
  ds_expected : bool;
  ds_enabled : bool;
  ds_singleton : bool;
  ds_capabilities : list string;
  ds_dependencies : list string;
  ds_failure_domain : string
}.

Record SensorHealthSnapshot := {
  sh_sensor_id : string;
  sh_sensor_version : string;
  sh_instance_uuid : string;
  sh_pid : option Z;
  sh_process_alive : bool;
  sh_initialized : bool;
  sh_state : SensorState;
  sh_health_score : Z;
  sh_reason_code : ReasonCode;
  sh_reason : string;
  sh_process_health : SensorState;
  sh_collection_health : SensorState;
  sh_processing_health : SensorState;
  sh_delivery_health : SensorState;
  sh_storage_health : SensorState;
  sh_dependency_health : SensorState;
  sh_permission_health : SensorState;
  sh_configuration_health : SensorState;
  sh_rule_health : SensorState;
  sh_last_process_heartbeat : option datetime;
  sh_last_collection_activity : option datetime;
  sh_last_processing_activity : option datetime;
  sh_last_delivery_activity : option datetime;
  sh_last_persistence_activity : option datetime;
  sh_events_received_total : Z;
  sh_events_processed_total : Z;
  sh_events_delivered_total : Z;
  sh_events_persisted_total : Z;
  sh_events_ignored_total : Z;
  sh_events_filtered_total : Z;
  sh_events_dropped_total : Z;
  sh_events_failed_total : Z;
  sh_events_duplicate_total : Z;
  sh_events_rejected_total : Z;
  sh_processing_latency_ms : option float;
  sh_queue_depth : Z;
  sh_queue_capacity : Z;
  sh_oldest_event_age_seconds : option float;
  sh_ingestion_rate : option float;
  sh_processing_rate : option float;
  sh_drop_rate : option float;
  sh_peak_queue_depth : Z;
  sh_average_queue_depth : float;
  sh_backpressure_duration_seconds : float;
  sh_error_count : Z;
  sh_consecutive_error_count : Z;
  sh_restart_count : Z;
  sh_worker_sequence : Z;
  sh_permission_state : PermissionState;
  sh_configuration_hash : string;
  sh_expected_configuration_hash : string;
  sh_dependencies : list SensorDependency;
  sh_capabilities : list CapabilityHealth;
  sh_rules : RuleHealth;
  sh_resources : ResourceMetrics;
  sh_last_self_test : option SelfTestResult;
  sh_fallback_mode : string;
  sh_lost_capabilities : list string;
  sh_retained_capabilities : list string;
  sh_operator_action_required : bool;
  sh_remediation : string;
  sh_sampled_at : datetime;
  sh_monotonic_sample : float;
  sh_metadata : list (string * pyval)
}.

Definition default_rules : RuleHealth := {|
  rh_expected := 0; rh_loaded := 0; rh_failed := 0; rh_disabled := 0; rh_expired := 0; rh_invalid := 0;
  rh_version := ""; rh_ruleset_hash := ""; rh_last_reload := None |}.

Definition default_resources : ResourceMetrics := {|
  rm_cpu_percent := None; rm_rss_bytes := None; rm_rss_growth_bytes := None; rm_thread_count := None;
  rm_open_descriptors := None; rm_descriptor_limit := None; rm_free_disk_bytes := None;
  rm_free_disk_percent := None; rm_database_latency_ms := None; rm_ipc_latency_ms := None |}.

(** [SensorHealthSnapshot(sensor_id, sampled_at=now)] *)
Definition new_snapshot (sensor_id : string) (now : datetime) : SensorHealthSnapshot := {|
  sh_sensor_id := sensor_id; sh_sensor_version := "unknown"; sh_instance_uuid := ""; sh_pid := None;
  sh_process_alive := false; sh_initialized := false; sh_state := S_UNKNOWN; sh_health_score := 0;
  sh_reason_code := R_NONE; sh_reason := "Insufficient functional-health evidence.";
  sh_process_health := S_UNKNOWN; sh_collection_health := S_UNKNOWN; sh_processing_health := S_UNKNOWN;
  sh_delivery_health := S_UNKNOWN; sh_storage_health := S_UNKNOWN; sh_dependency_health := S_UNKNOWN;
  sh_permission_health := S_UNKNOWN; sh_configuration_health := S_UNKNOWN; sh_rule_health := S_UNKNOWN;
  sh_last_process_heartbeat := None; sh_last_collection_activity := None; sh_last_processing_activity := None;
  sh_last_delivery_activity := None; sh_last_persistence_activity := None; sh_events_received_total := 0;
  sh_events_processed_total := 0; sh_events_delivered_total := 0; sh_events_persisted_total := 0;
  sh_events_ignored_total := 0; sh_events_filtered_total := 0; sh_events_dropped_total := 0;
  sh_events_failed_total := 0; sh_events_duplicate_total := 0; sh_events_rejected_total := 0;
  sh_processing_latency_ms := None; sh_queue_depth := 0; sh_queue_capacity := 0;
  sh_oldest_event_age_seconds := None; sh_ingestion_rate := None; sh_processing_rate := None;
  sh_drop_rate := None; sh_peak_queue_depth := 0; sh_average_queue_depth := (fexact 0);
  sh_backpressure_duration_seconds := (fexact 0); sh_error_count := 0; sh_consecutive_error_count := 0;
  sh_restart_count := 0; sh_worker_sequence := 0; sh_permission_state := M_UNKNOWN; sh_configuration_hash := "";
  sh_expected_configuration_hash := ""; sh_dependencies := []; sh_capabilities := []; sh_rules := default_rules;
  sh_resources := default_resources; sh_last_self_test := None; sh_fallback_mode := "";
  sh_lost_capabilities := []; sh_retained_capabilities := []; sh_operator_action_required := false;
  sh_remediation := ""; sh_sampled_at := now; sh_monotonic_sample := (fexact 0); sh_metadata := [] |}.

(** The per-dimension states of a snapshot, and [dataclasses.replace] of what an
    evaluation sets. *)
Record Dimensions := {
  dm_process_health : SensorState;
  dm_collection_health : SensorState;
  dm_processing_health : SensorState;
  dm_delivery_health : SensorState;
  dm_storage_health : SensorState;
  dm_dependency_health : SensorState;
  dm_permission_health : SensorState;
  dm_configuration_health : SensorState;
  dm_rule_health : SensorState
}.

Definition dimensions_of (s : SensorHealthSnapshot) : Dimensions := {|
  dm_process_health := sh_process_health s;
  dm_collection_health := sh_collection_health s;
  dm_processing_health := sh_processing_health s;
  dm_delivery_health := sh_delivery_health s;
  dm_storage_health := sh_storage_health s;
  dm_dependency_health := sh_dependency_health s;
  dm_permission_health := sh_permission_health s;
  dm_configuration_health := sh_configuration_health s;
  dm_rule_health := sh_rule_health s |}.

Definition replace_assessment (state : SensorState) (score : Z) (code : ReasonCode) (reason : string)
    (sampled : datetime) (dims : Dimensions) (s : SensorHealthSnapshot) : SensorHealthSnapshot := {|
  sh_sensor_id := sh_sensor_id s; sh_sensor_version := sh_sensor_version s;
  sh_instance_uuid := sh_instance_uuid s; sh_pid := sh_pid s; sh_process_alive := sh_process_alive s;
  sh_initialized := sh_initialized s; sh_state := state; sh_health_score := score; sh_reason_code := code;
  sh_reason := reason; sh_process_health := dm_process_health dims;
  sh_collection_health := dm_collection_health dims; sh_processing_health := dm_processing_health dims;
  sh_delivery_health := dm_delivery_health dims; sh_storage_health := dm_storage_health dims;
  sh_dependency_health := dm_dependency_health dims; sh_permission_health := dm_permission_health dims;
  sh_configuration_health := dm_configuration_health dims; sh_rule_health := dm_rule_health dims;
  sh_last_process_heartbeat := sh_last_process_heartbeat s;
  sh_last_collection_activity := sh_last_collection_activity s;
  sh_last_processing_activity := sh_last_processing_activity s;
  sh_last_delivery_activity := sh_last_delivery_activity s;
  sh_last_persistence_activity := sh_last_persistence_activity s;
  sh_events_received_total := sh_events_received_total s;
  sh_events_processed_total := sh_events_processed_total s;
  sh_events_delivered_total := sh_events_delivered_total s;
  sh_events_persisted_total := sh_events_persisted_total s; sh_events_ignored_total := sh_events_ignored_total s;
  sh_events_filtered_total := sh_events_filtered_total s; sh_events_dropped_total := sh_events_dropped_total s;
  sh_events_failed_total := sh_events_failed_total s; sh_events_duplicate_total := sh_events_duplicate_total s;
  sh_events_rejected_total := sh_events_rejected_total s; sh_processing_latency_ms := sh_processing_latency_ms s;
  sh_queue_depth := sh_queue_depth s; sh_queue_capacity := sh_queue_capacity s;
  sh_oldest_event_age_seconds := sh_oldest_event_age_seconds s; sh_ingestion_rate := sh_ingestion_rate s;
  sh_processing_rate := sh_processing_rate s; sh_drop_rate := sh_drop_rate s;
  sh_peak_queue_depth := sh_peak_queue_depth s; sh_average_queue_depth := sh_average_queue_depth s;
  sh_backpressure_duration_seconds := sh_backpressure_duration_seconds s; sh_error_count := sh_error_count s;
  sh_consecutive_error_count := sh_consecutive_error_count s; sh_restart_count := sh_restart_count s;
  sh_worker_sequence := sh_worker_sequence s; sh_permission_state := sh_permission_state s;
  sh_configuration_hash := sh_configuration_hash s;
  sh_expected_configuration_hash := sh_expected_configuration_hash s; sh_dependencies := sh_dependencies s;
  sh_capabilities := sh_capabilities s; sh_rules := sh_rules s; sh_resources := sh_resources s;
  sh_last_self_test := sh_last_self_test s; sh_fallback_mode := sh_fallback_mode s;
  sh_lost_capabilities := sh_lost_capabilities s; sh_retained_capabilities := sh_retained_capabilities s;
  sh_operator_action_required := sh_operator_action_required s; sh_remediation := sh_remediation s;
  sh_sampled_at := sampled; sh_monotonic_sample := sh_monotonic_sample s; sh_metadata := sh_metadata s |}.

Record HealthTransition := {
  ht_event_type : string;
  ht_sensor_id : string;
  ht_timestamp : datetime;
  ht_previous_state : SensorState;
  ht_current_state : SensorState;
  ht_reason_code : ReasonCode;
  ht_reason : string;
  ht_severity : string;
  ht_affected_capabilities : list string;
  ht_metrics : list (string * pyval);
  ht_automatic_recovery_attempted : bool;
  ht_root_cause_dependency : string
}.

Record PlatformHealthReport := {
  pr_overall_health : PlatformState;
  pr_generated_at : datetime;
  pr_sensors : list SensorHealthSnapshot;
  pr_coverage : list CapabilityHealth;
  pr_required_healthy : Z;
  pr_required_total : Z;
  pr_degraded_count : Z;
  pr_failed_count : Z;
  pr_active_recoveries : Z;
  pr_root_causes : list (list (string * pyval));
  pr_manager_health : list (string * pyval)
}.

Record SensorHealthPolicy := {
  hp_heartbeat_timeout : float;
  hp_event_stale_timeout : float;
  hp_maximum_expected_idle_time : float;
  hp_processing_stall_timeout : float;
  hp_delivery_stall_timeout : float;
  hp_persistence_stall_timeout : float;
  hp_elevated_queue_utilization : float;
  hp_degraded_queue_utilization : float;
  hp_critical_queue_utilization : float;
  hp_backpressure_sustain_seconds : float;
  hp_max_drop_rate : float;
  hp_max_processing_latency_ms : float;
  hp_max_database_latency_ms : float;
  hp_min_free_disk_bytes : Z;
  hp_min_free_disk_percent : float;
  hp_descriptor_observe_ratio : float;
  hp_descriptor_degraded_ratio : float;
  hp_descriptor_critical_ratio : float;
  hp_consecutive_failures_required : Z;
  hp_consecutive_successes_required : Z;
  hp_restart_budget_count : Z;
  hp_restart_budget_window_seconds : Z;
  hp_stabilization_seconds : Z;
  hp_provider_timeout_seconds : float;
  hp_self_test_timeout_seconds : float;
  hp_lightweight_self_test_interval : Z;
  hp_extended_self_test_interval : Z;
  hp_availability_degradation_budget_seconds : Z
}.

Definition DEFAULT_POLICY : SensorHealthPolicy := {|
  hp_heartbeat_timeout := fexact 180; hp_event_stale_timeout := fexact 300;
  hp_maximum_expected_idle_time := fexact 900; hp_processing_stall_timeout := fexact 120;
  hp_delivery_stall_timeout := fexact 180; hp_persistence_stall_timeout := fexact 180;
  hp_elevated_queue_utilization := flit 50 100; hp_degraded_queue_utilization := flit 75 100;
  hp_critical_queue_utilization := flit 90 100; hp_backpressure_sustain_seconds := fexact 30;
  hp_max_drop_rate := flit 1 100; hp_max_processing_latency_ms := fexact 2000;
  hp_max_database_latency_ms := fexact 750; hp_min_free_disk_bytes := 1073741824;
  hp_min_free_disk_percent := fexact 5; hp_descriptor_observe_ratio := flit 70 100;
  hp_descriptor_degraded_ratio := flit 85 100; hp_descriptor_critical_ratio := flit 95 100;
  hp_consecutive_failures_required := 3; hp_consecutive_successes_required := 5; hp_restart_budget_count := 3;
  hp_restart_budget_window_seconds := 300; hp_stabilization_seconds := 30;
  hp_provider_timeout_seconds := fexact 5; hp_self_test_timeout_seconds := fexact 10;
  hp_lightweight_self_test_interval := 900; hp_extended_self_test_interval := 86400;
  hp_availability_degradation_budget_seconds := 900 |}.

(** [replace(DEFAULT_POLICY, ...)] *)
Definition override (heartbeat stale idle : float) (drop : float) : SensorHealthPolicy := {|
  hp_heartbeat_timeout := heartbeat; hp_event_stale_timeout := stale; hp_maximum_expected_idle_time := idle;
  hp_processing_stall_timeout := hp_processing_stall_timeout DEFAULT_POLICY;
  hp_delivery_stall_timeout := hp_delivery_stall_timeout DEFAULT_POLICY;
  hp_persistence_stall_timeout := hp_persistence_stall_timeout DEFAULT_POLICY;
  hp_elevated_queue_utilization := hp_elevated_queue_utilization DEFAULT_POLICY;
  hp_degraded_queue_utilization := hp_degraded_queue_utilization DEFAULT_POLICY;
  hp_critical_queue_utilization := hp_critical_queue_utilization DEFAULT_POLICY;
  hp_backpressure_sustain_seconds := hp_backpressure_sustain_seconds DEFAULT_POLICY; hp_max_drop_rate := drop;
  hp_max_processing_latency_ms := hp_max_processing_latency_ms DEFAULT_POLICY;
  hp_max_database_latency_ms := hp_max_database_latency_ms DEFAULT_POLICY;
  hp_min_free_disk_bytes := hp_min_free_disk_bytes DEFAULT_POLICY;
  hp_min_free_disk_percent := hp_min_free_disk_percent DEFAULT_POLICY;
  hp_descriptor_observe_ratio := hp_descriptor_observe_ratio DEFAULT_POLICY;
  hp_descriptor_degraded_ratio := hp_descriptor_degraded_ratio DEFAULT_POLICY;
  hp_descriptor_critical_ratio := hp_descriptor_critical_ratio DEFAULT_POLICY;
  hp_consecutive_failures_required := hp_consecutive_failures_required DEFAULT_POLICY;
  hp_consecutive_successes_required := hp_consecutive_successes_required DEFAULT_POLICY;
  hp_restart_budget_count := hp_restart_budget_count DEFAULT_POLICY;
  hp_restart_budget_window_seconds := hp_restart_budget_window_seconds DEFAULT_POLICY;
  hp_stabilization_seconds := hp_stabilization_seconds DEFAULT_POLICY;
  hp_provider_timeout_seconds := hp_provider_timeout_seconds DEFAULT_POLICY;
  hp_self_test_timeout_seconds := hp_self_test_timeout_seconds DEFAULT_POLICY;
  hp_lightweight_self_test_interval := hp_lightweight_self_test_interval DEFAULT_POLICY;
  hp_extended_self_test_interval := hp_extended_self_test_interval DEFAULT_POLICY;
  hp_availability_degradation_budget_seconds := hp_availability_degradation_budget_seconds DEFAULT_POLICY |}.
Definition SENSOR_POLICY_OVERRIDES : list (string * SensorHealthPolicy) :=
  let d := DEFAULT_POLICY in
  [("endpoint_security", override (fexact 90) (fexact 180) (fexact 300) (fexact 0));
   ("ransomware_monitor", override (fexact 90) (fexact 180) (fexact 300) (fexact 0));
   ("system_monitor", override (fexact 180) (hp_event_stale_timeout d) (fexact 900) (hp_max_drop_rate d));
   ("behavioral_telemetry", override (fexact 600) (fexact 900) (fexact 3600) (hp_max_drop_rate d));
   ("malware_definitions", override (fexact 3600) (fexact 86400) (fexact 86400) (hp_max_drop_rate d));
   ("user_notifier", override (fexact 180) (fexact 3600) (fexact 3600) (hp_max_drop_rate d));
   ("sensor_health_manager", override (fexact 180) (fexact 300) (hp_maximum_expected_idle_time d)
                               (hp_max_drop_rate d))].

Definition policy_for (sensor_id : string) : SensorHealthPolicy :=
  dget_default DEFAULT_POLICY sensor_id SENSOR_POLICY_OVERRIDES.

(** The fractions [a < b < c] of (0, 1]. *)
Definition ordered_fractions (a b c : float) : bool :=
  fltb (fexact 0) a && fltb a b && fltb b c && fleb c (fexact 1).

Definition positive_fields (p : SensorHealthPolicy) : list (string * float) :=
   [("heartbeat_timeout", hp_heartbeat_timeout p);
    ("event_stale_timeout", hp_event_stale_timeout p);
    ("maximum_expected_idle_time", hp_maximum_expected_idle_time p);
    ("processing_stall_timeout", hp_processing_stall_timeout p);
    ("delivery_stall_timeout", hp_delivery_stall_timeout p);
    ("persistence_stall_timeout", hp_persistence_stall_timeout p);
    ("backpressure_sustain_seconds", hp_backpressure_sustain_seconds p);
    ("max_processing_latency_ms", hp_max_processing_latency_ms p);
    ("max_database_latency_ms", hp_max_database_latency_ms p);
    ("provider_timeout_seconds", hp_provider_timeout_seconds p);
    ("self_test_timeout_seconds", hp_self_test_timeout_seconds p)].

(** [SensorHealthPolicy.__post_init__] *)
Definition validate_policy (p : SensorHealthPolicy) : res unit :=
  match find_first (fun kv => fleb kv.2 (fexact 0)) (positive_fields p) with
  | Some kv => Raise (ValueError (kv.1 +:+ " must be positive"))
  | None => Ok tt
  end;;
  raise_if (negb (ordered_fractions (hp_elevated_queue_utilization p) (hp_degraded_queue_utilization p)
                    (hp_critical_queue_utilization p)))
    (ValueError "queue thresholds must be ordered fractions in (0, 1]");;
  raise_if (negb (ordered_fractions (hp_descriptor_observe_ratio p) (hp_descriptor_degraded_ratio p)
                    (hp_descriptor_critical_ratio p)))
    (ValueError "descriptor thresholds must be ordered fractions in (0, 1]");;
  raise_if (negb (fleb (fexact 0) (hp_max_drop_rate p) && fleb (hp_max_drop_rate p) (fexact 1)))
    (ValueError "max_drop_rate must be a fraction");;
  raise_if (Z.min (Z.min (hp_consecutive_failures_required p) (hp_consecutive_successes_required p))
              (hp_restart_budget_count p) <? 1)
    (ValueError "hysteresis and restart-budget counts must be positive").

Example policies_valid :
  Forall (fun kv => validate_policy kv.2 = Ok tt) (("", DEFAULT_POLICY) :: SENSOR_POLICY_OVERRIDES).
Proof. by repeat constructor. Qed.

(** [queue_utilization] *)
Definition queue_utilization (s : SensorHealthSnapshot) : float :=
  if sh_queue_capacity s <=? 0 then fexact 0
  else fmin (fexact 1) (fmax (fexact 0) (int_div (sh_queue_depth s) (sh_queue_capacity s))).
