(* ===== verification/HealthEval.v ===== *)
(** Functional-health evaluation, hysteresis and platform coverage:
    [health/evaluator.py].

    The evaluator appends issues to a list and assigns dimensions as it goes; the
    checks below are that sequence of effects, each block of the method one list
    of actions. *)

From S2P Require Import Prelude PyStr PyFloat PyDict PyJson PyTime HealthModels.
From Stdlib Require Import QArith.

#[local] Open Scope Z_scope.

Definition FAILURE_STATES : list SensorState :=
  [S_FAILED; S_UNAVAILABLE; S_PERMISSION_BLOCKED; S_CONFIGURATION_ERROR; S_DEPENDENCY_FAILED].
Definition DEGRADED_STATES : list SensorState := [S_DEGRADED; S_IMPAIRED; S_STALE; S_BACKPRESSURED; S_RATE_LIMITED].
Definition IMMEDIATE_REASON_CODES : list ReasonCode :=
  [R_PROCESS_NOT_RUNNING; R_PERMISSION_REVOKED; R_ENTITLEMENT_MISSING; R_SIGNATURE_INVALID; R_QUEUE_OVERFLOW;
   R_DATABASE_UNAVAILABLE; R_RESTART_LOOP; R_DUPLICATE_INSTANCE].

Definition state_in (s : SensorState) (l : list SensorState) : bool := bool_decide (s ∈ l).

(** [_age]: a naive datetime counts as UTC. *)
Definition age (value : option datetime) (now : datetime) : option float :=
  (fun v => fmax (fexact 0) (total_seconds (instant now - instant v))) <$> value.

(** No age, or one above the limit. *)
Definition overdue (a : option float) (limit : float) : bool :=
  match a with None => true | Some x => fgtb x limit end.

Definition state_rank (s : SensorState) : Z :=
  match s with
  | S_UNKNOWN => 20 | S_INITIALIZING => 25 | S_HEALTHY => 100 | S_HEALTHY_IDLE => 98 | S_HEALTHY_WITH_WARNINGS => 85
  | S_HIGH_LOAD => 82 | S_DEGRADED => 65 | S_BACKPRESSURED => 55 | S_STALE => 50 | S_IMPAIRED => 40
  | S_RECOVERING => 45 | S_STABILIZING => 75 | S_PERMISSION_BLOCKED => 20 | S_CONFIGURATION_ERROR => 20
  | S_DEPENDENCY_FAILED => 20 | S_RATE_LIMITED => 35 | S_FAILED => 0 | S_UNAVAILABLE => 0 | S_DISABLED => 0
  | S_UNSUPPORTED => 0 | S_MAINTENANCE => 70
  end.

(** ** Number formats *)

(** [f"{x:.nf}"] of a non-negative float, for [n] 0 or 2 *)
Definition fixed0 (x : float) : string := if is_finite x then str_of_Z (fround x) else "inf".
Definition fixed2 (x : float) : string :=
  if is_finite x
  then let z := Qround_even (fQ x * inject_Z 100)%Q in str_of_Z (z / 100) +:+ "." +:+ pad_num 2 (z mod 100) ""
  else "inf".
Definition percent0 (x : float) : string := fixed0 (fmul x (float_of_Z 100)) +:+ "%".
Definition percent2 (x : float) : string := fixed2 (fmul x (float_of_Z 100)) +:+ "%".

(** ** [HysteresisTracker] *)

Record Hysteresis := {
  hy_candidate : list (string * SensorState);
  hy_count : list (string * Z)
}.

Definition new_hysteresis : Hysteresis := {| hy_candidate := []; hy_count := [] |}.

Definition remember (id : string) (s : SensorState) (n : Z) (h : Hysteresis) : Hysteresis := {|
  hy_candidate := dset id s (hy_candidate h); hy_count := dset id n (hy_count h) |}.

Definition is_healthy (s : SensorState) : bool := state_in s [S_HEALTHY; S_HEALTHY_IDLE].

Definition next_count (id : string) (desired : SensorState) (h : Hysteresis) : Z :=
  if bool_decide (dget id (hy_candidate h) = Some desired) then dget_default 0 id (hy_count h) + 1 else 1.

Definition required_count (desired : SensorState) (policy : SensorHealthPolicy) : Z :=
  if is_healthy desired then hp_consecutive_successes_required policy else hp_consecutive_failures_required policy.

Definition hold (snapshot previous : SensorHealthSnapshot) (count required : Z) : SensorHealthSnapshot :=
  let held := if state_in (sh_state previous) [S_RECOVERING; S_STABILIZING] && is_healthy (sh_state snapshot)
              then S_STABILIZING else sh_state previous in
  replace_assessment held (Z.min (sh_health_score snapshot) (sh_health_score previous)) (sh_reason_code snapshot)
    ("Pending sustained validation (" +:+ str_of_Z count +:+ "/" +:+ str_of_Z required +:+ "): "
     +:+ sh_reason snapshot)
    (sh_sampled_at snapshot) (dimensions_of snapshot) snapshot.

Definition apply_hysteresis (snapshot : SensorHealthSnapshot) (previous : option SensorHealthSnapshot)
    (policy : SensorHealthPolicy) : M Hysteresis SensorHealthSnapshot := fun h =>
  let id := sh_sensor_id snapshot in
  let desired := sh_state snapshot in
  match previous with
  | None => (Ok snapshot, remember id desired 1 h)
  | Some previous =>
      if bool_decide (sh_reason_code snapshot ∈ IMMEDIATE_REASON_CODES)
      then (Ok snapshot, remember id desired 1 h) else
      let count := next_count id desired h in
      let h' := remember id desired count h in
      let required := required_count desired policy in
      if negb (bool_decide (desired = sh_state previous)) && (count <? required)
      then (Ok (hold snapshot previous count required), h')
      else (Ok snapshot, h')
  end.

(** ** [SensorHealthEvaluator] *)

Inductive dimension :=
| F_process | F_collection | F_processing | F_delivery | F_storage | F_dependency | F_permission | F_configuration
| F_rule.

#[export] Instance dimension_eq_dec : EqDecision dimension.
Proof. solve_decision. Defined.

Record Issue := {
  is_priority : Z;
  is_state : SensorState;
  is_code : ReasonCode;
  is_message : string;
  is_field : option dimension
}.

(** What a check does: report an issue, or set a dimension. *)
Inductive action := Report (i : Issue) | Mark (f : dimension) (s : SensorState).

Definition issue (priority : Z) (state : SensorState) (code : ReasonCode) (message : string)
    (field : option dimension) : list action :=
  [Report {| is_priority := priority; is_state := state; is_code := code; is_message := message;
             is_field := field |}].

Definition issues (l : list action) : list Issue :=
  omap (fun a => match a with Report i => Some i | Mark _ _ => None end) l.

Definition set_dimension (f : dimension) (s : SensorState) (d : Dimensions) : Dimensions := 
  let pick (g : dimension) (old : SensorState) := if decide (f = g) then s else old in {|
  dm_process_health := pick F_process (dm_process_health d);
  dm_collection_health := pick F_collection (dm_collection_health d);
  dm_processing_health := pick F_processing (dm_processing_health d);
  dm_delivery_health := pick F_delivery (dm_delivery_health d);
  dm_storage_health := pick F_storage (dm_storage_health d);
  dm_dependency_health := pick F_dependency (dm_dependency_health d);
  dm_permission_health := pick F_permission (dm_permission_health d);
  dm_configuration_health := pick F_configuration (dm_configuration_health d);
  dm_rule_health := pick F_rule (dm_rule_health d) |}.

Definition apply_action (d : Dimensions) (a : action) : Dimensions :=
  match a with
  | Mark f s => set_dimension f s d
  | Report i => match is_field i with Some f => set_dimension f (is_state i) d | None => d end
  end.

Definition initial_dimensions (s : SensorHealthSnapshot) : Dimensions := {|
  dm_process_health := if sh_process_alive s then S_HEALTHY else S_FAILED; dm_collection_health := S_UNKNOWN;
  dm_processing_health := S_UNKNOWN; dm_delivery_health := S_UNKNOWN; dm_storage_health := S_UNKNOWN;
  dm_dependency_health := S_HEALTHY; dm_permission_health := S_UNKNOWN; dm_configuration_health := S_UNKNOWN;
  dm_rule_health := S_UNKNOWN |}.

Section Checks.
Context (s : SensorHealthSnapshot) (policy : SensorHealthPolicy) (now : datetime).

Definition check_process : list action :=
  if negb (sh_process_alive s)
  then issue 100 S_FAILED R_PROCESS_NOT_RUNNING
         "Sensor process is not running; functional coverage is unavailable." (Some F_process)
  else if negb (sh_initialized s)
  then issue 55 S_INITIALIZING R_INITIALIZING
         "Sensor process is alive but initialization and readiness are not complete." (Some F_process)
  else [].

Definition check_heartbeat : list action :=
  if sh_process_alive s && overdue (age (sh_last_process_heartbeat s) now) (hp_heartbeat_timeout policy)
  then issue 90 S_STALE R_HEARTBEAT_STALE
         "Execution-loop heartbeat is stale even though the process is present." (Some F_process)
  else [].

Definition check_permission : list action :=
  match sh_permission_state s with
  | M_DENIED | M_USER_ACTION_REQUIRED =>
      issue 98 S_PERMISSION_BLOCKED R_PERMISSION_REQUIRED
        "A required macOS permission is not granted; affected coverage cannot be restored automatically."
        (Some F_permission)
  | M_REVOKED =>
      issue 98 S_PERMISSION_BLOCKED R_PERMISSION_REVOKED
        "A required macOS permission is not granted; affected coverage cannot be restored automatically."
        (Some F_permission)
  | M_GRANTED => [Mark F_permission S_HEALTHY]
  | _ => []
  end.

Definition required_in (states : list DependencyState) : list SensorDependency :=
  filter (fun d => sd_required d = true /\ sd_state d ∈ states) (sh_dependencies s).

Definition check_dependencies : list action :=
  let failed := required_in [D_FAILED; D_UNAVAILABLE] in
  let degraded := required_in [D_DEGRADED; D_UNKNOWN] in
  if negb (zlen failed =? 0)
  then issue 95 S_DEPENDENCY_FAILED R_DEPENDENCY_FAILURE
         ("Required dependency unavailable: " +:+ join ", " (sd_dependency_id <$> failed) +:+ ".") (Some F_dependency)
  else if negb (zlen degraded =? 0)
  then issue 60 S_DEGRADED R_DEPENDENCY_FAILURE
         ("Dependency health is incomplete or degraded: " +:+ join ", " (sd_dependency_id <$> degraded) +:+ ".")
         (Some F_dependency)
  else [].

Definition check_configuration : list action :=
  if truthy (sh_expected_configuration_hash s) then
    if negb (truthy (sh_configuration_hash s))
    then issue 92 S_CONFIGURATION_ERROR R_CONFIG_INVALID
           "Effective runtime configuration hash is unavailable." (Some F_configuration)
    else if negb (String.eqb (sh_configuration_hash s) (sh_expected_configuration_hash s))
    then issue 92 S_CONFIGURATION_ERROR R_CONFIG_UNEXPECTED_CHANGE
           "Effective runtime configuration differs from the expected signed configuration." (Some F_configuration)
    else [Mark F_configuration S_HEALTHY]
  else if truthy (sh_configuration_hash s) then [Mark F_configuration S_HEALTHY_WITH_WARNINGS] else [].

Definition rules_incomplete (r : RuleHealth) : bool :=
  negb (rh_failed r =? 0) || negb (rh_invalid r =? 0)
  || (negb (rh_expected r =? 0) && (rh_loaded r <? rh_expected r - rh_disabled r)).

Definition check_rules : list action :=
  let r := sh_rules s in
  if rules_incomplete r
  then issue 78 S_DEGRADED R_RULE_LOAD_FAILURE
         ("Ruleset coverage is incomplete (" +:+ str_of_Z (rh_loaded r) +:+ "/" +:+ str_of_Z (rh_expected r)
          +:+ " loaded, " +:+ str_of_Z (rh_failed r + rh_invalid r) +:+ " failed or invalid).") (Some F_rule)
  else if negb (rh_expected r =? 0) then [Mark F_rule S_HEALTHY] else [].

Definition collection_age : option float := age (sh_last_collection_activity s) now.
Definition processing_age : option float := age (sh_last_processing_activity s) now.
Definition delivery_age : option float := age (sh_last_delivery_activity s) now.
Definition persistence_age : option float := age (sh_last_persistence_activity s) now.

Definition mark_age (f : dimension) (a : option float) (limit : float) : list action :=
  match a with
  | Some x => [Mark f (if fleb x limit then S_HEALTHY else S_STALE)]
  | None => []
  end.

Definition mark_progress : list action :=
  mark_age F_collection collection_age (hp_event_stale_timeout policy)
  ++ mark_age F_processing processing_age (hp_processing_stall_timeout policy)
  ++ mark_age F_delivery delivery_age (hp_delivery_stall_timeout policy)
  ++ mark_age F_storage persistence_age (hp_persistence_stall_timeout policy).

Definition meta_flag (key : string) : bool := truthy_val (dget_default (VBool true) key (sh_metadata s)).

Definition check_stalls : list action :=
  (if (0 <? sh_queue_depth s) && overdue processing_age (hp_processing_stall_timeout policy)
   then issue 88 S_IMPAIRED R_PROCESSING_STALL
          "Pending events exist but the processing progress heartbeat is stale." (Some F_processing) else [])
  ++ (if meta_flag "delivery_required" && (sh_events_delivered_total s <? sh_events_processed_total s)
         && overdue delivery_age (hp_delivery_stall_timeout policy)
      then issue 82 S_IMPAIRED R_DELIVERY_STALL
             "Processed telemetry is not progressing to downstream consumers." (Some F_delivery) else [])
  ++ (if meta_flag "persistence_required" && (sh_events_persisted_total s <? sh_events_processed_total s)
         && overdue persistence_age (hp_persistence_stall_timeout policy)
      then issue 84 S_IMPAIRED R_PERSISTENCE_STALL
             "Processed telemetry is not being persisted within the required window." (Some F_storage) else []).

Definition self_test_is (outcome : bool) : bool :=
  match sh_last_self_test s with Some t => Bool.eqb (sr_passed t) outcome | None => false end.

Definition check_idle : list action :=
  if overdue collection_age (hp_maximum_expected_idle_time policy) then
    if self_test_is true
    then issue 10 S_HEALTHY_IDLE R_NO_EVENTS_EXPECTED
           "No external events were expected; the latest synthetic pipeline probe passed." (Some F_collection)
    else if sh_initialized s
    then issue 75 S_STALE R_EVENT_STREAM_STALE
           "No expected telemetry or successful synthetic pipeline proof is recent enough." (Some F_collection)
    else []
  else [].

Definition check_queue : list action :=
  let u := queue_utilization s in
  if fgeb u (hp_critical_queue_utilization policy)
  then issue 94 S_IMPAIRED (if negb (sh_events_dropped_total s =? 0) then R_QUEUE_OVERFLOW else R_QUEUE_BACKPRESSURE)
         ("Queue utilization is critical at " +:+ percent0 u +:+ ".") (Some F_processing)
  else if fgeb u (hp_degraded_queue_utilization policy)
          && fgeb (sh_backpressure_duration_seconds s) (hp_backpressure_sustain_seconds policy)
  then issue 80 S_BACKPRESSURED R_QUEUE_BACKPRESSURE
         ("Queue utilization has remained at " +:+ percent0 u +:+ " for "
          +:+ fixed0 (sh_backpressure_duration_seconds s) +:+ " seconds.") (Some F_processing)
  else if fgeb u (hp_elevated_queue_utilization policy)
  then issue 35 S_HEALTHY_WITH_WARNINGS R_QUEUE_BACKPRESSURE
         ("Queue utilization is elevated at " +:+ percent0 u +:+ "; no sustained loss is proven.") (Some F_processing)
  else [].

Definition drop_rate : option float :=
  match sh_drop_rate s with
  | Some r => Some r
  | None => if sh_events_received_total s =? 0 then None
            else Some (int_div (sh_events_dropped_total s) (sh_events_received_total s))
  end.

Definition above (x : option float) (limit : float) : bool :=
  match x with Some x => fgtb x limit | None => false end.

Definition check_loss : list action :=
  (if negb (sh_events_dropped_total s =? 0) && above drop_rate (hp_max_drop_rate policy)
   then issue 86 S_DEGRADED R_EVENT_LOSS
          ("Unintended event loss is " +:+ percent2 (default fzero drop_rate)
           +:+ "; intentional filtering is accounted separately.") (Some F_collection) else [])
  ++ (if above (sh_processing_latency_ms s) (hp_max_processing_latency_ms policy)
      then issue 68 S_DEGRADED R_PROCESSING_STALL
             ("Processing latency is " +:+ fixed0 (default fzero (sh_processing_latency_ms s))
              +:+ " ms, above the sensor policy SLO.") (Some F_processing) else []).

Definition disk_pressure (r : ResourceMetrics) : bool :=
  match rm_free_disk_bytes r with Some b => b <? hp_min_free_disk_bytes policy | None => false end
  || match rm_free_disk_percent r with Some p => fltb p (hp_min_free_disk_percent policy) | None => false end.

Definition check_resources : list action :=
  let r := sh_resources s in
  (if above (rm_database_latency_ms r) (hp_max_database_latency_ms policy)
   then issue 65 S_DEGRADED R_DATABASE_LATENCY
          "Evidence database latency is above the configured operational SLO." (Some F_storage) else [])
  ++ (if disk_pressure r
      then issue 87 S_DEGRADED R_DISK_PRESSURE
             "Available disk capacity is below the configured evidence reserve." (Some F_storage) else [])
  ++ (match rm_descriptor_limit r, rm_open_descriptors r with
      | Some limit, Some opened =>
          if limit =? 0 then [] else
          let ratio := int_div opened limit in
          if fgeb ratio (hp_descriptor_critical_ratio policy)
          then issue 88 S_IMPAIRED R_DESCRIPTOR_PRESSURE
                 ("File descriptor utilization is critical at " +:+ percent0 ratio +:+ ".") None
          else if fgeb ratio (hp_descriptor_degraded_ratio policy)
          then issue 66 S_DEGRADED R_DESCRIPTOR_PRESSURE
                 ("File descriptor utilization is elevated at " +:+ percent0 ratio +:+ ".") None
          else []
      | _, _ => []
      end)
  ++ (match rm_rss_growth_bytes r with
      | Some growth =>
          if 256 * 1024 * 1024 <? growth
          then issue 55 S_DEGRADED R_MEMORY_GROWTH
                 "Sustained RSS growth requires investigation; a fixed memory threshold alone was not used." None
          else []
      | None => []
      end).

(** [metadata.get("duplicate_instances", 0) > 1] *)
Definition duplicates : res bool :=
  match dget_default (VInt 0) "duplicate_instances" (sh_metadata s) with
  | VInt n => Ok (1 <? n)
  | VBool _ => Ok false
  | VFloat f => Ok (fgtb f (fexact 1))
  | _ => Raise (TypeError "'>' not supported")
  end.

Definition check_lifecycle (duplicated : bool) : list action :=
  (if hp_restart_budget_count policy <? sh_restart_count s
   then issue 99 S_FAILED R_RESTART_LOOP
          "Restart budget is exhausted; automatic restarts must stop and evidence must be retained." None else [])
  ++ (if duplicated
      then issue 97 S_IMPAIRED R_DUPLICATE_INSTANCE
             "Multiple singleton sensor instances were observed; automatic termination was not attempted." None
      else [])
  ++ (if self_test_is false
      then issue 83 S_DEGRADED R_SELF_TEST_FAILED
             ("Functional self-test failed: "
              +:+ match sh_last_self_test s with Some t => sr_reason t | None => "" end) None else [])
  ++ (if truthy (sh_fallback_mode s)
      then issue 72 S_DEGRADED R_FALLBACK_MODE_ACTIVE
             ("Fallback mode is active: " +:+ sh_fallback_mode s
              +:+ ". Equivalent primary coverage is not claimed.") None else []).

Definition all_checks (duplicated : bool) : list action :=
  check_process ++ check_heartbeat ++ check_permission ++ check_dependencies ++ check_configuration
  ++ check_rules ++ mark_progress ++ check_stalls ++ check_idle ++ check_queue ++ check_loss ++ check_resources
  ++ check_lifecycle duplicated.

Definition evidence_present : bool :=
  match sh_last_process_heartbeat s with Some _ => true | None => false end && sh_initialized s
  && (match sh_last_collection_activity s with Some _ => true | None => false end
      || match sh_last_self_test s with Some _ => true | None => false end
      || negb (sh_events_received_total s =? 0)).

(** The reason recorded when no check reported one. *)
Definition no_issue : Issue :=
  if evidence_present
  then {| is_priority := 0; is_state := S_HEALTHY; is_code := R_NONE;
          is_message := "Sensor is initialized and its functional telemetry path is within policy.";
          is_field := None |}
  else {| is_priority := 45; is_state := S_UNKNOWN; is_code := R_UNKNOWN_DEGRADATION;
          is_message := "Functional telemetry evidence is incomplete; healthy status is withheld.";
          is_field := None |}.

(** [max(reasons, key=priority)]: the first of the greatest *)
Definition more_urgent (best i : Issue) : Issue := if is_priority best <? is_priority i then i else best.
Definition worst (i : Issue) (l : list Issue) : Issue := foldl more_urgent i l.

Definition penalty (st : SensorState) : Z :=
  match st with
  | S_HEALTHY_WITH_WARNINGS => 8 | S_HIGH_LOAD => 12 | S_DEGRADED => 25 | S_BACKPRESSURED => 35 | S_STALE => 40
  | S_IMPAIRED => 55 | S_PERMISSION_BLOCKED => 70 | S_CONFIGURATION_ERROR => 70 | S_DEPENDENCY_FAILED => 70
  | S_FAILED => 100 | S_UNAVAILABLE => 100 | S_UNKNOWN => 60 | S_INITIALIZING => 50 | _ => 0
  end.

(** [_score] *)
Definition score (reasons : list Issue) : Z :=
  let lost := zsum penalty (remove_dups (is_state <$> reasons)) in
  let dropped := if sh_events_dropped_total s =? 0 then 0 else Z.min 20 (sh_events_dropped_total s) in
  Z.max 0 (Z.min 100 (100 - lost - dropped)).

(** [_validated] *)
Definition validated : res unit :=
  raise_if (negb (truthy (sh_sensor_id s)) || (64 <? slen (sh_sensor_id s)))
    (ValueError "sensor_id is missing or too long");;
  raise_if (existsb (fun v => v <? 0)
    [sh_events_received_total s; sh_events_processed_total s; sh_events_delivered_total s;
     sh_events_persisted_total s; sh_events_dropped_total s; sh_events_failed_total s; sh_queue_depth s;
     sh_queue_capacity s; sh_restart_count s])
    (ValueError "sensor counters and queue metrics cannot be negative");;
  raise_if (negb (sh_queue_capacity s =? 0) && (sh_queue_capacity s * 100 <? sh_queue_depth s))
    (ValueError "queue depth exceeds the bounded health payload range");;
  raise_if (128 <? zlen (sh_metadata s)) (ValueError "sensor health metadata exceeds the bounded field count").

Definition reasons_of (duplicated : bool) : list Issue :=
  match issues (all_checks duplicated) with [] => [no_issue] | l => l end.

(** In a healthy state the dimensions nothing is known of count as healthy. *)
Definition settle (state : SensorState) (d : Dimensions) : Dimensions :=
  let known (v : SensorState) := if bool_decide (v = S_UNKNOWN) && is_healthy state then S_HEALTHY else v in {|
  dm_process_health := known (dm_process_health d); dm_collection_health := known (dm_collection_health d);
  dm_processing_health := known (dm_processing_health d); dm_delivery_health := known (dm_delivery_health d);
  dm_storage_health := known (dm_storage_health d); dm_dependency_health := known (dm_dependency_health d);
  dm_permission_health := known (dm_permission_health d);
  dm_configuration_health := known (dm_configuration_health d); dm_rule_health := known (dm_rule_health d) |}.

Definition evaluate : res SensorHealthSnapshot :=
  validated;;
  duplicated ← duplicates;
  let reasons := reasons_of duplicated in
  let dims := foldl apply_action (initial_dimensions s) (all_checks duplicated) in
  let top := worst (hd no_issue reasons) reasons in
  Ok (replace_assessment (is_state top) (Z.min (state_rank (is_state top)) (score reasons)) (is_code top)
        (is_message top) now (settle (is_state top) dims) s).
End Checks.

(** A run of the tracker over the snapshots of any sensors. *)
Definition sample : Type := SensorHealthSnapshot * option SensorHealthSnapshot * SensorHealthPolicy.

Definition run_hysteresis (trace : list sample) (h : Hysteresis) : Hysteresis :=
  foldl (fun h '(snapshot, previous, policy) => (apply_hysteresis snapshot previous policy h).2) h trace.

(** What the evaluator said of one sensor along a run. *)
Definition states_of (id : string) (trace : list sample) : list SensorState :=
  (fun x : sample => sh_state x.1.1) <$> filter (fun x : sample => sh_sensor_id x.1.1 = id) trace.
