(* ===== verification/HealthReport.v ===== *)
(** Capability coverage and the platform report: the end of
    [health/evaluator.py]. *)

From S2P Require Import Prelude PyStr PyFloat PyDict PyJson PyTime HealthModels HealthEval.

Definition coverage_rank (l : CoverageLevel) : Z :=
  match l with L_NONE => 0 | L_UNKNOWN => 1 | L_LIMITED => 2 | L_PARTIAL => 3 | L_FULL => 4 end.

(** The coverage a state allows at most. *)
Definition maximum_coverage (s : SensorState) : CoverageLevel :=
  if state_in s FAILURE_STATES then L_NONE
  else if state_in s DEGRADED_STATES || state_in s [S_HIGH_LOAD; S_RECOVERING; S_STABILIZING] then L_PARTIAL
  else if bool_decide (s = S_MAINTENANCE) then L_UNKNOWN
  else L_FULL.

Definition declared_capabilities (d : SensorDescriptor) (s : SensorHealthSnapshot) : list CapabilityHealth :=
  match sh_capabilities s with
  | [] => (fun id => {| ch_capability_id := id; ch_coverage := L_UNKNOWN; ch_reason := sh_reason s;
                        ch_fallback := sh_fallback_mode s; ch_confidence := "unknown" |}) <$> ds_capabilities d
  | l => l
  end.

Definition cap_capability (s : SensorHealthSnapshot) (c : CapabilityHealth) : CapabilityHealth :=
  let maximum := maximum_coverage (sh_state s) in
  let effective := if coverage_rank (ch_coverage c) <=? coverage_rank maximum then ch_coverage c else maximum in
  {| ch_capability_id := ch_capability_id c; ch_coverage := effective;
     ch_reason := if bool_decide (effective = ch_coverage c) then ch_reason c
                  else "Effective coverage is capped by " +:+ sensor_state_value (sh_state s) +:+ ": " +:+ sh_reason s;
     ch_fallback := ch_fallback c; ch_confidence := ch_confidence c |}.

Definition capability_coverage (d : SensorDescriptor) (s : SensorHealthSnapshot) : list CapabilityHealth :=
  cap_capability s <$> declared_capabilities d s.

Definition sensor : Type := SensorDescriptor * SensorHealthSnapshot.

(** The least coverage of a capability over the sensors that provide it. *)
Definition merge_capability (by_id : list (string * CapabilityHealth)) (c : CapabilityHealth)
    : list (string * CapabilityHealth) :=
  match dget (ch_capability_id c) by_id with
  | None => dset (ch_capability_id c) c by_id
  | Some prior =>
      if coverage_rank (ch_coverage c) <? coverage_rank (ch_coverage prior)
      then dset (ch_capability_id c) c by_id else by_id
  end.

Definition coverage_by_id (pairs : list sensor) : list (string * CapabilityHealth) :=
  foldl merge_capability [] (concat ((fun '(d, s) => capability_coverage d s) <$> pairs)).

Section Required.
Context (required : list sensor).

Definition some_state (p : SensorState -> bool) : bool := existsb (fun x => p (sh_state x.2)) required.
Definition some_critical (p : SensorState -> bool) : bool :=
  existsb (fun x => bool_decide (ds_criticality x.1 = C_CRITICAL) && p (sh_state x.2)) required.

Definition overall_health : PlatformState :=
  let failed s := state_in s FAILURE_STATES in
  let degraded s := state_in s DEGRADED_STATES in
  let unknown s := state_in s [S_UNKNOWN; S_INITIALIZING] in
  if negb (zlen required =? 0) && negb (some_state (fun s => negb (bool_decide (s = S_MAINTENANCE))))
  then P_MAINTENANCE
  else if some_critical failed then P_FAILED
  else if some_critical degraded || (some_state failed && (1 <? zlen required)) then P_SEVERELY_DEGRADED
  else if some_state failed || some_state degraded then P_DEGRADED
  else if some_state unknown || some_state (fun s => bool_decide (s = S_HEALTHY_WITH_WARNINGS))
  then if some_state unknown then P_UNKNOWN else P_HEALTHY_WITH_WARNINGS
  else P_HEALTHY.

Definition count_states (l : list SensorState) : Z := zcount (fun x => state_in (sh_state x.2) l) required.

(** [roots.setdefault(dependency_id, []).append(display_name)] *)
Definition add_root (roots : list (string * list string)) (entry : string * string) : list (string * list string) :=
  dset entry.1 (dget_default [] entry.1 roots ++ [entry.2]) roots.

Definition failed_dependencies (x : sensor) : list (string * string) :=
  (fun d => (sd_dependency_id d, ds_display_name x.1))
    <$> filter (fun d => sd_required d = true /\ sd_state d ∈ [D_FAILED; D_UNAVAILABLE]) (sh_dependencies x.2).

Definition roots : list (string * list string) := foldl add_root [] (concat (failed_dependencies <$> required)).

Definition root_causes : list (list (string * pyval)) :=
  (fun '(dependency, names) =>
     [("dependency", VStr dependency); ("affected_sensors", VList (VStr <$> names));
      ("affected_count", VInt (zlen names))])
    <$> sort_by (fun a b => str_le a.1 b.1) roots.
End Required.

Definition build_platform_report (pairs : list sensor) (manager_health : list (string * pyval)) (now : datetime)
    : PlatformHealthReport :=
  let required := filter (fun x => ds_expected x.1 = true /\ ds_enabled x.1 = true) pairs in {|
  pr_overall_health := overall_health required;
  pr_generated_at := now;
  pr_sensors := pairs.*2;
  pr_coverage := sort_by (fun a b => str_le (ch_capability_id a) (ch_capability_id b)) (coverage_by_id pairs).*2;
  pr_required_healthy := count_states required [S_HEALTHY; S_HEALTHY_IDLE; S_HEALTHY_WITH_WARNINGS];
  pr_required_total := zlen required;
  pr_degraded_count := count_states required DEGRADED_STATES;
  pr_failed_count := count_states required FAILURE_STATES;
  pr_active_recoveries := count_states required [S_RECOVERING; S_STABILIZING];
  pr_root_causes := root_causes required;
  pr_manager_health := manager_health |}.

(** What the platform report may claim. *)

(** ** Coverage *)

(** Capability [c] is reported, with no more coverage than [c]. *)
Definition covered (by_id : list (string * CapabilityHealth)) (c : CapabilityHealth) : Prop :=
  exists c', dget (ch_capability_id c) by_id = Some c' /\ ch_capability_id c' = ch_capability_id c
    /\ coverage_rank (ch_coverage c') <= coverage_rank (ch_coverage c).

Definition keyed (by_id : list (string * CapabilityHealth)) : Prop :=
  forall k c, dget k by_id = Some c -> ch_capability_id c = k.

Lemma merge_keyed by_id c : keyed by_id -> keyed (merge_capability by_id c).
Proof.
  intros Hk. unfold merge_capability.
  assert (Hset : keyed (dset (ch_capability_id c) c by_id)).
  { intros k c'. destruct (decide (k = ch_capability_id c)) as [->|Hne].
    - rewrite dget_dset_eq. by intros [= <-].
    - rewrite dget_dset_ne by done. apply Hk. }
  destruct (dget _ by_id); [by destruct (_ <? _)|done].
Qed.

Lemma merge_covers by_id c : keyed by_id -> covered (merge_capability by_id c) c.
Proof.
  intros Hk. unfold merge_capability, covered. destruct (dget (ch_capability_id c) by_id) as [prior|] eqn:Hp.
  - destruct (_ <? _) eqn:Hlt; b2p.
    + exists c. by rewrite dget_dset_eq.
    + exists prior. rewrite Hp. split_and!; [done|by apply Hk|lia].
  - exists c. by rewrite dget_dset_eq.
Qed.

Lemma merge_mono by_id c d : covered by_id d -> covered (merge_capability by_id c) d.
Proof.
  intros (d' & Hd & Hid & Hr). unfold merge_capability.
  destruct (decide (ch_capability_id d = ch_capability_id c)) as [Heq|Hne].
  - rewrite Heq in Hd. rewrite Hd. destruct (_ <? _) eqn:Hlt; b2p.
    + exists c. rewrite Heq, dget_dset_eq. split_and!; [done|done|lia].
    + exists d'. rewrite <- Heq in Hd. by split_and!.
  - exists d'. destruct (dget (ch_capability_id c) by_id) as [prior|];
      [destruct (coverage_rank (ch_coverage c) <? coverage_rank (ch_coverage prior))|]; by rewrite ?dget_dset_ne.
Qed.

Lemma coverage_fold l by_id : keyed by_id ->
  keyed (foldl merge_capability by_id l)
  /\ (forall d, covered by_id d -> covered (foldl merge_capability by_id l) d)
  /\ forall c, c ∈ l -> covered (foldl merge_capability by_id l) c.
Proof.
  revert by_id. induction l as [|c l IH]; intros by_id Hk; simpl.
  - split_and!; [done|done|]. intros c Hc. inversion Hc.
  - destruct (IH (merge_capability by_id c) (merge_keyed _ _ Hk)) as (H1 & H2 & H3). split_and!; [done| |].
    + intros d Hd. by apply H2, merge_mono.
    + intros d [->|Hd]%elem_of_cons; [by apply H2, merge_covers|by apply H3].
Qed.

Lemma cap_capability_spec s c :
  let c' := cap_capability s c in
  ch_capability_id c' = ch_capability_id c
  /\ coverage_rank (ch_coverage c') <= coverage_rank (ch_coverage c)
  /\ coverage_rank (ch_coverage c') <= coverage_rank (maximum_coverage (sh_state s)).
Proof.
  unfold cap_capability. cbn. destruct (_ <=? _) eqn:Hle; b2p; split_and!; try done; lia.
Qed.

(** ** The overall state *)

Lemma some_state_false required p : some_state required p = false <-> forall x, x ∈ required -> p (sh_state x.2) = false.
Proof.
  unfold some_state. induction required as [|x l IH]; simpl.
  - split; [|done]. intros _ x Hx. inversion Hx.
  - rewrite orb_false_iff, IH. setoid_rewrite elem_of_cons. naive_solver.
Qed.

Lemma some_critical_some required p : some_critical required p = true -> some_state required p = true.
Proof.
  unfold some_critical, some_state. rewrite !existsb_exists. intros (x & Hx & Hp). exists x. split; [done|].
  by apply andb_true_iff in Hp as [_ Hp].
Qed.

(** The states of required sensors that a healthy platform tolerates. *)
Definition tolerated (s : SensorState) : bool :=
  negb (state_in s FAILURE_STATES || state_in s DEGRADED_STATES
        || state_in s [S_UNKNOWN; S_INITIALIZING; S_HEALTHY_WITH_WARNINGS]).

Lemma overall_healthy required : overall_health required = P_HEALTHY ->
  forall x, x ∈ required -> tolerated (sh_state x.2) = true.
Proof.
  unfold overall_health. destruct (negb _ && negb _); [done|].
  destruct (some_critical required _); [done|]. destruct (_ || _ && _); [done|].
  destruct (some_state required (fun s => state_in s FAILURE_STATES)) eqn:Hf; [done|].
  destruct (some_state required (fun s => state_in s DEGRADED_STATES)) eqn:Hd; [done|]. simpl.
  destruct (some_state required (fun s => state_in s [S_UNKNOWN; S_INITIALIZING])) eqn:Hu; [done|]. simpl.
  destruct (some_state required (fun s => bool_decide (s = S_HEALTHY_WITH_WARNINGS))) eqn:Hw; [done|].
  intros _ x Hx. rewrite some_state_false in Hf, Hd, Hu, Hw.
  specialize (Hf x Hx). specialize (Hd x Hx). specialize (Hu x Hx). specialize (Hw x Hx).
  unfold tolerated. destruct (sh_state x.2); done.
Qed.

Lemma failed_critical_reported required x : x ∈ required -> ds_criticality x.1 = C_CRITICAL ->
  state_in (sh_state x.2) FAILURE_STATES = true -> overall_health required = P_FAILED.
Proof.
  intros Hx Hc Hf. unfold overall_health.
  assert (Hcrit : some_critical required (fun s => state_in s FAILURE_STATES) = true).
  { unfold some_critical. apply existsb_exists. exists x. rewrite list_elem_of_In in Hx. split; [done|].
    rewrite Hf, andb_true_r. by apply bool_decide_eq_true. }
  destruct (some_state required (fun s => negb (bool_decide (s = S_MAINTENANCE)))) eqn:Hm.
  - rewrite andb_false_r. by rewrite Hcrit.
  - rewrite some_state_false in Hm. specialize (Hm x Hx). apply negb_false_iff, bool_decide_eq_true in Hm.
    rewrite Hm in Hf. done.
Qed.

(** C24. The platform report never overclaims: each capability a sensor declares is
    reported with no more coverage than it declared and than the state of that
    sensor allows (none for a failed one); an overall HEALTHY means no required
    sensor is failed, degraded, unknown or warning; and a failed critical required
    sensor makes the platform FAILED. *)
Theorem report_never_overclaims (pairs : list sensor) (manager_health : list (string * pyval)) (now : datetime)
    (x : sensor) :
  x ∈ pairs ->
  let report := build_platform_report pairs manager_health now in
  (forall c, c ∈ declared_capabilities x.1 x.2 -> exists c', c' ∈ pr_coverage report
     /\ ch_capability_id c' = ch_capability_id c
     /\ coverage_rank (ch_coverage c') <= coverage_rank (ch_coverage c)
     /\ coverage_rank (ch_coverage c') <= coverage_rank (maximum_coverage (sh_state x.2)))
  /\ (ds_expected x.1 = true -> ds_enabled x.1 = true ->
      (pr_overall_health report = P_HEALTHY -> tolerated (sh_state x.2) = true)
      /\ (ds_criticality x.1 = C_CRITICAL -> state_in (sh_state x.2) FAILURE_STATES = true ->
          pr_overall_health report = P_FAILED)).
Proof.
  intros Hx report. split.
  - intros c Hc. destruct (cap_capability_spec x.2 c) as (Hid & Hr1 & Hr2).
    set (all := concat ((fun '(d, s) => capability_coverage d s) <$> pairs)).
    assert (Hin : cap_capability x.2 c ∈ all).
    { unfold all. rewrite list_elem_of_In, in_concat. exists (capability_coverage x.1 x.2).
      rewrite <- !list_elem_of_In. split.
      - apply list_elem_of_fmap. exists x. split; [by destruct x|done].
      - apply list_elem_of_fmap. by exists c. }
    destruct (coverage_fold all []) as (_ & _ & Hcov); [done|].
    destruct (Hcov _ Hin) as (c' & Hg & Hid' & Hr). exists c'. split_and!; [|congruence|lia|lia].
    unfold report, build_platform_report. cbn [pr_coverage].
    rewrite sort_by_perm. apply list_elem_of_fmap. exists (ch_capability_id (cap_capability x.2 c), c').
    split; [done|]. by apply dget_elem.
  - intros He Hen. unfold report, build_platform_report. cbn [pr_overall_health].
    assert (Hreq : x ∈ filter (fun x : sensor => ds_expected x.1 = true /\ ds_enabled x.1 = true) pairs)
      by (by apply list_elem_of_filter).
    split; [intros Hh; by apply (overall_healthy _ Hh)|]. intros Hc Hf. by apply (failed_critical_reported _ x).
Qed.

Definition monitor_descriptor : SensorDescriptor := {|
  ds_sensor_id := "system_monitor"; ds_display_name := "System monitor"; ds_criticality := C_CRITICAL;
  ds_expected := true; ds_enabled := true; ds_singleton := true; ds_capabilities := ["process_events"];
  ds_dependencies := []; ds_failure_domain := "general" |}.

Definition at_zero : datetime := {| local_us := 0; utc_off := Some 0 |}.

Definition monitor_in (state : SensorState) : sensor :=
  (monitor_descriptor,
   replace_assessment state 0 R_NONE "" at_zero (dimensions_of (new_snapshot "system_monitor" at_zero))
     (new_snapshot "system_monitor" at_zero)).

Lemma report_never_overclaims_witness :
  monitor_in S_FAILED ∈ [monitor_in S_FAILED]
  /\ pr_overall_health (build_platform_report [monitor_in S_FAILED] [] at_zero) = P_FAILED.
Proof.
  split; [by apply list_elem_of_singleton|].
  refine (proj2 (proj2 (report_never_overclaims [monitor_in S_FAILED] [] at_zero (monitor_in S_FAILED) _) _ _) _ _);
    [by apply list_elem_of_singleton|done|done|done|by vm_compute].
Defined.

(** A platform whose only required sensor is recovering counts no healthy sensor
    and is reported HEALTHY. *)
Lemma recovering_platform_reported_healthy :
  let report := build_platform_report [monitor_in S_RECOVERING] [] at_zero in
  pr_overall_health report = P_HEALTHY /\ pr_required_healthy report = 0 /\ pr_required_total report = 1.
Proof. by vm_compute. Qed.
