(* ===== verification/HealthRecovery.v ===== *)
(** Bounded recovery decisions and circuit breakers: [health/recovery.py]. *)

From S2P Require Import Prelude PyStr PyFloat PyDict PyJson PyTime HealthModels.

Definition NON_AUTOMATIC : list ReasonCode :=
  [R_PERMISSION_REVOKED; R_PERMISSION_REQUIRED; R_ENTITLEMENT_MISSING; R_SIGNATURE_INVALID;
   R_CONFIG_UNEXPECTED_CHANGE; R_DISK_PRESSURE; R_DUPLICATE_INSTANCE].

Definition EXTERNAL_REMEDIATION_REQUIRED : list ReasonCode :=
  [R_PERMISSION_REVOKED; R_PERMISSION_REQUIRED; R_ENTITLEMENT_MISSING; R_SIGNATURE_INVALID; R_DUPLICATE_INSTANCE].

(** [RECOVERY_LADDER.get(code, RecoveryLevel.OBSERVE)] *)
Definition recovery_level (code : ReasonCode) : RecoveryLevel :=
  match code with
  | R_IPC_DISCONNECTED | R_HELPER_UNAVAILABLE | R_DATABASE_LATENCY | R_DATABASE_UNAVAILABLE => A_RECONNECT
  | R_RULE_LOAD_FAILURE => A_REINITIALIZE
  | R_PROCESSING_STALL | R_DELIVERY_STALL => A_RESTART_WORKER
  | R_PERSISTENCE_STALL => A_RECONNECT
  | R_EVENT_STREAM_STALE => A_REINITIALIZE
  | R_HEARTBEAT_STALE | R_PROCESS_NOT_RUNNING => A_REQUEST_WATCHDOG
  | _ => A_OBSERVE
  end.

(** ** [CircuitBreaker] *)

Record CircuitBreaker := {
  cb_state : CircuitState;
  cb_failures : Z;
  cb_opened_at : float;
  cb_cool_down_seconds : float
}.

Definition new_breaker : CircuitBreaker := {|
  cb_state := B_CLOSED; cb_failures := 0; cb_opened_at := fexact 0; cb_cool_down_seconds := fexact 30 |}.

Definition with_circuit (state : CircuitState) (failures : Z) (opened_at : float) (c : CircuitBreaker)
    : CircuitBreaker := {|
  cb_state := state; cb_failures := failures; cb_opened_at := opened_at;
  cb_cool_down_seconds := cb_cool_down_seconds c |}.

Definition allow (now : float) (c : CircuitBreaker) : bool * CircuitBreaker :=
  match cb_state c with
  | B_CLOSED => (true, c)
  | B_OPEN =>
      if fgeb (fsub now (cb_opened_at c)) (cb_cool_down_seconds c)
      then (true, with_circuit B_HALF_OPEN (cb_failures c) (cb_opened_at c) c) else (false, c)
  | B_HALF_OPEN => (true, c)
  end.

Definition success (c : CircuitBreaker) : CircuitBreaker := with_circuit B_CLOSED 0 (cb_opened_at c) c.

Definition failure (now : float) (c : CircuitBreaker) : CircuitBreaker :=
  let failures := cb_failures c + 1 in
  if 3 <=? failures then with_circuit B_OPEN failures now c
  else with_circuit (cb_state c) failures (cb_opened_at c) c.

(** ** [RecoveryEngine] *)

Record RecoveryEngine := {
  re_attempts : list (string * list float);
  re_circuits : list (string * CircuitBreaker)
}.

Definition new_engine : RecoveryEngine := {| re_attempts := []; re_circuits := [] |}.

Definition set_attempts (id : string) (l : list float) (e : RecoveryEngine) : RecoveryEngine := {|
  re_attempts := dset id l (re_attempts e); re_circuits := re_circuits e |}.
Definition set_circuit (id : string) (c : CircuitBreaker) (e : RecoveryEngine) : RecoveryEngine := {|
  re_attempts := re_attempts e; re_circuits := dset id c (re_circuits e) |}.

(** The entries of the two [defaultdict]s. *)
Definition attempts_of (id : string) (e : RecoveryEngine) : list float := dget_default [] id (re_attempts e).
Definition circuit_of (id : string) (e : RecoveryEngine) : CircuitBreaker :=
  dget_default new_breaker id (re_circuits e).

Definition refused (action : RecoveryLevel) (detail : string) (operator : bool) : RecoveryResult := {|
  rx_attempted := false; rx_succeeded := false; rx_action := action; rx_detail := detail;
  rx_requires_operator := operator; rx_verification_required := true |}.

Definition failed_safely (level : RecoveryLevel) (text : string) : RecoveryResult := {|
  rx_attempted := true; rx_succeeded := false; rx_action := level;
  rx_detail := "Recovery provider failed safely: " +:+ text; rx_requires_operator := false;
  rx_verification_required := true |}.

(** [while attempts and now - attempts[0] > window: attempts.popleft()] *)
Definition prune_attempts (now : float) (window : Z) (l : list float) : list float :=
  drop_while (fun t => fgtb (fsub now t) (fexact window)) l.

Section Provider.
(** [provider.recover], code outside this component: its result, or the class and
    message of what it raised. *)
Context (provider : RecoveryReason -> RecoveryResult + string).

(** The call, once the budget and the circuit allow it. *)
Definition attempt (snapshot : SensorHealthSnapshot) (level : RecoveryLevel) (now : float)
    : M RecoveryEngine RecoveryResult :=
  let id := sh_sensor_id snapshot in
  modify_st (fun e => set_attempts id (attempts_of id e ++ [now]) e);;
  match provider {| rr_reason_code := sh_reason_code snapshot; rr_detail := sh_reason snapshot;
                    rr_requested_level := level |} with
  | inr text =>
      modify_st (fun e => set_circuit id (failure now (circuit_of id e)) e);;
      mret (failed_safely level text)
  | inl result =>
      modify_st (fun e =>
        if rx_succeeded result then set_circuit id (success (circuit_of id e)) e
        else if rx_attempted result then set_circuit id (failure now (circuit_of id e)) e
        else e);;
      mret result
  end.

Definition remediation_text (snapshot : SensorHealthSnapshot) : string :=
  str_or (sh_remediation snapshot) (sh_reason snapshot).

(** The budget and the circuit of the sensor. *)
Definition guarded_attempt (snapshot : SensorHealthSnapshot) (policy : SensorHealthPolicy) (level : RecoveryLevel)
    (now : float) : M RecoveryEngine RecoveryResult :=
  let id := sh_sensor_id snapshot in
  modify_st (fun e => set_attempts id
    (prune_attempts now (hp_restart_budget_window_seconds policy) (attempts_of id e)) e);;
  e ← get_st;
  if hp_restart_budget_count policy <=? zlen (attempts_of id e)
  then mret (refused A_OPERATOR_REQUIRED "Restart budget exhausted; automatic retries are stopped." true)
  else
    let (allowed, circuit) := allow now (circuit_of id e) in
    modify_st (set_circuit id circuit);;
    if (allowed : bool) then attempt snapshot level now
    else mret (refused A_OBSERVE "Recovery circuit is open; waiting before a controlled half-open probe." false).

Definition recover (snapshot : SensorHealthSnapshot) (policy : SensorHealthPolicy) (manual : bool) (now : float)
    : M RecoveryEngine RecoveryResult :=
  let code := sh_reason_code snapshot in
  if bool_decide (code ∈ EXTERNAL_REMEDIATION_REQUIRED)
  then mret (refused A_OPERATOR_REQUIRED (remediation_text snapshot) true)
  else if bool_decide (code ∈ NON_AUTOMATIC) && negb manual
  then mret (refused A_OPERATOR_REQUIRED (remediation_text snapshot) true)
  else
    let level := recovery_level code in
    if bool_decide (level = A_OBSERVE) && negb manual
    then mret (refused level "No safe automatic recovery is defined for this condition." false)
    else guarded_attempt snapshot policy level now.
End Provider.

(** [backoff_seconds], with the jitter drawn by [random.uniform(0, 0.5)]; the
    conversion of [2 ** count] to a float overflows beyond 1023. *)
Definition backoff_seconds (id : string) (jitter : float) (e : RecoveryEngine) : float :=
  let count := Z.max 0 (zlen (dget_default [] id (re_attempts e)) - 1) in
  fmin (fexact 60) (fadd (float_of_Z (2 ^ count)) jitter).

(** ** Runs *)

Record Request := {
  rq_snapshot : SensorHealthSnapshot;
  rq_manual : bool;
  rq_now : float;
  rq_provider : RecoveryReason -> RecoveryResult + string
}.

Section Run.
Context (policies : string -> SensorHealthPolicy).

Definition rq_sensor (rq : Request) : string := sh_sensor_id (rq_snapshot rq).

Definition serve_with (provider : RecoveryReason -> RecoveryResult + string) (rq : Request)
    : M RecoveryEngine RecoveryResult :=
  recover provider (rq_snapshot rq) (policies (rq_sensor rq)) (rq_manual rq) (rq_now rq).

Definition serve (rq : Request) : M RecoveryEngine RecoveryResult := serve_with (rq_provider rq) rq.

Definition engine_after (rqs : list Request) (e : RecoveryEngine) : RecoveryEngine :=
  foldl (fun e rq => (serve rq e).2) e rqs.
End Run.

(** The recovery budget: how often a sensor's provider is asked to recover. *)

(** ** When the provider is consulted *)

Section Consult.
Context (policies : string -> SensorHealthPolicy).

(** The request reaches the provider: two providers that raise differently are
    told apart. *)
Definition consults (rq : Request) (e : RecoveryEngine) : bool :=
  match (serve_with policies (fun _ => inr "a") rq e).1, (serve_with policies (fun _ => inr "b") rq e).1 with
  | Ok x, Ok y => negb (String.eqb (rx_detail x) (rx_detail y))
  | _, _ => false
  end.

Definition kept (rq : Request) (e : RecoveryEngine) : list float :=
  prune_attempts (rq_now rq) (hp_restart_budget_window_seconds (policies (rq_sensor rq)))
    (attempts_of (rq_sensor rq) e).

Definition eligible (rq : Request) : Prop :=
  let code := sh_reason_code (rq_snapshot rq) in
  code ∉ EXTERNAL_REMEDIATION_REQUIRED /\ (rq_manual rq = true \/ code ∉ NON_AUTOMATIC /\ recovery_level code <> A_OBSERVE).

Lemma attempts_set id id' l e :
  attempts_of id (set_attempts id' l e) = if decide (id = id') then l else attempts_of id e.
Proof.
  unfold attempts_of, dget_default. cbn. destruct (decide (id = id')) as [->|Hne].
  - by rewrite dget_dset_eq.
  - by rewrite dget_dset_ne.
Qed.

Lemma attempts_circuit id id' c e : attempts_of id (set_circuit id' c e) = attempts_of id e.
Proof. done. Qed.

(** Past the budget, the provider decides the result and the attempt is recorded. *)
Lemma attempt_spec provider snapshot level now e :
  let r := attempt provider snapshot level now e in
  (forall id, attempts_of id r.2 = if decide (id = sh_sensor_id snapshot)
     then attempts_of id e ++ [now] else attempts_of id e)
  /\ r.1 = match provider {| rr_reason_code := sh_reason_code snapshot; rr_detail := sh_reason snapshot;
                             rr_requested_level := level |} with
           | inl result => Ok result | inr text => Ok (failed_safely level text) end.
Proof.
  unfold attempt, modify_st, mbind, M_bind. cbn.
  destruct (provider _) as [result|text]; cbn.
  - split; [|done]. intros id. destruct (rx_succeeded result), (rx_attempted result);
      rewrite ?attempts_circuit, attempts_set; destruct (decide (id = sh_sensor_id snapshot)) as [->|]; done.
  - split; [|done]. intros id. rewrite attempts_circuit, attempts_set.
    by destruct (decide (id = sh_sensor_id snapshot)) as [->|].
Qed.

(** A served request either consults the provider, within the budget and with the
    attempt recorded, or ignores it and records nothing. *)
Lemma serve_cases rq e :
  (eligible rq
   /\ zlen (kept rq e) < hp_restart_budget_count (policies (rq_sensor rq))
   /\ consults rq e = true
   /\ forall provider id, attempts_of id (serve_with policies provider rq e).2
        = if decide (id = rq_sensor rq) then kept rq e ++ [rq_now rq] else attempts_of id e)
  \/ (consults rq e = false
      /\ (forall p q, serve_with policies p rq e = serve_with policies q rq e)
      /\ forall provider id, attempts_of id (serve_with policies provider rq e).2 = attempts_of id e
           \/ id = rq_sensor rq /\ attempts_of id (serve_with policies provider rq e).2 = kept rq e).
Proof.
  unfold consults, serve_with, recover, eligible. cbv zeta.
  case_bool_decide as Hext; [right; split_and!; [by cbn; rewrite ?String.eqb_refl|done|by intros; left]|].
  destruct (bool_decide (_ ∈ NON_AUTOMATIC) && _) eqn:Hauto; [right; split_and!; [by cbn; rewrite ?String.eqb_refl|done|by intros; left]|].
  destruct (bool_decide (_ = A_OBSERVE) && _) eqn:Hobs; [right; split_and!; [by cbn; rewrite ?String.eqb_refl|done|by intros; left]|].
  assert (Helig : rq_manual rq = true \/ sh_reason_code (rq_snapshot rq) ∉ NON_AUTOMATIC
            /\ recovery_level (sh_reason_code (rq_snapshot rq)) <> A_OBSERVE).
  { destruct (rq_manual rq); [by left|right]. rewrite andb_true_r in *. by b2p. }
  unfold guarded_attempt, get_st, modify_st, mbind, M_bind. cbn.
  set (e1 := set_attempts _ _ e). fold (rq_sensor rq) in *.
  assert (He1 : attempts_of (rq_sensor rq) e1 = kept rq e) by (unfold e1; by rewrite attempts_set, decide_True).
  assert (He1' : forall id, attempts_of id e1 = attempts_of id e \/ id = rq_sensor rq /\ attempts_of id e1 = kept rq e).
  { intros id. destruct (decide (id = rq_sensor rq)) as [->|Hne]; [by right|left]. unfold e1. by rewrite attempts_set, decide_False. }
  rewrite He1. destruct (hp_restart_budget_count _ <=? zlen (kept rq e)) eqn:Hbudget; [by right; split_and!|].
  destruct (allow _ _) as [[] circuit]; cbn; [|by right; split_and!].
  left. b2p. split_and!; try done.

  - intros provider id. destruct (attempt_spec provider (rq_snapshot rq)
      (recovery_level (sh_reason_code (rq_snapshot rq))) (rq_now rq) (set_circuit (rq_sensor rq) circuit e1)) as [-> _].
    fold (rq_sensor rq). rewrite attempts_circuit. destruct (decide (id = rq_sensor rq)) as [->|Hne]; [by rewrite He1|].
    destruct (He1' id) as [|[? _]]; done.
Qed.
End Consult.

(** ** The budget over a run *)

Section Budget.
Context (policies : string -> SensorHealthPolicy) (id : string).

Notation after := (engine_after policies).
Notation window := (hp_restart_budget_window_seconds (policies id)).
Notation budget := (hp_restart_budget_count (policies id)).

(** When the provider of sensor [id] was consulted along a run. *)
Fixpoint consultations (rqs : list Request) (e : RecoveryEngine) : list float :=
  match rqs with
  | [] => []
  | rq :: rqs =>
      (if bool_decide (rq_sensor rq = id) && consults policies rq e then [rq_now rq] else [])
      ++ consultations rqs (serve policies rq e).2
  end.

(** A time that some request of the run found older than the window. *)
Definition expired_by (rqs : list Request) (t : float) : Prop :=
  exists rq, rq ∈ rqs /\ rq_sensor rq = id /\ fgtb (fsub (rq_now rq) t) (fexact window) = true.

Lemma consultations_snoc rqs rq e :
  consultations (rqs ++ [rq]) e = consultations rqs e
    ++ (if bool_decide (rq_sensor rq = id) && consults policies rq (after rqs e) then [rq_now rq] else []).
Proof.
  revert e. induction rqs as [|r rqs IH]; intros e; simpl; [by rewrite app_nil_r|]. by rewrite IH, <- app_assoc.
Qed.

Lemma expired_mono rqs rq t : expired_by rqs t -> expired_by (rqs ++ [rq]) t.
Proof. intros (r & Hr & H). exists r. split; [set_solver|done]. Qed.

(** What the pruning drops is expired. *)
Lemma kept_suffix rqs rq e : rq_sensor rq = id ->
  exists dropped, attempts_of id e = dropped ++ kept policies rq e /\ Forall (expired_by (rqs ++ [rq])) dropped.
Proof.
  intros Hid. unfold kept. rewrite Hid.
  destruct (drop_while_suffix (fun t => fgtb (fsub (rq_now rq) t) (fexact window)) (attempts_of id e)) as (pre & Hp & HF).
  exists pre. split; [done|]. eapply Forall_impl; [exact HF|]. intros t Ht. exists rq.
  split; [set_solver|done].
Qed.

(** The recorded attempts are the latest consultations; the forgotten ones are
    expired. *)
Lemma attempts_are_latest rqs :
  exists old, consultations rqs new_engine = old ++ attempts_of id (after rqs new_engine)
    /\ Forall (expired_by rqs) old.
Proof.
  induction rqs as [|rq rqs IH] using rev_ind; [by exists []|].
  destruct IH as (old & Hlog & Hold). rewrite consultations_snoc.
  unfold engine_after. rewrite foldl_app. simpl. fold (after rqs new_engine). set (e := after rqs new_engine) in *.
  assert (Hold' : Forall (expired_by (rqs ++ [rq])) old) by (eapply Forall_impl; [exact Hold|]; intros t; apply expired_mono).
  destruct (serve_cases policies rq e) as [(_ & _ & Hc & Hatt)|(Hc & _ & Hatt)]; unfold serve; rewrite Hc.
  - specialize (Hatt (rq_provider rq) id). rewrite Hatt. rewrite andb_true_r. case_bool_decide as Hid.
    + destruct (kept_suffix rqs rq e Hid) as (dropped & Hd & HF). exists (old ++ dropped).
      rewrite decide_True by done. rewrite Hlog, Hd, <- !app_assoc. split; [done|]. by apply Forall_app.
    + rewrite decide_False by congruence. exists old. by rewrite app_nil_r.
  - rewrite andb_false_r, app_nil_r. destruct (Hatt (rq_provider rq) id) as [->|[Hid ->]]; [by exists old|].
    destruct (kept_suffix rqs rq e (eq_sym Hid)) as (dropped & Hd & HF). exists (old ++ dropped).
    rewrite Hlog, Hd, <- app_assoc. split; [done|]. by apply Forall_app.
Qed.
End Budget.

(** C40. Recovery is bounded: in any run of recovery requests, over any sensors and
    providers, a provider is consulted only for a reason that may be repaired that
    way - never for one that needs external remediation, and without an operator only
    for one with an automatic rung - and only if, of the consultations for that sensor
    so far, the one [restart_budget_count] places back has aged out of the budget
    window; any other request leaves every provider alone. *)
Theorem recovery_stays_in_budget (policies : string -> SensorHealthPolicy) (rqs : list Request) (rq : Request) :
  let id := rq_sensor rq in
  let e := engine_after policies rqs new_engine in
  let log := consultations policies id rqs new_engine in
  let budget := hp_restart_budget_count (policies id) in
  (consults policies rq e = true ->
     eligible rq
     /\ (budget <= zlen log -> exists t, log !! Z.to_nat (zlen log - budget) = Some t
           /\ expired_by policies id (rqs ++ [rq]) t))
  /\ (consults policies rq e = false -> forall p q, serve_with policies p rq e = serve_with policies q rq e).
Proof.
  intros id e log budget. destruct (serve_cases policies rq e) as [(Helig & Hlt & Hc & _)|(Hc & Hsame & _)].
  - split; [|congruence]. intros _. split; [done|]. intros Hlen.
    destruct (attempts_are_latest policies id rqs) as (old & Hlog & Hold). fold e log in Hlog.
    destruct (kept_suffix policies id rqs rq e eq_refl) as (dropped & Hd & HF).
    set (k := kept policies rq e) in *. fold id budget in Hlt.
    rewrite Hd, app_assoc in Hlog.
    assert (HF' : Forall (expired_by policies id (rqs ++ [rq])) (old ++ dropped)).
    { apply Forall_app. split; [|done]. eapply Forall_impl; [exact Hold|]. intros t. apply expired_mono. }
    assert (Hi : (Z.to_nat (zlen log - budget) < length (old ++ dropped))%nat).
    { rewrite Hlog in *. unfold zlen in *. rewrite (length_app (old ++ dropped)) in *. pose proof (zlen_nonneg k).
      unfold zlen in *. lia. }
    destruct (lookup_lt_is_Some_2 _ _ Hi) as [t Ht]. exists t.
    remember (Z.to_nat (zlen log - budget)) as n eqn:Hn. clear Hn. split.
    + rewrite Hlog. by rewrite lookup_app_l.
    + rewrite Forall_forall in HF'. apply HF'. by eapply list_elem_of_lookup_2.
  - split; [congruence|done].
Qed.

(** *** A budget of three per five minutes *)

Definition stale_snapshot : SensorHealthSnapshot :=
  replace_assessment S_STALE 50 R_HEARTBEAT_STALE "stale" {| local_us := 0; utc_off := Some 0 |}
    (dimensions_of (new_snapshot "system_monitor" {| local_us := 0; utc_off := Some 0 |}))
    (new_snapshot "system_monitor" {| local_us := 0; utc_off := Some 0 |}).

Definition recovered : RecoveryResult := {|
  rx_attempted := true; rx_succeeded := true; rx_action := A_REQUEST_WATCHDOG; rx_detail := "restarted";
  rx_requires_operator := false; rx_verification_required := true |}.

Definition request_at (t : Z) : Request := {|
  rq_snapshot := stale_snapshot; rq_manual := false; rq_now := float_of_Z t; rq_provider := fun _ => inl recovered |}.

(** The fourth request in the window is refused, one after it is served. *)
Lemma recovery_stays_in_budget_witness :
  let rqs := request_at <$> [1000; 1100; 1200] in
  let e := engine_after policy_for rqs new_engine in
  consults policy_for (request_at 1250) e = false /\ consults policy_for (request_at 1301) e = true
  /\ exists t, consultations policy_for "system_monitor" rqs new_engine !! 0%nat = Some t
       /\ expired_by policy_for "system_monitor" (rqs ++ [request_at 1301]) t.
Proof.
  split; [by vm_compute|]. split; [by vm_compute|].
  destruct (proj1 (recovery_stays_in_budget policy_for (request_at <$> [1000; 1100; 1200]) (request_at 1301)))
    as [_ Hlog]; [by vm_compute|]. apply Hlog. by vm_compute.
Defined.
