(* ===== verification/HealthFacts.v ===== *)
(** What the health subsystem promises: no health without proof, no flapping, and
    bounded automatic recovery. *)

From S2P Require Import Prelude PyStr PyFloat PyDict PyJson PyTime HealthModels HealthEval HealthReport.
From S2P Require Import HealthRecovery.

(** ** Evaluation *)

Lemma issues_app l k : issues (l ++ k) = issues l ++ issues k.
Proof. apply omap_app. Qed.

Lemma worst_bound i l : Forall (fun x => is_priority x <= is_priority (worst i l)) (i :: l).
Proof.
  unfold worst. revert i. induction l as [|x l IH]; intros i; simpl; [by constructor|].
  specialize (IH (more_urgent i x)). apply Forall_cons in IH as [Hb Hl].
  unfold more_urgent in *. destruct (is_priority i <? is_priority x) eqn:Hlt; b2p.
  - constructor; [lia|]. by constructor.
  - constructor; [done|]. constructor; [lia|done].
Qed.

Lemma worst_in i l : worst i l ∈ i :: l.
Proof.
  unfold worst. revert i. induction l as [|x l IH]; intros i; simpl; [constructor|].
  specialize (IH (more_urgent i x)). unfold more_urgent in *.
  destruct (_ <? _); set_solver.
Qed.

(** An issue that a healthy verdict tolerates: the idle note. *)
Definition quiet (l : list action) : Prop := Forall (fun i => is_priority i <= 10) (issues l).

Lemma quiet_app l k : quiet (l ++ k) <-> quiet l /\ quiet k.
Proof. unfold quiet. by rewrite issues_app, Forall_app. Qed.

Lemma quiet_if (c : bool) p st code msg f (other : list action) : 10 < p ->
  quiet (if c then issue p st code msg f else other) <-> c = false /\ quiet other.
Proof.
  intros Hp. unfold quiet. destruct c; simpl; [|tauto]. rewrite Forall_cons. simpl.
  split; [intros [? _]; lia|by intros [? _]].
Qed.

Lemma quiet_nil : quiet [].
Proof. constructor. Qed.

Lemma mark_progress_issues s policy now : issues (mark_progress s policy now) = [].
Proof.
  assert (Hmark : forall f a limit, issues (mark_age f a limit) = []) by (by intros f [a|] limit).
  unfold mark_progress. by rewrite !issues_app, !Hmark.
Qed.

Section Healthy.
Context (s : SensorHealthSnapshot) (policy : SensorHealthPolicy) (now : datetime) (duplicated : bool).

(** The idle note is the only issue of a healthy state, and the least urgent one. *)
Definition idle_note (i : Issue) : Prop := is_priority i = 10 /\ is_healthy (is_state i) = true.
Definition grave_issue (i : Issue) : Prop := 10 < is_priority i /\ is_healthy (is_state i) = false.

Lemma issue_kinds i : i ∈ issues (all_checks s policy now duplicated) -> idle_note i \/ grave_issue i.
Proof.
  unfold all_checks. rewrite !issues_app, !elem_of_app. intros Hi.
  assert (Hcase : forall (c : bool) p st code msg f other, 10 < p -> is_healthy st = false ->
    (i ∈ issues other -> idle_note i \/ grave_issue i) ->
    i ∈ issues (if c then issue p st code msg f else other) -> idle_note i \/ grave_issue i).
  { intros c p st code msg f other Hp Hst Hother. destruct c; [|done]. simpl.
    rewrite list_elem_of_singleton. intros ->. by right. }
  assert (Hnil : i ∈ issues [] -> idle_note i \/ grave_issue i) by (intros H; inversion H).
  repeat match type of Hi with _ \/ _ => destruct Hi as [Hi|Hi] end; revert Hi.
  - unfold check_process. by repeat apply Hcase.
  - unfold check_heartbeat. by repeat apply Hcase.
  - unfold check_permission. destruct (sh_permission_state s); try done; by apply (Hcase true _ _ _ _ _ []).
  - unfold check_dependencies. by repeat apply Hcase.
  - unfold check_configuration. destruct (truthy (sh_expected_configuration_hash s)).
    + by repeat apply Hcase.
    + by destruct (truthy _).
  - unfold check_rules. apply Hcase; [done|done|]. by destruct (negb _).
  - rewrite mark_progress_issues. inversion 1.
  - unfold check_stalls. rewrite !issues_app, !elem_of_app. intros [Hi|[Hi|Hi]]; revert Hi; by repeat apply Hcase.
  - unfold check_idle. destruct (overdue _ _); [|done]. destruct (self_test_is s true).
    + simpl. rewrite list_elem_of_singleton. intros ->. by left.
    + by repeat apply Hcase.
  - unfold check_queue. by repeat apply Hcase.
  - unfold check_loss. rewrite !issues_app, !elem_of_app. intros [Hi|Hi]; revert Hi; by repeat apply Hcase.
  - unfold check_resources. rewrite !issues_app, !elem_of_app. intros [Hi|[Hi|[Hi|Hi]]]; revert Hi.
    + by repeat apply Hcase.
    + by repeat apply Hcase.
    + destruct (rm_descriptor_limit _) as [limit|]; [|done]. destruct (rm_open_descriptors _); [|done].
      destruct (limit =? 0); [done|]. by repeat apply Hcase.
    + destruct (rm_rss_growth_bytes _); [|done]. by repeat apply Hcase.
  - unfold check_lifecycle. rewrite !issues_app, !elem_of_app. intros [Hi|[Hi|[Hi|Hi]]]; revert Hi; by repeat apply Hcase.
Qed.

(** A verdict is healthy when no issue is above the idle note and, without any issue, the
    evidence is there. *)
Lemma healthy_quiet :
  let reasons := reasons_of s policy now duplicated in
  is_healthy (is_state (worst (hd (no_issue s) reasons) reasons)) = true <->
  quiet (all_checks s policy now duplicated)
  /\ (issues (all_checks s policy now duplicated) = [] -> evidence_present s = true).
Proof.
  intros reasons. unfold reasons, reasons_of, quiet. pose proof issue_kinds as Hissue.
  destruct (issues (all_checks s policy now duplicated)) as [|i l]; simpl hd.
  - unfold worst, more_urgent, no_issue. cbn. destruct (evidence_present s); cbn; [by split|].
    split; [done|by intros [_ H]; specialize (H eq_refl)].
  - assert (Hw : worst i (i :: l) ∈ i :: l).
    { pose proof (worst_in i (i :: l)) as H. set_solver. }
    pose proof (worst_bound i (i :: l)) as Hb. apply Forall_cons in Hb as [_ Hb].
    destruct (Hissue _ Hw) as [[Hp Hh]|[Hp Hh]].
    + rewrite Hp in Hb. split; [by split|done].
    + split; [by rewrite Hh|]. intros [Hq _]. rewrite Forall_forall in Hq. specialize (Hq _ Hw). lia.
Qed.
End Healthy.

Lemma quiet_required s states p st code msg f (rest : list action) : 10 < p ->
  quiet (if negb (zlen (required_in s states) =? 0) then issue p st code msg f else rest) <->
  quiet rest /\ forall d, d ∈ sh_dependencies s -> sd_required d = true -> sd_state d ∉ states.
Proof.
  intros Hp. rewrite quiet_if, negb_false_iff, Z.eqb_eq by done. split; intros [H1 H2].
  - split; [done|]. intros d Hd Hreq Hst. assert (Hin : d ∈ required_in s states) by (by apply list_elem_of_filter).
    destruct (required_in s states); [inversion Hin|]. rewrite zlen_cons in H1. pose proof (zlen_nonneg l). lia.
  - split; [|done]. destruct (required_in s states) as [|d l] eqn:Hl; [done|].
    assert (Hin : d ∈ required_in s states) by (rewrite Hl; by left). apply list_elem_of_filter in Hin as [[Hreq Hst] Hd].
    by destruct (H2 d Hd Hreq).
Qed.

Lemma quiet_when (c : bool) p st code msg f : 10 < p -> quiet (if c then issue p st code msg f else []) <-> c = false.
Proof. intros Hp. rewrite quiet_if by done. split; [by intros []|]. intros Hc. split; [done|apply quiet_nil]. Qed.

(** Everything a healthy sensor proves. *)
Record proven (s : SensorHealthSnapshot) (policy : SensorHealthPolicy) (now : datetime) : Prop := {
  pv_process : sh_process_alive s = true /\ sh_initialized s = true;
  pv_heartbeat : overdue (age (sh_last_process_heartbeat s) now) (hp_heartbeat_timeout policy) = false;
  pv_permission : sh_permission_state s ∉ [M_DENIED; M_REVOKED; M_USER_ACTION_REQUIRED];
  pv_dependencies : forall d, d ∈ sh_dependencies s -> sd_required d = true -> sd_state d ∈ [D_HEALTHY; D_NOT_APPLICABLE];
  pv_configuration : sh_expected_configuration_hash s <> "" -> sh_configuration_hash s = sh_expected_configuration_hash s;
  pv_rules : rules_incomplete (sh_rules s) = false;
  pv_processing : 0 < sh_queue_depth s -> overdue (processing_age s now) (hp_processing_stall_timeout policy) = false;
  pv_delivery : meta_flag s "delivery_required" = true -> sh_events_delivered_total s < sh_events_processed_total s ->
    overdue (delivery_age s now) (hp_delivery_stall_timeout policy) = false;
  pv_persistence : meta_flag s "persistence_required" = true -> sh_events_persisted_total s < sh_events_processed_total s ->
    overdue (persistence_age s now) (hp_persistence_stall_timeout policy) = false;
  pv_telemetry : overdue (collection_age s now) (hp_maximum_expected_idle_time policy) = true -> self_test_is s true = true;
  pv_queue : fgeb (queue_utilization s) (hp_critical_queue_utilization policy) = false
    /\ fgeb (queue_utilization s) (hp_degraded_queue_utilization policy)
       && fgeb (sh_backpressure_duration_seconds s) (hp_backpressure_sustain_seconds policy) = false
    /\ fgeb (queue_utilization s) (hp_elevated_queue_utilization policy) = false;
  pv_loss : sh_events_dropped_total s <> 0 -> above (drop_rate s) (hp_max_drop_rate policy) = false;
  pv_latency : above (sh_processing_latency_ms s) (hp_max_processing_latency_ms policy) = false;
  pv_database : above (rm_database_latency_ms (sh_resources s)) (hp_max_database_latency_ms policy) = false;
  pv_disk : disk_pressure policy (sh_resources s) = false;
  pv_descriptors : forall limit opened, rm_descriptor_limit (sh_resources s) = Some limit ->
    rm_open_descriptors (sh_resources s) = Some opened -> limit <> 0 ->
    fgeb (int_div opened limit) (hp_descriptor_critical_ratio policy) = false
    /\ fgeb (int_div opened limit) (hp_descriptor_degraded_ratio policy) = false;
  pv_memory : forall growth, rm_rss_growth_bytes (sh_resources s) = Some growth -> growth <= 256 * 1024 * 1024;
  pv_restarts : sh_restart_count s <= hp_restart_budget_count policy;
  pv_single : duplicates s = Ok false;
  pv_self_test : self_test_is s false = false;
  pv_fallback : sh_fallback_mode s = ""
}.

Section Proven.
Context (s : SensorHealthSnapshot) (policy : SensorHealthPolicy) (now : datetime).

Lemma quiet_process : quiet (check_process s) <-> sh_process_alive s = true /\ sh_initialized s = true.
Proof.
  unfold check_process. rewrite quiet_if, quiet_when, !negb_false_iff by lia. done.
Qed.

Lemma quiet_permission : quiet (check_permission s) <->
  sh_permission_state s ∉ [M_DENIED; M_REVOKED; M_USER_ACTION_REQUIRED].
Proof.
  rewrite !not_elem_of_cons. unfold check_permission, quiet.
  destruct (sh_permission_state s); cbn; rewrite ?Forall_cons; cbn; (split; [|]); intros H; destruct_and?;
    try lia; try constructor; try done; split_and?; try done; apply not_elem_of_nil.
Qed.

Lemma quiet_dependencies : quiet (check_dependencies s) <->
  forall d, d ∈ sh_dependencies s -> sd_required d = true -> sd_state d ∈ [D_HEALTHY; D_NOT_APPLICABLE].
Proof.
  unfold check_dependencies. cbv zeta. rewrite !quiet_required by lia. split.
  - intros [[_ Hd] Hf] d Hin Hreq. specialize (Hf d Hin Hreq). specialize (Hd d Hin Hreq). destruct (sd_state d); set_solver.
  - intros Hok. split_and!; [apply quiet_nil|..]; intros d Hin Hreq; specialize (Hok d Hin Hreq); destruct (sd_state d); set_solver.
Qed.

Lemma quiet_configuration : quiet (check_configuration s) <->
  (sh_expected_configuration_hash s <> "" -> sh_configuration_hash s = sh_expected_configuration_hash s).
Proof.
  unfold check_configuration, truthy. destruct (String.eqb_spec (sh_expected_configuration_hash s) "") as [He|He]; cbn [negb].
  - split; [done|]. intros _. destruct (negb _); [by constructor|apply quiet_nil].
  - rewrite !quiet_if, !negb_false_iff, String.eqb_eq by lia. split.
    + by intros (_ & H & _).
    + intros H. specialize (H He). split_and!; [|done|by constructor]. apply negb_true_iff, String.eqb_neq. congruence.
Qed.

Lemma quiet_rules : quiet (check_rules s) <-> rules_incomplete (sh_rules s) = false.
Proof.
  unfold check_rules. rewrite quiet_if by lia. split; [by intros []|]. intros H. split; [done|]. destruct (negb _); [by constructor|apply quiet_nil].
Qed.

Lemma quiet_stalls : quiet (check_stalls s policy now) <->
  (0 < sh_queue_depth s -> overdue (processing_age s now) (hp_processing_stall_timeout policy) = false)
  /\ (meta_flag s "delivery_required" = true -> sh_events_delivered_total s < sh_events_processed_total s ->
      overdue (delivery_age s now) (hp_delivery_stall_timeout policy) = false)
  /\ (meta_flag s "persistence_required" = true -> sh_events_persisted_total s < sh_events_processed_total s ->
      overdue (persistence_age s now) (hp_persistence_stall_timeout policy) = false).
Proof.
  unfold check_stalls. rewrite !quiet_app, !quiet_when by lia.
  assert (Htwo : forall (b c : bool) P, (b = true <-> P) -> b && c = false <-> (P -> c = false)).
  { intros b c P HP. rewrite <- HP. destruct b; cbn; split; intros H; try done; by apply H. }
  assert (Hthree : forall (a b c : bool) P, (b = true <-> P) -> a && b && c = false <-> (a = true -> P -> c = false)).
  { intros a b c P HP. rewrite <- HP. destruct a, b; cbn; split; intros H; try done; by apply H. }
  by rewrite (Htwo _ _ _ (Z.ltb_lt _ _)), !(Hthree _ _ _ _ (Z.ltb_lt _ _)).
Qed.

Lemma quiet_idle : sh_initialized s = true -> quiet (check_idle s policy now) <->
  (overdue (collection_age s now) (hp_maximum_expected_idle_time policy) = true -> self_test_is s true = true).
Proof.
  intros Hi. unfold check_idle. rewrite Hi. destruct (overdue _ _); [|split; [done|intros _; apply quiet_nil]].
  destruct (self_test_is s true); [split; [done|by repeat constructor]|].
  split; [|intros H; by specialize (H eq_refl)]. unfold quiet. cbn. rewrite Forall_cons. cbn. intros [H _]. lia.
Qed.

Lemma quiet_queue : quiet (check_queue s policy) <->
  fgeb (queue_utilization s) (hp_critical_queue_utilization policy) = false
  /\ fgeb (queue_utilization s) (hp_degraded_queue_utilization policy)
     && fgeb (sh_backpressure_duration_seconds s) (hp_backpressure_sustain_seconds policy) = false
  /\ fgeb (queue_utilization s) (hp_elevated_queue_utilization policy) = false.
Proof. unfold check_queue. cbv zeta. by rewrite 2!quiet_if, quiet_when by lia. Qed.

Lemma quiet_loss : quiet (check_loss s policy) <->
  (sh_events_dropped_total s <> 0 -> above (drop_rate s) (hp_max_drop_rate policy) = false)
  /\ above (sh_processing_latency_ms s) (hp_max_processing_latency_ms policy) = false.
Proof.
  unfold check_loss. rewrite quiet_app, !quiet_when by lia. rewrite <- Z.eqb_neq. destruct (_ =? 0); cbn; [|].
  - split; [by intros [_ H]|by intros [_ H]].
  - split; intros [H1 H2]; (split; [|done]); [done|by apply H1].
Qed.

Lemma quiet_resources : quiet (check_resources s policy) <->
  above (rm_database_latency_ms (sh_resources s)) (hp_max_database_latency_ms policy) = false
  /\ disk_pressure policy (sh_resources s) = false
  /\ (forall limit opened, rm_descriptor_limit (sh_resources s) = Some limit ->
      rm_open_descriptors (sh_resources s) = Some opened -> limit <> 0 ->
      fgeb (int_div opened limit) (hp_descriptor_critical_ratio policy) = false
      /\ fgeb (int_div opened limit) (hp_descriptor_degraded_ratio policy) = false)
  /\ (forall growth, rm_rss_growth_bytes (sh_resources s) = Some growth -> growth <= 256 * 1024 * 1024).
Proof.
  unfold check_resources. cbv zeta. rewrite !quiet_app, !quiet_when by lia.
  assert (Hfour : forall A B C C' D D' : Prop, (C <-> C') -> (D <-> D') -> (A /\ B /\ C /\ D) <-> (A /\ B /\ C' /\ D')) by tauto.
  apply Hfour.
  - destruct (rm_descriptor_limit _) as [limit|]; [|by split; [|intros; apply quiet_nil]].
    destruct (rm_open_descriptors _) as [opened|]; [|by split; [|intros; apply quiet_nil]].
    destruct (Z.eqb_spec limit 0) as [->|Hne]; [split; [by intros _ ? ? [= <-]|intros; apply quiet_nil]|].
    rewrite quiet_if, quiet_when by lia. split; [by intros H ? ? [= <-] [= <-] _|]. intros H. by apply H.
  - destruct (rm_rss_growth_bytes _) as [growth|]; [|by split; [|intros; apply quiet_nil]].
    rewrite quiet_when, Z.ltb_ge by lia. split; [by intros H ? [= <-]|]. intros H. by apply H.
Qed.

Lemma quiet_lifecycle duplicated : quiet (check_lifecycle s policy duplicated) <->
  sh_restart_count s <= hp_restart_budget_count policy /\ duplicated = false /\ self_test_is s false = false
  /\ sh_fallback_mode s = "".
Proof.
  unfold check_lifecycle, truthy. by rewrite !quiet_app, !quiet_when, Z.ltb_ge, negb_false_iff, String.eqb_eq by lia.
Qed.

Lemma quiet_proven duplicated : duplicates s = Ok duplicated ->
  quiet (all_checks s policy now duplicated) <-> proven s policy now.
Proof.
  intros Hdup. unfold all_checks.
  rewrite !quiet_app, quiet_process, quiet_permission, quiet_dependencies, quiet_configuration, quiet_rules, quiet_stalls,
    quiet_queue, quiet_loss, quiet_resources, quiet_lifecycle.
  assert (Hprogress : quiet (mark_progress s policy now)) by (unfold quiet; rewrite mark_progress_issues; constructor).
  unfold check_heartbeat. rewrite quiet_when by lia. split.
  - intros ([Ha Hi] & Hbeat & Hperm & Hdep & Hconf & Hrules & _ & (? & ? & ?) & Hidle & Hqueue & (? & ?) & (? & ? & ? & ?) & ? & -> & ? & ?).
    rewrite quiet_idle in Hidle by done. rewrite Ha in Hbeat. by split.
  - intros [[Ha Hi] ????????? (? & ? & ?) ??????????]. rewrite quiet_idle, Ha by done. split_and!; try done. congruence.
Qed.

(** A proven sensor has evidence: recent telemetry, or a self-test. *)
Lemma proven_evidence : proven s policy now -> evidence_present s = true.
Proof.
  intros [[_ Hi] Hbeat ??????? Htel ???????????]. unfold evidence_present. rewrite Hi.
  destruct (sh_last_process_heartbeat s); [|done]. cbn. unfold collection_age, self_test_is in Htel.
  destruct (sh_last_collection_activity s); [done|]. specialize (Htel eq_refl). by destruct (sh_last_self_test s).
Qed.
End Proven.

(** C38. No health without proof, and no proof without health: the evaluator calls a sensor
    healthy (or healthy and idle) exactly when its process is alive and initialised with a
    fresh heartbeat; its permission is not denied, revoked or waiting for the user; every
    required dependency is healthy; the configuration is the expected one, if one is
    expected; the rules are complete; processing, and delivery and persistence where they
    are required, do not stall while events wait for them; the queue, event loss, latency,
    database, disk, descriptors and memory are within the policy; restarts are within
    budget, it runs once, no self-test failed and no fallback is active; and either
    telemetry is recent or a self-test passed. In every state the score is between zero and
    the ceiling of the state. *)
Theorem healthy_means_proven (s r : SensorHealthSnapshot) (policy : SensorHealthPolicy) (now : datetime) :
  evaluate s policy now = Ok r ->
  0 <= sh_health_score r <= state_rank (sh_state r)
  /\ (is_healthy (sh_state r) = true <-> proven s policy now).
Proof.
  unfold evaluate. rewrite res_bind_unit_ok, res_bind_ok. intros (_ & duplicated & Hdup & [= <-]). cbn. split.
  - assert (Hrank : forall st, 0 <= state_rank st) by (by destruct st).
    unfold score. match goal with |- context [worst ?a ?b] => specialize (Hrank (is_state (worst a b))) end. lia.
  - rewrite healthy_quiet, quiet_proven by done. split; [by intros []|]. intros Hp. split; [done|]. intros _. by eapply proven_evidence.
Qed.

Definition sample_time (n : Z) : datetime := {| local_us := n * 1000000; utc_off := Some 0 |}.

(** A sensor that reports a fresh, complete telemetry path. *)
Definition sample_sensor : SensorHealthSnapshot := {|
  sh_sensor_id := "system_monitor"; sh_sensor_version := "unknown"; sh_instance_uuid := ""; sh_pid := Some 41;
  sh_process_alive := true; sh_initialized := true; sh_state := S_UNKNOWN; sh_health_score := 0;
  sh_reason_code := R_NONE; sh_reason := ""; sh_process_health := S_UNKNOWN; sh_collection_health := S_UNKNOWN;
  sh_processing_health := S_UNKNOWN; sh_delivery_health := S_UNKNOWN; sh_storage_health := S_UNKNOWN;
  sh_dependency_health := S_UNKNOWN; sh_permission_health := S_UNKNOWN; sh_configuration_health := S_UNKNOWN;
  sh_rule_health := S_UNKNOWN; sh_last_process_heartbeat := Some (sample_time 995);
  sh_last_collection_activity := Some (sample_time 990); sh_last_processing_activity := Some (sample_time 990);
  sh_last_delivery_activity := Some (sample_time 991); sh_last_persistence_activity := Some (sample_time 991);
  sh_events_received_total := 20; sh_events_processed_total := 20; sh_events_delivered_total := 20;
  sh_events_persisted_total := 20; sh_events_ignored_total := 0; sh_events_filtered_total := 0;
  sh_events_dropped_total := 0; sh_events_failed_total := 0; sh_events_duplicate_total := 0;
  sh_events_rejected_total := 0; sh_processing_latency_ms := Some (fexact 12); sh_queue_depth := 3;
  sh_queue_capacity := 100; sh_oldest_event_age_seconds := None; sh_ingestion_rate := None;
  sh_processing_rate := None; sh_drop_rate := None; sh_peak_queue_depth := 5; sh_average_queue_depth := fexact 2;
  sh_backpressure_duration_seconds := fexact 0; sh_error_count := 0; sh_consecutive_error_count := 0;
  sh_restart_count := 1; sh_worker_sequence := 9; sh_permission_state := M_GRANTED;
  sh_configuration_hash := "c0ffee"; sh_expected_configuration_hash := "c0ffee";
  sh_dependencies := [{| sd_dependency_id := "database"; sd_required := true; sd_state := D_HEALTHY; sd_reason := "";
                         sd_latency_ms := None; sd_last_checked := None; sd_affected_capabilities := [] |}];
  sh_capabilities := []; sh_rules := default_rules; sh_resources := default_resources; sh_last_self_test := None;
  sh_fallback_mode := ""; sh_lost_capabilities := []; sh_retained_capabilities := [];
  sh_operator_action_required := false; sh_remediation := ""; sh_sampled_at := sample_time 996;
  sh_monotonic_sample := fexact 0; sh_metadata := [] |}.

Definition sample_verdict : SensorHealthSnapshot :=
  match evaluate sample_sensor DEFAULT_POLICY (sample_time 1000) with Ok r => r | Raise _ => sample_sensor end.

Lemma healthy_means_proven_witness :
  evaluate sample_sensor DEFAULT_POLICY (sample_time 1000) = Ok sample_verdict
  /\ sh_state sample_verdict = S_HEALTHY /\ sh_health_score sample_verdict = 100
  /\ proven sample_sensor DEFAULT_POLICY (sample_time 1000).
Proof.
  split; [by vm_compute|]. split; [by vm_compute|]. split; [by vm_compute|].
  apply (healthy_means_proven sample_sensor sample_verdict DEFAULT_POLICY (sample_time 1000)); by vm_compute.
Defined.

(** ** Hysteresis *)

(** The count of a sensor is covered by its latest verdicts, all the candidate. *)
Definition counted (trace : list sample) (h : Hysteresis) : Prop :=
  forall id c, dget id (hy_candidate h) = Some c ->
    exists n pre, dget id (hy_count h) = Some (Z.of_nat n) /\ states_of id trace = pre ++ replicate n c.

Lemma states_of_snoc id trace s p policy :
  states_of id (trace ++ [(s, p, policy)])
  = states_of id trace ++ (if decide (sh_sensor_id s = id) then [sh_state s] else []).
Proof.
  unfold states_of. rewrite filter_app, fmap_app. f_equal. rewrite filter_cons. simpl.
  by destruct (decide (sh_sensor_id s = id)).
Qed.

Lemma remember_counted trace h s p policy n pre :
  counted trace h ->
  states_of (sh_sensor_id s) (trace ++ [(s, p, policy)]) = pre ++ replicate n (sh_state s) ->
  counted (trace ++ [(s, p, policy)]) (remember (sh_sensor_id s) (sh_state s) (Z.of_nat n) h).
Proof.
  intros Hc Hn id c. unfold remember. simpl. destruct (decide (sh_sensor_id s = id)) as [<-|Hne].
  - rewrite !dget_dset_eq. intros [= <-]. by exists n, pre.
  - rewrite !dget_dset_ne by done. intros Hg. destruct (Hc id c Hg) as (m & pre' & Hm & Hs).
    exists m, pre'. split; [done|]. rewrite states_of_snoc, decide_False by done. by rewrite app_nil_r.
Qed.

Lemma one_counted trace s p policy :
  states_of (sh_sensor_id s) (trace ++ [(s, p, policy)]) = states_of (sh_sensor_id s) trace ++ replicate 1 (sh_state s).
Proof. by rewrite states_of_snoc, decide_True. Qed.

(** The next count is covered too. *)
Lemma next_count_covered trace h s p policy : counted trace h ->
  exists n pre, next_count (sh_sensor_id s) (sh_state s) h = Z.of_nat n
    /\ states_of (sh_sensor_id s) (trace ++ [(s, p, policy)]) = pre ++ replicate n (sh_state s).
Proof.
  intros Hc. unfold next_count. case_bool_decide as Hcand.
  - destruct (Hc _ _ Hcand) as (n & pre & Hn & Hs). exists (S n), pre. unfold dget_default. rewrite Hn. split; [simpl; lia|].
    by rewrite one_counted, Hs, <- app_assoc, <- replicate_add, Nat.add_comm.
  - exists 1%nat, (states_of (sh_sensor_id s) trace). split; [done|]. apply one_counted.
Qed.

Lemma apply_counted trace h s p policy : counted trace h ->
  counted (trace ++ [(s, p, policy)]) (apply_hysteresis s p policy h).2.
Proof.
  intros Hc. unfold apply_hysteresis. destruct p as [p|]; [|by eapply (remember_counted _ _ _ _ _ 1), one_counted].
  case_bool_decide; [by eapply (remember_counted _ _ _ _ _ 1), one_counted|].
  destruct (next_count_covered trace h s (Some p) policy Hc) as (n & pre & -> & Hs).
  destruct (_ && _); by eapply remember_counted.
Qed.

Lemma run_counted trace : counted trace (run_hysteresis trace new_hysteresis).
Proof.
  induction trace as [|[[s p] policy] trace IH] using rev_ind; [by intros id c|].
  unfold run_hysteresis in *. rewrite foldl_app. simpl. by apply apply_counted.
Qed.

(** C39. The tracker does not flap: after any run over any sensors, a sensor's
    published state moves away from its previous one only for an immediate reason,
    or when its latest evaluations - as many in a row as the policy requires for a
    recovery, or for a failure - all said the new state; short of that, a recovering
    sensor that looks healthy is published as stabilising. *)
Theorem transitions_need_sustained_evidence (trace : list sample) (s previous out : SensorHealthSnapshot)
    (policy : SensorHealthPolicy) (h' : Hysteresis) :
  apply_hysteresis s (Some previous) policy (run_hysteresis trace new_hysteresis) = (Ok out, h') ->
  sh_state out <> sh_state previous ->
  (out = s /\ sh_reason_code s ∈ IMMEDIATE_REASON_CODES)
  \/ (out = s /\ exists earlier, states_of (sh_sensor_id s) (trace ++ [(s, Some previous, policy)])
        = earlier ++ replicate (Z.to_nat (required_count (sh_state s) policy)) (sh_state s))
  \/ (sh_state out = S_STABILIZING /\ sh_state previous ∈ [S_RECOVERING; S_STABILIZING]
      /\ is_healthy (sh_state s) = true).
Proof.
  intros Happ Hne. unfold apply_hysteresis in Happ.
  case_bool_decide as Himm; [injection Happ as <- _; by left|].
  destruct (next_count_covered trace (run_hysteresis trace new_hysteresis) s (Some previous) policy
              (run_counted trace)) as (n & pre & Hn & Hs).
  rewrite Hn in Happ. destruct (_ && _) eqn:Hhold; injection Happ as <- _.
  - right; right. unfold hold in *. simpl in *.
    destruct (state_in (sh_state previous) _ && is_healthy (sh_state s)) eqn:Hst; [|done].
    apply andb_true_iff in Hst as [Hst Hh]. unfold state_in in Hst. apply bool_decide_eq_true in Hst. done.
  - right; left. split; [done|]. apply andb_false_iff in Hhold as [Hhold|Hcount].
    { b2p. congruence. }
    b2p. set (k := Z.to_nat (required_count (sh_state s) policy)).
    exists (pre ++ replicate (n - k) (sh_state s)). rewrite Hs, <- app_assoc, <- replicate_add. do 2 f_equal. lia.
Qed.

Definition degraded_sample : SensorHealthSnapshot :=
  replace_assessment S_DEGRADED 60 R_EVENT_LOSS "" (sample_time 1000) (dimensions_of sample_sensor) sample_sensor.

(** Four healthy verdicts in a row after a degraded one. *)
Definition recovering_trace : list sample :=
  replicate 4 (sample_verdict, Some degraded_sample, DEFAULT_POLICY).

Lemma transitions_need_sustained_evidence_witness :
  let h := run_hysteresis recovering_trace new_hysteresis in
  apply_hysteresis sample_verdict (Some degraded_sample) DEFAULT_POLICY h
    = (Ok sample_verdict, remember "system_monitor" S_HEALTHY 5 h)
  /\ ((sample_verdict = sample_verdict /\ sh_reason_code sample_verdict ∈ IMMEDIATE_REASON_CODES)
      \/ (sample_verdict = sample_verdict
          /\ exists earlier, states_of "system_monitor"
               (recovering_trace ++ [(sample_verdict, Some degraded_sample, DEFAULT_POLICY)])
             = earlier ++ replicate (Z.to_nat (required_count S_HEALTHY DEFAULT_POLICY)) S_HEALTHY)
      \/ (sh_state sample_verdict = S_STABILIZING /\ sh_state degraded_sample ∈ [S_RECOVERING; S_STABILIZING]
          /\ is_healthy (sh_state sample_verdict) = true)).
Proof.
  split; [by vm_compute|].
  apply (transitions_need_sustained_evidence recovering_trace sample_verdict degraded_sample sample_verdict
           DEFAULT_POLICY (remember "system_monitor" S_HEALTHY 5 (run_hysteresis recovering_trace new_hysteresis)));
    by vm_compute.
Defined.
