(* ===== verification/TypoScoring.v ===== *)
(** Scoring of lookalike names: [anti_typosquatting/scoring.py], the typing errors
    of [anti_typosquatting/engine.py] and their weights.

    Names are ASCII: one byte per character, [casefold] is [lower]. *)

From S2P Require Import Prelude PyStr PyFloat PyDict.
From Stdlib Require Import Ascii QArith.
From Stdlib Require Import Ascii.

#[local] Open Scope Z_scope.

(** ** The edit distance *)

Section Table.
Context {A : Type} `{EqDecision A}.

Definition table : Type := list (list Z).

(** [distances[i][j]], and its assignment *)
Definition cell (t : list (list Z)) (i j : nat) : Z := default 0 (t !! i ≫= fun row => row !! j).
Definition set_cell (i j : nat) (v : Z) (t : list (list Z)) : list (list Z) := alter (fun row => <[j := v]> row) i t.

(** [s[i]] of an index in range *)
Definition same_at (l r : list A) (i j : nat) : bool :=
  match l !! i, r !! j with Some a, Some b => bool_decide (a = b) | _, _ => false end.

(** The body of the two loops. *)
Definition fill_cell (l r : list A) (row column : nat) (t : table) : table :=
  let cost := if same_at l r (row - 1) (column - 1) then 0 else 1 in
  let t := set_cell row column
    (Z.min (Z.min (cell t (row - 1) column + 1) (cell t row (column - 1) + 1))
       (cell t (row - 1) (column - 1) + cost)) t in
  if (1 <? row)%nat && (1 <? column)%nat && same_at l r (row - 1) (column - 2) && same_at l r (row - 2) (column - 1)
  then set_cell row column (Z.min (cell t row column) (cell t (row - 2) (column - 2) + 1)) t
  else t.

Definition fill_row (l r : list A) (row : nat) (t : table) : table :=
  foldl (fun t column => fill_cell l r row column t) t (seq 1 (length r)).

Definition borders (l r : list A) : table :=
  let zeros := replicate (S (length l)) (replicate (S (length r)) 0) in
  let t := foldl (fun t i => set_cell i 0 (Z.of_nat i) t) zeros (seq 0 (S (length l))) in
  foldl (fun t j => set_cell 0 j (Z.of_nat j) t) t (seq 0 (S (length r))).

(** The loops, and [distances[-1][-1]]. *)
Definition edit_distance (l r : list A) : Z :=
  let t := foldl (fun t row => fill_row l r row t) (borders l r) (seq 1 (length l)) in
  cell t (length l) (length r).
End Table.

(** [_damerau_levenshtein] *)
Definition damerau_levenshtein (left right : string) : Z :=
  edit_distance (String.list_ascii_of_string (lower left)) (String.list_ascii_of_string (lower right)).

(** ** Scores *)

Definition clamp (value : Z) : Z := Z.max 0 (Z.min 100 value).

(** [int(x)] of a finite float: towards zero *)
Definition truncate (x : float) : Z := let q := fQ x in Z.quot (Qnum q) (Zpos (Qden q)).

Record CandidateReason := {
  cn_rule_id : string;
  cn_explanation : string;
  cn_category : string;
  cn_locale : string
}.

Record ScoreBreakdown := {
  sb_total : Z;
  sb_contributions : list (string * Z)
}.

Definition SCORE_WEIGHTS : list (string * Z) := [
  ("one_edit", 25); ("omission", 28); ("repeat", 24); ("transposition", 38); ("adjacent_key", 34); ("separator", 24);
  ("phonetic", 22); ("unicode_confusable", 58); ("mixed_script", 20); ("normalization_collision", 55);
  ("service_word", 32); ("tld_confusion", 25)].

(** The [elif] chain of [score]: the first marker the rule id contains. *)
Definition weight_markers : list (string * string) := [
  ("OMISSION", "omission"); ("REPEAT", "repeat"); ("TRANSPOSE", "transposition"); ("ADJACENT", "adjacent_key");
  ("SEPARATOR", "separator"); ("PHONETIC", "phonetic"); ("UNICODE", "unicode_confusable");
  ("NORMALIZATION", "normalization_collision"); ("SERVICE_WORD", "service_word"); ("TLD", "tld_confusion")].

Definition weight_key (rule : string) : string :=
  match find_first (fun m => contains m.1 rule) weight_markers with Some m => m.2 | None => "one_edit" end.

Definition rule_weight (rule : string) : Z := dget_default 0 (weight_key rule) SCORE_WEIGHTS.

Definition human_categories : list string := ["human_typo"; "regional_keyboard"; "phonetic"; "separator_confusion"].
Definition impersonation_categories : list string :=
  ["visual_confusable"; "normalization_collision"; "combosquatting"; "tld_confusion"; "namespace_confusion"].

Record Tally := {
  ty_contributions : list (string * Z);
  ty_human : Z;
  ty_impersonation : Z
}.

Definition count_reason (t : Tally) (r : CandidateReason) : Tally :=
  let value := rule_weight (cn_rule_id r) in {|
  ty_contributions := dset (cn_rule_id r) (Z.max (dget_default 0 (cn_rule_id r) (ty_contributions t)) value)
                        (ty_contributions t);
  ty_human := ty_human t + (if one_of (cn_category r) human_categories then value else 0);
  ty_impersonation := ty_impersonation t + (if one_of (cn_category r) impersonation_categories then value else 0) |}.

Definition human_rule (rule : string) : bool :=
  existsb (fun p => startswith p rule) ["HUMAN"; "KEYBOARD"; "PHONETIC"].

(** [int(n * f)] for an int and a float literal *)
Definition scaled (n : Z) (f : float) : Z := truncate (fmul (float_of_Z n) f).

(** [score]: human, impersonation, defensive registration, investigation *)
Definition score (reasons : list CandidateReason) (exists_already : bool)
    : ScoreBreakdown * ScoreBreakdown * ScoreBreakdown * ScoreBreakdown :=
  let t := foldl count_reason {| ty_contributions := []; ty_human := 0; ty_impersonation := 0 |} reasons in
  let human := {| sb_total := clamp (ty_human t);
                  sb_contributions := filter (fun kv => human_rule kv.1 = true) (ty_contributions t) |} in
  let impersonation := {| sb_total := clamp (ty_impersonation t);
    sb_contributions := filter (fun kv => dmem kv.1 (sb_contributions human) = false) (ty_contributions t) |} in
  let both := sb_total human + sb_total impersonation in
  let defensive := {| sb_total := clamp (scaled both (flit 65 100));
                      sb_contributions := [("combined_similarity", clamp (scaled both (flit 65 100)))] |} in
  let investigation :=
    {| sb_total := clamp (scaled both (if exists_already then flit 8 10 else flit 35 100));
       sb_contributions := [("existing_name_weight", if exists_already then 80 else 35)] |} in
  (human, impersonation, defensive, investigation).

(** [round(n * f)] *)
Definition rounded (n : Z) (f : float) : Z := fround (fmul (float_of_Z n) f).

(** [_clamp(round(100 * (1 - distance / maximum_length)))] *)
Definition closeness (distance maximum_length : Z) : Z :=
  clamp (fround (fmul (float_of_Z 100) (fsub fone (int_div distance maximum_length)))).

Definition deliberate_signal (reasons : list CandidateReason) : Z :=
  let has l := existsb (fun r => one_of (cn_category r) l) reasons in
  if has ["visual_confusable"; "normalization_collision"; "namespace_confusion"] then 85
  else if has ["combosquatting"; "tld_confusion"] then 70 else 45.

Definition band_of (value : Z) : string :=
  if 80 <=? value then "critical" else if 65 <=? value then "high" else if 45 <=? value then "medium" else "low".

Definition assumption_scores (canonical candidate : string) (human impersonation : ScoreBreakdown)
    (reasons : list CandidateReason) : ScoreBreakdown * ScoreBreakdown * string :=
  let maximum_length := Z.max 1 (Z.max (slen canonical) (slen candidate)) in
  let distance := damerau_levenshtein canonical candidate in
  let closeness_value := closeness distance maximum_length in
  let deliberate := deliberate_signal reasons in
  let similarity := Z.max (sb_total human) (sb_total impersonation) in
  let value := clamp (fround (fadd (fadd (fmul (float_of_Z closeness_value) (flit 42 100))
                                     (fmul (float_of_Z similarity) (flit 38 100)))
                                (fmul (float_of_Z deliberate) (flit 20 100)))) in
  ({| sb_total := closeness_value; sb_contributions := [("damerau_levenshtein_distance", distance)] |},
   {| sb_total := value; sb_contributions := [("name_closeness", rounded closeness_value (flit 42 100));
        ("similarity_signals", rounded similarity (flit 38 100));
        ("impersonation_pattern", rounded deliberate (flit 20 100))] |},
   band_of value).

(** ** Typing errors: [_human] *)

Definition RawCandidate : Type := string * CandidateReason * string.

(** [s.partition("|")], without the separator *)
Fixpoint partition_bar (s : string) : string * string :=
  match s with
  | EmptyString => ("", "")
  | String c s' =>
      if Ascii.eqb c "|" then ("", s') else let (a, b) := partition_bar s' in (String c a, b)
  end.

(** [_rebuild] *)
Definition rebuild (token suffix kind : string) : string :=
  if String.eqb kind "domain" then token +:+ "." +:+ suffix
  else if String.eqb kind "npm" && truthy suffix then suffix +:+ "/" +:+ token
  else if String.eqb kind "maven-central" then suffix +:+ ":" +:+ token
  else if String.eqb kind "packagist" then suffix +:+ "/" +:+ token
  else if String.eqb kind "go-module"
  then let (prefix, major) := partition_bar suffix in
       prefix +:+ "/" +:+ token +:+ (if truthy major then "/" +:+ major else "")
  else token.

Section Human.
Context (token suffix kind : string).

Definition chars_of : list ascii := String.list_ascii_of_string token.
Definition text (l : list ascii) : string := String.string_of_list_ascii l.

Definition typo (spelled : list ascii) (rule explanation category operation : string) : RawCandidate :=
  (rebuild (text spelled) suffix kind,
   {| cn_rule_id := rule; cn_explanation := explanation; cn_category := category; cn_locale := "generic" |}, operation).

Definition omit (i : nat) : list ascii := take i chars_of ++ drop (S i) chars_of.
Definition repeat (i : nat) : list ascii :=
  match chars_of !! i with Some c => take i chars_of ++ [c] ++ drop i chars_of | None => chars_of end.
Definition transpose (i : nat) : list ascii :=
  match chars_of !! i, chars_of !! S i with
  | Some a, Some b => take i chars_of ++ [b; a] ++ drop (S (S i)) chars_of
  | _, _ => chars_of
  end.

Definition dash : ascii := "-".

Definition separator_typos : list RawCandidate :=
  if bool_decide (dash ∈ chars_of)
  then [typo (filter (fun c => c <> dash) chars_of) "HUMAN.MISSING_SEPARATOR" "A word separator was omitted."
          "separator_confusion" "remove-hyphen"]
  else if (6 <=? length chars_of)%nat
  then let midpoint := (length chars_of / 2)%nat in
       [typo (take midpoint chars_of ++ [dash] ++ drop midpoint chars_of) "HUMAN.ADDED_SEPARATOR"
          "A hyphen was inserted near a word boundary." "separator_confusion" "add-hyphen"]
  else [].

Definition human_typos : list RawCandidate :=
  ((fun i => typo (omit i) "HUMAN.OMISSION" "One character was omitted." "human_typo" ("delete:" +:+ str_of_Z (Z.of_nat i)))
     <$> seq 0 (length chars_of))
  ++ ((fun i => typo (repeat i) "HUMAN.REPEAT" "A key was accidentally repeated." "human_typo"
                  ("repeat:" +:+ str_of_Z (Z.of_nat i))) <$> seq 0 (length chars_of))
  ++ ((fun i => typo (transpose i) "HUMAN.TRANSPOSE" "Two adjacent characters were transposed." "human_typo"
                  ("transpose:" +:+ str_of_Z (Z.of_nat i)))
        <$> filter (fun i => chars_of !! i <> chars_of !! S i) (seq 0 (length chars_of - 1)))
  ++ separator_typos.
End Human.

(** The edit distance computes what it should: the least number of single
    insertions, deletions, substitutions and swaps of neighbours. *)

(** ** The specification *)

Section Spec.
Context {A : Type} `{EqDecision A}.

(** [edits l r n]: [l] is turned into [r] by [n] edits, no character edited twice. *)
Inductive edits : list A -> list A -> Z -> Prop :=
| edits_nil : edits [] [] 0
| edits_keep l r n a : edits l r n -> edits (l ++ [a]) (r ++ [a]) n
| edits_substitute l r n a b : edits l r n -> edits (l ++ [a]) (r ++ [b]) (n + 1)
| edits_delete l r n a : edits l r n -> edits (l ++ [a]) r (n + 1)
| edits_insert l r n b : edits l r n -> edits l (r ++ [b]) (n + 1)
| edits_swap l r n a b : edits l r n -> edits (l ++ [a; b]) (r ++ [b; a]) (n + 1).

(** The recursive distance, on the reversed strings. *)
Definition cost (a b : A) : Z := if decide (a = b) then 0 else 1.

Fixpoint distance (l : list A) : list A -> Z :=
  match l with
  | [] => fun r => zlen r
  | a :: l1 =>
      fix inner (r : list A) : Z :=
        match r with
        | [] => zlen (a :: l1)
        | b :: r1 =>
            let d := Z.min (Z.min (distance l1 r + 1) (inner r1 + 1)) (distance l1 r1 + cost a b) in
            match l1, r1 with
            | a2 :: l2, b2 :: r2 => if decide (a = b2 /\ a2 = b) then Z.min d (distance l2 r2 + 1) else d
            | _, _ => d
            end
        end
  end.

Lemma distance_nil_r l : distance l [] = zlen l.
Proof. by destruct l. Qed.

Lemma distance_cons a b l r : distance (a :: l) (b :: r)
  = let d := Z.min (Z.min (distance l (b :: r) + 1) (distance (a :: l) r + 1)) (distance l r + cost a b) in
    match l, r with
    | a2 :: l2, b2 :: r2 => if decide (a = b2 /\ a2 = b) then Z.min d (distance l2 r2 + 1) else d
    | _, _ => d
    end.
Proof. done. Qed.

(** One more character costs at most one edit. *)
Lemma distance_cons_l a l r : distance (a :: l) r <= distance l r + 1.
Proof.
  destruct r as [|b r]; [rewrite !distance_nil_r, zlen_cons; lia|]. rewrite distance_cons. cbv zeta.
  destruct l as [|a2 l2], r as [|b2 r2]; try lia. destruct (decide _); lia.
Qed.

Lemma distance_cons_r b l r : distance l (b :: r) <= distance l r + 1.
Proof.
  destruct l as [|a l]; [simpl; rewrite zlen_cons; lia|]. rewrite distance_cons. cbv zeta.
  destruct l as [|a2 l2], r as [|b2 r2]; try lia. destruct (decide _); lia.
Qed.

Lemma distance_cons_both a b l r : distance (a :: l) (b :: r) <= distance l r + cost a b.
Proof.
  rewrite distance_cons. cbv zeta. destruct l as [|a2 l2], r as [|b2 r2]; try lia. destruct (decide _); lia.
Qed.

Lemma distance_swap a b l r : distance (b :: a :: l) (a :: b :: r) <= distance l r + 1.
Proof. rewrite distance_cons. cbv zeta. rewrite decide_True by done. lia. Qed.

Lemma distance_minimal l r n : edits l r n -> distance (reverse l) (reverse r) <= n.
Proof.
  induction 1 as [|l r n a _ IH|l r n a b _ IH|l r n a _ IH|l r n b _ IH|l r n a b _ IH].
  - done.
  - rewrite !reverse_snoc. pose proof (distance_cons_both a a (reverse l) (reverse r)) as H.
    unfold cost in H. rewrite decide_True in H by done. lia.
  - rewrite !reverse_snoc. pose proof (distance_cons_both a b (reverse l) (reverse r)) as H.
    unfold cost in H. destruct (decide _); lia.
  - rewrite reverse_snoc. pose proof (distance_cons_l a (reverse l) (reverse r)). lia.
  - rewrite reverse_snoc. pose proof (distance_cons_r b (reverse l) (reverse r)). lia.
  - rewrite !reverse_app. change (reverse [a; b]) with [b; a]. change (reverse [b; a]) with [a; b]. cbn [app].
    pose proof (distance_swap a b (reverse l) (reverse r)). lia.
Qed.

Lemma edits_delete_all l : edits (reverse l) [] (zlen l).
Proof. induction l as [|a l IH]; [constructor|]. rewrite reverse_cons, zlen_cons. by constructor. Qed.
Lemma edits_insert_all r : edits [] (reverse r) (zlen r).
Proof. induction r as [|b r IH]; [constructor|]. rewrite reverse_cons, zlen_cons. by constructor. Qed.

Lemma distance_achieved_aux n l r : (length l + length r <= n)%nat -> edits (reverse l) (reverse r) (distance l r).
Proof.
  revert l r. induction n as [|n IH]; intros l r Hn.
  - destruct l, r; simpl in Hn; try lia. constructor.
  - destruct l as [|a l]; [apply edits_insert_all|].
    destruct r as [|b r]; [rewrite distance_nil_r; apply edits_delete_all|]. simpl in Hn.
    assert (Hd : edits (reverse (a :: l)) (reverse (b :: r)) (distance l (b :: r) + 1)).
    { rewrite (reverse_cons l a). constructor. apply IH. simpl. lia. }
    assert (Hi : edits (reverse (a :: l)) (reverse (b :: r)) (distance (a :: l) r + 1)).
    { rewrite (reverse_cons r b). constructor. apply IH. simpl. lia. }
    assert (Hs : edits (reverse (a :: l)) (reverse (b :: r)) (distance l r + cost a b)).
    { rewrite !reverse_cons. assert (Hlr : edits (reverse l) (reverse r) (distance l r)) by (apply IH; lia).
      unfold cost. destruct (decide (a = b)) as [->|]; [rewrite Z.add_0_r|]; by constructor. }
    assert (Hmin : forall x y, edits (reverse (a :: l)) (reverse (b :: r)) x -> edits (reverse (a :: l)) (reverse (b :: r)) y ->
      edits (reverse (a :: l)) (reverse (b :: r)) (Z.min x y)).
    { intros x y Hx Hy. by destruct (Z.min_spec x y) as [[_ ->]|[_ ->]]. }
    rewrite distance_cons. cbv zeta. destruct l as [|a2 l2]; [by auto|]. destruct r as [|b2 r2]; [by auto|].
    destruct (decide (a = b2 /\ a2 = b)) as [[-> ->]|]; [|by auto]. apply Hmin; [by auto|].
    rewrite !reverse_cons, <- !app_assoc. simpl. apply edits_swap, IH. simpl in Hn. lia.
Qed.

Lemma distance_achieved l r : edits (reverse l) (reverse r) (distance l r).
Proof. by eapply distance_achieved_aux. Qed.
End Spec.

(** ** The table *)

(** An invariant of [for k in range(start, start + len)]. *)
Lemma foldl_seq {B} (P : nat -> B -> Prop) (f : B -> nat -> B) start len b :
  P start b -> (forall k x, (start <= k < start + len)%nat -> P k x -> P (S k) (f x k)) ->
  P (start + len)%nat (foldl f b (seq start len)).
Proof.
  revert start b. induction len as [|len IH]; intros start b Hb Hstep; simpl.
  - by rewrite Nat.add_0_r.
  - rewrite Nat.add_succ_r. apply (IH (S start)).
    + apply Hstep; [lia|done].
    + intros k x Hk. apply Hstep. lia.
Qed.

Section Tables.
Context {A : Type} `{EqDecision A} (l r : list A).

Notation m := (length l).
Notation n := (length r).

Definition sized (t : table) : Prop := length t = S m /\ Forall (fun row => length row = S n) t.

Lemma set_cell_sized i j v t : sized t -> sized (set_cell i j v t).
Proof.
  intros [Hl Hr]. unfold set_cell. split; [by rewrite length_alter|].
  apply Forall_alter; [done|]. intros row Hi Hrow. by rewrite length_insert.
Qed.

Lemma cell_set i j v t i' j' : sized t -> (i <= m)%nat -> (j <= n)%nat ->
  cell (set_cell i j v t) i' j' = if decide (i = i' /\ j = j') then v else cell t i' j'.
Proof.
  intros [Hl Hr] Hi Hj. unfold cell, set_cell. destruct (decide (i = i')) as [<-|Hne].
  - rewrite list_lookup_alter_eq. destruct (lookup_lt_is_Some_2 t i) as [row Hrow]; [lia|]. rewrite Hrow. simpl.
    pose proof (Forall_lookup_1 _ _ _ _ Hr Hrow) as Hlen. simpl in Hlen.
    destruct (decide (j = j')) as [<-|Hnj].
    + rewrite list_lookup_insert_eq by lia. by rewrite decide_True.
    + rewrite list_lookup_insert_ne by done. rewrite decide_False; [done|]. by intros [_ ?].
  - rewrite list_lookup_alter_ne by done. rewrite decide_False; [done|]. by intros [? _].
Qed.

(** The distance of two prefixes. *)
Definition ref (i j : nat) : Z := distance (reverse (take i l)) (reverse (take j r)).

Lemma ref_0_r i : (i <= m)%nat -> ref i 0 = Z.of_nat i.
Proof. intros Hi. unfold ref. change (reverse (take 0 r)) with (@nil A). rewrite distance_nil_r. unfold zlen. rewrite length_reverse, length_take. lia. Qed.

Lemma ref_0_l j : (j <= n)%nat -> ref 0 j = Z.of_nat j.
Proof. intros Hj. unfold ref. change (distance (reverse (take 0 l))) with (@zlen A). unfold zlen. rewrite length_reverse, length_take. lia. Qed.

Lemma reverse_take_S (k : list A) i a : k !! i = Some a -> reverse (take (S i) k) = a :: reverse (take i k).
Proof. intros Hi. by rewrite (take_S_r _ _ _ Hi), reverse_snoc. Qed.

Lemma same_at_cost i j a b : l !! i = Some a -> r !! j = Some b ->
  (if same_at l r i j then 0 else 1) = cost a b.
Proof.
  intros Ha Hb. unfold same_at, cost. rewrite Ha, Hb. case_bool_decide; by destruct (decide (a = b)).
Qed.

(** The recurrence the loops compute. *)
Lemma ref_step i j : (i < m)%nat -> (j < n)%nat ->
  ref (S i) (S j) =
    let d := Z.min (Z.min (ref i (S j) + 1) (ref (S i) j + 1)) (ref i j + if same_at l r i j then 0 else 1) in
    if (1 <? S i)%nat && (1 <? S j)%nat && same_at l r i (j - 1) && same_at l r (i - 1) j
    then Z.min d (ref (i - 1) (j - 1) + 1) else d.
Proof.
  intros Hi Hj. destruct (lookup_lt_is_Some_2 l i Hi) as [a Ha]. destruct (lookup_lt_is_Some_2 r j Hj) as [b Hb].
  rewrite (same_at_cost i j a b Ha Hb). unfold ref. rewrite (reverse_take_S l i a Ha), (reverse_take_S r j b Hb).
  rewrite distance_cons. cbv zeta. destruct i as [|i]; [done|]. destruct j as [|j].
  { simpl. by destruct (reverse (take (S i) l)). }
  destruct (lookup_lt_is_Some_2 l i) as [a2 Ha2]; [lia|]. destruct (lookup_lt_is_Some_2 r j) as [b2 Hb2]; [lia|].
  rewrite (reverse_take_S l i a2 Ha2), (reverse_take_S r j b2 Hb2).
  rewrite !Nat.sub_succ, !Nat.sub_0_r. unfold same_at. rewrite Ha, Hb, Ha2, Hb2.
  change (1 <? S (S i))%nat with true. change (1 <? S (S j))%nat with true. cbn [andb].
  destruct (decide (a = b2 /\ a2 = b)) as [[-> ->]|Hno].
  - by rewrite !bool_decide_true.
  - destruct (bool_decide (a = b2)) eqn:H1, (bool_decide (a2 = b)) eqn:H2; try done. b2p. by destruct Hno.
Qed.

(** All rows above [row] and the columns up to [column] of that row are right. *)
Definition filled (row column : nat) (t : table) : Prop :=
  sized t /\ forall i j, (i <= m)%nat -> (j <= n)%nat -> (i < row \/ j = 0 \/ i = row /\ j < column)%nat ->
    cell t i j = ref i j.

Lemma fill_cell_filled row column t : (1 <= row <= m)%nat -> (1 <= column <= n)%nat ->
  filled row column t -> filled row (S column) (fill_cell l r row column t).
Proof.
  intros Hrow Hcol [Hs Hf]. unfold fill_cell. cbv zeta.
  destruct row as [|i]; [lia|]. destruct column as [|j]; [lia|]. rewrite !Nat.sub_succ, !Nat.sub_0_r.
  rewrite (Hf i (S j)), (Hf (S i) j), (Hf i j) by lia.
  set (d := Z.min (Z.min (ref i (S j) + 1) (ref (S i) j + 1)) (ref i j + if same_at l r i j then 0 else 1)).
  set (t1 := set_cell (S i) (S j) d t).
  assert (Hs1 : sized t1) by (by apply set_cell_sized).
  assert (Hc1 : forall x y, cell t1 x y = if decide (S i = x /\ S j = y) then d else cell t x y).
  { intros x y. apply cell_set; [done|lia|lia]. }
  assert (Hrec := ref_step i j ltac:(lia) ltac:(lia)). cbv zeta in Hrec. fold d in Hrec.
  destruct ((1 <? S i)%nat && (1 <? S j)%nat && same_at l r i (j - 1) && same_at l r (i - 1) j).
  - split; [by apply set_cell_sized|]. intros x y Hx Hy Hdone.
    assert (Hd1 : cell t1 (S i) (S j) = d) by (rewrite Hc1; by rewrite decide_True).
    assert (Hd2 : cell t1 (i - 1) (j - 1) = ref (i - 1) (j - 1)).
    { rewrite Hc1, decide_False by lia. apply Hf; lia. }
    rewrite cell_set, Hd1, Hd2, <- Hrec, Hc1 by (done || lia).
    destruct (decide (S i = x /\ S j = y)) as [[<- <-]|Hne]; [done|]. apply Hf; lia.
  - split; [done|]. intros x y Hx Hy Hdone. rewrite Hc1.
    destruct (decide (S i = x /\ S j = y)) as [[<- <-]|Hne]; [done|]. apply Hf; lia.
Qed.

Lemma fill_row_filled row t : (1 <= row <= m)%nat -> filled row 1 t -> filled (S row) 1 (fill_row l r row t).
Proof.
  intros Hrow Hf. unfold fill_row.
  pose proof (foldl_seq (fun c t => filled row c t) (fun t column => fill_cell l r row column t) 1 n t Hf) as H.
  destruct H as [Hs Hall].
  { intros k x Hk Hx. apply fill_cell_filled; [done|lia|done]. }
  split; [done|]. intros i j Hi Hj Hdone. apply Hall; lia.
Qed.

Lemma borders_filled : filled 1 1 (borders l r).
Proof.
  unfold borders. set (zeros := replicate (S m) (replicate (S n) 0)).
  assert (Hz : sized zeros).
  { split; [apply length_replicate|]. apply Forall_replicate, length_replicate. }
  set (left := foldl _ zeros _).
  assert (Hleft : sized left /\ forall i, (i < S m)%nat -> cell left i 0 = Z.of_nat i).
  { apply (foldl_seq (fun k t => sized t /\ forall i, (i < k)%nat -> cell t i 0 = Z.of_nat i)
             (fun t i => set_cell i 0 (Z.of_nat i) t) 0 (S m) zeros); [split; [done|lia]|].
    intros k t Hk [Hs Hc]. split; [by apply set_cell_sized|]. intros i Hi.
    rewrite cell_set by (done || lia). destruct (decide (k = i /\ 0%nat = 0%nat)) as [[-> _]|Hne]; [done|].
    apply Hc. lia. }
  destruct Hleft as [Hsl Hcl].
  assert (Hboth : sized (foldl (fun t j => set_cell 0 j (Z.of_nat j) t) left (seq 0 (S n)))
    /\ (forall i, (i < S m)%nat -> cell (foldl (fun t j => set_cell 0 j (Z.of_nat j) t) left (seq 0 (S n))) i 0 = Z.of_nat i)
    /\ forall j, (j < S n)%nat -> cell (foldl (fun t j => set_cell 0 j (Z.of_nat j) t) left (seq 0 (S n))) 0 j = Z.of_nat j).
  { apply (foldl_seq (fun k t => sized t /\ (forall i, (i < S m)%nat -> cell t i 0 = Z.of_nat i)
             /\ forall j, (j < k)%nat -> cell t 0 j = Z.of_nat j)
             (fun t j => set_cell 0 j (Z.of_nat j) t) 0 (S n) left); [split_and!; [done|done|lia]|].
    intros k t Hk (Hs & Hi0 & Hj0). split_and!; [by apply set_cell_sized| |].
    - intros i Hi. rewrite cell_set by (done || lia).
      destruct (decide (0%nat = i /\ k = 0%nat)) as [[<- ->]|Hne]; [done|]. by apply Hi0.
    - intros j Hj. rewrite cell_set by (done || lia).
      destruct (decide (0%nat = 0%nat /\ k = j)) as [[_ ->]|Hne]; [done|]. apply Hj0. lia. }
  destruct Hboth as (Hs & Hi0 & Hj0). split; [done|]. intros i j Hi Hj Hdone.
  assert (Hcase : (i = 0 \/ j = 0)%nat) by lia. destruct Hcase as [->| ->].
  - rewrite Hj0 by lia. by rewrite ref_0_l.
  - rewrite Hi0 by lia. by rewrite ref_0_r.
Qed.

(** The loops compute the recursive distance. *)
Lemma edit_distance_ref : edit_distance l r = distance (reverse l) (reverse r).
Proof.
  unfold edit_distance. cbv zeta.
  pose proof (foldl_seq (fun k t => filled k 1 t) (fun t row => fill_row l r row t) 1 m (borders l r) borders_filled) as H.
  destruct H as [_ Hall].
  { intros k t Hk Ht. apply fill_row_filled; [lia|done]. }
  rewrite Hall by lia. unfold ref. by rewrite !firstn_all.
Qed.

Lemma edit_distance_spec : edits l r (edit_distance l r) /\ forall k, edits l r k -> edit_distance l r <= k.
Proof.
  rewrite edit_distance_ref. split.
  - pose proof (distance_achieved (reverse l) (reverse r)) as H. by rewrite !reverse_involutive in H.
  - apply distance_minimal.
Qed.
End Tables.

(** ** Typing errors *)

Lemma chars_lower s : String.list_ascii_of_string (lower s) = lower_char <$> String.list_ascii_of_string s.
Proof. unfold lower. induction s as [|c s IH]; simpl; [done|]. by rewrite IH. Qed.

Lemma chars_text l : String.list_ascii_of_string (text l) = l.
Proof. apply String.list_ascii_of_string_of_list_ascii. Qed.

Section Edits.
Context {A : Type}.

Lemma edits_refl (l : list A) : edits l l 0.
Proof. induction l as [|a l IH] using rev_ind; [constructor|]. by constructor. Qed.

Lemma edits_suffix (l r k : list A) n : edits l r n -> edits (l ++ k) (r ++ k) n.
Proof.
  intros H. revert l r H. induction k as [|a k IH]; intros l r H; [by rewrite !app_nil_r|].
  rewrite (cons_middle a l k), (cons_middle a r k), !app_assoc. apply IH. by constructor.
Qed.

Lemma edits_omit (l : list A) i : (i < length l)%nat -> edits l (take i l ++ drop (S i) l) 1.
Proof.
  intros Hi. destruct (lookup_lt_is_Some_2 l i Hi) as [a Ha]. rewrite <- (take_drop_middle l i a Ha) at 1.
  rewrite cons_middle, app_assoc. apply edits_suffix. rewrite <- (Z.add_0_l 1). apply edits_delete, edits_refl.
Qed.

Lemma edits_added (l : list A) i a : edits l (take i l ++ [a] ++ drop i l) 1.
Proof.
  rewrite <- (take_drop i l) at 1. rewrite app_assoc. apply edits_suffix. rewrite <- (Z.add_0_l 1).
  apply edits_insert, edits_refl.
Qed.

Lemma edits_transposed (l : list A) i a b : l !! i = Some a -> l !! S i = Some b ->
  edits l (take i l ++ [b; a] ++ drop (S (S i)) l) 1.
Proof.
  intros Ha Hb. assert (Hl : l = take i l ++ [a; b] ++ drop (S (S i)) l).
  { rewrite <- (take_drop_middle l i a Ha) at 1. f_equal. simpl. f_equal.
    rewrite <- (take_drop_middle (drop (S i) l) 0 b) at 1; [|by rewrite lookup_drop, Nat.add_0_r].
    simpl. by rewrite drop_drop, Nat.add_1_r. }
  rewrite Hl at 1. rewrite !app_assoc. apply edits_suffix. rewrite <- (Z.add_0_l 1). apply edits_swap, edits_refl.
Qed.
End Edits.

Lemma edits_fmap {A B} (f : A -> B) l r n : edits l r n -> edits (f <$> l) (f <$> r) n.
Proof. induction 1; rewrite ?fmap_app; simpl; by constructor. Qed.

(** The rule whose typos remove every separator at once. *)
Definition removes_separators (c : RawCandidate) : bool := String.eqb (cn_rule_id c.1.2) "HUMAN.MISSING_SEPARATOR".

Lemma human_typo_edit token c : c ∈ human_typos token "" "pypi" -> removes_separators c = false ->
  exists l, c.1.1 = text l /\ edits (chars_of token) l 1.
Proof.
  unfold human_typos. rewrite !elem_of_app, !list_elem_of_fmap.
  intros [(i & -> & Hi)|[(i & -> & Hi)|[(i & -> & Hi)|Hsep]]] Hrule.
  - exists (omit token i). split; [done|]. apply elem_of_seq in Hi. apply edits_omit. lia.
  - exists (repeat token i). split; [done|]. apply elem_of_seq in Hi. unfold repeat.
    destruct (lookup_lt_is_Some_2 (chars_of token) i) as [a ->]; [lia|]. apply edits_added.
  - exists (transpose token i). split; [done|]. apply list_elem_of_filter in Hi as [_ Hi].
    apply elem_of_seq in Hi. unfold transpose.
    destruct (lookup_lt_is_Some_2 (chars_of token) i) as [a Ha]; [lia|].
    destruct (lookup_lt_is_Some_2 (chars_of token) (S i)) as [b Hb]; [lia|]. rewrite Ha, Hb.
    by apply edits_transposed.
  - unfold separator_typos in Hsep. case_bool_decide.
    + apply list_elem_of_singleton in Hsep as ->. done.
    + destruct (6 <=? _)%nat; [|inversion Hsep]. apply list_elem_of_singleton in Hsep as ->.
      eexists. split; [done|]. apply edits_added.
Qed.

(** C31. The table the scorer fills holds the edit distance of the two names in lower case,
    each a text of one-byte characters: of all the ways to turn one into the other by
    inserting, deleting and substituting single characters and swapping neighbours, none
    edited twice, it returns the least number of edits, and that many suffice. Of the typing
    errors the engine generates for a name of kind pypi without suffix, every omission,
    repetition, swap and added separator is one edit away at most. *)
Theorem edit_distance_is_least (left right : string) :
  let l := String.list_ascii_of_string (lower left) in
  let r := String.list_ascii_of_string (lower right) in
  edits l r (damerau_levenshtein left right)
  /\ (forall n, edits l r n -> damerau_levenshtein left right <= n)
  /\ (forall c, c ∈ human_typos left "" "pypi" -> removes_separators c = false ->
      damerau_levenshtein left c.1.1 <= 1).
Proof.
  intros l r. destruct (edit_distance_spec l r) as [Hach Hmin]. split_and!; [done|done|].
  intros c Hc Hrule. destruct (human_typo_edit left c Hc Hrule) as (k & -> & Hk).
  unfold damerau_levenshtein. apply edit_distance_spec. rewrite !chars_lower, chars_text.
  by apply edits_fmap.
Qed.

Example distance_examples :
  damerau_levenshtein "requests" "reqeusts" = 1 /\ damerau_levenshtein "numpy" "nunpyy" = 2
  /\ damerau_levenshtein "ca" "abc" = 3 /\ damerau_levenshtein "" "pip" = 3.
Proof. by vm_compute. Qed.

Lemma edit_distance_is_least_witness :
  exists c, c ∈ human_typos "numpy" "" "pypi" /\ c.1.1 = "nupmy" /\ damerau_levenshtein "numpy" c.1.1 <= 1.
Proof.
  assert (Hin : typo "" "pypi" (transpose "numpy" 2) "HUMAN.TRANSPOSE" "Two adjacent characters were transposed."
                  "human_typo" "transpose:2" ∈ human_typos "numpy" "" "pypi").
  { apply (list_elem_of_lookup_2 _ 12). by vm_compute. }
  eexists. split; [exact Hin|]. split; [done|].
  by apply (proj2 (proj2 (edit_distance_is_least "numpy" "numpy"))).
Defined.
