(* ===== verification/ShellTokenizer.v ===== *)
(** The command tokenizer: [clickfix/shell_tokenizer.py].

    Text is a list of code points. What Python takes from the Unicode tables, the
    NFKC normal form and the alphabetic and alphanumeric classes, is a parameter. *)

From S2P Require Import Prelude.

Definition text : Type := list Z.

Class UnicodeEnv := {
  nfkc : text -> text;
  is_alpha_cp : Z -> bool;
  is_alnum_cp : Z -> bool
}.

Definition member (c : Z) (l : list Z) : bool := existsb (Z.eqb c) l.
Definition between (lo hi c : Z) : bool := (lo <=? c) && (c <=? hi).

Definition ZERO_WIDTH : list Z := [8203; 8204; 8205; 8288; 65279].

(** [c.isspace()] *)
Definition is_space_cp (c : Z) : bool :=
  between 9 13 c || between 28 32 c || member c [133; 160; 5760; 8232; 8233; 8239; 8287; 12288]
  || between 8192 8202 c.

(** [" \t\r\n"] and ["\t\r\n"] *)
Definition plain_space (c : Z) : bool := member c [32; 9; 13; 10].
Definition odd_space (c : Z) : bool := is_space_cp c && negb (plain_space c).
Definition control_cp (c : Z) : bool := (c <? 32) && negb (member c [9; 13; 10]).

Definition squote : Z := 39.
Definition dquote : Z := 34.
Definition backslash : Z := 92.
Definition equals : Z := 61.
Definition underscore : Z := 95.
Definition space : Z := 32.

Record Token := {
  tk_kind : string;
  tk_value : text
}.

#[export] Instance Token_eq_dec : EqDecision Token.
Proof. solve_decision. Defined.

Record Tokenization := {
  tz_tokens : list Token;
  tz_normalized : text;
  tz_unicode_anomaly : bool;
  tz_control_anomaly : bool;
  tz_escaped_name : bool
}.

Record LexState := {
  ls_out : list Token;
  ls_buf : text;
  ls_quote : option Z;
  ls_escaped : bool;
  ls_depth : Z;
  ls_escaped_name : bool
}.

Definition start_state : LexState := {|
  ls_out := []; ls_buf := []; ls_quote := None; ls_escaped := false; ls_depth := 0; ls_escaped_name := false |}.

Definition emit (t : list Token) (st : LexState) : LexState := {|
  ls_out := ls_out st ++ t; ls_buf := []; ls_quote := ls_quote st; ls_escaped := ls_escaped st;
  ls_depth := ls_depth st; ls_escaped_name := ls_escaped_name st |}.
Definition push_char (c : Z) (st : LexState) : LexState := {|
  ls_out := ls_out st; ls_buf := ls_buf st ++ [c]; ls_quote := ls_quote st; ls_escaped := ls_escaped st;
  ls_depth := ls_depth st; ls_escaped_name := ls_escaped_name st |}.
Definition set_quote (q : option Z) (st : LexState) : LexState := {|
  ls_out := ls_out st; ls_buf := ls_buf st; ls_quote := q; ls_escaped := ls_escaped st; ls_depth := ls_depth st;
  ls_escaped_name := ls_escaped_name st |}.
Definition set_escaped (b name : bool) (st : LexState) : LexState := {|
  ls_out := ls_out st; ls_buf := ls_buf st; ls_quote := ls_quote st; ls_escaped := b; ls_depth := ls_depth st;
  ls_escaped_name := name |}.
Definition add_depth (n : Z) (st : LexState) : LexState := {|
  ls_out := ls_out st; ls_buf := ls_buf st; ls_quote := ls_quote st; ls_escaped := ls_escaped st;
  ls_depth := ls_depth st + n; ls_escaped_name := ls_escaped_name st |}.

(** [value.split("=", 1)[0]] *)
Fixpoint before_equals (v : text) : text :=
  match v with [] => [] | c :: v' => if c =? equals then [] else c :: before_equals v' end.

Section Tokenize.
Context `{UnicodeEnv}.

Definition is_alnum_text (v : text) : bool := negb (zlen v =? 0) && forallb is_alnum_cp v.

Definition token_kind (value : text) : string :=
  if member equals value && negb (match value with c :: _ => c =? equals | [] => false end)
     && is_alnum_text (filter (fun c => c <> underscore) (before_equals value))
  then "assignment" else "word".

Definition flush (st : LexState) : LexState :=
  match ls_buf st with
  | [] => st
  | value => emit [{| tk_kind := token_kind value; tk_value := value |}] st
  end.

Definition flush_with (kind : string) (value : text) (st : LexState) : LexState :=
  emit [{| tk_kind := kind; tk_value := value |}] (flush st).

(** A parenthesis, within the depth limit. *)
Definition parenthesis (maximum_depth c : Z) (st : LexState) : res LexState :=
  let st := add_depth (if c =? 40 then 1 else -1) (flush st) in
  raise_if ((maximum_depth <? ls_depth st) || (ls_depth st <? 0)) (ValueError "parser_depth_limit");;
  Ok (emit [{| tk_kind := "subshell"; tk_value := [c] |}] st).

(** One turn of the loop at character [c] with [next] after it: the new state and
    whether [next] was consumed too. *)
Definition step (maximum_depth c : Z) (next : option Z) (st : LexState) : res (LexState * bool) :=
  let pair (a b : Z) := (c =? a) && bool_decide (next = Some b) in
  if ls_escaped st
  then Ok (set_escaped false (ls_escaped_name st || is_alpha_cp c) (push_char c st), false)
  else if (c =? backslash) && negb (bool_decide (ls_quote st = Some squote))
  then Ok (set_escaped true (ls_escaped_name st) st, false)
  else match ls_quote st with
  | Some q => Ok (if c =? q then set_quote None st else push_char c st, false)
  | None =>
      if member c [squote; dquote] then Ok (set_quote (Some c) st, false)
      else if pair 38 38 || pair 124 124 then Ok (flush_with "separator" [c; c] st, true)
      else if pair 36 40 then Ok (add_depth 1 (flush_with "substitution_start" [36; 40] st), true)
      else if member c [40; 41] then st ← parenthesis maximum_depth c st; Ok (st, false)
      else if member c [124; 59; 38; 10] then Ok (flush_with "separator" [c] st, false)
      else if member c [60; 62] then
        match next with
        | Some d => if member d [62; 60; 38] then Ok (flush_with "redirect" [c; d] st, true)
                    else Ok (flush_with "redirect" [c] st, false)
        | None => Ok (flush_with "redirect" [c] st, false)
        end
      else if is_space_cp c then Ok (flush st, false)
      else Ok (push_char c st, false)
  end.

Fixpoint lex (maximum_depth : Z) (s : text) (st : LexState) {struct s} : res LexState :=
  match s with
  | [] => Ok st
  | c :: s' =>
      r ← step maximum_depth c (head s') st;
      if (r.2 : bool) then match s' with [] => Ok r.1 | _ :: s'' => lex maximum_depth s'' r.1 end
      else lex maximum_depth s' r.1
  end.

(** The end of the text. *)
Definition finish (st : LexState) : res LexState :=
  match ls_quote st with
  | Some _ => Raise (ValueError "unterminated_quote")
  | None => Ok (flush (if ls_escaped st then push_char backslash st else st))
  end.

(** Zero-width characters go, odd spaces become spaces. *)
Definition visible (s : text) : text :=
  (fun c => if odd_space c then space else c) <$> filter (fun c => member c ZERO_WIDTH = false) s.

Definition unicode_anomaly (command : text) : bool :=
  negb (bool_decide (nfkc command = command)) || existsb (fun c => member c ZERO_WIDTH || odd_space c) command.

Definition tokenize (command : text) (maximum_depth : Z) : res Tokenization :=
  let shown := visible (nfkc command) in
  let normalized := filter (fun c => control_cp c = false) shown in
  st ← lex maximum_depth normalized start_state;
  st ← finish st;
  Ok {| tz_tokens := ls_out st; tz_normalized := normalized; tz_unicode_anomaly := unicode_anomaly command;
        tz_control_anomaly := existsb control_cp shown; tz_escaped_name := ls_escaped_name st |}.
End Tokenize.

(** ** [command_segments] *)

(** The list of segments, the last one open. *)
Definition add_token (segments : list (list text) * list text) (t : Token) : list (list text) * list text :=
  let (closed, current) := segments in
  if String.eqb (tk_kind t) "separator" then (closed ++ [current], [])
  else if existsb (String.eqb (tk_kind t)) ["word"; "assignment"] then (closed, current ++ [tk_value t])
  else (closed, current).

Definition command_segments (tokens : list Token) : list (list text) :=
  let (closed, current) := foldl add_token ([], []) tokens in
  filter (fun segment => segment <> []) (closed ++ [current]).

(** What the command tokenizer guarantees: it reads back words quoted the way a
    POSIX shell quotes them, whatever characters they hold. Two small
    facts at the end say what the round trip leaves out. *)

(** ** Quoting: the inverse of the tokenizer

    [shlex.quote]: single quotes around the word, a quote inside it spelled
    as a closing quote, a double-quoted quote and an opening one. *)

Definition quote_char (c : Z) : text :=
  if c =? squote then [squote; dquote; squote; dquote; squote] else [c].
Definition quoted_body (w : text) : text := flat_map quote_char w.
Definition shell_quote (w : text) : text := squote :: quoted_body w ++ [squote].

Fixpoint shell_join (ws : list text) : text :=
  match ws with
  | [] => []
  | [w] => shell_quote w
  | w :: ws' => shell_quote w ++ space :: shell_join ws'
  end.

(** A character the clean-up of the command leaves alone. *)
Definition clean_cp (c : Z) : bool := negb (member c ZERO_WIDTH || odd_space c || control_cp c).

Section Facts.
Context `{UnicodeEnv}.

Definition word_token (w : text) : Token := {| tk_kind := token_kind w; tk_value := w |}.

(** ** One character *)

Definition quiet (st : LexState) (q : option Z) : Prop := ls_escaped st = false /\ ls_quote st = q.

Lemma lex_cons d c s st st' : step d c (head s) st = Ok (st', false) -> lex d (c :: s) st = lex d s st'.
Proof. intros Hs. cbn [lex]. by rewrite Hs. Qed.

Lemma step_inside d c next st q : quiet st (Some q) -> c <> q -> (c <> backslash \/ q = squote) ->
  step d c next st = Ok (push_char c st, false).
Proof.
  intros [He Hq] Hc Hb. unfold step. rewrite He, Hq.
  assert ((c =? backslash) && negb (bool_decide (Some q = Some squote)) = false) as ->.
  { destruct Hb as [Hb|Hb].
    - by apply Z.eqb_neq in Hb as ->.
    - rewrite bool_decide_eq_true_2 by congruence. apply andb_false_r. }
  apply Z.eqb_neq in Hc. by rewrite Hc.
Qed.

Lemma step_close d q next st : quiet st (Some q) -> q <> backslash -> step d q next st = Ok (set_quote None st, false).
Proof.
  intros [He Hq] Hb. unfold step. rewrite He, Hq. apply Z.eqb_neq in Hb as ->. cbn [andb].
  by rewrite Z.eqb_refl.
Qed.

Lemma step_open d q next st : quiet st None -> member q [squote; dquote] = true ->
  step d q next st = Ok (set_quote (Some q) st, false).
Proof.
  intros [He Hq] Hm. unfold step. rewrite He, Hq.
  assert ((q =? backslash) = false) as ->.
  { apply Z.eqb_neq. intros ->. discriminate. }
  cbn [andb]. by rewrite Hm.
Qed.

Lemma step_space d next st : quiet st None -> step d space next st = Ok (flush st, false).
Proof. intros [He Hq]. unfold step. by rewrite He, Hq. Qed.

Lemma quiet_set_quote st q q' : quiet st q -> quiet (set_quote q' st) q'.
Proof. by intros [He _]. Qed.

Lemma quiet_push st q c : quiet st q -> quiet (push_char c st) q.
Proof. done. Qed.

Hint Resolve quiet_set_quote quiet_push : lexer.

(** ** A quoted word *)

(** The word's characters, added to the buffer, with the quote closed. *)
Definition absorb_word (w : text) (st : LexState) : LexState := {|
  ls_out := ls_out st; ls_buf := ls_buf st ++ w; ls_quote := None; ls_escaped := ls_escaped st;
  ls_depth := ls_depth st; ls_escaped_name := ls_escaped_name st |}.

(** A quote inside the word: five characters that push one. *)
Lemma lex_inner_quote d s st : quiet st (Some squote) ->
  lex d ([squote; dquote; squote; dquote; squote] ++ s) st = lex d s (push_char squote st).
Proof.
  intros Hq. cbn [app].
  rewrite (lex_cons _ _ _ _ _ (step_close d squote _ st Hq ltac:(done))).
  rewrite (lex_cons _ _ _ _ _ (step_open d dquote _ (set_quote None st) ltac:(eauto with lexer) eq_refl)).
  rewrite (lex_cons _ _ _ _ _ (step_inside d squote _ (set_quote (Some dquote) (set_quote None st)) dquote
    ltac:(eauto with lexer) ltac:(done) ltac:(by left))).
  rewrite (lex_cons _ _ _ _ _ (step_close d dquote _ (push_char squote (set_quote (Some dquote) (set_quote None st)))
    ltac:(eauto with lexer) ltac:(done))).
  rewrite (lex_cons _ _ _ _ _ (step_open d squote _
    (set_quote None (push_char squote (set_quote (Some dquote) (set_quote None st))))
    ltac:(eauto with lexer) eq_refl)).
  f_equal. destruct Hq as [He Hq]. destruct st; cbn in *. by subst.
Qed.

Lemma absorb_push c w st : absorb_word w (push_char c st) = absorb_word (c :: w) st.
Proof. unfold absorb_word, push_char. cbn. by rewrite <- app_assoc. Qed.

Lemma lex_body d w s st : quiet st (Some squote) ->
  lex d (quoted_body w ++ squote :: s) st = lex d s (absorb_word w st).
Proof.
  revert st. induction w as [|c w IH]; intros st Hq; cbn [quoted_body flat_map app].
  - rewrite (lex_cons _ _ _ _ _ (step_close d squote _ st Hq ltac:(done))). f_equal.
    unfold absorb_word, set_quote. by rewrite app_nil_r.
  - rewrite <- app_assoc. fold (quoted_body w). unfold quote_char. destruct (Z.eqb_spec c squote) as [->|Hc].
    + rewrite lex_inner_quote by done. by rewrite IH, absorb_push by auto with lexer.
    + cbn [app]. rewrite (lex_cons _ _ _ _ _ (step_inside d c _ st squote Hq Hc ltac:(by right))).
      by rewrite IH, absorb_push by auto with lexer.
Qed.

Lemma lex_word d w s st : quiet st None -> lex d (shell_quote w ++ s) st = lex d s (absorb_word w st).
Proof.
  intros Hq. unfold shell_quote. cbn [app].
  rewrite (lex_cons _ _ _ _ _ (step_open d squote _ st Hq eq_refl)), <- app_assoc. cbn [app].
  by rewrite lex_body by eauto with lexer.
Qed.

(** ** A line of quoted words *)

(** Between words: nothing buffered, the tokens so far given out. *)
Definition between_words (out : list Token) (st : LexState) : Prop :=
  quiet st None /\ ls_buf st = [] /\ ls_out st = out /\ ls_escaped_name st = false.

Lemma flush_word w out st : w <> [] -> between_words out st ->
  between_words (out ++ [word_token w]) (flush (absorb_word w st)).
Proof.
  intros Hw ((He & Hq) & Hb & Ho & Hn). unfold flush, absorb_word, emit, between_words, quiet. cbn.
  rewrite Hb. cbn. destruct w as [|c w]; [done|]. cbn. by rewrite Ho.
Qed.

Lemma finish_word w out st : w <> [] -> between_words out st ->
  exists st', finish (absorb_word w st) = Ok st' /\ ls_out st' = out ++ [word_token w] /\ ls_escaped_name st' = false.
Proof.
  intros Hw Hst. pose proof (flush_word w out st Hw Hst) as (_ & _ & Ho & Hn).
  destruct Hst as ((He & _) & _). unfold finish. cbn [ls_quote ls_escaped absorb_word]. rewrite He. eauto.
Qed.

Lemma lex_line d ws out st : Forall (fun w => w <> []) ws -> between_words out st ->
  exists st', (st1 ← lex d (shell_join ws) st; finish st1) = Ok st'
    /\ ls_out st' = out ++ (word_token <$> ws) /\ ls_escaped_name st' = false.
Proof.
  revert out st. induction ws as [|w ws IH]; intros out st Hws Hst.
  - exists st. destruct Hst as ((He & Hq) & Hb & Ho & Hn). cbn [shell_join lex]. rewrite app_nil_r.
    split; [|done]. unfold finish. cbn. rewrite Hq, He. unfold flush. by rewrite Hb.
  - inversion_clear Hws as [|? ? Hw Hws']. destruct ws as [|w' ws].
    + cbn [shell_join]. rewrite <- (app_nil_r (shell_quote w)), lex_word by apply Hst.
      by apply finish_word.
    + change (shell_join (w :: w' :: ws)) with (shell_quote w ++ space :: shell_join (w' :: ws)).
      rewrite lex_word by apply Hst.
      rewrite (lex_cons _ _ _ _ _ (step_space d _ (absorb_word w st) (conj (proj1 (proj1 Hst)) eq_refl))).
      destruct (IH (out ++ [word_token w]) (flush (absorb_word w st))) as (st' & Hl & Ho & Hn);
        [done | by apply flush_word |].
      exists st'. split; [done|]. split; [|done]. by rewrite Ho, <- app_assoc.
Qed.

(** ** Clean text is left alone *)

Lemma clean_parts c : clean_cp c = true -> member c ZERO_WIDTH = false /\ odd_space c = false /\ control_cp c = false.
Proof.
  unfold clean_cp. intros Hc. apply negb_true_iff in Hc. by apply orb_false_iff in Hc as [[? ?]%orb_false_iff ?].
Qed.

Lemma filter_all {A} (P : A -> Prop) `{forall x, Decision (P x)} l : Forall P l -> filter P l = l.
Proof. induction 1 as [|x l Hx Hl IH]; [done|]. by rewrite filter_cons_True, IH. Qed.

Lemma visible_clean (s : text) : Forall (fun c => clean_cp c = true) s -> visible s = s.
Proof.
  intros Hs. unfold visible, text. rewrite (filter_all (A:=Z)).
  - induction Hs as [|c s Hc _ IH]; [done|]. rewrite fmap_cons, IH. apply clean_parts in Hc as (_ & -> & _). done.
  - eapply Forall_impl; [done|]. intros c Hc. apply (clean_parts c Hc).
Qed.

Lemma clean_no_anomaly s : nfkc s = s -> Forall (fun c => clean_cp c = true) s -> unicode_anomaly s = false.
Proof.
  intros Hn Hs. unfold unicode_anomaly. rewrite bool_decide_eq_true_2 by done. apply existsb_none.
  eapply Forall_impl; [done|]. intros c Hc. by apply clean_parts in Hc as (-> & -> & _).
Qed.

Lemma clean_quoted w : Forall (fun c => clean_cp c = true) w -> Forall (fun c => clean_cp c = true) (shell_quote w).
Proof.
  intros Hw. unfold shell_quote. constructor; [done|]. apply Forall_app. split; [|by repeat constructor].
  induction Hw as [|c w Hc _ IH]; [constructor|]. cbn. apply Forall_app. split; [|done].
  unfold quote_char. destruct (c =? squote); repeat constructor. done.
Qed.

Lemma clean_joined ws : Forall (Forall (fun c => clean_cp c = true)) ws ->
  Forall (fun c => clean_cp c = true) (shell_join ws).
Proof.
  induction 1 as [|w ws Hw Hws IH]; [constructor|]. destruct ws as [|w' ws]; [by apply clean_quoted|].
  change (shell_join (w :: w' :: ws)) with (shell_quote w ++ space :: shell_join (w' :: ws)).
  apply Forall_app. split; [by apply clean_quoted | by constructor].
Qed.

(** ** Segments *)

Lemma token_kind_cases w : token_kind w = "word" \/ token_kind w = "assignment".
Proof. unfold token_kind. case_match; auto. Qed.

Lemma add_words ws closed current :
  foldl add_token (closed, current) (word_token <$> ws) = (closed, current ++ ws).
Proof.
  revert current. induction ws as [|w ws IH]; intros current; cbn [fmap list_fmap foldl]; [by rewrite app_nil_r|].
  assert (add_token (closed, current) (word_token w) = (closed, current ++ [w])) as ->.
  { unfold add_token. cbn [tk_kind tk_value word_token]. by destruct (token_kind_cases w) as [-> | ->]. }
  by rewrite IH, <- app_assoc.
Qed.

Lemma segments_words ws : ws <> [] -> command_segments (word_token <$> ws) = [ws].
Proof. intros Hw. unfold command_segments. rewrite add_words. cbn [app]. by apply filter_all; repeat constructor. Qed.

(** C10. Round trip: a command line made by quoting words the way a shell does, with spaces
    between, is read back as exactly those words, in order and as one command, whatever
    separators, substitutions, backslashes, spaces or quotes the words hold; nothing in it is
    reported as an anomaly or an escaped name, and the depth limit plays no part. The words
    are not empty and hold no control, zero-width or odd-space characters, and the line is
    stable under NFKC. *)
Theorem quoted_words_read_back (ws : list text) (maximum_depth : Z)
  (Hne : Forall (fun w => w <> []) ws)
  (Hclean : Forall (Forall (fun c => clean_cp c = true)) ws)
  (Hnormal : nfkc (shell_join ws) = shell_join ws) :
  exists tz, tokenize (shell_join ws) maximum_depth = Ok tz
    /\ tk_value <$> tz_tokens tz = ws
    /\ tz_normalized tz = shell_join ws
    /\ (tz_unicode_anomaly tz, tz_control_anomaly tz, tz_escaped_name tz) = (false, false, false)
    /\ command_segments (tz_tokens tz) = (match ws with [] => [] | _ => [ws] end).
Proof.
  pose proof (clean_joined ws Hclean) as Hj. unfold tokenize. rewrite Hnormal, (visible_clean _ Hj).
  unfold text; rewrite (filter_all (A:=Z)) by (eapply Forall_impl; [done|]; intros c Hc; apply (clean_parts c Hc)).
  destruct (lex_line maximum_depth ws [] start_state Hne) as (st & Hl & Ho & Hn); [by repeat split|].
  destruct (lex maximum_depth (shell_join ws) start_state) as [st1|e]; [|done]. cbn in Hl |- *. rewrite Hl.
  eexists. split; [done|]. cbn. rewrite Ho, Hn, clean_no_anomaly by done. cbn [app].
  repeat split.
  - rewrite <- list_fmap_compose. apply list_fmap_id.
  - rewrite (proj2 (existsb_none _ _)); [done|]. eapply Forall_impl; [done|]. intros c Hc. apply (clean_parts c Hc).
  - destruct ws; [done|]. by apply segments_words.
Qed.
End Facts.

(** ** A concrete environment, and a line that needs the quotes *)

Definition ascii_env : UnicodeEnv := {|
  nfkc := fun s => s;
  is_alpha_cp := fun c => between 65 90 c || between 97 122 c;
  is_alnum_cp := fun c => between 48 57 c || between 65 90 c || between 97 122 c |}.

(** [echo], [it's; $(x)] and [a=b|c] *)
Definition sample_words : list text :=
  [[101; 99; 104; 111]; [105; 116; 39; 115; 59; 32; 36; 40; 120; 41]; [97; 61; 98; 124; 99]].

Lemma quoted_words_read_back_witness :
  exists tz, @tokenize ascii_env (shell_join sample_words) 0 = Ok tz
    /\ tk_value <$> tz_tokens tz = sample_words
    /\ tz_normalized tz = shell_join sample_words
    /\ (tz_unicode_anomaly tz, tz_control_anomaly tz, tz_escaped_name tz) = (false, false, false)
    /\ command_segments (tz_tokens tz) = [sample_words].
Proof.
  apply (@quoted_words_read_back ascii_env sample_words 0).
  - repeat constructor; discriminate.
  - repeat constructor.
  - reflexivity.
Defined.

(** Two things the round trip leaves out: a quoted empty word yields no token, and
    the limit on depth is looked at for a parenthesis only, so an opened command
    substitution may pass it. *)
Lemma empty_word_is_lost : @tokenize ascii_env (shell_quote []) 32
  = Ok {| tz_tokens := []; tz_normalized := [39; 39]; tz_unicode_anomaly := false; tz_control_anomaly := false;
          tz_escaped_name := false |}.
Proof. vm_compute. reflexivity. Qed.

Lemma substitution_passes_the_limit :
  match @tokenize ascii_env [36; 40; 120] 0, @tokenize ascii_env [40; 120] 0 with
  | Ok _, Raise (ValueError e) => e = "parser_depth_limit"
  | _, _ => False
  end.
Proof. vm_compute. reflexivity. Qed.
