(* ===== verification/PyRepr.v ===== *)
(** [repr] and [str] of dynamically typed values. *)

From S2P Require Import Prelude PyStr PyFloat PyDict PyJson.
From Stdlib Require Import Ascii Floats.SpecFloat.

(** Code points below 256 that [str.isprintable] rejects. *)
Definition unprintable (n : Z) : bool := (n <? 32) || ((126 <? n) && (n <? 161)) || (n =? 173).

(** One character of a literal quoted by [quote]; [ascii_only] for bytes. *)
Definition repr_char (ascii_only : bool) (quote c : ascii) : string :=
  let n := code c in
  if Ascii.eqb c quote || (n =? 92) then String backslash (String c "")
  else if n =? 10 then String backslash "n"
  else if n =? 13 then String backslash "r"
  else if n =? 9 then String backslash "t"
  else if unprintable n || (ascii_only && (126 <? n))
  then String backslash (String "x" (String (hex_digit (n / 16)) (String (hex_digit (n mod 16)) "")))
  else String c "".

Fixpoint repr_chars (ascii_only : bool) (quote : ascii) (s : string) : string :=
  match s with
  | EmptyString => EmptyString
  | String c s' => repr_char ascii_only quote c +:+ repr_chars ascii_only quote s'
  end.

Definition single_quote : ascii := ascii_of_nat 39.

(** Double quotes only around a text that holds single quotes and no double ones. *)
Definition repr_quoted (ascii_only : bool) (s : string) : string :=
  let has q := negb (all_chars (fun c => negb (Ascii.eqb c q)) s) in
  let quote := if has single_quote && negb (has dquote) then dquote else single_quote in
  String quote (repr_chars ascii_only quote s) +:+ String quote "".

Section Repr.
Context `{PlatformEnv}.

Definition repr_float (f : float) : string :=
  match f with
  | S754_nan => "nan"
  | S754_infinity false => "inf"
  | S754_infinity true => "-inf"
  | _ => float_repr f
  end.

Fixpoint py_repr (v : pyval) : string :=
  match v with
  | VNone => "None"
  | VBool b => if b then "True" else "False"
  | VInt z => str_of_Z z
  | VFloat f => repr_float f
  | VStr s => repr_quoted false s
  | VBytes s => "b" +:+ repr_quoted true s
  | VList l => "[" +:+ join ", " (py_repr <$> l) +:+ "]"
  | VTuple [x] => "(" +:+ py_repr x +:+ ",)"
  | VTuple l => "(" +:+ join ", " (py_repr <$> l) +:+ ")"
  | VDict d => "{" +:+ join ", " ((fun kv => repr_quoted false kv.1 +:+ ": " +:+ py_repr kv.2) <$> d) +:+ "}"
  | VObj t => t
  end.

(** [str(v)] *)
Definition py_str (v : pyval) : string := match v with VStr s => s | _ => py_repr v end.
End Repr.

Example py_repr_ex : @py_repr plain_env (VDict [("a", VList [VInt 1; VStr "it's"]); ("b", VTuple [VNone])])
  = "{'a': [1, " +:+ String dquote "it's" +:+ String dquote "], 'b': (None,)}".
Proof. by vm_compute. Qed.

(** [json.dumps(..., default=str)]: what is not serializable goes in as its text. *)
Fixpoint defaulted `{PlatformEnv} (v : pyval) : pyval :=
  match v with
  | VObj t => VStr t
  | VBytes _ => VStr (py_repr v)
  | VList l => VList (defaulted <$> l)
  | VTuple l => VTuple (defaulted <$> l)
  | VDict d => VDict ((fun kv => (kv.1, defaulted kv.2)) <$> d)
  | _ => v
  end.

(** Text columns that hold JSON, and what becomes of a value that goes through one. *)

Definition pydict : Type := list (string * pyval).

(** A text column that should hold JSON: either the value it encodes, or a text
    that is not JSON. *)

Inductive json_text := JsonOf (v : pyval) | NotJson (s : string).

(** [json.loads(json.dumps(v, sort_keys=True))]: tuples come back as lists and dicts
    sorted; bytes and other objects are not serializable. *)
Fixpoint json_value (v : pyval) : res pyval :=
  match v with
  | VList l | VTuple l => ys ← res_map json_value l; Ok (VList ys)
  | VDict d =>
      kvs ← res_map (fun kv => y ← json_value kv.2; Ok (kv.1, y)) d;
      Ok (VDict (sort_by key_le kvs))
  | VBytes _ | VObj _ => Raise (TypeError "Object is not JSON serializable")
  | _ => Ok v
  end.

(** [json.dumps(v, sort_keys=True)] *)
Definition json_column (v : pyval) : res json_text := x ← json_value v; Ok (JsonOf x).

(** [_json_dict] *)
Definition json_dict (t : json_text) : pydict := match t with JsonOf (VDict d) => d | _ => [] end.

(** A column that holds the JSON of a typed value, or a text nothing reads. *)
Inductive json_of (A : Type) := Encodes (a : A) | Unreadable.
Arguments Encodes {A} a.
Arguments Unreadable {A}.

Definition decoded {A} (j : json_of A) : option A := match j with Encodes a => Some a | Unreadable => None end.

(** ** One trip through JSON is enough *)

Lemma res_map_Forall2 {A B} (f : A -> res B) l l' : res_map f l = Ok l' -> Forall2 (fun x y => f x = Ok y) l l'.
Proof.
  revert l'. induction l as [|x l IH]; cbn; intros l'; [by intros [= <-]|].
  intros (y & Hy & (ys & Hys & [= <-])%res_bind_ok)%res_bind_ok. constructor; auto.
Qed.

Lemma res_map_id {A} (f : A -> res A) l : Forall (fun x => f x = Ok x) l -> res_map f l = Ok l.
Proof. induction 1 as [|x l Hx _ IH]; [done|]. cbn. by rewrite Hx, IH. Qed.

Lemma key_le_total {A} (a b : string * A) : key_le a b = false -> key_le b a = true.
Proof. unfold key_le, str_le. destruct (String.leb_total a.1 b.1) as [H|H]; congruence. Qed.

(** Values settle after one trip through JSON. *)
Definition settles (v : pyval) : Prop := forall v', json_value v = Ok v' -> json_value v' = Ok v'.

Lemma settled_list l l' : Forall settles l -> res_map json_value l = Ok l' -> json_value (VList l') = Ok (VList l').
Proof.
  intros Hl Hm%res_map_Forall2. cbn. rewrite res_map_id; [done|]. clear -Hl Hm.
  induction Hm as [|x y l l' Hxy _ IH]; [constructor|]. inversion_clear Hl. constructor; auto.
Qed.

Lemma settled_dict d kvs : Forall (fun kv => settles kv.2) d ->
  res_map (fun kv => y ← json_value kv.2; Ok (kv.1, y)) d = Ok kvs ->
  json_value (VDict (sort_by key_le kvs)) = Ok (VDict (sort_by key_le kvs)).
Proof.
  intros Hd Hm%res_map_Forall2. cbn. rewrite res_map_id.
  - cbn. by rewrite (sort_by_id _ (sort_by key_le kvs)) by apply sort_by_sorted, key_le_total.
  - rewrite sort_by_perm. clear -Hd Hm.
    induction Hm as [|[k v] [k' y] d kvs Hxy _ IH]; [constructor|]. inversion_clear Hd as [|? ? Hv Hd'].
    constructor; [|by apply IH]. apply res_bind_ok in Hxy as (y' & Hy & [= <- <-]). cbn. by rewrite (Hv y').
Qed.

Lemma json_value_settles v : settles v.
Proof.
  induction v as [| | | | | |l IH|l IH|d IH|] using pyval_ind'; intros v'; try by intros [= <-].
  - cbn [json_value]. intros (l' & Hl & [= <-])%res_bind_ok. by eapply settled_list.
  - cbn [json_value]. intros (l' & Hl & [= <-])%res_bind_ok. by eapply settled_list.
  - cbn [json_value]. intros (kvs & Hd & [= <-])%res_bind_ok. by eapply settled_dict.
Qed.

(** Conversions of dynamically typed values: [int(v)], [float(v)], iteration. *)

From Stdlib Require Import QArith.

#[local] Open Scope Z_scope.

(** Decimal digits, single underscores between them; [seen] after a digit. *)
Fixpoint dec_digits (seen : bool) (acc : Z) (s : string) : option Z :=
  match s with
  | EmptyString => if seen then Some acc else None
  | String c s' =>
      if is_digit c then dec_digits true (acc * 10 + (code c - 48)) s'
      else if Ascii.eqb c "_" && seen then dec_digits false acc s'
      else None
  end.

(** [int(s)] of a text *)
Definition int_of_text (s : string) : option Z :=
  match strip s with
  | String "-" s' => Z.opp <$> dec_digits false 0 s'
  | String "+" s' => dec_digits false 0 s'
  | s' => dec_digits false 0 s'
  end.

(** [int(f)]: towards zero *)
Definition int_of_float (f : float) : res Z :=
  if fnan f then Raise (ValueError "cannot convert float NaN to integer")
  else if negb (is_finite f) then Raise (OverflowError "cannot convert float infinity to integer")
  else let q := fQ f in Ok (Z.quot (Qnum q) (Zpos (Qden q))).

(** [int(v)] *)
Definition py_int (v : pyval) : res Z :=
  match v with
  | VInt z => Ok z
  | VBool b => Ok (if b then 1 else 0)
  | VFloat f => int_of_float f
  | VStr s | VBytes s =>
      match int_of_text s with Some z => Ok z | None => Raise (ValueError "invalid literal for int() with base 10") end
  | _ => Raise (TypeError "int() argument must be a string, a bytes-like object or a real number")
  end.

(** [float(v)], the reading of decimal texts being [parse] *)
Definition py_float (parse : string -> option float) (v : pyval) : res float :=
  match v with
  | VFloat f => Ok f
  | VBool b => Ok (if b then fone else fzero)
  | VInt z => let f := float_of_Z z in
      if is_finite f then Ok f else Raise (OverflowError "int too large to convert to float")
  | VStr s | VBytes s =>
      match parse s with Some f => Ok f | None => Raise (ValueError "could not convert string to float") end
  | _ => Raise (TypeError "float() argument must be a string or a real number")
  end.

(** The characters of a text, one by one. *)
Definition chars (s : string) : list pyval := (fun c => VStr (String c "")) <$> String.list_ascii_of_string s.

(** What [for x in v] goes through. *)
Definition py_iter (v : pyval) : res (list pyval) :=
  match v with
  | VList l | VTuple l => Ok l
  | VStr s => Ok (chars s)
  | VBytes s => Ok ((fun c => VInt (code c)) <$> String.list_ascii_of_string s)
  | VDict d => Ok ((fun kv => VStr kv.1) <$> d)
  | _ => Raise (TypeError "object is not iterable")
  end.

Example py_int_ex : py_int (VStr " -1_024 ") = Ok (-1024) /\ py_int (VFloat (flit (-5) 2)) = Ok (-2)
  /\ py_int (VStr "1__0") = Raise (ValueError "invalid literal for int() with base 10").
Proof. by vm_compute. Qed.
