(* ===== verification/JsonCanon.v ===== *)
(** The canonical text of a value: [json.dumps(v, sort_keys=True,
    separators=(",", ":"), default=str)], which the program hashes. Two values that
    read back the same, whatever the order of their keys and whether their sequences
    are lists or tuples, have one canonical text. *)

From S2P Require Import Prelude PyStr PyFloat PyDict PyJson PyRepr.
From Stdlib Require Import Ascii Sorting.Sorted.

(** ** Texts are linearly ordered *)

Lemma compare_trans a b c : String.compare a b <> Gt -> String.compare b c <> Gt -> String.compare a c <> Gt.
Proof.
  revert b c. induction a as [|x a IH]; intros [|y b] [|z c]; cbn; try done.
  unfold Ascii.compare. destruct (N.compare_spec (N_of_ascii x) (N_of_ascii y)) as [H1|H1|H1]; try done;
    destruct (N.compare_spec (N_of_ascii y) (N_of_ascii z)) as [H2|H2|H2]; try done; intros Hab Hbc.
  - rewrite (proj2 (N.compare_eq_iff _ _)) by congruence. by apply (IH b).
  - rewrite (proj2 (N.compare_lt_iff _ _)) by congruence. done.
  - rewrite (proj2 (N.compare_lt_iff _ _)) by congruence. done.
  - rewrite (proj2 (N.compare_lt_iff _ _)) by (by etransitivity). done.
Qed.

Lemma str_le_compare a b : str_le a b = true <-> String.compare a b <> Gt.
Proof. unfold str_le, String.leb. by destruct (String.compare a b). Qed.

Lemma str_le_trans a b c : str_le a b = true -> str_le b c = true -> str_le a c = true.
Proof. rewrite !str_le_compare. apply compare_trans. Qed.

Lemma str_le_antisym a b : str_le a b = true -> str_le b a = true -> a = b.
Proof. apply String.leb_antisym. Qed.

(** ** Items in key order *)

Section Items.
Context {A : Type}.
Implicit Types d l : list (string * A).

Lemma items_sorted d : StronglySorted (fun a b => key_le a b = true) (sort_by key_le d).
Proof.
  apply Sorted_StronglySorted; [intros a b c; apply str_le_trans|]. apply sort_by_sorted, key_le_total.
Qed.

Lemma sorted_items_unique l1 l2 :
  StronglySorted (fun a b => key_le a b = true) l1 -> StronglySorted (fun a b => key_le a b = true) l2 ->
  Permutation l1 l2 -> NoDup (keys l1) -> l1 = l2.
Proof.
  intros H1. revert l2. induction H1 as [|x l1 Hs1 IH Hx]; intros l2 H2 Hp Hnd.
  { by apply Permutation_nil in Hp. }
  destruct H2 as [|y l2 Hs2 Hy]; [by apply Permutation_sym, Permutation_nil in Hp|].
  inversion_clear Hnd as [|? ? Hnx Hnd'].
  assert (x = y) as <-.
  { assert (Hiny : y ∈ x :: l1) by (rewrite Hp; by left).
    assert (Hinx : x ∈ y :: l2) by (rewrite <- Hp; by left).
    apply elem_of_cons in Hiny as [->|Hiny]; [done|]. apply elem_of_cons in Hinx as [->|Hinx]; [done|].
    rewrite Forall_forall in Hx, Hy. destruct Hnx.
    rewrite (str_le_antisym x.1 y.1) by (by apply Hx || by apply Hy). unfold keys. by apply list_elem_of_fmap_2. }
  f_equal. apply IH; [done| |done]. by apply Permutation_cons_inv in Hp.
Qed.

(** What sorting by key makes of a dict depends on its items only. *)
Lemma sort_items_perm d1 d2 : Permutation d1 d2 -> NoDup (keys d1) -> sort_by key_le d1 = sort_by key_le d2.
Proof.
  intros Hp Hnd. apply sorted_items_unique; try apply items_sorted.
  - by rewrite !sort_by_perm.
  - unfold keys. by rewrite sort_by_perm.
Qed.
End Items.

Lemma insert_items_fmap {A B} (f : string * A -> string * B) x d :
  (forall kv, (f kv).1 = kv.1) -> insert_by key_le (f x) (f <$> d) = f <$> insert_by key_le x d.
Proof.
  intros Hf. induction d as [|y d IH]; [done|]. cbn. unfold key_le in *. rewrite !Hf.
  destruct (str_le x.1 y.1); [done|]. cbn. f_equal. apply IH.
Qed.

(** Sorting looks at the keys alone. *)
Lemma sort_items_fmap {A B} (f : string * A -> string * B) d :
  (forall kv, (f kv).1 = kv.1) -> sort_by key_le (f <$> d) = f <$> sort_by key_le d.
Proof.
  intros Hf. induction d as [|x d IH]; [done|].
  change (insert_by key_le (f x) (sort_by key_le (f <$> d)) = f <$> insert_by key_le x (sort_by key_le d)).
  rewrite IH. by apply insert_items_fmap.
Qed.

(** ** The value a canonical text encodes *)

Section Canon.
Context `{PlatformEnv}.

(** [json.loads(json.dumps(v, sort_keys=True, default=str))] *)
Fixpoint normal (v : pyval) : pyval :=
  match v with
  | VObj t => VStr t
  | VBytes _ => VStr (py_repr v)
  | VList l | VTuple l => VList (normal <$> l)
  | VDict d => VDict (sort_by key_le ((fun kv => (kv.1, normal kv.2)) <$> d))
  | _ => v
  end.

(** [json.dumps(v, sort_keys=True, separators=(",", ":"), default=str)] *)
Definition canonical_text (v : pyval) : res string := json_dumps compact_style (defaulted v).

(** Values no reader of their JSON can tell apart. *)
Definition same_json (v w : pyval) : Prop := normal v = normal w.

#[export] Instance same_json_equivalence : Equivalence same_json.
Proof. split; unfold same_json; repeat intro; congruence. Qed.

(** The text of what can be serialized. *)
Definition text_of (v : pyval) : string := match json_dumps compact_style v with Ok s => s | Raise _ => "" end.

Definition item_text (kv : string * pyval) : string * string := (kv.1, text_of kv.2).

Lemma dumps_text v : serializable v = true -> json_dumps compact_style v = Ok (text_of v).
Proof. intros Hs%(json_dumps_ok compact_style). unfold text_of. by destruct (json_dumps _ v). Qed.

Lemma res_map_all_ok {A B} (f : A -> res B) g l : Forall (fun x => f x = Ok (g x)) l -> res_map f l = Ok (g <$> l).
Proof. induction 1 as [|x l Hx _ IH]; [done|]. cbn. by rewrite Hx, IH. Qed.

Lemma res_map_all_ok_fmap {A B C} (f : B -> res C) (e : A -> B) (g : A -> C) l :
  (forall x, f (e x) = Ok (g x)) -> res_map f (e <$> l) = Ok (g <$> l).
Proof. intros Hf. induction l as [|x l IH]; [done|]. cbn. rewrite Hf. cbn. by rewrite IH. Qed.

Lemma text_of_list l : Forall (fun v => serializable v = true) l ->
  text_of (VList l) = "[" +:+ join "," (text_of <$> l) +:+ "]" /\ text_of (VTuple l) = text_of (VList l).
Proof.
  intros Hl. split; [|done]. unfold text_of at 1. cbn [json_dumps].
  rewrite (res_map_all_ok _ text_of); [done|].
  eapply Forall_impl; [exact Hl|]. intros v. apply dumps_text.
Qed.

Lemma text_of_dict d : Forall (fun kv => serializable kv.2 = true) d ->
  text_of (VDict d) = "{" +:+ join "," ((fun kv => json_string true kv.1 +:+ ":" +:+ kv.2)
    <$> (item_text <$> sort_by key_le d)) +:+ "}".
Proof.
  intros Hd. unfold text_of at 1. cbn [json_dumps].
  rewrite (res_map_all_ok _ item_text).
  - unfold order_items. cbn. by rewrite sort_items_fmap.
  - eapply Forall_impl; [exact Hd|]. intros [k v] Hv. cbn in *. by rewrite dumps_text.
Qed.

Lemma serializable_defaulted v : serializable (defaulted v) = true.
Proof.
  induction v as [| | | | | |l IH|l IH|d IH|] using pyval_ind'; try done; cbn; apply forallb_forall;
    intros x (y & -> & Hy)%list_elem_of_In%list_elem_of_fmap; rewrite Forall_forall in IH; by apply IH.
Qed.

Lemma serializable_normal v : serializable (normal v) = true.
Proof.
  induction v as [| | | | | |l IH|l IH|d IH|] using pyval_ind'; try done; cbn; apply forallb_forall;
    intros x Hx%list_elem_of_In; rewrite ?sort_by_perm in Hx; apply list_elem_of_fmap in Hx as (y & -> & Hy);
    rewrite Forall_forall in IH; by apply IH.
Qed.

Lemma normal_settles v : normal (normal v) = normal v.
Proof.
  induction v as [| | | | | |l IH|l IH|d IH|] using pyval_ind'; try done; cbn.
  - f_equal. rewrite <- list_fmap_compose. by apply Forall_fmap_ext_1.
  - f_equal. rewrite <- list_fmap_compose. by apply Forall_fmap_ext_1.
  - f_equal. rewrite <- sort_items_fmap by done. rewrite <- list_fmap_compose.
    rewrite (Forall_fmap_ext_1 _ (fun kv => (kv.1, normal kv.2))).
    + apply sort_by_id, sort_by_sorted, key_le_total.
    + eapply Forall_impl; [exact IH|]. intros [k v] Hv. cbn in *. by rewrite Hv.
Qed.

Lemma texts_normal l : Forall (fun v => text_of (normal v) = text_of (defaulted v)) l ->
  text_of (VList (normal <$> l)) = text_of (VList (defaulted <$> l)).
Proof.
  intros IH. rewrite !(fun l Hl => proj1 (text_of_list l Hl))
    by (apply Forall_fmap, Forall_true; intros x; apply serializable_normal || apply serializable_defaulted).
  do 3 f_equal. rewrite <- !list_fmap_compose. by apply Forall_fmap_ext_1.
Qed.

Lemma text_of_normal v : text_of (normal v) = text_of (defaulted v).
Proof.
  induction v as [| | | | | |l IH|l IH|d IH|] using pyval_ind'; try done; cbn [normal defaulted].
  - by apply texts_normal.
  - by apply texts_normal.
  - rewrite !text_of_dict by
      (rewrite ?sort_by_perm; apply Forall_fmap, Forall_true; intros x; apply serializable_normal || apply serializable_defaulted).
    rewrite (sort_by_id _ (sort_by key_le _)) by apply sort_by_sorted, key_le_total.
    rewrite <- !sort_items_fmap by done. do 5 f_equal. rewrite <- !list_fmap_compose.
    apply Forall_fmap_ext_1. eapply Forall_impl; [exact IH|]. intros [k v] Hv. unfold item_text. cbn in *. by rewrite Hv.
Qed.

(** The canonical text always exists, and is that of the value it encodes. *)
Lemma canonical_text_of v : canonical_text v = Ok (text_of (normal v)).
Proof. unfold canonical_text. rewrite dumps_text by apply serializable_defaulted. by rewrite text_of_normal. Qed.

Lemma canonical_same v w : same_json v w -> canonical_text v = canonical_text w.
Proof. unfold same_json. rewrite !canonical_text_of. congruence. Qed.

Lemma normal_same v : same_json (normal v) v.
Proof. apply normal_settles. Qed.

(** Dicts with the same items, in whatever order. *)
Lemma same_dict d1 d2 : NoDup (keys d1) ->
  Permutation ((fun kv => (kv.1, normal kv.2)) <$> d1) ((fun kv => (kv.1, normal kv.2)) <$> d2) ->
  same_json (VDict d1) (VDict d2).
Proof.
  intros Hnd Hp. unfold same_json. cbn. f_equal. apply sort_items_perm; [done|].
  unfold keys in *. rewrite <- list_fmap_compose. by rewrite (list_fmap_ext _ fst).
Qed.

(** A dict whose values went through JSON. *)
Definition normal_items (d : pydict) : pydict := (fun kv => (kv.1, normal kv.2)) <$> d.

Lemma keys_normal_items d : keys (normal_items d) = keys d.
Proof. unfold keys, normal_items. rewrite <- list_fmap_compose. by apply list_fmap_ext. Qed.

Lemma normal_items_settle d : normal_items (normal_items d) = normal_items d.
Proof.
  unfold normal_items. rewrite <- list_fmap_compose. apply list_fmap_ext. intros i [k v] _. cbn. by rewrite normal_settles.
Qed.

Lemma normal_items_dset k v d : normal_items (dset k v d) = dset k (normal v) (normal_items d).
Proof.
  induction d as [|[k' v'] d IH]; [done|]. cbn. destruct (decide (k = k')); [done|]. cbn. f_equal. apply IH.
Qed.

Lemma normal_items_ddel k d : normal_items (ddel k d) = ddel k (normal_items d).
Proof.
  induction d as [|[k' v'] d IH]; [done|]. cbn. destruct (decide (k = k')); [done|]. cbn. f_equal. apply IH.
Qed.

(** Dicts whose items read back the same, in the same order. *)
Lemma same_dicts d1 d2 : normal_items d1 = normal_items d2 -> same_json (VDict d1) (VDict d2).
Proof. intros He. unfold same_json. cbn. fold (normal_items d1) (normal_items d2). by rewrite He. Qed.

Lemma normal_items_same d : same_json (VDict (normal_items d)) (VDict d).
Proof. apply same_dicts, normal_items_settle. Qed.

Lemma same_list l1 l2 : Forall2 same_json l1 l2 -> same_json (VList l1) (VList l2).
Proof. intros Hl. unfold same_json. cbn. f_equal. by apply list_fmap_Forall2_eq || (induction Hl; cbn; congruence). Qed.
End Canon.

(** ** Dicts up to the order of their items *)

Section DictPerm.
Context {K V : Type} `{EqDecision K}.
Implicit Types d : list (K * V).

Lemma ddel_filter k d : ddel k d = filter (fun kv => kv.1 <> k) d.
Proof.
  induction d as [|[k' v] d IH]; [done|]. rewrite filter_cons. cbn [ddel fst].
  destruct (decide (k = k')) as [<-|Hne]; destruct (decide _) as [Hx|Hx]; try done; try congruence.
Qed.

Lemma dget_perm k d d' : dwf d -> Permutation d d' -> dget k d = dget k d'.
Proof.
  intros Hd Hp. assert (Hd' : dwf d') by (unfold dwf, keys; by rewrite <- Hp).
  destruct (dget k d) as [v|] eqn:Hv; symmetry.
  - apply elem_dget; [done|]. rewrite <- Hp. by apply dget_elem.
  - apply dget_None. unfold keys. rewrite <- Hp. by apply dget_None.
Qed.

Lemma dset_same k v d : dget k d = Some v -> dset k v d = d.
Proof.
  induction d as [|[k' v'] d IH]; [done|]. cbn. destruct (decide (k = k')) as [<-|Hne]; [congruence|].
  intros Hv. by rewrite IH.
Qed.

Lemma dset_ddel k v d : dwf d -> k ∈ keys d -> Permutation (dset k v d) ((k, v) :: ddel k d).
Proof.
  induction d as [|[k' v'] d IH]; [by intros _ ?%elem_of_nil|]. unfold dwf. cbn. intros [Hn Hd]%NoDup_cons Hk.
  destruct (decide (k = k')) as [<-|Hne]; [by rewrite ddel_absent|].
  apply elem_of_cons in Hk as [?|Hk]; [done|]. rewrite IH by done. apply perm_swap.
Qed.

(** What a deleted item held does not matter. *)
Lemma ddel_other k v v' d1 d2 : ddel k (d1 ++ (k, v) :: d2) = ddel k (d1 ++ (k, v') :: d2).
Proof. rewrite !ddel_filter, !filter_app, !filter_cons. cbn [fst]. by rewrite !decide_False by (intros Hn; by apply Hn). Qed.

(** A field moved to the end. *)
Lemma dset_end k v d : dwf d -> dget k d = Some v -> Permutation (dset k v (ddel k d)) d.
Proof.
  intros Hd Hv. rewrite <- (dset_same k v d Hv) at 2.
  rewrite (dset_ddel k v d) by (done || by apply dget_Some_keys in Hv).
  rewrite dset_new by (intros [_ Hn]%keys_ddel_subset; done). by rewrite Permutation_app_comm.
Qed.

Lemma dset_perm k v d d' : dwf d -> k ∈ keys d -> Permutation d d' -> Permutation (dset k v d) (dset k v d').
Proof.
  intros Hd Hk Hp. assert (Hd' : dwf d') by (unfold dwf, keys; by rewrite <- Hp).
  assert (Hk' : k ∈ keys d') by (unfold keys; by rewrite <- Hp).
  rewrite !dset_ddel by done. rewrite !ddel_filter. by rewrite Hp.
Qed.

End DictPerm.
