(* ===== verification/ActionQueue.v ===== *)
(** Alert actions the user asks for: the request model ([alerts/action_model.py]),
    the queue of requests and its results ([alerts/action_queue.py]) and the trace of
    what happened to them ([alerts/action_trace.py]). *)

From S2P Require Import Prelude PyStr PyFloat PyDict PyJson PyTime Sql PyRepr.

(** ** [AlertActionType] *)

Inductive AlertActionType :=
| PRESERVE_EVIDENCE_SNAPSHOT | OPEN_TIMELINE | OPEN_EVENT_DETAILS | OPEN_FINDING | OPEN_INTEGRITY_DETAILS
| OPEN_NETWORK_INTELLIGENCE | OPEN_PERSISTENCE_INTELLIGENCE | OPEN_ROOTKIT_REVIEW | EXPORT_APPLE_EVIDENCE
| ACKNOWLEDGE | DISMISS.

Definition action_value (t : AlertActionType) : string :=
  match t with
  | PRESERVE_EVIDENCE_SNAPSHOT => "preserve_evidence_snapshot"
  | OPEN_TIMELINE => "open_timeline"
  | OPEN_EVENT_DETAILS => "open_event_details"
  | OPEN_FINDING => "open_finding"
  | OPEN_INTEGRITY_DETAILS => "open_integrity_details"
  | OPEN_NETWORK_INTELLIGENCE => "open_network_intelligence"
  | OPEN_PERSISTENCE_INTELLIGENCE => "open_persistence_intelligence"
  | OPEN_ROOTKIT_REVIEW => "open_rootkit_review"
  | EXPORT_APPLE_EVIDENCE => "export_apple_evidence"
  | ACKNOWLEDGE => "acknowledge"
  | DISMISS => "dismiss"
  end.

Definition HEADLESS_ACTIONS : list string := action_value <$> [PRESERVE_EVIDENCE_SNAPSHOT; ACKNOWLEDGE; DISMISS].
Definition GUI_ACTIONS : list string := action_value <$>
  [OPEN_TIMELINE; OPEN_EVENT_DETAILS; OPEN_FINDING; OPEN_INTEGRITY_DETAILS; OPEN_NETWORK_INTELLIGENCE;
   OPEN_PERSISTENCE_INTELLIGENCE; OPEN_ROOTKIT_REVIEW].

(** ** Requests and results

    A request in memory holds its two dicts, its row holds their JSON text. *)

Record ActionFields (D : Type) := {
  ar_action_type : string;
  ar_source_component : string;
  ar_event_id : string;
  ar_trace_id : string;
  ar_action_id : string;
  ar_created_at : string;
  ar_finding_id : string;
  ar_scan_id : string;
  ar_assessment_id : string;
  ar_severity : string;
  ar_category : string;
  ar_title : string;
  ar_summary : string;
  ar_source_db_path : string;
  ar_timeline_focus_time : string;
  ar_requested_by_user : bool;
  ar_requires_main_gui : bool;
  ar_can_run_headless : bool;
  ar_payload : D;
  ar_status : string;
  ar_error : string;
  ar_result : D
}.
Arguments ar_action_type {D} _.
Arguments ar_source_component {D} _.
Arguments ar_event_id {D} _.
Arguments ar_trace_id {D} _.
Arguments ar_action_id {D} _.
Arguments ar_created_at {D} _.
Arguments ar_finding_id {D} _.
Arguments ar_scan_id {D} _.
Arguments ar_assessment_id {D} _.
Arguments ar_severity {D} _.
Arguments ar_category {D} _.
Arguments ar_title {D} _.
Arguments ar_summary {D} _.
Arguments ar_source_db_path {D} _.
Arguments ar_timeline_focus_time {D} _.
Arguments ar_requested_by_user {D} _.
Arguments ar_requires_main_gui {D} _.
Arguments ar_can_run_headless {D} _.
Arguments ar_payload {D} _.
Arguments ar_status {D} _.
Arguments ar_error {D} _.
Arguments ar_result {D} _.

Definition AlertActionRequest : Type := ActionFields pydict.

(** Every field but the dicts, the status and the error. *)
Definition refields {D E} (gui headless : bool) (payload : E) (status error : string) (result : E)
    (r : ActionFields D) : ActionFields E := {|
  ar_action_type := ar_action_type r; ar_source_component := ar_source_component r; ar_event_id := ar_event_id r;
  ar_trace_id := ar_trace_id r; ar_action_id := ar_action_id r; ar_created_at := ar_created_at r;
  ar_finding_id := ar_finding_id r; ar_scan_id := ar_scan_id r; ar_assessment_id := ar_assessment_id r;
  ar_severity := ar_severity r; ar_category := ar_category r; ar_title := ar_title r; ar_summary := ar_summary r;
  ar_source_db_path := ar_source_db_path r; ar_timeline_focus_time := ar_timeline_focus_time r;
  ar_requested_by_user := ar_requested_by_user r; ar_requires_main_gui := gui; ar_can_run_headless := headless;
  ar_payload := payload; ar_status := status; ar_error := error; ar_result := result |}.

(** [__post_init__] *)
Definition post_init (r : AlertActionRequest) : AlertActionRequest :=
  refields (ar_requires_main_gui r || one_of (ar_action_type r) GUI_ACTIONS)
    (ar_can_run_headless r || one_of (ar_action_type r) HEADLESS_ACTIONS)
    (ar_payload r) (ar_status r) (ar_error r) (ar_result r) r.

Record AlertActionResult := {
  rs_action_id : string;
  rs_action_type : string;
  rs_event_id : string;
  rs_trace_id : string;
  rs_status : string;
  rs_started_at : string;
  rs_completed_at : string;
  rs_artifact_paths : list string;
  rs_opened_route : option pydict;
  rs_failure_stage : string;
  rs_user_message : string;
  rs_diagnostic_details : pydict
}.

(** [to_dict] *)
Definition result_dict (r : AlertActionResult) : pydict := [
  ("action_id", VStr (rs_action_id r)); ("action_type", VStr (rs_action_type r)); ("event_id", VStr (rs_event_id r));
  ("trace_id", VStr (rs_trace_id r)); ("status", VStr (rs_status r)); ("started_at", VStr (rs_started_at r));
  ("completed_at", VStr (rs_completed_at r)); ("artifact_paths", VList (VStr <$> rs_artifact_paths r));
  ("opened_route", match rs_opened_route r with Some d => VDict d | None => VNone end);
  ("failure_stage", VStr (rs_failure_stage r)); ("user_message", VStr (rs_user_message r));
  ("diagnostic_details", VDict (rs_diagnostic_details r))].

(** ** [request_from_alert_payload] *)

Section FromPayload.
Context `{PlatformEnv}.

(** [str(payload.get(k1) or payload.get(k2) or ... or "")] *)
Fixpoint first_text (ks : list string) (payload : pydict) : string :=
  match ks with
  | [] => ""
  | k :: ks' => if truthy_val (vget k payload) then py_str (vget k payload) else first_text ks' payload
  end.

Definition secret_keys : list string := ["secret"; "password"; "token"].

Definition request_from_alert_payload (payload : pydict) (action_type source_component source_db_path : string)
    (action_id created_at : string) : AlertActionRequest :=
  post_init {|
    ar_action_type := action_type;
    ar_source_component := source_component;
    ar_event_id := first_text ["event_id"; "background_event_id"; "monitor_event_id"] payload;
    ar_trace_id := first_text ["trace_id"; "alert_trace_id"; "visible_alert_id"] payload;
    ar_action_id := action_id;
    ar_created_at := created_at;
    ar_finding_id := first_text ["finding_id"] payload;
    ar_scan_id := first_text ["scan_id"] payload;
    ar_assessment_id := first_text ["assessment_id"] payload;
    ar_severity := first_text ["severity"] payload;
    ar_category := first_text ["category"; "event_type"] payload;
    ar_title := first_text ["title"] payload;
    ar_summary := first_text ["summary"; "details"; "evidence"] payload;
    ar_source_db_path := str_or source_db_path (first_text ["source_db_path"; "db_path"] payload);
    ar_timeline_focus_time := first_text ["timestamp"; "focus_time"] payload;
    ar_requested_by_user := true;
    ar_requires_main_gui := false;
    ar_can_run_headless := false;
    ar_payload := filter (fun kv => one_of kv.1 secret_keys = false) payload;
    ar_status := "pending";
    ar_error := "";
    ar_result := [] |}.
End FromPayload.

(** ** The tables

    Rows in rowid order; [INSERT OR REPLACE] removes the row with the same key and
    appends the new one. *)

Record request_row := { qr_fields : ActionFields json_text; qr_updated_at : string }.

(** [alert_action_results] *)
Record result_row := {
  sr_action_id : string;
  sr_action_type : string;
  sr_event_id : string;
  sr_trace_id : string;
  sr_status : string;
  sr_started_at : string;
  sr_completed_at : string;
  sr_artifact_paths : json_text;
  sr_opened_route : json_text;
  sr_failure_stage : string;
  sr_user_message : string;
  sr_diagnostic_details : json_text
}.

(** [alert_action_traces] *)
Record trace_row := {
  tc_action_id : string;
  tc_action_type : string;
  tc_event_id : string;
  tc_trace_id : string;
  tc_clicked_at : string;
  tc_enqueued_at : string;
  tc_started_at : string;
  tc_completed_at : string;
  tc_status : string;
  tc_source_component : string;
  tc_handled_by : string;
  tc_requires_main_gui : bool;
  tc_can_run_headless : bool;
  tc_artifact_paths : json_text;
  tc_opened_route : json_text;
  tc_failure_stage : string;
  tc_error : string;
  tc_user_message : string
}.

(** [pending_ui_routes] *)
Record route_row := {
  ur_route_id : string;
  ur_view : string;
  ur_params : json_text;
  ur_created_at : string;
  ur_source_action_id : string;
  ur_status : string;
  ur_consumed_at : string;
  ur_error : string
}.

Record ActionTables := {
  x_requests : list request_row;
  x_results : list result_row;
  x_traces : list trace_row;
  x_routes : list route_row
}.

Definition set_requests l t := {| x_requests := l; x_results := x_results t; x_traces := x_traces t; x_routes := x_routes t |}.
Definition set_results l t := {| x_requests := x_requests t; x_results := l; x_traces := x_traces t; x_routes := x_routes t |}.
Definition set_traces l t := {| x_requests := x_requests t; x_results := x_results t; x_traces := l; x_routes := x_routes t |}.
Definition set_routes l t := {| x_requests := x_requests t; x_results := x_results t; x_traces := x_traces t; x_routes := l |}.

Definition no_actions : ActionTables := {| x_requests := []; x_results := []; x_traces := []; x_routes := [] |}.

Definition ActionDb : Type := Conn ActionTables.

Definition has_key {A} (key : A -> string) (k : string) (x : A) : bool := String.eqb (key x) k.

(** [INSERT OR REPLACE] *)
Definition replace_row {A} (key : A -> string) (x : A) (l : list A) : list A :=
  filter (fun y => has_key key (key x) y = false) l ++ [x].

(** [UPDATE ... WHERE key = k] *)
Definition update_rows {A} (key : A -> string) (k : string) (f : A -> A) (l : list A) : list A :=
  (fun x => if has_key key k x then f x else x) <$> l.

Definition request_id (r : request_row) : string := ar_action_id (qr_fields r).

(** [_request_from_row] *)
Definition request_from_row (r : request_row) : AlertActionRequest :=
  let f := qr_fields r in
  post_init (refields (ar_requires_main_gui f) (ar_can_run_headless f) (json_dict (ar_payload f))
    (str_or (ar_status f) "pending") (ar_error f) (json_dict (ar_result f)) f).

(** The tuple of [enqueue_alert_action]'s parameters. *)
Definition row_of_request (request : AlertActionRequest) (now : string) : res request_row :=
  payload ← json_column (VDict (ar_payload request));
  result ← json_column (VDict (ar_result request));
  Ok {| qr_fields := refields (ar_requires_main_gui request) (ar_can_run_headless request) payload
          (ar_status request) (ar_error request) result request;
        qr_updated_at := now |}.

Definition row_of_result (r : AlertActionResult) : res result_row :=
  paths ← json_column (VList (VStr <$> rs_artifact_paths r));
  route ← json_column (VDict (default [] (rs_opened_route r)));
  details ← json_column (VDict (rs_diagnostic_details r));
  Ok {| sr_action_id := rs_action_id r; sr_action_type := rs_action_type r; sr_event_id := rs_event_id r;
        sr_trace_id := rs_trace_id r; sr_status := rs_status r; sr_started_at := rs_started_at r;
        sr_completed_at := rs_completed_at r; sr_artifact_paths := paths; sr_opened_route := route;
        sr_failure_stage := rs_failure_stage r; sr_user_message := rs_user_message r;
        sr_diagnostic_details := details |}.

(** What [_mark] sets. *)
Definition mark_row (status error : string) (result : json_text) (now : string) (r : request_row) : request_row :=
  let f := qr_fields r in {|
  qr_fields := refields (ar_requires_main_gui f) (ar_can_run_headless f) (ar_payload f) status error result f;
  qr_updated_at := now |}.

Definition start_trace (now handled_by : string) (r : trace_row) : trace_row := {|
  tc_action_id := tc_action_id r; tc_action_type := tc_action_type r; tc_event_id := tc_event_id r;
  tc_trace_id := tc_trace_id r; tc_clicked_at := tc_clicked_at r; tc_enqueued_at := tc_enqueued_at r;
  tc_started_at := now; tc_completed_at := tc_completed_at r; tc_status := "running";
  tc_source_component := tc_source_component r; tc_handled_by := handled_by;
  tc_requires_main_gui := tc_requires_main_gui r; tc_can_run_headless := tc_can_run_headless r;
  tc_artifact_paths := tc_artifact_paths r; tc_opened_route := tc_opened_route r;
  tc_failure_stage := tc_failure_stage r; tc_error := tc_error r; tc_user_message := tc_user_message r |}.

Definition close_trace (s : AlertActionResult) (paths route : json_text) (error : string) (r : trace_row) : trace_row := {|
  tc_action_id := tc_action_id r; tc_action_type := tc_action_type r; tc_event_id := tc_event_id r;
  tc_trace_id := tc_trace_id r; tc_clicked_at := tc_clicked_at r; tc_enqueued_at := tc_enqueued_at r;
  tc_started_at := tc_started_at r; tc_completed_at := rs_completed_at s; tc_status := rs_status s;
  tc_source_component := tc_source_component r; tc_handled_by := tc_handled_by r;
  tc_requires_main_gui := tc_requires_main_gui r; tc_can_run_headless := tc_can_run_headless r;
  tc_artifact_paths := paths; tc_opened_route := route;
  tc_failure_stage := rs_failure_stage s; tc_error := error; tc_user_message := rs_user_message s |}.

(** ** The operations *)

Section Queue.
Context `{StoreEnv}.

(** [ensure_alert_action_schema]: [executescript] commits what is pending before it
    runs the script, and a commit follows. The tables are there throughout. *)
Definition ensure_alert_action_schema : M ActionDb unit := commit;; commit.

Definition enqueue_alert_action (request : AlertActionRequest) : M ActionDb AlertActionRequest :=
  ensure_alert_action_schema;;
  now ← utc_now;
  row ← lift_res (row_of_request request now);
  sql_write (fun t => set_requests (replace_row request_id row (x_requests t)) t);;
  commit;;
  mret request.

Definition pending_states : list string := ["pending"; "queued_for_main_gui"].

Definition by_created (a b : request_row) : bool :=
  str_le (ar_created_at (qr_fields a)) (ar_created_at (qr_fields b)).

(** [ORDER BY created_at ASC]; rows of one instant stay in rowid order. *)
Definition pending_rows (t : ActionTables) : list request_row :=
  sort_by by_created (filter (fun r => one_of (ar_status (qr_fields r)) pending_states = true) (x_requests t)).

Definition get_pending_actions : M ActionDb (list AlertActionRequest) :=
  ensure_alert_action_schema;;
  rows ← sql_read pending_rows;
  mret (request_from_row <$> rows).

Definition find_request (action_id : string) (t : ActionTables) : option request_row :=
  find_first (has_key request_id action_id) (x_requests t).

Definition get_action (action_id : string) : M ActionDb (option AlertActionRequest) :=
  ensure_alert_action_schema;;
  row ← sql_read (find_request action_id);
  mret (request_from_row <$> row).

(** [_mark] *)
Definition mark (action_id status error : string) (result : pydict) : M ActionDb unit :=
  ensure_alert_action_schema;;
  text ← lift_res (json_column (VDict result));
  now ← utc_now;
  sql_write (fun t => set_requests (update_rows request_id action_id (mark_row status error text now) (x_requests t)) t);;
  commit.

Definition mark_action_running (action_id : string) : M ActionDb unit := mark action_id "running" "" [].

Definition mark_action_succeeded (result : AlertActionResult) : M ActionDb unit :=
  ensure_alert_action_schema;;
  mark (rs_action_id result) (rs_status result) "" (result_dict result);;
  row ← lift_res (row_of_result result);
  sql_write (fun t => set_results (replace_row sr_action_id row (x_results t)) t);;
  commit.

Definition mark_action_failed (action_id error failure_stage : string) : M ActionDb unit :=
  request ← get_action action_id;
  now ← utc_now;
  let of_request (f : AlertActionRequest -> string) := match request with Some r => f r | None => "" end in
  mark_action_succeeded {|
    rs_action_id := action_id; rs_action_type := of_request ar_action_type; rs_event_id := of_request ar_event_id;
    rs_trace_id := of_request ar_trace_id; rs_status := "failed"; rs_started_at := ""; rs_completed_at := now;
    rs_artifact_paths := []; rs_opened_route := None; rs_failure_stage := failure_stage;
    rs_user_message := "Action failed: " +:+ failure_stage +:+ "."; rs_diagnostic_details := [("error", VStr error)] |}.

(** [ORDER BY created_at DESC LIMIT 1]; of rows of one instant, the first. *)
Definition latest_row (event_id action_type : string) (t : ActionTables) : option request_row :=
  head (sort_by (fun a b => by_created b a)
    (filter (fun r => String.eqb (ar_event_id (qr_fields r)) event_id
                      && String.eqb (ar_action_type (qr_fields r)) action_type = true) (x_requests t))).

Definition get_latest_action_for_event (event_id action_type : string) : M ActionDb (option AlertActionRequest) :=
  ensure_alert_action_schema;;
  row ← sql_read (latest_row event_id action_type);
  mret (request_from_row <$> row).

Definition closed_states : list string := ["succeeded"; "failed"; "unsupported"].

(** Text comparison, as SQLite compares text columns. *)
Definition text_before (a b : string) : bool := str_le a b && negb (String.eqb a b).

Definition day_us : Z := 86400 * 1000000.

Definition cleanup_completed_actions (retention_days : Z) : M ActionDb unit :=
  ensure_alert_action_schema;;
  now ← utc_instant;
  let cutoff := isoformat_utc (now - retention_days * day_us) in
  sql_write (fun t => set_requests
    (filter (fun r => one_of (ar_status (qr_fields r)) closed_states && text_before (qr_updated_at r) cutoff = false)
       (x_requests t)) t);;
  sql_write (fun t => set_results
    (filter (fun r => text_before (sr_completed_at r) cutoff = false) (x_results t)) t);;
  commit.

(** ** The trace *)

Definition ensure_action_trace_schema : M ActionDb unit :=
  ensure_alert_action_schema;;
  sql_read (fun _ => tt);;
  commit.

Definition record_action_clicked (request : AlertActionRequest) : M ActionDb unit :=
  ensure_action_trace_schema;;
  now ← utc_now;
  sql_write (fun t => set_traces (replace_row tc_action_id {|
    tc_action_id := ar_action_id request; tc_action_type := ar_action_type request;
    tc_event_id := ar_event_id request; tc_trace_id := ar_trace_id request; tc_clicked_at := now;
    tc_enqueued_at := now; tc_started_at := ""; tc_completed_at := ""; tc_status := ar_status request;
    tc_source_component := ar_source_component request; tc_handled_by := "";
    tc_requires_main_gui := ar_requires_main_gui request; tc_can_run_headless := ar_can_run_headless request;
    tc_artifact_paths := JsonOf (VList []); tc_opened_route := JsonOf (VDict []); tc_failure_stage := "";
    tc_error := ""; tc_user_message := "" |} (x_traces t)) t);;
  commit.

Definition record_action_started (request : AlertActionRequest) (handled_by : string) : M ActionDb unit :=
  ensure_action_trace_schema;;
  now ← utc_now;
  sql_write (fun t => set_traces (update_rows tc_action_id (ar_action_id request) (start_trace now handled_by) (x_traces t)) t);;
  commit.

Definition record_action_result (result : AlertActionResult) (error : string) : M ActionDb unit :=
  ensure_action_trace_schema;;
  paths ← lift_res (json_column (VList (VStr <$> rs_artifact_paths result)));
  route ← lift_res (json_column (VDict (default [] (rs_opened_route result))));
  let text := str_or error (py_str (dget_default (VStr "") "error" (rs_diagnostic_details result))) in
  sql_write (fun t => set_traces (update_rows tc_action_id (rs_action_id result) (close_trace result paths route text) (x_traces t)) t);;
  commit.
End Queue.
