(* ===== verification/ActionHandler.v ===== *)
(** Handling an alert action: the handler ([alerts/action_handler.py]), timeline
    routes ([ui/routes.py], [ui/pending_routes.py]) and the check of the process the
    code runs in ([ui/gui_context.py]). *)

From S2P Require Import Prelude PyStr PyFloat PyDict PyJson PyTime Sql PyRepr ActionQueue.

(** ** [gui_context] *)

(** What the process looks like from inside. *)
Record ProcessView := {
  pv_monitor_role : string;   (** [MAC_AUDIT_AGENT_MONITOR_ROLE] *)
  pv_argv : list string;
  pv_has_qapplication : bool;
  pv_terminal : bool;         (** [CODEX_HOME], [TERM_PROGRAM] or [TERM] set and not empty *)
  pv_python_314 : bool        (** [sys.version_info >= (3, 14)] *)
}.

Record GuiExecutionContext := {
  gx_is_user_notifier_process : bool;
  gx_is_main_gui_app_process : bool;
  gx_is_system_daemon : bool;
  gx_is_cli_process : bool;
  gx_is_pre_uat_process : bool;
  gx_is_codex_or_terminal_process : bool;
  gx_has_qapplication_instance : bool;
  gx_can_create_qapplication : bool;
  gx_can_render_overlay : bool;
  gx_reason : string
}.

Definition detect_gui_execution_context (role : string) (p : ProcessView) : GuiExecutionContext :=
  let role_value := lower (strip (str_or role (pv_monitor_role p))) in
  let argv := lower (join " " (pv_argv p)) in
  let is_user_notifier := String.eqb role_value "user-notifier" || contains "mac_audit_agent.user_notifier" argv in
  let is_system_daemon := String.eqb role_value "system-daemon" || contains "--mode system-daemon" argv in
  let is_pre_uat := contains "pre_uat_audit" argv || contains "quality.pre_uat" argv in
  let is_main_gui := pv_has_qapplication p
    && (contains "mac_audit_agent.app" argv || contains "main_window" argv || String.eqb role_value "main-gui") in
  let can_render := (is_user_notifier || is_main_gui) && negb is_system_daemon in {|
  gx_is_user_notifier_process := is_user_notifier;
  gx_is_main_gui_app_process := is_main_gui;
  gx_is_system_daemon := is_system_daemon;
  gx_is_cli_process := negb is_user_notifier && negb is_main_gui;
  gx_is_pre_uat_process := is_pre_uat;
  gx_is_codex_or_terminal_process := pv_terminal p;
  gx_has_qapplication_instance := pv_has_qapplication p;
  gx_can_create_qapplication := can_render;
  gx_can_render_overlay := can_render;
  gx_reason :=
    if can_render then "GUI rendering is allowed in user notifier/main GUI context."
    else if is_system_daemon then "System daemon must route alerts through the user notifier."
    else if is_pre_uat then "Pre-UAT must enqueue alert tests for the user notifier, not create GUI windows."
    else "CLI/Terminal/Codex context must route alerts through the user notifier." |}.

Definition ensure_overlay_render_allowed (role : string) (p : ProcessView) : bool * string :=
  let context := detect_gui_execution_context role p in (gx_can_render_overlay context, gx_reason context).

Definition ensure_action_gui_safe (action_type role : string) (p : ProcessView) : bool * string :=
  let context := detect_gui_execution_context role p in
  if String.eqb action_type "preserve_evidence_snapshot"
  then (true, "Preserve Evidence Snapshot is headless-safe.")
  else if gx_is_main_gui_app_process context && gx_has_qapplication_instance context
  then (true, "Main GUI may handle GUI routes.")
  else if pv_python_314 p && negb (gx_is_main_gui_app_process context)
  then (false, "Python 3.14 non-app GUI runtime detected; route must be queued for the main GUI.")
  else if gx_is_user_notifier_process context || gx_is_system_daemon context || gx_is_cli_process context
  then (false, "Non-main-GUI context must queue GUI actions instead of creating QApplication.")
  else (false, gx_reason context).

(** ** Routes *)

Record Route := {
  ro_view : string;
  ro_params : pydict;
  ro_route_id : string;
  ro_created_at : string;
  ro_source_action_id : string;
  ro_status : string;
  ro_error : string
}.

Definition route_dict (r : Route) : pydict := [
  ("view", VStr (ro_view r)); ("params", VDict (ro_params r)); ("route_id", VStr (ro_route_id r));
  ("created_at", VStr (ro_created_at r)); ("source_action_id", VStr (ro_source_action_id r));
  ("status", VStr (ro_status r)); ("error", VStr (ro_error r))].

(** What the handler calls outside the modelled files: fresh identifiers, the process
    it runs in, the evidence snapshot service (a package the repository does not
    contain) and the acknowledgement of alert groups in the event database. *)
Class HandlerEnv := {
  #[global] handler_store :: StoreEnv;
  uuid : nat -> string;
  process_view : ProcessView;
  preserve_snapshot : AlertActionRequest -> M ActionDb AlertActionResult;
  acknowledge_group : string -> M ActionDb unit
}.

Section Routes.
Context `{HandlerEnv}.

Definition fresh_uuid : M ActionDb string := fun w => (Ok (uuid (ticks w)), tick w).

Definition build_timeline_route_from_alert_action (request : AlertActionRequest) : M ActionDb Route :=
  if negb (truthy (ar_event_id request)) && negb (truthy (ar_timeline_focus_time request))
  then raise_st (ValueError "Open Timeline requires event_id or focus_time.")
  else
    id ← fresh_uuid;
    now ← utc_now;
    mret {| ro_view := "timeline";
      ro_params := [
        ("event_id", VStr (ar_event_id request)); ("trace_id", VStr (ar_trace_id request));
        ("finding_id", VStr (ar_finding_id request)); ("focus_time", VStr (ar_timeline_focus_time request));
        ("category", VStr (ar_category request)); ("severity", VStr (ar_severity request));
        ("source_db_path", VStr (ar_source_db_path request)); ("time_window_before_seconds", VInt 300);
        ("time_window_after_seconds", VInt 300)];
      ro_route_id := "route-" +:+ id; ro_created_at := now; ro_source_action_id := ar_action_id request;
      ro_status := "pending"; ro_error := "" |}.

(** [ensure_pending_routes_schema] *)
Definition ensure_pending_routes_schema : M ActionDb unit := sql_read (fun _ => tt);; commit.

Definition row_of_route (r : Route) : res route_row :=
  params ← json_column (VDict (ro_params r));
  Ok {| ur_route_id := ro_route_id r; ur_view := ro_view r; ur_params := params; ur_created_at := ro_created_at r;
        ur_source_action_id := ro_source_action_id r; ur_status := ro_status r; ur_consumed_at := "";
        ur_error := ro_error r |}.

Definition enqueue_pending_route (route : Route) : M ActionDb Route :=
  ensure_pending_routes_schema;;
  row ← lift_res (row_of_route route);
  sql_write (fun t => set_routes (replace_row ur_route_id row (x_routes t)) t);;
  commit;;
  mret route.

Definition route_from_row (r : route_row) : Route := {|
  ro_view := ur_view r; ro_params := json_dict (ur_params r); ro_route_id := ur_route_id r;
  ro_created_at := ur_created_at r; ro_source_action_id := ur_source_action_id r;
  ro_status := str_or (ur_status r) "pending"; ro_error := ur_error r |}.

Definition get_pending_routes : M ActionDb (list Route) :=
  ensure_pending_routes_schema;;
  rows ← sql_read (fun t => sort_by (fun a b => str_le (ur_created_at a) (ur_created_at b))
    (filter (fun r => ur_status r = "pending") (x_routes t)));
  mret (route_from_row <$> rows).

Definition set_route_state (status consumed_at error : string) (r : route_row) : route_row := {|
  ur_route_id := ur_route_id r; ur_view := ur_view r; ur_params := ur_params r; ur_created_at := ur_created_at r;
  ur_source_action_id := ur_source_action_id r; ur_status := status; ur_consumed_at := consumed_at; ur_error := error |}.

Definition consume_pending_route (route_id : string) : M ActionDb unit :=
  ensure_pending_routes_schema;;
  now ← utc_now;
  sql_write (fun t => set_routes (update_rows ur_route_id route_id
    (fun r => set_route_state "consumed" now (ur_error r) r) (x_routes t)) t);;
  commit.

Definition mark_route_failed (route_id reason : string) : M ActionDb unit :=
  ensure_pending_routes_schema;;
  sql_write (fun t => set_routes (update_rows ur_route_id route_id
    (fun r => set_route_state "failed" (ur_consumed_at r) reason r) (x_routes t)) t);;
  commit.

(** A result for the request, [completed_at] filled from the clock. *)
Definition result_for (request : AlertActionRequest) (status started_at failure_stage user_message : string)
    (opened_route : option pydict) (details : pydict) : M ActionDb AlertActionResult :=
  now ← utc_now;
  mret {| rs_action_id := ar_action_id request; rs_action_type := ar_action_type request;
          rs_event_id := ar_event_id request; rs_trace_id := ar_trace_id request; rs_status := status;
          rs_started_at := started_at; rs_completed_at := now; rs_artifact_paths := [];
          rs_opened_route := opened_route; rs_failure_stage := failure_stage; rs_user_message := user_message;
          rs_diagnostic_details := details |}.

Definition queue_route (request : AlertActionRequest) (started : string) : M ActionDb AlertActionResult :=
  route ← build_timeline_route_from_alert_action request;
  enqueue_pending_route route;;
  result ← result_for request "queued_for_main_gui" started "pending_route_saved"
    "Timeline queued. Open MSAA to view it." (Some (route_dict route)) [];
  mark_action_succeeded result;;
  record_action_result result "";;
  mret result.

Definition route_failed (request : AlertActionRequest) (started : string) (e : exn) : M ActionDb AlertActionResult :=
  result ← result_for request "failed" started "route_failed" "Open Timeline failed: route_failed." None
    [("error", VStr (exn_text e))];
  mark_action_succeeded result;;
  record_action_result result (exn_text e);;
  mret result.

Definition open_or_queue_timeline_route (request : AlertActionRequest) : M ActionDb AlertActionResult :=
  started ← utc_now;
  try_except (queue_route request started) (route_failed request started).

(** ** [enqueue_and_handle_alert_action]

    The second component is the request as the caller sees it afterwards. *)

Definition with_payload (payload : pydict) (r : AlertActionRequest) : AlertActionRequest :=
  refields (ar_requires_main_gui r) (ar_can_run_headless r) payload (ar_status r) (ar_error r) (ar_result r) r.

Definition handle_enqueued (request : AlertActionRequest) : M ActionDb (AlertActionResult * AlertActionRequest) :=
  let type := ar_action_type request in
  if String.eqb type (action_value PRESERVE_EVIDENCE_SNAPSHOT)
  then result ← preserve_snapshot request; mret (result, request)
  else if String.eqb type (action_value OPEN_TIMELINE)
  then
    let (safe, reason) := ensure_action_gui_safe type "" process_view in
    let request := if (safe : bool) then request
                   else with_payload (dset "gui_safety_warning" (VStr reason) (ar_payload request)) request in
    result ← open_or_queue_timeline_route request; mret (result, request)
  else if one_of type [action_value ACKNOWLEDGE; action_value DISMISS]
  then
    let acknowledge := String.eqb type (action_value ACKNOWLEDGE) in
    when_st (acknowledge && truthy (ar_event_id request)) (acknowledge_group (ar_event_id request));;
    result ← result_for request "succeeded" "" ""
      (if acknowledge then "Alert acknowledged." else "Alert dismissed.") None [];
    mark_action_succeeded result;;
    record_action_result result "";;
    mret (result, request)
  else
    mark_action_failed (ar_action_id request) ("Unsupported action: " +:+ type) "unknown";;
    result ← result_for request "unsupported" "" "unknown" ("Unsupported alert action: " +:+ type +:+ ".") None [];
    mret (result, request).

Definition enqueue_and_handle_alert_action (request : AlertActionRequest)
    : M ActionDb (AlertActionResult * AlertActionRequest) :=
  enqueued ← try_except
    (enqueue_alert_action request;; record_action_clicked request;; mret (inl tt))
    (fun e => mret (inr e));
  match enqueued with
  | inl tt => handle_enqueued request
  | inr e =>
      result ← result_for request "failed" "" "db_write_failed" "Action failed: db_write_failed." None
        [("error", VStr (exn_text e))];
      mret (result, request)
  end.
End Routes.
