(* ===== verification/ActionQueueFacts.v ===== *)
(** The action queue refines a finite map from action ids to requests, whatever
    statements fail; what a request looks like when it is read back; the order of the
    pending ones. *)

From S2P Require Import Prelude PyStr PyFloat PyDict PyJson PyTime Sql PyRepr ActionQueue ActionHandler.

(** ** The abstract queue *)

Notation queue := (gmap string (AlertActionRequest * string)).

(** The dict that comes back from a JSON column. *)
Definition json_form (d : pydict) : option pydict :=
  match json_value (VDict d) with Ok (VDict d') => Some d' | _ => None end.

(** A request as the queue keeps it. *)
Definition stored (r : AlertActionRequest) : option AlertActionRequest :=
  match json_form (ar_payload r), json_form (ar_result r) with
  | Some p, Some q =>
      Some (post_init (refields (ar_requires_main_gui r) (ar_can_run_headless r) p (str_or (ar_status r) "pending")
        (ar_error r) q r))
  | _, _ => None
  end.

(** A request moved to another state. *)
Definition moved (status : string) (result : pydict) (now : string) (x : AlertActionRequest * string)
    : AlertActionRequest * string :=
  (refields (ar_requires_main_gui x.1) (ar_can_run_headless x.1) (ar_payload x.1) (str_or status "pending") "" result x.1,
   now).

Definition failed_result (m : queue) (action_id error failure_stage completed : string) : AlertActionResult :=
  let of_request (f : AlertActionRequest -> string) := match fst <$> m !! action_id with Some r => f r | None => "" end in {|
  rs_action_id := action_id; rs_action_type := of_request ar_action_type; rs_event_id := of_request ar_event_id;
  rs_trace_id := of_request ar_trace_id; rs_status := "failed"; rs_started_at := ""; rs_completed_at := completed;
  rs_artifact_paths := []; rs_opened_route := None; rs_failure_stage := failure_stage;
  rs_user_message := "Action failed: " +:+ failure_stage +:+ "."; rs_diagnostic_details := [("error", VStr error)] |}.

Definition kept_after (cutoff : string) (x : AlertActionRequest * string) : bool :=
  negb (one_of (ar_status x.1) closed_states && text_before x.2 cutoff).

Inductive queue_op :=
| Enqueue (request : AlertActionRequest)
| MarkRunning (action_id : string)
| MarkSucceeded (result : AlertActionResult)
| MarkFailed (action_id error failure_stage : string)
| Cleanup (retention_days : Z).

(** What each operation does to the map, for the clock readings it made. *)
Inductive spec_op : queue_op -> queue -> queue -> Prop :=
| spec_enqueue request s now m : stored request = Some s ->
    spec_op (Enqueue request) m (<[ar_action_id request := (s, now)]> m)
| spec_running action_id now m : spec_op (MarkRunning action_id) m (alter (moved "running" [] now) action_id m)
| spec_succeeded result d now m : json_form (result_dict result) = Some d ->
    spec_op (MarkSucceeded result) m (alter (moved (rs_status result) d now) (rs_action_id result) m)
| spec_failed action_id error stage completed d now m :
    json_form (result_dict (failed_result m action_id error stage completed)) = Some d ->
    spec_op (MarkFailed action_id error stage) m (alter (moved "failed" d now) action_id m)
| spec_cleanup retention_days cutoff m :
    spec_op (Cleanup retention_days) m (filter (fun kv => kept_after cutoff kv.2 = true) m).

Definition run_op `{StoreEnv} (op : queue_op) : M ActionDb unit :=
  match op with
  | Enqueue request => enqueue_alert_action request;; mret tt
  | MarkRunning action_id => mark_action_running action_id
  | MarkSucceeded result => mark_action_succeeded result
  | MarkFailed action_id error stage => mark_action_failed action_id error stage
  | Cleanup days => cleanup_completed_actions days
  end.

(** ** The table as a map *)

Definition entry (r : request_row) : AlertActionRequest * string := (request_from_row r, qr_updated_at r).

Definition view (t : ActionTables) : queue :=
  list_to_map ((fun r => (request_id r, entry r)) <$> x_requests t).

Definition unique_ids (t : ActionTables) : Prop := NoDup (request_id <$> x_requests t).

Section Rows.
Context {A : Type} (key : A -> string).

Lemma find_replace k x l :
  find_first (has_key key k) (replace_row key x l) = if decide (k = key x) then Some x else find_first (has_key key k) l.
Proof.
  unfold replace_row, has_key. induction l as [|y l IH].
  - cbn. destruct (String.eqb_spec (key x) k); by destruct (decide (k = key x)).
  - rewrite filter_cons. destruct (String.eqb_spec (key y) (key x)) as [Hy|Hy].
    + rewrite decide_False by done. rewrite IH. destruct (decide (k = key x)) as [->|Hk]; [done|]. cbn.
      destruct (String.eqb_spec (key y) k); [congruence|done].
    + rewrite decide_True by done. cbn. destruct (String.eqb_spec (key y) k) as [<-|Hk]; [|apply IH].
      by rewrite decide_False.
Qed.

Lemma find_update k k' f l : (forall x, key (f x) = key x) ->
  find_first (has_key key k) (update_rows key k' f l)
  = (if decide (k = k') then f <$> find_first (has_key key k) l else find_first (has_key key k) l).
Proof.
  intros Hf. unfold update_rows, has_key. induction l as [|y l IH]; cbn; [by destruct (decide _)|].
  destruct (String.eqb_spec (key y) k') as [Hy|Hy].
  - rewrite Hf. destruct (String.eqb_spec (key y) k) as [Hk|Hk]; [|apply IH].
    by rewrite decide_True by congruence.
  - destruct (String.eqb_spec (key y) k) as [Hk|Hk]; [|apply IH]. by rewrite decide_False by congruence.
Qed.

Lemma find_absent k l : k ∉ key <$> l -> find_first (has_key key k) l = None.
Proof.
  intros Hk. apply find_first_None, Forall_forall. intros x Hx. apply String.eqb_neq. intros <-.
  apply Hk, list_elem_of_fmap. eauto.
Qed.

Lemma find_filter (p : A -> bool) k l : NoDup (key <$> l) ->
  find_first (has_key key k) (filter (fun x => p x = true) l)
  = (match find_first (has_key key k) l with Some x => if p x then Some x else None | None => None end).
Proof.
  induction l as [|y l IH]; [done|]. rewrite fmap_cons, NoDup_cons. intros [Hn Hd]. rewrite filter_cons. cbn.
  unfold has_key at 2. destruct (String.eqb_spec (key y) k) as [<-|Hk].
  - destruct (p y) eqn:Hp.
    + rewrite decide_True by done. cbn. unfold has_key. by rewrite String.eqb_refl.
    + rewrite decide_False by done. rewrite IH, find_absent by done. done.
  - destruct (decide (p y = true)); [cbn; unfold has_key at 1|]; rewrite ?IH by done; [|done].
    by rewrite (proj2 (String.eqb_neq _ _) Hk).
Qed.

Lemma NoDup_replace x l : NoDup (key <$> l) -> NoDup (key <$> replace_row key x l).
Proof.
  intros Hd. unfold replace_row. rewrite fmap_app. apply NoDup_app. split; [|split; [|apply NoDup_singleton]].
  - eapply sublist_NoDup; [exact Hd|]. apply fmap_sublist, sublist_filter.
  - intros k (y & -> & Hy)%list_elem_of_fmap Hk. apply list_elem_of_filter in Hy as [Hy _].
    apply list_elem_of_singleton in Hk. apply String.eqb_neq in Hy. done.
Qed.

Lemma keys_update k f l : (forall x, key (f x) = key x) -> key <$> update_rows key k f l = key <$> l.
Proof.
  intros Hf. unfold update_rows. rewrite <- list_fmap_compose. apply list_fmap_ext. intros i x _. cbn.
  by destruct (has_key key k x).
Qed.

Lemma NoDup_filtered (p : A -> bool) l : NoDup (key <$> l) -> NoDup (key <$> filter (fun x => p x = true) l).
Proof. intros Hd. eapply sublist_NoDup; [exact Hd|]. apply fmap_sublist, sublist_filter. Qed.
End Rows.

Lemma lookup_view t k : view t !! k = entry <$> find_request k t.
Proof.
  unfold view, find_request. induction (x_requests t) as [|r l IH]; [apply lookup_empty|].
  rewrite fmap_cons, list_to_map_cons. cbn [find_first fst snd].
  unfold has_key at 1. destruct (String.eqb_spec (request_id r) k) as [<-|Hk].
  - by rewrite lookup_insert_eq.
  - by rewrite lookup_insert_ne.
Qed.

(** ** The steps on the table *)

Section Steps.
Context `{StoreEnv}.

Definition holds (m : queue) (t : ActionTables) : Prop := unique_ids t /\ view t = m.

Lemma holds_view t : unique_ids t -> holds (view t) t.
Proof. by split. Qed.

Lemma json_form_column d d' : json_column (VDict d) = Ok d' -> exists f, json_form d = Some f /\ d' = JsonOf (VDict f).
Proof.
  unfold json_column, json_form. cbn [json_value]. destruct (res_map _ d) as [kvs|]; [|done].
  intros [= <-]. eauto.
Qed.

Lemma row_stored request now row : row_of_request request now = Ok row ->
  exists s, stored request = Some s /\ entry row = (s, now) /\ request_id row = ar_action_id request.
Proof.
  unfold row_of_request. intros (p & (p' & Hp & ->)%json_form_column & Hr)%res_bind_ok.
  apply res_bind_ok in Hr as (q & (q' & Hq & ->)%json_form_column & [= <-]).
  unfold stored. rewrite Hp, Hq. eexists. by split.
Qed.

Lemma holds_replace m t request now row s : row_of_request request now = Ok row -> stored request = Some s ->
  holds m t -> holds (<[ar_action_id request := (s, now)]> m) (set_requests (replace_row request_id row (x_requests t)) t).
Proof.
  intros (s' & Hs' & He & Hid)%row_stored Hs [Hu <-]. rewrite Hs in Hs'. injection Hs' as <-.
  split; [by apply NoDup_replace|]. apply map_eq. intros k. rewrite lookup_view. unfold find_request. cbn [x_requests set_requests].
  rewrite find_replace, Hid. destruct (decide (k = ar_action_id request)) as [->|Hk].
  - rewrite lookup_insert_eq. cbn. by rewrite He.
  - by rewrite lookup_insert_ne, lookup_view by congruence.
Qed.

Lemma entry_mark status d now row : entry (mark_row status "" (JsonOf (VDict d)) now row) = moved status d now (entry row).
Proof. done. Qed.

Lemma holds_mark m t id status d now : holds m t ->
  holds (alter (moved status d now) id m)
    (set_requests (update_rows request_id id (mark_row status "" (JsonOf (VDict d)) now) (x_requests t)) t).
Proof.
  intros [Hu <-]. split; [unfold unique_ids; cbn [x_requests set_requests]; by rewrite keys_update|].
  apply map_eq. intros k. rewrite lookup_view. unfold find_request. cbn [x_requests set_requests].
  rewrite find_update by done. destruct (decide (k = id)) as [->|Hk].
  - rewrite lookup_alter_eq, lookup_view. unfold find_request. destruct (find_first _ _); [|done]. cbn.
    by rewrite entry_mark.
  - by rewrite lookup_alter_ne, lookup_view by congruence.
Qed.

Lemma kept_entry cutoff r :
  negb (one_of (ar_status (qr_fields r)) closed_states && text_before (qr_updated_at r) cutoff) = kept_after cutoff (entry r).
Proof.
  unfold kept_after, entry, request_from_row, post_init, refields, str_or, truthy. cbn -[one_of].
  by destruct (String.eqb_spec (ar_status (qr_fields r)) "") as [->|].
Qed.

Lemma holds_cleanup m t cutoff : holds m t ->
  holds (filter (fun kv => kept_after cutoff kv.2 = true) m)
    (set_requests (filter (fun r => one_of (ar_status (qr_fields r)) closed_states && text_before (qr_updated_at r) cutoff = false)
       (x_requests t)) t).
Proof.
  intros [Hu <-].
  assert (forall l : list request_row,
      filter (fun r => one_of (ar_status (qr_fields r)) closed_states && text_before (qr_updated_at r) cutoff = false) l
      = filter (fun r => kept_after cutoff (entry r) = true) l) as ->.
  { intros l. apply list_filter_iff. intros r. rewrite <- kept_entry. by rewrite negb_true_iff. }
  split; [by apply NoDup_filtered|]. apply map_eq. intros k. rewrite lookup_view. unfold find_request. cbn [x_requests set_requests].
  rewrite find_filter by done. rewrite map_lookup_filter, lookup_view. unfold find_request.
  destruct (find_first _ _) as [r|]; [|done]. cbn. by destruct (kept_after cutoff (entry r)).
Qed.

(** ** Every operation, whatever fails *)

Definition before (m : queue) : ActionDb -> Prop := tables_st (fun _ => holds m).
Definition after (op : queue_op) (m : queue) (t : ActionTables) : Prop := exists m', spec_op op m m' /\ holds m' t.

(** An operation that returns has done its work and published it. *)
Definition did (op : queue_op) (m : queue) (w : ActionDb) : Prop := working w = committed w /\ after op m (working w).
(** One that raises has done all of its work on the requests or none of it. *)
Definition torn (op : queue_op) (m : queue) : ActionDb -> Prop := tables_st (fun _ t => holds m t \/ after op m t).

Lemma ensure_keeps (P : ActionTables -> Prop) : preserves (tables_st (fun _ => P)) ensure_alert_action_schema.
Proof. unfold ensure_alert_action_schema. auto with msaa. Qed.
Hint Resolve ensure_keeps : msaa.

Lemma torn_before op m w : before m w -> torn op m w.
Proof. by left. Qed.
Lemma torn_after op m w : tables_st (fun _ => after op m) w -> torn op m w.
Proof. by right. Qed.
Hint Resolve torn_before torn_after : msaa.

(** The last commit of an operation. *)
Lemma commit_did op m : triple (tables_st (fun _ => after op m)) commit (fun _ => did op m) (fun _ => torn op m).
Proof. eapply triple_weaken; [apply triple_commit_working|done|done|eauto with msaa]. Qed.

(** The write an operation turns on, and what follows it. *)
Lemma write_then {A} op m f (rest : M ActionDb A) :
  (forall t, holds m t -> after op m (f t)) ->
  triple (tables_st (fun _ => after op m)) rest (fun _ => did op m) (fun _ => torn op m) ->
  triple (before m) (sql_write f;; rest) (fun _ => did op m) (fun _ => torn op m).
Proof.
  intros Hf Hr. apply triple_bind with (R := fun _ => tables_st (fun _ => after op m)); [|done].
  eapply triple_weaken; [apply (triple_write (fun _ => holds m) (fun _ => after op m)); auto|done|done|eauto with msaa].
Qed.

Definition marked (id status : string) (d : pydict) (m : queue) (t : ActionTables) : Prop :=
  exists d' now, json_form d = Some d' /\ holds (alter (moved status d' now) id m) t.

Lemma mark_triple id status d m :
  triple (before m) (mark id status "" d) (fun _ w => working w = committed w /\ marked id status d m (working w))
    (fun _ => tables_st (fun _ t => holds m t \/ marked id status d m t)).
Proof.
  unfold mark. apply triple_seq_weak; [apply ensure_keeps|by left|]. intros [].
  destruct (json_column (VDict d)) as [text|e] eqn:Hj; [|by intros w Hw; left].
  apply json_form_column in Hj as (d' & Hd & ->). intros w. revert w.
  change (triple (before m) (now ← utc_now;
    sql_write (fun t => set_requests (update_rows request_id id (mark_row status "" (JsonOf (VDict d')) now) (x_requests t)) t);;
    commit) (fun _ w => working w = committed w /\ marked id status d m (working w))
    (fun _ => tables_st (fun _ t => holds m t \/ marked id status d m t))).
  apply triple_seq_weak; [apply preserves_now|by left|]. intros now.
  apply triple_bind with (R := fun _ => tables_st (fun _ => marked id status d m)).
  - eapply triple_weaken; [apply (triple_write (fun _ => holds m) (fun _ => marked id status d m))|done|done|by left].
    intros _ t Ht. exists d', now. split; [done|]. by apply holds_mark.
  - intros []. eapply triple_weaken; [apply triple_commit_working|done|done|by right].
Qed.

(** The results table does not matter to the map. *)
Lemma marked_results id status d m l t : marked id status d m t -> marked id status d m (set_results l t).
Proof. done. Qed.

Lemma succeeded_triple result m :
  triple (before m) (mark_action_succeeded result)
    (fun _ w => working w = committed w /\ marked (rs_action_id result) (rs_status result) (result_dict result) m (working w))
    (fun _ => tables_st (fun _ t => holds m t \/ marked (rs_action_id result) (rs_status result) (result_dict result) m t)).
Proof.
  set (Q := marked (rs_action_id result) (rs_status result) (result_dict result) m).
  unfold mark_action_succeeded. apply triple_seq_weak; [apply ensure_keeps|by left|]. intros [].
  apply triple_bind with (R := fun _ => tables_st (fun _ => Q)).
  { eapply triple_weaken; [apply mark_triple|done| |done]. by intros _ w [_ Hw]. }
  intros []. apply triple_seq_weak; [apply preserves_lift|by right|]. intros row.
  apply triple_seq_weak; [by apply preserves_write|by right|]. intros [].
  eapply triple_weaken; [apply triple_commit_working|done|done|by right].
Qed.

Lemma enqueue_triple request m : triple (before m) (run_op (Enqueue request)) (fun _ => did (Enqueue request) m) (fun _ => torn (Enqueue request) m).
Proof.
  unfold run_op, enqueue_alert_action. apply triple_bind with (R := fun _ => did (Enqueue request) m); [|by intros _ w Hw].
  apply triple_seq_weak; [apply ensure_keeps|apply torn_before|]. intros [].
  apply triple_seq_weak; [apply preserves_now|apply torn_before|]. intros now.
  destruct (row_of_request request now) as [row|e] eqn:Hr; [|by intros w Hw; left]. intros w. revert w.
  change (triple (before m) (sql_write (fun t => set_requests (replace_row request_id row (x_requests t)) t);; commit;; mret request)
    (fun _ => did (Enqueue request) m) (fun _ => torn (Enqueue request) m)).
  apply write_then.
  - intros t Ht. destruct (row_stored _ _ _ Hr) as (s & Hs & _). eexists. split; [by constructor|]. by eapply holds_replace.
  - eapply triple_bind; [apply commit_did|]. by intros [] w Hw.
Qed.

(** An operation that is one [_mark] at heart. *)
Lemma marked_did op id status d m w :
  (forall d' now, json_form d = Some d' -> spec_op op m (alter (moved status d' now) id m)) ->
  working w = committed w /\ marked id status d m (working w) -> did op m w.
Proof. intros Hs [Hw (d' & now & Hd & Ht)]. split; [done|]. eexists. split; [by apply Hs|done]. Qed.

Lemma marked_torn op id status d m w :
  (forall d' now, json_form d = Some d' -> spec_op op m (alter (moved status d' now) id m)) ->
  tables_st (fun _ t => holds m t \/ marked id status d m t) w -> torn op m w.
Proof. intros Hs [Hw|(d' & now & Hd & Ht)]; [by left|]. right. eexists. split; [by apply Hs|done]. Qed.

Lemma running_triple id m :
  triple (before m) (run_op (MarkRunning id)) (fun _ => did (MarkRunning id) m) (fun _ => torn (MarkRunning id) m).
Proof.
  eapply triple_weaken; [apply mark_triple|done| |]; intros ? w; [apply marked_did|apply marked_torn];
    intros d' now [= <-]; constructor.
Qed.

Lemma succeed_triple result m : triple (before m) (run_op (MarkSucceeded result)) (fun _ => did (MarkSucceeded result) m)
  (fun _ => torn (MarkSucceeded result) m).
Proof.
  eapply triple_weaken; [apply succeeded_triple|done| |]; intros ? w; [apply marked_did|apply marked_torn];
    intros d' now Hd; by constructor.
Qed.

(** What [get_action] returns is what the map holds. *)
Lemma get_triple id m :
  triple (before m) (get_action id) (fun a => tables_st (fun _ t => holds m t /\ a = fst <$> m !! id)) (fun _ => before m).
Proof.
  unfold get_action. apply triple_seq; [apply ensure_keeps|]. intros [].
  eapply triple_bind; [apply (triple_read (fun _ => holds m))|]. intros row w [[Hu <-] ->]. split; [done|].
  rewrite lookup_view. by destruct (find_request id (working w)).
Qed.

Lemma fail_triple id error stage m : triple (before m) (run_op (MarkFailed id error stage))
  (fun _ => did (MarkFailed id error stage) m) (fun _ => torn (MarkFailed id error stage) m).
Proof.
  cbn [run_op]. unfold mark_action_failed.
  eapply triple_bind; [eapply triple_weaken; [apply get_triple|done|done|by eauto with msaa]|]. intros a.
  apply triple_bind with (R := fun _ => tables_st (fun _ t => holds m t /\ a = fst <$> m !! id)); [by intros w Hw|].
  intros now w [Hw ->]. revert w Hw.
  set (r := failed_result m id error stage now).
  assert (forall d' now, json_form (result_dict r) = Some d' ->
    spec_op (MarkFailed id error stage) m (alter (moved "failed" d' now) id m)) as Hs.
  { intros d' now' Hd. by apply spec_failed with now. }
  change (triple (before m) (mark_action_succeeded r) (fun _ => did (MarkFailed id error stage) m)
    (fun _ => torn (MarkFailed id error stage) m)).
  eapply triple_weaken; [apply succeeded_triple|done| |]; intros ? w; [by apply marked_did|by apply marked_torn].
Qed.

Lemma cleanup_triple days m : triple (before m) (run_op (Cleanup days)) (fun _ => did (Cleanup days) m) (fun _ => torn (Cleanup days) m).
Proof.
  cbn [run_op]. unfold cleanup_completed_actions.
  apply triple_seq_weak; [apply ensure_keeps|apply torn_before|]. intros [].
  apply triple_seq_weak; [apply preserves_instant|apply torn_before|]. intros now. apply write_then.
  - intros t Ht. eexists. split; [by constructor|]. by apply holds_cleanup.
  - apply triple_seq_weak; [by apply preserves_write|apply torn_after|]. intros []. apply commit_did.
Qed.

Lemma run_op_triple op m : triple (before m) (run_op op) (fun _ => did op m) (fun _ => torn op m).
Proof.
  destruct op; eauto using enqueue_triple, running_triple, succeed_triple, fail_triple, cleanup_triple.
Qed.
End Steps.

(** The pending actions come oldest first, each exactly once. *)
Lemma pending_in_creation_order t :
  Sorted (fun a b => by_created a b = true) (pending_rows t)
  /\ Permutation (pending_rows t) (filter (fun r => one_of (ar_status (qr_fields r)) pending_states = true) (x_requests t)).
Proof.
  split; [|apply sort_by_perm]. apply sort_by_sorted. intros a b. unfold by_created, str_le.
  destruct (String.leb_total (ar_created_at (qr_fields a)) (ar_created_at (qr_fields b))); congruence.
Qed.

(** ** Sequences of operations *)

Section Sequences.
Context `{StoreEnv}.

(** Callers go on after an exception; the outcomes say which operations returned. *)
Fixpoint run_ops (ops : list queue_op) (w : ActionDb) : list (queue_op * bool) * ActionDb :=
  match ops with
  | [] => ([], w)
  | op :: ops' =>
      let (r, w1) := run_op op w in
      let (outcomes, w2) := run_ops ops' w1 in
      ((op, is_ok r) :: outcomes, w2)
  end.

(** A history of the map that explains the outcomes: an operation that returned took
    its step, one that raised took it or did not. *)
Inductive explains : list (queue_op * bool) -> queue -> queue -> Prop :=
| explains_nil m : explains [] m m
| explains_step op ok outcomes m m' m'' :
    spec_op op m m' -> explains outcomes m' m'' -> explains ((op, ok) :: outcomes) m m''
| explains_skip op outcomes m m' : explains outcomes m m' -> explains ((op, false) :: outcomes) m m'.

Lemma run_op_outcome op w : unique_ids (working w) ->
  let (r, w1) := run_op op w in
  unique_ids (working w1)
  /\ (is_ok r = true -> spec_op op (view (working w)) (view (working w1)) /\ working w1 = committed w1)
  /\ (is_ok r = false -> view (working w1) = view (working w) \/ spec_op op (view (working w)) (view (working w1))).
Proof.
  intros Hu. pose proof (run_op_triple op (view (working w)) w (holds_view _ Hu)) as Ht.
  destruct (run_op op w) as [[[]|e] w1].
  - destruct Ht as (Hw & m' & Hs & Hu' & <-). repeat split; by auto.
  - destruct Ht as [[Hu' Hv]|(m' & Hs & Hu' & <-)]; repeat split; auto; done.
Qed.

Lemma run_ops_explained ops w : unique_ids (working w) ->
  let (outcomes, w') := run_ops ops w in
  outcomes.*1 = ops /\ unique_ids (working w') /\ explains outcomes (view (working w)) (view (working w'))
  /\ (forall op, last outcomes = Some (op, true) -> working w' = committed w').
Proof.
  revert w. induction ops as [|op ops IH]; intros w Hu; cbn [run_ops]; [repeat split; [done|constructor|done]|].
  pose proof (run_op_outcome op w Hu) as Ho. destruct (run_op op w) as [r w1]. destruct Ho as (Hu1 & Hok & Hbad).
  specialize (IH w1 Hu1). destruct (run_ops ops w1) as [outcomes w2] eqn:Hrun. destruct IH as (Hops & Hu2 & He & Hl).
  split; [cbn; by rewrite Hops|]. split; [done|]. split.
  2: { intros op' Hlast. destruct outcomes as [|o outcomes]; [|by apply (Hl op')].
       injection Hlast as _ Hr. destruct ops; [|done]. injection Hrun as <-. by apply Hok. }
  destruct (is_ok r) eqn:Hr.
  - eapply explains_step; [by apply Hok|done].
  - destruct (Hbad eq_refl) as [Hv|Hs]; [|by eapply explains_step]. apply explains_skip. by rewrite <- Hv.
Qed.
End Sequences.

(** ** What is read back *)

Lemma json_form_settles d d' : json_form d = Some d' -> json_form d' = Some d'.
Proof.
  unfold json_form. destruct (json_value (VDict d)) as [v|] eqn:Hv; [|done].
  assert (exists f, v = VDict f) as [f ->].
  { cbn [json_value] in Hv. apply res_bind_ok in Hv as (kvs & _ & [= <-]). eauto. }
  intros [= <-]. by rewrite (json_value_settles _ _ Hv).
Qed.

Lemma str_or_idem s d : str_or (str_or s d) d = str_or s d.
Proof. unfold str_or. destruct (truthy s) eqn:Hs; [by rewrite Hs|]. by destruct (truthy d). Qed.

(** What the queue stores is stored again unchanged. *)
Lemma stored_settles r s : stored r = Some s -> stored s = Some s.
Proof.
  unfold stored. destruct (json_form (ar_payload r)) as [p|] eqn:Hp; [|done].
  destruct (json_form (ar_result r)) as [q|] eqn:Hq; [|done]. intros [= <-].
  cbn -[orb one_of json_form str_or].
  rewrite (json_form_settles _ _ Hp), (json_form_settles _ _ Hq). unfold post_init, refields. cbn -[orb one_of str_or].
  rewrite <- !orb_assoc, !orb_diag. by rewrite str_or_idem.
Qed.

(** C33. The queue of action requests refines a finite map from action ids to requests,
    whatever statements of the database fail: after any sequence of operations, callers
    going on after exceptions, the rows are a map whose history explains the outcomes.
    An operation that returned took its step of the map exactly, one that raised took
    it whole or not at all, no id ever has two rows, what the last returning operation
    did is committed, and [get_action] reads the map. *)
Theorem queue_refines_map `{StoreEnv} (ops : list queue_op) (w : ActionDb) (Hu : unique_ids (working w)) :
  let (outcomes, w') := run_ops ops w in
  outcomes.*1 = ops
  /\ unique_ids (working w')
  /\ explains outcomes (view (working w)) (view (working w'))
  /\ (forall op, last outcomes = Some (op, true) -> working w' = committed w')
  /\ (forall id a w'', get_action id w' = (Ok a, w'') -> a = fst <$> view (working w') !! id).
Proof.
  pose proof (run_ops_explained ops w Hu) as Hr. destruct (run_ops ops w) as [outcomes w'].
  destruct Hr as (Hops & Hu' & He & Hl). repeat split; try done. intros id a w'' Hg.
  pose proof (get_triple id (view (working w')) w' (holds_view _ Hu')) as Ht. rewrite Hg in Ht. apply Ht.
Qed.

(** ** A queue at work, its eighth statement failing *)

Definition queue_env : StoreEnv := {|
  store_platform := plain_env;
  utc_clock := fun n => 1784367000000000 + Z.of_nat n;
  stmt_ok := fun n => negb (n =? 8)%nat;
  database_bytes := fun _ => 0;
  integrity_key := "key" |}.

Definition no_actions_db : ActionDb := {| committed := no_actions; working := no_actions; in_tx := false; ticks := 0 |}.

Definition sample_action (id type : string) : AlertActionRequest :=
  request_from_alert_payload (H := plain_env)
    [("event_id", VStr "event-1"); ("token", VStr "s3cret"); ("tags", VTuple [VStr "b"; VInt 2])]
    type "notifier" "" id "2026-07-18T09:30:00+00:00".

Definition sample_result (id : string) : AlertActionResult := {|
  rs_action_id := id; rs_action_type := "acknowledge"; rs_event_id := "event-1"; rs_trace_id := "";
  rs_status := "succeeded"; rs_started_at := ""; rs_completed_at := "2026-07-18T09:31:00+00:00";
  rs_artifact_paths := []; rs_opened_route := None; rs_failure_stage := ""; rs_user_message := "Alert acknowledged.";
  rs_diagnostic_details := [] |}.

Definition sample_ops : list queue_op := [
  Enqueue (sample_action "a-1" "acknowledge"); MarkRunning "a-1"; MarkSucceeded (sample_result "a-1");
  MarkFailed "a-1" "late" "unknown"; Cleanup 30].

Example sample_outcomes :
  (run_ops (H := queue_env) sample_ops no_actions_db).1.*2 = [true; false; true; true; true]
  /\ (let w := (run_ops (H := queue_env) sample_ops no_actions_db).2 in
      (fun r => (ar_status (request_from_row r), ar_payload (request_from_row r))) <$> x_requests (committed w)
      = [("failed", [("event_id", VStr "event-1"); ("tags", VList [VStr "b"; VInt 2])])]).
Proof. by vm_compute. Qed.

Lemma queue_refines_map_witness :
  let (outcomes, w') := run_ops (H := queue_env) sample_ops no_actions_db in
  outcomes.*1 = sample_ops
  /\ unique_ids (working w')
  /\ explains outcomes (view (working no_actions_db)) (view (working w'))
  /\ (forall op, last outcomes = Some (op, true) -> working w' = committed w')
  /\ (forall id a w'', get_action (H := queue_env) id w' = (Ok a, w'') -> a = fst <$> view (working w') !! id).
Proof. apply (@queue_refines_map queue_env sample_ops no_actions_db). constructor. Defined.

(** What handling an alert action leaves behind: the overlay is never drawn by the
    system daemon, and an action nobody handles is told to the caller and written to
    the queue under two different names. *)

(** The overlay is drawn in the user notifier or the main window's process, and in
    neither when it runs as the system daemon. *)
Lemma overlay_needs_a_gui_process role p :
  (ensure_overlay_render_allowed role p).1 = true ->
  let context := detect_gui_execution_context role p in
  gx_is_system_daemon context = false
  /\ (gx_is_user_notifier_process context = true \/ gx_is_main_gui_app_process context = true)
  /\ gx_can_create_qapplication context = true.
Proof.
  intros [Hg Hd]%andb_true_iff. cbv zeta. split; [by apply negb_true_iff in Hd|].
  split; [by apply orb_true_iff in Hg|]. by apply andb_true_iff.
Qed.

(** Outside the main window's process every action but the evidence snapshot is queued. *)
Lemma gui_actions_are_queued type role p :
  gx_is_main_gui_app_process (detect_gui_execution_context role p) = false ->
  (ensure_action_gui_safe type role p).1 = bool_decide (type = "preserve_evidence_snapshot").
Proof.
  intros Hm. unfold ensure_action_gui_safe. rewrite Hm, eqb_string_spec. destruct (bool_decide _); [done|]. cbn.
  destruct (pv_python_314 p); [done|]. by destruct (_ || _).
Qed.

(** ** A handler at work *)

Definition handler_env : HandlerEnv := {|
  handler_store := {| store_platform := plain_env; utc_clock := fun n => 1784367000000000 + Z.of_nat n;
                      stmt_ok := fun _ => true; database_bytes := fun _ => 0; integrity_key := "key" |};
  uuid := fun n => str_of_Z (Z.of_nat n);
  process_view := {| pv_monitor_role := "user-notifier"; pv_argv := ["python"]; pv_has_qapplication := false;
                     pv_terminal := false; pv_python_314 := false |};
  preserve_snapshot := fun _ => raise_st (LookupError "no snapshot service");
  acknowledge_group := fun _ => mret tt |}.

Definition handled (type : string) : (res (AlertActionResult * AlertActionRequest)) * ActionDb :=
  enqueue_and_handle_alert_action (H := handler_env) (sample_action "a-1" type) no_actions_db.

Definition told (type : string) : option string :=
  match (handled type).1 with Ok (r, _) => Some (rs_status r) | Raise _ => None end.
Definition queue_states (type : string) : list string :=
  (fun r => ar_status (qr_fields r)) <$> x_requests (committed (handled type).2).
Definition trace_states (type : string) : list string := tc_status <$> x_traces (committed (handled type).2).

(** For the actions that have a handler, the caller, the queue and the trace agree. *)
Example handled_actions_agree :
  (fun t => (told t, queue_states t, trace_states t)) <$> ["acknowledge"; "dismiss"; "open_timeline"]
  = [(Some "succeeded", ["succeeded"], ["succeeded"]); (Some "succeeded", ["succeeded"], ["succeeded"]);
     (Some "queued_for_main_gui", ["queued_for_main_gui"], ["queued_for_main_gui"])].
Proof. by vm_compute. Qed.

(** For the others, the caller hears that the action is unsupported, the queue says it
    failed, and the trace stays at the click for good. *)
Lemma unsupported_action_told_apart :
  Forall (fun t => told t = Some "unsupported" /\ queue_states t = ["failed"] /\ trace_states t = ["pending"])
    (action_value <$> [OPEN_EVENT_DETAILS; OPEN_FINDING; OPEN_INTEGRITY_DETAILS; OPEN_NETWORK_INTELLIGENCE;
       OPEN_PERSISTENCE_INTELLIGENCE; OPEN_ROOTKIT_REVIEW; EXPORT_APPLE_EVIDENCE]).
Proof. repeat constructor; by vm_compute. Qed.
