(* ===== verification/HealthRegistry.v ===== *)
(** The expected sensor manifest and its providers ([health/registry.py]), and the
    order in which the coordinator repairs sensors ([_dependency_order] of
    [health/manager.py]). *)

From S2P Require Import Prelude PyStr PyFloat PyDict PyJson PyTime PyRepr HealthModels.
From Stdlib Require Import Ascii.

(** ** [SensorRegistry] *)

Definition descriptor (id name : string) (criticality : Criticality) (expected enabled : bool)
    (capabilities dependencies : list string) (failure_domain : string) : SensorDescriptor := {|
  ds_sensor_id := id; ds_display_name := name; ds_criticality := criticality; ds_expected := expected;
  ds_enabled := enabled; ds_singleton := true; ds_capabilities := capabilities; ds_dependencies := dependencies;
  ds_failure_domain := failure_domain |}.

Definition DEFAULT_DESCRIPTORS : list SensorDescriptor := [
  descriptor "endpoint_security" "Endpoint Security" C_CRITICAL true true
    ["process_execution"; "file_modification"; "ransomware_telemetry"]
    ["endpoint_security_client"; "full_disk_access"; "signed_sensor"] "Endpoint Security";
  descriptor "ransomware_monitor" "Ransomware Monitor" C_CRITICAL true true
    ["ransomware_detection"; "ransomware_evidence"] ["endpoint_security"; "evidence_database"; "ruleset"]
    "Endpoint Security";
  descriptor "system_monitor" "System Monitor" C_HIGH true true
    ["system_activity"; "event_correlation"; "evidence_persistence"] ["sqlite"] "Database";
  descriptor "behavioral_telemetry" "Behavioral Telemetry" C_HIGH true true
    ["behavioral_aggregation"; "behavioral_baseline"; "anomaly_detection"] ["system_monitor"; "sqlite"]
    "Behavioral Analytics";
  descriptor "malware_definitions" "Malware Definitions" C_HIGH true true
    ["malware_hash_matching"; "malware_rule_matching"; "definition_provenance"] ["definition_store"; "ruleset"]
    "Definition Management";
  descriptor "user_notifier" "User Alert Agent" C_HIGH true true ["critical_alert_delivery"]
    ["user_session"; "notification_permission"; "sqlite"] "User Interface";
  descriptor "sensor_health_manager" "Sensor Health Manager" C_CRITICAL true true ["sensor_health_assurance"]
    ["sqlite"] "Health Assurance";
  descriptor "yara_engine" "YARA Rule Engine" C_MEDIUM false false ["malware_rule_matching"] ["ruleset"] "Rule Engine"].

(** [{item.sensor_id: item for item in descriptors}] *)
Definition by_sensor_id (l : list SensorDescriptor) : list (string * SensorDescriptor) :=
  foldl (fun d item => dset (ds_sensor_id item) item d) [] l.

(** [SENSOR_ID_PATTERN.fullmatch] *)
Definition sensor_id_ok (id : string) : bool :=
  match id with
  | String c rest =>
      is_lower c && all_chars (fun c => is_lower c || is_digit c || Ascii.eqb c "_") rest
      && (1 <=? slen rest) && (slen rest <=? 63)
  | EmptyString => false
  end.

Section Registry.
(** What a registered provider is; the registry keeps it under its id. *)
Context {P : Type} (provider_id : P -> string).

Record SensorRegistry := {
  rg_descriptors : list (string * SensorDescriptor);
  rg_providers : list (string * P)
}.

(** [SensorRegistry(descriptors or DEFAULT_DESCRIPTORS)] *)
Definition new_registry (descriptors : list SensorDescriptor) : SensorRegistry := {|
  rg_descriptors := by_sensor_id (match descriptors with [] => DEFAULT_DESCRIPTORS | l => l end); rg_providers := [] |}.

Definition register (provider : P) : M SensorRegistry unit :=
  let id := provider_id provider in
  r ← get_st;
  if negb (sensor_id_ok id) then raise_st (ValueError ("invalid sensor identifier: " +:+ repr_quoted false id))
  else if negb (dmem id (rg_descriptors r))
  then raise_st (ValueError ("sensor " +:+ repr_quoted false id +:+ " is not declared in the expected manifest"))
  else if dmem id (rg_providers r) then raise_st (ValueError ("duplicate sensor provider: " +:+ id))
  else put_st {| rg_descriptors := rg_descriptors r; rg_providers := dset id provider (rg_providers r) |}.

Definition descriptors (r : SensorRegistry) : list SensorDescriptor := (rg_descriptors r).*2.
Definition providers (r : SensorRegistry) : list P := (rg_providers r).*2.
Definition provider_of (id : string) (r : SensorRegistry) : option P := dget id (rg_providers r).

Definition missing_expected (r : SensorRegistry) : list SensorDescriptor :=
  filter (fun d => ds_expected d && ds_enabled d && negb (dmem (ds_sensor_id d) (rg_providers r)) = true) (descriptors r).
End Registry.
Arguments SensorRegistry P : clear implicits.
Arguments rg_descriptors {P} _.
Arguments rg_providers {P} _.
Arguments new_registry {P} _.

(** ** [from_manifest], on the parsed JSON *)

Section Manifest.
Context `{PlatformEnv}.

(** Iterating a value: the members of a list, the keys of a dict, the characters of
    a text. *)
Definition py_iter (v : pyval) : res (list pyval) :=
  match v with
  | VList l | VTuple l => Ok l
  | VDict d => Ok ((fun kv => VStr kv.1) <$> d)
  | VStr s => Ok ((fun c => VStr (String c "")) <$> String.list_ascii_of_string s)
  | _ => Raise (TypeError "object is not iterable")
  end.

Definition criticality_of (s : string) : res Criticality :=
  match dget s [("CRITICAL", C_CRITICAL); ("HIGH", C_HIGH); ("MEDIUM", C_MEDIUM); ("LOW", C_LOW);
                ("INFORMATIONAL", C_INFORMATIONAL)] with
  | Some c => Ok c
  | None => Raise (ValueError (repr_quoted false s +:+ " is not a valid Criticality"))
  end.

(** [item.get(key, default)], [item["sensor_id"]] *)
Definition item_get (default : pyval) (key : string) (item : pydict) : pyval := dget_default default key item.

Definition texts (key : string) (item : pydict) : res (list string) :=
  match py_iter (item_get (VList []) key item) with Ok l => Ok (map py_str l) | Raise e => Raise e end.

Definition manifest_descriptor (expected enabled_default : bool) (v : pyval) : res SensorDescriptor :=
  match v with
  | VDict item =>
      id ← match dget "sensor_id" item with Some v => Ok v | None => Raise (KeyError "sensor_id") end;
      criticality ← criticality_of (py_str (item_get (VStr "MEDIUM") "criticality" item));
      capabilities ← texts "capabilities" item;
      dependencies ← texts "dependencies" item;
      Ok {| ds_sensor_id := py_str id;
            ds_display_name := py_str (if truthy_val (vget "display_name" item) then vget "display_name" item else id);
            ds_criticality := criticality; ds_expected := expected;
            ds_enabled := truthy_val (item_get (VBool enabled_default) "enabled" item);
            ds_singleton := truthy_val (item_get (VBool true) "singleton" item);
            ds_capabilities := capabilities; ds_dependencies := dependencies;
            ds_failure_domain := py_str (item_get (VStr "general") "failure_domain" item) |}
  | _ => Raise (TypeError "manifest items must be objects")
  end.

Definition from_manifest {P} (payload : pydict) : res (SensorRegistry P) :=
  required ← (l ← py_iter (item_get (VList []) "required" payload); res_map (manifest_descriptor true true) l);
  optional ← (l ← py_iter (item_get (VList []) "optional" payload); res_map (manifest_descriptor false false) l);
  Ok (new_registry (required ++ optional)).
End Manifest.

(** ** [_dependency_order] *)

Section Order.
Context (selected : gset string) (dependencies : string -> list string).

(** [output] and [visiting] *)
Definition order_state : Type := list string * gset string.

(** [visit]; [None] when the fuel runs out. *)
Fixpoint visit (fuel : nat) (id : string) (st : order_state) {struct fuel} : option order_state :=
  match fuel with
  | O => None
  | S fuel =>
      if decide (id ∈ st.1 \/ id ∈ st.2) then Some st
      else
        st ← foldl (fun acc dependency => st ← acc; visit fuel dependency st) (Some (st.1, {[id]} ∪ st.2))
               (filter (fun d => d ∈ selected) (dependencies id));
        Some (st.1 ++ [id], st.2 ∖ {[id]})
  end.

Definition visit_all (fuel : nat) (ids : list string) (st : order_state) : option order_state :=
  foldl (fun acc id => st ← acc; visit fuel id st) (Some st) ids.
End Order.

(** Every level of the recursion adds one selected id to [visiting]. *)
Definition dependency_order (descriptors : list SensorDescriptor) (sensor_ids : list string) : option (list string) :=
  let selected := list_to_set (C := gset string) sensor_ids in
  let by_id := by_sensor_id descriptors in
  let dependencies id := match dget id by_id with Some d => ds_dependencies d | None => [] end in
  fst <$> visit_all selected dependencies (S (size selected)) sensor_ids ([], ∅).

(** The order of repair is a topological order: every selected sensor once, and each
    after the sensors it depends on; a registry only ever holds declared providers. *)

Section Order.
Context (selected : gset string) (dependencies : string -> list string).

Definition needed (id : string) : list string := filter (fun d => d ∈ selected) (dependencies id).

(** Everything in the list comes after the sensors it needs. *)
Definition ordered (out : list string) : Prop :=
  forall l1 x l2, out = l1 ++ x :: l2 -> forall d, d ∈ needed x -> d ∈ l1.

(** A rank that falls along dependencies: there is no cycle among the selected. *)
Definition ranked (rank : string -> nat) : Prop :=
  forall x d, x ∈ selected -> d ∈ needed x -> (rank d < rank x)%nat.

Lemma ordered_nil : ordered [].
Proof. intros [|? l1] x l2; discriminate. Qed.

Lemma ordered_snoc out id : ordered out -> (forall d, d ∈ needed id -> d ∈ out) -> ordered (out ++ [id]).
Proof.
  intros Ho Hd l1 x l2 Heq d Hx. destruct (decide (l2 = [])) as [->|Hne].
  - apply app_inj_tail in Heq as [-> ->]. by apply Hd.
  - destruct (exists_last Hne) as (l2' & y & ->). rewrite app_comm_cons, app_assoc in Heq.
    apply app_inj_tail in Heq as [-> _]. by eapply Ho.
Qed.

(** What a visit, or a run of them, does to the state. *)
Record visited (ids : list string) (st st' : order_state) : Prop := {
  visited_same : st'.2 = st.2;
  visited_extends : exists ext, st'.1 = st.1 ++ ext /\ Forall (fun x => x ∈ selected /\ x ∉ st.2) ext;
  visited_unique : NoDup st.1 -> NoDup st'.1;
  visited_covers : forall x, x ∈ ids -> x ∈ st'.1 \/ x ∈ st.2;
  visited_ordered : forall rank, ranked rank -> ordered st.1 ->
    (forall x v, x ∈ ids -> v ∈ st.2 -> (rank x < rank v)%nat) -> ordered st'.1
}.

Lemma visited_nil st : visited [] st st.
Proof.
  constructor; try done.
  - exists []. by rewrite app_nil_r.
  - by intros x ?%elem_of_nil.
Qed.

Lemma visited_snoc ids id st st1 st2 : visited ids st st1 -> visited [id] st1 st2 -> visited (ids ++ [id]) st st2.
Proof.
  intros [Hs1 (e1 & He1 & HF1) Hu1 Hc1 Ho1] [Hs2 (e2 & He2 & HF2) Hu2 Hc2 Ho2]. rewrite Hs1 in *. constructor.
  - done.
  - exists (e1 ++ e2). rewrite He2, He1, app_assoc. split; [done|]. by apply Forall_app.
  - auto.
  - intros x [Hx|Hx]%elem_of_app; [|by apply Hc2]. destruct (Hc1 x Hx) as [|]; [left|by right].
    rewrite He2. apply elem_of_app. by left.
  - intros rank Hr Ho Hlt. apply (Ho2 rank); [done| |].
    + apply (Ho1 rank); [done..|]. intros x v Hx. apply Hlt. apply elem_of_app. by left.
    + intros x v Hx. apply Hlt. apply elem_of_app. by right.
Qed.

(** A run of visits, each of which does what it should. *)
Lemma visits_fold (f : string -> order_state -> option order_state) ids st :
  (forall id st1, id ∈ ids -> st1.2 = st.2 -> exists st2, f id st1 = Some st2 /\ visited [id] st1 st2) ->
  exists st', foldl (fun acc id => st ← acc; f id st) (Some st) ids = Some st' /\ visited ids st st'.
Proof.
  induction ids as [|id ids IH] using rev_ind; intros Hf; [exists st; split; [done|apply visited_nil]|].
  destruct IH as (st1 & Hst1 & Hv1).
  { intros x st1 Hx. apply Hf. apply elem_of_app. by left. }
  destruct (Hf id st1) as (st2 & Hst2 & Hv2); [apply elem_of_app; right; constructor|apply Hv1|].
  exists st2. rewrite foldl_app, Hst1. split; [done|]. by eapply visited_snoc.
Qed.

Lemma visit_visited fuel id st : id ∈ selected -> st.2 ⊆ selected -> (size (selected ∖ st.2) < fuel)%nat ->
  exists st', visit selected dependencies fuel id st = Some st' /\ visited [id] st st'.
Proof.
  revert id st. induction fuel as [|fuel IH]; intros id [out vis] Hid Hvis Hfuel; [lia|]. cbn [visit fst snd] in *.
  destruct (decide (id ∈ out \/ id ∈ vis)) as [Hin|Hout].
  { exists (out, vis). split; [done|]. constructor; try done.
    - exists []. by rewrite app_nil_r.
    - by intros x ->%list_elem_of_singleton. }
  apply Decidable.not_or in Hout as [Hout Hnv].
  destruct (visits_fold (visit selected dependencies fuel) (needed id) (out, {[id]} ∪ vis)) as (st1 & Hst1 & Hv).
  { intros d st1 Hd Hsame. cbn in Hsame. apply list_elem_of_filter in Hd as [Hd _]. apply IH; [done| |].
    - rewrite Hsame. set_solver.
    - rewrite Hsame. pose proof (size_unseen selected vis id Hid Hnv). lia. }
  fold (needed id). rewrite Hst1. exists (st1.1 ++ [id], st1.2 ∖ {[id]}). split; [done|].
  destruct Hv as [Hs (ext & He & HF) Hu Hc Ho]. cbn in *. constructor; cbn.
  - rewrite Hs. set_solver.
  - exists (ext ++ [id]). rewrite He, app_assoc. split; [done|]. apply Forall_app. split; [|by repeat constructor].
    eapply Forall_impl; [exact HF|]. set_solver.
  - intros Hn. apply NoDup_app. split; [by apply Hu|]. split; [|apply NoDup_singleton].
    intros x Hx ->%list_elem_of_singleton. rewrite He in Hx. apply elem_of_app in Hx as [Hx|Hx]; [done|].
    rewrite Forall_forall in HF. specialize (HF _ Hx). set_solver.
  - intros x ->%list_elem_of_singleton. left. apply elem_of_app. right. constructor.
  - intros rank Hr Hord Hlt. assert (forall v, v ∈ vis -> (rank id < rank v)%nat) as Hid_lt.
    { intros v. apply Hlt. constructor. }
    assert (forall d v, d ∈ needed id -> v ∈ ({[id]} ∪ vis : gset string) -> (rank d < rank v)%nat) as Hdv.
    { intros d v Hd Hv. pose proof (Hr id d Hid Hd). apply elem_of_union in Hv as [->%elem_of_singleton|Hv]; [done|].
      specialize (Hid_lt v Hv). lia. }
    apply ordered_snoc; [by apply (Ho rank)|]. intros d Hd. destruct (Hc d Hd) as [|Hdv']; [done|].
    specialize (Hdv d d Hd Hdv'). lia.
Qed.

Lemma visit_all_visited ids : Forall (fun id => id ∈ selected) ids ->
  exists st, visit_all selected dependencies (S (size selected)) ids ([], ∅) = Some st /\ visited ids ([], ∅) st.
Proof.
  intros Hids. apply visits_fold. intros id st1 Hid Hsame. cbn in Hsame. rewrite Forall_forall in Hids.
  apply visit_visited; [by apply Hids|rewrite Hsame; set_solver|]. rewrite Hsame.
  assert (size (selected ∖ (∅ : gset string)) <= size selected)%nat by (apply subseteq_size; set_solver). lia.
Qed.
End Order.

(** What a selected sensor of these descriptors needs. *)
Definition needs (descriptors : list SensorDescriptor) (ids : list string) (id d : string) : Prop :=
  d ∈ ids /\ exists item, dget id (by_sensor_id descriptors) = Some item /\ d ∈ ds_dependencies item.

(** C32. The order of repair lists every sensor to be repaired exactly once, whatever the
    declared dependencies, cycles included; and when the dependencies among them have no cycle,
    each sensor comes after all those it depends on. *)
Theorem repairs_in_dependency_order (descriptors : list SensorDescriptor) (ids : list string) :
  exists out, dependency_order descriptors ids = Some out
    /\ NoDup out
    /\ (forall id, id ∈ out <-> id ∈ ids)
    /\ (forall rank : string -> nat,
          (forall id d, id ∈ ids -> needs descriptors ids id d -> (rank d < rank id)%nat) ->
          forall l1 id l2, out = l1 ++ id :: l2 -> forall d, needs descriptors ids id d -> d ∈ l1).
Proof.
  unfold dependency_order. set (sel := list_to_set (C := gset string) ids).
  set (deps := fun id => match dget id (by_sensor_id descriptors) with Some d => ds_dependencies d | None => [] end).
  assert (forall id, id ∈ sel <-> id ∈ ids) as Hsel by (intros id; apply elem_of_list_to_set).
  assert (forall id d, d ∈ needed sel deps id <-> needs descriptors ids id d) as Hneed.
  { intros id d. unfold needed, needs, deps. rewrite list_elem_of_filter, Hsel.
    destruct (dget id (by_sensor_id descriptors)) as [item|]; split.
    - intros [Hd Hi]. eauto.
    - by intros [Hd (item' & [= <-] & Hi)].
    - by intros [_ ?%elem_of_nil].
    - by intros [_ (? & ? & _)]. }
  destruct (visit_all_visited sel deps ids) as (st & Hst & [_ (ext & He & HF) Hu Hc Ho]).
  { apply Forall_forall. intros id. apply Hsel. }
  fold deps. rewrite Hst. exists st.1. split; [done|]. cbn in *. subst ext. split; [by apply Hu, NoDup_nil|].
  split.
  - intros id. split.
    + intros Hid. rewrite Forall_forall in HF. apply Hsel, HF, Hid.
    + intros Hid. destruct (Hc id Hid) as [|Hid']; [done|set_solver].
  - intros rank Hr l1 id l2 Heq d Hd. apply (Ho rank) with (x := id) (l2 := l2); [ |apply ordered_nil| |done|by apply Hneed].
    + intros x d' Hx%Hsel Hd'%Hneed. by apply Hr.
    + intros x v _ Hv. set_solver.
Qed.

Lemma repairs_in_dependency_order_example :
  dependency_order DEFAULT_DESCRIPTORS ["behavioral_telemetry"; "ransomware_monitor"; "system_monitor"; "endpoint_security"]
  = Some ["system_monitor"; "behavioral_telemetry"; "endpoint_security"; "ransomware_monitor"].
Proof. by vm_compute. Qed.

(** ** The registry *)

(** Descriptors and providers are kept under their own ids; providers are declared
    sensors with well-formed ids. *)
Record registry_sound {P} (provider_id : P -> string) (r : SensorRegistry P) : Prop := {
  descriptors_once : dwf (rg_descriptors r);
  descriptors_keyed : Forall (fun kv => ds_sensor_id kv.2 = kv.1) (rg_descriptors r);
  providers_once : dwf (rg_providers r);
  providers_keyed : Forall (fun kv => provider_id kv.2 = kv.1 /\ sensor_id_ok kv.1 = true
                              /\ dmem kv.1 (rg_descriptors r) = true) (rg_providers r)
}.

Lemma Forall_dset_keyed {V} (key_of : V -> string) v (d : list (string * V)) :
  Forall (fun kv => key_of kv.2 = kv.1) d -> Forall (fun kv => key_of kv.2 = kv.1) (dset (key_of v) v d).
Proof.
  induction d as [|[k w] d IH]; cbn; [by repeat constructor|]. intros [Hk Hd]%Forall_cons.
  destruct (decide (key_of v = k)) as [<-|]; apply Forall_cons; auto.
Qed.

Lemma by_sensor_id_keyed l : dwf (by_sensor_id l) /\ Forall (fun kv => ds_sensor_id kv.2 = kv.1) (by_sensor_id l).
Proof.
  unfold by_sensor_id. induction l as [|d l IH] using rev_ind; [split; [apply NoDup_nil_2|constructor]|].
  rewrite foldl_app. cbn. destruct IH as [Hd HF]. split; [by apply dwf_dset|by apply Forall_dset_keyed].
Qed.

Lemma new_registry_sound {P} (provider_id : P -> string) l : registry_sound provider_id (new_registry l).
Proof.
  unfold new_registry. destruct (by_sensor_id_keyed (match l with [] => DEFAULT_DESCRIPTORS | l => l end)).
  by constructor; cbn; [..|apply NoDup_nil_2|constructor].
Qed.

Lemma register_keeps_sound {P} (provider_id : P -> string) (p : P) :
  preserves (registry_sound provider_id) (register provider_id p).
Proof.
  intros r Hr. unfold register. cbn [mbind M_bind get_st]. unfold mbind, M_bind, get_st.
  destruct (sensor_id_ok (provider_id p)) eqn:Hid; [|done].
  destruct (dmem (provider_id p) (rg_descriptors r)) eqn:Hm; [|done].
  destruct (dmem (provider_id p) (rg_providers r)) eqn:Hp; [done|]. destruct Hr as [Hdd Hdk Hd HF].
  assert (provider_id p ∉ keys (rg_providers r)) as Hn by (intros ?%dmem_keys; congruence).
  constructor; cbn; [done|done|by apply dwf_dset|]. rewrite dset_new by done.
  apply Forall_app. split; [done|]. by repeat constructor.
Qed.
