(* ===== verification/HealthStore.v ===== *)
(** The durable store of sensor health: [health/persistence.py].

    The JSON columns of a snapshot and of the manager's state hold the values they
    encode; the details of a transition, which are hashed, are the text itself.
    Datetimes are timezone-aware, as [utc_now] makes them. *)

From S2P Require Import Prelude PyStr PyFloat PyDict PyJson PyTime Sql PyRepr HealthModels.

(** ** Names *)

Definition reason_code_value (c : ReasonCode) : string :=
  match c with
  | R_NONE => "NONE" | R_INITIALIZING => "INITIALIZING" | R_PROCESS_NOT_RUNNING => "PROCESS_NOT_RUNNING"
  | R_HEARTBEAT_STALE => "HEARTBEAT_STALE" | R_EVENT_STREAM_STALE => "EVENT_STREAM_STALE"
  | R_NO_EVENTS_EXPECTED => "NO_EVENTS_EXPECTED"
  | R_TELEMETRY_SOURCE_UNAVAILABLE => "TELEMETRY_SOURCE_UNAVAILABLE"
  | R_QUEUE_BACKPRESSURE => "QUEUE_BACKPRESSURE" | R_QUEUE_OVERFLOW => "QUEUE_OVERFLOW"
  | R_EVENT_LOSS => "EVENT_LOSS" | R_PROCESSING_STALL => "PROCESSING_STALL"
  | R_DELIVERY_STALL => "DELIVERY_STALL" | R_PERSISTENCE_STALL => "PERSISTENCE_STALL"
  | R_DATABASE_UNAVAILABLE => "DATABASE_UNAVAILABLE" | R_DATABASE_LATENCY => "DATABASE_LATENCY"
  | R_IPC_DISCONNECTED => "IPC_DISCONNECTED" | R_HELPER_UNAVAILABLE => "HELPER_UNAVAILABLE"
  | R_PERMISSION_REVOKED => "PERMISSION_REVOKED" | R_PERMISSION_REQUIRED => "PERMISSION_REQUIRED"
  | R_ENTITLEMENT_MISSING => "ENTITLEMENT_MISSING" | R_SIGNATURE_INVALID => "SIGNATURE_INVALID"
  | R_RULE_LOAD_FAILURE => "RULE_LOAD_FAILURE" | R_CONFIG_INVALID => "CONFIG_INVALID"
  | R_CONFIG_UNEXPECTED_CHANGE => "CONFIG_UNEXPECTED_CHANGE"
  | R_CONFIG_ROLLBACK_DETECTED => "CONFIG_ROLLBACK_DETECTED" | R_RESOURCE_EXHAUSTION => "RESOURCE_EXHAUSTION"
  | R_MEMORY_PRESSURE => "MEMORY_PRESSURE" | R_MEMORY_GROWTH => "MEMORY_GROWTH"
  | R_DESCRIPTOR_PRESSURE => "DESCRIPTOR_PRESSURE" | R_DISK_PRESSURE => "DISK_PRESSURE"
  | R_SELF_TEST_FAILED => "SELF_TEST_FAILED" | R_SELF_TEST_TIMEOUT => "SELF_TEST_TIMEOUT"
  | R_DEPENDENCY_FAILURE => "DEPENDENCY_FAILURE" | R_DEPENDENCY_TIMEOUT => "DEPENDENCY_TIMEOUT"
  | R_RESTART_LOOP => "RESTART_LOOP" | R_DUPLICATE_INSTANCE => "DUPLICATE_INSTANCE"
  | R_PROCESSING_EVENT_FAILURE => "PROCESSING_EVENT_FAILURE"
  | R_HEALTH_PROVIDER_TIMEOUT => "HEALTH_PROVIDER_TIMEOUT"
  | R_HEALTH_PROVIDER_INVALID => "HEALTH_PROVIDER_INVALID" | R_FALLBACK_MODE_ACTIVE => "FALLBACK_MODE_ACTIVE"
  | R_RECOVERY_IN_PROGRESS => "RECOVERY_IN_PROGRESS"
  | R_RECOVERY_VALIDATION_FAILED => "RECOVERY_VALIDATION_FAILED" | R_MAINTENANCE_ACTIVE => "MAINTENANCE_ACTIVE"
  | R_CLOCK_DISCONTINUITY => "CLOCK_DISCONTINUITY" | R_UNKNOWN_DEGRADATION => "UNKNOWN_DEGRADATION"
  end.

Definition dependency_state_value (d : DependencyState) : string :=
  match d with
  | D_HEALTHY => "HEALTHY" | D_DEGRADED => "DEGRADED" | D_FAILED => "FAILED" | D_UNAVAILABLE => "UNAVAILABLE"
  | D_UNKNOWN => "UNKNOWN" | D_NOT_APPLICABLE => "NOT_APPLICABLE"
  end.

Definition recovery_level_value (l : RecoveryLevel) : string :=
  match l with
  | A_OBSERVE => "OBSERVE" | A_RETRY => "RETRY" | A_RECONNECT => "RECONNECT" | A_REINITIALIZE => "REINITIALIZE"
  | A_RESTART_WORKER => "RESTART_WORKER" | A_RESTART_SENSOR => "RESTART_SENSOR"
  | A_REQUEST_WATCHDOG => "REQUEST_WATCHDOG" | A_OPERATOR_REQUIRED => "OPERATOR_REQUIRED"
  end.

(** [_iso]: [isoformat] of UTC, its offset written [Z] *)
Definition iso_us (us : Z) : string := let s := isoformat_utc us in sprefix (slen s - 6) s +:+ "Z".
Definition iso (d : datetime) : string := iso_us (instant d).

(** [_canonical] *)
Definition canonical `{PlatformEnv} (v : pyval) : res string := json_dumps compact_style (defaulted v).

(** ** Tables *)

(** [sensor_health_current] *)
Record current_row := {
  hc_sensor_id : string;
  hc_state : string;
  hc_health_score : Z;
  hc_reason_code : string;
  hc_last_heartbeat : option string;
  hc_last_event : option string;
  hc_last_successful_check : string;
  hc_updated_at : string;
  hc_snapshot : json_of SensorHealthSnapshot
}.

(** [sensor_health_history] *)
Record history_row := {
  hh_id : Z;
  hh_sensor_id : string;
  hh_previous_state : string;
  hh_new_state : string;
  hh_reason_code : string;
  hh_severity : string;
  hh_details : string;
  hh_occurred_at : string;
  hh_previous_hash : string;
  hh_record_hash : string
}.

(** [sensor_health_incidents] *)
Record incident_row := {
  in_incident_id : string;
  in_sensor_id : string;
  in_reason_code : string;
  in_state : string;
  in_severity : string;
  in_root_cause_dependency : string;
  in_first_seen : string;
  in_last_seen : string;
  in_occurrence_count : Z;
  in_affected_capabilities : string;
  in_latest_metrics : string;
  in_active : bool;
  in_resolved_at : string
}.

(** [sensor_recovery_actions] *)
Record recovery_row := {
  ra_id : Z;
  ra_sensor_id : string;
  ra_recovery_type : string;
  ra_reason_code : string;
  ra_result : string;
  ra_details : string;
  ra_started_at : string;
  ra_completed_at : string
}.

(** [sensor_dependency_health] *)
Record dependency_row := {
  dp_sensor_id : string;
  dp_dependency_id : string;
  dp_state : string;
  dp_required : bool;
  dp_reason : string;
  dp_latency_ms : option float;
  dp_last_checked : option string;
  dp_updated_at : string
}.

(** A value of [sensor_manager_state]. *)
Inductive manager_value := ManagerDict (d : pydict) | ManagerReport (r : PlatformHealthReport).

Record HealthTables := {
  y_current : list current_row;
  y_history : list history_row;
  y_history_ids : Z;
  y_incidents : list incident_row;
  y_recoveries : list recovery_row;
  y_recovery_ids : Z;
  y_dependencies : list dependency_row;
  y_manager : list (string * (json_of manager_value * string))
}.

Definition set_current l t := {| y_current := l; y_history := y_history t; y_history_ids := y_history_ids t;
  y_incidents := y_incidents t; y_recoveries := y_recoveries t; y_recovery_ids := y_recovery_ids t;
  y_dependencies := y_dependencies t; y_manager := y_manager t |}.
Definition set_history l n t := {| y_current := y_current t; y_history := l; y_history_ids := n;
  y_incidents := y_incidents t; y_recoveries := y_recoveries t; y_recovery_ids := y_recovery_ids t;
  y_dependencies := y_dependencies t; y_manager := y_manager t |}.
Definition set_incidents l t := {| y_current := y_current t; y_history := y_history t; y_history_ids := y_history_ids t;
  y_incidents := l; y_recoveries := y_recoveries t; y_recovery_ids := y_recovery_ids t;
  y_dependencies := y_dependencies t; y_manager := y_manager t |}.
Definition set_recoveries l n t := {| y_current := y_current t; y_history := y_history t; y_history_ids := y_history_ids t;
  y_incidents := y_incidents t; y_recoveries := l; y_recovery_ids := n;
  y_dependencies := y_dependencies t; y_manager := y_manager t |}.
Definition set_dependencies l t := {| y_current := y_current t; y_history := y_history t; y_history_ids := y_history_ids t;
  y_incidents := y_incidents t; y_recoveries := y_recoveries t; y_recovery_ids := y_recovery_ids t;
  y_dependencies := l; y_manager := y_manager t |}.
Definition set_manager l t := {| y_current := y_current t; y_history := y_history t; y_history_ids := y_history_ids t;
  y_incidents := y_incidents t; y_recoveries := y_recoveries t; y_recovery_ids := y_recovery_ids t;
  y_dependencies := y_dependencies t; y_manager := l |}.

Definition no_health : HealthTables := {| y_current := []; y_history := []; y_history_ids := 0; y_incidents := [];
  y_recoveries := []; y_recovery_ids := 0; y_dependencies := []; y_manager := [] |}.

Definition HealthDb : Type := Conn HealthTables.

(** [INSERT ... ON CONFLICT DO UPDATE]: in place for a present key. *)
Definition upsert_row {A} (same : A -> bool) (x : A) (l : list A) : list A :=
  if existsb same l then (fun y => if same y then x else y) <$> l else l ++ [x].

(** ** Reading and writing *)

Section Store.
Context `{StoreEnv}.

(** [_iso()] *)
Definition iso_now : M HealthDb string := us ← utc_instant; mret (iso_us us).

Definition current_snapshot (sensor_id : string) : M HealthDb (option SensorHealthSnapshot) :=
  row ← sql_read (fun t => find_first (fun r => String.eqb (hc_sensor_id r) sensor_id) (y_current t));
  mret (row ≫= fun r => decoded (hc_snapshot r)).

Definition current_snapshots : M HealthDb (list SensorHealthSnapshot) :=
  rows ← sql_read (fun t => sort_by (fun a b => str_le (hc_sensor_id a) (hc_sensor_id b)) (y_current t));
  mret (omap (fun r => decoded (hc_snapshot r)) rows).

(** [_severity] *)
Definition severity_of (s : SensorHealthSnapshot) : string :=
  let state_in l := bool_decide (sh_state s ∈ l) in
  if state_in [S_FAILED; S_UNAVAILABLE; S_PERMISSION_BLOCKED] then "CRITICAL"
  else if state_in [S_IMPAIRED; S_DEPENDENCY_FAILED; S_CONFIGURATION_ERROR] then "HIGH"
  else if state_in [S_DEGRADED; S_BACKPRESSURED; S_STALE] then "MEDIUM"
  else "INFO".

(** [_root_dependency] *)
Definition root_dependency (s : SensorHealthSnapshot) : string :=
  match find_first (fun d => sd_required d && bool_decide (sd_state d ∈ [D_FAILED; D_UNAVAILABLE])) (sh_dependencies s) with
  | Some d => sd_dependency_id d
  | None => ""
  end.

Definition float_or_none (f : option float) : pyval := match f with Some f => VFloat f | None => VNone end.

Definition transition_of (prior : SensorState) (s : SensorHealthSnapshot) : HealthTransition := {|
  ht_event_type := "sensor_health_transition"; ht_sensor_id := sh_sensor_id s; ht_timestamp := sh_sampled_at s;
  ht_previous_state := prior; ht_current_state := sh_state s; ht_reason_code := sh_reason_code s;
  ht_reason := sh_reason s; ht_severity := severity_of s;
  ht_affected_capabilities := ch_capability_id <$> filter (fun c => ch_coverage c <> L_FULL) (sh_capabilities s);
  ht_metrics := [("queue_depth", VInt (sh_queue_depth s)); ("queue_capacity", VInt (sh_queue_capacity s));
    ("processing_latency_ms", float_or_none (sh_processing_latency_ms s));
    ("events_dropped", VInt (sh_events_dropped_total s))];
  ht_automatic_recovery_attempted := false; ht_root_cause_dependency := root_dependency s |}.

Definition details_of (t : HealthTransition) : pyval := VDict [
  ("event_type", VStr (ht_event_type t)); ("sensor_id", VStr (ht_sensor_id t)); ("timestamp", VStr (iso (ht_timestamp t)));
  ("previous_state", VStr (sensor_state_value (ht_previous_state t)));
  ("current_state", VStr (sensor_state_value (ht_current_state t)));
  ("reason_code", VStr (reason_code_value (ht_reason_code t))); ("reason", VStr (ht_reason t));
  ("severity", VStr (ht_severity t)); ("affected_capabilities", VList (VStr <$> ht_affected_capabilities t));
  ("metrics", VDict (ht_metrics t)); ("automatic_recovery_attempted", VBool (ht_automatic_recovery_attempted t));
  ("root_cause_dependency", VStr (ht_root_cause_dependency t))].

Definition genesis_hash : string := "0000000000000000000000000000000000000000000000000000000000000000".

(** [ORDER BY id DESC LIMIT 1] of the history *)
Definition last_record_hash (l : list history_row) : string :=
  match last l with Some r => hh_record_hash r | None => genesis_hash end.

Definition record_hash (previous details : string) : string := sha256 (previous +:+ details).

Definition history_row_of (id : Z) (t : HealthTransition) (details previous : string) : history_row := {|
  hh_id := id; hh_sensor_id := ht_sensor_id t; hh_previous_state := sensor_state_value (ht_previous_state t);
  hh_new_state := sensor_state_value (ht_current_state t); hh_reason_code := reason_code_value (ht_reason_code t);
  hh_severity := ht_severity t; hh_details := details; hh_occurred_at := iso (ht_timestamp t);
  hh_previous_hash := previous; hh_record_hash := record_hash previous details |}.

(** The insertion; [record_hash] is unique. *)
Definition append_history (t : HealthTransition) (details previous : string) (tables : HealthTables) : res HealthTables :=
  let row := history_row_of (y_history_ids tables + 1) t details previous in
  if existsb (fun r => String.eqb (hh_record_hash r) (hh_record_hash row)) (y_history tables)
  then Raise (IntegrityError "UNIQUE constraint failed: sensor_health_history.record_hash")
  else Ok (set_history (y_history tables ++ [row]) (y_history_ids tables + 1) tables).

(** [_record_transition] *)
Definition record_transition (t : HealthTransition) : M HealthDb unit :=
  previous ← sql_read (fun tables => last_record_hash (y_history tables));
  details ← lift_res (canonical (details_of t));
  sql_write_checked (append_history t details previous).

(** The rows of one incident. *)
Definition same_incident (t : HealthTransition) (r : incident_row) : bool :=
  in_active r && String.eqb (in_sensor_id r) (ht_sensor_id t)
  && String.eqb (in_reason_code r) (reason_code_value (ht_reason_code t))
  && String.eqb (in_root_cause_dependency r) (ht_root_cause_dependency t).

Definition resolve_incident (now : string) (r : incident_row) : incident_row := {|
  in_incident_id := in_incident_id r; in_sensor_id := in_sensor_id r; in_reason_code := in_reason_code r;
  in_state := in_state r; in_severity := in_severity r; in_root_cause_dependency := in_root_cause_dependency r;
  in_first_seen := in_first_seen r; in_last_seen := now; in_occurrence_count := in_occurrence_count r;
  in_affected_capabilities := in_affected_capabilities r; in_latest_metrics := in_latest_metrics r;
  in_active := false; in_resolved_at := now |}.

Definition repeat_incident (now state severity metrics : string) (count : Z) (r : incident_row) : incident_row := {|
  in_incident_id := in_incident_id r; in_sensor_id := in_sensor_id r; in_reason_code := in_reason_code r;
  in_state := state; in_severity := severity; in_root_cause_dependency := in_root_cause_dependency r;
  in_first_seen := in_first_seen r; in_last_seen := now; in_occurrence_count := count;
  in_affected_capabilities := in_affected_capabilities r; in_latest_metrics := metrics;
  in_active := in_active r; in_resolved_at := in_resolved_at r |}.

Definition incident_id_of (t : HealthTransition) : string :=
  sprefix 24 (sha256 (join "|" [ht_sensor_id t; reason_code_value (ht_reason_code t); ht_root_cause_dependency t]
                      +:+ iso (ht_timestamp t))).

Definition open_incident (t : HealthTransition) (capabilities metrics : string) : incident_row := {|
  in_incident_id := incident_id_of t; in_sensor_id := ht_sensor_id t;
  in_reason_code := reason_code_value (ht_reason_code t); in_state := sensor_state_value (ht_current_state t);
  in_severity := ht_severity t; in_root_cause_dependency := ht_root_cause_dependency t;
  in_first_seen := iso (ht_timestamp t); in_last_seen := iso (ht_timestamp t); in_occurrence_count := 1;
  in_affected_capabilities := capabilities; in_latest_metrics := metrics; in_active := true; in_resolved_at := "" |}.

(** The insertion, under the primary key and the unique index of active incidents. *)
Definition insert_incident (row : incident_row) (tables : HealthTables) : res HealthTables :=
  let clash r := String.eqb (in_incident_id r) (in_incident_id row)
    || (in_active r && String.eqb (in_sensor_id r) (in_sensor_id row)
        && String.eqb (in_reason_code r) (in_reason_code row)
        && String.eqb (in_root_cause_dependency r) (in_root_cause_dependency row)) in
  if existsb clash (y_incidents tables)
  then Raise (IntegrityError "UNIQUE constraint failed: sensor_health_incidents")
  else Ok (set_incidents (y_incidents tables ++ [row]) tables).

Definition HEALTHY_INCIDENT_STATES : list SensorState := [S_HEALTHY; S_HEALTHY_IDLE; S_HEALTHY_WITH_WARNINGS].

(** [_update_incident] *)
Definition update_incident (t : HealthTransition) : M HealthDb unit :=
  let now := iso (ht_timestamp t) in
  if bool_decide (ht_current_state t ∈ HEALTHY_INCIDENT_STATES)
  then sql_write (fun tables => set_incidents
         ((fun r => if in_active r && String.eqb (in_sensor_id r) (ht_sensor_id t) then resolve_incident now r else r)
            <$> y_incidents tables) tables)
  else
    row ← sql_read (fun tables => find_first (same_incident t) (y_incidents tables));
    metrics ← lift_res (canonical (VDict (ht_metrics t)));
    match row with
    | Some row =>
        sql_write (fun tables => set_incidents
          ((fun r => if String.eqb (in_incident_id r) (in_incident_id row)
                     then repeat_incident now (sensor_state_value (ht_current_state t)) (ht_severity t) metrics
                            (in_occurrence_count row + 1) r
                     else r) <$> y_incidents tables) tables)
    | None =>
        capabilities ← lift_res (canonical (VList (VStr <$> ht_affected_capabilities t)));
        sql_write_checked (insert_incident (open_incident t capabilities metrics))
    end.

Definition set_manager_state_raw (key : string) (value : manager_value) : M HealthDb unit :=
  now ← iso_now;
  sql_write (fun t => set_manager (dset key (Encodes value, now) (y_manager t)) t).

(** [set_manager_state] of a dict, committed *)
Definition set_manager_state (key : string) (value : pydict) : M HealthDb unit :=
  set_manager_state_raw key (ManagerDict value);; commit.

(** [get_manager_state]: a value, or the report kept under a key; [{'value': x}] stands
    for [x]. *)
Definition get_manager_state (key : string) (default : pyval) : M HealthDb (pyval + PlatformHealthReport) :=
  row ← sql_read (fun t => dget key (y_manager t));
  mret (match row with
        | None | Some (Unreadable, _) => inl default
        | Some (Encodes (ManagerDict d), _) => inl (match d with [("value", v)] => v | _ => VDict d end)
        | Some (Encodes (ManagerReport r), _) => inr r
        end).

(** ** [persist_report] *)

Definition current_row_of (s : SensorHealthSnapshot) (now : string) : current_row := {|
  hc_sensor_id := sh_sensor_id s; hc_state := sensor_state_value (sh_state s); hc_health_score := sh_health_score s;
  hc_reason_code := reason_code_value (sh_reason_code s);
  hc_last_heartbeat := iso <$> sh_last_process_heartbeat s; hc_last_event := iso <$> sh_last_collection_activity s;
  hc_last_successful_check := iso (sh_sampled_at s); hc_updated_at := now; hc_snapshot := Encodes s |}.

Definition persist_current (s : SensorHealthSnapshot) : M HealthDb unit :=
  now ← iso_now;
  sql_write (fun t => set_current
    (upsert_row (fun r => String.eqb (hc_sensor_id r) (sh_sensor_id s)) (current_row_of s now) (y_current t)) t).

Definition dependency_row_of (sensor_id : string) (d : SensorDependency) (now : string) : dependency_row := {|
  dp_sensor_id := sensor_id; dp_dependency_id := sd_dependency_id d; dp_state := dependency_state_value (sd_state d);
  dp_required := sd_required d; dp_reason := sd_reason d; dp_latency_ms := sd_latency_ms d;
  dp_last_checked := iso <$> sd_last_checked d; dp_updated_at := now |}.

Definition persist_dependency (sensor_id : string) (d : SensorDependency) : M HealthDb unit :=
  now ← iso_now;
  sql_write (fun t => set_dependencies
    (upsert_row (fun r => String.eqb (dp_sensor_id r) sensor_id && String.eqb (dp_dependency_id r) (sd_dependency_id d))
       (dependency_row_of sensor_id d now) (y_dependencies t)) t).

(** [for x in l: m(x)] *)
Fixpoint for_each {A} (m : A -> M HealthDb unit) (l : list A) : M HealthDb unit :=
  match l with [] => mret tt | x :: l' => m x;; for_each m l' end.

(** One sensor of the report; the transition, when its state changed. *)
Definition persist_sensor (previous_states : list (string * SensorState)) (s : SensorHealthSnapshot)
    : M HealthDb (option HealthTransition) :=
  let prior := dget_default S_UNKNOWN (sh_sensor_id s) previous_states in
  persist_current s;;
  for_each (persist_dependency (sh_sensor_id s)) (sh_dependencies s);;
  if bool_decide (prior = sh_state s) then mret None
  else
    let t := transition_of prior s in
    record_transition t;;
    update_incident t;;
    mret (Some t).

Fixpoint persist_sensors (previous_states : list (string * SensorState)) (l : list SensorHealthSnapshot)
    : M HealthDb (list HealthTransition) :=
  match l with
  | [] => mret []
  | s :: l' =>
      t ← persist_sensor previous_states s;
      ts ← persist_sensors previous_states l';
      mret (match t with Some t => t :: ts | None => ts end)
  end.

Definition persist_report (report : PlatformHealthReport) (previous_states : list (string * SensorState))
    : M HealthDb (list HealthTransition) :=
  transitions ← persist_sensors previous_states (pr_sensors report);
  set_manager_state_raw "latest_platform_report" (ManagerReport report);;
  commit;;
  mret transitions.

(** ** Recoveries and readers *)

Definition recovery_outcome (r : RecoveryResult) : string :=
  if rx_succeeded r then "succeeded" else if rx_attempted r then "failed" else "not_attempted".

Definition record_recovery (sensor_id reason_code : string) (r : RecoveryResult) (started_at : string) : M HealthDb unit :=
  details ← lift_res (canonical (VDict [("detail", VStr (rx_detail r));
    ("requires_operator", VBool (rx_requires_operator r)); ("verification_required", VBool (rx_verification_required r))]));
  completed ← iso_now;
  sql_write (fun t => set_recoveries (y_recoveries t ++ [{|
    ra_id := y_recovery_ids t + 1; ra_sensor_id := sensor_id; ra_recovery_type := recovery_level_value (rx_action r);
    ra_reason_code := reason_code; ra_result := recovery_outcome r; ra_details := details;
    ra_started_at := started_at; ra_completed_at := completed |}]) (y_recovery_ids t + 1) t);;
  commit.

(** The newest rows of one sensor, or of all. *)
Definition newest {A} (sensor_of : A -> string) (sensor_id : string) (limit : Z) (l : list A) : list A :=
  let l := if truthy sensor_id then filter (fun r => sensor_of r = sensor_id) l else l in
  take (Z.to_nat (Z.max 1 (Z.min 1000 limit))) (rev l).

Definition history (sensor_id : string) (limit : Z) : M HealthDb (list history_row) :=
  sql_read (fun t => newest hh_sensor_id sensor_id limit (y_history t)).

Definition recoveries (sensor_id : string) (limit : Z) : M HealthDb (list recovery_row) :=
  sql_read (fun t => newest ra_sensor_id sensor_id limit (y_recoveries t)).

Definition dependencies : M HealthDb (list dependency_row) :=
  sql_read (fun t => sort_by (fun a b => str_le (dp_dependency_id a) (dp_dependency_id b))
    (y_dependencies t)) ≫= fun l => mret (sort_by (fun a b => str_le (dp_sensor_id a) (dp_sensor_id b)) l).
End Store.
