(* ===== verification/FaultInjection.v ===== *)
(** Development-only fault injection: [health/fault_injection.py].

    A fault changes the sample a provider returned; the evaluator must then find it. *)

From S2P Require Import Prelude PyStr PyFloat PyDict PyJson PyTime PyRepr HealthModels HealthEval HealthFacts.
From Stdlib Require Import SpecFloat.

Definition SUPPORTED_FAULTS : list string :=
  ["stale_heartbeat"; "queue_saturation"; "ipc_failure"; "permission_loss"; "database_timeout"; "rule_load_failure";
   "dropped_events"; "processing_stall"; "memory_pressure"; "duplicate_instance"].

Record FaultInjector := {
  fi_enabled : bool;
  fi_environment : string;
  fi_faults : list (string * gset string)
}.

(** [sorted] of a set of names *)
Definition sorted_names (faults : gset string) : list string := sort_by str_le (elements faults).

(** [__init__] *)
Definition new_fault_injector `{PlatformEnv} (faults : list (string * gset string)) (enabled : bool)
    (environment : string) : res FaultInjector :=
  if enabled && negb (String.eqb environment "development")
  then Raise (PermissionError "fault injection is available only in an explicit development environment")
  else
    let unknown : gset string := list_to_set
      (filter (fun fault => fault ∉ SUPPORTED_FAULTS) (concat (elements <$> faults.*2))) in
    if bool_decide (unknown = ∅)
    then Ok {| fi_enabled := enabled; fi_environment := environment; fi_faults := faults |}
    else Raise (ValueError ("unsupported fault injection: " +:+ py_repr (VList (VStr <$> sorted_names unknown)))).

(** ** [dataclasses.replace], on the fields a fault changes *)

Record Faulted := {
  fd_heartbeat : option datetime;
  fd_processing : option datetime;
  fd_received : Z;
  fd_dropped : Z;
  fd_queue_depth : Z;
  fd_queue_capacity : Z;
  fd_backpressure : float;
  fd_permission : PermissionState;
  fd_dependencies : list SensorDependency;
  fd_rules : RuleHealth;
  fd_resources : ResourceMetrics;
  fd_metadata : list (string * pyval)
}.

Definition faulted_of (s : SensorHealthSnapshot) : Faulted := {|
  fd_heartbeat := sh_last_process_heartbeat s; fd_processing := sh_last_processing_activity s;
  fd_received := sh_events_received_total s; fd_dropped := sh_events_dropped_total s;
  fd_queue_depth := sh_queue_depth s; fd_queue_capacity := sh_queue_capacity s;
  fd_backpressure := sh_backpressure_duration_seconds s; fd_permission := sh_permission_state s;
  fd_dependencies := sh_dependencies s; fd_rules := sh_rules s; fd_resources := sh_resources s;
  fd_metadata := sh_metadata s |}.

Definition replace_faulted (f : Faulted) (s : SensorHealthSnapshot) : SensorHealthSnapshot := {|
  sh_sensor_id := sh_sensor_id s; sh_sensor_version := sh_sensor_version s;
  sh_instance_uuid := sh_instance_uuid s; sh_pid := sh_pid s; sh_process_alive := sh_process_alive s;
  sh_initialized := sh_initialized s; sh_state := sh_state s; sh_health_score := sh_health_score s;
  sh_reason_code := sh_reason_code s; sh_reason := sh_reason s; sh_process_health := sh_process_health s;
  sh_collection_health := sh_collection_health s; sh_processing_health := sh_processing_health s;
  sh_delivery_health := sh_delivery_health s; sh_storage_health := sh_storage_health s;
  sh_dependency_health := sh_dependency_health s; sh_permission_health := sh_permission_health s;
  sh_configuration_health := sh_configuration_health s; sh_rule_health := sh_rule_health s;
  sh_last_process_heartbeat := fd_heartbeat f;
  sh_last_collection_activity := sh_last_collection_activity s;
  sh_last_processing_activity := fd_processing f;
  sh_last_delivery_activity := sh_last_delivery_activity s;
  sh_last_persistence_activity := sh_last_persistence_activity s;
  sh_events_received_total := fd_received f; sh_events_processed_total := sh_events_processed_total s;
  sh_events_delivered_total := sh_events_delivered_total s;
  sh_events_persisted_total := sh_events_persisted_total s; sh_events_ignored_total := sh_events_ignored_total s;
  sh_events_filtered_total := sh_events_filtered_total s; sh_events_dropped_total := fd_dropped f;
  sh_events_failed_total := sh_events_failed_total s; sh_events_duplicate_total := sh_events_duplicate_total s;
  sh_events_rejected_total := sh_events_rejected_total s; sh_processing_latency_ms := sh_processing_latency_ms s;
  sh_queue_depth := fd_queue_depth f; sh_queue_capacity := fd_queue_capacity f;
  sh_oldest_event_age_seconds := sh_oldest_event_age_seconds s; sh_ingestion_rate := sh_ingestion_rate s;
  sh_processing_rate := sh_processing_rate s; sh_drop_rate := sh_drop_rate s;
  sh_peak_queue_depth := sh_peak_queue_depth s; sh_average_queue_depth := sh_average_queue_depth s;
  sh_backpressure_duration_seconds := fd_backpressure f; sh_error_count := sh_error_count s;
  sh_consecutive_error_count := sh_consecutive_error_count s; sh_restart_count := sh_restart_count s;
  sh_worker_sequence := sh_worker_sequence s; sh_permission_state := fd_permission f;
  sh_configuration_hash := sh_configuration_hash s;
  sh_expected_configuration_hash := sh_expected_configuration_hash s; sh_dependencies := fd_dependencies f;
  sh_capabilities := sh_capabilities s; sh_rules := fd_rules f; sh_resources := fd_resources f;
  sh_last_self_test := sh_last_self_test s; sh_fallback_mode := sh_fallback_mode s;
  sh_lost_capabilities := sh_lost_capabilities s; sh_retained_capabilities := sh_retained_capabilities s;
  sh_operator_action_required := sh_operator_action_required s; sh_remediation := sh_remediation s;
  sh_sampled_at := sh_sampled_at s; sh_monotonic_sample := sh_monotonic_sample s; sh_metadata := fd_metadata f |}.

(** ** The faults *)

Definition failed_dependency (id reason : string) : SensorDependency := {|
  sd_dependency_id := id; sd_required := true; sd_state := D_FAILED; sd_reason := reason; sd_latency_ms := None;
  sd_last_checked := None; sd_affected_capabilities := [] |}.

Definition broken_rules (r : RuleHealth) : RuleHealth := {|
  rh_expected := Z.max 1 (rh_expected r); rh_loaded := 0; rh_failed := Z.max 1 (rh_expected r);
  rh_disabled := rh_disabled default_rules; rh_expired := rh_expired default_rules;
  rh_invalid := rh_invalid default_rules; rh_version := rh_version default_rules;
  rh_ruleset_hash := rh_ruleset_hash default_rules; rh_last_reload := rh_last_reload default_rules |}.

Definition grown_memory (r : ResourceMetrics) : ResourceMetrics := {|
  rm_cpu_percent := rm_cpu_percent r; rm_rss_bytes := rm_rss_bytes r;
  rm_rss_growth_bytes := Some (512 * 1024 * 1024); rm_thread_count := rm_thread_count r;
  rm_open_descriptors := rm_open_descriptors r; rm_descriptor_limit := rm_descriptor_limit r;
  rm_free_disk_bytes := rm_free_disk_bytes r; rm_free_disk_percent := rm_free_disk_percent r;
  rm_database_latency_ms := rm_database_latency_ms r; rm_ipc_latency_ms := rm_ipc_latency_ms r |}.

Definition set_processing (heartbeat processing : option datetime) (depth capacity : Z) (backpressure : float)
    (f : Faulted) : Faulted := {|
  fd_heartbeat := heartbeat; fd_processing := processing; fd_received := fd_received f; fd_dropped := fd_dropped f;
  fd_queue_depth := depth; fd_queue_capacity := capacity; fd_backpressure := backpressure;
  fd_permission := fd_permission f; fd_dependencies := fd_dependencies f; fd_rules := fd_rules f;
  fd_resources := fd_resources f; fd_metadata := fd_metadata f |}.

Definition set_totals (received dropped : Z) (rules : RuleHealth) (resources : ResourceMetrics) (f : Faulted)
    : Faulted := {|
  fd_heartbeat := fd_heartbeat f; fd_processing := fd_processing f; fd_received := received; fd_dropped := dropped;
  fd_queue_depth := fd_queue_depth f; fd_queue_capacity := fd_queue_capacity f; fd_backpressure := fd_backpressure f;
  fd_permission := fd_permission f; fd_dependencies := fd_dependencies f; fd_rules := rules;
  fd_resources := resources; fd_metadata := fd_metadata f |}.

Definition set_context (permission : PermissionState) (dependencies : list SensorDependency)
    (metadata : list (string * pyval)) (f : Faulted) : Faulted := {|
  fd_heartbeat := fd_heartbeat f; fd_processing := fd_processing f; fd_received := fd_received f;
  fd_dropped := fd_dropped f; fd_queue_depth := fd_queue_depth f; fd_queue_capacity := fd_queue_capacity f;
  fd_backpressure := fd_backpressure f; fd_permission := permission; fd_dependencies := dependencies;
  fd_rules := fd_rules f; fd_resources := fd_resources f; fd_metadata := metadata |}.

(** What each fault does, in the order of the code. *)
Definition inject (fault : string) (f : Faulted) : Faulted :=
  if String.eqb fault "stale_heartbeat"
  then set_processing None (fd_processing f) (fd_queue_depth f) (fd_queue_capacity f) (fd_backpressure f) f
  else if String.eqb fault "queue_saturation"
  then let capacity := if fd_queue_capacity f =? 0 then 100 else fd_queue_capacity f in
       set_processing (fd_heartbeat f) (fd_processing f) capacity capacity (float_of_Z 60) f
  else if String.eqb fault "ipc_failure"
  then set_context (fd_permission f)
         (fd_dependencies f ++ [failed_dependency "privileged_helper" "development fault injection"]) (fd_metadata f) f
  else if String.eqb fault "permission_loss"
  then set_context M_REVOKED (fd_dependencies f) (fd_metadata f) f
  else if String.eqb fault "database_timeout"
  then set_context (fd_permission f)
         (fd_dependencies f ++ [failed_dependency "sqlite" "development fault injection timeout"]) (fd_metadata f) f
  else if String.eqb fault "rule_load_failure"
  then set_totals (fd_received f) (fd_dropped f) (broken_rules (fd_rules f)) (fd_resources f) f
  else if String.eqb fault "dropped_events"
  then set_totals (Z.max 100 (fd_received f)) (Z.max 5 (fd_dropped f)) (fd_rules f) (fd_resources f) f
  else if String.eqb fault "processing_stall"
  then set_processing (fd_heartbeat f) None (Z.max 1 (fd_queue_depth f)) (Z.max 100 (fd_queue_capacity f))
         (fd_backpressure f) f
  else if String.eqb fault "memory_pressure"
  then set_totals (fd_received f) (fd_dropped f) (fd_rules f) (grown_memory (fd_resources f)) f
  else if String.eqb fault "duplicate_instance"
  then set_context (fd_permission f) (fd_dependencies f) (dset "duplicate_instances" (VInt 2) (fd_metadata f)) f
  else f.

Definition inject_all (faults : gset string) (f : Faulted) : Faulted :=
  foldl (fun f fault => if decide (fault ∈ faults) then inject fault f else f) f SUPPORTED_FAULTS.

Definition mark_faults (faults : gset string) (f : Faulted) : Faulted :=
  set_context (fd_permission f) (fd_dependencies f)
    (dset "development_faults" (VList (VStr <$> sorted_names faults)) (fd_metadata f)) f.

(** [apply] *)
Definition apply_faults (j : FaultInjector) (s : SensorHealthSnapshot) : SensorHealthSnapshot :=
  if negb (fi_enabled j) then s
  else let faults := dget_default ∅ (sh_sensor_id s) (fi_faults j) in
       replace_faulted (mark_faults faults (inject_all faults (faulted_of s))) s.

(** The injected faults are found: whatever else a sample says, the evaluator does not
    call a sensor healthy once one of the faults the harness offers is injected, with
    the one exception of dropped events. *)

(** [c / c] is 1.0. *)
Lemma int_div_self c : 0 < c -> int_div c c = fone.
Proof.
  intros Hc. destruct c as [|p|p]; [lia| |lia]. unfold int_div, fdiv, fexact, SFdiv, SFdiv_core_binary.
  replace (Zdigits2 (Zpos p) + 0 - (Zdigits2 (Zpos p) + 0)) with 0 by lia.
  change (Z.min (SpecFloat.fexp 53 1024 0) (0 - 0)) with (-53). cbv zeta. change (0 - 0 - -53) with 53. cbv iota.
  rewrite Z.shiftl_mul_pow2 by lia. rewrite Z.mul_comm.
  pose proof (Z.div_mul (2 ^ 53) (Zpos p) ltac:(lia)) as Hd. pose proof (Z.mod_mul (2 ^ 53) (Zpos p) ltac:(lia)) as Hm.
  unfold Z.div, Z.modulo in Hd, Hm. destruct (Z.div_eucl _ _) as [q r]. subst q r.
  assert (new_location (Zpos p) 0 = loc_Exact) as ->; [|by vm_compute].
  unfold new_location, new_location_even, new_location_odd. by destruct (Z.even (Zpos p)).
Qed.

(** What holds once a fault is in stays true, if no other fault undoes it. *)
Lemma inject_all_keeps (P : Faulted -> Prop) fault faults f : fault ∈ faults -> fault ∈ SUPPORTED_FAULTS ->
  (forall f, P (inject fault f)) -> (forall g f, P f -> P (inject g f)) -> P (inject_all faults f).
Proof.
  intros Hin Hsup Hnew Hkeep. unfold inject_all. revert f. induction SUPPORTED_FAULTS as [|g l IH]; [by inversion Hsup|].
  assert (forall l f, P f -> P (foldl (fun f g => if decide (g ∈ faults) then inject g f else f) f l)) as Hrun.
  { clear -Hkeep. induction l as [|g l IH]; intros f Hf; cbn [foldl]; [done|]. apply IH. destruct (decide _); auto. }
  intros f. cbn [foldl]. apply elem_of_cons in Hsup as [<-|Hsup]; [|by apply IH].
  rewrite decide_True by done. by apply Hrun.
Qed.

(** The fields of a faulted sample. *)
Ltac faulted_cbn H := cbn [existsb replace_faulted mark_faults set_context sh_events_received_total
  sh_events_dropped_total sh_queue_depth sh_queue_capacity sh_backpressure_duration_seconds sh_permission_state
  sh_dependencies sh_rules sh_resources sh_metadata sh_last_process_heartbeat sh_last_processing_activity
  fd_heartbeat fd_processing fd_received fd_dropped fd_queue_depth fd_queue_capacity fd_backpressure fd_permission
  fd_dependencies fd_rules fd_resources fd_metadata age overdue fmap option_fmap option_map] in H.

(** A queue that was filled, or a backlog whose progress was erased. *)
Definition stuck_queue (f : Faulted) : Prop :=
  (fd_queue_depth f = fd_queue_capacity f /\ fd_queue_capacity f <> 0)
  \/ (fd_processing f = None /\ 1 <= fd_queue_depth f).

Definition failed_dependency_in (f : Faulted) : Prop :=
  Exists (fun d => sd_required d = true /\ sd_state d = D_FAILED) (fd_dependencies f).

(** What each fault leaves in the sample, whatever other faults come with it. *)
Definition shows (fault : string) (f : Faulted) : Prop :=
  if String.eqb fault "stale_heartbeat" then fd_heartbeat f = None
  else if String.eqb fault "queue_saturation" then stuck_queue f
  else if String.eqb fault "ipc_failure" then failed_dependency_in f
  else if String.eqb fault "permission_loss" then fd_permission f = M_REVOKED
  else if String.eqb fault "database_timeout" then failed_dependency_in f
  else if String.eqb fault "rule_load_failure" then 1 <= rh_failed (fd_rules f)
  else if String.eqb fault "processing_stall"
  then fd_processing f = None /\ 1 <= fd_queue_depth f /\ 1 <= fd_queue_capacity f
  else if String.eqb fault "memory_pressure" then rm_rss_growth_bytes (fd_resources f) = Some (512 * 1024 * 1024)
  else if String.eqb fault "duplicate_instance" then dget "duplicate_instances" (fd_metadata f) = Some (VInt 2)
  else True.

Lemma failed_dependency_new id reason l :
  Exists (fun d => sd_required d = true /\ sd_state d = D_FAILED) (l ++ [failed_dependency id reason]).
Proof. apply Exists_app. right. by constructor. Qed.

Lemma fault_shows fault f : fault ∈ SUPPORTED_FAULTS -> shows fault (inject fault f).
Proof.
  intros Hin. unfold SUPPORTED_FAULTS in Hin. repeat (apply elem_of_cons in Hin as [->|Hin]); [..|inversion Hin];
    cbn -[dset dget failed_dependency Z.max float_of_Z]; try done; try apply failed_dependency_new.
  - left. cbn. destruct (Z.eqb_spec (fd_queue_capacity f) 0); lia.
  - lia.
  - split; [done|]. lia.
  - apply dget_dset_eq.
Qed.

Lemma fault_kept fault g f : shows fault f -> shows fault (inject g f).
Proof.
  unfold shows. repeat (destruct (String.eqb _ _); [|]); unfold stuck_queue, failed_dependency_in, inject; intros Hf;
    repeat (destruct (String.eqb g _); [|]); cbn -[dset dget failed_dependency Z.max float_of_Z];
    rewrite ?Exists_app; auto.
  - left. destruct (Z.eqb_spec (fd_queue_capacity f) 0); lia.
  - right. split; [done|]. lia.
  - lia.
  - destruct (Z.eqb_spec (fd_queue_capacity f) 0); tauto || lia.
  - split; [done|]. lia.
  - apply dget_dset_eq.
Qed.

(** Two faults set the same state of the queue: the last of them stays visible. *)
Lemma mark_shows fault faults f : shows fault f -> shows fault (mark_faults faults f).
Proof.
  unfold shows. repeat (destruct (String.eqb _ _); [by auto|]). destruct (String.eqb _ _); [|done].
  intros Hf. unfold mark_faults, set_context. cbn -[dset dget sorted_names]. by rewrite dget_dset_ne.
Qed.

Section Found.
Context (s : SensorHealthSnapshot) (policy : SensorHealthPolicy) (now : datetime) (f : Faulted).

(** The sample, after the faults. *)
Let s' : SensorHealthSnapshot := replace_faulted f s.

Lemma stall_found : fd_processing f = None -> 1 <= fd_queue_depth f -> quiet (check_stalls s' policy now) -> False.
Proof.
  intros Hnone Hpos Hs. unfold check_stalls in Hs. rewrite !quiet_app, quiet_if in Hs by lia. destruct Hs as [[Hs _] _].
  unfold processing_age, s' in Hs. faulted_cbn Hs. rewrite Hnone in Hs. faulted_cbn Hs. b2p. lia.
Qed.

Lemma queue_full_found : fgeb (fexact 1) (hp_elevated_queue_utilization policy) = true -> validated s' = Ok tt ->
  stuck_queue f -> quiet (check_queue s' policy) -> quiet (check_stalls s' policy now) -> False.
Proof.
  intros Hfull Hv [[Heq Hne]|[Hnone Hpos]] Hq Hs; [|by eapply stall_found].
  unfold check_queue in Hq. rewrite !quiet_if in Hq by lia. destruct Hq as (_ & _ & Hq & _).
  assert (0 < fd_queue_capacity f) as Hpos.
  { unfold validated in Hv. rewrite !res_bind_unit_ok, !raise_if_ok in Hv. destruct Hv as (_ & Hv & _).
    unfold s' in Hv. faulted_cbn Hv. rewrite !orb_false_iff, !Z.ltb_ge in Hv. lia. }
  unfold queue_utilization, s' in Hq. faulted_cbn Hq.
  rewrite (proj2 (Z.leb_gt _ _) Hpos), Heq, int_div_self in Hq by done.
  change (fmin (fexact 1) (fmax (fexact 0) fone)) with (fexact 1) in Hq. congruence.
Qed.

Lemma growth_found : rm_rss_growth_bytes (fd_resources f) = Some (512 * 1024 * 1024) ->
  quiet (check_resources s' policy) -> False.
Proof.
  intros Hg Hq. unfold check_resources in Hq. cbv zeta in Hq. rewrite !quiet_app in Hq. destruct Hq as (_ & _ & _ & Hq).
  unfold s' in Hq. faulted_cbn Hq. rewrite Hg in Hq. change (256 * 1024 * 1024 <? 512 * 1024 * 1024) with true in Hq.
  unfold quiet in Hq. cbn in Hq. apply Forall_cons in Hq as [Hq _]. cbn in Hq. lia.
Qed.

Lemma rules_found : 1 <= rh_failed (fd_rules f) -> quiet (check_rules s') -> False.
Proof.
  intros Hr Hq. unfold check_rules in Hq. cbv zeta in Hq. rewrite quiet_if in Hq by lia. destruct Hq as [Hq _].
  unfold rules_incomplete, s' in Hq. faulted_cbn Hq. b2p. lia.
Qed.

Lemma dependency_found : failed_dependency_in f -> quiet (check_dependencies s') -> False.
Proof.
  intros (d & Hd & Hreq & Hst)%Exists_exists Hq. pose proof (proj1 (quiet_dependencies s') Hq d Hd Hreq) as Hs. rewrite Hst in Hs.
  by repeat (apply elem_of_cons in Hs as [?|Hs]; [done|]); inversion Hs.
Qed.

(** A healthy verdict shows no fault but dropped events. *)
Lemma fault_found fault r : fault ∈ SUPPORTED_FAULTS -> fault <> "dropped_events" -> shows fault f ->
  fgeb (fexact 1) (hp_elevated_queue_utilization policy) = true ->
  evaluate s' policy now = Ok r -> is_healthy (sh_state r) = false.
Proof.
  intros Hin Hne Hshow Hfull. unfold evaluate. rewrite res_bind_unit_ok, res_bind_ok.
  intros (Hv & duplicated & Hd & [= <-]). apply not_true_iff_false. cbn [sh_state replace_assessment].
  intros Hh. apply healthy_quiet in Hh as [Hq _]. unfold all_checks in Hq. rewrite !quiet_app in Hq.
  destruct Hq as (Hproc & Hbeat & Hperm & Hdep & Hconf & Hrules & _ & Hstall & Hidle & Hqueue & Hloss & Hres & Hlife).
  apply quiet_lifecycle in Hlife as (_ & -> & _).
  unfold SUPPORTED_FAULTS in Hin. repeat (apply elem_of_cons in Hin as [->|Hin]); [..|inversion Hin]; try done; clear Hne; cbn -[dget] in Hshow.
  - unfold check_heartbeat in Hbeat. rewrite quiet_if in Hbeat by lia. destruct Hbeat as [Hbeat _].
    rewrite (proj1 (proj1 (quiet_process s') Hproc)) in Hbeat. unfold s' in Hbeat. faulted_cbn Hbeat. rewrite Hshow in Hbeat.
    discriminate Hbeat.
  - exact (queue_full_found Hfull Hv Hshow Hqueue Hstall).
  - exact (dependency_found Hshow Hdep).
  - apply quiet_permission in Hperm. unfold s' in Hperm. faulted_cbn Hperm. rewrite Hshow in Hperm. apply Hperm. right. left.
  - exact (dependency_found Hshow Hdep).
  - exact (rules_found Hshow Hrules).
  - exact (stall_found (proj1 Hshow) (proj1 (proj2 Hshow)) Hstall).
  - exact (growth_found Hshow Hres).
  - unfold duplicates, dget_default, s' in Hd. faulted_cbn Hd. rewrite Hshow in Hd. discriminate Hd.
Qed.
End Found.

Lemma injector_supports `{PlatformEnv} faults enabled environment j :
  new_fault_injector faults enabled environment = Ok j ->
  fi_faults j = faults /\ fi_enabled j = enabled /\ (enabled = true -> environment = "development")
  /\ forall id fault, fault ∈ dget_default ∅ id faults -> fault ∈ SUPPORTED_FAULTS.
Proof.
  unfold new_fault_injector. destruct (enabled && negb (String.eqb environment "development")) eqn:He; [done|].
  cbv zeta. destruct (bool_decide _) eqn:Hu; [|done]. apply bool_decide_eq_true in Hu. intros [= <-]. cbn. split_and!; try done.
  - intros ->. cbn in He. apply negb_false_iff in He. by apply String.eqb_eq.
  - intros id fault Hin. destruct (decide (fault ∈ SUPPORTED_FAULTS)) as [|Hno]; [done|]. exfalso.
    apply (not_elem_of_empty (C := gset string) fault). rewrite <- Hu. apply elem_of_list_to_set, list_elem_of_filter.
    split; [done|]. unfold dget_default in Hin. destruct (dget id faults) as [names|] eqn:Hg; [|set_solver].
    apply list_elem_of_In, in_concat. exists (elements names). split; [|apply list_elem_of_In; set_solver].
    apply list_elem_of_In, list_elem_of_fmap. exists names. split; [done|]. apply list_elem_of_fmap. exists (id, names).
    split; [done|]. by apply dget_elem.
Qed.

(** The harness finds what it injects: with fault injection allowed, a sample with any
    supported fault but dropped events is not called healthy, whatever the rest of it says
    and whatever other faults come with it, under every policy that counts a full queue as
    elevated. *)
Theorem injected_faults_are_found `{PlatformEnv} faults j s r policy now fault :
  new_fault_injector faults true "development" = Ok j ->
  fault ∈ dget_default ∅ (sh_sensor_id s) faults -> fault <> "dropped_events" ->
  fgeb (fexact 1) (hp_elevated_queue_utilization policy) = true ->
  evaluate (apply_faults j s) policy now = Ok r -> is_healthy (sh_state r) = false.
Proof.
  intros (<- & He & _ & Hsup)%injector_supports Hin Hne Hfull. unfold apply_faults. rewrite He. cbn [negb].
  apply (fault_found s policy now _ fault); [by eapply Hsup|done| |done].
  apply mark_shows, inject_all_keeps with (fault := fault); [done|by eapply Hsup| |apply fault_kept].
  intros f. apply fault_shows. by eapply Hsup.
Qed.

(** Every fault at once. *)
Definition every_fault : list (string * gset string) := [("system_monitor", list_to_set SUPPORTED_FAULTS)].
Definition every_fault_injector : FaultInjector := {|
  fi_enabled := true; fi_environment := "development"; fi_faults := every_fault |}.
Definition faulted_verdict (faults : gset string) : SensorHealthSnapshot :=
  match evaluate (apply_faults {| fi_enabled := true; fi_environment := "development";
                                  fi_faults := [("system_monitor", faults)] |} sample_sensor) DEFAULT_POLICY (sample_time 1000)
  with Ok r => r | Raise _ => sample_sensor end.

Lemma injected_faults_are_found_witness : is_healthy (sh_state (faulted_verdict (list_to_set SUPPORTED_FAULTS))) = false.
Proof.
  apply (injected_faults_are_found (H := plain_env) every_fault every_fault_injector sample_sensor
    (faulted_verdict (list_to_set SUPPORTED_FAULTS)) DEFAULT_POLICY (sample_time 1000) "processing_stall").
  - vm_compute. reflexivity.
  - apply (bool_decide_unpack _). vm_compute. exact I.
  - discriminate.
  - vm_compute. reflexivity.
  - vm_compute. reflexivity.
Defined.

(** Dropped events are the exception: a sensor that reports a drop rate of its own,
    or has received enough events, is called healthy with the fault in. *)
Definition busy_sensor : SensorHealthSnapshot := replace_faulted
  (set_totals 1000000 0 default_rules default_resources (faulted_of sample_sensor)) sample_sensor.

Example dropped_events_not_found :
  let j := {| fi_enabled := true; fi_environment := "development";
              fi_faults := [("system_monitor", {["dropped_events"]})] |} in
  match evaluate (apply_faults j busy_sensor) DEFAULT_POLICY (sample_time 1000) with
  | Ok r => sh_state r = S_HEALTHY
  | Raise _ => False
  end.
Proof. by vm_compute. Qed.
