(* ===== verification/HealthManager.v ===== *)
(** The sensor reliability coordinator: [health/manager.py], over the registry, the
    evaluator, the hysteresis tracker, the recovery engine and the store.

    What a provider does is outside: each call to one returns, raises, or has not
    finished when the timeout ends the wait. *)

From S2P Require Import Prelude PyStr PyFloat PyDict PyJson PyTime Sql PyRepr.
From S2P Require Import HealthModels HealthEval HealthReport HealthRecovery HealthRegistry HealthStore FaultInjection.
From Stdlib Require Import Ascii.

(** ** Providers *)

(** [Failed] carries [TypeName: message]. *)
Inductive call (A : Type) := Returned (a : A) | Failed (text : string) | Pending.
Arguments Returned {A} a.
Arguments Failed {A} text.
Arguments Pending {A}.

(** [SensorHealthProvider]; the n-th interaction decides what a call gives. *)
Record Provider := {
  pv_sensor_id : string;
  pv_health_snapshot : nat -> call SensorHealthSnapshot;
  pv_self_test : nat -> call SelfTestResult;
  pv_recover : RecoveryReason -> RecoveryResult + string
}.

Class ManagerEnv := {
  #[global] manager_store :: StoreEnv;
  monotonic : nat -> float;   (** [time.monotonic()] *)
  wall_clock : nat -> float   (** [time.time()] *)
}.

(** ** [dataclasses.replace] *)

Definition replace_extra (self_test : option SelfTestResult) (dependencies : list SensorDependency)
    (metadata : list (string * pyval)) (operator : bool) (remediation : string) (s : SensorHealthSnapshot)
    : SensorHealthSnapshot := {|
  sh_sensor_id := sh_sensor_id s; sh_sensor_version := sh_sensor_version s;
  sh_instance_uuid := sh_instance_uuid s; sh_pid := sh_pid s; sh_process_alive := sh_process_alive s;
  sh_initialized := sh_initialized s; sh_state := sh_state s; sh_health_score := sh_health_score s;
  sh_reason_code := sh_reason_code s; sh_reason := sh_reason s; sh_process_health := sh_process_health s;
  sh_collection_health := sh_collection_health s; sh_processing_health := sh_processing_health s;
  sh_delivery_health := sh_delivery_health s; sh_storage_health := sh_storage_health s;
  sh_dependency_health := sh_dependency_health s; sh_permission_health := sh_permission_health s;
  sh_configuration_health := sh_configuration_health s; sh_rule_health := sh_rule_health s;
  sh_last_process_heartbeat := sh_last_process_heartbeat s;
  sh_last_collection_activity := sh_last_collection_activity s;
  sh_last_processing_activity := sh_last_processing_activity s;
  sh_last_delivery_activity := sh_last_delivery_activity s;
  sh_last_persistence_activity := sh_last_persistence_activity s;
  sh_events_received_total := sh_events_received_total s;
  sh_events_processed_total := sh_events_processed_total s;
  sh_events_delivered_total := sh_events_delivered_total s;
  sh_events_persisted_total := sh_events_persisted_total s; sh_events_ignored_total := sh_events_ignored_total s;
  sh_events_filtered_total := sh_events_filtered_total s; sh_events_dropped_total := sh_events_dropped_total s;
  sh_events_failed_total := sh_events_failed_total s; sh_events_duplicate_total := sh_events_duplicate_total s;
  sh_events_rejected_total := sh_events_rejected_total s; sh_processing_latency_ms := sh_processing_latency_ms s;
  sh_queue_depth := sh_queue_depth s; sh_queue_capacity := sh_queue_capacity s;
  sh_oldest_event_age_seconds := sh_oldest_event_age_seconds s; sh_ingestion_rate := sh_ingestion_rate s;
  sh_processing_rate := sh_processing_rate s; sh_drop_rate := sh_drop_rate s;
  sh_peak_queue_depth := sh_peak_queue_depth s; sh_average_queue_depth := sh_average_queue_depth s;
  sh_backpressure_duration_seconds := sh_backpressure_duration_seconds s; sh_error_count := sh_error_count s;
  sh_consecutive_error_count := sh_consecutive_error_count s; sh_restart_count := sh_restart_count s;
  sh_worker_sequence := sh_worker_sequence s; sh_permission_state := sh_permission_state s;
  sh_configuration_hash := sh_configuration_hash s;
  sh_expected_configuration_hash := sh_expected_configuration_hash s; sh_dependencies := dependencies;
  sh_capabilities := sh_capabilities s; sh_rules := sh_rules s; sh_resources := sh_resources s;
  sh_last_self_test := self_test; sh_fallback_mode := sh_fallback_mode s;
  sh_lost_capabilities := sh_lost_capabilities s; sh_retained_capabilities := sh_retained_capabilities s;
  sh_operator_action_required := operator; sh_remediation := remediation; sh_sampled_at := sh_sampled_at s;
  sh_monotonic_sample := sh_monotonic_sample s; sh_metadata := metadata |}.

Definition with_self_test (t : SelfTestResult) (s : SensorHealthSnapshot) : SensorHealthSnapshot :=
  replace_extra (Some t) (sh_dependencies s) (sh_metadata s) (sh_operator_action_required s) (sh_remediation s) s.
Definition with_dependencies (l : list SensorDependency) (s : SensorHealthSnapshot) : SensorHealthSnapshot :=
  replace_extra (sh_last_self_test s) l (sh_metadata s) (sh_operator_action_required s) (sh_remediation s) s.
Definition with_metadata (d : list (string * pyval)) (s : SensorHealthSnapshot) : SensorHealthSnapshot :=
  replace_extra (sh_last_self_test s) (sh_dependencies s) d (sh_operator_action_required s) (sh_remediation s) s.
Definition with_operator (b : bool) (remediation : string) (s : SensorHealthSnapshot) : SensorHealthSnapshot :=
  replace_extra (sh_last_self_test s) (sh_dependencies s) (sh_metadata s) b remediation s.

(** [replace(s, state=..., reason_code=..., reason=...)] *)
Definition with_state (state : SensorState) (code : ReasonCode) (reason : string) (s : SensorHealthSnapshot)
    : SensorHealthSnapshot :=
  replace_assessment state (sh_health_score s) code reason (sh_sampled_at s) (dimensions_of s) s.

(** [_provider_failure] *)
Definition provider_failure (now : datetime) (sensor_id : string) (code : ReasonCode) (reason : string)
    : SensorHealthSnapshot :=
  with_operator true
    "Inspect provider registration, timeout, and the external service watchdog without discarding evidence."
    (with_state S_FAILED code reason (new_snapshot sensor_id now)).

(** [_prior_snapshot]: the four fields it takes from the stored payload. *)
Definition prior_snapshot (now : datetime) (payload : option SensorHealthSnapshot) : option SensorHealthSnapshot :=
  match payload with
  | None => None
  | Some p =>
      let fresh := new_snapshot (sh_sensor_id p) now in
      Some (replace_assessment (sh_state p) (sh_health_score p) R_NONE (sh_reason p) now (dimensions_of fresh) fresh)
  end.

Definition criticality_value (c : Criticality) : string :=
  match c with
  | C_CRITICAL => "CRITICAL" | C_HIGH => "HIGH" | C_MEDIUM => "MEDIUM" | C_LOW => "LOW"
  | C_INFORMATIONAL => "INFORMATIONAL"
  end.

(** ** The coordinator *)

Record Manager := {
  mg_db : HealthDb;
  mg_hysteresis : Hysteresis;
  mg_engine : RecoveryEngine;
  mg_state : pydict;          (** [manager_state] *)
  mg_last_report : option PlatformHealthReport
}.

Definition set_db x m := {| mg_db := x; mg_hysteresis := mg_hysteresis m; mg_engine := mg_engine m;
  mg_state := mg_state m; mg_last_report := mg_last_report m |}.
Definition set_hysteresis x m := {| mg_db := mg_db m; mg_hysteresis := x; mg_engine := mg_engine m;
  mg_state := mg_state m; mg_last_report := mg_last_report m |}.
Definition set_engine x m := {| mg_db := mg_db m; mg_hysteresis := mg_hysteresis m; mg_engine := x;
  mg_state := mg_state m; mg_last_report := mg_last_report m |}.
Definition set_state x m := {| mg_db := mg_db m; mg_hysteresis := mg_hysteresis m; mg_engine := mg_engine m;
  mg_state := x; mg_last_report := mg_last_report m |}.
Definition set_last_report x m := {| mg_db := mg_db m; mg_hysteresis := mg_hysteresis m; mg_engine := mg_engine m;
  mg_state := mg_state m; mg_last_report := x |}.

(** A computation on one part of the coordinator. *)
Definition on_part {A S} (get : Manager -> S) (set : S -> Manager -> Manager) (c : M S A) : M Manager A := fun m =>
  let (r, s) := c (get m) in (r, set s m).
Definition in_db {A} : M HealthDb A -> M Manager A := on_part mg_db set_db.
Definition in_hysteresis {A} : M Hysteresis A -> M Manager A := on_part mg_hysteresis set_hysteresis.
Definition in_engine {A} : M RecoveryEngine A -> M Manager A := on_part mg_engine set_engine.

Definition new_manager (db : HealthDb) : Manager := {|
  mg_db := db; mg_hysteresis := new_hysteresis; mg_engine := new_engine;
  mg_state := [("last_health_cycle", VStr ""); ("last_successful_health_cycle", VStr ""); ("sensors_checked", VInt 0);
               ("health_checks_failed", VInt 0); ("health_cycle_duration_ms", VFloat fzero)];
  mg_last_report := None |}.

Section Coordinator.
Context `{ManagerEnv} (registry : SensorRegistry Provider) (policies : list (string * SensorHealthPolicy)).
Context (fault_injector : option FaultInjector).

(** [_policy] *)
Definition policy_of (sensor_id : string) : SensorHealthPolicy := dget_default (policy_for sensor_id) sensor_id policies.

(** ** Asking the environment *)

Definition asked {A} (f : nat -> A) : M Manager A := fun m =>
  (Ok (f (ticks (mg_db m))), set_db (tick (mg_db m)) m).

Definition utc_datetime (n : nat) : datetime := {| local_us := utc_clock n; utc_off := Some 0 |}.
Definition now_utc : M Manager datetime := asked utc_datetime.

(** [str(d)] of an aware UTC datetime *)
Definition datetime_text (d : datetime) : string :=
  replace_char "T" " " (isoformat_utc (instant d)).

(** ** Sampling *)

Definition raw_snapshots : Type := list (string * SensorHealthSnapshot).

(** The body of the loop over completed futures, and over pending ones. *)
Definition sample_of (p : Provider) (now : datetime) (outcome : call SensorHealthSnapshot) : SensorHealthSnapshot * bool :=
  let invalid text := (provider_failure now (pv_sensor_id p) R_HEALTH_PROVIDER_INVALID
                         ("Health provider failed in isolation: " +:+ text), false) in
  match outcome with
  | Returned s =>
      if negb (String.eqb (sh_sensor_id s) (pv_sensor_id p))
      then invalid "ValueError: provider sensor_id does not match snapshot"
      else match fault_injector with
           | None => (s, true)
           | Some j => (apply_faults j s, true)
           end
  | Failed text => invalid text
  | Pending => (provider_failure now (pv_sensor_id p) R_HEALTH_PROVIDER_TIMEOUT
                  "Health provider exceeded its bounded timeout; other sensors were still checked.", false)
  end.

(** Every provider's sample, and how many failed. *)
Fixpoint sample_providers (l : list Provider) : M Manager (raw_snapshots * Z) :=
  match l with
  | [] => mret ([], 0)
  | p :: l' =>
      outcome ← asked (pv_health_snapshot p);
      now ← now_utc;
      '(raw, failures) ← sample_providers l';
      let (s, fine) := sample_of p now outcome in
      mret ((pv_sensor_id p, s) :: raw, if (fine : bool) then failures else failures + 1)
  end.

Fixpoint sample_missing (l : list SensorDescriptor) (raw : raw_snapshots) : M Manager raw_snapshots :=
  match l with
  | [] => mret raw
  | d :: l' =>
      now ← now_utc;
      sample_missing l' (dset (ds_sensor_id d) (provider_failure now (ds_sensor_id d) R_HEALTH_PROVIDER_INVALID
        "Expected sensor did not register during startup.") raw)
  end.

(** ** [_propagate_sensor_dependencies] *)

Definition upstream_unhealthy (s : SensorHealthSnapshot) : bool :=
  negb (sh_process_alive s) || negb (sh_initialized s) || bool_decide (sh_state s ∈ [S_FAILED; S_UNAVAILABLE; S_IMPAIRED]).

Definition shared_dependency (d : SensorDescriptor) (id : string) (upstream : SensorHealthSnapshot) : SensorDependency := {|
  sd_dependency_id := id; sd_required := true;
  sd_state := if upstream_unhealthy upstream then D_FAILED else D_HEALTHY;
  sd_reason := "shared sensor dependency state: " +:+ sensor_state_value (sh_state upstream);
  sd_latency_ms := None; sd_last_checked := None; sd_affected_capabilities := ds_capabilities d |}.

Definition propagate_to (raw : raw_snapshots) (d : SensorDescriptor) : raw_snapshots :=
  match dget (ds_sensor_id d) raw with
  | None => raw
  | Some s =>
      let known := sd_dependency_id <$> sh_dependencies s in
      let added := omap (fun id => match dget id raw with
                                   | Some upstream => if bool_decide (id ∈ known) then None
                                                      else Some (shared_dependency d id upstream)
                                   | None => None
                                   end) (ds_dependencies d) in
      dset (ds_sensor_id d) (with_dependencies (sh_dependencies s ++ added) s) raw
  end.

Definition propagate_sensor_dependencies (raw : raw_snapshots) : raw_snapshots :=
  foldl propagate_to raw (descriptors registry).

(** ** Maintenance *)

Definition enter_maintenance (reason initiated_by : string) (timeout_seconds : Z) : M Manager pydict :=
  let reason := sprefix 256 (strip reason) in
  let initiated_by := sprefix 128 (strip initiated_by) in
  if negb (truthy reason) || negb (truthy initiated_by) || negb ((30 <=? timeout_seconds) && (timeout_seconds <=? 86400))
  then raise_st (ValueError "maintenance requires a reason, initiator, and timeout between 30 and 86400 seconds")
  else
    started ← asked wall_clock;
    now ← asked wall_clock;
    let payload := [("reason", VStr reason); ("initiated_by", VStr initiated_by); ("started_at", VFloat started);
                    ("expires_at", VFloat (fadd now (float_of_Z timeout_seconds)))] in
    in_db (set_manager_state "maintenance" payload);;
    mret payload.

Definition exit_maintenance : M Manager unit := in_db (set_manager_state "maintenance" []).

(** [float(v)] of the values a maintenance record holds *)
Definition expiry_of (v : pyval) : res float :=
  match v with
  | VFloat f => Ok f
  | VInt z => Ok (float_of_Z z)
  | _ => Raise (ValueError "could not convert to float")
  end.

(** [_active_maintenance]: the reason, if maintenance is on *)
Definition active_maintenance : M Manager (option string) :=
  stored ← in_db (get_manager_state "maintenance" (VDict []));
  match stored with
  | inl (VDict payload) =>
      if negb (truthy_val (vget "reason" payload)) then mret None
      else
        expires ← lift_res (expiry_of (dget_default (VInt 0) "expires_at" payload));
        now ← asked wall_clock;
        if fleb expires now
        then in_db (set_manager_state "maintenance" []);; mret None
        else mret (Some (py_str (vget "reason" payload)))
  | _ => mret None
  end.

(** ** Self-tests *)

(** [_bounded_self_test] *)
Definition self_test_result (now : datetime) (outcome : call SelfTestResult) : SelfTestResult :=
  let failed reason := {| sr_passed := false; sr_test_id := "provider_self_test"; sr_reason := reason;
    sr_latency_ms := None; sr_canary_id := ""; sr_stages := []; sr_completed_at := now |} in
  match outcome with
  | Returned t => t
  | Failed text => failed ("Self-test failed in isolation: " +:+ text)
  | Pending => failed "Self-test exceeded its bounded timeout."
  end.

Definition bounded_self_test (p : Provider) : M Manager SelfTestResult :=
  outcome ← asked (pv_self_test p);
  now ← now_utc;
  mret (self_test_result now outcome).

(** ** [run_cycle] *)

Definition RECOVERABLE_STATES : list SensorState := [S_FAILED; S_IMPAIRED; S_STALE; S_DEPENDENCY_FAILED; S_BACKPRESSURED].

(** What a verified or unverified recovery makes of the result. *)
Definition after_recovery (verification : SelfTestResult) (s : SensorHealthSnapshot) : SensorHealthSnapshot :=
  with_self_test verification
    (if sr_passed verification
     then with_state S_RECOVERING R_RECOVERY_IN_PROGRESS
            "Targeted recovery completed; stabilization evidence is still being collected." s
     else with_state S_IMPAIRED R_RECOVERY_VALIDATION_FAILED
            ("Recovery did not restore functional evidence: " +:+ sr_reason verification) s).

Definition recover_automatically (auto_recover : bool) (provider : option Provider) (d : SensorDescriptor)
    (result : SensorHealthSnapshot) : M Manager SensorHealthSnapshot :=
  match provider with
  | Some p =>
      if auto_recover && bool_decide (sh_state result ∈ RECOVERABLE_STATES)
      then
        started ← now_utc;
        mono ← asked monotonic;
        r ← in_engine (recover (pv_recover p) result (policy_of (ds_sensor_id d)) false mono);
        in_db (record_recovery (ds_sensor_id d) (reason_code_value (sh_reason_code result)) r (iso started));;
        if rx_succeeded r
        then verification ← bounded_self_test p; mret (after_recovery verification result)
        else mret result
      else mret result
  | None => mret result
  end.

Definition with_descriptor (d : SensorDescriptor) (s : SensorHealthSnapshot) : SensorHealthSnapshot :=
  with_metadata (dset "failure_domain" (VStr (ds_failure_domain d))
                   (dset "criticality" (VStr (criticality_value (ds_criticality d))) (sh_metadata s))) s.

Definition under_maintenance (maintenance : option string) (s : SensorHealthSnapshot) : SensorHealthSnapshot :=
  match maintenance with
  | Some reason => with_operator false (sh_remediation s)
      (with_state S_MAINTENANCE R_MAINTENANCE_ACTIVE ("Controlled maintenance: " +:+ reason) s)
  | None => s
  end.

(** The evaluation of one sampled sensor, and its state before. *)
Definition assess (run_self_tests auto_recover : bool) (maintenance : option string) (d : SensorDescriptor)
    (raw : SensorHealthSnapshot) : M Manager (SensorHealthSnapshot * SensorState) :=
  let policy := policy_of (ds_sensor_id d) in
  let provider := provider_of (ds_sensor_id d) registry in
  payload ← in_db (current_snapshot (ds_sensor_id d));
  now ← now_utc;
  let prior := prior_snapshot now payload in
  snapshot ← match provider with
             | Some p => if (run_self_tests : bool)
                         then t ← bounded_self_test p; mret (with_self_test t raw)
                         else mret raw
             | None => mret raw
             end;
  now ← now_utc;
  result ← lift_res (evaluate snapshot policy now);
  result ← in_hysteresis (apply_hysteresis (under_maintenance maintenance result) prior policy);
  result ← recover_automatically auto_recover provider d result;
  mret (with_descriptor d result, match prior with Some p => sh_state p | None => S_UNKNOWN end).

(** Descriptors with a sample, in the order of the registry. *)
Fixpoint assess_all (run_self_tests auto_recover : bool) (maintenance : option string) (raw : raw_snapshots)
    (l : list SensorDescriptor) : M Manager (list sensor * list (string * SensorState)) :=
  match l with
  | [] => mret ([], [])
  | d :: l' =>
      match dget (ds_sensor_id d) raw with
      | None => assess_all run_self_tests auto_recover maintenance raw l'
      | Some s =>
          '(result, prior) ← assess run_self_tests auto_recover maintenance d s;
          '(evaluated, previous) ← assess_all run_self_tests auto_recover maintenance raw l';
          mret ((d, result) :: evaluated, (ds_sensor_id d, prior) :: previous)
      end
  end.

(** [manager_state.update] at the end of a cycle *)
Definition cycle_state (started_at : datetime) (finished : datetime) (checked failures : Z) (duration : float)
    (st : pydict) : pydict :=
  dset "health_cycle_duration_ms" (VFloat (fround_digits 3 duration))
    (dset "health_checks_failed" (VInt failures)
      (dset "sensors_checked" (VInt checked)
        (dset "last_successful_health_cycle"
           (if 0 <? checked then VStr (iso finished)
            else VStr (py_str (dget_default (VStr "") "last_successful_health_cycle" st)))
           (dset "last_health_cycle" (VStr (iso started_at)) st)))).

(** The samples of a cycle: every registered provider, every missing sensor. *)
Definition collect : M Manager (raw_snapshots * Z) :=
  '(raw, failures) ← sample_providers (providers registry);
  raw ← sample_missing (missing_expected registry) raw;
  mret (propagate_sensor_dependencies raw, failures).

Definition run_cycle (run_self_tests auto_recover : bool) : M Manager PlatformHealthReport :=
  start ← asked monotonic;
  started_at ← now_utc;
  modify_st (fun m => set_state (dset "cycle_started_at" (VObj (datetime_text started_at)) (mg_state m)) m);;
  '(raw, failures) ← collect;
  maintenance ← active_maintenance;
  '(evaluated, previous) ← assess_all run_self_tests auto_recover maintenance raw (descriptors registry);
  stop ← asked monotonic;
  finished ← now_utc;
  modify_st (fun m => set_state (cycle_state started_at finished (zlen evaluated) failures
                                   (fmul (fsub stop start) (float_of_Z 1000)) (mg_state m)) m);;
  generated ← now_utc;
  m ← get_st;
  let report := build_platform_report evaluated (mg_state m) generated in
  in_db (persist_report report previous);;
  in_db (set_manager_state "coordinator_health" (mg_state m));;
  modify_st (set_last_report (Some report));;
  mret report.
End Coordinator.
