(* ===== verification/HealthManagerFacts.v ===== *)
(** What a cycle of the sensor reliability coordinator guarantees: every expected
    sensor is reported, and one whose provider proves nothing is reported failed; and
    where the isolation of sensors ends. *)

From S2P Require Import Prelude PyStr PyFloat PyDict PyJson PyTime Sql PyRepr.
From S2P Require Import HealthModels HealthEval HealthReport HealthRecovery HealthFacts HealthRegistry.
From S2P Require Import HealthStore FaultInjection HealthManager.

(** ** A dead process fails its sensor *)

Lemma worst_head i l : Forall (fun x => is_priority x <= is_priority i) l -> worst i l = i.
Proof.
  intros Hl. unfold worst. induction Hl as [|x l Hx _ IH]; [done|]. cbn [foldl].
  unfold more_urgent at 2. by rewrite (proj2 (Z.ltb_ge _ _) Hx).
Qed.

Definition at_most_100 (l : list action) : Prop := Forall (fun i => is_priority i <= 100) (issues l).

Lemma at_most_app l k : at_most_100 (l ++ k) <-> at_most_100 l /\ at_most_100 k.
Proof. unfold at_most_100. by rewrite issues_app, Forall_app. Qed.

Lemma at_most_if (c : bool) p st code msg f (other : list action) : p <= 100 -> at_most_100 other ->
  at_most_100 (if c then issue p st code msg f else other).
Proof. intros Hp Ho. destruct c; [|done]. by repeat constructor. Qed.

Lemma at_most_issue p st code msg f : p <= 100 -> at_most_100 (issue p st code msg f).
Proof. intros Hp. by repeat constructor. Qed.

Lemma at_most_nil : at_most_100 [].
Proof. constructor. Qed.



Ltac bound_checks :=
  repeat first
    [ apply at_most_nil | apply at_most_app; split | apply at_most_if; [lia|] | apply at_most_issue; lia
    | progress cbv zeta
    | match goal with |- at_most_100 (match ?x with _ => _ end) => destruct x end
    | solve [unfold at_most_100; cbn; repeat constructor; cbn; lia] ].

Lemma all_checks_at_most s policy now duplicated : at_most_100 (all_checks s policy now duplicated).
Proof.
  assert (at_most_100 (mark_progress s policy now)) as Hm by (unfold at_most_100; by rewrite mark_progress_issues).
  unfold all_checks. rewrite !at_most_app. repeat split; try exact Hm.
  - unfold check_process. bound_checks.
  - unfold check_heartbeat. bound_checks.
  - unfold check_permission. bound_checks.
  - unfold check_dependencies. bound_checks.
  - unfold check_configuration. bound_checks.
  - unfold check_rules. bound_checks.
  - unfold check_stalls. bound_checks.
  - unfold check_idle. bound_checks.
  - unfold check_queue. bound_checks.
  - unfold check_loss. bound_checks.
  - unfold check_resources. bound_checks.
  - unfold check_lifecycle. bound_checks.
Qed.

Lemma evaluate_id s policy now r : evaluate s policy now = Ok r -> sh_sensor_id r = sh_sensor_id s.
Proof. unfold evaluate. rewrite res_bind_unit_ok, res_bind_ok. by intros (_ & duplicated & _ & [= <-]). Qed.

Lemma apply_hysteresis_id s previous policy h r h' :
  apply_hysteresis s previous policy h = (Ok r, h') -> sh_sensor_id r = sh_sensor_id s.
Proof.
  unfold apply_hysteresis. destruct previous as [p|]; [|by intros [= <- <-]].
  destruct (bool_decide _); [by intros [= <- <-]|]. destruct (_ && _); by intros [= <- <-].
Qed.

(** A verdict with an immediate reason is published as it is. *)
Lemma immediate_is_published s previous policy h r h' : sh_reason_code s ∈ IMMEDIATE_REASON_CODES ->
  apply_hysteresis s previous policy h = (Ok r, h') -> r = s.
Proof.
  intros Hi. unfold apply_hysteresis. destruct previous as [p|]; [|by intros [= <- <-]].
  rewrite bool_decide_eq_true_2 by done. by intros [= <- <-].
Qed.

Lemma dead_process_fails s policy now r : sh_process_alive s = false -> evaluate s policy now = Ok r ->
  sh_state r = S_FAILED /\ sh_reason_code r = R_PROCESS_NOT_RUNNING /\ sh_sensor_id r = sh_sensor_id s.
Proof.
  intros Ha. unfold evaluate. rewrite res_bind_unit_ok, res_bind_ok. intros (_ & duplicated & _ & [= <-]).
  pose proof (all_checks_at_most s policy now duplicated) as Hb. unfold at_most_100, reasons_of in *.
  assert (exists rest, issues (all_checks s policy now duplicated)
    = {| is_priority := 100; is_state := S_FAILED; is_code := R_PROCESS_NOT_RUNNING;
         is_message := "Sensor process is not running; functional coverage is unavailable.";
         is_field := Some F_process |} :: rest) as [rest Hr].
  { unfold all_checks, check_process. rewrite Ha. cbn [negb]. rewrite issues_app. cbn. eexists. reflexivity. }
  rewrite Hr in *. cbn -[worst]. rewrite worst_head; [done|]. done.
Qed.

(** ** Sampling *)

(** What sampling and propagation leave of a snapshot. *)
Definition same_proof (s s' : SensorHealthSnapshot) : Prop :=
  sh_sensor_id s' = sh_sensor_id s /\ sh_process_alive s' = sh_process_alive s.

Lemma apply_faults_same j s : same_proof s (apply_faults j s).
Proof. unfold apply_faults. by destruct (fi_enabled j). Qed.

(** Asking the environment changes nothing in the database. *)
Definition untouched (m m' : Manager) : Prop := working (mg_db m') = working (mg_db m).

Section Coordinator.
Context `{ManagerEnv} (registry : SensorRegistry Provider) (policies : list (string * SensorHealthPolicy)).
Context (fault_injector : option FaultInjector).

(** A provider that never returns a snapshot of its own sensor. *)
Definition proves_nothing (p : Provider) : Prop :=
  forall n s, pv_health_snapshot p n = Returned s -> sh_sensor_id s <> pv_sensor_id p.

Lemma sample_of_spec p now outcome : sh_sensor_id (sample_of fault_injector p now outcome).1 = pv_sensor_id p
  /\ ((forall s, outcome = Returned s -> sh_sensor_id s <> pv_sensor_id p) ->
      sh_process_alive (sample_of fault_injector p now outcome).1 = false).
Proof.
  unfold sample_of. destruct outcome as [s|text|]; [|done..].
  destruct (String.eqb_spec (sh_sensor_id s) (pv_sensor_id p)) as [Hid|Hne]; cbn [negb]; [|done].
  split; [|by intros Hp; destruct (Hp s eq_refl)].
  destruct fault_injector as [j|]; [|done]. cbn [fst]. by rewrite (proj1 (apply_faults_same j s)).
Qed.

Lemma sample_providers_spec l m raw failures m' : sample_providers fault_injector l m = (Ok (raw, failures), m') ->
  untouched m m' /\ Forall2 (fun p kv => kv.1 = pv_sensor_id p /\ sh_sensor_id kv.2 = pv_sensor_id p
    /\ (proves_nothing p -> sh_process_alive kv.2 = false)) l raw.
Proof.
  revert m raw failures m'. induction l as [|p l IH]; intros m raw failures m'; cbn [sample_providers].
  { intros [= <- <- <-]. split; [done|constructor]. }
  intros (outcome & m1 & [= Hout <-] & Hm)%bind_ok. apply bind_ok in Hm as (now & m2 & [= Hnow <-] & Hm).
  apply bind_ok in Hm as ([raw' failures'] & m3 & Hrest & Hm). apply IH in Hrest as [Hu HF].
  pose proof (sample_of_spec p now outcome) as [Hid Hno].
  destruct (sample_of fault_injector p now outcome) as [s fine]. injection Hm as <- <- <-. cbn in *. split; [done|].
  constructor; [|done]. cbn. split_and!; [done..|]. intros Hp. apply Hno. subst outcome. intros s'. apply Hp.
Qed.

Lemma sample_missing_spec l raw m raw' m' : sample_missing l raw m = (Ok raw', m') ->
  untouched m m' /\ forall k,
    (k ∈ ds_sensor_id <$> l -> exists s, dget k raw' = Some s /\ sh_sensor_id s = k /\ sh_process_alive s = false)
    /\ (k ∉ ds_sensor_id <$> l -> dget k raw' = dget k raw).
Proof.
  revert raw m. induction l as [|d l IH]; intros raw m; cbn [sample_missing].
  { intros [= <- <-]. split; [done|]. intros k. split; [|done]. by intros ?%elem_of_nil. }
  intros (now & m1 & [= Hnow <-] & Hm)%bind_ok. apply IH in Hm as [Hu Hk]. split; [exact Hu|]. intros k.
  destruct (Hk k) as [Hin Hout]. cbn. rewrite elem_of_cons.
  destruct (decide (k ∈ ds_sensor_id <$> l)) as [Hl|Hl].
  - split; [intros _; by apply Hin|]. intros Hn. destruct Hn. by right.
  - specialize (Hout Hl). split.
    + intros [->|?]; [|done]. rewrite Hout, dget_dset_eq. eexists. split; [reflexivity|done].
    + intros Hn. rewrite Hout, dget_dset_ne; [done|]. intros ->. apply Hn. by left.
Qed.

(** ** Propagation *)

Definition agree (raw raw' : raw_snapshots) : Prop :=
  forall k, option_Forall2 same_proof (dget k raw) (dget k raw').

Lemma propagate_to_agree raw d : agree raw (propagate_to raw d).
Proof.
  intros k. unfold propagate_to. destruct (dget (ds_sensor_id d) raw) as [s|] eqn:Hs.
  - destruct (decide (k = ds_sensor_id d)) as [->|Hne].
    + rewrite dget_dset_eq, Hs. by constructor.
    + rewrite dget_dset_ne by done. destruct (dget k raw); by constructor.
  - destruct (dget k raw); by constructor.
Qed.

Lemma propagate_agree raw : agree raw (propagate_sensor_dependencies registry raw).
Proof.
  unfold propagate_sensor_dependencies. generalize (descriptors registry). intros l. revert raw.
  induction l as [|d l IH]; intros raw k; cbn [foldl]; [destruct (dget k raw); by constructor|].
  pose proof (propagate_to_agree raw d k) as H1. pose proof (IH (propagate_to raw d) k) as H2.
  destruct H1 as [s s' [Hi Ha]|]; inversion H2 as [? s'' [Hi' Ha']|]; subst; constructor.
  unfold same_proof. split; congruence.
Qed.
(** ** Assessment *)

(** The states in which a sensor is published that proved nothing. *)
Definition UNPROVEN_STATES : list SensorState := [S_FAILED; S_IMPAIRED; S_RECOVERING].

Lemma on_part_ok {A S} (get : Manager -> S) set (c : M S A) m a m' :
  on_part get set c m = (Ok a, m') -> exists s, c (get m) = (Ok a, s) /\ m' = set s m.
Proof. unfold on_part. destruct (c (get m)) as [r s]. intros [= -> <-]. by exists s. Qed.

Lemma recover_automatically_spec auto provider d s m r m' :
  recover_automatically policies auto provider d s m = (Ok r, m') ->
  sh_sensor_id r = sh_sensor_id s /\ (sh_state r = sh_state s \/ sh_state r ∈ UNPROVEN_STATES).
Proof.
  unfold recover_automatically. destruct provider as [p|]; [|intros [= <- <-]; auto].
  destruct (auto && _); [|intros [= <- <-]; auto].
  intros (started & m1 & _ & Hm)%bind_ok. apply bind_ok in Hm as (mono & m2 & _ & Hm).
  apply bind_ok in Hm as (rx & m3 & _ & Hm). apply bind_ok in Hm as ([] & m4 & _ & Hm).
  destruct (rx_succeeded rx); [|injection Hm as <- <-; auto].
  apply bind_ok in Hm as (v & m5 & _ & [= <- <-]). unfold after_recovery. split; [by destruct (sr_passed v)|].
  right. cbn. destruct (sr_passed v); cbn; set_solver.
Qed.

Lemma assess_spec self_tests auto maintenance d s m r prior m' :
  assess registry policies self_tests auto maintenance d s m = (Ok (r, prior), m') ->
  sh_sensor_id r = sh_sensor_id s
  /\ (sh_process_alive s = false -> maintenance = None -> sh_state r ∈ UNPROVEN_STATES).
Proof.
  unfold assess. intros (payload & m1 & _ & Hm)%bind_ok. apply bind_ok in Hm as (now & m2 & _ & Hm).
  apply bind_ok in Hm as (s1 & m3 & Hs1 & Hm). apply bind_ok in Hm as (now' & m4 & _ & Hm).
  apply bind_ok in Hm as (r1 & m5 & [= Hr1 _] & Hm). apply bind_ok in Hm as (r2 & m6 & Hr2 & Hm).
  apply bind_ok in Hm as (r3 & m7 & Hr3 & [= <- _ <-]).
  assert (same_proof s s1) as [Hid Ha].
  { destruct (provider_of (ds_sensor_id d) registry) as [p|]; [|by injection Hs1 as <- <-].
    destruct self_tests; [|by injection Hs1 as <- <-]. by apply bind_ok in Hs1 as (t & m8 & _ & [= <- <-]). }
  apply on_part_ok in Hr2 as (h & Hr2 & _). apply recover_automatically_spec in Hr3 as [Hid3 Hst3].
  pose proof (evaluate_id _ _ _ _ Hr1) as Hid1. pose proof (apply_hysteresis_id _ _ _ _ _ _ Hr2) as Hid2. split.
  - cbn. rewrite Hid3, Hid2. rewrite <- Hid, <- Hid1. by destruct maintenance.
  - intros Hdead ->. rewrite Hdead in Ha. destruct (dead_process_fails _ _ _ _ Ha Hr1) as (Hst & Hcode & _).
    apply immediate_is_published in Hr2; [|cbn; rewrite Hcode; by left]. subst r2. cbn in *.
    destruct Hst3 as [->|]; [|done]. rewrite Hst. by left.
Qed.

Lemma assess_all_spec self_tests auto maintenance raw l m evaluated previous m' :
  assess_all registry policies self_tests auto maintenance raw l m = (Ok (evaluated, previous), m') ->
  Forall2 (fun d x => x.1 = d /\ exists s, dget (ds_sensor_id d) raw = Some s /\ sh_sensor_id x.2 = sh_sensor_id s
             /\ (sh_process_alive s = false -> maintenance = None -> sh_state x.2 ∈ UNPROVEN_STATES))
    (filter (fun d => is_Some (dget (ds_sensor_id d) raw)) l) evaluated.
Proof.
  revert m evaluated previous m'. induction l as [|d l IH]; intros m evaluated previous m'; cbn [assess_all].
  { intros [= <- <- <-]. constructor. }
  rewrite filter_cons. destruct (dget (ds_sensor_id d) raw) as [s|] eqn:Hs.
  - rewrite decide_True by (by eexists). intros ([r prior] & m1 & Hr & Hm)%bind_ok.
    apply bind_ok in Hm as ([e pr] & m2 & Hrest & [= <- <- <-]). apply IH in Hrest. constructor; [|done].
    split; [done|]. exists s. split; [done|]. by apply assess_spec in Hr.
  - rewrite decide_False by (by intros [? ?]). apply IH.
Qed.

(** ** The cycle *)

Lemma dget_related {V W} (R : string -> V -> W -> Prop) k (d : list (string * V)) (d' : list (string * W)) :
  Forall2 (fun x y => y.1 = x.1 /\ R x.1 x.2 y.2) d d' -> option_Forall2 (R k) (dget k d) (dget k d').
Proof.
  induction 1 as [|[k1 v] [k2 w] d d' [Hk HR] _ IH]; cbn in *; [constructor|]. subst k2.
  destruct (decide (k = k1)) as [->|]; [by constructor|done].
Qed.

(** The sensors a cycle looks at: those with a provider, and those expected to have one. *)
Definition sampled (d : SensorDescriptor) : bool :=
  dmem (ds_sensor_id d) (rg_providers registry) || (ds_expected d && ds_enabled d).

(** A sensor of which nothing can be proved: expected and never registered, or with a
    provider that raises, hangs or answers for another sensor. *)
Definition silent (d : SensorDescriptor) : Prop :=
  match provider_of (ds_sensor_id d) registry with
  | Some p => proves_nothing p
  | None => ds_expected d && ds_enabled d = true
  end.

Lemma missing_ids d : registry_sound pv_sensor_id registry -> d ∈ descriptors registry ->
  ds_sensor_id d ∈ ds_sensor_id <$> missing_expected registry
  <-> provider_of (ds_sensor_id d) registry = None /\ ds_expected d && ds_enabled d = true.
Proof.
  intros [Honce Hkeyed _ _] Hd.
  assert (forall d', d' ∈ descriptors registry -> dget (ds_sensor_id d') (rg_descriptors registry) = Some d') as Hget.
  { intros d' ([k x] & -> & Hx)%list_elem_of_fmap. rewrite Forall_forall in Hkeyed. specialize (Hkeyed _ Hx). cbn in *.
    subst k. by apply elem_dget. }
  rewrite list_elem_of_fmap. unfold missing_expected, provider_of, dmem. setoid_rewrite list_elem_of_filter. split.
  - intros (d' & Hid & Hf & Hd'). assert (d' = d) as -> by (apply Hget in Hd, Hd'; congruence).
    destruct (dget (ds_sensor_id d) (rg_providers registry)); [by rewrite andb_false_r in Hf|].
    by rewrite andb_true_r in Hf.
  - intros [Hp He]. exists d. by rewrite Hp, He.
Qed.

Lemma collect_spec m raw failures m' : registry_sound pv_sensor_id registry ->
  collect registry fault_injector m = (Ok (raw, failures), m') ->
  untouched m m' /\ forall d, d ∈ descriptors registry ->
    (is_Some (dget (ds_sensor_id d) raw) <-> sampled d = true)
    /\ forall s, dget (ds_sensor_id d) raw = Some s -> sh_sensor_id s = ds_sensor_id d
        /\ (silent d -> sh_process_alive s = false).
Proof.
  intros Hsound. unfold collect. intros ([raw1 f] & m1 & Hp & Hm)%bind_ok.
  apply bind_ok in Hm as (raw2 & m2 & Hmiss & [= <- _ <-]).
  apply sample_providers_spec in Hp as [Hu1 HF]. apply sample_missing_spec in Hmiss as [Hu2 Hmiss].
  split; [unfold untouched in *; congruence|]. intros d Hd.
  assert (option_Forall2 (fun p s => sh_sensor_id s = ds_sensor_id d /\ (proves_nothing p -> sh_process_alive s = false))
            (provider_of (ds_sensor_id d) registry) (dget (ds_sensor_id d) raw1)) as H1.
  { pose proof (providers_keyed _ _ Hsound) as Hkeyed. unfold provider_of.
    apply (dget_related (fun k p s => sh_sensor_id s = k /\ (proves_nothing p -> sh_process_alive s = false))).
    unfold providers in HF. rewrite Forall2_fmap_l in HF. revert Hkeyed. clear - HF.
    induction HF as [|x y l l' (Hk & Hid & Hs) _ IH]; [constructor|]. intros [[Hx _] Hl]%Forall_cons.
    constructor; [|by apply IH]. cbn in *. rewrite <- Hx. split; [done|]. by split. }
  destruct (Hmiss (ds_sensor_id d)) as [Hin Hout]. rewrite (missing_ids d Hsound Hd) in Hin, Hout.
  pose proof (propagate_agree raw2 (ds_sensor_id d)) as H2. unfold sampled, silent, dmem. unfold provider_of in *.
  destruct (dget (ds_sensor_id d) (rg_providers registry)) as [p|]; inversion H1 as [? s [Hid Hs] Hp Hr|Hp Hr]; subst; cbn.
  - rewrite Hout in H2 by by intros [? _]. rewrite <- Hr in H2. inversion H2 as [? s' [Hid' Ha']|]; subst.
    split; [done|]. intros s1 [= <-]. split; [congruence|]. intros Hq. rewrite Ha'. by apply Hs.
  - destruct (ds_expected d && ds_enabled d).
    + destruct Hin as (s & Hs & Hid & Ha); [done|]. rewrite Hs in H2. inversion H2 as [? s' [Hid' Ha']|]; subst.
      split; [done|]. intros s1 [= <-]. split; congruence.
    + rewrite Hout in H2 by by intros [_ ?]. rewrite <- Hr in H2. inversion H2. split; [|done]. split; [|done].
      by intros [? ?].
Qed.

(** No maintenance is recorded, or it was ended. *)
Definition maintenance_off (m : Manager) : Prop :=
  match dget "maintenance" (y_manager (working (mg_db m))) with
  | None | Some (Encodes (ManagerDict []), _) => True
  | _ => False
  end.

Lemma active_maintenance_off m maintenance m' : maintenance_off m ->
  active_maintenance m = (Ok maintenance, m') -> maintenance = None.
Proof.
  intros Hoff. unfold active_maintenance, in_db. intros (stored & m1 & Hs & Hm)%bind_ok.
  apply on_part_ok in Hs as (w & Hs & ->). unfold get_manager_state, sql_read in Hs.
  apply bind_ok in Hs as (row & w1 & Hrow & [= <- <-]). destruct (stmt_ok _); [|done]. injection Hrow as <- <-.
  unfold maintenance_off in Hoff. destruct (dget "maintenance" _) as [[[[[|??]|]|] ?]|]; try done; by injection Hm.
Qed.

Lemma cycle_inv self_tests auto m report m' :
  run_cycle registry policies fault_injector self_tests auto m = (Ok report, m') ->
  exists m1 m2 m3 m4 m5 raw failures maintenance evaluated previous health generated,
    untouched m m1
    /\ collect registry fault_injector m1 = (Ok (raw, failures), m2)
    /\ active_maintenance m2 = (Ok maintenance, m3)
    /\ assess_all registry policies self_tests auto maintenance raw (descriptors registry) m3
         = (Ok (evaluated, previous), m4)
    /\ report = build_platform_report evaluated health generated
    /\ m' = set_last_report (Some report) m5.
Proof.
  unfold run_cycle. intros (start & m0 & [= _ <-] & Hm)%bind_ok. apply bind_ok in Hm as (at0 & m1 & [= _ <-] & Hm).
  apply bind_ok in Hm as ([] & m2 & [= <-] & Hm). apply bind_ok in Hm as ([raw failures] & m3 & Hcollect & Hm).
  apply bind_ok in Hm as (maintenance & m4 & Hmaint & Hm). apply bind_ok in Hm as ([evaluated previous] & m5 & Hall & Hm).
  apply bind_ok in Hm as (stop & m6 & [= _ <-] & Hm). apply bind_ok in Hm as (finished & m7 & [= _ <-] & Hm).
  apply bind_ok in Hm as ([] & m8 & [= <-] & Hm). apply bind_ok in Hm as (generated & m9 & [= <- <-] & Hm).
  apply bind_ok in Hm as (mm & m10 & [= <- <-] & Hm). apply bind_ok in Hm as (ts & m11 & _ & Hm).
  apply bind_ok in Hm as ([] & m12 & _ & Hm). apply bind_ok in Hm as ([] & m13 & [= <-] & [= <- <-]).
  do 12 eexists. split_and!; [|exact Hcollect|exact Hmaint|exact Hall|reflexivity|reflexivity]. done.
Qed.

Lemma filter_iff_in {A} (P Q : A -> Prop) `{forall x, Decision (P x), forall x, Decision (Q x)} (l : list A) :
  (forall x, x ∈ l -> P x <-> Q x) -> filter P l = filter Q l.
Proof.
  induction l as [|x l IH]; intros HPQ; [done|]. rewrite !filter_cons, IH by (intros y Hy; apply HPQ; by right).
  destruct (HPQ x) as [HP HQ]; [by left|]. by destruct (decide (P x)), (decide (Q x)); auto; exfalso; auto.
Qed.

Lemma Forall2_in_l {A B} (P : A -> B -> Prop) l k : Forall2 P l k -> Forall2 (fun x y => x ∈ l /\ P x y) l k.
Proof.
  induction 1 as [|x y l k HP _ IH]; constructor; [split; [by left|done]|].
  eapply Forall2_impl; [exact IH|]. intros a b [Ha HPa]. split; [by right|done].
Qed.

(** C9. No sensor goes unreported: when a cycle completes, its report lists, in the
    order of the manifest, exactly the sensors that have a provider or are expected and
    enabled, and it becomes the last report; and outside maintenance every sensor of
    which nothing was proved (it never registered, or its provider raised, hung past
    the timeout or answered for another sensor) is reported as failed, impaired or
    under recovery, whatever its state was before and whatever the hysteresis holds. *)
Theorem no_sensor_goes_unreported (self_tests auto : bool) (m m' : Manager) (report : PlatformHealthReport) :
  registry_sound pv_sensor_id registry ->
  run_cycle registry policies fault_injector self_tests auto m = (Ok report, m') ->
  sh_sensor_id <$> pr_sensors report = ds_sensor_id <$> filter (fun d => sampled d = true) (descriptors registry)
  /\ mg_last_report m' = Some report
  /\ (maintenance_off m -> forall d, d ∈ descriptors registry -> silent d ->
        exists s, s ∈ pr_sensors report /\ sh_sensor_id s = ds_sensor_id d /\ sh_state s ∈ UNPROVEN_STATES).
Proof.
  intros Hsound Hrun. apply cycle_inv in Hrun
    as (m1 & m2 & m3 & m4 & m5 & raw & failures & maint & evaluated & previous & health & generated & Hu & Hc & Hmt & Ha & -> & ->).
  apply collect_spec in Hc as [Hu2 Hraw]; [|done]. apply assess_all_spec in Ha.
  rewrite (filter_iff_in _ (fun d => sampled d = true)) in Ha by (intros d Hd; apply (Hraw d Hd)).
  apply Forall2_in_l in Ha. set (F := filter _ _) in *. assert (Forall2 (fun d x =>
    sh_sensor_id x.2 = ds_sensor_id d /\ (silent d -> maint = None -> sh_state x.2 ∈ UNPROVEN_STATES)) F evaluated) as Hall.
  { eapply Forall2_impl; [exact Ha|]. cbn. intros d x (Hd & _ & s & Hs & Hid & Hdead). unfold F in Hd.
    apply list_elem_of_filter in Hd as [_ Hd]. destruct (proj2 (Hraw d Hd) s Hs) as [Hid' Hsil]. split; [congruence|].
    intros Hq. by apply Hdead, Hsil. }
  cbn. split_and!.
  - clearbody F. clear -Hall. induction Hall as [|d x F evaluated [Hid _] _ IH]; [done|]. cbn. by f_equal.
  - done.
  - intros Hoff d Hd Hsilent. assert (d ∈ F) as [i Hi]%list_elem_of_lookup_1.
    { apply list_elem_of_filter. split; [|done]. unfold silent, sampled, dmem, provider_of in *.
      by destruct (dget _ (rg_providers registry)). }
    destruct (Forall2_lookup_l _ _ _ _ _ Hall Hi) as (x & Hx & Hid & Hst). exists x.2. split_and!; [|done|].
    + apply list_elem_of_fmap. exists x. split; [done|]. by eapply list_elem_of_lookup_2.
    + apply Hst; [done|]. eapply active_maintenance_off; [|exact Hmt].
      unfold maintenance_off, untouched in *. by rewrite Hu2, Hu.
Qed.
End Coordinator.

(** ** Runs of the coordinator *)

(** Statement number [bad] fails. *)
Definition coordinator_env (bad : nat) : ManagerEnv := {|
  manager_store := {|
    store_platform := plain_env;
    utc_clock := fun n => 1000 * 1000000 + Z.of_nat n; stmt_ok := fun n => negb (n =? bad)%nat;
    database_bytes := fun _ => 0; integrity_key := "" |};
  monotonic := fun n => float_of_Z (Z.of_nat n); wall_clock := fun n => float_of_Z (Z.of_nat n) |}.

Definition no_recovery (_ : RecoveryReason) : RecoveryResult + string := inr "RuntimeError: no recovery".

Definition demo_provider (id : string) (outcome : call SensorHealthSnapshot) : Provider := {|
  pv_sensor_id := id; pv_health_snapshot := fun _ => outcome; pv_self_test := fun _ => Pending;
  pv_recover := no_recovery |}.

Definition demo_manifest : SensorRegistry Provider := new_registry
  [descriptor "endpoint_security" "Endpoint Security" C_CRITICAL true true [] [] "general";
   descriptor "system_monitor" "System Monitor" C_HIGH true true [] [] "general"].

Definition registered (l : list Provider) : SensorRegistry Provider :=
  foldl (fun r p => (register pv_sensor_id p r).2) demo_manifest l.

Lemma registered_sound l : registry_sound pv_sensor_id (registered l).
Proof.
  unfold registered. assert (registry_sound pv_sensor_id demo_manifest) as Hr by apply new_registry_sound.
  revert Hr. generalize demo_manifest. induction l as [|p l IH]; intros r Hr; [done|]. cbn [foldl]. apply IH.
  pose proof (register_keeps_sound pv_sensor_id p r Hr) as Hk. by destruct (register pv_sensor_id p r) as [[?|?] ?].
Qed.

Definition empty_store : HealthDb := {| committed := no_health; working := no_health; in_tx := false; ticks := 0 |}.

Definition cycle_of (bad : nat) (l : list Provider) (m : Manager) : res PlatformHealthReport * Manager :=
  run_cycle (H := coordinator_env bad) (registered l) [] None false true m.

(** The state and the reason of one sensor in a report. *)
Definition published (id : string) (r : res PlatformHealthReport) : option (SensorState * ReasonCode) :=
  match r with
  | Ok report => (fun s => (sh_state s, sh_reason_code s)) <$> find_first (fun s => String.eqb (sh_sensor_id s) id) (pr_sensors report)
  | Raise _ => None
  end.

Definition ok_sensor : list Provider := [demo_provider "system_monitor" (Returned sample_sensor)].
Definition hung_sensor : list Provider := [demo_provider "system_monitor" Pending].

Definition after_ok : Manager := (cycle_of 1000 ok_sensor (new_manager empty_store)).2.
Definition hung_cycle : res PlatformHealthReport * Manager := cycle_of 1000 hung_sensor after_ok.
Definition hung_report : PlatformHealthReport :=
  match hung_cycle.1 with Ok r => r | Raise _ => build_platform_report [] [] (sample_time 0) end.

Lemma no_sensor_goes_unreported_witness :
  sh_sensor_id <$> pr_sensors hung_report = ["endpoint_security"; "system_monitor"]
  /\ mg_last_report hung_cycle.2 = Some hung_report
  /\ exists s, s ∈ pr_sensors hung_report /\ sh_sensor_id s = "system_monitor" /\ sh_state s ∈ UNPROVEN_STATES.
Proof.
  assert (run_cycle (H := coordinator_env 1000) (registered hung_sensor) [] None false true after_ok
          = (Ok hung_report, hung_cycle.2)) as Hrun by (vm_compute; reflexivity).
  destruct (no_sensor_goes_unreported (H := coordinator_env 1000) (registered hung_sensor) [] None false true
    after_ok hung_cycle.2 hung_report (registered_sound _) Hrun) as (Hids & Hlast & Hsilent).
  split; [rewrite Hids; vm_compute; reflexivity|]. split; [exact Hlast|].
  apply (Hsilent I (descriptor "system_monitor" "System Monitor" C_HIGH true true [] [] "general")).
  - right. left.
  - intros n s. vm_compute. discriminate.
Defined.

(** A hung provider is published as a process that is not running: the reason code its
    failure was built with is recomputed by the evaluator, so none of the codes
    HEALTH_PROVIDER_TIMEOUT and HEALTH_PROVIDER_INVALID is ever published. *)
Example hung_provider_reason : published "system_monitor" hung_cycle.1 = Some (S_FAILED, R_PROCESS_NOT_RUNNING).
Proof. by vm_compute. Qed.

(** ** Where the isolation of sensors ends *)

(** A provider that returns a counter no snapshot may hold ends the cycle for all
    sensors: the evaluation is outside the isolated part. *)
Definition negative_sensor : list Provider :=
  [demo_provider "system_monitor" (Returned (replace_faulted
     (set_processing None None (-1) 0 fzero (faulted_of sample_sensor)) sample_sensor))].

Example one_bad_snapshot_stops_the_cycle :
  (cycle_of 1000 negative_sensor (new_manager empty_store)).1
  = Raise (ValueError "sensor counters and queue metrics cannot be negative").
Proof. by vm_compute. Qed.

(** The first cycle of a maintenance shows a sensor that just failed under the healthy
    state it had before: neither the failure nor the maintenance is an immediate reason. *)
Definition maintained : Manager :=
  (enter_maintenance (H := coordinator_env 1000) "upgrade" "operator" 3600 after_ok).2.

Example failure_hidden_by_maintenance :
  published "system_monitor" (cycle_of 1000 hung_sensor maintained).1 = Some (S_HEALTHY, R_MAINTENANCE_ACTIVE).
Proof. by vm_compute. Qed.

(** A statement that fails between the current row of a sensor and its history loses
    the transition for good: nothing is rolled back, and the next cycle, which
    succeeds, finds the new state already there. *)
Definition history_of (m : Manager) : list (string * string) :=
  (fun r => (hh_previous_state r, hh_new_state r))
    <$> filter (fun r => hh_sensor_id r = "system_monitor") (y_history (committed (mg_db m))).

Definition interrupted : Manager := (cycle_of 59 hung_sensor after_ok).2.
Definition resumed : res PlatformHealthReport * Manager := cycle_of 1000 hung_sensor interrupted.

Example interrupted_transition_is_lost :
  is_ok (cycle_of 59 hung_sensor after_ok).1 = false
  /\ published "system_monitor" resumed.1 = Some (S_FAILED, R_PROCESS_NOT_RUNNING)
  /\ history_of after_ok = [("UNKNOWN", "HEALTHY")] /\ history_of resumed.2 = [("UNKNOWN", "HEALTHY")].
Proof. by vm_compute. Qed.
