(* ===== verification/License.v ===== *)
(** Product licences: [licensing/models.py], [policy.py], [verifier.py].

    A licence is a JSON object with an Ed25519 signature over its canonical text. *)

From S2P Require Import Prelude PyStr PyFloat PyDict PyJson PyTime PyRepr.
From Stdlib Require Import Ascii Floats.SpecFloat.

(** ** Models and policy *)

Inductive LicenseState :=
| LS_VALID | LS_EXPIRING | LS_EXPIRED | LS_NOT_YET_VALID | LS_UNLICENSED | LS_INVALID | LS_DEVICE_MISMATCH
| LS_CLOCK_ROLLBACK_SUSPECTED | LS_VERIFIER_UNAVAILABLE.

#[export] Instance license_state_eq_dec : EqDecision LicenseState.
Proof. solve_decision. Defined.

Definition license_state_value (s : LicenseState) : string :=
  match s with
  | LS_VALID => "VALID" | LS_EXPIRING => "EXPIRING" | LS_EXPIRED => "EXPIRED" | LS_NOT_YET_VALID => "NOT_YET_VALID"
  | LS_UNLICENSED => "UNLICENSED" | LS_INVALID => "INVALID" | LS_DEVICE_MISMATCH => "DEVICE_MISMATCH"
  | LS_CLOCK_ROLLBACK_SUSPECTED => "CLOCK_ROLLBACK_SUSPECTED" | LS_VERIFIER_UNAVAILABLE => "VERIFIER_UNAVAILABLE"
  end.

Definition CORE_SAFETY_FEATURES : list string :=
  ["core_protection"; "alerting"; "evidence_preservation"; "incident_response"; "integrity_verification"].

Record LicenseStatus := {
  li_state : LicenseState;
  li_message : string;
  li_license_id : string;
  li_edition : string;
  li_licensed_to : string;
  li_issued_at : string;
  li_expires_at : option string;
  li_maintenance_until : option string;
  li_features : list string;
  li_activation_mode : string;
  li_device_bound : bool;
  li_key_id : string;
  li_last_verified_at : string;
  li_days_remaining : option Z;
  li_warnings : list string;
  li_error_code : string;
  li_core_protection_active : bool;
  li_metadata : list (string * string)
}.

(** [LicenseStatus.valid] *)
Definition license_valid (s : LicenseStatus) : bool := bool_decide (li_state s ∈ [LS_VALID; LS_EXPIRING]).

Record LicensingPolicy := {
  lp_product_id : string;
  lp_maximum_document_bytes : Z;
  lp_clock_rollback_tolerance_seconds : Z;
  lp_expiring_warning_days : Z;
  lp_operator_unlock_activation_modes : list string;
  lp_core_safety_features : list string
}.

Definition DEFAULT_POLICY : LicensingPolicy := {|
  lp_product_id := "com.liquidskysecurity.msaa"; lp_maximum_document_bytes := 262144;
  lp_clock_rollback_tolerance_seconds := 300; lp_expiring_warning_days := 30;
  lp_operator_unlock_activation_modes := ["offline"; "stripe"]; lp_core_safety_features := CORE_SAFETY_FEATURES |}.

Definition LICENSE_SCHEMA_VERSION : Z := 1.

(** ** Base 64, as [base64.b64decode(s, validate=True)] reads it

    On Python 3.10: at most two pad characters end the text, and may be one more than
    the last group needs. *)

Definition sextet (c : ascii) : option Z :=
  if is_upper c then Some (code c - 65)
  else if is_lower c then Some (code c - 71)
  else if is_digit c then Some (code c + 4)
  else if Ascii.eqb c "+" then Some 62
  else if Ascii.eqb c "/" then Some 63
  else None.

Definition byte_of (z : Z) : ascii := ascii_of_N (Z.to_N (z mod 256)).
Definition is_pad (c : ascii) : bool := Ascii.eqb c "=".

Fixpoint b64decode (s : string) : option string :=
  match s with
  | "" | "=" | "==" => Some ""
  | String a (String b (String c (String d s'))) =>
      x ← sextet a; y ← sextet b;
      let first := byte_of (x * 4 + y / 16) in
      if is_pad c then if is_pad d && String.eqb s' "" then Some (String first "") else None
      else
        z ← sextet c;
        let second := byte_of (y * 16 + z / 4) in
        if is_pad d then if one_of s' [""; "="] then Some (String first (String second "")) else None
        else
          t ← sextet d;
          rest ← b64decode s';
          Some (String first (String second (String (byte_of (z * 64 + t)) rest)))
  | _ => None
  end.

(** ** Canonical text *)

Fixpoint finite_json (v : pyval) : bool :=
  match v with
  | VFloat f => is_finite f
  | VList l | VTuple l => forallb finite_json l
  | VDict d => forallb (fun kv => finite_json kv.2) d
  | _ => true
  end.

(** [canonical_json], [allow_nan=False] *)
Definition canonical_json `{PlatformEnv} (v : pyval) : res string :=
  if finite_json v then json_dumps compact_utf8_style v
  else Raise (ValueError "Out of range float values are not JSON compliant").

Definition signed_payload `{PlatformEnv} (document : pydict) : res string :=
  canonical_json (VDict (ddel "signature" document)).

(** ** Fields *)

Definition license_error {A} (code msg : string) : res A := Raise (LicenseVerificationError code msg).

(** [_parse_time]: the instant, in microseconds of UTC. *)
Definition parse_time_field (value : pyval) (field : string) (required : bool) : res (option Z) :=
  match value with
  | VNone | VStr "" =>
      if required then license_error "LIC_FIELD_REQUIRED" (field +:+ " is required") else Ok None
  | VStr text =>
      if 64 <? slen text then license_error "LIC_TIME_INVALID" (field +:+ " must be an RFC3339 timestamp")
      else
        let n := slen text - 1 in
        let text := if String.eqb text (sprefix n text +:+ "Z") then sprefix n text +:+ "+00:00" else text in
        match fromisoformat text with
        | None => license_error "LIC_TIME_INVALID" (field +:+ " must be an RFC3339 timestamp")
        | Some d => if aware d then Ok (Some (instant d))
                    else license_error "LIC_TIME_INVALID" (field +:+ " must include a timezone")
        end
  | _ => license_error "LIC_TIME_INVALID" (field +:+ " must be an RFC3339 timestamp")
  end.

(** [_clean_text] *)
Definition clean_text (value : pyval) (field : string) (required : bool) (maximum : Z) : res string :=
  match value with
  | VNone | VStr _ =>
      let text := strip (match value with VStr s => s | _ => "" end) in
      if required && negb (truthy text) then license_error "LIC_FIELD_REQUIRED" (field +:+ " is required")
      else if (maximum <? slen text) || negb (all_chars (fun c => 32 <=? code c) text)
      then license_error "LIC_FIELD_INVALID" (field +:+ " is invalid")
      else Ok text
  | _ => license_error "LIC_FIELD_INVALID" (field +:+ " must be text")
  end.

(** [load_trusted_keys] *)
Definition trusted_key `{PlatformEnv} (item : pyval) : res (option (string * string)) :=
  match item with
  | VDict d =>
      if negb (match vget "algorithm" d with VStr s => String.eqb s "Ed25519" | _ => false end)
         || negb (truthy_val (dget_default (VBool true) "enabled" d))
      then Ok None
      else
        key_id ← clean_text (vget "key_id" d) "key_id" true 128;
        match b64decode (py_str (dget_default (VStr "") "public_key" d)) with
        | None => license_error "LIC_TRUST_STORE_INVALID" ("Invalid public key for " +:+ key_id)
        | Some raw => if slen raw =? 32 then Ok (Some (key_id, raw))
                      else license_error "LIC_TRUST_STORE_INVALID" ("Ed25519 public key " +:+ key_id +:+ " is not 32 bytes")
        end
  | _ => Ok None
  end.

(** The keys of a list of items, a later key of the same id replacing an earlier one. *)
Fixpoint load_trusted_keys `{PlatformEnv} (items : list pyval) (keys : list (string * string)) : res (list (string * string)) :=
  match items with
  | [] => Ok keys
  | item :: items' =>
      k ← trusted_key item;
      load_trusted_keys items' (match k with Some (id, raw) => dset id raw keys | None => keys end)
  end.

(** ** [LicenseVerifier] *)

(** [math.ceil] of a finite float *)
Definition fceil (f : float) : Z :=
  match f with
  | S754_finite neg m e =>
      let z := if neg then Zneg m else Zpos m in
      if 0 <=? e then z * 2 ^ e else - ((- z) / 2 ^ (- e))
  | _ => 0
  end.

(** The signature library: absent, or the verification of a signature on a text under
    a public key; and the zone in which a datetime without one is read. *)
Class SignatureEnv := {
  #[global] signature_platform :: PlatformEnv;
  ed25519_verify : option (string -> string -> string -> bool);
  local_zone : Z -> Z
}.

(** [d.timestamp()] *)
Definition timestamp `{SignatureEnv} (d : datetime) : float :=
  total_seconds (match utc_off d with Some _ => instant d | None => local_us d - local_zone (local_us d) end).

Section Verifier.
Context `{SignatureEnv} (trusted_keys : list (string * string)) (policy : LicensingPolicy).

(** The schema, the product and the signature; the id of the key that signed. *)
Definition check_signature (document : pydict) : res string :=
  raise_if (negb (match vget "schema_version" document with VInt n => n =? LICENSE_SCHEMA_VERSION | _ => false end))
    (LicenseVerificationError "LIC_SCHEMA_UNSUPPORTED" "Unsupported license schema version");;
  product ← clean_text (vget "product_id" document) "product_id" true 256;
  raise_if (negb (String.eqb product (lp_product_id policy)))
    (LicenseVerificationError "LIC_PRODUCT_MISMATCH" "License is for a different product");;
  match vget "signature" document with
  | VDict signature =>
      raise_if (negb (match vget "algorithm" signature with VStr s => String.eqb s "Ed25519" | _ => false end))
        (LicenseVerificationError "LIC_SIGNATURE_INVALID" "An Ed25519 signature is required");;
      key_id ← clean_text (vget "key_id" signature) "signature.key_id" true 128;
      match dget key_id trusted_keys with
      | None => license_error "LIC_KEY_UNKNOWN" "License signing key is not trusted"
      | Some public_key =>
          match b64decode (py_str (dget_default (VStr "") "value" signature)) with
          | None => license_error "LIC_SIGNATURE_INVALID" "License signature is malformed"
          | Some bytes =>
              match ed25519_verify with
              | None => license_error "LIC_VERIFIER_UNAVAILABLE" "Install MSAA's crypto dependency to verify licenses"
              | Some check =>
                  match signed_payload document with
                  | Ok payload => if check public_key bytes payload then Ok key_id
                                  else license_error "LIC_SIGNATURE_INVALID" "License signature verification failed"
                  | Raise _ => license_error "LIC_SIGNATURE_INVALID" "License signature verification failed"
                  end
              end
          end
      end
  | _ => license_error "LIC_SIGNATURE_INVALID" "An Ed25519 signature is required"
  end.

(** What the fields of a signed document say. *)
Record LicenseFields := {
  lf_license_id : string;
  lf_edition : string;
  lf_licensed_to : string;
  lf_issued : Z;
  lf_not_before : Z;
  lf_expires : option Z;
  lf_maintenance : option Z;
  lf_activation_mode : string;
  lf_features : list string;
  lf_fingerprint : string
}.

Definition is_hex64 (s : string) : bool :=
  (slen s =? 64) && all_chars (fun c => is_digit c || in_range 97 102 c) s.

(** [sorted({...})] *)
Definition sorted_set (l : list string) : list string := sort_by str_le (elements (list_to_set l : gset string)).

Definition device_binding (document : pydict) : res string :=
  binding ← match vget "device_binding" document with
            | VDict d => Ok d
            | v => if truthy_val v then license_error "LIC_BINDING_INVALID" "device_binding must be an object" else Ok []
            end;
  fingerprint ← clean_text (dget_default (VStr "") "fingerprint" binding) "device_binding.fingerprint" false 128;
  raise_if (truthy fingerprint && negb (is_hex64 fingerprint))
    (LicenseVerificationError "LIC_BINDING_INVALID" "Device fingerprint must be 64 lowercase hexadecimal characters");;
  Ok fingerprint.

Definition read_fields (document : pydict) : res LicenseFields :=
  license_id ← clean_text (vget "license_id" document) "license_id" true 128;
  edition ← clean_text (vget "edition" document) "edition" true 64;
  licensed_to ← clean_text (vget "licensed_to" document) "licensed_to" false 256;
  issued ← parse_time_field (vget "issued_at" document) "issued_at" true;
  not_before ← parse_time_field (vget "not_before" document) "not_before" false;
  expires ← parse_time_field (vget "expires_at" document) "expires_at" false;
  maintenance ← parse_time_field (vget "maintenance_until" document) "maintenance_until" false;
  mode ← clean_text (dget_default (VStr "offline") "activation_mode" document) "activation_mode" false 32;
  features ← match dget_default (VList []) "features" document with
             | VList l => if 256 <? zlen l then license_error "LIC_FEATURES_INVALID" "features must be a bounded list"
                          else res_map (fun v => clean_text v "feature" true 128) l
             | _ => license_error "LIC_FEATURES_INVALID" "features must be a bounded list"
             end;
  fingerprint ← device_binding document;
  Ok {| lf_license_id := license_id; lf_edition := upper edition; lf_licensed_to := licensed_to;
        lf_issued := default 0 issued; lf_not_before := default (default 0 issued) not_before; lf_expires := expires;
        lf_maintenance := maintenance; lf_activation_mode := mode; lf_features := sorted_set features;
        lf_fingerprint := fingerprint |}.

Definition status_of (f : LicenseFields) (key_id : string) (now : Z) (state : LicenseState) (message error_code : string)
    (days : option Z) (warnings : list string) : LicenseStatus := {|
  li_state := state; li_message := message; li_license_id := lf_license_id f; li_edition := lf_edition f;
  li_licensed_to := lf_licensed_to f; li_issued_at := isoformat_utc (lf_issued f);
  li_expires_at := isoformat_utc <$> lf_expires f; li_maintenance_until := isoformat_utc <$> lf_maintenance f;
  li_features := lf_features f; li_activation_mode := lf_activation_mode f; li_device_bound := truthy (lf_fingerprint f);
  li_key_id := key_id; li_last_verified_at := isoformat_utc now; li_days_remaining := days; li_warnings := warnings;
  li_error_code := error_code; li_core_protection_active := true; li_metadata := [] |}.

(** The mismatch names neither the maintenance nor the verification time. *)
Definition device_mismatch (f : LicenseFields) (key_id : string) : LicenseStatus := {|
  li_state := LS_DEVICE_MISMATCH; li_message := "This license is bound to a different MSAA installation.";
  li_license_id := lf_license_id f; li_edition := lf_edition f; li_licensed_to := lf_licensed_to f;
  li_issued_at := isoformat_utc (lf_issued f); li_expires_at := isoformat_utc <$> lf_expires f;
  li_maintenance_until := None; li_features := lf_features f; li_activation_mode := lf_activation_mode f;
  li_device_bound := true; li_key_id := key_id; li_last_verified_at := ""; li_days_remaining := None;
  li_warnings := []; li_error_code := "LIC_DEVICE_MISMATCH"; li_core_protection_active := true;
  li_metadata := [] |}.

Definition rolled_back (now : Z) (last_trusted : option datetime) : bool :=
  match last_trusted with
  | None => false
  | Some last => fltb (fadd (total_seconds now) (float_of_Z (lp_clock_rollback_tolerance_seconds policy))) (timestamp last)
  end.

(** [math.ceil((expires - now).total_seconds() / 86400)] *)
Definition days_left (expires now : Z) : Z := fceil (fdiv (total_seconds (expires - now)) (float_of_Z 86400)).

Definition judge (f : LicenseFields) (key_id device_fingerprint : string) (now : Z) (last_trusted : option datetime)
    : LicenseStatus :=
  let status := status_of f key_id now in
  if truthy (lf_fingerprint f) && negb (String.eqb (lf_fingerprint f) device_fingerprint)
  then device_mismatch f key_id
  else if rolled_back now last_trusted
  then status LS_CLOCK_ROLLBACK_SUSPECTED
         "The system clock moved behind the last trusted license check. Verify date and time." "LIC_CLOCK_ROLLBACK" None
         ["Core security protection remains operational while licensing requires review."]
  else if now <? lf_not_before f
  then status LS_NOT_YET_VALID "The license validity period has not started." "LIC_NOT_YET_VALID" None []
  else
    match lf_expires f with
    | None => status LS_VALID "License signature and validity checks passed." "" None []
    | Some expires =>
        if expires <=? now
        then status LS_EXPIRED
               "The product license has expired. Core protection and evidence preservation remain active." "LIC_EXPIRED"
               (Some 0) ["Commercial premium features are unavailable until a valid license is installed."]
        else
          let days := days_left expires now in
          if days <=? lp_expiring_warning_days policy
          then status LS_EXPIRING
                 ("License is valid and expires in " +:+ str_of_Z days +:+ " day"
                  +:+ (if days =? 1 then "" else "s") +:+ ".") "" (Some days)
                 ["Renew before expiration to preserve commercial premium feature access."]
          else status LS_VALID "License signature and validity checks passed." "" (Some days) []
    end.

(** [verify]: the signature, then the fields, then the judgement. *)
Definition verify (document : pydict) (device_fingerprint : string) (now : Z) (last_trusted : option datetime)
    : res LicenseStatus :=
  key_id ← check_signature document;
  fields ← read_fields document;
  Ok (judge fields key_id device_fingerprint now last_trusted).
End Verifier.
