(* ===== verification/LicenseManager.v ===== *)
(** Stored licences and what they unlock: [licensing/storage.py], [manager.py],
    [registration.py].

    A file is missing, a symbolic link, or a text; the storage refuses links. Writes
    may fail; the appended log also takes a part of a record when a write is short, and
    keeps what was written when the synchronisation fails. The activation service is
    outside: its answer is an argument. *)

From S2P Require Import Prelude PyStr PyFloat PyDict PyJson PyTime PyRepr PyRegex License.
From Stdlib Require Import Ascii.

(** ** Files *)

(** A JSON file: its size, and its value when it is JSON. *)
Inductive json_file := Missing | Linked | Document (size : Z) (content : option pyval).

Inductive text_file := NoText | LinkedText | Text (s : string).

(** What one write added to the audit log: its bytes, whether the newline that ends a
    record was among them, and what JSON makes of the bytes. *)
Record audit_write := { aw_bytes : string; aw_ended : bool; aw_value : option pyval }.
Inductive audit_file := NoLog | LinkedLog | Log (writes : list audit_write).

Record LicenseStorage := {
  st_root_linked : bool;
  st_license : json_file;
  st_install_id : text_file;
  st_state : json_file;
  st_audit : audit_file;
  st_ticks : nat
}.

Definition set_license x s := {| st_root_linked := st_root_linked s; st_license := x; st_install_id := st_install_id s;
  st_state := st_state s; st_audit := st_audit s; st_ticks := st_ticks s |}.
Definition set_install_id x s := {| st_root_linked := st_root_linked s; st_license := st_license s; st_install_id := x;
  st_state := st_state s; st_audit := st_audit s; st_ticks := st_ticks s |}.
Definition set_state_file x s := {| st_root_linked := st_root_linked s; st_license := st_license s;
  st_install_id := st_install_id s; st_state := x; st_audit := st_audit s; st_ticks := st_ticks s |}.
Definition set_audit x s := {| st_root_linked := st_root_linked s; st_license := st_license s;
  st_install_id := st_install_id s; st_state := st_state s; st_audit := x; st_ticks := st_ticks s |}.
Definition tick_storage s := {| st_root_linked := st_root_linked s; st_license := st_license s;
  st_install_id := st_install_id s; st_state := st_state s; st_audit := st_audit s; st_ticks := S (st_ticks s) |}.

Class LicenseEnv := {
  #[global] license_signature :: SignatureEnv;
  license_clock : nat -> Z;          (** [datetime.now(timezone.utc)] *)
  file_ok : nat -> bool;             (** whether the system lets a file be written *)
  log_readable : nat -> bool;        (** whether it lets the log be read *)
  bytes_written : nat -> Z -> option Z;  (** what [os.write] takes of the bytes offered; [None] when it raises *)
  fresh_install_id : nat -> string   (** [secrets.token_hex(32)] *)
}.

Section Storage.
Context `{LicenseEnv}.

Definition ask {A} (f : nat -> A) : M LicenseStorage A := fun s => (Ok (f (st_ticks s)), tick_storage s).

(** [_ensure_root] *)
Definition ensure_root : M LicenseStorage unit :=
  s ← get_st;
  if st_root_linked s then raise_st (OSError "Licensing directory may not be a symbolic link")
  else
    ok ← ask file_ok;
    if (ok : bool) then mret tt else raise_st (OSError "mkdir").

(** [_atomic_write]: all of the text or none of it. *)
Definition atomic_write (linked : bool) (name : string) (write : LicenseStorage -> LicenseStorage) : M LicenseStorage unit :=
  ensure_root;;
  if linked then raise_st (OSError ("Refusing symbolic-link licensing path: " +:+ name))
  else
    ok ← ask file_ok;
    if (ok : bool) then modify_st write else raise_st (OSError "write").

Definition is_linked (f : json_file) : bool := match f with Linked => true | _ => false end.

Definition install_id : M LicenseStorage string :=
  ensure_root;;
  s ← get_st;
  match st_install_id s with
  | LinkedText => raise_st (OSError "Installation identifier may not be a symbolic link")
  | Text t =>
      if negb (all_chars (fun c => code c <? 128) t) then raise_st (ValueError "'ascii' codec can't decode")
      else if is_hex64 (strip t) then mret (strip t)
      else raise_st (OSError "Installation identifier is corrupted")
  | NoText =>
      value ← ask fresh_install_id;
      atomic_write false "install_id" (set_install_id (Text (value +:+ String (ascii_of_nat 10) "")));;
      mret value
  end.

Definition device_fingerprint (product_id : string) : M LicenseStorage string :=
  id ← install_id;
  mret (sha256 (product_id +:+ String (ascii_of_nat 0) id)).

Definition read_license (maximum_bytes : Z) : M LicenseStorage (option pydict) :=
  s ← get_st;
  match st_license s with
  | Missing => mret None
  | Linked => raise_st (OSError "License document may not be a symbolic link")
  | Document size content =>
      if maximum_bytes <? size then raise_st (OSError "License document exceeds the configured size limit")
      else match content with
           | None => raise_st (ValueError "not JSON")
           | Some (VDict d) => mret (Some d)
           | Some _ => raise_st (TypeError "License document must be a JSON object")
           end
  end.

(** The file that holds the canonical text of a value. *)
Definition written_json (v : pyval) : res json_file :=
  text ← canonical_json v;
  value ← json_value v;
  Ok (Document (utf8_size text + 1) (Some value)).

Definition store_verified_license (document : pydict) : M LicenseStorage unit :=
  file ← lift_res (written_json (VDict document));
  s ← get_st;
  atomic_write (is_linked (st_license s)) "license.json" (set_license file).

Definition read_state : M LicenseStorage pydict :=
  s ← get_st;
  mret (match st_state s with Document _ (Some (VDict d)) => d | _ => [] end).

Definition write_state (state : pydict) : M LicenseStorage unit :=
  file ← lift_res (written_json (VDict state));
  s ← get_st;
  atomic_write (is_linked (st_state s)) "verification_state.json" (set_state_file file).

(** ** The audit log *)

Definition no_hash : string := "0000000000000000000000000000000000000000000000000000000000000000".

Definition newline : string := String (ascii_of_N 10) "".

Definition written_bytes (w : audit_write) : string := aw_bytes w +:+ (if aw_ended w then newline else "").

Definition log_bytes (writes : list audit_write) : string := String.concat "" (written_bytes <$> writes).

(** The last [n] bytes *)
Definition tail_bytes (n : Z) (s : string) : string := sdrop (Z.to_nat (slen s - n)) s.

(** [json.loads] of the last piece of the text: of the pieces only the whole text of the
    last write is JSON, the record's object being open in every other one. *)
Definition piece_value (piece : string) (writes : list audit_write) : option pyval :=
  match last writes with
  | Some w => if String.eqb (utf8 piece) (aw_bytes w) then aw_value w else None
  | None => None
  end.

(** The hash of the last record, looked for in the last 65,536 bytes; the bytes may begin
    inside a character, and [str.splitlines] ends lines at more than newlines. *)
Definition previous_hash (writes : list audit_write) : res string :=
  match utf8_text (tail_bytes 65536 (log_bytes writes)) with
  | None => Ok no_hash
  | Some text =>
      match last (splitlines text) with
      | None => Ok no_hash
      | Some piece =>
          match piece_value piece writes with
          | None => Ok no_hash
          | Some (VDict d) => Ok (py_str (dget_default (VStr no_hash) "record_hash" d))
          | Some _ => Raise (AttributeError "object has no attribute 'get'")
          end
      end
  end.

Definition SECRET_DETAILS : list string := ["activation_code"; "token"; "password"; "secret"].

Definition audit_record (timestamp action result : string) (details : pydict) (previous : string) : pydict := [
  ("timestamp", VStr timestamp); ("action", VStr action); ("result", VStr result);
  ("details", VDict (filter (fun kv => kv.1 ∉ SECRET_DETAILS) details)); ("previous_hash", VStr previous)].

(** The line offered for a record, its hash added, and what it holds. *)
Definition audit_line_of (record : pydict) : res (string * pyval) :=
  text ← canonical_json (VDict record);
  let full := VDict (record ++ [("record_hash", VStr (sha256 text))]) in
  line ← canonical_json full;
  value ← json_value full;
  Ok (utf8 line, value).

(** The first [k] bytes of a line and its newline; short of the whole line they are not
    JSON. *)
Definition first_bytes (k : Z) (line : string) (value : pyval) : audit_write :=
  {| aw_bytes := stake (Z.to_nat k) line; aw_ended := slen line <? k;
     aw_value := if slen line <=? k then Some value else None |}.

Definition log_append (w : audit_write) (f : audit_file) : audit_file :=
  match f with Log writes => Log (writes ++ [w]) | f => f end.

(** Opening the log creates it. *)
Definition log_opened (f : audit_file) : audit_file := match f with NoLog => Log [] | f => f end.

(** Reading the hash of the last record, before the lock; a log that cannot be read counts
    as one without records. *)
Definition audit_begin : M LicenseStorage string :=
  ensure_root;;
  s ← get_st;
  match st_audit s with
  | LinkedLog => raise_st (OSError "Licensing audit log may not be a symbolic link")
  | NoLog => mret no_hash
  | Log writes =>
      readable ← ask log_readable;
      if (readable : bool) then lift_res (previous_hash writes) else mret no_hash
  end.

(** Building the record and appending it, under the lock: what was written stays when the
    synchronisation fails. *)
Definition audit_append (action result : string) (details : pydict) (previous : string) : M LicenseStorage unit :=
  now ← ask license_clock;
  '(line, value) ← lift_res (audit_line_of (audit_record (isoformat_utc now) action result details previous));
  opened ← ask file_ok;
  if negb opened then raise_st (OSError "open")
  else
    modify_st (fun s => set_audit (log_opened (st_audit s)) s);;
    written ← ask (fun t => bytes_written t (slen line + 1));
    match written with
    | None => raise_st (OSError "write")
    | Some k =>
        (if k <=? 0 then mret tt
         else modify_st (fun s => set_audit (log_append (first_bytes k line value) (st_audit s)) s));;
        synced ← ask file_ok;
        if (synced : bool) then mret tt else raise_st (OSError "fsync")
    end.

(** [LicenseStorage.audit] *)
Definition audit (action result : string) (details : pydict) : M LicenseStorage unit :=
  previous ← audit_begin;
  audit_append action result details previous.

(** [for raw_line in handle]: a line is what was written up to a newline. *)
Fixpoint log_lines (line writes : list audit_write) : list (list audit_write) :=
  match writes with
  | [] => match line with [] => [] | _ => [line] end
  | w :: writes' =>
      if aw_ended w then (line ++ [w]) :: log_lines [] writes' else log_lines (line ++ [w]) writes'
  end.

(** [json.loads] of a line: the object of an unfinished record stays open in a line that
    goes on with another one. *)
Definition line_value (line : list audit_write) : option pyval :=
  match line with [w] => aw_value w | _ => None end.

(** [verify_audit_chain]: [VALID] with the count and the head, or [INVALID] with a
    reason. The hashes of a log the program wrote are ASCII, as [compare_digest] wants. *)
Fixpoint verify_lines (previous : string) (lines : list (option pyval)) : string + string :=
  match lines with
  | [] => inl previous
  | value :: lines' =>
      match value with
      | None => inr "audit_parse_failure"
      | Some (VDict record) =>
          if negb (match vget "previous_hash" record with VStr p => String.eqb p previous | _ => false end) then inr "chain_link_mismatch"
          else
            let claimed := py_str (dget_default (VStr "") "record_hash" record) in
            match canonical_json (VDict (ddel "record_hash" record)) with
            | Ok text => if String.eqb claimed (sha256 text) then verify_lines claimed lines'
                         else inr "record_hash_mismatch"
            | Raise _ => inr "audit_parse_failure"
            end
      | Some _ => inr "chain_link_mismatch"
      end
  end.

Inductive audit_verdict := AuditEmpty | AuditValid (records : Z) (head_hash : string) | AuditInvalid (reason : string).

Definition verify_audit_chain (maximum_bytes : Z) (s : LicenseStorage) : audit_verdict :=
  match st_audit s with
  | NoLog => AuditEmpty
  | LinkedLog => AuditInvalid "unsafe_or_oversized_audit_log"
  | Log writes =>
      let lines := line_value <$> log_lines [] writes in
      if maximum_bytes <? slen (log_bytes writes) then AuditInvalid "unsafe_or_oversized_audit_log"
      else match verify_lines no_hash lines with
           | inl head => AuditValid (zlen lines) head
           | inr reason => AuditInvalid reason
           end
  end.
End Storage.

(** ** [LicenseManager] *)

Definition blank_status (state : LicenseState) (message error_code : string) (warnings : list string)
    (metadata : list (string * string)) : LicenseStatus := {|
  li_state := state; li_message := message; li_license_id := ""; li_edition := "UNLICENSED"; li_licensed_to := "";
  li_issued_at := ""; li_expires_at := None; li_maintenance_until := None; li_features := [];
  li_activation_mode := "none"; li_device_bound := false; li_key_id := ""; li_last_verified_at := "";
  li_days_remaining := None; li_warnings := warnings; li_error_code := error_code; li_core_protection_active := true;
  li_metadata := metadata |}.

Definition revoked_status (s : LicenseStatus) : LicenseStatus := {|
  li_state := LS_INVALID;
  li_message := "The installed product license has been revoked by the trusted MSAA license authority.";
  li_license_id := li_license_id s; li_edition := li_edition s; li_licensed_to := li_licensed_to s;
  li_issued_at := li_issued_at s; li_expires_at := li_expires_at s; li_maintenance_until := li_maintenance_until s;
  li_features := li_features s; li_activation_mode := li_activation_mode s; li_device_bound := li_device_bound s;
  li_key_id := li_key_id s; li_last_verified_at := li_last_verified_at s; li_days_remaining := None;
  li_warnings := ["Core security protection and evidence preservation remain operational."];
  li_error_code := "LIC_REVOKED"; li_core_protection_active := true; li_metadata := [] |}.

(** [type(exc).__name__] of what reading a licence raises *)
Definition storage_error_name (e : exn) : string :=
  match e with OSError _ => "OSError" | TypeError _ => "TypeError" | _ => "JSONDecodeError" end.

Section Manager.
Context `{LicenseEnv} (trusted_keys : list (string * string)) (policy : LicensingPolicy) (revoked_license_ids : list string).

(** [_audit] *)
Definition try_audit (action result : string) (details : pydict) : M LicenseStorage bool :=
  try_except (audit action result details;; mret true)
    (fun e => match e with OSError _ => mret false | _ => raise_st e end).

(** [_apply_revocation] *)
Definition apply_revocation (s : LicenseStatus) : LicenseStatus :=
  if truthy (li_license_id s) && one_of (li_license_id s) revoked_license_ids then revoked_status s else s.

(** The recorded time of the last accepted check; an unreadable one counts as none. *)
Definition last_trusted (state : pydict) : option datetime :=
  let v := vget "last_trusted_time" state in
  if truthy_val v then fromisoformat (py_str v) else None.

(** [now or datetime.now(timezone.utc)] *)
Definition now_or (now : option Z) : M LicenseStorage Z :=
  match now with Some t => mret t | None => ask license_clock end.

(** The verification of a document on this installation. *)
Definition verify_here (document : pydict) (now : option Z) (last : option datetime) : M LicenseStorage LicenseStatus :=
  fingerprint ← device_fingerprint (lp_product_id policy);
  now ← now_or now;
  status ← lift_res (verify trusted_keys policy document fingerprint now last);
  mret (apply_revocation status).

Definition RECORDED_STATES : list LicenseState := [LS_VALID; LS_EXPIRING; LS_EXPIRED; LS_NOT_YET_VALID].

(** Recording an accepted check. *)
Definition record_check (result : LicenseStatus) : M LicenseStorage unit :=
  verified_at ← (if truthy (li_last_verified_at result) then mret (li_last_verified_at result)
                 else now ← ask license_clock; mret (isoformat_utc now));
  try_except
    (write_state [("last_trusted_time", VStr verified_at); ("license_id", VStr (li_license_id result));
                  ("state", VStr (license_state_value (li_state result)))])
    (fun e => match e with
              | OSError _ => try_audit "LICENSE_STATE_WRITE" "FAILED" [("license_id", VStr (li_license_id result))];; mret tt
              | _ => raise_st e
              end).

(** What [status] makes of an error of the verification. *)
Definition rejected (e : exn) : M LicenseStorage LicenseStatus :=
  match e with
  | LicenseVerificationError code msg =>
      let state := if String.eqb code "LIC_VERIFIER_UNAVAILABLE" then LS_VERIFIER_UNAVAILABLE else LS_INVALID in
      try_audit "LICENSE_VERIFY" "REJECTED" [("error_code", VStr code)];;
      mret (blank_status state msg code [] [])
  | OSError _ => mret (blank_status LS_INVALID "The installation identity could not be read safely."
                         "LIC_DEVICE_ID_UNAVAILABLE" [] [("error_type", "OSError")])
  | e => raise_st e
  end.

(** The check of an installed document. *)
Definition check_installed (document : pydict) (now : option Z) : M LicenseStorage (LicenseStatus * bool) :=
  state ← read_state;
  try_except (result ← verify_here document now (last_trusted state); mret (result, true))
    (fun e => s ← rejected e; mret (s, false)).

Definition status (now : option Z) : M LicenseStorage LicenseStatus :=
  document ← try_except (d ← read_license (lp_maximum_document_bytes policy); mret (inl d))
    (fun e => match e with
              | OSError _ | ValueError _ | TypeError _ => mret (inr (blank_status LS_INVALID
                  "Stored license could not be read safely." "LIC_STORAGE_INVALID" [] [("error_type", storage_error_name e)]))
              | _ => raise_st e
              end);
  match document with
  | inr s => mret s
  | inl None => mret (blank_status LS_UNLICENSED
      "No signed product license is installed. Core protection and evidence preservation remain active."
      "LIC_NOT_INSTALLED" ["Commercial premium features require activation."] [])
  | inl (Some d) =>
      '(result, verified) ← check_installed d now;
      (if verified && bool_decide (li_state result ∈ RECORDED_STATES) then record_check result else mret tt);;
      mret result
  end.

(** Accepting a document that verifies: the end of [import_offline] and
    [activate_online]. *)
Definition accept (action : string) (document : pydict) : M LicenseStorage LicenseStatus :=
  result ← verify_here document None None;
  if negb (license_valid result)
  then try_audit action "REJECTED" [("state", VStr (license_state_value (li_state result)));
                                    ("error_code", VStr (li_error_code result))];;
       mret result
  else
    store_verified_license document;;
    try_audit action "ACCEPTED" [("license_id", VStr (li_license_id result)); ("edition", VStr (li_edition result))];;
    status None.

(** [import_offline], of a file found at the given path. *)
Definition import_offline (source : json_file) : M LicenseStorage LicenseStatus :=
  match source with
  | Linked => lift_res (license_error "LIC_IMPORT_REJECTED" "Offline license may not be a symbolic link")
  | Missing => raise_st (OSError "No such file or directory")
  | Document size content =>
      if lp_maximum_document_bytes policy <? size
      then lift_res (license_error "LIC_IMPORT_REJECTED" "Offline license is not a safe bounded regular file")
      else match content with
           | None => lift_res (license_error "LIC_IMPORT_INVALID" "Offline license is not valid UTF-8 JSON")
           | Some (VDict d) => accept "LICENSE_IMPORT" d
           | Some _ => lift_res (license_error "LIC_IMPORT_INVALID" "Offline license must contain a JSON object")
           end
  end.

(** [activate_online], of the document the activation service answers with. *)
Definition activate_online (answer : res pydict) : M LicenseStorage LicenseStatus :=
  _ ← device_fingerprint (lp_product_id policy);
  document ← lift_res answer;
  accept "LICENSE_ACTIVATE" document.

(** [product_access]: whether operator actions are enabled *)
Definition operator_actions_enabled (s : LicenseStatus) : bool :=
  license_valid s && one_of (li_activation_mode s) (lp_operator_unlock_activation_modes policy).

(** [str(feature).strip().lower()] *)
Definition normalized_feature (feature : string) : string := lower (strip feature).

Definition grants (s : LicenseStatus) (feature : string) : bool :=
  operator_actions_enabled s && (one_of feature (li_features s) || one_of "*" (li_features s)).

Definition is_feature_available (feature : string) : M LicenseStorage bool :=
  let feature := normalized_feature feature in
  if one_of feature (lp_core_safety_features policy) then mret true
  else s ← status None; mret (grants s feature).

(** [feature_decision]: the availability it reports *)
Definition feature_decision (feature : string) : M LicenseStorage bool :=
  let feature := normalized_feature feature in
  s ← status None;
  mret (one_of feature (lp_core_safety_features policy) || grants s feature).

(** [service_registration_license_decision]: any failure blocks the registration. *)
Record RegistrationDecision := { rd_allowed : bool; rd_code : string; rd_license_state : string; rd_activation_mode : string }.

Definition registration_decision : M LicenseStorage RegistrationDecision :=
  try_except
    (s ← status None;
     if operator_actions_enabled s
     then mret {| rd_allowed := true; rd_code := "LICENSE_VALID"; rd_license_state := license_state_value (li_state s);
                  rd_activation_mode := li_activation_mode s |}
     else mret {| rd_allowed := false; rd_code := str_or (li_error_code s) "LIC_SERVICE_REGISTRATION_REQUIRED";
                  rd_license_state := license_state_value (li_state s); rd_activation_mode := li_activation_mode s |})
    (fun _ => mret {| rd_allowed := false; rd_code := "LIC_SERVICE_REGISTRATION_REQUIRED";
                      rd_license_state := "VERIFICATION_FAILED"; rd_activation_mode := "none" |}).

(** ** A run of the program over its licence *)

Inductive license_op :=
| CheckStatus (now : option Z)
| ImportOffline (source : json_file)
| ActivateOnline (answer : res pydict)
| AskFeature (feature : string)
| DecideFeature (feature : string)
| DecideRegistration.

Definition perform (op : license_op) : M LicenseStorage unit :=
  match op with
  | CheckStatus now => status now;; mret tt
  | ImportOffline source => import_offline source;; mret tt
  | ActivateOnline answer => activate_online answer;; mret tt
  | AskFeature feature => is_feature_available feature;; mret tt
  | DecideFeature feature => feature_decision feature;; mret tt
  | DecideRegistration => registration_decision;; mret tt
  end.

(** An operation that raises leaves what it did so far. *)
Definition run_licensing (ops : list license_op) (s : LicenseStorage) : LicenseStorage :=
  foldl (fun s op => (perform op s).2) s ops.
End Manager.
