(* ===== verification/LicenseFacts.v ===== *)
(** What licensing promises: operator actions need a document that verifies here and
    now, and the audit chain stays verifiable; and where the promises end. *)

From S2P Require Import Prelude PyStr PyFloat PyDict PyJson PyTime PyRepr PyRegex License LicenseManager.
From Stdlib Require Import Ascii.

(** ** Canonical text does not depend on the order of keys *)

Lemma insert_by_fmap {A B} (f : A -> B) (kv : string * A) l :
  insert_by key_le (kv.1, f kv.2) ((fun kv => (kv.1, f kv.2)) <$> l) = (fun kv => (kv.1, f kv.2)) <$> insert_by key_le kv l.
Proof. induction l as [|x l IH]; [done|]. cbn. unfold key_le in *. cbn. destruct (str_le kv.1 x.1); cbn; [done|]. by rewrite IH. Qed.

Lemma sort_by_fmap {A B} (f : A -> B) (l : list (string * A)) :
  sort_by key_le ((fun kv => (kv.1, f kv.2)) <$> l) = (fun kv => (kv.1, f kv.2)) <$> sort_by key_le l.
Proof.
  induction l as [|x l IH]; [done|]. cbn [sort_by foldr fmap list_fmap]. change (foldr (insert_by key_le) [] ?l) with (sort_by key_le l).
  rewrite <- insert_by_fmap. f_equal. exact IH.
Qed.

Lemma res_map_fmap {A B} (f : A -> res B) (g : A -> B) l : Forall (fun x => f x = Ok (g x)) l -> res_map f l = Ok (g <$> l).
Proof. induction 1 as [|x l Hx _ IH]; [done|]. cbn. by rewrite Hx, IH. Qed.

Section Canonical.
Context `{PlatformEnv} (st : json_style) (Hsort : sort_keys st = true).

(** The text of a value, when it has one. *)
Definition text_of (v : pyval) : string := match json_dumps st v with Ok s => s | Raise _ => "" end.

Definition same_text (v : pyval) : Prop := forall v', json_value v = Ok v' ->
  json_dumps st v = Ok (text_of v) /\ json_dumps st v' = Ok (text_of v).

Lemma same_text_by v v' s : json_dumps st v = Ok s -> json_dumps st v' = Ok s ->
  json_dumps st v = Ok (text_of v) /\ json_dumps st v' = Ok (text_of v).
Proof. intros H1 H2. unfold text_of. by rewrite H1. Qed.

Lemma same_texts l l' : Forall same_text l -> res_map json_value l = Ok l' ->
  res_map (json_dumps st) l = Ok (text_of <$> l) /\ res_map (json_dumps st) l' = Ok (text_of <$> l).
Proof.
  intros Hl Hm%res_map_Forall2. induction Hm as [|x y l l' Hxy _ IH]; [done|].
  apply Forall_cons in Hl as [Hx Hl]. destruct (Hx y Hxy) as [H1 H2]. destruct (IH Hl) as [H3 H4].
  cbn. by rewrite H1, H2, H3, H4.
Qed.

Lemma same_items (d kvs : pydict) : Forall (fun kv => same_text kv.2) d ->
  res_map (fun kv => y ← json_value kv.2; Ok (kv.1, y)) d = Ok kvs ->
  Forall (fun kv => json_dumps st kv.2 = Ok (text_of kv.2)) d
  /\ Forall (fun kv => json_dumps st kv.2 = Ok (text_of kv.2)) kvs
  /\ ((fun kv => (kv.1, text_of kv.2)) <$> kvs) = ((fun kv => (kv.1, text_of kv.2)) <$> d).
Proof.
  intros Hd Hm%res_map_Forall2. induction Hm as [|x y d kvs Hxy _ IH]; [done|].
  apply Forall_cons in Hd as [Hx Hd]. destruct (IH Hd) as (H1 & H2 & H3).
  apply res_bind_ok in Hxy as (v & Hv & [= <-]). destruct (Hx v Hv) as [Hd1 Hd2].
  assert (text_of v = text_of x.2) as Ht by (unfold text_of at 1; by rewrite Hd2).
  split; [by constructor|]. split; [constructor; [cbn; by rewrite Hd2, Ht|done]|]. cbn. by rewrite Ht, H3.
Qed.

Lemma dumps_items d : Forall (fun kv : string * pyval => json_dumps st kv.2 = Ok (text_of kv.2)) d ->
  res_map (fun kv => y ← json_dumps st kv.2; Ok (kv.1, y)) d = Ok ((fun kv => (kv.1, text_of kv.2)) <$> d).
Proof. intros Hd. apply res_map_fmap. eapply Forall_impl; [exact Hd|]. cbn. by intros x ->. Qed.

Lemma value_same_text v : same_text v.
Proof.
  induction v as [| | | | | |l IH|l IH|d IH|] using pyval_ind'; intros v'; cbn [json_value]; try by intros [= <-].
  - intros (l' & Hl & [= <-])%res_bind_ok. destruct (same_texts l l' IH Hl) as [H1 H2].
    eapply same_text_by; cbn; [by rewrite H1|by rewrite H2].
  - intros (l' & Hl & [= <-])%res_bind_ok. destruct (same_texts l l' IH Hl) as [H1 H2].
    eapply same_text_by; cbn; [by rewrite H1|by rewrite H2].
  - intros (kvs & Hd & [= <-])%res_bind_ok. destruct (same_items d kvs IH Hd) as (H1 & H2 & H3).
    assert (Forall (fun kv => json_dumps st kv.2 = Ok (text_of kv.2)) (sort_by key_le kvs)) as H2'
      by (by rewrite sort_by_perm).
    eapply same_text_by; cbn.
    + by rewrite (dumps_items d H1).
    + rewrite (dumps_items _ H2'). cbn. unfold order_items. rewrite Hsort, <- (sort_by_fmap text_of kvs), H3.
      by rewrite (sort_by_id _ (sort_by key_le _)) by apply sort_by_sorted, key_le_total.
Qed.
End Canonical.

Lemma finite_json_value v v' : json_value v = Ok v' -> finite_json v' = finite_json v.
Proof.
  revert v'. induction v as [| | | | | |l IH|l IH|d IH|] using pyval_ind'; intros v'; cbn [json_value]; try by intros [= <-].
  - intros (l' & Hm%res_map_Forall2 & [= <-])%res_bind_ok. cbn. induction Hm as [|x y l l' Hxy _ IHl]; [done|].
    apply Forall_cons in IH as [Hx IH]. cbn. by rewrite (Hx y Hxy), (IHl IH).
  - intros (l' & Hm%res_map_Forall2 & [= <-])%res_bind_ok. cbn. induction Hm as [|x y l l' Hxy _ IHl]; [done|].
    apply Forall_cons in IH as [Hx IH]. cbn. by rewrite (Hx y Hxy), (IHl IH).
  - intros (kvs & Hm%res_map_Forall2 & [= <-])%res_bind_ok. cbn.
    transitivity (forallb (fun kv => finite_json kv.2) kvs).
    { apply eq_iff_eq_true. rewrite !forallb_forall. setoid_rewrite <- list_elem_of_In. by setoid_rewrite sort_by_perm. }
    induction Hm as [|x y d kvs Hxy _ IHd]; [done|]. apply Forall_cons in IH as [Hx IH].
    apply res_bind_ok in Hxy as (v & Hv & [= <-]). cbn. by rewrite (Hx v Hv), (IHd IH).
Qed.

(** The canonical text of what a canonical text holds is that text. *)
Lemma canonical_json_value `{PlatformEnv} v v' : json_value v = Ok v' -> canonical_json v' = canonical_json v.
Proof.
  intros Hv. unfold canonical_json. rewrite (finite_json_value v v' Hv).
  destruct (value_same_text compact_utf8_style eq_refl v v' Hv) as [-> ->]. done.
Qed.

(** ** The audit chain *)

Definition printable (c : ascii) : bool := (32 <=? code c) && (code c <? 127).

(** A whole record, in printable ASCII and not longer than what is read back. *)
Definition plain (w : audit_write) : Prop :=
  aw_ended w = true /\ all_chars printable (aw_bytes w) = true /\ slen (written_bytes w) <= 65536.

Lemma all_chars_impl (p q : ascii -> bool) s : (forall c, p c = true -> q c = true) ->
  all_chars p s = true -> all_chars q s = true.
Proof. intros Hpq. induction s as [|c s IH]; [done|]. cbn. rewrite !andb_true_iff. intros [Hc Hs]. auto. Qed.

Lemma printable_ascii c : printable c = true -> (code c <? 128) = true.
Proof. unfold printable. intros [_ H%Z.ltb_lt]%andb_true_iff. apply Z.ltb_lt. lia. Qed.

Lemma printable_no_end c : printable c = true -> negb (line_end c) = true.
Proof.
  unfold printable, line_end. intros [H1%Z.leb_le H2%Z.ltb_lt]%andb_true_iff. cbv zeta.
  rewrite negb_true_iff, !orb_false_iff, !andb_false_iff, !Z.leb_gt, Z.eqb_neq. lia.
Qed.

Lemma sdrop_app k a b : (k <= String.length a)%nat -> sdrop k (a +:+ b) = sdrop k a +:+ b.
Proof.
  revert k. induction a as [|c a IH]; intros [|k] Hk; cbn in *; try done; [lia|].
  apply IH. lia.
Qed.

Lemma sdrop_all k a : (String.length a <= k)%nat -> sdrop k a = "".
Proof. revert k. induction a as [|c a IH]; intros [|k] Hk; cbn in *; try done; [lia|]. apply IH. lia. Qed.

Lemma all_chars_sdrop p k s : all_chars p s = true -> all_chars p (sdrop k s) = true.
Proof. revert k. induction s as [|c s IH]; intros [|k] Hs; try done. cbn in *. apply andb_true_iff in Hs as [_ Hs]. auto. Qed.

Lemma concat_cons (x : string) l : String.concat "" (x :: l) = x +:+ String.concat "" l.
Proof. destruct l; [by rewrite string_app_empty_r|done]. Qed.

Lemma log_bytes_snoc ws w : log_bytes (ws ++ [w]) = log_bytes ws +:+ written_bytes w.
Proof.
  unfold log_bytes. rewrite fmap_app. induction (written_bytes <$> ws) as [|x l IH]; [done|].
  change ((x :: l) ++ ?k) with (x :: l ++ k). by rewrite !concat_cons, IH, string_app_assoc.
Qed.

Lemma plain_bytes ws : Forall plain ws ->
  all_chars (fun c => code c <? 128) (log_bytes ws) = true /\ (log_bytes ws = "" \/ exists q, log_bytes ws = q +:+ newline).
Proof.
  intros Hws. induction ws as [|w ws IH] using rev_ind; [by split; [|left]|].
  apply Forall_app in Hws as [Hws Hw]. apply Forall_cons in Hw as [(He & Hc & _) _]. destruct (IH Hws) as [Ha _].
  rewrite log_bytes_snoc. unfold written_bytes. rewrite He, !all_chars_app, Ha. split.
  - rewrite (all_chars_impl printable _ _ printable_ascii Hc). done.
  - right. exists (log_bytes ws +:+ aw_bytes w). by rewrite string_app_assoc.
Qed.

(** The last piece of the tail is the last record. *)
Lemma last_piece ws w : Forall plain (ws ++ [w]) ->
  exists text, utf8_text (tail_bytes 65536 (log_bytes (ws ++ [w]))) = Some text /\ last (splitlines text) = Some (aw_bytes w).
Proof.
  intros Hall. pose proof (proj1 (plain_bytes _ Hall)) as Hascii. apply Forall_app in Hall as [Hws Hw].
  apply Forall_cons in Hw as [(He & Hc & Hlen) _]. unfold tail_bytes. exists (sdrop (Z.to_nat (slen (log_bytes (ws ++ [w])) - 65536)) (log_bytes (ws ++ [w]))).
  split; [by apply utf8_text_ascii, all_chars_sdrop|]. rewrite log_bytes_snoc in *. set (k := Z.to_nat _).
  assert (k <= String.length (log_bytes ws))%nat as Hk by (unfold k; rewrite slen_app; unfold slen in *; lia).
  rewrite (sdrop_app k _ _ Hk). unfold written_bytes. rewrite He.
  assert (splitlines (aw_bytes w +:+ newline) = [aw_bytes w]) as Hline
    by exact (splitlines_line (aw_bytes w) (all_chars_impl printable _ _ printable_no_end Hc)).
  destruct (proj2 (plain_bytes ws Hws)) as [Hnil|[q Hq]].
  - rewrite Hnil in *. rewrite (sdrop_all k "") by (cbn; lia). change ("" +:+ (aw_bytes w +:+ newline)) with (aw_bytes w +:+ newline). by rewrite Hline.
  - rewrite Hq in *. destruct (decide (k <= String.length q)%nat) as [Hkq|Hkq].
    + rewrite (sdrop_app k q newline Hkq), string_app_assoc.
      change (newline +:+ (aw_bytes w +:+ newline)) with (String (ascii_of_N 10) (aw_bytes w +:+ newline)).
      destruct (splitlines_newline (sdrop k q) (aw_bytes w +:+ newline)) as [ls ->]. by rewrite Hline, last_snoc.
    + rewrite sdrop_all by (rewrite length_string_app in *; cbn in *; lia). change ("" +:+ (aw_bytes w +:+ newline)) with (aw_bytes w +:+ newline). by rewrite Hline.
Qed.

Lemma plain_lines ws : Forall plain ws -> line_value <$> log_lines [] ws = aw_value <$> ws.
Proof. induction 1 as [|w ws (He & _) _ IH]; [done|]. cbn. rewrite He. cbn. by rewrite IH. Qed.

#[global] Instance plain_decision w : Decision (plain w).
Proof. unfold plain. apply _. Defined.

(** As long as the records are plain, the log verifies and its head is the hash the next
    record takes. *)
Definition chained_file `{LicenseEnv} (f : audit_file) : Prop :=
  match f with
  | Log ws => Forall plain ws ->
      exists head, verify_lines no_hash (aw_value <$> ws) = inl head /\ previous_hash ws = Ok head
  | _ => True
  end.

Definition chained `{LicenseEnv} (s : LicenseStorage) : Prop := chained_file (st_audit s).

Section Chain.
Context `{LicenseEnv} (Hreadable : forall n, log_readable n = true).

Lemma json_value_dict d : json_value (VDict d)
  = (kvs ← res_map (fun kv => y ← json_value kv.2; Ok (kv.1, y)) d; Ok (VDict (sort_by key_le kvs))).
Proof. done. Qed.

Lemma verify_lines_snoc previous lines l :
  verify_lines previous (lines ++ [l])
  = match verify_lines previous lines with inl head => verify_lines head [l] | inr reason => inr reason end.
Proof.
  revert previous. induction lines as [|x lines IH]; intros previous; [done|]. cbn [app verify_lines].
  destruct x as [[]|]; try done. destruct (negb _); [done|]. destruct (canonical_json _); [|done].
  destruct (String.eqb _ _); [apply IH|done].
Qed.

Lemma plain_whole k line value : plain (first_bytes k line value) ->
  aw_bytes (first_bytes k line value) = line /\ aw_value (first_bytes k line value) = Some value.
Proof.
  intros [He _]. cbn in *. split; [apply stake_all; unfold slen in He; lia|]. destruct (Z.leb_spec (slen line) k); [done|lia].
Qed.

Lemma audit_line_links timestamp action result details previous line value :
  audit_line_of (audit_record timestamp action result details previous) = Ok (line, value) ->
  exists head, verify_lines previous [Some value] = inl head
    /\ forall ws k, Forall plain (ws ++ [first_bytes k line value]) -> previous_hash (ws ++ [first_bytes k line value]) = Ok head.
Proof.
  unfold audit_line_of, audit_record. set (kept := filter _ details). intros (text & Ht & Hl)%res_bind_ok.
  apply res_bind_ok in Hl as (raw & _ & (v & Hv & [= <- <-])%res_bind_ok).
  rewrite json_value_dict in Hv. cbn [app res_map fst snd] in Hv.
  destruct (json_value (VDict kept)) as [d|e] eqn:Hd; [|discriminate Hv]. cbn in Hv. injection Hv as <-.
  assert (json_value (VDict [("timestamp", VStr timestamp); ("action", VStr action); ("result", VStr result);
            ("details", VDict kept); ("previous_hash", VStr previous)])
          = Ok (VDict [("action", VStr action); ("details", d); ("previous_hash", VStr previous);
                       ("result", VStr result); ("timestamp", VStr timestamp)])) as Hs.
  { rewrite json_value_dict. cbn [res_map fst snd]. by rewrite Hd. }
  exists (sha256 text). split.
  - cbn [verify_lines]. change (vget "previous_hash" _) with (VStr previous).
    change (py_str _) with (sha256 text). change (ddel "record_hash" _) with
      [("action", VStr action); ("details", d); ("previous_hash", VStr previous); ("result", VStr result);
       ("timestamp", VStr timestamp)].
    rewrite (canonical_json_value _ _ Hs), Ht. by rewrite !String.eqb_refl.
  - intros ws k Hp. destruct (last_piece ws _ Hp) as (t & Hutf & Hlast). unfold previous_hash. rewrite Hutf, Hlast.
    apply Forall_app in Hp as [_ Hp]. apply Forall_cons in Hp as [Hp _]. destruct (plain_whole _ _ _ Hp) as [Hb Hval].
    unfold piece_value. rewrite last_snoc, Hval, Hb. destruct Hp as (_ & Hc & _). rewrite Hb in Hc.
    rewrite (utf8_ascii _ (all_chars_impl printable _ _ printable_ascii Hc)).
    by rewrite String.eqb_refl.
Qed.

(** A step that leaves the log alone. *)
Lemma chained_modify f : (forall s, st_audit (f s) = st_audit s) -> preserves chained (modify_st f).
Proof. intros Hf. apply preserves_modify. intros s. unfold chained. by rewrite Hf. Qed.

Lemma chained_ask {A} (f : nat -> A) : preserves chained (ask f).
Proof. by intros s Hs. Qed.

#[local] Hint Resolve chained_ask : msaa.

Lemma chained_root : preserves chained ensure_root.
Proof.
  unfold ensure_root. apply preserves_bind; [auto with msaa|]. intros s. destruct (st_root_linked s); [auto with msaa|].
  apply preserves_bind; [auto with msaa|]. intros [|]; auto with msaa.
Qed.

#[local] Hint Resolve chained_root : msaa.

Lemma chained_write linked name f : (forall s, st_audit (f s) = st_audit s) -> preserves chained (atomic_write linked name f).
Proof.
  intros Hf. unfold atomic_write. apply preserves_bind; [auto with msaa|]. intros [].
  destruct linked; [auto with msaa|]. apply preserves_bind; [auto with msaa|].
  intros [|]; [by apply chained_modify|auto with msaa].
Qed.

(** Opening the log adds no record. *)
Lemma chained_opened f : chained_file f -> chained_file (log_opened f).
Proof. destruct f; [|done..]. intros _ _. by exists no_hash. Qed.

(** A record that follows the last one keeps the chain, however much of it is written. *)
Lemma chained_append timestamp action result details previous line value k f : chained_file f ->
  (f = NoLog -> previous = no_hash) -> (forall ws, f = Log ws -> Forall plain ws -> previous_hash ws = Ok previous) ->
  audit_line_of (audit_record timestamp action result details previous) = Ok (line, value) ->
  chained_file (log_append (first_bytes k line value) (log_opened f)).
Proof.
  intros Hf Hno Hlog (head & Hv & Hp)%audit_line_links.
  assert (forall ws, log_opened f = Log ws -> Forall plain ws -> verify_lines no_hash (aw_value <$> ws) = inl previous) as Hold.
  { destruct f as [| |l]; intros ws [= <-] Hws; [by rewrite (Hno eq_refl)|]. destruct (Hf Hws) as (h & Hvs & Hh).
    rewrite (Hlog l eq_refl Hws) in Hh. by injection Hh as ->. }
  destruct (log_opened f) as [| |ws]; [done..|]. intros Hall. exists head. split; [|by apply (Hp ws k)].
  apply Forall_app in Hall as [Hws Hw]. apply Forall_cons in Hw as [Hw _].
  rewrite fmap_app, list_fmap_singleton, verify_lines_snoc, (Hold ws eq_refl Hws). by rewrite (proj2 (plain_whole _ _ _ Hw)).
Qed.

Lemma audit_append_links action result details previous s : chained s ->
  (st_audit s = NoLog -> previous = no_hash) ->
  (forall ws, st_audit s = Log ws -> Forall plain ws -> previous_hash ws = Ok previous) ->
  chained (audit_append action result details previous s).2.
Proof.
  intros Hs Hno Hlog. unfold audit_append, ask, lift_res. unfold mbind, M_bind.
  destruct (audit_line_of _) as [[line value]|e] eqn:Hl; [|done]. destruct (file_ok _); [|done]. cbn.
  pose proof (chained_opened _ Hs) as Ho.
  destruct (bytes_written _ _) as [k|]; cbn; [|exact Ho]. destruct (k <=? 0); cbn; destruct (file_ok _); cbn; try exact Ho;
    exact (chained_append _ _ _ _ _ _ _ k _ Hs Hno Hlog Hl).
Qed.

Lemma chained_audit action result details : preserves chained (audit action result details).
Proof.
  intros s Hs. unfold audit, audit_begin. pose proof (chained_root s Hs) as Hr. unfold mbind, M_bind.
  destruct (ensure_root s) as [[[]|e] s1]; [|done]. unfold get_st. destruct (st_audit s1) as [| |ws] eqn:Ha; [| |].
  - pose proof (audit_append_links action result details no_hash s1 Hr) as Hk. rewrite Ha in Hk. cbn.
    destruct (audit_append _ _ _ _ s1) as [[|] s2]; by apply Hk.
  - done.
  - unfold ask. rewrite Hreadable. unfold lift_res. destruct (previous_hash ws) as [previous|e] eqn:Hp; [|done].
    pose proof (audit_append_links action result details previous (tick_storage s1) Hr) as Hk. cbn in Hk. rewrite Ha in Hk.
    destruct (audit_append _ _ _ _ (tick_storage s1)) as [[|] s2]; apply Hk; try done; by intros ? [= <-].
Qed.

#[local] Hint Resolve chained_audit : msaa.

Lemma chained_install_id : preserves chained install_id.
Proof.
  unfold install_id. apply preserves_bind; [auto with msaa|]. intros []. apply preserves_bind; [auto with msaa|]. intros s.
  destruct (st_install_id s) as [| |t]; [|auto with msaa|].
  - apply preserves_bind; [auto with msaa|]. intros v. apply preserves_bind; [by apply chained_write|auto with msaa].
  - destruct (negb _); [auto with msaa|]. destruct (is_hex64 _); auto with msaa.
Qed.

Lemma chained_fingerprint product : preserves chained (device_fingerprint product).
Proof. unfold device_fingerprint. apply preserves_bind; [apply chained_install_id|auto with msaa]. Qed.

Lemma chained_store document : preserves chained (store_verified_license document).
Proof.
  unfold store_verified_license. apply preserves_bind; [auto with msaa|]. intros f. apply preserves_bind; [auto with msaa|].
  intros s. by apply chained_write.
Qed.

Lemma chained_state state : preserves chained (write_state state).
Proof.
  unfold write_state. apply preserves_bind; [auto with msaa|]. intros f. apply preserves_bind; [auto with msaa|].
  intros s. by apply chained_write.
Qed.

#[local] Hint Resolve chained_fingerprint chained_store chained_state : msaa.

Section Operations.
Context (keys : list (string * string)) (policy : LicensingPolicy) (revoked : list string).

Lemma chained_try_audit action result details : preserves chained (try_audit action result details).
Proof.
  unfold try_audit. apply preserves_try; [apply preserves_bind; auto with msaa|]. intros []; auto with msaa.
Qed.

#[local] Hint Resolve chained_try_audit : msaa.

Lemma chained_verify document now last : preserves chained (verify_here keys policy revoked document now last).
Proof.
  unfold verify_here. apply preserves_bind; [auto with msaa|]. intros fp. apply preserves_bind.
  - unfold now_or. destruct now; auto with msaa.
  - intros t. apply preserves_bind; auto with msaa.
Qed.

Lemma chained_status now : preserves chained (status keys policy revoked now).
Proof.
  unfold status. apply preserves_bind.
  { apply preserves_try.
    - apply preserves_bind; [|auto with msaa]. unfold read_license. apply preserves_bind; [auto with msaa|]. intros s.
      destruct (st_license s) as [| |size content]; try by auto with msaa. destruct (_ <? _); [auto with msaa|].
      destruct content as [[]|]; auto with msaa.
    - intros []; auto with msaa. }
  intros [[d|]|s]; [|auto with msaa|auto with msaa]. apply preserves_bind.
  - unfold check_installed, read_state. apply preserves_bind; [apply preserves_bind; auto with msaa|]. intros state.
    apply preserves_try; [apply preserves_bind; [apply chained_verify|auto with msaa]|]. intros e.
    apply preserves_bind; [|auto with msaa]. unfold rejected. destruct e; try by auto with msaa.
    all: apply preserves_bind; auto with msaa.
  - intros [result verified]. apply preserves_bind; [|auto with msaa]. destruct (_ && _); [|auto with msaa].
    unfold record_check. apply preserves_bind.
    + destruct (truthy _); [auto with msaa|]. apply preserves_bind; auto with msaa.
    + intros v. apply preserves_try; [auto with msaa|]. intros []; auto with msaa.
Qed.

Lemma chained_accept action document : preserves chained (accept keys policy revoked action document).
Proof.
  unfold accept. apply preserves_bind; [apply chained_verify|]. intros r. destruct (negb _).
  - apply preserves_bind; auto with msaa.
  - apply preserves_bind; [auto with msaa|]. intros []. apply preserves_bind; [auto with msaa|]. intros _. apply chained_status.
Qed.

#[local] Hint Resolve chained_status chained_accept : msaa.

Lemma chained_perform op : preserves chained (perform keys policy revoked op).
Proof.
  assert (forall A (m : M LicenseStorage A), preserves chained m -> preserves chained (m;; mret tt)) as Hdrop.
  { intros A m Hm. apply preserves_bind; auto with msaa. }
  destruct op as [now|source|answer|feature|feature|]; cbn [perform]; apply Hdrop; [auto with msaa| | | | |].
  - unfold import_offline. destruct source as [| |size content]; [auto with msaa..|]. destruct (_ <? _); [auto with msaa|].
    destruct content as [[]|]; auto with msaa.
  - unfold activate_online. apply preserves_bind; [auto with msaa|]. intros _. apply preserves_bind; auto with msaa.
  - unfold is_feature_available. destruct (one_of _ _); [auto with msaa|]. apply preserves_bind; auto with msaa.
  - unfold feature_decision. apply preserves_bind; auto with msaa.
  - unfold registration_decision. apply preserves_try; [|auto with msaa]. apply preserves_bind; [auto with msaa|].
    intros st. destruct (operator_actions_enabled _ _); auto with msaa.
Qed.

Lemma chained_run ops s : chained s -> chained (run_licensing keys policy revoked ops s).
Proof.
  revert s. induction ops as [|op ops IH]; intros s Hs; [done|]. cbn. apply IH.
  pose proof (chained_perform op s Hs) as Hp. by destruct (perform _ _ _ op s) as [[|] s'].
Qed.

(** C30. The licensing audit log stays verifiable: starting without a log, after any checks,
    imports, activations and feature requests, whichever of them fail, and whatever the file
    system refuses to create, write or synchronise, the log verifies with all its records,
    provided that it can be read when a record is added and is within the size the
    verification reads, and that every record in it was written whole, in printable ASCII and
    in at most the 65,536 bytes that are read back. *)
Theorem licensing_log_verifies (ops : list license_op) (s : LicenseStorage) (writes : list audit_write) (maximum_bytes : Z) :
  st_audit s = NoLog -> st_audit (run_licensing keys policy revoked ops s) = Log writes ->
  Forall plain writes -> slen (log_bytes writes) <= maximum_bytes ->
  exists head, verify_audit_chain maximum_bytes (run_licensing keys policy revoked ops s) = AuditValid (zlen writes) head.
Proof.
  intros Hno Hlog Hplain Hmax. assert (chained s) as Hs by (unfold chained; by rewrite Hno).
  pose proof (chained_run ops s Hs) as Hc. unfold chained in Hc. rewrite Hlog in Hc.
  destruct (Hc Hplain) as (head & Hv & _). exists head. unfold verify_audit_chain. rewrite Hlog.
  rewrite (proj2 (Z.ltb_ge _ _) Hmax), (plain_lines writes Hplain), Hv. unfold zlen. by rewrite length_fmap.
Qed.
End Operations.
End Chain.

(** ** What unlocks operator actions *)

Section Unlock.
Context `{LicenseEnv} (keys : list (string * string)) (policy : LicensingPolicy) (revoked : list string).

(** The canonical text of a document, its signature removed, carries a signature that a
    trusted key verifies. *)
Definition signed_by_trusted_key (document : pydict) : Prop :=
  exists check key_id key bytes payload, ed25519_verify = Some check /\ dget key_id keys = Some key
    /\ signed_payload document = Ok payload /\ check key bytes payload = true.

Lemma check_signature_ok document key_id : check_signature keys policy document = Ok key_id ->
  signed_by_trusted_key document
  /\ clean_text (vget "product_id" document) "product_id" true 256 = Ok (lp_product_id policy).
Proof.
  unfold check_signature. rewrite res_bind_unit_ok, res_bind_ok. intros (_ & product & Hp & Hc).
  rewrite res_bind_unit_ok, raise_if_ok in Hc. destruct Hc as [He%negb_false_iff%String.eqb_eq Hc]. subst product.
  split; [|done]. destruct (vget "signature" document); try done. rewrite res_bind_unit_ok, res_bind_ok in Hc.
  destruct Hc as (_ & id & _ & Hc). destruct (dget id keys) as [key|] eqn:Hk; [|done].
  destruct (b64decode _) as [bytes|]; [|done]. destruct ed25519_verify as [check|] eqn:Hv; [|done].
  destruct (signed_payload document) as [payload|] eqn:Hs; [|done]. destruct (check key bytes payload) eqn:Hb; [|done].
  by exists check, id, key, bytes, payload.
Qed.

(** A verdict that counts as valid. *)
Lemma judge_valid f key_id fingerprint now last : license_valid (judge policy f key_id fingerprint now last) = true ->
  (lf_fingerprint f = "" \/ lf_fingerprint f = fingerprint) /\ rolled_back policy now last = false
  /\ lf_not_before f <= now /\ (forall e, lf_expires f = Some e -> now < e).
Proof.
  unfold judge, license_valid. destruct (truthy (lf_fingerprint f) && _) eqn:Hb; [done|].
  destruct (rolled_back policy now last); [done|]. destruct (Z.ltb_spec now (lf_not_before f)); [done|]. intros Hv.
  split_and!; [|done|lia|].
  - apply andb_false_iff in Hb as [Hb|Hb]; [left|right]; apply negb_false_iff, String.eqb_eq in Hb; done.
  - intros e He. rewrite He in Hv. destruct (Z.leb_spec e now); [done|lia].
Qed.

Lemma judge_fields f key_id fingerprint now last :
  li_license_id (judge policy f key_id fingerprint now last) = lf_license_id f
  /\ li_activation_mode (judge policy f key_id fingerprint now last) = lf_activation_mode f.
Proof.
  unfold judge. destruct (_ && _); [done|]. destruct (rolled_back _ _ _); [done|]. destruct (_ <? _); [done|].
  destruct (lf_expires f); [|done]. destruct (_ <=? _); [done|]. by destruct (_ <=? _).
Qed.

Lemma clean_text_required value field maximum text : clean_text value field true maximum = Ok text -> truthy text = true.
Proof.
  unfold clean_text. destruct value; try done; cbn [andb]; destruct (truthy _) eqn:Ht; try done; cbn [negb];
    destruct (_ || _); try done; intros [= <-]; done.
Qed.

Lemma read_fields_id document f : read_fields document = Ok f -> truthy (lf_license_id f) = true.
Proof.
  unfold read_fields. intros (id & Hid & Hrest)%res_bind_ok. apply clean_text_required in Hid.
  repeat (apply res_bind_ok in Hrest as (? & _ & Hrest)). by injection Hrest as <-.
Qed.

(** The document a status check judges, and the time recorded by the last accepted one. *)
Definition installed_document (s : LicenseStorage) : option pydict :=
  match st_license s with
  | Document size (Some (VDict d)) => if lp_maximum_document_bytes policy <? size then None else Some d
  | _ => None
  end.

Definition recorded_time (s : LicenseStorage) : option datetime :=
  last_trusted (match st_state s with Document _ (Some (VDict d)) => d | _ => [] end).

Lemma try_ok {A} (m : M LicenseStorage A) h s a s' : try_except m h s = (Ok a, s') ->
  m s = (Ok a, s') \/ exists e s1, m s = (Raise e, s1) /\ h e s1 = (Ok a, s').
Proof. unfold try_except. destruct (m s) as [[x|e] s1]; [by left|]. right. by exists e, s1. Qed.

Lemma rejected_invalid e s st s' : rejected e s = (Ok st, s') -> license_valid st = false.
Proof.
  unfold rejected. destruct e as [| | | | | | | |m| | | | | |code m]; try done; [by intros [= <- <-]|].
  intros (b & s1 & _ & [= <- <-])%bind_ok. by destruct (String.eqb code _).
Qed.

(** What a status that counts as valid was judged from. *)
Lemma status_valid now s st s' : status keys policy revoked now s = (Ok st, s') -> license_valid st = true ->
  exists document fingerprint s1 s2 t verdict, installed_document s = Some document
    /\ device_fingerprint (lp_product_id policy) s = (Ok fingerprint, s1) /\ now_or now s1 = (Ok t, s2)
    /\ verify keys policy document fingerprint t (recorded_time s) = Ok verdict /\ st = apply_revocation revoked verdict.
Proof.
  unfold status. intros (d & s1 & Hd & Hm)%bind_ok Hv. apply try_ok in Hd as [Hd|(e & s2 & _ & Hd)].
  2: { destruct e; try done; injection Hd as <- <-; by injection Hm as <- <-. }
  apply bind_ok in Hd as (doc & s2 & Hr & [= <- <-]). unfold read_license in Hr.
  apply bind_ok in Hr as (? & ? & [= <- <-] & Hr). unfold installed_document.
  destruct (st_license s) as [| |size [[| | | | | | | |d|]|]]; try done; try (by destruct (_ <? _));
    [by injection Hr as <- <-; injection Hm as <- <-|].
  destruct (_ <? _); [done|]. injection Hr as <- <-. apply bind_ok in Hm as ([result verified] & s3 & Hc & Hm).
  apply bind_ok in Hm as ([] & s4 & _ & [= <- _]). unfold check_installed, read_state in Hc.
  apply bind_ok in Hc as (state & s5 & Hst & Hc). apply bind_ok in Hst as (? & ? & [= <- <-] & [= <- <-]).
  apply try_ok in Hc as [Hc|(e & s6 & _ & Hc)].
  2: { apply bind_ok in Hc as (st' & s7 & Hj & [= <- <- _]). apply rejected_invalid in Hj. congruence. }
  apply bind_ok in Hc as (r & s6 & Hc & [= <- _ _]). unfold verify_here in Hc.
  apply bind_ok in Hc as (fp & s7 & Hfp & Hc). apply bind_ok in Hc as (t & s8 & Ht & Hc).
  apply bind_ok in Hc as (verdict & s9 & Hver & [= <- _]). unfold lift_res in Hver. injection Hver as Hver _.
  by exists d, fp, s7, s8, t, verdict.
Qed.

(** C16. Operator actions need a licence: when a status check leaves them enabled, the
    installed document is within the size limit and signed by a trusted key for this
    product, is not revoked, was activated in an unlocking mode, is not bound to another
    installation, and the clock is inside its period and not behind the last accepted
    check by more than the tolerance. *)
Theorem operator_actions_need_a_license (now : option Z) (s s' : LicenseStorage) (st : LicenseStatus) :
  status keys policy revoked now s = (Ok st, s') -> operator_actions_enabled policy st = true ->
  exists document f t, installed_document s = Some document /\ read_fields document = Ok f
    /\ signed_by_trusted_key document
    /\ clean_text (vget "product_id" document) "product_id" true 256 = Ok (lp_product_id policy)
    /\ (lf_license_id f ∉ revoked) /\ lf_activation_mode f ∈ lp_operator_unlock_activation_modes policy
    /\ (lf_fingerprint f = "" \/ (device_fingerprint (lp_product_id policy) s).1 = Ok (lf_fingerprint f))
    /\ lf_not_before f <= t /\ (forall e, lf_expires f = Some e -> t < e)
    /\ rolled_back policy t (recorded_time s) = false
    /\ (now = Some t \/ exists n, t = license_clock n).
Proof.
  intros Hst [Hv Hmode]%andb_true_iff. destruct (status_valid now s st s' Hst Hv)
    as (d & fp & s1 & s2 & t & verdict & Hd & Hfp & Ht & Hver & ->).
  unfold verify in Hver. apply res_bind_ok in Hver as (key_id & Hsig & (f & Hf & [= <-])%res_bind_ok).
  apply check_signature_ok in Hsig as [Hsigned Hproduct]. unfold apply_revocation in Hv, Hmode.
  destruct (judge_fields f key_id fp t (recorded_time s)) as [Hid Hmo]. rewrite Hid, (read_fields_id d f Hf) in Hv, Hmode.
  cbn [andb] in *. destruct (one_of (lf_license_id f) revoked) eqn:Hrev; [done|]. rewrite Hmo in Hmode.
  apply judge_valid in Hv as (Hb & Hroll & Hnb & Hex). exists d, f, t. split_and!; try done.
  - intros Hin. apply one_of_spec in Hin. congruence.
  - by apply one_of_spec.
  - destruct Hb as [|Hb]; [by left|right]. by rewrite Hfp, Hb.
  - unfold now_or in Ht. destruct now; [left; by injection Ht as ->|right]. injection Ht as <- _. by eexists.
Qed.
End Unlock.

(** ** An installation *)

(** A toy signature: the bytes are the key, on a text that names the product. *)
Definition license_env : LicenseEnv := {|
  license_signature := {| signature_platform := plain_env;
    ed25519_verify := Some (fun key bytes payload => String.eqb key bytes && contains "com.liquidskysecurity.msaa" payload);
    local_zone := fun _ => 0 |};
  license_clock := fun n => 1782864000000000 + Z.of_nat n; file_ok := fun _ => true;
  log_readable := fun _ => true; bytes_written := fun _ n => Some n;
  fresh_install_id := fun _ => "0123456789abcdef0123456789abcdef0123456789abcdef0123456789abcdef" |}.
#[local] Existing Instance license_env.

Definition vendor_keys : list (string * string) := [("vendor-1", "abc")].

Definition sample_license : pydict := [
  ("schema_version", VInt 1); ("product_id", VStr "com.liquidskysecurity.msaa"); ("license_id", VStr "lic-7");
  ("edition", VStr "pro"); ("issued_at", VStr "2026-06-01T00:00:00Z"); ("expires_at", VStr "2026-07-01T00:00:00Z");
  ("features", VList [VStr "professional_reports"]);
  ("signature", VDict [("algorithm", VStr "Ed25519"); ("key_id", VStr "vendor-1"); ("value", VStr "YWJj")])].

Definition installed (id : text_file) : LicenseStorage := {|
  st_root_linked := false; st_license := Document 400 (Some (VDict sample_license)); st_install_id := id;
  st_state := Missing; st_audit := NoLog; st_ticks := 0 |}.

(** Seconds after the expiry. *)
Definition after_expiry (n : Z) : option Z := Some (1782864000000000 + n * 1000000).

Definition checked (now : option Z) (s : LicenseStorage) : res LicenseState * LicenseStorage :=
  let (r, s') := status vendor_keys DEFAULT_POLICY [] now s in
  (match r with Ok st => Ok (li_state st) | Raise e => Raise e end, s').

(** A month before: operator actions are enabled. *)
Definition unlocked : res LicenseStatus * LicenseStorage :=
  status vendor_keys DEFAULT_POLICY ["lic-3"] (after_expiry (-86400)) (installed NoText).
Definition unlocked_status : LicenseStatus :=
  match unlocked.1 with Ok st => st | Raise _ => blank_status LS_INVALID "" "" [] [] end.

Lemma operator_actions_need_a_license_witness :
  operator_actions_enabled DEFAULT_POLICY unlocked_status = true
  /\ exists document, installed_document DEFAULT_POLICY (installed NoText) = Some document
       /\ signed_by_trusted_key vendor_keys document.
Proof.
  assert (operator_actions_enabled DEFAULT_POLICY unlocked_status = true) as Hon by (vm_compute; reflexivity).
  assert (status vendor_keys DEFAULT_POLICY ["lic-3"] (after_expiry (-86400)) (installed NoText)
          = (Ok unlocked_status, unlocked.2)) as Hst by (vm_compute; reflexivity).
  split; [exact Hon|].
  destruct (operator_actions_need_a_license vendor_keys DEFAULT_POLICY ["lic-3"] (after_expiry (-86400)) (installed NoText)
    unlocked.2 unlocked_status Hst Hon) as (d & f & t & Hd & _ & Hsigned & _).
  exists d. split; [exact Hd|exact Hsigned].
Defined.

(** Rejections and an import, then the log. *)
Definition licensing_session : list license_op := [
  CheckStatus None; ImportOffline (Document 10 (Some (VDict [])));
  ImportOffline (Document 400 (Some (VDict sample_license))); AskFeature "professional_reports"; DecideRegistration;
  ActivateOnline (Ok (dset "edition" (VInt 1) sample_license)); CheckStatus (after_expiry 600)].

Definition broken_license : LicenseStorage := {|
  st_root_linked := false; st_license := Document 20 (Some (VDict [])); st_install_id := NoText; st_state := Missing;
  st_audit := NoLog; st_ticks := 0 |}.

Definition session_log : list audit_write :=
  match st_audit (run_licensing vendor_keys DEFAULT_POLICY [] licensing_session broken_license) with Log l => l | _ => [] end.

Lemma licensing_log_verifies_witness : zlen session_log = 5
  /\ exists head, verify_audit_chain 10485760 (run_licensing vendor_keys DEFAULT_POLICY [] licensing_session broken_license)
      = AuditValid (zlen session_log) head.
Proof.
  split; [vm_compute; reflexivity|].
  apply (@licensing_log_verifies license_env (fun _ => eq_refl) vendor_keys DEFAULT_POLICY [] licensing_session broken_license session_log 10485760).
  - reflexivity.
  - vm_compute. reflexivity.
  - apply (bool_decide_unpack _). vm_compute. exact I.
  - vm_compute. discriminate.
Defined.

(** ** Where the promises end *)

(** The recorded time follows the clock back: each check within the tolerance replaces it, so
    an expired licence comes back to life in steps of five minutes, while the same
    distance in one step is noticed. *)
Example clock_walked_back :
  let recorded := (checked (after_expiry 600) (installed NoText)).2 in
  let earlier := (checked (after_expiry 0) (checked (after_expiry 300) recorded).2).2 in
  (checked (after_expiry 600) (installed NoText)).1 = Ok LS_EXPIRED
  /\ (checked (after_expiry (-300)) recorded).1 = Ok LS_CLOCK_ROLLBACK_SUSPECTED
  /\ (checked (after_expiry (-300)) earlier).1 = Ok LS_EXPIRING.
Proof. by vm_compute. Qed.

(** Two processes that audit at once: the last hash is read before the lock is taken, so
    both records follow the same one and the chain no longer verifies. *)
Example concurrent_audits_break_the_chain :
  let interleaved :=
    (p ← audit_begin; q ← audit_begin;
     audit_append "LICENSE_VERIFY" "REJECTED" [] p;; audit_append "LICENSE_VERIFY" "REJECTED" [] q) in
  verify_audit_chain 10485760 (interleaved broken_license).2 = AuditInvalid "chain_link_mismatch".
Proof. by vm_compute. Qed.

(** An installation identifier that is not ASCII makes the status check raise instead of
    reporting the identity unreadable; the decision on a core safety feature, made after
    the check, raises with it, though the feature is available. *)
Example corrupted_identifier_raises :
  let s := installed (Text (String (ascii_of_nat 233) "")) in
  is_ok (status vendor_keys DEFAULT_POLICY [] None s).1 = false
  /\ is_ok (feature_decision vendor_keys DEFAULT_POLICY [] "core_protection" s).1 = false
  /\ (is_feature_available vendor_keys DEFAULT_POLICY [] "core_protection" s).1 = Ok true.
Proof. by vm_compute. Qed.

(** The hash of the last record is looked for with [str.splitlines], which ends a line at
    U+0085, and a licence identifier may hold that character: the record after one that
    names it follows no record, and the log no longer verifies. *)
Example next_line_character_breaks_the_chain :
  let named := dset "expires_at" (VStr "2027-07-01T00:00:00Z")
                 (dset "license_id" (VStr ("lic" +:+ String (ascii_of_N 133) "7")) sample_license) in
  let import := ImportOffline (Document 400 (Some (VDict named))) in
  let s := run_licensing vendor_keys DEFAULT_POLICY [] [import; import] broken_license in
  verify_audit_chain 10485760 s = AuditInvalid "chain_link_mismatch".
Proof. by vm_compute. Qed.

(** A write that takes only a part of a record is not noticed: the next record goes on in
    the same line. *)
Definition short_write_env : LicenseEnv := {|
  license_signature := @license_signature license_env; license_clock := @license_clock license_env;
  file_ok := fun _ => true; log_readable := fun _ => true;
  bytes_written := fun t n => if (t <? 8)%nat then Some 40 else Some n; fresh_install_id := @fresh_install_id license_env |}.

Example short_write_breaks_the_chain :
  let s := (audit (H := short_write_env) "LICENSE_VERIFY" "REJECTED" [];; audit (H := short_write_env) "LICENSE_VERIFY" "REJECTED" [];;
            audit (H := short_write_env) "LICENSE_VERIFY" "REJECTED" []) broken_license in
  is_ok s.1 = true /\ verify_audit_chain 10485760 s.2 = AuditInvalid "audit_parse_failure".
Proof. by vm_compute. Qed.

(** So does a log that cannot be read once: the record added then follows no record. *)
Definition unreadable_env : LicenseEnv := {|
  license_signature := @license_signature license_env; license_clock := @license_clock license_env;
  file_ok := fun _ => true; log_readable := fun _ => false;
  bytes_written := fun t n => Some n; fresh_install_id := @fresh_install_id license_env |}.

Example unreadable_log_breaks_the_chain :
  let s := (audit (H := unreadable_env) "LICENSE_VERIFY" "REJECTED" [];;
            audit (H := unreadable_env) "LICENSE_VERIFY" "REJECTED" []) broken_license in
  is_ok s.1 = true /\ verify_audit_chain 10485760 s.2 = AuditInvalid "chain_link_mismatch".
Proof. by vm_compute. Qed.
