(* ===== verification/TextRegex.v ===== *)
(** Python's [re] over code points, as the command scanner uses it: patterns are the
    source's own text, parsed here; the matcher backtracks in Python's order; its
    meaning is given apart as a relation, and the two agree.

    A double quote in a pattern is written [\x22]. *)

From S2P Require Import Prelude PyStr ShellTokenizer.
From Stdlib Require Import Ascii.

(** ** Text *)

(** The code points of an ASCII literal. *)
Fixpoint text_of (s : string) : text :=
  match s with
  | EmptyString => []
  | String c s' => code c :: text_of s'
  end.

(** A text of code points below 256 as a string. *)
Definition string_of (s : text) : string := foldr (fun c r => String (ascii_of_N (Z.to_N c)) r) "" s.

Fixpoint starts (p s : text) : bool :=
  match p, s with
  | [], _ => true
  | a :: p', b :: s' => (a =? b) && starts p' s'
  | _, [] => false
  end.

(** [p in s] *)
Fixpoint occurs (p s : text) : bool :=
  starts p s || match s with [] => false | _ :: s' => occurs p s' end.

(** [s.replace(old, "")]; [skip] characters of an occurrence are still to be dropped. *)
Fixpoint remove_all (old : text) (skip : nat) (s : text) : text :=
  match s with
  | [] => []
  | c :: s' =>
      match skip with
      | S k => remove_all old k s'
      | O => if starts old s then remove_all old (length old - 1) s' else c :: remove_all old 0 s'
      end
  end.

(** ** Patterns *)

Inductive re :=
| XSet (p : Z -> bool)
| XEps
| XCat (a b : re)
| XAlt (a b : re)           (** [a|b], [a] first *)
| XStar (a : re)            (** [a*], greedy *)
| XBoundary                 (** [\b] *)
| XBegin                    (** [^] *)
| XEnd                      (** [$]: the end, or a newline at the end *)
| XNotBefore (p : Z -> bool) (** [(?<![...])] *)
| XNotAfter (p : Z -> bool)  (** [(?![...])] *)
| XGroup (n : nat) (a : re).

Record mstate := {
  m_prev : option Z;                  (** the character before the position *)
  m_rest : text;                      (** the text from the position on *)
  m_pos : nat;
  m_groups : list (nat * (nat * nat)) (** latest first *)
}.

Definition advance (c : Z) (s' : text) (st : mstate) : mstate :=
  {| m_prev := Some c; m_rest := s'; m_pos := S (m_pos st); m_groups := m_groups st |}.

Definition set_group (n start : nat) (st : mstate) : mstate :=
  {| m_prev := m_prev st; m_rest := m_rest st; m_pos := m_pos st; m_groups := (n, (start, m_pos st)) :: m_groups st |}.

Definition start_at (prev : option Z) (s : text) (pos : nat) : mstate :=
  {| m_prev := prev; m_rest := s; m_pos := pos; m_groups := [] |}.

(** ** Reading a pattern

    [ic] is [re.IGNORECASE], [dotall] is [re.DOTALL]. The literals of the patterns are
    ASCII; under [ic] a letter also matches the few other characters that fold to it. *)

Definition case_variants (c : Z) : list Z :=
  if between 65 90 c then [c; c + 32]
  else if between 97 122 c then [c; c - 32]
  else if member c [304; 305] then [c; 105; 73]   (* the dotted capital and the dotless i *)
  else if c =? 383 then [c; 115; 83]              (* the long s *)
  else if c =? 8490 then [c; 107; 75]             (* the kelvin sign *)
  else [c].

Definition fold_set (ic : bool) (p : Z -> bool) (c : Z) : bool := if ic then existsb p (case_variants c) else p c.

Definition hex_digit (c : Z) : option Z :=
  if between 48 57 c then Some (c - 48)
  else if between 97 102 c then Some (c - 87)
  else if between 65 70 c then Some (c - 55)
  else None.

(** What follows a backslash: a set of characters. *)
Definition escape (s : text) : option ((Z -> bool) * text) :=
  match s with
  | 115 :: s' => Some (is_space_cp, s')                                   (* s *)
  | 83 :: s' => Some (fun c => negb (is_space_cp c), s')                  (* S *)
  | 110 :: s' => Some (Z.eqb 10, s')                                      (* n *)
  | 120 :: a :: b :: s' => x ← hex_digit a; y ← hex_digit b; Some (Z.eqb (16 * x + y), s')
  | c :: s' => if between 48 57 c || between 65 90 c || between 97 122 c then None else Some (Z.eqb c, s')
  | [] => None
  end.

(** The rest of a class, to its closing bracket. *)
Fixpoint read_class (fuel : nat) (p : Z -> bool) (s : text) : option ((Z -> bool) * text) :=
  match fuel with
  | O => None
  | S fuel' =>
      match s with
      | [] => None
      | 93 :: s' => Some (p, s')
      | 92 :: s' => '(q, s'') ← escape s'; read_class fuel' (fun c => p c || q c) s''
      | a :: 45 :: b :: s' =>
          if b =? 93 then Some (fun c => p c || (c =? a) || (c =? 45), s')
          else read_class fuel' (fun c => p c || between a b c) s'
      | a :: s' => read_class fuel' (fun c => p c || (c =? a)) s'
      end
  end.

Definition read_set (ic : bool) (s : text) : option ((Z -> bool) * text) :=
  match s with
  | 94 :: s' => '(p, s'') ← read_class (length s) (fun _ => false) s'; Some (fun c => negb (fold_set ic p c), s'')
  | _ => '(p, s') ← read_class (length s) (fun _ => false) s; Some (fold_set ic p, s')
  end.

Fixpoint read_number (n : nat) (s : text) : nat * text :=
  match s with
  | c :: s' => if between 48 57 c then read_number (10 * n + Z.to_nat (c - 48)) s' else (n, s)
  | [] => (n, s)
  end.

Fixpoint times (n : nat) (r : re) : re := match n with O => XEps | S n' => XCat r (times n' r) end.
Fixpoint up_to (n : nat) (r : re) : re := match n with O => XEps | S n' => XAlt (XCat r (up_to n' r)) XEps end.

(** The repetition after an item, if any. *)
Definition quantified (r : re) (s : text) : option (re * text) :=
  match s with
  | 42 :: s' => Some (XStar r, s')
  | 43 :: s' => Some (XCat r (XStar r), s')
  | 63 :: s' => Some (XAlt r XEps, s')
  | 123 :: s' =>
      let (lo, s1) := read_number 0 s' in
      match s1 with
      | 125 :: s2 => Some (times lo r, s2)
      | 44 :: 125 :: s2 => Some (XCat (times lo r) (XStar r), s2)
      | 44 :: s2 =>
          match read_number 0 s2 with
          | (hi, 125 :: s3) => Some (XCat (times lo r) (up_to (hi - lo) r), s3)
          | _ => None
          end
      | _ => None
      end
  | _ => Some (r, s)
  end.

(** An item that is not a group. *)
Definition read_item (ic dotall : bool) (s : text) : option (re * text) :=
  match s with
  | 91 :: s' => '(p, s'') ← read_set ic s'; Some (XSet p, s'')
  | 92 :: 98 :: s' => Some (XBoundary, s')
  | 92 :: s' => '(p, s'') ← escape s'; Some (XSet (fold_set ic p), s'')
  | 94 :: s' => Some (XBegin, s')
  | 36 :: s' => Some (XEnd, s')
  | 46 :: s' => Some (XSet (fun c => dotall || negb (c =? 10)), s')
  | c :: s' => if member c [42; 43; 63] then None else Some (XSet (fold_set ic (Z.eqb c)), s')
  | [] => None
  end.

Definition either (done : option re) (r : re) : re := match done with Some d => XAlt d r | None => r end.

(** Alternatives up to a closing parenthesis or the end: [done] before the last bar,
    [seq] since, [n] groups opened so far. *)
Fixpoint read_pattern (fuel : nat) (ic dotall : bool) (done : option re) (seq : re) (n : nat) (s : text)
    : option (re * nat * text) :=
  match fuel with
  | O => None
  | S fuel' =>
      match s with
      | [] | 41 :: _ => Some (either done seq, n, s)
      | 124 :: s' => read_pattern fuel' ic dotall (Some (either done seq)) XEps n s'
      | 40 :: 63 :: 60 :: 33 :: 91 :: s' =>
          '(p, s1) ← read_set ic s';
          match s1 with 41 :: s2 => read_pattern fuel' ic dotall done (XCat seq (XNotBefore p)) n s2 | _ => None end
      | 40 :: 63 :: 33 :: 91 :: s' =>
          '(p, s1) ← read_set ic s';
          match s1 with 41 :: s2 => read_pattern fuel' ic dotall done (XCat seq (XNotAfter p)) n s2 | _ => None end
      | 40 :: s' =>
          let '(wrap, n1, s1) := match s' with 63 :: 58 :: s'' => (fun r => r, n, s'') | _ => (XGroup (S n), S n, s') end in
          '(r, n2, s2) ← read_pattern fuel' ic dotall None XEps n1 s1;
          match s2 with
          | 41 :: s3 => '(r, s4) ← quantified (wrap r) s3; read_pattern fuel' ic dotall done (XCat seq r) n2 s4
          | _ => None
          end
      | _ => '(r, s1) ← read_item ic dotall s; '(r, s2) ← quantified r s1; read_pattern fuel' ic dotall done (XCat seq r) n s2
      end
  end.

Definition read_re (ic dotall : bool) (s : string) : option re :=
  match read_pattern (S (String.length s)) ic dotall None XEps 0 (text_of s) with
  | Some (r, _, []) => Some r
  | _ => None
  end.

(** A pattern that reads; one that does not would match nothing. *)
Definition compiled (r : option re) : re := default (XSet (fun _ => false)) r.
Definition pattern (s : string) : re := compiled (read_re false false s).
Definition pattern_i (s : string) : re := compiled (read_re true false s).
Definition pattern_s (s : string) : re := compiled (read_re false true s).

(** The pattern of a text taken literally: [re.escape] *)
Fixpoint literal (s : text) : re := match s with [] => XEps | c :: s' => XCat (XSet (Z.eqb c)) (literal s') end.

(** ** The meaning of a pattern *)

Section Engine.
Context `{UnicodeEnv}.

(** [\w] *)
Definition is_word (c : Z) : bool := is_alnum_cp c || (c =? underscore).

Definition some_char (p : Z -> bool) (c : option Z) : bool := match c with Some c => p c | None => false end.

(** What an anchor or a look-around asks of a position. *)
Definition holds_at (r : re) (st : mstate) : bool :=
  match r with
  | XBoundary => xorb (some_char is_word (m_prev st)) (some_char is_word (head (m_rest st)))
  | XBegin => bool_decide (m_prev st = None)
  | XEnd => bool_decide (m_rest st = [] \/ m_rest st = [10])
  | XNotBefore p => negb (some_char p (m_prev st))
  | XNotAfter p => negb (some_char p (head (m_rest st)))
  | _ => true
  end.

Definition is_anchor (r : re) : bool :=
  match r with XEps | XBoundary | XBegin | XEnd | XNotBefore _ | XNotAfter _ => true | _ => false end.

Inductive matches : re -> mstate -> mstate -> Prop :=
| match_set p c s' st : m_rest st = c :: s' -> p c = true -> matches (XSet p) st (advance c s' st)
| match_anchor r st : is_anchor r = true -> holds_at r st = true -> matches r st st
| match_cat a b st st1 st2 : matches a st st1 -> matches b st1 st2 -> matches (XCat a b) st st2
| match_left a b st st' : matches a st st' -> matches (XAlt a b) st st'
| match_right a b st st' : matches b st st' -> matches (XAlt a b) st st'
| match_stop a st : matches (XStar a) st st
| match_more a st st1 st2 : matches a st st1 -> m_pos st1 <> m_pos st -> matches (XStar a) st1 st2 ->
    matches (XStar a) st st2
| match_group n a st st' : matches a st st' -> matches (XGroup n a) st (set_group n (m_pos st) st').

(** ** The matcher

    [run r k st] is what [k] makes of the first way, in Python's order, to match [r]
    at [st] that [k] accepts. An iteration of a star that consumes nothing is not
    repeated. *)

Fixpoint star_loop {A} (body : (mstate -> option A) -> mstate -> option A) (k : mstate -> option A)
    (n : nat) (st : mstate) : option A :=
  match n with
  | O => k st
  | S n' =>
      match body (fun st' => if Nat.eqb (m_pos st') (m_pos st) then None else star_loop body k n' st') st with
      | Some v => Some v
      | None => k st
      end
  end.

Fixpoint run {A} (r : re) (k : mstate -> option A) (st : mstate) {struct r} : option A :=
  match r with
  | XSet p =>
      match m_rest st with
      | c :: s' => if p c then k (advance c s' st) else None
      | [] => None
      end
  | XCat a b => run a (run b k) st
  | XAlt a b => match run a k st with Some v => Some v | None => run b k st end
  | XGroup n a => run a (fun st' => k (set_group n (m_pos st) st')) st
  | XStar a => star_loop (run a) k (length (m_rest st)) st
  | r => if holds_at r st then k st else None
  end.

(** The leftmost match: its start and its final state. *)
Fixpoint search_from (r : re) (prev : option Z) (s : text) (pos : nat) : option (nat * mstate) :=
  match run r Some (start_at prev s pos) with
  | Some st => Some (pos, st)
  | None => match s with [] => None | c :: s' => search_from r (Some c) s' (S pos) end
  end.

Definition search_match (r : re) (s : text) : option (nat * mstate) := search_from r None s 0.

(** [bool(re.search(r, s))] *)
Definition search (r : re) (s : text) : bool := bool_decide (is_Some (search_match r s)).

Definition slice (a b : nat) (s : text) : text := take (b - a) (drop a s).

(** [match.group(n)], [n] not zero, in the searched text *)
Definition group_text (s : text) (st : mstate) (n : nat) : text :=
  match find_first (fun g => Nat.eqb g.1 n) (m_groups st) with
  | Some (_, (a, b)) => slice a b s
  | None => []
  end.

(** [re.finditer(r, s)] from a position on. An empty match is followed by the next
    character. *)
Fixpoint finditer_from (fuel : nat) (r : re) (prev : option Z) (s : text) (pos : nat) : list (nat * mstate) :=
  match fuel with
  | O => []
  | S fuel' =>
      match search_from r prev s pos with
      | None => []
      | Some (start, st) =>
          (start, st) ::
          (if Nat.eqb (m_pos st) start
           then match m_rest st with
                | [] => []
                | c :: s' => finditer_from fuel' r (Some c) s' (S start)
                end
           else finditer_from fuel' r (m_prev st) (m_rest st) (m_pos st))
      end
  end.

Definition finditer (r : re) (s : text) : list (nat * mstate) := finditer_from (S (length s)) r None s 0.

(** [re.sub(r, f, s)]: the matches from [pos] on, each replaced; [f] is given where the
    match starts and its final state. *)
Fixpoint replace_matches (f : nat -> mstate -> text) (whole : text) (pos : nat) (l : list (nat * mstate)) : text :=
  match l with
  | [] => drop pos whole
  | (start, st) :: l' => slice pos start whole ++ f start st ++ replace_matches f whole (m_pos st) l'
  end.

Definition sub (r : re) (f : nat -> mstate -> text) (s : text) : text := replace_matches f s 0 (finditer r s).

(** ** The matcher finds a match exactly when there is one *)

Lemma matches_cat_inv a b st st' : matches (XCat a b) st st' -> exists st1, matches a st st1 /\ matches b st1 st'.
Proof. intros Hm. inversion Hm; subst; [done|by eexists]. Qed.

Lemma matches_eps_inv st st' : matches XEps st st' -> st' = st.
Proof. intros Hm. by inversion Hm. Qed.

Lemma matches_set_inv p st st' : matches (XSet p) st st' -> exists c s', m_rest st = c :: s' /\ p c = true /\ st' = advance c s' st.
Proof. intros Hm. inversion Hm; subst; [by eexists _, _|done]. Qed.

Lemma matches_length r st st' : matches r st st' ->
  (m_pos st' + length (m_rest st') = m_pos st + length (m_rest st) /\ m_pos st <= m_pos st')%nat.
Proof. induction 1 as [p c s' st Hs _| | | | | | |]; cbn in *; [rewrite Hs; cbn|..]; lia. Qed.

Lemma run_sound {A} r (k : mstate -> option A) st v : run r k st = Some v ->
  exists st', matches r st st' /\ k st' = Some v.
Proof.
  revert k st v. induction r as [p| |a IHa b IHb|a IHa b IHb|a IHa| | | | | |n a IHa]; intros k st v; cbn [run];
    try (intros Hr; case_match eqn:Hh; [|done]; exists st; split; [by constructor|done]).
  - destruct (m_rest st) as [|c s'] eqn:Hs; [done|]. destruct (p c) eqn:Hp; [|done]. intros Hk.
    exists (advance c s' st). split; [by constructor|done].
  - intros (st1 & Ha & (st2 & Hb & Hk)%IHb)%IHa. exists st2. split; [by eapply match_cat|done].
  - destruct (run a k st) as [w|] eqn:Ha.
    + intros [= <-]. apply IHa in Ha as (st1 & Ha & Hk). exists st1. split; [by apply match_left|done].
    + intros (st1 & Hb & Hk)%IHb. exists st1. split; [by apply match_right|done].
  - generalize (length (m_rest st)) as n. intros n. revert st v. induction n as [|n IHn]; intros st v.
    + intros Hk. exists st. split; [apply match_stop|done].
    + cbn [star_loop]. destruct (run a _ st) as [w|] eqn:Ha; [|intros Hk; exists st; split; [apply match_stop|done]].
      intros [= <-]. apply IHa in Ha as (st1 & Ha & Hk). destruct (Nat.eqb_spec (m_pos st1) (m_pos st)) as [|Hpos]; [done|].
      apply IHn in Hk as (st2 & Hs & Hk). exists st2. split; [by eapply match_more|done].
  - intros (st1 & Ha & Hk)%IHa. eexists. split; [by apply match_group|done].
Qed.

(** The fuel of a star may be anything from the length of the text on. *)
Lemma run_complete_fuel {A} r st st' : matches r st st' ->
  (forall k : mstate -> option A, is_Some (k st') -> is_Some (run r k st))
  /\ match r with
     | XStar a => forall (k : mstate -> option A) n, (length (m_rest st) <= n)%nat -> is_Some (k st') ->
         is_Some (star_loop (run a) k n st)
     | _ => True
     end.
Proof.
  induction 1 as [p c s' st Hs Hp|r st Ha Hh|a b st st1 st2 Ha [IHa _] Hb [IHb _]|a b st st' Ha [IHa _]|a b st st' Hb [IHb _]
                 |a st|a st st1 st2 Ha [IHa _] Hpos Hs [_ IHs]|n a st st' Ha [IHa _]].
  - split; [|done]. intros k Hk. cbn [run]. by rewrite Hs, Hp.
  - split; [intros k Hk; destruct r; try done; cbn [run holds_at] in *; by rewrite ?Hh|by destruct r].
  - split; [|done]. intros k Hk. apply IHa. by apply IHb.
  - split; [|done]. intros k Hk. cbn [run]. specialize (IHa k Hk). by destruct (run a k st).
  - split; [|done]. intros k Hk. cbn [run]. destruct (run a k st); [done|]. by apply IHb.
  - assert (forall (k : mstate -> option A) n, is_Some (k st) -> is_Some (star_loop (run a) k n st)) as Hstop.
    { intros k [|n] Hk; cbn [star_loop]; [done|]. by destruct (run a _ st). }
    split; [intros k Hk|intros k n _ Hk]; by apply Hstop.
  - assert (forall (k : mstate -> option A) n, (length (m_rest st) <= n)%nat -> is_Some (k st2) ->
              is_Some (star_loop (run a) k n st)) as Hmore.
    { intros k n Hn Hk. pose proof (matches_length _ _ _ Ha) as [Hlen Hle]. destruct n as [|n]; [lia|]. cbn [star_loop].
      assert (is_Some (run a (fun st' => if Nat.eqb (m_pos st') (m_pos st) then None else star_loop (run a) k n st') st))
        as Hr; [|by destruct (run a _ st)].
      apply IHa. destruct (Nat.eqb_spec (m_pos st1) (m_pos st)); [done|]. apply IHs; [lia|done]. }
    split; [intros k Hk; by apply Hmore|done].
  - split; [|done]. intros k Hk. by apply IHa.
Qed.

Lemma run_complete {A} r st st' (k : mstate -> option A) : matches r st st' -> is_Some (k st') -> is_Some (run r k st).
Proof. intros Hm Hk. by apply (run_complete_fuel r st st' Hm). Qed.

(** [re.search] finds something exactly when some position of the text matches. *)
Lemma search_from_spec r prev s pos :
  is_Some (search_from r prev s pos)
  <-> exists n st', (n <= length s)%nat
        /\ matches r (start_at (match n with O => prev | S m => s !! m end) (drop n s) (pos + n)) st'.
Proof.
  revert prev pos. induction s as [|c s IH]; intros prev pos; cbn [search_from].
  - split.
    + intros Hr. destruct (run r Some (start_at prev [] pos)) as [v|] eqn:Hv; [|by destruct Hr].
      apply run_sound in Hv as (st' & Hm & _). exists O, st'. split; [done|]. by rewrite Nat.add_0_r.
    + intros ([|n] & st' & Hn & Hm); [|cbn in Hn; lia]. rewrite Nat.add_0_r in Hm. cbn in Hm.
      by destruct (run_complete r _ st' Some Hm ltac:(done)) as [v ->].
  - destruct (run r Some (start_at prev (c :: s) pos)) as [v|] eqn:Hv.
    + split; [intros _|done]. apply run_sound in Hv as (st' & Hm & _). exists O, st'. split; [lia|]. by rewrite Nat.add_0_r.
    + rewrite IH. split.
      * intros (n & st' & Hn & Hm). exists (S n), st'. split; [cbn; lia|]. rewrite <- Nat.add_succ_comm.
        by destruct n.
      * intros ([|n] & st' & Hn & Hm).
        -- rewrite Nat.add_0_r in Hm. destruct (run_complete r _ st' Some Hm ltac:(done)) as [v Hv']. cbn in Hv'. congruence.
        -- exists n, st'. split; [cbn in Hn; lia|]. rewrite Nat.add_succ_comm. by destruct n.
Qed.

Lemma search_none r s : search r s = false -> finditer r s = [].
Proof.
  unfold search, search_match, finditer. cbn [finditer_from]. intros Hs%bool_decide_eq_false.
  by destruct (search_from r None s 0); [destruct Hs|].
Qed.

Lemma sub_none r f s : search r s = false -> sub r f s = s.
Proof. intros Hs. unfold sub. by rewrite search_none. Qed.
End Engine.

(** ** Patterns at work *)

Section Examples.
#[local] Instance plain_unicode : UnicodeEnv := {|
  nfkc := fun s => s; is_alpha_cp := fun c => between 65 90 c || between 97 122 c;
  is_alnum_cp := fun c => between 48 57 c || between 65 90 c || between 97 122 c |}.

Example search_ex :
  (search (pattern "\b(?:curl|wget)\b") (text_of "x; curl -s"), search (pattern "\b(?:curl|wget)\b") (text_of "curly"),
   search (pattern_i "history\s+-c|^nohup$") (text_of "HISTORY  -c"),
   search (pattern "(?<![A-Z])[A-Z]{2,3}(?![A-Z])") (text_of "ABCD"))
  = (true, false, true, false).
Proof. by vm_compute. Qed.

Example sub_ex : sub (pattern "\$([a-z]+)\$([a-z]+)") (fun _ _ => text_of "-") (text_of "a$b$c$d$e$f") = text_of "a--$f".
Proof. by vm_compute. Qed.
End Examples.
