(* ===== verification/Utf8.v ===== *)
(** UTF-8 as Python encodes and decodes it with [errors="replace"]. *)

From S2P Require Import Prelude ShellTokenizer.

Definition bytes : Type := list Z.

(** A code point; a surrogate is replaced by a question mark. *)
Definition encode_cp (c : Z) : bytes :=
  if c <? 128 then [c]
  else if c <? 2048 then [192 + c / 64; 128 + c mod 64]
  else if between 55296 57343 c then [63]
  else if c <? 65536 then [224 + c / 4096; 128 + c / 64 mod 64; 128 + c mod 64]
  else [240 + c / 262144; 128 + c / 4096 mod 64; 128 + c / 64 mod 64; 128 + c mod 64].

(** [s.encode("utf-8", "replace")] *)
Definition utf8_encode (s : text) : bytes := flat_map encode_cp s.

(** A sequence under way: the continuation bytes it still needs, the range of the
    next one, and what was read so far. *)
Record pending := { pd_more : nat; pd_low : Z; pd_high : Z; pd_value : Z }.

Definition replacement : Z := 65533.

Definition expect (more : nat) (low high value : Z) : text * option pending :=
  ([], Some {| pd_more := more; pd_low := low; pd_high := high; pd_value := value |}).

(** The first byte of a sequence. *)
Definition lead (a : Z) : text * option pending :=
  if a <? 128 then ([a], None)
  else if between 194 223 a then expect 0 128 191 (a - 192)
  else if a =? 224 then expect 1 160 191 0
  else if a =? 237 then expect 1 128 159 13
  else if between 225 239 a then expect 1 128 191 (a - 224)
  else if a =? 240 then expect 2 144 191 0
  else if between 241 243 a then expect 2 128 191 (a - 240)
  else if a =? 244 then expect 2 128 143 4
  else ([replacement], None).

(** A sequence that is cut short gives one replacement character, and the byte that
    cuts it is read again. *)
Fixpoint decode_from (p : option pending) (s : bytes) : text :=
  match s with
  | [] => match p with Some _ => [replacement] | None => [] end
  | a :: s' =>
      match p with
      | None => let (out, p') := lead a in out ++ decode_from p' s'
      | Some p =>
          if between (pd_low p) (pd_high p) a
          then let value := 64 * pd_value p + (a - 128) in
               match pd_more p with
               | O => value :: decode_from None s'
               | S more => decode_from (Some {| pd_more := more; pd_low := 128; pd_high := 191; pd_value := value |}) s'
               end
          else let (out, p') := lead a in replacement :: out ++ decode_from p' s'
      end
  end.

(** [b.decode("utf-8", "replace")] *)
Definition utf8_decode (s : bytes) : text := decode_from None s.

(** ** Decoding inverts encoding *)

(** A code point that is no surrogate. *)
Definition scalar (c : Z) : Prop := 0 <= c < 1114112 /\ between 55296 57343 c = false.

#[export] Instance scalar_dec c : Decision (scalar c).
Proof. unfold scalar. apply _. Defined.

Lemma decode_pending more low high value a s : low <= a <= high ->
  decode_from (Some {| pd_more := more; pd_low := low; pd_high := high; pd_value := value |}) (a :: s)
  = match more with
    | O => (64 * value + (a - 128)) :: decode_from None s
    | S m => decode_from (Some {| pd_more := m; pd_low := 128; pd_high := 191; pd_value := 64 * value + (a - 128) |}) s
    end.
Proof. intros Ha. cbn [decode_from pd_low pd_high]. unfold between. by rewrite (proj2 (Z.leb_le _ _) (proj1 Ha)), (proj2 (Z.leb_le _ _) (proj2 Ha)). Qed.

Ltac utf8_tests := unfold between in *; repeat (match goal with
  | |- context [?a <? ?b] => destruct (Z.ltb_spec a b)
  | |- context [?a <=? ?b] => destruct (Z.leb_spec a b)
  | |- context [?a =? ?b] => destruct (Z.eqb_spec a b)
  end; cbn [andb]); try lia; try done.

Lemma lead_two a : 194 <= a <= 223 -> lead a = expect 0 128 191 (a - 192).
Proof. intros Ha. unfold lead. utf8_tests. Qed.

Lemma lead_three a : 224 <= a <= 239 ->
  lead a = expect 1 (if a =? 224 then 160 else 128) (if a =? 237 then 159 else 191) (a - 224).
Proof. intros Ha. unfold lead. utf8_tests; by subst. Qed.

Lemma lead_four a : 240 <= a <= 244 ->
  lead a = expect 2 (if a =? 240 then 144 else 128) (if a =? 244 then 143 else 191) (a - 240).
Proof. intros Ha. unfold lead. utf8_tests; by subst. Qed.

Lemma decode_encode_cp c s : scalar c -> decode_from None (encode_cp c ++ s) = c :: decode_from None s.
Proof.
  intros [Hc Hs]. unfold encode_cp. rewrite Hs.
  destruct (Z.ltb_spec c 128); [cbn [app decode_from]; unfold lead; by rewrite (proj2 (Z.ltb_lt c 128))|].
  pose proof (Z.div_mod c 64 ltac:(lia)) as H1. pose proof (Z.mod_pos_bound c 64 ltac:(lia)) as H2.
  pose proof (Z.div_mod (c / 64) 64 ltac:(lia)) as H3. pose proof (Z.mod_pos_bound (c / 64) 64 ltac:(lia)) as H4.
  pose proof (Z.div_mod (c / 64 / 64) 64 ltac:(lia)) as H5. pose proof (Z.mod_pos_bound (c / 64 / 64) 64 ltac:(lia)) as H6.
  assert (c / 4096 = c / 64 / 64) as E1 by (by rewrite Z.div_div). assert (c / 262144 = c / 64 / 64 / 64) as E2 by (by rewrite !Z.div_div).
  unfold between in Hs. destruct (Z.ltb_spec c 2048); [|destruct (Z.ltb_spec c 65536)].
  - cbn [app]. change (decode_from None (?a :: ?t)) with (let (out, p') := lead a in out ++ decode_from p' t).
    rewrite lead_two by lia. cbn [expect app]. rewrite decode_pending by lia. f_equal. lia.
  - rewrite E1. cbn [app]. change (decode_from None (?a :: ?t)) with (let (out, p') := lead a in out ++ decode_from p' t).
    rewrite lead_three by lia. cbn [expect app].
    rewrite decode_pending by (apply andb_false_iff in Hs as [Hs%Z.leb_gt|Hs%Z.leb_gt];
      destruct (Z.eqb_spec (224 + c / 64 / 64) 224), (Z.eqb_spec (224 + c / 64 / 64) 237); lia).
    rewrite decode_pending by lia. f_equal. lia.
  - rewrite E1, E2. cbn [app]. change (decode_from None (?a :: ?t)) with (let (out, p') := lead a in out ++ decode_from p' t).
    rewrite lead_four by lia. cbn [expect app].
    rewrite decode_pending by (destruct (Z.eqb_spec (240 + c / 64 / 64 / 64) 240), (Z.eqb_spec (240 + c / 64 / 64 / 64) 244); lia).
    rewrite decode_pending by lia. rewrite decode_pending by lia. f_equal. lia.
Qed.

Lemma decode_encode s : Forall scalar s -> utf8_decode (utf8_encode s) = s.
Proof.
  unfold utf8_decode, utf8_encode. induction 1 as [|c s Hc _ IH]; [done|]. cbn [flat_map]. by rewrite decode_encode_cp, IH.
Qed.

(** Decoding gives at most one character for a byte. *)
Definition owed (p : option pending) : Z := match p with Some _ => 1 | None => 0 end.

Lemma lead_length a out p : lead a = (out, p) -> zlen out + owed p = 1.
Proof.
  unfold lead, expect. intros Hl. repeat match type of Hl with (if ?b then _ else _) = _ => destruct b end; by injection Hl as <- <-.
Qed.

Lemma decode_from_length p s : zlen (decode_from p s) <= zlen s + owed p.
Proof.
  revert p. induction s as [|a s IH]; intros p; [by destruct p|]. cbn [decode_from].
  assert (forall out p', lead a = (out, p') -> zlen (out ++ decode_from p' s) <= 1 + zlen s) as Hlead.
  { intros out p' Hl%lead_length. rewrite zlen_app. specialize (IH p'). lia. }
  rewrite zlen_cons. destruct p as [p|]; cbn [owed].
  - destruct (between _ _ a).
    + destruct (pd_more p) as [|more]; [rewrite zlen_cons; specialize (IH None); cbn in IH; lia|]. etransitivity; [apply IH|]. cbn. lia.
    + destruct (lead a) as [out p'] eqn:Hl. rewrite zlen_cons. specialize (Hlead out p' eq_refl). lia.
  - destruct (lead a) as [out p'] eqn:Hl. specialize (Hlead out p' eq_refl). lia.
Qed.

Lemma utf8_decode_length s : zlen (utf8_decode s) <= zlen s.
Proof. unfold utf8_decode. pose proof (decode_from_length None s) as Hl. cbn [owed] in Hl. lia. Qed.

Lemma encode_nonempty c : encode_cp c <> [].
Proof. unfold encode_cp. by repeat case_match. Qed.

(** What it makes of broken input: overlong forms, surrogates, cut sequences. *)
Example decode_broken :
  utf8_decode [192; 175; 65; 226; 130; 65; 237; 160; 128; 240; 159; 146; 169; 244; 144; 128; 194]
  = [65533; 65533; 65; 65533; 65; 65533; 65533; 65533; 128169; 65533; 65533; 65533; 65533].
Proof. by vm_compute. Qed.
