(* ===== verification/ShellConfig.v ===== *)
(** The policy of the shell guard: [clickfix/shell_config.py].

    A property list is a value, or what reading it raised. *)

From S2P Require Import Prelude PyStr PyFloat PyDict PyJson PyRepr.
From Stdlib Require Import Ascii.

Record ShellGuardConfig := {
  gc_mode : string;
  gc_warn_threshold : Z;
  gc_block_threshold : Z;
  gc_scanner_timeout_ms : Z;
  gc_maximum_command_bytes : Z;
  gc_maximum_decode_bytes : Z;
  gc_maximum_decode_depth : Z;
  gc_notifications_enabled : bool;
  gc_local_json_log_enabled : bool;
  gc_unified_log_enabled : bool;
  gc_generic_proxy_enabled : bool;
  gc_exact_hash_allowlist : list string;
  gc_disabled_rule_ids : list string;
  gc_configuration_version : string;
  gc_source : string
}.

Definition default_guard : ShellGuardConfig := {|
  gc_mode := "audit"; gc_warn_threshold := 4; gc_block_threshold := 7; gc_scanner_timeout_ms := 100;
  gc_maximum_command_bytes := 131072; gc_maximum_decode_bytes := 131072; gc_maximum_decode_depth := 2;
  gc_notifications_enabled := true; gc_local_json_log_enabled := true; gc_unified_log_enabled := true;
  gc_generic_proxy_enabled := false; gc_exact_hash_allowlist := []; gc_disabled_rule_ids := [];
  gc_configuration_version := "1"; gc_source := "defaults" |}.

(** [set(ShellGuardConfig.__dataclass_fields__) - {"source"}] *)
Definition GUARD_FIELDS : list string :=
  ["mode"; "warn_threshold"; "block_threshold"; "scanner_timeout_ms"; "maximum_command_bytes"; "maximum_decode_bytes";
   "maximum_decode_depth"; "notifications_enabled"; "local_json_log_enabled"; "unified_log_enabled";
   "generic_proxy_enabled"; "exact_hash_allowlist"; "disabled_rule_ids"; "configuration_version"].

Definition GUARD_SWITCHES : list string :=
  ["notifications_enabled"; "local_json_log_enabled"; "unified_log_enabled"; "generic_proxy_enabled"].

Definition is_str (v : pyval) : bool := match v with VStr _ => true | _ => false end.
Definition is_bool (v : pyval) : bool := match v with VBool _ => true | _ => false end.
Definition str_of (v : pyval) : string := match v with VStr s => s | _ => "" end.

Fixpoint str_items (s : string) : list pyval :=
  match s with EmptyString => [] | String c s' => VStr (String c "") :: str_items s' end.

(** [tuple(value)] *)
Definition tuple_of (v : pyval) : res (list pyval) :=
  match v with
  | VList l | VTuple l => Ok l
  | VStr s => Ok (str_items s)
  | VBytes s => Ok ((fun v => match v with VStr (String c _) => VInt (code c) | _ => v end) <$> str_items s)
  | VDict d => Ok ((fun kv => VStr kv.1) <$> d)
  | _ => Raise (TypeError "object is not iterable")
  end.

Definition hex_text (s : string) : bool := all_chars (fun c => is_digit c || in_range 97 102 c) (lower s).

Section Validated.
Context `{PlatformEnv} (data : pydict).

(** [integer(name, default, low, high)] *)
Definition guard_integer (name : string) (dflt low high : Z) : res Z :=
  match dget_default (VInt dflt) name data with
  | VInt n => if (low <=? n) && (n <=? high) then Ok n else Raise (ValueError ("invalid " +:+ name))
  | _ => Raise (ValueError ("invalid " +:+ name))
  end.

Definition guard_switch (name : string) (dflt : bool) : bool :=
  match dget_default (VBool dflt) name data with VBool b => b | _ => dflt end.

(** [mode not in {...}], which hashes the mode *)
Definition guard_mode : res string :=
  match dget_default (VStr "audit") "mode" data with
  | VStr s => if one_of s ["audit"; "warn"; "block"] then Ok s else Raise (ValueError "invalid mode")
  | VList _ | VDict _ => Raise (TypeError "unhashable type")
  | _ => Raise (ValueError "invalid mode")
  end.

Definition bad_hash (v : pyval) : bool :=
  match v with VStr s => negb (slen s =? 64) || negb (hex_text s) | _ => true end.
Definition bad_rule_id (v : pyval) : bool := match v with VStr s => 80 <? slen s | _ => true end.

Definition validated_guard (source : string) : res ShellGuardConfig :=
  raise_if (existsb (fun k => negb (one_of k GUARD_FIELDS)) (keys data))
    (ValueError "configuration contains unsupported fields");;
  mode ← guard_mode;
  allow ← tuple_of (dget_default (VTuple []) "exact_hash_allowlist" data);
  raise_if (existsb bad_hash allow) (ValueError "invalid exact_hash_allowlist");;
  disabled ← tuple_of (dget_default (VTuple []) "disabled_rule_ids" data);
  raise_if (existsb bad_rule_id disabled) (ValueError "invalid disabled_rule_ids");;
  match find_first (fun name => dmem name data && negb (is_bool (vget name data))) GUARD_SWITCHES with
  | Some name => Raise (ValueError ("invalid " +:+ name))
  | None => Ok tt
  end;;
  warn ← guard_integer "warn_threshold" 4 1 50;
  block ← guard_integer "block_threshold" 7 2 100;
  raise_if (block <=? warn) (ValueError "warn_threshold must be lower than block_threshold");;
  timeout ← guard_integer "scanner_timeout_ms" 100 10 2000;
  command_bytes ← guard_integer "maximum_command_bytes" 131072 1024 1048576;
  decode_bytes ← guard_integer "maximum_decode_bytes" 131072 1024 1048576;
  decode_depth ← guard_integer "maximum_decode_depth" 2 0 4;
  Ok {| gc_mode := mode; gc_warn_threshold := warn; gc_block_threshold := block; gc_scanner_timeout_ms := timeout;
        gc_maximum_command_bytes := command_bytes; gc_maximum_decode_bytes := decode_bytes;
        gc_maximum_decode_depth := decode_depth;
        gc_notifications_enabled := guard_switch "notifications_enabled" true;
        gc_local_json_log_enabled := guard_switch "local_json_log_enabled" true;
        gc_unified_log_enabled := guard_switch "unified_log_enabled" true;
        gc_generic_proxy_enabled := guard_switch "generic_proxy_enabled" false;
        gc_exact_hash_allowlist := if String.eqb source "managed_system" then (fun v => lower (str_of v)) <$> allow else [];
        gc_disabled_rule_ids := str_of <$> disabled;
        gc_configuration_version := sprefix 64 (py_str (dget_default (VStr "1") "configuration_version" data));
        gc_source := source |}.
End Validated.

(** A path that is no file, or what [plistlib.loads(path.read_bytes())] gives. *)
Definition plist_file : Type := option (res pyval).

Definition guard_error_name (e : exn) : option string :=
  match e with
  | OSError _ => Some "OSError" | ValueError _ => Some "ValueError" | TypeError _ => Some "TypeError"
  | _ => None
  end.

Definition load_guard `{PlatformEnv} (payload : res pyval) (source : string) : res ShellGuardConfig :=
  match (match payload with
         | Ok (VDict d) => validated_guard d source
         | Ok _ => Raise (ValueError "configuration root must be a dictionary")
         | Raise e => Raise e
         end) with
  | Ok c => Ok c
  | Raise e =>
      match guard_error_name e with
      | Some name => Raise (ValueError ("invalid " +:+ source +:+ " configuration: " +:+ name))
      | None => Raise e
      end
  end.

(** [load_config]: the first of the two files that exists decides. *)
Definition load_config `{PlatformEnv} (system user : plist_file) : res ShellGuardConfig :=
  match system, user with
  | Some payload, _ => load_guard payload "managed_system"
  | None, Some payload => load_guard payload "user"
  | None, None => Ok default_guard
  end.

(** ** What a loaded policy keeps to *)

Record guard_ok (c : ShellGuardConfig) : Prop := {
  go_mode : gc_mode c ∈ ["audit"; "warn"; "block"];
  go_thresholds : 1 <= gc_warn_threshold c < gc_block_threshold c;
  go_block : gc_block_threshold c <= 100;
  go_timeout : 10 <= gc_scanner_timeout_ms c <= 2000;
  go_command : 1024 <= gc_maximum_command_bytes c <= 1048576;
  go_decode : 1024 <= gc_maximum_decode_bytes c <= 1048576;
  go_depth : 0 <= gc_maximum_decode_depth c <= 4;
  go_allow : gc_exact_hash_allowlist c <> [] -> gc_source c = "managed_system";
  go_hashes : Forall (fun h => slen h = 64) (gc_exact_hash_allowlist c)
}.

Lemma guard_integer_ok `{PlatformEnv} data name dflt low high n :
  guard_integer data name dflt low high = Ok n -> low <= n <= high.
Proof.
  unfold guard_integer. destruct (dget_default _ _ _); try done. destruct (_ && _) eqn:Hb; [|done].
  intros [= <-]. apply andb_true_iff in Hb as [?%Z.leb_le ?%Z.leb_le]. lia.
Qed.

Lemma guard_mode_ok data m : guard_mode data = Ok m -> m ∈ ["audit"; "warn"; "block"].
Proof.
  unfold guard_mode. destruct (dget_default _ _ _); try done. destruct (one_of _ _) eqn:Ho; [|done].
  intros [= <-]. by apply one_of_spec.
Qed.

Lemma slen_lower s : slen (lower s) = slen s.
Proof. unfold slen, lower. by rewrite length_map_chars. Qed.

Lemma good_hashes allow : existsb bad_hash allow = false ->
  Forall (fun h => slen h = 64) ((fun v => lower (str_of v)) <$> allow).
Proof.
  intros Hb. apply Forall_fmap. induction allow as [|v allow IH]; [done|]. cbn in Hb.
  apply orb_false_iff in Hb as [Hv Hb]. constructor; [|by apply IH]. destruct v; try done. cbn in *.
  rewrite slen_lower. apply orb_false_iff in Hv as [Hv%negb_false_iff _]. lia.
Qed.

Lemma validated_guard_ok `{PlatformEnv} data source c : validated_guard data source = Ok c ->
  guard_ok c /\ gc_source c = source.
Proof.
  unfold validated_guard. intros (_ & Hm)%res_bind_unit_ok. apply res_bind_ok in Hm as (mode & Hmode%guard_mode_ok & Hm).
  apply res_bind_ok in Hm as (allow & _ & (Hallow%raise_if_ok & Hm)%res_bind_unit_ok).
  apply res_bind_ok in Hm as (disabled & _ & (_ & (_ & Hm)%res_bind_unit_ok)%res_bind_unit_ok).
  apply res_bind_ok in Hm as (warn & Hw%guard_integer_ok & Hm). apply res_bind_ok in Hm as (block & Hb%guard_integer_ok & Hm).
  apply res_bind_unit_ok in Hm as (Ht%raise_if_ok%Z.leb_gt & Hm).
  apply res_bind_ok in Hm as (timeout & H1%guard_integer_ok & Hm). apply res_bind_ok in Hm as (cb & H2%guard_integer_ok & Hm).
  apply res_bind_ok in Hm as (db & H3%guard_integer_ok & Hm). apply res_bind_ok in Hm as (dd & H4%guard_integer_ok & [= <-]).
  split; [|done]. constructor; cbn; try lia; try done.
  - destruct (String.eqb_spec source "managed_system"); [done|by intros []].
  - destruct (String.eqb_spec source "managed_system"); [by apply good_hashes|constructor].
Qed.

Lemma load_guard_ok `{PlatformEnv} payload source c : load_guard payload source = Ok c -> guard_ok c /\ gc_source c = source.
Proof.
  unfold load_guard. destruct payload as [[]|e]; cbn; try done; [|by destruct (guard_error_name e)].
  destruct (validated_guard _ _) as [c'|e] eqn:Hv; [|by destruct (guard_error_name e)]. intros [= <-].
  by apply (validated_guard_ok _ _ _ Hv).
Qed.

(** A policy that loads is within its bounds, whatever the files hold; exact-hash
    exceptions come from the managed file alone, and where that file exists the user's
    is not looked at. *)
Theorem loaded_policy_bounded `{PlatformEnv} (system user : plist_file) (c : ShellGuardConfig) :
  load_config system user = Ok c ->
  guard_ok c /\ (system = None -> gc_exact_hash_allowlist c = [])
  /\ (is_Some system -> forall user', load_config system user' = Ok c).
Proof.
  unfold load_config. destruct system as [payload|]; [|destruct user as [payload|]].
  - intros Hl. split; [by apply load_guard_ok in Hl as [? _]|]. split; [done|]. by intros _ user'.
  - intros Hl. apply load_guard_ok in Hl as [Hok Hs]. split; [done|]. split; [|by intros []]. intros _.
    destruct (gc_exact_hash_allowlist c) as [|h l] eqn:Ha; [done|]. pose proof (go_allow c Hok) as Hm.
    rewrite Ha, Hs in Hm. by specialize (Hm ltac:(done)).
  - intros [= <-]. split; [|split; [done|by intros []]]. constructor; cbn; first [lia|done|by apply list_elem_of_here|constructor].
Qed.
