(* ===== verification/ShellScanner.v ===== *)
(** The command scanner of the shell guard: [clickfix/shell_scanner.py].

    Commands are code points. Taken from outside: the Unicode tables, [str.lower],
    SHA-256, and the decompressor of [zlib]. *)

From S2P Require Import Prelude PyStr PyFloat PyDict PyJson PyRepr ShellTokenizer TextRegex Utf8 ShellConfig License.
From Stdlib Require Import Ascii.

(** What [decompressobj.decompress(data, limit)] and the [flush] after it give. *)
Record Inflated := {
  in_output : bytes;
  in_unconsumed : bool;
  in_eof : bool;
  in_flushed : bytes
}.

Class ScanEnv := {
  #[global] scan_unicode :: UnicodeEnv;
  text_lower : text -> text;                    (** [str.lower] *)
  sha256_hex : bytes -> string;                 (** [hashlib.sha256(b).hexdigest()] *)
  inflate : bytes -> Z -> option Inflated       (** [None]: [zlib.error] *)
}.

Definition SCANNER_VERSION : string := "1.0.0".
Definition INTERPRETERS : list string :=
  ["sh"; "bash"; "zsh"; "dash"; "ksh"; "fish"; "osascript"; "python"; "python3"; "perl"; "ruby"; "node"; "source"; "."].
Definition DOWNLOADERS : list string := ["curl"; "wget"].
Definition DECODERS : list string := ["base64"; "openssl"; "xxd"; "gzip"; "gunzip"].

(** [name in SET] *)
Definition named (name : text) (l : list string) : bool := existsb (fun s => bool_decide (name = text_of s)) l.

Record ScanDecision := {
  sd_decision : string;
  sd_score : Z;
  sd_confidence : string;
  sd_rule_ids : list string;
  sd_explanation_codes : list string;
  sd_command_sha256 : string;
  sd_command_length : Z;
  sd_normalized_length : Z;
  sd_decoder_depth : Z;
  sd_scanner_version : string;
  sd_configuration_version : string;
  sd_processing_time_ms : float;
  sd_error : option string
}.

(** A request: what the scanner reads of it, a command that is no string being
    [None], and the other items, which only the event log looks at. *)
Record ScanRequest := {
  rq_command : option text;
  rq_phase : string;
  rq_paste_origin : pyval;
  rq_multiline : bool;
  rq_trailing_newline : bool;
  rq_context : pydict
}.

(** Nanoseconds since the start: when the deadline is checked, and at the end. *)
Record ScanClock := { sc_checked : Z; sc_finished : Z }.

(** The part of a word after its last slash. *)
Fixpoint base_part (w : text) : text :=
  match w with
  | [] => []
  | c :: w' => if member 47 w' then base_part w' else if c =? 47 then w' else w
  end.

Definition ms_of (ns : Z) : float := int_div ns 1000000.

(** [bytes.fromhex] of hexadecimal digits *)
Fixpoint fromhex (s : text) : option bytes :=
  match s with
  | [] => Some []
  | a :: b :: s' => x ← hex_digit a; y ← hex_digit b; rest ← fromhex s'; Some (16 * x + y :: rest)
  | [_] => None
  end.

(** A string of bytes as bytes. *)
Definition bytes_of (s : string) : bytes := text_of s.

Definition size_limit {A} : res A := Raise (ValueError "decoder_size_limit").

Fixpoint pairs {A} (l : list A) : list (A * A) :=
  match l with
  | a :: ((b :: _) as l') => (a, b) :: pairs l'
  | _ => []
  end.

Definition when {A} (b : bool) (l : list A) : list A := if b then l else [].

Section Scanner.
Context `{ScanEnv}.

(** [_base] *)
Definition base (w : text) : text := text_lower (base_part w).

(** ** Decoding literals *)

(** [_bounded_gzip] *)
Definition bounded_gzip (data : bytes) (limit : Z) : res bytes :=
  match inflate data (limit + 1) with
  | None => Raise (ZlibError "Error while decompressing data")
  | Some z =>
      if (limit <? zlen (in_output z)) || in_unconsumed z || negb (in_eof z) then size_limit
      else let output := in_output z ++ in_flushed z in
           if limit <? zlen output then size_limit else Ok output
  end.

Definition decoder_pattern : re := pattern_i "\b(base64|openssl\s+(?:base64|enc)|xxd\s+-r)\b".
Definition gzip_pattern : re := pattern_i "\b(?:gzip|gunzip)\b[^|;&\n]*(?:-d|--decompress)|\bgunzip\b".
Definition base64_literal : re := pattern "(?<![A-Za-z0-9+/])([A-Za-z0-9+/]{24,}={0,2})(?![A-Za-z0-9+/])".
Definition hex_literal : re := pattern "(?:^|[\s'\x22])([0-9a-fA-F]{32,})(?:$|[\s'\x22])".

(** One base 64 literal: its text, when it decodes. *)
Definition decode_base64 (limit : Z) (gzip_present : bool) (literal : text) : res (option text) :=
  if limit <? zlen literal then size_limit
  else match b64decode (string_of literal) with
       | None => Ok None
       | Some raw =>
           let raw := bytes_of raw in
           if limit <? zlen raw then size_limit
           else
             raw ← (if gzip_present && starts [31; 139] raw then bounded_gzip raw limit else Ok raw);
             Ok (Some (utf8_decode raw))
       end.

Definition decode_hex (limit : Z) (literal : text) : res (option text) :=
  if limit <? zlen literal / 2 then size_limit
  else Ok (utf8_decode <$> fromhex literal).

(** The values of the matches of a pattern in a text. *)
Definition decode_matches (r : re) (decode : text -> res (option text)) (s : text) : res (list text) :=
  values ← res_map (fun m => decode (group_text s m.2 1)) (finditer r s);
  Ok (omap (M:=list) (fun v : option text => v) values).

(** What the literals of a text that names a decoder decode to. *)
Definition decode_text (limit : Z) (s : text) : res (list text) :=
  if search decoder_pattern s
  then
    let gzip_present := search gzip_pattern s in
    a ← decode_matches base64_literal (decode_base64 limit gzip_present) s;
    b ← decode_matches hex_literal (decode_hex limit) s;
    Ok (a ++ b)
  else Ok [].

(** The layers from [depth] on, [n] of them at most. *)
Fixpoint decode_layers (limit : Z) (n : nat) (depth : Z) (frontier decoded : list text) : res (list text * Z) :=
  match n with
  | O => Ok (decoded, depth)
  | S n' =>
      next ← res_map (decode_text limit) frontier;
      match concat next with
      | [] => Ok (decoded, depth)
      | found => decode_layers limit n' (depth + 1) found (decoded ++ found)
      end
  end.

(** [_literal_decode] *)
Definition literal_decode (command : text) (config : ShellGuardConfig) : res (list text * Z) :=
  decode_layers (gc_maximum_decode_bytes config) (Z.to_nat (gc_maximum_decode_depth config)) 0 [command] [].

(** ** What a command says *)

(** The texts the rules look at. *)
Record View := {
  vw_command : text;                       (** as submitted *)
  vw_parsed : Tokenization;
  vw_lowered : text;
  vw_resolved : text;                      (** with simple assignments filled in *)
  vw_names : list text;                    (** of the commands of [vw_parsed] *)
  vw_resolved_names : list text            (** of the commands of [vw_resolved] *)
}.

Definition command_names (tokens : list Token) : list text :=
  omap (fun segment => base <$> head segment) (command_segments tokens).

Definition assignment_pattern : re :=
  pattern "(?:^|[;\n]\s*)([A-Za-z_][A-Za-z0-9_]*)\s*=\s*['\x22]?([A-Za-z0-9_.:/+-]+)['\x22]?".
Definition two_variables : re := pattern "\$([A-Za-z_][A-Za-z0-9_]*)\$([A-Za-z_][A-Za-z0-9_]*)".

Definition assignments (lowered : text) : list (text * text) :=
  foldl (fun d m => dset (group_text lowered m.2 1) (group_text lowered m.2 2) d) [] (finditer assignment_pattern lowered).

(** [\$\{key\}|\$key\b] *)
Definition variable_pattern (key : text) : re :=
  let dollar := XSet (Z.eqb 36) in
  XAlt (XCat dollar (XCat (XSet (Z.eqb 123)) (XCat (literal key) (XSet (Z.eqb 125)))))
       (XCat dollar (XCat (literal key) XBoundary)).

Definition resolve (lowered : text) : text :=
  let assigned := assignments lowered in
  let resolved := foldl (fun s kv => sub (variable_pattern kv.1) (fun _ _ => kv.2) s) lowered (take 32 assigned) in
  sub two_variables (fun start st =>
      default (slice start (m_pos st) resolved) (dget (group_text resolved st 1) assigned)
      ++ default [] (dget (group_text resolved st 2) assigned)) resolved.

(** The command without line continuations and terminal sequences. *)
Definition ansi_pattern : re := pattern "\x1b\[[0-?]*[ -/]*[@-~]".
Definition detection_command (command : text) : text :=
  sub ansi_pattern (fun _ _ => []) (remove_all [92; 10] 0 (remove_all [92; 13; 10] 0 command)).

Definition view (command : text) (parsed : Tokenization) : res View :=
  let lowered := text_lower (tz_normalized parsed) in
  let resolved := resolve lowered in
  resolved_parsed ← tokenize resolved 32;
  Ok {| vw_command := command; vw_parsed := parsed; vw_lowered := lowered; vw_resolved := resolved;
        vw_names := command_names (tz_tokens parsed); vw_resolved_names := command_names (tz_tokens resolved_parsed) |}.

Section Rules.
Context (v : View).

Definition seen (s : string) : bool := search (pattern s) (vw_lowered v).
Definition holds (s : string) : bool := occurs (text_of s) (vw_lowered v).

Definition feeds (sources sinks : list string) : bool :=
  existsb (fun ab => named ab.1 sources && named ab.2 sinks) (pairs (vw_names v) ++ pairs (vw_resolved_names v)).

Definition reconstructed : bool := negb (bool_decide (vw_resolved v = vw_lowered v)).

Definition downloads_to_shell : bool :=
  feeds DOWNLOADERS INTERPRETERS
  || (existsb (fun n => named n DOWNLOADERS) (vw_resolved_names v)
      && existsb (fun n => named n INTERPRETERS) (vw_resolved_names v) && member 124 (vw_resolved v))
  || search (pattern_s "\$\([^)]*\b(?:curl|wget)\b[^)]*\)\s*(?:[;| ]|$).*(?:eval|(?:ba|z|da|k)?sh\s+-c)") (vw_resolved v)
  || search (pattern_s "\b(?:eval|(?:ba|z|da|k)?sh\s+-c)\b[^\n]*\$\([^)]*\b(?:curl|wget)\b") (vw_resolved v).

Definition printf_name : bool :=
  seen "\$\(\s*printf\b[^)]*\bcu\b[^)]*\brl\b[^)]*\)" && seen "\|\s*(?:/bin/)?zsh\b".

Definition network_relationship : bool := downloads_to_shell || printf_name.

Definition decoder_to_execution : bool :=
  feeds DECODERS INTERPRETERS
  || (seen "\b(?:base64|openssl\s+(?:base64|enc)|xxd\s+-r|gzip\s+-d|gunzip)\b" && seen "\beval\b").

Definition temporary : bool := seen "(?:/tmp/|/private/tmp/|/var/tmp/|/downloads/|/cache/|/\.[^/\s]+)".
Definition retrieval : bool := seen "\b(?:curl|wget)\b".
Definition makes_executable : bool := seen "\bchmod\b[^;&\n]*(?:\+x|7[0-7]{2})".
Definition execution : bool := seen "(?:^|[;&|\n])\s*(?:\./|/tmp/|/private/tmp/|/var/tmp/|source\s+|\.\s+/)".

Definition downloaded_path : option text :=
  (fun m => group_text (vw_resolved v) m.2 1)
  <$> search_match (pattern "\b(?:curl|wget)\b[^;&\n]*(?:-o|--output)\s+['\x22]?([^\s;'\x22]+)") (vw_resolved v).

Definition downloaded_execute : bool :=
  match downloaded_path with
  | Some path =>
      search (XCat (pattern_s "(?:\bsource\s+|(?:^|[;&|\n])\s*(?:\.|(?:ba|z|da|k)?sh)?\s*)['\x22]?") (literal path)) (vw_resolved v)
  | None => false
  end.

Definition apple_shell : bool := seen "\bosascript\b[^\n]*(?:do shell script|do\s+shell\s+script)".
Definition persistence_path : bool := seen "library/launch(?:agents|daemons)".
Definition persistence_activation : bool := seen "\blaunchctl\s+(?:bootstrap|load|enable)\b".

Definition sensitive : bool :=
  seen "\bsecurity\s+(?:dump-keychain|find-(?:generic|internet)-password\b[^\n]*\s-w\b)|(?:browser|chrome|chromium)[^\n]*(?:login data|cookies)|\.ssh/(?:id_|)|\.aws/credentials|\.kube/config|wallet".

(** The calls of [add], in the order of the code. *)
Definition execution_rules : list (string * Z) :=
  when printf_name [("command_name_reconstruction", 2)]
  ++ when network_relationship [("network_to_interpreter", 8)]
  ++ when (reconstructed && network_relationship) [("reconstructed_executable", 2); ("environment_indirection", 1)]
  ++ when (holds "-c" && negb (holds "$([") && seen "\b(?:sh|bash|zsh)\s+-c\b") [("shell_c_execution", 1)]
  ++ when (network_relationship && seen "\beval\b") [("network_to_eval", 8); ("dynamic_execution", 2)]
  ++ when decoder_to_execution [("decoded_content_to_interpreter", 7)]
  ++ when (existsb (fun ab => named ab.1 ["pbpaste"] && named ab.2 INTERPRETERS) (pairs (vw_names v)))
       [("clipboard_to_interpreter", 7)]
  ++ when (holds "pbpaste" && seen "\b(?:eval|(?:ba|z|da|k)?sh\s+-c)\b")
       [("clipboard_to_interpreter", 7); ("command_substitution", 1)]
  ++ when (retrieval && temporary && ((makes_executable && execution) || downloaded_execute)) [("download_stage_execute", 7)]
  ++ when (downloaded_execute && search (pattern "\b(?:source|\.)\s+") (vw_resolved v)) [("downloaded_content_sourced", 7)]
  ++ when (apple_shell && seen "\b(?:base64|openssl|xxd|gzip|gunzip)\b") [("decoded_content_to_interpreter", 7)]
  ++ when apple_shell [("applescript_shell_execution",
       if retrieval || existsb (fun n => named n DECODERS) (vw_names v) then 8 else 5)]
  ++ when (holds "applescript://") [("applescript_url_scheme", 8)].

Definition system_rules : list (string * Z) :=
  (if seen "\bcsrutil\s+disable\b|\bspctl\s+--master-disable\b" then [("security_control_weakening", 8)]
   else when (seen "\bxattr\b[^\n]*(?:-[a-z]*(?:r[a-z]*d|d[a-z]*r)|-d[^\n]*-r)[^\n]*com\.apple\.quarantine|\bxattr\b[^\n]*-d\s+com\.apple\.quarantine[^\n]*(?:/tmp|/downloads|\./)")
          [("security_control_weakening", 5)])
  ++ when (persistence_path || persistence_activation || seen "\bcrontab\s+-") [("persistence_creation", 4)]
  ++ when persistence_path [("launchagent_write", 4)]
  ++ when persistence_activation [("persistence_activation", 4)]
  ++ when (retrieval && persistence_path) [("downloaded_persistence", 8)]
  ++ when sensitive [("sensitive_data_access", if existsb (fun n => named n DOWNLOADERS) (vw_names v) then 8 else 4)]
  ++ when (seen "\bsecurity\s+find-(?:generic|internet)-password\b[^\n]*(?:\s-w\b|--password\b)")
       [("keychain_secret_output", 4)]
  ++ when (seen "\bsecurity\s+dump-keychain\b") [("keychain_dump", 6)].

Definition obfuscation_rules : list (string * Z) :=
  when (tz_unicode_anomaly (vw_parsed v)) [("execution_obfuscation_unicode", 2)]
  ++ when (tz_control_anomaly (vw_parsed v) || search ansi_pattern (vw_command v)) [("execution_obfuscation_control", 2)]
  ++ when (tz_escaped_name (vw_parsed v)) [("execution_obfuscation_escaped_name", 2)]
  ++ when (seen "\beval\b|\$\([^)]*\$\(|(?:\||^)\s*\b(?:rev|tr|sed|awk)\b|\b(?:rev|tr|sed|awk)\b[^|]*\|")
       [("execution_obfuscation", 2)]
  ++ when (seen "\beval\b") [("dynamic_execution", 2)]
  ++ when (search (pattern_i "(?:HISTFILE\s*=\s*/dev/null|unset\s+HISTFILE|history\s+-c|>/dev/null\s+2>&1|\bnohup\b)") (vw_command v))
       [("history_or_output_evasion", 1)].

(** What the decoded literals add, and the depth reported. *)
Definition decoding_rules (config : ShellGuardConfig) : res (list (string * Z) * Z) :=
  '(decoded, depth) ← literal_decode (tz_normalized (vw_parsed v)) config;
  let some := negb (bool_decide (decoded = [])) in
  let shells := existsb (search (pattern_i "\b(?:sh|bash|zsh|osascript|python3?)\b|MSAA_CLICKFIX_TEST")) decoded in
  let count := zlen (finditer (pattern "\b(?:base64|openssl\s+(?:base64|enc)|xxd\s+-r)\b") (vw_lowered v)) in
  let layered := (2 <=? depth) || (some && (2 <=? count)) in
  Ok (when (some && shells && existsb (fun n => named n DECODERS) (vw_names v)) [("static_decoded_content", 2)]
      ++ when (some && seen "\beval\b") [("static_decoded_content", 2)]
      ++ when layered [("multiple_decode_layers", 3)],
      if layered then Z.max 2 depth else depth).

Definition SYMBOLIC : list (string * list string) := [
  ("<attempt_disable_gatekeeper>", ["gatekeeper_disable_intent"; "destructive_security_change"]);
  ("<attempt_disable_sip>", ["sip_disable_intent"; "destructive_security_change"]);
  ("<attempt_modify_tcc_database>", ["tcc_tampering_intent"]);
  ("<attempt_delete_root_filesystem>", ["destructive_filesystem_intent"]);
  ("<attempt_delete_user_home>", ["destructive_filesystem_intent"]);
  ("<attempt_erase_system_volume>", ["destructive_disk_intent"]);
  ("<attempt_overwrite_disk_device>", ["raw_disk_write_intent"]);
  ("<attempt_recursive_permission_destruction>", ["destructive_permission_change"]);
  ("<attempt_disable_security_controls_and_delete_data>", ["compound_destructive_intent"]);
  ("<attempt_fork_or_resource_exhaustion>", ["denial_of_service_intent"]);
  ("<attempt_mass_process_termination>", ["destructive_process_control"]);
  ("<attempt_read_browser_login_database>", ["browser_credential_access"]);
  ("<attempt_read_browser_cookies>", ["browser_cookie_access"]);
  ("<attempt_archive_ssh_keys>", ["ssh_key_collection"]);
  ("<attempt_collect_cloud_credentials>", ["cloud_credential_collection"]);
  ("<attempt_collect_wallet_data>", ["wallet_data_collection"]);
  ("<attempt_archive_and_exfiltrate_user_data>", ["archive_creation"; "exfiltration_intent"])].

(** [lowered.strip()] *)
Definition strip_text (s : text) : text :=
  reverse (drop_while is_space_cp (reverse (drop_while is_space_cp s))).

Definition symbolic_rules (phase : string) : list (string * Z) :=
  when (String.eqb phase "test")
    match find_first (fun kv => bool_decide (strip_text (vw_lowered v) = text_of kv.1)) SYMBOLIC with
    | Some kv => (fun rule => (rule, 10)) <$> kv.2
    | None => []
    end.
End Rules.

(** ** The decision *)

(** [add], unless the rule is disabled. *)
Definition add_rule (disabled : list string) (rules : list (string * Z)) (rule : string * Z) : list (string * Z) :=
  if one_of rule.1 disabled then rules
  else dset rule.1 (Z.max (dget_default 0 rule.1 rules) rule.2) rules.

Definition collect (disabled : list string) (adds : list (string * Z)) : list (string * Z) :=
  foldl (add_rule disabled) [] adds.

Definition total (rules : list (string * Z)) : Z := foldr (fun r n => r.2 + n) 0 rules.

(** [request.get("paste_origin") not in {None, "none", "typed", False}] *)
Definition is_paste (origin : pyval) : res bool :=
  match origin with
  | VNone => Ok false
  | VStr s => Ok (negb (one_of s ["none"; "typed"]))
  | VBool b => Ok b
  | VInt n => Ok (negb (n =? 0))
  | VFloat f => Ok (negb (feqb f fzero))
  | VList _ | VDict _ => Raise (TypeError "unhashable type")
  | _ => Ok true
  end.

Definition bonus (b : bool) (n : Z) : Z := if b then n else 0.

Definition score_of (request : ScanRequest) (paste : bool) (v : View) (rules : list (string * Z)) : Z :=
  let any := negb (zlen rules =? 0) in
  let n := zlen (vw_command v) in
  total rules + bonus (any && paste) 2 + bonus (any && rq_multiline request) 1
  + bonus (any && paste && rq_trailing_newline request) 2
  + (if any && (1024 <? n) then 2 else bonus (any && (256 <? n)) 1)
  + bonus (any && temporary v) 1 + bonus (any && seen v "(?:^|[;&|\n])\s*sudo\b") 1.

Definition HARD : list string := ["network_to_interpreter"; "decoded_content_to_interpreter"; "clipboard_to_interpreter"].

Definition hard_block (paste : bool) (v : View) (rules : list (string * Z)) : bool :=
  paste && (existsb (fun r => dmem r rules) HARD || dmem "download_stage_execute" rules
            || (8 <=? dget_default 0 "security_control_weakening" rules) || (apple_shell v && retrieval v)).

Definition decide_scan (config : ShellGuardConfig) (request : ScanRequest) (paste : bool) (v : View)
    (rules : list (string * Z)) : string :=
  let score := score_of request paste v rules in
  if hard_block paste v rules then "block"
  else if gc_block_threshold config <=? score then "block"
  else if gc_warn_threshold config <=? score then "warn"
  else "allow".

(** [_finish] *)
Definition finish_scan (decision : string) (score : Z) (confidence : string) (rules : list string) (digest : string)
    (length normalized depth : Z) (config : ShellGuardConfig) (t : ScanClock) (error : option string) : ScanDecision := {|
  sd_decision := decision; sd_score := score; sd_confidence := confidence; sd_rule_ids := rules;
  sd_explanation_codes := rules; sd_command_sha256 := digest; sd_command_length := length;
  sd_normalized_length := normalized; sd_decoder_depth := depth; sd_scanner_version := SCANNER_VERSION;
  sd_configuration_version := gc_configuration_version config;
  sd_processing_time_ms := fround_digits 3 (ms_of (sc_finished t)); sd_error := error |}.

(** [_error] *)
Definition scan_error (code : string) (command : text) (config : ShellGuardConfig) (t : ScanClock) : ScanDecision :=
  finish_scan "error" 0 "low" [] (sha256_hex (utf8_encode command)) (zlen command) (zlen command) 0 config t (Some code).

Definition confidence_of (rules : list (string * Z)) : string :=
  if existsb (fun r => 7 <=? r.2) rules then "high" else if zlen rules =? 0 then "high" else "medium".

(** The scan of a tokenized command. *)
Definition scan_parsed (request : ScanRequest) (command : text) (parsed : Tokenization) (config : ShellGuardConfig)
    (t : ScanClock) : res ScanDecision :=
  let digest := sha256_hex (utf8_encode command) in
  v ← view command parsed;
  match decoding_rules v config with
  | Raise (ValueError code) => Ok (scan_error code command config t)
  | Raise e => Raise e
  | Ok (decoding, depth) =>
      let rules := collect (gc_disabled_rule_ids config)
        (execution_rules v ++ system_rules v ++ obfuscation_rules v ++ decoding ++ symbolic_rules v (rq_phase request)) in
      paste ← is_paste (rq_paste_origin request);
      if fltb (float_of_Z (gc_scanner_timeout_ms config)) (ms_of (sc_checked t))
      then Ok (scan_error "scanner_timeout" command config t)
      else Ok (finish_scan (decide_scan config request paste v rules) (score_of request paste v rules) (confidence_of rules)
                 (sort_by str_le (keys rules)) digest (zlen command) (zlen (tz_normalized parsed)) depth config t None)
  end.

Definition scan_request (request : ScanRequest) (config : ShellGuardConfig) (t : ScanClock) : res ScanDecision :=
  match rq_command request with
  | None => Ok (scan_error "invalid_command" [] config t)
  | Some command =>
      let raw := utf8_encode command in
      if gc_maximum_command_bytes config <? zlen raw then Ok (scan_error "command_size_limit" command config t)
      else
        match tokenize (detection_command command) 32 with
        | Raise (ValueError code) => Ok (scan_error code command config t)
        | Raise e => Raise e
        | Ok parsed =>
            let digest := sha256_hex raw in
            if one_of digest (gc_exact_hash_allowlist config)
            then Ok (finish_scan "allow" 0 "high" ["exact_hash_allowlist_match"] digest (zlen command)
                       (zlen (tz_normalized parsed)) 0 config t None)
            else scan_parsed request command parsed config t
        end
  end.
End Scanner.
