(* ===== verification/SafeShell.v ===== *)
(** The shell proxy: [clickfix/safe_shell.py], with [shell_events.py].

    The proxy stands between the terminal and the user's shell. Its state is the local
    variables of [main]; what it writes, and to whom, is kept in order. The clock, the
    policy files, the foreground process group, challenges and failures of the event
    log are the environment, asked at a counter of interactions. *)

From S2P Require Import Prelude PyStr PyFloat PyDict PyJson PyTime PyRepr ShellTokenizer TextRegex Utf8 ShellConfig ShellScanner.
From Stdlib Require Import Ascii.

(** ** Events: [shell_events.py] *)

(** [decision.to_dict()], the items an event takes *)
Definition decision_items (d : ScanDecision) : pydict := [
  ("decision", VStr (sd_decision d)); ("score", VInt (sd_score d)); ("confidence", VStr (sd_confidence d));
  ("rule_ids", VTuple (VStr <$> sd_rule_ids d)); ("command_sha256", VStr (sd_command_sha256 d));
  ("command_length", VInt (sd_command_length d)); ("normalized_length", VInt (sd_normalized_length d));
  ("decoder_depth", VInt (sd_decoder_depth d)); ("scanner_version", VStr (sd_scanner_version d));
  ("configuration_version", VStr (sd_configuration_version d)); ("processing_time_ms", VFloat (sd_processing_time_ms d))].

(** [str(request.get(key) or "")] of a string item *)
Definition context_text (key : string) (request : ScanRequest) : string :=
  match vget key (rq_context request) with VStr s => s | _ => "" end.

(** The part after the last slash: [Path(tty).name] of a device path *)
Fixpoint path_name (s : string) : string :=
  match s with
  | EmptyString => ""
  | String c s' => if contains "/" s' then path_name s' else if Ascii.eqb c "/" then s' else s
  end.

Definition event_from (request : ScanRequest) (decision : ScanDecision) (event_type config_source coverage event_id timestamp : string)
    : pydict := [
  ("schema", VStr "msaa.clickfix.event.v1"); ("event_id", VStr event_id); ("timestamp", VStr timestamp);
  ("event_type", VStr event_type); ("phase", VStr (rq_phase request));
  ("mode", dget_default (VStr "audit") "mode" (rq_context request)); ("paste_origin", rq_paste_origin request);
  ("multiline", VBool (rq_multiline request)); ("trailing_newline", VBool (rq_trailing_newline request));
  ("shell_path", VStr (sprefix 512 (context_text "shell_path" request)));
  ("shell_version", VStr (sprefix 128 (context_text "shell_version" request)));
  ("terminal_bundle_id", VStr (sprefix 256 (context_text "terminal_bundle_id" request)));
  ("tty", VStr (sprefix 128 (path_name (context_text "tty" request))));
  ("session_id", VStr (sprefix 128 (context_text "session_id" request)));
  ("adapter_version", VStr "1.0.0"); ("configuration_source", VStr config_source); ("coverage_level", VStr coverage);
  ("error_code", VStr (default "" (sd_error decision)))] ++ decision_items decision.

(** ** The proxy *)

Inductive proxy_output :=
| ToShell (b : bytes)
| ToTerminal (b : bytes)
| Notice (msg : string)
| Logged (event : pydict).

Record Proxy := {
  px_collecting : bool;
  px_paste : bytes;
  px_held : option bytes;
  px_held_event : option (ScanRequest * ScanDecision * ShellGuardConfig);
  px_challenge : text;
  px_challenge_input : bytes;
  px_challenge_expires : float;
  px_out : list proxy_output;
  px_ticks : nat
}.

Definition fresh_proxy : Proxy := {|
  px_collecting := false; px_paste := []; px_held := None; px_held_event := None; px_challenge := [];
  px_challenge_input := []; px_challenge_expires := fzero; px_out := []; px_ticks := 0 |}.

Definition set_collecting (b : bool) (paste : bytes) (s : Proxy) : Proxy := {|
  px_collecting := b; px_paste := paste; px_held := px_held s; px_held_event := px_held_event s;
  px_challenge := px_challenge s; px_challenge_input := px_challenge_input s;
  px_challenge_expires := px_challenge_expires s; px_out := px_out s; px_ticks := px_ticks s |}.
Definition set_held (held : option bytes) (event : option (ScanRequest * ScanDecision * ShellGuardConfig))
    (challenge : text) (s : Proxy) : Proxy := {|
  px_collecting := px_collecting s; px_paste := px_paste s; px_held := held; px_held_event := event;
  px_challenge := challenge; px_challenge_input := []; px_challenge_expires := px_challenge_expires s;
  px_out := px_out s; px_ticks := px_ticks s |}.
Definition set_input (input : bytes) (s : Proxy) : Proxy := {|
  px_collecting := px_collecting s; px_paste := px_paste s; px_held := px_held s; px_held_event := px_held_event s;
  px_challenge := px_challenge s; px_challenge_input := input; px_challenge_expires := px_challenge_expires s;
  px_out := px_out s; px_ticks := px_ticks s |}.
Definition set_expires (t : float) (s : Proxy) : Proxy := {|
  px_collecting := px_collecting s; px_paste := px_paste s; px_held := px_held s; px_held_event := px_held_event s;
  px_challenge := px_challenge s; px_challenge_input := px_challenge_input s; px_challenge_expires := t;
  px_out := px_out s; px_ticks := px_ticks s |}.
Definition put_output (o : proxy_output) (s : Proxy) : Proxy := {|
  px_collecting := px_collecting s; px_paste := px_paste s; px_held := px_held s; px_held_event := px_held_event s;
  px_challenge := px_challenge s; px_challenge_input := px_challenge_input s;
  px_challenge_expires := px_challenge_expires s; px_out := px_out s ++ [o]; px_ticks := px_ticks s |}.
Definition tick_proxy (s : Proxy) : Proxy := {|
  px_collecting := px_collecting s; px_paste := px_paste s; px_held := px_held s; px_held_event := px_held_event s;
  px_challenge := px_challenge s; px_challenge_input := px_challenge_input s;
  px_challenge_expires := px_challenge_expires s; px_out := px_out s; px_ticks := S (px_ticks s) |}.

Class ProxyEnv := {
  #[global] proxy_scan :: ScanEnv;
  #[global] proxy_platform :: PlatformEnv;
  monotonic : nat -> float;                  (** [time.monotonic()] *)
  scan_clock : nat -> ScanClock;
  policy_files : nat -> plist_file * plist_file;
  shell_foreground : nat -> bool;            (** [os.tcgetpgrp(fd) == pid] *)
  fresh_challenge : nat -> text;             (** [secrets.token_hex(4).upper()] *)
  log_ok : nat -> bool;                      (** whether [append_event] writes *)
  event_stamp : nat -> string * string;      (** the identifier and time of an event *)
  session_context : pydict                   (** shell path, terminal, tty and session *)
}.

(** The markers of a bracketed paste *)
Definition PASTE_START : bytes := [27; 91; 50; 48; 48; 126].
Definition PASTE_END : bytes := [27; 91; 50; 48; 49; 126].
Definition MAX_PASTE : Z := 131072.

(** [data.partition(marker)]: what comes before and after, when the marker occurs *)
Fixpoint partition (marker s : bytes) : option (bytes * bytes) :=
  if starts marker s then Some ([], drop (length marker) s)
  else match s with
       | [] => None
       | c :: s' => match partition marker s' with Some (b, a) => Some (c :: b, a) | None => None end
       end.

(** [b.rstrip(b"\r\n")] *)
Definition rstrip_newlines (b : bytes) : bytes := reverse (drop_while (fun c => member c [13; 10]) (reverse b)).

(** [b.splitlines()[0]] of an input with a line end *)
Fixpoint first_line (b : bytes) : bytes :=
  match b with [] => [] | c :: b' => if member c [13; 10] then [] else c :: first_line b' end.

(** [.decode("ascii", "ignore")] *)
Definition ascii_only (b : bytes) : text := filter (fun c => c < 128) b.

(** ["\n" in command.rstrip("\n")] *)
Definition multiline (command : text) : bool := member 10 (reverse (drop_while (Z.eqb 10) (reverse command))).
Definition trailing_newline (command : text) : bool := match last command with Some c => member c [10; 13] | None => false end.

Section Main.
Context `{ProxyEnv}.

Definition ask_proxy {A} (f : nat -> A) : M Proxy A := fun s => (Ok (f (px_ticks s)), tick_proxy s).
Definition write (o : proxy_output) : M Proxy unit := modify_st (put_output o).

(** [append_event(event_from(...))], an [OSError] ignored *)
Definition log_event (request : ScanRequest) (result : ScanDecision) (config : ShellGuardConfig) (event_type : string)
    : M Proxy unit :=
  ok ← ask_proxy log_ok;
  stamp ← ask_proxy event_stamp;
  if (ok : bool)
  then write (Logged (event_from request result event_type (gc_source config) "generic_proxy" stamp.1 stamp.2))
  else mret tt.

(** [record_override] *)
Definition record_override (event_type : string) : M Proxy unit :=
  s ← get_st;
  match px_held_event s with
  | None => mret tt
  | Some (request, result, config) =>
      if gc_local_json_log_enabled config then log_event request result config event_type else mret tt
  end.

Definition clear_held : M Proxy unit := modify_st (set_held None None []).

(** An answer to a challenge: whether the read is dealt with. *)
Definition challenge_step (held data : bytes) : M Proxy bool :=
  now ← ask_proxy monotonic;
  s ← get_st;
  if fltb (px_challenge_expires s) now
  then record_override "user_override_expired";; clear_held;;
       write (Notice "MSAA challenge expired; the held paste was discarded.");; mret false
  else if occurs PASTE_START data || occurs PASTE_END data
  then record_override "user_override_expired";; clear_held;;
       write (Notice "MSAA rejected a pasted challenge; the held paste was discarded.");; mret true
  else
    let input := px_challenge_input s ++ data in
    modify_st (set_input input);;
    if 128 <? zlen input
    then modify_st (set_held None (px_held_event s) []);;
         write (Notice "MSAA challenge input exceeded its limit; the held paste was discarded.");; mret true
    else if negb (member 13 input || member 10 input) then mret true
    else
      (if bool_decide (ascii_only (first_line input) = px_challenge s)
       then record_override "user_override_completed";;
            write (ToShell (PASTE_START ++ rstrip_newlines held ++ PASTE_END));;
            write (Notice "MSAA restored the held command without a newline. Review it and press Return to execute.")
       else write (Notice "MSAA challenge did not match; the held paste was discarded."));;
      clear_held;; mret true.

(** The request for a paste. *)
Definition paste_request (paste : bytes) (config : ShellGuardConfig) : ScanRequest :=
  let command := utf8_decode paste in {|
  rq_command := Some command; rq_phase := "paste"; rq_paste_origin := VStr "generic_proxy";
  rq_multiline := multiline command; rq_trailing_newline := trailing_newline command;
  rq_context := session_context ++ [("mode", VStr (gc_mode config));
                                    ("configuration_version", VStr (gc_configuration_version config))] |}.

(** The kind of the event for a verdict. *)
Definition verdict_kind (config : ShellGuardConfig) (result : ScanDecision) : string :=
  if String.eqb (sd_decision result) "error" then "scanner_error"
  else if String.eqb (sd_decision result) "block" && String.eqb (gc_mode config) "block" then "paste_blocked"
  else "paste_warning".

(** Whether a verdict lets a paste through, and whether it holds it. *)
Definition passes (config : ShellGuardConfig) (result : ScanDecision) : bool :=
  String.eqb (gc_mode config) "audit" || String.eqb (sd_decision result) "allow".
Definition holds_paste (config : ShellGuardConfig) (result : ScanDecision) : bool :=
  String.eqb (gc_mode config) "warn" || String.eqb (sd_decision result) "warn".

(** What becomes of a paste with a verdict; the result is what is left of the read. *)
Definition apply_verdict (paste after : bytes) (config : ShellGuardConfig) (result : ScanDecision) : M Proxy bytes :=
  let request := paste_request paste config in
  (if one_of (sd_decision result) ["warn"; "block"; "error"] && gc_local_json_log_enabled config
   then log_event request result config (verdict_kind config result) else mret tt);;
  rest ← (if passes config result
          then write (ToShell (PASTE_START ++ paste ++ PASTE_END));; mret after
          else if holds_paste config result
          then
            challenge ← ask_proxy fresh_challenge;
            now ← ask_proxy monotonic;
            modify_st (set_held (Some paste) (Some (request, result, config)) challenge);;
            modify_st (set_expires (fadd now (float_of_Z 60)));;
            record_override "user_override_started";;
            write (Notice ("MSAA held a suspicious paste. Type " +:+ string_of challenge
                           +:+ " manually within 60 seconds, then press Return. Input is hidden."));;
            mret []
          else
            write (Notice "MSAA blocked a suspicious command before execution. The paste was not forwarded.");; mret []);
  modify_st (set_collecting false []);;
  mret rest.

(** A complete paste. *)
Definition judge_paste (paste after : bytes) : M Proxy bytes :=
  files ← ask_proxy policy_files;
  config ← lift_res (load_config files.1 files.2);
  t ← ask_proxy scan_clock;
  result ← lift_res (scan_request (paste_request paste config) config t);
  apply_verdict paste after config result.

(** [while data]: every turn goes past a marker or ends the read. *)
Fixpoint feed (fuel : nat) (data : bytes) : M Proxy unit :=
  match fuel with
  | O => mret tt
  | S fuel' =>
      if zlen data =? 0 then mret tt
      else
        s ← get_st;
        if negb (px_collecting s)
        then
          match partition PASTE_START data with
          | None => write (ToShell data)
          | Some (before, after) =>
              (if zlen before =? 0 then mret tt else write (ToShell before));;
              modify_st (set_collecting true []);;
              feed fuel' after
          end
        else
          let (body, after) := match partition PASTE_END data with Some (b, a) => (b, Some a) | None => (data, None) end in
          let paste := px_paste s ++ body in
          modify_st (set_collecting true paste);;
          if MAX_PASTE <? zlen paste
          then write (Notice "MSAA blocked an oversized paste before execution.");;
               modify_st (set_collecting false []);;
               feed fuel' (default [] after)
          else match after with
               | None => mret tt
               | Some after => rest ← judge_paste paste after; feed fuel' rest
               end
  end.

(** A read from the terminal. *)
Definition read_terminal (data : bytes) : M Proxy unit :=
  s ← get_st;
  handled ← match px_held s with Some held => challenge_step held data | None => mret false end;
  if (handled : bool) then mret tt
  else
    foreground ← ask_proxy shell_foreground;
    if negb foreground then write (ToShell data) else feed (S (length data)) data.

(** A turn of the main loop: the shell's output, or a read from the terminal. An
    empty read ends the session, and so does an exception. *)
Inductive proxy_input := FromShell (data : bytes) | FromUser (data : bytes).

Definition proxy_turn (i : proxy_input) : M Proxy bool :=
  match i with
  | FromShell [] | FromUser [] => mret false
  | FromShell data => write (ToTerminal data);; mret true
  | FromUser data => read_terminal data;; mret true
  end.

Fixpoint run_proxy (inputs : list proxy_input) : M Proxy unit :=
  match inputs with
  | [] => mret tt
  | i :: inputs' => more ← proxy_turn i; if (more : bool) then run_proxy inputs' else mret tt
  end.
End Main.

(** What reaches the shell. *)
Definition shell_writes (l : list proxy_output) : list bytes :=
  omap (fun o => match o with ToShell b => Some b | _ => None end) l.
Definition shell_stream (s : Proxy) : bytes := concat (shell_writes (px_out s)).
