(* ===== verification/SafeShellFacts.v ===== *)
(** What the shell proxy guarantees: every write to the shell is explained by the reads
    before it; a read is filtered paste by paste; and in audit mode nothing is lost or
    reordered. *)

From S2P Require Import Prelude PyStr PyFloat PyDict PyJson PyTime PyRepr ShellTokenizer TextRegex Utf8 ShellConfig ShellScanner ShellScannerFacts SafeShell.
From Stdlib Require Import Ascii.

(** ** Markers *)

Lemma starts_spec p s : starts p s = true <-> exists k, s = p ++ k.
Proof.
  revert s. induction p as [|a p IH]; intros s; cbn.
  - split; [intros _; by exists s|done].
  - destruct s as [|b s]; [split; [done|by intros [k [=]]]|]. rewrite andb_true_iff, Z.eqb_eq, IH. split.
    + intros [-> [k ->]]. by exists k.
    + intros [k [= -> ->]]. split; [done|by exists k].
Qed.

Lemma occurs_spec p s : occurs p s = true <-> exists a b, s = a ++ p ++ b.
Proof.
  induction s as [|c s IH].
  - cbn [occurs]. rewrite orb_false_r, starts_spec. split.
    + intros [k Hk]. by exists [], k.
    + intros ([|] & b & Hb); [by exists b|done].
  - cbn [occurs]. rewrite orb_true_iff, starts_spec, IH. split.
    + intros [[k Hk]|(a & b & Hb)]; [by exists [], k|exists (c :: a), b; by rewrite Hb].
    + intros ([|x a] & b & Hb); [left; by exists b|right]. injection Hb as -> ->. by exists a, b.
Qed.

Lemma partition_some m s b a : partition m s = Some (b, a) -> s = b ++ m ++ a.
Proof.
  revert b. induction s as [|c s IH]; intros b; cbn [partition].
  - destruct (starts m []) eqn:Hs; [|done]. intros [= <- <-]. by destruct m.
  - destruct (starts m (c :: s)) eqn:Hs.
    + intros [= <- <-]. apply starts_spec in Hs as [k Hk]. rewrite Hk. cbn. by rewrite drop_app_length.
    + destruct (partition m s) as [[b' a']|]; [|done]. intros [= <- <-]. cbn. f_equal. by apply IH.
Qed.

Lemma partition_none m s : partition m s = None <-> occurs m s = false.
Proof.
  induction s as [|c s IH]; cbn [partition occurs]; destruct (starts m _); cbn; try done.
  rewrite <- IH. by destruct (partition m s) as [[]|].
Qed.

(** The text before the first marker has no marker. *)
Lemma partition_before m s b a : m <> [] -> partition m s = Some (b, a) -> occurs m b = false.
Proof.
  intros Hm. revert b. induction s as [|c s IH]; intros b; cbn [partition].
  - destruct (starts m []) eqn:Hs; [|done]. intros [= <- _]. destruct m; [done|discriminate Hs].
  - destruct (starts m (c :: s)) eqn:Hs.
    + intros [= <- _]. by destruct m.
    + destruct (partition m s) as [[b' a']|] eqn:Hp; [|done]. intros [= <- <-]. cbn [occurs]. rewrite (IH b' eq_refl), orb_false_r.
      apply not_true_iff_false. intros [k Hk]%starts_spec. apply not_true_iff_false in Hs. apply Hs, starts_spec.
      apply partition_some in Hp as ->. exists (k ++ m ++ a'). by rewrite (app_assoc m k), <- Hk.
Qed.

(** A marker that is not in a text is found right after it, when its first character
    occurs in it only there. *)
Lemma partition_first c m t r : c ∉ m -> occurs (c :: m) t = false -> partition (c :: m) (t ++ (c :: m) ++ r) = Some (t, r).
Proof.
  intros Hc. induction t as [|x t IH]; intros Ht.
  - cbn [app partition]. assert (starts (c :: m) (c :: m ++ r) = true) as Hs by (apply starts_spec; by exists r).
    rewrite Hs. f_equal. f_equal. cbn. apply drop_app_length.
  - cbn [occurs] in Ht. apply orb_false_iff in Ht as [Hs Ht]. cbn [app partition]. change (c :: m ++ r) with ((c :: m) ++ r) in *.
    assert (starts (c :: m) (x :: t ++ (c :: m) ++ r) = false) as ->; [|by rewrite (IH Ht)].
    apply not_true_iff_false. intros [k Hk]%starts_spec. apply not_true_iff_false in Hs. apply Hs. clear IH Ht Hs.
    injection Hk as -> Hk. apply starts_spec.
    (* the rest of the marker ends before the next first character *)
    assert (forall (m0 t0 : bytes), c ∉ m0 -> t0 ++ (c :: m) ++ r = m0 ++ k -> exists k0, t0 = m0 ++ k0) as Hin.
    { clear. induction m0 as [|y m0 IH]; intros t0 Hm0 Heq; [by exists t0|]. destruct t0 as [|z t0].
      - cbn in Heq. injection Heq as -> _. destruct Hm0. apply list_elem_of_here.
      - cbn in Heq. injection Heq as -> Heq. apply IH in Heq as [k0 ->]; [by exists k0|].
        intros Hy. apply Hm0. by apply list_elem_of_further. }
    destruct (Hin m t Hc Hk) as [k0 ->]. by exists k0.
Qed.

Lemma start_first t r : occurs PASTE_START t = false -> partition PASTE_START (t ++ PASTE_START ++ r) = Some (t, r).
Proof. apply partition_first. intros Hin%list_elem_of_In. cbn in Hin. lia. Qed.

Lemma end_first t r : occurs PASTE_END t = false -> partition PASTE_END (t ++ PASTE_END ++ r) = Some (t, r).
Proof. apply partition_first. intros Hin%list_elem_of_In. cbn in Hin. lia. Qed.

(** ** Steps that say nothing to the shell *)

(** What the shell was sent, write by write. *)
Abbreviation sent s := (shell_writes (px_out s)).

Section Proxy.
Context `{ProxyEnv}.

(** The variables of the loop. *)
Definition locals (s : Proxy) :=
  (px_collecting s, px_paste s, px_held s, px_held_event s, px_challenge s, px_challenge_input s, px_challenge_expires s).

(** Nothing was sent and no variable changed. *)
Definition alike (s s1 : Proxy) : Prop := sent s1 = sent s /\ (px_ticks s <= px_ticks s1)%nat /\ locals s1 = locals s.

Lemma shell_writes_app l k : shell_writes (l ++ k) = shell_writes l ++ shell_writes k.
Proof. apply omap_app. Qed.

Lemma sent_put o s : sent (put_output o s) = sent s ++ match o with ToShell b => [b] | _ => [] end.
Proof. cbn. rewrite shell_writes_app. by destruct o. Qed.

Lemma stream_put o s : shell_stream (put_output o s) = shell_stream s ++ match o with ToShell b => b | _ => [] end.
Proof. unfold shell_stream. rewrite sent_put, concat_app. by destruct o; cbn; rewrite ?app_nil_r. Qed.

Lemma stream_sent s s1 l : sent s1 = sent s ++ l -> shell_stream s1 = shell_stream s ++ concat l.
Proof. unfold shell_stream. intros ->. apply concat_app. Qed.

Lemma concat_nonempty (b : bytes) : concat (if zlen b =? 0 then [] else [b]) = b.
Proof.
  destruct b as [|a b]; [done|]. rewrite (proj2 (Z.eqb_neq _ _)); [apply app_nil_r|].
  rewrite zlen_cons. pose proof (zlen_nonneg b). lia.
Qed.

Lemma bind_run {A B} (m : M Proxy A) (k : A -> M Proxy B) s a s1 : m s = (Ok a, s1) -> (m ≫= k) s = k a s1.
Proof. intros Hm. unfold mbind, M_bind. by rewrite Hm. Qed.

Lemma alike_refl s : alike s s.
Proof. by split. Qed.

Lemma alike_trans s s1 s2 : alike s s1 -> alike s1 s2 -> alike s s2.
Proof. intros (H1 & H2 & H3) (H4 & H5 & H6). split; [congruence|]. split; [lia|congruence]. Qed.

Lemma alike_put o s s1 : (forall b, o <> ToShell b) -> alike s s1 -> alike s (put_output o s1).
Proof.
  intros Ho (H1 & H2 & H3). split; [|by split]. rewrite sent_put, H1. destruct o as [b| | |]; [by destruct (Ho b)|by rewrite app_nil_r..].
Qed.

Lemma log_runs request result config kind s : exists s1, log_event request result config kind s = (Ok tt, s1) /\ alike s s1.
Proof.
  unfold log_event, ask_proxy, mbind, M_bind. set (s1 := tick_proxy (tick_proxy s)).
  assert (alike s s1) as Hs by (split; [done|]; split; [cbn; lia|done]).
  destruct (log_ok _); [|by exists s1]. eexists. split; [done|]. by apply alike_put.
Qed.

Lemma override_runs kind s : exists s1, record_override kind s = (Ok tt, s1) /\ alike s s1.
Proof.
  unfold record_override. rewrite (bind_run get_st _ s s s eq_refl). destruct (px_held_event s) as [[[request result] config]|].
  - destruct (gc_local_json_log_enabled config); [apply log_runs|]. exists s. split; [done|apply alike_refl].
  - exists s. split; [done|apply alike_refl].
Qed.

(** ** Verdicts *)

(** A verdict on a paste, under a policy that was loaded for it; neither before the
    moment [k]. *)
Definition judged_since (k : nat) (p : bytes) (c : ShellGuardConfig) (d : ScanDecision) : Prop :=
  exists n m, (k <= n <= m)%nat /\ load_config (policy_files n).1 (policy_files n).2 = Ok c
    /\ scan_request (paste_request p c) c (scan_clock m) = Ok d.
Definition judged (p : bytes) (c : ShellGuardConfig) (d : ScanDecision) : Prop := judged_since 0 p c d.

(** The policy or the verdict the paste met does not let it through, or there is none: the
    policy did not load, or the scan raised. *)
Definition refused_since (k : nat) (p : bytes) : Prop := exists n m, (k <= n <= m)%nat /\ forall c d,
  load_config (policy_files n).1 (policy_files n).2 = Ok c -> scan_request (paste_request p c) c (scan_clock m) = Ok d ->
  passes c d = false.
Definition refused (p : bytes) : Prop := refused_since 0 p.

Lemma judged_earlier k k' p c d : (k' <= k)%nat -> judged_since k p c d -> judged_since k' p c d.
Proof. intros Hk (n & m & Hn & Hj). exists n, m. split; [lia|done]. Qed.

Lemma refused_earlier k k' p : (k' <= k)%nat -> refused_since k p -> refused_since k' p.
Proof. intros Hk (n & m & Hn & Hj). exists n, m. split; [lia|done]. Qed.

(** A paste just held, under a challenge issued after the moment [k]. *)
Definition just_held (k : nat) (s : Proxy) : Prop := exists p c d issued, px_held s = Some p
  /\ judged_since k p c d /\ passes c d = false /\ holds_paste c d = true /\ zlen p <= MAX_PASTE
  /\ (k <= issued)%nat /\ (S issued < px_ticks s)%nat /\ px_challenge s = fresh_challenge issued
  /\ px_challenge_expires s = fadd (monotonic (S issued)) (float_of_Z 60) /\ px_challenge_input s = [].

Lemma hold_runs p request c d s : exists issued s1,
  (challenge ← ask_proxy fresh_challenge; now ← ask_proxy monotonic;
   modify_st (set_held (Some p) (Some (request, d, c)) challenge);;
   modify_st (set_expires (fadd now (float_of_Z 60)));;
   record_override "user_override_started";;
   write (Notice ("MSAA held a suspicious paste. Type " +:+ string_of challenge
                  +:+ " manually within 60 seconds, then press Return. Input is hidden."));; (mret [] : M Proxy bytes)) s = (Ok [], s1)
  /\ sent s1 = sent s /\ px_held s1 = Some p /\ (px_ticks s <= issued)%nat /\ (S issued < px_ticks s1)%nat
  /\ px_challenge s1 = fresh_challenge issued /\ px_challenge_expires s1 = fadd (monotonic (S issued)) (float_of_Z 60)
  /\ px_challenge_input s1 = [].
Proof.
  exists (px_ticks s). unfold ask_proxy, modify_st. unfold mbind at 1 2 3 4, M_bind at 1 2 3 4. cbn [tick_proxy px_ticks].
  set (s0 := set_expires _ _). destruct (override_runs "user_override_started" s0) as (s1 & Hrun & Hsent & Hticks & Hloc).
  rewrite (bind_run _ _ _ _ _ Hrun). eexists. split; [done|]. cbn [modify_st].
  rewrite sent_put, Hsent, app_nil_r. injection Hloc as _ _ Hh _ Hc Hi He. cbn in Hh, Hc, Hi, He, Hticks |- *.
  split_and!; try done; lia.
Qed.

Lemma apply_verdict_cases p after c d s : exists s1, apply_verdict p after c d s = (Ok (if passes c d then after else []), s1)
  /\ (px_ticks s <= px_ticks s1)%nat /\ px_collecting s1 = false
  /\ sent s1 = sent s ++ (if passes c d then [PASTE_START ++ p ++ PASTE_END] else [])
  /\ (px_held s1 = px_held s \/ passes c d = false
       /\ forall k, (k <= px_ticks s)%nat -> judged_since k p c d -> zlen p <= MAX_PASTE -> just_held k s1).
Proof.
  unfold apply_verdict. set (log := if (_ && _) then _ else _).
  assert (exists s1, log s = (Ok tt, s1) /\ alike s s1) as (s1 & H1 & H2 & H3 & H4)
    by (unfold log; destruct (_ && _); [apply log_runs|exists s; split; [done|apply alike_refl]]).
  rewrite (bind_run _ _ _ _ _ H1). injection H4 as _ _ Hheld _ _ _ _. destruct (passes c d) eqn:Hpass.
  - eexists. split; [done|]. split; [done|]. split; [done|]. split; [|by left].
    change (sent (set_collecting false [] ?x)) with (sent x). by rewrite sent_put, H2.
  - rewrite app_nil_r. destruct (holds_paste c d) eqn:Hhold.
    + destruct (hold_runs p (paste_request p c) c d s1) as (issued & s2 & Hrun & K1 & K2 & K3 & K4 & K5 & K6 & K7).
      rewrite (bind_run _ _ _ _ _ Hrun). eexists. split; [done|]. cbn [modify_st].
      split; [cbn; lia|]. split; [done|]. split; [by rewrite <- H2, <- K1|]. right. split; [done|]. intros k Hk Hj Hl.
      exists p, c, d, issued. split_and!; try done. lia.
    + eexists. split; [done|]. split; [done|]. split; [done|]. split; [|by left].
      change (sent (set_collecting false [] ?x)) with (sent x). by rewrite sent_put, H2, app_nil_r.
Qed.

(** What becomes of a complete paste. *)
Lemma judge_cases p after s r s' : judge_paste p after s = (r, s') -> (px_ticks s <= px_ticks s')%nat /\
  ((exists c d, judged_since (px_ticks s) p c d /\ passes c d = true /\ r = Ok after /\ px_collecting s' = false
     /\ px_held s' = px_held s /\ sent s' = sent s ++ [PASTE_START ++ p ++ PASTE_END])
   \/ (refused_since (px_ticks s) p /\ sent s' = sent s
       /\ ((r = Ok [] /\ px_collecting s' = false /\ (exists c d, judged_since (px_ticks s) p c d /\ passes c d = false)
            /\ (px_held s' = px_held s \/ (zlen p <= MAX_PASTE -> just_held (px_ticks s) s')))
          \/ is_ok r = false))).
Proof.
  unfold judge_paste. set (n := px_ticks s). change (judge_paste p after s) with (judge_paste p after s).
  unfold ask_proxy, lift_res. unfold mbind at 1 2 3 4, M_bind at 1 2 3 4. fold n. cbn [tick_proxy px_ticks]. fold n.
  destruct (load_config _ _) as [c|e] eqn:Hc.
  2: { intros [= <- <-]. split; [cbn; lia|]. right. split; [|by split; [|right]]. exists n, n. split; [lia|]. intros c d Hc'. congruence. }
  destruct (scan_request _ c _) as [d|e] eqn:Hd.
  2: { intros [= <- <-]. split; [cbn; lia|]. right. split; [|by split; [|right]]. exists n, (S n). split; [lia|].
       intros c' d Hc' Hd'. rewrite Hc in Hc'. injection Hc' as <-. congruence. }
  set (s0 := tick_proxy (tick_proxy s)).
  assert (judged_since n p c d) as Hj by (exists n, (S n); split; [lia|done]).
  destruct (apply_verdict_cases p after c d s0) as (s1 & -> & Ht & Hcol & Hs & Hheld). intros [= <- <-].
  split; [cbn in Ht; lia|]. destruct (passes c d) eqn:Hp.
  - left. exists c, d. split_and!; try done. by destruct Hheld as [|[? _]].
  - right. rewrite app_nil_r in Hs. split; [|split; [done|left; split_and!; [done..|by exists c, d|]]].
    + exists n, (S n). split; [lia|]. intros c' d' Hc' Hd'. rewrite Hc in Hc'. injection Hc' as <-. congruence.
    + destruct Hheld as [Hheld|[_ Hheld]]; [by left|right]. intros Hl. apply Hheld; [cbn; lia|done|done].
Qed.

(** One turn of the loop over a read. *)
Section Turns.
Context (fuel : nat) (data : bytes) (s : Proxy) (Hdata : data <> []).

Lemma nonempty_read : (zlen data =? 0) = false.
Proof. apply Z.eqb_neq. destruct data; [done|]. rewrite zlen_cons. pose proof (zlen_nonneg b). lia. Qed.

Lemma feed_plain : px_collecting s = false -> partition PASTE_START data = None ->
  feed (S fuel) data s = (Ok tt, put_output (ToShell data) s).
Proof.
  intros Hc Hp. cbn [feed]. rewrite nonempty_read. rewrite (bind_run get_st _ s s s eq_refl). by rewrite Hc, Hp.
Qed.

Lemma feed_open before after : px_collecting s = false -> partition PASTE_START data = Some (before, after) ->
  exists s1, feed (S fuel) data s = feed fuel after s1 /\ sent s1 = sent s ++ (if zlen before =? 0 then [] else [before])
    /\ px_collecting s1 = true /\ px_paste s1 = [] /\ px_held s1 = px_held s /\ px_ticks s1 = px_ticks s.
Proof.
  intros Hc Hp. cbn [feed]. rewrite nonempty_read. rewrite (bind_run get_st _ s s s eq_refl), Hc, Hp. cbn [negb].
  destruct before as [|b before].
  - exists (set_collecting true [] s). by rewrite app_nil_r.
  - assert ((zlen (b :: before) =? 0) = false) as ->.
    { apply Z.eqb_neq. rewrite zlen_cons. pose proof (zlen_nonneg before). lia. }
    exists (set_collecting true [] (put_output (ToShell (b :: before)) s)). split; [done|]. split; [|done]. apply sent_put.
Qed.

Lemma feed_collect : px_collecting s = true -> partition PASTE_END data = None -> zlen (px_paste s ++ data) <= MAX_PASTE ->
  feed (S fuel) data s = (Ok tt, set_collecting true (px_paste s ++ data) s).
Proof.
  intros Hc Hp Hl. cbn [feed]. rewrite nonempty_read. rewrite (bind_run get_st _ s s s eq_refl), Hc, Hp. cbn [negb].
  rewrite (bind_run (modify_st _) _ s tt _ eq_refl). by rewrite (proj2 (Z.ltb_ge _ _) Hl).
Qed.

Lemma feed_close body after : px_collecting s = true -> partition PASTE_END data = Some (body, after) ->
  zlen (px_paste s ++ body) <= MAX_PASTE ->
  feed (S fuel) data s = (judge_paste (px_paste s ++ body) after ≫= feed fuel) (set_collecting true (px_paste s ++ body) s).
Proof.
  intros Hc Hp Hl. cbn [feed]. rewrite nonempty_read. rewrite (bind_run get_st _ s s s eq_refl), Hc, Hp. cbn [negb].
  rewrite (bind_run (modify_st _) _ s tt _ eq_refl). by rewrite (proj2 (Z.ltb_ge _ _) Hl).
Qed.
End Turns.

Lemma feed_nothing fuel s : feed fuel [] s = (Ok tt, s).
Proof. by destruct fuel. Qed.

Lemma partition_shorter m s b a : m <> [] -> partition m s = Some (b, a) -> (length a < length s)%nat.
Proof.
  intros Hm Hp. apply partition_some in Hp as ->. rewrite !length_app. destruct m; [done|cbn; lia].
Qed.

Lemma feed_oversized fuel data s : data <> [] -> px_collecting s = true ->
  let (body, after) := match partition PASTE_END data with Some (b, a) => (b, Some a) | None => (data, None) end in
  MAX_PASTE < zlen (px_paste s ++ body) ->
  feed (S fuel) data s = feed fuel (default [] after)
    (set_collecting false [] (put_output (Notice "MSAA blocked an oversized paste before execution.")
       (set_collecting true (px_paste s ++ body) s))).
Proof.
  intros Hne Hc. cbn [feed]. rewrite (nonempty_read data Hne), (bind_run get_st _ s s s eq_refl), Hc. cbn [negb].
  destruct (partition PASTE_END data) as [[b a]|]; intros Hbig;
    rewrite (bind_run (modify_st _) _ s tt _ eq_refl), (proj2 (Z.ltb_lt _ _) Hbig);
    by rewrite (bind_run (write _) _ _ tt _ eq_refl), (bind_run (modify_st _) _ _ tt _ eq_refl).
Qed.

(** ** What a read sends *)

(** What is sent of a text that is read with a paste under way or not, verdicts being asked
    for from the moment [k] on, and the paste under way afterwards. *)
Inductive filtered (k : nat) : option bytes -> bytes -> list bytes -> option bytes -> Prop :=
| filtered_done mode : filtered k mode [] [] mode
| filtered_typed data : data <> [] -> occurs PASTE_START data = false -> filtered k None data [data] None
| filtered_open before after out mode : occurs PASTE_START before = false -> filtered k (Some []) after out mode ->
    filtered k None (before ++ PASTE_START ++ after) ((if zlen before =? 0 then [] else [before]) ++ out) mode
| filtered_collect paste data : data <> [] -> occurs PASTE_END data = false -> zlen (paste ++ data) <= MAX_PASTE ->
    filtered k (Some paste) data [] (Some (paste ++ data))
| filtered_overflow paste data : data <> [] -> occurs PASTE_END data = false -> MAX_PASTE < zlen (paste ++ data) ->
    filtered k (Some paste) data [] None
| filtered_oversized paste body after out mode : occurs PASTE_END body = false -> MAX_PASTE < zlen (paste ++ body) ->
    filtered k None after out mode -> filtered k (Some paste) (body ++ PASTE_END ++ after) out mode
| filtered_pass paste body after out mode c d : occurs PASTE_END body = false -> zlen (paste ++ body) <= MAX_PASTE ->
    judged_since k (paste ++ body) c d -> passes c d = true -> filtered k None after out mode ->
    filtered k (Some paste) (body ++ PASTE_END ++ after) ((PASTE_START ++ (paste ++ body) ++ PASTE_END) :: out) mode
| filtered_refused paste body after : occurs PASTE_END body = false -> zlen (paste ++ body) <= MAX_PASTE ->
    refused_since k (paste ++ body) -> filtered k (Some paste) (body ++ PASTE_END ++ after) [] None.

Lemma filtered_earlier k k' mode data out mode' : (k' <= k)%nat -> filtered k mode data out mode' -> filtered k' mode data out mode'.
Proof.
  intros Hk. induction 1; try by constructor.
  - eapply filtered_pass; [done|done|by eapply judged_earlier|done|done].
  - apply filtered_refused; [done|done|by eapply refused_earlier].
Qed.

(** The paste under way. *)
Definition mode_of (s : Proxy) : option bytes := if px_collecting s then Some (px_paste s) else None.

Lemma just_held_earlier k k' s : (k' <= k)%nat -> just_held k s -> just_held k' s.
Proof.
  intros Hk (p & c & d & issued & H1 & H2 & H3 & H4 & H5 & H6 & H7). exists p, c, d, issued.
  split; [done|]. split; [by eapply judged_earlier|]. split; [done|]. split; [done|]. split; [done|]. split; [lia|done].
Qed.

Definition feed_end (k : nat) (r : res unit) (mode : option bytes) (s : Proxy) : Prop :=
  is_ok r = true -> mode_of s = mode /\ (px_held s = None \/ just_held k s).

Lemma feed_end_earlier k k' r mode s : (k' <= k)%nat -> feed_end k r mode s -> feed_end k' r mode s.
Proof. intros Hk He Hok. destruct (He Hok) as [Hm [Hh|Hh]]; [by split; [|left]|]. split; [done|]. right. by eapply just_held_earlier. Qed.

Lemma feed_filtered fuel data s r s' : (length data < fuel)%nat -> px_held s = None -> feed fuel data s = (r, s') ->
  (px_ticks s <= px_ticks s')%nat /\ exists out mode, sent s' = sent s ++ out
    /\ filtered (px_ticks s) (mode_of s) data out mode /\ feed_end (px_ticks s) r mode s'.
Proof.
  revert data s. induction fuel as [|fuel IH]; intros data s Hfuel Hheld Hf; [lia|].
  destruct data as [|a0 data0].
  { rewrite feed_nothing in Hf. injection Hf as <- <-. split; [done|]. exists [], (mode_of s). rewrite app_nil_r.
    split; [done|]. split; [constructor|]. intros _. by split; [|left]. }
  set (data := a0 :: data0) in *. assert (data <> []) as Hne by done. unfold mode_of at 1. destruct (px_collecting s) eqn:Hc.
  - pose proof (feed_oversized fuel data s Hne Hc) as Hover.
    destruct (partition PASTE_END data) as [[body after]|] eqn:Hp.
    + pose proof (partition_shorter PASTE_END data body after ltac:(done) Hp) as Hshort.
      pose proof (partition_before PASTE_END data body after ltac:(done) Hp) as Hbody.
      apply partition_some in Hp as Hdata. destruct (Z.ltb_spec MAX_PASTE (zlen (px_paste s ++ body))) as [Hbig|Hsmall].
      * rewrite (Hover Hbig) in Hf. apply IH in Hf as (Ht & out & mode & Hs & Hfil & Hend); [|cbn; lia|done].
        split; [exact Ht|]. exists out, mode. cbn [default] in Hfil. split; [rewrite Hs; change (sent (set_collecting false [] ?x)) with (sent x); by rewrite sent_put, app_nil_r|].
        split; [|exact Hend]. rewrite Hdata. by apply filtered_oversized.
      * rewrite (feed_close fuel data s Hne body after Hc Hp Hsmall) in Hf. unfold mbind, M_bind in Hf.
        set (s1 := set_collecting true (px_paste s ++ body) s) in Hf. destruct (judge_paste _ after s1) as [rest s2] eqn:Hj.
        apply judge_cases in Hj as (Ht2 & [(c & d & Hj & Hpass & -> & Hc2 & Hh2 & Hs2)|(Href & Hs2 & [(-> & Hc2 & _ & Hh2)|Hr])]).
        -- apply IH in Hf as (Ht & out & mode & Hs & Hfil & Hend); [|lia|by rewrite Hh2].
           change (px_ticks s1) with (px_ticks s) in *. split; [lia|]. eexists _, mode.
           split; [by rewrite Hs, Hs2, <- app_assoc|]. split; [|by eapply feed_end_earlier].
           rewrite Hdata. eapply filtered_pass; [done|done|exact Hj|done|].
           unfold mode_of in Hfil. rewrite Hc2 in Hfil. by eapply filtered_earlier.
        -- rewrite feed_nothing in Hf. injection Hf as <- <-. change (px_ticks s1) with (px_ticks s) in *. split; [done|].
           exists [], None. rewrite app_nil_r. split; [done|]. split; [rewrite Hdata; by apply filtered_refused|].
           intros _. unfold mode_of. rewrite Hc2. split; [done|]. destruct Hh2 as [->|Hh2]; [by left|right; by apply Hh2].
        -- destruct rest as [|e]; [done|]. injection Hf as <- <-. change (px_ticks s1) with (px_ticks s) in *. split; [done|].
           exists [], None. rewrite app_nil_r. split; [done|]. split; [rewrite Hdata; by apply filtered_refused|done].
    + apply partition_none in Hp as Hend. destruct (Z.ltb_spec MAX_PASTE (zlen (px_paste s ++ data))) as [Hbig|Hsmall].
      * rewrite (Hover Hbig), feed_nothing in Hf. injection Hf as <- <-. split; [done|]. exists [], None.
        split; [change (sent (set_collecting false [] ?x)) with (sent x); by rewrite sent_put|]. split; [by apply filtered_overflow|]. intros _. by split; [|left].
      * rewrite (feed_collect fuel data s Hne Hc Hp Hsmall) in Hf. injection Hf as <- <-. split; [done|].
        exists [], (Some (px_paste s ++ data)). rewrite app_nil_r. split; [done|]. split; [by apply filtered_collect|]. intros _. by split; [|left].
  - destruct (partition PASTE_START data) as [[before after]|] eqn:Hp.
    + destruct (feed_open fuel data s Hne before after Hc Hp) as (s1 & Hf1 & Hs1 & Hc1 & Hp1 & Hh1 & Ht1). rewrite Hf1 in Hf.
      pose proof (partition_shorter PASTE_START data before after ltac:(done) Hp).
      pose proof (partition_before PASTE_START data before after ltac:(done) Hp) as Hbefore.
      apply IH in Hf as (Ht & out & mode & Hs & Hfil & Hend); [|lia|by rewrite Hh1]. rewrite Ht1 in *. split; [done|].
      unfold mode_of in Hfil. rewrite Hc1, Hp1 in Hfil. eexists _, mode. split; [by rewrite Hs, Hs1, <- app_assoc|].
      split; [|done]. apply partition_some in Hp as ->. by apply filtered_open.
    + rewrite (feed_plain fuel data s Hne Hc Hp) in Hf. injection Hf as <- <-. split; [done|]. exists [data], None.
      split; [by rewrite sent_put|]. split; [constructor; [done|by apply partition_none]|]. intros _. unfold mode_of. cbn. rewrite Hc. by split; [|left].
Qed.

(** ** Answers to a challenge *)

Definition marker_free (b : bytes) : Prop := occurs PASTE_START b = false /\ occurs PASTE_END b = false.

Definition expired (s : Proxy) : bool := fltb (px_challenge_expires s) (monotonic (px_ticks s)).

(** A read completes the answer the challenge asks for. *)
Definition confirms (s : Proxy) (data : bytes) : bool :=
  let input := px_challenge_input s ++ data in
  negb (occurs PASTE_START data || occurs PASTE_END data) && (zlen input <=? 128) && (member 13 input || member 10 input)
  && bool_decide (ascii_only (first_line input) = px_challenge s).

Lemma challenge_cases held data s : exists handled s1, challenge_step held data s = (Ok handled, s1)
  /\ (px_ticks s < px_ticks s1)%nat /\ mode_of s1 = mode_of s
  /\ if expired s then handled = false /\ px_held s1 = None /\ sent s1 = sent s
     else handled = true
       /\ sent s1 = sent s ++ (if confirms s data then [PASTE_START ++ rstrip_newlines held ++ PASTE_END] else [])
       /\ (px_held s1 = None
           \/ marker_free data /\ s1 = set_input (px_challenge_input s ++ data) (tick_proxy s)).
Proof.
  unfold challenge_step, expired, confirms. unfold ask_proxy. unfold mbind at 1, M_bind at 1.
  rewrite (bind_run get_st _ _ _ _ eq_refl). cbn [px_challenge_expires px_challenge_input px_challenge px_held_event tick_proxy].
  set (s0 := tick_proxy s). set (input := px_challenge_input s ++ data).
  assert (forall s1, alike s0 s1 -> (px_ticks s < px_ticks s1)%nat /\ mode_of s1 = mode_of s /\ sent s1 = sent s) as Halike.
  { intros s1 (H1 & H2 & H3). injection H3 as Hc Hp _ _ _ _ _. cbn in H2. split; [lia|]. split; [|exact H1].
    unfold mode_of. by rewrite Hc, Hp. }
  destruct (fltb _ _).
  { destruct (override_runs "user_override_expired" s0) as (s1 & Hrun & Hs1). rewrite (bind_run _ _ _ _ _ Hrun).
    rewrite (bind_run clear_held _ _ _ _ eq_refl), (bind_run (write _) _ _ _ _ eq_refl).
    eexists _, _. split; [done|]. destruct (Halike s1 Hs1) as (H1 & H2 & H3). split; [exact H1|]. split; [exact H2|].
    split; [done|]. split; [done|]. rewrite sent_put, app_nil_r. exact H3. }
  destruct (occurs PASTE_START data || occurs PASTE_END data) eqn:Hmark.
  { destruct (override_runs "user_override_expired" s0) as (s1 & Hrun & Hs1). rewrite (bind_run _ _ _ _ _ Hrun).
    rewrite (bind_run clear_held _ _ _ _ eq_refl), (bind_run (write _) _ _ _ _ eq_refl).
    eexists _, _. split; [done|]. destruct (Halike s1 Hs1) as (H1 & H2 & H3). split; [exact H1|]. split; [exact H2|].
    split; [done|]. split; [|by left]. rewrite sent_put, !app_nil_r. exact H3. }
  rewrite (bind_run (modify_st _) _ _ _ _ eq_refl). apply orb_false_iff in Hmark. rewrite Z.leb_antisym.
  destruct (128 <? zlen input); cbn [negb andb].
  { rewrite (bind_run (modify_st _) _ _ _ _ eq_refl), (bind_run (write _) _ _ _ _ eq_refl). eexists _, _. split; [done|].
    split; [cbn; lia|]. split; [done|]. split; [done|]. split; [|by left]. by rewrite sent_put. }
  destruct (member 13 input || member 10 input); cbn [negb andb].
  2: { eexists _, _. split; [done|]. split; [cbn; lia|]. split; [done|]. split; [done|]. split; [by rewrite app_nil_r|]. by right. }
  case_bool_decide as Hanswer.
  - destruct (override_runs "user_override_completed" (set_input input s0)) as (s1 & Hrun & H1 & H2 & H3).
    unfold mbind at 1, M_bind at 1. rewrite (bind_run _ _ _ _ _ Hrun), (bind_run (write _) _ _ _ _ eq_refl). cbn [write modify_st].
    rewrite (bind_run clear_held _ _ _ _ eq_refl). eexists _, _. split; [done|]. injection H3 as Hc Hp _ _ _ _ _. cbn in H2.
    split; [cbn; lia|]. split; [unfold mode_of; cbn; by rewrite Hc, Hp|]. split; [done|]. split; [|by left].
    change (sent (set_held None None [] ?x)) with (sent x). by rewrite !sent_put, H1, app_nil_r.
  - unfold mbind at 1, M_bind at 1. cbn [write modify_st]. rewrite (bind_run clear_held _ _ _ _ eq_refl). eexists _, _. split; [done|].
    split; [cbn; lia|]. split; [done|]. split; [done|]. split; [|by left].
    change (sent (set_held None None [] ?x)) with (sent x). by rewrite sent_put.
Qed.

(** ** Sessions *)

(** The states a session gets to, with the reads of the terminal so far, each with the
    moment it was made. *)
Definition read_at (n : nat) (i : proxy_input) : list (nat * bytes) :=
  match i with FromUser data => [(n, data)] | FromShell _ => [] end.

Inductive session_at : list (nat * bytes) -> Proxy -> Prop :=
| session_start : session_at [] fresh_proxy
| session_turn h s i s' : session_at h s -> proxy_turn i s = (Ok true, s') -> session_at (h ++ read_at (px_ticks s) i) s'.

(** The held paste, if there is one: the policy held it in an earlier read, in which its
    challenge was issued; what was typed since is kept. *)
Record held_since (h : list (nat * bytes)) (s : Proxy) (p : bytes) (n0 issued : nat) (since : list (nat * bytes)) : Prop := {
  hs_read : exists pre d0, h = pre ++ (n0, d0) :: since;
  hs_policy : exists c d, judged_since n0 p c d /\ passes c d = false /\ holds_paste c d = true;
  hs_size : zlen p <= MAX_PASTE;
  hs_issued : (n0 <= issued)%nat /\ (S issued < px_ticks s)%nat /\ Forall (fun r => (S issued < r.1)%nat) since;
  hs_challenge : px_challenge s = fresh_challenge issued;
  hs_expires : px_challenge_expires s = fadd (monotonic (S issued)) (float_of_Z 60);
  hs_input : px_challenge_input s = concat (snd <$> since) /\ Forall (fun r => marker_free r.2) since
}.

Definition held_ok (h : list (nat * bytes)) (s : Proxy) : Prop :=
  forall p, px_held s = Some p -> exists n0 issued since, held_since h s p n0 issued since.

(** No answer is waited for. *)
Definition unheld (s : Proxy) : Prop := px_held s = None \/ expired s = true.

(** What a read sends, and the paste under way after it. *)
Inductive explained (h : list (nat * bytes)) (s : Proxy) (data : bytes) : list bytes -> option bytes -> Prop :=
| explained_answer p n0 issued since : px_held s = Some p -> held_since h s p n0 issued since ->
    let answer := concat (snd <$> since) ++ data in
    marker_free data -> zlen answer <= 128 -> ascii_only (first_line answer) = fresh_challenge issued ->
    fltb (fadd (monotonic (S issued)) (float_of_Z 60)) (monotonic (px_ticks s)) = false ->
    explained h s data [PASTE_START ++ rstrip_newlines p ++ PASTE_END] (mode_of s)
| explained_pending p : px_held s = Some p -> expired s = false -> confirms s data = false -> explained h s data [] (mode_of s)
| explained_background n : unheld s -> (px_ticks s <= n)%nat -> shell_foreground n = false -> explained h s data [data] (mode_of s)
| explained_filtered n out mode : unheld s -> (px_ticks s <= n)%nat -> shell_foreground n = true ->
    filtered n (mode_of s) data out mode -> explained h s data out mode.

(** The state after a read that returned. *)
Lemma held_fresh h n0 data k s : (n0 <= k)%nat -> px_held s = None \/ just_held k s -> held_ok (h ++ [(n0, data)]) s.
Proof.
  intros Hk [Hn|(p & c & d & issued & Hp & Hj & Hpass & Hhold & Hl & Hi & Ht & Hc & He & Hin)] p' Hp'; [congruence|].
  rewrite Hp in Hp'. injection Hp' as <-. exists n0, issued, []. constructor; try done.
  - by exists h, data.
  - exists c, d. split; [by eapply judged_earlier|done].
  - split; [lia|done].
Qed.

Lemma read_explained h s data r s' : held_ok h s -> read_terminal data s = (r, s') ->
  exists out mode, sent s' = sent s ++ out /\ explained h s data out mode
    /\ (is_ok r = true -> mode_of s' = mode /\ held_ok (h ++ [(px_ticks s, data)]) s').
Proof.
  intros Hheld. unfold read_terminal. rewrite (bind_run get_st _ s s s eq_refl).
  assert (forall s1, (px_ticks s <= px_ticks s1)%nat -> unheld s -> px_held s1 = None -> mode_of s1 = mode_of s -> sent s1 = sent s ->
    (foreground ← ask_proxy shell_foreground;
     if negb foreground then write (ToShell data) else feed (S (length data)) data) s1 = (r, s') ->
    exists out mode, sent s' = sent s ++ out /\ explained h s data out mode
      /\ (is_ok r = true -> mode_of s' = mode /\ held_ok (h ++ [(px_ticks s, data)]) s')) as Hgo.
  { intros s1 Ht Hun Hn Hm Hs. rewrite (bind_run (ask_proxy shell_foreground) _ s1 _ (tick_proxy s1) eq_refl).
    destruct (shell_foreground (px_ticks s1)) eqn:Hfg; cbn [negb].
    - intros Hf. apply feed_filtered in Hf as (_ & out & mode & Hs' & Hfil & Hend); [|lia|done].
      exists out, mode. split; [by rewrite Hs', <- Hs|]. split.
      + apply (explained_filtered h s data (px_ticks s1)); try done. rewrite <- Hm. eapply filtered_earlier; [|exact Hfil]. cbn. lia.
      + intros Hok. destruct (Hend Hok) as [Hmode Hh]. split; [done|]. apply (held_fresh h _ data (px_ticks (tick_proxy s1))); [cbn; lia|done].
    - intros [= <- <-]. exists [data], (mode_of s). rewrite sent_put. split; [by rewrite <- Hs|].
      split; [by apply (explained_background h s data (px_ticks s1))|]. intros _. split; [exact Hm|].
      apply (held_fresh h _ data (px_ticks s)); [done|by left]. }
  destruct (px_held s) as [p|] eqn:Hp.
  2: { rewrite (bind_run (mret false) _ s false s eq_refl). apply Hgo; try done. by left. }
  destruct (challenge_cases p data s) as (handled & s1 & Hrun & Ht & Hm & Hcases). rewrite (bind_run _ _ _ _ _ Hrun).
  destruct (expired s) eqn:Hexp.
  { destruct Hcases as (-> & Hn & Hs). apply Hgo; try done; [lia|by right]. }
  destruct Hcases as (-> & Hs & Hafter). intros [= <- <-].
  destruct (Hheld p Hp) as (n0 & issued & since & Hsince). eexists _, (mode_of s). split; [exact Hs|]. split.
  - destruct (confirms s data) eqn:Hconf; [|by eapply explained_pending].
    pose proof (hs_input _ _ _ _ _ _ Hsince) as [Hin _]. unfold confirms in Hconf. rewrite Hin in Hconf.
    apply andb_true_iff in Hconf as [Hconf Hans%bool_decide_eq_true]. apply andb_true_iff in Hconf as [Hconf _].
    apply andb_true_iff in Hconf as [Hmark Hlen%Z.leb_le]. apply negb_true_iff, orb_false_iff in Hmark.
    eapply explained_answer; [done|exact Hsince|exact Hmark|exact Hlen|by rewrite Hans, (hs_challenge _ _ _ _ _ _ Hsince)|].
    by rewrite <- (hs_expires _ _ _ _ _ _ Hsince).
  - intros _. split; [done|]. destruct Hafter as [Hn|[Hfree ->]]; [intros p' Hp'; congruence|].
    intros p' Hp'. cbn in Hp'. rewrite Hp in Hp'. injection Hp' as <-.
    exists n0, issued, (since ++ [(px_ticks s, data)]). destruct Hsince as [(pre & d0 & Hh) Hpol Hsz (H1 & H2 & H3) Hc He (Hin & Hfr)].
    constructor; try done.
    + exists pre, d0. by rewrite Hh, <- app_assoc.
    + split; [done|]. split; [cbn; lia|]. apply Forall_app. split; [done|]. by apply Forall_singleton.
    + cbn. rewrite fmap_app, concat_app, Hin. cbn. rewrite app_nil_r. split; [done|].
      apply Forall_app. split; [done|]. by apply Forall_singleton.
Qed.

Lemma session_held h s : session_at h s -> held_ok h s.
Proof.
  induction 1 as [|h s i s' Hs IH Hturn]; [by intros p Hp|]. destruct i as [[|a data]|[|a data]]; try done; cbn [proxy_turn] in Hturn;
    apply bind_ok in Hturn as ([] & s1 & Hturn & [= <-]); cbn [read_at].
  - injection Hturn as <-. rewrite app_nil_r. intros p Hp. destruct (IH p Hp) as (n0 & issued & since & [H1 H2 H3 H4 H5 H6 H7]).
    by exists n0, issued, since.
  - apply (read_explained h) in Hturn as (out & mode & _ & _ & Hok); [|done]. by apply Hok.
Qed.

(** The runs of the main loop are sessions. *)
Lemma run_session inputs h s s' : Forall (fun i => match i with FromUser data | FromShell data => data <> [] end) inputs ->
  session_at h s -> run_proxy inputs s = (Ok tt, s') -> exists h', session_at h' s'.
Proof.
  intros Hne. revert h s. induction Hne as [|i inputs Hi _ IH]; intros h s Hs Hr; [injection Hr as <-; by exists h|].
  cbn [run_proxy] in Hr. apply bind_ok in Hr as (more & s1 & Hturn & Hr).
  assert (more = true) as ->.
  { destruct i as [[|a data]|[|a data]]; try done; cbn [proxy_turn] in Hturn; by apply bind_ok in Hturn as ([] & s2 & _ & [= <- _]). }
  by apply (IH _ s1 (session_turn h s i s1 Hs Hturn)).
Qed.

(** C37. The gate: every write to the shell is explained by the state the session was in. The
    shell's own output sends it nothing. A read of the terminal while a paste is held sends
    that paste, without its line ends, only when it completes the answer: the challenge
    issued when the policy held the paste in an earlier read was typed since, in reads
    without paste markers of at most 128 bytes together, and the minute is not over;
    otherwise the read sends nothing. With no paste held, or once the minute is over, a read
    made while the shell is not in the foreground is sent as it is, unscanned, and every
    other read goes through the filter: text outside a paste is sent as it is; a paste is sent whole when
    the policy loaded in this read lets it through and not at all otherwise, with the rest
    of the read; and a paste over the size limit is dropped up to its end marker or to the
    end of the read, after which the session is outside a paste, so that the rest of such
    a paste in later reads counts as text. This holds in every session, whatever the reads
    and however they cut the markers, and also for the read that ends it in an exception. *)
Theorem shell_input_is_accounted_for (h : list (nat * bytes)) (s s' : Proxy) (i : proxy_input) (r : res bool) :
  session_at h s -> proxy_turn i s = (r, s') ->
  match i with
  | FromUser (c :: data) => exists out mode, sent s' = sent s ++ out /\ explained h s (c :: data) out mode
      /\ (is_ok r = true -> mode_of s' = mode)
  | _ => sent s' = sent s
  end.
Proof.
  intros Hs%session_held Hturn. destruct i as [[|a data]|[|a data]]; cbn [proxy_turn] in Hturn.
  - by injection Hturn as _ <-.
  - injection Hturn as _ <-. by rewrite sent_put, app_nil_r.
  - by injection Hturn as _ <-.
  - unfold mbind, M_bind in Hturn. destruct (read_terminal (a :: data) s) as [r0 s1] eqn:Hr.
    assert (s1 = s' /\ is_ok r0 = is_ok r) as [-> Hok] by (destruct r0; by injection Hturn as <- <-).
    apply (read_explained h) in Hr as (out & mode & Hsent & He & Hend); [|done]. exists out, mode. split; [done|]. split; [done|].
    intros Hr. by apply Hend; rewrite Hok.
Qed.

(** ** A read, paste by paste *)

(** A read made of typed texts, each followed by a paste, and a last typed text. *)
Definition encode_read (pieces : list (bytes * bytes)) (tail : bytes) : bytes :=
  flat_map (fun tp => tp.1 ++ PASTE_START ++ tp.2 ++ PASTE_END) pieces ++ tail.

Definition piece_ok (tp : bytes * bytes) : Prop :=
  occurs PASTE_START tp.1 = false /\ occurs PASTE_END tp.2 = false /\ zlen tp.2 <= MAX_PASTE.

(** What of it is delivered: up to the first paste that is not let through. *)
Inductive delivered : list (bytes * bytes) -> bytes -> bytes -> Prop :=
| delivered_tail tail : delivered [] tail tail
| delivered_pass t p c d pieces tail out : judged p c d -> passes c d = true -> delivered pieces tail out ->
    delivered ((t, p) :: pieces) tail (t ++ PASTE_START ++ p ++ PASTE_END ++ out)
| delivered_stop t p pieces tail : refused p -> delivered ((t, p) :: pieces) tail t.

Lemma encode_cons t p pieces tail : encode_read ((t, p) :: pieces) tail = t ++ PASTE_START ++ p ++ PASTE_END ++ encode_read pieces tail.
Proof. unfold encode_read. cbn [flat_map fst snd]. by rewrite <- !app_assoc. Qed.

Lemma start_app_ne (t r : bytes) : t ++ PASTE_START ++ r <> [].
Proof. by destruct t. Qed.

Lemma end_app_ne (t r : bytes) : t ++ PASTE_END ++ r <> [].
Proof. by destruct t. Qed.

Lemma feed_pieces pieces tail fuel s r s' :
  Forall piece_ok pieces -> occurs PASTE_START tail = false -> (length (encode_read pieces tail) < fuel)%nat ->
  px_collecting s = false -> feed fuel (encode_read pieces tail) s = (r, s') ->
  exists out, shell_stream s' = shell_stream s ++ out /\ delivered pieces tail out /\ (is_ok r = true -> px_collecting s' = false).
Proof.
  intros Hok Htail. revert fuel s. induction Hok as [|[t p] pieces (Ht & Hp & Hl) _ IH]; intros fuel s Hfuel Hc Hf.
  - cbn in Hfuel, Hf. exists tail. split; [|split; [constructor|]].
    + destruct tail as [|a tail]; [rewrite feed_nothing in Hf; injection Hf as _ <-; by rewrite app_nil_r|].
      destruct fuel as [|fuel]; [lia|]. rewrite feed_plain in Hf; [|done|done|by apply partition_none].
      injection Hf as _ <-. apply stream_put.
    + intros _. destruct tail as [|a tail]; [rewrite feed_nothing in Hf; by injection Hf as _ <-|].
      destruct fuel as [|fuel]; [lia|]. rewrite feed_plain in Hf; [|done|done|by apply partition_none]. by injection Hf as _ <-.
  - cbn in Ht, Hp, Hl. rewrite encode_cons in Hfuel, Hf. rewrite !length_app in Hfuel. cbn [length PASTE_START PASTE_END] in Hfuel.
    destruct fuel as [|[|fuel]]; [lia|lia|].
    destruct (feed_open (S fuel) _ s (start_app_ne _ _) t (p ++ PASTE_END ++ encode_read pieces tail) Hc (start_first _ _ Ht))
      as (s1 & Hf1 & Hs1%stream_sent & Hc1 & Hp1 & _). rewrite Hf1 in Hf.
    assert (shell_stream s1 = shell_stream s ++ t) as Hst by (rewrite Hs1; f_equal; apply concat_nonempty). rewrite (feed_close _ _ _ (end_app_ne _ _) p (encode_read pieces tail) Hc1 (end_first _ _ Hp)) in Hf; [|by rewrite Hp1].
    rewrite Hp1 in Hf. cbn [app] in Hf. unfold mbind, M_bind in Hf. set (s2 := set_collecting true p s1) in Hf.
    destruct (judge_paste p (encode_read pieces tail) s2) as [rest s3] eqn:Hj.
    apply judge_cases in Hj as (_ & [(c & d & Hj & Hpass & -> & Hc3 & _ & Hs3%stream_sent)|(Href & Hs3 & Hr)]).
    + apply judged_earlier with (k' := 0%nat) in Hj; [|lia]. destruct (IH fuel s3 ltac:(lia) Hc3 Hf) as (out & Hout & Hdel & Hcol).
      exists (t ++ PASTE_START ++ p ++ PASTE_END ++ out). split; [|split; [by eapply delivered_pass|done]].
      rewrite Hout, Hs3. change (shell_stream s2) with (shell_stream s1). rewrite Hst. cbn [concat]. by rewrite app_nil_r, <- !app_assoc.
    + exists t. assert (shell_stream s3 = shell_stream s1) as Hs3' by (unfold shell_stream; by rewrite Hs3). clear Hs3. rename Hs3' into Hs3.
      apply refused_earlier with (k' := 0%nat) in Href; [|lia]. destruct Hr as [(-> & Hc3 & _)|Hr].
      * rewrite feed_nothing in Hf. injection Hf as <- <-. split; [by rewrite Hs3, Hst|]. split; [by apply delivered_stop|done].
      * destruct rest as [|e]; [done|]. injection Hf as <- <-. split; [by rewrite Hs3, Hst|]. split; [by apply delivered_stop|done].
Qed.

(** C19. The filter: of a read whose markers are whole and whose pastes are within the size
    limit, a proxy with the shell in the foreground, no paste held and none under way sends
    the shell the typed texts and the pastes in order, as they came, up to the first paste
    that the policy does not let through, and nothing after; afterwards no paste is under
    way. Of such a read every paste that is sent has been scanned; the text between pastes
    is not. *)
Theorem read_is_filtered (pieces : list (bytes * bytes)) (tail : bytes) (s s' : Proxy) (r : res unit) :
  Forall piece_ok pieces -> occurs PASTE_START tail = false -> (forall n, shell_foreground n = true) ->
  px_held s = None -> px_collecting s = false ->
  read_terminal (encode_read pieces tail) s = (r, s') ->
  exists out, shell_stream s' = shell_stream s ++ out /\ delivered pieces tail out
    /\ (is_ok r = true -> px_collecting s' = false).
Proof.
  intros Hok Htail Hf Hh Hc. unfold read_terminal. rewrite (bind_run get_st _ s s s eq_refl), Hh.
  rewrite (bind_run (mret false) _ s false s eq_refl). rewrite (bind_run (ask_proxy shell_foreground) _ s _ (tick_proxy s) eq_refl), Hf. cbn [negb].
  intros Hr. apply (feed_pieces pieces tail _ (tick_proxy s) r s') in Hr; [done|done|done|lia|done].
Qed.

(** ** What every step of the proxy keeps *)

Section Closed.
Context (I : Proxy -> Prop) (Htick : forall s, I s -> I (tick_proxy s)) (Hput : forall o s, I s -> I (put_output o s))
  (Hcollect : forall b p s, I s -> I (set_collecting b p s)) (Hheld : forall h e c s, I s -> I (set_held h e c s))
  (Hinput : forall b s, I s -> I (set_input b s)) (Hexpires : forall t s, I s -> I (set_expires t s)).

Lemma closed_ask {A} (f : nat -> A) : preserves I (ask_proxy f).
Proof. intros s Hs. by apply Htick. Qed.

Lemma closed_write o : preserves I (write o).
Proof. by apply preserves_modify, Hput. Qed.

Lemma closed_set f : (forall s, I s -> I (f s)) -> preserves I (modify_st f).
Proof. apply preserves_modify. Qed.

#[local] Hint Resolve closed_ask closed_write : msaa.
#[local] Hint Extern 2 (preserves I (modify_st _)) => apply closed_set; first
  [exact (Hcollect _ _)|exact (Hheld _ _ _)|exact (Hinput _)|exact (Hexpires _)] : msaa.

Ltac closed := repeat (apply preserves_bind; [solve [auto with msaa]|intros ?]); auto with msaa.

Lemma closed_log request result config kind : preserves I (log_event request result config kind).
Proof. unfold log_event. closed. by destruct a; auto with msaa. Qed.

Lemma closed_override kind : preserves I (record_override kind).
Proof.
  unfold record_override. closed. destruct (px_held_event a) as [[[]]|]; [|auto with msaa].
  destruct (gc_local_json_log_enabled _); [apply closed_log|auto with msaa].
Qed.

#[local] Hint Resolve closed_log closed_override : msaa.

Lemma closed_judge p after : preserves I (judge_paste p after).
Proof.
  unfold judge_paste. closed. unfold apply_verdict. apply preserves_bind; [destruct (_ && _); auto with msaa|]. intros [].
  apply preserves_bind; [|intros rest; closed]. destruct (passes _ _); [closed|]. destruct (holds_paste _ _); closed.
Qed.

#[local] Hint Resolve closed_judge : msaa.

Lemma closed_feed fuel data : preserves I (feed fuel data).
Proof.
  revert data. induction fuel as [|fuel IH]; intros data; cbn [feed]; [auto with msaa|].
  destruct (zlen data =? 0); [auto with msaa|]. apply preserves_bind; [auto with msaa|]. intros s. destruct (negb _).
  - destruct (partition PASTE_START data) as [[before after]|]; [|auto with msaa].
    apply preserves_bind; [destruct (_ =? 0); auto with msaa|]. intros []. closed.
  - destruct (match partition PASTE_END data with Some (b, a) => (b, Some a) | None => (data, None) end) as [body after].
    apply preserves_bind; [auto with msaa|]. intros []. destruct (_ <? _); [closed|]. destruct after; [closed|auto with msaa].
Qed.

Lemma closed_challenge held data : preserves I (challenge_step held data).
Proof.
  unfold challenge_step. closed. assert (preserves I clear_held) as Hclear by (unfold clear_held; auto with msaa).
  destruct (fltb _ _); [closed|]. destruct (_ || _); [closed|]. apply preserves_bind; [auto with msaa|]. intros [].
  destruct (_ <? _); [closed|]. destruct (negb _); [auto with msaa|]. apply preserves_bind; [|intros []; closed].
  destruct (bool_decide _); closed.
Qed.

Lemma closed_run inputs : preserves I (run_proxy inputs).
Proof.
  assert (forall data, preserves I (read_terminal data)) as Hread.
  { intros data. unfold read_terminal. apply preserves_bind; [auto with msaa|]. intros s. apply preserves_bind.
    - destruct (px_held s); [apply closed_challenge|auto with msaa].
    - intros [|]; [auto with msaa|]. apply preserves_bind; [auto with msaa|]. intros foreground.
      destruct (negb foreground); [apply closed_write|apply closed_feed]. }
  induction inputs as [|i inputs IH]; cbn [run_proxy]; [auto with msaa|].
  apply preserves_bind; [|intros [|]; auto with msaa].
  destruct i as [[|a data]|[|a data]]; cbn [proxy_turn]; auto with msaa; closed.
Qed.
End Closed.

Lemma output_stays o inputs s r s' : o ∈ px_out s -> run_proxy inputs s = (r, s') -> o ∈ px_out s'.
Proof.
  intros Ho Hr. assert (preserves (fun s => o ∈ px_out s) (run_proxy inputs)) as Hk.
  { apply closed_run; try done. intros o' s0 H0. apply elem_of_app. by left. }
  specialize (Hk s Ho). rewrite Hr in Hk. by destruct r.
Qed.

Lemma feed_output_stays o fuel data s r s' : o ∈ px_out s -> feed fuel data s = (r, s') -> o ∈ px_out s'.
Proof.
  intros Ho Hr. assert (preserves (fun s => o ∈ px_out s) (feed fuel data)) as Hk.
  { apply closed_feed; try done. intros o' s0 H0. apply elem_of_app. by left. }
  specialize (Hk s Ho). rewrite Hr in Hk. by destruct r.
Qed.

(** ** Audit mode *)

Definition oversized : proxy_output := Notice "MSAA blocked an oversized paste before execution.".

(** What the shell was sent, and the paste being collected. *)
Definition passed_on (s : Proxy) : bytes :=
  shell_stream s ++ (if px_collecting s then PASTE_START ++ px_paste s else []).

Definition idle (s : Proxy) : bytes -> Prop := fun all => px_held s = None /\ passed_on s = all.

Lemma feed_transparent fuel data s s' : (forall p c d, judged p c d -> passes c d = true) -> (length data < fuel)%nat ->
  feed fuel data s = (Ok tt, s') -> (oversized ∉ px_out s') ->
  passed_on s' = passed_on s ++ data /\ px_held s' = px_held s.
Proof.
  intros Haudit. revert data s. induction fuel as [|fuel IH]; intros data s Hfuel Hf Hno; [lia|].
  destruct data as [|a0 data0]; [rewrite feed_nothing in Hf; injection Hf as <-; by rewrite app_nil_r|].
  set (data := a0 :: data0) in *. assert (data <> []) as Hne by done.
  destruct (px_collecting s) eqn:Hc.
  - destruct (Z.ltb_spec MAX_PASTE (zlen (px_paste s ++
      match partition PASTE_END data with Some (b, _) => b | None => data end))) as [Hbig|Hsmall].
    + exfalso. apply Hno. cbn [feed] in Hf. rewrite (nonempty_read data Hne) in Hf.
      rewrite (bind_run get_st _ s s s eq_refl), Hc in Hf. cbn [negb] in Hf.
      destruct (partition PASTE_END data) as [[b a]|];
        rewrite (bind_run (modify_st _) _ s tt _ eq_refl), (proj2 (Z.ltb_lt _ _) Hbig) in Hf;
        rewrite (bind_run (write _) _ _ tt _ eq_refl), (bind_run (modify_st _) _ _ tt _ eq_refl) in Hf;
        refine (feed_output_stays _ _ _ _ _ _ _ Hf); apply elem_of_app; right; apply list_elem_of_here.
    + destruct (partition PASTE_END data) as [[b a]|] eqn:Hp.
      * rewrite (feed_close fuel data s Hne b a Hc Hp Hsmall) in Hf. unfold mbind, M_bind in Hf.
        set (s1 := set_collecting true (px_paste s ++ b) s) in Hf. destruct (judge_paste _ a s1) as [rest s2] eqn:Hj.
        apply judge_cases in Hj as (_ & [(c & d & _ & _ & -> & Hc2 & Hh2 & Hs2%stream_sent)|(_ & _ & [(_ & _ & (c & d & Hj & Hpass) & _)|Hr])]).
        -- pose proof (partition_shorter PASTE_END data b a ltac:(done) Hp).
           destruct (IH a s2 ltac:(lia) Hf Hno) as [Hpo Hh]. split; [|by rewrite Hh, Hh2]. rewrite Hpo. unfold passed_on.
           rewrite Hc2, Hs2, Hc. change (shell_stream s1) with (shell_stream s). apply partition_some in Hp as ->.
           cbn [concat]. rewrite !app_nil_r, <- !app_assoc. done.
        -- apply judged_earlier with (k' := 0%nat) in Hj; [|lia]. by rewrite (Haudit _ _ _ Hj) in Hpass.
        -- by destruct rest.
      * rewrite (feed_collect fuel data s Hne Hc Hp Hsmall) in Hf. injection Hf as <-. split; [|done].
        unfold passed_on. cbn [px_collecting set_collecting px_paste]. rewrite Hc. change (shell_stream (set_collecting _ _ s)) with (shell_stream s).
        by rewrite <- !app_assoc.
  - destruct (partition PASTE_START data) as [[b a]|] eqn:Hp.
    + destruct (feed_open fuel data s Hne b a Hc Hp) as (s1 & Hf1 & Hs1%stream_sent & Hc1 & Hp1 & Hh1 & _). rewrite Hf1 in Hf.
      pose proof (partition_shorter PASTE_START data b a ltac:(done) Hp). destruct (IH a s1 ltac:(lia) Hf Hno) as [Hpo Hh].
      split; [|by rewrite Hh, Hh1]. rewrite Hpo. unfold passed_on. rewrite Hc1, Hp1, Hs1, Hc.
      assert (concat (if zlen b =? 0 then [] else [b]) = b) as Hb by apply concat_nonempty. apply partition_some in Hp as ->.
      rewrite app_nil_r, <- !app_assoc. f_equal. etransitivity; [apply f_equal2; [exact Hb|reflexivity]|]. done.
    + rewrite (feed_plain fuel data s Hne Hc Hp) in Hf. injection Hf as <-. split; [|done].
      unfold passed_on. cbn [px_collecting put_output]. rewrite Hc, stream_put, !app_nil_r. done.
Qed.

(** What the terminal sends in a list of reads. *)
Definition typed_stream (inputs : list proxy_input) : bytes :=
  concat ((fun i => match i with FromUser data => data | FromShell _ => [] end) <$> inputs).
Definition read_nonempty (i : proxy_input) : Prop := match i with FromUser data | FromShell data => data <> [] end.

Lemma run_transparent inputs s s' :
  (forall p c d, judged p c d -> passes c d = true) -> (forall n, shell_foreground n = true) -> Forall read_nonempty inputs ->
  px_held s = None -> run_proxy inputs s = (Ok tt, s') -> (oversized ∉ px_out s') ->
  passed_on s' = passed_on s ++ typed_stream inputs.
Proof.
  intros Haudit Hf Hne. revert s. induction Hne as [|i inputs Hi _ IH]; intros s Hh Hr Hno.
  - injection Hr as <-. by rewrite app_nil_r.
  - cbn [run_proxy] in Hr. apply bind_ok in Hr as (more & s1 & Hturn & Hr).
    assert (more = true /\ px_held s1 = None
      /\ passed_on s1 = passed_on s ++ match i with FromUser data => data | FromShell _ => [] end) as (-> & Hh1 & Hp1).
    { destruct i as [[|a data]|[|a data]]; try done; cbn [proxy_turn] in Hturn; apply bind_ok in Hturn as ([] & s2 & Hturn & [= <- <-]).
      - injection Hturn as <-. split; [done|]. split; [done|]. unfold passed_on. rewrite stream_put. cbn. by rewrite !app_nil_r.
      - unfold read_terminal in Hturn. rewrite (bind_run get_st _ s s s eq_refl), Hh in Hturn.
        rewrite (bind_run (mret false) _ s false s eq_refl), (bind_run (ask_proxy shell_foreground) _ s _ (tick_proxy s) eq_refl), Hf in Hturn.
        cbn [negb] in Hturn. apply (feed_transparent _ _ (tick_proxy s)) in Hturn as [Hp Hh1]; [by rewrite Hh1|done|lia|].
        intros Hin. apply Hno. by apply (output_stays _ inputs s2 (Ok tt)). }
    rewrite (IH s1 Hh1 Hr Hno), Hp1, <- app_assoc. done.
Qed.

(** C21. Transparency: while the policy is in audit mode and the shell in the foreground,
    a session that ran without an exception and reported no oversized paste has sent
    the shell exactly what the terminal sent, in order and unchanged, but for a paste
    whose end has not arrived, of which it still holds all; however the reads cut the
    stream, also through the markers. *)
Theorem audit_mode_is_transparent (inputs : list proxy_input) (s : Proxy) :
  (forall n c, load_config (policy_files n).1 (policy_files n).2 = Ok c -> gc_mode c = "audit") ->
  (forall n, shell_foreground n = true) -> Forall read_nonempty inputs ->
  run_proxy inputs fresh_proxy = (Ok tt, s) -> (oversized ∉ px_out s) ->
  shell_stream s ++ (if px_collecting s then PASTE_START ++ px_paste s else []) = typed_stream inputs.
Proof.
  intros Haudit Hf Hne Hr Hno. apply (run_transparent inputs fresh_proxy s); try done.
  intros p c d (n & m & _ & Hc & _). unfold passes. by rewrite (Haudit n c Hc).
Qed.

(** ** From the paste to the shell *)

(** C4. End to end: outside audit mode, and unless the policy disables the rule or exempts
    the hash of the paste, a pasted pipeline from a downloader into an interpreter, its words
    quoted the way a shell does, sends the shell nothing at all, whatever commands come
    before and after in it and however the scan ends; given that the shell is in the
    foreground, that no paste is held or under way, that the paste arrives in one read
    between whole markers and is within the size limit, and that its words are not empty,
    hold no newlines and no control, zero-width or odd-space characters and are stable under
    NFKC. *)
Theorem pasted_download_is_not_sent (before after : list (list text)) (source sink : list text) (wa wb : text)
    (s s' : Proxy) (r : res unit) :
  let cmds := before ++ source :: sink :: after in
  let paste := utf8_encode (pipeline cmds) in
  head source = Some wa -> named (base wa) DOWNLOADERS = true ->
  head sink = Some wb -> named (base wb) INTERPRETERS = true ->
  Forall command_ok cmds -> Forall (Forall (Forall (fun c => (clean_cp c = true /\ c <> 10) /\ scalar c))) cmds ->
  nfkc (pipeline cmds) = pipeline cmds -> zlen paste <= MAX_PASTE -> occurs PASTE_END paste = false ->
  (forall n c, load_config (policy_files n).1 (policy_files n).2 = Ok c -> gc_mode c <> "audit"
     /\ ("network_to_interpreter" ∉ gc_disabled_rule_ids c) /\ (sha256_hex paste ∉ gc_exact_hash_allowlist c)) ->
  (forall n, shell_foreground n = true) -> px_held s = None -> px_collecting s = false ->
  read_terminal (PASTE_START ++ paste ++ PASTE_END) s = (r, s') ->
  shell_stream s' = shell_stream s.
Proof.
  intros cmds paste Ha Hna Hb Hnb Hcmds Hcl Hn Hlen Hend Hpolicy Hf Hh Hc Hr.
  assert (utf8_decode paste = pipeline cmds) as Hdec.
  { apply decode_encode. apply pipeline_chars; [by split..|]. eapply pipeline_impl; [|exact Hcl].
    by intros c []. }
  assert (PASTE_START ++ paste ++ PASTE_END = encode_read [([], paste)] []) as Heq by (unfold encode_read; cbn [flat_map fst snd]; by rewrite !app_nil_r).
  rewrite Heq in Hr. unfold read_terminal in Hr. rewrite (bind_run get_st _ s s s eq_refl), Hh in Hr.
  rewrite (bind_run (mret false) _ s false s eq_refl), (bind_run (ask_proxy shell_foreground) _ s _ (tick_proxy s) eq_refl), Hf in Hr.
  cbn [negb] in Hr. apply feed_pieces in Hr as (out & Hout & Hdel & _); [|apply Forall_cons; split; [by split|apply Forall_nil_2]|done|lia|done].
  rewrite Hout. change (shell_stream (tick_proxy s)) with (shell_stream s).
  inversion Hdel as [|t p c d pieces tail out' (n & m & _ & Hload & Hscan) Hpass|]; subst; [|by rewrite app_nil_r]. exfalso.
  destruct (Hpolicy n c Hload) as (Hmode & Hrule & Hhash).
  destruct (quoted_download_is_found before after source sink wa wb (paste_request paste c) c (scan_clock m) d) as [[Hd _]|[Hd _]];
    try done; try (unfold passes in Hpass; apply orb_true_iff in Hpass as [Hp%String.eqb_eq|Hp%String.eqb_eq]; [done|congruence]).
  - eapply pipeline_impl; [|exact Hcl]. by intros x [].
  - unfold paste_request. cbn [rq_command]. by rewrite Hdec.
Qed.
End Proxy.

(** ** Sessions *)

Definition policy (mode : string) : plist_file := Some (Ok (VDict [("mode", VStr mode)])).

(** A second passes at each interaction; the event log cannot be written. *)
Definition proxy_env (mode : string) : ProxyEnv := {|
  proxy_scan := scan_env; proxy_platform := plain_env; monotonic := fun n => float_of_Z (Z.of_nat n);
  scan_clock := fun _ => quick; policy_files := fun _ => (None, policy mode); shell_foreground := fun _ => true;
  fresh_challenge := fun n => text_of "0A1B2C" ++ text_of (str_of_Z (Z.of_nat n)); log_ok := fun _ => false;
  event_stamp := fun _ => ("id", "now"); session_context := [("shell_path", VStr "/bin/zsh"); ("tty", VStr "/dev/ttys001")] |}.

Definition session (mode : string) (inputs : list proxy_input) : res unit * Proxy :=
  @run_proxy (proxy_env mode) inputs fresh_proxy.

Definition pasted (s : string) : bytes := PASTE_START ++ text_of s ++ PASTE_END.
Definition return_key : bytes := [13].

(** A harmless paste between typed words, a suspicious one, and its challenge typed in
    two pieces. *)
Definition warned_session : list proxy_input := [
  FromUser (text_of "ls " ++ pasted "/tmp"); FromShell (text_of "$ "); FromUser (pasted "curl x | sh");
  FromUser (text_of "0A1B"); FromUser (text_of "2C8" ++ return_key); FromUser return_key].

Definition answered : res bool * Proxy := @proxy_turn (proxy_env "warn") (FromUser (text_of "2C8" ++ return_key))
  (session "warn" (take 4 warned_session)).2.

Lemma shell_input_is_accounted_for_witness : exists h out mode,
  @session_at (proxy_env "warn") h (session "warn" (take 4 warned_session)).2
  /\ out = [pasted "curl x | sh"] /\ sent answered.2 = sent (session "warn" (take 4 warned_session)).2 ++ out
  /\ @explained (proxy_env "warn") h (session "warn" (take 4 warned_session)).2 (text_of "2C8" ++ return_key) out mode.
Proof.
  destruct (@run_session (proxy_env "warn") (take 4 warned_session) [] fresh_proxy (session "warn" (take 4 warned_session)).2) as [h Hh].
  - repeat constructor; discriminate.
  - constructor.
  - vm_compute. reflexivity.
  - destruct (@shell_input_is_accounted_for (proxy_env "warn") h (session "warn" (take 4 warned_session)).2 answered.2
      (FromUser (text_of "2C8" ++ return_key)) answered.1 Hh (surjective_pairing _)) as (out & mode & Hsent & He & _).
    exists h, out, mode. split; [exact Hh|].
    assert (sent answered.2 = sent (session "warn" (take 4 warned_session)).2 ++ [pasted "curl x | sh"]) as Hout by (vm_compute; reflexivity).
    split; [|split; [exact Hsent|exact He]]. rewrite Hout in Hsent. by apply app_inv_head in Hsent.
Defined.

Definition two_pastes : list (bytes * bytes) := [(text_of "ls ", text_of "/tmp"); (text_of ";", text_of "curl x | sh")].

Lemma read_is_filtered_witness : exists out,
  shell_stream (@read_terminal (proxy_env "block") (encode_read two_pastes (text_of "y")) fresh_proxy).2 = [] ++ out
  /\ @delivered (proxy_env "block") two_pastes (text_of "y") out
  /\ (is_ok (@read_terminal (proxy_env "block") (encode_read two_pastes (text_of "y")) fresh_proxy).1 = true ->
      px_collecting (@read_terminal (proxy_env "block") (encode_read two_pastes (text_of "y")) fresh_proxy).2 = false).
Proof.
  apply (@read_is_filtered (proxy_env "block") two_pastes (text_of "y") fresh_proxy).
  - apply Forall_cons. split; [vm_compute; repeat split; discriminate|].
    apply Forall_cons. split; [vm_compute; repeat split; discriminate|]. apply Forall_nil_2.
  - vm_compute. reflexivity.
  - reflexivity.
  - reflexivity.
  - reflexivity.
  - vm_compute. reflexivity.
Defined.

(** Reads that cut both markers. *)
Definition cut_reads : list proxy_input := [
  FromUser (text_of "a" ++ [27; 91; 50]); FromUser [48; 48; 126; 99]; FromUser (pasted "curl x | sh"); FromUser (PASTE_START ++ [98; 27])].

Lemma audit_mode_is_transparent_witness :
  px_collecting (session "audit" cut_reads).2 = true
  /\ shell_stream (session "audit" cut_reads).2
      ++ (if px_collecting (session "audit" cut_reads).2 then PASTE_START ++ px_paste (session "audit" cut_reads).2 else [])
     = typed_stream cut_reads.
Proof.
  split; [vm_compute; reflexivity|].
  apply (@audit_mode_is_transparent (proxy_env "audit") cut_reads (session "audit" cut_reads).2).
  - intros n c Hc. vm_compute in Hc. injection Hc as <-. reflexivity.
  - reflexivity.
  - repeat constructor; discriminate.
  - vm_compute. reflexivity.
  - intros Hin. apply list_elem_of_In in Hin. vm_compute in Hin.
    repeat (destruct Hin as [Hin|Hin]; [discriminate Hin|]). destruct Hin.
Defined.

Lemma pasted_download_is_not_sent_witness :
  shell_stream (@read_terminal (proxy_env "warn") (PASTE_START ++ utf8_encode (pipeline sample_pipeline) ++ PASTE_END) fresh_proxy).2
  = [].
Proof.
  apply (@pasted_download_is_not_sent (proxy_env "warn") [text_of <$> ["echo"; "it's"]] [] sample_source sample_sink
    (text_of "/usr/bin/CURL") (text_of "/bin/zsh") fresh_proxy _
    (@read_terminal (proxy_env "warn") (PASTE_START ++ utf8_encode (pipeline sample_pipeline) ++ PASTE_END) fresh_proxy).1).
  - reflexivity.
  - vm_compute. reflexivity.
  - reflexivity.
  - vm_compute. reflexivity.
  - repeat constructor; discriminate.
  - apply (bool_decide_unpack _). vm_compute. exact I.
  - reflexivity.
  - vm_compute. discriminate.
  - vm_compute. reflexivity.
  - intros n c Hc. vm_compute in Hc. injection Hc as <-. split; [discriminate|]. split; apply not_elem_of_nil.
  - reflexivity.
  - reflexivity.
  - reflexivity.
  - vm_compute. reflexivity.
Defined.

(** ** Where the promises end *)

(** A start marker that two reads share is not seen: the paste goes through as typed
    text, in block mode, line end and all. *)
Example split_marker_passes :
  let reads := [FromUser [27; 91; 50]; FromUser ([48; 48; 126] ++ text_of "curl x | sh" ++ return_key ++ PASTE_END)] in
  shell_stream (session "block" reads).2 = typed_stream reads.
Proof. by vm_compute. Qed.

(** The rest of an oversized paste is no longer collected: what follows the limit in the
    next read goes to the shell unscanned. *)
Example oversized_rest_passes :
  let reads := [FromUser (PASTE_START ++ repeat 97 (Z.to_nat 131073)); FromUser (text_of ";curl x | sh" ++ return_key ++ PASTE_END)] in
  shell_stream (session "block" reads).2 = text_of ";curl x | sh" ++ return_key ++ PASTE_END.
Proof. by vm_compute. Qed.

(** A paste the scanner raises on ends the session, and so does one under a policy file
    that does not load. *)
Example broken_gzip_ends_session :
  (session "block" [FromUser (pasted "printf H4sIAAAAAAAAAAAAAAAAAAAAAAAA | base64 -d | gunzip"); FromUser (text_of "ls")]).1
  = Raise (ZlibError "Error while decompressing data")
  /\ is_ok (session "protect" [FromUser (pasted "ls")]).1 = false.
Proof. by vm_compute. Qed.
