(* ===== verification/ShellAdapter.v ===== *)
(** The line adapter of zsh and Bash: [clickfix/adapter_cli.py]. The shell hands it the
    line about to be run; its answer decides whether the line runs. *)

From S2P Require Import Prelude PyStr PyFloat PyDict PyJson PyTime PyRepr ShellTokenizer TextRegex Utf8 ShellConfig ShellScanner SafeShell.

(** [sys.stdin.buffer.read(128 * 1024 + 1)] *)
Definition ADAPTER_READ : Z := 131073.

Definition with_decision (decision : string) (error : option string) (d : ScanDecision) : ScanDecision := {|
  sd_decision := decision; sd_score := sd_score d; sd_confidence := sd_confidence d; sd_rule_ids := sd_rule_ids d;
  sd_explanation_codes := sd_explanation_codes d; sd_command_sha256 := sd_command_sha256 d;
  sd_command_length := sd_command_length d; sd_normalized_length := sd_normalized_length d;
  sd_decoder_depth := sd_decoder_depth d; sd_scanner_version := sd_scanner_version d;
  sd_configuration_version := sd_configuration_version d; sd_processing_time_ms := sd_processing_time_ms d;
  sd_error := error |}.

Section Adapter.
Context `{ScanEnv} (phase origin : string) (context : pydict).

Definition adapter_request (command : text) (config : ShellGuardConfig) : ScanRequest := {|
  rq_command := Some command; rq_phase := phase; rq_paste_origin := VStr origin; rq_multiline := multiline command;
  rq_trailing_newline := trailing_newline command;
  rq_context := context ++ [("mode", VStr (gc_mode config)); ("configuration_version", VStr (gc_configuration_version config))] |}.

(** What the mode makes of a verdict. *)
Definition enforced (config : ShellGuardConfig) (risk : ScanDecision) : ScanDecision :=
  if String.eqb (gc_mode config) "audit" && one_of (sd_decision risk) ["warn"; "block"]
  then with_decision "allow" (sd_error risk) risk
  else if String.eqb (gc_mode config) "warn" && String.eqb (sd_decision risk) "block"
  then with_decision "warn" (sd_error risk) risk
  else risk.

Definition adapter_kind (risk result : ScanDecision) : string :=
  if String.eqb (sd_decision risk) "error" then "scanner_error"
  else (if String.eqb phase "paste" then "paste_" else "submission_")
       +:+ (if String.eqb (sd_decision result) "block" then "blocked" else "warning").

(** The answer for the bytes on standard input, and the kind of the event logged. *)
Definition adapter_scan (input : bytes) (config : ShellGuardConfig) (t : ScanClock) : res (ScanDecision * option string) :=
  let raw := take (Z.to_nat ADAPTER_READ) input in
  let forced := gc_maximum_command_bytes config <? zlen raw in
  let command := if forced then [] else utf8_decode raw in
  risk ← scan_request (adapter_request command config) config t;
  let risk := if forced then with_decision "error" (Some "command_size_limit") risk else risk in
  let result := enforced config risk in
  Ok (result, if one_of (sd_decision risk) ["warn"; "block"; "error"] && gc_local_json_log_enabled config
              then Some (adapter_kind risk result) else None).

(** The adapter under each mode: in block mode the answer is the scanner's verdict, in
    warn mode a block becomes a warning, in audit mode both become leave to run;
    an error is an error in every mode. *)
Lemma enforced_by_mode config risk :
  (sd_decision risk = "error" -> enforced config risk = risk)
  /\ (gc_mode config = "block" -> enforced config risk = risk)
  /\ (gc_mode config = "warn" -> sd_decision (enforced config risk)
        = if String.eqb (sd_decision risk) "block" then "warn" else sd_decision risk)
  /\ (gc_mode config = "audit" -> sd_decision (enforced config risk)
        = if one_of (sd_decision risk) ["warn"; "block"] then "allow" else sd_decision risk).
Proof.
  unfold enforced. split_and!.
  - intros ->. by rewrite !andb_false_r.
  - by intros ->.
  - intros ->. cbn [String.eqb Ascii.eqb Bool.eqb andb]. by destruct (String.eqb _ "block").
  - intros ->. cbn [String.eqb Ascii.eqb Bool.eqb andb]. by destruct (one_of _ _).
Qed.

(** A line longer than what is read is never given leave under a policy whose limit is
    below that. *)
Lemma long_line_is_an_error input config t result kind :
  gc_maximum_command_bytes config < ADAPTER_READ -> ADAPTER_READ <= zlen input ->
  adapter_scan input config t = Ok (result, kind) -> sd_decision result = "error".
Proof.
  intros Hmax Hlen. unfold adapter_scan.
  assert (zlen (take (Z.to_nat ADAPTER_READ) input) = ADAPTER_READ) as ->.
  { unfold zlen, ADAPTER_READ in *. rewrite length_take. lia. }
  rewrite (proj2 (Z.ltb_lt _ _) Hmax). intros (risk & _ & [= <- _])%res_bind_ok.
  by rewrite (proj1 (enforced_by_mode config (with_decision "error" _ risk)) eq_refl).
Qed.

(** Under a larger limit the rest of the line is simply not looked at, though the shell
    runs all of it. *)
Lemma rest_is_not_scanned input rest config t : zlen input = ADAPTER_READ ->
  adapter_scan (input ++ rest) config t = adapter_scan input config t.
Proof.
  intros Hl. unfold adapter_scan. assert (length input = Z.to_nat ADAPTER_READ) as <- by (unfold zlen in Hl; lia).
  by rewrite take_app_length, firstn_all.
Qed.
End Adapter.
