(* ===== verification/ShellJournal.v ===== *)
(** The consumer of the shell guard's event log: [clickfix/shell_journal.py].

    The log belongs to the user's session; the monitor reads what was appended since
    its cursor. A line is known by its length and by what its text, from any offset, is
    as JSON. *)

From S2P Require Import Prelude PyStr PyFloat PyDict PyJson PyRepr.

Definition MAX_JOURNAL_BYTES : Z := 33554432.
Definition MAX_LINE_BYTES : Z := 65536.
Definition ALLOWED_DECISIONS : list string := ["allow"; "warn"; "block"; "error"].
Definition REPORTABLE_TYPES : list string :=
  ["paste_warning"; "paste_blocked"; "submission_warning"; "submission_blocked"; "scanner_error"; "scanner_timeout";
   "adapter_integrity_failure"; "coverage_degraded"].
Definition FORBIDDEN_FIELDS : list string :=
  ["command"; "raw_command"; "decoded_command"; "clipboard"; "environment"; "working_directory"].

(** A line of the log with its line end, if it has one yet. [jl_json n] is the value of
    its text from byte [n] on, when that is ASCII and JSON. *)
Record journal_line := {
  jl_bytes : Z;
  jl_ended : bool;
  jl_json : Z -> option pyval
}.

Record Consumer := { jc_cursor : Z; jc_last_cursor : Z }.

(** [ShellEventJournalConsumer(path, cursor=cursor)] *)
Definition new_consumer (cursor : Z) : Consumer := {| jc_cursor := Z.max 0 cursor; jc_last_cursor := Z.max 0 cursor |}.

Definition journal_error {A} (code : string) : res A := Raise (ValueError code).

Definition log_size (log : list journal_line) : Z := zsum jl_bytes log.

(** What there is to read from an offset on: the lines, the first of them perhaps cut. *)
Fixpoint from_offset (n : Z) (log : list journal_line) : list journal_line :=
  match log with
  | [] => []
  | l :: log' =>
      if n <=? 0 then log
      else if n <? jl_bytes l
      then {| jl_bytes := jl_bytes l - n; jl_ended := jl_ended l; jl_json := fun m => jl_json l (n + m) |} :: log'
      else from_offset (n - jl_bytes l) log'
  end.

(** [value in SET], which hashes the value *)
Definition in_set (v : pyval) (l : list string) : res bool :=
  match v with
  | VStr s => Ok (one_of s l)
  | VList _ | VDict _ => Raise (TypeError "unhashable type")
  | _ => Ok false
  end.

(** One line: its record, when it is to be reported. *)
Definition read_line (l : journal_line) : res (option pydict) :=
  if (MAX_LINE_BYTES <? jl_bytes l) || negb (jl_ended l) then journal_error "shell_journal_line_invalid"
  else match jl_json l 0 with
  | None => journal_error "shell_journal_json_invalid"
  | Some (VDict payload) =>
      raise_if (negb (match vget "schema" payload with VStr s => String.eqb s "msaa.clickfix.event.v1" | _ => false end))
        (ValueError "shell_journal_schema_invalid");;
      raise_if (existsb (fun k => dmem k payload) FORBIDDEN_FIELDS) (ValueError "shell_journal_sensitive_field");;
      known ← in_set (vget "decision" payload) ALLOWED_DECISIONS;
      raise_if (negb (known : bool)) (ValueError "shell_journal_decision_invalid");;
      reported ← in_set (vget "event_type" payload) REPORTABLE_TYPES;
      Ok (if (reported : bool) then Some payload else None)
  | Some _ => journal_error "shell_journal_schema_invalid"
  end.

Fixpoint read_lines (lines : list journal_line) : res (list pydict) :=
  match lines with
  | [] => Ok []
  | l :: lines' =>
      record ← read_line l;
      records ← read_lines lines';
      Ok (match record with Some r => r :: records | None => records end)
  end.

(** [consume], of a log that may not exist *)
Definition consume (log : option (list journal_line)) : M Consumer (list pydict) :=
  match log with
  | None => mret []
  | Some log =>
      let size := log_size log in
      if MAX_JOURNAL_BYTES <? size then lift_res (journal_error "shell_journal_size_limit")
      else
        modify_st (fun c => if size <? jc_cursor c then {| jc_cursor := 0; jc_last_cursor := jc_last_cursor c |} else c);;
        c ← get_st;
        records ← lift_res (read_lines (from_offset (jc_cursor c) log));
        modify_st (fun _ => {| jc_cursor := size; jc_last_cursor := size |});;
        mret records
  end.

(** ** Each record once *)

(** Lines have bytes. *)
Definition lines_ok (log : list journal_line) : Prop := Forall (fun l => 0 < jl_bytes l) log.

Lemma log_size_nonneg log : lines_ok log -> 0 <= log_size log.
Proof. intros Hl. apply zsum_nonneg. eapply Forall_impl; [exact Hl|]. cbn. lia. Qed.

Lemma from_offset_0 n log : n <= 0 -> from_offset n log = log.
Proof. intros Hn. destruct log as [|l log]; [done|]. cbn. by rewrite (proj2 (Z.leb_le _ _) Hn). Qed.

Lemma from_offset_app n log more : lines_ok log -> n <= log_size log ->
  from_offset n (log ++ more) = from_offset n log ++ more.
Proof.
  intros Hl. revert n. induction Hl as [|l log Hb Hl IH]; intros n Hn.
  - cbn in *. by apply from_offset_0.
  - change (log_size (l :: log)) with (jl_bytes l + log_size log) in Hn. cbn [app from_offset].
    destruct (n <=? 0); [done|]. destruct (n <? jl_bytes l); [done|]. apply IH. lia.
Qed.

Lemma from_offset_end log more : lines_ok log -> from_offset (log_size log) (log ++ more) = more.
Proof.
  intros Hl. rewrite from_offset_app by (done || lia). induction Hl as [|l log Hb Hl IH]; [done|].
  change (log_size (l :: log)) with (jl_bytes l + log_size log). pose proof (log_size_nonneg log Hl). cbn [from_offset].
  destruct (Z.leb_spec (jl_bytes l + log_size log) 0); [lia|]. destruct (Z.ltb_spec (jl_bytes l + log_size log) (jl_bytes l)); [lia|].
  by replace (jl_bytes l + log_size log - jl_bytes l) with (log_size log) by lia.
Qed.

Lemma read_lines_app l k : read_lines (l ++ k) = (a ← read_lines l; b ← read_lines k; Ok (a ++ b)).
Proof.
  induction l as [|x l IH]; cbn.
  - by destruct (read_lines k).
  - destruct (read_line x) as [r|e]; cbn; [|done]. rewrite IH. destruct (read_lines l) as [a|e]; cbn; [|done].
    destruct (read_lines k) as [b|e]; cbn; [|done]. by destruct r.
Qed.

(** What a consumption does when the log is within the limit and has the cursor in it. *)
Lemma consume_within log c : log_size log <= MAX_JOURNAL_BYTES -> jc_cursor c <= log_size log ->
  consume (Some log) c =
  match read_lines (from_offset (jc_cursor c) log) with
  | Ok records => (Ok records, {| jc_cursor := log_size log; jc_last_cursor := log_size log |})
  | Raise e => (Raise e, c)
  end.
Proof.
  intros Hs Hc. unfold consume. rewrite (proj2 (Z.ltb_ge _ _) Hs). unfold mbind, M_bind, modify_st, get_st, lift_res.
  rewrite (proj2 (Z.ltb_ge _ _) Hc). by destruct (read_lines _).
Qed.

(** Each record once: reading a log, and reading it again after it has grown, gives the
    records that one reading of the grown log gives, in that order, and leaves the same
    cursor; a record is neither lost nor repeated wherever the readings fall. *)
Theorem records_are_taken_once (log more : list journal_line) (c c1 c2 : Consumer) (first second : list pydict) :
  lines_ok log -> lines_ok more -> log_size (log ++ more) <= MAX_JOURNAL_BYTES -> jc_cursor c <= log_size log ->
  consume (Some log) c = (Ok first, c1) -> consume (Some (log ++ more)) c1 = (Ok second, c2) ->
  consume (Some (log ++ more)) c = (Ok (first ++ second), c2).
Proof.
  intros Hl Hm Hs Hc H1 H2. pose proof (log_size_nonneg more Hm) as Hp.
  assert (log_size (log ++ more) = log_size log + log_size more) as Hsum by apply zsum_app.
  rewrite consume_within in H1 by lia. destruct (read_lines (from_offset _ log)) as [r1|] eqn:Hr1; [|done]. injection H1 as <- <-.
  rewrite consume_within in H2 by (cbn; lia). cbn [jc_cursor] in H2. rewrite from_offset_end in H2 by done.
  destruct (read_lines more) as [r2|] eqn:Hr2; [|done]. injection H2 as <- <-.
  rewrite consume_within by lia. rewrite from_offset_app, read_lines_app, Hr1, Hr2 by (done || lia). done.
Qed.

(** ** Where the promises end *)

(** A line that is not an event stops the consumer for good: whatever is appended after
    it, no record of the log is taken any more and the cursor does not move. *)
Lemma bad_line_blocks (log more : list journal_line) (bad : journal_line) (c : Consumer) :
  lines_ok log -> jc_cursor c <= log_size log -> is_ok (read_line bad) = false ->
  0 < jl_bytes bad -> lines_ok more ->
  is_ok (consume (Some (log ++ bad :: more)) c).1 = false /\ (consume (Some (log ++ bad :: more)) c).2 = c.
Proof.
  intros Hl Hc Hbad Hb Hm. assert (log_size (log ++ bad :: more) = log_size log + (jl_bytes bad + log_size more)) as Hsum
    by (unfold log_size; rewrite zsum_app; done).
  pose proof (log_size_nonneg more Hm).
  destruct (Z.ltb_spec MAX_JOURNAL_BYTES (log_size (log ++ bad :: more))) as [Hbig|Hs].
  - unfold consume. rewrite (proj2 (Z.ltb_lt _ _) Hbig). done.
  - rewrite consume_within by lia. rewrite from_offset_app, read_lines_app by (done || lia).
    destruct (read_lines (from_offset _ log)); cbn; [|done]. destruct (read_line bad); [done|]. done.
Qed.

(** ** A log *)

Definition event_line (decision kind : string) : journal_line := {|
  jl_bytes := 90; jl_ended := true;
  jl_json := fun n => if n =? 0 then Some (VDict [("schema", VStr "msaa.clickfix.event.v1"); ("decision", VStr decision);
    ("event_type", VStr kind)]) else None |}.

Definition first_log : list journal_line := [event_line "warn" "paste_warning"; event_line "allow" "adapter_loaded"].
Definition later_lines : list journal_line := [event_line "block" "paste_blocked"].

Definition taken (log : list journal_line) (c : Consumer) : list pydict :=
  match (consume (Some log) c).1 with Ok r => r | Raise _ => [] end.

Lemma records_are_taken_once_witness :
  consume (Some (first_log ++ later_lines)) (new_consumer 0)
  = (Ok (taken first_log (new_consumer 0) ++ taken (first_log ++ later_lines) (consume (Some first_log) (new_consumer 0)).2),
     (consume (Some (first_log ++ later_lines)) (consume (Some first_log) (new_consumer 0)).2).2).
Proof.
  apply (records_are_taken_once first_log later_lines (new_consumer 0) (consume (Some first_log) (new_consumer 0)).2).
  - repeat constructor.
  - repeat constructor.
  - vm_compute. discriminate.
  - vm_compute. discriminate.
  - vm_compute. reflexivity.
  - vm_compute. reflexivity.
Defined.

Example two_taken : zlen (taken (first_log ++ later_lines) (new_consumer 0)) = 2.
Proof. by vm_compute. Qed.
