(* ===== verification/ClickFixEvidence.v ===== *)
(** The evidence database of the ClickFix guard: [clickfix/evidence.py],
    [models.py].

    A table is the list of its rows in rowid order; its triggers refuse updates and
    deletions of records, so nothing here does either. The payload of a record, which is
    hashed, is the text itself; those of alerts and health values hold the JSON they
    encode. Texts hold code points below 256. *)

From S2P Require Import Prelude PyStr PyFloat PyDict PyJson PyTime Sql PyRepr License.

Definition GENESIS : string := "0000000000000000000000000000000000000000000000000000000000000000".

(** [canonical_json] *)
Definition canonical_json `{PlatformEnv} (v : pyval) : res string :=
  if finite_json v then json_dumps compact_style v
  else Raise (ValueError "Out of range float values are not JSON compliant").

(** ** What is recorded *)

(** Fields copied from an envelope hold whatever JSON value it has there. *)
Record ClickFixShortcutEvent := {
  ce_event_id : string;
  ce_schema_version : Z;
  ce_detected_at_utc : Z;           (** microseconds of UTC *)
  ce_monotonic_timestamp_ns : Z;
  ce_key_code : Z;
  ce_modifier_flags : Z;
  ce_physical_event : bool;
  ce_replay_event : bool;
  ce_foreground_pid : pyval;
  ce_foreground_bundle_id : pyval;
  ce_foreground_signing_identifier : pyval;
  ce_clipboard_change_count : pyval;
  ce_clipboard_access_state : string;
  ce_clipboard_classification : string;
  ce_clipboard_sha256 : pyval;
  ce_clipboard_byte_length : pyval;
  ce_classifier_version : pyval;
  ce_msaa_incident_risk_score : float;
  ce_severity : string;
  ce_sensor_mode : string;
  ce_input_monitoring_state : string;
  ce_accessibility_state : string;
  ce_persisted_at_utc : Z;
  ce_integrity_digest : string;
  ce_foreground_team_identifier : pyval;
  ce_audit_session_id : pyval;
  ce_console_user : pyval;
  ce_display_session : pyval;
  ce_spotlight_suppressed : bool;
  ce_missing_telemetry : list string
}.

(** [to_dict], the fields left at their defaults among them *)
Definition event_dict (e : ClickFixShortcutEvent) : pydict := [
  ("event_id", VStr (ce_event_id e)); ("schema_version", VInt (ce_schema_version e));
  ("detected_at_utc", VStr (isoformat_utc (ce_detected_at_utc e)));
  ("monotonic_timestamp_ns", VInt (ce_monotonic_timestamp_ns e)); ("key_code", VInt (ce_key_code e));
  ("modifier_flags", VInt (ce_modifier_flags e)); ("physical_event", VBool (ce_physical_event e));
  ("replay_event", VBool (ce_replay_event e)); ("foreground_pid", ce_foreground_pid e);
  ("foreground_bundle_id", ce_foreground_bundle_id e);
  ("foreground_signing_identifier", ce_foreground_signing_identifier e);
  ("clipboard_change_count", ce_clipboard_change_count e);
  ("clipboard_access_state", VStr (ce_clipboard_access_state e));
  ("clipboard_classification", VStr (ce_clipboard_classification e));
  ("clipboard_sha256", ce_clipboard_sha256 e); ("clipboard_byte_length", ce_clipboard_byte_length e);
  ("classifier_version", ce_classifier_version e);
  ("msaa_incident_risk_score", VFloat (ce_msaa_incident_risk_score e)); ("severity", VStr (ce_severity e));
  ("sensor_mode", VStr (ce_sensor_mode e)); ("input_monitoring_state", VStr (ce_input_monitoring_state e));
  ("accessibility_state", VStr (ce_accessibility_state e));
  ("persisted_at_utc", VStr (isoformat_utc (ce_persisted_at_utc e)));
  ("integrity_digest", VStr (ce_integrity_digest e));
  ("foreground_team_identifier", ce_foreground_team_identifier e); ("audit_session_id", ce_audit_session_id e);
  ("console_user", ce_console_user e); ("display_session", ce_display_session e);
  ("clipboard_source_attribution", VStr "UNKNOWN");
  ("clipboard_source_inference", VStr "FOREGROUND_APP_AT_CHANGE"); ("clipboard_source_confidence", VStr "LOW");
  ("spotlight_suppressed", VBool (ce_spotlight_suppressed e)); ("shortcut_replayed", VBool false);
  ("missing_telemetry", VTuple (VStr <$> ce_missing_telemetry e)); ("attack_mappings", VTuple [VStr "T1204.004"]);
  ("scoring_version", VStr "clickfix-risk-v1"); ("authorization_status", VStr "AUTHORIZATION_UNKNOWN")].

Record ClickFixIncident := {
  ci_incident_id : string;
  ci_shortcut_event_id : string;
  ci_disposition : string;
  ci_created_at_utc : Z;
  ci_first_seen_utc : Z;
  ci_last_seen_utc : Z;
  ci_severity : string;
  ci_risk_score : float;
  ci_confidence : float;
  ci_command_categories : list string;
  ci_attack_mappings : list string;
  ci_clipboard_quarantined : bool;
  ci_spotlight_suppressed : bool;
  ci_terminal_launch_observed : bool;
  ci_follow_on_execution_observed : bool;
  ci_containment_status : string;
  ci_acknowledgment_status : string;
  ci_integrity_digest : string
}.

Definition incident_dict (i : ClickFixIncident) : pydict := [
  ("incident_id", VStr (ci_incident_id i)); ("shortcut_event_id", VStr (ci_shortcut_event_id i));
  ("disposition", VStr (ci_disposition i)); ("created_at_utc", VStr (isoformat_utc (ci_created_at_utc i)));
  ("first_seen_utc", VStr (isoformat_utc (ci_first_seen_utc i)));
  ("last_seen_utc", VStr (isoformat_utc (ci_last_seen_utc i))); ("severity", VStr (ci_severity i));
  ("risk_score", VFloat (ci_risk_score i)); ("confidence", VFloat (ci_confidence i));
  ("command_categories", VTuple (VStr <$> ci_command_categories i));
  ("attack_mappings", VTuple (VStr <$> ci_attack_mappings i));
  ("clipboard_quarantined", VBool (ci_clipboard_quarantined i));
  ("spotlight_suppressed", VBool (ci_spotlight_suppressed i));
  ("terminal_launch_observed", VBool (ci_terminal_launch_observed i));
  ("follow_on_execution_observed", VBool (ci_follow_on_execution_observed i));
  ("containment_status", VStr (ci_containment_status i));
  ("acknowledgment_status", VStr (ci_acknowledgment_status i)); ("integrity_digest", VStr (ci_integrity_digest i))].

(** [replace(event, integrity_digest=..., persisted_at_utc=...)] *)
Definition stored_event (digest : string) (now : Z) (e : ClickFixShortcutEvent) : ClickFixShortcutEvent := {|
  ce_event_id := ce_event_id e; ce_schema_version := ce_schema_version e;
  ce_detected_at_utc := ce_detected_at_utc e; ce_monotonic_timestamp_ns := ce_monotonic_timestamp_ns e;
  ce_key_code := ce_key_code e; ce_modifier_flags := ce_modifier_flags e;
  ce_physical_event := ce_physical_event e; ce_replay_event := ce_replay_event e;
  ce_foreground_pid := ce_foreground_pid e; ce_foreground_bundle_id := ce_foreground_bundle_id e;
  ce_foreground_signing_identifier := ce_foreground_signing_identifier e;
  ce_clipboard_change_count := ce_clipboard_change_count e;
  ce_clipboard_access_state := ce_clipboard_access_state e;
  ce_clipboard_classification := ce_clipboard_classification e; ce_clipboard_sha256 := ce_clipboard_sha256 e;
  ce_clipboard_byte_length := ce_clipboard_byte_length e; ce_classifier_version := ce_classifier_version e;
  ce_msaa_incident_risk_score := ce_msaa_incident_risk_score e; ce_severity := ce_severity e;
  ce_sensor_mode := ce_sensor_mode e; ce_input_monitoring_state := ce_input_monitoring_state e;
  ce_accessibility_state := ce_accessibility_state e; ce_persisted_at_utc := now; ce_integrity_digest := digest;
  ce_foreground_team_identifier := ce_foreground_team_identifier e; ce_audit_session_id := ce_audit_session_id e;
  ce_console_user := ce_console_user e; ce_display_session := ce_display_session e;
  ce_spotlight_suppressed := ce_spotlight_suppressed e; ce_missing_telemetry := ce_missing_telemetry e |}.

Definition stored_incident (digest : string) (i : ClickFixIncident) : ClickFixIncident := {|
  ci_incident_id := ci_incident_id i; ci_shortcut_event_id := ci_shortcut_event_id i;
  ci_disposition := ci_disposition i; ci_created_at_utc := ci_created_at_utc i;
  ci_first_seen_utc := ci_first_seen_utc i; ci_last_seen_utc := ci_last_seen_utc i; ci_severity := ci_severity i;
  ci_risk_score := ci_risk_score i; ci_confidence := ci_confidence i;
  ci_command_categories := ci_command_categories i; ci_attack_mappings := ci_attack_mappings i;
  ci_clipboard_quarantined := ci_clipboard_quarantined i; ci_spotlight_suppressed := ci_spotlight_suppressed i;
  ci_terminal_launch_observed := ci_terminal_launch_observed i;
  ci_follow_on_execution_observed := ci_follow_on_execution_observed i;
  ci_containment_status := ci_containment_status i; ci_acknowledgment_status := ci_acknowledgment_status i;
  ci_integrity_digest := digest |}.

(** An alert as it is handed over: the items the table has columns for, and the others. *)
Record ClickFixAlert := {
  ca_alert_id : string;
  ca_event_id : string;
  ca_incident_id : option string;
  ca_severity : string;
  ca_title : string;
  ca_message : string;
  ca_persistent : bool;
  ca_others : pydict
}.

Definition opt_str (o : option string) : pyval := match o with Some s => VStr s | None => VNone end.

(** The dict of an alert; the other items are those after [incident_id]. *)
Definition alert_dict (a : ClickFixAlert) : pydict := [
  ("alert_id", VStr (ca_alert_id a)); ("event_id", VStr (ca_event_id a)); ("incident_id", opt_str (ca_incident_id a));
  ("severity", VStr (ca_severity a)); ("title", VStr (ca_title a)); ("message", VStr (ca_message a));
  ("persistent", VBool (ca_persistent a))] ++ ca_others a.

(** ** The tables *)

(** [clickfix_records] *)
Record record_row := {
  cr_sequence : Z;
  cr_record_id : string;
  cr_record_type : string;
  cr_occurred_at : string;
  cr_payload_json : string;
  cr_previous_digest : string;
  cr_record_digest : string;
  cr_created_at : string
}.

(** [clickfix_alerts]; [native_request_status] is never written *)
Record alert_row := {
  cl_alert_id : string;
  cl_event_id : string;
  cl_incident_id : option string;
  cl_severity : string;
  cl_title : string;
  cl_message : string;
  cl_payload : json_text;
  cl_persistent : bool;
  cl_acknowledged_at : option string;
  cl_acknowledged_by : option string;
  cl_acknowledgment_reason : option string;
  cl_created_at : string
}.

Record checkpoint_row := { cp_record_count : Z; cp_head_digest : string; cp_updated_at : string }.

Record Evidence := {
  v_sequence : Z;                               (** [sqlite_sequence] of the records *)
  v_records : list record_row;
  v_links : list (string * string);             (** incident, shortcut event *)
  v_alerts : list alert_row;
  v_checkpoint : option checkpoint_row;
  v_health : list (string * (json_text * string))
}.

Definition no_evidence : Evidence :=
  {| v_sequence := 0; v_records := []; v_links := []; v_alerts := []; v_checkpoint := None; v_health := [] |}.

Definition EvidenceDb : Type := Conn Evidence.

Definition set_records seq l t : Evidence := {| v_sequence := seq; v_records := l; v_links := v_links t;
  v_alerts := v_alerts t; v_checkpoint := v_checkpoint t; v_health := v_health t |}.
Definition set_links l t : Evidence := {| v_sequence := v_sequence t; v_records := v_records t; v_links := l;
  v_alerts := v_alerts t; v_checkpoint := v_checkpoint t; v_health := v_health t |}.
Definition set_alerts l t : Evidence := {| v_sequence := v_sequence t; v_records := v_records t; v_links := v_links t;
  v_alerts := l; v_checkpoint := v_checkpoint t; v_health := v_health t |}.
Definition set_checkpoint c t : Evidence := {| v_sequence := v_sequence t; v_records := v_records t; v_links := v_links t;
  v_alerts := v_alerts t; v_checkpoint := c; v_health := v_health t |}.
Definition set_health_rows h t : Evidence := {| v_sequence := v_sequence t; v_records := v_records t; v_links := v_links t;
  v_alerts := v_alerts t; v_checkpoint := v_checkpoint t; v_health := h |}.

Definition record_types : list string := ["shortcut"; "incident"; "health"; "action"; "correlation"].
Definition auxiliary_types : list string := ["health"; "action"; "correlation"].

Definition unique_failed (column : string) : exn := IntegrityError ("UNIQUE constraint failed: " +:+ column).

(** The [INSERT]s, under the constraints of the schema. *)
Definition insert_record (id type occurred payload previous digest now : string) (t : Evidence) : res Evidence :=
  raise_if (negb (one_of type record_types)) (IntegrityError "CHECK constraint failed: record_type");;
  raise_if (one_of id (cr_record_id <$> v_records t)) (unique_failed "clickfix_records.record_id");;
  raise_if (one_of digest (cr_record_digest <$> v_records t)) (unique_failed "clickfix_records.record_digest");;
  Ok (set_records (v_sequence t + 1) (v_records t ++ [{|
    cr_sequence := v_sequence t + 1; cr_record_id := id; cr_record_type := type; cr_occurred_at := occurred;
    cr_payload_json := payload; cr_previous_digest := previous; cr_record_digest := digest; cr_created_at := now |}]) t).

Definition insert_link (incident_id event_id : string) (t : Evidence) : res Evidence :=
  raise_if (one_of event_id (snd <$> v_links t)) (unique_failed "clickfix_links.shortcut_event_id");;
  Ok (set_links (v_links t ++ [(incident_id, event_id)]) t).

Definition insert_alert (a : alert_row) (t : Evidence) : res Evidence :=
  raise_if (one_of (cl_alert_id a) (cl_alert_id <$> v_alerts t)) (unique_failed "clickfix_alerts.alert_id");;
  Ok (set_alerts (v_alerts t ++ [a]) t).

Definition new_alert_row (a : ClickFixAlert) (event_id : string) (payload : json_text) (now : string) : alert_row := {|
  cl_alert_id := ca_alert_id a; cl_event_id := event_id; cl_incident_id := ca_incident_id a;
  cl_severity := ca_severity a; cl_title := ca_title a; cl_message := ca_message a; cl_payload := payload;
  cl_persistent := ca_persistent a; cl_acknowledged_at := None; cl_acknowledged_by := None;
  cl_acknowledgment_reason := None; cl_created_at := now |}.

(** [UPDATE clickfix_alerts SET acknowledged_... WHERE alert_id=?] *)
Definition acknowledge_row (id now actor reason : string) (r : alert_row) : alert_row :=
  if String.eqb (cl_alert_id r) id then {|
    cl_alert_id := cl_alert_id r; cl_event_id := cl_event_id r; cl_incident_id := cl_incident_id r;
    cl_severity := cl_severity r; cl_title := cl_title r; cl_message := cl_message r; cl_payload := cl_payload r;
    cl_persistent := cl_persistent r; cl_acknowledged_at := Some now; cl_acknowledged_by := Some actor;
    cl_acknowledgment_reason := Some reason; cl_created_at := cl_created_at r |}
  else r.

Definition acknowledge_alert (id now actor reason : string) (t : Evidence) : Evidence :=
  set_alerts (acknowledge_row id now actor reason <$> v_alerts t) t.

Definition pending (r : alert_row) : bool := match cl_acknowledged_at r with None => true | Some _ => false end.

Definition last_digest (t : Evidence) : string := default GENESIS (cr_record_digest <$> last (v_records t)).

(** ** The operations *)

Record verification := {
  vf_valid : bool;
  vf_error_code : string;
  vf_sequence : option Z;             (** of the first record that fails *)
  vf_records_verified : Z;
  vf_head_digest : option string
}.

(** A column of JSON: what [json.dumps] writes there, and [json.loads] reads back. *)
Definition json_loads_column (t : json_text) : res pyval :=
  match t with JsonOf v => Ok v | NotJson _ => Raise (ValueError "Expecting value") end.

Section Store.
Context `{StoreEnv}.

(** The canonical text in a column that is only read back as JSON. *)
Definition canonical_column (v : pyval) : res json_text :=
  canonical_json v;; json_column v.

(** [hashlib.sha256(previous + record_type + payload_json).hexdigest()] *)
Definition record_digest (previous type payload : string) : string := sha256 (previous +:+ type +:+ payload).

(** [_append] *)
Definition append (record_id record_type occurred_at : string) (payload : pyval) : M EvidenceDb string :=
  previous ← sql_read last_digest;
  payload_json ← lift_res (canonical_json payload);
  let digest := record_digest previous record_type payload_json in
  now ← utc_now;
  sql_write_checked (insert_record record_id record_type occurred_at payload_json previous digest now);;
  count ← sql_read (fun t => zlen (v_records t));
  sql_write (set_checkpoint (Some {| cp_record_count := count; cp_head_digest := digest; cp_updated_at := now |}));;
  mret digest.

(** [{**payload, "integrity_digest": ""}] *)
Definition blank_digest (d : pydict) : pyval := VDict (dset "integrity_digest" (VStr "") d).

Definition append_incident (event : ClickFixShortcutEvent) (incident : ClickFixIncident) : M EvidenceDb ClickFixIncident :=
  digest ← append (ci_incident_id incident) "incident" (isoformat_utc (ci_created_at_utc incident))
             (blank_digest (incident_dict incident));
  sql_write_checked (insert_link (ci_incident_id incident) (ce_event_id event));;
  mret (stored_incident digest incident).

Definition add_alert (event_id : string) (a : ClickFixAlert) : M EvidenceDb unit :=
  payload ← lift_res (canonical_column (VDict (alert_dict a)));
  now ← utc_now;
  sql_write_checked (insert_alert (new_alert_row a event_id payload now)).

Fixpoint add_alerts (event_id : string) (alerts : list ClickFixAlert) : M EvidenceDb unit :=
  match alerts with
  | [] => mret tt
  | a :: alerts' => add_alert event_id a;; add_alerts event_id alerts'
  end.

Definition detection_body (event : ClickFixShortcutEvent) (incident : option ClickFixIncident) (alerts : list ClickFixAlert)
  : M EvidenceDb (ClickFixShortcutEvent * option ClickFixIncident) :=
  digest ← append (ce_event_id event) "shortcut" (isoformat_utc (ce_detected_at_utc event)) (blank_digest (event_dict event));
  now ← utc_instant;
  stored ← match incident with
           | Some i => i' ← append_incident event i; mret (Some i')
           | None => mret None
           end;
  add_alerts (ce_event_id event) alerts;;
  mret (stored_event digest now event, stored).

Definition persist_detection event incident alerts := with_connection (detection_body event incident alerts).

(** [str(payload.get("occurred_at") or now)] *)
Definition append_auxiliary (record_id record_type : string) (payload : pydict) : M EvidenceDb string :=
  if negb (one_of record_type auxiliary_types) then raise_st (ValueError "unsupported auxiliary record type")
  else
    occurred ← (if truthy_val (vget "occurred_at" payload) then mret (py_str (vget "occurred_at" payload)) else utc_now);
    with_connection (append record_id record_type occurred (VDict payload)).

Definition health_title (error_code : string) : string :=
  match error_code with
  | "CFX009_CLASSIFIER_SIGNATURE_INVALID" => "ClickFix Classifier Integrity Degraded"
  | "CFX010_EVENT_TAP_DISABLED" => "ClickFix Guard Event Tap Disabled"
  | "CFX011_EVENT_TAP_TIMEOUT" => "ClickFix Guard Event Tap Timed Out"
  | "CFX013_EVENT_QUEUE_OVERFLOW" => "ClickFix Guard Event Queue Overflow"
  | "CFX014_EVIDENCE_PERSISTENCE_FAILED" => "ClickFix Evidence Persistence Failed"
  | _ => "ClickFix Guard Sensor Health Warning"
  end.

Definition health_severity (error_code : string) : string :=
  if String.eqb error_code "CFX014_EVIDENCE_PERSISTENCE_FAILED" then "critical" else "high".

Definition health_message (error_code : string) : string :=
  "ClickFix Guard reported " +:+ error_code +:+ ". Protection is degraded until sensor health is restored.".

Definition health_alert_id (record_id : string) : string := "cfx-alert-" +:+ sprefix 24 (sha256 record_id).

Definition health_alert_dict (record_id error_code now : string) (payload : pyval) : pydict := [
  ("alert_id", VStr (health_alert_id record_id)); ("event_id", VStr record_id);
  ("severity", VStr (health_severity error_code)); ("title", VStr (health_title error_code));
  ("message", VStr (health_message error_code)); ("description", VStr (health_message error_code));
  ("persistent", VBool true); ("timestamp", VStr now); ("error_code", VStr error_code); ("sensor_health", payload)].

Definition health_alert_row (record_id error_code now : string) (payload : json_text) : alert_row := {|
  cl_alert_id := health_alert_id record_id; cl_event_id := record_id; cl_incident_id := None;
  cl_severity := health_severity error_code; cl_title := health_title error_code;
  cl_message := health_message error_code; cl_payload := payload; cl_persistent := true;
  cl_acknowledged_at := None; cl_acknowledged_by := None; cl_acknowledgment_reason := None; cl_created_at := now |}.

(** [json_extract(payload_json, '$.error_code')], where it is a text *)
Definition extracted_code (t : json_text) : res (option string) :=
  match t with
  | NotJson _ => Raise (OperationalError "malformed JSON")
  | JsonOf (VDict d) =>
      match dget "error_code" d with
      | Some (VStr s) => Ok (Some s)
      | Some (VList _ as v) | Some (VDict _ as v) => text ← json_dumps compact_style v; Ok (Some text)
      | _ => Ok None
      end
  | JsonOf _ => Ok None
  end.

(** [SELECT 1 ... WHERE acknowledged_at IS NULL AND json_extract(...) = ? LIMIT 1] *)
Fixpoint code_pending (error_code : string) (rows : list alert_row) : res bool :=
  match rows with
  | [] => Ok false
  | r :: rows' =>
      if negb (pending r) then code_pending error_code rows'
      else
        code ← extracted_code (cl_payload r);
        if bool_decide (code = Some error_code) then Ok true else code_pending error_code rows'
  end.

Definition health_alert_body (record_id error_code now : string) (payload : pyval) : M EvidenceDb unit :=
  append record_id "health" now
    (VDict [("error_code", VStr error_code); ("native_health", payload); ("occurred_at", VStr now)]);;
  found ← sql_read (fun t => code_pending error_code (v_alerts t));
  existing ← lift_res found;
  if (existing : bool) then mret tt
  else
    column ← lift_res (canonical_column (VDict (health_alert_dict record_id error_code now payload)));
    sql_write_checked (insert_alert (health_alert_row record_id error_code now column)).

Definition persist_health_alert (record_id error_code : string) (payload : pyval) : M EvidenceDb unit :=
  now ← utc_now;
  with_connection (health_alert_body record_id error_code now payload).

(** [str(json.loads(payload_json).get("error_code", ""))]; a text that is no JSON is skipped. *)
Definition row_code (t : json_text) : res (option string) :=
  match t with
  | NotJson _ => Ok None
  | JsonOf (VDict d) => Ok (Some (py_str (dget_default (VStr "") "error_code" d)))
  | JsonOf _ => Raise (AttributeError "'get'")
  end.

Fixpoint reconcile_rows (active : list string) (now : string) (rows : list alert_row) (resolved : Z) : M EvidenceDb Z :=
  match rows with
  | [] => mret resolved
  | r :: rows' =>
      code ← lift_res (row_code (cl_payload r));
      match code with
      | None => reconcile_rows active now rows' resolved
      | Some c =>
          if negb (truthy c) || one_of c active then reconcile_rows active now rows' resolved
          else
            sql_write (acknowledge_alert (cl_alert_id r) now "sensor-health-recovery"
              (c +:+ " cleared by a subsequent native health snapshot."));;
            reconcile_rows active now rows' (resolved + 1)
      end
  end.

Definition reconcile_health_alerts (active : list string) : M EvidenceDb Z :=
  now ← utc_now;
  with_connection (
    rows ← sql_read (fun t => filter (fun r => pending r = true) (v_alerts t));
    reconcile_rows active now rows 0).

Definition by_created (a b : alert_row) : bool := str_le (cl_created_at a) (cl_created_at b).

Definition pending_alerts : M EvidenceDb (list pyval) :=
  rows ← sql_read (fun t => sort_by by_created (filter (fun r => pending r = true) (v_alerts t)));
  lift_res (res_map (fun r => json_loads_column (cl_payload r)) rows).

Definition acknowledge_body (alert_id action_id now actor reason : string) : M EvidenceDb unit :=
  row ← sql_read (fun t => find_first (fun r => String.eqb (cl_alert_id r) alert_id) (v_alerts t));
  match row with
  | None => raise_st (KeyError alert_id)
  | Some r =>
      if negb (pending r) then mret tt
      else
        sql_write (acknowledge_alert alert_id now actor reason);;
        append action_id "action" now
          (VDict [("action", VStr "ACKNOWLEDGE_POTENTIAL_CLICKFIX"); ("alert_id", VStr alert_id); ("actor", VStr actor);
                  ("reason", VStr reason); ("occurred_at", VStr now)]);;
        mret tt
  end.

Definition acknowledge (alert_id actor reason : string) : M EvidenceDb unit :=
  if blank actor || blank reason then raise_st (ValueError "actor and reason are required")
  else
    now ← utc_now;
    with_connection (acknowledge_body alert_id ("cfx-action-" +:+ sprefix 24 (sha256 (alert_id +:+ now))) now actor reason).

Fixpoint set_health_items (now : string) (items : pydict) : M EvidenceDb unit :=
  match items with
  | [] => mret tt
  | (key, value) :: items' =>
      column ← lift_res (canonical_column value);
      sql_write (fun t => set_health_rows (dset key (column, now) (v_health t)) t);;
      set_health_items now items'
  end.

Definition set_health (payload : pydict) : M EvidenceDb unit :=
  now ← utc_now;
  with_connection (set_health_items now payload).

Definition health : M EvidenceDb pydict :=
  rows ← sql_read v_health;
  lift_res (res_map (fun kv => v ← json_loads_column kv.2.1; Ok (kv.1, v)) rows).

(** *** [verify] *)

Definition row_ok (previous : string) (r : record_row) : bool :=
  String.eqb (cr_previous_digest r) previous
  && String.eqb (cr_record_digest r) (record_digest previous (cr_record_type r) (cr_payload_json r)).

(** The sequence of the first row that fails, or the head; and how many passed. *)
Fixpoint verify_rows (previous : string) (count : Z) (rows : list record_row) : (Z + string) * Z :=
  match rows with
  | [] => (inr previous, count)
  | r :: rows' =>
      if row_ok previous r then verify_rows (cr_record_digest r) (count + 1) rows'
      else (inl (cr_sequence r), count)
  end.

Definition checkpoint_ok (c : option checkpoint_row) (count : Z) (head : string) : bool :=
  match c with
  | None => count =? 0
  | Some c => (cp_record_count c =? count) && String.eqb (cp_head_digest c) head
  end.

Definition broken_at (sequence count : Z) : verification := {|
  vf_valid := false; vf_error_code := "CFX014_EVIDENCE_PERSISTENCE_FAILED"; vf_sequence := Some sequence;
  vf_records_verified := count; vf_head_digest := None |}.

Definition verify : M EvidenceDb verification :=
  rows ← sql_read v_records;
  match verify_rows GENESIS 0 rows with
  | (inl sequence, count) => mret (broken_at sequence count)
  | (inr head, count) =>
      checkpoint ← sql_read v_checkpoint;
      let valid := checkpoint_ok checkpoint count head in
      mret {| vf_valid := valid;
              vf_error_code := if valid then "" else "CFX014_EVIDENCE_PERSISTENCE_FAILED"; vf_sequence := None;
              vf_records_verified := count; vf_head_digest := Some head |}
  end.
End Store.
