(* ===== verification/ClickFixService.v ===== *)
(** The decisions of the ClickFix guard: [clickfix/service.py], [policy.py], and the
    enumerations of [models.py].

    The service reads an envelope of the native agent, keeps it as evidence, and says
    whether the agent may let the shortcut through. It remembers the incidents a process
    started soon after may belong to. Its memory survives an exception. *)

From S2P Require Import Prelude PyStr PyFloat PyDict PyJson PyTime Sql PyRepr ClickFixEvidence.
From Stdlib Require Import Ascii.

(** ** [GuardProfile] and [ClickFixPolicy] *)

Inductive GuardProfile := G_DISABLED | G_AUDIT | G_WARN | G_PROTECT | G_HIGH_ASSURANCE.

#[export] Instance guard_profile_eq_dec : EqDecision GuardProfile.
Proof. solve_decision. Defined.

Record ClickFixPolicy := {
  gp_profile : GuardProfile;
  gp_show_medium_alerts : bool;
  gp_clipboard_quarantine : bool;
  gp_fail_closed : bool;
  gp_correlation_window_seconds : Z;
  gp_notification_enabled : bool;
  gp_endpoint_security_containment : bool
}.

Definition for_profile (profile : GuardProfile) : ClickFixPolicy := {|
  gp_profile := profile;
  gp_show_medium_alerts := bool_decide (profile ∈ [G_WARN; G_PROTECT; G_HIGH_ASSURANCE]);
  gp_clipboard_quarantine := bool_decide (profile = G_HIGH_ASSURANCE);
  gp_fail_closed := bool_decide (profile = G_HIGH_ASSURANCE);
  gp_correlation_window_seconds := 120;
  gp_notification_enabled := negb (bool_decide (profile = G_DISABLED));
  gp_endpoint_security_containment := false |}.

Definition protect (p : ClickFixPolicy) : bool := bool_decide (gp_profile p ∈ [G_PROTECT; G_HIGH_ASSURANCE]).

(** ** Classifications, by their text *)

Definition CLASSIFICATION_FAILED : string := "CLASSIFICATION_FAILED".

Definition RISKY : list string :=
  ["COMMAND_LIKE"; "SCRIPT_LIKE"; "ENCODED_COMMAND"; "DOWNLOAD_AND_EXECUTE"; "SECURITY_IMPAIRMENT";
   "CREDENTIAL_ACCESS"; "PERSISTENCE_COMMAND"; "POTENTIAL_CLICKFIX"].

(** [_risk] *)
Definition risk (classification : string) : float :=
  if one_of classification ["SECURITY_IMPAIRMENT"; "CREDENTIAL_ACCESS"] then flit 10 1
  else if String.eqb classification "ENCODED_COMMAND" then flit 99 10
  else if String.eqb classification "DOWNLOAD_AND_EXECUTE" then flit 98 10
  else if one_of classification ["COMMAND_LIKE"; "SCRIPT_LIKE"] then flit 95 10
  else if String.eqb classification "SOURCE_CODE_FRAGMENT" then flit 9 1
  else if String.eqb classification CLASSIFICATION_FAILED then flit 75 10
  else flit 5 1.

Definition newline : string := String (ascii_of_nat 10) "".

Definition CRITICAL_TITLE : string := "Potential ClickFix Command Detected".
Definition CRITICAL_MESSAGE : string :=
  "Command or script content was present on the clipboard when Command +" +:+ newline
  +:+ "Space was pressed. Do not paste or execute the clipboard contents." +:+ newline +:+ newline
  +:+ "MSAA has recorded this event as a potential ClickFix social-engineering" +:+ newline
  +:+ "incident. Review the evidence and contact the appropriate security or" +:+ newline
  +:+ "incident-response team.".
Definition TEST_TITLE : string := "SYNTHETIC CLICKFIX TEST — NO REAL INCIDENT DETECTED".

(** ** The service *)

(** What it meets outside besides the database: identifiers, the monotonic clock, the
    reading of decimal texts. *)
Class ClickFixEnv := {
  #[global] clickfix_store :: StoreEnv;
  uuid_hex : nat -> string;                     (** [uuid4().hex] *)
  monotonic_ns : nat -> Z;                      (** [time.monotonic_ns()] *)
  float_of_text : string -> option float        (** [float(s)] of a text *)
}.

Record Service := {
  sv_store : EvidenceDb;
  sv_active : list (string * Z)    (** open incidents, by the instant their window ends *)
}.

Inductive Outcome :=
| Ignored                           (** [accepted] is false: a replay of our own *)
| Accepted (event_id : string) (incident_id : option string) (replay_shortcut suppress_shortcut
    quarantine_clipboard native_notification_required : bool) (disposition : string).

Section ServiceDef.
Context `{ClickFixEnv} (policy : ClickFixPolicy).

(** A call of the store: its effect survives when it raises. *)
Definition in_store {A} (m : M EvidenceDb A) : M Service A := fun s =>
  let (r, w) := m (sv_store s) in (r, {| sv_store := w; sv_active := sv_active s |}).

Definition ask_env {A} (f : nat -> A) : M Service A := in_store (fun w => (Ok (f (ticks w)), tick w)).

Definition set_active (d : list (string * Z)) (s : Service) : Service := {| sv_store := sv_store s; sv_active := d |}.

(** [_parse_time]: the instant; a text that is no datetime is now. *)
Definition parse_time (v : pyval) : M Service Z :=
  match fromisoformat (replace_zulu (py_str v)) with
  | Some d => lift_res (instant_in_range (instant d))
  | None => ask_env utc_clock
  end.

(** [str(envelope.get(k) or fallback)] *)
Definition text_or (k fallback : string) (envelope : pydict) : string :=
  if truthy_val (vget k envelope) then py_str (vget k envelope) else fallback.

(** [str(envelope.get(k) or prefix + uuid4().hex)] *)
Definition id_or_fresh (k prefix : string) (envelope : pydict) : M Service string :=
  if truthy_val (vget k envelope) then mret (py_str (vget k envelope))
  else id ← ask_env uuid_hex; mret (prefix +:+ id).

(** [tuple(str(item) for item in envelope.get(k, ()))] *)
Definition texts_of (k : string) (envelope : pydict) : res (list string) :=
  items ← py_iter (dget_default (VTuple []) k envelope);
  Ok (py_str <$> (items : list pyval)).

Definition flag (k : string) (envelope : pydict) : bool := truthy_val (vget k envelope).

Definition access_state_of (envelope : pydict) : string :=
  text_or "clipboard_access_state" "CLIPBOARD_ACCESS_UNKNOWN" envelope.
Definition classification_of (envelope : pydict) : string :=
  text_or "clipboard_classification" CLASSIFICATION_FAILED envelope.

(** The clipboard could not be inspected. *)
Definition inspection_unavailable (envelope : pydict) : bool :=
  negb (String.eqb (access_state_of envelope) "CLIPBOARD_ACCESS_GRANTED")
  || String.eqb (classification_of envelope) CLASSIFICATION_FAILED.

Definition is_risky (envelope : pydict) : bool :=
  one_of (classification_of envelope) RISKY && negb (inspection_unavailable envelope).

Definition build_event (event_id : string) (detected : Z) (envelope : pydict) : M Service ClickFixShortcutEvent :=
  let unavailable := inspection_unavailable envelope in
  monotonic ← (if flag "monotonic_timestamp_ns" envelope then lift_res (py_int (vget "monotonic_timestamp_ns" envelope))
               else ask_env monotonic_ns);
  key_code ← lift_res (py_int (dget_default (VInt 49) "key_code" envelope));
  modifier_flags ← lift_res (py_int (dget_default (VInt 0) "modifier_flags" envelope));
  now ← ask_env utc_clock;
  missing ← lift_res (texts_of "missing_telemetry" envelope);
  mret {|
    ce_event_id := event_id; ce_schema_version := 1; ce_detected_at_utc := detected;
    ce_monotonic_timestamp_ns := monotonic; ce_key_code := key_code; ce_modifier_flags := modifier_flags;
    ce_physical_event := truthy_val (dget_default (VBool true) "physical_event" envelope);
    ce_replay_event := false;
    ce_foreground_pid := vget "foreground_pid" envelope;
    ce_foreground_bundle_id := vget "foreground_bundle_id" envelope;
    ce_foreground_signing_identifier := vget "foreground_signing_identifier" envelope;
    ce_clipboard_change_count := vget "clipboard_change_count" envelope;
    ce_clipboard_access_state := access_state_of envelope;
    ce_clipboard_classification := classification_of envelope;
    ce_clipboard_sha256 := vget "clipboard_sha256" envelope;
    ce_clipboard_byte_length := vget "clipboard_byte_length" envelope;
    ce_classifier_version := vget "classifier_version" envelope;
    ce_msaa_incident_risk_score := if unavailable then flit 75 10 else flit 5 1;
    ce_severity := if unavailable then "high" else "medium";
    ce_sensor_mode := py_str (dget_default (VStr "OBSERVE") "sensor_mode" envelope);
    ce_input_monitoring_state := py_str (dget_default (VStr "INPUT_MONITORING_UNKNOWN") "input_monitoring_state" envelope);
    ce_accessibility_state := py_str (dget_default (VStr "ACCESSIBILITY_UNKNOWN") "accessibility_state" envelope);
    ce_persisted_at_utc := now; ce_integrity_digest := "";
    ce_foreground_team_identifier := vget "foreground_team_identifier" envelope;
    ce_audit_session_id := vget "audit_session_id" envelope;
    ce_console_user := vget "console_user" envelope;
    ce_display_session := vget "display_session" envelope;
    ce_spotlight_suppressed := truthy_val (dget_default (VBool false) "spotlight_suppressed" envelope);
    ce_missing_telemetry := missing |}.

Definition build_incident (incident_id event_id : string) (detected : Z) (envelope : pydict) : res ClickFixIncident :=
  confidence ← py_float float_of_text (dget_default (VFloat (flit 8 10)) "confidence" envelope);
  categories ← texts_of "matched_categories" envelope;
  Ok {|
    ci_incident_id := incident_id; ci_shortcut_event_id := event_id; ci_disposition := "POTENTIAL_CLICKFIX";
    ci_created_at_utc := detected; ci_first_seen_utc := detected; ci_last_seen_utc := detected;
    ci_severity := "critical"; ci_risk_score := risk (classification_of envelope); ci_confidence := confidence;
    ci_command_categories := categories; ci_attack_mappings := ["T1204.004"];
    ci_clipboard_quarantined := truthy_val (dget_default (VBool false) "clipboard_quarantined" envelope);
    ci_spotlight_suppressed := truthy_val (dget_default (VBool false) "spotlight_suppressed" envelope);
    ci_terminal_launch_observed := false; ci_follow_on_execution_observed := false;
    ci_containment_status := "NOT_REQUESTED"; ci_acknowledgment_status := "UNACKNOWLEDGED"; ci_integrity_digest := "" |}.

(** [_alert], of an incident *)
Definition build_alert (event_id incident_id : string) (envelope : pydict) : M Service ClickFixAlert :=
  let test := flag "test_event" envelope in
  let message := if test then TEST_TITLE +:+ newline +:+ newline +:+ CRITICAL_MESSAGE else CRITICAL_MESSAGE in
  id ← ask_env uuid_hex;
  timestamp ← (if flag "detected_at_utc" envelope then mret (py_str (vget "detected_at_utc" envelope))
               else in_store utc_now);
  categories ← lift_res (py_iter (dget_default (VTuple []) "matched_categories" envelope));
  mret {|
    ca_alert_id := "cfx-alert-" +:+ id; ca_event_id := event_id; ca_incident_id := Some incident_id;
    ca_severity := "critical"; ca_title := if test then TEST_TITLE else CRITICAL_TITLE; ca_message := message;
    ca_persistent := true;
    ca_others := [
      ("description", VStr message); ("timestamp", VStr timestamp);
      ("foreground_application", vget "foreground_bundle_id" envelope);
      ("clipboard_classification", vget "clipboard_classification" envelope);
      ("clipboard_sha256", vget "clipboard_sha256" envelope); ("redacted_preview", vget "redacted_preview" envelope);
      ("risk_categories", VList categories); ("attack_mapping", VStr "T1204.004");
      ("sensor_confidence", vget "confidence" envelope);
      ("permission_state", VDict [
        ("input_monitoring", vget "input_monitoring_state" envelope);
        ("accessibility", vget "accessibility_state" envelope);
        ("clipboard", vget "clipboard_access_state" envelope)]);
      ("spotlight_suppressed", VBool (flag "spotlight_suppressed" envelope));
      ("clipboard_quarantined", VBool (flag "clipboard_quarantined" envelope));
      ("terminal_execution_observed", VBool false); ("disposition", VStr "POTENTIAL_CLICKFIX")] |}.

(** The incident of a risky shortcut and its alert; from then on the incident is open. *)
Definition open_incident (event_id : string) (detected : Z) (envelope : pydict)
  : M Service (ClickFixIncident * ClickFixAlert) :=
  incident_id ← id_or_fresh "incident_id" "cfx-incident-" envelope;
  incident ← lift_res (build_incident incident_id event_id detected envelope);
  alert ← build_alert event_id incident_id envelope;
  expires ← lift_res (instant_in_range (detected + gp_correlation_window_seconds policy * 1000000));
  modify_st (fun s => set_active (dset incident_id expires (sv_active s)) s);;
  mret (incident, alert).

(** [json.dumps(envelope, ensure_ascii=True)] *)
Definition envelope_style : json_style := {| sort_keys := false; item_sep := ", "; key_sep := ": "; ensure_ascii := true |}.

Definition check_envelope (envelope : pydict) : res unit :=
  version ← py_int (dget_default (VInt 0) "schema_version" envelope);
  raise_if (negb (version =? 1)) (ValueError "CFX012_XPC_AUTHENTICATION_FAILED: unsupported protocol");;
  text ← json_dumps envelope_style (VDict envelope);
  raise_if (262144 <? slen text) (ValueError "CFX012_XPC_AUTHENTICATION_FAILED: envelope too large").

Definition outcome_of (event_id : string) (incident_id : option string) (envelope : pydict) : Outcome :=
  let risky := is_risky envelope in
  let unavailable := inspection_unavailable envelope in
  let fail_closed := unavailable && gp_fail_closed policy in
  Accepted event_id incident_id
    (protect policy && negb risky && negb fail_closed)
    (protect policy && (risky || fail_closed))
    (risky && gp_clipboard_quarantine policy)
    (risky && gp_notification_enabled policy)
    (if risky then "POTENTIAL_CLICKFIX" else if unavailable then "INSPECTION_UNAVAILABLE" else "NONE").

(** [ingest_shortcut] *)
Definition ingest_shortcut (envelope : pydict) : M Service Outcome :=
  lift_res (check_envelope envelope);;
  if flag "replay_event" envelope then mret Ignored
  else
    event_id ← id_or_fresh "event_id" "cfx-event-" envelope;
    detected ← parse_time (vget "detected_at_utc" envelope);
    event ← build_event event_id detected envelope;
    opened ← (if is_risky envelope then o ← open_incident event_id detected envelope; mret (Some o) else mret None);
    stored ← in_store (persist_detection event (fst <$> opened) (match opened with Some (_, a) => [a] | None => [] end));
    mret (outcome_of (ce_event_id stored.1) (ci_incident_id <$> stored.2) envelope).

(** ** [correlate_process] *)

Definition RELEVANT_PROCESSES : list string :=
  ["terminal"; "iterm2"; "warp"; "alacritty"; "kitty"; "wezterm"; "bash"; "zsh"; "sh"; "osascript"; "python"; "python3"].

Definition correlation_payload (incident_id process : string) (now : Z) (audit_session_id : option Z) (categories : list string)
  : pydict := [
  ("incident_id", VStr incident_id); ("occurred_at", VStr (isoformat_utc now));
  ("audit_session_id", match audit_session_id with Some z => VInt z | None => VNone end); ("process", VStr process);
  ("categories", VTuple (VStr <$> categories)); ("disposition", VStr "POTENTIAL_CLICKFIX_EXECUTION_CHAIN")].

Fixpoint correlate_all (process : string) (now : Z) (audit_session_id : option Z) (categories : list string)
    (incidents : list (string * Z)) : M Service (list string) :=
  match incidents with
  | [] => mret []
  | (incident_id, expires) :: rest =>
      if expires <? now then
        modify_st (fun s => set_active (ddel incident_id (sv_active s)) s);;
        correlate_all process now audit_session_id categories rest
      else
        id ← ask_env uuid_hex;
        in_store (append_auxiliary ("cfx-correlation-" +:+ id) "correlation"
          (correlation_payload incident_id process now audit_session_id categories));;
        more ← correlate_all process now audit_session_id categories rest;
        mret (incident_id :: more)
  end.

(** [occurred_at] is given by its instant. *)
Definition correlate_process (occurred_at : Z) (audit_session_id : option Z) (process : string) (categories : list string)
  : M Service (list string) :=
  if one_of (lower process) RELEVANT_PROCESSES || negb (zlen categories =? 0) then
    s ← get_st;
    correlate_all process occurred_at audit_session_id categories (sv_active s)
  else mret [].
End ServiceDef.
