(* ===== verification/NativeJournal.v ===== *)
(** The consumer of the native agent's journal: [clickfix/native_journal.py], and its
    use by the command line ([cli.py]).

    The journal is the bytes of a file; what a text is as JSON is asked of
    [json_text_value]. *)

From S2P Require Import Prelude PyStr PyFloat PyDict PyJson PyTime Sql PyRepr License.
From S2P Require Import ClickFixEvidence ClickFixService.
From Stdlib Require Import Ascii.

(** [json.loads] of bytes: a value, [JSONDecodeError], or bytes in no encoding of text. *)
Inductive parsed := Parsed (v : pyval) | NoJson | NoText.

Class JournalEnv := {
  #[global] journal_clickfix :: ClickFixEnv;
  json_text_value : string -> parsed
}.

(** [FIELD_MAP] *)
Definition FIELD_MAP : list (string * string) := [
  ("schemaVersion", "schema_version"); ("eventID", "event_id"); ("incidentID", "incident_id");
  ("detectedAtUTC", "detected_at_utc"); ("monotonicTimestampNS", "monotonic_timestamp_ns");
  ("keyCode", "key_code"); ("modifierFlags", "modifier_flags"); ("physicalEvent", "physical_event");
  ("replayEvent", "replay_event"); ("foregroundPID", "foreground_pid"); ("foregroundBundleID", "foreground_bundle_id");
  ("foregroundSigningIdentifier", "foreground_signing_identifier");
  ("foregroundTeamIdentifier", "foreground_team_identifier"); ("clipboardChangeCount", "clipboard_change_count");
  ("clipboardAccessState", "clipboard_access_state"); ("clipboardClassification", "clipboard_classification");
  ("clipboardSHA256", "clipboard_sha256"); ("clipboardByteLength", "clipboard_byte_length");
  ("classifierVersion", "classifier_version"); ("matchedCategories", "matched_categories");
  ("redactedPreview", "redacted_preview"); ("sensorMode", "sensor_mode");
  ("inputMonitoringState", "input_monitoring_state"); ("accessibilityState", "accessibility_state");
  ("spotlightSuppressed", "spotlight_suppressed"); ("shortcutReplayed", "shortcut_replayed");
  ("clipboardQuarantined", "clipboard_quarantined"); ("testEvent", "test_event")].

(** [NativeJournalIntegrityError] *)
Definition INTEGRITY_ERROR : exn := RuntimeError "CFX014_EVIDENCE_PERSISTENCE_FAILED".

(** ** [verify_native_journal] *)

(** [data.splitlines()], of bytes; [line] holds what is read of the current line, backwards *)
Fixpoint split_lines (data : string) (line : list ascii) : list string :=
  match data with
  | EmptyString => match line with [] => [] | _ => [String.string_of_list_ascii (rev line)] end
  | String c data' =>
      if code c =? 10 then String.string_of_list_ascii (rev line) :: split_lines data' []
      else if code c =? 13 then
        String.string_of_list_ascii (rev line)
        :: match data' with
           | String d data'' => if code d =? 10 then split_lines data'' [] else split_lines data' []
           | EmptyString => []
           end
      else split_lines data' (c :: line)
  end.

Fixpoint ends_with_newline (s : string) : bool :=
  match s with
  | EmptyString => false
  | String c "" => code c =? 10
  | String _ s' => ends_with_newline s'
  end.

(** The lines that are complete. *)
Definition journal_lines (data : string) : list string :=
  let lines := split_lines data [] in
  if truthy data && negb (ends_with_newline data) then removelast lines else lines.

(** A verified record: what the consumer reads of it. *)
Record native_record := {
  nr_sequence : Z;
  nr_record_type : pyval;
  nr_record_id : pyval;
  nr_payload : pyval
}.

Definition is_text (v : pyval) (s : string) : bool := match v with VStr t => String.eqb t s | _ => false end.

(** [_canonical_payload_data] *)
Definition canonical_payload_data (record : pydict) : res string :=
  match dget "payload" record with
  | None => Raise INTEGRITY_ERROR
  | Some (VStr s) => match b64decode s with Some data => Ok data | None => Raise INTEGRITY_ERROR end
  | Some _ => Raise (TypeError "argument should be a bytes-like object or ASCII string")
  end.

Section Verify.
Context `{JournalEnv}.

(** One line: its digest and the record. *)
Definition verify_line (previous : string) (expected_sequence : Z) (raw_line : string) : res (string * native_record) :=
  match json_text_value raw_line with
  | NoJson => Raise INTEGRITY_ERROR
  | NoText => Raise (ValueError "codec can't decode bytes")
  | Parsed (VDict record) =>
      sequence ← py_int (dget_default (VInt 0) "sequence" record);
      raise_if (negb (sequence =? expected_sequence) || negb (is_text (vget "previousDigest" record) previous)) INTEGRITY_ERROR;;
      payload ← canonical_payload_data record;
      let record_type := py_str (dget_default (VStr "") "recordType" record) in
      raise_if (negb (all_chars (in_range 0 127) record_type)) (ValueError "'ascii' codec can't encode character");;
      let digest := sha256 (previous +:+ record_type +:+ payload) in
      raise_if (negb (is_text (vget "digest" record) digest)) INTEGRITY_ERROR;;
      match json_text_value payload with
      | Parsed decoded => Ok (digest, {| nr_sequence := sequence; nr_record_type := vget "recordType" record;
                                         nr_record_id := vget "recordID" record; nr_payload := decoded |})
      | NoJson => Raise (ValueError "Expecting value")
      | NoText => Raise (ValueError "codec can't decode bytes")
      end
  | Parsed _ => Raise (AttributeError "'get'")
  end.

Fixpoint verify_lines (previous : string) (expected_sequence : Z) (lines : list string) : res (list native_record) :=
  match lines with
  | [] => Ok []
  | raw_line :: lines' =>
      if negb (truthy raw_line) then verify_lines previous expected_sequence lines'
      else
        record ← verify_line previous expected_sequence raw_line;
        records ← verify_lines record.1 (expected_sequence + 1) lines';
        Ok (record.2 :: records)
  end.

(** Of a file that may not exist. *)
Definition verify_native_journal (data : option string) : res (list native_record) :=
  match data with
  | None => Ok []
  | Some data =>
      raise_if (33554432 <? slen data) INTEGRITY_ERROR;;
      verify_lines GENESIS 1 (journal_lines data)
  end.

(** ** [NativeJournalConsumer] *)

Context (policy : ClickFixPolicy).

(** [{FIELD_MAP.get(key, key): value for key, value in native.items()}] *)
Definition envelope_of (native : pydict) : pydict :=
  foldl (fun d kv => dset (dget_default kv.1 kv.1 FIELD_MAP) kv.2 d) [] native.

(** [if "UNIQUE constraint failed" not in str(exc): raise] *)
Definition unless_unique {A} (dflt : A) (m : M Service A) : M Service A :=
  try_except m (fun e => if contains "UNIQUE constraint failed" (exn_text e) then mret dflt else raise_st e).

Definition active_error_codes (payload : pydict) : list string :=
  (if flag "input_monitoring_granted" payload then [] else ["CFX003_INPUT_MONITORING_DENIED"])
  ++ (if flag "event_tap_active" payload then [] else ["CFX010_EVENT_TAP_DISABLED"])
  ++ (if flag "classifier_signature_valid" payload then [] else ["CFX009_CLASSIFIER_SIGNATURE_INVALID"]).

Definition consume_shortcut (r : native_record) : M Service (list Outcome) :=
  match nr_payload r with
  | VDict native => unless_unique [] (o ← ingest_shortcut policy (envelope_of native); mret [o])
  | _ => raise_st (AttributeError "'items'")
  end.

Definition consume_health (r : native_record) : M Service unit :=
  match nr_payload r with
  | VDict payload =>
      let error_code := py_str (dget_default (VStr "") "error_code" payload) in
      if truthy error_code then
        unless_unique tt (in_store (persist_health_alert (py_str (nr_record_id r)) error_code (VDict payload)))
      else
        in_store (set_health payload);;
        in_store (reconcile_health_alerts (active_error_codes payload));;
        mret tt
  | _ => raise_st (AttributeError "'get'")
  end.

Definition consume_record (r : native_record) : M Service (list Outcome) :=
  if is_text (nr_record_type r) "shortcut" then consume_shortcut r
  else if is_text (nr_record_type r) "health" then consume_health r;; mret []
  else mret [].

(** The records after [last]; the last sequence seen, and the outcomes. *)
Fixpoint consume_all (last : Z) (records : list native_record) : M Service (Z * list Outcome) :=
  match records with
  | [] => mret (last, [])
  | r :: records' =>
      if nr_sequence r <=? last then consume_all last records'
      else
        o ← consume_record r;
        more ← consume_all (nr_sequence r) records';
        mret (more.1, o ++ more.2)
  end.

Definition bridge_state (last : Z) : pydict :=
  [("native_journal_last_sequence", VInt last); ("native_journal_integrity_valid", VBool true)].

Definition consume (data : option string) : M Service (list Outcome) :=
  h ← in_store health;
  last ← lift_res (py_int (dget_default (VInt 0) "native_journal_last_sequence" h));
  records ← lift_res (verify_native_journal data);
  done ← consume_all last records;
  in_store (set_health (bridge_state done.1));;
  mret done.2.

(** [_consume_native_health] of the command line: a journal that does not verify is noted. *)
Definition consume_native_health (data : option string) : M Service unit :=
  try_except (consume data;; mret tt) (fun e =>
    match e with
    | RuntimeError text => in_store (set_health
        [("native_journal_integrity_valid", VBool false); ("native_journal_error", VStr text)])
    | _ => raise_st e
    end).
End Verify.

Example split_lines_ex :
  let nl := String (ascii_of_nat 10) "" in let cr := String (ascii_of_nat 13) "" in
  journal_lines ("a" +:+ nl +:+ nl +:+ "b" +:+ cr +:+ nl +:+ "c") = ["a"; ""; "b"]
  /\ journal_lines ("a" +:+ nl) = ["a"] /\ journal_lines "" = [].
Proof. by vm_compute. Qed.
