(* ===== verification/ClickFixFacts.v ===== *)
(** The promises of the ClickFix guard: its evidence verifies after any run and agrees
    with its checkpoint, a shortcut goes through only once it is recorded and only when
    the policy lets it, and alerts of incidents are closed by hand. *)

From S2P Require Import Prelude PyStr PyFloat PyDict PyJson PyTime Sql PyRepr License ClickFixEvidence.
From S2P Require Import ClickFixService NativeJournal.
From Stdlib Require Import Ascii.

(** ** The chain *)

Section Chain.
Context `{StoreEnv}.

Fixpoint chained (previous : string) (rows : list record_row) : Prop :=
  match rows with
  | [] => True
  | r :: rows' => row_ok previous r = true /\ chained (cr_record_digest r) rows'
  end.

Lemma chained_snoc previous l r :
  chained previous (l ++ [r]) <-> chained previous l /\ row_ok (default previous (cr_record_digest <$> last l)) r = true.
Proof.
  revert previous. induction l as [|x l IH]; intros previous; [simpl; tauto|].
  cbn [app chained]. rewrite IH, default_last_cons. tauto.
Qed.

Lemma verify_chained previous count rows : chained previous rows ->
  verify_rows previous count rows = (inr (default previous (cr_record_digest <$> last rows)), count + zlen rows).
Proof.
  revert previous count. induction rows as [|r rows IH]; intros previous count.
  - intros _. cbn. f_equal. unfold zlen. simpl. lia.
  - intros [Hr Hc]. cbn [verify_rows]. rewrite Hr, IH by done. rewrite default_last_cons, zlen_cons. f_equal. lia.
Qed.

Lemma verify_rows_inr previous count rows head n : verify_rows previous count rows = (inr head, n) -> chained previous rows.
Proof.
  revert previous count. induction rows as [|r rows IH]; intros previous count; [done|]. cbn [verify_rows].
  destruct (row_ok previous r) eqn:Hr; [|done]. intros Hv. split; [done|]. by eapply IH.
Qed.

(** Records link up, the checkpoint counts them and names the head, and ids are unique. *)
Record evidence_ok (t : Evidence) : Prop := {
  eo_chained : chained GENESIS (v_records t);
  eo_checkpoint : checkpoint_ok (v_checkpoint t) (zlen (v_records t)) (last_digest t) = true;
  eo_ids : NoDup (cr_record_id <$> v_records t);
  eo_types : Forall (fun r => cr_record_type r ∈ record_types) (v_records t);
  eo_alert_ids : NoDup (cl_alert_id <$> v_alerts t)
}.

Lemma raise_if_then {A} c e (m : res A) a : (raise_if c e;; m) = Ok a -> c = false /\ m = Ok a.
Proof. by intros [H1%raise_if_ok H2]%res_bind_unit_ok. Qed.

Lemma not_one_of s l : one_of s l = false -> s ∉ l.
Proof. intros Hs Hin%one_of_spec. congruence. Qed.

Lemma insert_record_ok id type occurred payload previous digest now t t' :
  insert_record id type occurred payload previous digest now t = Ok t' ->
  type ∈ record_types /\ (id ∉ (cr_record_id <$> v_records t)) /\
  t' = set_records (v_sequence t + 1) (v_records t ++ [{|
    cr_sequence := v_sequence t + 1; cr_record_id := id; cr_record_type := type; cr_occurred_at := occurred;
    cr_payload_json := payload; cr_previous_digest := previous; cr_record_digest := digest; cr_created_at := now |}]) t.
Proof.
  unfold insert_record. intros [H1 [H2 [_ [= <-]]%raise_if_then]%raise_if_then]%raise_if_then.
  split; [by apply negb_false_iff, one_of_spec in H1|]. split; [by apply not_one_of|done].
Qed.

(** The tables after one more record. *)
Definition appended (id type occurred : string) (payload digest now : string) (t : Evidence) : Evidence :=
  let rows := v_records t ++ [{|
    cr_sequence := v_sequence t + 1; cr_record_id := id; cr_record_type := type; cr_occurred_at := occurred;
    cr_payload_json := payload; cr_previous_digest := last_digest t; cr_record_digest := digest; cr_created_at := now |}] in
  set_checkpoint (Some {| cp_record_count := zlen rows; cp_head_digest := digest; cp_updated_at := now |})
    (set_records (v_sequence t + 1) rows t).

Lemma append_ok id type occurred payload w digest w1 :
  append id type occurred payload w = (Ok digest, w1) ->
  exists text now, canonical_json payload = Ok text /\ digest = record_digest (last_digest (working w)) type text
    /\ type ∈ record_types /\ (id ∉ (cr_record_id <$> v_records (working w)))
    /\ working w1 = appended id type occurred text digest now (working w).
Proof.
  unfold append. intros (previous & w2 & [-> H2]%read_ok & Hw)%bind_ok.
  apply bind_ok in Hw as (text & w3 & [Htext ->]%lift_ok & Hw).
  apply bind_ok in Hw as (now & w4 & H4%now_ok & Hw).
  apply bind_ok in Hw as ([] & w5 & H5%checked_ok & Hw).
  apply bind_ok in Hw as (count & w6 & [-> H6]%read_ok & Hw).
  apply bind_ok in Hw as ([] & w7 & H7%write_ok & [= <- <-]).
  rewrite H4, H2 in H5. apply insert_record_ok in H5 as (Ht & Hid & H5). exists text, now.
  split; [done|]. split; [done|]. split; [done|]. split; [done|].
  rewrite H7, H6, H5. done.
Qed.

Lemma keeps_append id type occurred payload : keeps_committed (append id type occurred payload).
Proof. unfold append. repeat (apply keeps_bind; [auto with msaa|intros ?]). auto with msaa. Qed.

Lemma evidence_appended id type occurred text now t :
  evidence_ok t -> type ∈ record_types -> id ∉ (cr_record_id <$> v_records t) ->
  evidence_ok (appended id type occurred text (record_digest (last_digest t) type text) now t).
Proof.
  intros [Hc Hk Hid Hty Hal] Htype Hnew. split; cbn.
  - apply chained_snoc. split; [done|]. unfold row_ok. cbn. fold (last_digest t). by rewrite !String.eqb_refl.
  - unfold last_digest. cbn. rewrite last_snoc. cbn. by rewrite Z.eqb_refl, String.eqb_refl.
  - rewrite fmap_app. apply NoDup_app. split; [done|]. split; [|apply NoDup_singleton].
    by intros x Hx ->%list_elem_of_singleton.
  - apply Forall_app. split; [done|]. by apply Forall_cons.
  - done.
Qed.

Lemma advances_append id type occurred payload : advances evidence_ok (append id type occurred payload).
Proof. intros w d w1 (text & now & _ & -> & Ht & Hid & ->)%append_ok HI. by apply evidence_appended. Qed.

(** What leaves records, checkpoint and the ids of alerts alone. *)
Lemma evidence_same t t' : v_records t' = v_records t -> v_checkpoint t' = v_checkpoint t ->
  cl_alert_id <$> v_alerts t' = cl_alert_id <$> v_alerts t -> evidence_ok t -> evidence_ok t'.
Proof. intros H1 H2 H3 []. unfold last_digest in *. split; unfold last_digest; by rewrite ?H1, ?H2, ?H3. Qed.

Lemma evidence_link i e t t' : insert_link i e t = Ok t' -> evidence_ok t -> evidence_ok t'.
Proof. unfold insert_link. intros [_ [= <-]]%raise_if_then. by apply evidence_same. Qed.

Lemma evidence_alert a t t' : insert_alert a t = Ok t' -> evidence_ok t -> evidence_ok t'.
Proof.
  unfold insert_alert. intros [Hn [= <-]]%raise_if_then []. split; try done. cbn. rewrite fmap_app.
  apply NoDup_app. split; [done|]. split; [|apply NoDup_singleton].
  intros x Hx ->%list_elem_of_singleton. by apply not_one_of in Hn.
Qed.

Lemma acknowledge_ids id now actor reason (l : list alert_row) : cl_alert_id <$> (acknowledge_row id now actor reason <$> l) = cl_alert_id <$> l.
Proof.
  rewrite <- list_fmap_compose. apply list_fmap_ext. intros _ r _. cbn. unfold acknowledge_row. by destruct (String.eqb _ _).
Qed.

Lemma evidence_acknowledged id now actor reason t : evidence_ok t -> evidence_ok (acknowledge_alert id now actor reason t).
Proof. apply evidence_same; [done|done|]. apply acknowledge_ids. Qed.
End Chain.

#[export] Hint Resolve keeps_append advances_append evidence_link evidence_alert evidence_acknowledged : msaa.
#[export] Hint Resolve advances_checked advances_write : msaa.

(** ** Every operation of the store keeps its evidence in order *)

Section StoreOps.
Context `{StoreEnv}.

Lemma keeps_detection event incident alerts : keeps_committed (detection_body event incident alerts).
Proof.
  unfold detection_body. apply keeps_bind; [apply keeps_append|]. intros digest. apply keeps_bind; [auto with msaa|]. intros now.
  apply keeps_bind.
  - destruct incident as [i|]; [|auto with msaa]. apply keeps_bind; [|auto with msaa]. unfold append_incident.
    apply keeps_bind; [auto with msaa|]. intros d. apply keeps_bind; auto with msaa.
  - intros stored. apply keeps_bind; [|auto with msaa]. induction alerts as [|a alerts IH]; cbn; [auto with msaa|].
    apply keeps_bind; [|auto with msaa]. unfold add_alert. repeat (apply keeps_bind; [auto with msaa|intros ?]). auto with msaa.
Qed.

Lemma advances_add_alert event_id a : advances evidence_ok (add_alert event_id a).
Proof. unfold add_alert. repeat (apply advances_bind; [auto with msaa|intros ?]). apply advances_checked. intros t t'. apply evidence_alert. Qed.

Lemma advances_add_alerts event_id alerts : advances evidence_ok (add_alerts event_id alerts).
Proof.
  induction alerts as [|a alerts IH]; cbn; [auto with msaa|]. apply advances_bind; [apply advances_add_alert|]. auto.
Qed.

Lemma advances_incident event i : advances evidence_ok (append_incident event i).
Proof.
  unfold append_incident. apply advances_bind; [auto with msaa|]. intros d. apply advances_bind; [|auto with msaa].
  apply advances_checked. intros t t'. apply evidence_link.
Qed.

Lemma advances_detection event incident alerts : advances evidence_ok (detection_body event incident alerts).
Proof.
  unfold detection_body. apply advances_bind; [auto with msaa|]. intros digest. apply advances_bind; [auto with msaa|].
  intros now. apply advances_bind.
  - destruct incident as [i|]; [|auto with msaa]. apply advances_bind; [apply advances_incident|auto with msaa].
  - intros stored. apply advances_bind; [apply advances_add_alerts|auto with msaa].
Qed.

Lemma settled_persist event incident alerts : preserves (settled evidence_ok) (persist_detection event incident alerts).
Proof. apply with_connection_settled; [apply keeps_detection|apply advances_detection]. Qed.

Lemma settled_auxiliary id type payload : preserves (settled evidence_ok) (append_auxiliary id type payload).
Proof.
  unfold append_auxiliary. destruct (negb _); [auto with msaa|]. apply preserves_bind.
  - destruct (truthy_val _); auto with msaa.
  - intros occurred. apply with_connection_settled; auto with msaa.
Qed.

Lemma keeps_health_alert id code now payload : keeps_committed (health_alert_body id code now payload).
Proof.
  unfold health_alert_body. repeat (apply keeps_bind; [auto with msaa|intros ?]). case_match; [auto with msaa|].
  apply keeps_bind; auto with msaa.
Qed.

Lemma advances_health_alert id code now payload : advances evidence_ok (health_alert_body id code now payload).
Proof.
  unfold health_alert_body. repeat (apply advances_bind; [auto with msaa|intros ?]). case_match; [auto with msaa|].
  apply advances_bind; [auto with msaa|]. intros column. apply advances_checked. intros t t'. apply evidence_alert.
Qed.

Lemma settled_health_alert id code payload : preserves (settled evidence_ok) (persist_health_alert id code payload).
Proof.
  unfold persist_health_alert. apply preserves_bind; [auto with msaa|]. intros now.
  apply with_connection_settled; [apply keeps_health_alert|apply advances_health_alert].
Qed.

Lemma reconcile_keeps active now rows n : keeps_committed (reconcile_rows active now rows n).
Proof.
  revert n. induction rows as [|r rows IH]; intros n; cbn; [auto with msaa|]. apply keeps_bind; [auto with msaa|].
  intros [c|]; [|done]. destruct (_ || _); [done|]. apply keeps_bind; auto with msaa.
Qed.

Lemma reconcile_advances (I : Evidence -> Prop) active now rows n :
  (forall id actor reason t, I t -> I (acknowledge_alert id now actor reason t)) -> advances I (reconcile_rows active now rows n).
Proof.
  intros HI. revert n. induction rows as [|r rows IH]; intros n; cbn; [auto with msaa|]. apply advances_bind; [auto with msaa|].
  intros [c|]; [|done]. destruct (_ || _); [done|]. apply advances_bind; [|done]. apply advances_write. auto.
Qed.

Lemma settled_reconcile active : preserves (settled evidence_ok) (reconcile_health_alerts active).
Proof.
  unfold reconcile_health_alerts. apply preserves_bind; [auto with msaa|]. intros now. apply with_connection_settled.
  - apply keeps_bind; [auto with msaa|]. intros rows. apply reconcile_keeps.
  - apply advances_bind; [auto with msaa|]. intros rows. apply reconcile_advances. auto with msaa.
Qed.

Lemma settled_acknowledge id actor reason : preserves (settled evidence_ok) (acknowledge id actor reason).
Proof.
  unfold acknowledge. destruct (_ || _); [auto with msaa|]. apply preserves_bind; [auto with msaa|]. intros now.
  apply with_connection_settled; unfold acknowledge_body.
  - apply keeps_bind; [auto with msaa|]. intros [r|]; [|auto with msaa]. destruct (negb _); [auto with msaa|].
    apply keeps_bind; [auto with msaa|]. intros []. apply keeps_bind; auto with msaa.
  - apply advances_bind; [auto with msaa|]. intros [r|]; [|auto with msaa]. destruct (negb _); [auto with msaa|].
    apply advances_bind; [apply advances_write; auto with msaa|]. intros []. apply advances_bind; auto with msaa.
Qed.

Lemma health_items_keeps now items : keeps_committed (set_health_items now items).
Proof.
  induction items as [|[k v] items IH]; cbn; [auto with msaa|]. apply keeps_bind; [auto with msaa|]. intros column.
  apply keeps_bind; auto with msaa.
Qed.

Lemma health_items_advances (I : Evidence -> Prop) now items :
  (forall h t, I t -> I (set_health_rows h t)) -> advances I (set_health_items now items).
Proof.
  intros HI. induction items as [|[k v] items IH]; cbn; [auto with msaa|]. apply advances_bind; [auto with msaa|].
  intros column. apply advances_bind; [|done]. apply advances_write. auto.
Qed.

Lemma settled_set_health payload : preserves (settled evidence_ok) (set_health payload).
Proof.
  unfold set_health. apply preserves_bind; [auto with msaa|]. intros now. apply with_connection_settled.
  - apply health_items_keeps.
  - apply health_items_advances. intros h t. by apply evidence_same.
Qed.

Lemma settled_health : preserves (settled evidence_ok) health.
Proof. unfold health. apply preserves_bind; auto with msaa. Qed.
End StoreOps.

#[export] Hint Resolve settled_persist settled_auxiliary settled_health_alert settled_reconcile settled_acknowledge
  settled_set_health settled_health : msaa.

(** ** The service and the consumer, over any invariant of the store

    What they do to the database goes through the store's operations, so an invariant
    that each of these keeps is one that both keep. *)

Class TickInvariant (I : EvidenceDb -> Prop) := { si_tick : forall w, I w -> I (tick w) }.

Class StoreInvariant `{StoreEnv} (I : EvidenceDb -> Prop) := {
  #[global] si_ticks :: TickInvariant I;
  si_persist : forall event incident alerts, preserves I (persist_detection event incident alerts);
  si_auxiliary : forall id type payload, preserves I (append_auxiliary id type payload);
  si_health_alert : forall id code payload, preserves I (persist_health_alert id code payload);
  si_reconcile : forall active, preserves I (reconcile_health_alerts active);
  si_set_health : forall payload, preserves I (set_health payload);
  si_health : preserves I health
}.

#[export] Instance evidence_invariant `{StoreEnv} : StoreInvariant (settled evidence_ok).
Proof. split; auto with msaa. split. by intros w Hw. Qed.

Section Clients.
Context `{JournalEnv} (I : EvidenceDb -> Prop) `{!TickInvariant I} (policy : ClickFixPolicy).

Definition holds_in_store (s : Service) : Prop := I (sv_store s).

Lemma in_store_keeps {A} (m : M EvidenceDb A) : preserves I m -> preserves holds_in_store (in_store m).
Proof.
  intros Hm s Hs. specialize (Hm _ Hs). unfold in_store. destruct (m (sv_store s)) as [[a|e] w]; done.
Qed.

Lemma ask_keeps {A} (f : nat -> A) : preserves holds_in_store (ask_env f).
Proof. apply in_store_keeps. intros w Hw. by apply si_tick. Qed.

Lemma active_keeps f : preserves holds_in_store (modify_st (fun s => set_active (f s) s)).
Proof. by apply preserves_modify. Qed.

Lemma now_keeps : preserves holds_in_store (in_store utc_now).
Proof. apply in_store_keeps. intros w Hw. by apply si_tick. Qed.

#[local] Hint Resolve ask_keeps active_keeps now_keeps : msaa.

(** What comes before the database is asked. *)

Lemma id_keeps k prefix envelope : preserves holds_in_store (id_or_fresh k prefix envelope).
Proof. unfold id_or_fresh. destruct (truthy_val _); [auto with msaa|]. apply preserves_bind; auto with msaa. Qed.

Lemma parse_time_keeps v : preserves holds_in_store (parse_time v).
Proof. unfold parse_time. destruct (fromisoformat _); auto with msaa. Qed.

Lemma event_keeps id detected envelope : preserves holds_in_store (build_event id detected envelope).
Proof.
  unfold build_event. apply preserves_bind; [destruct (flag _ _); auto with msaa|]. intros monotonic.
  repeat (apply preserves_bind; [auto with msaa|intros ?]). auto with msaa.
Qed.

Lemma alert_keeps event_id incident_id envelope : preserves holds_in_store (build_alert event_id incident_id envelope).
Proof.
  unfold build_alert. apply preserves_bind; [auto with msaa|]. intros id.
  apply preserves_bind; [destruct (flag _ _); auto with msaa|]. intros stamp. apply preserves_bind; auto with msaa.
Qed.

Lemma open_keeps event_id detected envelope : preserves holds_in_store (open_incident policy event_id detected envelope).
Proof.
  unfold open_incident. apply preserves_bind; [apply id_keeps|]. intros incident_id. apply preserves_bind; [auto with msaa|].
  intros incident. apply preserves_bind; [apply alert_keeps|]. intros alert. apply preserves_bind; [auto with msaa|].
  intros expires. apply preserves_bind; auto with msaa.
Qed.

End Clients.

Section StoreClients.
Context `{JournalEnv} (I : EvidenceDb -> Prop) `{!StoreInvariant I} (policy : ClickFixPolicy).
#[local] Abbreviation holds_in_store := (holds_in_store I).

#[local] Instance store_ticks : TickInvariant I := si_ticks.

Lemma store_ask {A} (f : nat -> A) : preserves holds_in_store (ask_env f).
Proof. apply (ask_keeps I). Qed.

Lemma store_active f : preserves holds_in_store (modify_st (fun s => set_active (f s) s)).
Proof. apply (active_keeps I). Qed.

#[local] Hint Resolve store_ask store_active : msaa.

Lemma ingest_keeps envelope : preserves holds_in_store (ingest_shortcut policy envelope).
Proof.
  unfold ingest_shortcut. apply preserves_bind; [auto with msaa|]. intros []. destruct (flag _ _); [auto with msaa|].
  apply preserves_bind; [apply (id_keeps I)|]. intros event_id. apply preserves_bind; [apply (parse_time_keeps I)|].
  intros detected. apply preserves_bind; [apply (event_keeps I)|]. intros event. apply preserves_bind.
  - destruct (is_risky _); [|auto with msaa]. apply preserves_bind; [apply (open_keeps I)|auto with msaa].
  - intros opened. apply preserves_bind; [apply (in_store_keeps I), si_persist|auto with msaa].
Qed.

Lemma correlate_keeps occurred session process categories :
  preserves holds_in_store (correlate_process occurred session process categories).
Proof.
  unfold correlate_process. destruct (_ || _); [|auto with msaa]. apply preserves_bind; [auto with msaa|]. intros s.
  induction (sv_active s) as [|[incident expires] rest IH]; cbn [correlate_all]; [auto with msaa|]. destruct (_ <? _).
  - apply preserves_bind; [auto with msaa|done].
  - apply preserves_bind; [auto with msaa|]. intros id. apply preserves_bind; [apply (in_store_keeps I), si_auxiliary|].
    intros d. apply preserves_bind; auto with msaa.
Qed.

Lemma unless_unique_keeps {A} dflt (m : M Service A) : preserves holds_in_store m -> preserves holds_in_store (unless_unique dflt m).
Proof. intros Hm. unfold unless_unique. apply preserves_try; [done|]. intros e. destruct (contains _ _); auto with msaa. Qed.

Lemma consume_record_keeps r : preserves holds_in_store (consume_record policy r).
Proof.
  unfold consume_record. destruct (is_text _ _).
  { unfold consume_shortcut. destruct (nr_payload r); try (auto with msaa). apply unless_unique_keeps.
    apply preserves_bind; [apply ingest_keeps|auto with msaa]. }
  destruct (is_text _ _); [|auto with msaa]. apply preserves_bind; [|auto with msaa]. unfold consume_health.
  destruct (nr_payload r) as [| | | | | | | |payload|]; try (auto with msaa). destruct (truthy _).
  - apply unless_unique_keeps, (in_store_keeps I), si_health_alert.
  - apply preserves_bind; [apply (in_store_keeps I), si_set_health|]. intros [].
    apply preserves_bind; [apply (in_store_keeps I), si_reconcile|auto with msaa].
Qed.

Lemma consume_all_keeps last records : preserves holds_in_store (consume_all policy last records).
Proof.
  revert last. induction records as [|r records IH]; intros last; cbn; [auto with msaa|]. destruct (_ <=? _); [done|].
  apply preserves_bind; [apply consume_record_keeps|]. intros o. apply preserves_bind; auto with msaa.
Qed.

Lemma consume_keeps data : preserves holds_in_store (consume policy data).
Proof.
  unfold consume. apply preserves_bind; [apply (in_store_keeps I), si_health|]. intros h.
  apply preserves_bind; [auto with msaa|]. intros last. apply preserves_bind; [auto with msaa|]. intros records.
  apply preserves_bind; [apply consume_all_keeps|]. intros fin.
  apply preserves_bind; [apply (in_store_keeps I), si_set_health|auto with msaa].
Qed.

Lemma consume_noted_keeps data : preserves holds_in_store (consume_native_health policy data).
Proof.
  unfold consume_native_health. apply preserves_try; [apply preserves_bind; [apply consume_keeps|auto with msaa]|].
  intros []; try (auto with msaa). apply (in_store_keeps I), si_set_health.
Qed.
End StoreClients.

(** ** Runs of the guard *)

Inductive guard_op :=
| Ingest (envelope : pydict)
| Correlate (occurred_at : Z) (audit_session_id : option Z) (process : string) (categories : list string)
| Consume (journal : option string)
| ConsumeNoted (journal : option string)
| Acknowledge (alert_id actor reason : string)
| Restart.                          (** a new service on the same database *)

Section Runs.
Context `{JournalEnv} (policy : ClickFixPolicy).

Definition run_op (o : guard_op) : M Service unit :=
  match o with
  | Ingest envelope => ingest_shortcut policy envelope;; mret tt
  | Correlate occurred session process categories => correlate_process occurred session process categories;; mret tt
  | Consume journal => consume policy journal;; mret tt
  | ConsumeNoted journal => consume_native_health policy journal
  | Acknowledge alert_id actor reason => in_store (acknowledge alert_id actor reason)
  | Restart => modify_st (set_active [])
  end.

(** Operations one after the other, whatever becomes of each. *)
Definition run_ops (ops : list guard_op) (s : Service) : Service := foldl (fun s o => (run_op o s).2) s ops.

Lemma run_op_keeps (I : EvidenceDb -> Prop) `{!StoreInvariant I} o :
  (forall id actor reason, o = Acknowledge id actor reason -> preserves I (acknowledge id actor reason)) ->
  preserves (holds_in_store I) (run_op o).
Proof.
  intros Ha. destruct o as [envelope|occurred session process categories|journal|journal|id actor reason|]; cbn.
  - apply preserves_bind; [by apply ingest_keeps|auto with msaa].
  - apply preserves_bind; [by apply correlate_keeps|auto with msaa].
  - apply preserves_bind; [by apply consume_keeps|auto with msaa].
  - by apply consume_noted_keeps.
  - by apply (in_store_keeps I), (Ha id actor reason).
  - by apply preserves_modify.
Qed.

Lemma run_ops_keeps (I : EvidenceDb -> Prop) `{!StoreInvariant I} ops s :
  (forall id actor reason, Acknowledge id actor reason ∈ ops -> preserves I (acknowledge id actor reason)) ->
  I (sv_store s) -> I (sv_store (run_ops ops s)).
Proof.
  revert s. induction ops as [|o ops IH]; intros s Ha Hs; [done|]. cbn. apply IH.
  - intros id actor reason Hin. apply (Ha id actor reason). by right.
  - assert (Ho : preserves (holds_in_store I) (run_op o)).
    { apply run_op_keeps; [done|]. intros id actor reason ->. apply Ha. by left. }
    specialize (Ho s Hs). by destruct (run_op o s) as [[]].
Qed.
End Runs.

(** ** The evidence verifies *)

(** A service on a new database. *)
Definition new_service : Service :=
  {| sv_store := {| committed := no_evidence; working := no_evidence; in_tx := false; ticks := 0 |}; sv_active := [] |}.

Lemma no_evidence_ok `{StoreEnv} : evidence_ok no_evidence.
Proof. split; [done|done| | |]; constructor. Qed.

Lemma new_service_settled `{StoreEnv} : settled evidence_ok (sv_store new_service).
Proof. split; [done|]. apply no_evidence_ok. Qed.

Lemma verify_settled `{StoreEnv} w : settled evidence_ok w ->
  match verify w with
  | (Ok v, _) => vf_valid v = true /\ vf_records_verified v = zlen (v_records (committed w))
                 /\ vf_head_digest v = Some (last_digest (committed w))
  | (Raise e, _) => e = sql_error
  end.
Proof.
  intros [[_ Hw] [Hc Hk _ _ _]]. unfold verify, mbind, M_bind, sql_read. destruct (stmt_ok _); [|done]. rewrite Hw.
  rewrite verify_chained by done. fold (last_digest (committed w)). cbn [tick working ticks]. rewrite Hw, Z.add_0_l.
  destruct (stmt_ok _); [|done]. cbn [mret M_ret]. by rewrite Hk.
Qed.

(** Whatever the guard is made to do on its database, with any statements failing,
    the evidence verifies: [verify] finds every record in place and the checkpoint
    naming their number and the last digest. *)
Theorem evidence_always_verifies `{JournalEnv} (policy : ClickFixPolicy) (ops : list guard_op) :
  let w := sv_store (run_ops policy ops new_service) in
  match verify w with
  | (Ok v, _) => vf_valid v = true /\ vf_records_verified v = zlen (v_records (committed w))
                 /\ vf_head_digest v = Some (last_digest (committed w))
  | (Raise e, _) => e = sql_error
  end.
Proof.
  intros w. apply verify_settled. apply (run_ops_keeps policy (settled evidence_ok)); [auto with msaa|].
  apply new_service_settled.
Qed.

(** ** What the chain makes evident *)

(** [hexdigest()] is 64 characters. *)
Class DigestLength `{PlatformEnv} := { sha256_length : forall m, String.length (sha256 m) = 64%nat }.

Definition content (r : record_row) : string * string := (cr_record_type r, cr_payload_json r).

Lemma app_inj_length (a b c d : string) : String.length a = String.length b -> a +:+ c = b +:+ d -> a = b /\ c = d.
Proof.
  revert b. induction a as [|x a IH]; intros [|y b]; try done.
  intros [= Hl] Heq. change (String x (a +:+ c) = String y (b +:+ d)) in Heq.
  injection Heq as -> Heq. destruct (IH _ Hl Heq) as [-> ->]. done.
Qed.

(** No type of record begins another, so the text that is hashed can be told apart. *)
Lemma types_apart t1 t2 p1 p2 : t1 ∈ record_types -> t2 ∈ record_types -> t1 +:+ p1 = t2 +:+ p2 -> t1 = t2 /\ p1 = p2.
Proof.
  unfold record_types. rewrite !elem_of_cons, !elem_of_nil.
  intros [->|[->|[->|[->|[->|[]]]]]] [->|[->|[->|[->|[->|[]]]]]]; try discriminate; intros Ht;
    (split; [done|]); by repeat (injection Ht as Ht).
Qed.

Section Tampering.
Context `{StoreEnv} `{!DigestLength}.

Lemma row_ok_digest p r : row_ok p r = true -> cr_record_digest r = record_digest p (cr_record_type r) (cr_payload_json r).
Proof. unfold row_ok. intros [_ Hd]%andb_true_iff. by apply String.eqb_eq. Qed.

Lemma last_length l : chained GENESIS l -> String.length (default GENESIS (cr_record_digest <$> last l)) = 64%nat.
Proof.
  destruct l as [|r l _] using rev_ind; [done|]. intros [_ Hr]%chained_snoc. rewrite last_snoc. cbn.
  rewrite (row_ok_digest _ _ Hr). apply sha256_length.
Qed.

Lemma evidence_chains_agree l1 l2 :
  chained GENESIS l1 -> chained GENESIS l2 ->
  Forall (fun r => cr_record_type r ∈ record_types) l1 -> Forall (fun r => cr_record_type r ∈ record_types) l2 ->
  length l1 = length l2 ->
  default GENESIS (cr_record_digest <$> last l1) = default GENESIS (cr_record_digest <$> last l2) ->
  content <$> l1 = content <$> l2 \/ sha256_collision.
Proof.
  revert l2. induction l1 as [|r1 l1 IH] using rev_ind; intros l2 H1 H2 T1 T2 Hlen Hlast.
  { destruct l2; [by left|done]. }
  destruct l2 as [|r2 l2 _] using rev_ind; [rewrite length_app in Hlen; simpl in Hlen; lia|].
  rewrite !length_app in Hlen. rewrite !last_snoc in Hlast. cbn in Hlast.
  apply chained_snoc in H1 as [H1 R1], H2 as [H2 R2]. apply Forall_app in T1 as [T1 T1'], T2 as [T2 T2'].
  apply Forall_cons in T1' as [T1' _], T2' as [T2' _]. rewrite (row_ok_digest _ _ R1), (row_ok_digest _ _ R2) in Hlast. unfold record_digest in Hlast.
  match type of Hlast with sha256 ?a = sha256 ?b => destruct (decide (a = b)) as [Hm|Hm]; [|right; by exists a, b] end.
  apply app_inj_length in Hm as [Hprev Hm]; [|by rewrite !last_length].
  apply (types_apart _ _ _ _ T1' T2') in Hm as [Ht Hp].
  destruct (IH l2 H1 H2 T1 T2 ltac:(simpl in Hlen; lia) Hprev) as [HF|?]; [|by right].
  left. rewrite !fmap_app, HF. unfold content. cbn. by rewrite Ht, Hp.
Qed.

Lemma verify_verdict w v w' : verify w = (Ok v, w') -> vf_sequence v = None ->
  chained GENESIS (v_records (working w)) /\ vf_records_verified v = zlen (v_records (working w))
  /\ vf_head_digest v = Some (last_digest (working w)).
Proof.
  unfold verify. intros (rows & w1 & [-> Hw]%read_ok & Hv)%bind_ok Hs.
  destruct (verify_rows GENESIS 0 (v_records (working w))) as [[sequence|head] count] eqn:Hr; [by injection Hv as <- _|].
  pose proof (verify_rows_inr _ _ _ _ _ Hr) as Hc. rewrite verify_chained in Hr by done. injection Hr as <- <-.
  apply bind_ok in Hv as (checkpoint & w2 & _ & Hv). injection Hv as <- _. by rewrite Z.add_0_l.
Qed.

(** Two databases that get the same valid verdict, the same number of records and the
    same head, hold the same records in the same order as far as type and payload go,
    unless SHA-256 collides: changing, dropping, adding or moving a record shows
    against a checkpoint kept elsewhere. *)
Theorem same_verdict_same_evidence w1 w2 v w1' w2' :
  verify w1 = (Ok v, w1') -> verify w2 = (Ok v, w2') -> vf_valid v = true ->
  Forall (fun r => cr_record_type r ∈ record_types) (v_records (working w1)) ->
  Forall (fun r => cr_record_type r ∈ record_types) (v_records (working w2)) ->
  content <$> v_records (working w1) = content <$> v_records (working w2) \/ sha256_collision.
Proof.
  intros H1 H2 Hv T1 T2.
  assert (Hs : vf_sequence v = None).
  { unfold verify in H1. apply bind_ok in H1 as (rows & w3 & _ & H1). destruct (verify_rows _ _ _) as [[]].
    - injection H1 as <- _. done.
    - apply bind_ok in H1 as (c & w4 & _ & H1). by injection H1 as <- _. }
  apply verify_verdict in H1 as (C1 & N1 & D1), H2 as (C2 & N2 & D2); [|done|done].
  apply evidence_chains_agree; try done.
  - unfold zlen in *. lia.
  - rewrite D2 in D1. injection D1 as D1. exact (eq_sym D1).
Qed.
End Tampering.

(** What passes the ClickFix guard is on record: the decision on a shortcut follows the
    commit, incident alerts wait for a person, and the journal is taken over record by
    record - unless one of them cannot be read. *)

(** ** What a detection leaves in the tables *)

Definition recorded (id type : string) (t : Evidence) : Prop :=
  exists r, r ∈ v_records t /\ cr_record_id r = id /\ cr_record_type r = type.

Definition linked (incident_id event_id : string) (t : Evidence) : Prop := (incident_id, event_id) ∈ v_links t.

Section Detection.
Context `{StoreEnv}.

(** Not the alert of a sensor's health: it names no error code. *)
Definition uncoded (t : json_text) : Prop := forall c, row_code t = Ok (Some c) -> truthy c = false.

(** A pending alert of an incident. *)
Definition alerted (alert_id event_id : string) (incident_id : option string) (severity : string) (t : Evidence) : Prop :=
  exists r, r ∈ v_alerts t /\ cl_alert_id r = alert_id /\ cl_event_id r = event_id
    /\ cl_incident_id r = incident_id /\ cl_severity r = severity /\ pending r = true /\ uncoded (cl_payload r).

Lemma uncoded_column d p : dget "error_code" d = None -> canonical_column (VDict d) = Ok p -> uncoded p.
Proof.
  intros Hd Hp. unfold canonical_column in Hp. apply res_bind_ok in Hp as (text & _ & Hp). unfold json_column in Hp.
  apply res_bind_ok in Hp as (v & Hv & [= <-]). cbn [json_value] in Hv.
  apply res_bind_ok in Hv as (kvs & Hk%res_map_Forall2 & [= <-]). intros c. cbn.
  assert (Hn : dget "error_code" (sort_by key_le kvs) = None).
  { apply dget_None. unfold keys. rewrite sort_by_perm. apply dget_None in Hd. unfold keys in Hd.
    replace (fst <$> kvs) with (fst <$> d); [done|]. clear -Hk. induction Hk as [|[k x] [k' y] d kvs Hxy _ IH]; [done|].
    apply res_bind_ok in Hxy as (z & _ & [= <- <-]). cbn. by rewrite IH. }
  unfold dget_default. rewrite Hn. by intros [= <-].
Qed.

(** A property of the tables that inserts only make truer. *)
Record grows (I : Evidence -> Prop) : Prop := {
  gr_append : forall id type occurred text digest now t, I t -> I (appended id type occurred text digest now t);
  gr_link : forall i e t, I t -> I (set_links (v_links t ++ [(i, e)]) t);
  gr_alert : forall a t, I t -> I (set_alerts (v_alerts t ++ [a]) t)
}.

Lemma recorded_grows id type : grows (recorded id type).
Proof.
  split; try done. intros i ty occurred text digest now t (r & Hr & Hi). exists r. split; [|done].
  cbn. apply elem_of_app. by left.
Qed.

Lemma linked_grows i e : grows (linked i e).
Proof. split; try done. intros i' e' t Hl. unfold linked in *. cbn. apply elem_of_app. by left. Qed.

Lemma alerted_grows a e i s : grows (alerted a e i s).
Proof. split; try done. intros a' t (r & Hr & Hi). exists r. split; [|done]. cbn. apply elem_of_app. by left. Qed.

Context (I : Evidence -> Prop) (HI : grows I).

Lemma grows_record id type occurred payload : advances I (append id type occurred payload).
Proof. intros w d w1 (text & now & _ & _ & _ & _ & ->)%append_ok. by apply HI. Qed.

Lemma insert_link_ok i e t t' : insert_link i e t = Ok t' -> t' = set_links (v_links t ++ [(i, e)]) t.
Proof. unfold insert_link. by intros [_ [= <-]]%raise_if_then. Qed.

Lemma insert_alert_ok a t t' : insert_alert a t = Ok t' -> t' = set_alerts (v_alerts t ++ [a]) t.
Proof. unfold insert_alert. by intros [_ [= <-]]%raise_if_then. Qed.

Lemma grows_link i e : advances I (sql_write_checked (insert_link i e)).
Proof. apply advances_checked. intros t t' ->%insert_link_ok. by apply HI. Qed.

Lemma grows_alert a : advances I (sql_write_checked (insert_alert a)).
Proof. apply advances_checked. intros t t' ->%insert_alert_ok. by apply HI. Qed.

Lemma grows_incident event i : advances I (append_incident event i).
Proof.
  unfold append_incident. apply advances_bind; [apply grows_record|]. intros d. apply advances_bind; [apply grows_link|].
  auto with msaa.
Qed.

Lemma grows_add_alert event_id a : advances I (add_alert event_id a).
Proof. unfold add_alert. repeat (apply advances_bind; [auto with msaa|intros ?]). apply grows_alert. Qed.

Lemma grows_alerts event_id alerts : advances I (add_alerts event_id alerts).
Proof. induction alerts as [|a alerts IH]; cbn; [auto with msaa|]. apply advances_bind; [apply grows_add_alert|done]. Qed.
End Detection.

Section Detected.
Context `{StoreEnv}.

Lemma append_recorded id type occurred payload w d w1 :
  append id type occurred payload w = (Ok d, w1) -> recorded id type (working w1).
Proof.
  intros (text & now & _ & _ & _ & _ & ->)%append_ok. eexists. cbn.
  split; [apply elem_of_app; right; by apply list_elem_of_singleton|done].
Qed.

Lemma incident_recorded event i w i' w1 : append_incident event i w = (Ok i', w1) ->
  recorded (ci_incident_id i) "incident" (working w1) /\ linked (ci_incident_id i) (ce_event_id event) (working w1)
  /\ ci_incident_id i' = ci_incident_id i.
Proof.
  unfold append_incident. intros (d & w2 & H2%append_recorded & Hw)%bind_ok.
  apply bind_ok in Hw as ([] & w3 & H3%checked_ok & [= <- <-]). apply insert_link_ok in H3 as ->. split; [done|].
  split; [|done]. unfold linked. cbn. apply elem_of_app. right. by apply list_elem_of_singleton.
Qed.

Lemma alerts_raised event_id alerts w w1 a : add_alerts event_id alerts w = (Ok tt, w1) -> a ∈ alerts ->
  dget "error_code" (alert_dict a) = None ->
  alerted (ca_alert_id a) event_id (ca_incident_id a) (ca_severity a) (working w1).
Proof.
  revert w. induction alerts as [|x alerts IH]; intros w; [by intros _ ?%elem_of_nil|]. cbn [add_alerts].
  intros ([] & w2 & Hx & Hw)%bind_ok [->|Ha]%elem_of_cons Hcode; [|by eapply IH].
  eapply grows_alerts; [apply alerted_grows|exact Hw|]. unfold add_alert in Hx.
  apply bind_ok in Hx as (payload & w3 & [Hp ->]%lift_ok & Hx). apply bind_ok in Hx as (now & w4 & H4%now_ok & H5%checked_ok).
  apply insert_alert_ok in H5 as ->. eexists. cbn.
  split; [apply elem_of_app; right; by apply list_elem_of_singleton|]. do 5 (split; [done|]). by eapply uncoded_column.
Qed.

(** A detection that returns has its record, its incident with the link, and its alerts. *)
Lemma detection_ok event incident alerts w e i w1 : detection_body event incident alerts w = (Ok (e, i), w1) ->
  ce_event_id e = ce_event_id event
  /\ recorded (ce_event_id event) "shortcut" (working w1)
  /\ ci_incident_id <$> i = ci_incident_id <$> incident
  /\ (forall x, incident = Some x -> recorded (ci_incident_id x) "incident" (working w1)
                                     /\ linked (ci_incident_id x) (ce_event_id event) (working w1))
  /\ Forall (fun a => dget "error_code" (alert_dict a) = None -> alerted (ca_alert_id a) (ce_event_id event) (ca_incident_id a) (ca_severity a) (working w1)) alerts.
Proof.
  unfold detection_body. intros (d & w2 & H2%append_recorded & Hw)%bind_ok.
  apply bind_ok in Hw as (now & w3 & H3%instant_ok & Hw). rewrite <- H3 in H2.
  apply bind_ok in Hw as (stored & w4 & H4 & Hw). apply bind_ok in Hw as ([] & w5 & H5 & [= <- <- <-]).
  split; [done|]. assert (Hinc : recorded (ce_event_id event) "shortcut" (working w4)
    /\ ci_incident_id <$> stored = ci_incident_id <$> incident
    /\ forall x, incident = Some x -> recorded (ci_incident_id x) "incident" (working w4)
                                     /\ linked (ci_incident_id x) (ce_event_id event) (working w4)).
  { destruct incident as [x|]; [|injection H4 as <- <-; done].
    apply bind_ok in H4 as (x' & w6 & H6 & [= <- <-]). split.
    - eapply grows_incident; [apply recorded_grows|exact H6|done].
    - apply incident_recorded in H6 as (Hr & Hl & Hi). split; [cbn; by rewrite Hi|]. by intros ? [= <-]. }
  destruct Hinc as (Hr & Hi & Hx). split; [eapply grows_alerts; [apply recorded_grows|exact H5|done]|].
  split; [done|]. split.
  - intros x Hin. destruct (Hx x Hin) as [Hrx Hlx]. split.
    + eapply grows_alerts; [apply recorded_grows|exact H5|done].
    + eapply grows_alerts; [apply linked_grows|exact H5|done].
  - apply Forall_forall. intros a Ha. by eapply alerts_raised.
Qed.
End Detected.

(** ** The decision on a shortcut *)

Section Ingest.
Context `{JournalEnv} (policy : ClickFixPolicy).

(** Before the store is asked, its tables are as they were. *)
Definition untouched (t : Evidence) (w : EvidenceDb) : Prop := quiescent w /\ committed w = t.

#[export] Instance untouched_ticks t : TickInvariant (untouched t).
Proof. split. by intros w Hw. Qed.

Lemma in_store_run {A} (m : M EvidenceDb A) s r s' : in_store m s = (r, s') ->
  m (sv_store s) = (r, sv_store s') /\ sv_active s' = sv_active s.
Proof. unfold in_store. destruct (m (sv_store s)) as [r' w]. by intros [= <- <-]. Qed.

Lemma persist_untouched event incident alerts t w : untouched t w ->
  match persist_detection event incident alerts w with
  | (Ok a, w') => quiescent w' /\ exists w1, detection_body event incident alerts w = (Ok a, w1) /\ committed w' = working w1
  | (Raise _, w') => untouched t w'
  end.
Proof.
  intros [Hq Ht]. pose proof (with_connection_run (detection_body event incident alerts) w
    (keeps_detection event incident alerts) Hq) as Hr. unfold persist_detection.
  destruct (with_connection _ w) as [[a|e] w']; [done|]. destruct Hr as [Hq' Hc]. split; [done|]. by rewrite Hc.
Qed.

(** What has to be on record when a shortcut is accepted. *)
Definition on_record (event_id : string) (incident_id : option string) (envelope : pydict) (t : Evidence) : Prop :=
  recorded event_id "shortcut" t
  /\ if is_risky envelope
     then exists i a, incident_id = Some i /\ recorded i "incident" t /\ linked i event_id t
                      /\ alerted a event_id (Some i) "critical" t
     else incident_id = None.

Lemma open_incident_ids event_id detected envelope s i a s1 :
  open_incident policy event_id detected envelope s = (Ok (i, a), s1) ->
  dget "error_code" (alert_dict a) = None /\ ca_incident_id a = Some (ci_incident_id i) /\ ca_severity a = "critical".
Proof.
  unfold open_incident. intros (incident_id & s2 & _ & Hs)%bind_ok.
  apply bind_ok in Hs as (incident & s3 & [Hi ->]%lift_ok & Hs). apply bind_ok in Hs as (alert & s4 & Ha & Hs).
  apply bind_ok in Hs as (expires & s5 & _ & Hs). apply bind_ok in Hs as ([] & s6 & _ & [= <- <- <-]).
  unfold build_incident in Hi. apply res_bind_ok in Hi as (confidence & _ & Hi).
  apply res_bind_ok in Hi as (categories & _ & [= <-]). unfold build_alert in Ha.
  apply bind_ok in Ha as (id & s7 & _ & Ha). apply bind_ok in Ha as (stamp & s8 & _ & Ha).
  by apply bind_ok in Ha as (items & s9 & _ & [= <- <-]).
Qed.

Lemma build_event_id event_id detected envelope s e s1 :
  build_event event_id detected envelope s = (Ok e, s1) -> ce_event_id e = event_id.
Proof.
  unfold build_event. intros (a & sa & _ & Hs)%bind_ok. apply bind_ok in Hs as (b & sb & _ & Hs).
  apply bind_ok in Hs as (c & sc & _ & Hs). apply bind_ok in Hs as (d & sd & _ & Hs).
  by apply bind_ok in Hs as (f & sf & _ & [= <- <-]).
Qed.

(** What an accepted shortcut comes to. *)
Definition settled_outcome (envelope : pydict) (t : Evidence) (o : Outcome) (s : Service) : Prop :=
  match o with
  | Ignored => untouched t (sv_store s)
  | Accepted event_id incident_id _ _ _ _ _ =>
      quiescent (sv_store s) /\ o = outcome_of policy event_id incident_id envelope
      /\ on_record event_id incident_id envelope (committed (sv_store s))
  end.

(** What a risky shortcut opens belongs together. *)
Definition opened_for (envelope : pydict) (opened : option (ClickFixIncident * ClickFixAlert)) : Prop :=
  match opened with
  | Some (i, a) => is_risky envelope = true /\ dget "error_code" (alert_dict a) = None /\ ca_incident_id a = Some (ci_incident_id i) /\ ca_severity a = "critical"
  | None => is_risky envelope = false
  end.

(** The last step, from what was built. *)
Lemma persist_step event opened envelope t :
  triple (fun s => untouched t (sv_store s) /\ opened_for envelope opened)
    (stored ← in_store (persist_detection event (fst <$> opened) (match opened with Some (_, a) => [a] | None => [] end));
     mret (outcome_of policy (ce_event_id stored.1) (ci_incident_id <$> stored.2) envelope))
    (settled_outcome envelope t) (fun _ => holds_in_store (untouched t)).
Proof.
  intros s [Hs Hopened]. pose proof (persist_untouched event (fst <$> opened)
    (match opened with Some (_, a) => [a] | None => [] end) t (sv_store s) Hs) as Hp.
  unfold mbind, M_bind, in_store. destruct (persist_detection _ _ _ (sv_store s)) as [[[e i]|err] w]; [|done].
  destruct Hp as (Hq & w1 & (He & Hr & Hi & Hx & Ha)%detection_ok & Hw). cbn. split; [done|]. rewrite He.
  split; [done|]. rewrite Hw. split; [done|]. destruct opened as [[x a]|]; cbn in *.
  - destruct Hopened as (-> & Hcode & Hai & Hsev). exists (ci_incident_id x), (ca_alert_id a). destruct (Hx x eq_refl) as [Hrx Hlx].
    apply Forall_cons in Ha as [Ha _]. specialize (Ha Hcode). rewrite Hai, Hsev in Ha. by rewrite Hi.
  - by rewrite Hopened, Hi.
Qed.

Lemma ingest_triple envelope t :
  triple (holds_in_store (untouched t)) (ingest_shortcut policy envelope) (settled_outcome envelope t)
    (fun _ => holds_in_store (untouched t)).
Proof.
  unfold ingest_shortcut. apply triple_bind with (R := fun _ => holds_in_store (untouched t)); [apply preserves_lift|].
  intros []. destruct (flag "replay_event" envelope); [by apply triple_ret|].
  apply triple_bind with (R := fun _ => holds_in_store (untouched t)); [apply (id_keeps _)|]. intros event_id.
  apply triple_bind with (R := fun _ => holds_in_store (untouched t)); [apply (parse_time_keeps _)|]. intros detected.
  apply triple_bind with (R := fun _ => holds_in_store (untouched t)); [apply (event_keeps _)|]. intros event.
  apply triple_bind with (R := fun opened s => holds_in_store (untouched t) s /\ opened_for envelope opened).
  - destruct (is_risky envelope) eqn:Hrisky; [|by apply triple_ret]. intros s Hs.
    pose proof (open_keeps (untouched t) policy event_id detected envelope s Hs) as Hk. unfold mbind, M_bind.
    destruct (open_incident policy event_id detected envelope s) as [[[i a]|err] s1] eqn:Hopen; [|done].
    apply open_incident_ids in Hopen as (Hcode & Hi & Hsev). done.
  - intros opened. apply persist_step.
Qed.
End Ingest.

(** C12. A shortcut is let through only after the commit: when [ingest_shortcut] accepts an
    envelope its event is a committed record; a risky one also has its incident, the
    link and a pending critical alert there, all in the one transaction. The agent is
    told to replay the shortcut just when the profile protects, the content is not
    risky and an uninspected clipboard does not fail closed; where it protects and
    does not replay, it suppresses. A call that raises, or meets a replay of our
    own, leaves the database as it was. *)
Theorem shortcut_is_on_record_before_it_passes `{JournalEnv} (policy : ClickFixPolicy) (envelope : pydict) (s : Service) :
  quiescent (sv_store s) ->
  match ingest_shortcut policy envelope s with
  | (Ok (Accepted event_id incident_id replay suppress quarantine notify disposition), s') =>
      on_record event_id incident_id envelope (committed (sv_store s'))
      /\ (replay = true <-> protect policy = true /\ is_risky envelope = false
                           /\ (inspection_unavailable envelope = true -> gp_fail_closed policy = false))
      /\ suppress = protect policy && negb replay
  | (_, s') => quiescent (sv_store s') /\ committed (sv_store s') = committed (sv_store s)
  end.
Proof.
  intros Hq. pose proof (ingest_triple policy envelope (committed (sv_store s)) s (conj Hq eq_refl)) as Ht.
  destruct (ingest_shortcut policy envelope s) as [[[|e i replay suppress quarantine notify disposition]|err] s']; [done| |done].
  destruct Ht as (_ & Ho & Hr). injection Ho as -> -> -> -> ->. split; [done|].
  destruct (protect policy), (is_risky envelope), (inspection_unavailable envelope), (gp_fail_closed policy); cbn; naive_solver.
Qed.

(** ** Alerts of incidents wait for a person *)

Lemma fmap_unique {A B} (f : A -> B) (l : list A) x y : NoDup (f <$> l) -> x ∈ l -> y ∈ l -> f x = f y -> x = y.
Proof.
  induction l as [|z l IH]; cbn; [by intros _ ?%elem_of_nil|]. rewrite NoDup_cons.
  intros [Hz Hl] [->|Hx]%elem_of_cons [->|Hy]%elem_of_cons Hf; [done| | |by apply IH].
  - destruct Hz. rewrite Hf. apply list_elem_of_fmap. by exists y.
  - destruct Hz. rewrite <- Hf. apply list_elem_of_fmap. by exists x.
Qed.

Section Waiting.
Context `{JournalEnv}.

Definition held (id : string) (t : Evidence) : Prop :=
  exists r, r ∈ v_alerts t /\ cl_alert_id r = id /\ pending r = true /\ uncoded (cl_payload r).

Definition waits (id : string) (t : Evidence) : Prop := evidence_ok t /\ held id t.

Lemma held_grows id : grows (held id).
Proof. split; try done. intros a t (r & Hr & Hi). exists r. split; [|done]. cbn. apply elem_of_app. by left. Qed.

Lemma held_acknowledge id id' now actor reason t : id' <> id -> held id t -> held id (acknowledge_alert id' now actor reason t).
Proof.
  intros Hne (r & Hr & <- & Hp & Hu). exists r. split; [|done]. cbn. apply list_elem_of_fmap. exists r. split; [|done].
  unfold acknowledge_row. destruct (String.eqb_spec (cl_alert_id r) id'); [by subst|done].
Qed.

Lemma advances_and (I J : Evidence -> Prop) {A} (m : M EvidenceDb A) :
  advances I m -> advances J m -> advances (fun t => I t /\ J t) m.
Proof. intros HI HJ w a w1 Hw [H1 H2]. split; [by eapply HI|by eapply HJ]. Qed.

Lemma held_detection id event incident alerts : advances (held id) (detection_body event incident alerts).
Proof.
  unfold detection_body. apply advances_bind; [apply (grows_record _ (held_grows id))|]. intros digest.
  apply advances_bind; [auto with msaa|]. intros now. apply advances_bind.
  - destruct incident as [i|]; [|auto with msaa]. apply advances_bind; [apply (grows_incident _ (held_grows id))|auto with msaa].
  - intros stored. apply advances_bind; [apply (grows_alerts _ (held_grows id))|auto with msaa].
Qed.

Lemma held_health_alert id rid code now payload : advances (held id) (health_alert_body rid code now payload).
Proof.
  unfold health_alert_body. apply advances_bind; [apply (grows_record _ (held_grows id))|]. intros d.
  apply advances_bind; [auto with msaa|]. intros found. apply advances_bind; [auto with msaa|]. intros existing.
  destruct existing; [auto with msaa|]. apply advances_bind; [auto with msaa|]. intros column.
  apply (grows_alert _ (held_grows id)).
Qed.

(** Only rows that name a code are closed. *)
Lemma held_reconcile id active now rows n :
  Forall (fun r => cl_alert_id r = id -> uncoded (cl_payload r)) rows -> advances (held id) (reconcile_rows active now rows n).
Proof.
  intros Hrows. revert n. induction Hrows as [|r rows Hr _ IH]; intros n; cbn; [auto with msaa|].
  intros w a w1 (code & w2 & [Hcode ->]%lift_ok & Hw)%bind_ok Hh. destruct code as [c|]; [|by eapply IH].
  destruct (truthy c) eqn:Hc; cbn in Hw; [|by eapply IH]. destruct (one_of c active); [by eapply IH|].
  apply bind_ok in Hw as ([] & w3 & H3%write_ok & Hw). eapply IH; [exact Hw|]. rewrite H3. apply held_acknowledge; [|done].
  intros Hid. by rewrite (Hr Hid c Hcode) in Hc.
Qed.

Lemma waits_reconcile id active now :
  advances (waits id) (rows ← sql_read (fun t => filter (fun r => pending r = true) (v_alerts t)); reconcile_rows active now rows 0).
Proof.
  intros w a w1 (rows & w2 & [-> H2]%read_ok & Hw)%bind_ok [He Hh]. split.
  - eapply (reconcile_advances evidence_ok); [|exact Hw|by rewrite H2]. auto with msaa.
  - eapply held_reconcile; [|exact Hw|by rewrite H2]. destruct Hh as (r & Hr & Hid & _ & Hu). apply Forall_forall.
    intros x [_ Hx]%list_elem_of_filter Hxid. replace x with r; [done|].
    eapply (fmap_unique cl_alert_id); [apply (eo_alert_ids _ He)|done|done|by rewrite Hid].
Qed.

#[export] Instance waits_invariant id : StoreInvariant (settled (waits id)).
Proof.
  split.
  - split. by intros w Hw.
  - intros event incident alerts. apply with_connection_settled; [apply keeps_detection|].
    apply advances_and; [apply advances_detection|apply held_detection].
  - intros rid type payload. unfold append_auxiliary. destruct (negb _); [auto with msaa|]. apply preserves_bind.
    + destruct (truthy_val _); [apply preserves_ret|apply settled_now].
    + intros occurred. apply with_connection_settled; [auto with msaa|].
      apply advances_and; [auto with msaa|apply (grows_record _ (held_grows id))].
  - intros rid code payload. unfold persist_health_alert. apply preserves_bind; [apply settled_now|]. intros now.
    apply with_connection_settled; [apply keeps_health_alert|].
    apply advances_and; [apply advances_health_alert|apply held_health_alert].
  - intros active. unfold reconcile_health_alerts. apply preserves_bind; [apply settled_now|]. intros now.
    apply with_connection_settled; [|apply waits_reconcile]. apply keeps_bind; [auto with msaa|]. intros rows. apply reconcile_keeps.
  - intros payload. unfold set_health. apply preserves_bind; [apply settled_now|]. intros now.
    apply with_connection_settled; [apply health_items_keeps|].
    apply health_items_advances. intros h t [He Hh]. split; [by apply (evidence_same t)|done].
  - unfold health. apply preserves_bind; [apply settled_read|auto with msaa].
Qed.

Lemma waits_acknowledge id id' actor reason : id' <> id -> preserves (settled (waits id)) (acknowledge id' actor reason).
Proof.
  intros Hne. unfold acknowledge. destruct (_ || _); [auto with msaa|]. apply preserves_bind; [apply settled_now|]. intros now.
  apply with_connection_settled; unfold acknowledge_body.
  - apply keeps_bind; [auto with msaa|]. intros [r|]; [|auto with msaa]. destruct (negb _); [auto with msaa|].
    apply keeps_bind; [auto with msaa|]. intros []. apply keeps_bind; auto with msaa.
  - apply advances_bind; [auto with msaa|]. intros [r|]; [|auto with msaa]. destruct (negb _); [auto with msaa|].
    apply advances_bind; [apply advances_write; intros t [He Hh]; split; [auto with msaa|by apply held_acknowledge]|].
    intros []. apply advances_bind; [|auto with msaa].
    apply advances_and; [auto with msaa|apply (grows_record _ (held_grows id))].
Qed.
End Waiting.

Lemma waiting_run `{JournalEnv} (policy : ClickFixPolicy) (id : string) (ops : list guard_op) (s : Service) :
  settled (waits id) (sv_store s) ->
  (forall actor reason, Acknowledge id actor reason ∈ ops -> blank actor = true \/ blank reason = true) ->
  settled (waits id) (sv_store (run_ops policy ops s)).
Proof.
  intros Hs Hops. apply (run_ops_keeps policy (settled (waits id))); [|done]. intros id' actor reason Hin.
  destruct (decide (id' = id)) as [->|Hne]; [|by apply waits_acknowledge]. unfold acknowledge.
  destruct (Hops actor reason Hin) as [->| ->]; rewrite ?orb_true_r; apply preserves_raise.
Qed.

(** The alert of an incident is closed by hand: the alert a risky shortcut raised is
    pending for as long as nobody acknowledges that very alert with an actor and a
    reason; no later shortcut, correlation, health snapshot, replayed journal or restart
    resolves it. *)
Theorem incident_alert_waits_for_acknowledgement `{JournalEnv} (policy : ClickFixPolicy) (envelope : pydict)
    (s s1 : Service) event_id incident_id replay suppress quarantine notify disposition :
  settled evidence_ok (sv_store s) -> is_risky envelope = true ->
  ingest_shortcut policy envelope s
    = (Ok (Accepted event_id incident_id replay suppress quarantine notify disposition), s1) ->
  exists id, forall ops,
    (forall actor reason, Acknowledge id actor reason ∈ ops -> blank actor = true \/ blank reason = true) ->
    exists r, r ∈ v_alerts (committed (sv_store (run_ops policy ops s1))) /\ cl_alert_id r = id /\ pending r = true.
Proof.
  intros Hs Hrisky Hrun. pose proof (ingest_triple policy envelope _ s (conj (proj1 Hs) eq_refl)) as Ht. rewrite Hrun in Ht.
  destruct Ht as (Hq & _ & _ & Hr). rewrite Hrisky in Hr. destruct Hr as (i & a & _ & _ & _ & r & Hr & Hid & _ & _ & _ & Hp & Hu).
  exists a. intros ops Hops. destruct (waiting_run policy a ops s1) as [_ [_ (r' & Hr' & Hid' & Hp' & _)]]; [|done|by exists r'].
  split; [done|]. split; [|by exists r]. pose proof (ingest_keeps (settled evidence_ok) policy envelope s Hs) as Hk.
  rewrite Hrun in Hk. apply Hk.
Qed.

(** ** The consumer's cursor *)

Section Cursor.
Context `{JournalEnv} (policy : ClickFixPolicy).

Definition health_of (t : Evidence) : res pydict :=
  res_map (fun kv => v ← json_loads_column kv.2.1; Ok (kv.1, v)) (v_health t).

(** Where the consumer goes on from. *)
Definition cursor_of (t : Evidence) : res Z :=
  h ← health_of t; py_int (dget_default (VInt 0) "native_journal_last_sequence" h).

Lemma consume_unfold data s : consume policy data s =
  match sql_read health_of (sv_store s) with
  | (Ok r, w) =>
      (last ← lift_res (h ← r; py_int (dget_default (VInt 0) "native_journal_last_sequence" h));
       records ← lift_res (verify_native_journal data);
       fin ← consume_all policy last records;
       in_store (set_health (bridge_state fin.1));;
       mret fin.2) {| sv_store := w; sv_active := sv_active s |}
  | (Raise e, w) => (Raise e, {| sv_store := w; sv_active := sv_active s |})
  end.
Proof.
  unfold consume, in_store, health, health_of, sql_read, lift_res, mbind, M_bind, res_bind.
  destruct (stmt_ok _); [|done]. by destruct (res_map _ _).
Qed.

Lemma read_untouched {A} t (f : Evidence -> A) w : untouched t w ->
  match sql_read f w with (Ok a, w') => a = f t /\ untouched t w' | (Raise _, w') => untouched t w' end.
Proof.
  intros Hw. destruct Hw as [[Hi Hc] <-]. unfold sql_read. rewrite <- Hc. by destruct (stmt_ok _).
Qed.

(** A run of the consumer that gets past the cursor and the journal. *)
Lemma consume_from t data s c records : untouched t (sv_store s) -> cursor_of t = Ok c ->
  verify_native_journal data = Ok records ->
  exists s1, untouched t (sv_store s1) /\ (
    (exists e, consume policy data s = (Raise e, s1))
    \/ consume policy data s = (fin ← consume_all policy c records; in_store (set_health (bridge_state fin.1));; mret fin.2) s1).
Proof.
  intros Hs Hc Hv. rewrite consume_unfold. pose proof (read_untouched t health_of (sv_store s) Hs) as Hr.
  destruct (sql_read health_of (sv_store s)) as [[r|e] w].
  - destruct Hr as [-> Hw]. exists {| sv_store := w; sv_active := sv_active s |}. split; [done|]. right.
    unfold cursor_of in Hc. by rewrite Hc, Hv.
  - exists {| sv_store := w; sv_active := sv_active s |}. split; [done|]. left. by exists e.
Qed.

Lemma consume_all_skips c pre rest : Forall (fun r => nr_sequence r <= c) pre ->
  consume_all policy c (pre ++ rest) = consume_all policy c rest.
Proof.
  induction 1 as [|r pre Hr _ IH]; [done|]. cbn [app consume_all]. by rewrite (proj2 (Z.leb_le _ _) Hr).
Qed.
End Cursor.

(** A journal whose first record after the cursor is a shortcut that the service's
    checks refuse. *)
Definition blocked_at `{JournalEnv} (c : Z) (data : option string) : Prop :=
  exists pre post r native e,
    verify_native_journal data = Ok (pre ++ r :: post)
    /\ Forall (fun x => nr_sequence x <= c) pre /\ c < nr_sequence r
    /\ nr_record_type r = VStr "shortcut" /\ nr_payload r = VDict native
    /\ check_envelope (envelope_of native) = Raise e /\ contains "UNIQUE constraint failed" (exn_text e) = false.

Lemma blocked_run `{JournalEnv} policy t c data s : cursor_of t = Ok c -> blocked_at c data -> untouched t (sv_store s) ->
  exists e s', consume policy data s = (Raise e, s') /\ untouched t (sv_store s').
Proof.
  intros Hc (pre & post & r & native & e & Hv & Hpre & Hr & Htype & Hpayload & Hcheck & Hunique) Hs.
  destruct (consume_from policy t data s c _ Hs Hc Hv) as (s1 & Hs1 & [[e' He]|Hrun]); [by exists e', s1|].
  exists e, s1. split; [|done]. rewrite Hrun, consume_all_skips by done. unfold mbind at 1, M_bind at 1.
  cbn [consume_all]. rewrite (proj2 (Z.leb_gt _ _) Hr). unfold consume_record. rewrite Htype. cbn [is_text].
  unfold consume_shortcut, unless_unique, ingest_shortcut, try_except, lift_res, mbind, M_bind. rewrite Hpayload, Hcheck. cbn.
  by rewrite Hunique.
Qed.

(** C29. A record the service refuses stops the consumer for good: while the first unread
    record is a shortcut whose envelope fails the service's checks, every run over the
    journal raises and the database, cursor included, stays as it was, however often
    the consumer runs and whatever is appended behind that record. *)
Theorem refused_record_blocks_the_journal `{JournalEnv} (policy : ClickFixPolicy) (t : Evidence) (c : Z)
    (journals : list (option string)) (s : Service) :
  cursor_of t = Ok c -> Forall (blocked_at c) journals -> untouched t (sv_store s) ->
  untouched t (sv_store (run_ops policy (Consume <$> journals) s))
  /\ forall data, data ∈ journals ->
       exists e s', consume policy data (run_ops policy (Consume <$> journals) s) = (Raise e, s').
Proof.
  intros Hc Hb Hs. assert (Hrun : untouched t (sv_store (run_ops policy (Consume <$> journals) s))).
  { revert s Hs. induction Hb as [|data journals Hd _ IH]; intros s Hs; [done|]. apply IH. cbn.
    destruct (blocked_run policy t c data s Hc Hd Hs) as (e & s' & He & Hs'). unfold mbind, M_bind. by rewrite He. }
  split; [done|]. intros data Hin. rewrite Forall_forall in Hb.
  destruct (blocked_run policy t c data _ Hc (Hb _ Hin) Hrun) as (e & s' & He & _). by exists e, s'.
Qed.

(** ** What is taken over *)

Section TakeOver.
Context `{JournalEnv} (policy : ClickFixPolicy).

Definition outcome_recorded (t : Evidence) (o : Outcome) : Prop :=
  match o with
  | Accepted event_id incident_id _ _ _ _ _ =>
      recorded event_id "shortcut" t /\ forall i, incident_id = Some i -> recorded i "incident" t
  | Ignored => True
  end.

(** What inserts only make truer, and acknowledgements and health values do not touch. *)
Lemma grown_invariant (I : Evidence -> Prop) : grows I ->
  (forall id now actor reason t, I t -> I (acknowledge_alert id now actor reason t)) ->
  (forall h t, I t -> I (set_health_rows h t)) -> StoreInvariant (settled I).
Proof.
  intros HI Ha Hh. split.
  - split. by intros w Hw.
  - intros event incident alerts. apply with_connection_settled; [apply keeps_detection|]. unfold detection_body.
    apply advances_bind; [by apply grows_record|]. intros digest. apply advances_bind; [apply advances_instant|]. intros now.
    apply advances_bind; [|intros stored; apply advances_bind; [by apply grows_alerts|auto with msaa]].
    destruct incident; [|auto with msaa]. apply advances_bind; [by apply grows_incident|auto with msaa].
  - intros rid type payload. unfold append_auxiliary. destruct (negb _); [auto with msaa|]. apply preserves_bind.
    + destruct (truthy_val _); [apply preserves_ret|apply settled_now].
    + intros occurred. apply with_connection_settled; [auto with msaa|by apply grows_record].
  - intros rid code payload. unfold persist_health_alert. apply preserves_bind; [apply settled_now|]. intros now.
    apply with_connection_settled; [apply keeps_health_alert|]. unfold health_alert_body.
    apply advances_bind; [by apply grows_record|]. intros d. apply advances_bind; [auto with msaa|]. intros found.
    apply advances_bind; [auto with msaa|]. intros existing. destruct existing; [auto with msaa|].
    apply advances_bind; [auto with msaa|]. intros column. by apply grows_alert.
  - intros active. unfold reconcile_health_alerts. apply preserves_bind; [apply settled_now|]. intros now.
    apply with_connection_settled.
    + apply keeps_bind; [auto with msaa|]. intros rows. apply reconcile_keeps.
    + apply advances_bind; [auto with msaa|]. intros rows. apply reconcile_advances. auto.
  - intros payload. unfold set_health. apply preserves_bind; [apply settled_now|]. intros now.
    apply with_connection_settled; [apply health_items_keeps|by apply health_items_advances].
  - unfold health. apply preserves_bind; [apply settled_read|auto with msaa].
Qed.

Lemma outcome_invariant o : StoreInvariant (settled (fun t => outcome_recorded t o)).
Proof.
  apply grown_invariant.
  - destruct o as [|e i]; [by split|]. split; cbn.
    + intros id type occurred text digest now t [He Hi]. split; [by apply recorded_grows|]. intros x Hx.
      apply recorded_grows. by apply Hi.
    + intros i' e' t [He Hi]. split; [by apply recorded_grows|]. intros x Hx. apply (gr_link _ (recorded_grows x _)). by apply Hi.
    + intros a t [He Hi]. split; [by apply (gr_alert _ (recorded_grows e _))|]. intros x Hx.
      apply (gr_alert _ (recorded_grows x _)). by apply Hi.
  - by destruct o.
  - by destruct o.
Qed.

Lemma ingest_recorded envelope s o s' : quiescent (sv_store s) -> ingest_shortcut policy envelope s = (Ok o, s') ->
  settled (fun t => outcome_recorded t o) (sv_store s').
Proof.
  intros Hq Hrun. pose proof (ingest_triple policy envelope _ s (conj Hq eq_refl)) as Ht. rewrite Hrun in Ht.
  destruct o as [|e i]; [by split; [apply Ht|]|]. destruct Ht as (Hq' & _ & Hr & Hi). split; [done|]. split; [done|].
  destruct (is_risky envelope); [|by rewrite Hi]. destruct Hi as (x & a & -> & Hx & _). by intros ? [= <-].
Qed.

Lemma consume_record_recorded r s outs s' : quiescent (sv_store s) -> consume_record policy r s = (Ok outs, s') ->
  quiescent (sv_store s') /\ Forall (outcome_recorded (committed (sv_store s'))) outs.
Proof.
  intros Hq Hrun.
  assert (Hq' : quiescent (sv_store s')).
  { pose proof (grown_invariant (fun _ => True)) as HT.
    assert (Hinv : StoreInvariant (settled (fun _ : Evidence => True))) by (apply HT; [by split|done|done]).
    pose proof (consume_record_keeps (settled (fun _ : Evidence => True)) policy r s (conj Hq Logic.I)) as Hk.
    rewrite Hrun in Hk. apply Hk. }
  split; [done|]. unfold consume_record in Hrun. destruct (is_text _ _).
  - unfold consume_shortcut in Hrun. destruct (nr_payload r); try done. unfold unless_unique, try_except in Hrun.
    match type of Hrun with context [match ?m s with _ => _ end] => destruct (m s) as [[o|e] s1] eqn:Hi end.
    + injection Hrun as -> ->. apply bind_ok in Hi as (o & s2 & Ho & [= <- <-]).
      apply Forall_singleton. by apply (ingest_recorded _ _ _ _ Hq Ho).
    + destruct (contains _ _); [|done]. by injection Hrun as <- <-.
  - destruct (is_text _ _); [|by injection Hrun as <- <-]. by apply bind_ok in Hrun as ([] & s1 & _ & [= <- <-]).
Qed.

Lemma consume_all_recorded c records s last outs s' : quiescent (sv_store s) ->
  consume_all policy c records s = (Ok (last, outs), s') ->
  quiescent (sv_store s') /\ Forall (outcome_recorded (committed (sv_store s'))) outs
  /\ c <= last /\ Forall (fun r => nr_sequence r <= last) records.
Proof.
  revert c s last outs. induction records as [|r records IH]; intros c s last outs Hq; cbn [consume_all].
  { intros [= <- <- <-]. split; [done|]. split; [constructor|]. split; [lia|constructor]. }
  destruct (Z.leb_spec (nr_sequence r) c) as [Hle|Hgt].
  { intros (H1 & H2 & H3 & H4)%IH; [|done]. repeat (split; [done|]). constructor; [lia|done]. }
  intros (o & s1 & Hr & Hrest)%bind_ok. apply bind_ok in Hrest as ([last' outs'] & s2 & Hrest & [= <- <- <-]).
  destruct (consume_record_recorded r s o s1 Hq Hr) as [Hq1 Ho]. pose proof (IH _ _ _ _ Hq1 Hrest) as (Hq2 & Ho' & Hl & Hs).
  split; [done|]. cbn. split; [|split; [lia|by constructor]]. apply Forall_app. split; [|done].
  rewrite Forall_forall in Ho. apply Forall_forall. intros x Hx. pose proof (outcome_invariant x) as Hinv.
  pose proof (consume_all_keeps _ policy (nr_sequence r) records s1 (conj Hq1 (Ho x Hx))) as Hk. rewrite Hrest in Hk. apply Hk.
Qed.

Lemma items_rows now items w w1 : set_health_items now items w = (Ok tt, w1) -> exists h, working w1 = set_health_rows h (working w).
Proof.
  revert w. induction items as [|[k v] items IH]; intros w; cbn [set_health_items].
  { intros [= <-]. exists (v_health (working w)). by destruct (working w). }
  intros (column & w2 & [_ ->]%lift_ok & Hw)%bind_ok. apply bind_ok in Hw as ([] & w3 & H3%write_ok & Hw).
  apply IH in Hw as [h ->]. exists h. by rewrite H3.
Qed.

(** The cursor that the end of a run leaves. *)
Lemma bridge_rows now last w w1 : set_health_items now (bridge_state last) w = (Ok tt, w1) ->
  exists h, working w1 = set_health_rows h (working w) /\ dget "native_journal_last_sequence" h = Some (JsonOf (VInt last), now).
Proof.
  cbn [set_health_items bridge_state]. intros (column & w2 & [Hc ->]%lift_ok & Hw)%bind_ok. injection Hc as <-.
  apply bind_ok in Hw as ([] & w3 & H3%write_ok & Hw). apply bind_ok in Hw as (column & w4 & [Hc ->]%lift_ok & Hw).
  injection Hc as <-. apply bind_ok in Hw as ([] & w5 & H5%write_ok & [= <-]). rewrite H5, H3. eexists. split; [done|].
  rewrite dget_dset_ne by done. apply dget_dset_eq.
Qed.

Lemma set_health_run payload (P : Evidence -> Evidence -> Prop) w : quiescent w ->
  (forall now w0 w1, set_health_items now payload w0 = (Ok tt, w1) -> P (working w0) (working w1)) ->
  match set_health payload w with
  | (Ok _, w') => quiescent w' /\ P (committed w) (committed w')
  | (Raise _, w') => quiescent w' /\ committed w' = committed w
  end.
Proof.
  intros Hq HP. unfold set_health, utc_now, mbind, M_bind.
  pose proof (with_connection_run (set_health_items (isoformat_utc (utc_clock (ticks w))) payload) (tick w)
    (health_items_keeps _ _) Hq) as Hr.
  destruct (with_connection _ (tick w)) as [[[]|e] w']; [|done]. destruct Hr as (Hq' & w1 & Hw & Hc).
  split; [done|]. rewrite Hc, <- (proj2 Hq). by apply (HP _ (tick w) w1 Hw).
Qed.

Lemma health_lookup (d : list (string * (json_text * string))) h k v now :
  res_map (fun kv => x ← json_loads_column kv.2.1; Ok (kv.1, x)) d = Ok h ->
  dget k d = Some (JsonOf v, now) -> dget k h = Some v.
Proof.
  intros Hm%res_map_Forall2 Hk. revert Hk. induction Hm as [|[k' [c n]] [k'' x] d h Hxy _ IH]; [done|].
  apply res_bind_ok in Hxy as (y & Hy & [= <- <-]). cbn in *. destruct (decide (k = k')); [|done].
  intros [= -> ->]. by injection Hy as ->.
Qed.

Definition same_evidence (t t' : Evidence) : Prop :=
  v_records t' = v_records t /\ v_links t' = v_links t /\ v_alerts t' = v_alerts t.

Lemma consume_again data last records s : quiescent (sv_store s) -> verify_native_journal data = Ok records ->
  (forall h, health_of (committed (sv_store s)) = Ok h -> dget "native_journal_last_sequence" h = Some (VInt last)) ->
  Forall (fun r => nr_sequence r <= last) records ->
  match consume policy data s with
  | (Ok outs, s') => outs = [] /\ same_evidence (committed (sv_store s)) (committed (sv_store s'))
  | (Raise _, s') => committed (sv_store s') = committed (sv_store s)
  end.
Proof.
  intros Hq Hv Hcursor Hrecords. rewrite consume_unfold.
  pose proof (read_untouched (committed (sv_store s)) health_of (sv_store s) (conj Hq eq_refl)) as Hr.
  destruct (sql_read health_of (sv_store s)) as [[r|e] w]; [|apply Hr]. destruct Hr as [-> [Hq' Hc]].
  unfold lift_res, mbind, M_bind, res_bind. destruct (health_of _) as [h|e]; [|done].
  unfold dget_default. rewrite (Hcursor h eq_refl). cbn [py_int]. rewrite Hv.
  rewrite <- (app_nil_r records), consume_all_skips by done. cbn [consume_all mret M_ret fst snd]. unfold in_store. cbn [sv_store].
  pose proof (set_health_run (bridge_state last) same_evidence w Hq') as Hs.
  destruct (set_health _ w) as [[u|e] w']; destruct Hs as [_ Hs]; cbn; rewrite <- ?Hc; try done;
    by intros now w0 w1 [h' [-> _]]%bridge_rows.
Qed.
End TakeOver.

(** C23. Records of the journal are taken over once: when a run of the consumer returns,
    every outcome it reports is on record, and a further run over the same journal by
    this or a restarted consumer reports nothing and adds no record, link or alert. *)
Theorem journal_is_taken_over_once `{JournalEnv} (policy : ClickFixPolicy) (data : option string) (s s1 s2 : Service)
    (outs : list Outcome) :
  quiescent (sv_store s) -> consume policy data s = (Ok outs, s1) ->
  quiescent (sv_store s2) -> committed (sv_store s2) = committed (sv_store s1) ->
  Forall (outcome_recorded (committed (sv_store s1))) outs
  /\ match consume policy data s2 with
     | (Ok outs', s3) => outs' = [] /\ same_evidence (committed (sv_store s1)) (committed (sv_store s3))
     | (Raise _, s3) => committed (sv_store s3) = committed (sv_store s1)
     end.
Proof.
  intros Hq Hrun Hq2 Hc2. rewrite consume_unfold in Hrun.
  pose proof (read_untouched (committed (sv_store s)) health_of (sv_store s) (conj Hq eq_refl)) as Hr.
  destruct (sql_read health_of (sv_store s)) as [[r|e] w]; [|done]. destruct Hr as [-> [Hq' _]].
  apply bind_ok in Hrun as (c & sa & [_ ->]%lift_ok & Hrun). apply bind_ok in Hrun as (records & sb & [Hv ->]%lift_ok & Hrun).
  apply bind_ok in Hrun as ([last outs'] & sc & Hall & Hrun). apply bind_ok in Hrun as (u & sd & Hset & [= <- <-]).
  apply consume_all_recorded in Hall as (Hqc & Ho & _ & Hl); [|done]. cbn [fst snd] in *.
  apply in_store_run in Hset as [Hset _].
  pose proof (set_health_run (bridge_state last) (fun t t' => same_evidence t t' /\ exists now,
    dget "native_journal_last_sequence" (v_health t') = Some (JsonOf (VInt last), now)) (sv_store sc) Hqc) as Hs.
  rewrite Hset in Hs. destruct Hs as [_ [(E1 & E2 & E3) [now Hn]]].
  { intros now w0 w1 [h' [-> Hd]]%bridge_rows. split; [done|]. by exists now. }
  split.
  - eapply Forall_impl; [exact Ho|]. intros [|e i]; [done|]. unfold outcome_recorded, recorded. by rewrite E1.
  - pose proof (consume_again policy data last records s2 Hq2 Hv) as Hagain. rewrite Hc2 in Hagain.
    apply Hagain; [|done]. intros h Hh. by eapply health_lookup.
Qed.

(** ** Concrete runs *)

(** A digest of 64 digits, for evaluating definitions. *)
Fixpoint poly_hash (acc : Z) (s : string) : Z :=
  match s with EmptyString => acc | String c s' => poly_hash ((acc * 131 + code c + 1) mod 1000000000000000003) s' end.

Definition guard_platform : PlatformEnv := {|
  float_repr := fun _ => "0.5";
  sha256 := fun s => pad_num 64 (poly_hash 7 s) "";
  hmac_sha256 := fun key m => key +:+ m
|}.

Lemma length_pad_num n z acc : String.length (pad_num n z acc) = (n + String.length acc)%nat.
Proof. revert z acc. induction n as [|n IH]; intros z acc; [done|]. cbn. rewrite IH. simpl. lia. Qed.

#[local] Instance guard_digests : @DigestLength guard_platform.
Proof. split. intros m. exact (length_pad_num 64 _ ""). Qed.

Definition guard_store : StoreEnv := {|
  store_platform := guard_platform; utc_clock := fun n => 1784367000000000 + Z.of_nat n; stmt_ok := fun _ => true;
  database_bytes := fun _ => 0; integrity_key := "" |}.

Definition guard_env : ClickFixEnv := {|
  clickfix_store := guard_store; uuid_hex := fun n => str_of_Z (Z.of_nat n); monotonic_ns := Z.of_nat;
  float_of_text := fun _ => None |}.

Definition risky_native (event incident : string) : pydict := [
  ("schemaVersion", VInt 1); ("eventID", VStr event); ("incidentID", VStr incident);
  ("detectedAtUTC", VStr "2026-07-18T09:30:00Z"); ("clipboardAccessState", VStr "CLIPBOARD_ACCESS_GRANTED");
  ("clipboardClassification", VStr "DOWNLOAD_AND_EXECUTE")].

(** A line of a journal, written for this reader: its text names the record, and so does
    the text of its payload, of one character. *)
Definition journal_digest (previous payload : string) : string := @sha256 guard_platform (previous +:+ "shortcut" +:+ payload).
Definition digest_1 : string := journal_digest GENESIS "a".
Definition digest_2 : string := journal_digest digest_1 "b".

Definition record_of (sequence : Z) (previous payload digest : string) : pyval := VDict [
  ("sequence", VInt sequence); ("previousDigest", VStr previous); ("recordType", VStr "shortcut");
  ("recordID", VStr payload); ("payload", VStr payload); ("digest", VStr digest)].

Definition journal_values (payloads : string -> option pydict) (s : string) : parsed :=
  match s with
  | "1" => Parsed (record_of 1 GENESIS "YQ==" digest_1)
  | "2" => Parsed (record_of 2 digest_1 "Yg==" digest_2)
  | _ => match payloads s with Some d => Parsed (VDict d) | None => NoJson end
  end.

Definition guard_journal (payloads : string -> option pydict) : JournalEnv :=
  {| journal_clickfix := guard_env; json_text_value := journal_values payloads |}.

Definition two_lines : option string := Some ("1" +:+ newline +:+ "2" +:+ newline).

(** Two risky shortcuts of one incident id, and a journal of a later schema. *)
Definition one_incident (s : string) : option pydict :=
  match s with
  | "a" => Some (risky_native "e1" "i1")
  | "b" => Some (risky_native "e2" "i1")
  | _ => None
  end.
Definition two_incidents (s : string) : option pydict :=
  match s with
  | "a" => Some (risky_native "e1" "i1")
  | "b" => Some (risky_native "e2" "i2")
  | _ => None
  end.
Definition later_schema (s : string) : option pydict :=
  match s with
  | "a" => Some [("schemaVersion", VInt 2); ("eventID", VStr "e1")]
  | "b" => Some (risky_native "e2" "i2")
  | _ => None
  end.

Definition reports (r : res (list Outcome)) : list string :=
  match r with Ok outs => (fun o => match o with Accepted e _ _ _ _ _ _ => e | Ignored => "" end) <$> outs | Raise _ => ["raised"] end.

(** A shortcut that reuses the id of an incident on record is dropped without a trace:
    the violation of [UNIQUE] is taken for a record seen before, and the cursor moves on. *)
Example reused_incident_id_loses_the_shortcut :
  let run := @consume (guard_journal one_incident) (for_profile G_PROTECT) two_lines new_service in
  reports run.1 = ["e1"]
  /\ cr_record_id <$> v_records (committed (sv_store run.2)) = ["e1"; "i1"]
  /\ cursor_of (committed (sv_store run.2)) = Ok 2.
Proof. by vm_compute. Qed.

(** The same run on a database whose [n]-th statement fails. *)
Definition failing_at (n : nat) : JournalEnv := {|
  journal_clickfix := {|
    clickfix_store := {| store_platform := guard_platform; utc_clock := fun n => 1784367000000000 + Z.of_nat n;
      stmt_ok := fun k => negb (Nat.eqb k n); database_bytes := fun _ => 0; integrity_key := "" |};
    uuid_hex := fun n => str_of_Z (Z.of_nat n); monotonic_ns := Z.of_nat; float_of_text := fun _ => None |};
  json_text_value := journal_values two_incidents |}.

(** An incident recorded by a run that fails later on is never reported: the run that
    succeeds passes over it as seen before. *)
Example interrupted_run_reports_nothing :
  let first := @consume (failing_at 40) (for_profile G_PROTECT) two_lines new_service in
  let second := @consume (failing_at 40) (for_profile G_PROTECT) two_lines first.2 in
  reports first.1 = ["raised"] /\ reports second.1 = []
  /\ cr_record_id <$> v_records (committed (sv_store second.2)) = ["e1"; "i1"; "e2"; "i2"].
Proof. by vm_compute. Qed.

Example two_incidents_are_recorded :
  let run := @consume (guard_journal two_incidents) (for_profile G_PROTECT) two_lines new_service in
  reports run.1 = ["e1"; "e2"]
  /\ cr_record_id <$> v_records (committed (sv_store run.2)) = ["e1"; "i1"; "e2"; "i2"].
Proof. by vm_compute. Qed.

#[local] Instance two_env : JournalEnv := guard_journal two_incidents.

Definition risky_envelope : pydict := envelope_of (risky_native "e1" "i1").
Definition after_risky : Service := (ingest_shortcut (for_profile G_PROTECT) risky_envelope new_service).2.

Lemma shortcut_is_on_record_before_it_passes_witness :
  quiescent (sv_store new_service)
  /\ (ingest_shortcut (for_profile G_PROTECT) risky_envelope new_service).1
     = Ok (Accepted "e1" (Some "i1") false true false true "POTENTIAL_CLICKFIX")
  /\ match ingest_shortcut (for_profile G_PROTECT) risky_envelope new_service with
     | (Ok (Accepted event_id incident_id replay suppress quarantine notify disposition), s') =>
         on_record event_id incident_id risky_envelope (committed (sv_store s'))
         /\ (replay = true <-> protect (for_profile G_PROTECT) = true /\ is_risky risky_envelope = false
              /\ (inspection_unavailable risky_envelope = true -> gp_fail_closed (for_profile G_PROTECT) = false))
         /\ suppress = protect (for_profile G_PROTECT) && negb replay
     | (_, s') => quiescent (sv_store s') /\ committed (sv_store s') = committed (sv_store new_service)
     end.
Proof.
  split; [done|]. split; [by vm_compute|].
  apply (shortcut_is_on_record_before_it_passes (for_profile G_PROTECT) risky_envelope new_service).
  done.
Defined.

Lemma incident_alert_waits_for_acknowledgement_witness :
  exists id, forall ops,
    (forall actor reason, Acknowledge id actor reason ∈ ops -> blank actor = true \/ blank reason = true) ->
    exists r, r ∈ v_alerts (committed (sv_store (run_ops (for_profile G_PROTECT) ops after_risky)))
              /\ cl_alert_id r = id /\ pending r = true.
Proof.
  apply (incident_alert_waits_for_acknowledgement (for_profile G_PROTECT) risky_envelope
    new_service after_risky "e1" (Some "i1") false true false true "POTENTIAL_CLICKFIX").
  - apply new_service_settled.
  - by vm_compute.
  - by vm_compute.
Defined.

Definition refused_record : native_record := {|
  nr_sequence := 1; nr_record_type := VStr "shortcut"; nr_record_id := VStr "YQ==";
  nr_payload := VDict [("schemaVersion", VInt 2); ("eventID", VStr "e1")] |}.
Definition behind_it : native_record := {|
  nr_sequence := 2; nr_record_type := VStr "shortcut"; nr_record_id := VStr "Yg==";
  nr_payload := VDict (risky_native "e2" "i2") |}.

Lemma later_schema_blocks : @blocked_at (guard_journal later_schema) 0 two_lines.
Proof.
  exists [], [behind_it], refused_record, [("schemaVersion", VInt 2); ("eventID", VStr "e1")],
    (ValueError "CFX012_XPC_AUTHENTICATION_FAILED: unsupported protocol").
  split; [by vm_compute|]. split; [constructor|]. split; [done|]. split; [done|]. split; [done|]. by vm_compute.
Qed.

Lemma refused_record_blocks_the_journal_witness :
  untouched no_evidence (sv_store (@run_ops (guard_journal later_schema) (for_profile G_PROTECT)
    (Consume <$> [two_lines; two_lines]) new_service))
  /\ forall data, data ∈ [two_lines; two_lines] ->
       exists e s', @consume (guard_journal later_schema) (for_profile G_PROTECT) data
         (@run_ops (guard_journal later_schema) (for_profile G_PROTECT) (Consume <$> [two_lines; two_lines]) new_service)
         = (Raise e, s').
Proof.
  apply (@refused_record_blocks_the_journal (guard_journal later_schema) (for_profile G_PROTECT) no_evidence 0
    [two_lines; two_lines] new_service).
  - by vm_compute.
  - apply Forall_cons. split; [apply later_schema_blocks|]. apply Forall_cons. split; [apply later_schema_blocks|apply Forall_nil_2].
  - done.
Defined.

Definition taken_over : Service := (consume (for_profile G_PROTECT) two_lines new_service).2.
Definition both_outcomes : list Outcome :=
  [Accepted "e1" (Some "i1") false true false true "POTENTIAL_CLICKFIX";
   Accepted "e2" (Some "i2") false true false true "POTENTIAL_CLICKFIX"].

Lemma journal_is_taken_over_once_witness :
  Forall (outcome_recorded (committed (sv_store taken_over))) both_outcomes
  /\ match consume (for_profile G_PROTECT) two_lines (set_active [] taken_over) with
     | (Ok outs', s3) => outs' = [] /\ same_evidence (committed (sv_store taken_over)) (committed (sv_store s3))
     | (Raise _, s3) => committed (sv_store s3) = committed (sv_store taken_over)
     end.
Proof.
  apply (journal_is_taken_over_once (for_profile G_PROTECT) two_lines new_service
    taken_over (set_active [] taken_over) both_outcomes).
  - done.
  - by vm_compute.
  - by vm_compute.
  - done.
Defined.
