(* ===== verification/ClickFixDoctor.v ===== *)
(** The diagnosis of the ClickFix guard: [clickfix/health.py].

    The status is a dict: the defaults, what was stored, and what the probes and the
    heartbeat say now. The probes - whether the agent is there, twice, and the return
    code of [codesign] - are arguments. *)

From S2P Require Import Prelude PyStr PyFloat PyDict PyJson PyTime PyRepr ClickFixService.

Definition HEALTH_DEFAULTS : pydict := [
  ("clickfix_guard_installed", VBool false); ("clickfix_guard_running", VBool false);
  ("clickfix_guard_signature_valid", VBool false); ("clickfix_guard_version", VNone);
  ("event_tap_active", VBool false); ("event_tap_mode", VStr "INACTIVE"); ("last_shortcut_event_utc", VNone);
  ("input_monitoring_granted", VBool false); ("accessibility_granted", VBool false);
  ("clipboard_access_state", VStr "CLIPBOARD_ACCESS_UNKNOWN"); ("clipboard_classifier_loaded", VBool false);
  ("classifier_signature_valid", VBool false); ("classifier_version", VNone); ("xpc_authenticated", VBool false);
  ("xpc_listener_ready", VBool false); ("last_heartbeat_utc", VNone); ("event_queue_drops", VInt 0);
  ("protect_mode_active", VBool false); ("clipboard_quarantine_enabled", VBool false);
  ("endpoint_security_correlation_available", VBool false); ("development_demo", VBool false);
  ("native_journal_integrity_valid", VBool false)].

(** What is found of the agent's bundle; the two tests at the start, one after the other,
    are asked once. *)
Record AgentProbe := {
  ap_exists : bool;
  ap_codesign : Z;
  ap_still_exists : bool   (** asked again when the signature fails *)
}.

(** [d.update(other)] *)
Definition dupdate (other d : pydict) : pydict := foldl (fun d kv => dset kv.1 kv.2 d) d other.

Definition setb (k : string) (b : bool) (d : pydict) : pydict := dset k (VBool b) d.
Definition sets (k s : string) (d : pydict) : pydict := dset k (VStr s) d.

(** The probes of the bundle. *)
Definition probed (p : AgentProbe) (status : pydict) : pydict :=
  let status := setb "clickfix_guard_installed" (ap_exists p) status in
  if ap_exists p then
    let status := setb "clickfix_guard_signature_valid" (ap_codesign p =? 0) status in
    if ap_codesign p =? 0 then status
    else sets "signature_error" (if ap_still_exists p then "signature validation failed" else "CFX001_SENSOR_NOT_INSTALLED") status
  else status.

Section Doctor.
Context `{PlatformEnv}.

(** Whether the last heartbeat, if there is one, is recent; one without an offset cannot
    be subtracted from an aware time. *)
Definition heartbeat_checked (now : Z) (status : pydict) : res pydict :=
  if negb (flag "last_heartbeat_utc" status) then Ok status
  else match fromisoformat (replace_zulu (py_str (vget "last_heartbeat_utc" status))) with
  | None => Ok (setb "clickfix_guard_running" false status)
  | Some d =>
      if aware d then Ok (setb "clickfix_guard_running" (fleb (total_seconds (now - instant d)) (fexact 30)) status)
      else Raise (TypeError "can't subtract offset-naive and offset-aware datetimes")
  end.

Definition monitoring_active (status : pydict) : bool :=
  forallb (fun k => flag k status)
    ["clickfix_guard_installed"; "clickfix_guard_running"; "clickfix_guard_signature_valid"; "event_tap_active";
     "input_monitoring_granted"; "classifier_signature_valid"].
Definition xpc_active (status : pydict) : bool := flag "xpc_listener_ready" status && flag "xpc_authenticated" status.
Definition journal_active (status : pydict) : bool := flag "development_demo" status && flag "native_journal_integrity_valid" status.
Definition integration_active (status : pydict) : bool := xpc_active status || journal_active status.

(** The lines that derive what is active. *)
Definition derived (status : pydict) : pydict :=
  let monitoring := monitoring_active status in
  let integration := integration_active status in
  let mode := if xpc_active status then "authenticated_xpc"
              else if journal_active status then "verified_native_journal" else "unavailable" in
  let status := sets "integration_mode" mode status in
  let status := setb "monitoring_active" monitoring status in
  let status := setb "integration_active" integration status in
  let status := setb "fully_active" (monitoring && integration) status in
  setb "proof_of_concept_ready"
    (flag "clickfix_guard_installed" status && flag "clickfix_guard_running" status
     && flag "clickfix_guard_signature_valid" status && flag "classifier_signature_valid" status && integration) status.

Definition when_code (b : bool) (code : string) : list string := if b then [code] else [].

(** The error codes, what blocks the guard, and what to do. *)
Definition findings_of (status : pydict) : list string * list string * string :=
  if negb (flag "clickfix_guard_installed" status) then
    (["CFX001_SENSOR_NOT_INSTALLED"], ["clickfix_guard_not_installed"],
     "Build, sign, and install MSAAClickFixGuardAgent.app for the logged-in user.")
  else if negb (flag "clickfix_guard_running" status) then
    (["CFX002_SENSOR_NOT_RUNNING"], ["clickfix_guard_not_running"],
     "Repair and start com.macos-security-audit-agent.clickfix-guard in the current gui/<uid> domain.")
  else
    let journal := journal_active status in
    (when_code (negb (flag "input_monitoring_granted" status)) "CFX003_INPUT_MONITORING_DENIED"
     ++ when_code (negb (flag "classifier_signature_valid" status)) "CFX009_CLASSIFIER_SIGNATURE_INVALID"
     ++ (if negb (flag "xpc_listener_ready" status) && negb journal then ["CFX012_XPC_LISTENER_NOT_READY"]
         else when_code (negb (flag "xpc_authenticated" status) && negb journal) "CFX012_XPC_CLIENT_NOT_CONNECTED"),
     [],
     if negb (flag "input_monitoring_granted" status) then
       "Enable MSAAClickFixGuardAgent in Privacy & Security > Input Monitoring. The running agent will retry its event tap automatically."
     else if negb (integration_active status) then
       "Verify the authenticated XPC client or the integrity-checked native journal bridge."
     else "ClickFix Guard proof-of-concept monitoring is active.").

(** [doctor] *)
Definition doctor (stored : pydict) (probe : AgentProbe) (now : Z) : res pydict :=
  status ← heartbeat_checked now (probed probe (dupdate stored HEALTH_DEFAULTS));
  let status := derived status in
  let '(codes, blocked, action) := findings_of status in
  Ok (sets "recommended_action" action
       (dset "blocked_by" (VList (VStr <$> blocked)) (dset "error_codes" (VList (VStr <$> codes)) status))).
End Doctor.

(** ** What a clean bill of health rests on *)

Section DoctorFacts.
Context `{PlatformEnv}.

Lemma flag_dset_eq k v d : flag k (dset k v d) = truthy_val v.
Proof. unfold flag, vget, dget_default. by rewrite dget_dset_eq. Qed.

Lemma flag_dset_ne k k' v d : k <> k' -> flag k (dset k' v d) = flag k d.
Proof. intros Hne. unfold flag, vget, dget_default. by rewrite dget_dset_ne. Qed.

Lemma vget_dset_ne k k' v d : k <> k' -> vget k (dset k' v d) = vget k d.
Proof. intros Hne. unfold vget, dget_default. by rewrite dget_dset_ne. Qed.

(** What the probes leave alone. *)
Lemma probed_keeps k p d : k ∉ ["clickfix_guard_installed"; "clickfix_guard_signature_valid"; "signature_error"] ->
  vget k (probed p d) = vget k d.
Proof.
  rewrite !not_elem_of_cons. intros (H1 & H2 & H3 & _). unfold probed, setb, sets.
  destruct (ap_exists p); [destruct (ap_codesign p =? 0)|]; by rewrite ?vget_dset_ne.
Qed.

Lemma probed_found p d : flag "clickfix_guard_installed" (probed p d) = true ->
  ap_exists p = true /\ flag "clickfix_guard_signature_valid" (probed p d) = (ap_codesign p =? 0).
Proof.
  unfold probed, setb, sets. destruct (ap_exists p); [|by rewrite flag_dset_eq]. intros _. split; [done|].
  destruct (ap_codesign p =? 0); [|rewrite flag_dset_ne by done]; by rewrite flag_dset_eq.
Qed.

(** The heartbeat only ever sets whether the guard runs. *)
Lemma heartbeat_cases now d d' : heartbeat_checked now d = Ok d' ->
  (forall k, k <> "clickfix_guard_running" -> vget k d' = vget k d)
  /\ (flag "clickfix_guard_running" d' = true ->
      (flag "last_heartbeat_utc" d = false /\ flag "clickfix_guard_running" d = true)
      \/ exists t, fromisoformat (replace_zulu (py_str (vget "last_heartbeat_utc" d))) = Some t
           /\ aware t = true /\ fleb (total_seconds (now - instant t)) (fexact 30) = true).
Proof.
  unfold heartbeat_checked. destruct (flag "last_heartbeat_utc" d) eqn:Hh; cbn [negb].
  - destruct (fromisoformat _) as [t|] eqn:Ht; [destruct (aware t) eqn:Ha; [|done]|]; intros [= <-];
      (split; [intros k Hk; by apply vget_dset_ne|]); unfold setb; rewrite flag_dset_eq; cbn; [|done].
    intros Hf. right. by exists t.
  - intros [= <-]. split; [done|]. intros Hr. by left.
Qed.

Lemma flag_of_vget k d d' : vget k d' = vget k d -> flag k d' = flag k d.
Proof. unfold flag. by intros ->. Qed.

(** The flags the verdict is computed from are not changed by what is added after it. *)
Lemma derived_keeps k d : k ∉ ["integration_mode"; "monitoring_active"; "integration_active"; "fully_active"; "proof_of_concept_ready"] ->
  vget k (derived d) = vget k d.
Proof.
  rewrite !not_elem_of_cons. intros (H1 & H2 & H3 & H4 & H5 & _). unfold derived, setb, sets. by rewrite !vget_dset_ne.
Qed.

Lemma derived_fully d : flag "fully_active" (derived d) = monitoring_active d && integration_active d.
Proof. unfold derived, setb. rewrite flag_dset_ne by done. by rewrite flag_dset_eq. Qed.

(** A guard reported fully active has an agent whose signature verifies now, an event
    tap, the permission and a signed classifier, and is connected by authenticated XPC
    or, in a demonstration, by a journal that verified; its heartbeat is at most thirty
    seconds old - or there is none, and it was stored as running. *)
Theorem fully_active_means_proven stored probe now status :
  doctor stored probe now = Ok status -> flag "fully_active" status = true ->
  let known := dupdate stored HEALTH_DEFAULTS in
  ap_exists probe = true /\ ap_codesign probe = 0
  /\ flag "event_tap_active" known = true /\ flag "input_monitoring_granted" known = true
  /\ flag "classifier_signature_valid" known = true
  /\ integration_active known = true
  /\ ((flag "last_heartbeat_utc" known = false /\ flag "clickfix_guard_running" known = true)
      \/ exists t, fromisoformat (replace_zulu (py_str (vget "last_heartbeat_utc" known))) = Some t
           /\ aware t = true /\ fleb (total_seconds (now - instant t)) (fexact 30) = true).
Proof.
  intros Hdoc Hf known. unfold doctor in Hdoc. apply res_bind_ok in Hdoc as (d & Hd & Hs). fold known in Hd.
  destruct (findings_of (derived d)) as [[codes blocked] action]. injection Hs as <-. unfold sets in Hf.
  rewrite !flag_dset_ne, derived_fully in Hf by done. apply andb_true_iff in Hf as [Hm Hi].
  apply heartbeat_cases in Hd as [Hkeep Hrun].
  assert (Hfl : forall k, k <> "clickfix_guard_running" -> flag k d = flag k (probed probe known))
    by (intros k Hk; by apply flag_of_vget, Hkeep).
  assert (Hp : forall k, k ∉ ["clickfix_guard_installed"; "clickfix_guard_signature_valid"; "signature_error"] ->
    vget k (probed probe known) = vget k known) by (intros k; apply probed_keeps).
  unfold monitoring_active in Hm. cbn [forallb] in Hm. b2p. unfold integration_active, xpc_active, journal_active in Hi.
  rewrite !Hfl in Hi by done. rewrite (Hfl "clickfix_guard_installed") in * by done.
  rewrite (Hfl "clickfix_guard_signature_valid"), (Hfl "event_tap_active"), (Hfl "input_monitoring_granted"),
    (Hfl "classifier_signature_valid") in * by done.
  match goal with Hx : flag "clickfix_guard_installed" _ = true |- _ => apply probed_found in Hx as [He Hc] end.
  rewrite Hc in *. b2p.
  assert (Hq : forall k, k ∉ ["clickfix_guard_installed"; "clickfix_guard_signature_valid"; "signature_error"] ->
    flag k (probed probe known) = flag k known) by (intros k Hk; by apply flag_of_vget, Hp).
  rewrite !Hq in * by (apply (bool_decide_unpack _); by vm_compute).
  repeat (split; [done|]). rewrite Hp in Hrun by (apply (bool_decide_unpack _); by vm_compute). by apply Hrun.
Qed.
End DoctorFacts.

(** A heartbeat from the future is as good as a fresh one, however far ahead it lies. *)
Example future_heartbeat_is_fresh :
  @heartbeat_checked plain_env 0 [("last_heartbeat_utc", VStr "2099-01-01T00:00:00Z")]
    = Ok [("last_heartbeat_utc", VStr "2099-01-01T00:00:00Z"); ("clickfix_guard_running", VBool true)].
Proof. by vm_compute. Qed.

(** A heartbeat without an offset ends the diagnosis. *)
Example naive_heartbeat_raises :
  @doctor plain_env [("last_heartbeat_utc", VStr "2026-07-18T09:30:00")]
    {| ap_exists := true; ap_codesign := 0; ap_still_exists := true |} 0
    = Raise (TypeError "can't subtract offset-naive and offset-aware datetimes").
Proof. by vm_compute. Qed.
