(* ===== verification/TelemetryModels.v ===== *)
(** The policy and the data of the behavioural telemetry: [telemetry/policies.py],
    [models.py], [workstation_profiles.py], [false_positive_filter.py].

    A feature is a float, as the normaliser makes them. *)

From S2P Require Import Prelude PyStr PyFloat PyDict PyJson Sql PyRepr ShellTokenizer.

(** What the telemetry meets outside. The table of canonical events and the operation
    that records an alert are the core database's: the events it holds, and whether a
    call to it succeeds. *)
Class TelemetryEnv := {
  #[global] telemetry_store :: StoreEnv;
  #[global] telemetry_unicode :: UnicodeEnv;
  metadata_text : string -> option pyval;  (** [json.loads] of a text; [None] when it is no JSON *)
  local_offset : Z -> Z;                   (** of local time at an instant, in microseconds *)
  float_general : float -> string;         (** [f"{x:g}"] *)
  float_tenths : float -> string;          (** [f"{x:.1f}"] *)
  float_percent : float -> string;         (** [f"{x:.0%}"] *)
  hex_id : nat -> string;                  (** [uuid4().hex] *)
  canonical_events : nat -> list (string * string); (** identifiers and timestamps *)
  publish_ok : nat -> bool
}.

(** ** [policies.py] *)

Record BehavioralTelemetryPolicy := {
  tp_enabled : bool;
  tp_profile : string;
  tp_raw_retention_days : Z;
  tp_aggregate_retention_days : Z;
  tp_anomaly_retention_days : Z;
  tp_minimum_baseline_samples : Z;
  tp_established_baseline_samples : Z;
  tp_mature_baseline_samples : Z;
  tp_learning_rate : float;
  tp_anomaly_logging_threshold : Z;
  tp_investigation_threshold : Z;
  tp_alert_threshold : Z;
  tp_baseline_update_interval_seconds : Z;
  tp_bucket_seconds : Z;
  tp_queue_capacity : Z;
  tp_batch_size : Z;
  tp_correlation_window_seconds : Z;
  tp_pre_event_window_seconds : Z;
  tp_post_event_window_seconds : Z;
  tp_wake_grace_seconds : Z;
  tp_startup_grace_seconds : Z;
  tp_maximum_entities_per_bucket : Z;
  tp_maximum_evidence_refs_per_bucket : Z
}.

(** [__post_init__] *)
Definition telemetry_policy_check (p : BehavioralTelemetryPolicy) : res unit :=
  raise_if (negb ((1 <=? tp_raw_retention_days p) && (tp_raw_retention_days p <=? tp_aggregate_retention_days p)
                  && (tp_aggregate_retention_days p <=? 3650)))
    (ValueError "retention must be ordered and bounded");;
  raise_if (tp_anomaly_retention_days p <? tp_aggregate_retention_days p)
    (ValueError "anomaly retention cannot be shorter than aggregate retention");;
  raise_if (negb (fltb fzero (tp_learning_rate p) && fleb (tp_learning_rate p) (flit 25 100)))
    (ValueError "learning rate must be in (0, 0.25]");;
  raise_if (negb ((0 <=? tp_anomaly_logging_threshold p)
                  && (tp_anomaly_logging_threshold p <? tp_investigation_threshold p)
                  && (tp_investigation_threshold p <? tp_alert_threshold p) && (tp_alert_threshold p <=? 100)))
    (ValueError "behavioral thresholds must be ordered from 0 to 100");;
  raise_if (negb ((1 <=? tp_minimum_baseline_samples p)
                  && (tp_minimum_baseline_samples p <=? tp_established_baseline_samples p)
                  && (tp_established_baseline_samples p <=? tp_mature_baseline_samples p)))
    (ValueError "baseline sample thresholds must be ordered");;
  raise_if (negb ((60 <=? tp_bucket_seconds p) && (tp_bucket_seconds p <=? 86400)))
    (ValueError "bucket size must be between one minute and one day");;
  raise_if (negb ((64 <=? tp_queue_capacity p) && (tp_queue_capacity p <=? 1000000))
            || negb ((1 <=? tp_batch_size p) && (tp_batch_size p <=? tp_queue_capacity p)))
    (ValueError "queue and batch bounds are invalid").

(** The defaults, with what the profiles replace. *)
Definition profile_policy (profile : string) (raw aggregate investigation alert : Z) : BehavioralTelemetryPolicy := {|
  tp_enabled := true; tp_profile := profile; tp_raw_retention_days := raw;
  tp_aggregate_retention_days := aggregate; tp_anomaly_retention_days := 730;
  tp_minimum_baseline_samples := 24; tp_established_baseline_samples := 168; tp_mature_baseline_samples := 720;
  tp_learning_rate := flit 5 100; tp_anomaly_logging_threshold := 40;
  tp_investigation_threshold := investigation; tp_alert_threshold := alert;
  tp_baseline_update_interval_seconds := 86400; tp_bucket_seconds := 300; tp_queue_capacity := 4096;
  tp_batch_size := 256; tp_correlation_window_seconds := 900; tp_pre_event_window_seconds := 300;
  tp_post_event_window_seconds := 300; tp_wake_grace_seconds := 180; tp_startup_grace_seconds := 300;
  tp_maximum_entities_per_bucket := 256; tp_maximum_evidence_refs_per_bucket := 512 |}.

Definition PROFILE_POLICIES : list (string * BehavioralTelemetryPolicy) := [
  ("Balanced", profile_policy "Balanced" 3 180 60 80);
  ("Office", profile_policy "Office" 3 180 60 80);
  ("High Security", profile_policy "High Security" 3 180 55 75);
  ("Developer", profile_policy "Developer" 3 180 65 85);
  ("Research", profile_policy "Research" 3 180 70 90);
  ("Enterprise", profile_policy "Enterprise" 7 365 60 80);
  ("Server", profile_policy "Server" 3 180 60 80)].

Definition policy_for_profile (name : string) : BehavioralTelemetryPolicy :=
  dget_default (profile_policy "Balanced" 3 180 60 80) (strip name) PROFILE_POLICIES.

(** ** [models.py] *)

Inductive ActivityDimension :=
| PROCESS | APPLICATION | NETWORK | DNS | FILESYSTEM | PERSISTENCE | AUTHENTICATION | PRIVILEGE
| SECURITY_CONFIGURATION | SOFTWARE | EXTERNAL_DEVICE | SENSOR.

Definition dimension_value (d : ActivityDimension) : string :=
  match d with
  | PROCESS => "PROCESS_ACTIVITY" | APPLICATION => "APPLICATION_ACTIVITY" | NETWORK => "NETWORK_ACTIVITY"
  | DNS => "DNS_ACTIVITY" | FILESYSTEM => "FILESYSTEM_ACTIVITY" | PERSISTENCE => "PERSISTENCE_ACTIVITY"
  | AUTHENTICATION => "AUTHENTICATION_ACTIVITY" | PRIVILEGE => "PRIVILEGE_ACTIVITY"
  | SECURITY_CONFIGURATION => "SECURITY_CONFIGURATION_ACTIVITY" | SOFTWARE => "SOFTWARE_INSTALLATION_ACTIVITY"
  | EXTERNAL_DEVICE => "EXTERNAL_DEVICE_ACTIVITY" | SENSOR => "SENSOR_SECURITY_TOOL_ACTIVITY"
  end.

Inductive BaselineState := BS_LEARNING | BS_LOW_CONFIDENCE | BS_ESTABLISHED | BS_MATURE.

#[export] Instance baseline_state_eq_dec : EqDecision BaselineState.
Proof. solve_decision. Defined.

Inductive AnalyticsAvailability := AV_VALID | AV_REDUCED | AV_UNKNOWN | AV_UNAVAILABLE.

Definition availability_value (a : AnalyticsAvailability) : string :=
  match a with
  | AV_VALID => "VALID" | AV_REDUCED => "REDUCED" | AV_UNKNOWN => "UNKNOWN" | AV_UNAVAILABLE => "UNAVAILABLE"
  end.

(** [AnalyticsAvailability(value)] *)
Definition availability_of (s : string) : option AnalyticsAvailability :=
  find_first (fun a => String.eqb (availability_value a) s) [AV_VALID; AV_REDUCED; AV_UNKNOWN; AV_UNAVAILABLE].

Record NormalizedTelemetryEvent := {
  te_event_id : string;
  te_timestamp : string;
  te_monotonic_timestamp : float;
  te_host_ref : string;
  te_user_ref : string;
  te_user_class : string;
  te_dimension : ActivityDimension;
  te_event_name : string;
  te_features : list (string * float);
  te_entity_keys : list (string * string);
  te_security_context : pydict;
  te_evidence_refs : list string;
  te_sensor_id : string;
  te_coverage : AnalyticsAvailability;
  te_baseline_training_eligible : bool;
  te_feature_schema_version : string
}.

Definition finfinite (x : float) : bool := feqb x (SpecFloat.S754_infinity false).

(** [__post_init__]: every construction and every [replace] runs it. *)
Definition telemetry_event_checked (e : NormalizedTelemetryEvent) : res NormalizedTelemetryEvent :=
  raise_if (negb (truthy (te_event_id e)) || negb (truthy (te_timestamp e)) || negb (truthy (te_host_ref e)))
    (ValueError "normalized telemetry requires event, time, and host references");;
  raise_if (64 <? zlen (te_features e)) (ValueError "telemetry features must be a bounded numeric mapping");;
  raise_if (existsb (fun kv => fltb kv.2 fzero || negb (feqb kv.2 kv.2) || finfinite kv.2) (te_features e))
    (ValueError "telemetry feature values must be finite and non-negative");;
  Ok e.

(** [replace(event, features=..., security_context=..., baseline_training_eligible=...)] *)
Definition retold (features : list (string * float)) (context : pydict) (eligible : bool)
    (e : NormalizedTelemetryEvent) : res NormalizedTelemetryEvent :=
  telemetry_event_checked {|
    te_event_id := te_event_id e; te_timestamp := te_timestamp e;
    te_monotonic_timestamp := te_monotonic_timestamp e; te_host_ref := te_host_ref e;
    te_user_ref := te_user_ref e; te_user_class := te_user_class e; te_dimension := te_dimension e;
    te_event_name := te_event_name e; te_features := features; te_entity_keys := te_entity_keys e;
    te_security_context := context; te_evidence_refs := te_evidence_refs e; te_sensor_id := te_sensor_id e;
    te_coverage := te_coverage e; te_baseline_training_eligible := eligible;
    te_feature_schema_version := te_feature_schema_version e |}.

Record TelemetryBucket := {
  tb_bucket_start : string;
  tb_bucket_end : string;
  tb_host_ref : string;
  tb_user_ref : string;
  tb_time_cohort : string;
  tb_context_cohort : string;
  tb_feature_values : list (string * option float);
  tb_dimension_values : list (string * option float);
  tb_coverage : list (string * string);
  tb_entity_sets : list (string * list string);
  tb_evidence_refs : list string;
  tb_training_eligible : bool;
  tb_event_count : Z;
  tb_created_at : string;
  tb_updated_at : string
}.

Record FeatureBaseline := {
  fb_baseline_id : string;
  fb_host_ref : string;
  fb_user_ref : string;
  fb_feature_name : string;
  fb_time_cohort : string;
  fb_context_cohort : string;
  fb_median_value : float;
  fb_mad_value : float;
  fb_p05 : float;
  fb_p25 : float;
  fb_p50 : float;
  fb_p75 : float;
  fb_p95 : float;
  fb_sample_count : Z;
  fb_confidence : float;
  fb_state : BaselineState;
  fb_version : Z;
  fb_updated_at : string
}.

Definition normal_low (b : FeatureBaseline) : float := fmax fzero (fb_p05 b).
Definition normal_high (b : FeatureBaseline) : float := fmax (normal_low b) (fb_p95 b).

(** The versions are the constants of the module. *)
Record BehavioralAnomaly := {
  ba_anomaly_id : string;
  ba_timestamp : string;
  ba_host_ref : string;
  ba_user_ref : string;
  ba_dimension : string;
  ba_anomaly_score : Z;
  ba_security_severity : string;
  ba_detection_confidence : float;
  ba_baseline_value : option float;
  ba_observed_value : option float;
  ba_normal_low : option float;
  ba_normal_high : option float;
  ba_reason_codes : list string;
  ba_reasons : list string;
  ba_related_entities : list (string * string);
  ba_evidence_refs : list string;
  ba_sensor_coverage : list (string * string);
  ba_baseline_version : Z;
  ba_active_behavior_policy : string;
  ba_baseline_training_eligible : bool;
  ba_incident_id : string;
  ba_disposition : string;
  ba_explanation : string;
  ba_created_at : string
}.

Record BehavioralIncident := {
  bi_incident_id : string;
  bi_first_seen : string;
  bi_last_seen : string;
  bi_host_ref : string;
  bi_user_ref : string;
  bi_primary_entity : string;
  bi_anomaly_ids : list string;
  bi_reason_codes : list string;
  bi_anomaly_score : Z;
  bi_security_severity : string;
  bi_detection_confidence : float;
  bi_evidence_refs : list string;
  bi_status : string;
  bi_alert_event_id : string;
  bi_flight_recorder_snapshot_id : string;
  bi_occurrence_count : Z
}.

(** ** [workstation_profiles.py] *)

Record WorkstationProfile := {
  wp_name : string;
  wp_description : string;
  wp_unexpected_traits : list string
}.

Definition balanced_profile : WorkstationProfile :=
  {| wp_name := "Balanced";
     wp_description := "General-purpose Mac with normal interactive application, network, and user activity.";
     wp_unexpected_traits := ["RESEARCH_ACTIVITY"; "FUZZING_ACTIVITY"; "SERVER_SERVICE_ACTIVITY"] |}.

(** The activities they expect, which nothing reads, are left out. *)
Definition WORKSTATION_PROFILES : list (string * WorkstationProfile) := [
  ("Balanced", balanced_profile);
  ("Office", {| wp_name := "Office";
     wp_description := "Office productivity workstation without routine development, fuzzing, or server workloads.";
     wp_unexpected_traits :=
     ["DEVELOPMENT_TOOLING"; "RESEARCH_ACTIVITY"; "FUZZING_ACTIVITY"; "SERVER_SERVICE_ACTIVITY"] |});
  ("High Security", {| wp_name := "High Security";
     wp_description := "Restricted workstation where development, research, unsigned execution, and remote access require review.";
     wp_unexpected_traits :=
     ["DEVELOPMENT_TOOLING"; "RESEARCH_ACTIVITY"; "FUZZING_ACTIVITY"; "SERVER_SERVICE_ACTIVITY"; "UNSIGNED_EXECUTION";
      "TEMPORARY_EXECUTION"; "REMOTE_ACCESS"; "EXTERNAL_DEVICE_ACTIVITY"] |});
  ("Developer", {| wp_name := "Developer";
     wp_description := "Software-development workstation where shells, interpreters, compilers, and build activity are expected.";
     wp_unexpected_traits :=
     ["RESEARCH_ACTIVITY"; "FUZZING_ACTIVITY"; "SERVER_SERVICE_ACTIVITY"] |});
  ("Research", {| wp_name := "Research";
     wp_description := "Authorized security-research workstation with explicit research and fuzzing context.";
     wp_unexpected_traits := ["SERVER_SERVICE_ACTIVITY"] |});
  ("Enterprise", {| wp_name := "Enterprise";
     wp_description := "Managed enterprise endpoint where software and security changes should follow organizational policy.";
     wp_unexpected_traits := ["RESEARCH_ACTIVITY"; "FUZZING_ACTIVITY"] |});
  ("Server", {| wp_name := "Server";
     wp_description := "Service-oriented Mac where daemon and non-interactive network workloads are expected.";
     wp_unexpected_traits :=
     ["RESEARCH_ACTIVITY"; "FUZZING_ACTIVITY"; "EXTERNAL_DEVICE_ACTIVITY"] |})].

Definition TRAIT_REASON_CODES : list (string * string) := [
  ("DEVELOPMENT_TOOLING", "PROFILE_UNEXPECTED_DEVELOPMENT_TOOLING");
  ("RESEARCH_ACTIVITY", "PROFILE_UNEXPECTED_RESEARCH_ACTIVITY");
  ("FUZZING_ACTIVITY", "PROFILE_UNEXPECTED_FUZZING_ACTIVITY");
  ("SERVER_SERVICE_ACTIVITY", "PROFILE_UNEXPECTED_SERVER_ACTIVITY");
  ("UNSIGNED_EXECUTION", "PROFILE_UNEXPECTED_UNSIGNED_EXECUTION");
  ("TEMPORARY_EXECUTION", "PROFILE_UNEXPECTED_TEMPORARY_EXECUTION");
  ("REMOTE_ACCESS", "PROFILE_UNEXPECTED_REMOTE_ACCESS");
  ("EXTERNAL_DEVICE_ACTIVITY", "PROFILE_UNEXPECTED_EXTERNAL_DEVICE")].

Definition workstation_profile (name : string) : WorkstationProfile :=
  dget_default balanced_profile (strip name) WORKSTATION_PROFILES.

Section Profiles.
Context `{PlatformEnv}.

(** [declared = ...; traits = {str(item) for item in declared}] *)
Definition behavior_traits (e : NormalizedTelemetryEvent) : list string :=
  match dget_default (VList []) "behavior_traits" (te_security_context e) with
  | VList l => py_str <$> l
  | _ => []
  end.

(** The traits the declared role does not expect, sorted, each once; the combined one
    last, outside the high-security role. *)
Definition unexpected_traits (profile : WorkstationProfile) (traits : list string) : list string :=
  sort_by str_le (filter (fun t => one_of t traits = true) (wp_unexpected_traits profile))
  ++ (if one_of "UNSIGNED_EXECUTION" traits
         && (one_of "TEMPORARY_EXECUTION" traits || one_of "DOWNLOAD_EXECUTION" traits)
         && negb (String.eqb (wp_name profile) "High Security")
      then ["UNSIGNED_TEMPORARY_EXECUTION"] else []).

Definition trait_reason (trait : string) : string :=
  if String.eqb trait "UNSIGNED_TEMPORARY_EXECUTION" then "PROFILE_UNEXPECTED_UNSIGNED_EXECUTION"
  else dget_default "WORKSTATION_PROFILE_DEVIATION" trait TRAIT_REASON_CODES.

Definition apply_workstation_profile (profile_name : string) (e : NormalizedTelemetryEvent)
    : res NormalizedTelemetryEvent :=
  let profile := workstation_profile profile_name in
  let unexpected := unexpected_traits profile (behavior_traits e) in
  let context := dset "workstation_profile" (VStr (wp_name profile)) (te_security_context e) in
  match unexpected with
  | [] => retold (te_features e) context (te_baseline_training_eligible e) e
  | _ =>
      let features := foldl (fun d t => dset ("profile_deviation_" +:+ lower t +:+ "_count") fone d)
                        (dset "workstation_profile_deviation_count" fone (te_features e)) unexpected in
      let context := dset "workstation_profile_deviation" (VBool true) context in
      let context := dset "profile_deviation_traits" (VList (VStr <$> unexpected)) context in
      let context := dset "profile_deviation_reason_codes" (VList ((fun t => VStr (trait_reason t)) <$> unexpected)) context in
      retold features context false e
  end.
End Profiles.

(** ** [false_positive_filter.py] *)

Record FalsePositiveDecision := {
  fp_trusted_internal_activity : bool;
  fp_alert_eligible : bool;
  fp_severity : string;
  fp_event_classification : string;
  fp_reason : string
}.

Definition fp (trusted eligible : bool) (severity classification reason : string) : FalsePositiveDecision := {|
  fp_trusted_internal_activity := trusted; fp_alert_eligible := eligible; fp_severity := severity;
  fp_event_classification := classification; fp_reason := reason |}.

(** [classify_command_event]; the origin as text *)
Definition classify_command_event (origin execution_status : string) (anomaly_detected : bool) : FalsePositiveDecision :=
  let failed := negb (String.eqb execution_status "completed") in
  let suspect := failed || anomaly_detected in
  if String.eqb origin "INTERNAL_MSAA_TASK" then
    fp true suspect (if suspect then "medium" else "low")
      (if negb failed then "trusted_internal_diagnostic" else "trusted_internal_failure")
      (if negb failed then "MSAA internal subsystem execution" else "MSAA internal subsystem execution failed")
  else if String.eqb origin "SYSTEM_MONITOR" then
    fp true suspect (if suspect then "medium" else "info") "system_monitor_health"
      (if negb failed then "MSAA system monitor execution" else "MSAA system monitor execution degraded")
  else if String.eqb origin "USER_INITIATED" then
    fp false true (if negb failed then "medium" else "high") "user_initiated_command" "User initiated command execution"
  else if one_of origin ["DIAGNOSTIC"; "REPAIR_WIZARD"; "ALERT_PIPELINE"; "TEST_FRAMEWORK"] then
    fp true suspect (if suspect then "medium" else "low") (lower origin)
      ("MSAA " +:+ lower origin +:+ " command execution")
  else fp false true "medium" "unclassified_command" "Unclassified command origin".

(** [to_dict] *)
Definition fp_dict (d : FalsePositiveDecision) : pydict := [
  ("trusted_internal_activity", VBool (fp_trusted_internal_activity d)); ("alert_eligible", VBool (fp_alert_eligible d));
  ("severity", VStr (fp_severity d)); ("event_classification", VStr (fp_event_classification d));
  ("reason", VStr (fp_reason d))].

Definition apply_false_positive_filter `{PlatformEnv} (payload : pydict) : pydict :=
  let decision := classify_command_event (py_str (dget_default (VStr "") "origin" payload))
    (py_str (dget_default (VStr "completed") "execution_status" payload))
    (truthy_val (dget_default (VBool false) "anomaly_detected" payload)) in
  foldl (fun d kv => dset kv.1 kv.2 d) payload (fp_dict decision).

(** ** What holds of them *)

(** Every shipped profile passes its own checks. *)
Example shipped_policies : forallb (fun kv => is_ok (telemetry_policy_check kv.2)) PROFILE_POLICIES = true.
Proof. by vm_compute. Qed.

(** Whatever the name, a shipped profile is taken. *)
Lemma shipped_policy (P : BehavioralTelemetryPolicy -> Prop) name :
  Forall P (snd <$> PROFILE_POLICIES) -> P (policy_for_profile name).
Proof.
  rewrite Forall_forall. intros Hall. apply Hall. unfold policy_for_profile, dget_default.
  destruct (dget _ _) as [p|] eqn:Hp; [|by left]. apply dget_elem in Hp. by apply (list_elem_of_fmap_2 snd _ _ Hp).
Qed.

(** An event silenced as trusted comes from inside, completed and showed no anomaly. *)
Lemma silenced_means_internal origin status anomaly :
  fp_alert_eligible (classify_command_event origin status anomaly) = false ->
  status = "completed" /\ anomaly = false
  /\ one_of origin ["INTERNAL_MSAA_TASK"; "SYSTEM_MONITOR"; "DIAGNOSTIC"; "REPAIR_WIZARD"; "ALERT_PIPELINE"; "TEST_FRAMEWORK"]
     = true.
Proof.
  unfold classify_command_event, one_of. cbn [existsb].
  destruct (String.eqb_spec status "completed") as [->|]; cbn [negb orb].
  - destruct anomaly, (String.eqb origin "INTERNAL_MSAA_TASK"), (String.eqb origin "SYSTEM_MONITOR"),
      (String.eqb origin "USER_INITIATED"); cbn; try done; intros H; split_and!; try done.
    all: by destruct (_ || _) in H |- *.
  - repeat case_match; done.
Qed.

(** A digest that tells the names of a run apart. *)
Fixpoint mixing_hash (h : Z) (s : string) : string :=
  match s with
  | EmptyString => str_of_Z (10 ^ 24 + h)
  | String c s' => mixing_hash ((h * 131 + code c) mod 10 ^ 24) s'
  end.

(** ** A surrounding to run the telemetry in

    Statements succeed as [ok] says, recording an alert as [publish] says; the clock
    stands in June 2025, in UTC. *)
Definition demo_telemetry (ok publish : nat -> bool) : TelemetryEnv := {|
  telemetry_store := {| store_platform := {| float_repr := @float_repr plain_env; sha256 := mixing_hash 7;
                                              hmac_sha256 := @hmac_sha256 plain_env |}; utc_clock := fun n => 1750000000000000 + Z.of_nat n; stmt_ok := ok;
                        database_bytes := fun _ => 0; integrity_key := "key" |};
  telemetry_unicode := {| nfkc := fun s => s; is_alpha_cp := fun c => between 65 90 c || between 97 122 c;
                          is_alnum_cp := fun c => between 48 57 c || between 65 90 c || between 97 122 c |};
  metadata_text := fun _ => None; local_offset := fun _ => 0; float_general := fun _ => "?"; float_tenths := fun _ => "?";
  float_percent := fun _ => "?"; hex_id := fun n => str_of_Z (Z.of_nat n); canonical_events := fun _ => [];
  publish_ok := publish |}.

Definition demo_event (id timestamp user : string) : NormalizedTelemetryEvent := {|
  te_event_id := id; te_timestamp := timestamp; te_monotonic_timestamp := fzero; te_host_ref := "host-1";
  te_user_ref := user; te_user_class := "interactive"; te_dimension := PROCESS; te_event_name := "process_execution";
  te_features := [("process_exec_count", fone)]; te_entity_keys := [("process", "process-1")];
  te_security_context := []; te_evidence_refs := [id]; te_sensor_id := "system_monitor"; te_coverage := AV_VALID;
  te_baseline_training_eligible := true; te_feature_schema_version := "1.0" |}.

Definition balanced_policy : BehavioralTelemetryPolicy := policy_for_profile "Balanced".

(** A connection to an empty database. *)
Definition empty_connection {T} (t : T) : Conn T := {| committed := t; working := t; in_tx := false; ticks := 0 |}.
