(* ===== verification/TelemetryNormalizer.v ===== *)
(** What the telemetry keeps of names, texts and command lines: [telemetry/privacy.py],
    and [shlex.split] of the standard library, which it reads command lines with. *)

From S2P Require Import Prelude PyStr PyFloat PyDict PyJson PyRepr ShellTokenizer TextRegex Sql TelemetryModels.
From Stdlib Require Import Ascii.

(** ** [shlex.split(s, posix=True)] *)

(** Between words, in a word, in quotes, after a backslash (in quotes, or not). *)
Inductive ShlexState := SxBlank | SxWord | SxQuote (q : ascii) | SxEscape (inside : option ascii).

Definition single_quote : ascii := ascii_of_nat 39.
Definition double_quote : ascii := ascii_of_nat 34.
Definition escape_mark : ascii := ascii_of_nat 92.
Definition is_quote (c : ascii) : bool := Ascii.eqb c single_quote || Ascii.eqb c double_quote.
Definition shlex_space (c : ascii) : bool := one_of (String c "") [" "; String (ascii_of_nat 9) ""; String (ascii_of_nat 13) ""; String (ascii_of_nat 10) ""].

Definition snoc (s : string) (c : ascii) : string := s +:+ String c "".

(** [tok] is the word so far, [quoted] whether quotes were met in it. *)
Fixpoint shlex (st : ShlexState) (quoted : bool) (tok : string) (s : string) : res (list string) :=
  match s with
  | EmptyString =>
      match st with
      | SxBlank => Ok []
      | SxWord => Ok (if truthy tok || quoted then [tok] else [])
      | SxQuote _ => Raise (ValueError "No closing quotation")
      | SxEscape _ => Raise (ValueError "No escaped character")
      end
  | String c s' =>
      match st with
      | SxBlank =>
          if shlex_space c then shlex SxBlank false "" s'
          else if Ascii.eqb c escape_mark then shlex (SxEscape None) false "" s'
          else if is_quote c then shlex (SxQuote c) true "" s'
          else shlex SxWord false (String c "") s'
      | SxWord =>
          if shlex_space c then
            if truthy tok || quoted then words ← shlex SxBlank false "" s'; Ok (tok :: words)
            else shlex SxBlank false "" s'
          else if is_quote c then shlex (SxQuote c) true tok s'
          else if Ascii.eqb c escape_mark then shlex (SxEscape None) quoted tok s'
          else shlex SxWord quoted (snoc tok c) s'
      | SxQuote q =>
          if Ascii.eqb c q then shlex SxWord quoted tok s'
          else if Ascii.eqb c escape_mark && Ascii.eqb q double_quote then shlex (SxEscape (Some q)) quoted tok s'
          else shlex (SxQuote q) quoted (snoc tok c) s'
      | SxEscape None => shlex SxWord quoted (snoc tok c) s'
      | SxEscape (Some q) =>
          let tok := if negb (Ascii.eqb c escape_mark) && negb (Ascii.eqb c q) then snoc tok escape_mark else tok in
          shlex (SxQuote q) quoted (snoc tok c) s'
      end
  end.

Definition shlex_split (s : string) : res (list string) := shlex SxBlank false "" s.

(** [a or b] of values, and [str(v or "")] *)
Definition val_or (a b : pyval) : pyval := if truthy_val a then a else b.
Definition text_or `{PlatformEnv} (v : pyval) (dflt : string) : string := py_str (val_or v (VStr dflt)).

(** ** References *)

Section Privacy.
Context `{PlatformEnv} `{UnicodeEnv}.

Definition nul : string := String (ascii_of_nat 0) "".

Definition stable_reference (namespace value salt : string) : string :=
  namespace +:+ "-" +:+ sprefix 24 (sha256 (namespace +:+ nul +:+ salt +:+ nul +:+ value)).

Definition user_reference (uid : option Z) (account host_salt : string) : string :=
  let by_account := "account:" +:+ str_or account "unknown" in
  stable_reference "user"
    (match uid with Some u => if 0 <=? u then "uid:" +:+ str_of_Z u else by_account | None => by_account end)
    host_salt.

(** ** Redaction *)

Definition SENSITIVE_OPTION : re := pattern_i
  "^(--?(?:password|passwd|token|secret|api[-_]?key|authorization|bearer|access[-_]?key|private[-_]?key)(?:=|$))".
Definition INLINE_SECRET : re := pattern_i
  "\b(password|passwd|token|secret|api[-_]?key|authorization|bearer)\s*([=:])\s*([^\s,;]+)".
Definition AWS_KEY : re := pattern "\b(?:AKIA|ASIA)[A-Z0-9]{16}\b".
Definition PRIVATE_KEY : re := pattern "-----BEGIN [A-Z ]*PRIVATE KEY-----".
Definition AUTHORIZATION_BEARER : re := pattern_i "\bAuthorization\s*:\s*Bearer\s+[^\s,;]+".
Definition SENSITIVE_NAME : re := pattern_i
  "(password|token|secret|authorization|cookie|clipboard|document_content|message)".

Definition redact_text (value : pyval) (maximum_length : Z) : string :=
  let t := text_of (sprefix maximum_length (text_or value "")) in
  let t := sub AUTHORIZATION_BEARER (fun _ _ => text_of "Authorization: Bearer <REDACTED>") t in
  let t := sub INLINE_SECRET (fun _ st => group_text t st 1 ++ group_text t st 2 ++ text_of "<REDACTED>") t in
  let t := sub AWS_KEY (fun _ _ => text_of "<REDACTED_AWS_KEY>") t in
  let t := sub PRIVATE_KEY (fun _ _ => text_of "<REDACTED_PRIVATE_KEY>") t in
  string_of t.

(** [argument.split("=", 1)[0]] *)
Fixpoint before_equals_sign (s : string) : string :=
  match s with
  | EmptyString => EmptyString
  | String c s' => if Ascii.eqb c "=" then EmptyString else String c (before_equals_sign s')
  end.

Definition sensitive_option (argument : string) : bool := search SENSITIVE_OPTION (text_of argument).

Fixpoint redact_arguments (redact_next : bool) (arguments : list string) : list string :=
  match arguments with
  | [] => []
  | argument :: rest =>
      if redact_next then "<REDACTED>" :: redact_arguments false rest
      else if sensitive_option argument then
        if contains "=" argument then (before_equals_sign argument +:+ "=<REDACTED>") :: redact_arguments false rest
        else argument :: redact_arguments true rest
      else redact_text (VStr argument) 1024 :: redact_arguments false rest
  end.

Definition redact_command_line (value : pyval) : string :=
  match shlex_split (text_or value "") with
  | Ok arguments => join " " (redact_arguments false (take 64 arguments))
  | Raise _ => redact_text value 4096
  end.

(** ** [minimize_mapping] *)

Definition sensitive_name (name : string) : bool := search SENSITIVE_NAME (text_of name).

(** An item as it is shown; [minimized] is what [minimize_value] makes of it. *)
Definition shown_item (key : string) (item minimized : pyval) : string * pyval :=
  let name := sprefix 128 key in
  (name,
   if sensitive_name name then VStr "<REDACTED>"
   else if one_of name ["command_line"; "argv"; "arguments"] then VStr (redact_command_line item)
   else minimized).

(** [output[name] = shown] for the first [n] items *)
Definition first_items (n : nat) (items : pydict) : pydict := foldl (fun output kv => dset kv.1 kv.2 output) [] (take n items).

Fixpoint minimize_value (v : pyval) : pyval :=
  match v with
  | VStr _ | VBytes _ | VObj _ => VStr (redact_text v 4096)
  | VNone | VBool _ | VInt _ | VFloat _ => v
  | VList l | VTuple l => VList ((fun entry => VStr (redact_text entry 512)) <$> take 32 l)
  | VDict d => VDict (first_items 32 ((fun kv => shown_item kv.1 kv.2 (minimize_value kv.2)) <$> d))
  end.

(** With the default bound of 64 items. *)
Definition minimize_mapping (value : pydict) : pydict :=
  first_items 64 ((fun kv => shown_item kv.1 kv.2 (minimize_value kv.2)) <$> value).
End Privacy.

(** ** What is kept *)

(** Bounded in every dimension, and no value under a name that speaks of a secret. *)
Section Bounded.
Context `{PlatformEnv} `{UnicodeEnv}.

Definition item_ok (key : string) (ok : bool) (v : pyval) : bool :=
  (slen key <=? 128) && (if sensitive_name key then match v with VStr s => String.eqb s "<REDACTED>" | _ => false end else ok).

Fixpoint minimal (v : pyval) : bool :=
  match v with
  | VList l => (zlen l <=? 32) && forallb (fun x => match x with VStr _ => true | _ => false end) l
  | VDict d => (zlen d <=? 32) && forallb (fun kv => item_ok kv.1 (minimal kv.2) kv.2) d
  | VTuple _ | VBytes _ | VObj _ => false
  | _ => true
  end.

Definition minimal_mapping (d : pydict) : bool :=
  (zlen d <=? 64) && forallb (fun kv => item_ok kv.1 (minimal kv.2) kv.2) d.

Lemma shown_item_ok key item minimized :
  minimal minimized = true -> (fun kv => item_ok kv.1 (minimal kv.2) kv.2) (shown_item key item minimized) = true.
Proof.
  intros Hm. unfold shown_item, item_ok. cbn [fst snd]. rewrite andb_true_iff, Z.leb_le. split.
  { apply slen_sprefix. lia. }
  destruct (sensitive_name _); [done|]. by destruct (one_of _ _).
Qed.

Lemma first_items_ok n items p :
  forallb p items = true ->
  zlen (first_items n items) <= Z.of_nat n /\ forallb p (first_items n items) = true.
Proof.
  unfold first_items. intros Hp.
  assert (Htake : forallb p (take n items) = true).
  { rewrite forallb_forall in Hp |- *. intros x Hx%list_elem_of_In%elem_of_take. destruct Hx as (i & Hi & _).
    apply Hp, list_elem_of_In, list_elem_of_lookup. by exists i. }
  assert (Hlen : (length (take n items) <= n)%nat) by (rewrite length_take; lia).
  clear Hp. revert Htake Hlen. generalize (take n items) as l. intros l Hl Hn.
  assert (Hgen : forall out, forallb p out = true ->
    zlen (foldl (fun output kv => dset kv.1 kv.2 output) out l) <= zlen out + zlen l
    /\ forallb p (foldl (fun output kv => dset kv.1 kv.2 output) out l) = true).
  { clear Hn. induction l as [|[k v] l IH]; intros out Hout; cbn [foldl].
    - unfold zlen at 3. cbn. split; [lia|done].
    - cbn in Hl. apply andb_prop in Hl as [Hkv Hl].
      destruct (IH Hl (dset k v out)) as [H1 H2]; [by apply forallb_dset|].
      split; [|done]. pose proof (zlen_dset_le k v out). rewrite zlen_cons. cbn [fst snd] in *. lia. }
  destruct (Hgen [] eq_refl) as [H1 H2]. split; [|done]. unfold zlen in *. cbn in H1. lia.
Qed.

Lemma minimize_value_minimal v : minimal (minimize_value v) = true.
Proof.
  induction v as [| | | | | |l _|l _|d IH|] using pyval_ind'; try done; cbn [minimize_value minimal].
  1,2: rewrite andb_true_iff, Z.leb_le; split;
    [unfold zlen; rewrite length_fmap, length_take; lia|
     apply forallb_forall; intros x Hx%list_elem_of_In; apply list_elem_of_fmap in Hx as (y & -> & _); done].
  destruct (first_items_ok 32 ((fun kv => shown_item kv.1 kv.2 (minimize_value kv.2)) <$> d)
    (fun kv => item_ok kv.1 (minimal kv.2) kv.2)) as [H1 H2].
  - apply forallb_forall. intros x Hx%list_elem_of_In. apply list_elem_of_fmap in Hx as (kv & -> & Hkv).
    apply shown_item_ok. rewrite Forall_forall in IH. by apply IH.
  - rewrite H2, andb_true_r, Z.leb_le. lia.
Qed.

(** What goes into the database is bounded in every dimension, and no value under a name
    that speaks of a secret survives, at whatever depth of dicts. *)
Theorem minimized_is_minimal d : minimal_mapping (minimize_mapping d) = true.
Proof.
  unfold minimal_mapping, minimize_mapping.
  destruct (first_items_ok 64 ((fun kv => shown_item kv.1 kv.2 (minimize_value kv.2)) <$> d)
    (fun kv => item_ok kv.1 (minimal kv.2) kv.2)) as [H1 H2].
  - apply forallb_forall. intros x Hx%list_elem_of_In. apply list_elem_of_fmap in Hx as (kv & -> & _).
    apply shown_item_ok, minimize_value_minimal.
  - rewrite H2, andb_true_r, Z.leb_le. lia.
Qed.
End Bounded.

Section Examples.
#[local] Instance ascii_words : UnicodeEnv := {|
  nfkc := fun s => s; is_alpha_cp := fun c => between 65 90 c || between 97 122 c;
  is_alnum_cp := fun c => between 48 57 c || between 65 90 c || between 97 122 c |}.

#[local] Existing Instance plain_env.

Definition dq : string := String double_quote "".

Example shlex_ex :
  shlex_split ("a 'b c' d" +:+ dq +:+ "e f" +:+ dq +:+ " g\ h ''") = Ok ["a"; "b c"; "de f"; "g h"; ""]
  /\ is_ok (shlex_split "it's") = false.
Proof. by vm_compute. Qed.

Example redaction :
  redact_text (VStr "run password: hunter2, token=abc AKIA0123456789ABCDEF") 4096
    = "run password:<REDACTED>, token=<REDACTED> <REDACTED_AWS_KEY>"
  /\ redact_command_line (VStr "curl --token abc --api-key=def -H 'Authorization: Bearer xyz'")
    = "curl --token <REDACTED> --api-key=<REDACTED> -H Authorization:<REDACTED> <REDACTED>".
Proof. by vm_compute. Qed.

(** What [minimize_mapping] does under a dict it does not do under a list: the secret of a
    dict in a list is kept. *)
Example secret_in_a_list_is_kept :
  minimize_mapping [("a", VDict [("password", VStr "hunter2")])] = [("a", VDict [("password", VStr "<REDACTED>")])]
  /\ minimize_mapping [("a", VList [VDict [("password", VStr "hunter2")]])]
     = [("a", VList [VStr "{'password': 'hunter2'}"])].
Proof. by vm_compute. Qed.
End Examples.

(** From a canonical event to a telemetry event: [telemetry/normalizer.py].

    The event is the dict its [to_dict] gives; names and paths leave as references. *)

Definition DETERMINISTIC_EXCLUSION_TYPES : list string :=
  ["behavioral_anomaly"; "behavioral_incident"; "monitor_test_event"; "monitor_self_test"].

(** [v in {...}], the members being texts: a list or a dict cannot be hashed. *)
Definition hashable_in (v : pyval) (l : list string) : res bool :=
  match v with
  | VStr s => Ok (one_of s l)
  | VList _ | VDict _ => Raise (TypeError "unhashable type")
  | _ => Ok false
  end.

(** [v == 0] *)
Definition equals_zero (v : pyval) : bool :=
  match v with VInt z => z =? 0 | VBool b => negb b | VFloat f => feqb f fzero | _ => false end.

(** [s.isdigit()] of code points below 256: the superscripts are digits too. *)
Definition isdigit (s : string) : bool :=
  truthy s && all_chars (fun c => is_digit c || (code c =? 178) || (code c =? 179) || (code c =? 185)) s.

Definition any_in (tokens : list string) (s : string) : bool := existsb (fun token => contains token s) tokens.
Definition starts_with_any (prefixes : list string) (s : string) : bool := existsb (fun p => startswith p s) prefixes.

Definition unsigned_status : list string := ["unsigned"; "invalid"; "ad_hoc"].

Section Normalizer.
Context `{TelemetryEnv} (host_salt host_ref : string).

(** [metadata.get(a) or metadata.get(b)] *)
Definition get_or (a b : string) (d : pydict) : pyval := val_or (vget a d) (vget b d).

(** [_metadata] *)
Definition metadata_of (v : pyval) : pydict :=
  match v with
  | VDict d => d
  | _ => match metadata_text (text_or v "{}") with Some (VDict d) => d | _ => [] end
  end.

(** [_user_class] *)
Definition user_class_of (uid : option Z) (metadata : pydict) : string :=
  let declared := lower (text_or (vget "user_class" metadata) "") in
  if one_of declared ["interactive"; "system"; "service"; "unknown"] then declared
  else match uid with
  | None => "unknown"
  | Some u => if u =? 0 then "system" else if u <? 500 then "service" else "interactive"
  end.

(** [metadata.get("first_seen") or payload.get("baseline_status") in {...}] *)
Definition first_seen_in (payload metadata : pydict) : res bool :=
  if truthy_val (vget "first_seen" metadata) then Ok true
  else hashable_in (vget "baseline_status" payload) ["new"; "first_seen"].

Definition signing_of (metadata : pydict) : string :=
  lower (text_or (get_or "signing_status" "signature_status" metadata) "").

Definition mark (c : bool) (name : string) (d : list (string * float)) : list (string * float) :=
  if c then dset name fone d else d.

(** [_features] *)
Definition features_of (event_type : string) (payload metadata : pydict)
    : res (option (ActivityDimension * list (string * float))) :=
  let one dimension name := Ok (Some (dimension, [(name, fone)])) in
  if any_in ["process"; "execution"; "shell"; "interpreter"] event_type then
    first ← first_seen_in payload metadata;
    let features := mark first "first_seen_process_count" [("process_exec_count", fone); ("unique_process_count", fone)] in
    let features := mark (one_of (signing_of metadata) unsigned_status) "unsigned_process_count" features in
    let features := mark (truthy_val (vget "privileged" metadata) || equals_zero (vget "effective_uid" metadata))
                      "privileged_execution_count" features in
    Ok (Some (PROCESS, features))
  else if any_in ["network"; "connection"; "listener"; "port_"; "vpn_"] event_type then
    Ok (Some (NETWORK, [("network_connection_count", fone); ("unique_destination_count", fone)]))
  else if any_in ["dns"; "resolver"] event_type then
    Ok (Some (DNS, mark (any_in ["server"; "resolver"] event_type) "dns_resolver_change_count"
                     [("dns_query_count", fone); ("unique_domain_count", fone)]))
  else if any_in ["file_"; "rename"; "delete"; "write"; "entropy"] event_type then one FILESYSTEM "filesystem_event_count"
  else if any_in ["launchagent"; "launchdaemon"; "login_item"; "persistence"; "startup"] event_type then
    one PERSISTENCE "persistence_change_count"
  else if any_in ["login"; "logout"; "unlock"; "authentication"; "session_"; "admin_user"] event_type then
    let features := mark (contains "failed" event_type) "authentication_failure_count" [("authentication_event_count", fone)] in
    Ok (Some (AUTHENTICATION, mark (contains "new_admin" event_type) "new_administrator_count" features))
  else if any_in ["privilege"; "sudo"; "root_"; "administrator"] event_type then one PRIVILEGE "privileged_execution_count"
  else if any_in ["firewall"; "filevault"; "gatekeeper"; "security_configuration"; "remote_login"; "sharing_"; "proxy";
                  "profile"] event_type then one SECURITY_CONFIGURATION "security_setting_change_count"
  else if any_in ["application_installed"; "application_removed"; "package_installed"; "software_"] event_type then
    one SOFTWARE "software_installation_count"
  else if any_in ["usb_"; "bluetooth_"; "physical_device"] event_type then one EXTERNAL_DEVICE "external_device_event_count"
  else if any_in ["sensor"; "detector"; "heartbeat"; "monitor_"; "notifier"; "tamper"] event_type then
    one SENSOR "sensor_security_tool_event_count"
  else if any_in ["application"; "app_"] event_type then one APPLICATION "application_event_count"
  else Ok None.

Definition temporary_directories : list string := ["/tmp/"; "/private/tmp/"; "/var/tmp/"].

(** [_behavior_traits] *)
Definition behavior_traits_of (event_type process path signing user_class : string) (metadata : pydict) : list string :=
  let searchable := lower (event_type +:+ " " +:+ process +:+ " " +:+ path) in
  let flag name := truthy_val (vget name metadata) in
  let when (c : bool) (trait : string) := if c then [trait] else [] in
  when (any_in ["xcode"; "clang"; "gcc"; "make"; "python"; "node"; "ruby"; "swift"; "zsh"; "bash"] searchable) "DEVELOPMENT_TOOLING"
  ++ when (flag "research_mode" || any_in ["research_"; "malware_lab"; "rule_test"] searchable) "RESEARCH_ACTIVITY"
  ++ when (flag "fuzzing" || flag "debugger_attached" || any_in ["fuzz"; "lldb"; "debugger"] searchable) "FUZZING_ACTIVITY"
  ++ when (String.eqb user_class "service" || any_in ["listener"; "daemon_started"; "service_started"] event_type)
       "SERVER_SERVICE_ACTIVITY"
  ++ when (one_of signing unsigned_status) "UNSIGNED_EXECUTION"
  ++ when (starts_with_any temporary_directories path) "TEMPORARY_EXECUTION"
  ++ when (contains "/Downloads/" path) "DOWNLOAD_EXECUTION"
  ++ when (any_in ["remote_login"; "remote_access"; "ssh_login"; "screen_sharing"] event_type) "REMOTE_ACCESS"
  ++ when (any_in ["usb_"; "bluetooth_"; "physical_device"] event_type) "EXTERNAL_DEVICE_ACTIVITY".

(** [int(uid) if isinstance(uid, int) or str(uid or "").isdigit() else None] *)
Definition uid_of (uid : pyval) : res (option Z) :=
  match uid with
  | VInt _ | VBool _ => u ← py_int uid; Ok (Some u)
  | _ => if isdigit (text_or uid "") then u ← py_int uid; Ok (Some u) else Ok None
  end.

(** The names an event speaks of, before they become references. *)
Definition entity_values (process path remote domain parent : string) (metadata : pydict) : list (string * string) := [
  ("process", process); ("path", path); ("destination", remote); ("domain", domain);
  ("signing_identifier", text_or (vget "signing_identifier" metadata) "");
  ("team_identifier", text_or (get_or "team_identifier" "team_id" metadata) "");
  ("remote_asn", text_or (get_or "remote_asn" "asn" metadata) "");
  ("process_parent_edge", if truthy parent && truthy process then parent +:+ "->" +:+ process else "")].

Definition entity_references (values : list (string * string)) : list (string * string) :=
  (fun kv => (kv.1, stable_reference kv.1 kv.2 host_salt)) <$> filter (fun kv => truthy kv.2 = true) values.

(** The event, for a type that has features. *)
Definition normalized (monotonic : float) (event_type : string) (payload metadata : pydict)
    (dimension : ActivityDimension) (features : list (string * float)) : res NormalizedTelemetryEvent :=
  uid ← uid_of (vget "user_uid" metadata);
  let account := text_or (val_or (vget "related_user" payload) (vget "user_name" metadata)) "" in
  let user_ref := user_reference uid account host_salt in
  let user_class := user_class_of uid metadata in
  let process := text_or (val_or (get_or "related_process" "process_name" payload) (vget "process_name" metadata)) "" in
  let path := text_or (val_or (vget "related_path" payload) (vget "process_path" metadata)) "" in
  let remote := text_or (val_or (vget "related_network_endpoint" payload) (vget "remote_address" metadata)) "" in
  let domain := text_or (get_or "domain" "query_name" metadata) "" in
  let parent := text_or (vget "parent_process" metadata) "" in
  let signing := signing_of metadata in
  let traits := behavior_traits_of event_type process path signing user_class metadata in
  first ← first_seen_in payload metadata;
  let flag name := truthy_val (vget name metadata) in
  let context := minimize_mapping [
    ("severity", dget_default (VStr "info") "severity" payload);
    ("confidence", dget_default (VStr "low") "confidence" payload);
    ("signed", if truthy signing then VBool (negb (one_of signing unsigned_status)) else VNone);
    ("unsigned", VBool (one_of signing unsigned_status));
    ("privileged", VBool (flag "privileged" || bool_decide (uid = Some 0)));
    ("first_seen", VBool first);
    ("downloads_path", VBool (contains "/Downloads/" path));
    ("temporary_path", VBool (starts_with_any temporary_directories path));
    ("known_malicious", VBool (flag "known_malicious" || flag "ioc_match" || flag "yara_match"));
    ("maintenance_context", VStr (text_or (vget "maintenance_context" metadata) ""));
    ("research_mode", VBool (flag "research_mode"));
    ("simulated", VBool (truthy_val (vget "simulated" payload)));
    ("parent_process", VStr parent);
    ("coverage_overrides", val_or (vget "coverage_overrides" metadata) (VDict []));
    ("behavior_traits", VList (VStr <$> traits))] in
  let coverage := default AV_UNKNOWN (availability_of (upper (text_or (vget "telemetry_coverage" metadata) "VALID"))) in
  let event_id := text_or (vget "event_id" payload) "" in
  telemetry_event_checked {|
    te_event_id := event_id; te_timestamp := text_or (vget "timestamp" payload) "";
    te_monotonic_timestamp := monotonic; te_host_ref := host_ref; te_user_ref := user_ref;
    te_user_class := user_class; te_dimension := dimension; te_event_name := event_type; te_features := features;
    te_entity_keys := entity_references (entity_values process path remote domain parent metadata);
    te_security_context := context; te_evidence_refs := [event_id];
    te_sensor_id := text_or (vget "source" payload) "system_monitor"; te_coverage := coverage;
    te_baseline_training_eligible := negb (truthy_val (vget "known_malicious" context))
      && negb (String.eqb (lower (py_str (dget_default (VStr "") "severity" payload))) "critical")
      && negb (truthy_val (vget "simulated" context));
    te_feature_schema_version := "1.0" |}.

(** [normalize]: [Ok None] when the event carries no behaviour. *)
Definition normalize (monotonic : float) (payload : pydict) : res (option NormalizedTelemetryEvent) :=
  let event_type := lower (strip (text_or (vget "event_type" payload) "")) in
  if negb (truthy event_type) || one_of event_type DETERMINISTIC_EXCLUSION_TYPES
     || startswith "behavioral_telemetry" (text_or (vget "source" payload) "") then Ok None
  else
    let metadata := metadata_of (vget "metadata_json" payload) in
    found ← features_of event_type payload metadata;
    match found with
    | None => Ok None
    | Some (dimension, features) => e ← normalized monotonic event_type payload metadata dimension features; Ok (Some e)
    end.
End Normalizer.

(** ** What comes out *)

Section NormalizerFacts.
Context `{TelemetryEnv} (host_salt host_ref : string).

(** Names of entities leave only as references: [namespace-digest], the digest 24
    characters of one. *)
Definition is_reference (k v : string) : Prop := exists value, v = stable_reference k value host_salt.

Lemma entity_references_spec values :
  Forall (fun kv => is_reference kv.1 kv.2) (entity_references host_salt values).
Proof.
  unfold entity_references. apply Forall_fmap, Forall_forall. intros [k v] _. by exists v.
Qed.

(** A telemetry event carries no name it was not asked for: its entities are references,
    its context is minimal, its features number three to five at most, each one receipt. *)
Definition event_sound (e : NormalizedTelemetryEvent) : Prop :=
  Forall (fun kv => is_reference kv.1 kv.2) (te_entity_keys e)
  /\ minimal_mapping (te_security_context e) = true
  /\ Forall (fun kv => fone = kv.2) (te_features e)
  /\ te_features e <> [] /\ zlen (te_features e) <= 5
  /\ te_event_id e <> "" /\ te_timestamp e <> "" /\ te_host_ref e <> ""
  /\ te_evidence_refs e = [te_event_id e].

Lemma event_checked_ok e e' : telemetry_event_checked e = Ok e' ->
  e' = e /\ te_event_id e <> "" /\ te_timestamp e <> "" /\ te_host_ref e <> "" /\ zlen (te_features e) <= 64.
Proof.
  unfold telemetry_event_checked. intros ([] & H1%raise_if_ok & ([] & H2%raise_if_ok & ([] & _ & [= <-])%res_bind_ok)%res_bind_ok)%res_bind_ok.
  apply orb_false_elim in H1 as [[H1 H1']%orb_false_elim H1'']. rewrite negb_false_iff in H1, H1', H1''.
  apply Z.ltb_ge in H2. split_and!; try done; by intros Heq; rewrite Heq in *.
Qed.
(** [n] bounds how many there are. *)
Definition unit_features (n : Z) (d : list (string * float)) : Prop :=
  Forall (fun kv => fone = kv.2) d /\ d <> [] /\ zlen d <= n.

Lemma unit_features_weaken n m d : n <= m -> unit_features n d -> unit_features m d.
Proof. unfold unit_features. intros ? (? & ? & ?). split_and!; [done|done|lia]. Qed.

Lemma unit_features_mark n c name d : unit_features n d -> unit_features (n + 1) (mark c name d).
Proof.
  intros (Hall & Hne & Hlen). unfold mark. destruct c; [|apply (unit_features_weaken n); [lia|done]].
  split_and!.
  - by apply (Forall_dset (eq fone) name fone d).
  - destruct d as [|[k v] d]; [done|]. cbn. by destruct (decide _).
  - pose proof (zlen_dset_le name fone d). lia.
Qed.

Lemma features_of_sound event_type payload metadata dimension features :
  features_of event_type payload metadata = Ok (Some (dimension, features)) -> unit_features 5 features.
Proof.
  unfold features_of.
  assert (H1 : forall name, unit_features 5 [(name, fone)]) by (intros; split_and!; [by repeat constructor|done|done]).
  assert (H2 : forall a b, unit_features 2 [(a, fone); (b, fone)]) by (intros; split_and!; [by repeat constructor|done|done]).
  destruct (any_in _ event_type).
  { intros (first & _ & [= _ <-])%res_bind_ok.
    apply (unit_features_mark 4), (unit_features_mark 3), (unit_features_mark 2), H2. }
  repeat (destruct (any_in _ event_type); [try (by intros [= _ <-])|]); try done; intros [= _ <-].
  all: try by apply (unit_features_weaken 2).
  all: try by (split_and!; [repeat constructor|done|done]).
  apply (unit_features_weaken 3); [done|]. apply (unit_features_mark 2), (unit_features_mark 1).
  split_and!; [by repeat constructor|done|done].
Qed.

(** What the normaliser lets through is minimal and pseudonymous: the names an event
    speaks of leave it as digests only, its context has been minimised, and its features
    are a few unit counts, as one receipt contributes. *)
Theorem normalized_events_are_sound monotonic payload e :
  normalize host_salt host_ref monotonic payload = Ok (Some e) -> event_sound e.
Proof.
  unfold normalize. destruct (_ || _); [done|].
  intros (found & Hfound & Hk)%res_bind_ok. destruct found as [[dimension features]|]; [|done].
  apply features_of_sound in Hfound as (Hf & Hne & Hlen).
  apply res_bind_ok in Hk as (e' & He & [= <-]). unfold normalized in He.
  apply res_bind_ok in He as (uid & _ & He). apply res_bind_ok in He as (first & _ & He).
  apply event_checked_ok in He as (-> & Hid & Htime & Hhost & _).
  unfold event_sound. cbn [te_event_id te_timestamp te_host_ref te_features te_entity_keys te_security_context te_evidence_refs] in *.
  split_and!; try done; [apply entity_references_spec|apply minimized_is_minimal].
Qed.
End NormalizerFacts.
