(* ===== verification/TelemetryStore.v ===== *)
(** The database of the behavioural telemetry: [telemetry/storage.py].

    A table is the list of its rows in rowid order; [INSERT OR REPLACE] removes the row in
    its way and appends. Rows of buckets, baselines, anomalies and incidents are the values
    they are read back as: the JSON of a dict sorts its keys. The windows of time are
    compared as text, as the columns are. *)

From S2P Require Import Prelude PyStr PyFloat PyDict PyJson PyTime Sql PyRepr.
From S2P Require Import TelemetryModels.

(** ** Tables *)

(** [telemetry_event_links] *)
Record link_row := {
  ln_event_id : string;
  ln_timestamp : string;
  ln_host_ref : string;
  ln_user_ref : string;
  ln_dimension : string;
  ln_feature_values : list (string * float);
  ln_entity_keys : list (string * string);
  ln_security_context : json_text;
  ln_sensor_id : string;
  ln_coverage : string;
  ln_baseline_training_eligible : bool;
  ln_feature_schema_version : string;
  ln_expires_at : string
}.

(** [telemetry_bucket_analysis] *)
Record analysis_row := { an_bucket_key : string; an_event_count : Z; an_analyzed_at : string; an_anomaly_ids : list string }.

(** [telemetry_baseline_versions] *)
Record version_row := {
  vr_baseline_version : Z;
  vr_created_at : string;
  vr_training_start : string;
  vr_training_end : string;
  vr_bucket_count : Z;
  vr_excluded_bucket_count : Z;
  vr_feature_schema_version : string;
  vr_behavior_model_version : string;
  vr_reason : string
}.

(** [behavioral_evidence_snapshots] *)
Record snapshot_row := {
  sr_snapshot_id : string;
  sr_incident_id : string;
  sr_anchor_time : string;
  sr_pre_window_seconds : Z;
  sr_post_window_seconds : Z;
  sr_event_refs : list string;
  sr_created_at : string
}.

(** [behavioral_entity_profiles] *)
Record profile_row := {
  pr_entity_type : string;
  pr_entity_ref : string;
  pr_first_seen : string;
  pr_last_seen : string;
  pr_seen_count : Z
}.

(** [behavioral_feedback] *)
Record feedback_row := { fr_anomaly_id : string; fr_timestamp : string; fr_actor : string; fr_disposition : string; fr_reason : string }.

(** [behavioral_audit_trail] *)
Record trail_row := {
  tr_timestamp : string;
  tr_actor : string;
  tr_action : string;
  tr_object_type : string;
  tr_object_id : string;
  tr_previous : json_text;
  tr_current : json_text;
  tr_reason : string
}.

(** [telemetry_runtime_state] *)
Record state_row := { st_key : string; st_value : json_text; st_updated_at : string }.

Record TelemetryTables := {
  tt_links : list link_row;
  tt_buckets : list TelemetryBucket;
  tt_analysis : list analysis_row;
  tt_versions : list version_row;
  tt_baselines : list FeatureBaseline;
  tt_anomalies : list BehavioralAnomaly;
  tt_incidents : list BehavioralIncident;
  tt_snapshots : list snapshot_row;
  tt_profiles : list profile_row;
  tt_feedback : list feedback_row;
  tt_trail : list trail_row;
  tt_state : list state_row
}.

Definition no_telemetry : TelemetryTables := {|
  tt_links := []; tt_buckets := []; tt_analysis := []; tt_versions := []; tt_baselines := []; tt_anomalies := [];
  tt_incidents := []; tt_snapshots := []; tt_profiles := []; tt_feedback := []; tt_trail := []; tt_state := [] |}.

Definition set_links (x : list link_row) (t : TelemetryTables) : TelemetryTables := {|
  tt_links := x; tt_buckets := tt_buckets t; tt_analysis := tt_analysis t; tt_versions := tt_versions t;
  tt_baselines := tt_baselines t; tt_anomalies := tt_anomalies t; tt_incidents := tt_incidents t; tt_snapshots :=
  tt_snapshots t; tt_profiles := tt_profiles t; tt_feedback := tt_feedback t; tt_trail := tt_trail t; tt_state :=
  tt_state t |}.
Definition set_buckets (x : list TelemetryBucket) (t : TelemetryTables) : TelemetryTables := {|
  tt_links := tt_links t; tt_buckets := x; tt_analysis := tt_analysis t; tt_versions := tt_versions t;
  tt_baselines := tt_baselines t; tt_anomalies := tt_anomalies t; tt_incidents := tt_incidents t; tt_snapshots :=
  tt_snapshots t; tt_profiles := tt_profiles t; tt_feedback := tt_feedback t; tt_trail := tt_trail t; tt_state :=
  tt_state t |}.
Definition set_analysis (x : list analysis_row) (t : TelemetryTables) : TelemetryTables := {|
  tt_links := tt_links t; tt_buckets := tt_buckets t; tt_analysis := x; tt_versions := tt_versions t; tt_baselines
  := tt_baselines t; tt_anomalies := tt_anomalies t; tt_incidents := tt_incidents t; tt_snapshots := tt_snapshots t;
  tt_profiles := tt_profiles t; tt_feedback := tt_feedback t; tt_trail := tt_trail t; tt_state := tt_state t |}.
Definition set_versions (x : list version_row) (t : TelemetryTables) : TelemetryTables := {|
  tt_links := tt_links t; tt_buckets := tt_buckets t; tt_analysis := tt_analysis t; tt_versions := x; tt_baselines
  := tt_baselines t; tt_anomalies := tt_anomalies t; tt_incidents := tt_incidents t; tt_snapshots := tt_snapshots t;
  tt_profiles := tt_profiles t; tt_feedback := tt_feedback t; tt_trail := tt_trail t; tt_state := tt_state t |}.
Definition set_baselines (x : list FeatureBaseline) (t : TelemetryTables) : TelemetryTables := {|
  tt_links := tt_links t; tt_buckets := tt_buckets t; tt_analysis := tt_analysis t; tt_versions := tt_versions t;
  tt_baselines := x; tt_anomalies := tt_anomalies t; tt_incidents := tt_incidents t; tt_snapshots := tt_snapshots t;
  tt_profiles := tt_profiles t; tt_feedback := tt_feedback t; tt_trail := tt_trail t; tt_state := tt_state t |}.
Definition set_anomalies (x : list BehavioralAnomaly) (t : TelemetryTables) : TelemetryTables := {|
  tt_links := tt_links t; tt_buckets := tt_buckets t; tt_analysis := tt_analysis t; tt_versions := tt_versions t;
  tt_baselines := tt_baselines t; tt_anomalies := x; tt_incidents := tt_incidents t; tt_snapshots := tt_snapshots t;
  tt_profiles := tt_profiles t; tt_feedback := tt_feedback t; tt_trail := tt_trail t; tt_state := tt_state t |}.
Definition set_incidents (x : list BehavioralIncident) (t : TelemetryTables) : TelemetryTables := {|
  tt_links := tt_links t; tt_buckets := tt_buckets t; tt_analysis := tt_analysis t; tt_versions := tt_versions t;
  tt_baselines := tt_baselines t; tt_anomalies := tt_anomalies t; tt_incidents := x; tt_snapshots := tt_snapshots t;
  tt_profiles := tt_profiles t; tt_feedback := tt_feedback t; tt_trail := tt_trail t; tt_state := tt_state t |}.
Definition set_snapshots (x : list snapshot_row) (t : TelemetryTables) : TelemetryTables := {|
  tt_links := tt_links t; tt_buckets := tt_buckets t; tt_analysis := tt_analysis t; tt_versions := tt_versions t;
  tt_baselines := tt_baselines t; tt_anomalies := tt_anomalies t; tt_incidents := tt_incidents t; tt_snapshots := x;
  tt_profiles := tt_profiles t; tt_feedback := tt_feedback t; tt_trail := tt_trail t; tt_state := tt_state t |}.
Definition set_profiles (x : list profile_row) (t : TelemetryTables) : TelemetryTables := {|
  tt_links := tt_links t; tt_buckets := tt_buckets t; tt_analysis := tt_analysis t; tt_versions := tt_versions t;
  tt_baselines := tt_baselines t; tt_anomalies := tt_anomalies t; tt_incidents := tt_incidents t; tt_snapshots :=
  tt_snapshots t; tt_profiles := x; tt_feedback := tt_feedback t; tt_trail := tt_trail t; tt_state := tt_state t |}.
Definition set_feedback (x : list feedback_row) (t : TelemetryTables) : TelemetryTables := {|
  tt_links := tt_links t; tt_buckets := tt_buckets t; tt_analysis := tt_analysis t; tt_versions := tt_versions t;
  tt_baselines := tt_baselines t; tt_anomalies := tt_anomalies t; tt_incidents := tt_incidents t; tt_snapshots :=
  tt_snapshots t; tt_profiles := tt_profiles t; tt_feedback := x; tt_trail := tt_trail t; tt_state := tt_state t |}.
Definition set_trail (x : list trail_row) (t : TelemetryTables) : TelemetryTables := {|
  tt_links := tt_links t; tt_buckets := tt_buckets t; tt_analysis := tt_analysis t; tt_versions := tt_versions t;
  tt_baselines := tt_baselines t; tt_anomalies := tt_anomalies t; tt_incidents := tt_incidents t; tt_snapshots :=
  tt_snapshots t; tt_profiles := tt_profiles t; tt_feedback := tt_feedback t; tt_trail := x; tt_state := tt_state t
  |}.
Definition set_state (x : list state_row) (t : TelemetryTables) : TelemetryTables := {|
  tt_links := tt_links t; tt_buckets := tt_buckets t; tt_analysis := tt_analysis t; tt_versions := tt_versions t;
  tt_baselines := tt_baselines t; tt_anomalies := tt_anomalies t; tt_incidents := tt_incidents t; tt_snapshots :=
  tt_snapshots t; tt_profiles := tt_profiles t; tt_feedback := tt_feedback t; tt_trail := tt_trail t; tt_state := x
  |}.

(** ** Time *)

(** [_parse_time]: an aware instant of UTC, a time without an offset being UTC. *)
Definition parse_time_utc (s : string) : res Z :=
  match fromisoformat (replace_zulu s) with
  | None => Raise (ValueError "Invalid isoformat string")
  | Some d => instant_in_range (instant d)
  end.

Definition seconds (n : Z) : Z := n * 1000000.
Definition days (n : Z) : Z := n * 86400000000.

(** [(t + timedelta(...)).isoformat()] *)
Definition shifted (us delta : Z) : res string := x ← instant_in_range (us + delta); Ok (isoformat_utc x).

Definition upserted {A} (same : A -> bool) (x : A) (l : list A) : list A := filter (fun y => same y = false) l ++ [x].
Definition clamp_limit (low high n : Z) : Z := Z.max low (Z.min n high).
Definition limited {A} (n : Z) (l : list A) : list A := take (Z.to_nat n) l.

(** A text column read as a lower bound that may be absent. *)
Definition since_ok (since s : string) : bool := negb (truthy since) || str_le since s.

Section Repository.
Context `{TelemetryEnv}.

Abbreviation Repo A := (M (Conn TelemetryTables) A).

(** [_json] of a value, as a column *)
Definition as_column (v : pyval) : Repo json_text := lift_res (json_column v).

(** ** Events *)

Definition record_event_link (raw_retention_days : Z) (e : NormalizedTelemetryEvent) : Repo unit :=
  at_time ← lift_res (parse_time_utc (te_timestamp e));
  expires ← lift_res (shifted at_time (days raw_retention_days));
  context ← as_column (VDict (te_security_context e));
  sql_write (fun t =>
    if existsb (fun r => String.eqb (ln_event_id r) (te_event_id e)) (tt_links t) then t
    else set_links (tt_links t ++ [{|
      ln_event_id := te_event_id e; ln_timestamp := te_timestamp e; ln_host_ref := te_host_ref e;
      ln_user_ref := te_user_ref e; ln_dimension := dimension_value (te_dimension e);
      ln_feature_values := sort_by key_le (te_features e); ln_entity_keys := sort_by key_le (te_entity_keys e);
      ln_security_context := context; ln_sensor_id := te_sensor_id e;
      ln_coverage := availability_value (te_coverage e);
      ln_baseline_training_eligible := te_baseline_training_eligible e;
      ln_feature_schema_version := te_feature_schema_version e; ln_expires_at := expires |}]) t).

(** One entity of [update_entity_profiles] *)
Definition update_entity_profile (timestamp entity_type entity_ref : string) : Repo unit :=
  let same r := String.eqb (pr_entity_type r) entity_type && String.eqb (pr_entity_ref r) entity_ref in
  row ← sql_read (fun t => find_first same (tt_profiles t));
  sql_write (fun t => set_profiles (upserted same {|
    pr_entity_type := entity_type; pr_entity_ref := entity_ref;
    pr_first_seen := match row with Some r => pr_first_seen r | None => timestamp end;
    pr_last_seen := timestamp;
    pr_seen_count := match row with Some r => pr_seen_count r + 1 | None => 1 end |} (tt_profiles t)) t).

Fixpoint for_each {A} (f : A -> Repo unit) (l : list A) : Repo unit :=
  match l with
  | [] => mret tt
  | x :: l' => f x;; for_each f l'
  end.

Definition update_entity_profiles (e : NormalizedTelemetryEvent) : Repo unit :=
  for_each (fun kv => update_entity_profile (te_timestamp e) kv.1 kv.2) (te_entity_keys e).

Definition entity_seen (entity_type entity_ref : string) : Repo bool :=
  sql_read (fun t => existsb (fun r => String.eqb (pr_entity_type r) (sprefix 128 entity_type)
                                       && String.eqb (pr_entity_ref r) (sprefix 256 entity_ref)) (tt_profiles t)).

(** ** Buckets *)

(** The key the table is unique in. *)
Definition same_bucket (start host user context : string) (b : TelemetryBucket) : bool :=
  String.eqb (tb_bucket_start b) start && String.eqb (tb_host_ref b) host
  && String.eqb (tb_user_ref b) user && String.eqb (tb_context_cohort b) context.

Definition same_key (b : TelemetryBucket) : TelemetryBucket -> bool :=
  same_bucket (tb_bucket_start b) (tb_host_ref b) (tb_user_ref b) (tb_context_cohort b).

Definition get_bucket (start host user context : string) : Repo (option TelemetryBucket) :=
  sql_read (fun t => find_first (same_bucket start host user context) (tt_buckets t)).

(** A bucket with its dates. *)
Definition dated (created updated : string) (b : TelemetryBucket) : TelemetryBucket := {|
  tb_bucket_start := tb_bucket_start b; tb_bucket_end := tb_bucket_end b; tb_host_ref := tb_host_ref b;
  tb_user_ref := tb_user_ref b; tb_time_cohort := tb_time_cohort b; tb_context_cohort := tb_context_cohort b;
  tb_feature_values := tb_feature_values b; tb_dimension_values := tb_dimension_values b;
  tb_coverage := tb_coverage b; tb_entity_sets := tb_entity_sets b; tb_evidence_refs := tb_evidence_refs b;
  tb_training_eligible := tb_training_eligible b; tb_event_count := tb_event_count b;
  tb_created_at := created; tb_updated_at := updated |}.

(** As its row is read back. *)
Definition stored_bucket (b : TelemetryBucket) : TelemetryBucket := {|
  tb_bucket_start := tb_bucket_start b; tb_bucket_end := tb_bucket_end b; tb_host_ref := tb_host_ref b;
  tb_user_ref := tb_user_ref b; tb_time_cohort := tb_time_cohort b; tb_context_cohort := tb_context_cohort b;
  tb_feature_values := sort_by key_le (tb_feature_values b);
  tb_dimension_values := sort_by key_le (tb_dimension_values b);
  tb_coverage := sort_by key_le (tb_coverage b); tb_entity_sets := sort_by key_le (tb_entity_sets b);
  tb_evidence_refs := tb_evidence_refs b; tb_training_eligible := tb_training_eligible b;
  tb_event_count := tb_event_count b; tb_created_at := tb_created_at b; tb_updated_at := tb_updated_at b |}.

(** [ON CONFLICT ... DO UPDATE]: all but the date of creation. *)
Definition put_bucket (b : TelemetryBucket) (l : list TelemetryBucket) : list TelemetryBucket :=
  if existsb (same_key b) l
  then (fun old => if same_key b old then dated (tb_created_at old) (tb_updated_at b) (stored_bucket b) else old) <$> l
  else l ++ [stored_bucket b].

(** The bucket with the dates it was given. *)
Definition upsert_bucket (b : TelemetryBucket) : Repo TelemetryBucket :=
  now ← utc_now;
  let b := dated (str_or (tb_created_at b) now) now b in
  sql_write (fun t => set_buckets (put_bucket b (tt_buckets t)) t);;
  mret b.

Definition list_buckets (since until : string) (user_ref : option string) (training_eligible : option bool) (limit : Z)
    : Repo (list TelemetryBucket) :=
  sql_read (fun t => limited (clamp_limit 1 100000 limit)
    (sort_by (fun a b => str_le (tb_bucket_start a) (tb_bucket_start b))
      (filter (fun b =>
         since_ok since (tb_bucket_start b)
         && (negb (truthy until) || str_le (tb_bucket_start b) until)
         && match user_ref with Some u => String.eqb (tb_user_ref b) u | None => true end
         && match training_eligible with Some e => Bool.eqb (tb_training_eligible b) e | None => true end = true)
        (tt_buckets t)))).

Definition bucket_key (b : TelemetryBucket) : string :=
  join "|" [tb_bucket_start b; tb_host_ref b; tb_user_ref b; tb_context_cohort b].

Definition bucket_needs_analysis (b : TelemetryBucket) : Repo bool :=
  sql_read (fun t =>
    match find_first (fun r => String.eqb (an_bucket_key r) (bucket_key b)) (tt_analysis t) with
    | None => true
    | Some r => negb (an_event_count r =? tb_event_count b)
    end).

Definition mark_bucket_analyzed (b : TelemetryBucket) (anomaly_ids : list string) : Repo unit :=
  now ← utc_now;
  sql_write (fun t => set_analysis (upserted (fun r => String.eqb (an_bucket_key r) (bucket_key b))
    {| an_bucket_key := bucket_key b; an_event_count := tb_event_count b; an_analyzed_at := now;
       an_anomaly_ids := anomaly_ids |} (tt_analysis t)) t).

Definition with_eligibility (eligible : bool) (updated : string) (b : TelemetryBucket) : TelemetryBucket := {|
  tb_bucket_start := tb_bucket_start b; tb_bucket_end := tb_bucket_end b; tb_host_ref := tb_host_ref b;
  tb_user_ref := tb_user_ref b; tb_time_cohort := tb_time_cohort b; tb_context_cohort := tb_context_cohort b;
  tb_feature_values := tb_feature_values b; tb_dimension_values := tb_dimension_values b;
  tb_coverage := tb_coverage b; tb_entity_sets := tb_entity_sets b; tb_evidence_refs := tb_evidence_refs b;
  tb_training_eligible := eligible; tb_event_count := tb_event_count b;
  tb_created_at := tb_created_at b; tb_updated_at := updated |}.

(** The bucket in memory keeps its date. *)
Definition set_bucket_training_eligible (b : TelemetryBucket) (eligible : bool) : Repo TelemetryBucket :=
  now ← utc_now;
  sql_write (fun t => set_buckets
    ((fun r => if same_key b r then with_eligibility eligible now r else r) <$> tt_buckets t) t);;
  mret (with_eligibility eligible (tb_updated_at b) b).

(** ** Baselines *)

Definition create_baseline_version (training_start training_end : string) (bucket_count excluded_count : Z)
    (feature_schema_version behavior_model_version reason : string) : Repo Z :=
  now ← utc_now;
  sql_update (fun t =>
    let version := default 0 (vr_baseline_version <$> last (tt_versions t)) + 1 in
    (set_versions (tt_versions t ++ [{|
       vr_baseline_version := version; vr_created_at := now; vr_training_start := training_start;
       vr_training_end := training_end; vr_bucket_count := bucket_count; vr_excluded_bucket_count := excluded_count;
       vr_feature_schema_version := feature_schema_version; vr_behavior_model_version := behavior_model_version;
       vr_reason := sprefix 512 reason |}]) t, version)).

(** Not a number is stored as NULL, which the columns refuse. *)
Definition storable (b : FeatureBaseline) : bool :=
  negb (existsb fnan [fb_median_value b; fb_mad_value b; fb_p05 b; fb_p25 b; fb_p50 b; fb_p75 b; fb_p95 b; fb_confidence b]).

Definition same_baseline (a b : FeatureBaseline) : bool :=
  String.eqb (fb_baseline_id a) (fb_baseline_id b)
  || (String.eqb (fb_host_ref a) (fb_host_ref b) && String.eqb (fb_user_ref a) (fb_user_ref b)
      && String.eqb (fb_feature_name a) (fb_feature_name b) && String.eqb (fb_time_cohort a) (fb_time_cohort b)
      && String.eqb (fb_context_cohort a) (fb_context_cohort b) && (fb_version a =? fb_version b)).

Definition save_baselines (l : list FeatureBaseline) : Repo unit :=
  for_each (fun b => sql_write_checked (fun t =>
    if storable b then Ok (set_baselines (upserted (same_baseline b) b (tt_baselines t)) t)
    else Raise (IntegrityError "NOT NULL constraint failed"))) l.

Definition latest_version (t : TelemetryTables) : Z := foldr Z.max 0 (vr_baseline_version <$> tt_versions t).
Definition latest_baseline_version : Repo Z := sql_read latest_version.

(** How closely a baseline fits: its own cohorts before [ALL]. *)
Definition cohort_distance (time context : string) (b : FeatureBaseline) : Z :=
  (if String.eqb (fb_time_cohort b) time then 0 else 2) + (if String.eqb (fb_context_cohort b) context then 0 else 1).

(** The first row of each feature. *)
Definition by_feature (l : list FeatureBaseline) : list (string * FeatureBaseline) :=
  foldl (fun d b => dsetdefault (fb_feature_name b) b d) [] l.

Definition baselines_for (host user time context : string) : Repo (list (string * FeatureBaseline)) :=
  version ← latest_baseline_version;
  sql_read (fun t => by_feature (sort_by (fun a b => cohort_distance time context a <=? cohort_distance time context b)
    (filter (fun b => String.eqb (fb_host_ref b) host && String.eqb (fb_user_ref b) user && (fb_version b =? version)
                      && one_of (fb_time_cohort b) [time; "ALL"] && one_of (fb_context_cohort b) [context; "ALL"] = true)
       (tt_baselines t)))).

(** ** Anomalies *)

Definition with_incident (incident_id : string) (a : BehavioralAnomaly) : BehavioralAnomaly := {|
  ba_anomaly_id := ba_anomaly_id a; ba_timestamp := ba_timestamp a; ba_host_ref := ba_host_ref a;
  ba_user_ref := ba_user_ref a; ba_dimension := ba_dimension a; ba_anomaly_score := ba_anomaly_score a;
  ba_security_severity := ba_security_severity a; ba_detection_confidence := ba_detection_confidence a;
  ba_baseline_value := ba_baseline_value a; ba_observed_value := ba_observed_value a;
  ba_normal_low := ba_normal_low a; ba_normal_high := ba_normal_high a; ba_reason_codes := ba_reason_codes a;
  ba_reasons := ba_reasons a; ba_related_entities := ba_related_entities a; ba_evidence_refs := ba_evidence_refs a;
  ba_sensor_coverage := ba_sensor_coverage a; ba_baseline_version := ba_baseline_version a;
  ba_active_behavior_policy := ba_active_behavior_policy a;
  ba_baseline_training_eligible := ba_baseline_training_eligible a; ba_incident_id := incident_id;
  ba_disposition := ba_disposition a; ba_explanation := ba_explanation a; ba_created_at := ba_created_at a |}.

(** Disposition and date of creation. *)
Definition redated (disposition created : string) (a : BehavioralAnomaly) : BehavioralAnomaly := {|
  ba_anomaly_id := ba_anomaly_id a; ba_timestamp := ba_timestamp a; ba_host_ref := ba_host_ref a;
  ba_user_ref := ba_user_ref a; ba_dimension := ba_dimension a; ba_anomaly_score := ba_anomaly_score a;
  ba_security_severity := ba_security_severity a; ba_detection_confidence := ba_detection_confidence a;
  ba_baseline_value := ba_baseline_value a; ba_observed_value := ba_observed_value a;
  ba_normal_low := ba_normal_low a; ba_normal_high := ba_normal_high a; ba_reason_codes := ba_reason_codes a;
  ba_reasons := ba_reasons a; ba_related_entities := ba_related_entities a; ba_evidence_refs := ba_evidence_refs a;
  ba_sensor_coverage := ba_sensor_coverage a; ba_baseline_version := ba_baseline_version a;
  ba_active_behavior_policy := ba_active_behavior_policy a;
  ba_baseline_training_eligible := ba_baseline_training_eligible a; ba_incident_id := ba_incident_id a;
  ba_disposition := disposition; ba_explanation := ba_explanation a; ba_created_at := created |}.

Definition save_anomaly (a : BehavioralAnomaly) : Repo unit :=
  now ← utc_now;
  sql_write (fun t => set_anomalies
    (upserted (fun r => String.eqb (ba_anomaly_id r) (ba_anomaly_id a))
       (redated (ba_disposition a) (str_or (ba_created_at a) now) a) (tt_anomalies t)) t).

Definition list_anomalies (since incident_id : string) (limit : Z) : Repo (list BehavioralAnomaly) :=
  sql_read (fun t => limited (clamp_limit 1 5000 limit)
    (sort_by (fun a b => str_le (ba_timestamp b) (ba_timestamp a))
      (filter (fun a => since_ok since (ba_timestamp a)
                        && (negb (truthy incident_id) || String.eqb (ba_incident_id a) incident_id) = true)
         (tt_anomalies t)))).

(** [audit] *)
Definition audit_trail (actor action object_type object_id : string) (previous current : pydict) (reason : string)
    : Repo unit :=
  now ← utc_now;
  before ← as_column (VDict previous);
  after ← as_column (VDict current);
  sql_write (fun t => set_trail (tt_trail t ++ [{|
    tr_timestamp := now; tr_actor := sprefix 128 actor; tr_action := sprefix 128 action;
    tr_object_type := sprefix 128 object_type; tr_object_id := sprefix 256 object_id;
    tr_previous := before; tr_current := after; tr_reason := sprefix 2048 reason |}]) t).

Definition update_anomaly_disposition (anomaly_id disposition actor reason : string) : Repo unit :=
  row ← sql_read (fun t => find_first (fun r => String.eqb (ba_anomaly_id r) anomaly_id) (tt_anomalies t));
  match row with
  | None => raise_st (ValueError "unknown behavioral anomaly")
  | Some a =>
      sql_write (fun t => set_anomalies
        ((fun r => if String.eqb (ba_anomaly_id r) anomaly_id then redated disposition (ba_created_at r) r else r)
           <$> tt_anomalies t) t);;
      now ← utc_now;
      sql_write (fun t => set_feedback (tt_feedback t ++ [{|
        fr_anomaly_id := anomaly_id; fr_timestamp := now; fr_actor := sprefix 128 actor;
        fr_disposition := disposition; fr_reason := sprefix 2048 reason |}]) t);;
      audit_trail actor "anomaly_disposition" "behavioral_anomaly" anomaly_id
        [("disposition", VStr (ba_disposition a))] [("disposition", VStr disposition)] reason;;
      commit
  end.

(** ** Incidents *)

Definition save_incident (i : BehavioralIncident) : Repo unit :=
  sql_write (fun t => set_incidents
    (upserted (fun r => String.eqb (bi_incident_id r) (bi_incident_id i)) i (tt_incidents t)) t);;
  sql_write (fun t => set_anomalies
    ((fun a => if one_of (ba_anomaly_id a) (bi_anomaly_ids i) then with_incident (bi_incident_id i) a else a)
       <$> tt_anomalies t) t).

Definition list_incidents (status since : string) (limit : Z) : Repo (list BehavioralIncident) :=
  sql_read (fun t => limited (clamp_limit 1 5000 limit)
    (sort_by (fun a b => (bi_anomaly_score b <? bi_anomaly_score a)
                         || ((bi_anomaly_score b =? bi_anomaly_score a) && str_le (bi_last_seen b) (bi_last_seen a)))
      (filter (fun i => (negb (truthy status) || String.eqb (bi_status i) status) && since_ok since (bi_last_seen i) = true)
         (tt_incidents t)))).

Definition correlatable (host user entity since : string) (i : BehavioralIncident) : bool :=
  String.eqb (bi_host_ref i) host && String.eqb (bi_user_ref i) user && one_of (bi_status i) ["NEW"; "INVESTIGATING"]
  && str_le since (bi_last_seen i)
  && (String.eqb (bi_primary_entity i) entity || String.eqb (bi_primary_entity i) "" || String.eqb entity "").

(** The latest of them. *)
Definition find_correlatable_incident (host user entity since : string) : Repo (option BehavioralIncident) :=
  sql_read (fun t => head (sort_by (fun a b => str_le (bi_last_seen b) (bi_last_seen a))
    (filter (fun i => correlatable host user entity since i = true) (tt_incidents t)))).

(** The canonical events around an instant. *)
Definition events_between (lo hi : string) (events : list (string * string)) : list string :=
  fst <$> limited 5000 (sort_by (fun a b => str_le a.2 b.2) (filter (fun e => str_le lo e.2 && str_le e.2 hi = true) events)).

Definition preserve_context (snapshot_id incident_id anchor_time : string) (pre_seconds post_seconds : Z) : Repo (list string) :=
  anchor ← lift_res (parse_time_utc anchor_time);
  start ← lift_res (shifted anchor (- seconds pre_seconds));
  finish ← lift_res (shifted anchor (seconds post_seconds));
  events ← (fun w => (Ok (canonical_events (ticks w)), tick w));
  refs ← sql_read (fun _ => events_between start finish events);
  now ← utc_now;
  sql_write (fun t => set_snapshots (upserted (fun r => String.eqb (sr_snapshot_id r) snapshot_id) {|
    sr_snapshot_id := snapshot_id; sr_incident_id := incident_id; sr_anchor_time := anchor_time;
    sr_pre_window_seconds := pre_seconds; sr_post_window_seconds := post_seconds; sr_event_refs := refs;
    sr_created_at := now |} (tt_snapshots t)) t);;
  mret refs.

(** ** State, retention *)

(** [state(key)], when it is there and reads *)
Definition state (key : string) : Repo (option pyval) :=
  sql_read (fun t => match find_first (fun r => String.eqb (st_key r) key) (tt_state t) with
                     | Some r => match st_value r with JsonOf v => Some v | NotJson _ => None end
                     | None => None
                     end).

Definition set_runtime_state (key : string) (value : pyval) : Repo unit :=
  column ← as_column value;
  now ← utc_now;
  sql_write (fun t => set_state (upserted (fun r => String.eqb (st_key r) (sprefix 128 key))
    {| st_key := sprefix 128 key; st_value := column; st_updated_at := now |} (tt_state t)) t).

Definition text_lt (a b : string) : bool := str_le a b && negb (String.eqb a b).

(** Delete the rows of [l] that [p] holds of, and count them. *)
Definition deleted {A} (p : A -> bool) (l : list A) : list A * Z :=
  (filter (fun x => p x = false) l, zcount p l).

Definition prune (aggregate_retention_days anomaly_retention_days : Z) : Repo (Z * Z * Z) :=
  now ← utc_instant;
  raw ← sql_update (fun t =>
    let (kept, n) := deleted (fun r => text_lt (ln_expires_at r) (isoformat_utc now)) (tt_links t) in (set_links kept t, n));
  aggregate_limit ← lift_res (shifted now (- days aggregate_retention_days));
  buckets ← sql_update (fun t =>
    let (kept, n) := deleted (fun b => text_lt (tb_bucket_start b) aggregate_limit) (tt_buckets t) in (set_buckets kept t, n));
  anomaly_limit ← lift_res (shifted now (- days anomaly_retention_days));
  anomalies ← sql_update (fun t =>
    let (kept, n) := deleted (fun a => text_lt (ba_timestamp a) anomaly_limit && String.eqb (ba_incident_id a) "") (tt_anomalies t) in
    (set_anomalies kept t, n));
  commit;;
  mret (raw, buckets, anomalies).
End Repository.
