(* ===== verification/TelemetryAggregator.v ===== *)
(** Counting events in buckets of time: [telemetry/aggregator.py].

    [sum] of a few counts is taken left to right. *)

From S2P Require Import Prelude PyStr PyFloat PyDict PyJson PyTime Sql PyRepr.
From S2P Require Import TelemetryModels TelemetryNormalizer TelemetryStore.

(** [list(dict.fromkeys(l))]: each once, where it comes first *)
Definition unique_in_order (l : list string) : list string :=
  foldl (fun acc x => if one_of x acc then acc else acc ++ [x]) [] l.

(** [l[-n:]] *)
Definition from_last (n : Z) (l : list string) : list string :=
  if n =? 0 then l else if 0 <? n then last_n (Z.to_nat n) l else drop (Z.to_nat (- n)) l.

(** [float(d.get(k) or 0.0)] *)
Definition value_of (k : string) (d : list (string * option float)) : float :=
  match dget k d with
  | Some (Some x) => if feqb x fzero then fzero else x
  | _ => fzero
  end.

(** ** [bucket_bounds], [time_cohort] *)

Definition bucket_bounds (timestamp : string) (bucket_seconds : Z) : res (string * string) :=
  t ← parse_time_utc timestamp;
  epoch ← int_of_float (total_seconds t);
  let start := seconds (epoch - epoch mod bucket_seconds) in
  raise_if (negb (is_ok (instant_in_range start))) (ValueError "year is out of range");;
  finish ← shifted start (seconds bucket_seconds);
  Ok (isoformat_utc start, finish).

Definition time_cohort `{TelemetryEnv} (timestamp : string) : res string :=
  t ← parse_time_utc timestamp;
  let local := t + local_offset t in
  let weekday := (local / 86400000000 + 3) mod 7 in
  Ok ((if 5 <=? weekday then "WEEKEND" else "WEEKDAY") +:+ ":" +:+ pad_num 2 (local mod 86400000000 / 3600000000) "").

(** ** [_merge] *)

Section Aggregator.
Context `{TelemetryEnv} (policy : BehavioralTelemetryPolicy).

Definition add_feature (name : string) (value : float) (d : list (string * option float)) : list (string * option float) :=
  dset name (Some (fadd (value_of name d) value)) d.

Definition add_features (features : list (string * float)) (d : list (string * option float)) : list (string * option float) :=
  foldl (fun d kv => add_feature kv.1 kv.2 d) d features.

Definition RISK_FEATURES : list (string * string) := [
  ("risk_first_seen_count", "first_seen"); ("risk_unsigned_count", "unsigned");
  ("risk_downloads_path_count", "downloads_path"); ("risk_temporary_path_count", "temporary_path");
  ("risk_privileged_count", "privileged"); ("risk_known_malicious_count", "known_malicious")].

Definition add_risks (context : pydict) (d : list (string * option float)) : list (string * option float) :=
  foldl (fun d kv => if truthy_val (vget kv.2 context) then add_feature kv.1 fone d else d) d RISK_FEATURES.

Definition total (features : list (string * float)) : float := foldl (fun acc kv => fadd acc kv.2) fzero features.

(** The first sixteen overrides that name an availability: coverage, and a dimension
    without coverage has no value. *)
Definition override_coverage (kv : string * pyval) (cd : list (string * string) * list (string * option float))
    : list (string * string) * list (string * option float) :=
  let state := upper (py_str kv.2) in
  let dimension := sprefix 128 kv.1 in
  if one_of state ["VALID"; "REDUCED"; "UNKNOWN"; "UNAVAILABLE"] then
    (dset dimension state cd.1,
     if one_of state ["UNKNOWN"; "UNAVAILABLE"] then dset dimension None cd.2 else cd.2)
  else cd.

Definition override_coverages (overrides : pyval) cd :=
  match overrides with
  | VDict d => foldl (fun cd kv => override_coverage kv cd) cd (take 16 d)
  | _ => cd
  end.

Definition add_entity (kv : string * string) (sets : list (string * list string)) : list (string * list string) :=
  let values := remove_dups (dget_default [] kv.1 sets) in
  let values := if (zlen values <? tp_maximum_entities_per_bucket policy) && negb (one_of kv.2 values) then kv.2 :: values else values in
  dset kv.1 (sort_by str_le values) sets.

Definition merge (e : NormalizedTelemetryEvent) (b : TelemetryBucket) : TelemetryBucket :=
  let dimension := dimension_value (te_dimension e) in
  let dimension_values := dset dimension (Some (fadd (value_of dimension (tb_dimension_values b)) (total (te_features e))))
                            (tb_dimension_values b) in
  let coverage := dset dimension (availability_value (te_coverage e)) (tb_coverage b) in
  let cd := override_coverages (dget_default (VDict []) "coverage_overrides" (te_security_context e)) (coverage, dimension_values) in
  {| tb_bucket_start := tb_bucket_start b; tb_bucket_end := tb_bucket_end b; tb_host_ref := tb_host_ref b;
     tb_user_ref := tb_user_ref b; tb_time_cohort := tb_time_cohort b; tb_context_cohort := tb_context_cohort b;
     tb_feature_values := add_risks (te_security_context e) (add_features (te_features e) (tb_feature_values b));
     tb_dimension_values := cd.2; tb_coverage := cd.1;
     tb_entity_sets := foldl (fun sets kv => add_entity kv sets) (tb_entity_sets b) (te_entity_keys e);
     tb_evidence_refs := from_last (tp_maximum_evidence_refs_per_bucket policy)
                           (unique_in_order (tb_evidence_refs b ++ te_evidence_refs e));
     tb_training_eligible := tb_training_eligible b && te_baseline_training_eligible e;
     tb_event_count := tb_event_count b + 1;
     tb_created_at := tb_created_at b; tb_updated_at := tb_updated_at b |}.

(** [_context_cohort] *)
Definition context_cohort (e : NormalizedTelemetryEvent) : string :=
  let context := te_security_context e in
  let explicit := upper (text_or (vget "context_cohort" context) "") in
  if one_of explicit ["STARTUP"; "WAKE_GRACE"; "MAINTENANCE"; "RESEARCH"; "STEADY_STATE"] then explicit
  else if truthy_val (vget "research_mode" context) then "RESEARCH"
  else if truthy_val (vget "maintenance_context" context) then "MAINTENANCE"
  else if contains "wake" (te_event_name e) then "WAKE_GRACE"
  else if contains "startup" (te_event_name e) || contains "boot" (te_event_name e) then "STARTUP"
  else "STEADY_STATE".

(** ** [aggregate] *)

(** Start, host, user and context. *)
Record bucket_id := BucketId { k_start : string; k_host : string; k_user : string; k_context : string }.

#[export] Instance bucket_id_eq_dec : EqDecision bucket_id.
Proof. solve_decision. Defined.

Definition bucket_groups : Type := list (bucket_id * list NormalizedTelemetryEvent).

Definition add_to_group (k : bucket_id) (e : NormalizedTelemetryEvent) (g : bucket_groups) : bucket_groups :=
  dset k (dget_default [] k g ++ [e]) g.

(** The bucket of an event's user. *)
Definition event_bucket (e : NormalizedTelemetryEvent) : res bucket_id :=
  bounds ← bucket_bounds (te_timestamp e) (tp_bucket_seconds policy);
  Ok (BucketId bounds.1 (te_host_ref e) (te_user_ref e) (context_cohort e)).

(** The same bucket, of the whole host. *)
Definition host_wide (k : bucket_id) : bucket_id := BucketId (k_start k) (k_host k) "" (k_context k).

Fixpoint group_events (events : list NormalizedTelemetryEvent) (g : bucket_groups) : res bucket_groups :=
  match events with
  | [] => Ok g
  | e :: events' =>
      k ← event_bucket e;
      group_events events' (add_to_group (host_wide k) e (add_to_group k e g))
  end.

Definition new_bucket (k : bucket_id) (finish cohort : string) : TelemetryBucket := {|
  tb_bucket_start := k_start k; tb_bucket_end := finish; tb_host_ref := k_host k; tb_user_ref := k_user k;
  tb_time_cohort := cohort; tb_context_cohort := k_context k; tb_feature_values := []; tb_dimension_values := [];
  tb_coverage := []; tb_entity_sets := []; tb_evidence_refs := []; tb_training_eligible := true;
  tb_event_count := 0; tb_created_at := ""; tb_updated_at := "" |}.

Fixpoint merge_events (items : list NormalizedTelemetryEvent) (b : TelemetryBucket) : M (Conn TelemetryTables) TelemetryBucket :=
  match items with
  | [] => mret b
  | e :: items' =>
      record_event_link (tp_raw_retention_days policy) e;;
      update_entity_profiles e;;
      merge_events items' (merge e b)
  end.

Definition aggregate_group (group : bucket_id * list NormalizedTelemetryEvent) : M (Conn TelemetryTables) TelemetryBucket :=
  let k := group.1 in
  bounds ← lift_res (match group.2 with
                     | e :: _ => bucket_bounds (te_timestamp e) (tp_bucket_seconds policy)
                     | [] => Raise (LookupError "list index out of range")
                     end);
  cohort ← lift_res (time_cohort (k_start k));
  found ← get_bucket (k_start k) (k_host k) (k_user k) (k_context k);
  b ← merge_events group.2 (default (new_bucket k bounds.2 cohort) found);
  upsert_bucket b.

Fixpoint aggregate_groups (g : bucket_groups) : M (Conn TelemetryTables) (list TelemetryBucket) :=
  match g with
  | [] => mret []
  | group :: g' => b ← aggregate_group group; rest ← aggregate_groups g'; mret (b :: rest)
  end.

Definition aggregate (events : list NormalizedTelemetryEvent) : M (Conn TelemetryTables) (list TelemetryBucket) :=
  g ← lift_res (group_events events []);
  buckets ← aggregate_groups g;
  commit;;
  mret buckets.
End Aggregator.
