(* ===== verification/TelemetryAggregatorFacts.v ===== *)
(** Buckets count every event once for its user and once for its host, stay within the
    bounds of the policy, and once excluded from training stay excluded. *)

From S2P Require Import Prelude PyStr PyFloat PyDict PyJson PyTime Sql PyRepr.
From S2P Require Import TelemetryModels TelemetryStore TelemetryAggregator.

(** ** Keys of buckets *)

Definition key_of (b : TelemetryBucket) : bucket_id :=
  BucketId (tb_bucket_start b) (tb_host_ref b) (tb_user_ref b) (tb_context_cohort b).

Lemma same_bucket_key s h u c b : same_bucket s h u c b = bool_decide (key_of b = BucketId s h u c).
Proof.
  unfold same_bucket, key_of. rewrite !eqb_string_spec.
  repeat case_bool_decide; simplify_eq; try done; naive_solver.
Qed.

Lemma same_key_spec b b' : same_key b b' = bool_decide (key_of b' = key_of b).
Proof. apply same_bucket_key. Qed.

(** The table keeps its [UNIQUE] constraint. *)
Definition keys_unique (l : list TelemetryBucket) : Prop := NoDup (key_of <$> l).

Definition bucket_at (k : bucket_id) (l : list TelemetryBucket) : option TelemetryBucket :=
  find_first (fun b => bool_decide (key_of b = k)) l.

Lemma get_bucket_at k l : find_first (same_bucket (k_start k) (k_host k) (k_user k) (k_context k)) l = bucket_at k l.
Proof. apply find_first_ext. intros b _. rewrite same_bucket_key. by destruct k. Qed.

Lemma bucket_at_key k l b : bucket_at k l = Some b -> b ∈ l /\ key_of b = k.
Proof. intros [Hb Hk]%find_first_Some. apply bool_decide_eq_true in Hk. done. Qed.

Lemma bucket_at_elem l b : keys_unique l -> b ∈ l -> bucket_at (key_of b) l = Some b.
Proof.
  unfold keys_unique, bucket_at. induction l as [|b' l IH]; [by intros _ ?%elem_of_nil|]. cbn [find_first fmap list_fmap].
  rewrite NoDup_cons. intros [Hni Hnd] Hb. case_bool_decide as Heq.
  - apply elem_of_cons in Hb as [->|Hb]; [done|]. exfalso. apply Hni. rewrite Heq. by apply list_elem_of_fmap_2.
  - apply elem_of_cons in Hb as [->|Hb]; [done|]. by apply IH.
Qed.

Lemma key_of_dated c u b : key_of (dated c u b) = key_of b.
Proof. done. Qed.
Lemma key_of_stored b : key_of (stored_bucket b) = key_of b.
Proof. done. Qed.

Lemma put_bucket_keys b l :
  key_of <$> put_bucket b l = if existsb (same_key b) l then key_of <$> l else (key_of <$> l) ++ [key_of b].
Proof.
  unfold put_bucket. destruct (existsb _ l); [|by rewrite fmap_app].
  induction l as [|b' l IH]; [done|]. cbn. rewrite IH, same_key_spec. case_bool_decide as Heq; [|done].
  by rewrite Heq.
Qed.

Lemma existsb_key b l : existsb (same_key b) l = true <-> key_of b ∈ key_of <$> l.
Proof.
  rewrite existsb_exists, list_elem_of_fmap. split.
  - intros (x & Hx & Hk). rewrite same_key_spec in Hk. apply bool_decide_eq_true in Hk. exists x.
    split; [done|by apply list_elem_of_In].
  - intros (x & Hk & Hx). exists x. split; [by apply list_elem_of_In|]. rewrite same_key_spec. by apply bool_decide_eq_true.
Qed.

Lemma put_bucket_unique b l : keys_unique l -> keys_unique (put_bucket b l).
Proof.
  unfold keys_unique. rewrite put_bucket_keys. destruct (existsb _ l) eqn:Hex; [done|].
  intros Hl. apply NoDup_app. split_and!; [done| |apply NoDup_singleton].
  intros k Hk ->%list_elem_of_singleton. apply existsb_key in Hk. congruence.
Qed.

(** Any row afterwards is one from before, under another key, or what [b] became. *)
Lemma put_bucket_elem b l x : x ∈ put_bucket b l ->
  (x ∈ l /\ key_of x <> key_of b)
  \/ (exists created updated, x = dated created updated (stored_bucket b)) .
Proof.
  unfold put_bucket. destruct (existsb _ l) eqn:Hex.
  - intros (y & -> & Hy)%list_elem_of_fmap. rewrite same_key_spec. case_bool_decide as Hk; [by right; eauto|]. by left.
  - intros [Hx| ->%list_elem_of_singleton]%elem_of_app.
    + left. split; [done|]. intros Hk. apply not_true_iff_false in Hex. apply Hex, existsb_key. rewrite <- Hk.
      by apply list_elem_of_fmap_2.
    + right. exists (tb_created_at b), (tb_updated_at b). by destruct b.
Qed.

(** ** What the steps do *)

Section Steps.
Context `{TelemetryEnv} (policy : BehavioralTelemetryPolicy).

(** Links and profiles leave the buckets alone. *)
Lemma advances_for_each {A} (I : TelemetryTables -> Prop) (f : A -> M (Conn TelemetryTables) unit) l :
  (forall x, advances I (f x)) -> advances I (for_each f l).
Proof.
  intros Hf. induction l as [|x l IH]; cbn [for_each]; [apply advances_ret|]. apply advances_bind; [apply Hf|done].
Qed.

Lemma advances_record_event_link (I : TelemetryTables -> Prop) n e :
  (forall x t, I t -> I (set_links x t)) -> advances I (record_event_link n e).
Proof.
  intros Hset. unfold record_event_link. repeat (apply advances_bind; [apply advances_lift|intros ?]).
  apply advances_write. intros t Ht. destruct (existsb _ _); auto.
Qed.

Lemma advances_update_entity_profiles (I : TelemetryTables -> Prop) e :
  (forall x t, I t -> I (set_profiles x t)) -> advances I (update_entity_profiles e).
Proof.
  intros Hset. apply advances_for_each. intros kv. apply advances_bind; [apply advances_read|]. intros row.
  apply advances_write. auto.
Qed.

Lemma merge_events_ok items b w b' w' :
  merge_events policy items b w = (Ok b', w') ->
  b' = foldl (fun b e => merge policy e b) b items /\ tt_buckets (working w') = tt_buckets (working w).
Proof.
  revert b w. induction items as [|e items IH]; intros b w; cbn [merge_events foldl]; [by intros [= -> ->]|].
  intros ([] & w1 & H1 & ([] & w2 & H2 & H3)%bind_ok)%bind_ok. apply IH in H3 as [-> H3]. split; [done|].
  rewrite H3. pose (I t := tt_buckets t = tt_buckets (working w)).
  eapply (advances_record_event_link I) in H1; [|done]. eapply (advances_update_entity_profiles I) in H2; [|done].
  by apply H2, H1.
Qed.

(** A group replaces its bucket by one that merged all of its events. *)
Lemma aggregate_group_ok k items w b w' :
  aggregate_group policy (k, items) w = (Ok b, w') ->
  exists finish cohort created updated,
    b = dated created updated
          (foldl (fun b e => merge policy e b) (default (new_bucket k finish cohort) (bucket_at k (tt_buckets (working w)))) items)
    /\ tt_buckets (working w') = put_bucket b (tt_buckets (working w)).
Proof.
  unfold aggregate_group. cbn [fst snd].
  intros (bounds & w1 & [_ ->]%lift_ok & Hk)%bind_ok. apply bind_ok in Hk as (cohort & w2 & [_ ->]%lift_ok & Hk).
  apply bind_ok in Hk as (found & w3 & [-> H3]%read_ok & Hk). apply bind_ok in Hk as (b1 & w4 & Hm & Hk).
  apply merge_events_ok in Hm as [-> Hb]. rewrite get_bucket_at in Hk.
  unfold upsert_bucket in Hk. apply bind_ok in Hk as (now & w5 & Hnow%now_ok & Hk).
  apply bind_ok in Hk as ([] & w6 & Hw%write_ok & Hk). injection Hk as <- <-.
  exists bounds.2, cohort. eexists _, _. split; [done|]. rewrite Hw. cbn. by rewrite Hnow, Hb, H3.
Qed.

Lemma merge_key e b : key_of (merge policy e b) = key_of b.
Proof. done. Qed.

Lemma merged_key items b : key_of (foldl (fun b e => merge policy e b) b items) = key_of b.
Proof. revert b. induction items as [|e items IH]; intros b; cbn; [done|]. by rewrite IH. Qed.

Lemma merged_count items b : tb_event_count (foldl (fun b e => merge policy e b) b items) = tb_event_count b + zlen items.
Proof.
  revert b. induction items as [|e items IH]; intros b; cbn [foldl]; [unfold zlen; cbn; lia|]. rewrite IH, zlen_cons. cbn. lia.
Qed.

(** ** Counting *)

Definition count_at (k : bucket_id) (l : list TelemetryBucket) : Z := from_option tb_event_count 0 (bucket_at k l).

Lemma put_old_id b l : existsb (same_key b) l = false ->
  (fun old => if same_key b old then dated (tb_created_at old) (tb_updated_at b) (stored_bucket b) else old) <$> l = l.
Proof.
  induction l as [|x l IH]; [done|]. cbn [existsb fmap list_fmap]. intros [Hx Hl]%orb_false_elim. by rewrite Hx, IH.
Qed.

Lemma put_bucket_at b l k : bucket_at k (put_bucket b l) =
  if decide (k = key_of b)
  then Some (dated (from_option tb_created_at (tb_created_at b) (bucket_at k l)) (tb_updated_at b) (stored_bucket b))
  else bucket_at k l.
Proof.
  unfold put_bucket, bucket_at. destruct (existsb _ l) eqn:Hex.
  - induction l as [|b' l IH]; [done|]. cbn [existsb fmap list_fmap find_first] in Hex |- *. rewrite !same_key_spec in *.
    case_bool_decide as Hk; rewrite ?key_of_dated, ?key_of_stored.
    + rewrite Hk. destruct (decide (k = key_of b)) as [->|Hne]; [by rewrite !bool_decide_true by done|].
      rewrite !bool_decide_false by congruence. destruct (existsb (same_key b) l) eqn:Hl; [by apply IH|]. by rewrite put_old_id.
    + destruct (decide (k = key_of b)) as [->|Hne]; [rewrite !bool_decide_false by done; by apply IH|].
      case_bool_decide; [done|by apply IH].
  - assert (Hno : forall x, x ∈ l -> key_of x <> key_of b).
    { intros x Hx Hk. apply not_true_iff_false in Hex. apply Hex, existsb_key. rewrite <- Hk. by apply list_elem_of_fmap_2. }
    clear Hex. induction l as [|b' l IH]; cbn [app find_first].
    + rewrite key_of_stored. destruct (decide (k = key_of b)) as [->|Hne]; [rewrite bool_decide_true by done; by destruct b|].
      by rewrite bool_decide_false.
    + assert (Hb' : key_of b' <> key_of b) by (apply Hno; left).
      case_bool_decide as Hk; [rewrite decide_False by congruence; done|]. apply IH. intros x Hx. apply Hno. by right.
Qed.

Lemma put_bucket_count b l k : count_at k (put_bucket b l) = if decide (k = key_of b) then tb_event_count b else count_at k l.
Proof. unfold count_at. rewrite put_bucket_at. by destruct (decide _). Qed.

Lemma bucket_key_of_found k (l : list TelemetryBucket) finish cohort :
  key_of (default (new_bucket k finish cohort) (bucket_at k l)) = k.
Proof. destruct (bucket_at k l) as [b|] eqn:Hb; [by apply bucket_at_key in Hb as [_ ?]|by destruct k]. Qed.

Lemma aggregate_group_counts k items w b w' k' :
  aggregate_group policy (k, items) w = (Ok b, w') ->
  count_at k' (tt_buckets (working w')) = count_at k' (tt_buckets (working w)) + (if decide (k' = k) then zlen items else 0).
Proof.
  intros (finish & cohort & created & updated & -> & ->)%aggregate_group_ok.
  rewrite put_bucket_count, key_of_dated, merged_key, bucket_key_of_found. cbn [tb_event_count dated].
  destruct (decide (k' = k)) as [->|]; [|lia]. rewrite merged_count. f_equal.
  unfold count_at. by destruct (bucket_at k _).
Qed.

Lemma aggregate_groups_counts g w bs w' k :
  aggregate_groups policy g w = (Ok bs, w') ->
  count_at k (tt_buckets (working w')) = count_at k (tt_buckets (working w))
    + zsum (fun group => if decide (k = group.1) then zlen group.2 else 0) g.
Proof.
  revert w bs. induction g as [|[k' items] g IH]; intros w bs; cbn [aggregate_groups]; [intros [= <- <-]; cbn; lia|].
  intros (b & w1 & H1 & (rest & w2 & H2 & [= <- <-])%bind_ok)%bind_ok.
  rewrite (IH _ _ H2), (aggregate_group_counts _ _ _ _ _ k H1). cbn [zsum foldr fst snd]. unfold zsum. lia.
Qed.

(** What the buckets satisfy after a batch, by induction over its groups. *)
Lemma aggregate_groups_keep (P : list TelemetryBucket -> Prop) :
  (forall k items l finish cohort created updated, P l ->
     P (put_bucket (dated created updated (foldl (fun b e => merge policy e b)
          (default (new_bucket k finish cohort) (bucket_at k l)) items)) l)) ->
  forall g w bs w', aggregate_groups policy g w = (Ok bs, w') -> P (tt_buckets (working w)) -> P (tt_buckets (working w')).
Proof.
  intros Hstep g. induction g as [|[k items] g IH]; intros w bs w'; cbn [aggregate_groups]; [by intros [= <- <-]|].
  intros (b & w1 & H1 & (rest & w2 & H2 & [= <- <-])%bind_ok)%bind_ok HP. eapply IH; [exact H2|].
  apply aggregate_group_ok in H1 as (finish & cohort & created & updated & -> & ->). by apply Hstep.
Qed.

(** A batch that returns was grouped, and what its groups did is committed. *)
Lemma aggregate_ok events w bs w' : aggregate policy events w = (Ok bs, w') ->
  exists g w1, group_events policy events [] = Ok g /\ aggregate_groups policy g w = (Ok bs, w1)
    /\ committed w' = working w1 /\ working w' = working w1.
Proof.
  unfold aggregate. intros (g & w0 & [Hg ->]%lift_ok & (bs' & w1 & Hb & (u & w2 & Hc & [= -> ->])%bind_ok)%bind_ok)%bind_ok.
  exists g, w1. split_and!; [done|done|..]; revert Hc; unfold commit; destruct (stmt_ok _); by intros [= _ <-].
Qed.

(** *** Groups *)

Lemma zsum_group k (g : bucket_groups) : dwf g ->
  zsum (fun group => if decide (k = group.1) then zlen group.2 else 0) g = zlen (dget_default [] k g).
Proof.
  unfold dwf, keys, dget_default. induction g as [|[k' items] g IH]; [done|]. cbn [fmap list_fmap fst zsum foldr dget snd].
  rewrite NoDup_cons. intros [Hni Hnd]. fold (zsum (fun group : bucket_id * list NormalizedTelemetryEvent => if decide (k = group.1) then zlen group.2 else 0) g).
  rewrite IH by done. destruct (decide (k = k')) as [->|]; [|lia].
  assert (Hn : dget k' g = None) by (apply dget_None; done). rewrite Hn. change (zlen (@nil NormalizedTelemetryEvent)) with 0. lia.
Qed.

Lemma group_len_add k k' e (g : bucket_groups) :
  zlen (dget_default [] k (add_to_group k' e g)) = zlen (dget_default [] k g) + (if decide (k = k') then 1 else 0).
Proof.
  unfold add_to_group, dget_default at 1. destruct (decide (k = k')) as [->|Hne].
  - rewrite dget_dset_eq, zlen_app. done.
  - rewrite dget_dset_ne by done. unfold dget_default. lia.
Qed.

(** Whether an event belongs in the bucket [k]: its user's, or the one of its host. *)
Definition counted_in (k : bucket_id) (e : NormalizedTelemetryEvent) : bool :=
  match event_bucket policy e with
  | Ok k' => bool_decide (k = (if String.eqb (k_user k) "" then host_wide k' else k'))
  | Raise _ => false
  end.

Lemma group_events_spec events g g' : group_events policy events g = Ok g' ->
  dwf g -> Forall (fun e => te_user_ref e <> "") events ->
  dwf g' /\ forall k, zlen (dget_default [] k g') = zlen (dget_default [] k g) + zcount (counted_in k) events.
Proof.
  revert g. induction events as [|e events IH]; intros g; cbn [group_events].
  - intros [= <-] Hg _. split; [done|]. intros k. unfold zcount, zlen. cbn. lia.
  - intros (k & Hk & Hg')%res_bind_ok Hg [Hu Hus]%Forall_cons. apply IH in Hg' as [Hw Hc]; [|by repeat apply dwf_dset|done].
    split; [done|]. intros k'. rewrite Hc, !group_len_add, zcount_cons.
    assert (Hku : k_user k = te_user_ref e).
    { unfold event_bucket in Hk. by apply res_bind_ok in Hk as (bounds & _ & [= <-]). }
    unfold counted_in at 2. rewrite Hk. destruct (String.eqb_spec (k_user k') "") as [He|He].
    + rewrite (decide_False (P := k' = k)) by (intros ->; congruence). case_bool_decide; destruct (decide _); try done; lia.
    + rewrite (decide_False (P := k' = host_wide k)) by (intros ->; done). case_bool_decide; destruct (decide _); try done; lia.
Qed.

(** C11. No event is lost and none is counted twice: when a batch is aggregated, the committed
    bucket of each window, user and context counts just the events it received of them,
    and the bucket of the host those of all its users. *)
Theorem every_event_is_counted_once events w bs w' :
  aggregate policy events w = (Ok bs, w') -> Forall (fun e => te_user_ref e <> "") events ->
  forall k, count_at k (tt_buckets (committed w'))
            = count_at k (tt_buckets (working w)) + zcount (counted_in k) events.
Proof.
  intros (g & w1 & Hg & Hb & -> & _)%aggregate_ok Hu k. apply group_events_spec in Hg as [Hw Hc]; [|apply NoDup_nil_2|done].
  rewrite (aggregate_groups_counts _ _ _ _ k Hb), zsum_group, Hc by done. f_equal.
Qed.
(** ** Bounds *)

Definition bucket_bounded (b : TelemetryBucket) : Prop :=
  Forall (fun kv => zlen kv.2 <= tp_maximum_entities_per_bucket policy) (tb_entity_sets b)
  /\ zlen (tb_evidence_refs b) <= tp_maximum_evidence_refs_per_bucket policy.

Lemma zlen_remove_dups (l : list string) : zlen (remove_dups l) <= zlen l.
Proof. unfold zlen. induction l as [|x l IH]; cbn; [lia|]. destruct (decide_rel _ _ _); cbn; lia. Qed.

Lemma zlen_sort_by {A} le (l : list A) : zlen (sort_by le l) = zlen l.
Proof. unfold zlen. by rewrite sort_by_perm. Qed.

Lemma Forall_sort_by {A} (P : A -> Prop) le l : Forall P l -> Forall P (sort_by le l).
Proof. by rewrite sort_by_perm. Qed.

Lemma add_entity_bounded n kv sets : 0 <= n -> n = tp_maximum_entities_per_bucket policy ->
  Forall (fun kv => zlen kv.2 <= n) sets -> Forall (fun kv => zlen kv.2 <= n) (add_entity policy kv sets).
Proof.
  intros Hn Heq Hs. apply (Forall_dset (fun l => zlen l <= n)); [|done]. rewrite zlen_sort_by, <- Heq.
  assert (Hold : zlen (remove_dups (dget_default [] kv.1 sets)) <= n).
  { eapply Z.le_trans; [apply zlen_remove_dups|]. unfold dget_default. destruct (dget kv.1 sets) as [l|] eqn:Hl; [|done].
    apply dget_elem in Hl. rewrite Forall_forall in Hs. by apply (Hs _ Hl). }
  destruct (_ <? n) eqn:Hlt; cbn [andb]; [|done]. destruct (negb _); [|done]. apply Z.ltb_lt in Hlt. rewrite zlen_cons. lia.
Qed.

Lemma zlen_from_last n l : 1 <= n -> zlen (from_last n l) <= n.
Proof.
  intros Hn. unfold from_last. rewrite (proj2 (Z.eqb_neq n 0)) by lia. rewrite (proj2 (Z.ltb_lt 0 n)) by lia.
  pose proof (length_last_n (Z.to_nat n) l). unfold zlen. lia.
Qed.

Lemma merge_bounded e b :
  0 <= tp_maximum_entities_per_bucket policy -> 1 <= tp_maximum_evidence_refs_per_bucket policy ->
  bucket_bounded b -> bucket_bounded (merge policy e b).
Proof.
  intros HE HR [Hs Hr]. split; cbn [merge tb_entity_sets tb_evidence_refs]; [|by apply zlen_from_last].
  revert Hs. generalize (tb_entity_sets b) as sets.
  induction (te_entity_keys e) as [|kv keys IH]; intros sets Hs; cbn [foldl]; [done|].
  apply IH, (add_entity_bounded _ kv sets HE); done.
Qed.

Lemma merged_bounded items b :
  0 <= tp_maximum_entities_per_bucket policy -> 1 <= tp_maximum_evidence_refs_per_bucket policy ->
  bucket_bounded b -> bucket_bounded (foldl (fun b e => merge policy e b) b items).
Proof. intros HE HR. revert b. induction items as [|e items IH]; intros b Hb; cbn; [done|]. by apply IH, merge_bounded. Qed.

Lemma put_bounded b l : bucket_bounded b -> Forall bucket_bounded l -> Forall bucket_bounded (put_bucket b l).
Proof.
  intros [Hs Hr] Hl. apply Forall_forall. intros x [[Hx _]|(c & u & ->)]%put_bucket_elem.
  - rewrite Forall_forall in Hl. by apply Hl.
  - split; [|done]. by apply Forall_sort_by.
Qed.

(** However many events a batch holds, buckets keep within the policy's bounds. *)
Theorem buckets_stay_bounded events w bs w' :
  0 <= tp_maximum_entities_per_bucket policy -> 1 <= tp_maximum_evidence_refs_per_bucket policy ->
  aggregate policy events w = (Ok bs, w') ->
  Forall bucket_bounded (tt_buckets (working w)) -> Forall bucket_bounded (tt_buckets (committed w')).
Proof.
  intros HE HR (g & w1 & _ & Hb & -> & _)%aggregate_ok. revert Hb. apply aggregate_groups_keep.
  intros k items l finish cohort created updated Hl. apply put_bounded; [|done].
  apply (merged_bounded items _ HE HR). destruct (bucket_at k l) as [b|] eqn:Hk; cbn.
  - apply bucket_at_key in Hk as [Hk _]. rewrite Forall_forall in Hl. by apply Hl.
  - split; [constructor|]. unfold zlen. cbn. lia.
Qed.

(** ** Exclusion from training *)

Definition excluded (k : bucket_id) (l : list TelemetryBucket) : Prop :=
  exists b, bucket_at k l = Some b /\ tb_training_eligible b = false.

Lemma merged_excluded items b :
  tb_training_eligible b = false -> tb_training_eligible (foldl (fun b e => merge policy e b) b items) = false.
Proof. revert b. induction items as [|e items IH]; intros b Hb; cbn; [done|]. apply IH. cbn. by rewrite Hb. Qed.

(** A bucket excluded from training stays excluded, whatever is merged into it. *)
Lemma aggregate_keeps_exclusion k events w bs w' :
  aggregate policy events w = (Ok bs, w') ->
  excluded k (tt_buckets (working w)) -> excluded k (tt_buckets (committed w')).
Proof.
  intros (g & w1 & _ & Hb & -> & _)%aggregate_ok. revert Hb. apply (aggregate_groups_keep (excluded k)).
  intros k' items l finish cohort created updated (b & Hb & He). unfold excluded. rewrite put_bucket_at.
  destruct (decide _) as [Heq|]; [|by exists b]. eexists; split; [done|]. cbn [tb_training_eligible dated stored_bucket].
  rewrite key_of_dated, merged_key, bucket_key_of_found in Heq. subst k'. rewrite Hb. by apply merged_excluded.
Qed.
End Steps.

(** ** Runs *)

Lemma ran {A S} (r : res A * S) : is_ok r.1 = true -> exists a, r = (Ok a, r.2).
Proof. destruct r as [[a|e] s]; [by exists a|done]. Qed.

Definition always (n : nat) : bool := true.
Definition noon : string := "2026-06-01T12:00:07+00:00".
Definition noon_bucket (user : string) : bucket_id := BucketId "2026-06-01T12:00:00+00:00" "host-1" user "STEADY_STATE".

Section Run.
#[local] Instance demo_env : TelemetryEnv := demo_telemetry always always.

Definition three_events : list NormalizedTelemetryEvent :=
  [demo_event "e1" noon "user-1"; demo_event "e2" noon "user-2"; demo_event "e3" noon "user-1"].

#[local] Abbreviation three_aggregated := (aggregate balanced_policy three_events (empty_connection no_telemetry)).

Lemma three_ran : is_ok three_aggregated.1 = true.
Proof. by vm_compute. Qed.

Lemma every_event_is_counted_once_witness :
  count_at (noon_bucket "user-1") (tt_buckets (committed three_aggregated.2)) = 2
  /\ count_at (noon_bucket "") (tt_buckets (committed three_aggregated.2)) = 3.
Proof.
  destruct (ran _ three_ran) as [bs Hrun].
  assert (Hu : Forall (fun e => te_user_ref e <> "") three_events) by by repeat constructor.
  pose proof (every_event_is_counted_once balanced_policy three_events (empty_connection no_telemetry) bs three_aggregated.2 Hrun Hu) as Hc.
  split; rewrite Hc; vm_compute; reflexivity.
Defined.

Lemma buckets_stay_bounded_witness :
  Forall (bucket_bounded balanced_policy) (tt_buckets (committed three_aggregated.2)).
Proof.
  destruct (ran _ three_ran) as [bs Hrun].
  apply (buckets_stay_bounded balanced_policy three_events (empty_connection no_telemetry) bs three_aggregated.2);
    [by vm_compute|by vm_compute|exact Hrun|constructor].
Defined.

(** The profile of an entity is updated for the user's bucket and again for the host's:
    it counts twice the times it was seen. *)
Example entities_are_seen_twice :
  pr_seen_count <$> tt_profiles (committed (aggregate balanced_policy [demo_event "e1" noon "user-1"] (empty_connection no_telemetry)).2)
  = [2].
Proof. by vm_compute. Qed.

(** One event whose time is no ISO date makes a batch raise, and the others of the batch
    with it. *)
Example malformed_time_loses_the_batch :
  aggregate balanced_policy [demo_event "e1" noon "user-1"; demo_event "e2" "yesterday" "user-1"] (empty_connection no_telemetry)
  = (Raise (ValueError "Invalid isoformat string"), empty_connection no_telemetry).
Proof. by vm_compute. Qed.
End Run.

Section Interrupted.
#[local] Instance interrupted_env (n : nat) : TelemetryEnv := demo_telemetry (fun k => negb (Nat.eqb k n)) always.

(** Two batches of one event each, a statement of the first failing. *)
Definition interrupted (n : nat) : res (list TelemetryBucket) * Conn TelemetryTables :=
  let first := aggregate (H := interrupted_env n) balanced_policy [demo_event "e1" noon "user-1"] (empty_connection no_telemetry) in
  aggregate (H := interrupted_env n) balanced_policy [demo_event "e2" noon "user-1"] first.2.

(** The failed batch is not rolled back: what it wrote is committed with the next one, the
    user's bucket then has two events and the host's bucket one of them. *)
Example partial_batch_is_published :
  (fun id => count_at id (tt_buckets (committed (interrupted 7).2))) <$> [noon_bucket "user-1"; noon_bucket ""] = [2; 1].
Proof. by vm_compute. Qed.
End Interrupted.
