(* ===== verification/TelemetryBaseline.v ===== *)
(** Robust baselines of the features: [telemetry/baseline.py].

    Values are sorted as floats; sums of counts are never not-a-number. *)

From S2P Require Import Prelude PyStr PyFloat PyDict PyJson PyTime Sql PyRepr.
From S2P Require Import TelemetryModels TelemetryNormalizer TelemetryStore TelemetryAggregator.
From Stdlib Require Import Floats.SpecFloat.

Definition sort_floats : list float -> list float := sort_by fleb.

(** [statistics.median] of a list that is not empty *)
Definition median (values : list float) : float :=
  let data := sort_floats values in
  let n := length data in
  let at_index i := default fzero (data !! i) in
  if Nat.odd n then at_index (n / 2)%nat
  else fdiv (fadd (at_index (n / 2 - 1)%nat) (at_index (n / 2)%nat)) (fexact 2).

(** [_percentile] of sorted values; [int] of a position, which is finite *)
Definition percentile (sorted_values : list float) (quantile : float) : float :=
  match sorted_values with
  | [] => fzero
  | [x] => x
  | _ =>
      let last_index := zlen sorted_values - 1 in
      let position := fmul (fexact last_index) quantile in
      let lower := match int_of_float position with Ok n => n | Raise _ => 0 end in
      let upper := Z.min (lower + 1) last_index in
      let fraction := fsub position (fexact lower) in
      let at_index i := default fzero (sorted_values !! Z.to_nat i) in
      fadd (fmul (at_index lower) (fsub fone fraction)) (fmul (at_index upper) fraction)
  end.

Section Baseline.
Context `{TelemetryEnv} (policy : BehavioralTelemetryPolicy).

(** [_state] *)
Definition baseline_state (samples : Z) : BaselineState * float :=
  let minimum := tp_minimum_baseline_samples policy in
  let established := tp_established_baseline_samples policy in
  let mature := tp_mature_baseline_samples policy in
  if samples <? minimum then
    (BS_LEARNING, fmin (flit 24 100) (fmul (int_div samples (Z.max 1 minimum)) (flit 24 100)))
  else if samples <? established then
    (BS_LOW_CONFIDENCE,
     fadd (flit 25 100) (fdiv (fmul (flit 34 100) (fexact (samples - minimum))) (fexact (Z.max 1 (established - minimum)))))
  else if samples <? mature then
    (BS_ESTABLISHED,
     fadd (flit 60 100) (fdiv (fmul (flit 29 100) (fexact (samples - established))) (fexact (Z.max 1 (mature - established)))))
  else
    (BS_MATURE,
     fmin fone (fadd (flit 90 100) (fdiv (fmul (flit 10 100) (fexact samples)) (fexact (Z.max samples (mature * 2)))))).

(** ** [_build] *)

(** Host, user, feature, time cohort, context cohort. *)
Record series_id := SeriesId { s_host : string; s_user : string; s_feature : string; s_cohort : string; s_context : string }.

#[export] Instance series_id_eq_dec : EqDecision series_id.
Proof. solve_decision. Defined.

Definition series : Type := list (series_id * list float).

Definition add_sample (k : series_id) (v : float) (g : series) : series := dset k (dget_default [] k g ++ [v]) g.

(** One value counts for its cohort and for [ALL], in its context and in [ALL]. *)
Definition add_value (b : TelemetryBucket) (g : series) (kv : string * option float) : series :=
  match kv.2 with
  | None => g
  | Some v =>
      foldl (fun g cohort =>
        let key := SeriesId (tb_host_ref b) (tb_user_ref b) kv.1 cohort in
        let g := add_sample (key (tb_context_cohort b)) v g in
        if String.eqb (tb_context_cohort b) "ALL" then g else add_sample (key "ALL") v g)
      g [tb_time_cohort b; "ALL"]
  end.

Definition collect (buckets : list TelemetryBucket) : series :=
  foldl (fun g b => foldl (add_value b) g (tb_feature_values b)) [] buckets.

Definition baseline_of (version : Z) (now : string) (kv : series_id * list float) : FeatureBaseline :=
  let '(k, values) := kv in
  let values := sort_floats values in
  let m := median values in
  let mad := median ((fun v => SFabs (fsub v m)) <$> values) in
  let '(state, confidence) := baseline_state (zlen values) in
  let identity := join "|" [s_host k; s_user k; s_feature k; s_cohort k; s_context k; str_of_Z version] in
  {| fb_baseline_id := "baseline-" +:+ sprefix 24 (sha256 identity); fb_host_ref := s_host k; fb_user_ref := s_user k;
     fb_feature_name := s_feature k; fb_time_cohort := s_cohort k; fb_context_cohort := s_context k;
     fb_median_value := m; fb_mad_value := mad; fb_p05 := percentile values (flit 5 100);
     fb_p25 := percentile values (flit 25 100); fb_p50 := percentile values (flit 50 100);
     fb_p75 := percentile values (flit 75 100); fb_p95 := percentile values (flit 95 100);
     fb_sample_count := zlen values; fb_confidence := confidence; fb_state := state; fb_version := version;
     fb_updated_at := now |}.

Definition build_baselines (version : Z) (now : string) (buckets : list TelemetryBucket) : list FeatureBaseline :=
  baseline_of version now <$> collect buckets.

(** ** [rebuild] *)

Definition trains (b : TelemetryBucket) : bool :=
  tb_training_eligible b && negb (one_of (tb_context_cohort b) ["RESEARCH"; "MAINTENANCE"]).

(** [min(..., default="")] and [max(..., default="")] of texts *)
Definition least (l : list string) : string :=
  match l with [] => "" | x :: l' => foldl (fun m y => if text_lt y m then y else m) x l' end.
Definition greatest (l : list string) : string :=
  match l with [] => "" | x :: l' => foldl (fun m y => if text_lt m y then y else m) x l' end.

(** The version and how many baselines it has. *)
Definition rebuild (reason actor : string) : M (Conn TelemetryTables) (Z * Z) :=
  all_buckets ← list_buckets "" "" None None 100000;
  let eligible := filter (fun b => trains b = true) all_buckets in
  let excluded := zlen all_buckets - zlen eligible in
  version ← create_baseline_version (least (tb_bucket_start <$> eligible)) (greatest (tb_bucket_end <$> eligible))
              (zlen eligible) excluded "1.0" "robust-statistics-1.0" reason;
  now ← utc_now;
  let baselines := build_baselines version now eligible in
  save_baselines baselines;;
  at_ ← utc_now;
  set_runtime_state "last_baseline_update" (VStr at_);;
  set_runtime_state "baseline_version" (VInt version);;
  audit_trail actor "baseline_rebuild" "telemetry_baseline" (str_of_Z version) []
    [("version", VInt version); ("features", VInt (zlen baselines)); ("eligible_buckets", VInt (zlen eligible));
     ("excluded_buckets", VInt excluded)] reason;;
  commit;;
  mret (version, zlen baselines).
End Baseline.

(** ** What confidence means

    Sample counts up to twice the mature threshold of the shipped profiles. *)

Definition confidence_ok (samples : Z) : bool :=
  let '(s, c) := baseline_state balanced_policy samples in
  Bool.eqb (fltb c (flit 25 100)) (samples <? 24)
  && Bool.eqb (fltb c (flit 60 100)) (samples <? 168)
  && Bool.eqb (bool_decide (s = BS_LEARNING)) (samples <? 24)
  && fleb fzero c && fleb c fone.

(** In the shipped profiles a baseline is below a quarter of confidence as long as it is
    learning, below three fifths until it is established, and never above one. *)
Lemma confidence_follows_state : forallb confidence_ok (Z.of_nat <$> seq 0 1500) = true.
Proof. by vm_compute. Qed.

Lemma shipped_sample_thresholds kv : kv ∈ PROFILE_POLICIES ->
  forall n, baseline_state kv.2 n = baseline_state balanced_policy n.
Proof. intros Hkv. repeat (apply elem_of_cons in Hkv as [->|Hkv]; [done|]). by apply elem_of_nil in Hkv. Qed.

Example percentiles :
  (percentile (fexact <$> [1; 2; 3; 4; 10]) (flit 50 100), percentile (fexact <$> [2; 8]) (flit 25 100),
   median (fexact <$> [10; 1; 4]), median (fexact <$> [1; 4]))
  = (flit 3 1, flit 35 10, fexact 4, flit 25 10).
Proof. by vm_compute. Qed.
