(* ===== verification/TelemetryAnomaly.v ===== *)
(** Scoring a bucket against its baselines: [telemetry/anomaly.py].

    The texts of explanations are UTF-8. *)

From S2P Require Import Prelude PyStr PyFloat PyDict PyJson PyTime Sql PyRepr TelemetryModels TelemetryNormalizer.
From S2P Require Import TelemetryStore TelemetryAggregator TelemetryBaseline TelemetryAggregatorFacts.
From Stdlib Require Import Ascii.

Definition REASON_CODE_BY_FEATURE : list (string * string) := [
  ("process_exec_count", "PROCESS_RATE_ANOMALY"); ("first_seen_process_count", "FIRST_SEEN_EXECUTABLE_SPIKE");
  ("unsigned_process_count", "UNSIGNED_EXECUTION_ANOMALY"); ("network_connection_count", "NETWORK_RATE_ANOMALY");
  ("unique_destination_count", "DESTINATION_DIVERSITY_SPIKE"); ("dns_query_count", "DNS_RATE_ANOMALY");
  ("unique_domain_count", "DNS_UNIQUE_DOMAIN_SPIKE"); ("dns_resolver_change_count", "NEW_DNS_RESOLVER");
  ("authentication_failure_count", "AUTHENTICATION_FAILURE_SPIKE"); ("new_administrator_count", "NEW_ADMINISTRATOR");
  ("privileged_execution_count", "PRIVILEGE_ACTIVITY_SPIKE"); ("persistence_change_count", "PERSISTENCE_CHANGE_ANOMALY");
  ("security_setting_change_count", "SECURITY_CONFIGURATION_CHANGE_SPIKE");
  ("software_installation_count", "SOFTWARE_INSTALLATION_ANOMALY");
  ("workstation_profile_deviation_count", "WORKSTATION_PROFILE_DEVIATION")].

Definition FEATURE_DIMENSION : list (string * string) := [
  ("process", "PROCESS_ACTIVITY"); ("unsigned", "PROCESS_ACTIVITY"); ("privileged", "PRIVILEGE_ACTIVITY");
  ("network", "NETWORK_ACTIVITY"); ("destination", "NETWORK_ACTIVITY"); ("dns", "DNS_ACTIVITY"); ("domain", "DNS_ACTIVITY");
  ("authentication", "AUTHENTICATION_ACTIVITY"); ("administrator", "AUTHENTICATION_ACTIVITY");
  ("persistence", "PERSISTENCE_ACTIVITY"); ("security_setting", "SECURITY_CONFIGURATION_ACTIVITY");
  ("software", "SOFTWARE_INSTALLATION_ACTIVITY"); ("filesystem", "FILESYSTEM_ACTIVITY");
  ("external_device", "EXTERNAL_DEVICE_ACTIVITY"); ("sensor", "SENSOR_SECURITY_TOOL_ACTIVITY")].

(** [_dimension_for_feature] *)
Definition dimension_for_feature (feature : string) : string :=
  match find_first (fun kv => contains kv.1 feature) FEATURE_DIMENSION with
  | Some kv => kv.2
  | None => "APPLICATION_ACTIVITY"
  end.

(** [s.title()]; [after] a letter *)
Fixpoint title (after : bool) (s : string) : string :=
  match s with
  | EmptyString => EmptyString
  | String c s' => String (if after then lower_char c else upper_char c) (title (is_alpha c) s')
  end.

(** [_risk_reason] *)
Definition RISK_REASONS : list (string * string) := [
  ("FIRST_SEEN_EXECUTABLE", "A contributing executable was first observed in the local entity history.");
  ("UNSIGNED_EXECUTION_ANOMALY", "Unsigned or invalidly signed execution contributed additional security context.");
  ("UNUSUAL_EXECUTION_PATH", "Execution originated from a download or temporary location.");
  ("PRIVILEGE_ACTIVITY_SPIKE", "Privileged execution occurred in the same aggregate window.");
  ("DETERMINISTIC_INTELLIGENCE_MATCH",
   "A deterministic local intelligence match was reported; statistical scoring does not reduce that finding.");
  ("WORKSTATION_PROFILE_DEVIATION", "Observed behavior falls outside the declared workstation role and was retained for review.")].

Definition risk_reason (code : string) : string :=
  dget_default (title false (replace_char "_" " " code) +:+ ".") code RISK_REASONS.

(** A feature that stands out. *)
Record candidate := {
  cd_feature : string;
  cd_score : Z;
  cd_explanation : string;
  cd_baseline : option FeatureBaseline;
  cd_observed : float
}.

(** ** Signals of a bucket *)

Definition RISK_CODES : list (string * string) := [
  ("risk_first_seen_count", "FIRST_SEEN_EXECUTABLE"); ("risk_unsigned_count", "UNSIGNED_EXECUTION_ANOMALY");
  ("risk_downloads_path_count", "UNUSUAL_EXECUTION_PATH"); ("risk_temporary_path_count", "UNUSUAL_EXECUTION_PATH");
  ("risk_privileged_count", "PRIVILEGE_ACTIVITY_SPIKE");
  ("risk_known_malicious_count", "DETERMINISTIC_INTELLIGENCE_MATCH");
  ("workstation_profile_deviation_count", "WORKSTATION_PROFILE_DEVIATION");
  ("profile_deviation_development_tooling_count", "PROFILE_UNEXPECTED_DEVELOPMENT_TOOLING");
  ("profile_deviation_research_activity_count", "PROFILE_UNEXPECTED_RESEARCH_ACTIVITY");
  ("profile_deviation_fuzzing_activity_count", "PROFILE_UNEXPECTED_FUZZING_ACTIVITY");
  ("profile_deviation_server_service_activity_count", "PROFILE_UNEXPECTED_SERVER_ACTIVITY");
  ("profile_deviation_unsigned_execution_count", "PROFILE_UNEXPECTED_UNSIGNED_EXECUTION");
  ("profile_deviation_unsigned_temporary_execution_count", "PROFILE_UNEXPECTED_UNSIGNED_EXECUTION");
  ("profile_deviation_temporary_execution_count", "PROFILE_UNEXPECTED_TEMPORARY_EXECUTION");
  ("profile_deviation_remote_access_count", "PROFILE_UNEXPECTED_REMOTE_ACCESS");
  ("profile_deviation_external_device_activity_count", "PROFILE_UNEXPECTED_EXTERNAL_DEVICE")].

Definition positive (b : TelemetryBucket) (feature : string) : bool := fltb fzero (value_of feature (tb_feature_values b)).

(** [_risk_signals] *)
Definition risk_signals (b : TelemetryBucket) (dimension : string) : list string :=
  if one_of dimension ["APPLICATION_ACTIVITY"; "PROCESS_ACTIVITY"; "PRIVILEGE_ACTIVITY"; "PERSISTENCE_ACTIVITY"; "NETWORK_ACTIVITY"]
  then unique_in_order (snd <$> filter (fun kv => positive b kv.1 = true) RISK_CODES)
  else [].

Definition known_malicious (b : TelemetryBucket) : bool := positive b "risk_known_malicious_count".

Definition STRONG_CODES : list string :=
  ["UNSIGNED_EXECUTION_ANOMALY"; "UNUSUAL_EXECUTION_PATH"; "PRIVILEGE_ACTIVITY_SPIKE"; "PERSISTENCE_CHANGE_ANOMALY"].

Definition strong_codes (codes : list string) : Z := zcount (fun c => one_of c codes) STRONG_CODES.

(** [_security_severity] *)
Definition security_severity (score : Z) (codes : list string) (malicious : bool) : string :=
  if malicious then "critical"
  else if (80 <=? score) && (2 <=? strong_codes codes) then "high"
  else if (60 <=? score) && (1 <=? strong_codes codes) then "medium"
  else if 40 <=? score then "low"
  else "info".

Definition is_uncovered (b : TelemetryBucket) (dimension : string) : bool :=
  match dget dimension (tb_coverage b) with
  | Some state => one_of state ["UNKNOWN"; "UNAVAILABLE"]
  | None => false
  end.

Section Anomaly.
Context `{TelemetryEnv} (policy : BehavioralTelemetryPolicy).

(** [_feature_score]: the score and its explanation *)
Definition feature_score (feature : string) (observed : float) (baseline : option FeatureBaseline) : res (Z * string) :=
  let label := replace_char "_" " " feature in
  match baseline with
  | None =>
      Ok (if fltb fzero observed && (contains "first_seen" feature || contains "administrator" feature
                                      || contains "persistence" feature) then 30 else 20,
          title false label +:+ " has no comparable local baseline yet; current value is " +:+ float_general observed +:+ ".")
  | Some fb =>
      if fleb observed (fb_p75 fb) then Ok (0, title false label +:+ " remains within its expected range.")
      else
        let spread := fmax (fmax (fmul (fb_mad_value fb) (flit 14826 10000))
                                 (fdiv (fsub (fb_p95 fb) (fb_p25 fb)) (flit 135 100))) fone in
        let robust_z := fmax fzero (fdiv (fsub observed (fb_median_value fb)) spread) in
        let ratio := fdiv observed (fmax fone (fb_median_value fb)) in
        score ← (if fleb observed (fb_p95 fb)
                 then int_of_float (fmin (fexact 39) (fadd (fexact 15) (fmul robust_z (fexact 5))))
                 else int_of_float (fmin (fexact 85)
                        (fadd (fadd (fexact 40) (fmul robust_z (fexact 7)))
                              (fmin (fexact 15) (fmul (fmax fzero (fsub ratio fone)) (fexact 3))))));
        let score :=
          if fltb (fb_confidence fb) (flit 25 100) then Z.min score 39
          else if fltb (fb_confidence fb) (flit 60 100) then Z.min score 59
          else score in
        Ok (score,
            title false label +:+ " is " +:+ float_general observed +:+ "; comparable local behavior is typically "
            +:+ float_general (normal_low fb) +:+ "–" +:+ float_general (normal_high fb) +:+ " (median "
            +:+ float_general (fb_median_value fb) +:+ ", " +:+ float_tenths ratio +:+ "× median, baseline confidence "
            +:+ float_percent (fb_confidence fb) +:+ ").")
  end.

Definition skipped_feature (feature : string) : bool := startswith "risk_" feature || startswith "profile_deviation_" feature.

(** The candidates, by dimension in the order they were met. *)
Fixpoint candidates (b : TelemetryBucket) (baselines : list (string * FeatureBaseline))
    (features : list (string * option float)) (found : list (string * list candidate)) : res (list (string * list candidate)) :=
  match features with
  | [] => Ok found
  | (feature, raw) :: rest =>
      match raw with
      | None => candidates b baselines rest found
      | Some observed =>
          if skipped_feature feature then candidates b baselines rest found
          else
            let dimension := dimension_for_feature feature in
            if is_uncovered b dimension then candidates b baselines rest found
            else
              let baseline := dget feature baselines in
              scored ← feature_score feature observed baseline;
              candidates b baselines rest
                (if 20 <=? scored.1
                 then dset dimension (dget_default [] dimension found ++ [{|
                        cd_feature := feature; cd_score := scored.1; cd_explanation := scored.2;
                        cd_baseline := baseline; cd_observed := observed |}]) found
                 else found)
      end
  end.

(** [_confidence] *)
Definition detection_confidence (features : list candidate) (b : TelemetryBucket) (malicious : bool) : float :=
  if malicious then flit 98 100
  else
    let confidences := fb_confidence <$> omap cd_baseline features in
    let baseline_confidence :=
      match confidences with
      | [] => flit 15 100
      | _ => fdiv (foldl fadd fzero confidences) (fexact (zlen confidences))
      end in
    let states := snd <$> tb_coverage b in
    let coverage := match states with [] => fzero | _ => int_div (zcount (String.eqb "VALID") states) (zlen states) end in
    let signal_bonus := fmin (flit 20 100) (fmul (fexact (Z.max 0 (zlen features - 1))) (flit 5 100)) in
    fround_digits 3 (fmin (flit 99 100)
      (fadd (fadd (fmul baseline_confidence (flit 65 100)) (fmul coverage (flit 20 100))) signal_bonus)).

Definition fresh_hex : M (Conn TelemetryTables) string := fun w => (Ok (hex_id (ticks w)), tick w).

Definition composite : string := "COMPOSITE_BEHAVIORAL_ANOMALY".

(** The codes of a dimension: of its features, of its risks, and that there are many. *)
Definition reason_codes_of (scores : list candidate) (risk : list string) : list string :=
  let codes := ((fun c => dget_default composite (cd_feature c) REASON_CODE_BY_FEATURE) <$> scores) ++ risk in
  unique_in_order (codes ++ (if 3 <=? zlen (unique_in_order codes) then [composite] else [])).

Definition first_entities (sets : list (string * list string)) : list (string * string) :=
  omap (fun kv => match kv.2 with v :: _ => Some (kv.1, v) | [] => None end) sets.

Definition reasons_of (scores : list candidate) (risk codes : list string) : list string :=
  (cd_explanation <$> take 6 scores) ++ (risk_reason <$> risk)
  ++ (if one_of "WORKSTATION_PROFILE_DEVIATION" codes
      then ["The activity falls outside the declared " +:+ tp_profile policy +:+ " workstation role; "
            +:+ "the local host and user baseline remains the primary comparison."] else []).

(** The anomaly of one dimension, of which [primary] stands out most. *)
Definition anomaly_of (b : TelemetryBucket) (dimension : string) (scores : list candidate) (primary : candidate)
    : M (Conn TelemetryTables) BehavioralAnomaly :=
  let risk := risk_signals b dimension in
  let bonus := Z.min 25 (Z.max 0 (zlen scores - 1) * 5 + zlen risk * 5) in
  let score := Z.min 100 (cd_score primary + bonus) in
  let codes := reason_codes_of scores risk in
  let reasons := reasons_of scores risk codes in
  id ← fresh_hex;
  version ← (match cd_baseline primary with Some fb => mret (fb_version fb) | None => latest_baseline_version end);
  now ← utc_now;
  mret {|
    ba_anomaly_id := "behavior-" +:+ id; ba_timestamp := tb_bucket_end b; ba_host_ref := tb_host_ref b;
    ba_user_ref := tb_user_ref b; ba_dimension := dimension; ba_anomaly_score := score;
    ba_security_severity := security_severity score codes (known_malicious b);
    ba_detection_confidence := detection_confidence scores b (known_malicious b);
    ba_baseline_value := fb_median_value <$> cd_baseline primary; ba_observed_value := Some (cd_observed primary);
    ba_normal_low := normal_low <$> cd_baseline primary; ba_normal_high := normal_high <$> cd_baseline primary;
    ba_reason_codes := codes; ba_reasons := reasons; ba_related_entities := first_entities (tb_entity_sets b);
    ba_evidence_refs := tb_evidence_refs b; ba_sensor_coverage := tb_coverage b; ba_baseline_version := version;
    ba_active_behavior_policy := tp_profile policy; ba_baseline_training_eligible := false; ba_incident_id := "";
    ba_disposition := "NEW";
    ba_explanation := join " " reasons
      +:+ " Unusual behavior is an investigation signal, not proof of malicious intent.";
    ba_created_at := now |}.

Fixpoint anomalies_of (b : TelemetryBucket) (found : list (string * list candidate))
    : M (Conn TelemetryTables) (list BehavioralAnomaly) :=
  match found with
  | [] => mret []
  | (dimension, scores) :: rest =>
      let scores := sort_by (fun a c => cd_score c <=? cd_score a) scores in
      match scores with
      | [] => raise_st (LookupError "list index out of range")
      | primary :: _ => a ← anomaly_of b dimension scores primary; others ← anomalies_of b rest; mret (a :: others)
      end
  end.

(** [analyze_bucket] *)
Definition analyze_bucket (b : TelemetryBucket) : M (Conn TelemetryTables) (list BehavioralAnomaly) :=
  baselines ← baselines_for (tb_host_ref b) (tb_user_ref b) (tb_time_cohort b) (tb_context_cohort b);
  found ← lift_res (candidates b baselines (tb_feature_values b) []);
  anomalies_of b found.
End Anomaly.

(** What an anomaly promises: a covered dimension, a bounded score, and no grave severity
    without a history that warrants it. *)

(** A baseline worth a quarter of confidence. *)
Definition proven (fb : FeatureBaseline) : Prop := fltb (fb_confidence fb) (flit 25 100) = false.

(** What the baselines of the database satisfy: those of fewer than 24 samples are not
    worth that much. *)
Definition honest (fb : FeatureBaseline) : Prop := proven fb -> 24 <= fb_sample_count fb.

(** ** Baselines are honest *)

Section Rebuild.
Context `{TelemetryEnv}.

Lemma small_samples_unproven p n :
  (forall n, baseline_state p n = baseline_state balanced_policy n) ->
  0 <= n < 24 -> fltb (baseline_state p n).2 (flit 25 100) = true.
Proof.
  intros -> Hn. assert (Hall : forallb (fun n => fltb (baseline_state balanced_policy n).2 (flit 25 100)) (Z.of_nat <$> seq 0 24) = true)
    by by vm_compute.
  rewrite forallb_forall in Hall. apply Hall, list_elem_of_In, list_elem_of_fmap. exists (Z.to_nat n).
  split; [lia|]. apply elem_of_seq. lia.
Qed.

Lemma baseline_of_honest p version now kv :
  (forall n, baseline_state p n = baseline_state balanced_policy n) -> honest (baseline_of p version now kv).
Proof.
  intros Hp. unfold honest, proven, baseline_of. destruct kv as [k values]. destruct (baseline_state p _) as [s c] eqn:Hs.
  cbn [fb_confidence fb_sample_count]. intros Hc. destruct (Z.lt_ge_cases (zlen (sort_floats values)) 24) as [Hlt|]; [|done].
  pose proof (zlen_nonneg (sort_floats values)).
  pose proof (small_samples_unproven p (zlen (sort_floats values)) Hp ltac:(lia)) as Hf. rewrite Hs in Hf. cbn [snd] in Hf. congruence.
Qed.

Definition honest_tables (t : TelemetryTables) : Prop := Forall honest (tt_baselines t).

Lemma honest_upserted same fb l : honest fb -> Forall honest l -> Forall honest (upserted same fb l).
Proof.
  intros Hf Hl. unfold upserted. apply Forall_app. split; [|by repeat constructor].
  apply Forall_forall. intros x [_ Hx]%list_elem_of_filter. rewrite Forall_forall in Hl. by apply Hl.
Qed.

(** What a rebuild leaves behind is honest, for a policy with the shipped thresholds. *)
Lemma rebuild_honest p reason actor :
  (forall n, baseline_state p n = baseline_state balanced_policy n) -> advances honest_tables (rebuild p reason actor).
Proof.
  intros Hp. unfold rebuild. apply advances_bind; [apply advances_read|]. intros all.
  apply advances_bind.
  { apply advances_bind; [apply advances_now|]. intros now w v w1. unfold sql_update. destruct (stmt_ok _); [|done].
    by intros [= <- <-]. }
  intros version. apply advances_bind; [apply advances_now|]. intros now. apply advances_bind.
  { unfold save_baselines. generalize (filter (fun b => trains b = true) all) as eligible. intros eligible.
    unfold build_baselines. induction (collect eligible) as [|kv g IH]; cbn [fmap list_fmap for_each]; [apply advances_ret|].
    apply advances_bind; [|intros; exact IH]. apply advances_checked. intros t t'. destruct (storable _); [|done].
    intros [= <-] Ht. apply honest_upserted; [by apply baseline_of_honest|done]. }
  intros _. apply advances_bind; [apply advances_now|]. intros at_.
  assert (Hstate : forall k v, advances honest_tables (set_runtime_state k v)).
  { intros k v. unfold set_runtime_state. repeat (apply advances_bind; [first [apply advances_now|apply advances_lift]|intros ?]).
    by apply advances_write. }
  do 2 (apply advances_bind; [apply Hstate|intros _]). apply advances_bind.
  { unfold audit_trail. repeat (apply advances_bind; [first [apply advances_now|apply advances_lift]|intros ?]).
    by apply advances_write. }
  intros _. apply advances_bind; [|intros; apply advances_ret].
  intros w [] w1. unfold commit. destruct (stmt_ok _); [|done]. by intros [= <-].
Qed.
End Rebuild.

(** ** Candidates *)

Section Scores.
Context `{TelemetryEnv} (policy : BehavioralTelemetryPolicy) (b : TelemetryBucket).

Lemma feature_score_limit feature observed baseline s text :
  feature_score feature observed baseline = Ok (s, text) -> 40 <= s -> exists fb, baseline = Some fb /\ proven fb.
Proof.
  unfold feature_score. destruct baseline as [fb|].
  - destruct (fleb _ _); [intros [= <- _]; lia|]. intros (score & _ & Hs)%res_bind_ok Hle. exists fb. split; [done|].
    unfold proven. destruct (fltb (fb_confidence fb) (flit 25 100)); [|done]. injection Hs as <- _. lia.
  - intros [= <- _]. destruct (_ && _); lia.
Qed.

Definition candidate_ok (baselines : list (string * FeatureBaseline)) (c : candidate) : Prop :=
  20 <= cd_score c
  /\ (40 <= cd_score c -> exists fb, dget (cd_feature c) baselines = Some fb /\ proven fb).

Definition found_ok (baselines : list (string * FeatureBaseline)) (found : list (string * list candidate)) : Prop :=
  Forall (fun kv => is_uncovered b kv.1 = false /\ kv.2 <> [] /\ Forall (candidate_ok baselines) kv.2) found.

Lemma found_dset baselines found dimension c :
  found_ok baselines found -> is_uncovered b dimension = false -> candidate_ok baselines c ->
  found_ok baselines (dset dimension (dget_default [] dimension found ++ [c]) found).
Proof.
  intros Hf Hu Hc. apply Forall_dset_item; [|done]. cbn. split_and!; [done|by destruct (dget_default _ _ _)|].
  apply Forall_app. split; [|by apply Forall_singleton].
  unfold dget_default. destruct (dget dimension found) as [l|] eqn:Hl; [|constructor]. apply dget_elem in Hl.
  unfold found_ok in Hf. rewrite Forall_forall in Hf. by apply (Hf _ Hl).
Qed.

Lemma candidates_ok baselines features found found' :
  candidates b baselines features found = Ok found' -> found_ok baselines found -> found_ok baselines found'.
Proof.
  revert found. induction features as [|[feature raw] rest IH]; intros found; cbn [candidates]; [by intros [= <-]|].
  destruct raw as [observed|]; [|apply IH]. destruct (skipped_feature _); [apply IH|].
  destruct (is_uncovered _ _) eqn:Hu; [apply IH|]. intros ([s text] & Hs & Hk)%res_bind_ok Hf. apply IH in Hk; [done|].
  cbn [fst snd]. destruct (20 <=? s) eqn:H20; [|done]. apply found_dset; [done|done|]. split; cbn; [lia|].
  by apply (feature_score_limit _ _ _ _ _ Hs).
Qed.

(** The baselines of a bucket are rows of its host and user. *)
Lemma by_feature_elem l feature fb : dget feature (by_feature l) = Some fb -> fb ∈ l.
Proof.
  unfold by_feature. assert (Hgen : forall d, (forall kv, kv ∈ d -> kv.2 ∈ l) ->
    forall l', (forall x, x ∈ l' -> x ∈ l) -> forall kv, kv ∈ foldl (fun d b => dsetdefault (fb_feature_name b) b d) d l' -> kv.2 ∈ l).
  { intros d Hd l'. revert d Hd. induction l' as [|x l' IH]; intros d Hd Hl'; cbn [foldl]; [done|]. apply IH; [|intros; apply Hl'; by right].
    apply Forall_forall. unfold dsetdefault. destruct (dget _ d); [by apply Forall_forall|].
    apply Forall_dset_item; [apply Hl'; by left|by apply Forall_forall]. }
  intros Hd%dget_elem. by apply (Hgen [] ltac:(by intros kv ?%elem_of_nil) l ltac:(done) _ Hd).
Qed.

Lemma baselines_for_ok w baselines w1 : baselines_for (tb_host_ref b) (tb_user_ref b) (tb_time_cohort b) (tb_context_cohort b) w = (Ok baselines, w1) ->
  working w1 = working w
  /\ forall feature fb, dget feature baselines = Some fb ->
     fb ∈ tt_baselines (working w) /\ fb_host_ref fb = tb_host_ref b /\ fb_user_ref fb = tb_user_ref b.
Proof.
  unfold baselines_for. intros (version & w0 & [_ H0]%read_ok & [-> H1]%read_ok)%bind_ok. split; [congruence|].
  intros feature fb Hfb%by_feature_elem. rewrite sort_by_perm in Hfb. apply list_elem_of_filter in Hfb as [Hb Hfb].
  rewrite H0 in Hfb. split; [done|]. b2p. by rewrite !String.eqb_eq in *.
Qed.

(** ** Anomalies *)

(** Nobody's severity: [high] has a score of 80, two strong codes, and a feature above
    forty against a proven baseline of the same host and user. *)
Definition anomaly_warranted (t : TelemetryTables) (a : BehavioralAnomaly) : Prop :=
  20 <= ba_anomaly_score a <= 100
  /\ is_uncovered b (ba_dimension a) = false
  /\ ba_baseline_training_eligible a = false
  /\ (ba_security_severity a = "critical" <-> known_malicious b = true)
  /\ (ba_security_severity a = "high" ->
       80 <= ba_anomaly_score a /\ 2 <= strong_codes (ba_reason_codes a)
       /\ exists fb, fb ∈ tt_baselines t /\ fb_host_ref fb = tb_host_ref b /\ fb_user_ref fb = tb_user_ref b /\ proven fb).

Lemma severity_cases score codes malicious :
  (security_severity score codes malicious = "critical" <-> malicious = true)
  /\ (security_severity score codes malicious = "high" -> 80 <= score /\ 2 <= strong_codes codes).
Proof.
  unfold security_severity. generalize (strong_codes codes) as strong. intros strong.
  destruct malicious; [split; [done|discriminate]|].
  destruct (Z.leb_spec 80 score), (Z.leb_spec 2 strong), (Z.leb_spec 60 score), (Z.leb_spec 1 strong), (Z.leb_spec 40 score);
    cbn [andb]; (split; [split; discriminate|]); first [discriminate|done].
Qed.

Lemma anomaly_of_warranted t baselines dimension scores primary w a w1 :
  is_uncovered b dimension = false -> candidate_ok baselines primary ->
  (forall feature fb, dget feature baselines = Some fb ->
     fb ∈ tt_baselines t /\ fb_host_ref fb = tb_host_ref b /\ fb_user_ref fb = tb_user_ref b) ->
  anomaly_of policy b dimension scores primary w = (Ok a, w1) -> anomaly_warranted t a.
Proof.
  intros Hu [H20 H40] Hb. unfold anomaly_of.
  intros (id & w2 & _ & (version & w3 & _ & (now & w4 & _ & [= <- <-])%bind_ok)%bind_ok)%bind_ok.
  unfold anomaly_warranted. cbn [ba_anomaly_score ba_dimension ba_baseline_training_eligible ba_security_severity ba_reason_codes].
  pose proof (zlen_nonneg (risk_signals b dimension)).
  match goal with |- context [security_severity ?s ?c ?m] => destruct (severity_cases s c m) as [Hc Hh]; set (score := s) in * end.
  split_and!; [lia|lia|done|done|exact Hc|]. intros Hsev. destruct (Hh Hsev) as [H80 H2]. split_and!; [done|done|].
  destruct H40 as (fb & Hfb & Hp); [lia|]. exists fb. destruct (Hb _ _ Hfb) as (? & ? & ?). done.
Qed.

Lemma anomalies_of_warranted t baselines found w l w1 :
  found_ok baselines found ->
  (forall feature fb, dget feature baselines = Some fb ->
     fb ∈ tt_baselines t /\ fb_host_ref fb = tb_host_ref b /\ fb_user_ref fb = tb_user_ref b) ->
  anomalies_of policy b found w = (Ok l, w1) -> Forall (anomaly_warranted t) l.
Proof.
  intros Hf Hb. revert w l. induction Hf as [|[dimension scores] found (Hu & Hne & Hs) Hf IH]; intros w l; cbn [anomalies_of fst snd] in *.
  { by intros [= <- <-]. }
  rewrite <- (sort_by_perm (fun a c => cd_score c <=? cd_score a) scores) in Hs.
  destruct (sort_by _ scores) as [|primary others] eqn:Hsort; [done|]. apply Forall_cons in Hs as [Hprimary _].
  intros (a & w2 & Ha & (rest & w3 & Hr & [= <- <-])%bind_ok)%bind_ok. constructor; [|by eapply IH].
  by eapply anomaly_of_warranted.
Qed.

(** No anomaly is graver than its evidence: scores run from 20 to 100 on dimensions that
    are covered; [critical] is said exactly of known malicious activity; and [high] takes,
    besides a score of 80 and two strong codes, a baseline of the same host and user of at
    least 24 samples. *)
Theorem severity_needs_history w l w' :
  honest_tables (working w) -> analyze_bucket policy b w = (Ok l, w') ->
  Forall (fun a => anomaly_warranted (working w) a
    /\ (ba_security_severity a = "high" ->
         exists fb, fb ∈ tt_baselines (working w) /\ fb_host_ref fb = tb_host_ref b /\ fb_user_ref fb = tb_user_ref b
           /\ 24 <= fb_sample_count fb)) l.
Proof.
  intros Ht (baselines & w1 & [Hw1 Hb]%baselines_for_ok & (found & w2 & [Hc ->]%lift_ok & Ha)%bind_ok)%bind_ok.
  apply candidates_ok in Hc; [|constructor]. apply (anomalies_of_warranted (working w) baselines found) in Ha; [|done|done].
  eapply Forall_impl; [exact Ha|]. intros a Hwar. split; [done|]. intros Hh. destruct Hwar as (_ & _ & _ & _ & Hhigh).
  destruct (Hhigh Hh) as (_ & _ & fb & Hfb & Hhost & Huser & Hp). exists fb. split_and!; try done.
  unfold honest_tables in Ht. rewrite Forall_forall in Ht. by apply Ht.
Qed.
End Scores.
