(* ===== verification/TelemetryCorrelation.v ===== *)
(** From anomalies to incidents and alerts: [telemetry/correlation.py].

    The alert goes to the core database over its own connection: [co_alerts] holds what
    was recorded there. *)

From S2P Require Import Prelude PyStr PyFloat PyDict PyJson PyTime Sql PyRepr TelemetryModels TelemetryNormalizer.
From S2P Require Import TelemetryStore TelemetryAggregator TelemetryAnomaly TelemetryAggregatorFacts.

Definition SEVERITY_RANK : list (string * Z) := [("info", 0); ("low", 1); ("medium", 2); ("high", 3); ("critical", 4)].
Definition severity_rank_of (s : string) : Z := dget_default 0 s SEVERITY_RANK.

(** [_highest]: the first of the highest *)
Definition highest (l : list string) : string :=
  match l with
  | [] => "info"
  | x :: l' => lower (foldl (fun m y => if severity_rank_of (lower m) <? severity_rank_of (lower y) then y else m) x l')
  end.

(** What the alert event carries that depends on the incident. *)
Record MonitorAlert := {
  al_event_id : string;
  al_timestamp : string;
  al_event_type : string;
  al_severity : string;
  al_source : string;
  al_confidence : string;
  al_correlation_id : string;
  al_anomaly_score : Z;
  al_reason_codes : list string;
  al_evidence_refs : list string;
  al_policy : string
}.

Record Correlation := {
  co_conn : Conn TelemetryTables;
  co_alerts : list MonitorAlert
}.

Definition in_repository {A} (m : M (Conn TelemetryTables) A) : M Correlation A := fun s =>
  let (r, w) := m (co_conn s) in (r, {| co_conn := w; co_alerts := co_alerts s |}).

Definition primary_keys : list string := ["process"; "path"; "destination"; "domain"].

(** The first entity there is. *)
Definition primary_entity_of (a : BehavioralAnomaly) : string :=
  default "" (head (filter (fun v => truthy v = true) ((fun k => dget_default "" k (ba_related_entities a)) <$> primary_keys))).

(** [max] of a list that is not empty *)
Definition max_score (l : list BehavioralAnomaly) : Z :=
  match ba_anomaly_score <$> l with x :: l' => foldl Z.max x l' | [] => 0 end.
Definition max_confidence (x : float) (l : list float) : float := foldl fmax x l.

Section Correlate.
Context `{TelemetryEnv} (policy : BehavioralTelemetryPolicy).

(** [strftime("%Y%m%d")] *)
Definition yyyymmdd (us : Z) : string :=
  let '(y, m, d) := civil_from_days (us / 86400000000) in pad_num 4 y (pad_num 2 m (pad_num 2 d "")).

Definition fresh_incident_id : M (Conn TelemetryTables) string := fun w =>
  (Ok ("BINC-" +:+ yyyymmdd (utc_clock (ticks w)) +:+ "-" +:+ upper (sprefix 10 (hex_id (ticks w)))), tick w).

(** The open incident with the new anomalies, or a new one; [anchor] is the last anomaly,
    [first] the first. *)
Definition extended (entity : string) (anchor : BehavioralAnomaly) (anomalies : list BehavioralAnomaly)
    (i : BehavioralIncident) : BehavioralIncident := {|
  bi_incident_id := bi_incident_id i; bi_first_seen := bi_first_seen i; bi_last_seen := ba_timestamp anchor;
  bi_host_ref := ba_host_ref anchor; bi_user_ref := ba_user_ref anchor;
  bi_primary_entity := str_or (bi_primary_entity i) entity;
  bi_anomaly_ids := unique_in_order (bi_anomaly_ids i ++ (ba_anomaly_id <$> anomalies));
  bi_reason_codes := unique_in_order (bi_reason_codes i ++ concat (ba_reason_codes <$> anomalies));
  bi_anomaly_score := Z.max (bi_anomaly_score i) (max_score anomalies);
  bi_security_severity := highest (bi_security_severity i :: (ba_security_severity <$> anomalies));
  bi_detection_confidence :=
    match ba_detection_confidence <$> anomalies with
    | c :: l => fmax (bi_detection_confidence i) (max_confidence c l)
    | [] => bi_detection_confidence i
    end;
  bi_evidence_refs := unique_in_order (bi_evidence_refs i ++ concat (ba_evidence_refs <$> anomalies));
  bi_status := bi_status i; bi_alert_event_id := bi_alert_event_id i;
  bi_flight_recorder_snapshot_id := bi_flight_recorder_snapshot_id i;
  bi_occurrence_count := bi_occurrence_count i + zlen anomalies |}.

Definition opened (id entity : string) (first anchor : BehavioralAnomaly) (anomalies : list BehavioralAnomaly)
    : BehavioralIncident := {|
  bi_incident_id := id; bi_first_seen := ba_timestamp first; bi_last_seen := ba_timestamp anchor;
  bi_host_ref := ba_host_ref anchor; bi_user_ref := ba_user_ref anchor; bi_primary_entity := entity;
  bi_anomaly_ids := ba_anomaly_id <$> anomalies;
  bi_reason_codes := unique_in_order (concat (ba_reason_codes <$> anomalies));
  bi_anomaly_score := max_score anomalies; bi_security_severity := highest (ba_security_severity <$> anomalies);
  bi_detection_confidence :=
    match ba_detection_confidence <$> anomalies with c :: l => max_confidence c l | [] => fzero end;
  bi_evidence_refs := unique_in_order (concat (ba_evidence_refs <$> anomalies)); bi_status := "NEW";
  bi_alert_event_id := ""; bi_flight_recorder_snapshot_id := ""; bi_occurrence_count := zlen anomalies |}.

(** Score, snapshot, evidence and alert of an incident replaced. *)
Definition revised (score : Z) (snapshot : string) (refs : list string) (alert : string) (i : BehavioralIncident)
    : BehavioralIncident := {|
  bi_incident_id := bi_incident_id i; bi_first_seen := bi_first_seen i; bi_last_seen := bi_last_seen i;
  bi_host_ref := bi_host_ref i; bi_user_ref := bi_user_ref i; bi_primary_entity := bi_primary_entity i;
  bi_anomaly_ids := bi_anomaly_ids i; bi_reason_codes := bi_reason_codes i; bi_anomaly_score := score;
  bi_security_severity := bi_security_severity i; bi_detection_confidence := bi_detection_confidence i;
  bi_evidence_refs := refs; bi_status := bi_status i; bi_alert_event_id := alert;
  bi_flight_recorder_snapshot_id := snapshot; bi_occurrence_count := bi_occurrence_count i |}.

Definition alerted (alert : string) (i : BehavioralIncident) : BehavioralIncident :=
  revised (bi_anomaly_score i) (bi_flight_recorder_snapshot_id i) (bi_evidence_refs i) alert i.

(** [_alert_warranted] *)
Definition alert_warranted (score : Z) (severity : string) (codes : list string) : bool :=
  ((tp_alert_threshold policy <=? score) && (severity_rank_of "high" <=? severity_rank_of severity)
   && (3 <=? zlen (unique_in_order codes)))
  || one_of "DETERMINISTIC_INTELLIGENCE_MATCH" codes.

(** [_publish_alert] *)
Definition alert_of (i : BehavioralIncident) : MonitorAlert := {|
  al_event_id := "behavioral-alert-" +:+ lower (bi_incident_id i); al_timestamp := bi_last_seen i;
  al_event_type := "behavioral_anomaly"; al_severity := bi_security_severity i;
  al_source := "behavioral_telemetry_correlation";
  al_confidence := if fleb (flit 80 100) (bi_detection_confidence i) then "high"
                   else if fleb (flit 50 100) (bi_detection_confidence i) then "medium" else "low";
  al_correlation_id := bi_incident_id i; al_anomaly_score := bi_anomaly_score i;
  al_reason_codes := bi_reason_codes i; al_evidence_refs := take 512 (bi_evidence_refs i);
  al_policy := tp_profile policy |}.

Definition publish_alert (i : BehavioralIncident) : M Correlation string := fun s =>
  let w := tick (co_conn s) in
  if publish_ok (ticks (co_conn s))
  then (Ok (al_event_id (alert_of i)), {| co_conn := w; co_alerts := co_alerts s ++ [alert_of i] |})
  else (Raise (OperationalError "the alert could not be recorded"), {| co_conn := w; co_alerts := co_alerts s |}).

(** Crossing the investigation threshold preserves what happened around. *)
Definition investigated (i : BehavioralIncident) : M (Conn TelemetryTables) BehavioralIncident :=
  if bi_anomaly_score i <? tp_investigation_threshold policy then mret i
  else
    snapshot ← (if truthy (bi_flight_recorder_snapshot_id i) then mret (bi_flight_recorder_snapshot_id i)
                else id ← fresh_hex; mret ("flight-" +:+ id));
    refs ← preserve_context snapshot (bi_incident_id i) (bi_last_seen i)
             (tp_pre_event_window_seconds policy) (tp_post_event_window_seconds policy);
    mret (revised (bi_anomaly_score i) snapshot (unique_in_order (bi_evidence_refs i ++ refs)) (bi_alert_event_id i) i).

Definition diversity_bonus (anomalies : list BehavioralAnomaly) : Z :=
  Z.min 15 (Z.max 0 (zlen (unique_in_order (ba_dimension <$> anomalies)) - 1) * 5).

(** The incident the anomalies, in order of time, belong to. *)
Definition incident_of (first anchor : BehavioralAnomaly) (anomalies : list BehavioralAnomaly)
    : M (Conn TelemetryTables) BehavioralIncident :=
  let entity := primary_entity_of anchor in
  anchor_time ← lift_res (parse_time_utc (ba_timestamp anchor));
  since ← lift_res (shifted anchor_time (- seconds (tp_correlation_window_seconds policy)));
  existing ← find_correlatable_incident (ba_host_ref anchor) (ba_user_ref anchor) entity since;
  i ← (match existing with
       | Some i => mret (extended entity anchor anomalies i)
       | None => id ← fresh_incident_id; mret (opened id entity first anchor anomalies)
       end);
  let score := Z.min 100 (bi_anomaly_score i + diversity_bonus anomalies) in
  investigated (revised score (bi_flight_recorder_snapshot_id i) (bi_evidence_refs i) (bi_alert_event_id i) i).

(** [correlate] *)
Definition correlate (anomalies : list BehavioralAnomaly) : M Correlation (option BehavioralIncident) :=
  let sorted := sort_by (fun a b => str_le (ba_timestamp a) (ba_timestamp b)) anomalies in
  match sorted, last sorted with
  | first :: _, Some anchor =>
      i ← in_repository (incident_of first anchor sorted);
      in_repository (save_incident i);;
      in_repository commit;;
      if alert_warranted (bi_anomaly_score i) (bi_security_severity i) (bi_reason_codes i)
         && negb (truthy (bi_alert_event_id i))
      then
        id ← publish_alert i;
        in_repository (save_incident (alerted id i));;
        in_repository commit;;
        mret (Some (alerted id i))
      else mret (Some i)
  | _, _ => mret None
  end.
End Correlate.

(** Alerts of the behavioural telemetry: warranted, at most one for an incident, and never
    fed back into the telemetry. *)

(** ** Time goes on *)

Section Ticks.
Context {T : Type} `{StoreEnv}.

Definition forward {A} (m : M (Conn T) A) : Prop := forall w, (ticks w <= ticks (m w).2)%nat.

Lemma forward_step {A} (m : M (Conn T) A) w r w' : forward m -> m w = (r, w') -> (ticks w <= ticks w')%nat.
Proof. intros Hm Hr. specialize (Hm w). by rewrite Hr in Hm. Qed.
Lemma forward_ret {A} (a : A) : forward (mret a).
Proof. by intros w. Qed.
Lemma forward_lift {A} (r : res A) : forward (lift_res r).
Proof. by intros w. Qed.
Lemma forward_bind {A B} (m : M (Conn T) A) (k : A -> M (Conn T) B) : forward m -> (forall a, forward (k a)) -> forward (m ≫= k).
Proof.
  intros Hm Hk w. specialize (Hm w). unfold mbind, M_bind. destruct (m w) as [[a|e] w1]; [|done].
  specialize (Hk a w1). cbn in *. lia.
Qed.
Lemma forward_read {A} (f : T -> A) : forward (sql_read f).
Proof. intros w. unfold sql_read. destruct (stmt_ok _); cbn; lia. Qed.
Lemma forward_checked f : forward (sql_write_checked f).
Proof. intros w. unfold sql_write_checked. destruct (stmt_ok _); [destruct (f _)|]; cbn; lia. Qed.
Lemma forward_now : forward (utc_now : M (Conn T) string).
Proof. intros w. cbn. lia. Qed.
Lemma forward_commit : forward (commit : M (Conn T) unit).
Proof. intros w. unfold commit. destruct (stmt_ok _); cbn; lia. Qed.
End Ticks.

#[local] Hint Resolve forward_ret forward_lift forward_read forward_checked forward_now forward_commit : msaa.

(** ** Incidents *)

Section Facts.
Context `{TelemetryEnv} (policy : BehavioralTelemetryPolicy).

(** The row of an identifier. *)
Definition incident_at (id : string) (l : list BehavioralIncident) : option BehavioralIncident :=
  find_first (fun i => String.eqb (bi_incident_id i) id) l.

Lemma find_first_app {A} (p : A -> bool) l l' :
  find_first p (l ++ l') = match find_first p l with Some x => Some x | None => find_first p l' end.
Proof. induction l as [|x l IH]; cbn; [done|]. by destruct (p x). Qed.

Lemma incident_at_upserted id i l :
  incident_at id (upserted (fun r => String.eqb (bi_incident_id r) (bi_incident_id i)) i l)
  = if decide (id = bi_incident_id i) then Some i else incident_at id l.
Proof.
  unfold incident_at, upserted. rewrite find_first_app. cbn [find_first].
  destruct (decide (id = bi_incident_id i)) as [->|Hne].
  - rewrite String.eqb_refl. destruct (find_first _ (filter _ _)) as [x|] eqn:Hx; [|done].
    apply find_first_Some in Hx as [[Hf _]%list_elem_of_filter Hk]. congruence.
  - assert (Hni : String.eqb (bi_incident_id i) id = false) by (apply String.eqb_neq; congruence). rewrite Hni.
    induction l as [|x l IH]; [done|]. rewrite filter_cons. cbn [find_first].
    destruct (String.eqb_spec (bi_incident_id x) (bi_incident_id i)) as [Heq|Hxi].
    + rewrite decide_False by done. rewrite IH. rewrite Heq, Hni. done.
    + rewrite decide_True by done. cbn [find_first]. destruct (String.eqb (bi_incident_id x) id); [done|apply IH].
Qed.

Lemma upserted_ids i l : NoDup (bi_incident_id <$> l) ->
  NoDup (bi_incident_id <$> upserted (fun r => String.eqb (bi_incident_id r) (bi_incident_id i)) i l).
Proof.
  intros Hnd. unfold upserted. rewrite fmap_app. apply NoDup_app. split_and!; [|intros k Hk|apply NoDup_singleton].
  - induction l as [|x l IH]; [constructor|]. cbn in Hnd. apply NoDup_cons in Hnd as [Hni Hnd]. rewrite filter_cons.
    destruct (decide _); [|by apply IH]. cbn. apply NoDup_cons. split; [|by apply IH].
    intros (y & Hy & [_ Hel]%list_elem_of_filter)%list_elem_of_fmap. apply Hni. rewrite Hy. by apply list_elem_of_fmap_2.
  - cbn. intros ->%list_elem_of_singleton. apply list_elem_of_fmap in Hk as (y & Hy & [Hne _]%list_elem_of_filter).
    rewrite <- Hy, String.eqb_refl in Hne. done.
Qed.

Lemma incident_at_elem i l : NoDup (bi_incident_id <$> l) -> i ∈ l -> incident_at (bi_incident_id i) l = Some i.
Proof.
  unfold incident_at. induction l as [|x l IH]; [by intros _ ?%elem_of_nil|]. cbn [fmap list_fmap find_first].
  intros [Hni Hnd]%NoDup_cons [->|Hi]%elem_of_cons; [by rewrite String.eqb_refl|].
  destruct (String.eqb_spec (bi_incident_id x) (bi_incident_id i)) as [Heq|]; [|by apply IH].
  exfalso. apply Hni. rewrite Heq. by apply list_elem_of_fmap_2.
Qed.

(** ** What [incident_of] finds *)

Definition incident_id_at (n : nat) : string := "BINC-" +:+ yyyymmdd (utc_clock n) +:+ "-" +:+ upper (sprefix 10 (hex_id n)).

(** The incident is an open one, extended, or has a new identifier. *)
Definition descends (w w' : Conn TelemetryTables) (i : BehavioralIncident) : Prop :=
  (exists r, r ∈ tt_incidents (working w) /\ bi_incident_id i = bi_incident_id r /\ bi_alert_event_id i = bi_alert_event_id r)
  \/ (exists n, (ticks w <= n < ticks w')%nat /\ bi_incident_id i = incident_id_at n /\ bi_alert_event_id i = "").

(** Steps that leave the incidents alone, returning or not. *)
Definition quiet {A} (m : M (Conn TelemetryTables) A) : Prop :=
  forall w, (ticks w <= ticks (m w).2)%nat /\ tt_incidents (working (m w).2) = tt_incidents (working w).

Lemma quiet_bind {A B} (m : M (Conn TelemetryTables) A) (k : A -> M (Conn TelemetryTables) B) :
  quiet m -> (forall a, quiet (k a)) -> quiet (m ≫= k).
Proof.
  intros Hm Hk w. destruct (Hm w) as [H1 H2]. unfold mbind, M_bind. destruct (m w) as [[a|e] w1]; [|done].
  destruct (Hk a w1) as [H3 H4]. cbn in *. split; [lia|congruence].
Qed.
Lemma quiet_step {A} (m : M (Conn TelemetryTables) A) w r w' : quiet m -> m w = (r, w') ->
  (ticks w <= ticks w')%nat /\ tt_incidents (working w') = tt_incidents (working w).
Proof. intros Hm Hr. specialize (Hm w). by rewrite Hr in Hm. Qed.
Lemma quiet_ret {A} (a : A) : quiet (mret a).
Proof. by intros w. Qed.
Lemma quiet_lift {A} (r : res A) : quiet (lift_res r).
Proof. by intros w. Qed.
Lemma quiet_read {A} (f : TelemetryTables -> A) : quiet (sql_read f).
Proof. intros w. unfold sql_read. destruct (stmt_ok _); cbn; split; (lia || done). Qed.
Lemma quiet_write f : (forall t, tt_incidents (f t) = tt_incidents t) -> quiet (sql_write f).
Proof. intros Hf w. unfold sql_write, sql_write_checked. destruct (stmt_ok _); cbn; (split; [lia|]); [apply Hf|done]. Qed.
Lemma quiet_tick {A} (f : Conn TelemetryTables -> A) : quiet (fun w => (Ok (f w), tick w)).
Proof. intros w. cbn. split; [lia|done]. Qed.

#[local] Hint Resolve quiet_ret quiet_lift quiet_read quiet_tick : msaa.

Lemma quiet_investigated i : quiet (investigated policy i).
Proof.
  unfold investigated, preserve_context. destruct (_ <? _); [auto with msaa|]. apply quiet_bind.
  { destruct (truthy _); [auto with msaa|]. apply quiet_bind; [apply quiet_tick|auto with msaa]. }
  intros snapshot. apply quiet_bind; [|auto with msaa]. do 3 (apply quiet_bind; [auto with msaa|intros ?]).
  apply quiet_bind; [apply quiet_tick|intros ?]. apply quiet_bind; [auto with msaa|intros ?].
  apply quiet_bind; [apply quiet_tick|intros ?]. apply quiet_bind; [by apply quiet_write|auto with msaa].
Qed.

Lemma quiet_incident_of first anchor anomalies : quiet (incident_of policy first anchor anomalies).
Proof.
  unfold incident_of, find_correlatable_incident. do 3 (apply quiet_bind; [auto with msaa|intros ?]).
  apply quiet_bind; [|intros; apply quiet_investigated]. destruct a1; [auto with msaa|].
  apply quiet_bind; [apply quiet_tick|auto with msaa].
Qed.

Lemma investigated_ok i w i' w' : investigated policy i w = (Ok i', w') ->
  bi_incident_id i' = bi_incident_id i /\ bi_alert_event_id i' = bi_alert_event_id i.
Proof.
  unfold investigated. destruct (_ <? _); [by intros [= -> ->]|].
  by intros (snapshot & w1 & _ & (refs & w2 & _ & [= <- _])%bind_ok)%bind_ok.
Qed.

Lemma incident_of_ok first anchor anomalies w i w' : incident_of policy first anchor anomalies w = (Ok i, w') -> descends w w' i.
Proof.
  unfold incident_of.
  intros (time & w1 & [_ ->]%lift_ok & (since & w2 & [_ ->]%lift_ok & (existing & w3 & He & Hk)%bind_ok)%bind_ok)%bind_ok.
  destruct (quiet_step _ _ _ _ (quiet_read _) He) as [Hticks _].
  apply read_ok in He as [He _]. apply bind_ok in Hk as (i0 & w4 & Hi0 & Hinv).
  destruct (quiet_step _ _ _ _ (quiet_investigated _) Hinv) as [Hfw _].
  apply investigated_ok in Hinv as [Hid Hal]. cbn in Hid, Hal. destruct existing as [r|].
  - injection Hi0 as <- <-. left. exists r. split; [|by rewrite Hid, Hal].
    symmetry in He. apply head_Some_elem_of in He. rewrite sort_by_perm in He. by apply list_elem_of_filter in He as [_ He].
  - apply bind_ok in Hi0 as (id & w5 & [= <- <-] & [= <- <-]). cbn in Hid, Hal, Hfw.
    right. exists (ticks w3). rewrite Hid, Hal. split_and!; [lia|lia|done|done].
Qed.

(** ** The ledger of incidents and alerts *)

(** Identifiers are told apart by the first ten digits of a random one: that those of the
    first [n] interactions are distinct. *)
Definition distinct_ids (n : nat) : Prop :=
  forall i j, (i < j)%nat -> (j < n)%nat -> incident_id_at i <> incident_id_at j.

Record ledger_ok (n : nat) (rows : list BehavioralIncident) (alerts : list MonitorAlert) : Prop := {
  lo_drawn : forall r, r ∈ rows -> exists k, (k < n)%nat /\ bi_incident_id r = incident_id_at k;
  lo_unique : NoDup (bi_incident_id <$> rows);
  lo_once : NoDup (al_correlation_id <$> alerts);
  lo_marked : forall a, a ∈ alerts ->
    exists r, incident_at (al_correlation_id a) rows = Some r /\ truthy (bi_alert_event_id r) = true;
  lo_warranted : forall a, a ∈ alerts ->
    alert_warranted policy (al_anomaly_score a) (al_severity a) (al_reason_codes a) = true
}.

Definition saved (i : BehavioralIncident) (rows : list BehavioralIncident) : list BehavioralIncident :=
  upserted (fun r => String.eqb (bi_incident_id r) (bi_incident_id i)) i rows.

Lemma ledger_later n m rows alerts : (n <= m)%nat -> ledger_ok n rows alerts -> ledger_ok m rows alerts.
Proof. intros Hnm [H1 H2 H3 H4 H5]. split; [|done..]. intros r Hr. destruct (H1 r Hr) as (k & ? & ?). exists k. split; [lia|done]. Qed.

Lemma incident_at_row id rows r : incident_at id rows = Some r -> r ∈ rows /\ bi_incident_id r = id.
Proof. intros [Hr Hk]%find_first_Some. by apply String.eqb_eq in Hk. Qed.

(** Saving an incident with the mark it had. *)
Lemma ledger_save w w' i alerts : let rows := tt_incidents (working w) in
  distinct_ids (ticks w') -> (ticks w <= ticks w')%nat -> descends w w' i ->
  ledger_ok (ticks w) rows alerts -> ledger_ok (ticks w') (saved i rows) alerts.
Proof.
  intros rows Hdist Hle Hi [H1 H2 H3 H4 H5]. split; [|by apply upserted_ids|done| |done].
  - intros r [ [_ Hr]%list_elem_of_filter| ->%list_elem_of_singleton]%elem_of_app.
    + destruct (H1 r Hr) as (k & ? & ?). exists k. split; [lia|done].
    + destruct Hi as [(r0 & Hr0 & -> & _)|(n & Hn & -> & _)]; [|exists n; split; [lia|done]].
      destruct (H1 r0 Hr0) as (k & ? & ?). exists k. split; [lia|done].
  - intros a Ha. destruct (H4 a Ha) as (r & Hr & Hmark). unfold saved. rewrite incident_at_upserted.
    destruct (decide _) as [Heq|]; [|by exists r]. exists i. split; [done|].
    destruct Hi as [(r0 & Hr0 & Hid0 & Hal)|(n & Hn & Hid0 & _)].
    + rewrite Heq, Hid0, (incident_at_elem r0 rows H2 Hr0) in Hr. injection Hr as ->. by rewrite Hal.
    + apply incident_at_row in Hr as [Hr Hid]. destruct (H1 r Hr) as (k & Hk & Hidk). exfalso.
      apply (Hdist k n); [lia|lia|]. congruence.
Qed.

(** Publishing for an incident that is not marked, and marking it. *)
Lemma ledger_publish n rows alerts i mark :
  incident_at (bi_incident_id i) rows = Some i -> truthy (bi_alert_event_id i) = false -> truthy mark = true ->
  alert_warranted policy (bi_anomaly_score i) (bi_security_severity i) (bi_reason_codes i) = true ->
  ledger_ok n rows alerts -> ledger_ok n (saved (alerted mark i) rows) (alerts ++ [alert_of policy i]).
Proof.
  intros Hrow Hno Hmark Hwar [H1 H2 H3 H4 H5].
  assert (Hnew : forall a, a ∈ alerts -> al_correlation_id a <> bi_incident_id i).
  { intros a Ha Heq. destruct (H4 a Ha) as (r & Hr & Ht). rewrite Heq, Hrow in Hr. injection Hr as <-. congruence. }
  split.
  - intros r [ [_ Hr]%list_elem_of_filter| ->%list_elem_of_singleton]%elem_of_app; [by apply H1|].
    apply incident_at_row in Hrow as [Hrow _]. apply (H1 i Hrow).
  - by apply (upserted_ids (alerted mark i)).
  - rewrite fmap_app. apply NoDup_app. split_and!; [done| |apply NoDup_singleton].
    intros id (a & -> & Ha)%list_elem_of_fmap Heq%list_elem_of_singleton. by apply (Hnew a Ha).
  - intros a [Ha| ->%list_elem_of_singleton]%elem_of_app; unfold saved; rewrite (incident_at_upserted _ (alerted mark i)).
    + destruct (decide _) as [Heq|_]; [by apply Hnew in Heq|]. by apply H4.
    + destruct (decide _) as [_|Hne]; [by exists (alerted mark i)|done].
  - intros a [Ha| ->%list_elem_of_singleton]%elem_of_app; [by apply H5|done].
Qed.

(** ** Runs *)

Context (statements_succeed : forall n, stmt_ok n = true).

Lemma write_runs f (w : Conn TelemetryTables) : sql_write f w =
  (Ok tt, {| committed := committed w; working := f (working w); in_tx := true; ticks := S (ticks w) |}).
Proof. unfold sql_write, sql_write_checked. by rewrite statements_succeed. Qed.

Lemma save_runs i (s : Correlation) : exists s',
  in_repository (save_incident i) s = (Ok tt, s') /\ co_alerts s' = co_alerts s
  /\ tt_incidents (working (co_conn s')) = saved i (tt_incidents (working (co_conn s)))
  /\ (ticks (co_conn s) <= ticks (co_conn s'))%nat.
Proof.
  unfold in_repository, save_incident, mbind, M_bind. rewrite write_runs. cbn [fst snd]. rewrite write_runs. cbn.
  eexists. split_and!; [done|done|done|cbn; lia].
Qed.

Lemma commit_runs (s : Correlation) : exists s',
  in_repository commit s = (Ok tt, s') /\ co_alerts s' = co_alerts s
  /\ tt_incidents (working (co_conn s')) = tt_incidents (working (co_conn s))
  /\ (ticks (co_conn s) <= ticks (co_conn s'))%nat.
Proof. unfold in_repository, commit. rewrite statements_succeed. eexists. split_and!; [done|done|done|cbn; lia]. Qed.

Definition ledger_st (s : Correlation) : Prop :=
  ledger_ok (ticks (co_conn s)) (tt_incidents (working (co_conn s))) (co_alerts s).

Lemma distinct_less n m : (n <= m)%nat -> distinct_ids m -> distinct_ids n.
Proof. intros Hnm Hd i j Hij Hj. apply Hd; lia. Qed.

(** What follows the incident: it is saved, and alerted when that is warranted. *)
Lemma correlating_keeps anomalies s r s' : correlate policy anomalies s = (r, s') ->
  (ticks (co_conn s) <= ticks (co_conn s'))%nat
  /\ (distinct_ids (ticks (co_conn s')) -> ledger_st s -> ledger_st s').
Proof.
  unfold correlate. set (sorted := sort_by _ anomalies). destruct sorted as [|first others]; [by intros [= <- <-]|].
  destruct (last (first :: others)) as [anchor|]; [|by intros [= <- <-]]. generalize (first :: others) as l. intros l.
  unfold mbind at 1, M_bind at 1, in_repository at 1.
  destruct (incident_of policy first anchor l (co_conn s)) as [ri w1] eqn:Hio.
  destruct (quiet_step _ _ _ _ (quiet_incident_of _ _ _) Hio) as [Ht1 Hrows].
  destruct ri as [i|e]; [|intros [= <- <-]; split; [done|]; intros _ HL; unfold ledger_st; cbn; rewrite Hrows; by apply (ledger_later (ticks (co_conn s)))].
  apply incident_of_ok in Hio. set (s1 := {| co_conn := w1; co_alerts := co_alerts s |}).
  unfold mbind at 1, M_bind at 1. destruct (save_runs i s1) as (s2 & -> & Ha2 & Hr2 & Ht2).
  unfold mbind at 1, M_bind at 1. destruct (commit_runs s2) as (s3 & -> & Ha3 & Hr3 & Ht3). cbn [s1 co_conn co_alerts] in *.
  assert (Hkeep : distinct_ids (ticks (co_conn s3)) -> ledger_st s -> ledger_st s3).
  { intros Hd HL. unfold ledger_st. rewrite Ha3, Ha2, Hr3, Hr2, Hrows. apply (ledger_later (ticks w1)); [lia|].
    apply (ledger_save (co_conn s)); [eapply distinct_less; [|exact Hd]; lia|done|done|done]. }
  destruct (alert_warranted _ _ _ _ && _) eqn:Hw.
  - apply andb_prop in Hw as [Hw Hno%negb_true_iff]. unfold mbind at 1, M_bind at 1, publish_alert.
    destruct (publish_ok _); [|intros [= <- <-]; split; [cbn; lia|intros Hd HL]].
    + set (s4 := {| co_conn := tick (co_conn s3); co_alerts := co_alerts s3 ++ [alert_of policy i] |}).
      set (mark := al_event_id (alert_of policy i)).
      unfold mbind at 1, M_bind at 1. destruct (save_runs (alerted mark i) s4) as (s5 & -> & Ha5 & Hr5 & Ht5).
      unfold mbind at 1, M_bind at 1. destruct (commit_runs s5) as (s6 & -> & Ha6 & Hr6 & Ht6). cbn [s4 co_conn co_alerts tick ticks working] in *.
      intros [= <- <-]. split; [lia|]. intros Hd HL. unfold ledger_st. rewrite Ha6, Ha5, Hr6, Hr5.
      apply (ledger_later (ticks (co_conn s3))); [lia|]. apply ledger_publish; try done.
      * rewrite Hr3, Hr2. unfold saved. rewrite incident_at_upserted. by rewrite decide_True.
      * apply Hkeep; [eapply distinct_less; [|exact Hd]; lia|done].
    + unfold ledger_st. cbn. apply (ledger_later (ticks (co_conn s3))); [lia|]. apply Hkeep; [|done].
      eapply distinct_less; [|exact Hd]. cbn. lia.
  - intros [= <- <-]. split; [lia|done].
Qed.

(** Correlations one after the other, those that raise among them. *)
Definition correlate_all (batches : list (list BehavioralAnomaly)) (s : Correlation) : Correlation :=
  foldl (fun s anomalies => (correlate policy anomalies s).2) s batches.

Definition no_incidents : Correlation := {| co_conn := empty_connection no_telemetry; co_alerts := [] |}.

Lemma correlate_all_keeps batches s :
  (ticks (co_conn s) <= ticks (co_conn (correlate_all batches s)))%nat
  /\ (distinct_ids (ticks (co_conn (correlate_all batches s))) -> ledger_st s -> ledger_st (correlate_all batches s)).
Proof.
  revert s. induction batches as [|anomalies batches IH]; intros s; cbn [correlate_all foldl]; [done|].
  destruct (correlate policy anomalies s) as [r s1] eqn:Hc. apply correlating_keeps in Hc as [Ht Hk]. cbn [snd].
  destruct (IH s1) as [Ht' Hk']. fold (correlate_all batches s1). split; [lia|]. intros Hd HL. apply Hk'; [done|].
  apply Hk; [|done]. by eapply distinct_less.
Qed.

(** C13. An incident is announced at most once, and only when its score, severity and reasons
    warrant it or a deterministic match demands it: whatever is correlated in whatever
    order, and whichever announcements fail, as long as the database answers and random
    identifiers do not repeat. *)
Theorem one_warranted_alert_per_incident batches :
  distinct_ids (ticks (co_conn (correlate_all batches no_incidents))) ->
  let alerts := co_alerts (correlate_all batches no_incidents) in
  NoDup (al_correlation_id <$> alerts)
  /\ forall a, a ∈ alerts ->
     alert_warranted policy (al_anomaly_score a) (al_severity a) (al_reason_codes a) = true.
Proof.
  intros Hd. destruct (correlate_all_keeps batches no_incidents) as [_ Hk].
  destruct (Hk Hd) as [_ _ H3 _ H5]; [|done]. split; [by intros r ?%elem_of_nil|constructor|constructor|..]; by intros a ?%elem_of_nil.
Qed.
End Facts.

(** The alerts of the correlation carry no behaviour: the normaliser passes them over, so
    what the telemetry says of itself never feeds it. *)
Lemma alerts_are_not_telemetry `{TelemetryEnv} salt host monotonic payload :
  dget "event_type" payload = Some (VStr "behavioral_anomaly") -> normalize salt host monotonic payload = Ok None.
Proof. intros Ht. unfold normalize, vget, dget_default. rewrite Ht. done. Qed.

(** ** Runs in a concrete surrounding *)

Definition demo_anomaly (id timestamp dimension severity : string) (score : Z) (codes : list string) : BehavioralAnomaly := {|
  ba_anomaly_id := id; ba_timestamp := timestamp; ba_host_ref := "host-1"; ba_user_ref := "user-1"; ba_dimension := dimension;
  ba_anomaly_score := score; ba_security_severity := severity; ba_detection_confidence := flit 9 10;
  ba_baseline_value := None; ba_observed_value := None; ba_normal_low := None; ba_normal_high := None;
  ba_reason_codes := codes; ba_reasons := []; ba_related_entities := [("process", "process-1")]; ba_evidence_refs := [id];
  ba_sensor_coverage := []; ba_baseline_version := 1; ba_active_behavior_policy := "Balanced";
  ba_baseline_training_eligible := false; ba_incident_id := ""; ba_disposition := "NEW"; ba_explanation := ""; ba_created_at := "" |}.

Definition grave_anomaly (id : string) : BehavioralAnomaly :=
  demo_anomaly id noon "PROCESS_ACTIVITY" "high" 85 ["A"; "B"; "C"].

Lemma distinct_ids_check `{TelemetryEnv} n : NoDup (incident_id_at <$> seq 0 n) -> distinct_ids n.
Proof.
  intros Hnd i j Hij Hj Heq. apply (NoDup_lookup _ i j (incident_id_at i)) in Hnd; [lia|..];
    rewrite list_lookup_fmap, lookup_seq_lt by lia; cbn; [done|by rewrite Heq].
Qed.

Section Runs.
#[local] Instance steady_env : TelemetryEnv := demo_telemetry always always.

Definition twice : list (list BehavioralAnomaly) := [[grave_anomaly "a1"]; [grave_anomaly "a2"]].

Lemma one_warranted_alert_per_incident_witness :
  al_correlation_id <$> co_alerts (correlate_all balanced_policy twice no_incidents) = ["BINC-20250615-1"]
  /\ NoDup (al_correlation_id <$> co_alerts (correlate_all balanced_policy twice no_incidents)).
Proof.
  split; [by vm_compute|].
  assert (Hd : distinct_ids (ticks (co_conn (correlate_all balanced_policy twice no_incidents)))).
  { apply distinct_ids_check. apply (bool_decide_unpack _). by vm_compute. }
  assert (Hs : forall n, stmt_ok n = true) by done.
  exact (proj1 (one_warranted_alert_per_incident balanced_policy Hs twice Hd)).
Defined.

(** Each correlation adds its bonus for diversity to a score that has the earlier ones in it:
    the same two modest anomalies, met again and again, raise an incident to a hundred. *)
Definition modest : list BehavioralAnomaly :=
  [demo_anomaly "a1" noon "PROCESS_ACTIVITY" "low" 60 ["A"]; demo_anomaly "a2" noon "NETWORK_ACTIVITY" "low" 60 ["B"]].

Example scores_ratchet :
  (fun n => bi_anomaly_score <$> tt_incidents (working (co_conn (correlate_all balanced_policy (repeat modest n) no_incidents))))
    <$> [1; 2; 8]%nat = [[65]; [70]; [100]].
Proof. by vm_compute. Qed.
End Runs.

(** A statement that fails after the alert was recorded leaves no mark of it: the next
    correlation announces the incident again, under the same identifier. *)
Section Forgotten.
#[local] Instance forgetful_env (n : nat) : TelemetryEnv := demo_telemetry (fun k => negb (Nat.eqb k n)) always.

Definition forgotten (n : nat) : list string :=
  al_event_id <$> co_alerts (correlate_all (H := forgetful_env n) balanced_policy twice no_incidents).

Example announced_again : forgotten 11 = ["behavioral-alert-binc-20250615-1"; "behavioral-alert-binc-20250615-1"].
Proof. by vm_compute. Qed.
End Forgotten.
