(* ===== verification/TelemetryManager.v ===== *)
(** The manager of the behavioural telemetry and its threads: [telemetry/manager.py].

    A call is a program: a sequence of sections, each of which runs on the shared manager
    without interruption. Threads run their programs one section at a time, in any order. A
    section is one access to the metrics, to the queue or to the policy, one operation of
    an engine on the repository, or one assignment of a new policy to all parts. *)

From S2P Require Import Prelude PyStr PyFloat PyDict PyJson PyTime Sql PyRepr.
From S2P Require Import TelemetryModels TelemetryNormalizer TelemetryStore TelemetryAggregator TelemetryBaseline.
From S2P Require Import TelemetryAnomaly TelemetryCorrelation.

(** ** Programs of threads *)

(** A program on a shared state [S]: a result, or a section and what follows its result. *)
Inductive prog (S A : Type) : Type :=
| Done (r : res A)
| Step {B : Type} (m : M S B) (k : res B -> prog S A).
Arguments Done {S A} r.
Arguments Step {S A B} m k.

Fixpoint prog_then {S A B} (p : prog S A) (f : A -> prog S B) : prog S B :=
  match p with
  | Done (Ok a) => f a
  | Done (Raise e) => Done (Raise e)
  | Step m k => Step m (fun r => prog_then (k r) f)
  end.

#[export] Instance prog_ret {S} : MRet (prog S) := fun A a => Done (Ok a).
#[export] Instance prog_bind {S} : MBind (prog S) := fun A B f p => prog_then p f.

Definition section {S A} (m : M S A) : prog S A := Step m Done.
Definition lift {S A} (r : res A) : prog S A := Done r.
Definition throw {S A} (e : exn) : prog S A := Done (Raise e).

(** [try: p except Exception as e: h e] *)
Fixpoint catching {S A} (p : prog S A) (h : exn -> prog S A) : prog S A :=
  match p with
  | Done (Ok a) => Done (Ok a)
  | Done (Raise e) => h e
  | Step m k => Step m (fun r => catching (k r) h)
  end.

(** A program that no other thread disturbs *)
Fixpoint run {S A} (p : prog S A) : M S A := fun s =>
  match p with
  | Done r => (r, s)
  | Step m k => let (r, s') := m s in run (k r) s'
  end.

(** ** The manager *)

(** [mg_profile] is the profile the core database remembers. The policy is one, which the
    manager hands to its parts. *)
Record Manager := {
  mg_correlation : Correlation;
  mg_policy : BehavioralTelemetryPolicy;
  mg_capacity : Z;
  mg_queue : list NormalizedTelemetryEvent;
  mg_stop : bool;
  mg_worker : bool;
  mg_metrics : pydict;
  mg_profile : string
}.

Definition with_correlation (x : Correlation) (s : Manager) : Manager := {|
  mg_correlation := x; mg_policy := mg_policy s; mg_capacity := mg_capacity s; mg_queue := mg_queue s;
  mg_stop := mg_stop s; mg_worker := mg_worker s; mg_metrics := mg_metrics s;
  mg_profile := mg_profile s |}.
Definition with_queue (queue : list NormalizedTelemetryEvent) (s : Manager) : Manager := {|
  mg_correlation := mg_correlation s; mg_policy := mg_policy s; mg_capacity := mg_capacity s; mg_queue := queue;
  mg_stop := mg_stop s; mg_worker := mg_worker s; mg_metrics := mg_metrics s;
  mg_profile := mg_profile s |}.
Definition with_thread (stop worker : bool) (s : Manager) : Manager := {|
  mg_correlation := mg_correlation s; mg_policy := mg_policy s; mg_capacity := mg_capacity s; mg_queue := mg_queue s;
  mg_stop := stop; mg_worker := worker; mg_metrics := mg_metrics s;
  mg_profile := mg_profile s |}.
Definition with_metrics (x : pydict) (s : Manager) : Manager := {|
  mg_correlation := mg_correlation s; mg_policy := mg_policy s; mg_capacity := mg_capacity s; mg_queue := mg_queue s;
  mg_stop := mg_stop s; mg_worker := mg_worker s; mg_metrics := x;
  mg_profile := mg_profile s |}.
Definition with_role (policy : BehavioralTelemetryPolicy) (s : Manager) : Manager := {|
  mg_correlation := mg_correlation s; mg_policy := policy; mg_capacity := mg_capacity s; mg_queue := mg_queue s;
  mg_stop := mg_stop s; mg_worker := mg_worker s; mg_metrics := mg_metrics s;
  mg_profile := mg_profile s |}.
Definition with_profile (name : string) (s : Manager) : Manager := {|
  mg_correlation := mg_correlation s; mg_policy := mg_policy s; mg_capacity := mg_capacity s; mg_queue := mg_queue s;
  mg_stop := mg_stop s; mg_worker := mg_worker s; mg_metrics := mg_metrics s;
  mg_profile := name |}.

(** ** Metrics *)

Definition metric (name : string) (d : pydict) : Z :=
  match dget name d with Some (VInt n) => n | _ => 0 end.

Definition increment (name : string) (amount : Z) (d : pydict) : pydict := dset name (VInt (metric name d + amount)) d.

Definition initial_metrics (last_baseline_update : pyval) : pydict := [
  ("events_received", VInt 0); ("events_aggregated", VInt 0); ("analysis_count", VInt 0); ("anomaly_count", VInt 0);
  ("dropped_telemetry", VInt 0); ("error_count", VInt 0); ("queue_peak", VInt 0);
  ("aggregation_latency_ms", VFloat fzero); ("analysis_latency_ms", VFloat fzero); ("last_raw_event", VStr "");
  ("last_bucket_completed", VStr ""); ("last_baseline_update", last_baseline_update); ("last_analysis", VStr "");
  ("state", VStr "LEARNING")].

Definition degraded (d : pydict) : bool := truthy_val (vget "dropped_telemetry" d).

(** [health], from the metrics as they were copied under their lock *)
Definition health_of (metrics : pydict) (s : Manager) : pydict :=
  foldl (fun d kv => dset kv.1 kv.2 d) metrics [
    ("queue_depth", VInt (zlen (mg_queue s))); ("queue_capacity", VInt (tp_queue_capacity (mg_policy s)));
    ("queue_latency", VNone); ("analysis_availability", VStr (if degraded metrics then "DEGRADED" else "AVAILABLE"));
    ("policy_profile", VStr (tp_profile (mg_policy s))); ("worker_alive", VBool (mg_worker s));
    ("workstation_profile_description", VStr (wp_description (workstation_profile (tp_profile (mg_policy s)))))].

Definition health (s : Manager) : pydict := health_of (mg_metrics s) s.

Abbreviation Managing A := (prog Manager A).

Definition this : Managing Manager := section get_st.
Definition glance {A} (f : Manager -> A) : Managing A := section (gets f).

Definition on_correlation {A} (m : M Correlation A) : M Manager A := fun s =>
  let (r, x) := m (mg_correlation s) in (r, with_correlation x s).

Definition in_correlation {A} (m : M Correlation A) : Managing A := section (on_correlation m).

Definition repo {A} (m : M (Conn TelemetryTables) A) : Managing A := in_correlation (in_repository m).

Definition measure (f : pydict -> pydict) : Managing unit := section (modify_st (fun s => with_metrics (f (mg_metrics s)) s)).
Definition set_metric (name : string) (v : pyval) : Managing unit := measure (dset name v).

(** [_increment], under the lock of the metrics *)
Definition bump (name : string) (amount : Z) : Managing unit := measure (increment name amount).

(** [except (TypeError, ValueError)] *)
Definition malformed (e : exn) : bool :=
  match e with TypeError _ | ValueError _ | EventValidationError _ => true | _ => false end.

(** [monotonic] is [time.monotonic()], [elapsed] a difference of two of its readings in
    milliseconds, rounded. *)
Section Manager.
Context `{TelemetryEnv} (host_salt host_ref : string) (monotonic elapsed : nat -> float).

Definition now_ticks (s : Manager) : nat := ticks (co_conn (mg_correlation s)).

Definition normalize_now (payload : pydict) : Managing (res (option NormalizedTelemetryEvent)) :=
  glance (fun s => normalize host_salt host_ref (monotonic (now_ticks s)) payload).

Definition time_spent : Managing float := glance (fun s => elapsed (now_ticks s)).

(** ** The queue *)

Definition received (e : NormalizedTelemetryEvent) : Managing unit :=
  bump "events_received" 1;; set_metric "last_raw_event" (VStr (te_timestamp e)).

(** [put_nowait]: whether there was room *)
Definition put_nowait (e : NormalizedTelemetryEvent) : Managing bool := section (fun s =>
  if zlen (mg_queue s) <? mg_capacity s then (Ok true, with_queue (mg_queue s ++ [e]) s) else (Ok false, s)).

(** [get_nowait], nothing of an empty queue *)
Definition get_nowait : Managing (option NormalizedTelemetryEvent) := section (fun s =>
  match mg_queue s with
  | [] => (Ok None, s)
  | e :: rest => (Ok (Some e), with_queue rest s)
  end).

(** What follows [queue.Full]. *)
Definition overflow : Managing bool :=
  bump "dropped_telemetry" 1;;
  set_metric "state" (VStr "DEGRADED");;
  at_ ← repo utc_now;
  policy ← glance mg_policy;
  repo (set_runtime_state "queue_overflow"
    (VDict [("at", VStr at_); ("capacity", VInt (tp_queue_capacity policy))]));;
  repo commit;;
  mret false.

Definition enqueue (e : NormalizedTelemetryEvent) : Managing bool :=
  room ← put_nowait e;
  if (room : bool) then
    section (modify_st (fun s =>
      with_metrics (dset "queue_peak" (VInt (Z.max (metric "queue_peak" (mg_metrics s)) (zlen (mg_queue s)))) (mg_metrics s)) s));;
    mret true
  else overflow.

Definition submit_background_event (payload : pydict) : Managing bool :=
  policy ← glance mg_policy;
  if negb (tp_enabled policy) then mret false
  else
    normalized ← normalize_now payload;
    match normalized with
    | Raise e => if malformed e then bump "error_count" 1;; mret false else throw e
    | Ok None => mret false
    | Ok (Some e) => received e;; enqueue e
    end.

(** ** First sightings *)

(** The entities of an event that neither the batch nor the database knows. *)
Fixpoint new_entities (seen : list (string * string)) (entities : list (string * string))
    : Managing (list (string * string)) :=
  match entities with
  | [] => mret []
  | kv :: rest =>
      if bool_decide (kv ∈ seen) then new_entities seen rest
      else
        known ← repo (entity_seen kv.1 kv.2);
        others ← new_entities seen rest;
        mret (if known : bool then others else kv :: others)
  end.

Definition marks_first_seen (entities : list (string * string)) : bool :=
  existsb (fun kv => one_of kv.1 ["process"; "path"; "signing_identifier"; "team_identifier"]) entities.

Definition first_sighting (fresh : list (string * string)) (e : NormalizedTelemetryEvent) : res NormalizedTelemetryEvent :=
  if marks_first_seen fresh then
    let count := dget_default fzero "first_seen_process_count" (te_features e) in
    retold (if String.eqb (dimension_value (te_dimension e)) "PROCESS_ACTIVITY"
            then dset "first_seen_process_count" (fmax fone count) (te_features e) else te_features e)
      (dset "first_seen" (VBool true) (te_security_context e)) (te_baseline_training_eligible e) e
  else retold (te_features e) (te_security_context e) (te_baseline_training_eligible e) e.

(** [_enrich_first_seen] *)
Fixpoint enrich_first_seen (seen : list (string * string)) (batch : list NormalizedTelemetryEvent)
    : Managing (list NormalizedTelemetryEvent) :=
  match batch with
  | [] => mret []
  | e :: rest =>
      fresh ← new_entities seen (te_entity_keys e);
      e' ← (match fresh with [] => mret e | _ => lift (first_sighting fresh e) end);
      others ← enrich_first_seen (seen ++ te_entity_keys e) rest;
      mret (e' :: others)
  end.

(** ** Baselines *)

(** [_maybe_rebuild_baseline] *)
Definition maybe_rebuild_baseline : Managing unit :=
  stored ← repo (state "last_baseline_update");
  let last := text_or (default (VStr "") stored) "" in
  policy ← glance mg_policy;
  eligible ← repo (list_buckets "" "" None (Some true) (tp_minimum_baseline_samples policy + 1));
  due ← (if negb (truthy last) then mret true
         else
           now ← repo utc_instant;
           at_ ← lift (parse_time_utc last);
           policy ← glance mg_policy;
           mret (seconds (tp_baseline_update_interval_seconds policy) <=? now - at_));
  policy ← glance mg_policy;
  if (due : bool) && (tp_minimum_baseline_samples policy <=? zlen eligible) then
    result ← repo (rebuild policy "scheduled robust baseline rebuild" "behavioral_telemetry");
    at_ ← repo utc_now;
    set_metric "last_baseline_update" (VStr at_);;
    set_metric "state" (VStr (if result.2 =? 0 then "LEARNING" else "OPERATIONAL"))
  else mret tt.

Definition rebuild_baseline (actor reason : string) : Managing (Z * Z) :=
  policy ← glance mg_policy; repo (rebuild policy reason actor).

(** ** A batch *)

Definition serious (policy : BehavioralTelemetryPolicy) (anomalies : list BehavioralAnomaly) : list BehavioralAnomaly :=
  filter (fun a => (tp_investigation_threshold policy <=? ba_anomaly_score a) = true) anomalies.

(** The bucket of the whole host beside the one of a user. *)
Definition companion_of (b c : TelemetryBucket) : bool :=
  String.eqb (tb_user_ref c) "" && String.eqb (tb_host_ref c) (tb_host_ref b)
  && String.eqb (tb_bucket_start c) (tb_bucket_start b) && String.eqb (tb_context_cohort c) (tb_context_cohort b).

Definition exclude_from_training (b : TelemetryBucket) : M (Conn TelemetryTables) unit :=
  set_bucket_training_eligible b false;; mret tt.

(** One operation on the repository after another. *)
Fixpoint each_section {A} (f : A -> M (Conn TelemetryTables) unit) (l : list A) : Managing unit :=
  match l with
  | [] => mret tt
  | x :: l' => repo (f x);; each_section f l'
  end.

(** The analysis of one bucket, and what is done about its anomalies. *)
Definition analyzed (buckets : list TelemetryBucket) (b : TelemetryBucket) : Managing (list BehavioralAnomaly) :=
  policy ← glance mg_policy;
  anomalies ← repo (analyze_bucket policy b);
  each_section save_anomaly anomalies;;
  repo commit;;
  policy ← glance mg_policy;
  (match serious policy anomalies with
   | [] => mret tt
   | grave =>
       repo (exclude_from_training b);;
       each_section exclude_from_training (filter (fun c => companion_of b c = true) buckets);;
       repo commit;;
       policy ← glance mg_policy;
       in_correlation (correlate policy grave);;
       mret tt
   end);;
  repo (mark_bucket_analyzed b (ba_anomaly_id <$> anomalies));;
  bump "analysis_count" 1;;
  bump "anomaly_count" (zlen anomalies);;
  set_metric "last_bucket_completed" (VStr (tb_bucket_end b));;
  mret anomalies.

(** Whether a bucket is analysed now: it is a user's, has changed, and its time is over. *)
Definition ready (force_analysis : bool) (now : Z) (b : TelemetryBucket) : Managing bool :=
  if negb (truthy (tb_user_ref b)) then mret false
  else
    needed ← repo (bucket_needs_analysis b);
    if negb (needed : bool) then mret false
    else
      finish ← lift (parse_time_utc (tb_bucket_end b));
      mret (force_analysis || (finish <=? now)).

Fixpoint analyze_buckets (force_analysis : bool) (now : Z) (buckets rest : list TelemetryBucket)
    : Managing (list BehavioralAnomaly) :=
  match rest with
  | [] => mret []
  | b :: rest' =>
      r ← ready force_analysis now b;
      found ← (if r : bool then analyzed buckets b else mret []);
      others ← analyze_buckets force_analysis now buckets rest';
      mret (found ++ others)
  end.

Fixpoint in_role (profile : string) (batch : list NormalizedTelemetryEvent) : res (list NormalizedTelemetryEvent) :=
  match batch with
  | [] => Ok []
  | e :: rest => e' ← apply_workstation_profile profile e; rest' ← in_role profile rest; Ok (e' :: rest')
  end.

(** [_process_batch] up to the analysis: the buckets, and whether there was a baseline. *)
Definition ingest (batch : list NormalizedTelemetryEvent) : Managing (list TelemetryBucket * bool) :=
  policy ← glance mg_policy;
  batch ← lift (in_role (tp_profile policy) batch);
  batch ← enrich_first_seen [] batch;
  policy ← glance mg_policy;
  buckets ← repo (aggregate policy batch);
  spent ← time_spent;
  bump "events_aggregated" (zlen batch);;
  set_metric "aggregation_latency_ms" (VFloat spent);;
  version ← repo latest_baseline_version;
  mret (buckets, 0 <? version).

(** The end of a batch: what is reported of it. The state is written after the drops were
    read, and the health is stored after it was put together. *)
Definition report : Managing unit :=
  spent ← time_spent;
  set_metric "analysis_latency_ms" (VFloat spent);;
  at_ ← repo utc_now;
  set_metric "last_analysis" (VStr at_);;
  dropped ← glance (fun s => degraded (mg_metrics s));
  set_metric "state" (VStr (if dropped : bool then "DEGRADED" else "OPERATIONAL"));;
  metrics ← glance mg_metrics;
  s ← this;
  repo (set_runtime_state "health_metrics" (VDict (health_of metrics s)));;
  repo commit.

(** [_process_batch] *)
Definition process_batch (force_analysis : bool) (batch : list NormalizedTelemetryEvent) : Managing (list BehavioralAnomaly) :=
  ingested ← ingest batch;
  let (buckets, had_baseline) := ingested : list TelemetryBucket * bool in
  (if had_baseline then mret tt else maybe_rebuild_baseline);;
  now ← repo utc_instant;
  created ← analyze_buckets force_analysis now buckets buckets;
  (if had_baseline then maybe_rebuild_baseline else mret tt);;
  report;;
  mret created.

(** ** Who takes batches *)

(** No shipped policy has larger batches (see [shipped_batches]). *)
Definition MAX_BATCH : nat := 1000.

(** [while len(batch) < self.policy.batch_size]: a batch grows until it is full or the queue
    is empty. *)
Fixpoint take_more (fuel : nat) (batch : list NormalizedTelemetryEvent) : Managing (list NormalizedTelemetryEvent) :=
  match fuel with
  | O => mret batch
  | S fuel' =>
      policy ← glance mg_policy;
      if zlen batch <? tp_batch_size policy then
        next ← get_nowait;
        match next with
        | None => mret batch
        | Some e => take_more fuel' (batch ++ [e])
        end
      else mret batch
  end.

Definition flush : Managing unit :=
  batch ← take_more MAX_BATCH [];
  match batch with
  | [] => mret tt
  | _ => process_batch false batch;; mret tt
  end.

(** A turn of the loop of [_run]: a failure of the batch is counted and swallowed. *)
Definition worker_turn : Managing unit :=
  stopped ← glance mg_stop;
  if (stopped : bool) then mret tt
  else
    first ← get_nowait;
    match first with
    | None => mret tt
    | Some e =>
        batch ← take_more MAX_BATCH [e];
        catching (process_batch false batch;; mret tt)
          (fun _ => bump "error_count" 1;; set_metric "state" (VStr "DEGRADED"))
    end.

Definition process_event_sync (payload : pydict) (force_analysis : bool) : Managing (list BehavioralAnomaly) :=
  normalized ← normalize_now payload;
  match normalized with
  | Raise e => throw e
  | Ok None => mret []
  | Ok (Some e) => received e;; process_batch force_analysis [e]
  end.

Fixpoint receive_all (payloads : list pydict) : Managing (list NormalizedTelemetryEvent) :=
  match payloads with
  | [] => mret []
  | payload :: rest =>
      normalized ← normalize_now payload;
      match normalized with
      | Raise e => if malformed e then bump "error_count" 1;; receive_all rest else throw e
      | Ok None => receive_all rest
      | Ok (Some e) => received e;; others ← receive_all rest; mret (e :: others)
      end
  end.

Definition process_events_sync (payloads : list pydict) (force_analysis : bool) : Managing (list BehavioralAnomaly) :=
  events ← receive_all payloads;
  match events with
  | [] => mret []
  | _ => process_batch force_analysis events
  end.

(** ** Control *)

Definition start : Managing unit :=
  alive ← glance mg_worker;
  if (alive : bool) then mret tt
  else
    section (modify_st (fun s => with_thread false (mg_worker s) s));;
    section (modify_st (fun s => with_thread (mg_stop s) true s)).

(** [stop]: the thread finishes the batch it has, if it has one. *)
Definition stop : Managing unit :=
  section (modify_st (fun s => with_thread true (mg_worker s) s));;
  section (modify_st (fun s => with_thread (mg_stop s) false s)).

(** [self.db.set_background_monitor_state] *)
Definition remember_profile (name : string) : Managing unit := section (fun s =>
  let (r, c) := (fun w : Conn TelemetryTables =>
    (if publish_ok (ticks w) then Ok tt else Raise (OperationalError "the profile could not be recorded"), tick w))
    (co_conn (mg_correlation s)) in
  let s' := with_correlation {| co_conn := c; co_alerts := co_alerts (mg_correlation s) |} s in
  (r, if is_ok r then with_profile name s' else s')).

Definition set_workstation_profile (name actor : string) : Managing string :=
  let selected := wp_name (workstation_profile name) in
  policy ← glance mg_policy;
  let previous := tp_profile policy in
  if String.eqb selected previous then mret selected
  else
    section (modify_st (with_role (policy_for_profile selected)));;
    remember_profile selected;;
    repo (set_runtime_state "active_workstation_profile" (VStr selected));;
    repo (audit_trail actor "workstation_profile_change" "behavioral_telemetry_policy" "active_workstation_profile"
      [("profile", VStr previous)] [("profile", VStr selected)] "Operator changed the declared workstation role.");;
    repo commit;;
    mret selected.

(** ** Reports *)

Definition doctor : Managing pydict :=
  version ← repo latest_baseline_version;
  buckets ← repo (list_buckets "" "" None None 1);
  glance (fun s =>
    let observed := match buckets with [] => false | _ => true end in [
    ("status", VStr (if degraded (mg_metrics s) then "DEGRADED" else "PASS"));
    ("checks", VDict [
      ("event_ingestion", VBool (truthy_val (vget "last_raw_event" (mg_metrics s)))); ("aggregation", VBool observed);
      ("database", VBool true); ("baseline_status", VStr (if version =? 0 then "LEARNING" else "AVAILABLE"));
      ("queue_health", VBool (zlen (mg_queue s) <? tp_queue_capacity (mg_policy s)));
      ("last_analysis", vget "last_analysis" (mg_metrics s));
      ("sensor_coverage", VStr (if observed then "OBSERVED" else "PARTIAL"))]);
    ("metrics", VDict (health s))]).

Record Summary := {
  sm_window_hours : Z;
  sm_state : string;
  sm_baseline_version : Z;
  sm_dimensions : list (string * float);
  sm_coverage : list (string * string);
  sm_anomalies : list BehavioralAnomaly;
  sm_high_risk : Z;
  sm_health : pydict
}.

(** Totals of the dimensions over the buckets of hosts. *)
Definition add_dimension (d : list (string * float)) (kv : string * option float) : list (string * float) :=
  dset kv.1 (fadd (dget_default fzero kv.1 d) (default fzero kv.2)) d.

Definition summary (hours : Z) : Managing Summary :=
  now ← repo utc_instant;
  since ← lift (shifted now (- seconds (3600 * Z.max 1 (Z.min hours (24 * 365)))));
  buckets ← repo (list_buckets since "" None None 20000);
  anomalies ← repo (list_anomalies since "" 1000);
  version ← repo latest_baseline_version;
  let hosts := filter (fun b => truthy (tb_user_ref b) = false) buckets in
  glance (fun s => {|
    sm_window_hours := hours;
    sm_state := if existsb (fun a => 80 <=? ba_anomaly_score a) anomalies then "HIGH_DEVIATION"
                else match anomalies, buckets with _ :: _, _ => "UNUSUAL" | [], _ :: _ => "NORMAL" | [], [] => "LEARNING" end;
    sm_baseline_version := version;
    sm_dimensions := foldl (fun d b => foldl add_dimension d (tb_dimension_values b)) [] hosts;
    sm_coverage := foldl (fun d b => foldl (fun d kv => dset kv.1 kv.2 d) d (tb_coverage b)) [] hosts;
    sm_anomalies := anomalies;
    sm_high_risk := zcount (fun a => one_of (ba_security_severity a) ["high"; "critical"]) anomalies;
    sm_health := health s |}).
(** ** Threads *)

(** What the threads of the monitor call, and the turns of the worker. *)
Inductive call :=
| Submit (payload : pydict)
| ProcessEvent (payload : pydict) (force_analysis : bool)
| ProcessEvents (payloads : list pydict) (force_analysis : bool)
| Flush
| WorkerTurn
| Start
| Stop
| Rebuild (actor reason : string)
| SetProfile (name actor : string).

Definition body (c : call) : Managing unit :=
  match c with
  | Submit payload => submit_background_event payload;; mret tt
  | ProcessEvent payload force => process_event_sync payload force;; mret tt
  | ProcessEvents payloads force => process_events_sync payloads force;; mret tt
  | Flush => flush
  | WorkerTurn => worker_turn
  | Start => start
  | Stop => stop
  | Rebuild actor reason => rebuild_baseline actor reason;; mret tt
  | SetProfile name actor => set_workstation_profile name actor;; mret tt
  end.

(** The manager with what is left of the calls made so far. *)
Record Pool := { pl_manager : Manager; pl_threads : list (Managing unit) }.

Definition pool_of (s : Manager) : Pool := {| pl_manager := s; pl_threads := [] |}.

(** A thread makes a call, or runs the next section of the one it is in. *)
Inductive pool_step (pl : Pool) : Pool -> Prop :=
| pool_call c : pool_step pl {| pl_manager := pl_manager pl; pl_threads := pl_threads pl ++ [body c] |}
| pool_section i B (m : M Manager B) k r s' :
    pl_threads pl !! i = Some (Step m k) -> m (pl_manager pl) = (r, s') ->
    pool_step pl {| pl_manager := s'; pl_threads := <[i := k r]> (pl_threads pl) |}.
End Manager.

(** A new manager of a database: of the profile the core database remembers, if it reads. *)
Definition new_manager (enabled_autostart : bool) (profile : option string) (last_baseline_update : pyval)
    (w : Conn TelemetryTables) : Manager :=
  let policy := policy_for_profile (default "Balanced" profile) in {|
  mg_correlation := {| co_conn := w; co_alerts := [] |}; mg_policy := policy; mg_capacity := tp_queue_capacity policy;
  mg_queue := []; mg_stop := false; mg_worker := enabled_autostart && tp_enabled policy;
  mg_metrics := initial_metrics last_baseline_update; mg_profile := default "Balanced" profile |}.
