(* ===== verification/TelemetryManagerFacts.v ===== *)
(** The threads of the manager: a logic of programs whose sections interleave, and the books
    of the queue, by which every event received is accounted for. *)

From S2P Require Import Prelude PyStr PyFloat PyDict PyJson PyTime Sql PyRepr.
From S2P Require Import TelemetryModels TelemetryNormalizer TelemetryStore TelemetryAggregator TelemetryBaseline.
From S2P Require Import TelemetryAnomaly TelemetryCorrelation TelemetryManager TelemetryAggregatorFacts.

(** ** Predicates on tables *)

(** A predicate that no write but those of buckets and of baselines can change. *)
Record ignores (P : TelemetryTables -> Prop) : Prop := {
  ig_links : forall x t, P t -> P (set_links x t);
  ig_analysis : forall x t, P t -> P (set_analysis x t);
  ig_versions : forall x t, P t -> P (set_versions x t);
  ig_anomalies : forall x t, P t -> P (set_anomalies x t);
  ig_incidents : forall x t, P t -> P (set_incidents x t);
  ig_snapshots : forall x t, P t -> P (set_snapshots x t);
  ig_profiles : forall x t, P t -> P (set_profiles x t);
  ig_trail : forall x t, P t -> P (set_trail x t);
  ig_state : forall x t, P t -> P (set_state x t)
}.

Lemma ignores_buckets (Q : list TelemetryBucket -> Prop) : ignores (fun t => Q (tt_buckets t)).
Proof. by split. Qed.
Lemma ignores_baselines (Q : list FeatureBaseline -> Prop) : ignores (fun t => Q (tt_baselines t)).
Proof. by split. Qed.

(** A computation that keeps a predicate on the working tables, returning or not. *)
Abbreviation holds P := (tables_st (fun _ => P)).

Ltac keep_step :=
  first [ apply preserves_bind; [|intros ?] | apply preserves_ret | apply preserves_lift | apply preserves_read
        | apply preserves_now | apply preserves_instant | apply preserves_commit_working
        | apply preserves_write; intros ? ? ? | by intros ? ? | case_match ].
Ltac keep := repeat keep_step.

Section Tables.
Context `{TelemetryEnv} (P : TelemetryTables -> Prop) (HP : ignores P).

Lemma keeps_for_each {A} (f : A -> M (Conn TelemetryTables) unit) l :
  (forall x, preserves (holds P) (f x)) -> preserves (holds P) (for_each f l).
Proof. intros Hf. induction l as [|x l IH]; cbn [for_each]; keep; auto. Qed.

Lemma keeps_tick {A} (f : Conn TelemetryTables -> A) : preserves (holds P) (fun w => (Ok (f w), tick w)).
Proof. by intros w Hw. Qed.

Lemma keeps_analyze policy b : preserves (holds P) (analyze_bucket policy b).
Proof.
  unfold analyze_bucket, baselines_for, latest_baseline_version. keep.
  match goal with |- preserves _ (anomalies_of _ _ ?l) => induction l as [|[dimension scores] found IH] end; cbn [anomalies_of]; [keep|].
  case_match; [keep|]. apply preserves_bind; [|intros; by keep]. unfold anomaly_of, fresh_hex, latest_baseline_version. keep.
Qed.

Lemma keeps_save_anomaly a : preserves (holds P) (save_anomaly a).
Proof. unfold save_anomaly. keep. by apply HP. Qed.

Lemma keeps_mark b ids : preserves (holds P) (mark_bucket_analyzed b ids).
Proof. unfold mark_bucket_analyzed. keep. by apply HP. Qed.

Lemma keeps_set_state k v : preserves (holds P) (set_runtime_state k v).
Proof. unfold set_runtime_state, as_column. keep. by apply HP. Qed.

Lemma keeps_audit actor action ty id previous current reason : preserves (holds P) (audit_trail actor action ty id previous current reason).
Proof. unfold audit_trail, as_column. keep. by apply HP. Qed.

Lemma keeps_save_incident i : preserves (holds P) (save_incident i).
Proof. unfold save_incident. keep; by apply HP. Qed.

Lemma keeps_incident_of policy first anchor anomalies : preserves (holds P) (incident_of policy first anchor anomalies).
Proof.
  unfold incident_of, find_correlatable_incident, investigated, preserve_context, fresh_incident_id, fresh_hex. keep.
  all: try by apply HP.
Qed.

Lemma keeps_entity_profile timestamp ty ref : preserves (holds P) (update_entity_profile timestamp ty ref).
Proof. unfold update_entity_profile. keep; by apply HP. Qed.

Lemma keeps_link n e : preserves (holds P) (record_event_link n e).
Proof. unfold record_event_link, as_column. keep; [done|by apply HP]. Qed.

Lemma keeps_merge_events policy items b : preserves (holds P) (merge_events policy items b).
Proof.
  revert b. induction items as [|e items IH]; intros b; cbn [merge_events]; [keep|].
  apply preserves_bind; [apply keeps_link|intros _]. apply preserves_bind; [|intros _; apply IH].
  apply keeps_for_each. intros kv. apply keeps_entity_profile.
Qed.

(** Predicates that no write to the buckets changes either. *)
Lemma keeps_aggregate policy events : (forall x t, P t -> P (set_buckets x t)) -> preserves (holds P) (aggregate policy events).
Proof.
  intros Hb. unfold aggregate. apply preserves_bind; [keep|intros g]. apply preserves_bind; [|intros; keep].
  induction g as [|[k items] g IH]; cbn [aggregate_groups]; [keep|].
  apply preserves_bind; [|intros; keep; by apply IH]. unfold aggregate_group, get_bucket, upsert_bucket. keep.
  - apply keeps_merge_events.
  - by apply Hb.
Qed.

Lemma keeps_rebuild policy reason actor :
  (forall version now l, preserves (holds P) (save_baselines (build_baselines policy version now l))) ->
  preserves (holds P) (rebuild policy reason actor).
Proof.
  intros Hs. unfold rebuild, list_buckets, create_baseline_version. keep.
  - intros w Hw. unfold sql_update. destruct (stmt_ok _); [|done]. by apply (ig_versions P HP).
  - apply Hs.
  - by apply HP.
  - by apply HP.
  - by apply HP.
Qed.
End Tables.

(** ** Programs *)

(** Every section a program may come to, run in a state of [I], makes a step of [R]. *)
Fixpoint along {S A} (I : S -> Prop) (R : S -> S -> Prop) (p : prog S A) : Prop :=
  match p with
  | Done _ => True
  | Step m k => forall s, I s -> R s (m s).2 /\ along I R (k (m s).1)
  end.

(** Every section keeps [I]. *)
Abbreviation keeps I := (along I (fun _ => I)).

(** Every result satisfies [phi], whatever the sections answer. *)
Fixpoint yields {S A} (phi : A -> Prop) (p : prog S A) : Prop :=
  match p with
  | Done r => forall a, r = Ok a -> phi a
  | Step m k => forall r, yields phi (k r)
  end.

Section Programs.
Context {S : Type}.

Lemma run_then {A B} (p : prog S A) (f : A -> prog S B) s : run (p ≫= f) s = (run p ≫= (fun a => run (f a))) s.
Proof.
  revert s. induction p as [[a|e]|C m k IH]; intros s; [done..|]. cbn. unfold mbind, M_bind. cbn.
  destruct (m s) as [r s1]. apply IH.
Qed.

Lemma run_section {A} (m : M S A) s : run (section m) s = m s.
Proof. cbn. by destruct (m s). Qed.

Lemma run_ok {A B} (p : prog S A) (f : A -> prog S B) s b s' : run (p ≫= f) s = (Ok b, s') ->
  exists a s1, run p s = (Ok a, s1) /\ run (f a) s1 = (Ok b, s').
Proof. rewrite run_then. apply bind_ok. Qed.

Section Along.
Context (I : S -> Prop) (R : S -> S -> Prop).

Lemma along_ret {A} (a : A) : along I R (mret a : prog S A).
Proof. done. Qed.
Lemma along_lift {A} (r : res A) : along I R (lift (S := S) r).
Proof. done. Qed.
Lemma along_throw {A} e : along I R (throw (S := S) (A := A) e).
Proof. done. Qed.

Lemma along_section {A} (m : M S A) : (forall s, I s -> R s (m s).2) -> along I R (section m).
Proof. intros Hm s Hs. by split; [apply Hm|]. Qed.

Lemma along_then {A B} (p : prog S A) (f : A -> prog S B) : along I R p -> (forall a, along I R (f a)) -> along I R (p ≫= f).
Proof.
  intros Hp Hf. induction p as [[a|e]|C m k IH]; [apply Hf|done|]. intros s Hs. destruct (Hp s Hs) as [H1 H2].
  split; [exact H1|]. by apply IH.
Qed.

Lemma along_catching {A} (p : prog S A) h : along I R p -> (forall e, along I R (h e)) -> along I R (catching p h).
Proof.
  intros Hp Hh. induction p as [[a|e]|C m k IH]; [done|apply Hh|]. intros s Hs. destruct (Hp s Hs) as [H1 H2].
  split; [exact H1|]. by apply IH.
Qed.

(** What a section that only looks found goes on. *)
Lemma along_glance {A B} (f : S -> A) (k : A -> prog S B) : (forall s, I s -> R s s) ->
  (forall s, I s -> along I R (k (f s))) -> along I R (section (gets f) ≫= k).
Proof. intros Hr Hk s Hs. by split; [apply Hr|apply Hk]. Qed.
End Along.

Lemma keeps_section I {A} (m : M S A) : preserves I m -> keeps I (section m).
Proof. intros Hm. apply along_section. intros s Hs. specialize (Hm s Hs). by destruct (m s) as [[]]. Qed.

Lemma keeps_run I {A} (p : prog S A) : keeps I p -> preserves I (run p).
Proof.
  induction p as [r|C m k IH]; intros Hp s Hs; [by destruct r|]. cbn. destruct (Hp s Hs) as [H1 H2].
  destruct (m s) as [r s1]. by apply IH.
Qed.

Lemma kept I {A} (p : prog S A) s r s' : keeps I p -> I s -> run p s = (r, s') -> I s'.
Proof. intros Hp Hs Hr. pose proof (keeps_run I p Hp s Hs) as Hk. rewrite Hr in Hk. by destruct r. Qed.

Lemma yields_then {A B} (phi : A -> Prop) (psi : B -> Prop) (p : prog S A) (f : A -> prog S B) :
  yields phi p -> (forall a, phi a -> yields psi (f a)) -> yields psi (p ≫= f).
Proof. intros Hp Hf. induction p as [[a|e]|C m k IH]; [by apply Hf, Hp|done|]. intros r. by apply IH. Qed.

Lemma yields_any {A} (p : prog S A) : yields (fun _ => True) p.
Proof. induction p; cbn; auto. Qed.

Lemma yields_ret {A} (phi : A -> Prop) (a : A) : phi a -> yields phi (mret a : prog S A).
Proof. by intros Ha ? [= <-]. Qed.
End Programs.

(** ** Threads *)

Definition on_tables (P : TelemetryTables -> Prop) (s : Manager) : Prop := P (working (co_conn (mg_correlation s))).

Section Pools.
Context `{TelemetryEnv} (host_salt host_ref : string) (monotonic elapsed : nat -> float).

(** What every call keeps, every pool keeps. *)
Lemma pool_keeps I pl pl' : (forall c, keeps I (body host_salt host_ref monotonic elapsed c)) ->
  rtc (pool_step host_salt host_ref monotonic elapsed) pl pl' ->
  I (pl_manager pl) -> Forall (keeps I) (pl_threads pl) -> I (pl_manager pl') /\ Forall (keeps I) (pl_threads pl').
Proof.
  intros Hbody. induction 1 as [|pl pl1 pl2 Hstep _ IH]; [done|]. intros Hi Ht. apply IH; clear IH.
  - destruct Hstep as [c|i B m k r s' Hth Hm]; [done|]. rewrite Forall_lookup in Ht. destruct (Ht i _ Hth _ Hi) as [H1 _].
    by rewrite Hm in H1.
  - destruct Hstep as [c|i B m k r s' Hth Hm]; cbn; [by apply Forall_app; split; [|constructor]|].
    apply Forall_insert; [done|]. rewrite Forall_lookup in Ht. destruct (Ht i _ Hth _ Hi) as [_ H2]. by rewrite Hm in H2.
Qed.

(** A call may run undisturbed, from its beginning to its end. *)
Lemma undisturbed s threads c : exists r, rtc (pool_step host_salt host_ref monotonic elapsed)
  {| pl_manager := s; pl_threads := threads |}
  {| pl_manager := (run (body host_salt host_ref monotonic elapsed c) s).2; pl_threads := threads ++ [Done r] |}.
Proof.
  assert (forall (p : Managing unit) s, exists r, rtc (pool_step host_salt host_ref monotonic elapsed)
    {| pl_manager := s; pl_threads := threads ++ [p] |} {| pl_manager := (run p s).2; pl_threads := threads ++ [Done r] |}) as Hrun.
  { induction p as [r|B m k IH]; intros s0; [by exists r|]. cbn. destruct (m s0) as [r0 s1] eqn:Hm.
    destruct (IH r0 s1) as [r Hr]. exists r. eapply rtc_l; [|exact Hr].
    pose proof (pool_section host_salt host_ref monotonic elapsed {| pl_manager := s0; pl_threads := threads ++ [Step m k] |}
      (length threads) B m k r0 s1) as Hp. cbn in Hp. rewrite list_lookup_middle in Hp by done.
    rewrite insert_app_r_alt, Nat.sub_diag in Hp by done. by apply Hp. }
  destruct (Hrun (body host_salt host_ref monotonic elapsed c) s) as [r Hr]. exists r. eapply rtc_l; [|exact Hr]. by apply pool_call.
Qed.

Fixpoint undisturbed_calls (l : list call) (s : Manager) : Manager :=
  match l with
  | [] => s
  | c :: l' => undisturbed_calls l' (run (body host_salt host_ref monotonic elapsed c) s).2
  end.

Lemma calls_run l s threads : exists rs, length rs = length l /\
  rtc (pool_step host_salt host_ref monotonic elapsed) {| pl_manager := s; pl_threads := threads |}
    {| pl_manager := undisturbed_calls l s; pl_threads := threads ++ (Done <$> rs) |}.
Proof.
  revert s threads. induction l as [|c l IH]; intros s threads; [exists []; by rewrite app_nil_r|].
  destruct (undisturbed s threads c) as [r Hr]. destruct (IH (run (body host_salt host_ref monotonic elapsed c) s).2 (threads ++ [Done r])) as (rs & Hl & Hrs).
  exists (r :: rs). split; [cbn; by rewrite Hl|]. etransitivity; [exact Hr|]. cbn. by rewrite <- app_assoc in Hrs.
Qed.
End Pools.

(** ** Predicates on the tables *)

Section Correlating.
Context `{TelemetryEnv} (P : TelemetryTables -> Prop).

Lemma keeps_in_repository {A} (m : M (Conn TelemetryTables) A) :
  preserves (holds P) m -> preserves (fun s => P (working (co_conn s))) (in_repository m).
Proof. intros Hm s Hs. specialize (Hm (co_conn s) Hs). unfold in_repository. by destruct (m _) as [[] w]. Qed.

Lemma keeps_correlate policy anomalies : ignores P -> preserves (fun s => P (working (co_conn s))) (correlate policy anomalies).
Proof.
  intros HP. unfold correlate. destruct (sort_by _ anomalies) as [|first others]; [apply preserves_ret|].
  destruct (last _) as [anchor|]; [|apply preserves_ret].
  apply preserves_bind; [by apply keeps_in_repository, keeps_incident_of|intros i].
  apply preserves_bind; [by apply keeps_in_repository, keeps_save_incident|intros _].
  apply preserves_bind; [apply keeps_in_repository; keep|intros _]. destruct (_ && _); [|apply preserves_ret].
  apply preserves_bind; [|intros id]. { intros s Hs. unfold publish_alert. by destruct (publish_ok _). }
  apply preserves_bind; [by apply keeps_in_repository, keeps_save_incident|intros _].
  apply preserves_bind; [apply keeps_in_repository; keep|intros _]. apply preserves_ret.
Qed.

End Correlating.

(** ** The books of the queue *)

Definition counter (name : string) (s : Manager) : Z := metric name (mg_metrics s).

(** Events received that are neither dropped nor aggregated nor in the queue. *)
Definition missing (s : Manager) : Z :=
  counter "events_received" s - (counter "dropped_telemetry" s + counter "events_aggregated" s + zlen (mg_queue s)).

Abbreviation errors s := (counter "error_count" s).

Definition counted_names : list string := ["events_received"; "events_aggregated"; "dropped_telemetry"; "error_count"].

(** Drops are never taken back, and the queue keeps to its capacity. *)
Definition fair (s s' : Manager) : Prop :=
  counter "dropped_telemetry" s <= counter "dropped_telemetry" s' /\ mg_capacity s' = mg_capacity s
  /\ (zlen (mg_queue s) <= mg_capacity s -> zlen (mg_queue s') <= mg_capacity s').

(** Nothing the books hold changes. *)
Definition calm (s s' : Manager) : Prop := missing s' = missing s /\ errors s' = errors s /\ fair s s'.

Abbreviation placid := (along (fun _ => True) calm).

Lemma metric_dset name name' v d : metric name (dset name' v d) =
  if decide (name = name') then match v with VInt n => n | _ => 0 end else metric name d.
Proof.
  unfold metric. destruct (decide (name = name')) as [->|Hne]; [by rewrite dget_dset_eq|by rewrite dget_dset_ne].
Qed.

Lemma metric_increment name name' n d : metric name (increment name' n d) = metric name d + (if decide (name = name') then n else 0).
Proof. unfold increment. rewrite metric_dset. destruct (decide _) as [->|]; lia. Qed.

Lemma calm_refl s : calm s s.
Proof. done. Qed.

Lemma calm_metric name v s : name ∉ counted_names -> calm s (with_metrics (dset name v (mg_metrics s)) s).
Proof.
  intros Hn. unfold calm, fair, missing, counter. cbn [with_metrics mg_metrics mg_queue mg_capacity]. rewrite !metric_dset.
  by rewrite !decide_False by (intros <-; apply Hn, (bool_decide_unpack _); by vm_compute).
Qed.

Lemma placid_in_correlation {A} (m : M Correlation A) : placid (in_correlation m).
Proof. apply along_section. intros s _. unfold on_correlation. by destruct (m _). Qed.
Lemma placid_repo {A} (m : M (Conn TelemetryTables) A) : placid (repo m).
Proof. apply placid_in_correlation. Qed.
Lemma placid_glance {A} (f : Manager -> A) : placid (glance f).
Proof. apply along_section. intros s _. apply calm_refl. Qed.
Lemma placid_set name v : name ∉ counted_names -> placid (set_metric name v).
Proof. intros Hn. apply along_section. intros s _. by apply calm_metric. Qed.
Lemma placid_bump name n : name ∉ counted_names -> placid (bump name n).
Proof. intros Hn. apply along_section. intros s _. by apply calm_metric. Qed.
Lemma placid_this : placid this.
Proof. apply along_section. intros s _. apply calm_refl. Qed.

Ltac not_counted := apply (bool_decide_unpack _); vm_compute; exact Logic.I.
Ltac placid_step :=
  lazymatch goal with
  | |- along _ _ (mbind _ _) => apply along_then; [|intros ?]
  | |- along _ _ (mret _) => apply along_ret
  | |- along _ _ (lift _) => apply along_lift
  | |- along _ _ (throw _) => apply along_throw
  | |- along _ _ this => apply placid_this
  | |- along _ _ (glance _) => apply placid_glance
  | |- along _ _ (repo _) => apply placid_repo
  | |- along _ _ (in_correlation _) => apply placid_in_correlation
  | |- along _ _ (set_metric _ _) => apply placid_set; not_counted
  | |- along _ _ (bump _ _) => apply placid_bump; not_counted
  | |- along _ _ (if ?b then _ else _) => destruct b
  | |- along _ _ (match ?x with _ => _ end) => destruct x
  end.
Ltac placid := repeat placid_step.

Section Placid.
Context `{TelemetryEnv} (elapsed : nat -> float).

Lemma placid_maybe_rebuild : placid maybe_rebuild_baseline.
Proof. unfold maybe_rebuild_baseline. cbv zeta. placid. Qed.

Lemma placid_each {A} (f : A -> M (Conn TelemetryTables) unit) l : placid (each_section f l).
Proof. induction l as [|x l IH]; cbn [each_section]; placid. exact IH. Qed.

Lemma placid_analyze force now buckets rest : placid (analyze_buckets force now buckets rest).
Proof.
  induction rest as [|b rest IH]; cbn [analyze_buckets]; [placid|].
  apply along_then; [unfold ready; placid|intros r]. apply along_then; [|intros found; apply along_then; [exact IH|intros; placid]].
  destruct r; [|placid]. unfold analyzed. placid; apply placid_each.
Qed.

Lemma placid_entities seen entities : placid (new_entities seen entities).
Proof.
  induction entities as [|kv entities IH]; cbn [new_entities]; [placid|]. case_bool_decide; [exact IH|].
  apply along_then; [placid|intros known]. apply along_then; [exact IH|intros; placid].
Qed.

Lemma placid_enrich seen batch : placid (enrich_first_seen seen batch).
Proof.
  revert seen. induction batch as [|e batch IH]; intros seen; cbn [enrich_first_seen]; [placid|].
  apply along_then; [apply placid_entities|intros fresh]. apply along_then; [placid|intros e'].
  apply along_then; [apply IH|intros; placid].
Qed.

Lemma placid_report : placid (report elapsed).
Proof. unfold report, time_spent. placid. Qed.

Lemma in_role_length profile batch batch' : in_role profile batch = Ok batch' -> zlen batch' = zlen batch.
Proof.
  revert batch'. induction batch as [|e batch IH]; intros batch'; cbn [in_role]; [by intros [= <-]|].
  intros (e' & _ & (rest & Hr & [= <-])%res_bind_ok)%res_bind_ok. by rewrite !zlen_cons, (IH _ Hr).
Qed.

Lemma enrich_length seen batch : yields (fun batch' => zlen batch' = zlen batch) (enrich_first_seen seen batch).
Proof.
  revert seen. induction batch as [|e batch IH]; intros seen; cbn [enrich_first_seen]; [by apply yields_ret|].
  eapply yields_then; [apply yields_any|intros fresh _]. eapply yields_then; [apply yields_any|intros e' _].
  eapply yields_then; [apply IH|intros rest Hr]. apply yields_ret. by rewrite !zlen_cons, Hr.
Qed.
End Placid.

(** ** Debts *)

(** A program in a thread that answers for [n] events and counted [e] errors: it answers for
    what its sections take from the books and give back. In the end [Q] holds. *)
Fixpoint debt {A} (Q : res A -> Z -> Z -> Prop) (n e : Z) (p : Managing A) : Prop :=
  0 <= n /\ 0 <= e /\
  match p with
  | Done r => Q r n e
  | Step m k => forall s, fair s (m s).2
      /\ debt Q (n + (missing (m s).2 - missing s)) (e + (errors (m s).2 - errors s)) (k (m s).1)
  end.

(** A thread that returns without counting an error answers for nothing any more. *)
Definition settled {A} (r : res A) (n e : Z) : Prop := is_ok r = true -> e = 0 -> n = 0.

Section Debts.
Context `{TelemetryEnv} (host_salt host_ref : string) (monotonic elapsed : nat -> float).

Lemma debt_then {A B} Q n e (p : Managing A) (f : A -> Managing B) :
  debt (fun r n e => match r with Ok a => debt Q n e (f a) | Raise x => Q (Raise x) n e end) n e p -> debt Q n e (p ≫= f).
Proof.
  revert n e. induction p as [[a|x]|C m k IH]; intros n e (Hn & He & Hp); [exact Hp|done|].
  split; [done|]. split; [done|]. intros s. destruct (Hp s) as [Hf Hd]. split; [exact Hf|]. by apply IH.
Qed.

Lemma debt_catching {A} Q n e (p : Managing A) h :
  debt (fun r n e => match r with Ok a => Q (Ok a) n e | Raise x => debt Q n e (h x) end) n e p -> debt Q n e (catching p h).
Proof.
  revert n e. induction p as [[a|x]|C m k IH]; intros n e (Hn & He & Hp); [done|exact Hp|].
  split; [done|]. split; [done|]. intros s. destruct (Hp s) as [Hf Hd]. split; [exact Hf|]. by apply IH.
Qed.

Lemma debt_placid {A} (phi : A -> Prop) Q n e (p : Managing A) : placid p -> yields phi p -> 0 <= n -> 0 <= e ->
  (forall a, phi a -> Q (Ok a) n e) -> (forall x, Q (Raise x) n e) -> debt Q n e p.
Proof.
  intros Hp Hy Hn He Ha Hx. induction p as [[a|x]|C m k IH]; (split; [done|]; split; [done|]); [by apply Ha, Hy|apply Hx|].
  intros s. destruct (Hp s Logic.I) as [(Hm & Hc & Hf) Hk]. split; [exact Hf|].
  rewrite Hm, Hc. replace (n + (missing s - missing s)) with n by lia. replace (e + (errors s - errors s)) with e by lia.
  by apply IH.
Qed.

(** Going on after a program that leaves the books alone. *)
Lemma debt_after {A B} (phi : A -> Prop) Q n e (p : Managing A) (f : A -> Managing B) : placid p -> yields phi p -> 0 <= n -> 0 <= e ->
  (forall a, phi a -> debt Q n e (f a)) -> (forall x, Q (Raise x) n e) -> debt Q n e (p ≫= f).
Proof. intros Hp Hy Hn He Hf Hx. apply debt_then. by apply (debt_placid phi). Qed.

Lemma debt_next {A B} Q n e (p : Managing A) (f : A -> Managing B) : placid p -> 0 <= n -> 0 <= e ->
  (forall a, debt Q n e (f a)) -> (forall x, Q (Raise x) n e) -> debt Q n e (p ≫= f).
Proof. intros Hp Hn He Hf Hx. apply (debt_after (fun _ => True)); auto using yields_any. Qed.

(** What a counter weighs. *)
Definition weight (name : string) : Z :=
  (if decide (name = "events_received") then 1 else 0) - (if decide (name = "dropped_telemetry") then 1 else 0)
  - (if decide (name = "events_aggregated") then 1 else 0).

Definition error_weight (name : string) : Z := if decide (name = "error_count") then 1 else 0.

Lemma missing_increment name a s :
  missing (with_metrics (increment name a (mg_metrics s)) s) - missing s = weight name * a
  /\ errors (with_metrics (increment name a (mg_metrics s)) s) - errors s = error_weight name * a
  /\ (0 <= a -> fair s (with_metrics (increment name a (mg_metrics s)) s)).
Proof.
  unfold missing, weight, error_weight, fair, counter. cbn [with_metrics mg_metrics mg_queue mg_capacity]. rewrite !metric_increment.
  repeat (case_decide; subst; try done); split_and!; try lia; intros; split_and!; try done; lia.
Qed.

Lemma debt_bump {B} Q n e name a (f : unit -> Managing B) : 0 <= n -> 0 <= e -> 0 <= a ->
  debt Q (n + weight name * a) (e + error_weight name * a) (f tt) -> debt Q n e (bump name a ≫= f).
Proof.
  intros Hn He Ha Hd. split; [done|]. split; [done|]. intros s. cbn [modify_st fst snd].
  destruct (missing_increment name a s) as (H1 & H2 & H3). rewrite H1, H2. split; [by apply H3|exact Hd].
Qed.

Lemma missing_queue q s : missing (with_queue q s) = missing s + zlen (mg_queue s) - zlen q.
Proof. unfold missing, counter. cbn. lia. Qed.

Lemma debt_put {B} Q n e ev (f : bool -> Managing B) : 0 <= n -> 0 <= e ->
  debt Q n e (f true) -> debt Q (n + 1) e (f false) -> debt Q (n + 1) e (put_nowait ev ≫= f).
Proof.
  intros Hn He Ht Hf. split; [lia|]. split; [done|]. intros s. destruct (Z.ltb_spec (zlen (mg_queue s)) (mg_capacity s)); cbn [fst snd].
  - rewrite missing_queue, zlen_app. change (zlen [ev]) with 1. change (errors (with_queue _ s)) with (errors s).
    replace (n + 1 + _) with n by lia. replace (e + _) with e by lia. split; [|exact Ht].
    unfold fair, counter. cbn. rewrite zlen_app. change (zlen [ev]) with 1. split_and!; [done|done|lia].
  - replace (n + 1 + _) with (n + 1) by lia. replace (e + _) with e by lia. split; [apply calm_refl|exact Hf].
Qed.

Lemma debt_get {B} Q n e (f : option NormalizedTelemetryEvent -> Managing B) : 0 <= n -> 0 <= e ->
  (forall ev, debt Q (n + 1) e (f (Some ev))) -> debt Q n e (f None) -> debt Q n e (get_nowait ≫= f).
Proof.
  intros Hn He Hs Hf. split; [done|]. split; [done|]. intros s. destruct (mg_queue s) as [|ev rest] eqn:Hq; cbn [fst snd].
  - replace (n + _) with n by lia. replace (e + _) with e by lia. split; [apply calm_refl|exact Hf].
  - rewrite missing_queue, Hq, zlen_cons. change (errors (with_queue _ s)) with (errors s).
    replace (n + _) with (n + 1) by lia. replace (e + _) with e by lia. split; [|apply Hs].
    unfold fair, counter. cbn. rewrite Hq, zlen_cons. split_and!; [done|done|lia].
Qed.

Lemma debt_weaken {A} (Q Q' : res A -> Z -> Z -> Prop) n e (p : Managing A) :
  (forall r n e, 0 <= n -> 0 <= e -> Q r n e -> Q' r n e) -> debt Q n e p -> debt Q' n e p.
Proof.
  intros HQ. revert n e. induction p as [r|C m k IH]; intros n e (Hn & He & Hp); (split; [done|]; split; [done|]); [auto|].
  intros s. destruct (Hp s) as [Hf Hd]. split; [exact Hf|]. by apply IH.
Qed.

(** The events of a batch pass from the queue to the thread that takes it. *)
Lemma debt_take n e fuel batch : 0 <= n -> 0 <= e ->
  debt (fun r n' e' => match r with Ok b => n' = n + zlen b /\ e' = e | Raise _ => True end) (n + zlen batch) e (take_more fuel batch).
Proof.
  intros Hn He. revert batch. induction fuel as [|fuel IH]; intros batch; pose proof (zlen_nonneg batch) as Hb;
    [by split_and!; [lia|..]|].
  cbn [take_more]. apply debt_next; [placid|lia|done| |done]. intros policy. destruct (_ <? _); [|by split_and!; [lia|..]].
  apply debt_get; [lia|done| |by split_and!; [lia|..]]. intros ev. specialize (IH (batch ++ [ev])).
  rewrite zlen_app, Z.add_assoc in IH. exact IH.
Qed.

(** *** Calls *)

Ltac next := apply debt_next; [solve [placid]|lia|lia|intros ?|].

(** A batch is aggregated, or its processing raises. *)
Lemma debt_process force batch n e (Q : res (list BehavioralAnomaly) -> Z -> Z -> Prop) : 0 <= n -> 0 <= e ->
  (forall a, Q (Ok a) n e) -> (forall x n', 0 <= n' -> Q (Raise x) n' e) ->
  debt Q (n + zlen batch) e (process_batch elapsed force batch).
Proof.
  intros Hn He Ha Hx. pose proof (zlen_nonneg batch) as Hb. unfold process_batch. apply debt_then.
  apply debt_weaken with (Q := fun r n' e' => match r with Ok _ => n' = n /\ e' = e | Raise _ => e' = e end).
  { intros [[buckets had]|x] n' e' Hn' He'; [intros [-> ->]|intros ->; by apply Hx].
    apply debt_next; [destruct had; [placid|apply placid_maybe_rebuild]|done|done| |intros; by apply Hx]. intros _.
    apply debt_next; [placid|done|done| |intros; by apply Hx]. intros now.
    apply debt_next; [apply placid_analyze|done|done| |intros; by apply Hx]. intros created.
    apply debt_next; [destruct had; [apply placid_maybe_rebuild|placid]|done|done| |intros; by apply Hx]. intros _.
    apply debt_next; [apply placid_report|done|done| |intros; by apply Hx]. intros _. split; [done|]. split; [done|]. apply Ha. }
  unfold ingest. apply debt_next; [placid|lia|done| |done]. intros policy.
  unfold lift. destruct (in_role _ batch) as [roled|x] eqn:Hr; [|by split_and!; [lia|..]]. apply in_role_length in Hr.
  change (Done (Ok roled) ≫= ?f) with (f roled). cbv beta.
  apply (debt_after (fun b => zlen b = zlen roled)); [apply placid_enrich|apply enrich_length|lia|done| |done]. intros enriched Hl.
  apply debt_next; [placid|lia|done| |done]. intros policy'. apply debt_next; [placid|lia|done| |done]. intros buckets.
  apply debt_next; [unfold time_spent; placid|lia|done| |done]. intros spent.
  apply debt_bump; [lia|done|lia|]. change (weight "events_aggregated") with (-1).
  change (error_weight "events_aggregated") with 0.
  replace (n + zlen batch + -1 * zlen enriched) with n by lia.
  apply debt_next; [placid|done|lia| |by intros; lia]. intros _. apply debt_next; [placid|done|lia| |by intros; lia]. intros version.
  split; [done|]. split; [lia|]. split; [done|lia].
Qed.

Lemma settled_any {A} (x : exn) n e : @settled A (Raise x) n e.
Proof. done. Qed.

Lemma debt_report_error {A} n e (f : Managing A) (Q : res A -> Z -> Z -> Prop) : 0 <= n -> 0 <= e ->
  debt Q n (e + 1) f -> debt Q n e (bump "error_count" 1;; f).
Proof.
  intros Hn He Hf. apply debt_bump; [done|done|lia|]. change (weight "error_count") with 0. change (error_weight "error_count") with 1.
  by rewrite Z.mul_0_l, Z.add_0_r, Z.mul_1_l.
Qed.

Lemma debt_received {A} ev n e (f : Managing A) (Q : res A -> Z -> Z -> Prop) : 0 <= n -> 0 <= e -> (forall x n', Q (Raise x) n' e) ->
  debt Q (n + 1) e f -> debt Q n e (received ev;; f).
Proof.
  intros Hn He Hx Hf. unfold received. apply debt_then, debt_bump; [done|done|lia|].
  change (weight "events_received") with 1. change (error_weight "events_received") with 0.
  rewrite Z.mul_1_l, Z.mul_0_l, Z.add_0_r.
  apply (debt_placid (fun _ => True)); [placid|apply yields_any|lia|done|by intros [] _|intros; apply Hx].
Qed.

Lemma debt_ret {A} Q n e (a : A) : 0 <= n -> 0 <= e -> Q (Ok a) n e -> debt Q n e (mret a : Managing A).
Proof. by intros Hn He Ha. Qed.

Lemma debt_submit payload : debt settled 0 0 (submit_background_event host_salt host_ref monotonic payload).
Proof.
  unfold submit_background_event. apply debt_next; [placid|done|done| |done]. intros policy. destruct (negb _); [by apply debt_ret|].
  unfold normalize_now. apply debt_next; [placid|done|done| |done]. intros [[ev|]|x]; [|by apply debt_ret|].
  2: { destruct (malformed x); [|by split_and!]. apply debt_report_error; [done|done|]. by apply debt_ret. }
  apply debt_received; [done|done|done|]. unfold enqueue. apply debt_put; [done|done| |].
  - apply debt_next; [|done|done|intros; by apply debt_ret|done]. apply along_section. intros s _. apply calm_metric. not_counted.
  - unfold overflow. apply debt_bump; [lia|done|lia|]. change (0 + 1 + weight "dropped_telemetry" * 1) with 0.
    change (0 + error_weight "dropped_telemetry" * 1) with 0.
    apply (debt_placid (fun _ => True)); [placid|apply yields_any|done|done|done|done].
Qed.

Lemma settled_process force batch : debt settled (zlen batch) 0 (process_batch elapsed force batch).
Proof. change (zlen batch) with (0 + zlen batch). by apply debt_process. Qed.

(** Taking the events of a batch, then what is done with them. *)
Lemma debt_taken {A} (Q : res A -> Z -> Z -> Prop) batch (f : list NormalizedTelemetryEvent -> Managing A) :
  (forall b, debt Q (zlen b) 0 (f b)) -> (forall x n e, Q (Raise x) n e) ->
  debt Q (zlen batch) 0 (take_more MAX_BATCH batch ≫= f).
Proof.
  intros Hf Hx. apply debt_then. change (zlen batch) with (0 + zlen batch).
  eapply debt_weaken; [|by apply debt_take]. intros [b|x] n e Hn He; [intros [-> ->]; apply Hf|intros _; apply Hx].
Qed.

Lemma debt_flush : debt settled 0 0 (flush elapsed).
Proof.
  unfold flush. change 0 with (zlen (@nil NormalizedTelemetryEvent)) at 1. apply debt_taken; [|done]. intros [|ev batch]; [by apply debt_ret|].
  apply debt_then. eapply debt_weaken; [|apply settled_process]. by intros [created|x] n e Hn He Hs.
Qed.

Lemma debt_worker : debt settled 0 0 (worker_turn elapsed).
Proof.
  unfold worker_turn. apply debt_next; [placid|done|done| |done]. intros stopped. destruct stopped; [by apply debt_ret|].
  apply debt_get; [done|done| |by apply debt_ret]. intros ev. change (0 + 1) with (zlen [ev]). apply debt_taken; [|done].
  intros batch. apply debt_catching, debt_then. change (zlen batch) with (0 + zlen batch). apply debt_process; [done|done| |].
  - intros created. by apply debt_ret.
  - intros x n Hn. apply debt_report_error; [done|done|]. 
    apply (debt_placid (fun _ => True)); [placid|apply yields_any|done|done| |done]. intros [] _ _ He. lia.
Qed.

Lemma debt_event payload force : debt settled 0 0 (process_event_sync host_salt host_ref monotonic elapsed payload force).
Proof.
  unfold process_event_sync, normalize_now. apply debt_next; [placid|done|done| |done]. intros [[ev|]|x]; [|by apply debt_ret|by split_and!].
  apply debt_received; [done|done|done|]. apply (settled_process force [ev]).
Qed.

(** Errors of the normalizer are counted, the events before and after them are kept. *)
Lemma debt_receive payloads n e : 0 <= n -> 0 <= e ->
  debt (fun r n' e' => match r with Ok l => n' = n + zlen l /\ e <= e' | Raise _ => True end) n e
    (receive_all host_salt host_ref monotonic payloads).
Proof.
  revert n e. induction payloads as [|payload payloads IH]; intros n e Hn He; cbn [receive_all].
  { apply debt_ret; [done|done|]. change (zlen []) with 0. lia. }
  unfold normalize_now. apply debt_next; [placid|done|done| |done]. intros [[ev|]|x].
  - apply debt_received; [done|done|done|]. apply debt_then. eapply debt_weaken; [|apply IH; lia].
    intros [l|y] n' e' Hn' He'; [|done]. intros [-> H']. apply debt_ret; [lia|done|]. rewrite zlen_cons. lia.
  - by apply IH.
  - destruct (malformed x); [|by split_and!]. apply debt_report_error; [done|done|].
    eapply debt_weaken; [|apply IH; lia]. intros [l|y] n' e' Hn' He'; [|done]. intros [-> H']. lia.
Qed.

Lemma debt_events payloads force : debt settled 0 0 (process_events_sync host_salt host_ref monotonic elapsed payloads force).
Proof.
  unfold process_events_sync. apply debt_then. eapply debt_weaken; [|by apply debt_receive].
  intros [l|x] n e Hn He; [intros [-> _]|done]. destruct l as [|ev l]; [by apply debt_ret|].
  apply debt_process; [done|done| |done]. by intros created.
Qed.

Lemma debt_drop {A} (p : Managing A) : debt settled 0 0 p -> debt settled 0 0 (p;; mret tt).
Proof.
  intros Hp. apply debt_then. eapply debt_weaken; [|exact Hp]. intros [a|x] n e Hn He; [|done]. intros Hs. by apply debt_ret.
Qed.

Lemma debt_quiet (p : Managing unit) : placid p -> debt settled 0 0 p.
Proof. intros Hp. by apply (debt_placid (fun _ => True)); [|apply yields_any|..]. Qed.

Lemma debt_body c : debt settled 0 0 (body host_salt host_ref monotonic elapsed c).
Proof.
  destruct c; cbn [body].
  - apply debt_drop, debt_submit.
  - apply debt_drop, debt_event.
  - apply debt_drop, debt_events.
  - apply debt_flush.
  - apply debt_worker.
  - apply debt_quiet. unfold start. placid; by apply along_section.
  - apply debt_quiet. unfold stop. placid; by apply along_section.
  - apply debt_quiet. unfold rebuild_baseline. placid.
  - apply debt_quiet. unfold set_workstation_profile. cbv zeta. placid; [by apply along_section|].
    apply along_section. intros s _. unfold remember_profile. cbn. by destruct (publish_ok _).
Qed.

(** *** Pools *)

Abbreviation steps := (pool_step host_salt host_ref monotonic elapsed).

(** The books balance: what is missing is what the threads answer for. *)
Definition balanced (pl : Pool) : Prop := exists debts : list (Z * Z),
  Forall2 (fun d p => debt settled d.1 d.2 p) debts (pl_threads pl)
  /\ missing (pl_manager pl) = zsum fst debts /\ errors (pl_manager pl) = zsum snd debts
  /\ zlen (mg_queue (pl_manager pl)) <= mg_capacity (pl_manager pl).

Lemma zsum_insert {A} (f : A -> Z) l i x y : l !! i = Some x -> zsum f (<[i := y]> l) = zsum f l + (f y - f x).
Proof.
  revert i. induction l as [|z l IH]; intros [|i] Hi; try done.
  - injection Hi as ->. cbn. lia.
  - specialize (IH i Hi). change (<[Datatypes.S i := y]> (z :: l)) with (z :: <[i := y]> l). unfold zsum in *. cbn [foldr]. lia.
Qed.

Lemma step_balanced pl pl' : steps pl pl' -> balanced pl -> balanced pl'.
Proof.
  intros Hstep (debts & Hd & Hm & He & Hq). destruct Hstep as [c|i B m k r s' Hth Hrun]; unfold balanced; cbn [pl_manager pl_threads].
  - exists (debts ++ [(0, 0)]). split; [apply Forall2_app; [done|constructor; [apply debt_body|constructor]]|].
    rewrite !zsum_app, Hm, He. cbn. split_and!; [lia|lia|done].
  - destruct (Forall2_lookup_r _ _ _ _ _ Hd Hth) as ([n e] & Hi & Hn & Hpos & Hk). specialize (Hk (pl_manager pl)).
    rewrite Hrun in Hk. destruct Hk as [(Hdrop & Hcap & Hroom) Hk]. cbn [fst snd] in *.
    exists (<[i := (n + (missing s' - missing (pl_manager pl)), e + (errors s' - errors (pl_manager pl)))]> debts).
    split; [by apply Forall2_insert|]. rewrite !(zsum_insert _ _ _ _ _ Hi), <- Hm, <- He. cbn [fst snd].
    split_and!; [lia|lia|by apply Hroom].
Qed.

Lemma zsum_zero {A} (f : A -> Z) l : Forall (fun x => 0 <= f x) l -> zsum f l = 0 -> Forall (fun x => f x = 0) l.
Proof.
  induction 1 as [|x l Hx Hl IH]; [constructor|]. cbn. fold (zsum f l). pose proof (zsum_nonneg f l Hl) as Hn. intros Hs.
  constructor; [lia|apply IH; lia].
Qed.

Lemma debt_nonneg {A} (Q : res A -> Z -> Z -> Prop) n e p : debt Q n e p -> 0 <= n /\ 0 <= e.
Proof. destruct p; by intros (? & ? & _). Qed.

Lemma debts_nonneg debts (ps : list (Managing unit)) : Forall2 (fun d p => debt settled d.1 d.2 p) debts ps ->
  Forall (fun d : Z * Z => 0 <= d.1) debts /\ Forall (fun d : Z * Z => 0 <= d.2) debts.
Proof.
  induction 1 as [|[n e] p debts ps Hp _ [IH1 IH2]]; [by split; constructor|]. apply debt_nonneg in Hp as [? ?]. by split; constructor.
Qed.

(** Threads that returned, no error being counted, answer for nothing. *)
Lemma returned_settled debts (ps : list (Managing unit)) : Forall2 (fun d p => debt settled d.1 d.2 p) debts ps ->
  Forall (fun p => p = Done (Ok tt)) ps -> zsum snd debts = 0 -> zsum fst debts = 0.
Proof.
  intros Hd Hps Hs. apply zsum_zero in Hs; [|exact (proj2 (debts_nonneg _ _ Hd))].
  induction Hd as [|[n e] p debts ps Hp Hd IH]; [done|]. apply Forall_cons in Hps as [-> Hps]. apply Forall_cons in Hs as [He Hs].
  cbn in He. subst e. destruct Hp as (_ & _ & Hn). cbn. fold (zsum fst debts). rewrite (IH Hps Hs).
  cbn in Hn. by rewrite (Hn eq_refl eq_refl).
Qed.

(** Drops are counted for good. *)
Lemma drops_stay pl pl' : rtc steps pl pl' -> balanced pl ->
  counter "dropped_telemetry" (pl_manager pl) <= counter "dropped_telemetry" (pl_manager pl').
Proof.
  induction 1 as [|pl pl1 pl2 Hstep _ IH]; [done|]. intros Hb. pose proof (step_balanced _ _ Hstep Hb) as Hb1.
  etransitivity; [|by apply IH]. destruct Hb as (debts & Hd & _). destruct Hstep as [c|i B m k r s' Hth Hrun]; [done|].
  destruct (Forall2_lookup_r _ _ _ _ _ Hd Hth) as ([n e] & Hi & Hn & Hpos & Hk). specialize (Hk (pl_manager pl)).
  rewrite Hrun in Hk. by destruct Hk as [(Hdrop & _) _].
Qed.

Lemma degraded_counter s : 0 < counter "dropped_telemetry" s -> degraded (mg_metrics s) = true.
Proof.
  unfold counter, metric, degraded, vget, dget_default. destruct (dget _ _) as [[]|]; try lia. intros Hn. cbn. by apply negb_true_iff, Z.eqb_neq; lia.
Qed.

Lemma health_availability s :
  vget "analysis_availability" (health s) = VStr (if degraded (mg_metrics s) then "DEGRADED" else "AVAILABLE").
Proof. unfold health, health_of, vget, dget_default. cbn [foldl fst snd]. by rewrite !dget_dset_ne, dget_dset_eq by done. Qed.

(** C17. No event disappears unseen. Whatever calls the threads make - submitting, processing at
    once, flushing, turns of the worker, starting, stopping, rebuilding, changing the profile -
    and however the sections of these calls interleave: the events that were dropped, aggregated
    or wait in the queue are never more than those received; when every call made so far has
    returned without an exception and no error was counted, they are exactly those. The queue
    keeps to its capacity. Once an event was dropped, the health of the manager reports its
    analysis as [DEGRADED], from then on. *)
Theorem every_submission_is_accounted_for autostart profile last w pl :
  rtc steps (pool_of (new_manager autostart profile last w)) pl ->
  let s := pl_manager pl in
  counter "dropped_telemetry" s + counter "events_aggregated" s + zlen (mg_queue s) <= counter "events_received" s
  /\ (Forall (fun p => p = Done (Ok tt)) (pl_threads pl) -> counter "error_count" s = 0 ->
      counter "events_received" s = counter "dropped_telemetry" s + counter "events_aggregated" s + zlen (mg_queue s))
  /\ zlen (mg_queue s) <= mg_capacity s
  /\ (0 < counter "dropped_telemetry" s -> forall pl', rtc steps pl pl' ->
      vget "analysis_availability" (health (pl_manager pl')) = VStr "DEGRADED").
Proof.
  intros Hrun s. assert (balanced (pool_of (new_manager autostart profile last w))) as Hinit.
  { exists []. split; [constructor|]. split; [done|]. split; [done|]. cbn [pool_of pl_manager mg_queue mg_capacity new_manager].
    apply (shipped_policy (fun p => zlen (@nil NormalizedTelemetryEvent) <= tp_queue_capacity p)).
    apply (bool_decide_unpack _). by vm_compute. }
  assert (balanced pl) as Hb by (induction Hrun as [|p0 p1 p2 Hs _ IH]; [done|by apply IH, (step_balanced p0)]).
  pose proof Hb as (debts & Hd & Hm & He & Hq). pose proof (zsum_nonneg fst debts (proj1 (debts_nonneg _ _ Hd))) as Hnn.
  fold s in Hm, He, Hq. unfold missing in Hm. split; [lia|]. split; [|split; [exact Hq|]].
  - intros Hret Herr. rewrite He in Herr. pose proof (returned_settled debts _ Hd Hret Herr). lia.
  - intros Hdrop pl' Hrun'. rewrite health_availability, degraded_counter; [done|].
    pose proof (drops_stay pl pl' Hrun' Hb) as Hle. fold s in Hle. lia.
Qed.
End Debts.

(** The bound on the loop that takes a batch is never what ends it. *)
Lemma shipped_batches name : tp_batch_size (policy_for_profile name) <= Z.of_nat MAX_BATCH.
Proof.
  apply (shipped_policy (fun p => tp_batch_size p <= Z.of_nat MAX_BATCH)). apply (bool_decide_unpack _). by vm_compute.
Qed.

(** ** Runs in a concrete surrounding *)

Section Day.
#[local] Instance day_env : TelemetryEnv := demo_telemetry always always.

Definition zero_clock (n : nat) : float := fzero.

(** An execution, by its number and its instant. *)
Definition execution (id : nat) (us : Z) (metadata : pydict) : pydict := [
  ("event_type", VStr "process_execution"); ("event_id", VStr ("e" +:+ str_of_Z (Z.of_nat id)));
  ("timestamp", VStr (isoformat_utc us)); ("related_user", VStr "alex"); ("related_process", VStr "tool");
  ("severity", VStr "info"); ("metadata_json", VDict metadata)].

(** One execution in each of [n] windows of five minutes, and [n] unsigned ones from
    [/tmp] in a later window. *)
Definition ordinary (n : nat) : list pydict :=
  (fun i => execution i (1749900000000000 + 300000000 * Z.of_nat i) []) <$> seq 0 n.
Definition burst (n : nat) : list pydict :=
  (fun i => execution (1000 + i) 1749970000000000
     [("signing_status", VStr "unsigned"); ("process_path", VStr "/tmp/tool")]) <$> seq 0 n.

Abbreviation day_step := (pool_step "salt" "host-1" zero_clock zero_clock).
Abbreviation day_calls := (undisturbed_calls "salt" "host-1" zero_clock zero_clock).
Definition morning : Manager := new_manager true None (VStr "") (empty_connection no_telemetry).

Definition submissions (l : list pydict) : list call := Submit <$> l.

Lemma day_runs l s : exists rs, rtc day_step (pool_of s) {| pl_manager := day_calls l s; pl_threads := Done <$> rs |}.
Proof. destruct (calls_run "salt" "host-1" zero_clock zero_clock l s []) as (rs & _ & Hr). by exists rs. Qed.

Lemma every_submission_is_accounted_for_witness :
  let s := day_calls (submissions (ordinary 3) ++ [WorkerTurn] ++ submissions (burst 2)) morning in
  (counter "events_received" s, counter "events_aggregated" s, zlen (mg_queue s)) = (5, 3, 2)
  /\ counter "dropped_telemetry" s + counter "events_aggregated" s + zlen (mg_queue s) <= counter "events_received" s
  /\ zlen (mg_queue s) <= mg_capacity s.
Proof.
  assert (forall calls, counter "dropped_telemetry" (day_calls calls morning) + counter "events_aggregated" (day_calls calls morning)
      + zlen (mg_queue (day_calls calls morning)) <= counter "events_received" (day_calls calls morning)
    /\ zlen (mg_queue (day_calls calls morning)) <= mg_capacity (day_calls calls morning)) as Hall.
  { intros calls. destruct (day_runs calls morning) as [rs Hrs].
    destruct (every_submission_is_accounted_for "salt" "host-1" zero_clock zero_clock true None (VStr "")
      (empty_connection no_telemetry) _ Hrs) as (H1 & _ & H2 & _). split; [exact H1|exact H2]. }
  cbv zeta. split; [vm_compute; reflexivity|]. apply Hall.
Defined.

(** The first [n] sections of a program, and what is left of it. *)
Fixpoint advance {S A} (n : nat) (p : prog S A) (s : S) : prog S A * S :=
  match n, p with
  | Datatypes.S n', Step m k => let (r, s') := m s in advance n' (k r) s'
  | _, _ => (p, s)
  end.

(** A manager whose policy gives the queue room for one event. *)
Definition narrow : Manager := {|
  mg_correlation := mg_correlation morning; mg_policy := mg_policy morning; mg_capacity := 1; mg_queue := [];
  mg_stop := false; mg_worker := true; mg_metrics := mg_metrics morning; mg_profile := mg_profile morning |}.

(** The state a metric shows may say [OPERATIONAL] after a drop: the end of a batch reads the
    number of drops and writes the state after it, and an event dropped in between is
    overwritten. The availability the health reports is [DEGRADED] all the same. *)
Example drop_between_read_and_write :
  let full := day_calls (submissions (ordinary 1)) narrow in
  let (rest, s1) := advance 5 (report zero_clock) full in
  let s2 := day_calls (submissions (burst 1)) s1 in
  let s3 := (run rest s2).2 in
  counter "dropped_telemetry" s3 = 1 /\ dget "state" (mg_metrics s2) = Some (VStr "DEGRADED")
  /\ dget "state" (mg_metrics s3) = Some (VStr "OPERATIONAL") /\ vget "analysis_availability" (health s3) = VStr "DEGRADED".
Proof. vm_compute. repeat split. Qed.
End Day.
