(* ===== verification/TelemetryTraining.v ===== *)
(** What the manager learns from: a bucket with a serious deviation leaves the training, and
    a grave severity has a history of the same host and user behind it. *)

From S2P Require Import Prelude PyStr PyFloat PyDict PyJson PyTime Sql PyRepr.
From S2P Require Import TelemetryModels TelemetryNormalizer TelemetryStore TelemetryAggregator TelemetryBaseline.
From S2P Require Import TelemetryAnomaly TelemetryCorrelation TelemetryManager TelemetryAggregatorFacts TelemetryManagerFacts.

(** ** Rows of buckets *)

(** The row of a bucket of that end. *)
Definition present (k : bucket_id) (finish : string) (l : list TelemetryBucket) : Prop :=
  exists r, bucket_at k l = Some r /\ tb_bucket_end r = finish.

(** It is there, and no longer trains. *)
Definition untrained (k : bucket_id) (finish : string) (l : list TelemetryBucket) : Prop :=
  exists r, bucket_at k l = Some r /\ tb_bucket_end r = finish /\ tb_training_eligible r = false.

Definition marked (b : TelemetryBucket) (now : string) (l : list TelemetryBucket) : list TelemetryBucket :=
  (fun r => if same_key b r then with_eligibility false now r else r) <$> l.

Lemma bucket_at_marked k b now l : bucket_at k (marked b now l) =
  (fun r => if bool_decide (k = key_of b) then with_eligibility false now r else r) <$> bucket_at k l.
Proof.
  unfold bucket_at, marked. induction l as [|r l IH]; [done|]. cbn [fmap list_fmap find_first]. rewrite same_key_spec.
  assert (Hw : key_of (with_eligibility false now r) = key_of r) by done.
  destruct (decide (key_of r = key_of b)) as [Hk|Hk], (decide (key_of r = k)) as [Hr|Hr].
  - rewrite (bool_decide_true (key_of r = key_of b)), Hw, !(bool_decide_true (key_of r = k)) by done. cbn.
    rewrite bool_decide_true by congruence. done.
  - rewrite (bool_decide_true (key_of r = key_of b)), Hw, !(bool_decide_false (key_of r = k)) by done. exact IH.
  - rewrite (bool_decide_false (key_of r = key_of b)), !(bool_decide_true (key_of r = k)) by done. cbn.
    rewrite bool_decide_false by congruence. done.
  - rewrite (bool_decide_false (key_of r = key_of b)), !(bool_decide_false (key_of r = k)) by done. exact IH.
Qed.

Lemma present_marked k finish b now l : present k finish l -> present k finish (marked b now l).
Proof. intros (r & Hr & He). unfold present. rewrite bucket_at_marked, Hr. eexists. split; [done|]. by case_bool_decide. Qed.

Lemma untrained_marked k finish b now l : untrained k finish l -> untrained k finish (marked b now l).
Proof. intros (r & Hr & He & Ht). unfold untrained. rewrite bucket_at_marked, Hr. eexists. split; [done|]. by case_bool_decide. Qed.

Lemma untrained_now finish b now l : present (key_of b) finish l -> untrained (key_of b) finish (marked b now l).
Proof.
  intros (r & Hr & He). unfold untrained. rewrite bucket_at_marked, Hr. eexists. split; [done|]. by rewrite bool_decide_true.
Qed.

(** ** What an aggregated batch leaves *)

Section Aggregated.
Context `{TelemetryEnv} (policy : BehavioralTelemetryPolicy).

Lemma merged_end items b : tb_bucket_end (foldl (fun b e => merge policy e b) b items) = tb_bucket_end b.
Proof. revert b. induction items as [|e items IH]; intros b; cbn; [done|]. by rewrite IH. Qed.

(** A group leaves the row of its bucket, and the ends of the rows there were. *)
Lemma group_present k items w b w' : aggregate_group policy (k, items) w = (Ok b, w') ->
  key_of b = k /\ present k (tb_bucket_end b) (tt_buckets (working w'))
  /\ forall k' finish, present k' finish (tt_buckets (working w)) -> present k' finish (tt_buckets (working w')).
Proof.
  intros (finish & cohort & created & updated & -> & ->)%aggregate_group_ok.
  assert (Hkey : key_of (dated created updated (foldl (fun b e => merge policy e b)
    (default (new_bucket k finish cohort) (bucket_at k (tt_buckets (working w)))) items)) = k)
    by by rewrite key_of_dated, merged_key, bucket_key_of_found.
  split_and!; [done| |].
  - unfold present. rewrite put_bucket_at, Hkey, decide_True by done. by eexists.
  - intros k' finish' (r & Hr & He). unfold present. rewrite put_bucket_at, Hkey. destruct (decide _) as [->|]; [|by exists r].
    eexists. split; [done|]. cbn [tb_bucket_end dated stored_bucket]. by rewrite merged_end, Hr.
Qed.

Lemma groups_present g w bs w' : aggregate_groups policy g w = (Ok bs, w') ->
  key_of <$> bs = fst <$> g
  /\ (forall k finish, present k finish (tt_buckets (working w)) -> present k finish (tt_buckets (working w')))
  /\ Forall (fun b => present (key_of b) (tb_bucket_end b) (tt_buckets (working w'))) bs.
Proof.
  revert w bs w'. induction g as [|[k items] g IH]; intros w bs w'; cbn [aggregate_groups]; [intros [= <- <-]; by repeat constructor|].
  intros (b & w1 & (Hk & Hp & Hold)%group_present & (rest & w2 & (Hks & Hold' & Hps)%IH & [= <- <-])%bind_ok)%bind_ok.
  cbn. rewrite Hk, Hks. split_and!; [done|auto|]. constructor; [|done]. rewrite Hk. by apply Hold'.
Qed.

(** With the bucket of a user a batch has the one of the host. *)
Definition paired (ks : list bucket_id) : Prop := forall k, k ∈ ks -> host_wide k ∈ ks.

Lemma elem_of_add_to_group k k' e (g : bucket_groups) : k ∈ (add_to_group k' e g).*1 <-> k = k' \/ k ∈ g.*1.
Proof.
  unfold add_to_group. generalize (dget_default [] k' g ++ [e]) as v. intros v.
  induction g as [|[k1 v1] g IH]; cbn; [by rewrite list_elem_of_singleton, elem_of_nil; tauto|].
  destruct (decide _) as [->|]; cbn; rewrite !elem_of_cons, ?IH; tauto.
Qed.

Lemma group_events_paired events g g' : group_events policy events g = Ok g' -> paired g.*1 -> paired g'.*1.
Proof.
  revert g. induction events as [|e events IH]; intros g; cbn [group_events]; [by intros [= <-]|].
  intros (k & _ & Hg)%res_bind_ok Hp. apply (IH _ Hg). intros k'. rewrite !elem_of_add_to_group.
  intros [->|[->|Hk]]; [by left|by left|]. right. right. by apply Hp.
Qed.

Lemma aggregate_present events w bs w' : aggregate policy events w = (Ok bs, w') ->
  paired (key_of <$> bs) /\ Forall (fun b => present (key_of b) (tb_bucket_end b) (tt_buckets (working w'))) bs.
Proof.
  intros (g & w1 & Hg & (Hk & _ & Hp)%groups_present & _ & ->)%aggregate_ok. split; [|done]. rewrite Hk.
  apply (group_events_paired _ _ _ Hg). by intros k ?%elem_of_nil.
Qed.
End Aggregated.

(** ** The manager *)

(** The tables satisfy [P], and the policy is a [Good] one. *)
Definition under (Good : BehavioralTelemetryPolicy -> Prop) (P : TelemetryTables -> Prop) (s : Manager) : Prop :=
  on_tables P s /\ Good (mg_policy s).

(** What holds when a computation returns. *)
Definition returns {S A} (P : S -> Prop) (m : M S A) (Q : A -> S -> Prop) : Prop := triple P m Q (fun _ _ => True).

Section Returns.
Context {S : Type}.

Lemma returns_bind {A B} P (m : M S A) R (k : A -> M S B) Q :
  returns P m R -> (forall a, returns (R a) (k a) Q) -> returns P (m ≫= k) Q.
Proof. apply triple_bind. Qed.

Lemma returns_ret {A} (a : A) (P : S -> Prop) Q : (forall s, P s -> Q a s) -> returns P (mret a) Q.
Proof. intros HQ s Hs. by apply HQ. Qed.

Lemma returns_preserves {A} (I : S -> Prop) (m : M S A) : preserves I m -> returns I m (fun _ => I).
Proof. intros Hm. eapply triple_weaken; [exact Hm|done|done|done]. Qed.

Lemma returns_pre {A} (P P' : S -> Prop) (m : M S A) Q : returns P m Q -> (forall s, P' s -> P s) -> returns P' m Q.
Proof. intros Hm HP s Hs. by apply Hm, HP. Qed.

Lemma returns_post {A} (P : S -> Prop) (m : M S A) (Q Q' : A -> S -> Prop) :
  returns P m Q -> (forall a s, Q a s -> Q' a s) -> returns P m Q'.
Proof. intros Hm HQ s Hs. specialize (Hm s Hs). destruct (m s) as [[]]; [by apply HQ|done]. Qed.

Lemma returns_after {A B} (I : S -> Prop) (p : prog S A) (k : A -> prog S B) Q :
  keeps I p -> (forall a, returns I (run (k a)) Q) -> returns I (run (p ≫= k)) Q.
Proof.
  intros Hp Hk s Hs. rewrite run_then. revert s Hs. change (returns I (run p ≫= (fun a => run (k a))) Q).
  apply returns_bind with (R := fun _ => I); [by apply returns_preserves, keeps_run|done].
Qed.

Lemma returns_then {A B} P (p : prog S A) R (k : A -> prog S B) Q :
  returns P (run p) R -> (forall a, returns (R a) (run (k a)) Q) -> returns P (run (p ≫= k)) Q.
Proof.
  intros Hp Hk s Hs. rewrite run_then. revert s Hs. change (returns P (run p ≫= (fun a => run (k a))) Q). by eapply returns_bind.
Qed.

Lemma returns_done {A} (a : A) (P : S -> Prop) Q : (forall s, P s -> Q a s) -> returns P (run (mret a : prog S A)) Q.
Proof. intros HQ s Hs. by apply HQ. Qed.

Lemma returns_glance {A B} (f : S -> A) (k : A -> prog S B) P Q : (forall s, P s -> returns P (run (k (f s))) Q) ->
  returns P (run (section (gets f) ≫= k)) Q.
Proof. intros Hk s Hs. by apply (Hk s Hs). Qed.

Lemma returns_pure {A} (P : S -> Prop) (phi : Prop) (m : M S A) Q : (phi -> returns P m Q) -> returns (fun s => P s /\ phi) m Q.
Proof. intros Hm s [Hs Hphi]. by apply (Hm Hphi). Qed.

(** A computation that keeps [I], whose result satisfies [phi]. *)
Lemma returns_fact {A} (I : S -> Prop) (m : M S A) (phi : A -> Prop) :
  preserves I m -> (forall s a s', m s = (Ok a, s') -> phi a) -> returns I m (fun a s => I s /\ phi a).
Proof. intros Hm Hf s Hs. specialize (Hm s Hs). destruct (m s) as [[a|] s'] eqn:Hr; [|done]. split; [done|by apply (Hf s a s')]. Qed.

(** The result it had. *)
Lemma returns_run {A} (P : S -> Prop) (m : M S A) Q s a s' : returns P m Q -> P s -> m s = (Ok a, s') -> Q a s'.
Proof. intros Hm Hp Hr. specialize (Hm s Hp). by rewrite Hr in Hm. Qed.
End Returns.

Section Keeping.
Context `{TelemetryEnv} (elapsed : nat -> float).
Context (Good : BehavioralTelemetryPolicy -> Prop) (P : TelemetryTables -> Prop) (HP : ignores P).

Lemma under_in_correlation {A} (m : M Correlation A) : preserves (fun s => P (working (co_conn s))) m ->
  keeps (under Good P) (in_correlation m).
Proof.
  intros Hm. apply keeps_section. intros s [Hs Hp]. specialize (Hm (mg_correlation s) Hs). unfold on_correlation.
  by destruct (m _) as [[] x].
Qed.

Lemma under_repo {A} (m : M (Conn TelemetryTables) A) : preserves (holds P) m -> keeps (under Good P) (repo m).
Proof. intros Hm. by apply under_in_correlation, keeps_in_repository. Qed.

Lemma under_correlate policy anomalies : keeps (under Good P) (in_correlation (correlate policy anomalies)).
Proof. apply under_in_correlation. apply (keeps_correlate P). exact HP. Qed.

Lemma under_measure f : keeps (under Good P) (measure f).
Proof. apply keeps_section. by intros s Hs. Qed.

Lemma under_glance {A} (f : Manager -> A) : keeps (under Good P) (glance f).
Proof. apply keeps_section. by intros s Hs. Qed.

(** The policy a program looks up is good. *)
Lemma under_policy {A} (k : BehavioralTelemetryPolicy -> Managing A) :
  (forall policy, Good policy -> keeps (under Good P) (k policy)) -> keeps (under Good P) (glance mg_policy ≫= k).
Proof. intros Hk. apply along_glance; [done|]. intros s [_ Hg]. by apply Hk. Qed.

Lemma under_each {A} (f : A -> M (Conn TelemetryTables) unit) l : (forall x, preserves (holds P) (f x)) ->
  keeps (under Good P) (each_section f l).
Proof.
  intros Hf. induction l as [|x l IH]; cbn [each_section]; [apply along_ret|]. by apply along_then; [apply under_repo|intros _].
Qed.
End Keeping.

Ltac under_step :=
  lazymatch goal with
  | |- along _ _ (glance mg_policy ≫= _) => apply under_policy; intros ? ?
  | |- along _ _ (mbind _ _) => apply along_then; [|intros ?]
  | |- along _ _ (mret _) => apply along_ret
  | |- along _ _ (lift _) => apply along_lift
  | |- along _ _ (throw _) => apply along_throw
  | |- along _ _ (glance _) => apply under_glance
  | |- along _ _ this => apply under_glance
  | |- along _ _ (measure _) => apply under_measure
  | |- along _ _ (set_metric _ _) => apply under_measure
  | |- along _ _ (bump _ _) => apply under_measure
  | |- along _ _ (in_correlation (correlate _ _)) => apply under_correlate
  | |- along _ _ (repo _) => apply under_repo; try solve [keep]
  | |- along _ _ (if ?b then _ else _) => destruct b
  | |- along _ _ (match ?x with _ => _ end) => destruct x
  end.
Ltac under := repeat under_step.

Section Batches.
Context `{TelemetryEnv} (elapsed : nat -> float).
Context (Good : BehavioralTelemetryPolicy -> Prop) (P : TelemetryTables -> Prop) (HP : ignores P).
Context (Hex : forall b, preserves (holds P) (exclude_from_training b)).

Lemma under_analyzed buckets b : keeps (under Good P) (analyzed buckets b).
Proof.
  unfold analyzed. under; [by apply keeps_analyze|by apply under_each; intros; apply keeps_save_anomaly|done
    |by apply under_each|done|by apply keeps_mark].
Qed.

Lemma under_ready force now b : keeps (under Good P) (ready force now b).
Proof. unfold ready. under. Qed.

Lemma under_analyze force now buckets rest : keeps (under Good P) (analyze_buckets force now buckets rest).
Proof.
  induction rest as [|b rest IH]; cbn [analyze_buckets]; [apply along_ret|].
  apply along_then; [apply under_ready|intros r]. apply along_then.
  { destruct r; [apply under_analyzed|apply along_ret]. }
  intros found. apply along_then; [done|intros; apply along_ret].
Qed.

Lemma under_report : keeps (under Good P) (report elapsed).
Proof. unfold report, time_spent. under. by apply keeps_set_state. Qed.

Lemma under_rebuild :
  (forall policy version now l, Good policy -> preserves (holds P) (save_baselines (build_baselines policy version now l))) ->
  keeps (under Good P) maybe_rebuild_baseline.
Proof.
  intros Hs. unfold maybe_rebuild_baseline. cbv zeta. under; try (by unfold state; keep); try (by unfold list_buckets; keep).
  apply keeps_rebuild; [done|]. intros. by apply Hs.
Qed.

Lemma under_enrich seen batch : keeps (under Good P) (enrich_first_seen seen batch).
Proof.
  revert seen. induction batch as [|e batch IH]; intros seen; cbn [enrich_first_seen]; [apply along_ret|].
  apply along_then; [|intros fresh; apply along_then; [by destruct fresh; [apply along_ret|apply along_lift]|intros e']].
  - induction (te_entity_keys e) as [|kv entities IHe]; cbn [new_entities]; [apply along_ret|]. case_bool_decide; [apply IHe|].
    apply along_then; [apply under_repo; unfold entity_seen; keep|intros known]. apply along_then; [apply IHe|intros; apply along_ret].
  - apply along_then; [apply IH|intros; apply along_ret].
Qed.
End Batches.

Section Manager.
Context `{TelemetryEnv} (elapsed : nat -> float) (policy : BehavioralTelemetryPolicy).

Abbreviation ruled := (under (fun p => p = policy)).

(** Undisturbed, a program finds the policy it has. *)
Lemma returns_policy {A} (P : TelemetryTables -> Prop) (k : BehavioralTelemetryPolicy -> Managing A) Q :
  returns (ruled P) (run (k policy)) Q -> returns (ruled P) (run (glance mg_policy ≫= k)) Q.
Proof. intros Hk. apply returns_glance. intros s [_ Hs]. by rewrite Hs. Qed.

Lemma run_repo {A} (m : M (Conn TelemetryTables) A) s : run (repo m) s = on_correlation (in_repository m) s.
Proof. apply run_section. Qed.

Lemma repo_fact {A} (m : M (Conn TelemetryTables) A) (phi : A -> Prop) s a s' :
  (forall w a w', m w = (Ok a, w') -> phi a) -> run (repo m) s = (Ok a, s') -> phi a.
Proof.
  intros Hm. rewrite run_repo. unfold on_correlation, in_repository. destruct (m _) as [r w] eqn:Hr. intros [= -> <-]. by apply Hm in Hr.
Qed.

Lemma returns_repo {A} (P : TelemetryTables -> Prop) (m : M (Conn TelemetryTables) A) (Q : A -> TelemetryTables -> Prop) :
  returns (holds P) m (fun a => holds (Q a)) -> returns (ruled P) (run (repo m)) (fun a => ruled (Q a)).
Proof.
  intros Hm s [Hs Hp]. specialize (Hm (co_conn (mg_correlation s)) Hs). rewrite run_repo. unfold on_correlation, in_repository.
  by destruct (m _) as [[] w].
Qed.

(** *** Excluding *)

(** A predicate on buckets that excluding one keeps. *)
Definition stays (Q : list TelemetryBucket -> Prop) : Prop := forall b now l, Q l -> Q (marked b now l).

Lemma exclude_returns (Q Q' : list TelemetryBucket -> Prop) b :
  (forall now l, Q l -> Q' (marked b now l)) ->
  returns (holds (fun t => Q (tt_buckets t))) (exclude_from_training b) (fun _ => holds (fun t => Q' (tt_buckets t))).
Proof.
  intros HQ w Hw. unfold exclude_from_training, set_bucket_training_eligible, utc_now, sql_write, sql_write_checked, mbind, M_bind.
  cbn [ticks tick]. destruct (stmt_ok _); [|done]. cbn. by apply HQ.
Qed.

Lemma exclude_keeps Q b : stays Q -> preserves (holds (fun t => Q (tt_buckets t))) (exclude_from_training b).
Proof.
  intros HQ. unfold exclude_from_training, set_bucket_training_eligible. keep. by apply HQ.
Qed.

(** The rows of buckets in memory. *)
Definition rows_of (buckets : list TelemetryBucket) (l : list TelemetryBucket) : Prop :=
  forall c, c ∈ buckets -> present (key_of c) (tb_bucket_end c) l.
Definition rows_untrained (buckets : list TelemetryBucket) (l : list TelemetryBucket) : Prop :=
  forall c, c ∈ buckets -> untrained (key_of c) (tb_bucket_end c) l.

Lemma stays_rows buckets : stays (rows_of buckets).
Proof. intros b now l Hl c Hc. by apply present_marked, Hl. Qed.
Lemma stays_untrained buckets : stays (rows_untrained buckets).
Proof. intros b now l Hl c Hc. by apply untrained_marked, Hl. Qed.

Lemma exclude_all done_ l :
  returns (ruled (fun t => rows_of l (tt_buckets t) /\ rows_untrained done_ (tt_buckets t))) (run (each_section exclude_from_training l))
    (fun _ => ruled (fun t => rows_untrained (done_ ++ l) (tt_buckets t))).
Proof.
  revert done_. induction l as [|b l IH]; intros done_; cbn [each_section].
  - apply returns_done. intros s [[_ Hw] Hpol]. rewrite app_nil_r. by split.
  - apply returns_then with (R := fun _ => ruled (fun t => rows_of l (tt_buckets t) /\ rows_untrained (done_ ++ [b]) (tt_buckets t))).
    + apply (returns_repo (fun t => rows_of (b :: l) (tt_buckets t) /\ rows_untrained done_ (tt_buckets t)) _
        (fun _ t => rows_of l (tt_buckets t) /\ rows_untrained (done_ ++ [b]) (tt_buckets t))).
      apply (exclude_returns (fun l' => rows_of (b :: l) l' /\ rows_untrained done_ l')
                             (fun l' => rows_of l l' /\ rows_untrained (done_ ++ [b]) l')). intros now l' [Hr Hu]. split.
      * intros c Hc. apply present_marked, Hr. by right.
      * intros c [Hc| ->%list_elem_of_singleton]%elem_of_app; [by apply untrained_marked, Hu|]. apply untrained_now, Hr. by left.
    + intros _. specialize (IH (done_ ++ [b])). by rewrite <- app_assoc in IH.
Qed.

(** ** Serious deviations *)

(** A serious anomaly has taken the bucket of its user, and the one of its host beside it,
    out of the training. *)
Definition outside_training (a : BehavioralAnomaly) (l : list TelemetryBucket) : Prop :=
  exists k, k_host k = ba_host_ref a /\ k_user k = ba_user_ref a
    /\ untrained k (ba_timestamp a) l /\ excluded (host_wide k) l.

Definition learned_nothing (anomalies : list BehavioralAnomaly) (l : list TelemetryBucket) : Prop :=
  forall a, a ∈ anomalies -> tp_investigation_threshold policy <= ba_anomaly_score a -> outside_training a l.

Lemma stays_learned anomalies : stays (learned_nothing anomalies).
Proof.
  intros b now l Hl a Ha Hs. destruct (Hl a Ha Hs) as (k & Hh & Hu & Hk & (r & Hr & He)). exists k. split_and!; [done|done|by apply untrained_marked|].
  unfold excluded. rewrite bucket_at_marked, Hr. eexists. split; [done|]. by case_bool_decide.
Qed.

(** Anomalies are about the bucket they were found in. *)
Definition of_bucket (b : TelemetryBucket) (a : BehavioralAnomaly) : Prop :=
  ba_host_ref a = tb_host_ref b /\ ba_user_ref a = tb_user_ref b /\ ba_timestamp a = tb_bucket_end b.

Lemma anomalies_of_bucket b found w l w' : anomalies_of policy b found w = (Ok l, w') -> Forall (of_bucket b) l.
Proof.
  revert w l w'. induction found as [|[dimension scores] found IH]; intros w l w'; cbn [anomalies_of]; [by intros [= <- <-]|].
  destruct (sort_by _ scores) as [|primary others]; [done|].
  intros (a & w1 & Ha & (rest & w2 & Hr & [= <- <-])%bind_ok)%bind_ok. constructor; [|by apply (IH _ _ _ Hr)].
  unfold anomaly_of in Ha. by apply bind_ok in Ha as (id & w3 & _ & (version & w4 & _ & (now & w5 & _ & [= <- _])%bind_ok)%bind_ok).
Qed.

Lemma analyze_of_bucket b w l w' : analyze_bucket policy b w = (Ok l, w') -> Forall (of_bucket b) l.
Proof. intros (baselines & w1 & _ & (found & w2 & _ & Ha)%bind_ok)%bind_ok. by apply anomalies_of_bucket in Ha. Qed.

Lemma companion_key b c : key_of c = host_wide (key_of b) -> companion_of b c = true.
Proof. intros [= Hs Hh Hu Hc]. unfold companion_of. cbn in *. by rewrite Hs, Hh, Hu, Hc, !String.eqb_refl. Qed.

(** Once bucket and companions are excluded, its anomalies have taught nothing. *)
Lemma excluded_taught_nothing buckets b anomalies l :
  b ∈ buckets -> paired (key_of <$> buckets) -> Forall (of_bucket b) anomalies ->
  rows_untrained ([b] ++ filter (fun c => companion_of b c = true) buckets) l -> learned_nothing anomalies l.
Proof.
  intros Hb Hp Ha Hu a Hin _. rewrite Forall_forall in Ha. destruct (Ha a Hin) as (Hh & Hus & Ht). exists (key_of b).
  split_and!; [done|done|rewrite Ht; apply Hu; by left|].
  assert (Hk : host_wide (key_of b) ∈ key_of <$> buckets) by by apply Hp, list_elem_of_fmap_2.
  apply list_elem_of_fmap in Hk as (c & Hk & Hc). rewrite Hk.
  destruct (Hu c) as (r & Hr & _ & He); [|by exists r]. apply elem_of_app. right. apply list_elem_of_filter. by rewrite companion_key.
Qed.

Abbreviation buckets_are Q := (ruled (fun t => Q (tt_buckets t))).

(** What a program establishes, beside what it keeps. *)
Lemma returns_beside {A} (Q Q1 : list TelemetryBucket -> Prop) (p : Managing A) (Q' : A -> list TelemetryBucket -> Prop) :
  returns (buckets_are Q) (run p) (fun a => buckets_are (Q' a)) -> keeps (buckets_are Q1) p ->
  returns (buckets_are (fun l => Q l /\ Q1 l)) (run p) (fun a => buckets_are (fun l => Q' a l /\ Q1 l)).
Proof.
  intros Hm Hk%keeps_run s [[H1 H2] Hp]. specialize (Hm s (conj H1 Hp)). specialize (Hk s (conj H2 Hp)). unfold under, on_tables in *.
  destruct (run p s) as [[a|] s']; [|done]. destruct Hm as [Hm ?], Hk as [Hk _]. done.
Qed.

(** Excluding a bucket and its companions, when one of its anomalies is serious. *)
Lemma excluding_returns {A} buckets b anomalies (k : Managing A) Q :
  b ∈ buckets -> paired (key_of <$> buckets) -> Forall (of_bucket b) anomalies ->
  returns (buckets_are (fun l => rows_of buckets l /\ learned_nothing anomalies l)) (run k) Q ->
  returns (buckets_are (rows_of buckets))
    (run (repo (exclude_from_training b);;
          each_section exclude_from_training (filter (fun c => companion_of b c = true) buckets);; k)) Q.
Proof.
  intros Hb Hp Hof Hk. set (companions := filter _ buckets).
  assert (Hsub : forall l, rows_of buckets l -> rows_of companions l) by (intros l Hl c [_ Hc]%list_elem_of_filter; by apply Hl).
  apply returns_then with (R := fun _ => buckets_are (fun l => (rows_of companions l /\ rows_untrained [b] l) /\ rows_of buckets l)).
  { apply (returns_repo (fun t => rows_of buckets (tt_buckets t)) _
      (fun _ t => (rows_of companions (tt_buckets t) /\ rows_untrained [b] (tt_buckets t)) /\ rows_of buckets (tt_buckets t))).
    apply (exclude_returns (rows_of buckets) (fun l => (rows_of companions l /\ rows_untrained [b] l) /\ rows_of buckets l)).
    intros now l Hl. split_and!; [apply stays_rows; auto| |by apply stays_rows]. intros c ->%list_elem_of_singleton. by apply untrained_now, Hl. }
  intros _. apply returns_then with (R := fun _ => buckets_are (fun l => rows_of buckets l /\ learned_nothing anomalies l)); [|done].
  eapply returns_post; [apply (returns_beside (fun l => rows_of companions l /\ rows_untrained [b] l)
    (rows_of buckets) _ (fun _ => rows_untrained ([b] ++ companions)))|].
  - apply exclude_all.
  - apply under_each. intros. apply exclude_keeps, stays_rows.
  - intros [] s1 [[Hu Hr] Hpol]. split; [|done]. split; [done|by apply (excluded_taught_nothing buckets b)].
Qed.

Lemma analyzed_returns buckets b : b ∈ buckets -> paired (key_of <$> buckets) ->
  returns (buckets_are (rows_of buckets)) (run (analyzed buckets b))
    (fun found => buckets_are (fun l => rows_of buckets l /\ learned_nothing found l)).
Proof.
  intros Hb Hp. pose proof (fun Q => ignores_buckets Q) as HI. unfold analyzed. apply returns_policy.
  eapply returns_then.
  { apply (returns_fact _ _ (fun anomalies => Forall (of_bucket b) anomalies)); [by apply keeps_run, under_repo, keeps_analyze|].
    intros s1 a s2. apply repo_fact, analyze_of_bucket. }
  intros anomalies. apply returns_pure. intros Hof.
  apply returns_after; [by apply under_each; intros; apply keeps_save_anomaly|intros _].
  apply returns_after; [by apply under_repo, preserves_commit_working|intros _]. apply returns_policy.
  set (Q' := fun l => rows_of buckets l /\ learned_nothing anomalies l).
  apply returns_then with (R := fun _ => buckets_are Q').
  - destruct (serious policy anomalies) as [|grave others] eqn:Hserious.
    { apply returns_done. intros s1 [Hr Hpol]. split; [|done]. split; [done|]. intros a Ha Hle. exfalso.
      apply (not_elem_of_nil a). rewrite <- Hserious. apply list_elem_of_filter. split; [by apply Z.leb_le|done]. }
    rewrite <- Hserious. apply (excluding_returns buckets b anomalies); [done..|].
    apply returns_after; [by apply under_repo, preserves_commit_working|intros _]. apply returns_policy.
    apply returns_after; [by apply under_correlate|intros r]. by apply returns_done.
  - intros _. apply returns_after; [by apply under_repo, keeps_mark|intros _].
    do 3 (apply returns_after; [apply under_measure|intros _]). by apply returns_done.
Qed.

Lemma analyze_returns force now buckets rest : (forall b, b ∈ rest -> b ∈ buckets) -> paired (key_of <$> buckets) ->
  returns (buckets_are (rows_of buckets)) (run (analyze_buckets force now buckets rest))
    (fun found => buckets_are (fun l => rows_of buckets l /\ learned_nothing found l)).
Proof.
  pose proof (fun Q => ignores_buckets Q) as HI. intros Hsub Hp. induction rest as [|b rest IH]; cbn [analyze_buckets].
  { apply returns_done. intros s [Hr Hpol]. split; [|done]. split; [done|]. by intros a ?%elem_of_nil. }
  apply returns_after; [by apply under_ready|intros r].
  apply returns_then with (R := fun found => buckets_are (fun l => rows_of buckets l /\ learned_nothing found l)).
  { destruct r; [apply analyzed_returns; [apply Hsub; by left|done]|]. apply returns_done. intros s [Hr Hpol]. split; [|done].
    split; [done|]. by intros a ?%elem_of_nil. }
  intros found. eapply returns_then.
  { apply (returns_beside (rows_of buckets) (learned_nothing found) _
      (fun others l => rows_of buckets l /\ learned_nothing others l)).
    - apply IH. intros b' Hb'. apply Hsub. by right.
    - apply under_analyze; [apply HI|]. intros b'. apply exclude_keeps, stays_learned. }
  intros others. apply returns_done. intros s [[[Hr Ho] Hf] Hpol]. split; [|done]. split; [done|].
  intros a [Ha|Ha]%elem_of_app Hle; [by apply Hf|by apply Ho].
Qed.

Lemma ingest_returns batch : returns (ruled (fun _ => True)) (run (ingest elapsed batch))
  (fun r s => buckets_are (rows_of r.1) s /\ paired (key_of <$> r.1)).
Proof.
  unfold ingest. apply returns_policy. apply returns_after; [apply along_lift|intros roled].
  apply returns_after; [apply under_enrich|intros enriched]. apply returns_policy.
  apply returns_then with (R := fun bs => ruled (fun t => rows_of bs (tt_buckets t) /\ paired (key_of <$> bs))).
  { apply (returns_repo (fun _ => True) _ (fun bs t => rows_of bs (tt_buckets t) /\ paired (key_of <$> bs))). intros w _.
    destruct (aggregate policy enriched w) as [[bs|] w'] eqn:Ha; [|done]. apply aggregate_present in Ha as [Hp Hf]. split; [|done].
    intros c Hc. rewrite Forall_forall in Hf. by apply Hf. }
  intros bs. apply returns_after; [apply under_glance|intros spent]. do 2 (apply returns_after; [apply under_measure|intros _]).
  apply returns_after; [apply under_repo; unfold latest_baseline_version; keep|intros version].
  apply returns_done. intros s' [[Hr Hp] Hpol]. by split.
Qed.

Lemma keeps_save_baselines (Q : list TelemetryBucket -> Prop) l : preserves (holds (fun t => Q (tt_buckets t))) (save_baselines l).
Proof.
  apply keeps_for_each. intros b w Hw. unfold sql_write_checked. destruct (stmt_ok _); [|done]. by destruct (storable b).
Qed.

Lemma report_commits s r s' : run (report elapsed) s = (Ok r, s') ->
  committed (co_conn (mg_correlation s')) = working (co_conn (mg_correlation s')).
Proof.
  unfold report. intros Hrun. do 9 (apply run_ok in Hrun as (? & ? & _ & Hrun)).
  revert Hrun. rewrite run_repo. unfold on_correlation, in_repository, commit. destruct (stmt_ok _); by intros [= <- <-].
Qed.

Lemma process_returns force batch : returns (ruled (fun _ => True)) (run (process_batch elapsed force batch))
  (fun created s => buckets_are (learned_nothing created) s
                    /\ committed (co_conn (mg_correlation s)) = working (co_conn (mg_correlation s))).
Proof.
  pose proof (fun Q => ignores_buckets Q) as HI. unfold process_batch. eapply returns_then; [apply ingest_returns|intros [buckets had]].
  apply returns_pure. intros Hp. cbn [fst] in *.
  assert (Hre : forall Q, keeps (buckets_are Q) (if had then mret tt else maybe_rebuild_baseline)
                       /\ keeps (buckets_are Q) (if had then maybe_rebuild_baseline else mret tt)).
  { intros Q. destruct had; (split; [try apply along_ret|try apply along_ret]);
      (apply under_rebuild; [apply HI|intros; apply keeps_save_baselines]). }
  apply returns_after; [apply Hre|intros _]. apply returns_after; [apply under_repo; keep|intros now].
  eapply returns_then; [by apply analyze_returns|intros created].
  apply (returns_pre (buckets_are (learned_nothing created))); [|by intros s [[_ Hl] Hpol]].
  apply returns_after; [apply Hre|intros _].
  apply returns_then with (R := fun _ s => buckets_are (learned_nothing created) s
                    /\ committed (co_conn (mg_correlation s)) = working (co_conn (mg_correlation s))); [|intros _; by apply returns_done].
  intros s Hs. pose proof (keeps_run _ _ (under_report elapsed _ _ (HI (learned_nothing created))) s Hs) as Hr.
  destruct (run (report elapsed) s) as [[[]|] s'] eqn:Hrun; [|done]. split; [exact Hr|]. by apply report_commits in Hrun.
Qed.
End Manager.

(** C20. A serious deviation does not become normal by being learned: when a batch was
    processed undisturbed, every anomaly it created from the investigation threshold on has taken the
    bucket it was found in, and the one of the whole host beside it, out of the training,
    in the database as committed. *)
Theorem deviations_do_not_train `{TelemetryEnv} elapsed force batch s created s' :
  run (process_batch elapsed force batch) s = (Ok created, s') ->
  forall a, a ∈ created -> tp_investigation_threshold (mg_policy s) <= ba_anomaly_score a ->
  outside_training a (tt_buckets (committed (co_conn (mg_correlation s')))).
Proof.
  intros Hrun a Ha Hs. pose proof (process_returns elapsed (mg_policy s) force batch s) as Hp. rewrite Hrun in Hp.
  destruct Hp as [[Hl _] Hc]; [done|]. rewrite Hc. by apply Hl.
Qed.

Section Seasoned.
#[local] Instance seasoned_env : TelemetryEnv := demo_telemetry always always.

(** One process execution in a window is what the baseline of [user-1] knows. *)
Definition seasoned_baseline : FeatureBaseline := {|
  fb_baseline_id := "baseline-1"; fb_host_ref := "host-1"; fb_user_ref := "user-1"; fb_feature_name := "process_exec_count";
  fb_time_cohort := "ALL"; fb_context_cohort := "ALL"; fb_median_value := fone; fb_mad_value := fzero; fb_p05 := fone;
  fb_p25 := fone; fb_p50 := fone; fb_p75 := fone; fb_p95 := fone; fb_sample_count := 800; fb_confidence := flit 9 10;
  fb_state := BS_MATURE; fb_version := 1; fb_updated_at := noon |}.
Definition seasoned_version : version_row := {|
  vr_baseline_version := 1; vr_created_at := noon; vr_training_start := noon; vr_training_end := noon; vr_bucket_count := 800;
  vr_excluded_bucket_count := 0; vr_feature_schema_version := "1.0"; vr_behavior_model_version := "robust-statistics-1.0";
  vr_reason := "scheduled" |}.
Definition seasoned : Manager :=
  new_manager true None (VStr "") (empty_connection (set_baselines [seasoned_baseline] (set_versions [seasoned_version] no_telemetry))).

Definition ten_at_once : list NormalizedTelemetryEvent :=
  (fun n => demo_event ("e" +:+ str_of_Z (Z.of_nat n)) noon "user-1") <$> seq 0 10.
Abbreviation ten_processed := (run (process_batch (fun _ => fzero) true ten_at_once) seasoned).

Lemma deviations_do_not_train_witness : exists a,
  tp_investigation_threshold (mg_policy seasoned) <= ba_anomaly_score a
  /\ outside_training a (tt_buckets (committed (co_conn (mg_correlation ten_processed.2)))).
Proof.
  assert (Hgrave : (match ten_processed.1 with Ok created => existsb (fun a => 60 <=? ba_anomaly_score a) created | Raise _ => false end) = true)
    by by vm_compute.
  revert Hgrave. destruct ten_processed as [[created|e] s'] eqn:Hrun; [|done]. cbn [fst snd]. intros (a & Ha & Hs)%existsb_exists.
  apply list_elem_of_In in Ha. apply Z.leb_le in Hs. exists a. split; [exact Hs|].
  by apply (deviations_do_not_train _ _ _ _ _ _ Hrun a Ha).
Defined.
End Seasoned.
