(* ===== verification/TelemetryHistory.v ===== *)
(** A grave severity has its history, whatever the threads of the manager did before. *)

From S2P Require Import Prelude PyStr PyFloat PyDict PyJson PyTime Sql PyRepr.
From S2P Require Import TelemetryModels TelemetryNormalizer TelemetryStore TelemetryAggregator TelemetryBaseline.
From S2P Require Import TelemetryAnomaly TelemetryCorrelation TelemetryManager TelemetryAggregatorFacts.
From S2P Require Import TelemetryManagerFacts TelemetryTraining.

(** A policy with the sample thresholds that the profiles share. *)
Definition sampled (p : BehavioralTelemetryPolicy) : Prop := forall n, baseline_state p n = baseline_state balanced_policy n.

Lemma shipped_sampled name : sampled (policy_for_profile name).
Proof.
  apply (shipped_policy sampled). apply Forall_forall. intros p (kv & -> & Hkv)%list_elem_of_fmap.
  exact (shipped_sample_thresholds kv Hkv).
Qed.

Abbreviation baselines_of s := (tt_baselines (working (co_conn (mg_correlation s)))).

Section History.
Context `{TelemetryEnv} (host_salt host_ref : string) (monotonic elapsed : nat -> float).

Lemma ignores_honest : ignores honest_tables.
Proof. by split. Qed.

Lemma keeps_exclude (P : TelemetryTables -> Prop) b : (forall x t, P t -> P (set_buckets x t)) -> preserves (holds P) (exclude_from_training b).
Proof. intros HP. unfold exclude_from_training, set_bucket_training_eligible. keep. by apply HP. Qed.

Lemma honest_save policy version now l : sampled policy -> preserves (holds honest_tables) (save_baselines (build_baselines policy version now l)).
Proof.
  intros Hp. unfold save_baselines, build_baselines.
  induction (collect l) as [|kv g IH]; cbn [fmap list_fmap for_each]; [apply preserves_ret|].
  apply preserves_bind; [|intros; exact IH]. intros w Hw. unfold sql_write_checked. destruct (stmt_ok _); [|done].
  destruct (storable _); [|done]. apply honest_upserted; [by apply baseline_of_honest|done].
Qed.

Lemma keeps_normalize (I : Manager -> Prop) payload : keeps I (normalize_now host_salt host_ref monotonic payload).
Proof. apply keeps_section. by intros s Hs. Qed.

Section Batch.
Context (Good : BehavioralTelemetryPolicy -> Prop) (P : TelemetryTables -> Prop) (HP : ignores P)
  (Hb : forall x t, P t -> P (set_buckets x t)).

Lemma under_ingest batch : keeps (under Good P) (ingest elapsed batch).
Proof.
  unfold ingest, time_spent. under; [apply under_enrich|by apply keeps_aggregate].
Qed.

Lemma under_process force batch : keeps (under Good P) maybe_rebuild_baseline ->
  keeps (under Good P) (process_batch elapsed force batch).
Proof.
  intros Hre. unfold process_batch. apply along_then; [apply under_ingest|intros [buckets had]].
  apply along_then; [destruct had; [apply along_ret|done]|intros _].
  apply along_then; [apply under_repo; keep|intros now].
  apply along_then; [by apply under_analyze; [|intros; apply keeps_exclude]|intros created].
  apply along_then; [destruct had; [done|apply along_ret]|intros _].
  apply along_then; [by apply under_report|intros; apply along_ret].
Qed.

(** *** The calls of the threads *)

Context (Hre : forall policy version now l, Good policy -> preserves (holds P) (save_baselines (build_baselines policy version now l)))
  (Hgood : forall name, Good (policy_for_profile name)).

Lemma under_batch force batch : keeps (under Good P) (process_batch elapsed force batch).
Proof. by apply under_process, under_rebuild. Qed.

Lemma under_received e : keeps (under Good P) (received e).
Proof. unfold received. under. Qed.

Lemma under_take fuel batch : keeps (under Good P) (take_more fuel batch).
Proof.
  revert batch. induction fuel as [|fuel IH]; intros batch; cbn [take_more]; [apply along_ret|]. under_step. under_step; [|apply along_ret].
  apply along_then; [|intros [e|]; [apply IH|apply along_ret]]. apply keeps_section. intros s Hs. unfold get_nowait. by destruct (mg_queue s).
Qed.

Lemma under_submit payload : keeps (under Good P) (submit_background_event host_salt host_ref monotonic payload).
Proof.
  unfold submit_background_event, enqueue, overflow. under; try apply keeps_normalize; try apply under_received; try by apply keeps_set_state.
  - apply keeps_section. intros s Hs. by destruct (_ <? _).
  - apply keeps_section; by intros s Hs.
Qed.

Lemma under_receive payloads : keeps (under Good P) (receive_all host_salt host_ref monotonic payloads).
Proof. induction payloads as [|payload payloads IH]; cbn [receive_all]; under; try apply keeps_normalize; try apply under_received; done. Qed.

Lemma under_worker : keeps (under Good P) (worker_turn elapsed).
Proof.
  unfold worker_turn. under; [|apply under_take|].
  - apply keeps_section. intros s Hs. by destruct (mg_queue s).
  - apply along_catching; [under; apply under_batch|intros; under].
Qed.

Lemma under_profile name actor : keeps (under Good P) (set_workstation_profile name actor).
Proof.
  unfold set_workstation_profile. cbv zeta. under; (try by apply keeps_set_state); (try by apply keeps_audit).
  - apply keeps_section. intros s [Hs _]. by split; [|apply Hgood].
  - apply keeps_section. intros s Hs. unfold remember_profile. cbn. by destruct (publish_ok _).
Qed.

Lemma under_body c : keeps (under Good P) (body host_salt host_ref monotonic elapsed c).
Proof.
  destruct c; cbn [body].
  - apply along_then; [apply under_submit|intros; under].
  - unfold process_event_sync. under; [apply keeps_normalize|apply under_received|apply under_batch].
  - unfold process_events_sync. under; [apply under_receive|apply under_batch].
  - unfold flush. under; [apply under_take|apply under_batch].
  - apply under_worker.
  - unfold start. under; apply keeps_section; by intros s Hs.
  - unfold stop. under; apply keeps_section; by intros s Hs.
  - unfold rebuild_baseline. under. apply keeps_rebuild; [done|]. intros. by apply Hre.
  - apply along_then; [apply under_profile|intros; under].
Qed.
End Batch.

(** *** Baselines stay honest *)

Abbreviation sincere := (under sampled honest_tables).

Lemma sincere_body c : keeps sincere (body host_salt host_ref monotonic elapsed c).
Proof. apply under_body; [apply ignores_honest|done|intros; by apply honest_save|apply shipped_sampled]. Qed.

(** *** What stands behind an anomaly *)

(** A baseline among [l] of the same host and user, of at least 24 samples. *)
Definition has_history (l : list FeatureBaseline) (a : BehavioralAnomaly) : Prop :=
  exists fb, fb ∈ l /\ fb_host_ref fb = ba_host_ref a /\ fb_user_ref fb = ba_user_ref a /\ 24 <= fb_sample_count fb.

Definition all_have_history (l : list FeatureBaseline) (anomalies : list BehavioralAnomaly) : Prop :=
  Forall (fun a => ba_security_severity a = "high" -> has_history l a) anomalies.

Section Baselines.
Context (policy : BehavioralTelemetryPolicy) (L : list FeatureBaseline) (HL : Forall honest L).

Abbreviation baselines_are := (fun t => tt_baselines t = L).

Lemma ignores_these : ignores baselines_are.
Proof. by split. Qed.

Lemma exclude_these b : preserves (holds baselines_are) (exclude_from_training b).
Proof. by apply (keeps_exclude baselines_are). Qed.

Abbreviation judging := (under (fun p => p = policy) baselines_are).

Lemma analyzed_history buckets b :
  returns judging (run (analyzed buckets b)) (fun found s => judging s /\ all_have_history L found).
Proof.
  intros s Hs. pose proof (keeps_run _ _ (under_analyzed _ _ ignores_these exclude_these buckets b) s Hs) as Hk.
  destruct (run (analyzed buckets b) s) as [[found|] s'] eqn:Hrun; [|done]. split; [exact Hk|]. destruct Hs as [Hs Hp].
  unfold analyzed in Hrun. apply run_ok in Hrun as (policy' & s0 & [= <- <-] & Hrun). rewrite Hp in Hrun.
  apply run_ok in Hrun as (anomalies & s1 & Ha & Hrest).
  do 8 (apply run_ok in Hrest as (? & ? & _ & Hrest)). injection Hrest as <- _.
  revert Ha. rewrite run_repo. unfold on_correlation, in_repository. destruct (analyze_bucket _ _ _) as [r w] eqn:Hb. intros [= -> _].
  pose proof (analyze_of_bucket _ _ _ _ _ Hb) as Hof. apply severity_needs_history in Hb; [|by unfold honest_tables; rewrite Hs].
  unfold all_have_history, has_history. rewrite Forall_forall in Hb, Hof |- *. intros a Hin Hhigh. destruct (Hb a Hin) as [_ Hw].
  destruct (Hw Hhigh) as (fb & Hfb & Hh & Hu & Hn), (Hof a Hin) as (-> & -> & _). exists fb. by rewrite <- Hs.
Qed.

Lemma analyze_history force now buckets rest :
  returns judging (run (analyze_buckets force now buckets rest)) (fun found s => judging s /\ all_have_history L found).
Proof.
  induction rest as [|b rest IH]; cbn [analyze_buckets]; [apply returns_done; intros s Hs; split; [done|constructor]|].
  apply returns_after; [apply under_ready|intros r].
  apply returns_then with (R := fun found s => judging s /\ all_have_history L found).
  { destruct r; [apply analyzed_history|]. apply returns_done. intros s Hs. split; [done|constructor]. }
  intros found. apply returns_pure. intros Hf. eapply returns_then; [apply IH|intros others].
  apply returns_pure. intros Ho. apply returns_done. intros s Hs. split; [done|]. by apply Forall_app.
Qed.
End Baselines.

(** The baselines a batch was judged by are those before it, or those it built first. *)
Lemma process_history force batch s created s' : sincere s -> run (process_batch elapsed force batch) s = (Ok created, s') ->
  all_have_history (baselines_of s) created \/ all_have_history (baselines_of s') created.
Proof.
  intros Hs Hrun. set (policy := mg_policy s). set (L := baselines_of s). pose proof ignores_honest as HH. pose proof ignores_these as HT.
  unfold process_batch in Hrun. apply run_ok in Hrun as ([buckets had] & s1 & Hi & Hrun).
  assert (H1 : under (fun p => p = policy) (fun t => tt_baselines t = L) s1) by (eapply kept; [by apply under_ingest|done|exact Hi]).
  assert (H1' : sincere s1) by (eapply kept; [by apply under_ingest|exact Hs|exact Hi]).
  assert (H1'' : mg_policy s1 = policy) by apply H1.
  apply run_ok in Hrun as ([] & s2 & Hr & Hrun). apply run_ok in Hrun as (now & s3 & Hn & Hrun).
  apply run_ok in Hrun as (created' & s4 & Ha & Hrun). apply run_ok in Hrun as ([] & s5 & Hr' & Hrun).
  apply run_ok in Hrun as ([] & s6 & Hrep & [= <- <-]).
  assert (Hjudged : forall l, Forall honest l -> under (fun p => p = policy) (fun t => tt_baselines t = l) s2 ->
    under (fun p => p = policy) (fun t => tt_baselines t = l) s4 /\ all_have_history l created').
  { intros l Hl H2. assert (H3 : under (fun p => p = policy) (fun t => tt_baselines t = l) s3)
      by (eapply kept; [|exact H2|exact Hn]; apply under_repo; keep).
    pose proof (analyze_history policy l Hl force now buckets buckets s3 H3) as Hq. by rewrite Ha in Hq. }
  destruct had.
  - injection Hr as <-. left. apply Hjudged; [apply Hs|exact H1].
  - right. assert (H2 : under (fun p => p = policy /\ sampled p) honest_tables s2).
    { eapply kept; [|split; [apply H1'|split; [exact H1''|apply H1']]|exact Hr].
      apply under_rebuild; [done|]. intros policy' version now' l [_ Hp]. by apply honest_save. }
    destruct (Hjudged (baselines_of s2)) as [H4 Hall]; [apply H2|split; [done|apply H2]|]. injection Hr' as <-.
    assert (H6 : under (fun p => p = policy) (fun t => tt_baselines t = baselines_of s2) s6)
      by (eapply kept; [by apply under_report|exact H4|exact Hrep]).
    destruct H6 as [H6 _]. unfold on_tables in H6. by rewrite H6.
Qed.
End History.

(** C1. No severity without history. From an empty database on, whatever calls the threads of
    the manager made and however the sections of these calls interleaved, whatever statements
    failed and whatever profiles were chosen: a batch that is then processed undisturbed calls
    an anomaly [high] only when a baseline of the same host and user of at least 24 samples
    stands in the database. *)
Theorem grave_anomalies_have_history `{TelemetryEnv} host_salt host_ref monotonic elapsed
    autostart profile last n pl force batch created s' :
  rtc (pool_step host_salt host_ref monotonic elapsed) (pool_of
    (new_manager autostart profile last {| committed := no_telemetry; working := no_telemetry; in_tx := false; ticks := n |})) pl ->
  run (process_batch elapsed force batch) (pl_manager pl) = (Ok created, s') ->
  Forall (fun a => ba_security_severity a = "high" -> has_history (baselines_of (pl_manager pl)) a) created
  \/ Forall (fun a => ba_security_severity a = "high" -> has_history (baselines_of s') a) created.
Proof.
  intros Hsteps Hrun. apply (process_history elapsed force batch); [|exact Hrun].
  apply (pool_keeps host_salt host_ref monotonic elapsed (under sampled honest_tables)) in Hsteps as [Hs _]; [done|apply sincere_body| |constructor].
  split; [constructor|apply shipped_sampled].
Qed.

(** ** A day in a concrete surrounding *)

Section Day.
#[local] Instance day_env : TelemetryEnv := demo_telemetry always always.

Abbreviation day_step := (pool_step "salt" "host-1" zero_clock zero_clock).
Abbreviation day_calls := (undisturbed_calls "salt" "host-1" zero_clock zero_clock).

(** What waits is processed, and its severities. *)
Definition judged (s : Manager) : res (list BehavioralAnomaly) * Manager := run (process_batch zero_clock false (mg_queue s)) s.
Definition severities (r : res (list BehavioralAnomaly) * Manager) : list string :=
  match r.1 with Ok created => ba_security_severity <$> created | Raise _ => [] end.

(** A quiet day, then a burst: the batch before it is judged. *)
Abbreviation evening := (day_calls (submissions (ordinary 24) ++ [WorkerTurn] ++ submissions (burst 3)) morning).

Lemma grave_anomalies_have_history_witness : exists created,
  ba_security_severity <$> created = ["high"; "low"]
  /\ (Forall (fun a => ba_security_severity a = "high" -> has_history (baselines_of evening) a) created
      \/ Forall (fun a => ba_security_severity a = "high" -> has_history (baselines_of (judged evening).2) a) created).
Proof.
  assert (Hall : forall calls created s', judged (day_calls calls morning) = (Ok created, s') ->
    Forall (fun a => ba_security_severity a = "high" -> has_history (baselines_of (day_calls calls morning)) a) created
    \/ Forall (fun a => ba_security_severity a = "high" -> has_history (baselines_of s') a) created).
  { intros calls created s' Hrun. destruct (day_runs calls morning) as [rs Hrs].
    exact (grave_anomalies_have_history "salt" "host-1" zero_clock zero_clock true None (VStr "") 0 _ false _ _ _ Hrs Hrun). }
  assert (Hgrave : severities (judged evening) = ["high"; "low"]) by (vm_compute; reflexivity).
  specialize (Hall (submissions (ordinary 24) ++ [WorkerTurn] ++ submissions (burst 3))).
  revert Hgrave Hall. generalize evening as s. intros s Hgrave Hall. unfold severities in Hgrave.
  destruct (judged s) as [[created|e] s'] eqn:Hrun; [|done]. exists created.
  split; [exact Hgrave|]. by apply Hall.
Defined.
End Day.
