(* ===== verification/PostureAssurance.v ===== *)
(** Continuous security assurance: [continuous_security_assurance.py]. Evidence
    becomes signals, signals domain scores and a posture snapshot under a digest;
    two snapshots are compared into changes; both are kept in two tables.

    An object read back from a table is known by its [to_dict()]: the constructors
    check the names of the fields they are given, not the types of the values. *)

From S2P Require Import Prelude PyStr PyFloat PyDict PyJson PyTime Sql PyRepr JsonCanon AlertIntegrity.

(** ** Data *)

Record SignalDefinition := {
  sd_key : string;
  sd_domain : string;
  sd_label : string;
  sd_weight : Z;
  sd_healthy : string;
  sd_severity : string;
  sd_mitre : list string;
  sd_recommendation : string
}.

Record PostureSignalResult := {
  sr_key : string;
  sr_domain : string;
  sr_label : string;
  sr_status : string;
  sr_observed_value : pyval;
  sr_weight : Z;
  sr_score_credit : Z;
  sr_evidence_reference : list string;
  sr_severity : string;
  sr_mitre_mapping : list string;
  sr_explanation : string;
  sr_recommended_action : string
}.

Record SecurityPostureSnapshot := {
  ps_snapshot_id : string;
  ps_timestamp : string;
  ps_device_id : string;
  ps_hostname : string;
  ps_security_score : Z;
  ps_trust_score : Z;
  ps_configuration_score : Z;
  ps_software_score : Z;
  ps_threat_score : Z;
  ps_compliance_score : Z;
  ps_recovery_score : Z;
  ps_evidence_coverage_percent : Z;
  ps_trust_decision : string;
  ps_signals : list PostureSignalResult;
  ps_score_explanation : list string;
  ps_integrity_hash : string
}.

Record SecurityPostureChange := {
  pc_change_id : string;
  pc_event_id : string;
  pc_timestamp : string;
  pc_hostname : string;
  pc_category : string;
  pc_previous_state : pyval;
  pc_current_state : pyval;
  pc_change_type : string;
  pc_affected_component : string;
  pc_severity : string;
  pc_risk_score_change : Z;
  pc_evidence_reference : list string;
  pc_mitre_mapping : list string;
  pc_recommended_action : string;
  pc_analyst_status : string;
  pc_description : string;
  pc_correlated_change_ids : list string
}.

(** A tuple of texts. *)
Definition texts (l : list string) : pyval := VTuple (VStr <$> l).

(** [PostureSignalResult.to_dict] *)
Definition signal_dict (s : PostureSignalResult) : pydict := [
  ("key", VStr (sr_key s)); ("domain", VStr (sr_domain s)); ("label", VStr (sr_label s));
  ("status", VStr (sr_status s)); ("observed_value", sr_observed_value s); ("weight", VInt (sr_weight s));
  ("score_credit", VInt (sr_score_credit s)); ("evidence_reference", texts (sr_evidence_reference s));
  ("severity", VStr (sr_severity s)); ("mitre_mapping", texts (sr_mitre_mapping s));
  ("explanation", VStr (sr_explanation s)); ("recommended_action", VStr (sr_recommended_action s))].

(** [SecurityPostureSnapshot.to_dict] *)
Definition snapshot_dict (s : SecurityPostureSnapshot) : pydict := [
  ("snapshot_id", VStr (ps_snapshot_id s)); ("timestamp", VStr (ps_timestamp s));
  ("device_id", VStr (ps_device_id s)); ("hostname", VStr (ps_hostname s));
  ("security_score", VInt (ps_security_score s)); ("trust_score", VInt (ps_trust_score s));
  ("configuration_score", VInt (ps_configuration_score s)); ("software_score", VInt (ps_software_score s));
  ("threat_score", VInt (ps_threat_score s)); ("compliance_score", VInt (ps_compliance_score s));
  ("recovery_score", VInt (ps_recovery_score s));
  ("evidence_coverage_percent", VInt (ps_evidence_coverage_percent s));
  ("trust_decision", VStr (ps_trust_decision s));
  ("signals", VList ((fun i => VDict (signal_dict i)) <$> ps_signals s));
  ("score_explanation", texts (ps_score_explanation s)); ("integrity_hash", VStr (ps_integrity_hash s))].

(** [SecurityPostureChange.to_dict] *)
Definition change_dict (c : SecurityPostureChange) : pydict := [
  ("change_id", VStr (pc_change_id c)); ("event_id", VStr (pc_event_id c));
  ("timestamp", VStr (pc_timestamp c)); ("hostname", VStr (pc_hostname c));
  ("category", VStr (pc_category c)); ("previous_state", pc_previous_state c);
  ("current_state", pc_current_state c); ("change_type", VStr (pc_change_type c));
  ("affected_component", VStr (pc_affected_component c)); ("severity", VStr (pc_severity c));
  ("risk_score_change", VInt (pc_risk_score_change c));
  ("evidence_reference", texts (pc_evidence_reference c)); ("mitre_mapping", texts (pc_mitre_mapping c));
  ("recommended_action", VStr (pc_recommended_action c)); ("analyst_status", VStr (pc_analyst_status c));
  ("description", VStr (pc_description c)); ("correlated_change_ids", texts (pc_correlated_change_ids c))].

(** The snapshot rebuilt with its digest. *)
Definition with_hash (digest : string) (s : SecurityPostureSnapshot) : SecurityPostureSnapshot := {|
  ps_snapshot_id := ps_snapshot_id s; ps_timestamp := ps_timestamp s; ps_device_id := ps_device_id s;
  ps_hostname := ps_hostname s; ps_security_score := ps_security_score s; ps_trust_score := ps_trust_score s;
  ps_configuration_score := ps_configuration_score s; ps_software_score := ps_software_score s;
  ps_threat_score := ps_threat_score s; ps_compliance_score := ps_compliance_score s;
  ps_recovery_score := ps_recovery_score s; ps_evidence_coverage_percent := ps_evidence_coverage_percent s;
  ps_trust_decision := ps_trust_decision s; ps_signals := ps_signals s;
  ps_score_explanation := ps_score_explanation s; ps_integrity_hash := digest |}.

Definition signal_of (key domain label : string) (weight : Z) (healthy severity : string) (mitre : list string)
    (recommendation : string) : SignalDefinition :=
  {| sd_key := key; sd_domain := domain; sd_label := label; sd_weight := weight; sd_healthy := healthy;
     sd_severity := severity; sd_mitre := mitre; sd_recommendation := recommendation |}.

Definition DEFAULT_SIGNALS : list SignalDefinition := [
  signal_of "identity_accounts_authorized" "identity" "Accounts and administrators authorized" 10 "true" "critical" ["T1098"]
    "Review account and administrator changes against approved change records.";
  signal_of "authentication_anomalies" "identity" "Authentication anomalies" 8 "zero" "high" ["T1078"]
    "Review authentication timing, source, affected user, and related process evidence.";
  signal_of "ssh_identity_changes" "identity" "Unauthorized SSH identity changes" 7 "zero" "critical" ["T1098"]
    "Preserve SSH fingerprints and validate the change with the affected user.";
  signal_of "unapproved_applications" "software" "Unapproved applications" 8 "zero" "high" ["T1518"]
    "Validate the application against approved inventory and change records.";
  signal_of "unsigned_applications" "software" "Unsigned applications requiring review" 8 "zero" "high" ["T1553.002"]
    "Validate provenance, signature, hash, origin, and business purpose.";
  signal_of "modified_trusted_applications" "software" "Modified trusted applications" 10 "zero" "critical" ["T1195"]
    "Preserve both hashes and validate the update through the vendor's trusted channel.";
  signal_of "known_vulnerabilities" "software" "Applicable known vulnerabilities" 7 "zero" "high" []
    "Validate applicability and install an approved vendor remediation.";
  signal_of "firewall_enabled" "configuration" "Firewall enabled" 7 "true" "high" ["T1562.004"]
    "Restore the approved firewall configuration after validating the change.";
  signal_of "filevault_enabled" "configuration" "FileVault enabled" 8 "true" "critical" []
    "Confirm encryption status and restore the approved encryption policy.";
  signal_of "sip_enabled" "configuration" "System Integrity Protection enabled" 7 "true" "critical" ["T1562.001"]
    "Investigate the authorized recovery workflow and restore the approved SIP state.";
  signal_of "gatekeeper_enabled" "configuration" "Gatekeeper enabled" 5 "true" "high" ["T1553.001"]
    "Restore the approved Gatekeeper policy and review the responsible change.";
  signal_of "privacy_controls_compliant" "configuration" "Privacy controls compliant" 5 "true" "high" ["T1548"]
    "Review sensitive TCC grants through Apple-supported controls.";
  signal_of "suspicious_persistence" "threat" "Suspicious persistence findings" 10 "zero" "critical" ["T1543.001"; "T1543.004"; "T1053"]
    "Preserve persistence configuration and executable evidence before authorized remediation.";
  signal_of "ransomware_indicators" "threat" "Ransomware behavior indicators" 10 "zero" "critical" ["T1486"]
    "Capture evidence and initiate the authorized ransomware investigation workflow.";
  signal_of "suspicious_network_activity" "threat" "Suspicious network activity" 7 "zero" "high" ["T1071"; "T1105"]
    "Correlate the destination with process, user, and file activity evidence.";
  signal_of "backup_healthy" "recovery" "Approved backup available and healthy" 8 "true" "critical" ["T1490"]
    "Validate protected backup availability and recovery testing status.";
  signal_of "evidence_collection_ready" "recovery" "Evidence collection ready" 6 "true" "high" []
    "Repair evidence collection readiness before an incident requires it.";
  signal_of "response_workflow_ready" "recovery" "Incident response workflow ready" 6 "true" "high" []
    "Validate authorization, containment, and recovery procedures."].

Definition DOMAIN_WEIGHTS : list (string * Z) :=
  [("identity", 20); ("software", 20); ("configuration", 25); ("threat", 25); ("recovery", 10)].

(** ** The engine *)

(** What evaluation and storage meet outside: the store's environment, [uuid4().hex]. *)
Class AssuranceEnv := {
  #[global] assurance_store :: StoreEnv;
  uuid4_hex : nat -> string
}.

(** What [hexdigest()] documents: an ASCII text that is not empty. *)
Class HexDigests `{PlatformEnv} := {
  sha256_ascii : forall m, is_ascii (sha256 m) = true;
  sha256_some : forall m, truthy (sha256 m) = true
}.

(** [_clamp] *)
Definition clamp (f : float) : Z := Z.max 0 (Z.min 100 (fround f)).

Definition weight_of_signals (l : list PostureSignalResult) : Z := zsum sr_weight l.

(** [_domain_score] *)
Definition domain_score (signals : list PostureSignalResult) (domain : string) : Z :=
  let selected := filter (fun s => sr_domain s = domain) signals in
  let total := weight_of_signals selected in
  if total =? 0 then 0 else clamp (int_div (100 * zsum sr_score_credit selected) total).

Definition domain_scores (signals : list PostureSignalResult) : list (string * Z) :=
  (fun kw => (kw.1, domain_score signals kw.1)) <$> DOMAIN_WEIGHTS.

Definition score_in (domain : string) (scores : list (string * Z)) : Z := dget_default 0 domain scores.

Definition security_score_of (scores : list (string * Z)) : Z :=
  clamp (int_div (zsum (fun kw => score_in kw.1 scores * kw.2) DOMAIN_WEIGHTS) 100).

Definition known (s : PostureSignalResult) : bool := negb (String.eqb (sr_status s) "unknown").

Definition coverage_of (signals : list PostureSignalResult) : Z :=
  let total := weight_of_signals signals in
  if total =? 0 then 0
  else clamp (int_div (100 * weight_of_signals (filter (fun s => known s = true) signals)) total).

Definition trust_score_of (scores : list (string * Z)) : Z :=
  clamp (int_div (score_in "identity" scores + score_in "software" scores + score_in "configuration" scores) 3).

Definition critical_concern (s : PostureSignalResult) : bool :=
  String.eqb (sr_status s) "concern" && String.eqb (sr_severity s) "critical".

(** [_trust_decision] *)
Definition trust_decision_of (score coverage : Z) (signals : list PostureSignalResult) : string :=
  if coverage <? 60 then "INSUFFICIENT EVIDENCE"
  else if existsb critical_concern signals then "RESTRICTED TRUST"
  else if 90 <=? score then "VERIFIED TRUST"
  else if 70 <=? score then "CONDITIONAL TRUST"
  else "RESTRICTED TRUST".

(** [_score_explanations] *)
Definition score_explanations (signals : list PostureSignalResult) (scores : list (string * Z)) (score coverage : Z)
    : list string :=
  [ "Overall score " +:+ str_of_Z score +:+ "/100 from weighted domain scores: "
      +:+ join ", " ((fun kv => kv.1 +:+ "=" +:+ str_of_Z kv.2) <$> scores) +:+ ".";
    "Evidence coverage is " +:+ str_of_Z coverage +:+ "%; unknown signals receive no trust credit." ]
  ++ ((fun s => "No credit: " +:+ sr_explanation s)
      <$> filter (fun s => one_of (sr_status s) ["concern"; "unknown"] = true) signals).

(** [evaluate]: the snapshot before its digest *)
Definition base_snapshot (snapshot_id timestamp device_id hostname : string) (signals : list PostureSignalResult)
    : SecurityPostureSnapshot :=
  let scores := domain_scores signals in
  let score := security_score_of scores in
  let coverage := coverage_of signals in
  {| ps_snapshot_id := "csae-snapshot-" +:+ snapshot_id; ps_timestamp := timestamp; ps_device_id := device_id;
     ps_hostname := hostname; ps_security_score := score; ps_trust_score := trust_score_of scores;
     ps_configuration_score := score_in "configuration" scores; ps_software_score := score_in "software" scores;
     ps_threat_score := score_in "threat" scores; ps_compliance_score := score_in "configuration" scores;
     ps_recovery_score := score_in "recovery" scores; ps_evidence_coverage_percent := coverage;
     ps_trust_decision := trust_decision_of score coverage signals; ps_signals := signals;
     ps_score_explanation := score_explanations signals scores score coverage; ps_integrity_hash := "" |}.

(** [_validate_definitions] *)
Fixpoint definitions_ok (seen : list string) (l : list SignalDefinition) : res unit :=
  match l with
  | [] => Ok tt
  | d :: l' =>
      raise_if (one_of (sd_key d) seen || negb (dmem (sd_domain d) DOMAIN_WEIGHTS)
                || negb (one_of (sd_healthy d) ["true"; "zero"]) || (sd_weight d <=? 0))
        (ValueError ("Invalid CSAE signal definition: " +:+ sd_key d));;
      definitions_ok (sd_key d :: seen) l'
  end.
Definition validate_definitions : list SignalDefinition -> res unit := definitions_ok [].

(** [{item.key: item for item in signals}] *)
Definition by_key (signals : list PostureSignalResult) : list (string * PostureSignalResult) :=
  foldl (fun d s => dset (sr_key s) s d) [] signals.

(** [sorted({...})] *)
Definition sorted_texts (l : list string) : list string := sort_by str_le (remove_dups l).

Definition nonblank (s : string) : bool := negb (blank s).

(** [tuple(str(item) for item in refs if str(item).strip())] of a text or an iterable *)
Definition reference_texts `{PlatformEnv} (refs : pyval) : res (list string) :=
  items ← py_iter (match refs with VStr _ => VList [refs] | _ => refs end);
  Ok (filter (fun s => nonblank s = true) (py_str <$> (items : list pyval))).

Section Engine.
Context `{AssuranceEnv} (definitions : list SignalDefinition).

(** [_value_and_refs] *)
Definition value_and_refs (raw references : pyval) (key : string) : res (pyval * list string) :=
  let referenced := match references with VDict r => dget_default (VList []) key r | _ => VList [] end in
  let '(value, refs) := match raw with
    | VDict d =>
        if dmem "value" d
        then (vget "value" d, dget_default (dget_default (VList []) "evidence_references" d) "evidence_reference" d)
        else (raw, referenced)
    | _ => (raw, referenced)
    end in
  texts ← reference_texts refs; Ok (value, texts).

(** [int(value) == 0], [TypeError] and [ValueError] being unknown *)
Definition zero_status (value : pyval) : res string :=
  match py_int value with
  | Ok n => Ok (if n =? 0 then "validated" else "concern")
  | Raise (TypeError _) | Raise (ValueError _) => Ok "unknown"
  | Raise e => Raise e
  end.

(** [_status] *)
Definition status_of (value : pyval) (healthy : string) : res string :=
  match value with
  | VNone | VStr "" => Ok "unknown"
  | _ =>
      if String.eqb healthy "zero" then zero_status value
      else Ok match value with
        | VStr s =>
            let normalized := lower (strip s) in
            if one_of normalized ["true"; "enabled"; "verified"; "healthy"; "compliant"; "approved"] then "validated"
            else if one_of normalized ["false"; "disabled"; "invalid"; "unhealthy"; "non_compliant"; "unapproved"]
            then "concern" else "unknown"
        | VBool true => "validated"
        | VBool false => "concern"
        | _ => "unknown"
        end
  end.

(** [_evaluate_signal] *)
Definition evaluate_signal (evidence : pydict) (d : SignalDefinition) : res PostureSignalResult :=
  '(value, refs) ← value_and_refs (vget (sd_key d) evidence)
                     (dget_default (VDict []) "evidence_references" evidence) (sd_key d);
  status ← status_of value (sd_healthy d);
  let shown := if String.eqb status "unknown" then "not collected" else py_repr value in
  Ok {| sr_key := sd_key d; sr_domain := sd_domain d; sr_label := sd_label d; sr_status := status;
        sr_observed_value := value; sr_weight := sd_weight d;
        sr_score_credit := if String.eqb status "validated" then sd_weight d else 0;
        sr_evidence_reference := refs; sr_severity := sd_severity d; sr_mitre_mapping := sd_mitre d;
        sr_explanation := sd_label d +:+ ": " +:+ status +:+ "; observed " +:+ shown +:+ ".";
        sr_recommended_action := sd_recommendation d |}.

Definition evaluate_signals (evidence : pydict) : res (list PostureSignalResult) :=
  res_map (evaluate_signal evidence) definitions.

(** [hashlib.sha256(_canonical(payload).encode()).hexdigest()] *)
Definition digest_of (payload : pydict) : res string := t ← canonical_text (VDict payload); Ok (sha256 t).

(** [_overall_signal_impact] *)
Definition overall_signal_impact (s : PostureSignalResult) : res Z :=
  let domain_total := zsum sd_weight (filter (fun d => sd_domain d = sr_domain s) definitions) in
  match dget (sr_domain s) DOMAIN_WEIGHTS with
  | None => Raise (KeyError (sr_domain s))
  | Some w =>
      if domain_total =? 0 then Raise (ZeroDivisionError "division by zero")
      else Ok (Z.max 1 (fround (int_div (w * sr_weight s) domain_total)))
  end.

(** Something asked of the environment, at the current count of questions. *)
Definition ask {A} (f : nat -> A) : M nat A := fun n => (Ok (f n), S n).

Definition change_type_of (old now : PostureSignalResult) : string :=
  if String.eqb (sr_status old) "validated" && String.eqb (sr_status now) "concern" then "regression"
  else if String.eqb (sr_status old) "concern" && String.eqb (sr_status now) "validated" then "improvement"
  else "changed".

Definition impact_of (kind : string) (now : PostureSignalResult) : res Z :=
  if String.eqb kind "regression" then i ← overall_signal_impact now; Ok (- i)
  else if String.eqb kind "improvement" then overall_signal_impact now
  else Ok 0.

Definition change_severity (kind : string) (now : PostureSignalResult) : string :=
  if String.eqb kind "regression" then sr_severity now
  else if String.eqb kind "improvement" then "info" else "low".

(** One signal of the loop of [compare]: nothing when either side is unknown or both agree. *)
Definition compare_signal (before : list (string * PostureSignalResult)) (current : SecurityPostureSnapshot)
    (now : PostureSignalResult) : M nat (list SecurityPostureChange) :=
  match dget (sr_key now) before with
  | None => mret []
  | Some old =>
      if negb (known old) || negb (known now) then mret []
      else
        old_text ← lift_res (canonical_text (sr_observed_value old));
        now_text ← lift_res (canonical_text (sr_observed_value now));
        if String.eqb old_text now_text && String.eqb (sr_status old) (sr_status now) then mret []
        else
          let kind := change_type_of old now in
          impact ← lift_res (impact_of kind now);
          change_id ← ask uuid4_hex;
          event_id ← ask uuid4_hex;
          mret [{| pc_change_id := "csae-change-" +:+ change_id; pc_event_id := "csae-event-" +:+ event_id;
                   pc_timestamp := ps_timestamp current; pc_hostname := ps_hostname current;
                   pc_category := sr_domain now; pc_previous_state := sr_observed_value old;
                   pc_current_state := sr_observed_value now; pc_change_type := kind;
                   pc_affected_component := sr_label now; pc_severity := change_severity kind now;
                   pc_risk_score_change := impact; pc_evidence_reference := sr_evidence_reference now;
                   pc_mitre_mapping := sr_mitre_mapping now; pc_recommended_action := sr_recommended_action now;
                   pc_analyst_status := "new";
                   pc_description := sr_label now +:+ " changed from " +:+ sr_status old +:+ " to " +:+ sr_status now +:+ ".";
                   pc_correlated_change_ids := [] |}]
  end.

Fixpoint compare_signals (before : list (string * PostureSignalResult)) (current : SecurityPostureSnapshot)
    (signals : list PostureSignalResult) : M nat (list SecurityPostureChange) :=
  match signals with
  | [] => mret []
  | now :: rest =>
      c ← compare_signal before current now;
      cs ← compare_signals before current rest;
      mret (c ++ cs)
  end.

(** [compare] *)
Definition compare_snapshots (previous : option SecurityPostureSnapshot) (current : SecurityPostureSnapshot)
    : M nat (list SecurityPostureChange) :=
  match previous with
  | None => mret []
  | Some p => compare_signals (by_key (ps_signals p)) current (ps_signals current)
  end.

Definition REQUIRED_FOR_PATTERN : list string :=
  ["unsigned_applications"; "suspicious_persistence"; "suspicious_network_activity"].

Definition pattern_source (c : SecurityPostureChange) : bool :=
  String.eqb (pc_change_type c) "regression"
  && existsb (fun token => contains token (lower (pc_affected_component c))) ["unsigned"; "persistence"; "network"].

(** [correlate] *)
Definition correlate (changes : list SecurityPostureChange) (s : SecurityPostureSnapshot)
    : M nat (list SecurityPostureChange) :=
  let concerns := by_key (filter (fun i => sr_status i = "concern") (ps_signals s)) in
  let sources := filter (fun c => pattern_source c = true) changes in
  if forallb (fun k => dmem k concerns) REQUIRED_FOR_PATTERN && (2 <=? zlen sources) then
    let evidence := sorted_texts (concat
      ((fun k => match dget k concerns with Some i => sr_evidence_reference i | None => [] end) <$> REQUIRED_FOR_PATTERN)) in
    correlation_id ← ask uuid4_hex;
    event_id ← ask uuid4_hex;
    mret (changes ++ [{|
      pc_change_id := "csae-correlation-" +:+ correlation_id; pc_event_id := "csae-event-" +:+ event_id;
      pc_timestamp := ps_timestamp s; pc_hostname := ps_hostname s; pc_category := "cross_module_correlation";
      pc_previous_state := VStr "no correlated deployment pattern";
      pc_current_state := VStr "unsigned software + persistence + network activity";
      pc_change_type := "correlated_regression"; pc_affected_component := "Possible persistence deployment";
      pc_severity := "critical"; pc_risk_score_change := -20; pc_evidence_reference := evidence;
      pc_mitre_mapping := ["T1543.001"; "T1543.004"; "T1105"];
      pc_recommended_action := "Preserve process, persistence, application, and network evidence; begin an authorized investigation.";
      pc_analyst_status := "new";
      pc_description := "Multiple independently collected signals form a possible persistence deployment pattern; this is not proof of compromise.";
      pc_correlated_change_ids := pc_change_id <$> sources |}])
  else mret changes.

(** [timestamp or _utc_now()] *)
Definition timestamp_or_now (timestamp : option string) : M nat string :=
  match timestamp with
  | Some t => if truthy t then mret t else ask (fun n => isoformat_utc (utc_clock n))
  | None => ask (fun n => isoformat_utc (utc_clock n))
  end.

(** [evaluate] *)
Definition evaluate (evidence : pydict) (device_id hostname : string) (timestamp : option string)
    (previous : option SecurityPostureSnapshot) : M nat (SecurityPostureSnapshot * list SecurityPostureChange) :=
  at_time ← timestamp_or_now timestamp;
  signals ← lift_res (evaluate_signals evidence);
  id ← ask uuid4_hex;
  let base := base_snapshot id at_time device_id hostname signals in
  digest ← lift_res (digest_of (snapshot_dict base));
  let snapshot := with_hash digest base in
  changes ← compare_snapshots previous snapshot;
  correlated ← correlate changes snapshot;
  mret (snapshot, correlated).
End Engine.

(** ** What analysts are shown *)

Definition is_grave (c : SecurityPostureChange) : bool := one_of (pc_severity c) ["high"; "critical"].

(** [alert_payloads] *)
Definition alert_payloads (changes : list SecurityPostureChange) : list pydict :=
  (fun c => [("event_id", VStr (pc_event_id c)); ("timestamp", VStr (pc_timestamp c));
             ("event_type", VStr "continuous_security_assurance_change"); ("severity", VStr (pc_severity c));
             ("source", VStr "continuous_security_assurance"); ("evidence", VList (VStr <$> pc_evidence_reference c));
             ("recommendation", VStr (pc_recommended_action c)); ("metadata", VDict (change_dict c));
             ("simulated", VBool false)])
  <$> filter (fun c => is_grave c = true) changes.

Definition percent_confidence (coverage : Z) : string :=
  if 90 <=? coverage then "high" else if 70 <=? coverage then "medium" else "low".

(** [analyst_context] *)
Definition analyst_context (s : SecurityPostureSnapshot) (changes : list SecurityPostureChange) : pydict := [
  ("observed_facts", VList ((fun c => VDict (change_dict c)) <$> changes));
  ("score_explanation", VList (VStr <$> ps_score_explanation s));
  ("interpretation", VStr ("Device trust decision is " +:+ ps_trust_decision s +:+ " with "
     +:+ str_of_Z (ps_evidence_coverage_percent s) +:+ "% evidence coverage."));
  ("uncertainty", VList ((fun i => VStr (sr_explanation i)) <$> filter (fun i => known i = false) (ps_signals s)));
  ("confidence", VStr (percent_confidence (ps_evidence_coverage_percent s)));
  ("guardrail", VStr "This context does not establish compromise and must not trigger autonomous remediation.")].

(** [dashboard] *)
Definition dashboard (s : SecurityPostureSnapshot) (changes : list SecurityPostureChange)
    (history : list SecurityPostureSnapshot) : pydict := [
  ("category", VStr "Continuous Security Assurance"); ("current_security_posture", VInt (ps_security_score s));
  ("trust_score", VInt (ps_trust_score s)); ("trust_decision", VStr (ps_trust_decision s));
  ("evidence_coverage_percent", VInt (ps_evidence_coverage_percent s));
  ("compliance_status", VStr (if 90 <=? ps_compliance_score s then "compliant"
     else if 70 <=? ps_compliance_score s then "needs_review" else "non_compliant"));
  ("recent_changes", VList ((fun c => VDict (change_dict c)) <$> changes));
  ("security_regressions", VList ((fun c => VDict (change_dict c))
     <$> filter (fun c => one_of (pc_change_type c) ["regression"; "correlated_regression"] = true) changes));
  ("risk_trend", VList ((fun p => VDict [("timestamp", VStr (ps_timestamp p)); ("score", VInt (ps_security_score p))])
     <$> (history ++ [s])));
  ("actions", VList (VStr <$> ["view_timeline"; "investigate_change"; "compare_snapshots"; "generate_report";
     "start_response_workflow"]))].

(** ** The repository *)

(** [security_posture_history] *)
Record posture_row := {
  ph_snapshot_id : string;
  ph_timestamp : string;
  ph_device_id : string;
  ph_hostname : string;
  ph_scores : list Z;       (** the seven score columns and the coverage *)
  ph_integrity_hash : string;
  ph_payload_json : json_text
}.

(** [security_changes] *)
Record change_row := {
  cr_change_id : string;
  cr_event_id : string;
  cr_timestamp : string;
  cr_hostname : string;
  cr_component : string;
  cr_previous_value : json_text;
  cr_new_value : json_text;
  cr_risk_impact : Z;
  cr_severity : string;
  cr_evidence_json : json_text;
  cr_payload_json : json_text
}.

Record AssuranceTables := {
  a_history : list posture_row;
  a_changes : list change_row
}.

Definition AssuranceDb : Type := Conn AssuranceTables.

(** [LIMIT max(1, min(limit, 1000))] *)
Definition bounded_limit (limit : Z) : nat := Z.to_nat (Z.max 1 (Z.min limit 1000)).

(** A dataclass built from the items of a dict: every required field once, no other ones; the fields in
    their order. *)
Definition construct (required : list string) (optional : list (string * pyval)) (item : pyval) : res pydict :=
  match item with
  | VDict d =>
      raise_if (negb (forallb (fun k => dmem k d) required)
                || negb (forallb (fun kv => one_of kv.1 (required ++ keys optional)) d))
        (TypeError "__init__() got missing or unexpected arguments");;
      Ok (((fun k => (k, vget k d)) <$> required)
          ++ ((fun kv => (kv.1, dget_default kv.2 kv.1 d)) <$> optional))
  | _ => Raise (TypeError "argument after two asterisks must be a mapping")
  end.

Definition SIGNAL_FIELDS : list string :=
  ["key"; "domain"; "label"; "status"; "observed_value"; "weight"; "score_credit"; "evidence_reference"; "severity";
   "mitre_mapping"; "explanation"; "recommended_action"].

Definition SNAPSHOT_FIELDS : list string :=
  ["snapshot_id"; "timestamp"; "device_id"; "hostname"; "security_score"; "trust_score"; "configuration_score";
   "software_score"; "threat_score"; "compliance_score"; "recovery_score"; "evidence_coverage_percent";
   "trust_decision"; "signals"; "score_explanation"].

(** [json.loads(text)], a dict being asked for *)
Definition loads_dict (t : json_text) : res pydict :=
  match t with
  | JsonOf (VDict d) => Ok d
  | JsonOf _ => Raise (AttributeError "object has no attribute 'get'")
  | NotJson _ => Raise (ValueError "Expecting value")
  end.

Section Repository.
Context `{AssuranceEnv}.

(** The canonical text of a value in a text column. *)
Definition canonical_column (v : pyval) : json_text := JsonOf (normal v).

(** A payload with its digest taken out. *)
Definition emptied (field : string) (payload : pydict) : pydict := dset field (VStr "") (ddel field payload).

(** [verify_snapshot], of the snapshot's [to_dict()] *)
Definition verify_snapshot (payload : pydict) : res bool :=
  let expected := py_str (dget_default (VStr "") "integrity_hash" payload) in
  if negb (truthy expected) then Ok false
  else digest ← digest_of (emptied "integrity_hash" payload); Ok (String.eqb digest expected).

(** [_snapshot]: the [to_dict()] of the snapshot a payload describes *)
Definition snapshot_of_payload (payload : pydict) : res pydict :=
  items ← py_iter (dget_default (VList []) "signals" payload);
  signals ← res_map (construct SIGNAL_FIELDS []) items;
  lines ← py_iter (dget_default (VList []) "score_explanation" payload);
  construct SNAPSHOT_FIELDS [("integrity_hash", VStr "")]
    (VDict (dset "score_explanation" (VTuple lines) (dset "signals" (VList (VDict <$> signals)) payload))).

Definition posture_row_of (s : SecurityPostureSnapshot) : posture_row := {|
  ph_snapshot_id := ps_snapshot_id s; ph_timestamp := ps_timestamp s; ph_device_id := ps_device_id s;
  ph_hostname := ps_hostname s;
  ph_scores := [ps_security_score s; ps_trust_score s; ps_configuration_score s; ps_software_score s;
    ps_threat_score s; ps_compliance_score s; ps_recovery_score s; ps_evidence_coverage_percent s];
  ph_integrity_hash := ps_integrity_hash s; ph_payload_json := canonical_column (VDict (snapshot_dict s)) |}.

Definition change_row_of (c : SecurityPostureChange) : change_row := {|
  cr_change_id := pc_change_id c; cr_event_id := pc_event_id c; cr_timestamp := pc_timestamp c;
  cr_hostname := pc_hostname c; cr_component := pc_affected_component c;
  cr_previous_value := canonical_column (pc_previous_state c); cr_new_value := canonical_column (pc_current_state c);
  cr_risk_impact := pc_risk_score_change c; cr_severity := pc_severity c;
  cr_evidence_json := canonical_column (texts (pc_evidence_reference c));
  cr_payload_json := canonical_column (VDict (change_dict c)) |}.

Definition insert_posture (r : posture_row) (t : AssuranceTables) : res AssuranceTables :=
  raise_if (existsb (fun o => String.eqb (ph_snapshot_id o) (ph_snapshot_id r)) (a_history t))
    (IntegrityError "UNIQUE constraint failed: security_posture_history.snapshot_id");;
  Ok {| a_history := a_history t ++ [r]; a_changes := a_changes t |}.

Definition insert_change (r : change_row) (t : AssuranceTables) : res AssuranceTables :=
  raise_if (existsb (fun o => String.eqb (cr_change_id o) (cr_change_id r)) (a_changes t))
    (IntegrityError "UNIQUE constraint failed: security_changes.change_id");;
  raise_if (existsb (fun o => String.eqb (cr_event_id o) (cr_event_id r)) (a_changes t))
    (IntegrityError "UNIQUE constraint failed: security_changes.event_id");;
  Ok {| a_history := a_history t; a_changes := a_changes t ++ [r] |}.

Fixpoint insert_changes (changes : list SecurityPostureChange) : M AssuranceDb unit :=
  match changes with
  | [] => mret tt
  | c :: rest => sql_write_checked (insert_change (change_row_of c));; insert_changes rest
  end.

(** [save] *)
Definition save_posture (s : SecurityPostureSnapshot) (changes : list SecurityPostureChange) : M AssuranceDb unit :=
  with_connection (
    sql_write_checked (insert_posture (posture_row_of s));;
    insert_changes changes).

(** [WHERE device_id=? ORDER BY timestamp DESC], by the index of the table *)
Definition device_history (device_id : string) (t : AssuranceTables) : list posture_row :=
  sort_by (fun a b => str_le (ph_timestamp b) (ph_timestamp a)) (filter (fun r => ph_device_id r = device_id) (a_history t)).

Definition load_row (r : posture_row) : res pydict := d ← loads_dict (ph_payload_json r); snapshot_of_payload d.

Definition integrity_failure (id : pyval) : exn :=
  ValueError ("CSAE snapshot integrity verification failed: " +:+ py_str id).

(** [latest] *)
Definition latest_posture (device_id : string) : M AssuranceDb (option pydict) :=
  row ← sql_read (fun t => head (device_history device_id t));
  match row with
  | None => mret None
  | Some r =>
      snapshot ← lift_res (load_row r);
      ok ← lift_res (verify_snapshot snapshot);
      if (ok : bool) then mret (Some snapshot) else raise_st (integrity_failure (vget "snapshot_id" snapshot))
  end.

(** [history]: the snapshots, newest first, unless one of them fails verification *)
Definition posture_history (device_id : string) (limit : Z) : M AssuranceDb (list pydict) :=
  rows ← sql_read (fun t => take (bounded_limit limit) (device_history device_id t));
  snapshots ← lift_res (res_map load_row rows);
  verdicts ← lift_res (res_map verify_snapshot snapshots);
  let invalid := (fun p : pydict * bool => py_str (vget "snapshot_id" p.1))
                 <$> filter (fun p : pydict * bool => p.2 = false) (zip snapshots verdicts) in
  if bool_decide (invalid = []) then mret snapshots
  else raise_st (ValueError ("CSAE snapshot integrity verification failed: " +:+ join ", " invalid)).

(** [changes] *)
Definition posture_changes (limit : Z) : M AssuranceDb (list pyval) :=
  rows ← sql_read (fun t => take (bounded_limit limit)
    (sort_by (fun a b => str_le (cr_timestamp b) (cr_timestamp a)) (a_changes t)));
  lift_res (res_map (fun r => match cr_payload_json r with
    | JsonOf v => Ok v | NotJson _ => Raise (ValueError "Expecting value") end) rows).
End Repository.
