(* ===== verification/PostureAssuranceFacts.v ===== *)
(** What continuous assurance promises: snapshots that verify and read back, scores
    within bounds and earned by validated evidence only, changes that are exactly the
    known differences. *)

From S2P Require Import Prelude PyStr PyFloat PyDict PyJson PyTime Sql PyRepr JsonCanon AlertIntegrity PostureAssurance.
From Stdlib Require Import Ascii.

(** ** Signals *)

Section Signals.
Context `{AssuranceEnv}.

Definition signal_states : list string := ["validated"; "concern"; "unknown"].

Lemma zero_status_in v st : zero_status v = Ok st -> st ∈ signal_states.
Proof.
  unfold zero_status, signal_states. rewrite !elem_of_cons.
  destruct (py_int v) as [n|[]]; intros [= <-]; [destruct (n =? 0)| |]; tauto.
Qed.

Lemma status_of_in v healthy st : status_of v healthy = Ok st -> st ∈ signal_states.
Proof.
  assert (Hu : "unknown" ∈ signal_states) by (by apply one_of_spec).
  assert (Hv : "validated" ∈ signal_states) by (by apply one_of_spec).
  assert (Hc : "concern" ∈ signal_states) by (by apply one_of_spec).
  unfold status_of. destruct v as [|[]|z|f|[|a s]|s|l|l|d|t]; try (intros [= <-]; done);
    destruct (String.eqb healthy "zero"); try apply zero_status_in; try (intros [= <-]; done).
  destruct (one_of _ _); [intros [= <-]; done|]. destruct (one_of _ _); intros [= <-]; done.
Qed.

(** How a signal relates to the definition it was evaluated from. *)
Definition evaluates (d : SignalDefinition) (s : PostureSignalResult) : Prop :=
  sr_key s = sd_key d /\ sr_domain s = sd_domain d /\ sr_label s = sd_label d /\ sr_weight s = sd_weight d
  /\ sr_severity s = sd_severity d /\ sr_status s ∈ signal_states
  /\ sr_score_credit s = (if String.eqb (sr_status s) "validated" then sr_weight s else 0).

Lemma evaluate_signal_evaluates evidence d s : evaluate_signal evidence d = Ok s -> evaluates d s.
Proof.
  intros ([v refs] & _ & (st & Hst & [= <-])%res_bind_ok)%res_bind_ok. unfold evaluates. cbn.
  apply status_of_in in Hst. done.
Qed.

Lemma evaluate_signals_evaluate definitions evidence signals :
  evaluate_signals definitions evidence = Ok signals -> Forall2 evaluates definitions signals.
Proof.
  intros Hm%res_map_Forall2. eapply Forall2_impl; [exact Hm|]. intros d s. apply evaluate_signal_evaluates.
Qed.

Lemma status_cases s d : evaluates d s ->
  sr_status s = "validated" \/ sr_status s = "concern" \/ sr_status s = "unknown".
Proof. intros (_ & _ & _ & _ & _ & Hin & _). unfold signal_states in Hin. rewrite !elem_of_cons, elem_of_nil in Hin. tauto. Qed.

(** A credit is for validated evidence. *)
Lemma credit_is_validated definitions signals : Forall2 evaluates definitions signals ->
  zsum sr_score_credit signals = weight_of_signals (filter (fun s => sr_status s = "validated") signals).
Proof.
  induction 1 as [|d s ds ss (_ & _ & _ & _ & _ & _ & Hc) _ IH]; [done|]. rewrite filter_cons. cbn.
  unfold zsum in IH at 1. rewrite IH, Hc.
  destruct (String.eqb_spec (sr_status s) "validated"); destruct (decide _); try done.
Qed.

(** ** Scores *)

Lemma clamp_bounds f : 0 <= clamp f <= 100.
Proof. unfold clamp. lia. Qed.

Lemma domain_score_bounds signals k : 0 <= domain_score signals k <= 100.
Proof. unfold domain_score. destruct (_ =? 0); [lia|apply clamp_bounds]. Qed.

Lemma coverage_bounds signals : 0 <= coverage_of signals <= 100.
Proof. unfold coverage_of. destruct (_ =? 0); [lia|apply clamp_bounds]. Qed.

Lemma score_in_domain signals k : score_in k (domain_scores signals) = 
  if dmem k DOMAIN_WEIGHTS then domain_score signals k else 0.
Proof.
  unfold score_in, domain_scores, dget_default, dmem. cbn.
  repeat (destruct (decide _) as [<-|?]; [done|]). done.
Qed.

(** ** Digests *)

Lemma with_hash_id s : with_hash (ps_integrity_hash s) s = s.
Proof. by destruct s. Qed.

Lemma digest_exists payload : exists t, canonical_text (VDict payload) = Ok t /\ digest_of payload = Ok (sha256 t).
Proof. unfold digest_of. rewrite canonical_text_of. by eexists. Qed.

Lemma digest_same d1 d2 : same_json (VDict d1) (VDict d2) -> digest_of d1 = digest_of d2.
Proof. intros Hs. unfold digest_of. by rewrite (canonical_same _ _ Hs). Qed.
End Signals.

(** ** Reading back *)

(** The items of a dict, looked up by key. *)
Lemma items_by_key (d : pydict) : dwf d -> (fun k => (k, vget k d)) <$> keys d = d.
Proof.
  intros Hd. unfold keys. rewrite <- list_fmap_compose. transitivity (id <$> d); [|apply list_fmap_id].
  apply list_fmap_ext. intros i [k v] Hi%list_elem_of_lookup_2. cbn. unfold vget, dget_default.
  by rewrite (elem_dget _ v).
Qed.

Lemma optional_by_key (optional d : pydict) : (forall k, k ∈ keys optional -> k ∈ keys d) ->
  (fun kv => (kv.1, dget_default kv.2 kv.1 d)) <$> optional = (fun k => (k, vget k d)) <$> keys optional.
Proof.
  intros Hin. unfold keys at 1. rewrite <- list_fmap_compose. apply list_fmap_ext.
  intros i [k v] Hi%list_elem_of_lookup_2. cbn. unfold vget, dget_default.
  assert (Hk : k ∈ keys d) by (apply Hin; by apply (list_elem_of_fmap_2 fst _ (k, v))).
  destruct (dget k d) eqn:Hg; [done|]. by apply dget_None in Hg.
Qed.

(** A dataclass built from its own items, in whatever order they come. *)
Lemma construct_perm required optional d d' :
  keys d = required ++ keys optional -> dwf d -> Permutation d' d ->
  construct required optional (VDict d') = Ok d.
Proof.
  intros Hk Hd Hp. assert (Hg : forall k, dget k d' = dget k d) by (intros k; symmetry; by apply dget_perm).
  assert (Hin : forall k, k ∈ keys d' <-> k ∈ required ++ keys optional).
  { intros k. unfold keys at 1. rewrite Hp. fold (keys d). by rewrite Hk. }
  unfold construct.
  assert (Hreq : forallb (fun k => dmem k d') required = true).
  { apply forallb_forall. intros k Hr%list_elem_of_In. apply dmem_keys, Hin, elem_of_app. by left. }
  assert (Hall : forallb (fun kv : string * pyval => one_of kv.1 (required ++ keys optional)) d' = true).
  { apply forallb_forall. intros kv Hr%list_elem_of_In. apply one_of_spec, Hin. by apply list_elem_of_fmap_2. }
  rewrite Hreq, Hall. cbn. f_equal.
  rewrite optional_by_key by (intros k Hko; apply Hin, elem_of_app; by right).
  rewrite <- fmap_app, <- Hk.
  rewrite <- (items_by_key d) at 2 by done.
  apply list_fmap_ext. intros i k _. unfold vget, dget_default. by rewrite Hg.
Qed.

Section ReadBack.
Context `{AssuranceEnv}.

(** The items of the payload a snapshot is stored under. *)
Definition stored_items (d : pydict) : pydict := sort_by key_le (normal_items d).

Lemma stored_normal d : normal (VDict d) = VDict (stored_items d).
Proof. done. Qed.

Lemma stored_perm d : Permutation (stored_items d) (normal_items d).
Proof. apply sort_by_perm. Qed.

Lemma dwf_normal_items d : dwf d -> dwf (normal_items d).
Proof. unfold dwf. by rewrite keys_normal_items. Qed.

Lemma dget_stored k d v : dwf d -> dget k (normal_items d) = Some v -> dget k (stored_items d) = Some v.
Proof. intros Hd <-. apply dget_perm; [|apply stored_perm]. unfold dwf, keys. rewrite stored_perm. by apply dwf_normal_items. Qed.

Lemma dwf_signal s : dwf (signal_dict s).
Proof. apply (bool_decide_unpack _). by vm_compute. Qed.
Lemma dwf_snapshot s : dwf (snapshot_dict s).
Proof. apply (bool_decide_unpack _). by vm_compute. Qed.

(** A stored signal is the signal, its values through JSON. *)
Lemma construct_stored_signal s :
  construct SIGNAL_FIELDS [] (normal (VDict (signal_dict s))) = Ok (normal_items (signal_dict s)).
Proof.
  rewrite stored_normal. apply construct_perm; [done|apply dwf_normal_items, dwf_signal|apply stored_perm].
Qed.

(** What [snapshot_of_payload] makes of a stored snapshot. *)
Definition reread (s : SecurityPostureSnapshot) : pydict :=
  dset "score_explanation" (VTuple (VStr <$> ps_score_explanation s))
    (dset "signals" (VList ((fun i => VDict (normal_items (signal_dict i))) <$> ps_signals s))
       (normal_items (snapshot_dict s))).

Lemma normal_texts l : normal (texts l) = VList (VStr <$> l).
Proof. unfold texts. cbn. by rewrite <- list_fmap_compose. Qed.

Lemma load_stored s : snapshot_of_payload (stored_items (snapshot_dict s)) = Ok (reread s).
Proof.
  set (p := stored_items (snapshot_dict s)).
  assert (Hsig : dget "signals" p = Some (VList ((fun i => normal (VDict (signal_dict i))) <$> ps_signals s))).
  { apply dget_stored; [apply dwf_snapshot|]. cbn -[normal_items signal_dict stored_items]. cbn. do 2 f_equal. by rewrite <- list_fmap_compose. }
  assert (Hexp : dget "score_explanation" p = Some (VList (VStr <$> ps_score_explanation s))).
  { apply dget_stored; [apply dwf_snapshot|]. rewrite <- normal_texts. done. }
  unfold snapshot_of_payload, dget_default at 1 2. rewrite Hsig, Hexp. cbn [py_iter mbind res_bind].
  rewrite (res_map_all_ok_fmap (construct SIGNAL_FIELDS []) _ (fun i => normal_items (signal_dict i)))
    by (intros i; apply construct_stored_signal).
  cbn [mbind res_bind]. rewrite <- list_fmap_compose.
  assert (Hd : dwf (normal_items (snapshot_dict s))) by apply dwf_normal_items, dwf_snapshot.
  apply construct_perm; [done|by apply dwf_dset, dwf_dset|].
  assert (Hp : Permutation p (normal_items (snapshot_dict s))) by apply stored_perm.
  assert (Hdp : dwf p) by (unfold dwf, keys; by rewrite Hp).
  apply dset_perm; [by apply dwf_dset| |apply dset_perm; [done| |done]].
  - rewrite keys_dset_in; unfold keys; rewrite Hp; by apply one_of_spec.
  - unfold keys. rewrite Hp. by apply one_of_spec.
Qed.

(** ... is the snapshot, as far as JSON goes. *)
Lemma reread_same s : normal_items (reread s) = normal_items (snapshot_dict s).
Proof.
  unfold reread. rewrite !normal_items_dset, normal_items_settle.
  rewrite (dset_same "signals"); [by rewrite (dset_same "score_explanation")|].
  cbn -[signal_dict]. do 2 f_equal. rewrite <- !list_fmap_compose.
  apply list_fmap_ext. intros i x _. symmetry. apply normal_items_same.
Qed.

Lemma emptied_same field d1 d2 : normal_items d1 = normal_items d2 ->
  digest_of (emptied field d1) = digest_of (emptied field d2).
Proof.
  intros He. apply digest_same, same_dicts. unfold emptied. by rewrite !normal_items_dset, !normal_items_ddel, He.
Qed.

Lemma verify_same d1 d2 : normal_items d1 = normal_items d2 ->
  dget "integrity_hash" d1 = dget "integrity_hash" d2 -> verify_snapshot d1 = verify_snapshot d2.
Proof.
  intros He Hh. unfold verify_snapshot, dget_default. by rewrite Hh, (emptied_same _ _ _ He).
Qed.

Lemma verify_reread s : verify_snapshot (reread s) = verify_snapshot (snapshot_dict s).
Proof. apply verify_same; [apply reread_same|done]. Qed.

(** A snapshot under the digest of its items verifies. *)
Lemma verify_hashed `{!HexDigests} s digest : ps_integrity_hash s = "" -> digest_of (snapshot_dict s) = Ok digest ->
  verify_snapshot (snapshot_dict (with_hash digest s)) = Ok true.
Proof.
  intros Hh Hd. destruct (digest_exists (snapshot_dict s)) as (t & _ & Ht). rewrite Hd in Ht. injection Ht as ->.
  unfold verify_snapshot.
  change (dget_default (VStr "") "integrity_hash" (snapshot_dict (with_hash (sha256 t) s))) with (VStr (sha256 t)).
  cbn [py_str]. rewrite sha256_some. cbn [negb].
  replace (emptied "integrity_hash" (snapshot_dict (with_hash (sha256 t) s))) with (snapshot_dict s).
  - rewrite Hd. cbn. by rewrite String.eqb_refl.
  - unfold emptied, snapshot_dict. rewrite Hh. by destruct s.
Qed.

Lemma sort_by_head {A} (le : A -> A -> bool) l x : (forall y, y ∈ l -> le y x = false) ->
  sort_by le (l ++ [x]) = x :: sort_by le l.
Proof.
  induction l as [|y l IH]; intros Hl; [done|]. cbn. change (foldr (insert_by le) [] (l ++ [x])) with (sort_by le (l ++ [x])).
  rewrite IH by (intros z Hz; apply Hl; by right). cbn. by rewrite (Hl y) by left.
Qed.

Lemma insert_changes_history changes w w' : insert_changes changes w = (Ok tt, w') ->
  a_history (working w') = a_history (working w).
Proof.
  revert w. induction changes as [|c rest IH]; intros w; [by intros [= <-]|]. cbn.
  intros ([] & w1 & H1%checked_ok & H2)%bind_ok. rewrite (IH w1 H2). revert H1. unfold insert_change.
  intros ([] & _ & ([] & _ & [= <-])%res_bind_ok)%res_bind_ok. done.
Qed.

Lemma keeps_insert_changes changes : keeps_committed (insert_changes changes).
Proof. induction changes as [|c rest IH]; cbn; [apply keeps_ret|]. apply keeps_bind; [apply keeps_checked|done]. Qed.

(** What a save that returns has done. *)
Lemma save_posture_ok s changes w w' : quiescent w -> save_posture s changes w = (Ok tt, w') ->
  quiescent w' /\ a_history (committed w') = a_history (committed w) ++ [posture_row_of s].
Proof.
  intros Hq Hs. unfold save_posture in Hs.
  assert (Hk : keeps_committed (sql_write_checked (insert_posture (posture_row_of s));; insert_changes changes)).
  { apply keeps_bind; [apply keeps_checked|]. intros _. apply keeps_insert_changes. }
  pose proof (with_connection_run _ w Hk Hq) as Hr. rewrite Hs in Hr.
  destruct Hr as (Hq' & w1 & ([] & w2 & H1%checked_ok & H2%insert_changes_history)%bind_ok & Hw).
  split; [done|]. rewrite Hw, H2. revert H1. unfold insert_posture.
  intros (u' & _ & [= <-])%res_bind_ok. cbn. by rewrite (proj2 Hq).
Qed.
Lemma evaluate_ok definitions evidence device_id hostname timestamp previous n s cs n' :
  evaluate definitions evidence device_id hostname timestamp previous n = (Ok (s, cs), n') ->
  exists id at_time signals digest n1 changes n2,
    evaluate_signals definitions evidence = Ok signals
    /\ s = with_hash digest (base_snapshot id at_time device_id hostname signals)
    /\ digest_of (snapshot_dict (base_snapshot id at_time device_id hostname signals)) = Ok digest
    /\ compare_snapshots definitions previous s n1 = (Ok changes, n2)
    /\ correlate changes s n2 = (Ok cs, n').
Proof.
  unfold evaluate. intros (at_time & m1 & _ & H1)%bind_ok.
  apply bind_ok in H1 as (signals & m2 & [Hs ->]%lift_ok & H2).
  apply bind_ok in H2 as (id & m3 & [= <- <-] & H3).
  apply bind_ok in H3 as (digest & m4 & [Hd ->]%lift_ok & H4).
  apply bind_ok in H4 as (changes & m5 & Hc & H5).
  apply bind_ok in H5 as (cs' & m6 & Hr & [= <- <- <-]).
  by eexists _, at_time, signals, digest, _, changes, _.
Qed.

Lemma load_row_stored s : load_row (posture_row_of s) = Ok (reread s).
Proof. exact (load_stored s). Qed.

Lemma latest_of_newest s w r w' : verify_snapshot (snapshot_dict s) = Ok true ->
  head (device_history (ps_device_id s) (working w)) = Some (posture_row_of s) ->
  latest_posture (ps_device_id s) w = (r, w') -> r = Raise sql_error \/ r = Ok (Some (reread s)).
Proof.
  intros Hv Hh. unfold latest_posture, sql_read, mbind at 1, M_bind at 1.
  destruct (stmt_ok _); [|intros [= <- _]; by left]. rewrite Hh.
  unfold mbind, M_bind, lift_res. rewrite load_row_stored, verify_reread, Hv. intros [= <- _]. by right.
Qed.

(** Round trip: the snapshot of an evaluation, once saved as the newest of its device, is
    what reading the latest snapshot gives back, value for value as JSON, its digest
    verified - unless the statement that reads it fails. *)
Theorem snapshot_reads_back `{!HexDigests} definitions evidence device_id hostname timestamp previous n s cs n' w w' r w'' :
  evaluate definitions evidence device_id hostname timestamp previous n = (Ok (s, cs), n') ->
  quiescent w ->
  (forall row, row ∈ a_history (committed w) -> ph_device_id row = device_id ->
    str_le (ps_timestamp s) (ph_timestamp row) = false) ->
  save_posture s cs w = (Ok tt, w') -> latest_posture device_id w' = (r, w'') ->
  r = Raise sql_error
  \/ exists d, r = Ok (Some d) /\ verify_snapshot d = Ok true /\ same_json (VDict d) (VDict (snapshot_dict s)).
Proof.
  intros (id & at_time & signals & digest & n1 & changes & n2 & _ & -> & Hd & _)%evaluate_ok Hq Hnew Hsave Hlatest.
  set (base := base_snapshot _ _ _ _ _) in *.
  assert (Hv : verify_snapshot (snapshot_dict (with_hash digest base)) = Ok true) by (by apply verify_hashed).
  apply save_posture_ok in Hsave as [Hq' Hh]; [|done].
  apply (latest_of_newest (with_hash digest base)) in Hlatest as [->| ->]; [by left| |done|].
  - right. exists (reread (with_hash digest base)). split; [done|]. rewrite verify_reread. split; [done|].
    by apply same_dicts, reread_same.
  - rewrite (proj2 Hq'). unfold device_history. rewrite Hh, filter_app, filter_cons_True by done. cbn [filter list_filter].
    rewrite sort_by_head; [done|]. intros y [Hy1 Hy2]%list_elem_of_filter. by apply Hnew.
Qed.
End ReadBack.

(** ** Changes *)

Section Changes.
Context `{AssuranceEnv} (definitions : list SignalDefinition).

Lemma by_key_elem_from (signals : list PostureSignalResult) d k :
  k ∈ keys (foldl (fun d s => dset (sr_key s) s d) d signals) -> k ∈ keys d \/ exists i, i ∈ signals /\ sr_key i = k.
Proof.
  revert d. induction signals as [|s signals IH]; intros d; cbn; [by left|].
  intros [Hk|(i & Hi & <-)]%IH; [|right; exists i; split; [by right|done]].
  apply dmem_keys in Hk. unfold dmem in Hk. destruct (decide (k = sr_key s)) as [->|Hne].
  - right. exists s. split; [by left|done].
  - rewrite dget_dset_ne in Hk by done. left. by apply dmem_keys.
Qed.

Lemma by_key_elem (signals : list PostureSignalResult) k : k ∈ keys (by_key signals) -> exists i, i ∈ signals /\ sr_key i = k.
Proof. intros [Hk|?]%by_key_elem_from; [by apply elem_of_nil in Hk|done]. Qed.

Definition same_text (v w : pyval) : bool :=
  match canonical_text v, canonical_text w with Ok a, Ok b => String.eqb a b | _, _ => false end.

(** A signal both sides know and on which they differ. *)
Definition reported (before : list (string * PostureSignalResult)) (now : PostureSignalResult) : bool :=
  match dget (sr_key now) before with
  | None => false
  | Some old =>
      known old && known now
      && negb (same_text (sr_observed_value old) (sr_observed_value now) && String.eqb (sr_status old) (sr_status now))
  end.

(** What a change says of the signal it is about. *)
Definition describes (before : list (string * PostureSignalResult)) (now : PostureSignalResult)
    (c : SecurityPostureChange) : Prop :=
  exists old, dget (sr_key now) before = Some old
    /\ pc_previous_state c = sr_observed_value old /\ pc_current_state c = sr_observed_value now
    /\ pc_affected_component c = sr_label now /\ pc_evidence_reference c = sr_evidence_reference now
    /\ pc_change_type c = change_type_of old now /\ pc_severity c = change_severity (change_type_of old now) now
    /\ match change_type_of old now with
       | "regression" => pc_risk_score_change c < 0
       | "improvement" => 0 < pc_risk_score_change c
       | _ => pc_risk_score_change c = 0
       end.

Lemma impact_positive s i : overall_signal_impact definitions s = Ok i -> 0 < i.
Proof.
  unfold overall_signal_impact. destruct (dget _ _); [|done]. destruct (_ =? 0); [done|]. intros [= <-]. lia.
Qed.

Lemma change_types old now : change_type_of old now ∈ ["regression"; "improvement"; "changed"].
Proof.
  apply one_of_spec. unfold change_type_of. destruct (_ && _); [done|]. by destruct (_ && _).
Qed.

Lemma impact_sign old now i : impact_of definitions (change_type_of old now) now = Ok i ->
  match change_type_of old now with
  | "regression" => i < 0 | "improvement" => 0 < i | _ => i = 0 end.
Proof.
  pose proof (change_types old now) as Hin. rewrite !elem_of_cons, elem_of_nil in Hin.
  destruct Hin as [->|[->|[->|[]]]]; cbn.
  - intros (j & Hj%impact_positive & [= <-])%res_bind_ok. lia.
  - apply impact_positive.
  - by intros [= <-].
Qed.

Lemma compare_signal_spec before current now n cs n' :
  compare_signal definitions before current now n = (Ok cs, n') ->
  if reported before now then exists c, cs = [c] /\ describes before now c else cs = [].
Proof.
  unfold compare_signal, reported, describes. destruct (dget (sr_key now) before) as [old|]; [|by intros [= <-]].
  destruct (known old); [|by intros [= <-]]. destruct (known now); [|by intros [= <-]]. cbn [negb orb andb].
  unfold same_text. rewrite !canonical_text_of. unfold lift_res, mbind, M_bind.
  destruct (String.eqb _ _ && _); [by intros [= <-]|]. cbn [negb].
  destruct (impact_of _ _ _) as [i|] eqn:Hi; [|done]. cbn. intros [= <- <-].
  eexists. split; [done|]. exists old. apply impact_sign in Hi. done.
Qed.

Lemma compare_signals_spec before current signals n cs n' :
  compare_signals definitions before current signals n = (Ok cs, n') ->
  Forall2 (describes before) (filter (fun s => reported before s = true) signals) cs.
Proof.
  revert n cs n'. induction signals as [|now rest IH]; intros n cs n'; [by intros [= <- _]|]. cbn [compare_signals].
  intros (c & n1 & Hc%compare_signal_spec & H1)%bind_ok.
  apply bind_ok in H1 as (cs1 & n2 & Hcs%IH & [= <- _]). rewrite filter_cons.
  destruct (reported before now); [|by rewrite Hc].
  destruct Hc as (c0 & -> & Hd). by constructor.
Qed.

Lemma correlate_spec changes s n cs n' : correlate changes s n = (Ok cs, n') ->
  cs = changes
  \/ exists c, cs = changes ++ [c] /\ pc_change_type c = "correlated_regression"
     /\ pc_correlated_change_ids c = pc_change_id <$> filter (fun c => pattern_source c = true) changes
     /\ 2 <= zlen (filter (fun c => pattern_source c = true) changes)
     /\ Forall (fun k => exists i, i ∈ ps_signals s /\ sr_key i = k /\ sr_status i = "concern") REQUIRED_FOR_PATTERN.
Proof.
  unfold correlate. destruct (_ && _) eqn:Hc; [|intros [= <- _]; by left]. intros [= <- _]. right.
  apply andb_true_iff in Hc as [Hall Htwo]. eexists. repeat (split; [done|]). split; [lia|].
  apply Forall_forall. intros k Hk. rewrite forallb_forall in Hall.
  specialize (Hall k (proj1 (list_elem_of_In _ _) Hk)). apply dmem_keys in Hall. apply by_key_elem in Hall as (i & Hi & <-).
  apply list_elem_of_filter in Hi as [Hs Hi]. by exists i.
Qed.

Definition is_correlated (c : SecurityPostureChange) : bool := String.eqb (pc_change_type c) "correlated_regression".

(** C14. What an evaluation reports against a previous snapshot is exactly what both know and
    differ on, signal by signal: a regression lowers the score and carries the severity of the
    signal, an improvement raises it and is informational, anything else weighs nothing and is
    low - with at most one further change, the pattern of three concerns two of which are new
    regressions. So an alert is for a regression or for that pattern, never for an improvement,
    for evidence that went missing, or for a concern that got worse. *)
Theorem changes_are_known_differences evidence device_id hostname timestamp p n s cs n' :
  evaluate definitions evidence device_id hostname timestamp (Some p) n = (Ok (s, cs), n') ->
  exists changes,
    Forall2 (describes (by_key (ps_signals p)))
      (filter (fun i => reported (by_key (ps_signals p)) i = true) (ps_signals s)) changes
    /\ (cs = changes
        \/ exists c, cs = changes ++ [c] /\ is_correlated c = true
           /\ 2 <= zlen (filter (fun c => pattern_source c = true) changes)
           /\ Forall (fun k => exists i, i ∈ ps_signals s /\ sr_key i = k /\ sr_status i = "concern") REQUIRED_FOR_PATTERN)
    /\ Forall (fun c => is_grave c = true -> pc_change_type c = "regression" \/ is_correlated c = true) cs.
Proof.
  intros (id & at_time & signals & digest & n1 & changes & n2 & _ & _ & _ & Hc & Hr)%evaluate_ok.
  apply compare_signals_spec in Hc. apply correlate_spec in Hr. exists changes. split; [done|].
  assert (Hg : Forall (fun c => is_grave c = true -> pc_change_type c = "regression" \/ is_correlated c = true) changes).
  { clear -Hc. induction Hc as [|now c nows cs (old & _ & _ & _ & _ & _ & Ht & Hs & _) _ IH]; constructor; [|done].
    unfold is_grave. rewrite Ht, Hs. pose proof (change_types old now) as Hin.
    rewrite !elem_of_cons, elem_of_nil in Hin. destruct Hin as [->|[->|[->|[]]]]; cbn; [by left|done|done]. }
  destruct Hr as [->|(c & -> & Ht & _ & Hz & Hk)]; (split; [|try done]).
  - by left.
  - right. exists c. unfold is_correlated. by rewrite Ht.
  - apply Forall_app. split; [done|]. apply Forall_singleton. intros _. right. unfold is_correlated. by rewrite Ht.
Qed.
End Changes.

(** ** A concrete environment *)

Definition question_mark : ascii := ascii_of_nat 63.

(** A digest of forty characters, for evaluating definitions on examples. *)
Definition hex_env : PlatformEnv := {|
  float_repr := fun _ => "0.5";
  sha256 := fun s => "h" +:+ stake 40 (map_chars (fun c => if in_range 0 127 c then c else question_mark) s);
  hmac_sha256 := fun key m => "hmac of " +:+ m
|}.

Definition assurance_env : AssuranceEnv := {|
  assurance_store := {| store_platform := hex_env; utc_clock := fun n => 1784367000000000 + Z.of_nat n;
    stmt_ok := fun _ => true; database_bytes := fun _ => 0; integrity_key := "key" |};
  uuid4_hex := fun n => str_of_Z (Z.of_nat n)
|}.

Lemma hex_env_digests : @HexDigests (@store_platform (@assurance_store assurance_env)).
Proof.
  split; [|done]. intros m. change (is_ascii (sha256 m)) with
    (is_ascii ("h" +:+ stake 40 (map_chars (fun c => if in_range 0 127 c then c else question_mark) m))).
  unfold is_ascii. rewrite all_chars_app. apply andb_true_iff. split; [done|].
  generalize 40%nat. intros n. revert m. induction n as [|n IH]; intros [|c m]; try done.
  cbn [map_chars stake all_chars]. rewrite IH, andb_true_r. by destruct (in_range 0 127 c) eqn:Hc.
Qed.

(** The healthy evidence of the source's tests. *)
Definition healthy_evidence : pydict := [
  ("identity_accounts_authorized", VBool true); ("authentication_anomalies", VInt 0); ("ssh_identity_changes", VInt 0);
  ("unapproved_applications", VInt 0); ("unsigned_applications", VInt 0); ("modified_trusted_applications", VInt 0);
  ("known_vulnerabilities", VInt 0); ("firewall_enabled", VBool true); ("filevault_enabled", VBool true);
  ("sip_enabled", VBool true); ("gatekeeper_enabled", VBool true); ("privacy_controls_compliant", VBool true);
  ("suspicious_persistence", VInt 0); ("ransomware_indicators", VInt 0); ("suspicious_network_activity", VInt 0);
  ("backup_healthy", VBool true); ("evidence_collection_ready", VBool true); ("response_workflow_ready", VBool true);
  ("evidence_references", VDict [("firewall_enabled", VList [VStr "event:firewall-1"])])].

(** The pattern of the source's tests. *)
Definition attacked_evidence : pydict :=
  let found refs := VDict [("value", VInt 1); ("evidence_reference", VList [VStr refs])] in
  dset "unsigned_applications" (found "app:hash-1")
    (dset "suspicious_persistence" (found "plist:agent-1")
      (dset "suspicious_network_activity" (found "connection:1") healthy_evidence)).

Definition demo_evaluate (evidence : pydict) (timestamp : string) (previous : option SecurityPostureSnapshot) :=
  @evaluate assurance_env DEFAULT_SIGNALS evidence "device-1" "mac.test" (Some timestamp) previous 0%nat.

Definition unevaluated : SecurityPostureSnapshot := base_snapshot "" "" "" "" [].
Definition snapshot_in {T} (r : res (SecurityPostureSnapshot * list SecurityPostureChange) * T) : SecurityPostureSnapshot :=
  match r with (Ok (s, _), _) => s | _ => unevaluated end.
Definition changes_in {T} (r : res (SecurityPostureSnapshot * list SecurityPostureChange) * T) : list SecurityPostureChange :=
  match r with (Ok (_, cs), _) => cs | _ => [] end.

Definition healthy_run := demo_evaluate healthy_evidence "2026-07-17T10:00:00Z" None.
Definition attacked_run := demo_evaluate attacked_evidence "2026-07-17T10:01:00Z" (Some (snapshot_in healthy_run)).

Example demo_scores :
  ps_security_score (snapshot_in healthy_run) = 100 /\ ps_trust_decision (snapshot_in healthy_run) = "VERIFIED TRUST"
  /\ ps_security_score (snapshot_in attacked_run) = 79 /\ ps_trust_decision (snapshot_in attacked_run) = "RESTRICTED TRUST"
  /\ pc_change_type <$> changes_in attacked_run = ["regression"; "regression"; "regression"; "correlated_regression"]
  /\ zlen (alert_payloads (changes_in attacked_run)) = 4.
Proof. by vm_compute. Qed.

(** Evidence that went missing is no change. *)
Example missing_is_no_regression :
  let run := demo_evaluate [] "2026-07-17T10:01:00Z" (Some (snapshot_in healthy_run)) in
  ps_security_score (snapshot_in run) = 0 /\ ps_trust_decision (snapshot_in run) = "INSUFFICIENT EVIDENCE" /\ changes_in run = [].
Proof. by vm_compute. Qed.

(** A concern that gets worse is a low change without weight: nothing alerts of it. *)
Example worsening_is_low :
  let found n := dset "ransomware_indicators" (VInt n) healthy_evidence in
  let before := snapshot_in (demo_evaluate (found 1) "2026-07-17T10:00:00Z" None) in
  let cs := changes_in (demo_evaluate (found 500) "2026-07-17T10:01:00Z" (Some before)) in
  (pc_severity <$> cs, pc_risk_score_change <$> cs, alert_payloads cs) = (["low"], [0], []).
Proof. by vm_compute. Qed.

(** Infinity as evidence is not unknown: it raises. *)
Example infinite_evidence_raises :
  (demo_evaluate (dset "ransomware_indicators" (VFloat (SpecFloat.S754_infinity false)) healthy_evidence) "" None).1
  = Raise (OverflowError "cannot convert float infinity to integer").
Proof. by vm_compute. Qed.

Lemma attacked_run_ok :
  @evaluate assurance_env DEFAULT_SIGNALS attacked_evidence "device-1" "mac.test" (Some "2026-07-17T10:01:00Z")
    (Some (snapshot_in healthy_run)) 0%nat = (Ok (snapshot_in attacked_run, changes_in attacked_run), attacked_run.2).
Proof. by vm_compute. Qed.

Lemma changes_are_known_differences_witness :
  exists changes,
    Forall2 (describes (by_key (ps_signals (snapshot_in healthy_run))))
      (filter (fun i => @reported assurance_env (by_key (ps_signals (snapshot_in healthy_run))) i = true)
        (ps_signals (snapshot_in attacked_run))) changes
    /\ (changes_in attacked_run = changes
        \/ exists c, changes_in attacked_run = changes ++ [c] /\ is_correlated c = true
           /\ 2 <= zlen (filter (fun c => pattern_source c = true) changes)
           /\ Forall (fun k => exists i, i ∈ ps_signals (snapshot_in attacked_run) /\ sr_key i = k
                /\ sr_status i = "concern") REQUIRED_FOR_PATTERN)
    /\ Forall (fun c => is_grave c = true -> pc_change_type c = "regression" \/ is_correlated c = true)
         (changes_in attacked_run).
Proof.
  apply (@changes_are_known_differences assurance_env DEFAULT_SIGNALS attacked_evidence "device-1" "mac.test"
    (Some "2026-07-17T10:01:00Z") (snapshot_in healthy_run) 0%nat (snapshot_in attacked_run) (changes_in attacked_run)
    attacked_run.2).
  exact attacked_run_ok.
Defined.
