(* ===== verification/DeviceTrust.v ===== *)
(** Zero-trust device identity: [zero_trust/device_identity.py]. A device profile and
    a posture snapshot become an attestation with a recommended trust state, the results
    of the policies and a digest, kept per device with a history of decisions. *)

From S2P Require Import Prelude PyStr PyFloat PyDict PyJson PyTime Sql PyRepr JsonCanon AlertIntegrity PostureAssurance.

Definition TRUSTED : string := "TRUSTED".
Definition CONDITIONAL : string := "CONDITIONAL TRUST".
Definition RESTRICTED : string := "RESTRICTED TRUST".
Definition UNTRUSTED : string := "UNTRUSTED".

(** ** Data *)

Record DeviceIdentityProfile := {
  dp_device_id : string;
  dp_model : string;
  dp_architecture : string;
  dp_hardware_capabilities : list string;
  dp_secure_enclave_available : option bool;
  dp_secure_boot_status : string;
  dp_macos_version : string;
  dp_build_number : string;
  dp_patch_status : string;
  dp_identity_source : string;
  dp_evidence_reference : list string
}.

Definition PRIVACY_NOTICE : string :=
  "Raw serial numbers, platform UUIDs, credentials, and personal tracking data are not stored.".

Record PolicyResult := {
  pr_policy_id : string;
  pr_matched : bool;
  pr_recommended_action : string;
  pr_reason : string;
  pr_evidence_reference : list string
}.

Record DeviceAttestation := {
  at_attestation_id : string;
  at_timestamp : string;
  at_device : DeviceIdentityProfile;
  at_trust_state : string;
  at_trust_score : Z;
  at_security_score : Z;
  at_evidence_coverage_percent : Z;
  at_identity_status : string;
  at_configuration_status : string;
  at_software_status : string;
  at_threat_exposure : string;
  at_compliance_status : string;
  at_reasons : list string;
  at_evidence_reference : list string;
  at_policy_results : list PolicyResult;
  at_posture_snapshot_id : string;
  at_attestation_hash : string
}.

Definition QUALIFICATION : string :=
  "Internal MSAA evidence representation; not a cryptographic platform attestation, access authorization, or compliance certification.".

Record TrustDecisionEvent := {
  te_event_id : string;
  te_decision_id : string;
  te_timestamp : string;
  te_device_id : string;
  te_previous_trust_state : string;
  te_new_trust_state : string;
  te_reason : list string;
  te_evidence_reference : list string;
  te_risk_score : Z;
  te_policy_trigger : list string
}.

(** [DeviceIdentityProfile.to_dict] *)
Definition profile_dict (p : DeviceIdentityProfile) : pydict := [
  ("device_id", VStr (dp_device_id p)); ("model", VStr (dp_model p)); ("architecture", VStr (dp_architecture p));
  ("hardware_capabilities", texts (dp_hardware_capabilities p));
  ("secure_enclave_available", match dp_secure_enclave_available p with Some b => VBool b | None => VNone end);
  ("secure_boot_status", VStr (dp_secure_boot_status p)); ("macos_version", VStr (dp_macos_version p));
  ("build_number", VStr (dp_build_number p)); ("patch_status", VStr (dp_patch_status p));
  ("identity_source", VStr (dp_identity_source p)); ("evidence_reference", texts (dp_evidence_reference p));
  ("privacy_notice", VStr PRIVACY_NOTICE)].

(** [PolicyResult.to_dict] *)
Definition policy_dict (r : PolicyResult) : pydict := [
  ("policy_id", VStr (pr_policy_id r)); ("matched", VBool (pr_matched r));
  ("recommended_action", VStr (pr_recommended_action r)); ("reason", VStr (pr_reason r));
  ("evidence_reference", texts (pr_evidence_reference r)); ("authorization_required", VBool true)].

(** [DeviceAttestation.to_dict] *)
Definition attestation_dict (a : DeviceAttestation) : pydict := [
  ("attestation_id", VStr (at_attestation_id a)); ("timestamp", VStr (at_timestamp a));
  ("device", VDict (profile_dict (at_device a))); ("trust_state", VStr (at_trust_state a));
  ("trust_score", VInt (at_trust_score a)); ("security_score", VInt (at_security_score a));
  ("evidence_coverage_percent", VInt (at_evidence_coverage_percent a));
  ("identity_status", VStr (at_identity_status a)); ("configuration_status", VStr (at_configuration_status a));
  ("software_status", VStr (at_software_status a)); ("threat_exposure", VStr (at_threat_exposure a));
  ("compliance_status", VStr (at_compliance_status a)); ("reasons", texts (at_reasons a));
  ("evidence_reference", texts (at_evidence_reference a));
  ("policy_results", VList ((fun r => VDict (policy_dict r)) <$> at_policy_results a));
  ("posture_snapshot_id", VStr (at_posture_snapshot_id a)); ("attestation_hash", VStr (at_attestation_hash a));
  ("qualification", VStr QUALIFICATION)].

(** [TrustDecisionEvent.to_dict] *)
Definition decision_dict (e : TrustDecisionEvent) : pydict := [
  ("event_id", VStr (te_event_id e)); ("decision_id", VStr (te_decision_id e)); ("timestamp", VStr (te_timestamp e));
  ("device_id", VStr (te_device_id e)); ("previous_trust_state", VStr (te_previous_trust_state e));
  ("new_trust_state", VStr (te_new_trust_state e)); ("reason", texts (te_reason e));
  ("evidence_reference", texts (te_evidence_reference e)); ("risk_score", VInt (te_risk_score e));
  ("policy_trigger", texts (te_policy_trigger e)); ("analyst_status", VStr "new")].

(** [DeviceAttestation] rebuilt with its digest. *)
Definition with_attestation_hash (digest : string) (a : DeviceAttestation) : DeviceAttestation := {|
  at_attestation_id := at_attestation_id a; at_timestamp := at_timestamp a; at_device := at_device a;
  at_trust_state := at_trust_state a; at_trust_score := at_trust_score a; at_security_score := at_security_score a;
  at_evidence_coverage_percent := at_evidence_coverage_percent a; at_identity_status := at_identity_status a;
  at_configuration_status := at_configuration_status a; at_software_status := at_software_status a;
  at_threat_exposure := at_threat_exposure a; at_compliance_status := at_compliance_status a;
  at_reasons := at_reasons a; at_evidence_reference := at_evidence_reference a;
  at_policy_results := at_policy_results a; at_posture_snapshot_id := at_posture_snapshot_id a;
  at_attestation_hash := digest |}.

(** ** Profiles *)

Section Profiles.
Context `{AssuranceEnv}.

(** [str(metadata.get(k, "unknown"))] *)
Definition text_of_metadata (k : string) (metadata : pydict) : string := py_str (dget_default (VStr "unknown") k metadata).

(** The device id a stable identifier becomes under the salt of the organisation. *)
Definition pseudonym (salt stable_identifier : string) : string :=
  "msaa-device-" +:+ sprefix 32 (hmac_sha256 salt stable_identifier).

(** The device id and where it came from. *)
Definition identity_of (device_id stable_identifier : string) (organization_salt : option string)
    : res (string * string) :=
  if truthy device_id then Ok (device_id, "administrator-provided device ID")
  else
    let salt := default "" organization_salt in
    raise_if (negb (truthy stable_identifier) || negb (truthy salt) || (slen salt <? 16))
      (ValueError "An approved device_id or an approved stable identifier with at least 16 bytes of organization salt is required.");;
    Ok (pseudonym salt stable_identifier, "organization-scoped HMAC pseudonym").

(** [from_approved_metadata] *)
Definition from_approved_metadata (metadata : pydict) (device_id stable_identifier : string)
    (organization_salt : option string) : res DeviceIdentityProfile :=
  '(id, source) ← identity_of device_id stable_identifier organization_salt;
  let as_list v := match v with VStr _ => VList [v] | _ => v end in
  capabilities ← py_iter (as_list (dget_default (VList []) "hardware_capabilities" metadata));
  references ← reference_texts (dget_default (VList []) "evidence_reference" metadata);
  Ok {| dp_device_id := id; dp_model := text_of_metadata "model" metadata;
        dp_architecture := text_of_metadata "architecture" metadata;
        dp_hardware_capabilities := py_str <$> (capabilities : list pyval);
        dp_secure_enclave_available := match vget "secure_enclave_available" metadata with VBool b => Some b | _ => None end;
        dp_secure_boot_status := text_of_metadata "secure_boot_status" metadata;
        dp_macos_version := text_of_metadata "macos_version" metadata;
        dp_build_number := text_of_metadata "build_number" metadata;
        dp_patch_status := text_of_metadata "patch_status" metadata;
        dp_identity_source := source; dp_evidence_reference := references |}.
End Profiles.

(** ** Policies *)

(** [int(context.get("critical_kev_vulnerabilities", 0) or 0)] *)
Definition critical_kev_of (context : pydict) : res Z :=
  let v := vget "critical_kev_vulnerabilities" context in if truthy_val v then py_int v else Ok 0.

Definition flagged (k : string) (context : pydict) : bool := truthy_val (vget k context).

(** [_signal_value] *)
Definition signal_value (s : SecurityPostureSnapshot) (key : string) : res Z :=
  match find_first (fun i => String.eqb (sr_key i) key) (ps_signals s) with
  | Some i =>
      if known i then
        match py_int (sr_observed_value i) with
        | Raise (TypeError _) | Raise (ValueError _) => Ok 0
        | r => r
        end
      else Ok 0
  | None => Ok 0
  end.

Definition policy_result (id : string) (matched : bool) (action reason : string) (evidence : list string) : PolicyResult :=
  {| pr_policy_id := id; pr_matched := matched; pr_recommended_action := action; pr_reason := reason;
     pr_evidence_reference := evidence |}.

(** [ZeroTrustPolicyEngine.evaluate] *)
Definition evaluate_policies (s : SecurityPostureSnapshot) (context : pydict) (evidence : list string)
    : res (list PolicyResult) :=
  critical_kev ← critical_kev_of context;
  let active_threat := flagged "active_threat" context in
  let compromise := flagged "confirmed_compromise_indicator" context in
  let integrity_failure := flagged "integrity_failure" context in
  unsigned ← signal_value s "unsigned_applications";
  persistence ← signal_value s "suspicious_persistence";
  Ok [
    policy_result "zt.require-remediation-critical-kev" (0 <? critical_kev) "require_remediation"
      ("Critical known-exploited vulnerabilities observed: " +:+ str_of_Z critical_kev +:+ ".") evidence;
    policy_result "zt.investigate-active-threat" active_threat "start_authorized_investigation"
      (if active_threat then "Active threat evidence is present." else "No active threat flag was supplied.") evidence;
    policy_result "zt.investigate-integrity-failure" (integrity_failure || compromise) "start_authorized_investigation"
      (if integrity_failure || compromise then "Integrity failure or confirmed compromise indicator is present."
       else "No integrity failure or confirmed compromise indicator was supplied.") evidence;
    policy_result "zt.review-unsigned-software" (0 <? unsigned) "require_review"
      ("Unsigned applications requiring review: " +:+ str_of_Z unsigned +:+ ".") evidence;
    policy_result "zt.review-persistence" (0 <? persistence) "require_review"
      ("Suspicious persistence findings: " +:+ str_of_Z persistence +:+ ".") evidence].

(** ** The trust state *)

Definition is_concern (s : PostureSignalResult) : bool := String.eqb (sr_status s) "concern".

Definition say (c : bool) (line : string) : list string := if c then [line] else [].

Definition CORE_PROTECTIONS : list string := ["firewall_enabled"; "filevault_enabled"; "sip_enabled"].

(** The reasons [_trust_state] collects before it decides. *)
Definition trust_reasons (s : SecurityPostureSnapshot) (p : DeviceIdentityProfile) (context : pydict) (critical_kev : Z)
    : list string :=
  say (ps_evidence_coverage_percent s <? 60) "Insufficient current evidence prevents device verification."
  ++ say (one_of (lower (dp_secure_boot_status p)) ["disabled"; "reduced security"; "invalid"])
       "Secure Boot hardware posture requires investigation."
  ++ say (flagged "confirmed_compromise_indicator" context)
       "A confirmed compromise indicator was supplied by an authoritative detector."
  ++ say (flagged "integrity_failure" context) "System or software integrity verification failed."
  ++ say (flagged "unauthorized_identity_change" context)
       "An unauthorized device or account identity change was observed."
  ++ say (negb (critical_kev =? 0))
       (str_of_Z critical_kev +:+ " critical known-exploited vulnerability finding(s) require remediation.")
  ++ say (flagged "active_threat" context) "Active threat evidence requires investigation."
  ++ (sr_explanation <$> filter (fun i => is_concern i = true) (ps_signals s)).

(** [_trust_state] *)
Definition trust_state_of (s : SecurityPostureSnapshot) (p : DeviceIdentityProfile) (context : pydict)
    (policies : list PolicyResult) : res (string * list string) :=
  critical_kev ← critical_kev_of context;
  let reasons := trust_reasons s p context critical_kev in
  let concerns := filter (fun i => is_concern i = true) (ps_signals s) in
  let core_protection_disabled := existsb (fun i => one_of (sr_key i) CORE_PROTECTIONS) concerns in
  Ok (if flagged "confirmed_compromise_indicator" context || flagged "integrity_failure" context
         || flagged "unauthorized_identity_change" context
      then (UNTRUSTED, reasons)
      else if negb (critical_kev =? 0) || flagged "active_threat" context || core_protection_disabled
              || existsb (fun i => String.eqb (sr_severity i) "critical") concerns
      then (RESTRICTED, reasons)
      else if (ps_evidence_coverage_percent s <? 90) || (ps_security_score s <? 90) || negb (zlen concerns =? 0)
              || existsb pr_matched policies
      then (CONDITIONAL, match reasons with
        | [] => ["Current evidence does not meet the trusted-device threshold."] | _ => reasons end)
      else (TRUSTED, ["Identity, configuration, software, threat, recovery, and evidence coverage requirements are satisfied."])).

(** [_identity_status] *)
Definition identity_status (s : SecurityPostureSnapshot) (p : DeviceIdentityProfile) : string :=
  let identity := filter (fun i => sr_domain i = "identity") (ps_signals s) in
  if String.eqb (dp_model p) "unknown" || String.eqb (dp_architecture p) "unknown"
     || existsb (fun i => negb (known i)) identity then "UNKNOWN"
  else if existsb is_concern identity then "CONCERN" else "VERIFIED".

(** [_status] *)
Definition score_status (score : Z) : string :=
  if 90 <=? score then "COMPLIANT" else if 70 <=? score then "NEEDS REVIEW" else "NON-COMPLIANT".

(** [_exposure] *)
Definition exposure (score : Z) : string := if 90 <=? score then "LOW" else if 70 <=? score then "MEDIUM" else "HIGH".

Definition DECISIVE_KEYS : list string :=
  ["critical_kev_vulnerabilities"; "active_threat"; "confirmed_compromise_indicator"; "integrity_failure";
   "unauthorized_identity_change"].

Section Verification.
Context `{AssuranceEnv}.

(** The evidence an attestation refers to. *)
Definition evidence_of (p : DeviceIdentityProfile) (s : SecurityPostureSnapshot) (context_references : list string)
    : list string :=
  sorted_texts (dp_evidence_reference p ++ context_references ++ concat (sr_evidence_reference <$> ps_signals s)).

(** The attestation before its digest. *)
Definition base_attestation (id : string) (p : DeviceIdentityProfile) (s : SecurityPostureSnapshot) (state : string)
    (reasons evidence : list string) (policies : list PolicyResult) : DeviceAttestation := {|
  at_attestation_id := "zt-attestation-" +:+ id; at_timestamp := ps_timestamp s; at_device := p;
  at_trust_state := state; at_trust_score := ps_trust_score s; at_security_score := ps_security_score s;
  at_evidence_coverage_percent := ps_evidence_coverage_percent s; at_identity_status := identity_status s p;
  at_configuration_status := score_status (ps_configuration_score s);
  at_software_status := score_status (ps_software_score s); at_threat_exposure := exposure (ps_threat_score s);
  at_compliance_status := score_status (ps_compliance_score s); at_reasons := reasons;
  at_evidence_reference := evidence; at_policy_results := policies; at_posture_snapshot_id := ps_snapshot_id s;
  at_attestation_hash := "" |}.

(** [verify] *)
Definition verify_device (p : DeviceIdentityProfile) (s : SecurityPostureSnapshot) (context : pydict)
    (previous : option DeviceAttestation) : M nat (DeviceAttestation * TrustDecisionEvent) :=
  if negb (String.eqb (dp_device_id p) (ps_device_id s))
  then raise_st (ValueError "Device identity and posture snapshot identifiers do not match.")
  else
    let references := match dget_default (VList []) "evidence_reference" context with
      | VStr t => VList [VStr t] | v => v end in
    let decisive := existsb (fun k => flagged k context) DECISIVE_KEYS in
    if decisive && negb (truthy_val references)
    then raise_st (ValueError "Trust-impacting external context requires an evidence_reference.")
    else
      context_references ← lift_res (reference_texts references);
      let evidence := evidence_of p s context_references in
      policies ← lift_res (evaluate_policies s context evidence);
      '(state, reasons) ← lift_res (trust_state_of s p context policies);
      id ← ask uuid4_hex;
      let base := base_attestation id p s state reasons evidence policies in
      digest ← lift_res (digest_of (attestation_dict base));
      event_id ← ask uuid4_hex;
      decision_id ← ask uuid4_hex;
      mret (with_attestation_hash digest base,
        {| te_event_id := "zt-event-" +:+ event_id; te_decision_id := "zt-decision-" +:+ decision_id;
           te_timestamp := ps_timestamp s; te_device_id := dp_device_id p;
           te_previous_trust_state := match previous with Some a => at_trust_state a | None => "NOT PREVIOUSLY VERIFIED" end;
           te_new_trust_state := state; te_reason := reasons; te_evidence_reference := evidence;
           te_risk_score := 100 - ps_security_score s;
           te_policy_trigger := pr_policy_id <$> filter (fun r => pr_matched r = true) policies |}).

(** [verify_attestation], of the attestation's [to_dict()] *)
Definition verify_attestation (payload : pydict) : res bool :=
  let expected := py_str (dget_default (VStr "") "attestation_hash" payload) in
  if negb (truthy expected) then Ok false
  else digest ← digest_of (emptied "attestation_hash" payload); compare_digest digest expected.

(** ** What analysts are shown *)

(** [analyst_context] *)
Definition trust_analyst_context (a : DeviceAttestation) (e : TrustDecisionEvent) : pydict := [
  ("observed_facts", VDict (decision_dict e)); ("attestation_reference", VStr (at_attestation_id a));
  ("explanation", VStr ("Device trust is " +:+ at_trust_state a +:+ ": " +:+ join "; " (at_reasons a)));
  ("confidence", VStr (percent_confidence (at_evidence_coverage_percent a)));
  ("uncertainty", VList (if at_evidence_coverage_percent a =? 100 then []
     else [VStr ("Evidence coverage is " +:+ str_of_Z (at_evidence_coverage_percent a) +:+ "%.")]));
  ("guardrail", VStr "The analyst assistant must not override policy or make a final access decision.")].

(** [emergency_response_context] *)
Definition emergency_response_context (a : DeviceAttestation) (e : TrustDecisionEvent) : pydict :=
  let eligible := one_of (at_trust_state a) [RESTRICTED; UNTRUSTED] in
  [("eligible", VBool eligible); ("authorization_required", VBool true); ("automatic_action", VBool false);
   ("evidence_reference", VList (VStr <$> te_evidence_reference e));
   ("recommended_workflow", VStr (if eligible then "collect_evidence_then_request_investigation" else "continue_monitoring"))].

(** [dashboard] *)
Definition trust_dashboard (a : DeviceAttestation) (history : list TrustDecisionEvent) : pydict := [
  ("category", VStr "Zero Trust Device Identity"); ("device_trust_state", VStr (at_trust_state a));
  ("trust_score", VInt (at_trust_score a)); ("last_verification", VStr (at_timestamp a));
  ("security_evidence", VList (VStr <$> at_evidence_reference a));
  ("policy_results", VList ((fun r => VDict (policy_dict r)) <$> at_policy_results a));
  ("verification_history", VList ((fun e => VDict (decision_dict e)) <$> history));
  ("actions", VList (VStr <$> ["verify_device"; "view_evidence"; "generate_attestation"; "review_changes";
     "start_investigation"]));
  ("authorization_notice", VStr
     "MSAA provides decision support only; access restriction and incident actions require authorized external workflows.")].
End Verification.

(** ** The repository *)

(** [device_identity] *)
Record identity_row := {
  di_device_id : string;
  di_hardware_identity : string;
  di_os_version : string;
  di_security_state : string;
  di_trust_state : string;
  di_last_verified : string;
  di_attestation_hash : string;
  di_payload_json : json_text
}.

(** [trust_decisions] *)
Record decision_row := {
  td_decision_id : string;
  td_event_id : string;
  td_timestamp : string;
  td_device_id : string;
  td_trust_state : string;
  td_reason : json_text;
  td_evidence : json_text;
  td_policy : json_text;
  td_attestation_hash : string;
  td_payload_json : json_text
}.

Record IdentityTables := {
  i_devices : list identity_row;
  i_decisions : list decision_row
}.

Definition IdentityDb : Type := Conn IdentityTables.

Definition PROFILE_FIELDS : list string :=
  ["device_id"; "model"; "architecture"; "hardware_capabilities"; "secure_enclave_available"; "secure_boot_status";
   "macos_version"; "build_number"; "patch_status"; "identity_source"; "evidence_reference"].
Definition PROFILE_DEFAULTS : pydict := [("privacy_notice", VStr PRIVACY_NOTICE)].

Definition POLICY_FIELDS : list string := ["policy_id"; "matched"; "recommended_action"; "reason"; "evidence_reference"].
Definition POLICY_DEFAULTS : pydict := [("authorization_required", VBool true)].

Definition ATTESTATION_FIELDS : list string :=
  ["attestation_id"; "timestamp"; "device"; "trust_state"; "trust_score"; "security_score"; "evidence_coverage_percent";
   "identity_status"; "configuration_status"; "software_status"; "threat_exposure"; "compliance_status"; "reasons";
   "evidence_reference"; "policy_results"; "posture_snapshot_id"].
Definition ATTESTATION_DEFAULTS : pydict := [("attestation_hash", VStr ""); ("qualification", VStr QUALIFICATION)].

(** [d[k] = tuple(d.get(k, []))] *)
Definition as_tuple_at (k : string) (d : pydict) : res pydict :=
  items ← py_iter (dget_default (VList []) k d); Ok (dset k (VTuple items) d).

(** [payload.pop("device")], made a profile again: its [to_dict()] *)
Definition device_of_payload (payload : pydict) : res pydict :=
  match dget "device" payload with
  | None => Raise (KeyError "device")
  | Some (VDict d) =>
      d1 ← as_tuple_at "hardware_capabilities" d;
      d2 ← as_tuple_at "evidence_reference" d1;
      construct PROFILE_FIELDS PROFILE_DEFAULTS (VDict d2)
  | Some _ => Raise (AttributeError "object has no attribute 'get'")
  end.

(** [json.loads(text)], to be popped from *)
Definition payload_object (t : json_text) : res pydict :=
  match t with
  | JsonOf (VDict d) => Ok d
  | JsonOf (VList _) => Raise (TypeError "'str' object cannot be interpreted as an integer")
  | JsonOf _ => Raise (AttributeError "object has no attribute 'pop'")
  | NotJson _ => Raise (ValueError "Expecting value")
  end.

(** The attestation a payload describes: its [to_dict()]. *)
Definition attestation_of_payload (payload : pydict) : res pydict :=
  device ← device_of_payload payload;
  items ← py_iter (dget_default (VList []) "policy_results" payload);
  policies ← res_map (construct POLICY_FIELDS POLICY_DEFAULTS) items;
  p1 ← as_tuple_at "reasons" payload;
  p2 ← as_tuple_at "evidence_reference" p1;
  construct ATTESTATION_FIELDS ATTESTATION_DEFAULTS
    (VDict (dset "policy_results" (VList (VDict <$> policies)) (dset "device" (VDict device) p2))).

Section IdentityStore.
Context `{AssuranceEnv}.

(** [_sha256({"model": ..., "architecture": ...})] *)
Definition hardware_identity (p : DeviceIdentityProfile) : res string :=
  digest_of [("model", VStr (dp_model p)); ("architecture", VStr (dp_architecture p))].

Definition identity_row_of (a : DeviceAttestation) (hardware : string) : identity_row := {|
  di_device_id := dp_device_id (at_device a); di_hardware_identity := hardware;
  di_os_version := dp_macos_version (at_device a); di_security_state := at_configuration_status a;
  di_trust_state := at_trust_state a; di_last_verified := at_timestamp a;
  di_attestation_hash := at_attestation_hash a;
  di_payload_json := canonical_column (VDict (attestation_dict a)) |}.

Definition decision_row_of (a : DeviceAttestation) (e : TrustDecisionEvent) : decision_row := {|
  td_decision_id := te_decision_id e; td_event_id := te_event_id e; td_timestamp := te_timestamp e;
  td_device_id := te_device_id e; td_trust_state := te_new_trust_state e;
  td_reason := canonical_column (texts (te_reason e)); td_evidence := canonical_column (texts (te_evidence_reference e));
  td_policy := canonical_column (texts (te_policy_trigger e)); td_attestation_hash := at_attestation_hash a;
  td_payload_json := canonical_column (VDict (decision_dict e)) |}.

Definition same_device (device_id : string) (r : identity_row) : bool := String.eqb (di_device_id r) device_id.

(** [INSERT ... ON CONFLICT(device_id) DO UPDATE] *)
Definition upsert_identity (r : identity_row) (t : IdentityTables) : IdentityTables :=
  {| i_devices := if existsb (same_device (di_device_id r)) (i_devices t)
       then (fun o => if same_device (di_device_id r) o then r else o) <$> i_devices t
       else i_devices t ++ [r];
     i_decisions := i_decisions t |}.

Definition insert_decision (r : decision_row) (t : IdentityTables) : res IdentityTables :=
  raise_if (existsb (fun o => String.eqb (td_decision_id o) (td_decision_id r)) (i_decisions t))
    (IntegrityError "UNIQUE constraint failed: trust_decisions.decision_id");;
  raise_if (existsb (fun o => String.eqb (td_event_id o) (td_event_id r)) (i_decisions t))
    (IntegrityError "UNIQUE constraint failed: trust_decisions.event_id");;
  Ok {| i_devices := i_devices t; i_decisions := i_decisions t ++ [r] |}.

(** [save] *)
Definition save_attestation (a : DeviceAttestation) (e : TrustDecisionEvent) : M IdentityDb unit :=
  ok ← lift_res (verify_attestation (attestation_dict a));
  if negb (ok : bool) then raise_st (ValueError "Refusing to store an invalid device attestation.")
  else with_connection (
    hardware ← lift_res (hardware_identity (at_device a));
    sql_write (upsert_identity (identity_row_of a hardware));;
    sql_write_checked (insert_decision (decision_row_of a e))).

(** [decision_history] *)
Definition decision_history (device_id : string) (limit : Z) : M IdentityDb (list pyval) :=
  rows ← sql_read (fun t => take (bounded_limit limit)
    (sort_by (fun a b => str_le (td_timestamp b) (td_timestamp a))
       (filter (fun r => td_device_id r = device_id) (i_decisions t))));
  lift_res (res_map (fun r => match td_payload_json r with
    | JsonOf v => Ok v | NotJson _ => Raise (ValueError "Expecting value") end) rows).

(** [latest_attestation] *)
Definition latest_attestation (device_id : string) : M IdentityDb (option pydict) :=
  row ← sql_read (fun t => find_first (same_device device_id) (i_devices t));
  match row with
  | None => mret None
  | Some r =>
      payload ← lift_res (payload_object (di_payload_json r));
      attestation ← lift_res (attestation_of_payload payload);
      ok ← lift_res (verify_attestation attestation);
      if (ok : bool) then mret (Some attestation)
      else raise_st (ValueError ("Device attestation integrity verification failed: "
                                 +:+ py_str (vget "attestation_id" attestation)))
  end.
End IdentityStore.
