(* ===== verification/DeviceTrustFacts.v ===== *)
(** What device attestations promise: a trusted device is proven, decisive evidence
    revokes trust, what is stored verifies and reads back. *)

From S2P Require Import Prelude PyStr PyFloat PyDict PyJson PyTime Sql PyRepr JsonCanon AlertIntegrity.
From S2P Require Import PostureAssurance PostureAssuranceFacts DeviceTrust.

(** ** Reading back *)

Section ReadBack.
Context `{AssuranceEnv}.

Lemma as_tuple_ok k d l : dget k d = Some (VList l) -> as_tuple_at k d = Ok (dset k (VTuple l) d).
Proof. intros Hd. unfold as_tuple_at, dget_default. by rewrite Hd. Qed.

Lemma dwf_profile p : dwf (profile_dict p).
Proof. apply (bool_decide_unpack _). by vm_compute. Qed.
Lemma dwf_policy r : dwf (policy_dict r).
Proof. apply (bool_decide_unpack _). by vm_compute. Qed.
Lemma dwf_attestation a : dwf (attestation_dict a).
Proof. apply (bool_decide_unpack _). by vm_compute. Qed.

Lemma dwf_stored d : dwf d -> dwf (stored_items d).
Proof. intros Hd. unfold dwf, keys. rewrite stored_perm. by apply dwf_normal_items. Qed.

Lemma construct_stored_policy r :
  construct POLICY_FIELDS POLICY_DEFAULTS (normal (VDict (policy_dict r))) = Ok (normal_items (policy_dict r)).
Proof. rewrite stored_normal. apply construct_perm; [done|apply dwf_normal_items, dwf_policy|apply stored_perm]. Qed.

(** Two fields of a stored dict replaced, in whatever order its items come. *)
Lemma dset2_stored k1 v1 k2 v2 d : dwf d -> k1 ∈ keys d -> k2 ∈ keys d ->
  dwf (dset k2 v2 (dset k1 v1 (normal_items d)))
  /\ keys (dset k2 v2 (dset k1 v1 (normal_items d))) = keys d
  /\ Permutation (dset k2 v2 (dset k1 v1 (stored_items d))) (dset k2 v2 (dset k1 v1 (normal_items d))).
Proof.
  intros Hd H1 H2. assert (Hk : forall x, x ∈ keys d -> x ∈ keys (stored_items d)).
  { intros x Hx. unfold keys. rewrite stored_perm. fold (keys (normal_items d)). by rewrite keys_normal_items. }
  assert (Hn1 : keys (dset k1 v1 (normal_items d)) = keys d) by (by rewrite keys_dset_in; rewrite ?keys_normal_items).
  split; [by apply dwf_dset, dwf_dset, dwf_normal_items|]. split.
  - by rewrite keys_dset_in; rewrite Hn1.
  - apply dset_perm; [by apply dwf_dset, dwf_stored| |].
    + rewrite keys_dset_in; by apply Hk.
    + apply dset_perm; [by apply dwf_stored|by apply Hk|apply stored_perm].
Qed.

Definition reread_profile (p : DeviceIdentityProfile) : pydict :=
  dset "evidence_reference" (texts (dp_evidence_reference p))
    (dset "hardware_capabilities" (texts (dp_hardware_capabilities p)) (normal_items (profile_dict p))).

Lemma device_stored p d : dget "device" d = Some (normal (VDict (profile_dict p))) ->
  device_of_payload d = Ok (reread_profile p).
Proof.
  intros Hd. unfold device_of_payload. rewrite Hd, stored_normal. set (q := stored_items (profile_dict p)).
  assert (Hcap : dget "hardware_capabilities" q = Some (VList (VStr <$> dp_hardware_capabilities p))).
  { apply dget_stored; [apply dwf_profile|]. by rewrite <- normal_texts. }
  assert (Hev : dget "evidence_reference" q = Some (VList (VStr <$> dp_evidence_reference p))).
  { apply dget_stored; [apply dwf_profile|]. by rewrite <- normal_texts. }
  rewrite (as_tuple_ok _ _ _ Hcap). cbn [mbind res_bind].
  rewrite (as_tuple_ok _ _ (VStr <$> dp_evidence_reference p)) by (by rewrite dget_dset_ne).
  cbn [mbind res_bind].
  destruct (dset2_stored "hardware_capabilities" (texts (dp_hardware_capabilities p))
    "evidence_reference" (texts (dp_evidence_reference p)) (profile_dict p)) as (Hw & Hk & Hp);
    [apply dwf_profile|by apply one_of_spec|by apply one_of_spec|].
  apply construct_perm; [exact Hk|exact Hw|exact Hp].
Qed.

Lemma reread_profile_same p : normal_items (reread_profile p) = normal_items (profile_dict p).
Proof.
  unfold reread_profile. rewrite !normal_items_dset, normal_items_settle.
  rewrite (dset_same "hardware_capabilities") by done. by rewrite (dset_same "evidence_reference").
Qed.

(** What the loader makes of a stored attestation. *)
Definition reread_attestation (a : DeviceAttestation) : pydict :=
  dset "policy_results" (VList ((fun r => VDict (normal_items (policy_dict r))) <$> at_policy_results a))
    (dset "device" (VDict (reread_profile (at_device a)))
      (dset "evidence_reference" (texts (at_evidence_reference a))
        (dset "reasons" (texts (at_reasons a)) (normal_items (attestation_dict a))))).

Lemma load_stored_attestation a :
  attestation_of_payload (stored_items (attestation_dict a)) = Ok (reread_attestation a).
Proof.
  set (q := stored_items (attestation_dict a)).
  assert (Hdev : dget "device" q = Some (normal (VDict (profile_dict (at_device a))))).
  { by apply dget_stored; [apply dwf_attestation|]. }
  assert (Hpol : dget "policy_results" q = Some (VList ((fun r => normal (VDict (policy_dict r))) <$> at_policy_results a))).
  { apply dget_stored; [apply dwf_attestation|].
    transitivity (Some (normal (VList ((fun r => VDict (policy_dict r)) <$> at_policy_results a)))); [done|].
    cbn [normal]. do 2 f_equal. by rewrite <- list_fmap_compose. }
  assert (Hre : dget "reasons" q = Some (VList (VStr <$> at_reasons a))).
  { apply dget_stored; [apply dwf_attestation|]. by rewrite <- normal_texts. }
  assert (Hev : dget "evidence_reference" q = Some (VList (VStr <$> at_evidence_reference a))).
  { apply dget_stored; [apply dwf_attestation|]. by rewrite <- normal_texts. }
  unfold attestation_of_payload. rewrite (device_stored _ _ Hdev). cbn [mbind res_bind].
  unfold dget_default at 1. rewrite Hpol. cbn [py_iter mbind res_bind].
  rewrite (res_map_all_ok_fmap (construct POLICY_FIELDS POLICY_DEFAULTS) _ (fun r => normal_items (policy_dict r)))
    by (intros r; apply construct_stored_policy).
  cbn [mbind res_bind]. rewrite (as_tuple_ok _ _ _ Hre). cbn [mbind res_bind].
  rewrite (as_tuple_ok _ _ (VStr <$> at_evidence_reference a)) by (by rewrite dget_dset_ne).
  cbn [mbind res_bind]. rewrite <- list_fmap_compose.
  destruct (dset2_stored "reasons" (texts (at_reasons a)) "evidence_reference" (texts (at_evidence_reference a))
    (attestation_dict a)) as (Hw & Hk & Hp); [apply dwf_attestation|by apply one_of_spec|by apply one_of_spec|].
  apply construct_perm; [done|by apply dwf_dset, dwf_dset|].
  assert (Hin : forall k, one_of k (keys (attestation_dict a)) = true ->
    k ∈ keys (dset "evidence_reference" (VTuple (VStr <$> at_evidence_reference a))
      (dset "reasons" (VTuple (VStr <$> at_reasons a)) q))).
  { intros k Hok%one_of_spec. rewrite <- Hk in Hok. unfold keys in Hok. by rewrite <- Hp in Hok. }
  assert (Hwq : dwf (dset "evidence_reference" (VTuple (VStr <$> at_evidence_reference a))
      (dset "reasons" (VTuple (VStr <$> at_reasons a)) q))) by (apply dwf_dset, dwf_dset, dwf_stored, dwf_attestation).
  apply dset_perm; [by apply dwf_dset| |apply dset_perm; [done| |done]].
  - rewrite keys_dset_in; by apply Hin.
  - by apply Hin.
Qed.

Lemma reread_attestation_same a : normal_items (reread_attestation a) = normal_items (attestation_dict a).
Proof.
  unfold reread_attestation. rewrite !normal_items_dset, normal_items_settle.
  rewrite (dset_same "reasons") by done. rewrite (dset_same "evidence_reference") by done.
  rewrite (dset_same "device").
  - apply dset_same. cbn -[policy_dict]. do 2 f_equal. rewrite <- !list_fmap_compose.
    apply list_fmap_ext. intros i x _. symmetry. apply normal_items_same.
  - transitivity (Some (normal (VDict (profile_dict (at_device a))))); [done|]. f_equal. symmetry.
    apply same_dicts, reread_profile_same.
Qed.

(** ** Verification *)

Lemma emptied_base field d : dwf d -> dget field d = Some (VStr "") -> digest_of (emptied field d) = digest_of d.
Proof.
  intros Hd Hf. apply digest_same, same_dict.
  - by apply dwf_dset, dwf_ddel.
  - apply fmap_Permutation. by apply dset_end.
Qed.

Lemma emptied_with_hash h a :
  emptied "attestation_hash" (attestation_dict (with_attestation_hash h a)) = emptied "attestation_hash" (attestation_dict a).
Proof.
  unfold emptied. refine (f_equal (dset "attestation_hash" (VStr "")) _).
  exact (ddel_other "attestation_hash" _ _ (take 16 (attestation_dict a)) (drop 17 (attestation_dict a))).
Qed.

Lemma verify_hashed_attestation `{!HexDigests} a digest : at_attestation_hash a = "" ->
  digest_of (attestation_dict a) = Ok digest ->
  verify_attestation (attestation_dict (with_attestation_hash digest a)) = Ok true.
Proof.
  intros Hh Hd. destruct (digest_exists (attestation_dict a)) as (t & _ & Ht). rewrite Hd in Ht. injection Ht as ->.
  unfold verify_attestation.
  change (dget_default (VStr "") "attestation_hash" (attestation_dict (with_attestation_hash (sha256 t) a)))
    with (VStr (sha256 t)).
  cbn [py_str]. rewrite sha256_some. cbn [negb].
  rewrite emptied_with_hash.
  rewrite emptied_base; [|apply dwf_attestation|cbn; by rewrite Hh].
  rewrite Hd. cbn. unfold compare_digest. by rewrite sha256_ascii, String.eqb_refl.
Qed.

Lemma verify_attestation_same d1 d2 : normal_items d1 = normal_items d2 ->
  dget "attestation_hash" d1 = dget "attestation_hash" d2 -> verify_attestation d1 = verify_attestation d2.
Proof.
  intros He Hh. unfold verify_attestation, dget_default. by rewrite Hh, (emptied_same _ _ _ He).
Qed.

Lemma verify_reread_attestation a : verify_attestation (reread_attestation a) = verify_attestation (attestation_dict a).
Proof. apply verify_attestation_same; [apply reread_attestation_same|done]. Qed.

(** ** What a verification that returns says *)

Lemma verify_device_ok p s context previous n a e n' :
  verify_device p s context previous n = (Ok (a, e), n') ->
  exists refs policies state reasons digest,
    dp_device_id p = ps_device_id s
    /\ evaluate_policies s context (evidence_of p s refs) = Ok policies
    /\ trust_state_of s p context policies = Ok (state, reasons)
    /\ a = with_attestation_hash digest (base_attestation (uuid4_hex n) p s state reasons (evidence_of p s refs) policies)
    /\ digest_of (attestation_dict (base_attestation (uuid4_hex n) p s state reasons (evidence_of p s refs) policies)) = Ok digest
    /\ te_new_trust_state e = state /\ te_reason e = reasons.
Proof.
  unfold verify_device. destruct (String.eqb_spec (dp_device_id p) (ps_device_id s)) as [Hid|]; [|done]. cbn [negb].
  destruct (_ && _); [done|].
  intros (refs & m1 & [Hr ->]%lift_ok & H1)%bind_ok.
  apply bind_ok in H1 as (policies & m2 & [Hp ->]%lift_ok & H2).
  apply bind_ok in H2 as ([state reasons] & m3 & [Ht ->]%lift_ok & H3).
  apply bind_ok in H3 as (id & m4 & [= <- <-] & H4).
  apply bind_ok in H4 as (digest & m5 & [Hd ->]%lift_ok & [= <- <- <-]).
  by exists refs, policies, state, reasons, digest.
Qed.
End ReadBack.

(** ** The store *)

Section Store.
Context `{AssuranceEnv}.

Lemma upsert_found r t : find_first (same_device (di_device_id r)) (i_devices (upsert_identity r t)) = Some r.
Proof.
  unfold upsert_identity. cbn [i_devices]. set (p := same_device (di_device_id r)).
  assert (Hr : p r = true) by (unfold p, same_device; by rewrite String.eqb_refl).
  induction (i_devices t) as [|o l IH]; cbn; [by rewrite Hr|].
  destruct (p o) eqn:Ho; cbn; [by rewrite Hr|]. destruct (existsb p l) eqn:He; cbn; by rewrite Ho.
Qed.

Lemma insert_decision_devices r t t' : insert_decision r t = Ok t' -> i_devices t' = i_devices t.
Proof. unfold insert_decision. by intros ([] & _ & ([] & _ & [= <-])%res_bind_ok)%res_bind_ok. Qed.

(** What a save that returns has done. *)
Lemma save_attestation_ok a e w w' : quiescent w -> save_attestation a e w = (Ok tt, w') ->
  verify_attestation (attestation_dict a) = Ok true /\ quiescent w'
  /\ exists hardware, find_first (same_device (dp_device_id (at_device a))) (i_devices (committed w'))
                      = Some (identity_row_of a hardware).
Proof.
  intros Hq (ok & w1 & [Hok ->]%lift_ok & Hs)%bind_ok. destruct ok; [|done]. split; [done|]. cbn [negb] in Hs.
  match type of Hs with with_connection ?m _ = _ => assert (Hk : keeps_committed m) end.
  { apply keeps_bind; [apply keeps_lift|]. intros hw. apply keeps_bind; [apply keeps_write|]. intros _. apply keeps_checked. }
  pose proof (with_connection_run _ w Hk Hq) as Hr. rewrite Hs in Hr.
  destruct Hr as (Hq' & w2 & (hw & w3 & [_ ->]%lift_ok & H2)%bind_ok & Hw). split; [done|]. exists hw.
  apply bind_ok in H2 as ([] & w4 & H3%write_ok & H4%checked_ok%insert_decision_devices).
  rewrite Hw, H4, H3. exact (upsert_found (identity_row_of a hw) _).
Qed.

Lemma latest_attestation_row a hardware w r w' : verify_attestation (attestation_dict a) = Ok true ->
  find_first (same_device (dp_device_id (at_device a))) (i_devices (working w)) = Some (identity_row_of a hardware) ->
  latest_attestation (dp_device_id (at_device a)) w = (r, w') ->
  r = Raise sql_error \/ r = Ok (Some (reread_attestation a)).
Proof.
  intros Hv Hf. unfold latest_attestation, sql_read, mbind at 1, M_bind at 1.
  destruct (stmt_ok _); [|intros [= <- _]; by left]. rewrite Hf.
  unfold mbind, M_bind, lift_res.
  assert (Hp : payload_object (di_payload_json (identity_row_of a hardware)) = Ok (stored_items (attestation_dict a))) by done.
  rewrite Hp, load_stored_attestation, verify_reread_attestation, Hv. intros [= <- _]. by right.
Qed.

(** C28. Round trip: the attestation of a verification, once saved, is what reading the latest
    attestation of its device gives back, value for value as JSON, its digest verified - unless
    the statement that reads it fails. *)
Theorem attestation_reads_back `{!HexDigests} p s context previous n a e n' w w' r w'' :
  verify_device p s context previous n = (Ok (a, e), n') -> quiescent w ->
  save_attestation a e w = (Ok tt, w') -> latest_attestation (dp_device_id p) w' = (r, w'') ->
  r = Raise sql_error
  \/ exists d, r = Ok (Some d) /\ verify_attestation d = Ok true /\ same_json (VDict d) (VDict (attestation_dict a)).
Proof.
  intros (refs & policies & state & reasons & digest & _ & _ & _ & -> & Hd & _)%verify_device_ok Hq Hs Hl.
  apply save_attestation_ok in Hs as (Hv & [_ Hq'] & hw & Hf); [|done]. rewrite <- Hq' in Hf.
  destruct (latest_attestation_row _ hw w' r w'' Hv Hf Hl) as [->| ->]; [by left|].
  right. eexists. split; [done|]. rewrite verify_reread_attestation. split; [done|].
  by apply same_dicts, reread_attestation_same.
Qed.

(** Two attestations that verify under one digest encode the same values, or two texts
    share a digest. *)
Lemma same_digest_same_text d1 d2 h : verify_attestation d1 = Ok true -> verify_attestation d2 = Ok true ->
  dget "attestation_hash" d1 = Some (VStr h) -> dget "attestation_hash" d2 = Some (VStr h) ->
  canonical_text (VDict (emptied "attestation_hash" d1)) = canonical_text (VDict (emptied "attestation_hash" d2))
  \/ sha256_collision.
Proof.
  unfold verify_attestation, dget_default. intros H1 H2 Hh1 Hh2. rewrite Hh1 in H1. rewrite Hh2 in H2. cbn [py_str] in *.
  destruct (negb (truthy h)); [done|].
  apply res_bind_ok in H1 as (g1 & Hg1 & Hc1). apply res_bind_ok in H2 as (g2 & Hg2 & Hc2).
  assert (Heq : forall g, compare_digest g h = Ok true -> g = h).
  { intros g. unfold compare_digest. destruct (_ && _); [|done]. intros [= Hg]. by apply String.eqb_eq. }
  rewrite (Heq _ Hc1) in Hg1. rewrite (Heq _ Hc2) in Hg2. unfold digest_of in Hg1, Hg2.
  apply res_bind_ok in Hg1 as (t1 & -> & [= E1]). apply res_bind_ok in Hg2 as (t2 & -> & [= E2]).
  destruct (decide (t1 = t2)) as [->|Hne]; [by left|]. right. exists t1, t2. split; [done|]. congruence.
Qed.
End Store.

(** ** Trust *)

Section Trust.
Context `{AssuranceEnv}.

(** The weight of the signals a test selects. *)
Definition wsum (p : PostureSignalResult -> bool) (l : list PostureSignalResult) : Z :=
  zsum (fun s => if p s then sr_weight s else 0) l.

Lemma wsum_filter p l : wsum p l = weight_of_signals (filter (fun s => p s = true) l).
Proof.
  induction l as [|s l IH]; [done|]. rewrite filter_cons. unfold wsum, weight_of_signals, zsum in *. cbn. rewrite IH.
  destruct (p s); [rewrite decide_True by done|rewrite decide_False by done]; done.
Qed.

Definition validated (s : PostureSignalResult) : bool := String.eqb (sr_status s) "validated".

(** What is not selected by [q] bounds what [q] takes away from [p]. *)
Lemma wsum_and p q l : Forall (fun s => 0 <= sr_weight s) l ->
  wsum p l + wsum q l - wsum (fun _ => true) l <= wsum (fun s => p s && q s) l.
Proof.
  unfold wsum, zsum. induction 1 as [|s l Hs _ IH]; cbn in *; [lia|]. destruct (p s), (q s); cbn; lia.
Qed.

Lemma evaluated_wsum definitions signals (f : SignalDefinition -> bool) (g : PostureSignalResult -> bool) :
  Forall2 evaluates definitions signals -> (forall d s, evaluates d s -> g s = f d) ->
  wsum g signals = zsum (fun d => if f d then sd_weight d else 0) definitions.
Proof.
  intros Hf Hg. unfold wsum, zsum. induction Hf as [|d s ds ss Hd _ IH]; [done|]. cbn. rewrite IH, (Hg d s Hd).
  destruct Hd as (_ & _ & _ & -> & _). done.
Qed.

Lemma evaluated_weights signals : Forall2 evaluates DEFAULT_SIGNALS signals -> Forall (fun i => 0 <= sr_weight i) signals.
Proof.
  assert (Hw : Forall (fun d => 0 <= sd_weight d) DEFAULT_SIGNALS) by (by apply (bool_decide_unpack _); vm_compute).
  intros Hf. induction Hf as [|d i ds ss (_ & _ & _ & Hi & _) _ IH]; constructor; inversion_clear Hw; [by rewrite Hi|auto].
Qed.

Lemma wsum_nonneg p l : Forall (fun s => 0 <= sr_weight s) l -> 0 <= wsum p l.
Proof. intros Hl. apply zsum_nonneg. eapply Forall_impl; [exact Hl|]. intros s Hs. cbn. by destruct (p s). Qed.

Lemma wsum_le p l : Forall (fun s => 0 <= sr_weight s) l -> wsum p l <= wsum (fun _ => true) l.
Proof. unfold wsum, zsum. induction 1 as [|s l Hs _ IH]; cbn in *; [done|]. destruct (p s); lia. Qed.

(** Where nothing is a concern, what is known is validated. *)
Lemma known_is_validated definitions signals : Forall2 evaluates definitions signals ->
  Forall (fun i => is_concern i = false) signals -> wsum validated signals = wsum known signals.
Proof.
  unfold wsum, zsum. induction 1 as [|d s ds ss Hd _ IH]; [done|]. intros [Hs Hr]%Forall_cons. cbn. rewrite IH by done.
  f_equal. unfold validated, known. unfold is_concern in Hs.
  destruct (status_cases _ _ Hd) as [-> |[Hc| -> ]]; [done| |done]. by rewrite Hc in Hs.
Qed.

(** The coverage of known weight [k] out of the 137 of the default signals. *)
Lemma coverage_needs k : 0 <= k <= 137 -> 90 <= clamp (int_div (100 * k) 137) -> 123 <= k.
Proof.
  intros Hk. assert (Hall : forallb (fun i => negb (90 <=? clamp (int_div (100 * Z.of_nat i) 137)) || (123 <=? Z.of_nat i))
    (seq 0 138) = true) by (by vm_compute).
  rewrite forallb_forall in Hall. specialize (Hall (Z.to_nat k)). rewrite Z2Nat.id in Hall by lia.
  intros Hc. assert (Hin : In (Z.to_nat k) (seq 0 138)) by (apply in_seq; lia). specialize (Hall Hin).
  apply orb_true_iff in Hall as [Hb|Hb]; [|lia]. apply negb_true_iff in Hb. lia.
Qed.

Lemma filter_none {A} (q : A -> bool) (l : list A) : zlen (filter (fun x => q x = true) l) = 0 -> Forall (fun x => q x = false) l.
Proof.
  intros Hz. apply Forall_forall. intros x Hx. destruct (q x) eqn:Hq; [|done].
  assert (Hin : x ∈ filter (fun x => q x = true) l) by (by apply list_elem_of_filter).
  destruct (filter _ l); [by apply elem_of_nil in Hin|]. by rewrite zlen_cons in Hz; pose proof (zlen_nonneg l0); lia.
Qed.

(** What the state TRUSTED takes. *)
Lemma trusted_state s p context policies reasons : trust_state_of s p context policies = Ok (TRUSTED, reasons) ->
  critical_kev_of context = Ok 0 /\ Forall (fun k => flagged k context = false) (tail DECISIVE_KEYS)
  /\ 90 <= ps_evidence_coverage_percent s /\ 90 <= ps_security_score s
  /\ Forall (fun i => is_concern i = false) (ps_signals s) /\ Forall (fun r => pr_matched r = false) policies.
Proof.
  unfold trust_state_of. intros (kev & -> & Heq)%res_bind_ok. injection Heq as Heq. cbn [tail DECISIVE_KEYS].
  destruct (flagged "confirmed_compromise_indicator" context) eqn:F1; [done|].
  destruct (flagged "integrity_failure" context) eqn:F2; [done|].
  destruct (flagged "unauthorized_identity_change" context) eqn:F3; [done|]. cbn [orb] in Heq.
  destruct (negb (kev =? 0)) eqn:Hkev; [done|]. destruct (flagged "active_threat" context) eqn:F4; [done|]. cbn [orb] in Heq.
  destruct (existsb _ _ || existsb _ _); [done|].
  destruct (ps_evidence_coverage_percent s <? 90) eqn:Hcov; [done|].
  destruct (ps_security_score s <? 90) eqn:Hsec; [done|]. cbn [orb] in Heq.
  destruct (negb (zlen _ =? 0)) eqn:Hz; [done|]. destruct (existsb pr_matched policies) eqn:Hp; [done|].
  apply negb_false_iff, Z.eqb_eq in Hkev, Hz. subst kev. split; [done|]. split; [by repeat apply Forall_cons_2|].
  split; [lia|]. split; [lia|]. split; [by apply filter_none|by apply existsb_none].
Qed.

Lemma evaluated_coverage s evidence device_id hostname timestamp previous n cs n' :
  evaluate DEFAULT_SIGNALS evidence device_id hostname timestamp previous n = (Ok (s, cs), n') ->
  Forall2 evaluates DEFAULT_SIGNALS (ps_signals s)
  /\ ps_evidence_coverage_percent s = clamp (int_div (100 * wsum known (ps_signals s)) 137).
Proof.
  intros (id & at_time & signals & digest & n1 & changes & n2 & Hs%evaluate_signals_evaluate & -> & _)%evaluate_ok.
  split; [done|]. cbn [ps_evidence_coverage_percent with_hash base_snapshot ps_signals]. unfold coverage_of.
  rewrite <- wsum_filter. replace (weight_of_signals signals) with 137; [done|].
  transitivity (wsum (fun _ => true) signals); [|done].
  symmetry. by rewrite (evaluated_wsum DEFAULT_SIGNALS signals (fun _ => true) (fun _ => true)).
Qed.

(** C22. A trusted device is proven: when the attestation over an evaluation of the default
    signals recommends TRUSTED, no signal is a concern, at least 123 of the 137 points of
    weight are validated evidence, every domain has validated evidence, the posture score is
    90 or more, no decisive context is set and no policy matched. *)
Theorem trusted_device_is_proven evidence device_id hostname timestamp prior n s cs n1 p context previous n2 a e n3 :
  evaluate DEFAULT_SIGNALS evidence device_id hostname timestamp prior n = (Ok (s, cs), n1) ->
  verify_device p s context previous n2 = (Ok (a, e), n3) -> at_trust_state a = TRUSTED ->
  dp_device_id p = device_id
  /\ Forall (fun i => sr_status i <> "concern") (ps_signals s)
  /\ wsum (fun _ => true) (ps_signals s) = 137 /\ 123 <= wsum validated (ps_signals s)
  /\ Forall (fun kw => 0 < wsum (fun i => String.eqb (sr_domain i) kw.1 && validated i) (ps_signals s)) DOMAIN_WEIGHTS
  /\ 90 <= ps_security_score s
  /\ critical_kev_of context = Ok 0 /\ Forall (fun k => flagged k context = false) (tail DECISIVE_KEYS)
  /\ Forall (fun r => pr_matched r = false) (at_policy_results a).
Proof.
  intros Hev (refs & policies & state & reasons & digest & Hid & _ & Ht & -> & _)%verify_device_ok.
  cbn [at_trust_state with_attestation_hash base_attestation at_policy_results]. intros ->.
  apply trusted_state in Ht as (Hkev & Hflags & Hcov & Hsec & Hcon & Hpol).
  destruct (evaluated_coverage _ _ _ _ _ _ _ _ _ Hev) as [Hf Hc]. rewrite Hc in Hcov.
  assert (Htotal : wsum (fun _ => true) (ps_signals s) = 137)
    by (by rewrite (evaluated_wsum DEFAULT_SIGNALS (ps_signals s) (fun _ => true) (fun _ => true))).
  assert (Hpos : Forall (fun i => 0 <= sr_weight i) (ps_signals s)) by (by eapply evaluated_weights).
  assert (Hval : wsum validated (ps_signals s) = wsum known (ps_signals s)) by (by eapply known_is_validated).
  assert (Hk : 123 <= wsum validated (ps_signals s)).
  { rewrite Hval. apply coverage_needs; [|done]. split; [by apply wsum_nonneg|]. rewrite <- Htotal. by apply wsum_le. }
  split. { apply evaluate_ok in Hev as (id & at_time & signals & dg & m1 & ch & m2 & _ & -> & _). done. }
  split. { eapply Forall_impl; [exact Hcon|]. intros i Hi He. unfold is_concern in Hi. by rewrite He in Hi. }
  do 2 (split; [done|]). split; [|done].
  apply Forall_forall. intros kw Hkw.
  pose proof (wsum_and (fun i => String.eqb (sr_domain i) kw.1) validated (ps_signals s) Hpos) as Hand.
  rewrite (evaluated_wsum DEFAULT_SIGNALS (ps_signals s) (fun d => String.eqb (sd_domain d) kw.1)
    (fun i => String.eqb (sr_domain i) kw.1) Hf) in Hand
    by (intros d i (_ & Hdom & _); by rewrite Hdom).
  assert (Hd : 14 < zsum (fun d => if String.eqb (sd_domain d) kw.1 then sd_weight d else 0) DEFAULT_SIGNALS); [|lia].
  unfold DOMAIN_WEIGHTS in Hkw. rewrite !elem_of_cons, elem_of_nil in Hkw.
  destruct Hkw as [->|[->|[->|[->|[->|[]]]]]]; by vm_compute.
Qed.

Lemma concerns_elem i (l : list PostureSignalResult) : i ∈ l -> is_concern i = true ->
  i ∈ filter (fun i => is_concern i = true) l.
Proof. intros Hi Hc. by apply list_elem_of_filter. Qed.

(** A critical concern or a disabled core protection. *)
Definition grave_concern (i : PostureSignalResult) : bool :=
  is_concern i && (String.eqb (sr_severity i) "critical" || one_of (sr_key i) CORE_PROTECTIONS).

(** Decisive evidence revokes trust: a confirmed compromise, an integrity failure or an
    unauthorised identity change makes the device untrusted; an active threat, a critical
    known-exploited vulnerability, a critical concern or a disabled core protection leaves it
    restricted at best; and the decision says what the attestation says. *)
Theorem decisive_evidence_revokes_trust p s context previous n a e n' :
  verify_device p s context previous n = (Ok (a, e), n') ->
  te_new_trust_state e = at_trust_state a
  /\ (flagged "confirmed_compromise_indicator" context || flagged "integrity_failure" context
      || flagged "unauthorized_identity_change" context = true -> at_trust_state a = UNTRUSTED)
  /\ (flagged "active_threat" context = true \/ critical_kev_of context <> Ok 0
      \/ Exists (fun i => grave_concern i = true) (ps_signals s) ->
      at_trust_state a ∈ [RESTRICTED; UNTRUSTED]).
Proof.
  intros (refs & policies & state & reasons & digest & _ & _ & Ht & -> & _ & He & _)%verify_device_ok.
  cbn [at_trust_state with_attestation_hash base_attestation]. split; [done|]. revert Ht. unfold trust_state_of.
  intros (kev & Hkev & Heq)%res_bind_ok. injection Heq as Heq. destruct (_ || _ || _).
  { injection Heq as <- _. split; [done|]. intros _. by apply one_of_spec. }
  split; [done|]. intros Hgrave. apply one_of_spec.
  match type of Heq with (if ?c then _ else _) = _ => assert (Hc : c = true) end.
  { destruct Hgrave as [Hat|[Hk|[i [Hi Hg]]%Exists_exists]].
    - rewrite Hat. by rewrite orb_true_r.
    - destruct (Z.eqb_spec kev 0) as [->|]; [done|]. done.
    - unfold grave_concern in Hg. apply andb_true_iff in Hg as [Hcon Hg].
      pose proof (concerns_elem _ _ Hi Hcon) as Hin%list_elem_of_In. rewrite !orb_true_iff.
      apply orb_true_iff in Hg as [Hg|Hg]; [right|left; right]; apply existsb_exists; by exists i. }
  rewrite Hc in Heq. by injection Heq as <- _.
Qed.
End Trust.

(** ** Runs *)

Definition demo_profile : DeviceIdentityProfile := {|
  dp_device_id := "device-1"; dp_model := "MacBookPro"; dp_architecture := "arm64";
  dp_hardware_capabilities := ["secure_boot"; "secure_enclave"]; dp_secure_enclave_available := Some true;
  dp_secure_boot_status := "verified"; dp_macos_version := "15.5"; dp_build_number := "24F74";
  dp_patch_status := "current"; dp_identity_source := "administrator-provided device ID";
  dp_evidence_reference := ["hardware:profile-1"] |}.

(** The profile of a Mac whose Secure Boot is off, nothing else being known of it. *)
Definition bare_profile : DeviceIdentityProfile := {|
  dp_device_id := "device-1"; dp_model := "unknown"; dp_architecture := "unknown"; dp_hardware_capabilities := [];
  dp_secure_enclave_available := None; dp_secure_boot_status := "disabled"; dp_macos_version := "unknown";
  dp_build_number := "unknown"; dp_patch_status := "unknown"; dp_identity_source := "administrator-provided device ID";
  dp_evidence_reference := [] |}.

Definition demo_verify (p : DeviceIdentityProfile) (s : SecurityPostureSnapshot) (context : pydict) :=
  @verify_device assurance_env p s context None 0%nat.

Definition no_attestation : DeviceAttestation := base_attestation "" bare_profile unevaluated "" [] [] [].
Definition no_decision : TrustDecisionEvent :=
  {| te_event_id := ""; te_decision_id := ""; te_timestamp := ""; te_device_id := ""; te_previous_trust_state := "";
     te_new_trust_state := ""; te_reason := []; te_evidence_reference := []; te_risk_score := 0; te_policy_trigger := [] |}.
Definition attested {T} (r : res (DeviceAttestation * TrustDecisionEvent) * T) : DeviceAttestation :=
  match r with (Ok (a, _), _) => a | _ => no_attestation end.
Definition decided {T} (r : res (DeviceAttestation * TrustDecisionEvent) * T) : TrustDecisionEvent :=
  match r with (Ok (_, e), _) => e | _ => no_decision end.

Definition healthy_snapshot : SecurityPostureSnapshot := snapshot_in healthy_run.
Definition trusted_run := demo_verify demo_profile healthy_snapshot [].

Example demo_states :
  at_trust_state (attested trusted_run) = TRUSTED
  /\ at_trust_state (attested (demo_verify demo_profile (snapshot_in attacked_run) [])) = RESTRICTED
  /\ at_trust_state (attested (demo_verify demo_profile healthy_snapshot
       [("integrity_failure", VBool true); ("evidence_reference", VList [VStr "integrity:failure-1"])])) = UNTRUSTED
  /\ (demo_verify demo_profile healthy_snapshot [("active_threat", VBool true)]).1
     = Raise (ValueError "Trust-impacting external context requires an evidence_reference.").
Proof. by vm_compute. Qed.

(** A device whose Secure Boot is off and whose identity metadata is missing is trusted all
    the same, and the reason about Secure Boot is dropped. *)
Example disabled_secure_boot_is_trusted :
  let a := attested (demo_verify bare_profile healthy_snapshot []) in
  at_trust_state a = TRUSTED /\ at_identity_status a = "UNKNOWN"
  /\ at_reasons a = ["Identity, configuration, software, threat, recovery, and evidence coverage requirements are satisfied."].
Proof. by vm_compute. Qed.

(** A device nothing is known of is trusted conditionally. *)
Example no_evidence_is_conditional :
  let s := snapshot_in (demo_evaluate [] "2026-07-17T10:00:00Z" None) in
  let a := attested (demo_verify demo_profile s []) in
  ps_trust_decision s = "INSUFFICIENT EVIDENCE" /\ at_evidence_coverage_percent a = 0 /\ at_trust_state a = CONDITIONAL.
Proof. by vm_compute. Qed.

(** A blank reference passes for evidence. *)
Example blank_reference_is_enough :
  let a := attested (demo_verify bare_profile (snapshot_in (demo_evaluate [] "2026-07-17T10:00:00Z" None))
    [("active_threat", VBool true); ("evidence_reference", VStr " ")]) in
  at_trust_state a = RESTRICTED /\ at_evidence_reference a = [].
Proof. by vm_compute. Qed.

Lemma trusted_run_ok : @verify_device assurance_env demo_profile healthy_snapshot [] None 0%nat
  = (Ok (attested trusted_run, decided trusted_run), trusted_run.2).
Proof. by vm_compute. Qed.

Lemma healthy_run_ok : @evaluate assurance_env DEFAULT_SIGNALS healthy_evidence "device-1" "mac.test"
  (Some "2026-07-17T10:00:00Z") None 0%nat = (Ok (healthy_snapshot, changes_in healthy_run), healthy_run.2).
Proof. by vm_compute. Qed.

Lemma trusted_device_is_proven_witness :
  dp_device_id demo_profile = "device-1"
  /\ Forall (fun i => sr_status i <> "concern") (ps_signals healthy_snapshot)
  /\ wsum (fun _ => true) (ps_signals healthy_snapshot) = 137 /\ 123 <= wsum validated (ps_signals healthy_snapshot)
  /\ Forall (fun kw => 0 < wsum (fun i => String.eqb (sr_domain i) kw.1 && validated i) (ps_signals healthy_snapshot))
       DOMAIN_WEIGHTS
  /\ 90 <= ps_security_score healthy_snapshot
  /\ critical_kev_of [] = Ok 0 /\ Forall (fun k => flagged k [] = false) (tail DECISIVE_KEYS)
  /\ Forall (fun r => pr_matched r = false) (at_policy_results (attested trusted_run)).
Proof.
  apply (@trusted_device_is_proven assurance_env healthy_evidence "device-1" "mac.test" (Some "2026-07-17T10:00:00Z") None
    0%nat healthy_snapshot (changes_in healthy_run) healthy_run.2 demo_profile [] None 0%nat (attested trusted_run)
    (decided trusted_run) trusted_run.2).
  - exact healthy_run_ok.
  - exact trusted_run_ok.
  - by vm_compute.
Defined.

Definition no_devices : IdentityDb :=
  {| committed := {| i_devices := []; i_decisions := [] |}; working := {| i_devices := []; i_decisions := [] |};
     in_tx := false; ticks := 0 |}.

Definition saved_run := @save_attestation assurance_env (attested trusted_run) (decided trusted_run) no_devices.
Definition loaded_run := @latest_attestation assurance_env "device-1" saved_run.2.

Lemma saved_run_ok : @save_attestation assurance_env (attested trusted_run) (decided trusted_run) no_devices
  = (Ok tt, saved_run.2).
Proof. by vm_compute. Qed.

Lemma attestation_reads_back_witness :
  loaded_run.1 = Raise sql_error
  \/ exists d, loaded_run.1 = Ok (Some d) /\ @verify_attestation assurance_env d = Ok true
     /\ @same_json (@store_platform (@assurance_store assurance_env)) (VDict d) (VDict (attestation_dict (attested trusted_run))).
Proof.
  apply (@attestation_reads_back assurance_env hex_env_digests demo_profile healthy_snapshot [] None 0%nat
    (attested trusted_run) (decided trusted_run) trusted_run.2 no_devices saved_run.2 loaded_run.1 loaded_run.2).
  - exact trusted_run_ok.
  - done.
  - exact saved_run_ok.
  - apply surjective_pairing.
Defined.
