(* ===== verification/ZeroTrustPosture.v ===== *)
(** The zero-trust posture: [zero_trust/posture.py]. Evidence the collectors
    supplied becomes twelve weighted signals; what is not collected stays unknown and
    earns nothing. *)

From S2P Require Import Prelude PyStr PyFloat PyDict PyJson PyTime Sql PyRepr JsonCanon AlertIntegrity PostureAssurance.

(** ** Data *)

Definition VALID_STATES : list string := ["validated"; "concern"; "unknown"].

Record PostureSignal := {
  zs_signal_id : string;
  zs_domain : string;
  zs_label : string;
  zs_state : string;
  zs_weight : Z;
  zs_evidence : string;
  zs_nist_controls : list string;
  zs_cis_controls : list string;
  zs_mitre_techniques : list string;
  zs_evidence_source : string;
  zs_evidence_collected_at : string;
  zs_evidence_freshness : string;
  zs_automatically_collected : bool
}.

Record DeviceTrustPosture := {
  dt_score : Z;
  dt_rating : string;
  dt_evidence_coverage_percent : Z;
  dt_signals : list PostureSignal;
  dt_calculated_at : string
}.

(** What a call of [signal] in [_signals] says of its control. *)
Record Control := {
  ct_key : string;
  ct_domain : string;
  ct_label : string;
  ct_weight : Z;
  ct_zero : bool;
  ct_nist : list string;
  ct_cis : list string;
  ct_mitre : list string
}.

Definition control (key domain label : string) (weight : Z) (zero : bool) (nist cis mitre : list string) : Control :=
  {| ct_key := key; ct_domain := domain; ct_label := label; ct_weight := weight; ct_zero := zero;
     ct_nist := nist; ct_cis := cis; ct_mitre := mitre |}.

Definition CONTROLS : list Control := [
  control "filevault_enabled" "identity" "FileVault enabled" 8 false ["AC-3"; "MP-5"; "SC-28"]
    ["CIS 3.11"] ["T1005"];
  control "secure_boot_verified" "identity" "Secure Boot verified" 7 false ["AC-3"; "SI-7"]
    ["CIS 4.1"] ["T1542"];
  control "sip_enabled" "identity" "System Integrity Protection enabled" 8 false ["AC-3"; "CM-5"; "SI-7"]
    ["CIS 4.1"] ["T1562.001"];
  control "firewall_enabled" "identity" "Firewall enabled" 7 false ["AC-4"; "SC-7"]
    ["CIS 4.4"; "CIS 13.3"] ["T1562.004"];
  control "unsigned_applications" "application" "Unsigned applications" 9 true ["AC-6"; "CM-7"; "SI-7"]
    ["CIS 2.3"; "CIS 10.1"] ["T1553.002"];
  control "unknown_developer_applications" "application" "Unknown-developer applications" 7 true ["AC-6"; "CM-7"]
    ["CIS 2.3"] ["T1553.002"];
  control "unvalidated_processes" "application" "Unvalidated running processes" 9 true ["AC-6"; "SI-4"]
    ["CIS 2.7"; "CIS 13.7"] ["T1059"];
  control "unapproved_persistence_items" "persistence" "Unapproved persistence items" 13 true ["AC-2"; "AC-6"; "CM-7"; "SI-4"]
    ["CIS 4.1"; "CIS 13.7"] ["T1547"; "T1053"];
  control "persistence_scan_complete" "persistence" "Persistence inventory completed" 7 false ["AC-2"; "CA-7"; "SI-4"]
    ["CIS 4.1"; "CIS 8.8"] ["T1547"];
  control "approved_dns" "network" "Approved DNS configuration" 6 false ["AC-4"; "SC-20"; "SC-21"]
    ["CIS 4.9"; "CIS 13.4"] ["T1071.004"];
  control "suspicious_outbound_connections" "network" "Suspicious outbound connections" 10 true ["AC-4"; "SC-7"; "SI-4"]
    ["CIS 13.3"; "CIS 13.7"] ["T1071"; "T1041"];
  control "unvalidated_network_connections" "network" "Unvalidated network connections" 9 true ["AC-4"; "AC-17"; "SC-7"]
    ["CIS 12.2"; "CIS 13.3"] ["T1095"]].

(** [PostureSignal.__post_init__] *)
Definition check_signal (s : PostureSignal) : res PostureSignal :=
  raise_if (negb (one_of (zs_state s) VALID_STATES)) (ValueError ("unsupported posture state: " +:+ zs_state s));;
  raise_if (negb ((0 <? zs_weight s) && (zs_weight s <=? 100))) (ValueError "signal weight must be between 0 and 100");;
  Ok s.

Definition DOMAIN_NAMES : list string := ["identity"; "application"; "persistence"; "network"].

(** [domains] *)
Definition posture_domains (p : DeviceTrustPosture) : list (string * list PostureSignal) :=
  (fun name => (name, filter (fun s => zs_domain s = name) (dt_signals p))) <$> DOMAIN_NAMES.

(** ** The engine *)

(** [_state] *)
Definition state_of (value : pyval) (healthy_when_zero : bool) : res string :=
  match value with
  | VNone | VStr "" => Ok "unknown"
  | _ =>
      if healthy_when_zero then zero_status value
      else Ok match value with
        | VStr s =>
            let normalized := lower (strip s) in
            if one_of normalized ["enabled"; "verified"; "valid"; "approved"; "clean"; "true"; "yes"] then "validated"
            else if one_of normalized ["disabled"; "invalid"; "unapproved"; "dirty"; "false"; "no"] then "concern"
            else "unknown"
        | VBool true => "validated"
        | VBool false => "concern"
        | _ => "unknown"
        end
  end.

(** [d.get(k, dflt)] of a value that need not be a dict *)
Definition field (k : string) (dflt v : pyval) : pyval :=
  match v with VDict d => dget_default dflt k d | _ => dflt end.

Section Engine.
Context `{PlatformEnv}.

(** [signal] *)
Definition signal_for (e : pydict) (c : Control) : res PostureSignal :=
  let value := vget (ct_key c) e in
  state ← state_of value (ct_zero c);
  let shown := match value with VNone | VStr "" => "not collected" | _ => py_str value end in
  let metadata := field (ct_key c) (VDict []) (dget_default (VDict []) "_evidence_metadata" e) in
  check_signal {|
    zs_signal_id := ct_key c; zs_domain := ct_domain c; zs_label := ct_label c; zs_state := state;
    zs_weight := ct_weight c; zs_evidence := shown; zs_nist_controls := ct_nist c; zs_cis_controls := ct_cis c;
    zs_mitre_techniques := ct_mitre c;
    zs_evidence_source := py_str (field "source" (VStr "") metadata);
    zs_evidence_collected_at := py_str (field "collected_at" (VStr "") metadata);
    zs_evidence_freshness := py_str (field "freshness" (VStr "unknown") metadata);
    zs_automatically_collected := truthy_val (field "automatic" (VBool false) metadata) |}.

(** [_signals] *)
Definition signals_of (e : pydict) : res (list PostureSignal) := res_map (signal_for e) CONTROLS.

Definition weight_where (p : PostureSignal -> bool) (l : list PostureSignal) : Z :=
  zsum zs_weight (filter (fun s => p s = true) l).

Definition is_state (state : string) (s : PostureSignal) : bool := String.eqb (zs_state s) state.

Definition rating_of (score : Z) : string :=
  if 90 <=? score then "HIGH TRUST" else if 70 <=? score then "MODERATE TRUST"
  else if 40 <=? score then "LOW TRUST" else "UNTRUSTED / INSUFFICIENT EVIDENCE".

(** [round(100 * part / total)] *)
Definition percent_of (part total : Z) : Z := if total =? 0 then 0 else fround (int_div (100 * part) total).

(** [calculate], at the instant [now] *)
Definition calculate (now : Z) (e : pydict) : res DeviceTrustPosture :=
  signals ← signals_of e;
  let total := zsum zs_weight signals in
  let score := percent_of (weight_where (is_state "validated") signals) total in
  let at_time := vget "calculated_at" e in
  Ok {| dt_score := score; dt_rating := rating_of score;
        dt_evidence_coverage_percent := percent_of (weight_where (fun s => negb (is_state "unknown" s)) signals) total;
        dt_signals := signals;
        dt_calculated_at := if truthy_val at_time then py_str at_time else isoformat_utc now |}.

(** ** What a scan proves *)

Definition text_in (k dflt : string) (item : pyval) : string := lower (py_str (field k (VStr dflt) item)).

Definition unsigned_item (item : pyval) : bool := String.eqb (text_in "signed_status" "unknown" item) "unsigned".
Definition unvalidated_item (item : pyval) : bool :=
  one_of (text_in "signed_status" "unknown" item) [""; "unknown"; "unsigned"; "invalid"].
Definition suspicious_item (item : pyval) : bool := truthy_val (field "suspicious" (VBool false) item).
Definition risky_connection (item : pyval) : bool :=
  one_of (text_in "risk_level" "info" item) ["high"; "critical"] || truthy_val (field "concern" (VBool false) item).

Definition count_of (p : pyval -> bool) (l : list pyval) : pyval := VInt (zcount p l).

Definition has_key (k : string) (v : pyval) : bool := match v with VDict d => dmem k d | _ => false end.

(** [evidence_from_scan], of the artifacts and the timestamp of a scan; items that are
    objects are known by their attributes *)
Definition evidence_from_scan (artifacts : pydict) (timestamp : string) : res pydict :=
  let ports := dget_default (VDict []) "ports" artifacts in
  processes ← py_iter (field "all" (VList []) (dget_default (VDict []) "processes" artifacts));
  connections ← py_iter (field "active_connections" (VList []) ports);
  launch_items ← py_iter (dget_default (VList []) "launch_snapshots" artifacts);
  let unless_empty (l : list pyval) (v : pyval) := match l with [] => VNone | _ => v end in
  Ok [("unsigned_applications", unless_empty processes (count_of unsigned_item processes));
      ("unknown_developer_applications", VNone);
      ("unvalidated_processes", unless_empty processes (count_of unvalidated_item processes));
      ("unapproved_persistence_items",
        if dmem "launch_snapshots" artifacts then count_of suspicious_item launch_items else VNone);
      ("persistence_scan_complete", VBool (dmem "launch_snapshots" artifacts));
      ("suspicious_outbound_connections",
        if has_key "active_connections" ports then count_of risky_connection connections else VNone);
      ("unvalidated_network_connections", unless_empty connections (count_of unvalidated_item connections));
      ("calculated_at", VStr timestamp)].
End Engine.

(** ** The score is the validated weight *)

Section Score.
Context `{PlatformEnv}.

(** How a signal relates to its control. *)
Definition signals_control (e : pydict) (c : Control) (s : PostureSignal) : Prop :=
  zs_signal_id s = ct_key c /\ zs_domain s = ct_domain c /\ zs_weight s = ct_weight c
  /\ state_of (vget (ct_key c) e) (ct_zero c) = Ok (zs_state s).

Lemma signal_for_control e c s : signal_for e c = Ok s -> signals_control e c s.
Proof.
  intros (st & Hst & ([] & _ & ([] & _ & [= <-])%res_bind_ok)%res_bind_ok)%res_bind_ok. done.
Qed.

Lemma signals_of_controls e signals : signals_of e = Ok signals -> Forall2 (signals_control e) CONTROLS signals.
Proof. intros Hm%res_map_Forall2. eapply Forall2_impl; [exact Hm|]. intros c s. apply signal_for_control. Qed.

Lemma total_weight e signals : signals_of e = Ok signals -> zsum zs_weight signals = 100.
Proof.
  intros Hf%signals_of_controls. transitivity (zsum ct_weight CONTROLS); [|done].
  unfold zsum. induction Hf as [|c s cs ss (_ & _ & Hw & _) _ IH]; [done|]. cbn. by rewrite Hw, IH.
Qed.

(** The total weight being 100, a percentage of it is exact. *)
Lemma percent_exact part : 0 <= part <= 100 -> percent_of part 100 = part.
Proof.
  intros Hp. assert (Hall : forallb (fun i => percent_of (Z.of_nat i) 100 =? Z.of_nat i) (seq 0 101) = true) by (by vm_compute).
  rewrite forallb_forall in Hall. specialize (Hall (Z.to_nat part)). rewrite Z2Nat.id in Hall by lia.
  apply Z.eqb_eq, Hall, in_seq. lia.
Qed.

Lemma weight_where_cons q s l : weight_where q (s :: l) = (if q s then zs_weight s else 0) + weight_where q l.
Proof.
  unfold weight_where. rewrite filter_cons.
  destruct (q s); [rewrite decide_True by done|rewrite decide_False by done]; done.
Qed.

(** The weight of selected signals against that of selected controls. *)
Lemma weight_where_le e (q : PostureSignal -> bool) (f : Control -> bool) cs ss :
  Forall2 (signals_control e) cs ss -> Forall (fun c => 0 <= ct_weight c) cs ->
  (forall c s, signals_control e c s -> q s = true -> f c = true) ->
  0 <= weight_where q ss <= zsum (fun c => if f c then ct_weight c else 0) cs.
Proof.
  intros Hf Hw Hq. unfold zsum. induction Hf as [|c s cs ss Hc _ IH]; [done|]. inversion_clear Hw as [|? ? Hc0 Hcs].
  rewrite weight_where_cons. cbn. specialize (IH Hcs). destruct (q s) eqn:Hqs.
  - rewrite (Hq _ _ Hc Hqs). destruct Hc as (_ & _ & -> & _). lia.
  - destruct (f c); lia.
Qed.

Lemma control_weights : Forall (fun c => 0 <= ct_weight c) CONTROLS.
Proof. apply (bool_decide_unpack _). by vm_compute. Qed.

Lemma weight_bounds e q signals : signals_of e = Ok signals -> 0 <= weight_where q signals <= 100.
Proof.
  intros Hf%signals_of_controls. by apply (weight_where_le e q (fun _ => true) CONTROLS signals Hf control_weights).
Qed.

Lemma weight_where_mono (q1 q2 : PostureSignal -> bool) l : Forall (fun s => 0 <= zs_weight s) l ->
  (forall s, q1 s = true -> q2 s = true) -> weight_where q1 l <= weight_where q2 l.
Proof.
  intros Hl Hq. induction Hl as [|s l Hs _ IH]; [done|]. cbn in Hs. rewrite !weight_where_cons.
  destruct (q1 s) eqn:H1; [rewrite (Hq s H1); lia|]. destruct (q2 s); lia.
Qed.

Lemma signal_weights e signals : signals_of e = Ok signals -> Forall (fun s => 0 <= zs_weight s) signals.
Proof.
  intros Hf%signals_of_controls. pose proof control_weights as Hw.
  induction Hf as [|c s cs ss (_ & _ & Hcw & _) _ IH]; constructor; inversion_clear Hw; [by rewrite Hcw|auto].
Qed.

Lemma calculate_ok now e p : calculate now e = Ok p -> exists signals, signals_of e = Ok signals
  /\ dt_signals p = signals /\ dt_rating p = rating_of (dt_score p)
  /\ dt_score p = weight_where (is_state "validated") signals
  /\ dt_evidence_coverage_percent p = weight_where (fun s => negb (is_state "unknown" s)) signals.
Proof.
  intros (signals & Hs & [= <-])%res_bind_ok. exists signals. cbn.
  rewrite (total_weight _ _ Hs), !percent_exact by (by eapply weight_bounds). done.
Qed.

(** The score is the weight of the validated signals to the point, the coverage that of the
    known ones: no rounding adds to either, and what was not collected counts for
    nothing. *)
Theorem posture_is_validated_weight now e p : calculate now e = Ok p ->
  dt_score p = weight_where (is_state "validated") (dt_signals p)
  /\ dt_evidence_coverage_percent p = weight_where (fun s => negb (is_state "unknown" s)) (dt_signals p)
  /\ 0 <= dt_score p <= dt_evidence_coverage_percent p /\ dt_evidence_coverage_percent p <= 100
  /\ Forall2 (fun c s => vget (ct_key c) e = VNone -> zs_state s = "unknown") CONTROLS (dt_signals p).
Proof.
  intros (signals & Hs & -> & _ & -> & ->)%calculate_ok. do 2 (split; [done|]).
  split; [split|]; [by eapply weight_bounds| |split; [by eapply weight_bounds|]].
  - apply weight_where_mono; [by eapply signal_weights|]. unfold is_state. by intros s ->%String.eqb_eq.
  - eapply Forall2_impl; [by apply signals_of_controls|]. cbn. intros c s (_ & _ & _ & Hst) Hn. rewrite Hn in Hst. by injection Hst.
Qed.

Lemma vget_ddel k k' (e : pydict) : k <> k' -> vget k (ddel k' e) = vget k e.
Proof. intros Hne. unfold vget, dget_default. by rewrite dget_ddel_ne. Qed.

(** Withholding evidence never raises the score. *)
Theorem withheld_evidence_earns_nothing now e k p p' :
  calculate now e = Ok p -> calculate now (ddel k e) = Ok p' -> dt_score p' <= dt_score p.
Proof.
  intros (s1 & H1%signals_of_controls & _ & _ & -> & _)%calculate_ok (s2 & H2%signals_of_controls & _ & _ & -> & _)%calculate_ok.
  pose proof control_weights as Hw. revert s2 H2. induction H1 as [|c s cs ss Hc _ IH]; intros s2 H2; inversion H2; subst; [done|].
  inversion_clear Hw. rewrite !weight_where_cons. 
  match goal with Hx : signals_control (ddel k e) c ?y, Hr : Forall2 _ cs ?l |- _ => pose proof (IH ltac:(done) l Hr) as Hl; 
    destruct Hx as (_ & _ & Hwy & Hsy) end.
  destruct Hc as (_ & _ & Hws & Hss). rewrite Hws, Hwy.
  match goal with |- (if is_state _ ?y then _ else _) + _ <= _ => assert (Hle : is_state "validated" y = true -> is_state "validated" s = true) end.
  { unfold is_state. intros Hy%String.eqb_eq. rewrite Hy in Hsy. apply String.eqb_eq. destruct (decide (ct_key c = k)) as [<-|Hne].
    - unfold vget, dget_default in Hsy. by rewrite dget_ddel_eq in Hsy.
    - rewrite vget_ddel in Hsy by done. congruence. }
  destruct (is_state _ s); [destruct (is_state _ _); lia|]. destruct (is_state _ _); [by specialize (Hle eq_refl)|lia].
Qed.

(** A scan alone never earns more than low trust: it proves nothing of the identity of the
    device, of its developers or of its DNS. *)
Theorem scan_alone_is_low_trust now artifacts timestamp e p :
  evidence_from_scan artifacts timestamp = Ok e -> calculate now e = Ok p ->
  dt_score p <= 57 /\ dt_rating p ∈ ["LOW TRUST"; "UNTRUSTED / INSUFFICIENT EVIDENCE"].
Proof.
  intros He (signals & Hs%signals_of_controls & _ & -> & -> & _)%calculate_ok.
  assert (Hle : weight_where (is_state "validated") signals <= 57).
  { etransitivity; [apply (weight_where_le e _ (fun c => negb (one_of (ct_key c)
      ["filevault_enabled"; "secure_boot_verified"; "sip_enabled"; "firewall_enabled"; "unknown_developer_applications";
       "approved_dns"])) CONTROLS signals Hs control_weights)|by vm_compute].
    intros c s (_ & _ & _ & Hst) Hv%String.eqb_eq. rewrite Hv in Hst. apply negb_true_iff.
    destruct (one_of _ _) eqn:Hk; [|done]. exfalso. apply one_of_spec in Hk.
    assert (Hn : vget (ct_key c) e = VNone).
    { apply res_bind_ok in He as (a & _ & (b & _ & (d & _ & [= <-])%res_bind_ok)%res_bind_ok).
      rewrite !elem_of_cons, elem_of_nil in Hk.
      destruct Hk as [->|[->|[->|[->|[->|[->|[]]]]]]]; reflexivity. }
    rewrite Hn in Hst. discriminate. }
  split; [done|]. apply one_of_spec. unfold rating_of.
  destruct (90 <=? _) eqn:H1; [lia|]. destruct (70 <=? _) eqn:H2; [lia|]. by destruct (40 <=? _).
Qed.
End Score.

Example full_posture :
  let e := (fun c => (ct_key c, if ct_zero c then VInt 0 else VBool true)) <$> CONTROLS in
  match @calculate plain_env 0 e with
  | Ok p => (dt_score p, dt_rating p, dt_evidence_coverage_percent p) = (100, "HIGH TRUST", 100)
  | Raise _ => False
  end.
Proof. by vm_compute. Qed.
