(* ===== verification/AttestationPolicy.v ===== *)
(** The attestation policy: [zero_trust/attestation_policy.py] and
    [zero_trust/automatic_validation.py]. Resolvers and connections are compared with what the
    organisation approved, as IP addresses and networks; the collectors' answers become the
    evidence of the posture. IP addresses are those of Python's [ipaddress] (before 3.13, which
    writes IPv4-mapped addresses otherwise), without the scope ids that the callers cut off. *)

From S2P Require Import Prelude PyStr PyFloat PyDict PyJson PyTime Sql PyRepr JsonCanon AlertIntegrity PostureAssurance.
From S2P Require Import ZeroTrustPosture.
From Stdlib Require Import Ascii.

(** ** Texts *)

(** [s.split(sep)] *)
Fixpoint split_on (sep : ascii) (s : string) : list string :=
  match s with
  | EmptyString => [""]
  | String c s' =>
      if Ascii.eqb c sep then "" :: split_on sep s'
      else match split_on sep s' with p :: ps => String c p :: ps | [] => [String c ""] end
  end.

Definition colon : ascii := ":"%char.
Definition dot : ascii := "."%char.
Definition slash : ascii := "/"%char.
Definition percent : ascii := "%"%char.

(** [s.split("%", 1)[0]] *)
Definition without_scope (s : string) : string := default "" (head (split_on percent s)).

Definition lacks (c : ascii) (s : string) : bool := all_chars (fun x => negb (Ascii.eqb x c)) s.

(** ** Numbers in a base *)

(** The [k] digits of [n], most significant first. *)
Fixpoint digits_in (base : Z) (k : nat) (n : Z) : list Z :=
  match k with
  | O => []
  | S k' => digits_in base k' (n / base) ++ [n mod base]
  end.

Definition horner (base : Z) (l : list Z) : Z := foldl (fun acc d => acc * base + d) 0 l.

(** ** IPv4 *)

(** [_parse_octet] *)
Definition parse_octet (s : string) : option Z :=
  if negb (truthy s) || negb (all_chars is_digit s) || (3 <? slen s)
     || (negb (String.eqb s "0") && startswith "0" s) then None
  else n ← dec_digits false 0 s; if n <=? 255 then Some n else None.

Fixpoint all_some {A B} (f : A -> option B) (l : list A) : option (list B) :=
  match l with
  | [] => Some []
  | x :: l' => y ← f x; ys ← all_some f l'; Some (y :: ys)
  end.

(** [IPv4Address(s)]: the address as an integer *)
Definition parse_v4 (s : string) : option Z :=
  let octets := split_on dot s in
  if negb (zlen octets =? 4) then None else l ← all_some parse_octet octets; Some (horner 256 l).

(** [str(IPv4Address(n))] *)
Definition text_v4 (n : Z) : string := join "." (str_of_Z <$> digits_in 256 4 n).

(** ** IPv6 *)

Definition hex_value (c : ascii) : option Z :=
  if is_digit c then Some (code c - 48)
  else if in_range 97 102 c then Some (code c - 87)
  else if in_range 65 70 c then Some (code c - 55)
  else None.

Fixpoint hex_number (acc : Z) (s : string) : option Z :=
  match s with
  | EmptyString => Some acc
  | String c s' => d ← hex_value c; hex_number (acc * 16 + d) s'
  end.

(** [_parse_hextet] *)
Definition parse_hextet (s : string) : option Z :=
  if negb (truthy s) || (4 <? slen s) then None else hex_number 0 s.

(** ['%x' % n] of a number below 65536 *)
Definition text_hextet (n : Z) : string :=
  let digit k := String (hex_digit ((n / 16 ^ k) mod 16)) "" in
  if n <? 16 then digit 0
  else if n <? 256 then digit 1 +:+ digit 0
  else if n <? 4096 then digit 2 +:+ digit 1 +:+ digit 0
  else digit 3 +:+ digit 2 +:+ digit 1 +:+ digit 0.

(** The positions of the empty parts between the ends. *)
Fixpoint empty_inside (i : Z) (parts : list string) : list Z :=
  match parts with
  | [] | [_] => []
  | p :: rest => (if String.eqb p "" then [i] else []) ++ empty_inside (i + 1) rest
  end.

(** [acc << 16 | _parse_hextet(part)], part after part *)
Fixpoint push_hextets (acc : Z) (parts : list string) : option Z :=
  match parts with
  | [] => Some acc
  | p :: rest => h ← parse_hextet p; push_hextets (Z.lor (Z.shiftl acc 16) h) rest
  end.

Definition part_at (parts : list string) (i : Z) : string := default "" (parts !! Z.to_nat i).

(** The parts, an IPv4-style suffix made two hextets. *)
Definition with_suffix (parts : list string) : option (list string) :=
  let final := default "" (last parts) in
  if contains "." final then
    v4 ← parse_v4 final;
    Some (take (length parts - 1) parts
          ++ [text_hextet (Z.land (Z.shiftr v4 16) 65535); text_hextet (Z.land v4 65535)])
  else Some parts.

(** How many parts come before and after the skipped zeros, and how many are skipped. *)
Definition layout (parts : list string) : option (Z * Z * Z) :=
  let n := zlen parts in
  let inner := match parts with [] => [] | _ :: rest => empty_inside 1 rest end in
  match inner with
  | [skip_index] =>
      let before := if truthy (part_at parts 0) then skip_index else skip_index - 1 in
      let after := if truthy (part_at parts (n - 1)) then n - skip_index - 1 else n - skip_index - 2 in
      if negb (truthy (part_at parts 0)) && negb (before =? 0) then None
      else if negb (truthy (part_at parts (n - 1))) && negb (after =? 0) then None
      else if 8 - (before + after) <? 1 then None
      else Some (before, after, 8 - (before + after))
  | [] =>
      if negb (n =? 8) || negb (truthy (part_at parts 0)) || negb (truthy (part_at parts (n - 1))) then None
      else Some (8, 0, 0)
  | _ => None
  end.

(** [IPv6Address(s)] *)
Definition parse_v6 (s : string) : option Z :=
  let parts := split_on colon s in
  if zlen parts <? 3 then None
  else
    parts ← with_suffix parts;
    if 9 <? zlen parts then None
    else
      '(before, after, skipped) ← layout parts;
      high ← push_hextets 0 (take (Z.to_nat before) parts);
      push_hextets (Z.shiftl high (16 * skipped)) (last_n (Z.to_nat after) parts).

(** The loop of [_compress_hextets]: the best run of zeros so far and the current one, each as
    its start and its length. *)
Definition longer_run (st : Z * Z * Z * Z) (ih : Z * string) : Z * Z * Z * Z :=
  let '(best_start, best_len, start, len) := st in
  if String.eqb ih.2 "0" then
    let len' := len + 1 in
    let start' := if start =? -1 then ih.1 else start in
    if best_len <? len' then (start', len', start', len') else (best_start, best_len, start', len')
  else (best_start, best_len, -1, 0).

Definition best_run (hextets : list string) : Z * Z :=
  let '(best_start, best_len, _, _) :=
    foldl longer_run (-1, 0, -1, 0) (zip (Z.of_nat <$> seq 0 (length hextets)) hextets) in
  (best_start, best_len).

(** [_compress_hextets] *)
Definition compress_hextets (hextets : list string) : list string :=
  let '(start, len) := best_run hextets in
  if 1 <? len then
    (if start =? 0 then [""] else []) ++ take (Z.to_nat start) hextets ++ [""]
    ++ drop (Z.to_nat (start + len)) hextets ++ (if start + len =? zlen hextets then [""] else [])
  else hextets.

(** [str(IPv6Address(n))] *)
Definition text_v6 (n : Z) : string := join ":" (compress_hextets (text_hextet <$> digits_in 65536 8 n)).

(** ** Addresses and networks *)

Inductive address := V4 (n : Z) | V6 (n : Z).

#[export] Instance address_eq_dec : EqDecision address.
Proof. solve_decision. Defined.

(** [ipaddress.ip_address(s)] *)
Definition ip_address (s : string) : option address :=
  match parse_v4 s with
  | Some n => Some (V4 n)
  | None => V6 <$> parse_v6 s
  end.

Definition address_text (a : address) : string := match a with V4 n => text_v4 n | V6 n => text_v6 n end.

Definition address_ok (a : address) : Prop := match a with V4 n => 0 <= n < 2 ^ 32 | V6 n => 0 <= n < 2 ^ 128 end.

(** A network: its lowest address and its prefix length. *)
Record network := { nw_address : address; nw_prefix : Z }.

(** [_ip_int_from_prefix] *)
Definition mask_of (width prefix : Z) : Z := Z.lxor (2 ^ width - 1) (Z.shiftr (2 ^ width - 1) prefix).

(** [_prefix_from_prefix_string] *)
Definition prefix_of_text (width : Z) (s : string) : option Z :=
  if truthy s && all_chars is_digit s
  then n ← dec_digits false 0 s; if n <=? width then Some n else None
  else None.

(** [_count_righthand_zero_bits] *)
Definition trailing_zeros (n width : Z) : Z :=
  if n =? 0 then width
  else let low := Z.land (Z.lnot n) (n - 1) in Z.min width (if low =? 0 then 0 else Z.log2 low + 1).

(** [_prefix_from_ip_int] *)
Definition prefix_of_mask (width n : Z) : option Z :=
  let zeros := trailing_zeros n width in
  if Z.shiftr n zeros =? 2 ^ (width - zeros) - 1 then Some (width - zeros) else None.

(** [IPv4Network._make_netmask] of a text *)
Definition prefix_v4 (s : string) : option Z :=
  match prefix_of_text 32 s with
  | Some p => Some p
  | None =>
      n ← parse_v4 s;
      match prefix_of_mask 32 n with Some p => Some p | None => prefix_of_mask 32 (Z.lxor n (2 ^ 32 - 1)) end
  end.

(** [ipaddress.ip_network(s, strict=False)] *)
Definition ip_network (s : string) : option network :=
  let as_v4 := match split_on slash s with
    | [a] => n ← parse_v4 a; Some {| nw_address := V4 n; nw_prefix := 32 |}
    | [a; m] => n ← parse_v4 a; p ← prefix_v4 m; Some {| nw_address := V4 (Z.land n (mask_of 32 p)); nw_prefix := p |}
    | _ => None end in
  match as_v4 with
  | Some net => Some net
  | None =>
      match split_on slash s with
      | [a] => n ← parse_v6 a; Some {| nw_address := V6 n; nw_prefix := 128 |}
      | [a; m] => n ← parse_v6 a; p ← prefix_of_text 128 m;
                  Some {| nw_address := V6 (Z.land n (mask_of 128 p)); nw_prefix := p |}
      | _ => None
      end
  end.

(** [str(network)] *)
Definition network_text (w : network) : string := address_text (nw_address w) +:+ "/" +:+ str_of_Z (nw_prefix w).

(** [address in network] *)
Definition in_network (a : address) (w : network) : bool :=
  match a, nw_address w with
  | V4 n, V4 b => Z.land n (mask_of 32 (nw_prefix w)) =? b
  | V6 n, V6 b => Z.land n (mask_of 128 (nw_prefix w)) =? b
  | _, _ => false
  end.

Definition net4 (n p : Z) : network := {| nw_address := V4 n; nw_prefix := p |}.
Definition net6 (n p : Z) : network := {| nw_address := V6 n; nw_prefix := p |}.

(** [is_loopback or is_link_local or is_multicast or is_unspecified] *)
Definition local_only (a : address) : bool :=
  match a with
  | V4 n => in_network a (net4 (127 * 2 ^ 24) 8) || in_network a (net4 (169 * 2 ^ 24 + 254 * 2 ^ 16) 16)
            || in_network a (net4 (224 * 2 ^ 24) 4) || (n =? 0)
  | V6 n => (n =? 1) || in_network a (net6 (65152 * 2 ^ 112) 10) || in_network a (net6 (65280 * 2 ^ 112) 8) || (n =? 0)
  end.

Example address_ex :
  address_text <$> ip_address "2001:0DB8:0:0::1" = Some "2001:db8::1" /\ address_text <$> ip_address "::" = Some "::"
  /\ address_text <$> ip_address "8.8.8.8" = Some "8.8.8.8" /\ ip_address "8.8.8.08" = None
  /\ address_text <$> ip_address "::ffff:1.2.3.4" = Some "::ffff:102:304" /\ ip_address "1::2::3" = None
  /\ address_text <$> ip_address "1:0:0:4:5:0:0:8" = Some "1::4:5:0:0:8" /\ ip_address ":1:2:3:4:5:6:7" = None
  /\ address_text <$> ip_address "1:2:3:4:5:6:7::" = Some "1:2:3:4:5:6:7:0"
  /\ network_text <$> ip_network "10.1.2.3/8" = Some "10.0.0.0/8"
  /\ network_text <$> ip_network "10.1.2.3/0.0.255.255" = Some "10.1.0.0/16"
  /\ network_text <$> ip_network "fe80::1/10" = Some "fe80::/10"
  /\ (local_only <$> ip_address "169.254.1.1", local_only <$> ip_address "8.8.8.8") = (Some true, Some false).
Proof. by vm_compute. Qed.

(** ** The policy *)

Definition POLICY_SCHEMA_VERSION : string := "1.0".

(** [output.append(candidate)] unless it is there *)
Definition append_new {A} `{EqDecision A} (output : list A) (x : A) : list A :=
  if bool_decide (x ∈ output) then output else output ++ [x].

(** One value of [normalize_approved_dns]. *)
Definition add_resolver (output : list string) (value : string) : list string :=
  match ip_address (without_scope (strip value)) with
  | Some a => append_new output (address_text a)
  | None => output
  end.

(** [normalize_approved_dns] *)
Definition normalize_approved_dns (values : list string) : list string := foldl add_resolver [] values.

Record ConnectionAllowRule := {
  ar_source : string;
  ar_target : string;
  ar_port : string;
  ar_protocol : string;
  ar_process : string
}.

#[export] Instance rule_eq_dec : EqDecision ConnectionAllowRule.
Proof. solve_decision. Defined.

(** What the rules look at of a connection. *)
Record Connection := {
  cn_remote_address : pyval;
  cn_remote_port : pyval;
  cn_protocol : pyval;
  cn_process_name : pyval;
  cn_pid : pyval
}.

Definition any_value : string := "*".

Definition allows (pattern text : string) : bool := String.eqb pattern any_value || String.eqb pattern text.

Section Rules.
Context `{PlatformEnv}.

(** [str(value or "")] *)
Definition text_or_empty (v : pyval) : string := if truthy_val v then py_str v else "".

Definition remote_address (c : Connection) : string := without_scope (text_or_empty (cn_remote_address c)).

(** [ConnectionAllowRule.matches] *)
Definition rule_matches (c : Connection) (r : ConnectionAllowRule) : bool :=
  let address := remote_address c in
  let target_match := match ip_address address, ip_network (ar_target r) with
    | Some a, Some w => in_network a w
    | _, _ => String.eqb (lower address) (lower (ar_target r)) end in
  target_match && allows (ar_port r) (text_or_empty (cn_remote_port c))
  && allows (ar_protocol r) (lower (text_or_empty (cn_protocol c)))
  && (String.eqb (ar_process r) any_value
      || String.eqb (lower (ar_process r)) (lower (text_or_empty (cn_process_name c)))).
End Rules.

(** [s.rsplit(sep, 1)] of a text that has [sep] *)
Fixpoint rsplit_at (sep s : string) : option (string * string) :=
  match s with
  | EmptyString => None
  | String c s' =>
      match rsplit_at sep s' with
      | Some (a, b) => Some (String c a, b)
      | None => if startswith sep s then Some ("", String.substring (String.length sep) (String.length s) s) else None
      end
  end.

(** [s.isdigit()] of code points below 256, the superscripts included *)
Definition py_isdigit (s : string) : bool :=
  truthy s && all_chars (fun c => is_digit c || (code c =? 178) || (code c =? 179) || (code c =? 185)) s.

Definition PROTOCOLS : list string := ["*"; "tcp"; "udp"; "tcp4"; "tcp6"; "udp4"; "udp6"].

Definition count_char (c : ascii) (s : string) : Z := zlen (filter (fun x => x = c) (String.list_ascii_of_string s)).

(** The process, protocol, target and port a line names. *)
Definition rule_fields (source : string) : res (string * string * string * string) :=
  if contains "|" source then
    let parts := strip <$> split_on "|"%char source in
    match parts with
    | [process; protocol; target; port] =>
        if negb (forallb truthy parts) then Raise (ValueError ("Invalid connection allowlist rule: " +:+ source))
        else if negb (one_of (lower protocol) PROTOCOLS)
        then Raise (ValueError ("Unsupported protocol in connection allowlist rule: " +:+ source))
        else Ok (process, lower protocol, target, port)
    | _ => Raise (ValueError ("Invalid connection allowlist rule: " +:+ source))
    end
  else if startswith "[" source && contains "]:" source then
    match rsplit_at "]:" (String.substring 1 (String.length source) source) with
    | Some (target, port) => Ok ("*", "*", target, port)
    | None => Ok ("*", "*", source, "*")
    end
  else if (count_char colon source =? 1) && negb (contains "/" source) then
    match rsplit_at ":" source with
    | Some (target, port) =>
        if py_isdigit port || String.eqb port "*" then Ok ("*", "*", target, port) else Ok ("*", "*", source, "*")
    | None => Ok ("*", "*", source, "*")
    end
  else Ok ("*", "*", source, "*").

(** [not port.isdigit() or not 1 <= int(port) <= 65535] *)
Definition bad_port (port : string) : res bool :=
  if negb (py_isdigit port) then Ok true
  else match dec_digits false 0 port with
       | Some n => Ok (negb ((1 <=? n) && (n <=? 65535)))
       | None => Raise (ValueError "invalid literal for int() with base 10")
       end.

(** One line of the allowlist: nothing for a comment or a blank one. *)
Definition parse_rule (raw : string) : res (option ConnectionAllowRule) :=
  let source := strip raw in
  if negb (truthy source) || startswith "#" source then Ok None
  else
    '(process, protocol, target, port) ← rule_fields source;
    wrong ← (if String.eqb port "*" then Ok false else bad_port port);
    raise_if wrong (ValueError ("Invalid port in connection allowlist rule: " +:+ source));;
    match ip_network (without_scope target) with
    | None => Raise (ValueError ("Connection allowlist target must be an IP address or CIDR: " +:+ source))
    | Some w => Ok (Some {| ar_source := source; ar_target := network_text w; ar_port := port;
                            ar_protocol := protocol; ar_process := process |})
    end.

Fixpoint parse_rules (rules : list ConnectionAllowRule) (rows : list string) : res (list ConnectionAllowRule) :=
  match rows with
  | [] => Ok rules
  | raw :: rest =>
      r ← parse_rule raw;
      parse_rules (match r with Some rule => append_new rules rule | None => rules end) rest
  end.

(** [parse_connection_allowlist], of lines and of a text *)
Definition parse_connection_allowlist : list string -> res (list ConnectionAllowRule) := parse_rules [].
Definition parse_allowlist_text (value : string) : res (list ConnectionAllowRule) :=
  parse_connection_allowlist (splitlines value).

Record AttestationPolicy := {
  ap_approved_dns : list string;
  ap_connection_allowlist : list ConnectionAllowRule;
  ap_schema_version : string
}.

Definition default_policy : AttestationPolicy :=
  {| ap_approved_dns := []; ap_connection_allowlist := []; ap_schema_version := POLICY_SCHEMA_VERSION |}.

(** [from_text] *)
Definition policy_from_text (approved_dns connection_allowlist : string) : res AttestationPolicy :=
  rules ← parse_allowlist_text connection_allowlist;
  Ok {| ap_approved_dns := normalize_approved_dns (split_on ","%char (replace_char (ascii_of_nat 10) ","%char approved_dns));
        ap_connection_allowlist := rules; ap_schema_version := POLICY_SCHEMA_VERSION |}.

Definition rule_dict (r : ConnectionAllowRule) : pydict :=
  [("source", VStr (ar_source r)); ("target", VStr (ar_target r)); ("port", VStr (ar_port r));
   ("protocol", VStr (ar_protocol r)); ("process", VStr (ar_process r))].

(** [ZeroTrustAttestationPolicy.to_dict] *)
Definition attestation_policy_dict (p : AttestationPolicy) : pydict :=
  [("schema_version", VStr (ap_schema_version p)); ("approved_dns", VList (VStr <$> ap_approved_dns p));
   ("connection_allowlist", VList ((fun r => VDict (rule_dict r)) <$> ap_connection_allowlist p));
   ("qualification", VStr "Configured organizational policy; matching proves policy conformance at collection time, not endpoint safety or compliance certification.")].

Section Assess.
Context `{PlatformEnv}.

(** [fingerprint] *)
Definition policy_fingerprint (p : AttestationPolicy) : res string :=
  t ← json_dumps compact_style (VDict (attestation_policy_dict p)); Ok (sha256 t).

Definition texts_list (l : list string) : pyval := VList (VStr <$> l).

(** The verdict on the resolvers, and its status and reason. *)
Definition dns_verdict (current approved : list string) : option bool * string * string :=
  let missing := filter (fun v => v ∉ current) approved in
  let unapproved := filter (fun v => v ∉ approved) current in
  match current, approved with
  | [], _ => (None, "UNKNOWN", "No current DNS resolver evidence was available.")
  | _, [] => (None, "POLICY_NOT_CONFIGURED", "Current DNS was collected, but no approved resolver policy is configured.")
  | _, _ =>
      if bool_decide (missing = []) && bool_decide (unapproved = [])
      then (Some true, "APPROVED", "Current DNS exactly matches the approved resolver policy.")
      else (Some false, "NEEDS_VALIDATION", "One or more current or required resolvers do not match policy.")
  end.

(** [assess_dns_policy] *)
Definition assess_dns_policy (observed : list string) (policy : AttestationPolicy) : res (option bool * pydict) :=
  let current := normalize_approved_dns observed in
  let approved := ap_approved_dns policy in
  let '(value, status, reason) := dns_verdict current approved in
  fingerprint ← policy_fingerprint policy;
  Ok (value, [
    ("status", VStr status); ("current_dns", texts_list current); ("approved_dns", texts_list approved);
    ("unapproved_dns", texts_list (filter (fun v => v ∉ approved) current));
    ("missing_approved_dns", texts_list (filter (fun v => v ∉ current) approved));
    ("reason", VStr reason); ("policy_fingerprint", VStr fingerprint)]).

(** What [assess_connection_policy] reads of a snapshot. *)
Record NetworkSnapshot := {
  ns_groups : list (list Connection);
  ns_connections : list Connection;
  ns_errors : list string
}.

Definition connections_of (s : NetworkSnapshot) : list Connection :=
  match ns_groups s with [] => ns_connections s | groups => concat groups end.

(** The validation state of a connection, and the rule that matched it. *)
Definition validation_state (rules : list ConnectionAllowRule) (c : Connection) : string * option ConnectionAllowRule :=
  let local := match ip_address (remote_address c) with Some a => local_only a | None => false end in
  let matched := find_first (rule_matches c) rules in
  (if local then "NOT_APPLICABLE_LOCAL" else match matched with Some _ => "APPROVED" | None => "NEEDS_VALIDATION" end,
   matched).

Definition connection_dict (rules : list ConnectionAllowRule) (c : Connection) : pydict :=
  let or_unknown v := str_or (text_or_empty v) "unknown" in
  [("process", VStr (or_unknown (cn_process_name c))); ("pid", cn_pid c);
   ("protocol", VStr (or_unknown (cn_protocol c))); ("remote_address", VStr (remote_address c));
   ("remote_port", VStr (text_or_empty (cn_remote_port c)));
   ("validation_state", VStr (validation_state rules c).1);
   ("matched_rule", VStr (match (validation_state rules c).2 with Some r => ar_source r | None => "" end))].

Definition in_state (rules : list ConnectionAllowRule) (state : string) (c : Connection) : bool :=
  String.eqb (validation_state rules c).1 state.

Definition collection_failed (s : NetworkSnapshot) : bool :=
  existsb (fun e => contains "connection collection failed" (lower e)) (ns_errors s).

(** The number of connections to validate, unless nothing can be said. *)
Definition connection_verdict (s : NetworkSnapshot) (policy : AttestationPolicy) : option Z * string * string :=
  let unvalidated := zcount (in_state (ap_connection_allowlist policy) "NEEDS_VALIDATION") (connections_of s) in
  if collection_failed s
  then (None, "UNKNOWN", "Active connection collection failed; absence of connections was not inferred.")
  else match ap_connection_allowlist policy with
    | [] => (None, "POLICY_NOT_CONFIGURED", "Connections were collected, but no endpoint allowlist policy is configured.")
    | _ =>
        if unvalidated =? 0 then (Some unvalidated, "APPROVED", "All applicable active connections matched policy.")
        else (Some unvalidated, "NEEDS_VALIDATION", str_of_Z unvalidated +:+ " active connection(s) require validation.")
    end.

(** [assess_connection_policy] *)
Definition assess_connection_policy (s : NetworkSnapshot) (policy : AttestationPolicy) : res (option Z * pydict) :=
  let rules := ap_connection_allowlist policy in
  let rows := (fun c => VDict (connection_dict rules c)) <$> connections_of s in
  let '(value, status, reason) := connection_verdict s policy in
  fingerprint ← policy_fingerprint policy;
  Ok (value, [
    ("status", VStr status); ("active_connection_count", VInt (zlen (connections_of s)));
    ("approved_connection_count", VInt (zcount (in_state rules "APPROVED") (connections_of s)));
    ("unvalidated_connection_count", VInt (zcount (in_state rules "NEEDS_VALIDATION") (connections_of s)));
    ("not_applicable_local_count", VInt (zcount (in_state rules "NOT_APPLICABLE_LOCAL") (connections_of s)));
    ("connections", VList (take 2000 rows)); ("truncated", VBool (2000 <? zlen rows));
    ("collector_errors", texts_list (ns_errors s)); ("reason", VStr reason);
    ("policy_fingerprint", VStr fingerprint)]).
End Assess.

(** ** Automatic evidence *)

Definition any_marker (markers : list string) (text : string) : bool := existsb (fun m => contains m text) markers.

(** [str(key).lower().replace("_", " ")] *)
Definition secure_boot_key (key : string) : bool :=
  let normalized := replace_char "_"%char " "%char (lower key) in
  contains "secure boot" normalized || contains "secureboot" normalized.

(** [SoftwareTrustClassification] *)
Inductive SoftwareTrustClassification :=
| APPLE_PLATFORM | MAC_APP_STORE | DEVELOPER_ID_NOTARIZED | DEVELOPER_ID_VALID | AD_HOC | UNSIGNED | INVALID | REVOKED
| UNKNOWN_SIGNER.

Section Automatic.
Context `{PlatformEnv}.

(** [visit]: the texts under keys that name Secure Boot, in the order met *)
Fixpoint secure_boot_texts (v : pyval) : list string :=
  match v with
  | VDict d => concat ((fun kv => (if secure_boot_key kv.1 then [py_str kv.2] else []) ++ secure_boot_texts kv.2) <$> d)
  | VList l => concat (take 200 (secure_boot_texts <$> l))
  | _ => []
  end.

Definition profile_verdict (summary : string) : option bool :=
  let lowered := lower summary in
  if any_marker ["full security"; "secure boot enabled"; "enabled"; "true"] lowered then Some true
  else if any_marker ["reduced security"; "permissive security"; "disabled"; "false"] lowered then Some false
  else None.

(** [parse_secure_boot_profile] *)
Definition parse_secure_boot_profile (payload : json_text) : option bool * string :=
  match payload with
  | NotJson _ => (None, "Secure Boot profile could not be decoded")
  | JsonOf document =>
      let summary := sprefix 512 (join "; " (secure_boot_texts document)) in
      match profile_verdict summary with
      | Some b => (Some b, summary)
      | None => (None, str_or summary "Secure Boot field was not reported by system_profiler")
      end
  end.

(** [" ".join(s.split())] *)
Fixpoint squeeze (pending started : bool) (s : string) : string :=
  match s with
  | EmptyString => ""
  | String c s' =>
      if is_space c then squeeze true started s'
      else (if pending && started then String " " (String c (squeeze false true s')) else String c (squeeze false true s'))
  end.

Definition policy_verdict (summary : string) : option bool :=
  let lowered := lower summary in
  if any_marker ["full security: true"; "security mode: full"; "full security enabled"] lowered then Some true
  else if any_marker ["full security: false"; "reduced security: true"; "permissive security: true";
                      "security mode: reduced"; "security mode: permissive"] lowered then Some false
  else None.

(** [parse_secure_boot_policy_text] *)
Definition parse_secure_boot_policy_text (payload : string) : option bool * string :=
  let summary := sprefix 1024 (squeeze false false payload) in
  match policy_verdict summary with
  | Some b => (Some b, summary)
  | None => (None, str_or summary "bputil did not report an explicit supported boot policy")
  end.

(** What a bounded command returned; the output of [system_profiler] is its JSON value. *)
Record CommandResult (T : Type) := { cm_returncode : Z; cm_stdout : T; cm_error : string; cm_stderr : string }.
Arguments cm_returncode {T} _.
Arguments cm_stdout {T} _.
Arguments cm_error {T} _.
Arguments cm_stderr {T} _.

(** The Secure Boot evidence of [collect_automatic_posture_evidence]: [bputil] first, [system_profiler]
    when it settled nothing; a command may raise. *)
Definition secure_boot_evidence (exception_name : exn -> string) (bputil : res (CommandResult string))
    (profiler : res (CommandResult json_text)) : option bool * string :=
  let '(value, summary) := match bputil with
    | Raise e => (None, "bputil unavailable: " +:+ exception_name e)
    | Ok r => if cm_returncode r =? 0 then parse_secure_boot_policy_text (cm_stdout r)
              else (None, "Secure Boot telemetry unavailable")
    end in
  match profiler with
  | Raise e => (value, "Secure Boot collector unavailable: " +:+ exception_name e)
  | Ok r =>
      match value with
      | Some _ => (value, summary)
      | None =>
          if cm_returncode r =? 0 then parse_secure_boot_profile (cm_stdout r)
          else (None, str_or (str_or (cm_error r) (sprefix 512 (cm_stderr r))) "system_profiler failed")
      end
  end.

(** [True if s == "enabled" else False if s == "disabled" else None] *)
Definition enabled_status (s : string) : option bool :=
  if String.eqb s "enabled" then Some true else if String.eqb s "disabled" then Some false else None.

Definition optional_bool (b : option bool) : pyval := match b with Some x => VBool x | None => VNone end.
Definition optional_int (n : option Z) : pyval := match n with Some x => VInt x | None => VNone end.

(** A collected network: its resolvers, the severities of its findings and its connections. *)
Record CollectedNetwork := {
  nc_dns_servers : list string;
  nc_severities : list string;
  nc_snapshot : NetworkSnapshot
}.

Definition grave_severity (s : string) : bool := one_of (lower s) ["high"; "critical"].

(** The values of [collect_automatic_posture_evidence], from what its collectors returned. *)
Definition automatic_values (filevault_status sip_status : string) (firewall_enabled : pyval) (secure_boot : option bool)
    (network : option CollectedNetwork) (policy : AttestationPolicy) : res pydict :=
  '(dns, connections, suspicious) ← match network with
    | None => Ok (None, None, None)
    | Some n =>
        dns ← assess_dns_policy (nc_dns_servers n) policy;
        connections ← assess_connection_policy (nc_snapshot n) policy;
        Ok (dns.1, connections.1, Some (zcount grave_severity (nc_severities n)))
    end;
  Ok [("filevault_enabled", optional_bool (enabled_status filevault_status));
      ("secure_boot_verified", optional_bool secure_boot);
      ("sip_enabled", optional_bool (enabled_status sip_status)); ("firewall_enabled", firewall_enabled);
      ("approved_dns", optional_bool dns); ("suspicious_outbound_connections", optional_int suspicious);
      ("unvalidated_network_connections", optional_int connections)].

(** [software_provenance_evidence], of the classification of each item and the number of its processes *)
Definition unknown_class (c : SoftwareTrustClassification) : bool :=
  match c with AD_HOC | UNSIGNED | INVALID | REVOKED | UNKNOWN_SIGNER => true | _ => false end.
Definition software_provenance_evidence (items : list (SoftwareTrustClassification * Z)) : pydict :=
  let count n := match items with [] => VNone | _ => VInt n end in
  [("unsigned_applications", count (zcount (fun i => match i.1 with UNSIGNED => true | _ => false end) items));
   ("unknown_developer_applications", count (zcount (fun i => unknown_class i.1) items));
   ("unvalidated_processes", count (zsum (fun i => if unknown_class i.1 then i.2 else 0) items))].

(** [persistence_report_evidence], of the coverage rows, the errors and the number of findings *)
Definition INCOMPLETE_STATES : list string := ["failed"; "error"; "unavailable"; "partial"; "degraded"; "unknown"].
Definition coverage_state (row : pyval) : option string :=
  match row with VDict d => Some (lower (py_str (dget_default (VStr "unknown") "coverage_status" d))) | _ => None end.
Definition persistence_report_evidence (report : option (list pyval * list string * Z)) : pydict :=
  match report with
  | None => [("unapproved_persistence_items", VNone); ("persistence_scan_complete", VNone)]
  | Some (coverage, errors, findings) =>
      let incomplete row := match coverage_state row with Some s => one_of s INCOMPLETE_STATES | None => false end in
      [("unapproved_persistence_items", VInt findings);
       ("persistence_scan_complete",
         VBool (negb (zlen coverage =? 0) && (zlen errors =? 0) && negb (existsb incomplete coverage)))]
  end.

(** [network_activity_evidence], of the groups of connections with their risk levels, the single
    connections and the errors of a snapshot *)
Definition network_activity_evidence (snapshot : option (list (string * list Connection) * list Connection * list string))
    (policy : AttestationPolicy) : res pydict :=
  match snapshot with
  | None => Ok [("suspicious_outbound_connections", VNone); ("unvalidated_network_connections", VNone)]
  | Some (groups, connections, errors) =>
      assessed ← assess_connection_policy
        {| ns_groups := groups.*2; ns_connections := connections; ns_errors := errors |} policy;
      Ok [("suspicious_outbound_connections",
            VInt (zsum (fun g : string * list Connection => if grave_severity g.1 then zlen g.2 else 0) groups));
          ("unvalidated_network_connections", optional_int assessed.1)]
  end.

(** [dns_policy_evidence] *)
Definition dns_policy_evidence (observed : list string) (policy : AttestationPolicy) : res (pydict * pydict) :=
  assessed ← assess_dns_policy observed policy;
  Ok ([("approved_dns", optional_bool assessed.1)], assessed.2).

(** [firewall_status_evidence] *)
Definition firewall_status_evidence (status : pyval) : pydict :=
  match status with
  | VDict d =>
      let enabled := field "enabled" VNone (field "application_firewall" (VDict []) (dget_default (VDict []) "evidence" d)) in
      let fallback := let state := upper (py_str (dget_default (VStr "UNKNOWN") "state" d)) in
        if String.eqb state "ENABLED" then VBool true else if String.eqb state "DISABLED" then VBool false else VNone in
      [("firewall_enabled", match (match enabled with VNone => fallback | v => v end) with VBool b => VBool b | _ => VNone end)]
  | _ => [("firewall_enabled", VNone)]
  end.
End Automatic.

(** Secure Boot is called verified when any text under one of its keys says enabled or true,
    reduced security next to it or not. *)
Example reduced_security_is_verified :
  (@parse_secure_boot_profile plain_env
    (JsonOf (VDict [("secure_boot", VDict [("mode", VStr "Reduced Security"); ("external_boot", VBool true)])]))).1 = Some true
  /\ (@parse_secure_boot_profile plain_env (JsonOf (VDict [("secure_boot", VStr "Reduced Security")]))).1 = Some false
  /\ policy_verdict "Security Mode: Reduced" = Some false.
Proof. by vm_compute. Qed.

(** ** Addresses read back *)

Section Splitting.
Lemma split_lacks c p : lacks c p = true -> split_on c p = [p].
Proof.
  induction p as [|x p IH]; [done|]. unfold lacks. cbn. intros [Hx Hp]%andb_true_iff.
  destruct (Ascii.eqb x c); [done|]. by rewrite IH.
Qed.

Lemma split_app c p s : lacks c p = true -> split_on c (p +:+ String c s) = p :: split_on c s.
Proof.
  induction p as [|x p IH].
  { intros _. change ("" +:+ String c s) with (String c s). cbn [split_on]. by rewrite Ascii.eqb_refl. }
  unfold lacks. cbn [all_chars]. intros [Hx Hp]%andb_true_iff.
  change (String x p +:+ String c s) with (String x (p +:+ String c s)). cbn [split_on].
  destruct (Ascii.eqb x c); [done|]. by rewrite IH.
Qed.

Lemma split_join c parts : parts <> [] -> Forall (fun p => lacks c p = true) parts ->
  split_on c (join (String c "") parts) = parts.
Proof.
  intros Hne Hp. induction Hp as [|p ps Hc Hps IH]; [done|]. destruct ps as [|q qs]; [by apply split_lacks|].
  change (split_on c (p +:+ String c (join (String c "") (q :: qs))) = p :: q :: qs).
  rewrite split_app by done. by rewrite IH.
Qed.

Lemma lacks_app c p q : lacks c (p +:+ q) = lacks c p && lacks c q.
Proof. apply all_chars_app. Qed.

Lemma lacks_join c sep parts : lacks c sep = true -> Forall (fun p => lacks c p = true) parts ->
  lacks c (join sep parts) = true.
Proof.
  intros Hs Hp. induction Hp as [|p ps Hc Hps IH]; [done|]. destruct ps as [|q qs]; [done|].
  cbn [join]. rewrite !lacks_app, Hc, Hs. exact IH.
Qed.

Lemma lacks_contains c s : lacks c s = true -> contains (String c "") s = false.
Proof.
  induction s as [|x s IH]; [done|]. unfold lacks. cbn. intros [Hx Hs]%andb_true_iff.
  apply negb_true_iff in Hx. rewrite Ascii.eqb_sym, Hx. by apply IH.
Qed.
End Splitting.

Lemma horner_snoc base l d : horner base (l ++ [d]) = horner base l * base + d.
Proof. unfold horner. by rewrite foldl_app. Qed.

Lemma digits_length base k n : length (digits_in base k n) = k.
Proof. revert n. induction k as [|k IH]; intros n; [done|]. cbn. rewrite length_app, IH. cbn. lia. Qed.

Lemma digits_range base k n : 0 < base -> Forall (fun d => 0 <= d < base) (digits_in base k n).
Proof.
  intros Hb. revert n. induction k as [|k IH]; intros n; [constructor|]. cbn. apply Forall_app. split; [done|].
  constructor; [|constructor]. by apply Z.mod_pos_bound.
Qed.

Lemma horner_digits base k n : 0 < base -> 0 <= n < base ^ Z.of_nat k -> horner base (digits_in base k n) = n.
Proof.
  intros Hb. revert n. induction k as [|k IH]; intros n Hn; [cbn in *; lia|]. cbn [digits_in].
  rewrite horner_snoc, IH.
  - pose proof (Z.div_mod n base). lia.
  - rewrite Nat2Z.inj_succ, Z.pow_succ_r in Hn by lia. split; [apply Z.div_pos; lia|]. apply Z.div_lt_upper_bound; lia.
Qed.

(** What holds of the numbers below a bound, tried one by one. *)
Lemma below_check (b : nat) (p : Z -> bool) : forallb (fun i => p (Z.of_nat i)) (seq 0 b) = true ->
  forall n, 0 <= n < Z.of_nat b -> p n = true.
Proof.
  intros Hall n Hn. rewrite forallb_forall in Hall. specialize (Hall (Z.to_nat n)). rewrite Z2Nat.id in Hall by lia.
  apply Hall, in_seq. lia.
Qed.

Lemma all_some_fmap {A B} (f : A -> option B) (e : B -> A) l : Forall (fun x => f (e x) = Some x) l ->
  all_some f (e <$> l) = Some l.
Proof. induction 1 as [|x l Hx _ IH]; [done|]. cbn. by rewrite Hx, IH. Qed.

Definition octet_ok (n : Z) : bool :=
  match parse_octet (str_of_Z n) with Some m => m =? n | None => false end
  && lacks dot (str_of_Z n) && lacks slash (str_of_Z n).

Lemma octets_ok n : 0 <= n < 256 -> octet_ok n = true.
Proof. apply (below_check 256). by vm_compute. Qed.

Lemma v4_reads_back n : 0 <= n < 2 ^ 32 -> parse_v4 (text_v4 n) = Some n.
Proof.
  intros Hn. unfold parse_v4, text_v4. pose proof (digits_range 256 4 n ltac:(lia)) as Hr.
  assert (Hok : Forall (fun d => octet_ok d = true) (digits_in 256 4 n)).
  { eapply Forall_impl; [exact Hr|]. intros d. apply octets_ok. }
  rewrite (split_join dot).
  - unfold zlen. rewrite length_fmap, digits_length. cbn [negb Z.eqb].
    rewrite all_some_fmap; [cbn [mbind option_bind]; by rewrite (horner_digits 256 4 n)|].
    eapply Forall_impl; [exact Hok|]. intros d Hd. unfold octet_ok in Hd. apply andb_true_iff in Hd as [[Hd _]%andb_true_iff _].
    destruct (parse_octet _); [|done]. f_equal. by apply Z.eqb_eq.
  - intros He. apply (f_equal length) in He. by rewrite length_fmap, digits_length in He.
  - apply Forall_fmap. eapply Forall_impl; [exact Hok|]. intros d Hd. unfold octet_ok in Hd. cbn.
    apply andb_true_iff in Hd as [[_ Hd]%andb_true_iff _]. done.
Qed.

(** *** Hextets *)

Definition hex_ok (n : Z) : bool :=
  match hex_value (hex_digit n) with Some m => m =? n | None => false end
  && forallb (fun c => negb (Ascii.eqb (hex_digit n) c)) [colon; dot; slash].

Lemma hex_digits_ok n : 0 <= n < 16 -> hex_value (hex_digit n) = Some n
  /\ Forall (fun c => Ascii.eqb (hex_digit n) c = false) [colon; dot; slash].
Proof.
  intros Hn. assert (Hok : hex_ok n = true) by (apply (below_check 16); [by vm_compute|done]).
  unfold hex_ok in Hok. apply andb_true_iff in Hok as [H1 H2]. split.
  - destruct (hex_value _); [|done]. f_equal. by apply Z.eqb_eq.
  - apply Forall_forall. intros c Hc. rewrite forallb_forall in H2. by apply negb_true_iff, H2, list_elem_of_In.
Qed.

(** A text of hexadecimal digits. *)
Fixpoint hex_text (ds : list Z) : string :=
  match ds with [] => "" | d :: ds' => String (hex_digit d) (hex_text ds') end.

Lemma hextet_digits n : 0 <= n < 65536 -> exists ds, Forall (fun d => 0 <= d < 16) ds /\ ds <> [] /\ (length ds <= 4)%nat
  /\ horner 16 ds = n /\ text_hextet n = hex_text ds.
Proof.
  intros Hn. unfold text_hextet. set (m k := (n / 16 ^ k) mod 16).
  assert (Hm : forall k, 0 <= m k < 16) by (intros k; apply Z.mod_pos_bound; lia).
  assert (Hmk : m 0 = n mod 16 /\ m 1 = (n / 16) mod 16 /\ m 2 = (n / 256) mod 16 /\ m 3 = (n / 4096) mod 16).
  { unfold m. change (16 ^ 0) with 1. rewrite Z.div_1_r. done. }
  destruct Hmk as (H0 & H1 & H2 & H3).
  destruct (n <? 16) eqn:E1; [exists [m 0]|destruct (n <? 256) eqn:E2; [exists [m 1; m 0]|
    destruct (n <? 4096) eqn:E3; [exists [m 2; m 1; m 0]|exists [m 3; m 2; m 1; m 0]]]];
    (split; [by repeat constructor; apply Hm|]); (split; [done|]); (split; [cbn; lia|]); (split; [|done]);
    unfold horner; cbn [foldl]; rewrite ?H0, ?H1, ?H2, ?H3; Z.to_euclidean_division_equations; lia.
Qed.

Lemma hex_number_digits acc ds : Forall (fun d => 0 <= d < 16) ds ->
  hex_number acc (hex_text ds) = Some (foldl (fun a d => a * 16 + d) acc ds).
Proof.
  intros Hd. revert acc. induction Hd as [|d ds Hd Hds IH]; intros acc; [done|].
  cbn [hex_text hex_number foldl]. rewrite (proj1 (hex_digits_ok d Hd)). cbn. apply IH.
Qed.

Lemma concat_length (ds : list Z) :
  String.length (hex_text ds) = length ds.
Proof. induction ds as [|d ds IH]; [done|]. cbn. by rewrite IH. Qed.

Lemma concat_lacks c ds : c ∈ [colon; dot; slash] -> Forall (fun d => 0 <= d < 16) ds ->
  lacks c (hex_text ds) = true.
Proof.
  intros Hc Hd. induction Hd as [|d ds Hd Hds IH]; [done|].
  unfold lacks in *. cbn [hex_text all_chars]. rewrite IH, andb_true_r.
  destruct (hex_digits_ok d Hd) as [_ Hne]. rewrite Forall_forall in Hne. by rewrite (Hne c Hc).
Qed.

Definition hextet (n : Z) : Prop := 0 <= n < 65536.

Lemma hextet_text n : hextet n -> parse_hextet (text_hextet n) = Some n /\ truthy (text_hextet n) = true
  /\ forall c, c ∈ [colon; dot; slash] -> lacks c (text_hextet n) = true.
Proof.
  intros (ds & Hr & Hne & Hlen & Hh & ->)%hextet_digits. unfold parse_hextet, slen. rewrite concat_length.
  assert (Ht : truthy (hex_text ds) = true).
  { by destruct ds. }
  rewrite Ht, hex_number_digits by done. split; [|split; [done|]].
  - cbn [negb orb]. destruct (Z.ltb_spec 4 (Z.of_nat (length ds))); [lia|]. by f_equal.
  - intros c Hc. by apply concat_lacks.
Qed.

Lemma hextet_zero n : hextet n -> text_hextet n = "0" -> n = 0.
Proof. intros Hn Ht. destruct (hextet_text n Hn) as [Hp _]. rewrite Ht in Hp. by injection Hp. Qed.

Lemma push_hextet acc h : hextet h -> Z.lor (Z.shiftl acc 16) h = acc * 65536 + h.
Proof.
  intros Hh. rewrite <- Z.add_nocarry_lor; [by rewrite Z.shiftl_mul_pow2|].
  apply Z.bits_inj'. intros i Hi. rewrite Z.land_spec, Z.bits_0, Z.shiftl_spec by done.
  destruct (Z.lt_ge_cases i 16) as [Hlt|Hge]; [by rewrite Z.testbit_neg_r by lia|].
  apply andb_false_iff. right. unfold hextet in Hh. destruct (Z.eq_dec h 0) as [->|Hne]; [apply Z.bits_0|].
  apply Z.bits_above_log2; [lia|]. apply Z.lt_le_trans with 16; [|done]. apply Z.log2_lt_pow2; lia.
Qed.

Lemma push_texts acc xs : Forall hextet xs ->
  push_hextets acc (text_hextet <$> xs) = Some (foldl (fun a x => a * 65536 + x) acc xs).
Proof.
  intros Hx. revert acc. induction Hx as [|x xs Hx _ IH]; intros acc; [done|]. cbn [fmap list_fmap push_hextets].
  rewrite (proj1 (hextet_text x Hx)). cbn [mbind option_bind]. by rewrite push_hextet, IH.
Qed.

(** *** The compressed form *)

(** What the loop knows after the texts [p]. *)
Definition runs_of (p : list string) (st : Z * Z * Z * Z) : Prop :=
  let '(best_start, best_len, start, len) := st in
  ((len = 0 /\ start = -1) \/ (0 < len /\ exists q, p = q ++ replicate (Z.to_nat len) "0" /\ start = zlen q))
  /\ (best_len = 0 \/ (0 < best_len /\ exists q r, p = q ++ replicate (Z.to_nat best_len) "0" ++ r /\ best_start = zlen q)).

Lemma longer_run_runs p st t : runs_of p st -> runs_of (p ++ [t]) (longer_run st (zlen p, t)).
Proof.
  destruct st as [[[bs bl] s] n]. intros [Hcur Hbest]. unfold longer_run. cbn [fst snd].
  assert (Hbest' : bl = 0 \/ (0 < bl /\ exists q r, p ++ [t] = q ++ replicate (Z.to_nat bl) "0" ++ r /\ bs = zlen q)).
  { destruct Hbest as [?|(Hl & q & r & -> & ->)]; [by left|]. right. split; [done|]. exists q, (r ++ [t]).
    split; [|done]. by rewrite <- !app_assoc. }
  destruct (String.eqb_spec t "0") as [->|Hne].
  - set (s' := if s =? -1 then zlen p else s).
    assert (Hcur' : 0 < n + 1 /\ exists q, p ++ ["0"] = q ++ replicate (Z.to_nat (n + 1)) "0" /\ s' = zlen q).
    { unfold s'. destruct Hcur as [[-> ->]|(Hn & q & -> & ->)].
      - split; [lia|]. exists p. done.
      - split; [lia|]. exists q. replace (zlen q =? -1) with false by (pose proof (zlen_nonneg q); lia).
        split; [|done]. rewrite Z2Nat.inj_add by lia. rewrite replicate_add, app_assoc. done. }
    destruct (bl <? n + 1).
    + split; [by right|]. right. destruct Hcur' as (Hn & q & Hq & Hs). split; [done|]. exists q, []. by rewrite app_nil_r.
    + split; [by right|done].
  - split; [by left|done].
Qed.

Lemma foldl_runs l : runs_of l (foldl longer_run (-1, 0, -1, 0) (zip (Z.of_nat <$> seq 0 (length l)) l)).
Proof.
  induction l as [|t l IH] using rev_ind; [by split; left|].
  rewrite length_app, seq_app, fmap_app, zip_with_app by (by rewrite length_fmap, length_seq).
  rewrite foldl_app. cbn. by apply longer_run_runs.
Qed.

(** Compressed: unchanged, or one run of zeros left out. *)
Lemma compress_form l : compress_hextets l = l \/ exists pre k post,
  l = pre ++ replicate k "0" ++ post /\ (2 <= k)%nat
  /\ compress_hextets l = (match pre with [] => [""] | _ => pre end) ++ [""] ++ (match post with [] => [""] | _ => post end).
Proof.
  unfold compress_hextets, best_run. pose proof (foldl_runs l) as Hr.
  destruct (foldl _ _ _) as [[[bs bl] s] n]. destruct Hr as [_ Hbest].
  destruct (Z.ltb_spec 1 bl) as [Hl|]; [|by left]. destruct Hbest as [?|(_ & pre & post & -> & ->)]; [lia|].
  right. exists pre, (Z.to_nat bl), post. split; [done|]. split; [lia|].
  assert (Ht : take (Z.to_nat (zlen pre)) (pre ++ replicate (Z.to_nat bl) "0" ++ post) = pre).
  { unfold zlen. rewrite Nat2Z.id. by apply take_app_length. }
  assert (Hd : drop (Z.to_nat (zlen pre + bl)) (pre ++ replicate (Z.to_nat bl) "0" ++ post) = post).
  { unfold zlen. rewrite app_assoc. apply drop_app_length'. rewrite length_app, length_replicate. lia. }
  assert (Hz : forall q : list string, (zlen q =? 0) = match q with [] => true | _ => false end).
  { intros [|x q]; [done|]. rewrite zlen_cons. pose proof (zlen_nonneg q). lia. }
  assert (He : (zlen pre + bl =? zlen (pre ++ replicate (Z.to_nat bl) "0" ++ post)) = (zlen post =? 0)).
  { assert (Hrep : zlen (replicate (Z.to_nat bl) "0") = bl) by (unfold zlen; rewrite length_replicate; lia).
    rewrite !zlen_app, Hrep. lia. }
  rewrite Ht, Hd, He, !Hz. destruct pre, post; cbn [app]; by rewrite ?app_nil_r.
Qed.

(** *** Parsing the compressed form *)

Lemma truthy_nonempty s : truthy s = true -> String.eqb s "" = false.
Proof. unfold truthy. by intros ->%negb_true_iff. Qed.

Lemma empty_inside_step i p l : truthy p = true -> l <> [] -> empty_inside i (p :: l) = empty_inside (i + 1) l.
Proof. intros Hp Hl. destruct l as [|q l]; [done|]. cbn [empty_inside]. by rewrite truthy_nonempty. Qed.

Lemma empty_inside_truthy i l : Forall (fun p => truthy p = true) l -> empty_inside i l = [].
Proof.
  intros Hl. revert i. induction Hl as [|p l Hp Hl IH]; intros i; [done|]. destruct l as [|q l]; [done|].
  rewrite empty_inside_step by done. apply IH.
Qed.

Lemma empty_inside_gap i l rest : Forall (fun p => truthy p = true) l -> rest <> [] ->
  empty_inside i (l ++ "" :: rest) = i + zlen l :: empty_inside (i + zlen l + 1) rest.
Proof.
  intros Hl Hr. revert i. induction Hl as [|p l Hp Hl IH]; intros i.
  - destruct rest as [|r rest]; [done|]. cbn. by rewrite Z.add_0_r.
  - cbn [app]. rewrite empty_inside_step by (done || by destruct l). rewrite IH, zlen_cons. f_equal; [lia|f_equal; lia].
Qed.

Definition side (l : list string) : list string := match l with [] => [""] | _ => l end.

Lemma side_nonempty l : side l <> [].
Proof. by destruct l. Qed.

Lemma zlen_side l : zlen (side l) = Z.max 1 (zlen l).
Proof. destruct l as [|x l]; [done|]. cbn [side]. rewrite zlen_cons. pose proof (zlen_nonneg l). lia. Qed.

Lemma part_at_last l : part_at l (zlen l - 1) = default "" (last l).
Proof. unfold part_at, zlen. rewrite last_lookup. do 2 f_equal. lia. Qed.

(** Where the zeros go, from the two sides of the gap. *)
Lemma layout_gap pre post : Forall (fun p => truthy p = true) pre -> Forall (fun p => truthy p = true) post ->
  zlen pre + zlen post <= 6 ->
  layout (side pre ++ "" :: side post) = Some (zlen pre, zlen post, 8 - (zlen pre + zlen post)).
Proof.
  intros Hpre Hpost Hlen. unfold layout.
  assert (Hin : match side pre ++ "" :: side post with [] => [] | _ :: rest => empty_inside 1 rest end = [zlen (side pre)]).
  { assert (Hs : forall i, empty_inside i (side post) = []).
    { intros i. destruct post as [|y post]; [done|]. by apply empty_inside_truthy. }
    destruct pre as [|x pre]; cbn [side app].
    - pose proof (empty_inside_gap 1 [] (side post)) as Hg. cbn [app] in Hg.
      rewrite Hg by (done || apply side_nonempty). by rewrite Hs.
    - apply Forall_cons in Hpre as [_ Hpre]. rewrite empty_inside_gap by (done || apply side_nonempty).
      rewrite Hs, zlen_cons. f_equal. lia. }
  rewrite Hin. assert (H0 : truthy (part_at (side pre ++ "" :: side post) 0) = match pre with [] => false | _ => true end).
  { destruct pre as [|x pre]; [done|]. apply Forall_cons in Hpre as [Hx _]. exact Hx. }
  assert (H1 : truthy (part_at (side pre ++ "" :: side post) (zlen (side pre ++ "" :: side post) - 1))
    = match post with [] => false | _ => true end).
  { rewrite part_at_last, last_app_cons, last_cons. destruct post as [|y post] using rev_ind; [done|].
    assert (Hs : side (post ++ [y]) = post ++ [y]) by (by destruct post). rewrite Hs, last_snoc.
    apply Forall_app in Hpost as [_ Hy]. apply Forall_cons_1 in Hy as [Hy _].
    transitivity true; [exact Hy|by destruct post]. }
  rewrite H0, H1, zlen_app, zlen_cons, !zlen_side.
  assert (Hpos : forall l : list string, 0 <= zlen l) by (intros l; apply zlen_nonneg). cbv zeta beta iota.
  destruct pre as [|x pre], post as [|y post]; try pose proof (Hpos pre); try pose proof (Hpos post); cbn [negb andb]; rewrite ?zlen_cons in *;
    change (zlen (@nil string)) with 0 in *; (repeat match goal with
      |- (if ?c then _ else _) = _ => destruct c eqn:?; [exfalso; lia|] end);
    f_equal; (apply f_equal2; [apply f_equal2|]); lia.
Qed.

Lemma hextets_of_texts xs pre k post : Forall hextet xs -> text_hextet <$> xs = pre ++ replicate k "0" ++ post ->
  exists a b, xs = a ++ replicate k 0 ++ b /\ pre = text_hextet <$> a /\ post = text_hextet <$> b.
Proof.
  intros Hx (a & r & -> & Hr & ->)%fmap_app_inv. symmetry in Hr. apply fmap_app_inv in Hr as (z & b & Hz & -> & ->).
  apply Forall_app in Hx as [_ Hx]. apply Forall_app in Hx as [Hz' _].
  exists a, b. split; [|done]. do 2 f_equal. symmetry in Hz. clear -Hz Hz'.
  revert k Hz. induction Hz' as [|x z Hx _ IH]; intros [|k] Hz; try done. cbn in Hz. injection Hz as Ht Hz.
  cbn. f_equal; [by apply hextet_zero|by apply IH].
Qed.

Lemma texts_truthy xs : Forall hextet xs -> Forall (fun p => truthy p = true) (text_hextet <$> xs).
Proof. intros Hx. apply Forall_fmap. eapply Forall_impl; [exact Hx|]. intros x. apply hextet_text. Qed.

Lemma texts_lack c xs : c ∈ [colon; dot; slash] -> Forall hextet xs -> Forall (fun p => lacks c p = true) (text_hextet <$> xs).
Proof. intros Hc Hx. apply Forall_fmap. eapply Forall_impl; [exact Hx|]. intros x Hh. by apply hextet_text. Qed.

Lemma horner_zeros acc k : foldl (fun a x => a * 65536 + x) acc (replicate k 0) = Z.shiftl acc (16 * Z.of_nat k).
Proof.
  revert acc. induction k as [|k IH]; intros acc; [by rewrite Z.shiftl_0_r|]. cbn [replicate foldl]. rewrite IH.
  rewrite !Z.shiftl_mul_pow2 by lia. rewrite Nat2Z.inj_succ, Z.mul_succ_r, Z.pow_add_r by lia. lia.
Qed.

Lemma with_suffix_none parts : Forall (fun p => lacks dot p = true) parts -> with_suffix parts = Some parts.
Proof.
  intros Hp. unfold with_suffix. assert (Hl : lacks dot (default "" (last parts)) = true).
  { destruct (last parts) as [p|] eqn:He; [|done]. apply last_Some_elem_of in He. rewrite Forall_forall in Hp. by apply Hp. }
  by rewrite (lacks_contains dot).
Qed.

Lemma compress_lacks c xs : c ∈ [colon; dot; slash] -> Forall hextet xs ->
  Forall (fun p => lacks c p = true) (compress_hextets (text_hextet <$> xs)).
Proof.
  intros Hc Hx. destruct (compress_form (text_hextet <$> xs)) as [->|(pre & k & post & Hp & _ & ->)]; [by apply texts_lack|].
  destruct (hextets_of_texts _ _ _ _ Hx Hp) as (a & b & -> & -> & ->).
  apply Forall_app in Hx as [Ha Hx]. apply Forall_app in Hx as [_ Hb].
  assert (Hs : forall l, Forall hextet l -> Forall (fun p => lacks c p = true) (side (text_hextet <$> l))).
  { intros [|x l] Hl; [by repeat constructor|]. by apply (texts_lack c (x :: l)). }
  apply Forall_app. split; [by apply Hs|]. apply Forall_cons. split; [done|by apply Hs].
Qed.

Lemma layout_plain parts : length parts = 8%nat -> Forall (fun p => truthy p = true) parts -> layout parts = Some (8, 0, 0).
Proof.
  intros Hlen Hp. do 8 (destruct parts as [|? parts]; [done|]). destruct parts; [|done].
  unfold layout. rewrite empty_inside_truthy by (by inversion Hp).
  repeat match goal with Hx : Forall _ (_ :: _) |- _ => apply Forall_cons in Hx as [? ?] end.
  change (zlen [s; s0; s1; s2; s3; s4; s5; s6]) with 8. unfold part_at. cbn [Z.sub].
  change (truthy (default "" ([s; s0; s1; s2; s3; s4; s5; s6] !! Z.to_nat 0))) with (truthy s).
  change (truthy (default "" ([s; s0; s1; s2; s3; s4; s5; s6] !! Z.to_nat (8 - 1)))) with (truthy s6).
  repeat match goal with Hx : truthy _ = true |- _ => rewrite Hx end. done.
Qed.

Lemma last_n_app {A} (l k : list A) : last_n (length k) (l ++ k) = k.
Proof. unfold last_n. apply drop_app_length'. rewrite length_app. lia. Qed.

(** Reading parts whose texts need no suffix. *)
Lemma parse_parts parts before after skipped : parts <> [] -> 3 <= zlen parts <= 9 ->
  Forall (fun p => lacks colon p = true) parts -> Forall (fun p => lacks dot p = true) parts ->
  layout parts = Some (before, after, skipped) ->
  parse_v6 (join ":" parts) =
    (high ← push_hextets 0 (take (Z.to_nat before) parts);
     push_hextets (Z.shiftl high (16 * skipped)) (last_n (Z.to_nat after) parts)).
Proof.
  intros Hne Hlen Hcolon Hdot Hlay. unfold parse_v6. rewrite (split_join colon) by done.
  replace (zlen parts <? 3) with false by lia. rewrite with_suffix_none by done. cbn [mbind option_bind].
  replace (9 <? zlen parts) with false by lia. by rewrite Hlay.
Qed.

Lemma side_take l rest : take (length l) (side l ++ rest) = l.
Proof. destruct l as [|x l]; [done|]. by apply take_app_length. Qed.

Lemma side_last l rest : last_n (length l) (rest ++ side l) = l.
Proof.
  destruct l as [|x l]; [|by apply last_n_app]. unfold last_n. apply drop_ge.
  change (length (@nil string)) with 0%nat. lia.
Qed.

(** The compressed texts of eight hextets are read as their number. *)
Lemma v6_parts xs : length xs = 8%nat -> Forall hextet xs ->
  parse_v6 (join ":" (compress_hextets (text_hextet <$> xs))) = Some (horner 65536 xs).
Proof.
  intros Hlen Hx.
  assert (Hcolon := compress_lacks colon xs ltac:(by apply (bool_decide_unpack _)) Hx).
  assert (Hdot := compress_lacks dot xs ltac:(by apply (bool_decide_unpack _)) Hx).
  destruct (compress_form (text_hextet <$> xs)) as [Hc|(pre & k & post & Hp & Hk & Hc)]; rewrite Hc in *.
  - assert (Hl8 : length (text_hextet <$> xs) = 8%nat) by (by rewrite length_fmap).
    rewrite (parse_parts _ 8 0 0); [|by destruct xs|unfold zlen; lia|done|done|by apply layout_plain; [|apply texts_truthy]].
    rewrite take_ge by lia. rewrite push_texts by done. cbn [mbind option_bind]. unfold last_n.
    rewrite (drop_ge _ _) by (change (Z.to_nat 0) with 0%nat; lia). cbn [push_hextets]. by rewrite Z.shiftl_0_r.
  - destruct (hextets_of_texts _ _ _ _ Hx Hp) as (a & b & -> & -> & ->).
    rewrite !length_app, length_replicate in Hlen.
    apply Forall_app in Hx as [Ha Hx]. apply Forall_app in Hx as [_ Hb].
    fold (side (text_hextet <$> a)) (side (text_hextet <$> b)) in *.
    assert (Hla : forall l, zlen (text_hextet <$> l) = zlen l) by (intros l; unfold zlen; by rewrite length_fmap).
    assert (Hab : zlen a + Z.of_nat k + zlen b = 8) by (unfold zlen; lia).
    pose proof (zlen_nonneg a). pose proof (zlen_nonneg b).
    change ([""] ++ side (text_hextet <$> b)) with ("" :: side (text_hextet <$> b)) in *.
    rewrite (parse_parts _ (zlen a) (zlen b) (8 - (zlen a + zlen b))); [| | |done|done|].
    + assert (Hn : forall l : list Z, Z.to_nat (zlen l) = length (text_hextet <$> l))
        by (intros l; unfold zlen; by rewrite Nat2Z.id, length_fmap).
      rewrite !Hn, side_take, push_texts by done.
      cbn [mbind option_bind].
      change (side (text_hextet <$> a) ++ "" :: side (text_hextet <$> b))
        with (side (text_hextet <$> a) ++ [""] ++ side (text_hextet <$> b)).
      rewrite app_assoc, side_last, push_texts by done.
      f_equal. unfold horner. rewrite !foldl_app, horner_zeros. do 3 f_equal. lia.
    + by destruct (side _).
    + rewrite zlen_app, zlen_cons, !zlen_side, !Hla. lia.
    + rewrite layout_gap, !Hla; [done|by apply texts_truthy|by apply texts_truthy|]. rewrite !Hla. lia.
Qed.

Lemma v6_reads_back n : 0 <= n < 2 ^ 128 -> parse_v6 (text_v6 n) = Some n.
Proof.
  intros Hn. unfold text_v6. rewrite v6_parts.
  - by rewrite horner_digits.
  - apply digits_length.
  - by apply digits_range.
Qed.

Lemma v6_is_not_v4 n : parse_v4 (text_v6 n) = None.
Proof.
  unfold parse_v4. rewrite split_lacks; [done|]. apply lacks_join; [done|].
  apply compress_lacks; [by apply (bool_decide_unpack _)|by apply digits_range].
Qed.

(** An address is read back from its text: two addresses never share one. *)
Theorem address_reads_back a : address_ok a -> ip_address (address_text a) = Some a.
Proof.
  destruct a as [n|n]; intros Hn; unfold ip_address, address_text.
  - by rewrite v4_reads_back.
  - by rewrite v6_is_not_v4, v6_reads_back.
Qed.

Lemma address_text_inj a b : address_ok a -> address_ok b -> address_text a = address_text b -> a = b.
Proof. intros Ha Hb He. pose proof (address_reads_back a Ha) as H. rewrite He, (address_reads_back b Hb) in H. by injection H. Qed.

(** *** What is read is an address *)

Lemma dec_digits_nonneg seen acc s n : 0 <= acc -> dec_digits seen acc s = Some n -> 0 <= n.
Proof.
  revert seen acc. induction s as [|c s IH]; intros seen acc Ha; cbn; [destruct seen; by intros [= <-]|].
  destruct (is_digit c) eqn:Hc.
  - apply IH. unfold is_digit, in_range in Hc. lia.
  - destruct (_ && _); [by apply IH|done].
Qed.

Lemma parse_octet_range s n : parse_octet s = Some n -> 0 <= n < 256.
Proof.
  unfold parse_octet. destruct (_ || _ || _ || _); [done|]. destruct (dec_digits false 0 s) as [m|] eqn:Hd; [|done]. cbn.
  destruct (Z.leb_spec m 255); [|done]. intros [= <-]. apply dec_digits_nonneg in Hd; lia.
Qed.

Lemma all_some_Forall2 {A B} (f : A -> option B) l l' : all_some f l = Some l' -> Forall2 (fun x y => f x = Some y) l l'.
Proof.
  revert l'. induction l as [|x l IH]; intros l'; cbn; [by intros [= <-]|].
  destruct (f x) eqn:Hx; [|done]. cbn. destruct (all_some f l); [|done]. intros [= <-]. by constructor; [|apply IH].
Qed.

Lemma horner_range base acc l : 0 < base -> 0 <= acc -> Forall (fun d => 0 <= d < base) l ->
  0 <= foldl (fun a d => a * base + d) acc l < (acc + 1) * base ^ zlen l.
Proof.
  intros Hb Ha Hl. revert acc Ha. induction Hl as [|d l Hd _ IH]; intros acc Ha.
  { change (zlen []) with 0. cbn. lia. }
  cbn [foldl]. specialize (IH (acc * base + d) ltac:(nia)). rewrite zlen_cons, Z.pow_add_r, Z.pow_1_r by (pose proof (zlen_nonneg l); lia).
  pose proof (zlen_nonneg l). assert (0 < base ^ zlen l) by (apply Z.pow_pos_nonneg; lia). split; [lia|].
  eapply Z.lt_le_trans; [apply IH|]. transitivity ((acc * base + base) * base ^ zlen l); [apply Z.mul_le_mono_nonneg_r; lia|]. nia.
Qed.

Lemma parse_v4_range s n : parse_v4 s = Some n -> 0 <= n < 2 ^ 32.
Proof.
  unfold parse_v4. destruct (negb _) eqn:Hz; [done|]. destruct (all_some _ _) as [l|] eqn:Hl; [|done]. intros [= <-].
  apply all_some_Forall2 in Hl. assert (Hlen : zlen l = 4).
  { apply Forall2_length in Hl. unfold zlen in *. lia. }
  assert (Hr : Forall (fun d => 0 <= d < 256) l).
  { clear -Hl. induction Hl as [|x y l l' Hxy _ IH]; constructor; [by eapply parse_octet_range|done]. }
  pose proof (horner_range 256 0 l ltac:(lia) ltac:(lia) Hr) as Hh. rewrite Hlen in Hh. exact Hh.
Qed.

Lemma hex_value_range c d : hex_value c = Some d -> 0 <= d < 16.
Proof.
  unfold hex_value. destruct (is_digit c) eqn:H1.
  { intros He. injection He as <-. unfold is_digit, in_range in H1. lia. }
  destruct (in_range 97 102 c) eqn:H2; [intros He; injection He as <-; unfold in_range in H2; lia|].
  destruct (in_range 65 70 c) eqn:H3; [intros He; injection He as <-; unfold in_range in H3; lia|done].
Qed.

Lemma hex_number_range acc s n : 0 <= acc -> hex_number acc s = Some n -> 0 <= n < (acc + 1) * 16 ^ slen s.
Proof.
  revert acc. induction s as [|c s IH]; intros acc Ha.
  { intros [= <-]. change (slen "") with 0. lia. }
  cbn [hex_number]. destruct (hex_value c) as [d|] eqn:Hd; [|done]. cbn. intros Hn. apply hex_value_range in Hd.
  apply IH in Hn; [|lia]. replace (slen (String c s)) with (slen s + 1) by (unfold slen; cbn; lia).
  rewrite Z.pow_add_r, Z.pow_1_r by (pose proof (slen_nonneg s); lia).
  assert (0 < 16 ^ slen s) by (apply Z.pow_pos_nonneg; [lia|apply slen_nonneg]). nia.
Qed.

Lemma parse_hextet_range s n : parse_hextet s = Some n -> hextet n.
Proof.
  unfold parse_hextet, hextet. destruct (negb (truthy s)); [done|]. destruct (Z.ltb_spec 4 (slen s)) as [|Hl]; [done|].
  intros Hn%hex_number_range; [|done]. split; [lia|]. eapply Z.lt_le_trans; [apply Hn|].
  rewrite Z.mul_1_l. change 65536 with (16 ^ 4). apply Z.pow_le_mono_r; lia.
Qed.

Lemma push_range acc parts n : 0 <= acc -> push_hextets acc parts = Some n -> 0 <= n < (acc + 1) * 65536 ^ zlen parts.
Proof.
  revert acc. induction parts as [|p parts IH]; intros acc Ha.
  { intros [= <-]. change (zlen []) with 0. lia. }
  cbn [push_hextets]. destruct (parse_hextet p) as [h|] eqn:Hh; [|done]. cbn [mbind option_bind].
  apply parse_hextet_range in Hh. rewrite push_hextet by done. unfold hextet in Hh. intros Hn%IH; [|lia].
  rewrite zlen_cons, Z.pow_add_r, Z.pow_1_r by (pose proof (zlen_nonneg parts); lia).
  assert (0 < 65536 ^ zlen parts) by (apply Z.pow_pos_nonneg; [lia|apply zlen_nonneg]). nia.
Qed.

Lemma empty_inside_range i l k : k ∈ empty_inside i l -> i <= k <= i + zlen l - 2.
Proof.
  revert i. induction l as [|p l IH]; intros i; [by intros ?%elem_of_nil|].
  destruct l as [|q l]; [by intros ?%elem_of_nil|]. cbn [empty_inside]. intros [Hk|Hk]%elem_of_app.
  - destruct (String.eqb p ""); [|by apply elem_of_nil in Hk]. apply list_elem_of_singleton in Hk as ->.
    rewrite !zlen_cons. pose proof (zlen_nonneg l). lia.
  - apply IH in Hk. rewrite !zlen_cons in *. lia.
Qed.

Lemma layout_range parts before after skipped : layout parts = Some (before, after, skipped) ->
  0 <= before /\ 0 <= after /\ 0 <= skipped /\ before + after + skipped = 8.
Proof.
  unfold layout. cbv zeta. set (inner := match parts with [] => [] | _ :: rest => _ end).
  assert (Hin : forall k, k ∈ inner -> 1 <= k <= zlen parts - 2).
  { intros k. unfold inner. destruct parts as [|p rest]; [by intros ?%elem_of_nil|].
    intros Hk%empty_inside_range. rewrite zlen_cons. lia. }
  destruct inner as [|skip [|]]; [| |done].
  - destruct (_ || _ || _); [done|]. intros [= <- <- <-]. lia.
  - specialize (Hin skip ltac:(by left)).
    destruct (truthy (part_at parts 0)), (truthy (part_at parts (zlen parts - 1))); cbn [negb andb];
      repeat match goal with |- (if ?c then _ else _) = _ -> _ => destruct c eqn:?; [done|] end; intros [= <- <- <-]; lia.
Qed.

Lemma parse_v6_range s n : parse_v6 s = Some n -> 0 <= n < 2 ^ 128.
Proof.
  unfold parse_v6. destruct (_ <? 3); [done|]. destruct (with_suffix _) as [parts|]; [|done]. cbn [mbind option_bind].
  destruct (9 <? _); [done|]. destruct (layout parts) as [[[before after] skipped]|] eqn:Hl; [|done]. cbn [mbind option_bind].
  apply layout_range in Hl as (Hb & Ha & Hs & Hsum).
  destruct (push_hextets 0 _) as [high|] eqn:Hh; [|done]. cbn [mbind option_bind].
  apply push_range in Hh; [|done]. rewrite Z.mul_1_l in Hh. intros Hn. apply push_range in Hn.
  2: { rewrite Z.shiftl_mul_pow2 by lia. apply Z.mul_nonneg_nonneg; [lia|]. apply Z.pow_nonneg. lia. }
  split; [lia|]. eapply Z.lt_le_trans; [apply Hn|].
  assert (H1 : high + 1 <= 65536 ^ before).
  { assert (zlen (take (Z.to_nat before) parts) <= before) by (unfold zlen; rewrite length_take; lia).
    assert (65536 ^ zlen (take (Z.to_nat before) parts) <= 65536 ^ before) by (apply Z.pow_le_mono_r; lia). lia. }
  assert (H2 : 65536 ^ zlen (last_n (Z.to_nat after) parts) <= 65536 ^ after).
  { apply Z.pow_le_mono_r; [lia|]. pose proof (length_last_n (Z.to_nat after) parts). unfold zlen. lia. }
  rewrite Z.shiftl_mul_pow2 by lia. replace (2 ^ (16 * skipped)) with (65536 ^ skipped) by (rewrite Z.pow_mul_r by lia; done).
  assert (Hp : 65536 ^ before * 65536 ^ skipped * 65536 ^ after = 2 ^ 128).
  { rewrite <- !Z.pow_add_r by lia. replace (before + skipped + after) with 8 by lia. done. }
  assert (0 < 65536 ^ skipped) by (apply Z.pow_pos_nonneg; lia). rewrite <- Hp.
  apply Z.mul_le_mono_nonneg; [nia| |apply Z.pow_nonneg; lia|done]. nia.
Qed.

Lemma ip_address_ok s a : ip_address s = Some a -> address_ok a.
Proof.
  unfold ip_address. destruct (parse_v4 s) as [n|] eqn:H4; [intros [= <-]; by eapply parse_v4_range|].
  destruct (parse_v6 s) as [n|] eqn:H6; [|done]. intros [= <-]. by eapply parse_v6_range.
Qed.

(** ** Resolvers *)

(** The address a value names, if any. *)
Definition named_by (v : string) : option address := ip_address (without_scope (strip v)).
Definition named (values : list string) (a : address) : Prop := exists v, v ∈ values /\ named_by v = Some a.

Lemma named_ok values a : named values a -> address_ok a.
Proof. intros (v & _ & Ha). by eapply ip_address_ok. Qed.

Lemma append_new_elem {A} `{EqDecision A} (l : list A) x y : y ∈ append_new l x <-> y ∈ l \/ y = x.
Proof.
  unfold append_new. destruct (bool_decide (x ∈ l)) eqn:Hx.
  - apply bool_decide_eq_true in Hx. split; [by left|]. by intros [?| ->].
  - rewrite elem_of_app, list_elem_of_singleton. done.
Qed.

Lemma normalize_elem_from out values x :
  x ∈ foldl add_resolver out values <-> x ∈ out \/ exists a, named values a /\ x = address_text a.
Proof.
  revert out. induction values as [|v values IH]; intros out; cbn [foldl].
  - split; [by left|]. intros [?|(a & (w & Hw & _) & _)]; [done|by apply elem_of_nil in Hw].
  - rewrite IH. unfold add_resolver at 1. fold (named_by v). split.
    + intros [Hx|(a & (w & Hw & Ha) & ->)].
      * destruct (named_by v) as [a|] eqn:Hv; [|by left]. apply append_new_elem in Hx as [?| ->]; [by left|].
        right. exists a. split; [|done]. exists v. split; [by left|done].
      * right. exists a. split; [|done]. exists w. split; [by right|done].
    + intros [Hx|(a & (w & Hw & Ha) & ->)].
      * left. destruct (named_by v); [|done]. apply append_new_elem. by left.
      * apply elem_of_cons in Hw as [->|Hw]; [|right; exists a; split; [by exists w|done]].
        left. rewrite Ha. apply append_new_elem. by right.
Qed.

Lemma normalize_elem values x : x ∈ normalize_approved_dns values <-> exists a, named values a /\ x = address_text a.
Proof.
  unfold normalize_approved_dns. rewrite normalize_elem_from. split; [|by right].
  intros [Hx|?]; [by apply elem_of_nil in Hx|done].
Qed.

Lemma normalize_address values a : address_ok a -> address_text a ∈ normalize_approved_dns values <-> named values a.
Proof.
  intros Ha. rewrite normalize_elem. split; [|by exists a]. intros (b & Hb & He).
  by rewrite (address_text_inj a b Ha (named_ok _ _ Hb) He).
Qed.

Lemma normalize_nil values : normalize_approved_dns values = [] <-> forall a, ~ named values a.
Proof.
  split.
  - intros Hn a Ha. assert (Hin : address_text a ∈ normalize_approved_dns values) by (apply normalize_elem; by exists a).
    rewrite Hn in Hin. by apply elem_of_nil in Hin.
  - intros Hn. destruct (normalize_approved_dns values) as [|x l] eqn:Hx; [done|].
    assert (Hin : x ∈ normalize_approved_dns values) by (rewrite Hx; by left).
    apply normalize_elem in Hin as (a & Ha & _). by destruct (Hn a).
Qed.

Lemma filter_not_in_nil (l k : list string) : filter (fun v => v ∉ k) l = [] <-> forall v, v ∈ l -> v ∈ k.
Proof.
  split.
  - intros Hf v Hv. destruct (decide (v ∈ k)) as [?|Hn]; [done|].
    assert (Hin : v ∈ filter (fun v => v ∉ k) l) by (by apply list_elem_of_filter). rewrite Hf in Hin. by apply elem_of_nil in Hin.
  - intros Hl. destruct (filter _ l) as [|v vs] eqn:Hf; [done|].
    assert (Hin : v ∈ filter (fun v => v ∉ k) l) by (rewrite Hf; by left). apply list_elem_of_filter in Hin as [Hn Hv].
    by destruct Hn; apply Hl.
Qed.

(** Every address named on one side is named on the other. *)
Definition names_within (l k : list string) : Prop := forall a, named l a -> named k a.

Lemma normalize_within l k :
  (forall x, x ∈ normalize_approved_dns l -> x ∈ normalize_approved_dns k) <-> names_within l k.
Proof.
  unfold names_within. split.
  - intros Hlk a Ha. apply normalize_address; [by eapply named_ok|]. apply Hlk, normalize_elem. by exists a.
  - intros Hlk x (a & Ha & ->)%normalize_elem. apply normalize_elem. exists a. auto.
Qed.

(** The texts a policy text approves. *)
Definition approved_texts (approved_dns : string) : list string :=
  split_on ","%char (replace_char (ascii_of_nat 10) ","%char approved_dns).

Section DnsVerdict.
Context `{PlatformEnv}.

(** The resolvers are approved exactly when the addresses in use are the addresses the
    policy names, however either side writes them; no verdict is given when no address is in
    use, or none is named, and everything else needs validation. *)
Theorem dns_verdict_is_about_addresses approved_dns rules policy observed v observation :
  policy_from_text approved_dns rules = Ok policy -> assess_dns_policy observed policy = Ok (v, observation) ->
  (v = None <-> (forall a, ~ named observed a) \/ (forall a, ~ named (approved_texts approved_dns) a))
  /\ (v = Some true <-> (exists a, named observed a) /\ forall a, named observed a <-> named (approved_texts approved_dns) a).
Proof.
  intros (parsed & _ & [= <-])%res_bind_ok. unfold assess_dns_policy. cbn [ap_approved_dns].
  fold (approved_texts approved_dns). set (k := approved_texts approved_dns).
  destruct (dns_verdict _ _) as [[v' st] why] eqn:Hd. intros (fp & _ & [= <- _])%res_bind_ok.
  rewrite <- !normalize_nil. revert Hd. unfold dns_verdict.
  assert (Hboth : (filter (fun x => x ∉ normalize_approved_dns observed) (normalize_approved_dns k) = []
      /\ filter (fun x => x ∉ normalize_approved_dns k) (normalize_approved_dns observed) = [])
    <-> forall a, named observed a <-> named k a).
  { rewrite !filter_not_in_nil, !normalize_within. unfold names_within. split.
    - intros [H1 H2] a. split; auto.
    - intros He. split; intros a; apply He. }
  assert (Hex : normalize_approved_dns observed <> [] <-> exists a, named observed a).
  { split.
    - intros Hne. destruct (normalize_approved_dns observed) as [|x l] eqn:Hx; [done|].
      assert (Hin : x ∈ normalize_approved_dns observed) by (rewrite Hx; by left).
      apply normalize_elem in Hin as (a & Ha & _). by exists a.
    - intros [a Ha] Hn. by apply (proj1 (normalize_nil observed) Hn a). }
  assert (Hk : normalize_approved_dns k = [] -> normalize_approved_dns observed <> [] -> ~ forall a, named observed a <-> named k a).
  { intros Hk [a Ha]%Hex Heq. by apply (proj1 (normalize_nil k) Hk a), Heq. }
  set (current := normalize_approved_dns observed) in *. set (approved := normalize_approved_dns k) in *.
  destruct current as [|c cs]; [intros [= <- _ _]; split; [split; [by left|done]|split; [done|by intros [?%Hex _]]]|].
  destruct approved as [|p ps]; [intros [= <- _ _]; split; [split; [by right|done]|split; [done|by intros [_ ?]; destruct Hk]]|].
  destruct (bool_decide _ && bool_decide _) eqn:Hb.
  - apply andb_true_iff in Hb as [H1%bool_decide_eq_true H2%bool_decide_eq_true].
    intros [= <- _ _]. split; [split; [done|by intros [?|?]]|]. split; [|done]. intros _. split; [by apply Hex|by apply Hboth].
  - intros [= <- _ _]. split; [split; [done|by intros [?|?]]|]. split; [done|]. intros [_ [H1 H2]%Hboth].
    by rewrite H1, H2 in Hb.
Qed.
End DnsVerdict.

(** ** Networks *)

Lemma mask_bits width prefix i : 0 <= prefix <= width -> 0 <= i ->
  Z.testbit (mask_of width prefix) i = (width - prefix <=? i) && (i <? width).
Proof.
  intros Hp Hi. unfold mask_of. replace (2 ^ width - 1) with (Z.ones width) by (rewrite Z.ones_equiv; lia).
  rewrite Z.lxor_spec, Z.shiftr_spec, !Z.testbit_ones by lia.
  repeat match goal with |- context [Z.leb ?a ?b] => destruct (Z.leb_spec a b) | |- context [Z.ltb ?a ?b] => destruct (Z.ltb_spec a b) end;
    cbn; lia || done.
Qed.

(** Masking leaves the prefix. *)
Lemma land_mask width prefix n : 0 <= n < 2 ^ width -> 0 <= prefix <= width ->
  Z.land n (mask_of width prefix) = Z.shiftl (Z.shiftr n (width - prefix)) (width - prefix).
Proof.
  intros Hn Hp. apply Z.bits_inj'. intros i Hi. rewrite Z.land_spec, mask_bits, Z.shiftl_spec by done.
  destruct (Z.leb_spec (width - prefix) i) as [Hle|Hgt].
  - rewrite Z.shiftr_spec by lia. replace (i - (width - prefix) + (width - prefix)) with i by lia.
    destruct (Z.ltb_spec i width) as [|Hge]; [by rewrite andb_true_r|]. cbn [andb]. rewrite andb_false_r. symmetry.
    destruct (Z.eq_dec n 0) as [->|Hne]; [apply Z.bits_0|]. apply Z.bits_above_log2; [lia|].
    eapply Z.lt_le_trans; [|exact Hge]. apply Z.log2_lt_pow2; lia.
  - cbn [andb]. by rewrite andb_false_r, Z.testbit_neg_r by lia.
Qed.

Lemma land_mask_idem width prefix n : 
  Z.land (Z.land n (mask_of width prefix)) (mask_of width prefix) = Z.land n (mask_of width prefix).
Proof. by rewrite <- Z.land_assoc, Z.land_diag. Qed.

Lemma land_mask_range width prefix n : 0 <= n < 2 ^ width -> 0 <= prefix <= width ->
  0 <= Z.land n (mask_of width prefix) < 2 ^ width.
Proof.
  intros Hn Hp. rewrite land_mask, Z.shiftl_mul_pow2, Z.shiftr_div_pow2 by lia.
  assert (Hpow : 0 < 2 ^ (width - prefix)) by (apply Z.pow_pos_nonneg; lia).
  pose proof (Z.mul_div_le n _ Hpow). pose proof (Z.div_pos n _ (proj1 Hn) Hpow). nia.
Qed.

Definition width_of (a : address) : Z := match a with V4 _ => 32 | V6 _ => 128 end.
Definition number_of (a : address) : Z := match a with V4 n | V6 n => n end.

(** A network is given by its prefix: no host bits are set in its address. *)
Definition network_ok (w : network) : Prop :=
  address_ok (nw_address w) /\ 0 <= nw_prefix w <= width_of (nw_address w)
  /\ Z.land (number_of (nw_address w)) (mask_of (width_of (nw_address w)) (nw_prefix w)) = number_of (nw_address w).

(** An address is in a network when it is of its kind and has its prefix. *)
Lemma in_network_prefix a w : address_ok a -> network_ok w ->
  in_network a w = true <-> width_of a = width_of (nw_address w)
    /\ Z.shiftr (number_of a) (width_of a - nw_prefix w) = Z.shiftr (number_of (nw_address w)) (width_of a - nw_prefix w).
Proof.
  intros Ha (Hw & Hp & Hm). unfold in_network.
  destruct a as [n|n], (nw_address w) as [b|b]; cbn [width_of number_of address_ok] in *; try (split; [done|by intros [? _]]).
  all: rewrite Z.eqb_eq; rewrite land_mask in Hm by done; rewrite land_mask by done; split; [intros He; split; [done|]|intros [_ He]].
  all: try (by rewrite He).
  all: rewrite <- He; rewrite Z.shiftr_shiftl_l, Z.sub_diag, Z.shiftl_0_r by lia; done.
Qed.

Lemma prefix_of_text_range width s p : 0 <= width -> prefix_of_text width s = Some p -> 0 <= p <= width.
Proof.
  intros Hw. unfold prefix_of_text. destruct (_ && _); [|done]. destruct (dec_digits false 0 s) as [n|] eqn:Hd; [|done]. cbn.
  destruct (Z.leb_spec n width); [|done]. intros [= <-]. apply dec_digits_nonneg in Hd; lia.
Qed.

Lemma prefix_of_mask_range n p : prefix_of_mask 32 n = Some p -> 0 <= p <= 32.
Proof.
  unfold prefix_of_mask. assert (Hz : 0 <= trailing_zeros n 32 <= 32).
  { unfold trailing_zeros. cbv zeta. destruct (n =? 0); [lia|]. destruct (_ =? 0); [lia|].
    pose proof (Z.log2_nonneg (Z.land (Z.lnot n) (n - 1))). lia. }
  destruct (_ =? _); [|done]. intros [= <-]. lia.
Qed.

Lemma prefix_v4_range s p : prefix_v4 s = Some p -> 0 <= p <= 32.
Proof.
  unfold prefix_v4. destruct (prefix_of_text 32 s) eqn:Ht; [intros [= <-]; by eapply prefix_of_text_range|].
  destruct (parse_v4 s); [|done]. cbn. destruct (prefix_of_mask 32 z) eqn:Hm; [intros [= <-]; by eapply prefix_of_mask_range|].
  apply prefix_of_mask_range.
Qed.

Lemma full_mask n width : 0 <= n < 2 ^ width -> 0 <= width -> Z.land n (mask_of width width) = n.
Proof. intros Hn Hw. rewrite land_mask by lia. by rewrite Z.sub_diag, Z.shiftr_0_r, Z.shiftl_0_r. Qed.

Lemma ip_network_ok s w : ip_network s = Some w -> network_ok w.
Proof.
  unfold ip_network, network_ok. destruct (split_on slash s) as [|a [|m [|]]]; try done.
  - destruct (parse_v4 a) as [n|] eqn:H4; [cbn; intros [= <-]|destruct (parse_v6 a) as [n|] eqn:H6; [cbn; intros [= <-]|done]].
    + apply parse_v4_range in H4. cbn [nw_address nw_prefix width_of number_of address_ok]. by rewrite full_mask.
    + apply parse_v6_range in H6. cbn [nw_address nw_prefix width_of number_of address_ok]. by rewrite full_mask.
  - assert (Hsix : (n ← parse_v6 a; p ← prefix_of_text 128 m;
        Some {| nw_address := V6 (Z.land n (mask_of 128 p)); nw_prefix := p |}) = Some w -> network_ok w).
    { destruct (parse_v6 a) as [n|] eqn:H6; [|done]. cbn. destruct (prefix_of_text 128 m) as [p|] eqn:Hp; [|done]. cbn.
      intros [= <-]. apply parse_v6_range in H6. apply prefix_of_text_range in Hp; [|done].
      split; [by apply land_mask_range|]. split; [done|apply land_mask_idem]. }
    destruct (parse_v4 a) as [n|] eqn:H4; [|exact Hsix]. cbn. destruct (prefix_v4 m) as [p|] eqn:Hp; [|exact Hsix]. cbn.
    intros [= <-]. apply parse_v4_range in H4. apply prefix_v4_range in Hp.
    split; [by apply land_mask_range|]. split; [done|apply land_mask_idem].
Qed.

Definition prefix_text_ok (p : Z) : bool :=
  lacks slash (str_of_Z p)
  && match prefix_of_text 128 (str_of_Z p) with Some q => q =? p | None => false end
  && ((32 <? p) || match prefix_of_text 32 (str_of_Z p) with Some q => q =? p | None => false end).

Lemma prefix_texts p : 0 <= p <= 128 -> lacks slash (str_of_Z p) = true /\ prefix_of_text 128 (str_of_Z p) = Some p
  /\ (p <= 32 -> prefix_of_text 32 (str_of_Z p) = Some p).
Proof.
  intros Hp. assert (Hok : prefix_text_ok p = true) by (apply (below_check 129); [by vm_compute|lia]).
  unfold prefix_text_ok in Hok. apply andb_true_iff in Hok as [[H1 H2]%andb_true_iff H3]. split; [done|]. split.
  - destruct (prefix_of_text 128 _); [|done]. f_equal. lia.
  - intros Hle. apply orb_true_iff in H3 as [H3|H3]; [lia|]. destruct (prefix_of_text 32 _); [|done]. f_equal. lia.
Qed.

Lemma text_v4_slash n : lacks slash (text_v4 n) = true.
Proof.
  apply lacks_join; [done|]. apply Forall_fmap. eapply Forall_impl; [by apply (digits_range 256)|].
  intros d Hd%octets_ok. unfold octet_ok in Hd. apply andb_true_iff in Hd as [_ Hd]. exact Hd.
Qed.

Lemma text_v6_slash n : lacks slash (text_v6 n) = true.
Proof. apply lacks_join; [done|]. apply compress_lacks; [by apply (bool_decide_unpack _)|by apply digits_range]. Qed.

(** A network is read back from its text. *)
Theorem network_reads_back w : network_ok w -> ip_network (network_text w) = Some w.
Proof.
  intros (Ha & Hp & Hm). unfold ip_network, network_text.
  assert (Hs : split_on slash (address_text (nw_address w) +:+ "/" +:+ str_of_Z (nw_prefix w))
    = [address_text (nw_address w); str_of_Z (nw_prefix w)]).
  { change (address_text (nw_address w) +:+ "/" +:+ str_of_Z (nw_prefix w))
      with (address_text (nw_address w) +:+ String slash (str_of_Z (nw_prefix w))).
    rewrite split_app by (destruct (nw_address w); apply text_v4_slash || apply text_v6_slash).
    rewrite split_lacks; [done|]. apply prefix_texts. destruct (nw_address w); cbn in Hp; lia. }
  rewrite Hs. destruct w as [[n|n] p]; cbn [nw_address nw_prefix address_text width_of number_of address_ok] in *.
  - rewrite v4_reads_back by done. cbn [mbind option_bind]. unfold prefix_v4.
    rewrite (proj2 (proj2 (prefix_texts p ltac:(lia)))) by lia. cbn. by rewrite Hm.
  - rewrite v6_is_not_v4, v6_reads_back by done. cbn [mbind option_bind].
    rewrite (proj1 (proj2 (prefix_texts p ltac:(lia)))). cbn. by rewrite Hm.
Qed.

(** ** Connections *)

Lemma parse_rules_ok rules rows rules' : parse_rules rules rows = Ok rules' ->
  (forall r, r ∈ rules -> exists w, network_ok w /\ ar_target r = network_text w) ->
  forall r, r ∈ rules' -> exists w, network_ok w /\ ar_target r = network_text w.
Proof.
  revert rules. induction rows as [|raw rows IH]; intros rules; cbn [parse_rules]; [by intros [= <-]|].
  intros (o & Ho & Hrest)%res_bind_ok Hr. eapply IH; [exact Hrest|]. destruct o as [rule|]; [|done].
  intros r [Hin| ->]%append_new_elem; [by apply Hr|]. unfold parse_rule in Ho. destruct (_ || _); [done|].
  apply res_bind_ok in Ho as ([[[process protocol] target] port] & _ & (wrong & _ & ([] & _ & Hw)%res_bind_ok)%res_bind_ok).
  destruct (ip_network _) as [w|] eqn:Hnet; [|done]. injection Hw as <-. exists w. split; [by eapply ip_network_ok|done].
Qed.

Section Connections.
Context `{PlatformEnv}.

Lemma local_or_matched rules c : in_state rules "NEEDS_VALIDATION" c = false ->
  (exists a, ip_address (remote_address c) = Some a /\ local_only a = true)
  \/ exists r, r ∈ rules /\ rule_matches c r = true.
Proof.
  unfold in_state, validation_state. cbn [fst]. intros Hc.
  assert (Hm : (exists a, ip_address (remote_address c) = Some a /\ local_only a = true)
    \/ find_first (rule_matches c) rules <> None).
  { destruct (ip_address (remote_address c)) as [a|]; [destruct (local_only a) eqn:Hl; [left; by exists a|]|];
      right; by intros Hf; rewrite Hf in Hc. }
  destruct Hm as [?|Hf]; [by left|right]. destruct (find_first _ rules) as [r|] eqn:Hr; [|done].
  exists r. by apply find_first_Some.
Qed.

Lemma matched_by c r w : network_ok w -> ar_target r = network_text w -> rule_matches c r = true ->
  match ip_address (remote_address c) with
  | Some a => in_network a w = true
  | None => lower (remote_address c) = lower (network_text w)
  end
  /\ allows (ar_port r) (text_or_empty (cn_remote_port c)) = true
  /\ allows (ar_protocol r) (lower (text_or_empty (cn_protocol c))) = true
  /\ (ar_process r = any_value \/ lower (ar_process r) = lower (text_or_empty (cn_process_name c))).
Proof.
  intros Hw Ht. unfold rule_matches. cbv zeta. rewrite Ht, network_reads_back by done.
  intros [[[Ha Hport]%andb_true_iff Hproto]%andb_true_iff Hproc]%andb_true_iff.
  split; [destruct (ip_address _); [done|by apply String.eqb_eq]|]. split; [done|]. split; [done|].
  apply orb_true_iff in Hproc as [Hp|Hp]; [left|right]; by apply String.eqb_eq.
Qed.

(** Approved connections: when the verdict over a parsed allowlist counts nothing to validate,
    the collection did not fail and every connection is local or allowed by a rule whose network
    holds its address - or, for a remote end that is no address, is its text - and whose port,
    protocol and process fit. *)
Theorem approved_connections_are_allowed rows rules policy s st why :
  parse_connection_allowlist rows = Ok rules -> ap_connection_allowlist policy = rules ->
  connection_verdict s policy = (Some 0, st, why) ->
  collection_failed s = false /\ rules <> []
  /\ Forall (fun c =>
       (exists a, ip_address (remote_address c) = Some a /\ local_only a = true)
       \/ exists r w, r ∈ rules /\ network_ok w /\ ar_target r = network_text w
            /\ match ip_address (remote_address c) with
               | Some a => in_network a w = true
               | None => lower (remote_address c) = lower (network_text w)
               end
            /\ allows (ar_port r) (text_or_empty (cn_remote_port c)) = true
            /\ allows (ar_protocol r) (lower (text_or_empty (cn_protocol c))) = true
            /\ (ar_process r = any_value \/ lower (ar_process r) = lower (text_or_empty (cn_process_name c))))
     (connections_of s).
Proof.
  intros Hparse Hrules Hv. unfold connection_verdict in Hv. cbv zeta in Hv. rewrite Hrules in Hv.
  destruct (collection_failed s); [done|]. split; [done|].
  assert (Hne : rules <> []) by (intros ->; done). split; [done|].
  assert (Hz : zcount (in_state rules "NEEDS_VALIDATION") (connections_of s) = 0).
  { destruct rules; [done|]. destruct (_ =? 0) eqn:Hz; [by apply Z.eqb_eq|]. by injection Hv. }
  clear Hv. induction (connections_of s) as [|c l IH]; [constructor|]. rewrite zcount_cons in Hz.
  assert (Hnn : 0 <= zcount (in_state rules "NEEDS_VALIDATION") l) by apply zlen_nonneg.
  destruct (in_state rules "NEEDS_VALIDATION" c) eqn:Hc; [lia|]. constructor; [|apply IH; lia].
  destruct (local_or_matched rules c Hc) as [Hl|(r & Hin & Hm)]; [by left|]. right.
  destruct (parse_rules_ok [] rows rules Hparse ltac:(intros ? []%elem_of_nil) r Hin) as (w & Hw & Ht).
  exists r, w. repeat (split; [done|]). by apply matched_by.
Qed.
End Connections.

Definition curl_to (ip : string) : Connection :=
  {| cn_remote_address := VStr ip; cn_remote_port := VInt 443; cn_protocol := VStr "TCP";
     cn_process_name := VStr "curl"; cn_pid := VInt 7 |}.

Example connection_ex :
  match parse_allowlist_text ("# resolvers" +:+ String (ascii_of_nat 10) "" +:+ "Curl|TCP|8.8.0.0/16|443" +:+ String (ascii_of_nat 10) "" +:+ "[2001:db8::1]:53") with
  | Ok rules =>
      let verdict ips := @connection_verdict plain_env {| ns_groups := [curl_to <$> ips]; ns_connections := []; ns_errors := [] |}
        {| ap_approved_dns := []; ap_connection_allowlist := rules; ap_schema_version := POLICY_SCHEMA_VERSION |} in
      (ar_target <$> rules, (verdict ["8.8.8.8"; "127.0.0.1"; "fe80::1%en0"]).1.1, (verdict ["8.8.8.8"; "9.9.9.9"]).1)
      = (["8.8.0.0/16"; "2001:db8::1/128"], Some 0, (Some 1, "NEEDS_VALIDATION"))
  | Raise _ => False
  end.
Proof. by vm_compute. Qed.
